(* ===== verification/_CoqProject ===== *)
-Q . S2P
Prelude.v
Container.v
UidGenerator.v
PaaDynamic.v
Itti.v
TimerService.v
AtomicMap.v
PfcpNode.v
UpNodes.v
UpNodesLaws.v
Stream.v
PfcpMsg.v
PfcpStack.v
GtpTlv.v
GtpScalar.v
GtpIdentity.v
GtpQos.v
GtpLocation.v
GtpAddress.v
GtpOptions.v
GtpIe.v
GtpCore.v
Pco.v
GtpMsg.v
GtpTermination.v
Gtpv2cStack.v
GtpContainer.v
GtpMessages.v
GtpClassLaws.v
GtpEndToEnd.v
PfcpTlv.v
PfcpScalar.v
PfcpElements.v
PfcpTunnel.v
PfcpFilters.v
PfcpIe.v
PfcpLoad.v
PfcpTables.v
PfcpContainer.v
Handler.v
AppMsg.v
PgwContext.v
PgwProcedure.v
PgwApp.v
PgwExample.v
PgwLaws.v
PgwSpec.v
PgwAttach.v
SgwContext.v
SgwProcedure.v
SgwApp.v
SgwExample.v
SgwLaws.v
SgwSpec.v
MsgElements.v
SgwAttach.v
SgwAnswer.v
GtpTask.v
S11Task.v
SgwS5S8Task.v
PgwS5S8Task.v
TaskLaws.v
SxabTask.v
SxabLaws.v
Config.v
Process.v
ProcessExample.v
ProcessLaws.v
