(* ===== verification/Prelude.v ===== *)
(** * The control plane of an SPGW: a verification development

    The program is the control plane of an LTE serving and packet gateway
    (SGW-C and PGW-C).  Tasks talk to each other through the inter-task
    interface (ITTI: mailboxes and timers); to the MME and between SGW and PGW
    they speak GTPv2-C over UDP; to the user plane they speak PFCP.  Below the
    applications lie a transaction layer and a codec for each of the two
    protocols, the generators of TEIDs and transaction ids, and the pools the
    PGW takes the addresses of its users from.  This development models that
    lower half, from the octets of a datagram up to the transaction layer and
    the containers of the messages of both protocols, the table of user-plane
    nodes, and the two applications: the PGW with its address pools, the
    negotiation of protocol options with the UE, its sessions and the procedures
    that open, change and close them; and the SGW, which stands between the MME
    and the PGW and sends their requests and answers on.

    ** Files, and the sources they model (under [src/src/])

    - [Prelude]: outcomes of a call ([Val], [Throw], [UB], [Diverge]), unsigned and
      two's-complement integers, byte order, bit fields.
    - [UidGenerator]: [common/utils/uint_generator.hpp].
    - [PaaDynamic]: [oai_spgwc/pgw_paa_dynamic.hpp], and
      [pgw_app::apply_config] of [pgw_app.cpp], which fills the pools.
    - [Itti]: [itti/itti.cpp], [itti.hpp]: mailboxes, timers, and the timer
      thread and the calls of [timer_setup] as state machines interleaved with
      the other threads, each access outside a lock a step of its own.
    - [TimerService]: the interface of the timers for the protocol stacks, with
      the ITTI timers as its instance.
    - [AtomicMap]: the interface of [folly::AtomicHashMap].
    - [PfcpNode]: node ids and F-SEIDs of [common/3gpp_29.244.h].
    - [UpNodes]: [oai_spgwc/PfcpUpNodes.cpp] and [pgw_pfcp_association.cpp]:
      configured and associated user-plane nodes, their heartbeats, selection;
      [UpNodesLaws] has the theorems.
    - [Stream]: [std::istream]/[std::ostream] as the codecs use them.
    - [PfcpMsg]: header and element list of [pfcp/3gpp_29.244.hpp].
    - [PfcpStack]: [pfcp/pfcp.cpp], [pfcp.hpp]: [pfcp_l4_stack].
    - [GtpTlv], [GtpScalar], [GtpIdentity], [GtpQos], [GtpLocation],
      [GtpAddress], [GtpOptions]: the information elements of
      [gtpv2c/3gpp_29.274.hpp] with their core types of
      [common/3gpp_29.274.h]; a record per class, one definition per
      constructor and method.
    - [GtpIe]: the elements as one type, bearer contexts, and the factory of
      [gtpv2c/3gpp_29.274.cpp].
    - [GtpCore]: constructors from, and conversions to, the core types.
    - [Pco]: [oai_spgwc/pgw_pco.cpp], on the PCO values of [GtpOptions].
    - [GtpMsg]: [gtpv2c_msg_header] and [gtpv2c_msg].
    - [GtpTermination]: the fuel of the GTPv2-C parser is no restriction.
    - [Gtpv2cStack]: [gtpv2c/gtpv2c.cpp], [gtpv2c.hpp]: [gtpv2c_stack].
    - [Container]: members guarded by a presence flag, the building block of
      the message containers.
    - [GtpContainer]: the containers of [gtpv2c/msg_gtpv2c.hpp] as tables of
      members and overloads with their interpretation; [to_core_type] into
      them; the constructors of messages from them.
    - [GtpMessages]: the tables: every class of [gtpv2c/msg_gtpv2c.hpp] and
      every constructor of [gtpv2c_msg] in [gtpv2c/3gpp_29.274.cpp].
    - [GtpClassLaws]: the laws of all the classes (types, get and set, copies).
    - [GtpEndToEnd]: from the container of one node to that of its peer.
    - [PfcpTlv], [PfcpScalar], [PfcpElements], [PfcpTunnel], [PfcpFilters]: the
      information elements of [pfcp/3gpp_29.244.hpp] with their core types of
      [common/3gpp_29.244.h], each class with the instance of [PfcpCodec] that
      says what its values become, or with the lemma that says why there is none.
    - [PfcpIe]: the elements as one type, the grouped elements, the factory of
      [pfcp/3gpp_29.244.cpp].
    - [PfcpLoad]: [pfcp_msg::load_from], what it makes of what was sent, and
      that it ends.
    - [PfcpTables]: every class of [pfcp/msg_pfcp.hpp], the constructors of the
      grouped elements and those of [pfcp_msg], as tables.
    - [PfcpContainer]: their interpretation, [to_core_type], and from the
      container of one node to that of its peer.
    - [Handler]: the handlers of an application as a monad of state and
      outcomes, with the rules the proofs about them use.
    - [AppMsg]: the messages of [common/msg/] that the applications exchange with
      the interface tasks, and the conversions of
      [common/utils/3gpp_conversions.cpp].
    - [PgwContext]: [oai_spgwc/pgw_context.hpp] and the operations of
      [pgw_context.cpp]; the tables of [pgw_app].
    - [PgwProcedure]: [oai_spgwc/pgwc_procedure.cpp].
    - [PgwApp]: the handlers of [pgw_context.cpp] and [pgw_app.cpp], and
      [pgw_app_task].
    - [PgwExample]: messages of one session, for the witnesses.
    - [PgwLaws], [PgwSpec], [PgwAttach]: the sessions of the PGW: the invariant
      and the abstract table, the end of a session, its beginning.
    - [SgwContext]: [oai_spgwc/sgwc_eps_bearer_context.hpp] and the operations
      of its [.cpp] and of [sgwc_pdn_connection.cpp]; the tables of [sgwc_app].
    - [SgwProcedure]: [oai_spgwc/sgwc_procedure.cpp].
    - [SgwApp]: the handlers of [sgwc_eps_bearer_context.cpp] and of
      [sgwc_app.cpp], and [sgwc_app_task].
    - [SgwExample]: messages of one session, for the witnesses.
    - [SgwLaws], [SgwSpec]: the sessions of the SGW: the invariants (of the
      connections, and of the directory of subscribers by IMSI and S11 TEID) and
      the abstract table, the end of a session.
    - [MsgElements]: what a [get] finds in a message made by a handler.
    - [SgwAttach], [SgwAnswer]: the request of an MME sent on to the PGW, and
      the answer sent back.
    - [GtpTask], [S11Task], [SgwS5S8Task], [PgwS5S8Task]:
      [oai_spgwc/sgwc_s11.cpp], [sgwc_s5s8.cpp] and [pgw_s5s8.cpp], the tasks
      between a GTPv2-C stack and an application: what they write alike, then
      each of them.
    - [TaskLaws]: a request and its answer across two tasks and their stacks.
    - [SxabTask]: [oai_spgwc/pgwc_sxab.cpp], the task between the PFCP stack, the
      table of user-plane nodes and the PGW.
    - [SxabLaws]: session requests and their answers, associations and silent
      nodes, through the octets and the timers.
    - [Config]: what [oai_spgwc/pgw_config.cpp] computes: the networks of the
      pools and the user-plane nodes of a request.
    - [Process]: what [oai_spgwc/main.cpp] puts together: the two applications,
      the four interfaces, their mailboxes and what they share, as one state.
    - [ProcessExample], [ProcessLaws]: an attach and a detach through the sockets,
      and where the sessions of the process come from and go to.

    ** Conventions

    An object is a record, a method a function from the object to its result
    and the object afterwards.  [Throw] is an exception; [UB] is an operation
    the language gives no meaning to: an index out of an array, an [end()]
    iterator or a null pointer dereferenced, an indeterminate value used, a
    signed overflow; [Diverge] is a call that never returns, and what a
    function with fuel gives when the fuel is used up.  Where memory is
    left uninitialised and the program goes on, its content is a parameter
    ([junk]; [heap] for one PFCP element, [memory] for nested ones).  Unsigned arithmetic wraps at its width ([wrapu]).  The host is
    little endian and bit fields are laid out from the low bit (x86-64).

    A method that holds a lock throughout is one step.  Interleavings are
    explicit: sequences of events ([itti_run], [pool_run], [uid_run],
    [pfcp_run], [gtp_reach], [up_run], [pgw_run], [sgw_run], [process_run]).  The objects of an application
    are shared through pointers: they live in heaps, and a pointer is the key of
    one.

    What lies outside the repository is a parameter: [folly::AtomicHashMap] is
    the class [AtomicMap], with its documented laws; [std::hash], the order of a
    [std::set] of pointers ([pick]) and socket addresses are arguments of
    [UpNodes] and [SxabTask]; what a handler of the PGW sees of the user-plane nodes and of the
    other tasks is an [environment].  Between the files the
    same style is used: the stacks are proved against [TimerService] and
    [FreshIds], the messages against [GtpCodec].

    ** Fuel

    [get_uid] loops with one round more than there are ids in use, which is
    enough whenever an id is free ([get_uid_total]); when none is, no fuel is
    ([get_uid_full_diverges]); the same holds of the TEIDs of the PGW
    ([generate_teid_total]); the search of the SGW has two rounds more than there
    are TEIDs in use, which is always enough ([teid_after_total]).  The bitmap search has one round per word and
    bit.  [string_to_dotted] and [dotted_to_string] have as many rounds as
    their counters have values.  The loop over PCO containers has one round
    per octet ([pco_load_loop_fuel]), and so has the one over IPCP options,
    where fuel used up means an endless loop ([ipcp_terminates_iff]).  The GTPv2-C factory and the message
    loop take any fuel beyond the octets of the datagram
    ([msg_load_terminates]), and so do those of PFCP ([pfcp_load_terminates]).

    ** What the theorems show

    - Refinement: the timer service implements a table of armed timers under
      every interleaving with the timer thread in which the unlocked increments
      of [timer_id] do not overlap ([timer_id_race] has one in which they do);
      a pool implements a lease table for addresses of its range; the generator
      implements an allocator of fresh ids.
    - Round trips: headers of both protocols, every GTPv2-C element and
      bearer context, values from one application to the other, whole
      messages, access point names, an address taken and given back.  The
      composition of all of them, container to container, for every GTPv2-C
      message and every PFCP message the program can build, as far as its
      members are among those the program conveys ([sendable], [container_ok];
      the theorems say which are not).
    - Containers: what [set] stores [get] reads, members keep their types
      whatever a peer sends, copies are copies (but for one assignment, of which the
      theorem says what it copies).
    - Transactions: the outcome of a reception on every branch, with the whole
      state it leaves for GTPv2-C, the schedule of retransmissions, the
      restoration of the tables by an answer, the safety of the PFCP layer in
      every run of users that keep the rules it relies on ([op_guard]).
    - Protocol options: the answer to every well-formed IPCP packet and to a
      whole PCO, down to the octets GTPv2-C conveys.
    - User-plane nodes: an invariant of every run, what becomes of the configured
      nodes included, and the outcome of setup requests and of failed heartbeats
      on every branch.
    - The PGW: every message is a step of an abstract table of sessions, with
      which its tables and objects agree; what an attach sends, stores and
      answers, from the request to the response; what a detach gives back.
    - The SGW: the same for its table of connections, under every interleaving
      of requests, answers and silences of the PGW; which connection a request
      closes and whose session it opens; the tables that lead to a subscriber
      agree; a request reaches the PGW
      with the elements the MME asked for, and the answer comes back with the
      user plane of the PGW for the eNodeB.
    - The interface tasks: what an application gives to the task of its
      interface comes to the application of the peer, through the octets of the
      datagram, and the answer comes back under the transaction of the request.
      On Sxab a user-plane node that asks for an association gets its answer and
      enters the table, and one that stays silent leaves it.
    - The process: however datagrams, turns of the tasks and time-outs are
      interleaved, no session is there that no datagram has asked for, and none
      of the PGW goes before the user plane has answered its deletion; and, as an
      example, one session from the first octet of the MME to the last.
    - The configuration: the network of a pool is the smallest that holds it.
    - Termination of both parsers on any octets, but for names that hang their
      own conversion.
    - Defects: the theorems named in the findings show, from the same
      definitions, the behaviours the program does not mean to have.  The
      main ones: a GTPv2-C request that no peer answers, or whose answer
      crosses the expiry of its clean-up timer, ends in a dereferenced [end()];
      elements received from the network can make the parser loop for ever or
      write out of its arrays; dynamic IPv6 and dual-stack addresses are never
      given; timers with equal deadlines are lost, two timers can get one id, and
      a timer that was removed can still be signalled; a user-plane node that was
      lost is still selected, one that recovers is never associated again, and one
      the PGW has asked itself is never selected;
      eight PFCP elements do not reach the peer as they were sent, and a received
      usage reporting rule is converted by a function that never returns; the
      PGW releases the bearers of a session through an iterator it has
      invalidated, which is undefined behaviour; an answer
      of the PGW of another type than its request is handled through a null
      pointer, and a second collision of the sessions of a subscriber is dropped;
      a datagram with a malformed name ends the thread that reads it with an
      exception that is not caught; messages of other types fall through to the
      handlers of a Create Session Response and of an association; whether an
      address is one of a pool is decided on its octets in the wrong order.

    ** What is not modelled

    Sockets, logging, configuration files, command line, process and thread
    set-up (effects outside the program).  In [Process] a handler is one step:
    handlers of two tasks that touch the table of user-plane nodes or the timers
    at the same time are not interleaved within; [timer_setup] is there the
    function it is when no other call overlaps it ([timer_setup_sequential]).  The transaction
    layer [PfcpStack] sees an element as its length and octets, which is what
    [PfcpLoad.wire_of] makes of the elements of [PfcpIe].  The association requests of
    [TriggerAssociation] are compiled out of the program.

    ** Plan

    What is left: the attach of [ProcessExample] for every request and every state
    that allows it, by composing the theorems on the applications
    ([create_session_sent_on], [create_session_accepted],
    [establishment_answered], [create_session_answered]) with those on the
    interfaces ([s11_request_answered], [s5s8_exchange], [sx_session_exchange]). *)
From Stdlib Require Import ZArith Lia.
From stdpp Require Import base gmap numbers tactics list.
Open Scope Z_scope.

(** ** Outcomes of a C++ call

    [Val a]: the call returned [a]; [Throw e]: it left with exception [e];
    [UB]: it performed an operation the language leaves undefined
    (an [end()] iterator dereferenced, an index out of an array);
    [Diverge]: it never returns, or the model ran out of fuel. *)
Inductive result (E A : Type) : Type :=
| Val (a : A)
| Throw (e : E)
| UB
| Diverge.
Arguments Val {E A} a.
Arguments Throw {E A} e.
Arguments UB {E A}.
Arguments Diverge {E A}.

#[export] Instance result_ret {E} : MRet (result E) := fun A a => Val a.
#[export] Instance result_bind {E} : MBind (result E) := fun A B k c =>
  match c with
  | Val a => k a
  | Throw e => Throw e
  | UB => UB
  | Diverge => Diverge
  end.

Lemma bind_Val_inv {E A B} (c : result E A) (k : A -> result E B) b :
  c ≫= k = Val b -> exists a, c = Val a /\ k a = Val b.
Proof. destruct c; simpl; intros H; [eauto | discriminate..]. Qed.

Lemma bind_Diverge_inv {E A B} (c : result E A) (k : A -> result E B) :
  c ≫= k = Diverge -> c = Diverge \/ exists a, c = Val a /\ k a = Diverge.
Proof. destruct c; simpl; intros H; [eauto | discriminate | discriminate | eauto]. Qed.

(** ** Machine integers

    An unsigned w-bit object is a [Z] in [0, 2^w); a store wraps. *)
Definition wrapu (w z : Z) : Z := z mod 2 ^ w.
Abbreviation u8 := (wrapu 8).
Abbreviation u16 := (wrapu 16).
Abbreviation u32 := (wrapu 32).
Abbreviation u64 := (wrapu 64).

(** Conversion to [int] (32-bit two's complement). *)
Definition int32 (z : Z) : Z := (z + 2 ^ 31) mod 2 ^ 32 - 2 ^ 31.

Definition fits (w z : Z) : Prop := 0 <= z < 2 ^ w.

#[export] Instance fits_dec w z : Decision (fits w z).
Proof. unfold fits. apply _. Defined.

Lemma wrapu_fits w z : 0 <= w -> fits w (wrapu w z).
Proof. intros Hw. apply Z.mod_pos_bound. lia. Qed.

Lemma wrapu_id w z : fits w z -> wrapu w z = z.
Proof. intros H. by apply Z.mod_small. Qed.

Lemma wrapu_succ_ne w z :
  0 < w -> fits w z -> wrapu w (z + 1) <> z.
Proof.
  intros Hw [H0 H1] E. unfold wrapu in E.
  assert (2 <= 2 ^ w) by (change 2 with (2 ^ 1) at 1; apply Z.pow_le_mono_r; lia).
  destruct (decide (z + 1 = 2 ^ w)) as [Hz|Hz].
  - rewrite Hz, Z.mod_same in E by lia. lia.
  - rewrite Z.mod_small in E by lia. lia.
Qed.

Lemma int32_id z : - 2 ^ 31 <= z < 2 ^ 31 -> int32 z = z.
Proof. intros H. unfold int32. rewrite Z.mod_small; lia. Qed.

(** ** Bytes, little and big endian

    The host is little endian (x86): the object representation of a w-bit
    integer is [le_bytes]; [htons]/[htobe32]/... followed by a raw write is
    [be_bytes]. *)
Fixpoint le_bytes (n : nat) (z : Z) : list Z :=
  match n with
  | O => []
  | S n => z mod 256 :: le_bytes n (z / 256)
  end.

Fixpoint le_val (l : list Z) : Z :=
  match l with
  | [] => 0
  | b :: l => b + 256 * le_val l
  end.

Definition be_bytes (n : nat) (z : Z) : list Z := rev (le_bytes n z).
Definition be_val (l : list Z) : Z := le_val (rev l).

Definition byte_list (l : list Z) : Prop := Forall (fits 8) l.

Lemma length_le_bytes n z : length (le_bytes n z) = n.
Proof. revert z; induction n; intros; simpl; [done | by rewrite IHn]. Qed.

Lemma length_be_bytes n z : length (be_bytes n z) = n.
Proof. unfold be_bytes. by rewrite length_rev, length_le_bytes. Qed.

Lemma le_bytes_byte n z : byte_list (le_bytes n z).
Proof.
  revert z; induction n; intros; constructor; [|apply IHn].
  apply (Z.mod_pos_bound z 256). lia.
Qed.

Lemma be_bytes_byte n z : byte_list (be_bytes n z).
Proof. apply Forall_rev, le_bytes_byte. Qed.

Lemma le_val_bytes n z : le_val (le_bytes n z) = z mod 2 ^ (8 * Z.of_nat n).
Proof.
  revert z; induction n; intros z; simpl.
  - change (2 ^ (8 * Z.of_nat 0)) with 1. by rewrite Z.mod_1_r.
  - rewrite IHn.
    replace (8 * Z.of_nat (S n)) with (8 + 8 * Z.of_nat n) by lia.
    rewrite Z.pow_add_r by lia. change (2 ^ 8) with 256.
    rewrite Z.rem_mul_r by lia. lia.
Qed.

Lemma le_bytes_val l : byte_list l -> le_bytes (length l) (le_val l) = l.
Proof.
  induction 1 as [|b l Hb Hl IH]; simpl; [done|].
  unfold fits in Hb. change (2 ^ 8) with 256 in Hb.
  f_equal.
  - rewrite Z.mul_comm, Z.mod_add by lia. by apply Z.mod_small.
  - rewrite Z.mul_comm, Z.div_add by lia. by rewrite Z.div_small.
Qed.

Lemma be_val_bytes n z : fits (8 * Z.of_nat n) z -> be_val (be_bytes n z) = z.
Proof.
  intros H. unfold be_val, be_bytes. rewrite rev_involutive, le_val_bytes.
  by apply Z.mod_small.
Qed.

Lemma be_bytes_val l : byte_list l -> be_bytes (length l) (be_val l) = l.
Proof.
  intros H. unfold be_val, be_bytes.
  rewrite <- (length_rev l), le_bytes_val, rev_involutive; [done|].
  by apply Forall_rev.
Qed.

Lemma le_val_fits l : byte_list l -> fits (8 * Z.of_nat (length l)) (le_val l).
Proof.
  intros H. rewrite <- (le_bytes_val l) at 2 by done.
  rewrite le_val_bytes. apply Z.mod_pos_bound. lia.
Qed.

Lemma be_val_fits l : byte_list l -> fits (8 * Z.of_nat (length l)) (be_val l).
Proof.
  intros H. unfold be_val. rewrite <- length_rev. apply le_val_fits.
  by apply Forall_rev.
Qed.

(** [be32toh] and [htobe32] on a little-endian host: reverse the four bytes. *)
Definition be32toh (z : Z) : Z := be_val (le_bytes 4 z).
Abbreviation htobe32 := be32toh.

Lemma be32toh_fits z : fits 32 (be32toh z).
Proof.
  pose proof (be_val_fits (le_bytes 4 z) (le_bytes_byte 4 z)) as H.
  rewrite length_le_bytes in H. exact H.
Qed.

Lemma be32toh_involutive z : fits 32 z -> be32toh (be32toh z) = z.
Proof.
  intros H. unfold be32toh.
  assert (le_bytes 4 (be_val (le_bytes 4 z)) = rev (le_bytes 4 z)) as ->.
  { unfold be_val. rewrite <- (le_bytes_val (rev (le_bytes 4 z))) at 2.
    - by rewrite length_rev, length_le_bytes.
    - apply Forall_rev, le_bytes_byte. }
  unfold be_val. rewrite rev_involutive, le_val_bytes. by apply Z.mod_small.
Qed.

(** ** Bit fields

    [struct { uint8_t a : w0; uint8_t b : w1; ... }] inside a union with a
    [uint8_t]: the first field declared holds the low bits (x86 ABI).
    [bf_pack] builds the byte from the fields, low field first, each store
    truncated to its width; [bf_field] reads a field back. *)
Definition bf_field (off w b : Z) : Z := (b / 2 ^ off) mod 2 ^ w.

Fixpoint bf_pack (l : list (Z * Z)) : Z :=
  match l with
  | [] => 0
  | (w, v) :: l => v mod 2 ^ w + 2 ^ w * bf_pack l
  end.

Definition bf_width (l : list (Z * Z)) : Z := foldr (fun f n => f.1 + n) 0 l.

Lemma bf_field_fits off w b : 0 <= w -> fits w (bf_field off w b).
Proof. intros. apply Z.mod_pos_bound. lia. Qed.

Lemma bf_field_pack_0 w v l :
  0 <= w -> bf_field 0 w (bf_pack ((w, v) :: l)) = wrapu w v.
Proof.
  intros Hw. unfold bf_field, wrapu. simpl. rewrite Z.div_1_r.
  rewrite Z.mul_comm, Z.mod_add by lia. by rewrite Zmod_mod.
Qed.

Lemma bf_field_pack_skip off w w0 v0 l :
  0 <= w0 <= off ->
  bf_field off w (bf_pack ((w0, v0) :: l)) = bf_field (off - w0) w (bf_pack l).
Proof.
  intros Hw. unfold bf_field. simpl. f_equal.
  replace (2 ^ off) with (2 ^ w0 * 2 ^ (off - w0)) by (rewrite <- Z.pow_add_r by lia; f_equal; lia).
  rewrite <- Z.div_div by lia. f_equal.
  rewrite Z.mul_comm, Z.div_add by lia.
  rewrite Z.div_small; [done|]. apply Z.mod_pos_bound. lia.
Qed.

Lemma bf_pack_fits l :
  Forall (fun f => 0 <= f.1) l -> fits (bf_width l) (bf_pack l).
Proof.
  induction 1 as [|[w v] l Hw Hl IH]; simpl in *; [done|].
  unfold fits in *.
  assert (0 <= bf_width l).
  { clear IH. induction Hl as [|[w' v'] l' H' Hl IH]; simpl in *; [done|].
    unfold bf_width in *. simpl in *. lia. }
  change (bf_width ((w, v) :: l)) with (w + bf_width l).
  rewrite Z.pow_add_r by lia.
  pose proof (Z.mod_pos_bound v (2 ^ w) ltac:(lia)). nia.
Qed.

(** Read the fields of a packed byte back; [bf_solve] closes the range side
    conditions. *)
Ltac bf_simpl :=
  repeat first
    [ rewrite bf_field_pack_0 by lia
    | rewrite bf_field_pack_skip by lia;
      match goal with |- context [bf_field ?e _ _] =>
        let e' := eval vm_compute in e in change e with e' end ];
  repeat rewrite wrapu_id by done.

(** ** Lists *)

(** A [switch] over a list of cases. *)
Definition mem (z : Z) (l : list Z) : bool := existsb (Z.eqb z) l.

Lemma take_drop_app {A} (l k : list A) : take (length l) (l ++ k) = l /\ drop (length l) (l ++ k) = k.
Proof. by rewrite take_app_length, drop_app_length. Qed.

Lemma length_be_bytes_app n z (l : list Z) : length (be_bytes n z ++ l) = (n + length l)%nat.
Proof. by rewrite length_app, length_be_bytes. Qed.

Create HintDb spgw.
#[export] Hint Resolve wrapu_fits bf_field_fits le_bytes_byte be_bytes_byte be32toh_fits : spgw.
Create Rewrite HintDb spgw_len.
#[export] Hint Rewrite length_le_bytes length_be_bytes @length_app : spgw_len.
