(* ===== verification/Container.v ===== *)
(** * Members guarded by a presence flag

    The containers of [src/gtpv2c/msg_gtpv2c.hpp] (and those of
    [src/pfcp/msg_pfcp.hpp]) keep each value next to a flag that says whether
    it is present: a bit of [ie_presence_mask], or the [first] of a
    [std::pair<bool, T>].  This file has the object (its mask, its pair flags
    and its data members, by name) with the two accesses every [get] and [set]
    is made of, and their laws on a set of members that do not overlap. *)
From S2P Require Import Prelude.
From Stdlib Require Import ZArith Lia String.
From stdpp Require Import base numbers tactics list strings gmap.
Open Scope Z_scope.

(** How the presence of a member is kept: [ie_presence_mask & m], or the
    [first] of the pair the member is. *)
Inductive guard := Mask (m : Z) | First.

#[export] Instance guard_eq_dec : EqDecision guard.
Proof. solve_decision. Defined.

(** A guarded member: its flag and its name. *)
Definition slot : Type := guard * string.

Record fields (V : Type) := mk_fields { f_mask : Z; f_first : gset string; f_vals : gmap string V }.
Arguments mk_fields {V}.
Arguments f_mask {V}.
Arguments f_first {V}.
Arguments f_vals {V}.

Lemma NoDup_fst_inj {A B} (l : list (A * B)) a b b' : NoDup l.*1 -> (a, b) ∈ l -> (a, b') ∈ l -> b = b'.
Proof.
  induction l as [|[x y] l IH]; simpl; [set_solver|]. intros [Hn Hl]%NoDup_cons.
  assert (forall z, (x, z) ∈ l -> False) as Hx by (intros z Hz; apply Hn, list_elem_of_fmap; by exists (x, z)).
  intros [?|?]%elem_of_cons [?|?]%elem_of_cons; simplify_eq; naive_solver.
Qed.

Section Slots.
Context {V : Type}.
Implicit Types (f : fields V) (s : slot) (v : V).

(** The condition of a [get]. *)
Definition slot_present (s : slot) (f : fields V) : bool :=
  match s.1 with
  | Mask m => negb (Z.land (f_mask f) m =? 0)
  | First => bool_decide (s.2 ∈ f_first f)
  end.

(** [if (present) { v = member; return true; } return false;] *)
Definition slot_get (s : slot) (f : fields V) : option V :=
  if slot_present s f then f_vals f !! s.2 else None.

(** Raising the flag: [ie_presence_mask |= m] on a mask of [w] bits. *)
Definition slot_raise (w : Z) (s : slot) (f : fields V) : fields V :=
  match s.1 with
  | Mask m => mk_fields (wrapu w (Z.lor (f_mask f) m)) (f_first f) (f_vals f)
  | First => mk_fields (f_mask f) ({[s.2]} ∪ f_first f) (f_vals f)
  end.

(** The store and the flag. *)
Definition slot_set (w : Z) (s : slot) (v : V) (f : fields V) : fields V :=
  slot_raise w s (mk_fields (f_mask f) (f_first f) (<[s.2 := v]> (f_vals f))).

(** [clear_x()]: the pair is assigned a default one, [v]. *)
Definition slot_clear (s : slot) (v : V) (f : fields V) : fields V :=
  mk_fields (f_mask f) (f_first f ∖ {[s.2]}) (<[s.2 := v]> (f_vals f)).

(** ** Slots that do not overlap *)
Definition guard_fits (w : Z) (g : guard) : bool :=
  match g with Mask m => (0 <? m) && (m <? 2 ^ w) | First => true end.

Definition guards_apart (g h : guard) : bool :=
  match g, h with Mask m, Mask n => Z.land m n =? 0 | _, _ => true end.

(** Two slots with different names and bits. *)
Definition slots_apart (s t : slot) : bool := negb (bool_decide (s.2 = t.2)) && guards_apart s.1 t.1.

Fixpoint slots_ok (w : Z) (l : list slot) : bool :=
  match l with
  | [] => 0 <=? w
  | s :: l => guard_fits w s.1 && forallb (slots_apart s) l && slots_ok w l
  end.

Lemma slots_apart_sym s t : slots_apart s t = slots_apart t s.
Proof.
  unfold slots_apart, guards_apart. f_equal.
  - f_equal. apply bool_decide_ext. naive_solver.
  - destruct (s.1), (t.1); try done. by rewrite Z.land_comm.
Qed.

Lemma slots_ok_width w l : slots_ok w l = true -> 0 <= w.
Proof. induction l as [|s l IH]; simpl; [lia|]. rewrite !andb_true_iff. naive_solver. Qed.

Lemma slots_ok_fits w l s : slots_ok w l = true -> s ∈ l -> guard_fits w s.1 = true.
Proof.
  induction l as [|t l IH]; simpl; [set_solver|]. rewrite !andb_true_iff. intros [[Hf _] Hl] Hs.
  apply elem_of_cons in Hs as [->|Hs]; auto.
Qed.

Lemma slots_ok_apart w l s t :
  slots_ok w l = true -> s ∈ l -> t ∈ l -> s <> t -> slots_apart s t = true.
Proof.
  induction l as [|u l IH]; simpl; [set_solver|]. rewrite !andb_true_iff, forallb_forall.
  intros [[_ Ha] Hl] Hs Ht Hne. apply elem_of_cons in Hs as [->|Hs], Ht as [->|Ht]; try done; auto.
  - apply Ha. by apply list_elem_of_In.
  - rewrite slots_apart_sym. apply Ha. by apply list_elem_of_In.
Qed.

Lemma slots_ok_name w l s t : slots_ok w l = true -> s ∈ l -> t ∈ l -> s.2 = t.2 -> s = t.
Proof.
  intros Hl Hs Ht E. destruct (decide (s = t)) as [|Hne]; [done|].
  pose proof (slots_ok_apart w l s t Hl Hs Ht Hne) as H. unfold slots_apart in H.
  rewrite bool_decide_eq_true_2 in H by done. done.
Qed.

Lemma slots_ok_NoDup w l : slots_ok w l = true -> NoDup l.*2.
Proof.
  induction l as [|s l IH]; simpl; [constructor|]. rewrite !andb_true_iff, forallb_forall.
  intros [[_ Ha] Hl]. constructor; [|auto]. intros (t & E & Ht)%list_elem_of_fmap.
  specialize (Ha t ltac:(by apply list_elem_of_In)). unfold slots_apart in Ha.
  by rewrite bool_decide_eq_true_2 in Ha.
Qed.

(** ** The laws *)
Lemma f_vals_set w s v f : f_vals (slot_set w s v f) = <[s.2 := v]> (f_vals f).
Proof. unfold slot_set, slot_raise. by destruct (s.1). Qed.

Lemma f_vals_raise w s f : f_vals (slot_raise w s f) = f_vals f.
Proof. unfold slot_raise. by destruct (s.1). Qed.

Lemma slot_present_raise w s f :
  0 <= w -> guard_fits w s.1 = true -> slot_present s (slot_raise w s f) = true.
Proof.
  unfold slot_present, slot_raise, guard_fits. destruct (s.1) as [m|]; simpl; intros Hw H.
  - apply andb_true_iff in H as [H1 H2]. apply negb_true_iff, Z.eqb_neq. intros E. unfold wrapu in E.
    assert (Z.land m m = 0) as E2; [|rewrite Z.land_diag in E2; lia].
    rewrite <- (Z.mod_small m (2 ^ w)) at 1 by lia.
    apply Z.bits_inj'. intros n Hn. apply (f_equal (fun z => Z.testbit z n)) in E.
    rewrite Z.land_spec in *. rewrite Z.bits_0 in *.
    destruct (decide (n < w)); [|by rewrite Z.mod_pow2_bits_high by lia].
    rewrite Z.mod_pow2_bits_low in * by lia. rewrite Z.lor_spec in E.
    destruct (Z.testbit m n); [|done]. by rewrite orb_true_r in E.
  - by apply bool_decide_eq_true, elem_of_union_l, elem_of_singleton.
Qed.

Lemma slot_present_raise_apart w s t f :
  0 <= w -> guard_fits w t.1 = true -> slots_apart s t = true ->
  slot_present t (slot_raise w s f) = slot_present t f.
Proof.
  unfold slots_apart, slot_present, slot_raise, guard_fits, guards_apart. intros Hw Hf.
  rewrite andb_true_iff, negb_true_iff, bool_decide_eq_false. intros [Hn Hg].
  destruct (s.1) as [m|], (t.1) as [n|]; simpl; try done.
  - f_equal. f_equal. apply andb_true_iff in Hf as [Hf1 Hf2]. apply Z.eqb_eq in Hg.
    apply Z.bits_inj'. intros k Hk. rewrite !Z.land_spec. unfold wrapu.
    destruct (decide (k < w)).
    + rewrite Z.mod_pow2_bits_low by lia. rewrite Z.lor_spec.
      apply (f_equal (fun z => Z.testbit z k)) in Hg. rewrite Z.land_spec, Z.bits_0 in Hg.
      destruct (Z.testbit n k), (Z.testbit m k), (Z.testbit (f_mask f) k); done.
    + replace (Z.testbit n k) with false; [by rewrite !andb_false_r|].
      rewrite <- (Z.mod_small n (2 ^ w)) by lia. by rewrite Z.mod_pow2_bits_high by lia.
  - apply bool_decide_ext. set_solver.
Qed.

(** What was set is read. *)
Lemma slot_get_set w s v f :
  0 <= w -> guard_fits w s.1 = true -> slot_get s (slot_set w s v f) = Some v.
Proof.
  intros Hw Hf. unfold slot_get, slot_set. rewrite slot_present_raise by done.
  rewrite f_vals_raise. simpl. by rewrite lookup_insert_eq.
Qed.

(** No other member changes. *)
Lemma slot_get_set_apart w s t v f :
  0 <= w -> guard_fits w t.1 = true -> slots_apart s t = true -> slot_get t (slot_set w s v f) = slot_get t f.
Proof.
  intros Hw Hf Ha. unfold slot_get, slot_set. rewrite slot_present_raise_apart by done.
  rewrite f_vals_raise. simpl. unfold slots_apart in Ha.
  apply andb_true_iff in Ha as [Hn%negb_true_iff%bool_decide_eq_false _]. by rewrite lookup_insert_ne.
Qed.

Lemma slot_get_raise_apart w s t f :
  0 <= w -> guard_fits w t.1 = true -> slots_apart s t = true -> slot_get t (slot_raise w s f) = slot_get t f.
Proof. intros Hw Hf Ha. unfold slot_get. by rewrite slot_present_raise_apart, f_vals_raise. Qed.

(** A sequence of stores to different members of a sound list. *)
Definition set_all (w : Z) (l : list (slot * V)) (f : fields V) : fields V :=
  foldl (fun f sv => slot_set w sv.1 sv.2 f) f l.

Lemma set_all_app w l k f : set_all w (l ++ k) f = set_all w k (set_all w l f).
Proof. unfold set_all. apply foldl_app. Qed.

Lemma set_all_other w slots l f s :
  slots_ok w slots = true -> l.*1 ⊆ slots -> s ∈ slots -> s ∉ l.*1 -> slot_get s (set_all w l f) = slot_get s f.
Proof.
  intros Hok Hsub Hs. pose proof (slots_ok_width _ _ Hok) as Hw. pose proof (slots_ok_fits _ _ _ Hok Hs) as Hf.
  induction l as [|[t v] l IH] using rev_ind; intros Hn; [done|].
  rewrite fmap_app in Hsub, Hn. simpl in Hsub, Hn. rewrite set_all_app. cbn [set_all foldl fst snd].
  rewrite slot_get_set_apart; [apply IH; set_solver|done|done|].
  apply (slots_ok_apart w slots); set_solver.
Qed.

Lemma set_all_same w slots l f s v :
  slots_ok w slots = true -> l.*1 ⊆ slots -> (s, v) ∈ l -> (forall v', (s, v') ∈ l -> v' = v) ->
  slot_get s (set_all w l f) = Some v.
Proof.
  intros Hok Hsub. pose proof (slots_ok_width _ _ Hok) as Hw.
  induction l as [|[t x] l IH] using rev_ind; intros Hin Hall; [set_solver|].
  rewrite fmap_app in Hsub. simpl in Hsub. rewrite set_all_app. cbn [set_all foldl fst snd].
  destruct (decide (t = s)) as [->|Hne].
  - rewrite (Hall x) by set_solver. apply slot_get_set; [done|]. eapply slots_ok_fits; [done|set_solver].
  - assert ((s, v) ∈ l) as Hin' by set_solver.
    assert (s ∈ slots) as Hs by (apply Hsub, elem_of_app; left; apply list_elem_of_fmap; by exists (s, v)).
    rewrite slot_get_set_apart; [apply IH; set_solver|done|by eapply slots_ok_fits|].
    apply (slots_ok_apart w slots); set_solver.
Qed.
End Slots.
