(* ===== verification/UidGenerator.v ===== *)
(** * Unique identifier generators

    [src/common/utils/uint_generator.hpp]: [util::uint_generator<UINT>] and
    the singleton [util::uint_uid_generator<UINT>] hand out transaction ids,
    TEIDs and SEIDs.  Both classes have the same two members and the same
    methods; the template parameter is the width [w] of UINT.  [get_uid] is
    one critical section under [m_uid_generator], so it is one step. *)
From S2P Require Import Prelude.
From Stdlib Require Import ZArith Lia.
From stdpp Require Import base gmap numbers tactics list.
Open Scope Z_scope.

Record uint_generator := mk_uint_generator {
  uid_generator : Z;
  uid_generated : gset Z;
}.

Definition uint_generator_init : uint_generator := mk_uint_generator 0 ∅.

Section width.
Context (w : Z).

(** The [while (true)] of [get_uid]; [None]: still looping when the fuel is
    spent. *)
Fixpoint get_uid_loop (fuel : nat) (g : uint_generator) (uid : Z)
  : option (Z * uint_generator) :=
  match fuel with
  | O => None
  | S fuel =>
    if decide (uid ∈ uid_generated g) then
      let uid' := wrapu w (uid_generator g + 1) in
      get_uid_loop fuel (mk_uint_generator uid' (uid_generated g)) uid'
    else
      Some (uid, mk_uint_generator (uid_generator g) ({[uid]} ∪ uid_generated g))
  end.

Definition get_uid_fuel (fuel : nat) (g : uint_generator) : option (Z * uint_generator) :=
  let uid := wrapu w (uid_generator g + 1) in
  get_uid_loop fuel (mk_uint_generator uid (uid_generated g)) uid.

(** One more iteration than there are live ids is enough unless every id is
    live ([get_uid_total], [get_uid_full_diverges]). *)
Definition get_uid (g : uint_generator) : option (Z * uint_generator) :=
  get_uid_fuel (S (size (uid_generated g))) g.

Definition free_uid (uid : Z) (g : uint_generator) : uint_generator :=
  mk_uint_generator (uid_generator g) (uid_generated g ∖ {[uid]}).

(** The live ids and the counter stay in the range of UINT. *)
Definition uid_wf (g : uint_generator) : Prop :=
  fits w (uid_generator g) /\ forall u, u ∈ uid_generated g -> fits w u.

Hypothesis w_pos : 0 < w.

(** *** The search loop *)

(** The first [k] candidates after counter value [c]. *)
Definition candidates (c : Z) (k : nat) : list Z :=
  (fun i => wrapu w (c + 1 + Z.of_nat i)) <$> seq 0 k.

Lemma wrapu_succ c : wrapu w (wrapu w c + 1) = wrapu w (c + 1).
Proof. unfold wrapu. by rewrite Zplus_mod_idemp_l. Qed.

Lemma get_uid_loop_spec fuel g c :
  match get_uid_loop fuel (mk_uint_generator (wrapu w (c + 1)) (uid_generated g)) (wrapu w (c + 1)) with
  | Some (u, g') =>
      exists k, (k < fuel)%nat /\ u = wrapu w (c + 1 + Z.of_nat k) /\
        (u ∉ uid_generated g) /\
        g' = mk_uint_generator u ({[u]} ∪ uid_generated g)
  | None => forall u, u ∈ candidates c fuel -> u ∈ uid_generated g
  end.
Proof.
  revert c. induction fuel as [|fuel IH]; intros c; simpl; [set_solver|].
  case_decide as Hin; simpl in Hin.
  - rewrite wrapu_succ. specialize (IH (c + 1)).
    destruct (get_uid_loop _ _ _) as [[u g']|].
    + destruct IH as (k & Hk & -> & Hu & ->). exists (S k).
      replace (c + 1 + Z.of_nat (S k)) with (c + 1 + 1 + Z.of_nat k) by lia. auto with lia.
    + intros u Hu. unfold candidates in Hu. rewrite list_elem_of_fmap in Hu.
      destruct Hu as (i & -> & Hi). apply elem_of_seq in Hi.
      destruct i as [|i]; [by rewrite Z.add_0_r|].
      apply IH. apply list_elem_of_fmap. exists i. split; [f_equal; lia|].
      apply elem_of_seq. lia.
  - exists 0%nat. rewrite Z.add_0_r. auto with lia.
Qed.

Lemma wrapu_inj_window c i j :
  0 <= i < 2 ^ w -> 0 <= j < 2 ^ w -> wrapu w (c + i) = wrapu w (c + j) -> i = j.
Proof.
  intros Hi Hj E. unfold wrapu in E.
  assert ((i - j) mod 2 ^ w = 0) as H0.
  { replace (i - j) with ((c + i) - (c + j)) by lia.
    rewrite Zminus_mod, E, Z.sub_diag. apply Zmod_0_l. }
  apply Z.mod_divide in H0; [|lia]. destruct H0 as [q Hq].
  set (M := 2 ^ w) in *. clearbody M. assert (q = 0) by nia. lia.
Qed.

Lemma candidates_NoDup c k : Z.of_nat k <= 2 ^ w -> NoDup (candidates c k).
Proof.
  intros Hk. unfold candidates. apply NoDup_fmap_2_strong; [|apply NoDup_seq].
  intros i j Hi Hj E. apply elem_of_seq in Hi, Hj.
  apply wrapu_inj_window in E; lia.
Qed.

(** A well-formed generator holds at most 2^w ids. *)
Lemma uid_wf_size g : uid_wf g -> Z.of_nat (size (uid_generated g)) <= 2 ^ w.
Proof.
  intros [_ H].
  assert (uid_generated g ⊆@{gset Z} list_to_set (C := gset Z) (candidates (-1) (Z.to_nat (2 ^ w)))) as Hs.
  { intros u Hu. apply elem_of_list_to_set, list_elem_of_fmap.
    specialize (H u Hu). exists (Z.to_nat u). unfold fits in H. split.
    - rewrite Z2Nat.id by lia. replace (-1 + 1 + u) with u by lia. symmetry. by apply wrapu_id.
    - apply elem_of_seq. lia. }
  apply subseteq_size in Hs. rewrite size_list_to_set in Hs.
  - unfold candidates in Hs. rewrite length_fmap, length_seq in Hs. lia.
  - apply candidates_NoDup. lia.
Qed.

Lemma get_uid_fuel_Some fuel g :
  Z.of_nat fuel <= 2 ^ w -> (size (uid_generated g) < fuel)%nat ->
  is_Some (get_uid_fuel fuel g).
Proof.
  intros Hf Hsz. unfold get_uid_fuel.
  pose proof (get_uid_loop_spec fuel g (uid_generator g)) as H.
  destruct (get_uid_loop _ _ _) as [[u g']|]; [eauto|exfalso].
  assert (list_to_set (C := gset Z) (candidates (uid_generator g) fuel) ⊆ uid_generated g) as Hs.
  { intros u Hu. apply H. by apply elem_of_list_to_set in Hu. }
  apply subseteq_size in Hs. rewrite size_list_to_set in Hs by (by apply candidates_NoDup).
  unfold candidates in Hs. rewrite length_fmap, length_seq in Hs. lia.
Qed.

Lemma get_uid_Some_inv g u g' :
  get_uid g = Some (u, g') ->
  fits w u /\ (u ∉ uid_generated g) /\ g' = mk_uint_generator u ({[u]} ∪ uid_generated g).
Proof.
  unfold get_uid, get_uid_fuel. intros E.
  pose proof (get_uid_loop_spec (S (size (uid_generated g))) g (uid_generator g)) as H.
  rewrite E in H. destruct H as (k & _ & -> & Hu & ->).
  split; [apply wrapu_fits; lia | done].
Qed.

Lemma get_uid_wf g u g' : uid_wf g -> get_uid g = Some (u, g') -> uid_wf g'.
Proof.
  intros [Hc Hg] E. apply get_uid_Some_inv in E as (Hu & _ & ->).
  split; simpl; [done|]. set_solver.
Qed.

Lemma free_uid_wf g u : uid_wf g -> uid_wf (free_uid u g).
Proof. intros [Hc Hg]. split; simpl; [done|]. set_solver. Qed.

End width.

(** ** The interface the protocol stacks rely on

    What [pfcp_l4_stack] and [gtpv2c_stack] need of the generator: an id that
    is handed out is not live, becomes live, and stays live until freed. *)
Class FreshIds (G : Type) := {
  fi_live : G -> gset Z;
  fi_get : G -> option (Z * G);
  fi_free : Z -> G -> G;
  fi_get_fresh : forall g u g', fi_get g = Some (u, g') ->
    (u ∉ fi_live g) /\ fi_live g' = {[u]} ∪ fi_live g;
  fi_free_live : forall g u, fi_live (fi_free u g) = fi_live g ∖ {[u]};
}.

#[export] Program Instance uint_generator_FreshIds (w : Z) (Hw : 0 < w)
  : FreshIds uint_generator := {|
  fi_live := uid_generated;
  fi_get := get_uid w;
  fi_free := free_uid;
|}.
Next Obligation.
  intros w Hw g u g' E. apply get_uid_Some_inv in E as (_ & Hu & ->); [done|lia].
Qed.
Next Obligation. done. Qed.

(** [util::uint_uid_generator<uint64_t>::get_instance()], the process-wide
    singleton behind [generate_trxn_id] and [generate_gtpc_tx_id]. *)
Definition uint_uid_generator := uint_generator.
Definition uid_get_uid (g : uint_uid_generator) : option (Z * uint_uid_generator) := get_uid 64 g.
Definition uid_free_uid (uid : Z) (g : uint_uid_generator) : uint_uid_generator := free_uid uid g.

(** ** Runs of the generator *)

Inductive uid_event := EvGet (u : Z) | EvFree (u : Z).

Inductive uid_run (w : Z) : uint_generator -> list uid_event -> uint_generator -> Prop :=
| uid_run_nil g : uid_run w g [] g
| uid_run_get g u g1 tr g2 :
    get_uid w g = Some (u, g1) -> uid_run w g1 tr g2 -> uid_run w g (EvGet u :: tr) g2
| uid_run_free g u tr g2 :
    uid_run w (free_uid u g) tr g2 -> uid_run w g (EvFree u :: tr) g2.

(** The abstract allocator: a set of identifiers in use. *)
Fixpoint ids_after (live : gset Z) (tr : list uid_event) : option (gset Z) :=
  match tr with
  | [] => Some live
  | EvGet u :: tr => if decide (u ∈ live) then None else ids_after ({[u]} ∪ live) tr
  | EvFree u :: tr => ids_after (live ∖ {[u]}) tr
  end.

(** get_uid terminates and returns an id no client holds, whenever one of
    the 2^w ids is free; the id is recorded as held and the others stay held. *)
Theorem get_uid_total (w : Z) (g : uint_generator) :
  0 < w -> uid_wf w g -> Z.of_nat (size (uid_generated g)) < 2 ^ w ->
  exists u g', get_uid w g = Some (u, g') /\ fits w u /\ (u ∉ uid_generated g) /\
    uid_generated g' = {[u]} ∪ uid_generated g /\ uid_wf w g'.
Proof.
  intros Hw Hwf Hsz.
  destruct (get_uid_fuel_Some w Hw (S (size (uid_generated g))) g) as [[u g'] E]; [lia|lia|].
  exists u, g'. split; [exact E|].
  pose proof (get_uid_wf w Hw g u g' Hwf E).
  apply get_uid_Some_inv in E as (? & ? & ->); [done|lia].
Qed.

Definition ex_gen : uint_generator := mk_uint_generator 255 {[1; 2; 255]}.

Lemma get_uid_total_witness :
  exists u g', get_uid 8 ex_gen = Some (u, g') /\ fits 8 u /\ (u ∉ uid_generated ex_gen) /\
    uid_generated g' = {[u]} ∪ uid_generated ex_gen /\ uid_wf 8 g'.
Proof.
  apply (get_uid_total 8 ex_gen); [lia| |vm_compute; done].
  split; [done|]. intros u Hu. unfold ex_gen in Hu. simpl in Hu.
  rewrite !elem_of_union, !elem_of_singleton in Hu. unfold fits. lia.
Defined.

(** When every id is held, get_uid never returns: no number of iterations
    of its loop finds a free id. *)
Theorem get_uid_full_diverges (w : Z) (g : uint_generator) :
  0 < w -> (forall u, fits w u -> u ∈ uid_generated g) ->
  forall fuel, get_uid_fuel w fuel g = None.
Proof.
  intros Hw Hall fuel. unfold get_uid_fuel.
  pose proof (get_uid_loop_spec w Hw fuel g (uid_generator g)) as H.
  destruct (get_uid_loop _ _ _ _) as [[u g']|]; [|done].
  destruct H as (k & _ & -> & Hu & _). destruct Hu. apply Hall, wrapu_fits. lia.
Qed.

Lemma get_uid_full_diverges_witness : get_uid_fuel 1 7 (mk_uint_generator 0 {[0; 1]}) = None.
Proof.
  apply (get_uid_full_diverges 1); [lia|]. intros u Hu. unfold fits in Hu. simpl.
  assert (u = 0 \/ u = 1) as [-> | ->] by lia; set_solver.
Defined.

(** Every run of the generator is a run of the abstract allocator of fresh
    identifiers: an id is never handed out twice without being freed between. *)
Theorem uid_run_refines (w : Z) (g g' : uint_generator) (tr : list uid_event) :
  0 < w -> uid_run w g tr g' ->
  ids_after (uid_generated g) tr = Some (uid_generated g').
Proof.
  intros Hw. induction 1 as [g|g u g1 tr g2 E Hr IH|g u tr g2 Hr IH]; simpl; [done| |done].
  apply get_uid_Some_inv in E as (_ & Hu & ->); [|lia].
  rewrite decide_False by done. exact IH.
Qed.

Lemma uid_run_refines_witness :
  ids_after ∅ [EvGet 1; EvGet 2; EvFree 1; EvGet 3] = Some (uid_generated (mk_uint_generator 3 {[3; 2]})).
Proof.
  apply (uid_run_refines 2 uint_generator_init); [lia|].
  eapply uid_run_get; [vm_compute; reflexivity|].
  eapply uid_run_get; [vm_compute; reflexivity|].
  apply uid_run_free.
  eapply uid_run_get; [vm_compute; reflexivity|].
  apply uid_run_nil.
Defined.
