(* ===== verification/PaaDynamic.v ===== *)
(** * Dynamic allocation of PDN addresses

    [src/oai_spgwc/pgw_paa_dynamic.hpp]: the per-APN pools from which a PGW
    session takes its IPv4 address or IPv6 prefix, and
    [pgw_app::apply_config] that fills them from the configuration.

    [ipv4_pool] keeps a bitmap [alloc : std::map<int, uint32_t>], one word for
    32 consecutive offsets from [start]; bits past [num] in the last word are
    set when the pool is built.  [std::map::operator[]] inserts a default
    value under an absent key: [map_ref] models it, so a stray index shows up
    as a new key exactly as it does in the program. *)
From S2P Require Import Prelude.
From Stdlib Require Import ZArith Lia.
From stdpp Require Import base gmap strings numbers tactics list.
Open Scope Z_scope.

(** [m[k]]: the value read and the map after the access. *)
Definition map_ref {V} (dflt : V) (k : Z) (m : gmap Z V) : V * gmap Z V :=
  match m !! k with
  | Some v => (v, m)
  | None => (dflt, <[k := dflt]> m)
  end.

Definition UINT32_MAX : Z := 4294967295.

(** ** ipv4_pool *)
Module Ipv4Pool.

Record ipv4_pool := mk_ipv4_pool {
  start : Z;            (* s_addr, network byte order *)
  num : Z;              (* int *)
  alloc : gmap Z Z;     (* std::map<int, uint32_t> *)
}.

Definition ipv4_pool_default : ipv4_pool := mk_ipv4_pool 0 0 ∅.

(** Constructor [ipv4_pool(first, range)], [range] a uint32_t. *)
Definition ipv4_pool_new (first range : Z) : ipv4_pool :=
  let range32 := Z.shiftr range 5 in
  let alloc := foldr (fun i m => <[i := 0]> m) (∅ : gmap Z Z) (seqZ 0 range32) in
  let alloc :=
    if decide (Z.land range 31 = 0) then alloc
    else <[range32 := u32 (Z.shiftl UINT32_MAX (Z.land range 31))]> alloc in
  mk_ipv4_pool first (int32 range) alloc.

(** [while (bs[word_bit_pos]) { bit_pos++; word_bit_pos++; }] *)
Fixpoint first_clear (fuel : nat) (bs bit_pos word_bit_pos : Z) : Z * Z :=
  match fuel with
  | O => (bit_pos, word_bit_pos)
  | S fuel =>
    if Z.testbit bs word_bit_pos
    then first_clear fuel bs (bit_pos + 1) (word_bit_pos + 1)
    else (bit_pos, word_bit_pos)
  end.

Fixpoint alloc_free_bit_loop (fuel : nat) (i bit_pos : Z) (alloc : gmap Z Z)
  : bool * Z * gmap Z Z :=
  match fuel with
  | O => (false, bit_pos, alloc)
  | S fuel =>
    if i <? Z.of_nat (size alloc) then
      let '(v, alloc) := map_ref 0 i alloc in
      if v =? UINT32_MAX then alloc_free_bit_loop fuel (i + 1) (bit_pos + 32) alloc
      else
        let '(bit_pos, word_bit_pos) := first_clear 32 v bit_pos 0 in
        (true, bit_pos, <[i := Z.setbit v word_bit_pos]> alloc)
    else (false, bit_pos, alloc)
  end.

(** Returns the flag, [bit_pos] and the bitmap. *)
Definition alloc_free_bit (alloc : gmap Z Z) : bool * Z * gmap Z Z :=
  alloc_free_bit_loop (S (size alloc)) 0 0 alloc.

Definition free_bit (bit_pos : Z) (p : ipv4_pool) : bool * ipv4_pool :=
  if bit_pos <? num p then
    let bit_pos32 := Z.shiftr bit_pos 5 in
    let word_bit_pos := Z.land bit_pos 31 in
    let '(v, m) := map_ref 0 bit_pos32 (alloc p) in
    (true, mk_ipv4_pool (start p) (num p) (<[bit_pos32 := Z.clearbit v word_bit_pos]> m))
  else (false, p).

(** Returns the flag, [allocated.s_addr] and the pool. *)
Definition alloc_address (p : ipv4_pool) : bool * Z * ipv4_pool :=
  let '(ok, bit_pos, m) := alloc_free_bit (alloc p) in
  let p := mk_ipv4_pool (start p) (num p) m in
  if ok then (true, htobe32 (u32 (be32toh (start p) + bit_pos)), p)
  else (false, 0, p).

(** Signed subtraction of two [int]s; overflow is undefined. *)
Definition int_sub (a b : Z) : result Empty_set Z :=
  if decide (- 2 ^ 31 <= a - b < 2 ^ 31) then Val (a - b) else UB.

Definition in_pool (a : Z) (p : ipv4_pool) : result Empty_set bool :=
  let addr_start := int32 (be32toh (start p)) in
  let addr := int32 (be32toh a) in
  d ← int_sub addr addr_start; Val (d <? num p).

Definition free_address (allocated : Z) (p : ipv4_pool) : result Empty_set (bool * ipv4_pool) :=
  b ← in_pool allocated p;
  if (b : bool) then
    let bit_pos := int32 (u32 (be32toh allocated - be32toh (start p))) in
    Val (free_bit bit_pos p)
  else Val (false, p).

End Ipv4Pool.
Import Ipv4Pool.

(** ** ipv6_pool *)
Record ipv6_pool := mk_ipv6_pool { prefix : list Z; prefix_len : Z }.
Definition ipv6_pool_default : ipv6_pool := mk_ipv6_pool (replicate 16 0) 0.

Definition alloc_address6 (p : ipv6_pool) : bool * list Z * ipv6_pool :=
  (true, prefix p, p).

(** ** apn_dynamic_pools, paa_dynamic *)
Record apn_dynamic_pools := mk_apn_dynamic_pools {
  ipv4_pool_ids : list Z;
  ipv6_pool_ids : list Z;
}.

Record paa_dynamic := mk_paa_dynamic {
  ipv4_pools : gmap Z ipv4_pool;
  ipv6_pools : gmap Z ipv6_pool;
  apns : gmap string apn_dynamic_pools;
}.

Definition paa_dynamic_init : paa_dynamic := mk_paa_dynamic ∅ ∅ ∅.

Definition PDN_TYPE_E_IPV4 : Z := 1.
Definition PDN_TYPE_E_IPV6 : Z := 2.
Definition PDN_TYPE_E_IPV4V6 : Z := 3.
Definition PDN_TYPE_E_NON_IP : Z := 4.

(** [paa_t] of [src/common/3gpp_29.274.h]. *)
Record paa_t := mk_paa {
  pdn_type : Z;
  ipv6_prefix_length : Z;
  ipv6_address : list Z;
  ipv4_address : Z;
}.

Definition set_ipv4 (a : Z) (paa : paa_t) : paa_t :=
  mk_paa (pdn_type paa) (ipv6_prefix_length paa) (ipv6_address paa) a.
Definition set_ipv6 (a : list Z) (paa : paa_t) : paa_t :=
  mk_paa (pdn_type paa) (ipv6_prefix_length paa) a (ipv4_address paa).

Definition add_pool4 (apn_label : string) (pool_id first range : Z) (d : paa_dynamic) : paa_dynamic :=
  if 0 <=? pool_id then
    let pools :=
      match ipv4_pools d !! pool_id with
      | None => <[pool_id := ipv4_pool_new first (u32 range)]> (ipv4_pools d)
      | Some _ => ipv4_pools d
      end in
    let apns' :=
      match apns d !! apn_label with
      | None => <[apn_label := mk_apn_dynamic_pools [pool_id] []]> (apns d)
      | Some _ => apns d
      end in
    mk_paa_dynamic pools (ipv6_pools d) apns'
  else d.

Definition add_pool6 (apn_label : string) (pool_id : Z) (pfx : list Z) (pfx_len : Z)
    (d : paa_dynamic) : paa_dynamic :=
  if 0 <=? pool_id then
    let pools :=
      match ipv6_pools d !! pool_id with
      | None => <[pool_id := mk_ipv6_pool pfx pfx_len]> (ipv6_pools d)
      | Some _ => ipv6_pools d
      end in
    let apns' :=
      match apns d !! apn_label with
      | None => <[apn_label := mk_apn_dynamic_pools [] [pool_id]]> (apns d)
      | Some _ => apns d
      end in
    mk_paa_dynamic (ipv4_pools d) pools apns'
  else d.

(** One [ipv4_pools[*it4].alloc_address(paa.ipv4_address)]. *)
Definition pool_alloc4 (id : Z) (d : paa_dynamic) (paa : paa_t) : bool * paa_dynamic * paa_t :=
  let '(p, pools) := map_ref ipv4_pool_default (int32 id) (ipv4_pools d) in
  let '(ok, a, p) := alloc_address p in
  (ok, mk_paa_dynamic (<[int32 id := p]> pools) (ipv6_pools d) (apns d), set_ipv4 a paa).

Definition pool_alloc6 (id : Z) (d : paa_dynamic) (paa : paa_t) : bool * paa_dynamic * paa_t :=
  let '(p, pools) := map_ref ipv6_pool_default (int32 id) (ipv6_pools d) in
  let '(ok, a, p) := alloc_address6 p in
  (ok, mk_paa_dynamic (ipv4_pools d) (<[int32 id := p]> pools) (apns d), set_ipv6 a paa).

(** The loops that stop at the first pool that has an address. *)
Fixpoint alloc_first (alloc1 : Z -> paa_dynamic -> paa_t -> bool * paa_dynamic * paa_t)
    (ids : list Z) (d : paa_dynamic) (paa : paa_t) : bool * paa_dynamic * paa_t :=
  match ids with
  | [] => (false, d, paa)
  | id :: ids =>
    let '(ok, d, paa) := alloc1 id d paa in
    if (ok : bool) then (true, d, paa) else alloc_first alloc1 ids d paa
  end.

(** The IPv4 loop of the IPV4V6 case: it has no [break], so it runs through
    every pool; the flag says whether one of them had an address. *)
Fixpoint alloc_each (ids : list Z) (success : bool) (d : paa_dynamic) (paa : paa_t)
  : bool * paa_dynamic * paa_t :=
  match ids with
  | [] => (success, d, paa)
  | id :: ids =>
    let '(ok, d, paa) := pool_alloc4 id d paa in
    alloc_each ids (ok || success) d paa
  end.

Definition get_free_paa (apn_label : string) (paa : paa_t) (d : paa_dynamic)
  : result Empty_set (bool * paa_dynamic * paa_t) :=
  match apns d !! apn_label with
  | Some apn_pool =>
    if pdn_type paa =? PDN_TYPE_E_IPV4 then
      Val (alloc_first pool_alloc4 (ipv4_pool_ids apn_pool) d paa)
    else if pdn_type paa =? PDN_TYPE_E_IPV4V6 then
      let '(success, d, paa) := alloc_each (ipv4_pool_ids apn_pool) false d paa in
      if success then
        let '(ok, d, paa) := alloc_first pool_alloc6 (ipv6_pool_ids apn_pool) d paa in
        if ok then Val (true, d, paa)
        else UB  (* ipv4_pools[*it4] with it4 == end() *)
      else Val (false, d, paa)
    else if pdn_type paa =? PDN_TYPE_E_IPV6 then
      Val (alloc_first pool_alloc6 (ipv6_pool_ids apn_pool) d paa)
    else Val (false, d, paa)
  | None => Val (false, d, paa)
  end.

(** The release loops: stop at the first pool that takes the address back. *)
Fixpoint free_first (ids : list Z) (a : Z) (d : paa_dynamic)
  : result Empty_set (bool * paa_dynamic) :=
  match ids with
  | [] => Val (false, d)
  | id :: ids =>
    let '(p, pools) := map_ref ipv4_pool_default (int32 id) (ipv4_pools d) in
    '(ok, p) ← free_address a p;
    let d := mk_paa_dynamic (<[int32 id := p]> pools) (ipv6_pools d) (apns d) in
    if (ok : bool) then Val (true, d) else free_first ids a d
  end.

Definition release_paa (apn_label : string) (paa : paa_t) (d : paa_dynamic)
  : result Empty_set (bool * paa_dynamic) :=
  match apns d !! apn_label with
  | Some apn_pool =>
    if pdn_type paa =? PDN_TYPE_E_IPV4 then
      free_first (ipv4_pool_ids apn_pool) (ipv4_address paa) d
    else if pdn_type paa =? PDN_TYPE_E_IPV4V6 then
      free_first (ipv4_pool_ids apn_pool) (ipv4_address paa) d
    else if pdn_type paa =? PDN_TYPE_E_IPV6 then Val (true, d)
    else Val (false, d)
  | None => Val (false, d)
  end.

Definition release_paa_ipv4 (apn_label : string) (a : Z) (d : paa_dynamic)
  : result Empty_set (bool * paa_dynamic) :=
  match apns d !! apn_label with
  | Some apn_pool => free_first (ipv4_pool_ids apn_pool) a d
  | None => Val (false, d)
  end.

(** ** pgw_app::apply_config *)
Record pdn_cfg := mk_pdn_cfg {
  apn_label : string;
  ue_pool_range_low : Z;
  ue_pool_range_high : Z;
  paa_pool6_prefix : list Z;
  paa_pool6_prefix_len : Z;
}.

Definition apply_config (pdns : list pdn_cfg) (d : paa_dynamic) : paa_dynamic :=
  (foldl (fun '(pool_id, d) p =>
     let range := int32 (u32 (be32toh (ue_pool_range_high p) - be32toh (ue_pool_range_low p))) in
     let d := add_pool4 (apn_label p) pool_id (ue_pool_range_low p) range d in
     let d := add_pool6 (apn_label p) (pool_id + 1) (paa_pool6_prefix p) (paa_pool6_prefix_len p) d in
     (pool_id + 2, d)) (0, d) pdns).2.

(** ** The abstract pool: which offsets from [start] are in use *)
Section pool.

Definition nwords (n : Z) : Z := (n + 31) / 32.

Definition pool_word (m : gmap Z Z) (i : Z) : Z := default 0 (m !! i).

Definition bit_used (m : gmap Z Z) (k : Z) : bool :=
  Z.testbit (pool_word m (k / 32)) (k mod 32).

(** Offset [k] of pool [p] is taken. *)
Definition used (p : ipv4_pool) (k : Z) : bool := bit_used (alloc p) k.

(** The address at offset [k]. *)
Definition addr_at (p : ipv4_pool) (k : Z) : Z := htobe32 (u32 (be32toh (start p) + k)).

(** Keys are 0 .. nwords-1, words are 32-bit, offsets past [n] are marked. *)
Record bitmap_wf (n : Z) (m : gmap Z Z) : Prop := {
  bw_dom : forall i, is_Some (m !! i) <-> 0 <= i < nwords n;
  bw_word : forall i v, m !! i = Some v -> fits 32 v;
  bw_tail : forall k, n <= k < 32 * nwords n -> bit_used m k = true;
}.

(** The pool holds [num] addresses and does not run past the address space. *)
Definition pool_wf (p : ipv4_pool) : Prop :=
  0 <= num p < 2 ^ 31 /\ fits 32 (start p) /\
  be32toh (start p) + num p <= 2 ^ 32 /\ bitmap_wf (num p) (alloc p).

Lemma nwords_bound n : 0 <= n -> n <= 32 * nwords n < n + 32 /\ 0 <= nwords n.
Proof. intros. unfold nwords. Z.to_euclidean_division_equations. lia. Qed.

Lemma bitmap_size n m : 0 <= n -> bitmap_wf n m -> Z.of_nat (size m) = nwords n.
Proof.
  intros Hn [Hd _ _]. pose proof (nwords_bound n Hn).
  assert (dom m = list_to_set (C := gset Z) (seqZ 0 (nwords n))) as E.
  { apply set_eq. intros i. rewrite elem_of_dom, Hd, elem_of_list_to_set, elem_of_seqZ. lia. }
  rewrite <- size_dom, E, size_list_to_set by apply NoDup_seqZ.
  rewrite length_seqZ. lia.
Qed.

Lemma pool_word_Some n m i :
  bitmap_wf n m -> 0 <= i < nwords n -> m !! i = Some (pool_word m i) /\ fits 32 (pool_word m i).
Proof.
  intros Hb Hi. apply (bw_dom _ _ Hb) in Hi as [v Hv].
  unfold pool_word. rewrite Hv. simpl. split; [done|]. by eapply bw_word.
Qed.

(** A word equal to 0xFFFFFFFF has every bit set, any other one has a clear
    bit. *)
Lemma word_full v j : 0 <= j < 32 -> v = UINT32_MAX -> Z.testbit v j = true.
Proof.
  intros Hj ->. change UINT32_MAX with (Z.ones 32). apply Z.ones_spec_low. lia.
Qed.

Lemma word_not_full v :
  fits 32 v -> v <> UINT32_MAX -> exists j, 0 <= j < 32 /\ Z.testbit v j = false.
Proof.
  intros Hv Hne.
  destruct (decide (Forall (fun j => Z.testbit v j = true) (seqZ 0 32))) as [Hall|Hex].
  - exfalso. apply Hne. change UINT32_MAX with (Z.ones 32).
    apply Z.bits_inj'. intros j Hj. destruct (decide (j < 32)).
    + rewrite Z.ones_spec_low by lia. rewrite Forall_forall in Hall.
      apply Hall, elem_of_seqZ. lia.
    + rewrite Z.ones_spec_high by lia.
      rewrite <- (Z.mod_small v (2 ^ 32)) by exact Hv.
      apply Z.mod_pow2_bits_high. lia.
  - apply not_Forall_Exists in Hex; [|apply _].
    apply Exists_exists in Hex as (j & Hj & Hb). apply elem_of_seqZ in Hj.
    exists j. split; [lia|]. by apply not_true_is_false.
Qed.

(** [first_clear] stops at the lowest clear bit. *)
Lemma first_clear_spec fuel v bp j0 j :
  0 <= j0 -> j0 <= j < j0 + Z.of_nat fuel -> Z.testbit v j = false ->
  exists j1, j0 <= j1 <= j /\ Z.testbit v j1 = false /\
    (forall i, j0 <= i < j1 -> Z.testbit v i = true) /\
    first_clear fuel v bp j0 = (bp + (j1 - j0), j1).
Proof.
  revert bp j0. induction fuel as [|fuel IH]; intros bp j0 H0 Hj Hb; [lia|].
  simpl. destruct (Z.testbit v j0) eqn:E.
  - destruct (IH (bp + 1) (j0 + 1)) as (j1 & Hj1 & Hc & Hl & Ef); [lia| |done|].
    { destruct (decide (j = j0)); [congruence|lia]. }
    exists j1. repeat split; [lia..|done| |].
    + intros i Hi. destruct (decide (i = j0)) as [->|]; [done|]. apply Hl. lia.
    + rewrite Ef. f_equal. lia.
  - exists j0. repeat split; [lia..|done| |].
    + intros i Hi. lia.
    + f_equal. lia.
Qed.

Lemma bit_used_insert m i v k :
  bit_used (<[i := v]> m) k =
  if decide (k / 32 = i) then Z.testbit v (k mod 32) else bit_used m k.
Proof.
  unfold bit_used, pool_word. rewrite lookup_insert.
  case_decide; case_decide; try congruence; done.
Qed.

Lemma split32 k : k = 32 * (k / 32) + k mod 32 /\ 0 <= k mod 32 < 32.
Proof. Z.to_euclidean_division_equations. lia. Qed.

Lemma join32 i j : 0 <= j < 32 -> (32 * i + j) / 32 = i /\ (32 * i + j) mod 32 = j.
Proof. intros. Z.to_euclidean_division_equations. lia. Qed.

(** Setting or clearing bit [j] of word [i] changes offset [32 i + j] only. *)
Lemma bit_used_setbit m i j k :
  0 <= j < 32 ->
  bit_used (<[i := Z.setbit (pool_word m i) j]> m) k =
  if decide (k = 32 * i + j) then true else bit_used m k.
Proof.
  intros Hj. rewrite bit_used_insert. pose proof (split32 k).
  case_decide as E1.
  - rewrite Z.setbit_eqb by lia. unfold bit_used. rewrite E1.
    case_decide as E2.
    + replace (j =? k mod 32) with true by (symmetry; apply Z.eqb_eq; lia). done.
    + replace (j =? k mod 32) with false by (symmetry; apply Z.eqb_neq; lia). done.
  - rewrite decide_False; [done|]. intros ->. pose proof (join32 i j Hj). lia.
Qed.

Lemma bit_used_clearbit m i j k :
  0 <= j < 32 ->
  bit_used (<[i := Z.clearbit (pool_word m i) j]> m) k =
  if decide (k = 32 * i + j) then false else bit_used m k.
Proof.
  intros Hj. rewrite bit_used_insert. pose proof (split32 k).
  case_decide as E1.
  - rewrite Z.clearbit_eqb by lia. unfold bit_used. rewrite E1.
    case_decide as E2.
    + replace (j =? k mod 32) with true by (symmetry; apply Z.eqb_eq; lia).
      by rewrite andb_false_r.
    + replace (j =? k mod 32) with false by (symmetry; apply Z.eqb_neq; lia).
      by rewrite andb_true_r.
  - rewrite decide_False; [done|]. intros ->. pose proof (join32 i j Hj). lia.
Qed.

(** The word loop, from word [i] on: it finds the lowest free offset. *)
Lemma alloc_free_bit_loop_spec n m fuel i :
  0 <= n -> bitmap_wf n m -> 0 <= i <= nwords n -> nwords n < i + Z.of_nat fuel ->
  (exists k, 32 * i <= k < n /\ bit_used m k = false /\
     (forall k', 32 * i <= k' < k -> bit_used m k' = true) /\
     alloc_free_bit_loop fuel i (32 * i) m =
       (true, k, <[k / 32 := Z.setbit (pool_word m (k / 32)) (k mod 32)]> m))
  \/ ((forall k, 32 * i <= k < 32 * nwords n -> bit_used m k = true) /\
      alloc_free_bit_loop fuel i (32 * i) m = (false, 32 * nwords n, m)).
Proof.
  intros Hn Hb. revert i. induction fuel as [|fuel IH]; intros i Hi Hf; [lia|].
  cbn [alloc_free_bit_loop]. rewrite (bitmap_size n m Hn Hb).
  destruct (Z.ltb_spec i (nwords n)) as [Hlt|Hge].
  2:{ right. replace i with (nwords n) by lia. split; [lia|done]. }
  destruct (pool_word_Some n m i Hb ltac:(lia)) as [Hv Hfit].
  unfold map_ref. rewrite Hv.
  destruct (Z.eqb_spec (pool_word m i) UINT32_MAX) as [Hfull|Hfree].
  - assert (forall k, 32 * i <= k < 32 * (i + 1) -> bit_used m k = true) as Hw.
    { intros k Hk. unfold bit_used. pose proof (split32 k).
      replace (k / 32) with i by lia. apply word_full; [lia|done]. }
    destruct (IH (i + 1) ltac:(lia) ltac:(lia)) as [(k & Hk & Hu & Hl & E)|[Hall E]].
    + left. exists k. replace (32 * i + 32) with (32 * (i + 1)) by lia.
      repeat split; [lia..|done| |done].
      intros k' Hk'. destruct (decide (k' < 32 * (i + 1))); [apply Hw|apply Hl]; lia.
    + right. replace (32 * i + 32) with (32 * (i + 1)) by lia. split; [|done].
      intros k Hk. destruct (decide (k < 32 * (i + 1))); [apply Hw|apply Hall]; lia.
  - left. destruct (word_not_full _ Hfit Hfree) as (j & Hj & Hc).
    destruct (first_clear_spec 32 _ (32 * i) 0 j ltac:(lia) ltac:(lia) Hc)
      as (j1 & Hj1 & Hc1 & Hl1 & ->).
    destruct (join32 i j1 ltac:(lia)) as [Hq Hr].
    assert (bit_used m (32 * i + j1) = false) as Hu by (unfold bit_used; by rewrite Hq, Hr).
    exists (32 * i + j1). repeat split; [lia| |done| |].
    + destruct (decide (32 * i + j1 < n)); [done|].
      rewrite (bw_tail _ _ Hb) in Hu; [done|lia].
    + intros k' Hk'. unfold bit_used. pose proof (split32 k').
      replace (k' / 32) with i by lia. apply Hl1. lia.
    + rewrite Hq, Hr, Z.sub_0_r. done.
Qed.

Lemma alloc_free_bit_spec n m :
  0 <= n -> bitmap_wf n m ->
  (exists k, 0 <= k < n /\ bit_used m k = false /\
     (forall k', 0 <= k' < k -> bit_used m k' = true) /\
     alloc_free_bit m = (true, k, <[k / 32 := Z.setbit (pool_word m (k / 32)) (k mod 32)]> m))
  \/ ((forall k, 0 <= k < n -> bit_used m k = true) /\
      alloc_free_bit m = (false, 32 * nwords n, m)).
Proof.
  intros Hn Hb. pose proof (nwords_bound n Hn). pose proof (bitmap_size n m Hn Hb).
  destruct (alloc_free_bit_loop_spec n m (S (size m)) 0 Hn Hb ltac:(lia) ltac:(lia))
    as [(k & Hk & Hu & Hl & E)|[Hall E]]; [left|right].
  - exists k. auto.
  - split; [|exact E]. intros k Hk. apply Hall. lia.
Qed.

(** Overwriting an existing word keeps the bitmap well formed as long as the
    tail stays marked. *)
Lemma bitmap_wf_insert n m i v :
  0 <= n -> bitmap_wf n m -> 0 <= i < nwords n -> fits 32 v ->
  (forall k, n <= k < 32 * nwords n -> bit_used (<[i := v]> m) k = true) ->
  bitmap_wf n (<[i := v]> m).
Proof.
  intros Hn Hb Hi Hv Ht. split; [| |exact Ht].
  - intros i'. rewrite lookup_insert_is_Some'. rewrite (bw_dom _ _ Hb). lia.
  - intros i' v' E. apply lookup_insert_Some in E as [[_ <-]|[_ E]]; [done|].
    by eapply bw_word.
Qed.

Lemma testbit_above v j : fits 32 v -> 32 <= j -> Z.testbit v j = false.
Proof.
  intros Hv Hj. rewrite <- (Z.mod_small v (2 ^ 32)) by exact Hv.
  apply Z.mod_pow2_bits_high. lia.
Qed.

Lemma fits_bits v : 0 <= v -> (forall j, 32 <= j -> Z.testbit v j = false) -> fits 32 v.
Proof.
  intros H0 Hj. split; [done|].
  replace v with (v mod 2 ^ 32); [apply Z.mod_pos_bound; lia|].
  apply Z.bits_inj'. intros j Hj0. destruct (decide (j < 32)).
  - by rewrite Z.mod_pow2_bits_low.
  - rewrite Z.mod_pow2_bits_high by lia. symmetry. apply Hj. lia.
Qed.

Lemma setbit_fits v j : fits 32 v -> 0 <= j < 32 -> fits 32 (Z.setbit v j).
Proof.
  intros Hv Hj. apply fits_bits.
  - rewrite Z.setbit_spec'. apply Z.lor_nonneg. unfold fits in Hv. lia.
  - intros i Hi. rewrite Z.setbit_eqb by lia. rewrite testbit_above by done.
    replace (j =? i) with false by (symmetry; apply Z.eqb_neq; lia). done.
Qed.

Lemma clearbit_fits v j : fits 32 v -> 0 <= j < 32 -> fits 32 (Z.clearbit v j).
Proof.
  intros Hv Hj. apply fits_bits.
  - rewrite Z.clearbit_spec'. apply Z.ldiff_nonneg. unfold fits in Hv. lia.
  - intros i Hi. rewrite Z.clearbit_eqb by lia. by rewrite testbit_above.
Qed.

Lemma offset_word n k : 0 <= k < n -> 0 <= k / 32 < nwords n.
Proof. intros. unfold nwords. Z.to_euclidean_division_equations. lia. Qed.

Lemma bitmap_wf_setbit n m k :
  bitmap_wf n m -> 0 <= k < n ->
  bitmap_wf n (<[k / 32 := Z.setbit (pool_word m (k / 32)) (k mod 32)]> m).
Proof.
  intros Hb Hk. pose proof (split32 k) as Hs.
  destruct (pool_word_Some n m (k / 32) Hb (offset_word n k Hk)) as [_ Hf].
  apply bitmap_wf_insert; [lia|done|by apply offset_word|apply setbit_fits; [done|lia]|].
  intros k' Hk'. rewrite bit_used_setbit by lia.
  case_decide; [done|]. by apply (bw_tail _ _ Hb).
Qed.

Lemma bitmap_wf_clearbit n m k :
  bitmap_wf n m -> 0 <= k < n ->
  bitmap_wf n (<[k / 32 := Z.clearbit (pool_word m (k / 32)) (k mod 32)]> m).
Proof.
  intros Hb Hk. pose proof (split32 k) as Hs.
  destruct (pool_word_Some n m (k / 32) Hb (offset_word n k Hk)) as [_ Hf].
  apply bitmap_wf_insert; [lia|done|by apply offset_word|apply clearbit_fits; [done|lia]|].
  intros k' Hk'. rewrite bit_used_clearbit by lia.
  rewrite decide_False by lia. by apply (bw_tail _ _ Hb).
Qed.

End pool.

(** ** Correctness of the pool operations *)

Lemma zero_words_lookup (l : list Z) (i : Z) :
  (foldr (fun i m => <[i := 0]> m) (∅ : gmap Z Z) l) !! i =
  if decide (i ∈ l) then Some 0 else None.
Proof.
  induction l as [|j l IH]; simpl; [done|].
  rewrite lookup_insert, IH. destruct (decide (j = i)) as [->|].
  - rewrite decide_True by left. done.
  - destruct (decide (i ∈ l)); [rewrite decide_True by (by right)|rewrite decide_False]; [done|done|].
    rewrite elem_of_cons. naive_solver.
Qed.

Lemma testbit_shl_max s j :
  0 <= s -> 0 <= j < 32 -> Z.testbit (u32 (Z.shiftl UINT32_MAX s)) j = (s <=? j).
Proof.
  intros Hs Hj. unfold wrapu. rewrite Z.mod_pow2_bits_low by lia.
  rewrite Z.shiftl_spec by lia. destruct (Z.leb_spec s j).
  - apply word_full; [lia|done].
  - apply Z.testbit_neg_r. lia.
Qed.

(** Word [i] of a fresh bitmap over [range] offsets. *)
Definition fresh_word (range i : Z) : Z :=
  if decide (32 * i + 32 <= range) then 0
  else u32 (Z.shiftl UINT32_MAX (range mod 32)).

Lemma fresh_word_bit range i j :
  0 <= i < nwords range -> 0 <= j < 32 -> Z.testbit (fresh_word range i) j = (range <=? 32 * i + j).
Proof.
  intros Hi Hj. unfold fresh_word, nwords in *. case_decide.
  - rewrite Z.testbit_0_l. symmetry. apply Z.leb_gt. lia.
  - pose proof (split32 range). rewrite testbit_shl_max by lia.
    assert (range = 32 * i + range mod 32) by (Z.to_euclidean_division_equations; lia).
    destruct (Z.leb_spec (range mod 32) j); symmetry; [apply Z.leb_le|apply Z.leb_gt]; lia.
Qed.

Lemma fresh_lookup first range i :
  0 <= range ->
  alloc (ipv4_pool_new first range) !! i =
  if decide (0 <= i < nwords range) then Some (fresh_word range i) else None.
Proof.
  intros Hr. unfold ipv4_pool_new, fresh_word, nwords. cbn [alloc].
  assert (Z.shiftr range 5 = range / 32) as -> by (by rewrite Z.shiftr_div_pow2).
  assert (Z.land range 31 = range mod 32) as -> by (by apply (Z.land_ones range 5)).
  pose proof (split32 range).
  assert (range mod 32 = 0 -> (range + 31) / 32 = range / 32) as H0
    by (Z.to_euclidean_division_equations; lia).
  assert (range mod 32 <> 0 -> (range + 31) / 32 = range / 32 + 1) as H1
    by (Z.to_euclidean_division_equations; lia).
  assert (forall i, i ∈ seqZ 0 (range / 32) <-> 0 <= i < range / 32) as Hseq
    by (intros; rewrite elem_of_seqZ; lia).
  destruct (decide (range mod 32 = 0)) as [E|E].
  - rewrite H0, zero_words_lookup by done.
    destruct (decide (0 <= i < range / 32)) as [Hi|Hi].
    + rewrite decide_True by (by apply Hseq). by rewrite decide_True by lia.
    + rewrite decide_False; [done|]. by rewrite Hseq.
  - rewrite H1, lookup_insert, zero_words_lookup by done.
    destruct (decide (range / 32 = i)) as [<-|Hne].
    + rewrite decide_True by lia. by rewrite decide_False by lia.
    + destruct (decide (0 <= i < range / 32 + 1)) as [Hi|Hi].
      * rewrite decide_True by (apply Hseq; lia). by rewrite decide_True by lia.
      * rewrite decide_False; [done|]. rewrite Hseq. lia.
Qed.

(** The fresh bitmap marks exactly the offsets past the range. *)
Lemma fresh_bit_used first range k :
  0 <= range -> 0 <= k < 32 * nwords range ->
  bit_used (alloc (ipv4_pool_new first range)) k = (range <=? k).
Proof.
  intros Hr Hk. pose proof (split32 k). unfold bit_used, pool_word.
  rewrite fresh_lookup, decide_True by lia. simpl.
  rewrite fresh_word_bit by lia. f_equal. lia.
Qed.

Lemma fresh_bitmap_wf first range :
  0 <= range -> bitmap_wf range (alloc (ipv4_pool_new first range)).
Proof.
  intros Hr. split.
  - intros i. rewrite fresh_lookup by done. case_decide; split; intros Hi; eauto; [by destruct Hi|lia].
  - intros i v. rewrite fresh_lookup by done. case_decide; [|done]. intros [= <-].
    unfold fresh_word. case_decide; [done|]. apply wrapu_fits. lia.
  - intros k Hk. rewrite fresh_bit_used by lia. apply Z.leb_le. lia.
Qed.

(** *** Allocation and release on a well-formed pool *)

Lemma new_pool_wf first range :
  0 <= range < 2 ^ 31 -> fits 32 first -> be32toh first + range <= 2 ^ 32 ->
  pool_wf (ipv4_pool_new first range).
Proof.
  intros Hr Hf Hend. unfold pool_wf.
  assert (num (ipv4_pool_new first range) = range) as -> by (apply int32_id; lia).
  pose proof (fresh_bitmap_wf first range ltac:(lia)). done.
Qed.

Lemma new_pool_free first range k :
  0 <= range -> 0 <= k < range -> used (ipv4_pool_new first range) k = false.
Proof.
  intros Hr Hk. unfold used. pose proof (nwords_bound range Hr).
  rewrite fresh_bit_used by lia. apply Z.leb_gt. lia.
Qed.

(** A new pool is well formed, holds [range] addresses and every one of
    its offsets is free. *)
Theorem ipv4_pool_new_wf (first range : Z) :
  0 <= range < 2 ^ 31 -> fits 32 first -> be32toh first + range <= 2 ^ 32 ->
  pool_wf (ipv4_pool_new first range) /\
  num (ipv4_pool_new first range) = range /\
  forall k, 0 <= k < range -> used (ipv4_pool_new first range) k = false.
Proof.
  intros Hr Hf Hend. split_and!.
  - by apply new_pool_wf.
  - apply int32_id. lia.
  - intros k Hk. apply new_pool_free; lia.
Qed.

(** 10.0.0.0/28 in network byte order on a little-endian host. *)
Definition ex_net : Z := 10.

Lemma ipv4_pool_new_wf_witness :
  pool_wf (ipv4_pool_new ex_net 16) /\ num (ipv4_pool_new ex_net 16) = 16 /\
  forall k, 0 <= k < 16 -> used (ipv4_pool_new ex_net 16) k = false.
Proof. apply (ipv4_pool_new_wf ex_net 16); vm_compute; intuition congruence. Defined.

(** What one allocation does on a well-formed pool. *)
Definition alloc_outcome (p : ipv4_pool) (r : bool * Z * ipv4_pool) : Prop :=
  (exists k p', r = (true, addr_at p k, p') /\
     0 <= k < num p /\ used p k = false /\
     (forall k', 0 <= k' < k -> used p k' = true) /\
     start p' = start p /\ num p' = num p /\ pool_wf p' /\
     (forall k', used p' k' = if decide (k' = k) then true else used p k'))
  \/ (r = (false, 0, p) /\ forall k, 0 <= k < num p -> used p k = true).

Lemma alloc_address_outcome p : pool_wf p -> alloc_outcome p (alloc_address p).
Proof.
  intros (Hn & Hs & He & Hb). unfold alloc_address.
  destruct (alloc_free_bit_spec (num p) (alloc p) ltac:(lia) Hb) as [(k & Hk & Hu & Hl & ->)|[Hall ->]].
  - left. eexists k, _. split; [done|]. split_and!; try done; try lia.
    + pose proof (bitmap_wf_setbit _ _ k Hb Hk). done.
    + intros k'. unfold used. cbn [alloc].
      pose proof (split32 k). rewrite bit_used_setbit by lia.
      by replace (32 * (k / 32) + k mod 32) with k by lia.
  - right. split; [by destruct p|]. exact Hall.
Qed.

(** alloc_address on a well-formed pool: either some offset is free, and
    the call returns the address at the lowest free one and marks that offset
    alone; or the pool is full, and the call returns false and leaves the pool
    as it was. *)
Theorem alloc_address_spec (p : ipv4_pool) :
  pool_wf p ->
  (exists k p', alloc_address p = (true, addr_at p k, p') /\
     0 <= k < num p /\ used p k = false /\
     (forall k', 0 <= k' < k -> used p k' = true) /\
     start p' = start p /\ num p' = num p /\ pool_wf p' /\
     (forall k', used p' k' = if decide (k' = k) then true else used p k'))
  \/ (alloc_address p = (false, 0, p) /\ forall k, 0 <= k < num p -> used p k = true).
Proof. exact (alloc_address_outcome p). Qed.

Lemma alloc_address_spec_witness :
  let p := ipv4_pool_new ex_net 2 in
  (exists k p', alloc_address p = (true, addr_at p k, p') /\
     0 <= k < num p /\ used p k = false /\
     (forall k', 0 <= k' < k -> used p k' = true) /\
     start p' = start p /\ num p' = num p /\ pool_wf p' /\
     (forall k', used p' k' = if decide (k' = k) then true else used p k'))
  \/ (alloc_address p = (false, 0, p) /\ forall k, 0 <= k < num p -> used p k = true).
Proof.
  intros p. apply (alloc_address_spec p).
  apply new_pool_wf; vm_compute; intuition congruence.
Defined.

(** The range stays on one side of 128.0.0.0, where [int] arithmetic on the
    addresses does not overflow. *)
Definition same_half (p : ipv4_pool) : Prop :=
  be32toh (start p) + num p <= 2 ^ 31 \/ 2 ^ 31 <= be32toh (start p).

Lemma addr_at_host p k :
  pool_wf p -> 0 <= k < num p -> be32toh (addr_at p k) = be32toh (start p) + k.
Proof.
  intros (Hn & Hs & He & _) Hk. unfold addr_at.
  pose proof (be32toh_fits (start p)) as Hb. unfold fits in Hb.
  rewrite wrapu_id by (unfold fits; lia).
  apply be32toh_involutive. unfold fits. lia.
Qed.

Lemma in_pool_offset p k :
  pool_wf p -> same_half p -> 0 <= k < num p -> in_pool (addr_at p k) p = Val true.
Proof.
  intros Hwf Hh Hk. unfold in_pool, int_sub.
  rewrite addr_at_host by done. destruct Hwf as (Hn & Hs & He & _).
  pose proof (be32toh_fits (start p)) as Hb. unfold fits, same_half, int32 in *.
  set (s := be32toh (start p)) in *. clearbody s.
  assert ((s + k + 2 ^ 31) mod 2 ^ 32 - 2 ^ 31 - ((s + 2 ^ 31) mod 2 ^ 32 - 2 ^ 31) = k) as E
    by (Z.to_euclidean_division_equations; lia).
  rewrite E, decide_True by lia. simpl. f_equal. apply Z.ltb_lt. lia.
Qed.

(** What one release of offset [k] does. *)
Lemma free_address_outcome p k :
  pool_wf p -> same_half p -> 0 <= k < num p ->
  exists p', free_address (addr_at p k) p = Val (true, p') /\
    start p' = start p /\ num p' = num p /\ pool_wf p' /\
    forall k', used p' k' = if decide (k' = k) then false else used p k'.
Proof.
  intros Hwf Hh Hk. unfold free_address. rewrite in_pool_offset by done. simpl.
  rewrite addr_at_host by done. destruct Hwf as (Hn & Hs & He & Hb).
  replace (be32toh (start p) + k - be32toh (start p)) with k by lia.
  rewrite wrapu_id, int32_id by (unfold fits; lia). unfold free_bit.
  replace (k <? num p) with true by (symmetry; apply Z.ltb_lt; lia).
  assert (Z.shiftr k 5 = k / 32) as -> by (by rewrite Z.shiftr_div_pow2).
  assert (Z.land k 31 = k mod 32) as -> by (by apply (Z.land_ones k 5)).
  destruct (pool_word_Some _ _ _ Hb (offset_word _ _ Hk)) as [Hv _].
  unfold map_ref. rewrite Hv. eexists. split; [done|]. split_and!; try done.
  - pose proof (bitmap_wf_clearbit _ _ k Hb Hk). done.
  - intros k'. unfold used. cbn [alloc]. pose proof (split32 k).
    rewrite bit_used_clearbit by lia. by replace (32 * (k / 32) + k mod 32) with k by lia.
Qed.

(** free_address of an address of the pool returns true, frees that offset
    and no other, and keeps the pool well formed. *)
Theorem free_address_spec (p : ipv4_pool) (k : Z) :
  pool_wf p -> same_half p -> 0 <= k < num p ->
  exists p', free_address (addr_at p k) p = Val (true, p') /\
    start p' = start p /\ num p' = num p /\ pool_wf p' /\
    forall k', used p' k' = if decide (k' = k) then false else used p k'.
Proof. apply free_address_outcome. Qed.

Lemma free_address_spec_witness :
  let p := ipv4_pool_new ex_net 40 in
  exists p', free_address (addr_at p 33) p = Val (true, p') /\
    start p' = start p /\ num p' = num p /\ pool_wf p' /\
    forall k', used p' k' = if decide (k' = 33) then false else used p k'.
Proof.
  intros p. apply (free_address_spec p 33).
  - apply new_pool_wf; vm_compute; intuition congruence.
  - left. vm_compute. congruence.
  - vm_compute. intuition congruence.
Defined.

(** *** Runs of a pool against the abstract lease table *)

Inductive pool_event := EvAlloc (a : Z) | EvFull | EvRelease (a : Z).

Inductive pool_run : ipv4_pool -> list pool_event -> ipv4_pool -> Prop :=
| pool_run_nil p : pool_run p [] p
| pool_run_alloc p a p1 tr p2 :
    alloc_address p = (true, a, p1) -> pool_run p1 tr p2 -> pool_run p (EvAlloc a :: tr) p2
| pool_run_full p a p1 tr p2 :
    alloc_address p = (false, a, p1) -> pool_run p1 tr p2 -> pool_run p (EvFull :: tr) p2
| pool_run_release p k b p1 tr p2 :
    0 <= k < num p -> free_address (addr_at p k) p = Val (b, p1) ->
    pool_run p1 tr p2 -> pool_run p (EvRelease (addr_at p k) :: tr) p2.

(** The lease table: the addresses held, at most [n] of them; an address is
    leased only while nobody holds it, and "full" is answered only when all
    [n] are held. *)
Fixpoint leases_after (n : Z) (held : gset Z) (tr : list pool_event) : option (gset Z) :=
  match tr with
  | [] => Some held
  | EvAlloc a :: tr => if decide (a ∈ held) then None else leases_after n ({[a]} ∪ held) tr
  | EvFull :: tr => if decide (Z.of_nat (size held) = n) then leases_after n held tr else None
  | EvRelease a :: tr => leases_after n (held ∖ {[a]}) tr
  end.

Definition leases (p : ipv4_pool) (held : gset Z) : Prop :=
  forall a, a ∈ held <-> exists k, 0 <= k < num p /\ used p k = true /\ a = addr_at p k.

Lemma addr_at_inj p k k' :
  pool_wf p -> 0 <= k < num p -> 0 <= k' < num p -> addr_at p k = addr_at p k' -> k = k'.
Proof.
  intros Hwf Hk Hk' E. apply (f_equal be32toh) in E.
  rewrite !addr_at_host in E by done. lia.
Qed.

Lemma addr_at_ext p p' k : start p' = start p -> addr_at p' k = addr_at p k.
Proof. unfold addr_at. by intros ->. Qed.

Lemma leases_full p held :
  pool_wf p -> leases p held -> (forall k, 0 <= k < num p -> used p k = true) ->
  Z.of_nat (size held) = num p.
Proof.
  intros Hwf HL Hall. pose proof Hwf as ([Hn _] & _).
  assert (held = list_to_set (C := gset Z) (addr_at p <$> seqZ 0 (num p))) as ->.
  { apply set_eq. intros a. rewrite (HL a), elem_of_list_to_set, list_elem_of_fmap. split.
    - intros (k & Hk & _ & ->). exists k. rewrite elem_of_seqZ. split; [done|lia].
    - intros (k & -> & Hk). apply elem_of_seqZ in Hk. exists k. split; [lia|]. split; [|done].
      apply Hall. lia. }
  rewrite size_list_to_set.
  - rewrite length_fmap, length_seqZ. lia.
  - apply NoDup_fmap_2_strong; [|apply NoDup_seqZ].
    intros k k' Hk Hk'. apply elem_of_seqZ in Hk, Hk'. apply addr_at_inj; [done|lia|lia].
Qed.

Lemma leases_alloc p p' k held :
  pool_wf p -> leases p held -> 0 <= k < num p -> used p k = false ->
  start p' = start p -> num p' = num p ->
  (forall k', used p' k' = if decide (k' = k) then true else used p k') ->
  (addr_at p k ∉ held) /\ leases p' ({[addr_at p k]} ∪ held).
Proof.
  intros Hwf HL Hk Hu Hst Hnum Hu'. split.
  - intros Hin. apply HL in Hin as (k' & Hk' & Ht & E).
    apply addr_at_inj in E; [congruence|done..].
  - intros a. rewrite elem_of_union, elem_of_singleton, (HL a), Hnum. split.
    + intros [->|(k' & Hk' & Ht & ->)].
      * exists k. rewrite Hu', decide_True, (addr_at_ext p p') by done. done.
      * exists k'. rewrite Hu', (addr_at_ext p p') by done. by case_decide.
    + intros (k' & Hk' & Ht & ->). rewrite (addr_at_ext p p') by done. rewrite Hu' in Ht.
      case_decide; [left; congruence|right; eauto].
Qed.

Lemma leases_free p p' k held :
  pool_wf p -> leases p held -> 0 <= k < num p ->
  start p' = start p -> num p' = num p ->
  (forall k', used p' k' = if decide (k' = k) then false else used p k') ->
  leases p' (held ∖ {[addr_at p k]}).
Proof.
  intros Hwf HL Hk Hst Hnum Hu' a.
  rewrite elem_of_difference, elem_of_singleton, (HL a), Hnum. split.
  - intros [(k' & Hk' & Ht & ->) Hne]. exists k'. rewrite Hu', (addr_at_ext p p') by done.
    case_decide; [congruence|done].
  - intros (k' & Hk' & Ht & ->). rewrite (addr_at_ext p p') by done. rewrite Hu' in Ht.
    case_decide; [done|]. split; [eauto|].
    intros E. apply addr_at_inj in E; [congruence|done..].
Qed.

(** C19 Every run of allocations, and of releases of addresses of the pool, on a
    well-formed pool is a run of the abstract lease table: no address is leased
    to two holders at once, and an allocation is refused only when all [num]
    addresses are leased.  Well-formed: fewer than 2^31 addresses, the range
    does not run over the last address ([pool_wf]) nor across 128.0.0.0
    ([same_half], where the [int] difference of the code would overflow).  The
    release of an address outside the range is another matter: see
    [free_below_start_leaks]. *)
Theorem pool_run_refines (p p' : ipv4_pool) (tr : list pool_event) (held : gset Z) :
  pool_wf p -> same_half p -> leases p held -> pool_run p tr p' ->
  exists held', leases_after (num p) held tr = Some held' /\ leases p' held' /\ pool_wf p'.
Proof.
  intros Hwf Hh HL Hr. revert held Hwf Hh HL.
  induction Hr as [p|p a p1 tr p2 E Hr IH|p a p1 tr p2 E Hr IH|p k b p1 tr p2 Hk E Hr IH];
    intros held Hwf Hh HL; simpl.
  - eauto.
  - destruct (alloc_address_outcome p Hwf) as [(k & p' & E' & Hk & Hu & _ & Hst & Hnum & Hwf' & Hu')|[E' _]];
      rewrite E in E'; [|done].
    injection E' as -> ->.
    destruct (leases_alloc p p' k held) as [Hni HL']; try done.
    rewrite decide_False, <- Hnum by done. apply IH; try done. unfold same_half in *. by rewrite Hst, Hnum.
  - destruct (alloc_address_outcome p Hwf) as [(k & p' & E' & _)|[E' Hall]]; rewrite E in E'; [done|].
    injection E' as -> ->. rewrite decide_True by (by apply leases_full). by apply IH.
  - destruct (free_address_outcome p k Hwf Hh Hk) as (p' & E' & Hst & Hnum & Hwf' & Hu').
    rewrite E in E'. injection E' as -> ->. rewrite <- Hnum.
    apply IH; try done; [unfold same_half in *; by rewrite Hst, Hnum|].
    by apply leases_free.
Qed.

Definition ex_pool : ipv4_pool := ipv4_pool_new ex_net 2.

Lemma ex_pool_ok : pool_wf ex_pool /\ same_half ex_pool /\ leases ex_pool ∅.
Proof.
  split_and!.
  - apply new_pool_wf; vm_compute; intuition congruence.
  - left. vm_compute. congruence.
  - intros a. split; [set_solver|]. intros (k & Hk & Hu & _).
    unfold ex_pool in Hu. rewrite new_pool_free in Hu; [done|lia|exact Hk].
Qed.

Lemma pool_run_refines_witness :
  exists p' held',
    leases_after (num ex_pool) ∅
      [EvAlloc (addr_at ex_pool 0); EvAlloc (addr_at ex_pool 1); EvFull;
       EvRelease (addr_at ex_pool 0); EvAlloc (addr_at ex_pool 0)] = Some held' /\
    leases p' held' /\ pool_wf p'.
Proof.
  pose proof ex_pool_ok as (Hwf & Hh & HL).
  eexists. eapply (pool_run_refines ex_pool); [exact Hwf|exact Hh|exact HL|].
  eapply pool_run_alloc; [vm_compute; reflexivity|].
  eapply pool_run_alloc; [vm_compute; reflexivity|].
  eapply pool_run_full; [vm_compute; reflexivity|].
  match goal with |- pool_run ?p (_ :: ?t) _ =>
    refine (pool_run_release p 0 _ _ t _ _ _ _) end;
    [vm_compute; intuition congruence|vm_compute; reflexivity|].
  eapply pool_run_alloc; [vm_compute; reflexivity|].
  apply pool_run_nil.
Defined.

(** ** Addresses below the range *)

(** in_pool has no lower bound: it accepts every address below the range
    (as long as the [int] subtraction does not overflow). *)
Lemma in_pool_below_start (p : ipv4_pool) (a : Z) :
  pool_wf p -> 0 < num p -> fits 32 a -> be32toh a < be32toh (start p) ->
  (be32toh (start p) < 2 ^ 31 \/ 2 ^ 31 <= be32toh a) ->
  in_pool a p = Val true.
Proof.
  intros (Hn & _) Hpos Ha Hlt Hhalf. unfold in_pool, int_sub, int32.
  pose proof (be32toh_fits (start p)) as Hs. pose proof (be32toh_fits a) as Hb.
  unfold fits in *. set (s := be32toh (start p)) in *. set (x := be32toh a) in *. clearbody s x.
  assert ((x + 2 ^ 31) mod 2 ^ 32 - 2 ^ 31 - ((s + 2 ^ 31) mod 2 ^ 32 - 2 ^ 31) = x - s) as ->
    by (Z.to_euclidean_division_equations; lia).
  rewrite decide_True by lia. simpl. f_equal. apply Z.ltb_lt. lia.
Qed.

Lemma in_pool_below_start_witness : in_pool (htobe32 (2 ^ 24)) ex_pool = Val true.
Proof.
  apply (in_pool_below_start ex_pool); [apply ex_pool_ok|vm_compute; done..| |].
  - vm_compute. done.
  - left. vm_compute. done.
Defined.

(** Releasing an address below the start of a pool (a static address
    outside it, say) reports success and corrupts the bitmap: a full pool of 32 addresses then
    leases an address past its own range. *)
Theorem free_below_start_leaks :
  let p := mk_ipv4_pool ex_net 32 {[ 0 := UINT32_MAX ]} in
  let below := htobe32 (be32toh ex_net - 1) in
  pool_wf p /\ (forall k, 0 <= k < num p -> used p k = true) /\
  exists p1 p2, free_address below p = Val (true, p1) /\
    alloc_address p1 = (true, addr_at p 32, p2) /\
    (forall k, 0 <= k < num p -> addr_at p 32 <> addr_at p k).
Proof.
  intros p below.
  assert (bitmap_wf 32 (alloc p)) as Hb.
  { split.
    - intros i. unfold p, nwords. cbn [alloc]. rewrite lookup_singleton_is_Some.
      change ((32 + 31) / 32) with 1. lia.
    - intros i v H. unfold p in H. cbn [alloc] in H. apply lookup_singleton_Some in H as [_ <-]. done.
    - intros k Hk. change (32 * nwords 32) with 32 in Hk. lia. }
  assert (pool_wf p) as Hwf by (split_and!; try done; vm_compute; intuition congruence).
  assert (forall k, 0 <= k < num p -> used p k = true) as Hfull.
  { intros k Hk. unfold used, bit_used, pool_word. change (num p) with 32 in Hk.
    replace (k / 32) with 0 by (symmetry; apply Z.div_small; lia).
    apply word_full; [apply Z.mod_pos_bound; lia|done]. }
  split_and!; try done. eexists _, _. split; [vm_compute; reflexivity|].
  split; [vm_compute; reflexivity|].
  intros k Hk E. apply (f_equal be32toh) in E. rewrite (addr_at_host p k) in E by done.
  change (num p) with 32 in Hk. change (be32toh (addr_at p 32)) with (be32toh (start p) + 32) in E. lia.
Qed.

(** ** paa_dynamic *)

(** Every IPv4 pool id of every APN names a well-formed pool. *)
Definition paa_wf (d : paa_dynamic) : Prop :=
  forall l ap, apns d !! l = Some ap ->
  Forall (fun id => 0 <= id < 2 ^ 31 /\ exists p, ipv4_pools d !! id = Some p /\ pool_wf p)
    (ipv4_pool_ids ap).

Definition with_pool (id : Z) (p : ipv4_pool) (d : paa_dynamic) : paa_dynamic :=
  mk_paa_dynamic (<[id := p]> (ipv4_pools d)) (ipv6_pools d) (apns d).

Lemma with_pool_id id p d : ipv4_pools d !! id = Some p -> with_pool id p d = d.
Proof. intros H. unfold with_pool. rewrite insert_id by done. by destruct d. Qed.

Lemma paa_wf_with_pool id p d : paa_wf d -> pool_wf p -> paa_wf (with_pool id p d).
Proof.
  intros Hd Hp l ap Hl. eapply Forall_impl; [by apply (Hd l ap Hl)|].
  intros id' (Hr & p' & Hp' & Hwf'). split; [done|]. simpl.
  destruct (decide (id = id')) as [->|]; simplify_map_eq; eauto.
Qed.

Lemma pool_alloc4_eq id p d paa :
  0 <= id < 2 ^ 31 -> ipv4_pools d !! id = Some p ->
  pool_alloc4 id d paa =
    let '(ok, a, p') := alloc_address p in (ok, with_pool id p' d, set_ipv4 a paa).
Proof.
  intros Hid Hp. unfold pool_alloc4, map_ref. rewrite int32_id by lia. by rewrite Hp.
Qed.

(** The loop over the pools of an APN: the first pool with a free address
    serves the request, the pools before it are full and unchanged. *)
Lemma alloc_first4_spec ids d paa :
  Forall (fun id => 0 <= id < 2 ^ 31 /\ exists p, ipv4_pools d !! id = Some p /\ pool_wf p) ids ->
  (exists id p k p', id ∈ ids /\ ipv4_pools d !! id = Some p /\ 0 <= k < num p /\
     used p k = false /\ pool_wf p' /\
     (forall k', used p' k' = if decide (k' = k) then true else used p k') /\
     alloc_first pool_alloc4 ids d paa = (true, with_pool id p' d, set_ipv4 (addr_at p k) paa))
  \/ (exists paa', alloc_first pool_alloc4 ids d paa = (false, d, paa') /\
      forall id p, id ∈ ids -> ipv4_pools d !! id = Some p ->
        forall k, 0 <= k < num p -> used p k = true).
Proof.
  intros Hids. revert paa. induction Hids as [|id ids (Hr & p & Hp & Hwf) Hids IH]; intros paa.
  { right. exists paa. split; [done|]. intros id p Hin. by apply not_elem_of_nil in Hin. }
  cbn [alloc_first]. rewrite (pool_alloc4_eq id p) by done.
  destruct (alloc_address_outcome p Hwf) as [(k & p' & -> & Hk & Hu & _ & _ & _ & Hwf' & Hu')|[-> Hall]].
  - left. exists id, p, k, p'. split_and!; try done; [by left|lia..].
  - rewrite with_pool_id by done.
    destruct (IH (set_ipv4 0 paa)) as [(id' & p' & k & p'' & Hin & H)|(paa' & E & H)].
    + left. exists id', p', k, p''. split; [by right|]. exact H.
    + right. exists paa'. split; [exact E|]. intros id' p' [->|Hin]%elem_of_cons Hp'.
      * rewrite Hp in Hp'. by injection Hp' as <-.
      * by apply (H id').
Qed.

(** A dynamic IPv4 request on a known APN: if a pool of that APN has a
    free address, the request gets one, in a pool of that APN, marks exactly
    that address and touches no other pool; if not, it is refused, and then
    every address of every pool of the APN is in use. *)
Theorem get_free_paa_ipv4 (l : string) (ap : apn_dynamic_pools) (paa : paa_t) (d : paa_dynamic) :
  paa_wf d -> apns d !! l = Some ap -> pdn_type paa = PDN_TYPE_E_IPV4 ->
  (exists id p k p', id ∈ ipv4_pool_ids ap /\ ipv4_pools d !! id = Some p /\ 0 <= k < num p /\
     used p k = false /\
     (forall k', used p' k' = if decide (k' = k) then true else used p k') /\
     get_free_paa l paa d = Val (true, with_pool id p' d, set_ipv4 (addr_at p k) paa) /\
     paa_wf (with_pool id p' d))
  \/ (exists paa', get_free_paa l paa d = Val (false, d, paa') /\
      forall id p, id ∈ ipv4_pool_ids ap -> ipv4_pools d !! id = Some p ->
        forall k, 0 <= k < num p -> used p k = true).
Proof.
  intros Hd Hl Ht. unfold get_free_paa. rewrite Hl, Ht. simpl.
  destruct (alloc_first4_spec (ipv4_pool_ids ap) d paa (Hd l ap Hl))
    as [(id & p & k & p' & Hin & Hp & Hk & Hu & Hwf & Hu' & ->)|(paa' & -> & Hall)].
  - left. exists id, p, k, p'. split_and!; try done; [lia..|]. by apply paa_wf_with_pool.
  - right. eauto.
Qed.

Definition ex_cfg : list pdn_cfg :=
  [mk_pdn_cfg "internet" ex_net (htobe32 (be32toh ex_net + 2)) (replicate 16 0) 64].
Definition ex_paa (t : Z) : paa_t := mk_paa t 0 (replicate 16 0) 0.
Definition ex_dyn : paa_dynamic := apply_config ex_cfg paa_dynamic_init.

Lemma ex_dyn_wf : paa_wf ex_dyn.
Proof.
  intros l ap Hl.
  assert (apns ex_dyn = {[ "internet"%string := mk_apn_dynamic_pools [0] [] ]}) as E by (vm_compute; reflexivity).
  rewrite E in Hl. apply lookup_singleton_Some in Hl as [_ <-].
  apply Forall_singleton. split; [lia|].
  exists (ipv4_pool_new ex_net 2). split; [vm_compute; reflexivity|].
  apply new_pool_wf; vm_compute; intuition congruence.
Qed.

Lemma get_free_paa_ipv4_witness :
  let ap := mk_apn_dynamic_pools [0] [] in let paa := ex_paa PDN_TYPE_E_IPV4 in
  (exists id p k p', id ∈ ipv4_pool_ids ap /\ ipv4_pools ex_dyn !! id = Some p /\ 0 <= k < num p /\
     used p k = false /\
     (forall k', used p' k' = if decide (k' = k) then true else used p k') /\
     get_free_paa "internet" paa ex_dyn = Val (true, with_pool id p' ex_dyn, set_ipv4 (addr_at p k) paa) /\
     paa_wf (with_pool id p' ex_dyn))
  \/ (exists paa', get_free_paa "internet" paa ex_dyn = Val (false, ex_dyn, paa') /\
      forall id p, id ∈ ipv4_pool_ids ap -> ipv4_pools ex_dyn !! id = Some p ->
        forall k, 0 <= k < num p -> used p k = true).
Proof.
  intros ap paa. apply (get_free_paa_ipv4 "internet" ap paa ex_dyn ex_dyn_wf); [|done].
  vm_compute. reflexivity.
Defined.

(** *** What apply_config registers *)

Definition v4_only (next : Z) (d : paa_dynamic) : Prop :=
  0 <= next /\ forall l ap, apns d !! l = Some ap ->
    exists id, 0 <= id < next /\ ap = mk_apn_dynamic_pools [id] [].

Lemma add_pools_v4_only l next first range pfx plen d :
  v4_only next d ->
  v4_only (next + 2) (add_pool6 l (next + 1) pfx plen (add_pool4 l next first range d)).
Proof.
  intros [H0 H]. split; [lia|]. unfold add_pool6, add_pool4.
  replace (0 <=? next) with true by (symmetry; apply Z.leb_le; lia).
  replace (0 <=? next + 1) with true by (symmetry; apply Z.leb_le; lia).
  cbn [apns ipv4_pools ipv6_pools].
  destruct (apns d !! l) as [ap0|] eqn:El; cbn [apns].
  - rewrite El. intros l' ap' Hl'. destruct (H l' ap' Hl') as (id & ? & ->). exists id. split; [lia|done].
  - rewrite lookup_insert_eq. intros l' ap' Hl'.
    apply lookup_insert_Some in Hl' as [[_ <-]|[_ Hl']].
    + exists next. split; [lia|done].
    + destruct (H l' ap' Hl') as (id & ? & ->). exists id. split; [lia|done].
Qed.

Lemma apply_config_v4_only pdns : exists next, v4_only next (apply_config pdns paa_dynamic_init).
Proof.
  unfold apply_config.
  assert (v4_only 0 paa_dynamic_init) as H0 by (split; [done|]; intros l ap H; cbn [apns paa_dynamic_init] in H; by rewrite lookup_empty in H).
  revert H0. generalize paa_dynamic_init. generalize 0.
  induction pdns as [|p pdns IH]; intros next d Hd; cbn [foldl].
  - exists next. exact Hd.
  - apply IH. by apply add_pools_v4_only.
Qed.

(** apply_config registers the IPv4 pool of each APN and never its IPv6
    pool (add_pool skips an APN that is already known), so every dynamic IPv6
    request on a configured system is refused. *)
Theorem apply_config_ipv6_refused (pdns : list pdn_cfg) (d : paa_dynamic) (l : string) (paa : paa_t) :
  apns d = apns (apply_config pdns paa_dynamic_init) -> pdn_type paa = PDN_TYPE_E_IPV6 ->
  get_free_paa l paa d = Val (false, d, paa).
Proof.
  intros Ea Ht. destruct (apply_config_v4_only pdns) as [next [_ H]]. rewrite <- Ea in H.
  unfold get_free_paa. destruct (apns d !! l) as [ap|] eqn:El; [|done].
  destruct (H l ap El) as (id & _ & ->). by rewrite Ht.
Qed.

Lemma apply_config_ipv6_refused_witness :
  get_free_paa "internet" (ex_paa PDN_TYPE_E_IPV6) ex_dyn = Val (false, ex_dyn, ex_paa PDN_TYPE_E_IPV6).
Proof. by apply (apply_config_ipv6_refused ex_cfg). Defined.

(** A dynamic IPv4v6 request on a configured system never succeeds: it is
    refused when the APN has no free IPv4 address, and otherwise reads
    through the end iterator of the pool list (undefined behaviour). *)
Theorem apply_config_ipv4v6_never (pdns : list pdn_cfg) (d : paa_dynamic) (l : string) (paa : paa_t) :
  apns d = apns (apply_config pdns paa_dynamic_init) -> pdn_type paa = PDN_TYPE_E_IPV4V6 ->
  get_free_paa l paa d = UB \/ exists d' paa', get_free_paa l paa d = Val (false, d', paa').
Proof.
  intros Ea Ht. destruct (apply_config_v4_only pdns) as [next [_ H]]. rewrite <- Ea in H.
  unfold get_free_paa. destruct (apns d !! l) as [ap|] eqn:El; [|eauto].
  destruct (H l ap El) as (id & _ & ->). rewrite Ht. simpl.
  destruct (pool_alloc4 id d paa) as [[ok d'] paa']. destruct ok; simpl; eauto.
Qed.

Lemma apply_config_ipv4v6_never_witness :
  (get_free_paa "internet" (ex_paa PDN_TYPE_E_IPV4V6) ex_dyn = UB \/
   exists d' paa', get_free_paa "internet" (ex_paa PDN_TYPE_E_IPV4V6) ex_dyn = Val (false, d', paa')) /\
  get_free_paa "internet" (ex_paa PDN_TYPE_E_IPV4V6) ex_dyn = UB.
Proof. split; [by apply (apply_config_ipv4v6_never ex_cfg)|vm_compute; reflexivity]. Defined.

(** Two well-formed pools with the same parameters and the same offsets in use
    are the same pool. *)
Lemma pool_ext p p' :
  pool_wf p -> pool_wf p' -> start p' = start p -> num p' = num p ->
  (forall k, used p' k = used p k) -> p' = p.
Proof.
  intros (_ & _ & _ & Hb) (_ & _ & _ & Hb') Hs Hn Hu. rewrite Hn in Hb'.
  destruct p as [s n m], p' as [s' n' m']; simpl in *. subst. f_equal.
  apply map_eq. intros i. destruct (decide (0 <= i < nwords n)) as [Hi|Hi].
  - destruct (pool_word_Some n m i Hb Hi) as [-> Hf], (pool_word_Some n m' i Hb' Hi) as [-> Hf'].
    f_equal. apply Z.bits_inj'. intros j Hj. destruct (decide (j < 32)).
    + specialize (Hu (32 * i + j)). unfold used, bit_used in Hu. cbn [alloc] in Hu.
      destruct (join32 i j ltac:(lia)) as [E1 E2]. by rewrite E1, E2 in Hu.
    + rewrite !testbit_above by (done || lia). done.
  - rewrite <- (bw_dom _ _ Hb), <- eq_None_not_Some in Hi. rewrite Hi.
    apply eq_None_not_Some. rewrite (bw_dom _ _ Hb'), <- (bw_dom _ _ Hb), Hi. by intros [].
Qed.

(** Round trip: releasing the address a dynamic IPv4 request was given
    restores the pools exactly. *)
Theorem get_release_roundtrip (l : string) (id : Z) (p : ipv4_pool) (paa paa' : paa_t) (d d' : paa_dynamic) :
  paa_wf d -> apns d !! l = Some (mk_apn_dynamic_pools [id] []) ->
  ipv4_pools d !! id = Some p -> same_half p -> pdn_type paa = PDN_TYPE_E_IPV4 ->
  get_free_paa l paa d = Val (true, d', paa') ->
  release_paa_ipv4 l (ipv4_address paa') d' = Val (true, d).
Proof.
  intros Hd Hl Hp Hh Ht E. unfold get_free_paa in E. rewrite Hl, Ht in E.
  pose proof (Hd l _ Hl) as Hids. apply Forall_singleton in Hids as (Hr & p0 & Hp0 & Hwf).
  rewrite Hp in Hp0. injection Hp0 as <-. simpl in E.
  rewrite (pool_alloc4_eq id p) in E by done.
  destruct (alloc_address_outcome p Hwf) as [(k & p' & E' & Hk & Hu & _ & Hst & Hn & Hwf' & Hu')|[E' _]];
    rewrite E' in E; [|done]. injection E as <- <-.
  unfold release_paa_ipv4. cbn [apns with_pool set_ipv4 ipv4_address ipv4_pool_ids free_first].
  rewrite Hl. cbn [ipv4_pool_ids free_first with_pool ipv4_pools ipv6_pools apns].
  unfold map_ref. rewrite int32_id, lookup_insert_eq by lia.
  assert (same_half p') as Hh' by (unfold same_half in *; by rewrite Hst, Hn).
  rewrite <- (addr_at_ext p p' k Hst).
  destruct (free_address_outcome p' k Hwf' Hh') as (p'' & -> & Hst' & Hn' & Hwf'' & Hu''); [lia|].
  simpl. assert (p'' = p) as ->.
  { apply pool_ext; try done; [congruence..|]. intros k'. rewrite Hu'', Hu'. case_decide; congruence. }
  rewrite insert_insert_eq, insert_id by done. by destruct d.
Qed.

Lemma get_release_roundtrip_witness :
  exists d' paa', get_free_paa "internet" (ex_paa 1) ex_dyn = Val (true, d', paa') /\
    release_paa_ipv4 "internet" (ipv4_address paa') d' = Val (true, ex_dyn).
Proof.
  eexists _, _. split; [vm_compute; reflexivity|].
  eapply (get_release_roundtrip "internet" 0 (ipv4_pool_new ex_net 2) (ex_paa 1));
    [apply ex_dyn_wf|vm_compute; reflexivity|vm_compute; reflexivity| |done|vm_compute; reflexivity].
  left. vm_compute. congruence.
Defined.
