(* ===== verification/Itti.v ===== *)
(** * Inter-task interface: message queues and timers

    [src/itti/itti.cpp], [itti.hpp], [itti_msg.hpp]: one mailbox per task,
    unicast and broadcast sends, and a timer thread that turns a due timer
    into a TIME_OUT message for the task that armed it.

    The mailboxes are a map from task id to a context; a send or a receive is
    one critical section of the mailbox and one function on the state.

    The timers are shared by several threads, and only part of the accesses
    is under [m_timers].  The timer thread ([timer_manager_task]) is a state
    machine with program counter [tm_pc]: it takes a timer under the mutex,
    but reads the fields of [current_timer] one by one and sends the message
    without it.  A call of [timer_setup] is a state machine too ([setup_pc]):
    [++timer_id] loads and stores outside any mutex, then the clock is read,
    then the timer goes into the set under the mutex.  [itti_step] interleaves
    any number of such calls with the timer thread, [timer_remove] (one
    critical section) and message traffic; [timer_setup] is the same call run
    without interference ([timer_setup_sequential]), which is what the clients
    of one task use.  An assignment to [current_timer] is one step.  Times are
    nanoseconds of [system_clock]. *)
From S2P Require Import Prelude.
From Stdlib Require Import ZArith Lia.
From stdpp Require Import base gmap numbers tactics sorting list.
Open Scope Z_scope.

Definition RETURNok : Z := 0.
Definition RETURNerror : Z := 1.

Definition TASK_FIRST : Z := 0.
Definition TASK_ITTI_TIMER : Z := 0.
Definition TASK_MAX : Z := 21.
Definition TASK_NONE : Z := 22.
Definition TASK_ALL : Z := 255.

Definition ITTI_INVALID_TIMER_ID : Z := 0.

Inductive task_state_t :=
| TASK_STATE_NOT_CONFIGURED
| TASK_STATE_STARTING
| TASK_STATE_READY
| TASK_STATE_ENDED
| TASK_STATE_MAX.

#[export] Instance task_state_eq_dec : EqDecision task_state_t.
Proof. solve_decision. Defined.

(** [itti_msg] and the subclasses the middleware itself builds; every other
    message type is [MSG_OTHER] with its [itti_msg_type_t]. *)
Inductive itti_body :=
| MSG_TIME_OUT (timer_id arg1_user arg2_user : Z)
| MSG_TERMINATE
| MSG_OTHER (msg_type : Z).

Record itti_msg := mk_itti_msg {
  origin : Z;
  destination : Z;
  body : itti_body;
}.

Record itti_task_ctxt := mk_task_ctxt {
  task_state : task_state_t;
  msg_queue : list itti_msg;
  joinable : bool;
}.

Record itti_timer := mk_itti_timer {
  t_id : Z;
  t_task_id : Z;
  t_time_out : Z;
  t_arg1_user : Z;
  t_arg2_user : Z;
}.

(** The arguments of [itti_msg_timeout mto(...)], as far as they are read. *)
Record time_out_args := mk_args {
  ta_task : option Z;
  ta_id : option Z;
  ta_arg1 : option Z;
  ta_arg2 : option Z;
}.

Definition no_args : time_out_args := mk_args None None None None.

(** Where the timer thread is: at the test of [terminate]; gone; before or in
    [c_timers.wait]; after taking a timer out of the set; before computing how
    long to wait; inside [c_timeout.wait_for] until the given time; reading
    [current_timer] for the message of a timer found due at the given time. *)
Inductive tm_pc :=
| TM_TOP
| TM_END
| TM_TAKE
| TM_CHECK
| TM_ARM
| TM_WAIT (until : Z)
| TM_READ (since : Z) (args : time_out_args).

Record itti_mw := mk_itti {
  itti_task_ctxts : gmap Z itti_task_ctxt;
  timer_id : Z;
  created_tasks : Z;
  timers : list itti_timer;      (* std::set ordered by time_out *)
  current_timer : itti_timer;
  tm_state : tm_pc;
  terminate : bool;
}.

(** ** Mailboxes *)

Definition valid_task (t : Z) : bool := (TASK_FIRST <=? t) && (t <? TASK_MAX).

Definition push_msg (m : itti_msg) (c : itti_task_ctxt) : itti_task_ctxt :=
  mk_task_ctxt (task_state c) (msg_queue c ++ [m]) (joinable c).

Definition set_ctxts (cs : gmap Z itti_task_ctxt) (s : itti_mw) : itti_mw :=
  mk_itti cs (timer_id s) (created_tasks s) (timers s) (current_timer s) (tm_state s) (terminate s).

(** [create_task] up to the start of the thread; it then waits until the new
    task is READY or ENDED before it returns 0. *)
Definition create_task (task_id : Z) (has_routine : bool) (s : itti_mw) : Z * itti_mw :=
  if negb has_routine then (RETURNerror, s)
  else if valid_task task_id then
    match itti_task_ctxts s !! task_id with
    | None =>
      (0, mk_itti (<[task_id := mk_task_ctxt TASK_STATE_STARTING [] true]> (itti_task_ctxts s))
            (timer_id s) (created_tasks s + 1) (timers s) (current_timer s) (tm_state s) (terminate s))
    | Some _ => (RETURNerror, s)
    end
  else (RETURNerror, s).

Definition notify_task_ready (task_id : Z) (s : itti_mw) : Z * itti_mw :=
  match itti_task_ctxts s !! task_id with
  | Some c =>
    if decide (task_state c = TASK_STATE_STARTING) then
      (RETURNok, set_ctxts (<[task_id := mk_task_ctxt TASK_STATE_READY (msg_queue c) (joinable c)]>
                              (itti_task_ctxts s)) s)
    else (RETURNerror, s)
  | None => (RETURNerror, s)
  end.

(** The body of the broadcast loop for one task. *)
Definition broadcast_one (m : itti_msg) (c : itti_task_ctxt) : itti_task_ctxt :=
  if decide (task_state c = TASK_STATE_READY) then push_msg m c else c.

Definition send_broadcast_msg (m : itti_msg) (s : itti_mw) : Z * itti_mw :=
  if destination m =? TASK_ALL then
    (RETURNok,
     set_ctxts (map_imap (fun t c => Some (if valid_task t then broadcast_one m c else c))
                  (itti_task_ctxts s)) s)
  else (RETURNerror, s).

Definition send_msg (m : itti_msg) (s : itti_mw) : Z * itti_mw :=
  if valid_task (destination m) then
    match itti_task_ctxts s !! destination m with
    | Some c =>
      match task_state c with
      | TASK_STATE_READY =>
        (RETURNok, set_ctxts (<[destination m := push_msg m c]> (itti_task_ctxts s)) s)
      | _ => (RETURNerror, s)
      end
    | None => (RETURNerror, s)
    end
  else if destination m =? TASK_ALL then send_broadcast_msg m s
  else (RETURNerror, s).

Definition send_terminate_msg (src_task_id : Z) (s : itti_mw) : Z * itti_mw :=
  let s := mk_itti (itti_task_ctxts s) (timer_id s) (created_tasks s) (timers s)
             (current_timer s) (tm_state s) true in
  send_broadcast_msg (mk_itti_msg src_task_id TASK_ALL MSG_TERMINATE) s.

(** Taking the front message; [receive_msg] waits while the queue is empty
    ([None]: blocked), [poll_msg] returns the null pointer instead. *)
Inductive received := Got (m : itti_msg) | Null | Blocked.

Definition pop_msg (task_id : Z) (c : itti_task_ctxt) (s : itti_mw) (empty : received)
  : received * itti_mw :=
  match msg_queue c with
  | [] => (empty, s)
  | m :: q =>
    (Got m, set_ctxts (<[task_id := mk_task_ctxt (task_state c) q (joinable c)]> (itti_task_ctxts s)) s)
  end.

Definition receive_msg (task_id : Z) (s : itti_mw) : received * itti_mw :=
  if valid_task task_id then
    match itti_task_ctxts s !! task_id with
    | Some c => pop_msg task_id c s Blocked
    | None => (Null, s)
    end
  else (Null, s).

Definition poll_msg (task_id : Z) (s : itti_mw) : received * itti_mw :=
  if valid_task task_id then
    match itti_task_ctxts s !! task_id with
    | Some c => pop_msg task_id c s Null
    | None => (Null, s)
    end
  else (Null, s).

(** All threads joined: every task that still had a thread is ENDED. *)
Definition wait_tasks_end (s : itti_mw) : itti_mw :=
  set_ctxts (map_imap (fun t c => Some
    (if valid_task t && joinable c then mk_task_ctxt TASK_STATE_ENDED (msg_queue c) false else c))
    (itti_task_ctxts s)) s.

(** ** Timers *)

(** [std::set<itti_timer, timer_comparator>::insert]: ordered by [time_out];
    an element equivalent to the new one (same [time_out]) keeps it out. *)
Fixpoint timers_insert (t : itti_timer) (l : list itti_timer) : list itti_timer :=
  match l with
  | [] => [t]
  | x :: l =>
    if t_time_out t <? t_time_out x then t :: x :: l
    else if t_time_out x <? t_time_out t then x :: timers_insert t l
    else x :: l
  end.

(** The [while] of [timer_remove]: erase the first element with that id. *)
Fixpoint timers_erase (id : Z) (l : list itti_timer) : bool * list itti_timer :=
  match l with
  | [] => (false, [])
  | x :: l =>
    if t_id x =? id then (true, l)
    else let '(b, l) := timers_erase id l in (b, x :: l)
  end.

Section itti.
(** The clock when [null_timer] was built. *)
Context (boot : Z).

Definition deadline (now interval_sec interval_us : Z) : Z :=
  now + interval_sec * 1000000000 + interval_us * 1000.

Definition null_timer : itti_timer :=
  mk_itti_timer ITTI_INVALID_TIMER_ID TASK_NONE (deadline boot 4294967295 4294967295) 0 0.

Definition itti_init : itti_mw := mk_itti ∅ 0 0 [] null_timer TM_TOP false.

Definition set_timers (ts : list itti_timer) (cur : itti_timer) (pc : tm_pc) (s : itti_mw) : itti_mw :=
  mk_itti (itti_task_ctxts s) (timer_id s) (created_tasks s) ts cur pc (terminate s).

(** A whole call of timer_setup that no other thread's steps come between
    ([timer_setup_sequential]); the call in its separate steps, the unlocked
    increment of [timer_id] first, is [setup_step] below. *)
Definition timer_setup (now interval_sec interval_us task_id arg1 arg2 : Z) (s : itti_mw) : Z * itti_mw :=
  if (TASK_FIRST <? task_id) && (task_id <? TASK_MAX) then
    let id := u32 (timer_id s + 1) in
    let t := mk_itti_timer id task_id (deadline now interval_sec interval_us) arg1 arg2 in
    (id, mk_itti (itti_task_ctxts s) id (created_tasks s) (timers_insert t (timers s))
           (current_timer s) (tm_state s) (terminate s))
  else (ITTI_INVALID_TIMER_ID, s).

Definition timer_remove (id : Z) (s : itti_mw) : Z * itti_mw :=
  if t_id (current_timer s) =? id then
    (RETURNok, set_timers (timers s) null_timer (tm_state s) s)
  else
    let '(found, ts) := timers_erase id (timers s) in
    ((if found then RETURNok else RETURNerror), set_timers ts (current_timer s) (tm_state s) s).

(** [timer_manager_task], in the order of its loop.  [tm_top]: the test of
    [terminate]. *)
Definition tm_goto (pc : tm_pc) (s : itti_mw) : itti_mw := set_timers (timers s) (current_timer s) pc s.

Definition tm_top (s : itti_mw) : option itti_mw :=
  match tm_state s with
  | TM_TOP => Some (tm_goto (if terminate s then TM_END else TM_TAKE) s)
  | _ => None
  end.

(** Under [m_timers], once the set is not empty: its first timer becomes the
    current one. *)
Definition tm_take (s : itti_mw) : option itti_mw :=
  match tm_state s, timers s with
  | TM_TAKE, t :: ts => Some (set_timers ts t TM_CHECK s)
  | _, _ => None
  end.

(** The time-out check, after [lx.unlock()]: wait, or signal. *)
Definition tm_check (now : Z) (s : itti_mw) : option itti_mw :=
  match tm_state s with
  | TM_CHECK =>
    if now <? t_time_out (current_timer s) then Some (tm_goto TM_ARM s)
    else Some (tm_goto (TM_READ now no_args) s)
  | _ => None
  end.

(** [diff], from [current_timer] read again, and the start of [wait_for]. *)
Definition tm_arm (s : itti_mw) : option itti_mw :=
  match tm_state s with
  | TM_ARM => Some (tm_goto (TM_WAIT (t_time_out (current_timer s))) s)
  | _ => None
  end.

(** [wait_for] returned [timeout]. *)
Definition tm_wait_timeout (now : Z) (s : itti_mw) : option itti_mw :=
  match tm_state s with
  | TM_WAIT until => if until <=? now then Some (tm_goto (TM_READ now no_args) s) else None
  | _ => None
  end.

(** [wait_for] was woken: under [m_timers], the current timer goes back to
    the set. *)
Definition tm_wait_notified (s : itti_mw) : option itti_mw :=
  match tm_state s with
  | TM_WAIT _ =>
    let ts := if t_id (current_timer s) =? ITTI_INVALID_TIMER_ID then timers s
              else timers_insert (current_timer s) (timers s) in
    Some (set_timers ts null_timer TM_TOP s)
  | _ => None
  end.

(** One argument of [itti_msg_timeout mto(...)]: C++ leaves their order open,
    and no mutex is held. *)
Inductive timer_field := F_task | F_id | F_arg1 | F_arg2.

Definition read_field (f : timer_field) (t : itti_timer) (a : time_out_args) : option time_out_args :=
  match f, a with
  | F_task, mk_args None i x y => Some (mk_args (Some (t_task_id t)) i x y)
  | F_id, mk_args k None x y => Some (mk_args k (Some (t_id t)) x y)
  | F_arg1, mk_args k i None y => Some (mk_args k i (Some (t_arg1_user t)) y)
  | F_arg2, mk_args k i x None => Some (mk_args k i x (Some (t_arg2_user t)))
  | _, _ => None
  end.

Definition tm_read (f : timer_field) (s : itti_mw) : option itti_mw :=
  match tm_state s with
  | TM_READ since a =>
    match read_field f (current_timer s) a with
    | Some a => Some (tm_goto (TM_READ since a) s)
    | None => None
    end
  | _ => None
  end.

(** [send_msg(msgsh)], with the message built from the arguments read. *)
Definition tm_send (s : itti_mw) : option (itti_msg * itti_mw) :=
  match tm_state s with
  | TM_READ _ (mk_args (Some task) (Some id) (Some a1) (Some a2)) =>
    let m := mk_itti_msg TASK_ITTI_TIMER task (MSG_TIME_OUT id a1 a2) in
    Some (m, tm_goto TM_TOP (send_msg m s).2)
  | _ => None
  end.

(** ** Calls of timer_setup in other threads *)

Inductive setup_pc :=
| SU_CALLED
| SU_LOADED (v : Z)            (* ++timer_id, old value read *)
| SU_STORED (id : Z)           (* ++timer_id, new value written *)
| SU_BUILT (t : itti_timer).   (* itti_timer t constructed, its clock read *)

Record setup_call := mk_call {
  sc_sec : Z;
  sc_us : Z;
  sc_task : Z;
  sc_arg1 : Z;
  sc_arg2 : Z;
  sc_pc : setup_pc;
}.

Definition call_at (pc : setup_pc) (c : setup_call) : setup_call :=
  mk_call (sc_sec c) (sc_us c) (sc_task c) (sc_arg1 c) (sc_arg2 c) pc.

Inductive itti_event :=
| EvLoad
| EvStore
| EvArm (t : itti_timer)
| EvRemove (id : Z)
| EvFire (id : Z) (since : Z)
| EvTimeOut (m : itti_msg)
| EvTau.

Definition set_timer_id (id : Z) (s : itti_mw) : itti_mw :=
  mk_itti (itti_task_ctxts s) id (created_tasks s) (timers s) (current_timer s) (tm_state s) (terminate s).

(** One step of a call: what the other threads see, the call's continuation
    ([inr id]: it returned [id]) and the state. *)
Definition setup_step (now : Z) (c : setup_call) (s : itti_mw)
  : itti_event * (setup_call + Z) * itti_mw :=
  match sc_pc c with
  | SU_CALLED =>
    if (TASK_FIRST <? sc_task c) && (sc_task c <? TASK_MAX)
    then (EvLoad, inl (call_at (SU_LOADED (timer_id s)) c), s)
    else (EvTau, inr ITTI_INVALID_TIMER_ID, s)
  | SU_LOADED v =>
    let id := u32 (v + 1) in (EvStore, inl (call_at (SU_STORED id) c), set_timer_id id s)
  | SU_STORED id =>
    (EvTau, inl (call_at (SU_BUILT (mk_itti_timer id (sc_task c) (deadline now (sc_sec c) (sc_us c))
                                      (sc_arg1 c) (sc_arg2 c))) c), s)
  | SU_BUILT t =>
    (EvArm t, inr (t_id t), set_timers (timers_insert t (timers s)) (current_timer s) (tm_state s) s)
  end.

(** ** Interleavings *)

Record itti_threads := mk_threads {
  th_mw : itti_mw;
  th_calls : list setup_call;
}.

Definition threads_init : itti_threads := mk_threads itti_init [].

Inductive itti_step : itti_threads -> itti_event -> itti_threads -> Prop :=
| step_call s cs sec us task a1 a2 :
    fits 32 sec -> fits 32 us ->
    itti_step (mk_threads s cs) EvTau (mk_threads s (mk_call sec us task a1 a2 SU_CALLED :: cs))
| step_setup s cs1 c cs2 now e c' s' :
    setup_step now c s = (e, inl c', s') ->
    itti_step (mk_threads s (cs1 ++ c :: cs2)) e (mk_threads s' (cs1 ++ c' :: cs2))
| step_return s cs1 c cs2 now e id s' :
    setup_step now c s = (e, inr id, s') ->
    itti_step (mk_threads s (cs1 ++ c :: cs2)) e (mk_threads s' (cs1 ++ cs2))
| step_remove s cs id rc s' :
    timer_remove id s = (rc, s') -> itti_step (mk_threads s cs) (EvRemove id) (mk_threads s' cs)
| step_top s cs s' : tm_top s = Some s' -> itti_step (mk_threads s cs) EvTau (mk_threads s' cs)
| step_take s cs s' : tm_take s = Some s' -> itti_step (mk_threads s cs) EvTau (mk_threads s' cs)
| step_check s cs now s' :
    tm_check now s = Some s' -> itti_step (mk_threads s cs) EvTau (mk_threads s' cs)
| step_arm s cs s' : tm_arm s = Some s' -> itti_step (mk_threads s cs) EvTau (mk_threads s' cs)
| step_wait_timeout s cs now s' :
    tm_wait_timeout now s = Some s' -> itti_step (mk_threads s cs) EvTau (mk_threads s' cs)
| step_notified s cs s' :
    tm_wait_notified s = Some s' -> itti_step (mk_threads s cs) EvTau (mk_threads s' cs)
| step_read s cs f since a s' :
    tm_state s = TM_READ since a -> tm_read f s = Some s' ->
    itti_step (mk_threads s cs)
      (match f with F_id => EvFire (t_id (current_timer s)) since | _ => EvTau end) (mk_threads s' cs)
| step_time_out s cs m s' :
    tm_send s = Some (m, s') -> itti_step (mk_threads s cs) (EvTimeOut m) (mk_threads s' cs)
| step_send s cs m rc s' :
    send_msg m s = (rc, s') -> itti_step (mk_threads s cs) EvTau (mk_threads s' cs)
| step_receive s cs t r s' :
    receive_msg t s = (r, s') -> itti_step (mk_threads s cs) EvTau (mk_threads s' cs)
| step_terminate s cs t rc s' :
    send_terminate_msg t s = (rc, s') -> itti_step (mk_threads s cs) EvTau (mk_threads s' cs).

Inductive itti_run : itti_threads -> list itti_event -> itti_threads -> Prop :=
| itti_run_nil s : itti_run s [] s
| itti_run_cons s e s1 tr s2 : itti_step s e s1 -> itti_run s1 tr s2 -> itti_run s (e :: tr) s2.

(** A call run without interference is [timer_setup]. *)
Fixpoint setup_alone (fuel : nat) (now : Z) (c : setup_call) (s : itti_mw) : option (Z * itti_mw) :=
  match fuel with
  | O => None
  | S fuel =>
    match setup_step now c s with
    | (_, inl c, s) => setup_alone fuel now c s
    | (_, inr id, s) => Some (id, s)
    end
  end.

Lemma timer_setup_sequential now sec us task a1 a2 s :
  setup_alone 4 now (mk_call sec us task a1 a2 SU_CALLED) s = Some (timer_setup now sec us task a1 a2 s).
Proof. unfold timer_setup. cbn. by destruct (_ && _). Qed.

End itti.

(** ** The mailboxes are FIFO channels *)

Inductive mb_event := EvSend (m : itti_msg) | EvRecv (t : Z) (m : itti_msg).

Inductive mb_run : itti_mw -> list mb_event -> itti_mw -> Prop :=
| mb_run_nil s : mb_run s [] s
| mb_run_send s m rc s1 tr s2 :
    send_msg m s = (rc, s1) -> mb_run s1 tr s2 -> mb_run s (EvSend m :: tr) s2
| mb_run_recv s t m s1 tr s2 :
    receive_msg t s = (Got m, s1) -> mb_run s1 tr s2 -> mb_run s (EvRecv t m :: tr) s2.

(** The messages of a run addressed to [t], and those [t] took. *)
Fixpoint sent_to (t : Z) (tr : list mb_event) : list itti_msg :=
  match tr with
  | [] => []
  | EvSend m :: tr =>
    if decide (destination m = t \/ destination m = TASK_ALL) then m :: sent_to t tr else sent_to t tr
  | EvRecv _ _ :: tr => sent_to t tr
  end.

Fixpoint recv_by (t : Z) (tr : list mb_event) : list itti_msg :=
  match tr with
  | [] => []
  | EvSend _ :: tr => recv_by t tr
  | EvRecv t' m :: tr => if decide (t' = t) then m :: recv_by t tr else recv_by t tr
  end.

Lemma valid_task_not_all t : valid_task t = true -> t <> TASK_ALL.
Proof. unfold valid_task, TASK_FIRST, TASK_MAX, TASK_ALL. lia. Qed.

(** One send, seen from the mailbox of a READY task [t]. *)
Lemma send_msg_mailbox m s rc s' t c :
  valid_task t = true -> itti_task_ctxts s !! t = Some c -> task_state c = TASK_STATE_READY ->
  send_msg m s = (rc, s') ->
  itti_task_ctxts s' !! t =
    Some (if decide (destination m = t \/ destination m = TASK_ALL) then push_msg m c else c).
Proof.
  intros Hv Hc Hr E. pose proof (valid_task_not_all t Hv) as Hna. unfold send_msg in E.
  destruct (valid_task (destination m)) eqn:Hd.
  - pose proof (valid_task_not_all _ Hd) as Hda.
    destruct (decide (destination m = t)) as [Heq|Hne].
    + rewrite Heq in *. rewrite Hc, Hr in E. injection E as _ <-. simpl.
      rewrite lookup_insert_eq, decide_True by auto. done.
    + rewrite decide_False by tauto.
      destruct (itti_task_ctxts s !! destination m) as [c'|]; [|by injection E as _ <-].
      destruct (task_state c'); injection E as _ <-; simpl; rewrite ?lookup_insert_ne by done; done.
  - destruct (Z.eqb_spec (destination m) TASK_ALL) as [Hall|Hall].
    + unfold send_broadcast_msg in E. rewrite Hall in E. simpl in E. injection E as _ <-. simpl.
      rewrite map_lookup_imap, Hc. simpl. rewrite Hv.
      unfold broadcast_one. rewrite !decide_True by auto. done.
    + injection E as _ <-. rewrite Hc, decide_False; [done|]. intros [Heq|]; congruence.
Qed.

Lemma receive_msg_mailbox t' s m s' t c :
  valid_task t = true -> itti_task_ctxts s !! t = Some c ->
  receive_msg t' s = (Got m, s') ->
  (t' = t /\ exists q, msg_queue c = m :: q /\
     itti_task_ctxts s' !! t = Some (mk_task_ctxt (task_state c) q (joinable c)))
  \/ (t' <> t /\ itti_task_ctxts s' !! t = Some c).
Proof.
  intros Hv Hc E. unfold receive_msg in E. destruct (valid_task t'); [|done].
  destruct (itti_task_ctxts s !! t') as [c'|] eqn:Hc'; [|done].
  unfold pop_msg in E. destruct (msg_queue c') as [|m' q] eqn:Hq; [done|].
  injection E as -> <-. simpl. destruct (decide (t' = t)) as [->|Hne].
  - left. rewrite Hc in Hc'. injection Hc' as <-. split; [done|]. exists q.
    by rewrite lookup_insert_eq.
  - right. by rewrite lookup_insert_ne.
Qed.

(** Each READY task's mailbox is a FIFO channel: over any run of sends and
    receives, what was queued plus what was sent to the task, in order, is
    what the task received plus what is still queued; nothing is lost,
    duplicated or reordered. *)
Theorem mailbox_fifo (s s' : itti_mw) (tr : list mb_event) (t : Z) (c : itti_task_ctxt) :
  valid_task t = true -> itti_task_ctxts s !! t = Some c -> task_state c = TASK_STATE_READY ->
  mb_run s tr s' ->
  exists c', itti_task_ctxts s' !! t = Some c' /\ task_state c' = TASK_STATE_READY /\
    msg_queue c ++ sent_to t tr = recv_by t tr ++ msg_queue c'.
Proof.
  intros Hv Hc Hr Hrun. revert c Hc Hr.
  induction Hrun as [s|s m rc s1 tr s2 E Hrun IH|s t' m s1 tr s2 E Hrun IH]; intros c Hc Hr; simpl.
  - exists c. by rewrite app_nil_r.
  - pose proof (send_msg_mailbox m s rc s1 t c Hv Hc Hr E) as H1. case_decide.
    + destruct (IH _ H1 Hr) as (c' & ? & ? & Eq). exists c'. split_and!; [done..|].
      rewrite <- Eq. simpl. by rewrite <- app_assoc.
    + by apply IH.
  - destruct (receive_msg_mailbox t' s m s1 t c Hv Hc E) as [(-> & q & Hq & H1)|(Hne & H1)].
    + rewrite decide_True by done. destruct (IH _ H1 Hr) as (c' & ? & ? & Eq). exists c'.
      split_and!; [done..|]. simpl in Eq. rewrite Hq. simpl. by rewrite Eq.
    + rewrite decide_False by done. by apply IH.
Qed.

Definition ex_mw : itti_mw :=
  mk_itti {[ 4 := mk_task_ctxt TASK_STATE_READY [] true ]} 0 1 [] (null_timer 0) TM_TOP false.

Lemma mailbox_fifo_witness :
  let m1 := mk_itti_msg 6 4 (MSG_OTHER 3) in let m2 := mk_itti_msg 6 TASK_ALL MSG_TERMINATE in
  exists s' c', itti_task_ctxts s' !! 4 = Some c' /\ task_state c' = TASK_STATE_READY /\
    [] ++ sent_to 4 [EvSend m1; EvSend m2; EvRecv 4 m1] = recv_by 4 [EvSend m1; EvSend m2; EvRecv 4 m1] ++ msg_queue c'.
Proof.
  intros m1 m2. eexists.
  eapply (mailbox_fifo ex_mw _ _ 4 (mk_task_ctxt TASK_STATE_READY [] true)); [done|done|done|].
  eapply mb_run_send; [vm_compute; reflexivity|].
  eapply mb_run_send; [vm_compute; reflexivity|].
  eapply mb_run_recv; [vm_compute; reflexivity|].
  apply mb_run_nil.
Defined.

(** ** The timer service *)

(** The set keeps the strict order of [time_out]. *)
Abbreviation timers_sorted := (StronglySorted (fun a b => t_time_out a < t_time_out b)).

Lemma timers_insert_elem t l x : x ∈ timers_insert t l -> x = t \/ x ∈ l.
Proof.
  induction l as [|y l IH]; simpl.
  - rewrite list_elem_of_singleton. auto.
  - repeat case_match; rewrite ?elem_of_cons; naive_solver.
Qed.

Lemma timers_insert_sorted t l : timers_sorted l -> timers_sorted (timers_insert t l).
Proof.
  induction 1 as [|y l Hl IH Hy]; simpl; [repeat constructor|].
  destruct (Z.ltb_spec (t_time_out t) (t_time_out y)).
  - constructor; [by constructor|]. constructor; [done|].
    eapply Forall_impl; [exact Hy|]. simpl. intros; lia.
  - destruct (Z.ltb_spec (t_time_out y) (t_time_out t)); [|by constructor].
    constructor; [done|]. apply Forall_forall. intros x [->|Hx]%timers_insert_elem; [done|].
    by eapply Forall_forall in Hy.
Qed.

(** Insertion either adds the timer or, when another timer has the same
    deadline, leaves the set as it was. *)
Lemma timers_insert_perm t l :
  timers_insert t l ≡ₚ t :: l \/
  (timers_insert t l = l /\ exists x, x ∈ l /\ t_time_out x = t_time_out t).
Proof.
  induction l as [|y l IH]; simpl; [by left|].
  destruct (Z.ltb_spec (t_time_out t) (t_time_out y)); [by left|].
  destruct (Z.ltb_spec (t_time_out y) (t_time_out t)).
  - destruct IH as [IH|[IH (x & Hx & E)]].
    + left. rewrite IH. apply Permutation_swap.
    + right. rewrite IH. split; [done|]. exists x. split; [by right|done].
  - right. split; [done|]. exists y. split; [by left|lia].
Qed.

Lemma timers_erase_spec id l b l' :
  timers_erase id l = (b, l') ->
  l' `sublist_of` l /\ (forall x, x ∈ l -> t_id x <> id -> x ∈ l') /\
  (NoDup (t_id <$> l) -> id ∉ t_id <$> l').
Proof.
  revert b l'. induction l as [|y l IH]; simpl; intros b l' E.
  { injection E as _ <-. split_and!; [done|done|]. intros _. apply not_elem_of_nil. }
  destruct (Z.eqb_spec (t_id y) id) as [He|He].
  - injection E as _ <-. split_and!.
    + by apply sublist_cons.
    + intros x [->|Hx]%elem_of_cons Hne; [done|done].
    + intros Hnd. apply NoDup_cons in Hnd as [Hni _]. by rewrite <- He.
  - destruct (timers_erase id l) as [b' l''] eqn:E'. injection E as _ <-.
    destruct (IH _ _ eq_refl) as (Hs & Hk & Hn). split_and!.
    + by apply sublist_skip.
    + intros x [->|Hx]%elem_of_cons Hne; [by left|right; by apply Hk].
    + intros Hnd. apply NoDup_cons in Hnd as [_ Hnd]. simpl.
      rewrite not_elem_of_cons. split; [congruence|by apply Hn].
Qed.

Lemma timers_erase_found id l ts :
  timers_erase id l = (true, ts) -> exists x, x ∈ l /\ t_id x = id.
Proof.
  revert ts. induction l as [|y l IH]; simpl; intros ts E; [done|].
  destruct (Z.eqb_spec (t_id y) id) as [He|He]; [exists y; split; [by left|done]|].
  destruct (timers_erase id l) as [b l']. injection E as -> _.
  destruct (IH l' eq_refl) as (x & Hx & Ex). exists x. split; [by right|done].
Qed.

Section timer_service.
Context (boot : Z).

(** The abstract timer table: the armed timers, and the one whose TIME_OUT is
    being sent, with its data unless it was removed since it fired.  A timer
    fires only when it is armed and its deadline has passed, which disarms it;
    a TIME_OUT message is sent only for the timer that fired last, and goes to
    that timer's task with that timer's arguments unless it was removed in
    between. *)
Record timer_table := mk_table {
  armed : gmap Z itti_timer;
  firing : option (Z * option itti_timer);
}.

Definition table_ok (T : timer_table) (e : itti_event) : Prop :=
  match e with
  | EvFire id since =>
    id = ITTI_INVALID_TIMER_ID \/
    exists t, armed T !! id = Some t /\ t_id t = id /\ t_time_out t <= since
  | EvTimeOut m =>
    exists id a1 a2 ot, body m = MSG_TIME_OUT id a1 a2 /\ firing T = Some (id, ot) /\
      forall t, ot = Some t ->
        destination m = t_task_id t /\ a1 = t_arg1_user t /\ a2 = t_arg2_user t
  | _ => True
  end.

Definition table_next (T : timer_table) (e : itti_event) : timer_table :=
  match e with
  | EvArm t => mk_table (<[t_id t := t]> (armed T)) (firing T)
  | EvRemove id =>
    mk_table (delete id (armed T))
      (match firing T with
       | Some (f, ot) => Some (f, if f =? id then None else ot)
       | None => None
       end)
  | EvFire id _ => mk_table (delete id (armed T)) (Some (id, armed T !! id))
  | EvTimeOut _ => mk_table (armed T) None
  | EvLoad | EvStore | EvTau => T
  end.

Fixpoint table_allows (T : timer_table) (tr : list itti_event) : Prop :=
  match tr with
  | [] => True
  | e :: tr => table_ok T e /\ table_allows (table_next T e) tr
  end.

Definition table_init : timer_table := mk_table ∅ None.

Definition is_store (e : itti_event) : Z := match e with EvStore => 1 | _ => 0 end.

Fixpoint stores (tr : list itti_event) : Z :=
  match tr with
  | [] => 0
  | e :: tr => stores tr + is_store e
  end.

(** No two increments of [timer_id] overlap: between the load and the store of
    one call there is no load of another. *)
Definition apart_next (busy : bool) (e : itti_event) : bool :=
  match e with EvLoad => true | EvStore => false | _ => busy end.

Fixpoint increments_apart (busy : bool) (tr : list itti_event) : Prop :=
  match tr with
  | [] => True
  | e :: tr => (e = EvLoad -> busy = false) /\ increments_apart (apart_next busy e) tr
  end.

(** The timers the middleware may still fire. *)
Definition live (s : itti_mw) : list itti_timer :=
  timers s ++ (if t_id (current_timer s) =? ITTI_INVALID_TIMER_ID then [] else [current_timer s]).

(** The ids calls of [timer_setup] hold, and the value one has loaded. *)
Definition call_id (c : setup_call) : option Z :=
  match sc_pc c with SU_STORED id => Some id | SU_BUILT t => Some (t_id t) | _ => None end.

Definition call_loaded (c : setup_call) : option Z :=
  match sc_pc c with SU_LOADED v => Some v | _ => None end.

(** The id of the current timer is not read yet. *)
Definition unfired (pc : tm_pc) : Prop :=
  match pc with
  | TM_CHECK | TM_ARM | TM_WAIT _ => True
  | TM_READ _ a => ta_id a = None
  | _ => False
  end.

(** What is read so far is of timer [t]. *)
Definition args_of (t : itti_timer) (a : time_out_args) : Prop :=
  (forall z, ta_task a = Some z -> z = t_task_id t) /\
  (forall z, ta_arg1 a = Some z -> z = t_arg1_user t) /\
  (forall z, ta_arg2 a = Some z -> z = t_arg2_user t).

(** The timers: ids are positive, not above the counter and distinct. *)
Record ids_inv (ids : list Z) (tid : Z) : Prop := {
  ii_range : forall id, id ∈ ids -> 0 < id <= tid;
  ii_nodup : NoDup ids;
  ii_pos : 0 <= tid;
}.

(** The timer thread at [pc] with current timer [cur]. *)
Record thread_inv (T : timer_table) (cur : itti_timer) (pc : tm_pc) : Prop := {
  tv_cur : unfired pc -> t_id cur <> 0 -> armed T !! t_id cur = Some cur;
  tv_wait : forall until, pc = TM_WAIT until -> t_id cur <> 0 -> until = t_time_out cur;
  tv_due : forall since a, pc = TM_READ since a -> ta_id a = None -> t_id cur <> 0 ->
    t_time_out cur <= since /\ args_of cur a;
  tv_fired : forall since a id, pc = TM_READ since a -> ta_id a = Some id ->
    exists ot, firing T = Some (id, ot) /\
      forall t, ot = Some t -> cur = t /\ t_id t = id /\ args_of t a;
}.

Definition all_ids (th : itti_threads) : list Z :=
  (t_id <$> live (th_mw th)) ++ omap call_id (th_calls th).

Record timers_inv (T : timer_table) (busy : bool) (th : itti_threads) : Prop := {
  ti_ids : ids_inv (all_ids th) (timer_id (th_mw th));
  ti_load : omap call_loaded (th_calls th) = if busy then [timer_id (th_mw th)] else [];
  ti_armed : forall x, x ∈ timers (th_mw th) -> armed T !! t_id x = Some x;
  ti_armed_pos : forall id t, armed T !! id = Some t -> 0 < id;
  ti_thread : thread_inv T (current_timer (th_mw th)) (tm_state (th_mw th));
}.

Lemma live_timers s x : x ∈ timers s -> x ∈ live s.
Proof. unfold live. rewrite elem_of_app. auto. Qed.

Lemma live_cur s : t_id (current_timer s) <> 0 -> live s = timers s ++ [current_timer s].
Proof.
  intros H. unfold live, ITTI_INVALID_TIMER_ID. by rewrite (proj2 (Z.eqb_neq _ _) H).
Qed.

Lemma live_null s : t_id (current_timer s) = 0 -> live s = timers s.
Proof. intros H. unfold live, ITTI_INVALID_TIMER_ID. rewrite H. simpl. apply app_nil_r. Qed.

Lemma live_ids s cs x : x ∈ live s -> t_id x ∈ all_ids (mk_threads s cs).
Proof. intros Hx. apply elem_of_app. left. by apply list_elem_of_fmap_2. Qed.

Lemma ids_inv_perm ids ids' tid : ids' ≡ₚ ids -> ids_inv ids tid -> ids_inv ids' tid.
Proof. intros Hp [H1 H2 H3]. split; [|by rewrite Hp|done]. intros id. rewrite Hp. apply H1. Qed.

Lemma ids_inv_sublist ids ids' tid : ids' `sublist_of` ids -> ids_inv ids tid -> ids_inv ids' tid.
Proof.
  intros Hp [H1 H2 H3]. split; [|by eapply sublist_NoDup|done].
  intros id Hid. apply H1. by eapply elem_of_sublist.
Qed.

(** A new value of the counter, taken by one call. *)
Lemma ids_inv_fresh ids tid : ids_inv ids tid -> ids_inv ((tid + 1) :: ids) (tid + 1).
Proof.
  intros [H1 H2 H3]. split; [|constructor; [|done]|lia].
  - intros id [->|Hid]%elem_of_cons; [lia|]. specialize (H1 _ Hid). lia.
  - intros Hid. specialize (H1 _ Hid). lia.
Qed.

Lemma fmap_sublist {A B} (f : A -> B) (l1 l2 : list A) :
  l1 `sublist_of` l2 -> (f <$> l1) `sublist_of` (f <$> l2).
Proof. induction 1; simpl; by constructor. Qed.

(** Ids of the set differ from the id of the current timer. *)
Lemma inv_timer_ne_cur T busy th x :
  timers_inv T busy th -> x ∈ timers (th_mw th) -> t_id x <> t_id (current_timer (th_mw th)).
Proof.
  intros Hi Hx E. destruct th as [s cs]. pose proof (ti_ids _ _ _ Hi) as [Hr Hnd _].
  pose proof (Hr _ (live_ids s cs x (live_timers s x Hx))) as Hp. simpl in *.
  unfold all_ids in Hnd. simpl in Hnd. apply NoDup_app in Hnd as (Hnd & _ & _).
  rewrite live_cur, fmap_app in Hnd by lia.
  apply NoDup_app in Hnd as (_ & Hd & _). apply (Hd (t_id x)).
  - by apply list_elem_of_fmap_2.
  - simpl. rewrite E. by left.
Qed.

(** A step of the timer thread that only moves its program counter, and a
    step that does not touch the timers at all. *)
Lemma timers_inv_goto T busy s cs pc :
  timers_inv T busy (mk_threads s cs) -> thread_inv T (current_timer s) pc ->
  timers_inv T busy (mk_threads (tm_goto pc s) cs).
Proof. intros [H1 H2 H3 H4 _] Ht. by split. Qed.

Lemma timers_inv_ext T busy s s' cs :
  timer_id s' = timer_id s -> timers s' = timers s -> current_timer s' = current_timer s ->
  tm_state s' = tm_state s -> timers_inv T busy (mk_threads s cs) -> timers_inv T busy (mk_threads s' cs).
Proof.
  intros E1 E2 E3 E4 [H1 H2 H3 H4 H5].
  split; unfold all_ids, live in *; simpl in *; rewrite ?E1, ?E2, ?E3, ?E4; done.
Qed.

(** Mailbox operations do not touch the timers. *)
Lemma send_msg_timers m s : let s' := (send_msg m s).2 in
  timer_id s' = timer_id s /\ timers s' = timers s /\ current_timer s' = current_timer s /\
  tm_state s' = tm_state s.
Proof. unfold send_msg, send_broadcast_msg. repeat case_match; done. Qed.

Lemma receive_msg_timers t s : let s' := (receive_msg t s).2 in
  timer_id s' = timer_id s /\ timers s' = timers s /\ current_timer s' = current_timer s /\
  tm_state s' = tm_state s.
Proof. unfold receive_msg, pop_msg. repeat case_match; done. Qed.

(** Arming and removing other timers leaves the timer thread's facts. *)
Lemma thread_inv_arm T cur pc t :
  thread_inv T cur pc -> (t_id cur <> 0 -> t_id cur <> t_id t) -> thread_inv (table_next T (EvArm t)) cur pc.
Proof.
  intros [H1 H2 H3 H4] Hne. split; try done. intros Hu Hc. simpl.
  rewrite lookup_insert_ne by (specialize (Hne Hc); done). by apply H1.
Qed.

Lemma thread_inv_remove_other T cur pc id :
  thread_inv T cur pc -> t_id cur <> id -> thread_inv (table_next T (EvRemove id)) cur pc.
Proof.
  intros [H1 H2 H3 H4] Hne. split; try done; simpl.
  - intros Hu Hc. rewrite lookup_delete_ne by done. by apply H1.
  - intros since a f Hpc Hf. destruct (H4 since a f Hpc Hf) as (ot & -> & Ht).
    eexists. split; [done|]. intros t. destruct (f =? id); [done|apply Ht].
Qed.

Lemma thread_inv_remove_cur T cur pc :
  thread_inv T cur pc -> thread_inv (table_next T (EvRemove (t_id cur))) (null_timer boot) pc.
Proof.
  intros [H1 H2 H3 H4]. split; simpl; [done|done|done|].
  intros since a f Hpc Hf. destruct (H4 since a f Hpc Hf) as (ot & -> & Ht).
  eexists. split; [done|]. intros t. destruct (Z.eqb_spec f (t_id cur)) as [->|Hne]; [done|].
  intros Et. destruct (Ht t Et) as (-> & E & _). done.
Qed.

Lemma inv_armed_remove T busy th id x :
  timers_inv T busy th -> x ∈ timers (th_mw th) -> t_id x <> id ->
  armed (table_next T (EvRemove id)) !! t_id x = Some x.
Proof. intros Hi Hx Hne. simpl. rewrite lookup_delete_ne by done. by apply (ti_armed _ _ _ Hi). Qed.

Lemma inv_remove T busy s cs id rc s' :
  timers_inv T busy (mk_threads s cs) -> timer_remove boot id s = (rc, s') ->
  timers_inv (table_next T (EvRemove id)) busy (mk_threads s' cs) /\ timer_id s' = timer_id s.
Proof.
  intros Hi E. unfold timer_remove in E.
  assert (forall i t, armed (table_next T (EvRemove id)) !! i = Some t -> 0 < i) as Hpos.
  { intros i t Hl. cbn in Hl. apply lookup_delete_Some in Hl as (_ & Hl). by eapply (ti_armed_pos _ _ _ Hi). }
  destruct (Z.eqb_spec (t_id (current_timer s)) id) as [He|He].
  - injection E as _ <-. split; [|done]. split; [|apply Hi| |done|].
    + eapply ids_inv_sublist; [|apply Hi]. unfold all_ids. simpl. apply sublist_app; [|done].
      rewrite (live_null (set_timers _ _ _ _)) by done. simpl. apply fmap_sublist.
      unfold live. by apply sublist_inserts_r.
    + intros x Hx. simpl in Hx. eapply inv_armed_remove; [exact Hi|done|].
      rewrite <- He. by apply (inv_timer_ne_cur _ _ _ x Hi).
    + rewrite <- He. apply thread_inv_remove_cur. apply Hi.
  - destruct (timers_erase id (timers s)) as [b ts] eqn:Ee. injection E as _ <-.
    destruct (timers_erase_spec _ _ _ _ Ee) as (Hsub & Hk & Hn). split; [|done].
    pose proof (ti_ids _ _ _ Hi) as [_ Hnd _]. unfold all_ids, live in Hnd. simpl in Hnd.
    rewrite fmap_app in Hnd. apply NoDup_app in Hnd as (Hnd & _ & _). apply NoDup_app in Hnd as (Hnd & _ & _).
    split; [|apply Hi| |done|].
    + eapply ids_inv_sublist; [|apply Hi]. unfold all_ids. simpl. apply sublist_app; [|done].
      apply fmap_sublist. unfold live. by apply sublist_app.
    + intros x Hx. simpl in Hx. eapply inv_armed_remove; [exact Hi|by eapply elem_of_sublist|].
      intros Ex. apply (Hn Hnd). rewrite <- Ex. by apply list_elem_of_fmap_2.
    + apply thread_inv_remove_other; [apply Hi|done].
Qed.

Lemma inv_take T busy s cs s' :
  timers_inv T busy (mk_threads s cs) -> tm_take s = Some s' ->
  timers_inv T busy (mk_threads s' cs) /\ timer_id s' = timer_id s.
Proof.
  intros Hi E. unfold tm_take in E. destruct (tm_state s) eqn:Hpc; try done.
  destruct (timers s) as [|t ts] eqn:Ht; try done.
  injection E as <-. split; [|done].
  assert (t ∈ timers s) as Hin by (rewrite Ht; by left).
  pose proof (ii_range _ _ (ti_ids _ _ _ Hi) _ (live_ids s cs t (live_timers s t Hin))) as Hid.
  pose proof (ti_armed _ _ _ Hi t Hin) as Ha. simpl in *.
  split; [|apply Hi| |apply Hi|]; simpl.
  - assert (live (set_timers ts t TM_CHECK s) ≡ₚ timers s) as Hl.
    { rewrite (live_cur (set_timers ts t TM_CHECK s)) by (simpl; lia). simpl. rewrite Ht.
      symmetry. apply Permutation_cons_append. }
    eapply ids_inv_perm; [unfold all_ids; simpl; by rewrite Hl|].
    eapply ids_inv_sublist; [|apply Hi]. apply sublist_app; [|done]. apply fmap_sublist.
    unfold live. by apply sublist_inserts_r.
  - intros x Hx. apply (ti_armed _ _ _ Hi). simpl. rewrite Ht. by right.
  - split; done.
Qed.

Lemma inv_notified T busy s cs s' :
  timers_inv T busy (mk_threads s cs) -> tm_wait_notified boot s = Some s' ->
  timers_inv T busy (mk_threads s' cs) /\ timer_id s' = timer_id s.
Proof.
  intros Hi E. unfold tm_wait_notified in E. destruct (tm_state s) eqn:Hpc; try done.
  injection E as <-. split; [|done]. split; [|apply Hi| |apply Hi|by split]; simpl.
  - unfold all_ids. simpl. rewrite (live_null (set_timers _ _ _ _)) by done. simpl.
    pose proof (ti_ids _ _ _ Hi) as Hids. unfold all_ids in Hids. simpl in Hids. unfold live in Hids.
    destruct (_ =? _); [by rewrite app_nil_r in Hids|].
    destruct (timers_insert_perm (current_timer s) (timers s)) as [Hp|[-> _]].
    + eapply ids_inv_perm; [|exact Hids]. rewrite Hp. by rewrite (Permutation_app_comm (timers s)).
    + eapply ids_inv_sublist; [|exact Hids]. apply sublist_app; [|done]. apply fmap_sublist.
      by apply sublist_inserts_r.
  - intros x Hx. unfold ITTI_INVALID_TIMER_ID in Hx.
    destruct (Z.eqb_spec (t_id (current_timer s)) 0) as [|Hne]; [by apply (ti_armed _ _ _ Hi)|].
    apply timers_insert_elem in Hx as [->|Hx]; [|by apply (ti_armed _ _ _ Hi)].
    apply (tv_cur _ _ _ (ti_thread _ _ _ Hi)); [|done]. simpl. by rewrite Hpc.
Qed.

(** Reading one argument. *)
Lemma read_field_args t f a a' :
  args_of t a -> read_field f t a = Some a' -> args_of t a'.
Proof.
  intros (H1 & H2 & H3) E. destruct f, a as [[] [] [] []]; simpl in E; try done;
    injection E as <-; unfold args_of; simpl in *; naive_solver.
Qed.

Lemma read_field_id t f a a' :
  read_field f t a = Some a' ->
  (f = F_id /\ ta_id a = None /\ ta_id a' = Some (t_id t)) \/ (f <> F_id /\ ta_id a' = ta_id a).
Proof.
  intros E. destruct f, a as [[] [] [] []]; simpl in E; try done; injection E as <-; auto;
    right; split; done.
Qed.

Lemma inv_read T busy s cs f since a s' :
  timers_inv T busy (mk_threads s cs) -> tm_state s = TM_READ since a -> tm_read f s = Some s' ->
  let e := match f with F_id => EvFire (t_id (current_timer s)) since | _ => EvTau end in
  table_ok T e /\ timers_inv (table_next T e) busy (mk_threads s' cs) /\ timer_id s' = timer_id s.
Proof.
  intros Hi Hpc E. unfold tm_read in E. rewrite Hpc in E.
  destruct (read_field f (current_timer s) a) as [a'|] eqn:Er; [|done]. injection E as <-.
  pose proof (ti_thread _ _ _ Hi) as Ht. simpl in Ht. rewrite Hpc in Ht. destruct Ht as [H1 _ H3 H4].
  destruct (read_field_id _ _ _ _ Er) as [(-> & Hn & Hs)|(Hf & Hs)]; simpl.
  - split; [|split; [|done]].
    { destruct (decide (t_id (current_timer s) = 0)) as [|Hne]; [by left|right].
      exists (current_timer s). split_and!; [by apply H1|done|by apply (H3 since a)]. }
    split; [apply Hi|apply Hi| | |]; simpl.
    + intros x Hx. pose proof (inv_timer_ne_cur _ _ _ x Hi Hx). rewrite lookup_delete_ne by done.
      by apply (ti_armed _ _ _ Hi).
    + intros i t (_ & Hl)%lookup_delete_Some. by eapply (ti_armed_pos _ _ _ Hi).
    + split; simpl; try done.
      * by rewrite Hs.
      * intros ? ? [= <- <-]. by rewrite Hs.
      * intros ? ? id [= <- <-]. rewrite Hs. intros [= <-]. eexists. split; [done|]. intros t Ea.
        pose proof (ti_armed_pos _ _ _ Hi _ _ Ea) as Hp. rewrite H1 in Ea by (done || lia).
        injection Ea as <-. split_and!; [done..|].
        eapply read_field_args; [|exact Er]. apply (H3 since a); [done..|lia].
  - assert (match f with F_id => EvFire (t_id (current_timer s)) since | _ => EvTau end = EvTau) as ->
      by (by destruct f). split; [done|split; [|done]].
    apply timers_inv_goto; [done|]. split; simpl; try done.
    + rewrite Hs. done.
    + intros ? ? [= <- <-]. rewrite Hs. intros Hn Hne. destruct (H3 since a eq_refl Hn Hne). split; [done|].
      by eapply read_field_args.
    + intros ? ? id [= <- <-]. rewrite Hs. intros Hid.
      destruct (H4 since a id eq_refl Hid) as (ot & Ef & Hot). exists ot. split; [done|].
      intros t Et. destruct (Hot t Et) as (Ec & Ei & Ha). split_and!; [done..|]. rewrite Ec in Er.
      by eapply read_field_args.
Qed.

Lemma inv_send T busy s cs m s' :
  timers_inv T busy (mk_threads s cs) -> tm_send s = Some (m, s') ->
  table_ok T (EvTimeOut m) /\ timers_inv (table_next T (EvTimeOut m)) busy (mk_threads s' cs) /\
  timer_id s' = timer_id s.
Proof.
  intros Hi E. unfold tm_send in E. destruct (tm_state s) as [| | | | | |since a] eqn:Hpc; try done.
  destruct a as [[task|] [id|] [a1|] [a2|]]; try done. cbv zeta in E. injection E as <- <-.
  set (m := mk_itti_msg _ _ _). pose proof (ti_thread _ _ _ Hi) as Ht. simpl in Ht. rewrite Hpc in Ht.
  destruct (tv_fired _ _ _ Ht since _ id eq_refl eq_refl) as (ot & Ef & Hot).
  destruct (send_msg_timers m s) as (E1 & E2 & E3 & E4). split_and!.
  - exists id, a1, a2, ot. split_and!; [done..|]. intros t Et.
    destruct (Hot t Et) as (_ & _ & H1 & H2 & H3). simpl in *. auto.
  - destruct Hi as [H1 H2 H3 H4 _]. split; unfold all_ids, live in *; simpl in *; rewrite ?E1, ?E2, ?E3; try done.
  - simpl. done.
Qed.

(** A step of a call, seen from the lists of ids and of loaded values. *)
Lemma omap_mid {A B} (f : A -> option B) l1 x l2 :
  omap f (l1 ++ x :: l2) ≡ₚ (match f x with Some y => [y] | None => [] end) ++ omap f (l1 ++ l2).
Proof.
  rewrite !omap_app. simpl. destruct (f x); simpl; [|done]. by rewrite Permutation_middle.
Qed.

Lemma all_ids_mid s l1 c l2 :
  all_ids (mk_threads s (l1 ++ c :: l2)) ≡ₚ
  (match call_id c with Some i => [i] | None => [] end) ++ all_ids (mk_threads s (l1 ++ l2)).
Proof.
  unfold all_ids. simpl. rewrite omap_mid, !app_assoc. apply Permutation_app_tail, Permutation_app_comm.
Qed.

Lemma loaded_mid l1 c l2 v busy tid :
  call_loaded c = Some v -> omap call_loaded (l1 ++ c :: l2) = (if busy : bool then [tid] else []) ->
  busy = true /\ v = tid /\ omap call_loaded (l1 ++ l2) = [].
Proof.
  intros Ec E. pose proof (omap_mid call_loaded l1 c l2) as Hp. rewrite E, Ec in Hp.
  destruct busy; [|by apply Permutation_nil_cons in Hp]. apply Permutation_singleton_l in Hp.
  simpl in Hp. injection Hp as -> ->. done.
Qed.

Lemma loaded_none l1 c l2 : call_loaded c = None ->
  omap call_loaded (l1 ++ c :: l2) = omap call_loaded (l1 ++ l2).
Proof. intros E. rewrite !omap_app. simpl. by rewrite E. Qed.

Lemma inv_setup_load T busy s l1 c l2 c' :
  timers_inv T busy (mk_threads s (l1 ++ c :: l2)) -> sc_pc c = SU_CALLED ->
  c' = call_at (SU_LOADED (timer_id s)) c -> busy = false ->
  timers_inv T true (mk_threads s (l1 ++ c' :: l2)).
Proof.
  intros [H1 H2 H3 H4 H5] Hpc -> ->. assert (call_id c = None /\ call_loaded c = None) as [E1 E2]
    by (unfold call_id, call_loaded; by rewrite Hpc).
  split; simpl in *; [| |done..].
  - eapply ids_inv_perm; [apply all_ids_mid|]. simpl.
    eapply ids_inv_perm in H1; [|symmetry; apply all_ids_mid]. by rewrite E1 in H1.
  - rewrite loaded_none in H2 by done. rewrite !omap_app in H2 |- *. simpl.
    apply app_eq_nil in H2 as [-> Eb]. cbn. f_equal. exact Eb.
Qed.

Lemma inv_setup_store T busy s l1 c l2 v :
  timers_inv T busy (mk_threads s (l1 ++ c :: l2)) -> sc_pc c = SU_LOADED v ->
  timer_id s + 1 < 2 ^ 32 ->
  let id := u32 (v + 1) in
  timers_inv T false (mk_threads (set_timer_id id s) (l1 ++ call_at (SU_STORED id) c :: l2)) /\
  id = timer_id s + 1.
Proof.
  intros [H1 H2 H3 H4 H5] Hpc Hw id. assert (call_id c = None /\ call_loaded c = Some v) as [E1 E2]
    by (unfold call_id, call_loaded; by rewrite Hpc).
  destruct (loaded_mid _ _ _ _ _ _ E2 H2) as (-> & -> & Hl). simpl in *.
  assert (id = timer_id s + 1) as Eid.
  { subst id. apply wrapu_id. pose proof (ii_pos _ _ H1). unfold fits. lia. }
  split; [|done]. split; simpl; [| |done..].
  - eapply ids_inv_perm; [apply all_ids_mid|]. simpl. rewrite Eid. apply ids_inv_fresh.
    eapply ids_inv_perm in H1; [|symmetry; apply all_ids_mid]. by rewrite E1 in H1.
  - by rewrite loaded_none.
Qed.

Lemma inv_setup_build T busy s l1 c l2 id t :
  timers_inv T busy (mk_threads s (l1 ++ c :: l2)) -> sc_pc c = SU_STORED id -> t_id t = id ->
  timers_inv T busy (mk_threads s (l1 ++ call_at (SU_BUILT t) c :: l2)).
Proof.
  intros [H1 H2 H3 H4 H5] Hpc Et. assert (call_id c = Some id /\ call_loaded c = None) as [E1 E2]
    by (unfold call_id, call_loaded; by rewrite Hpc).
  split; simpl in *; [| |done..].
  - eapply ids_inv_perm; [apply all_ids_mid|]. simpl. rewrite Et.
    eapply ids_inv_perm in H1; [|symmetry; apply all_ids_mid]. by rewrite E1 in H1.
  - rewrite loaded_none in H2 by done. by rewrite loaded_none.
Qed.

Lemma inv_setup_insert T busy s l1 c l2 t :
  timers_inv T busy (mk_threads s (l1 ++ c :: l2)) -> sc_pc c = SU_BUILT t ->
  timers_inv (table_next T (EvArm t)) busy
    (mk_threads (set_timers (timers_insert t (timers s)) (current_timer s) (tm_state s) s) (l1 ++ l2)).
Proof.
  intros Hi Hpc. assert (call_id c = Some (t_id t) /\ call_loaded c = None) as [E1 E2]
    by (unfold call_id, call_loaded; by rewrite Hpc).
  destruct Hi as [H1 H2 H3 H4 H5]. simpl in *.
  eapply ids_inv_perm in H1; [|symmetry; apply all_ids_mid]. rewrite E1 in H1. simpl in H1.
  pose proof (ii_range _ _ H1 (t_id t) ltac:(by left)) as Hr.
  pose proof (ii_nodup _ _ H1) as Hnd. apply NoDup_cons in Hnd as [Hni _].
  assert (forall x, x ∈ live s -> t_id x <> t_id t) as Hfresh
    by (intros x Hx Ex; apply Hni; rewrite <- Ex; by apply live_ids).
  split; simpl.
  - destruct (timers_insert_perm t (timers s)) as [Hp|[Hp _]].
    + eapply ids_inv_perm; [|exact H1]. unfold all_ids, live. simpl. by rewrite Hp.
    + eapply ids_inv_sublist; [|exact H1]. unfold all_ids, live. simpl. rewrite Hp. by apply sublist_cons.
  - by rewrite loaded_none in H2.
  - intros x [->|Hx]%timers_insert_elem; [by rewrite lookup_insert_eq|].
    rewrite lookup_insert_ne by (apply not_eq_sym, Hfresh, live_timers, Hx). by apply H3.
  - intros i x [[<- _]|[_ Hl]]%lookup_insert_Some; [lia|by eapply H4].
  - apply thread_inv_arm; [done|]. intros Hc. apply Hfresh. rewrite live_cur by done.
    apply elem_of_app. right. by left.
Qed.

(** Every step is a step of the table. *)
Definition step_sound (T : timer_table) (busy : bool) (th : itti_threads) (e : itti_event) (th' : itti_threads) : Prop :=
  table_ok T e /\ timers_inv (table_next T e) (apart_next busy e) th' /\
  timer_id (th_mw th') <= timer_id (th_mw th) + is_store e.

Lemma inv_setup T busy s l1 c l2 now e c' s' :
  timers_inv T busy (mk_threads s (l1 ++ c :: l2)) -> timer_id s + is_store e < 2 ^ 32 ->
  (e = EvLoad -> busy = false) -> setup_step now c s = (e, c', s') ->
  step_sound T busy (mk_threads s (l1 ++ c :: l2)) e
    (mk_threads s' (match c' with inl c' => l1 ++ c' :: l2 | inr _ => l1 ++ l2 end)).
Proof.
  intros Hi Hw Hb E. unfold setup_step in E. destruct (sc_pc c) as [|v|id|t] eqn:Hpc.
  - destruct (_ && _); injection E as <- <- <-.
    + split_and!; [done| |simpl; lia]. by eapply inv_setup_load; [| | |apply Hb].
    + split_and!; [done| |simpl; lia]. destruct Hi as [H1 H2 H3 H4 H5].
      assert (call_id c = None /\ call_loaded c = None) as [E1 E2]
        by (unfold call_id, call_loaded; by rewrite Hpc).
      split; simpl in *; [|by rewrite loaded_none in H2|done..].
      eapply ids_inv_perm in H1; [|symmetry; apply all_ids_mid]. by rewrite E1 in H1.
  - injection E as <- <- <-. simpl in Hw. destruct (inv_setup_store _ _ _ _ _ _ v Hi Hpc Hw) as [Hi' Eid].
    split_and!; [done|exact Hi'|]. simpl. lia.
  - injection E as <- <- <-. split_and!; [done| |simpl; lia]. by eapply inv_setup_build.
  - injection E as <- <- <-. split_and!; [done| |simpl; lia]. by eapply inv_setup_insert.
Qed.

Lemma inv_thread_goto T busy s cs pc :
  timers_inv T busy (mk_threads s cs) -> thread_inv T (current_timer s) pc ->
  step_sound T busy (mk_threads s cs) EvTau (mk_threads (tm_goto pc s) cs).
Proof. intros Hi Ht. split_and!; [done|by apply timers_inv_goto|simpl; lia]. Qed.

(** From the check or the wait to the reading of the current timer. *)
Lemma thread_inv_due T cur pc now :
  thread_inv T cur pc -> unfired pc -> (t_id cur <> 0 -> t_time_out cur <= now) ->
  thread_inv T cur (TM_READ now no_args).
Proof.
  intros [H1 _ _ _] Hu Hd. split; [by auto|done| |by intros ? ? ? [= <- <-]].
  intros ? ? [= <- <-] _ Hne. split; [by apply Hd|]. by repeat split.
Qed.

Lemma inv_step T busy th e th' :
  timers_inv T busy th -> timer_id (th_mw th) + is_store e < 2 ^ 32 -> (e = EvLoad -> busy = false) ->
  itti_step boot th e th' -> step_sound T busy th e th'.
Proof.
  intros Hi Hw Hb Hs. pose proof (ti_thread _ _ _ Hi) as Ht.
  destruct Hs as [s cs sec us task a1 a2 _ _|s cs1 c cs2 now e c' s' E|s cs1 c cs2 now e id s' E
    |s cs id rc s' E|s cs s' E|s cs s' E|s cs now s' E|s cs s' E|s cs now s' E|s cs s' E
    |s cs f since a s' Hpc E|s cs m s' E|s cs m rc s' E|s cs t r s' E|s cs t rc s' E]; simpl in Hw, Ht.
  - split_and!; [done| |simpl; lia]. by destruct Hi.
  - by apply (inv_setup T busy s cs1 c cs2 now e (inl c') s').
  - by apply (inv_setup T busy s cs1 c cs2 now e (inr id) s').
  - destruct (inv_remove _ _ _ _ _ _ _ Hi E) as [Hi' Eid]. split_and!; [done|done|simpl; lia].
  - unfold tm_top in E. destruct (tm_state s); try done. injection E as <-.
    apply inv_thread_goto; [done|]. split; by destruct (terminate s).
  - destruct (inv_take _ _ _ _ _ Hi E) as [Hi' Eid]. split_and!; [done|done|simpl; lia].
  - unfold tm_check in E. destruct (tm_state s) eqn:Hpc; try done.
    destruct (Z.ltb_spec now (t_time_out (current_timer s))); injection E as <-; apply inv_thread_goto; try done.
    + destruct Ht as [H1 _ _ _]. by split.
    + by eapply thread_inv_due.
  - unfold tm_arm in E. destruct (tm_state s) eqn:Hpc; try done. injection E as <-.
    apply inv_thread_goto; [done|]. destruct Ht as [H1 _ _ _]. split; try done. by intros ? [= <-].
  - unfold tm_wait_timeout in E. destruct (tm_state s) as [| | | | |until|] eqn:Hpc; try done.
    destruct (Z.leb_spec until now); [|done]. injection E as <-. apply inv_thread_goto; [done|].
    eapply thread_inv_due; [done..|]. intros Hne. by rewrite <- (tv_wait _ _ _ Ht until eq_refl Hne).
  - destruct (inv_notified _ _ _ _ _ Hi E) as [Hi' Eid]. split_and!; [done|done|simpl; lia].
  - destruct (inv_read _ _ _ _ _ _ _ _ Hi Hpc E) as (Hok & Hi' & Eid).
    split_and!; [done| |simpl; destruct f; simpl; lia]. by destruct f.
  - destruct (inv_send _ _ _ _ _ _ Hi E) as (Hok & Hi' & Eid). split_and!; [done|done|simpl; lia].
  - destruct (send_msg_timers m s) as (E1 & E2 & E3 & E4). rewrite E in *. simpl in *.
    split_and!; [done|by eapply timers_inv_ext|simpl; lia].
  - destruct (receive_msg_timers t s) as (E1 & E2 & E3 & E4). rewrite E in *. simpl in *.
    split_and!; [done|by eapply timers_inv_ext|simpl; lia].
  - unfold send_terminate_msg, send_broadcast_msg in E. simpl in E. injection E as _ <-.
    split_and!; [done|by apply (timers_inv_ext _ _ s)|simpl; lia].
Qed.

Lemma stores_nonneg tr : 0 <= stores tr.
Proof. induction tr as [|[] tr IH]; simpl; lia. Qed.

Lemma run_table T busy th tr th' :
  timers_inv T busy th -> timer_id (th_mw th) + stores tr < 2 ^ 32 -> increments_apart busy tr ->
  itti_run boot th tr th' -> table_allows T tr.
Proof.
  intros Hi Hw Ha Hr. revert T busy Hi Hw Ha.
  induction Hr as [th|th e th1 tr th2 Hs Hr IH]; intros T busy Hi Hw Ha; [done|].
  simpl in Hw. destruct Ha as [Hb Ha]. pose proof (stores_nonneg tr).
  destruct (inv_step T busy th e th1 Hi) as (Hok & Hi' & Hid); [lia|done|done|].
  split; [done|]. eapply IH; [done|lia|done].
Qed.

Lemma inv_init : timers_inv table_init false (threads_init boot).
Proof.
  split; simpl; try done.
  - split; [|constructor|done]. intros id Hid. by apply not_elem_of_nil in Hid.
  - intros x Hx. by apply not_elem_of_nil in Hx.
Qed.
End timer_service.

(** C18 The timer service refines the abstract timer table, for every
    interleaving of the timer thread (which reads [current_timer] field by
    field and sends without the mutex) with any number of calls of timer_setup,
    with timer_remove, message traffic and the terminate broadcast.  It assumes
    that fewer than 2^32 timer ids are drawn and that no two of the unlocked
    increments of timer_id overlap ([increments_apart]; [timer_id_race] shows
    what happens otherwise).  Then a timer fires, that is, the timer thread
    reads its id for the message, only if it was armed and neither removed nor
    already fired before, and only after its deadline; else the id read is the
    invalid id 0.  A TIME_OUT message sent carries the id that was read, and
    goes to that timer's task with that timer's arguments unless the timer was
    removed between the read and the send. *)
Theorem timer_service_refines (boot : Z) (tr : list itti_event) (th : itti_threads) :
  stores tr < 2 ^ 32 -> increments_apart false tr -> itti_run boot (threads_init boot) tr th ->
  table_allows table_init tr.
Proof. intros Hw Ha Hr. eapply run_table; [apply inv_init|exact Hw|exact Ha|exact Hr]. Qed.

(** Runs by computation: one constructor per step. *)
Ltac itti_next tac :=
  eapply itti_run_cons; [tac; reflexivity|];
  lazymatch goal with |- itti_run _ ?s _ _ => let s' := eval vm_compute in s in change s with s' end.
Ltac itti_call tac := eapply itti_run_cons; [apply tac; done|].

(** Two calls whose increments do not overlap, the timer of the second due
    first; the first is removed while the second fires. *)
Definition ex_trace : list itti_event :=
  [EvTau; EvLoad; EvTau; EvStore; EvTau; EvArm (mk_itti_timer 1 6 5000 1 2); EvLoad; EvStore; EvTau;
   EvArm (mk_itti_timer 2 4 3000 7 8); EvTau; EvTau; EvTau; EvTau; EvTau; EvFire 2 3000; EvRemove 1;
   EvTau; EvTau; EvTau; EvTimeOut (mk_itti_msg 0 4 (MSG_TIME_OUT 2 7 8))].

Lemma ex_trace_run :
  itti_run 0 (threads_init 0) ex_trace
    (mk_threads (mk_itti ∅ 2 0 [] (mk_itti_timer 2 4 3000 7 8) TM_TOP false) []).
Proof.
  itti_call (step_call 0 (itti_init 0) [] 0 5 6 1 2).
  itti_next ltac:(eapply (step_setup 0 _ [] _ [] 0)).
  itti_call (step_call 0 (itti_init 0) [mk_call 0 5 6 1 2 (SU_LOADED 0)] 0 3 4 7 8).
  itti_next ltac:(eapply (step_setup 0 _ [_] _ [] 0)).
  itti_next ltac:(eapply (step_setup 0 _ [_] _ [] 0)).
  itti_next ltac:(eapply (step_return 0 _ [_] _ [] 0)).
  do 3 (itti_next ltac:(eapply (step_setup 0 _ [] _ [] 0))).
  itti_next ltac:(eapply (step_return 0 _ [] _ [] 0)).
  itti_next ltac:(eapply step_top).
  itti_next ltac:(eapply step_take).
  itti_next ltac:(eapply (step_check _ _ _ 2999)).
  itti_next ltac:(eapply step_arm).
  itti_next ltac:(eapply (step_wait_timeout _ _ _ 3000)).
  itti_next ltac:(refine (step_read 0 _ _ F_id _ _ _ _ _)).
  itti_next ltac:(eapply step_remove).
  itti_next ltac:(refine (step_read 0 _ _ F_task _ _ _ _ _)).
  itti_next ltac:(refine (step_read 0 _ _ F_arg2 _ _ _ _ _)).
  itti_next ltac:(refine (step_read 0 _ _ F_arg1 _ _ _ _ _)).
  itti_next ltac:(eapply step_time_out).
  apply itti_run_nil.
Qed.

Lemma timer_service_refines_witness : table_allows table_init ex_trace.
Proof.
  apply (timer_service_refines 0 ex_trace
    (mk_threads (mk_itti ∅ 2 0 [] (mk_itti_timer 2 4 3000 7 8) TM_TOP false) []));
    [done|by repeat split|apply ex_trace_run].
Defined.

(** Two calls whose increments overlap: both load the same value, and both
    timers get the id 1. *)
Theorem timer_id_race :
  exists tr th, itti_run 0 (threads_init 0) tr th /\ th_calls th = [] /\
    timers (th_mw th) = [mk_itti_timer 1 4 3000 7 8; mk_itti_timer 1 6 5000 1 2].
Proof.
  eexists _, _. split; [|split; cycle 1].
  - itti_call (step_call 0 (itti_init 0) [] 0 5 6 1 2).
    itti_next ltac:(eapply (step_setup 0 _ [] _ [] 0)).
    itti_call (step_call 0 (itti_init 0) [mk_call 0 5 6 1 2 (SU_LOADED 0)] 0 3 4 7 8).
    do 3 (itti_next ltac:(eapply (step_setup 0 _ [] _ [_] 0))).
    do 2 (itti_next ltac:(eapply (step_setup 0 _ [_] _ [] 0))).
    itti_next ltac:(eapply (step_return 0 _ [_] _ [] 0)).
    itti_next ltac:(eapply (step_return 0 _ [] _ [] 0)).
    apply itti_run_nil.
  - done.
  - done.
Qed.

(** A timer removed after the timer thread read its id: timer_remove returns
    RETURNok, and the TIME_OUT message is still put in the task's queue. *)
Theorem removed_timer_still_signalled :
  let t := mk_itti_timer 1 4 3000 7 8 in
  let s := mk_itti {[ 4 := mk_task_ctxt TASK_STATE_READY [] true ]} 1 1 [] t
             (TM_READ 3000 (mk_args (Some 4) (Some 1) (Some 7) (Some 8))) false in
  let '(rc, s1) := timer_remove 0 1 s in
  rc = RETURNok /\ exists m s2 c, tm_send s1 = Some (m, s2) /\ body m = MSG_TIME_OUT 1 7 8 /\
    itti_task_ctxts s2 !! 4 = Some c /\ msg_queue c = [m].
Proof. vm_compute. split; [done|]. by eexists _, _, _. Qed.

Lemma timers_insert_dup t l x :
  timers_sorted l -> x ∈ l -> t_time_out x = t_time_out t -> timers_insert t l = l.
Proof.
  intros Hs Hx E. induction Hs as [|y l Hl IH Hy]; [by apply not_elem_of_nil in Hx|].
  simpl. apply elem_of_cons in Hx as [->|Hx].
  - by rewrite E, Z.ltb_irrefl.
  - eapply Forall_forall in Hy; [|exact Hx].
    replace (_ <? _) with false by (symmetry; apply Z.ltb_ge; lia).
    replace (_ <? _) with true by (symmetry; apply Z.ltb_lt; lia). by rewrite IH.
Qed.

(** Two timers with the same deadline: timer_setup returns a valid id for
    the second, but the set keeps only the first, so the second is lost: it is
    not pending, and timer_remove does not find it. *)
Theorem timer_setup_same_deadline_lost
    (boot now sec us task a1 a2 : Z) (s : itti_mw) (x : itti_timer) :
  0 < task < TASK_MAX -> ids_inv (all_ids (mk_threads s [])) (timer_id s) ->
  timer_id s + 1 < 2 ^ 32 -> timers_sorted (timers s) ->
  x ∈ timers s -> t_time_out x = deadline now sec us ->
  exists id s', timer_setup now sec us task a1 a2 s = (id, s') /\
    id <> ITTI_INVALID_TIMER_ID /\ timers s' = timers s /\
    (timer_remove boot id s').1 = RETURNerror.
Proof.
  intros Ht Hi Hw Hs Hx E. pose proof (ii_pos _ _ Hi). unfold timer_setup.
  replace (_ && _) with true by (symmetry; unfold TASK_FIRST; apply andb_true_intro; lia).
  eexists _, _. split; [reflexivity|]. rewrite wrapu_id by (unfold fits; lia). cbn [timers].
  rewrite (timers_insert_dup _ _ x Hs Hx) by done.
  split_and!; [unfold ITTI_INVALID_TIMER_ID; lia|done|].
  unfold timer_remove. cbn [current_timer timers].
  assert (forall y, y ∈ live s -> t_id y <> timer_id s + 1) as Hf
    by (intros y Hy; pose proof (ii_range _ _ Hi _ (live_ids s [] y Hy)); lia).
  replace (_ =? _) with false; [|symmetry; apply Z.eqb_neq; destruct (decide (t_id (current_timer s) = 0));
    [lia|apply Hf; rewrite live_cur by done; apply elem_of_app; right; by left]].
  destruct (timers_erase (timer_id s + 1) (timers s)) as [b ts] eqn:Ee. destruct b; [|done].
  exfalso. apply timers_erase_found in Ee as (y & Hy & Ey). by apply (Hf y); [apply live_timers|].
Qed.

Lemma timer_setup_same_deadline_lost_witness :
  let t := mk_itti_timer 1 4 2000 0 0 in
  let s := mk_itti ∅ 1 0 [t] (null_timer 0) TM_TOP false in
  exists id s', timer_setup 1000 0 1 5 0 0 s = (id, s') /\
    id <> ITTI_INVALID_TIMER_ID /\ timers s' = timers s /\
    (timer_remove 0 id s').1 = RETURNerror.
Proof.
  intros t s. apply (timer_setup_same_deadline_lost 0 1000 0 1 5 0 0 s t);
    [done| |done|repeat constructor|by left|done].
  split; simpl; [|apply NoDup_singleton|done].
  intros x [->|Hx]%elem_of_cons; [simpl; lia|by apply not_elem_of_nil in Hx].
Defined.
