(* ===== verification/TimerService.v ===== *)
(** * The timer interface of the protocol stacks

    What [pfcp_l4_stack] and [gtpv2c_stack] use of the middleware:
    [itti_inst->timer_setup] and [itti_inst->timer_remove].  The stacks'
    theorems are proved against this interface; [itti_timers] discharges it
    with the timers of [Itti]. *)
From S2P Require Import Prelude Itti.
From Stdlib Require Import ZArith Lia.
From stdpp Require Import base gmap numbers tactics list.
Open Scope Z_scope.

Class TimerService (T : Type) := {
  ts_setup : Z -> Z -> Z -> T -> Z * T;     (* seconds, microseconds, task *)
  ts_remove : Z -> T -> T;
  ts_issued : T -> Z -> Prop;               (* ids handed out so far *)
  ts_headroom : T -> Prop;                  (* the id counter does not wrap *)
  ts_setup_fresh : forall sec us task t id t',
    ts_headroom t -> 0 < task < TASK_MAX -> ts_setup sec us task t = (id, t') ->
    id <> ITTI_INVALID_TIMER_ID /\ ~ ts_issued t id /\
    forall i, ts_issued t' i <-> ts_issued t i \/ i = id;
  ts_remove_issued : forall i t j, ts_issued (ts_remove i t) j <-> ts_issued t j;
}.

(** The ITTI timers, at a given reading of the clock. *)
Record itti_clock := mk_itti_clock { ic_boot : Z; ic_now : Z; ic_mw : itti_mw }.

Definition ic_setup (sec us task : Z) (t : itti_clock) : Z * itti_clock :=
  let '(id, s) := timer_setup (ic_now t) sec us task 0 0 (ic_mw t) in
  (id, mk_itti_clock (ic_boot t) (ic_now t) s).

Definition ic_remove (id : Z) (t : itti_clock) : itti_clock :=
  mk_itti_clock (ic_boot t) (ic_now t) (timer_remove (ic_boot t) id (ic_mw t)).2.

#[export] Program Instance itti_timers : TimerService itti_clock := {|
  ts_setup := ic_setup;
  ts_remove := ic_remove;
  ts_issued t i := 0 < i <= timer_id (ic_mw t);
  ts_headroom t := 0 <= timer_id (ic_mw t) < 2 ^ 32 - 1;
|}.
Next Obligation.
  intros sec us task t id t' Hh Ht E. cbn in Hh. unfold ic_setup, timer_setup in E.
  replace (_ && _) with true in E by (symmetry; unfold TASK_FIRST; apply andb_true_intro; lia).
  rewrite wrapu_id in E by (unfold fits; lia). injection E as <- <-. simpl.
  unfold ITTI_INVALID_TIMER_ID. split_and!; [lia|lia|intros i; lia].
Qed.
Next Obligation.
  intros i t j. unfold ic_remove, timer_remove. simpl.
  repeat case_match; done.
Qed.
