(* ===== verification/AtomicMap.v ===== *)
(** * [folly::AtomicHashMap]

    The concurrent hash map that [src/gtpv2c/gtpv2c.hpp],
    [src/oai_spgwc/PfcpUpNodes.hpp] and
    [src/oai_spgwc/pgw_pfcp_association.hpp] keep their tables in: a library
    this repository only calls.  The class [AtomicMap] states what the callers
    use of it; finite maps are an instance. *)
From S2P Require Import Prelude.
From Stdlib Require Import ZArith Lia.
From stdpp Require Import base gmap numbers tactics list.
Open Scope Z_scope.

(** [insert] keeps an existing entry, and throws when the table cannot grow
    any more ([None]); an iterator found can be written through. *)
Class AtomicMap (M : Type -> Type) := {
  ahm_new : forall {V}, Z -> M V;
  ahm_find : forall {V}, Z -> M V -> option V;
  ahm_insert : forall {V}, Z -> V -> M V -> option (M V);
  ahm_assign : forall {V}, Z -> V -> M V -> M V;
  ahm_erase : forall {V}, Z -> M V -> M V;
  ahm_list : forall {V}, M V -> list (Z * V);
  ahm_find_new : forall {V} n k, ahm_find k (ahm_new n : M V) = None;
  ahm_find_insert : forall {V} k (v : V) m m' k', ahm_insert k v m = Some m' ->
    ahm_find k' m' =
      if decide (k' = k) then Some (match ahm_find k m with Some w => w | None => v end) else ahm_find k' m;
  ahm_find_assign : forall {V} k (v w : V) m k', ahm_find k m = Some w ->
    ahm_find k' (ahm_assign k v m) = if decide (k' = k) then Some v else ahm_find k' m;
  ahm_find_erase : forall {V} k (m : M V) k',
    ahm_find k' (ahm_erase k m) = if decide (k' = k) then None else ahm_find k' m;
  ahm_list_find : forall {V} (m : M V) k v, (k, v) ∈ ahm_list m <-> ahm_find k m = Some v;
}.

Definition gm_insert {V} (k : Z) (v : V) (m : gmap Z V) : option (gmap Z V) :=
  Some (match m !! k with Some _ => m | None => <[k := v]> m end).

#[export] Program Instance gmap_AtomicMap : AtomicMap (gmap Z) := {|
  ahm_new V _ := ∅;
  ahm_find V k m := m !! k;
  ahm_insert V := gm_insert;
  ahm_assign V k v m := <[k := v]> m;
  ahm_erase V k m := delete k m;
  ahm_list V m := map_to_list m;
|}.
Next Obligation. intros V n k. simpl. apply lookup_empty. Qed.
Next Obligation.
  intros V k v m m' k'. unfold gm_insert. intros [= <-]. destruct (m !! k) eqn:E.
  - by case_decide; [subst|].
  - case_decide; [subst; by rewrite lookup_insert_eq|by rewrite lookup_insert_ne].
Qed.
Next Obligation.
  intros V k v w m k' _. simpl. case_decide; [subst; by rewrite lookup_insert_eq|by rewrite lookup_insert_ne].
Qed.
Next Obligation.
  intros V k m k'. simpl. case_decide; [subst; by rewrite lookup_delete_eq|by rewrite lookup_delete_ne].
Qed.
Next Obligation. intros V m k v. apply elem_of_map_to_list. Qed.
