(* ===== verification/PfcpNode.v ===== *)
(** * Node identities and F-SEIDs of PFCP

    [node_id_t] and [fseid_t] of [src/common/3gpp_29.244.h] with their
    comparisons and hashes.  The hash functions of the standard library,
    [std::hash<uint32_t>] and [std::hash<std::string>], are parameters. *)
From S2P Require Import Prelude.
From Stdlib Require Import ZArith Lia String.
From stdpp Require Import base numbers tactics list strings countable.
Open Scope Z_scope.

Definition NODE_ID_TYPE_IPV4_ADDRESS : Z := 0.
Definition NODE_ID_TYPE_IPV6_ADDRESS : Z := 1.
Definition NODE_ID_TYPE_FQDN : Z := 2.

(** The union [u1] by its four 32-bit words; the IPv4 address is the first. *)
Record node_id_t := mk_node_id {
  node_id_type : Z; u1_0 : Z; u1_1 : Z; u1_2 : Z; u1_3 : Z; fqdn : string }.

Definition node_id_init : node_id_t := mk_node_id 0 0 0 0 0 "".

(** [operator==(const node_id_s&)] *)
Definition node_id_eqb (a b : node_id_t) : bool :=
  (node_id_type b =? node_id_type a) && (u1_0 b =? u1_0 a) && String.eqb (fqdn b) (fqdn a) &&
  (u1_0 b =? u1_0 a) && (u1_1 b =? u1_1 a) && (u1_2 b =? u1_2 a) && (u1_3 b =? u1_3 a).

Lemma node_id_eqb_eq a b : node_id_eqb a b = true <-> a = b.
Proof.
  unfold node_id_eqb. rewrite !andb_true_iff, !Z.eqb_eq, String.eqb_eq. destruct a, b; simpl. naive_solver.
Qed.

(** [operator==(const std::string&)] *)
Definition node_id_is_fqdn (a : node_id_t) (f : string) : bool :=
  (NODE_ID_TYPE_FQDN =? node_id_type a) && String.eqb (fqdn a) f.

(** [std::hash<pfcp::node_id_t>] *)
Section Hash.
Context (hash_uint32 : Z -> Z) (hash_string : string -> Z).

Definition hash_node_id (k : node_id_t) : Z :=
  if node_id_type k =? NODE_ID_TYPE_IPV4_ADDRESS then hash_uint32 (u1_0 k)
  else if node_id_type k =? NODE_ID_TYPE_IPV6_ADDRESS then
    Z.lxor (Z.lxor (Z.lxor (u1_0 k) (u1_1 k)) (u1_2 k)) (u1_3 k)
  else if node_id_type k =? NODE_ID_TYPE_FQDN then hash_string (fqdn k)
  else 0.
End Hash.

(** ** F-SEIDs *)
Record fseid_t := mk_fseid {
  fs_v4 : Z; fs_v6 : Z; fs_seid : Z; fs_ipv4_address : Z; fs_ip6_0 : Z; fs_ip6_1 : Z; fs_ip6_2 : Z; fs_ip6_3 : Z }.

#[export] Instance fseid_eq_dec : EqDecision fseid_t.
Proof. solve_decision. Defined.

#[export] Program Instance fseid_countable : Countable fseid_t :=
  inj_countable' (fun f => (fs_v4 f, fs_v6 f, fs_seid f, fs_ipv4_address f, fs_ip6_0 f, fs_ip6_1 f, fs_ip6_2 f, fs_ip6_3 f))
    (fun '(a, b, c, d, e, f, g, h) => mk_fseid a b c d e f g h) _.
Next Obligation. by intros []. Qed.

(** [(uint64_t) a << 32 | b] *)
Definition word64 (a b : Z) : Z := Z.lor (u64 (Z.shiftl a 32)) b.

(** [operator<]: [this < i] *)
Definition fseid_lt (this i : fseid_t) : bool :=
  let v6 :=
    if fs_v6 i =? fs_v6 this then
      let i64 := word64 (fs_ip6_0 i) (fs_ip6_1 i) in
      let this64 := word64 (fs_ip6_0 this) (fs_ip6_1 this) in
      if i64 <? this64 then true
      else if this64 <? i64 then false
      else
        let i64 := word64 (fs_ip6_2 i) (fs_ip6_3 i) in
        let this64 := word64 (fs_ip6_2 this) (fs_ip6_3 this) in
        if i64 <? this64 then true else if this64 <? i64 then false else false
    else if fs_v6 this =? 0 then false else true in
  if fs_seid i <? fs_seid this then true
  else if fs_seid this <? fs_seid i then false
  else if fs_v4 i =? fs_v4 this then
    if fs_ipv4_address this <? fs_ipv4_address i then true
    else if fs_ipv4_address i <? fs_ipv4_address this then false
    else v6
  else if fs_v4 this =? 0 then v6 else true.

(** F-SEIDs of one node: the same flags, fields of their width. *)
Definition fseid_wf (v4 v6 : Z) (f : fseid_t) : Prop :=
  fs_v4 f = v4 /\ fs_v6 f = v6 /\ fits 32 (fs_ip6_0 f) /\ fits 32 (fs_ip6_1 f) /\ fits 32 (fs_ip6_2 f) /\ fits 32 (fs_ip6_3 f).

Lemma word64_inj a b c d :
  fits 32 a -> fits 32 b -> fits 32 c -> fits 32 d -> word64 a b = word64 c d -> a = c /\ b = d.
Proof.
  intros Ha Hb Hc Hd. unfold word64, fits in *.
  assert (forall x y, 0 <= x < 2 ^ 32 -> 0 <= y < 2 ^ 32 -> Z.lor (u64 (Z.shiftl x 32)) y = x * 2 ^ 32 + y) as E.
  { intros x y Hx Hy. rewrite Z.shiftl_mul_pow2 by lia. rewrite wrapu_id by (unfold fits; nia).
    symmetry. rewrite <- Z.lxor_lor, <- Z.add_nocarry_lxor; [done|..].
    all: apply Z.bits_inj'; intros n Hn; rewrite Z.land_spec, Z.bits_0;
      destruct (decide (n < 32)); [rewrite Z.mul_pow2_bits_low by lia; done|].
    all: rewrite (Z.bits_above_log2 y n), andb_false_r; [done|lia|].
    all: destruct (decide (y = 0)) as [->|]; [simpl; lia|]; apply Z.log2_lt_pow2; [lia|];
      eapply Z.lt_le_trans; [apply Hy|]; apply Z.pow_le_mono_r; lia. }
  rewrite !E by done. intros H. split; nia.
Qed.

(** On the F-SEIDs of one node the order is a strict total one, as the
    [std::set] of the sessions of an association needs. *)
Lemma fseid_lt_total v4 v6 a b :
  fseid_wf v4 v6 a -> fseid_wf v4 v6 b -> a = b \/ fseid_lt a b = true \/ fseid_lt b a = true.
Proof.
  intros (A4 & A6 & A0 & A1 & A2 & A3) (B4 & B6 & B0 & B1 & B2 & B3). unfold fseid_lt. rewrite A4, A6, B4, B6, !Z.eqb_refl.
  repeat case_match; auto. left.
  destruct (word64_inj (fs_ip6_0 a) (fs_ip6_1 a) (fs_ip6_0 b) (fs_ip6_1 b)) as [? ?]; [done..|lia|].
  destruct (word64_inj (fs_ip6_2 a) (fs_ip6_3 a) (fs_ip6_2 b) (fs_ip6_3 b)) as [? ?]; [done..|lia|].
  destruct a, b; simpl in *. f_equal; lia.
Qed.

Lemma fseid_lt_asym v4 v6 a b : fseid_wf v4 v6 a -> fseid_wf v4 v6 b -> fseid_lt a b = true -> fseid_lt b a = false.
Proof.
  intros (A4 & A6 & _) (B4 & B6 & _). unfold fseid_lt. rewrite A4, A6, B4, B6, !Z.eqb_refl.
  repeat case_match; try done; lia.
Qed.

(** Across nodes it is not an order: an F-SEID with an IPv4 address only and one
    with an IPv6 address only are each smaller than the other. *)
Lemma fseid_lt_cyclic :
  let a := mk_fseid 1 0 7 16777343 0 0 0 0 in
  let b := mk_fseid 0 1 7 0 0 0 0 1 in
  fseid_lt a b = true /\ fseid_lt b a = true.
Proof. done. Qed.
