(* ===== verification/UpNodes.v ===== *)
(** * User-plane nodes and their associations

    [src/oai_spgwc/PfcpUpNodes.cpp] and [pgw_pfcp_association.cpp]: the nodes
    of the configuration wait in [pending_nodes_] until they set up an
    association; then they are in [up_nodes_] (by the low 32 bits of the hash of
    their node id) and [pfcp_associations] has an entry for them, whose
    heartbeats decide when a node is lost and waits again.

    [PfcpUpNode] has no member here that no operation uses.  The two singletons
    are one state, with the timers, the generator of transaction ids and what
    has been sent so far, newest last.  The methods hold their lock, or run in
    the one task that calls them: each is a step. *)
From S2P Require Import Prelude UidGenerator Itti TimerService AtomicMap PfcpNode.
From Stdlib Require Import ZArith Lia String OrdersEx.
From stdpp Require Import base gmap numbers tactics list strings.
Open Scope Z_scope.

Definition TASK_PGWC_SX : Z := 10.
Definition PFCP_ASSOCIATION_HEARTBEAT_MAX_RETRIES : Z := 2.

Inductive AssociationState :=
| kAssocNullState | kAssocKnownPossible | kAssocInitiatedState | kAssocSetupState | kAssocUnstable | kAssocLost.

#[export] Instance AssociationState_eq_dec : EqDecision AssociationState.
Proof. solve_decision. Defined.

Inductive up_exn := AhmFullError.

(** [std::set<std::string>::insert] *)
Fixpoint set_insert (x : string) (l : list string) : list string :=
  match l with
  | [] => [x]
  | y :: l => match String_as_OT.compare x y with Lt => x :: y :: l | Eq => y :: l | Gt => y :: set_insert x l end
  end.

Section UpNodes.
Context {G T : Type} {M : Type -> Type} `{FG : FreshIds G} `{TS : TimerService T} `{AM : AtomicMap M}.
(** Addresses, UP function features and IP resources are only passed on. *)
Context {endpoint features resources : Type} `{EqDecision endpoint}.
Context (no_features : features) (no_resources : resources) (set_port : Z -> endpoint -> endpoint).
Context (hash_uint32 : Z -> Z) (hash_string : string -> Z).
(** [pgw_config::cups_.association_heartbeat_period_ms] and the result of
    [pgw_config::GetPfcpNodeId]. *)
Context (association_heartbeat_period_ms : Z) (this_node_id : option node_id_t).

Abbreviation hash := (hash_node_id hash_uint32 hash_string).

(** ** Data *)
Record PfcpUpNode := mk_up_node {
  id_ : string;
  node_id_ : node_id_t;
  hash_node_id_ : Z;
  peer_recovery_time_stamp_ : Z;
  peer_function_features_ : features;
  remote_endpoint_ : option endpoint;              (* [None]: [AF_UNSPEC] *)
  association_state_ : AssociationState;
  consecutive_failed_echo_proc : Z;
  consecutive_successful_echo_proc : Z;
  failed_echo_proc : Z;
  successful_echo_proc : Z;
  restarts : Z;
}.

Definition PfcpUpNode_new (id : string) : PfcpUpNode :=
  mk_up_node id node_id_init 0 0 no_features None kAssocNullState 0 0 0 0 0.

Record pfcp_association := mk_association {
  node_id : node_id_t;
  hash_node_id : Z;
  id : string;
  recovery_time_stamp : Z;
  function_features : features;
  user_plane_ip_resource_information : resources;
  remote_endpoint : option endpoint;
  sessions : gset fseid_t;
  timer_heartbeat : Z;
  num_retries_timer_heartbeat : Z;
  trxn_id_heartbeat : Z;
  is_restore_sessions_pending : bool;
  is_trigger_heartbeat_request_procedure : bool;
  state_ : AssociationState;
}.

(** The constructors. *)
Definition association_of_node (ni : node_id_t) : pfcp_association :=
  mk_association ni (hash ni) "" 0 no_features no_resources None ∅ ITTI_INVALID_TIMER_ID 0 0 false true kAssocNullState.

Definition association_of_request (ni : node_id_t) (rts : Z) (uff : features) (upiri : resources) : pfcp_association :=
  mk_association ni (hash ni) "" rts uff upiri None ∅ ITTI_INVALID_TIMER_ID 0 0 false true kAssocNullState.

(** It leaves two members uninitialised; the caller assigns both. *)
Definition association_of_response (ni : node_id_t) (rts : Z) (uff : features) (trigger : bool) (st : AssociationState)
  : pfcp_association :=
  mk_association ni (hash ni) "" rts uff no_resources None ∅ ITTI_INVALID_TIMER_ID 0 0 false trigger st.

(** What is sent, and the sessions handed to a restoration procedure. *)
Inductive up_output :=
| SetupResponse (trxn_id : Z) (accepted : bool) (from : node_id_t) (dest : endpoint)
| HeartbeatRequest (trxn_id : Z) (dest : option endpoint)
| RestoreProcedure (s : gset fseid_t).

Record up_state := mk_up_state {
  pending_nodes_ : list PfcpUpNode;
  up_nodes_ : M PfcpUpNode;
  pending_associations : list pfcp_association;
  associations : M pfcp_association;
  timers_of : T;
  uids_of : G;
  sent : list up_output;
}.

Definition set_pending (l : list PfcpUpNode) (s : up_state) : up_state :=
  mk_up_state l (up_nodes_ s) (pending_associations s) (associations s) (timers_of s) (uids_of s) (sent s).
Definition set_up (m : M PfcpUpNode) (s : up_state) : up_state :=
  mk_up_state (pending_nodes_ s) m (pending_associations s) (associations s) (timers_of s) (uids_of s) (sent s).
Definition set_associations (m : M pfcp_association) (s : up_state) : up_state :=
  mk_up_state (pending_nodes_ s) (up_nodes_ s) (pending_associations s) m (timers_of s) (uids_of s) (sent s).
Definition set_timers (t : T) (s : up_state) : up_state :=
  mk_up_state (pending_nodes_ s) (up_nodes_ s) (pending_associations s) (associations s) t (uids_of s) (sent s).
Definition set_uids (g : G) (s : up_state) : up_state :=
  mk_up_state (pending_nodes_ s) (up_nodes_ s) (pending_associations s) (associations s) (timers_of s) g (sent s).
Definition emit (o : up_output) (s : up_state) : up_state :=
  mk_up_state (pending_nodes_ s) (up_nodes_ s) (pending_associations s) (associations s) (timers_of s) (uids_of s)
    (sent s ++ [o]).

(** Both constructors: the configured ids, without duplicates, in order. *)
Definition up_state_init (ids : list string) (t : T) (g : G) : up_state :=
  mk_up_state (PfcpUpNode_new <$> foldl (fun l x => set_insert x l) [] ids) (ahm_new 64) [] (ahm_new 16) t g [].

(** ** One node *)
Definition node_set_state (st : AssociationState) (n : PfcpUpNode) : PfcpUpNode :=
  mk_up_node (id_ n) (node_id_ n) (hash_node_id_ n) (peer_recovery_time_stamp_ n) (peer_function_features_ n)
    (remote_endpoint_ n) st (consecutive_failed_echo_proc n) (consecutive_successful_echo_proc n) (failed_echo_proc n)
    (successful_echo_proc n) (restarts n).

Definition node_set_counters (cf cs f s : Z) (n : PfcpUpNode) : PfcpUpNode :=
  mk_up_node (id_ n) (node_id_ n) (hash_node_id_ n) (peer_recovery_time_stamp_ n) (peer_function_features_ n)
    (remote_endpoint_ n) (association_state_ n) cf cs f s (restarts n).

(** [PfcpUpNode::NotifyNodeNotReachable] *)
Definition node_not_reachable (n : PfcpUpNode) : PfcpUpNode :=
  let cf := u32 (consecutive_failed_echo_proc n + 1) in
  let n := node_set_counters cf 0 (u64 (failed_echo_proc n + 1)) (successful_echo_proc n) n in
  match association_state_ n with
  | kAssocSetupState => node_set_state kAssocUnstable n
  | kAssocUnstable =>
    if PFCP_ASSOCIATION_HEARTBEAT_MAX_RETRIES <=? cf then node_set_state kAssocLost n else n
  | _ => n
  end.

(** [PfcpUpNode::NotifyNodeReachable] *)
Definition node_reachable (n : PfcpUpNode) : PfcpUpNode :=
  let cs := consecutive_successful_echo_proc n in
  let n :=
    match association_state_ n with
    | kAssocLost => node_set_state kAssocKnownPossible n
    | kAssocUnstable => if 10 <? cs then node_set_state kAssocSetupState n else n
    | _ => n
    end in
  node_set_counters 0 (u32 (cs + 1)) (failed_echo_proc n) (u64 (successful_echo_proc n + 1)) n.

(** [PfcpUpNode::NotifyNodeRestarted] *)
Definition node_restarted (n : PfcpUpNode) : PfcpUpNode :=
  mk_up_node (id_ n) (node_id_ n) (hash_node_id_ n) (peer_recovery_time_stamp_ n) (peer_function_features_ n)
    (remote_endpoint_ n) (association_state_ n) (consecutive_failed_echo_proc n) (consecutive_successful_echo_proc n)
    (failed_echo_proc n) (successful_echo_proc n) (u64 (restarts n + 1)).

(** ** Associations *)

(** [get_association(node_id)]; an association found is changed through the
    pointer: [put_association]. *)
Definition get_association (ni : node_id_t) (s : up_state) : option pfcp_association :=
  ahm_find (int32 (hash ni)) (associations s).
Definition put_association (k : Z) (a : pfcp_association) (s : up_state) : up_state :=
  set_associations (ahm_assign k a (associations s)) s.

Definition assoc_set_timer (t : Z) (a : pfcp_association) : pfcp_association :=
  mk_association (node_id a) (hash_node_id a) (id a) (recovery_time_stamp a) (function_features a)
    (user_plane_ip_resource_information a) (remote_endpoint a) (sessions a) t (num_retries_timer_heartbeat a)
    (trxn_id_heartbeat a) (is_restore_sessions_pending a) (is_trigger_heartbeat_request_procedure a) (state_ a).
Definition assoc_set_trxn (t : Z) (a : pfcp_association) : pfcp_association :=
  mk_association (node_id a) (hash_node_id a) (id a) (recovery_time_stamp a) (function_features a)
    (user_plane_ip_resource_information a) (remote_endpoint a) (sessions a) (timer_heartbeat a)
    (num_retries_timer_heartbeat a) t (is_restore_sessions_pending a) (is_trigger_heartbeat_request_procedure a) (state_ a).
Definition assoc_set_retries (r : Z) (a : pfcp_association) : pfcp_association :=
  mk_association (node_id a) (hash_node_id a) (id a) (recovery_time_stamp a) (function_features a)
    (user_plane_ip_resource_information a) (remote_endpoint a) (sessions a) (timer_heartbeat a) r
    (trxn_id_heartbeat a) (is_restore_sessions_pending a) (is_trigger_heartbeat_request_procedure a) (state_ a).
Definition assoc_set_sessions (l : gset fseid_t) (pending : bool) (a : pfcp_association) : pfcp_association :=
  mk_association (node_id a) (hash_node_id a) (id a) (recovery_time_stamp a) (function_features a)
    (user_plane_ip_resource_information a) (remote_endpoint a) l (timer_heartbeat a) (num_retries_timer_heartbeat a)
    (trxn_id_heartbeat a) pending (is_trigger_heartbeat_request_procedure a) (state_ a).
(** [sa->id = x], [sa->state_ = kAssocSetupState], [sa->remote_endpoint = e] *)
Definition assoc_set_up (x : string) (e : endpoint) (a : pfcp_association) : pfcp_association :=
  mk_association (node_id a) (hash_node_id a) x (recovery_time_stamp a) (function_features a)
    (user_plane_ip_resource_information a) (Some e) (sessions a) (timer_heartbeat a) (num_retries_timer_heartbeat a)
    (trxn_id_heartbeat a) (is_restore_sessions_pending a) (is_trigger_heartbeat_request_procedure a) kAssocSetupState.
(** The peer has restarted. *)
Definition assoc_renew (rts : Z) (uff : features) (upiri : resources) (a : pfcp_association) : pfcp_association :=
  mk_association (node_id a) (hash_node_id a) (id a) rts uff upiri (remote_endpoint a) (sessions a) (timer_heartbeat a)
    (num_retries_timer_heartbeat a) (trxn_id_heartbeat a) (is_restore_sessions_pending a) true (state_ a).

Definition timer_remove_ (t : Z) (s : up_state) : up_state := set_timers (ts_remove t (timers_of s)) s.

(** [trigger_heartbeat_request_procedure] on the association with key [k]. *)
Definition trigger_heartbeat_request_procedure (k : Z) (a : pfcp_association) (s : up_state) : up_state :=
  let '(t, ts) := ts_setup (association_heartbeat_period_ms / 1000) (association_heartbeat_period_ms mod 1000 * 1000)
                    TASK_PGWC_SX (timers_of s) in
  put_association k (assoc_set_timer t a) (set_timers ts s).

(** [pfcp_association::restore_sx_sessions], by node id. *)
Definition restore_sx_sessions (ni : node_id_t) (s : up_state) : up_state :=
  match get_association ni s with
  | Some a =>
    if decide (sessions a = ∅) then s
    else emit (RestoreProcedure (sessions a)) (put_association (int32 (hash ni)) (assoc_set_sessions (sessions a) true a) s)
  | None => s
  end.

(** The request of a peer.  The association is created, or found; one with the
    same recovery time stamp is left as it is, its heartbeat timer removed. *)
Definition add_association_request (trxn_id : Z) (ep : endpoint) (ni : node_id_t) (x : string) (rts : Z) (uff : features)
    (upiri : resources) (s : up_state) : result up_exn (bool * up_state) :=
  let k := int32 (hash ni) in
  let finish (is_restore : bool) (a : pfcp_association) (s : up_state) :=
    let a := assoc_set_up (id a) ep a in
    let s := put_association k a s in
    match this_node_id with
    | Some this =>
      let s := emit (SetupResponse trxn_id true this ep) s in
      let s := if is_trigger_heartbeat_request_procedure a then trigger_heartbeat_request_procedure k a s else s in
      (true, if is_restore then restore_sx_sessions ni s else s)
    | None => (false, s)
    end in
  match get_association ni s with
  | Some a =>
    let s := timer_remove_ (timer_heartbeat a) s in
    if recovery_time_stamp a =? rts then Val (true, s)
    else Val (finish true (assoc_renew rts uff upiri a) s)
  | None =>
    let a := association_of_request ni rts uff upiri in
    let a := mk_association (node_id a) (hash_node_id a) x (recovery_time_stamp a) (function_features a)
      (user_plane_ip_resource_information a) (remote_endpoint a) (sessions a) (timer_heartbeat a)
      (num_retries_timer_heartbeat a) (trxn_id_heartbeat a) (is_restore_sessions_pending a)
      (is_trigger_heartbeat_request_procedure a) (state_ a) in
    match ahm_insert k a (associations s) with
    | Some m => Val (finish false a (set_associations m s))
    | None => Throw AhmFullError
    end
  end.

(** The response of a peer. *)
Definition add_association_response (ep : endpoint) (ni : node_id_t) (rts : Z) (uff : features) (s : up_state)
  : result up_exn (bool * up_state) :=
  let k := int32 (hash ni) in
  let finish (is_restore : bool) (a : pfcp_association) (s : up_state) :=
    let a := assoc_set_up (id a) ep a in
    let s := trigger_heartbeat_request_procedure k a (put_association k a s) in
    (true, if is_restore then restore_sx_sessions ni s else s) in
  match get_association ni s with
  | Some a =>
    let s := timer_remove_ (timer_heartbeat a) s in
    if recovery_time_stamp a =? rts then Val (true, s)
    else Val (finish true (assoc_renew rts uff (user_plane_ip_resource_information a) a) s)
  | None =>
    let a := association_of_response ni rts uff true kAssocNullState in
    match ahm_insert k a (associations s) with
    | Some m => Val (finish false a (set_associations m s))
    | None => Throw AhmFullError
    end
  end.

(** [notify_node_unreachable]: the statement that should set the state is
    [sa->state_ == kAssocLost]. *)
Definition notify_node_unreachable (h : Z) (s : up_state) : up_state := s.

(** [notify_add_session], [notify_del_session] *)
Definition notify_add_session (ni : node_id_t) (f : fseid_t) (s : up_state) : up_state :=
  match get_association ni s with
  | Some a =>
    put_association (int32 (hash ni)) (assoc_set_sessions ({[f]} ∪ sessions a) (is_restore_sessions_pending a) a) s
  | None => s
  end.

Definition find_association (P : pfcp_association -> bool) (s : up_state) : option (Z * pfcp_association) :=
  find (fun ka => P ka.2) (ahm_list (associations s)).

Definition notify_del_session (f : fseid_t) (s : up_state) : up_state :=
  match find_association (fun a => bool_decide (f ∈ sessions a)) s with
  | Some (k, a) => put_association k (assoc_set_sessions (sessions a ∖ {[f]}) (is_restore_sessions_pending a) a) s
  | None => s
  end.

(** [add_peer_candidate_node] *)
Fixpoint erase_association (ni : node_id_t) (l : list pfcp_association) : list pfcp_association :=
  match l with
  | [] => []
  | a :: l => if node_id_eqb (node_id a) ni then l else a :: erase_association ni l
  end.

Definition add_peer_candidate_node (ni : node_id_t) (s : up_state) : up_state :=
  mk_up_state (pending_nodes_ s) (up_nodes_ s) (erase_association ni (pending_associations s) ++ [association_of_node ni])
    (associations s) (timers_of s) (uids_of s) (sent s).

(** ** [PfcpUpNodes] *)
Fixpoint split_first (P : PfcpUpNode -> bool) (l : list PfcpUpNode)
  : option (list PfcpUpNode * PfcpUpNode * list PfcpUpNode) :=
  match l with
  | [] => None
  | n :: l =>
    if P n then Some ([], n, l)
    else match split_first P l with Some (l1, m, l2) => Some (n :: l1, m, l2) | None => None end
  end.

(** The tests of both handlers on a pending node. *)
Definition awaits (ni : node_id_t) (n : PfcpUpNode) : bool :=
  (bool_decide (association_state_ n = kAssocNullState) || bool_decide (association_state_ n = kAssocLost)) &&
  (node_id_eqb (node_id_ n) ni || node_id_is_fqdn ni (id_ n)).

(** The node is set up and moves to [up_nodes_]; [insert] keeps an entry that
    has the key already. *)
Definition node_associated (ni : node_id_t) (ep : endpoint) (rts : Z) (uff : features) (n : PfcpUpNode) : PfcpUpNode :=
  mk_up_node (id_ n) ni (hash ni) rts uff (Some ep) kAssocSetupState (consecutive_failed_echo_proc n)
    (consecutive_successful_echo_proc n) (failed_echo_proc n) (successful_echo_proc n) (restarts n).

Definition move_up (n : PfcpUpNode) (rest : list PfcpUpNode) (s : up_state) : result up_exn up_state :=
  match ahm_insert (int32 (hash_node_id_ n)) n (up_nodes_ s) with
  | Some m => Val (set_pending rest (set_up m s))
  | None => Throw AhmFullError
  end.

Definition AssociationSetupRequest (trxn_id : Z) (ep : endpoint) (ni : node_id_t) (rts : Z) (uff : features)
    (upiri : resources) (s : up_state) : result up_exn up_state :=
  match pending_nodes_ s with
  | [] =>
    Val (match this_node_id with Some this => emit (SetupResponse trxn_id false this ep) s | None => s end)
  | _ =>
    match split_first (awaits ni) (pending_nodes_ s) with
    | Some (l1, n, l2) =>
      r ← add_association_request trxn_id ep ni (id_ n) rts uff upiri s;
      if (r : bool * up_state).1 then move_up (node_associated ni ep rts uff n) (l1 ++ l2) r.2 else Val r.2
    | None => Val s
    end
  end.

Definition AssociationSetupResp (ep : endpoint) (ni : node_id_t) (rts : Z) (uff : features) (s : up_state)
  : result up_exn up_state :=
  match split_first (awaits ni) (pending_nodes_ s) with
  | Some (l1, n, l2) =>
    r ← add_association_response ep ni rts uff s;
    if (r : bool * up_state).1 then move_up (node_associated ni ep rts uff n) (l1 ++ l2) r.2 else Val r.2
  | None => Val s
  end.

(** [GetUpNode] by hash, and by node id. *)
Definition GetUpNode (h : Z) (s : up_state) : option PfcpUpNode := ahm_find (int32 h) (up_nodes_ s).

(** Apply [f] to the first pending node with [P]. *)
Definition update_pending (P : PfcpUpNode -> bool) (f : PfcpUpNode -> PfcpUpNode) (s : up_state) : up_state :=
  match split_first P (pending_nodes_ s) with
  | Some (l1, n, l2) => set_pending (l1 ++ f n :: l2) s
  | None => s
  end.

(** Through the pointer in [up_nodes_]. *)
Definition put_up (h : Z) (n : PfcpUpNode) (s : up_state) : up_state :=
  set_up (ahm_assign (int32 h) n (up_nodes_ s)) s.

(** A node found lost leaves [up_nodes_] and waits. *)
Definition drop_if_lost (n : PfcpUpNode) (s : up_state) : up_state :=
  if decide (association_state_ n = kAssocLost) then
    let s := set_up (ahm_erase (int32 (hash_node_id_ n)) (up_nodes_ s)) s in
    set_pending (pending_nodes_ s ++ [n]) s
  else s.

(** The overloads by hash. *)
Definition NotifyNodeNotReachable (h : Z) (s : up_state) : up_state :=
  match GetUpNode h s with
  | Some n =>
    let n := node_not_reachable n in
    let s := drop_if_lost n (put_up h n s) in
    if decide (association_state_ n = kAssocLost) then notify_node_unreachable h s else s
  | None => update_pending (fun n => hash_node_id_ n =? h) node_not_reachable s
  end.

Definition NotifyNodeReachable (h : Z) (s : up_state) : up_state :=
  match GetUpNode h s with
  | Some n => put_up h (node_reachable n) s
  | None => update_pending (fun n => hash_node_id_ n =? h) node_reachable s
  end.

Definition NotifyNodeRestarted (h : Z) (s : up_state) : up_state :=
  match GetUpNode h s with
  | Some n => put_up h (node_restarted n) s
  | None => s
  end.

(** The overloads by node id, which nothing calls. *)
Definition NotifyNodeNotReachable_id (ni : node_id_t) (s : up_state) : up_state :=
  match GetUpNode (hash ni) s with
  | Some n => let n := node_not_reachable n in drop_if_lost n (put_up (hash ni) n s)
  | None => update_pending (fun n => node_id_eqb (node_id_ n) ni) node_not_reachable s
  end.

Definition NotifyNodeReachable_id (ni : node_id_t) (s : up_state) : up_state :=
  match GetUpNode (hash ni) s with
  | Some n => put_up (hash ni) (node_reachable n) s
  | None => update_pending (fun n => node_id_eqb (node_id_ n) ni) node_reachable s
  end.

Definition NotifyNodeRestarted_id (ni : node_id_t) (s : up_state) : up_state := NotifyNodeRestarted (hash ni) s.

(** [NotifyNodeAssociated], which nothing calls either ("deadlock design"). *)
Definition NotifyNodeAssociated (to_string : node_id_t -> string) (ni : node_id_t) (s : up_state) : result up_exn up_state :=
  match split_first (fun n => String.eqb (to_string ni) (id_ n)) (pending_nodes_ s) with
  | Some (l1, n, l2) =>
    let n := mk_up_node (id_ n) ni (hash ni) (peer_recovery_time_stamp_ n) (peer_function_features_ n) (remote_endpoint_ n)
      (association_state_ n) (consecutive_failed_echo_proc n) (consecutive_successful_echo_proc n) (failed_echo_proc n)
      (successful_echo_proc n) (restarts n) in
    move_up n (l1 ++ l2) s
  | None => Val s
  end.

(** ** Heartbeats *)

(** [pgwc_sxab::send_heartbeat_request] *)
Definition send_heartbeat_request (k : Z) (a : pfcp_association) (s : up_state) : result up_exn up_state :=
  match fi_get (uids_of s) with
  | Some (trxn, g) =>
    Val (emit (HeartbeatRequest trxn (set_port 8805 <$> remote_endpoint a)) (put_association k (assoc_set_trxn trxn a) (set_uids g s)))
  | None => Diverge
  end.

(** The heartbeat timer of an association: its argument is the hash. *)
Definition initiate_heartbeat_request (h : Z) (s : up_state) : result up_exn up_state :=
  let k := int32 h in
  match ahm_find k (associations s) with
  | Some a =>
    if is_trigger_heartbeat_request_procedure a then
      let a := assoc_set_retries 0 a in send_heartbeat_request k a (put_association k a s)
    else Val s
  | None => Val s
  end.

(** The request was not answered ([notify_ul_error] of the stack). *)
Definition timeout_heartbeat_request (trxn_id : Z) (s : up_state) : up_state :=
  match find_association (fun a => trxn_id_heartbeat a =? trxn_id) s with
  | Some (k, a) =>
    let a := assoc_set_trxn 0 a in
    let s := timer_remove_ (timer_heartbeat a) (put_association k a s) in
    let s := trigger_heartbeat_request_procedure k a s in
    NotifyNodeNotReachable (hash_node_id a) s
  | None => s
  end.

Definition handle_receive_heartbeat_response (trxn_id rts : Z) (s : up_state) : up_state :=
  match find_association (fun a => trxn_id_heartbeat a =? trxn_id) s with
  | Some (k, a) =>
    let a := assoc_set_trxn 0 a in
    let s := timer_remove_ (timer_heartbeat a) (put_association k a s) in
    if recovery_time_stamp a =? rts then
      NotifyNodeReachable (hash_node_id a) (trigger_heartbeat_request_procedure k a s)
    else NotifyNodeRestarted (hash_node_id a) s
  | None => s
  end.

Definition handle_receive_heartbeat_request (ep : endpoint) (rts : Z) (s : up_state) : up_state :=
  match find_association (fun a => bool_decide (remote_endpoint a = Some ep)) s with
  | Some (k, a) =>
    if recovery_time_stamp a =? rts then NotifyNodeReachable (hash_node_id a) s
    else NotifyNodeRestarted (hash_node_id a) s
  | None => s
  end.

(** ** Selection

    The associations of the configured nodes [ids] (those [GetUpNodes] gives for
    an APN, a location and an address).  [begin()] of the [std::set] of
    pointers is the candidate at the lowest address: [pick]. *)
Definition candidates (ids : list string) (s : up_state) : list pfcp_association :=
  concat ((fun x => snd <$> filter (fun ka => String.eqb (id ka.2) x = true /\ state_ ka.2 = kAssocSetupState)
                              (ahm_list (associations s))) <$> ids).

Definition select_up_node (pick : list pfcp_association -> option pfcp_association) (ids : list string) (s : up_state)
  : option node_id_t :=
  match ahm_list (associations s) with
  | [] => None
  | _ => node_id <$> pick (candidates ids s)
  end.

(** ** Runs *)
Inductive up_event :=
| EvSetupRequest (trxn_id : Z) (ep : endpoint) (ni : node_id_t) (rts : Z) (uff : features) (upiri : resources)
| EvSetupResponse (ep : endpoint) (ni : node_id_t) (rts : Z) (uff : features)
| EvCandidate (ni : node_id_t)
| EvHeartbeatTimer (h : Z)
| EvHeartbeatTimeout (trxn_id : Z)
| EvHeartbeatResponse (trxn_id rts : Z)
| EvHeartbeatRequest (ep : endpoint) (rts : Z).

Definition up_exec (e : up_event) (s : up_state) : result up_exn up_state :=
  match e with
  | EvSetupRequest trxn ep ni rts uff upiri => AssociationSetupRequest trxn ep ni rts uff upiri s
  | EvSetupResponse ep ni rts uff => AssociationSetupResp ep ni rts uff s
  | EvCandidate ni => Val (add_peer_candidate_node ni s)
  | EvHeartbeatTimer h => initiate_heartbeat_request h s
  | EvHeartbeatTimeout trxn => Val (timeout_heartbeat_request trxn s)
  | EvHeartbeatResponse trxn rts => Val (handle_receive_heartbeat_response trxn rts s)
  | EvHeartbeatRequest ep rts => Val (handle_receive_heartbeat_request ep rts s)
  end.

Inductive up_run (s : up_state) : list up_event -> up_state -> Prop :=
| up_run_nil : up_run s [] s
| up_run_snoc tr e s1 s2 : up_run s tr s1 -> up_exec e s1 = Val s2 -> up_run s (tr ++ [e]) s2.
End UpNodes.
