(* ===== verification/UpNodesLaws.v ===== *)
(** * The table of user-plane nodes: invariant and behaviour

    What holds in every run of [UpNodes] from the configuration, and what the
    handlers do on each branch. *)
From S2P Require Import Prelude UidGenerator Itti TimerService AtomicMap PfcpNode UpNodes.
From Stdlib Require Import ZArith Lia String OrdersEx.
From stdpp Require Import base gmap numbers tactics list strings sorting.
Open Scope Z_scope.

Section Laws.
Context {G T : Type} {M : Type -> Type} `{FG : FreshIds G} `{TS : TimerService T} `{AM : AtomicMap M}.
Context {endpoint features resources : Type} `{EqDecision endpoint}.
Context (hash_uint32 : Z -> Z) (hash_string : string -> Z) (period : Z).

Abbreviation hash := (PfcpNode.hash_node_id hash_uint32 hash_string).
Abbreviation node := (@PfcpUpNode endpoint features).
Abbreviation assoc := (@pfcp_association endpoint features resources).
Abbreviation state := (@up_state G T M endpoint features resources).
Abbreviation put := (put_association).
Implicit Types (s : state) (n : node) (a : assoc).

(** ** Lists *)
Lemma split_first_Some (P : node -> bool) l l1 n l2 :
  split_first P l = Some (l1, n, l2) -> l = l1 ++ n :: l2 /\ P n = true /\ Forall (fun n => P n = false) l1.
Proof.
  revert l1. induction l as [|m l IH]; intros l1; simpl; [done|]. destruct (P m) eqn:E; [by intros [= <- <- <-]|].
  destruct (split_first P l) as [[[k1 k] k2]|]; [|done]. intros [= <- <- <-].
  destruct (IH k1 eq_refl) as (-> & ? & ?). split; [done|]. split; [done|]. by constructor.
Qed.

Lemma split_first_None (P : node -> bool) l : split_first P l = None -> Forall (fun n => P n = false) l.
Proof.
  induction l as [|m l IH]; simpl; [done|]. destruct (P m) eqn:E; [done|].
  destruct (split_first P l) as [[[k1 k] k2]|]; [done|]. intros _. constructor; auto.
Qed.

(** ** Association tables *)

(** An association as the table keeps it: set up, under the low bits of its
    hash. *)
Definition assoc_ok (k : Z) a : Prop := state_ a = kAssocSetupState /\ k = int32 (hash_node_id a).

(** What the operations of [pfcp_associations] do to the rest: nothing, and no
    association goes away. *)
Record grows (s s' : state) : Prop := {
  g_pending : pending_nodes_ s' = pending_nodes_ s;
  g_up : up_nodes_ s' = up_nodes_ s;
  g_assoc : forall k a', ahm_find k (associations s') = Some a' -> assoc_ok k a' \/ ahm_find k (associations s) = Some a';
  g_keep : forall k a, ahm_find k (associations s) = Some a -> exists a', ahm_find k (associations s') = Some a' /\ id a' = id a;
}.

#[local] Instance grows_preorder : PreOrder grows.
Proof.
  split.
  - intros s. split; try done; [by right|eauto].
  - intros s1 s2 s3 [P1 U1 A1 K1] [P2 U2 A2 K2]. split; [congruence|congruence| |].
    + intros k a' E. destruct (A2 k a' E) as [|E2]; [by left|]. by apply A1.
    + intros k a E. destruct (K1 k a E) as (a1 & E1 & I1). destruct (K2 k a1 E1) as (a2 & E2 & I2). exists a2. split; [done|congruence].
Qed.

Lemma grows_same s s' :
  pending_nodes_ s' = pending_nodes_ s -> up_nodes_ s' = up_nodes_ s -> associations s' = associations s -> grows s s'.
Proof. intros E1 E2 E3. split; [done|done|rewrite E3; by right|rewrite E3; eauto]. Qed.

Lemma find_put k a a0 s k' :
  ahm_find k (associations s) = Some a0 ->
  ahm_find k' (associations (put k a s)) = if decide (k' = k) then Some a else ahm_find k' (associations s).
Proof. intros E. by apply ahm_find_assign with a0. Qed.

Lemma grows_put k a a0 s :
  ahm_find k (associations s) = Some a0 -> assoc_ok k a -> id a = id a0 -> grows s (put k a s).
Proof.
  intros E Hok Hid. split; [done|done| |].
  - intros k' a'. rewrite (find_put _ _ _ _ _ E). case_decide; [intros [= <-]; subst; by left|by right].
  - intros k' a' E'. rewrite (find_put _ _ _ _ _ E). case_decide; [|eauto]. exists a. split; [done|]. congruence.
Qed.

(** A new association, finished before anyone sees it. *)
Lemma grows_insert k a a' m s :
  ahm_find k (associations s) = None -> ahm_insert k a (associations s) = Some m -> assoc_ok k a' ->
  grows s (put k a' (set_associations m s)) /\ ahm_find k (associations (put k a' (set_associations m s))) = Some a'.
Proof.
  intros E Em Hok. pose proof (ahm_find_insert k a (associations s) m) as Hi. rewrite E in Hi.
  assert (ahm_find k (associations (set_associations m s)) = Some a) as Ea by (cbn; rewrite (Hi k) by done; by case_decide).
  split; [|rewrite (find_put _ _ _ _ _ Ea); by case_decide]. split; [done|done| |].
  - intros k' b. rewrite (find_put _ _ _ _ _ Ea). case_decide; [intros [= <-]; subst; by left|].
    cbn. rewrite (Hi k') by done. case_decide; [done|by right].
  - intros k' b E'. rewrite (find_put _ _ _ _ _ Ea). case_decide; [subst; congruence|].
    cbn. rewrite (Hi k') by done. case_decide; [done|eauto].
Qed.

Lemma grows_trigger k a a0 s :
  ahm_find k (associations s) = Some a0 -> assoc_ok k a -> id a = id a0 ->
  grows s (trigger_heartbeat_request_procedure period k a s) /\
  exists t, ahm_find k (associations (trigger_heartbeat_request_procedure period k a s)) = Some (assoc_set_timer t a).
Proof.
  intros E Hok Hid. unfold trigger_heartbeat_request_procedure. destruct (ts_setup _ _ _ _) as [t ts].
  set (s1 := set_timers ts s). split.
  - transitivity s1; [by apply grows_same|]. by apply (grows_put k (assoc_set_timer t a) a0 s1).
  - exists t. rewrite (find_put k _ a0); [by case_decide|done].
Qed.

Lemma grows_restore ni s a :
  get_association hash_uint32 hash_string ni s = Some a -> assoc_ok (int32 (hash ni)) a ->
  grows s (restore_sx_sessions hash_uint32 hash_string ni s).
Proof.
  intros E Hok. unfold restore_sx_sessions. rewrite E. case_decide; [reflexivity|].
  etransitivity; [apply (grows_put (int32 (hash ni)) (assoc_set_sessions (sessions a) true a) a s); done|by apply grows_same].
Qed.

(** The end of both [add_association]s: heartbeats and restoration. *)
Definition monitored (ni : node_id_t) (r t : bool) a s : state :=
  let k := int32 (hash ni) in
  let s := if t then trigger_heartbeat_request_procedure period k a s else s in
  if r then restore_sx_sessions hash_uint32 hash_string ni s else s.

Lemma grows_monitored ni r t a s :
  ahm_find (int32 (hash ni)) (associations s) = Some a -> assoc_ok (int32 (hash ni)) a ->
  grows s (monitored ni r t a s) /\ is_Some (ahm_find (int32 (hash ni)) (associations (monitored ni r t a s))).
Proof.
  intros E Hok. unfold monitored. set (k := int32 (hash ni)) in *.
  assert (exists a', grows s (if t then trigger_heartbeat_request_procedure period k a s else s) /\
    ahm_find k (associations (if t then trigger_heartbeat_request_procedure period k a s else s)) = Some a' /\ assoc_ok k a') as (a' & Hg & E' & Hok').
  { destruct t; [|by exists a]. destruct (grows_trigger k a a s E Hok eq_refl) as (Hg & t & Ht). by exists (assoc_set_timer t a). }
  destruct r; [|by split; [|eexists]]. pose proof (grows_restore ni _ a' E' Hok') as Hg2. split; [by etransitivity|].
  destruct (g_keep _ _ Hg2 k a' E') as (a2 & E2 & _). by eexists.
Qed.

Definition table_ok (s : state) : Prop := forall k a, ahm_find k (associations s) = Some a -> assoc_ok k a.

Lemma grows_table_ok s s' : grows s s' -> table_ok s -> table_ok s'.
Proof. intros Hg Hs k a E. destruct (g_assoc _ _ Hg k a E) as [|E']; [done|by apply Hs]. Qed.


(** ** The invariant *)
Definition waiting (st : AssociationState) : Prop :=
  st = kAssocNullState \/ st = kAssocLost \/ st = kAssocKnownPossible.
Definition active (st : AssociationState) : Prop := st = kAssocSetupState \/ st = kAssocUnstable.

(** A node that has a name as node id has its own. *)
Definition named n : Prop := node_id_type (node_id_ n) = NODE_ID_TYPE_FQDN -> fqdn (node_id_ n) = id_ n.

Record up_inv (s : state) : Prop := {
  inv_table : table_ok s;
  inv_up : forall k n, ahm_find k (up_nodes_ s) = Some n ->
    k = int32 (hash_node_id_ n) /\ hash_node_id_ n = hash (node_id_ n) /\ active (association_state_ n) /\ named n /\
    is_Some (ahm_find k (associations s));
  inv_pending : forall n, n ∈ pending_nodes_ s -> waiting (association_state_ n) /\ named n;
  inv_nodup : NoDup (id_ <$> pending_nodes_ s);
  inv_apart : forall k n, ahm_find k (up_nodes_ s) = Some n -> id_ n ∉ id_ <$> pending_nodes_ s;
  inv_once : forall k1 n1 k2 n2, ahm_find k1 (up_nodes_ s) = Some n1 -> ahm_find k2 (up_nodes_ s) = Some n2 ->
    id_ n1 = id_ n2 -> k1 = k2;
}.

Lemma inv_grows s s' : grows s s' -> up_inv s -> up_inv s'.
Proof.
  intros Hg [Ht Hu Hp Hn Ha Ho]. pose proof (grows_table_ok _ _ Hg Ht). destruct Hg as [P1 U1 A1 K1].
  split; rewrite ?P1, ?U1; try done. intros k n E. destruct (Hu k n E) as (? & ? & ? & ? & [a Ea]).
  split_and!; try done. destruct (K1 k a Ea) as (a' & E' & _). by eexists.
Qed.

(** Nodes that differ in their state and counters only. *)
Definition same_node n n' : Prop := id_ n' = id_ n /\ node_id_ n' = node_id_ n /\ hash_node_id_ n' = hash_node_id_ n.

Lemma same_named n n' : same_node n n' -> named n -> named n'.
Proof. intros (E1 & E2 & _). unfold named. by rewrite E1, E2. Qed.

Lemma node_not_reachable_same n : same_node n (node_not_reachable n).
Proof. unfold node_not_reachable, same_node. destruct n as [? ? ? ? ? ? []]; simpl; by try case_match. Qed.

Lemma node_reachable_same n : same_node n (node_reachable n).
Proof. unfold node_reachable, same_node. destruct n as [? ? ? ? ? ? []]; simpl; by try case_match. Qed.

Lemma node_not_reachable_waiting n :
  waiting (association_state_ n) -> association_state_ (node_not_reachable n) = association_state_ n.
Proof. unfold waiting, node_not_reachable. by destruct n as [? ? ? ? ? ? []]; intros [|[|]]. Qed.

Lemma node_reachable_waiting n :
  waiting (association_state_ n) -> waiting (association_state_ (node_reachable n)).
Proof. unfold waiting, node_reachable. destruct n as [? ? ? ? ? ? []]; intros [|[|]]; simpl in *; auto; discriminate. Qed.

Lemma node_not_reachable_active n :
  active (association_state_ n) ->
  active (association_state_ (node_not_reachable n)) \/ association_state_ (node_not_reachable n) = kAssocLost.
Proof. unfold active, node_not_reachable. destruct n as [? ? ? ? ? ? []]; intros [|]; simpl in *; try case_match; auto; discriminate. Qed.

Lemma node_reachable_active n : active (association_state_ n) -> active (association_state_ (node_reachable n)).
Proof. unfold active, node_reachable. destruct n as [? ? ? ? ? ? []]; intros [|]; simpl in *; try case_match; auto; discriminate. Qed.

Lemma inv_update_pending P f s :
  (forall n, same_node n (f n)) -> (forall n, waiting (association_state_ n) -> waiting (association_state_ (f n))) ->
  up_inv s -> up_inv (update_pending P f s).
Proof.
  intros Hsame Hw [Ht Hu Hp Hn Ha Ho]. unfold update_pending.
  destruct (split_first P (pending_nodes_ s)) as [[[l1 n] l2]|] eqn:E; [|done].
  apply split_first_Some in E as (El & _ & _). destruct (Hsame n) as (E1 & _).
  assert (id_ <$> (l1 ++ f n :: l2) = id_ <$> pending_nodes_ s) as Ei by (rewrite El, !fmap_app, !fmap_cons; by rewrite E1).
  split; cbn [set_pending pending_nodes_ up_nodes_ associations]; rewrite ?Ei; try done.
  intros m Hm. rewrite El in Hp. rewrite elem_of_app, elem_of_cons in Hm.
  destruct Hm as [Hm|[->|Hm]]; [apply Hp; set_solver| |apply Hp; set_solver].
  destruct (Hp n ltac:(set_solver)) as [Hwn Hnn]. split; [by apply Hw|by apply (same_named n)].
Qed.

(** A node of [up_nodes_] changed in place. *)
Lemma inv_put_up h n n' s :
  GetUpNode h s = Some n -> same_node n n' -> active (association_state_ n') -> up_inv s -> up_inv (put_up h n' s).
Proof.
  intros E Hsame Hact [Ht Hu Hp Hn Ha Ho]. unfold GetUpNode in E. pose proof Hsame as (E1 & E2 & E3).
  assert (forall k m, ahm_find k (up_nodes_ (put_up h n' s)) = Some m ->
    (k = int32 h /\ m = n') \/ ahm_find k (up_nodes_ s) = Some m) as Hf.
  { intros k m. cbn. rewrite (ahm_find_assign _ _ _ _ _ E). case_decide; [intros [= <-]; by left|by right]. }
  assert (forall k m, ahm_find k (up_nodes_ (put_up h n' s)) = Some m -> exists m0, ahm_find k (up_nodes_ s) = Some m0 /\ id_ m = id_ m0) as Hid.
  { intros k m Em. destruct (Hf k m Em) as [[-> ->]|]; eauto. }
  split; cbn [put_up set_up pending_nodes_ associations]; try done.
  - intros k m Em. destruct (Hf k m Em) as [[-> ->]|Em']; [|by apply Hu].
    destruct (Hu _ _ E) as (Hk & Hh & _ & Hnm & Hs). rewrite E2, E3. split_and!; try done. by apply (same_named n).
  - intros k m Em. destruct (Hid k m Em) as (m0 & Em0 & ->). by apply (Ha k).
  - intros k1 m1 k2 m2 Em1 Em2 Eid. destruct (Hid k1 m1 Em1) as (x1 & X1 & I1), (Hid k2 m2 Em2) as (x2 & X2 & I2).
    apply (Ho k1 x1 k2 x2); try done. congruence.
Qed.

(** A node found lost goes back to the pending ones. *)
Lemma inv_drop h n n' s :
  GetUpNode h s = Some n -> same_node n n' -> association_state_ n' = kAssocLost -> up_inv s ->
  up_inv (drop_if_lost n' (put_up h n' s)).
Proof.
  intros E Hsame Hl [Ht Hu Hp Hn Ha Ho]. unfold GetUpNode in E. destruct (Hu _ _ E) as (Hk & Hh & _ & Hnm & Hs).
  pose proof Hsame as (E1 & E2 & E3). unfold drop_if_lost. rewrite decide_True by done. rewrite E3, <- Hk.
  assert (forall k m, ahm_find k (ahm_erase (int32 h) (up_nodes_ (put_up h n' s))) = Some m -> k <> int32 h /\ ahm_find k (up_nodes_ s) = Some m) as Hf.
  { intros k m. rewrite ahm_find_erase. case_decide; [done|]. cbn. rewrite (ahm_find_assign _ _ _ _ _ E). by case_decide. }
  split; cbn [set_pending set_up put_up pending_nodes_ up_nodes_ associations]; try done.
  - intros k m Em. apply Hf in Em as [_ Em]. by apply Hu.
  - intros m Hm. apply elem_of_app in Hm as [Hm|Hm%list_elem_of_singleton]; [by apply Hp|]. subst m.
    split; [by right; left|by apply (same_named n)].
  - rewrite fmap_app. apply NoDup_app. split; [done|]. split; [|apply NoDup_singleton].
    intros x Hx Hx2. apply list_elem_of_singleton in Hx2 as ->. rewrite E1 in Hx. by apply (Ha _ _ E).
  - intros k m Em. apply Hf in Em as [Hne Em]. rewrite fmap_app, elem_of_app. intros [Hx|Hx]; [by apply (Ha k m)|].
    apply list_elem_of_singleton in Hx. apply Hne, (Ho k m (int32 h) n); [done|done|congruence].
  - intros k1 m1 k2 m2 [_ Em1]%Hf [_ Em2]%Hf. by apply Ho.
Qed.

Lemma inv_notify_not_reachable h s : up_inv s -> up_inv (NotifyNodeNotReachable h s).
Proof.
  intros Hs. unfold NotifyNodeNotReachable. destruct (GetUpNode h s) as [n|] eqn:E.
  - cbn [notify_node_unreachable]. replace (if decide _ then _ else _) with (drop_if_lost (node_not_reachable n) (put_up h (node_not_reachable n) s))
      by (by case_decide). pose proof (node_not_reachable_same n) as Hsame.
    destruct (inv_up _ Hs _ _ E) as (_ & _ & Hact & _). destruct (node_not_reachable_active n Hact) as [Ha|Hl].
    + unfold drop_if_lost. rewrite decide_False by (destruct Ha as [-> | ->]; done). by apply (inv_put_up h n).
    + by apply (inv_drop h n).
  - apply inv_update_pending; [apply node_not_reachable_same| |done]. intros n Hn. by rewrite node_not_reachable_waiting.
Qed.

Lemma inv_notify_reachable h s : up_inv s -> up_inv (NotifyNodeReachable h s).
Proof.
  intros Hs. unfold NotifyNodeReachable. destruct (GetUpNode h s) as [n|] eqn:E.
  - apply (inv_put_up h n); [done|apply node_reachable_same|apply node_reachable_active|done]. by apply (inv_up _ Hs _ _ E).
  - apply inv_update_pending; [apply node_reachable_same|apply node_reachable_waiting|done].
Qed.

Lemma inv_notify_restarted h s : up_inv s -> up_inv (NotifyNodeRestarted h s).
Proof.
  intros Hs. unfold NotifyNodeRestarted. destruct (GetUpNode h s) as [n|] eqn:E; [|done].
  apply (inv_put_up h n); [done|done| |done]. by apply (inv_up _ Hs _ _ E).
Qed.

(** ** Heartbeats that fail *)
Lemma find_association_Some P k a s :
  find_association P s = Some (k, a) -> ahm_find k (associations s) = Some a /\ P a = true.
Proof.
  unfold find_association. intros [Hin HP]%find_some. split; [|done]. by apply ahm_list_find, list_elem_of_In.
Qed.

(** An association whose transaction id changes. *)
Lemma grows_set_trxn k a t s :
  table_ok s -> ahm_find k (associations s) = Some a ->
  let s1 := timer_remove_ (timer_heartbeat a) (put k (assoc_set_trxn t a) s) in
  grows s s1 /\ ahm_find k (associations s1) = Some (assoc_set_trxn t a) /\ assoc_ok k (assoc_set_trxn t a).
Proof.
  intros Hs E s1. destruct (Hs k a E) as [H1 H2]. assert (assoc_ok k (assoc_set_trxn t a)) as Hok by done. split; [|split; [|done]].
  - transitivity (put k (assoc_set_trxn t a) s); [by apply (grows_put k _ a)|by apply grows_same].
  - unfold s1. cbn [timer_remove_ set_timers associations]. rewrite (find_put k _ a s k E). by case_decide.
Qed.

Lemma node_lost_iff n :
  association_state_ (node_not_reachable n) = kAssocLost <->
  association_state_ n = kAssocLost \/
  (association_state_ n = kAssocUnstable /\ PFCP_ASSOCIATION_HEARTBEAT_MAX_RETRIES <= u32 (consecutive_failed_echo_proc n + 1)).
Proof.
  unfold node_not_reachable. cbn. destruct (association_state_ n) eqn:E; cbn; rewrite ?E; try naive_solver.
  case_match; cbn; rewrite ?E; split; try naive_solver lia.
Qed.

(** A heartbeat that no peer answers: its association waits for the next
    one, on a new timer.  An active node becomes unstable; from unstable, when
    this is at least the second failure in a row, it is lost: it leaves the
    active nodes for the end of the waiting list.  The states of waiting nodes
    do not change. *)
Theorem heartbeat_timeout_spec (trxn k : Z) (a : assoc) (s : state) :
  up_inv s -> find_association (fun a => trxn_id_heartbeat a =? trxn) s = Some (k, a) ->
  let s' := timeout_heartbeat_request period trxn s in
  (exists tm, ahm_find k (associations s') = Some (assoc_set_timer tm (assoc_set_trxn 0 a))) /\
  match ahm_find k (up_nodes_ s) with
  | Some n =>
    if decide (association_state_ n = kAssocUnstable /\
               PFCP_ASSOCIATION_HEARTBEAT_MAX_RETRIES <= u32 (consecutive_failed_echo_proc n + 1))
    then ahm_find k (up_nodes_ s') = None /\
      exists n', pending_nodes_ s' = pending_nodes_ s ++ [n'] /\ association_state_ n' = kAssocLost /\ id_ n' = id_ n
    else pending_nodes_ s' = pending_nodes_ s /\
      exists n', ahm_find k (up_nodes_ s') = Some n' /\ association_state_ n' = kAssocUnstable /\ id_ n' = id_ n
  | None => up_nodes_ s' = up_nodes_ s /\ association_state_ <$> pending_nodes_ s' = association_state_ <$> pending_nodes_ s
  end.
Proof.
  intros Hs E s'. unfold s', timeout_heartbeat_request. rewrite E. apply find_association_Some in E as [E _].
  destruct (inv_table _ Hs k a E) as [Hst Hk]. destruct (grows_set_trxn k a 0 s (inv_table _ Hs) E) as (Hg & Ef & Hok).
  destruct (grows_trigger k _ _ _ Ef Hok eq_refl) as [Hg2 [tm Htm]]. change (timer_heartbeat (assoc_set_trxn 0 a)) with (timer_heartbeat a).
  set (s1 := trigger_heartbeat_request_procedure _ _ _ _) in *. change (hash_node_id (assoc_set_trxn 0 a)) with (hash_node_id a).
  assert (grows s s1) as Hg1 by (by etransitivity). assert (up_inv s1) as Hs1 by (by apply (inv_grows s)).
  destruct Hg1 as [Hp Hu _ _]. unfold NotifyNodeNotReachable, notify_node_unreachable, GetUpNode. rewrite <- Hk, Hu, <- Hp.
  destruct (ahm_find k (up_nodes_ s)) as [n|] eqn:En.
  - rewrite <- Hu in En. destruct (inv_up _ Hs1 k n En) as (Hkn & _ & Hact & _). destruct (node_not_reachable_same n) as (E1 & _ & E3).
    set (n' := node_not_reachable n) in *. replace (if decide _ then _ else _) with (drop_if_lost n' (put_up (hash_node_id a) n' s1)) by (by case_decide).
    unfold drop_if_lost, put_up. rewrite <- Hk. pose proof (node_lost_iff n) as Hl. fold n' in Hl.
    destruct (decide (association_state_ n' = kAssocLost)) as [El|El].
    + rewrite decide_True by (destruct Hact as [Hact|Hact]; rewrite Hact in Hl; naive_solver). split; [by exists tm|].
      cbn. rewrite E3, <- Hkn, ahm_find_erase, decide_True by done. split; [done|]. by exists n'.
    + rewrite decide_False by naive_solver. split; [by exists tm|]. split; [done|]. exists n'. cbn.
      rewrite (ahm_find_assign _ _ _ _ _ En), decide_True by done. split; [done|]. split; [|done].
      destruct Hact as [Hact|Hact]; unfold n', node_not_reachable in El |- *; cbn in El |- *; rewrite Hact in El |- *; [done|].
      case_match; [done|cbn; by rewrite Hact].
  - split; [exists tm; unfold update_pending; by repeat case_match|].
    unfold update_pending. destruct (split_first _ _) as [[[l1 n] l2]|] eqn:Esp; [|by rewrite Hu].
    apply split_first_Some in Esp as (El & _). split; [done|]. cbn. rewrite El, !fmap_app, !fmap_cons.
    rewrite node_not_reachable_waiting; [done|]. apply (inv_pending _ Hs1). rewrite El. set_solver.
Qed.

(** ** The events *)
Context (no_features : features) (no_resources : resources) (set_port : Z -> endpoint -> endpoint) (this : option node_id_t).
Abbreviation exec := (up_exec no_features no_resources set_port hash_uint32 hash_string period this).
Abbreviation run := (up_run no_features no_resources set_port hash_uint32 hash_string period this).

Abbreviation add_request := (add_association_request hash_uint32 hash_string period this).
Abbreviation add_response := (add_association_response no_resources hash_uint32 hash_string period).

(** The association of a peer after its request: the old one, or set up with
    what the peer says. *)
Lemma add_request_grows trxn ep ni x rts uff upiri s ok s' :
  table_ok s -> add_request trxn ep ni x rts uff upiri s = Val (ok, s') ->
  grows s s' /\ is_Some (ahm_find (int32 (hash ni)) (associations s')).
Proof.
  intros Hs E. unfold add_association_request, get_association in E. set (k := int32 (hash ni)) in *.
  assert (forall a s1 is_restore, grows s s1 -> ahm_find k (associations s1) = Some a -> assoc_ok k a ->
    match this with
    | Some t => (true, monitored ni is_restore (is_trigger_heartbeat_request_procedure a) a (emit (SetupResponse trxn true t ep) s1))
    | None => (false, s1) end = (ok, s') -> grows s s' /\ is_Some (ahm_find k (associations s'))) as Hfin.
  { intros a s1 r Hg1 E1 Hok1. destruct this as [t|]; intros [= <- <-]; [|by split; [|eexists]].
    destruct (grows_monitored ni r (is_trigger_heartbeat_request_procedure a) a (emit (SetupResponse trxn true t ep) s1) E1 Hok1) as [Hg2 Hx].
    split; [|done]. etransitivity; [exact Hg1|]. etransitivity; [|exact Hg2]. by apply grows_same. }
  destruct (ahm_find k (associations s)) as [a|] eqn:Ea.
  - destruct (Hs k a Ea) as [Hst Hk]. destruct (recovery_time_stamp a =? rts).
    + injection E as <- <-. split; [by apply grows_same|by eexists].
    + injection E as E. set (a1 := assoc_set_up (id a) ep (assoc_renew rts uff upiri a)) in *.
      set (s0 := timer_remove_ (timer_heartbeat a) s) in *.
      apply (Hfin a1 (put k a1 s0) true); [| |done|exact E].
      * transitivity s0; [by apply grows_same|]. by apply (grows_put k a1 a s0).
      * rewrite (find_put k a1 a s0 k Ea). by case_decide.
  - destruct (ahm_insert k _ (associations s)) as [m|] eqn:Em; [|done]. injection E as E. cbv zeta in E.
    match type of E with context [put k ?a' (set_associations m s)] => set (a1 := a') in * end.
    assert (assoc_ok k a1) as Hok by done.
    destruct (grows_insert k _ a1 m s Ea Em Hok) as [Hg Hf]. by apply (Hfin a1 (put k a1 (set_associations m s)) false).
Qed.

Lemma add_response_grows ep ni rts uff s ok s' :
  table_ok s -> add_response ep ni rts uff s = Val (ok, s') ->
  grows s s' /\ ok = true /\ is_Some (ahm_find (int32 (hash ni)) (associations s')).
Proof.
  intros Hs E. unfold add_association_response, get_association in E. set (k := int32 (hash ni)) in *.
  assert (forall a s1 is_restore, grows s s1 -> ahm_find k (associations s1) = Some a -> assoc_ok k a ->
    (true, monitored ni is_restore true a s1) = (ok, s') -> grows s s' /\ ok = true /\ is_Some (ahm_find k (associations s'))) as Hfin.
  { intros a s1 r Hg1 E1 Hok1 [= <- <-]. destruct (grows_monitored ni r true a s1 E1 Hok1) as [Hg2 Hx].
    split; [by etransitivity|by split]. }
  destruct (ahm_find k (associations s)) as [a|] eqn:Ea.
  - destruct (Hs k a Ea) as [Hst Hk]. destruct (recovery_time_stamp a =? rts).
    + injection E as <- <-. split; [by apply grows_same|split; [done|by eexists]].
    + injection E as E1 E2. set (a1 := assoc_set_up (id a) ep (assoc_renew rts uff (user_plane_ip_resource_information a) a)) in *.
      set (s0 := timer_remove_ (timer_heartbeat a) s) in *.
      apply (Hfin a1 (put k a1 s0) true); [| |done|by rewrite <- E1, <- E2].
      * transitivity s0; [by apply grows_same|]. by apply (grows_put k a1 a s0).
      * rewrite (find_put k a1 a s0 k Ea). by case_decide.
  - destruct (ahm_insert k _ (associations s)) as [m|] eqn:Em; [|done]. injection E as E1 E2. cbv zeta in E2.
    match type of E2 with context [put k ?a' (set_associations m s)] => set (a1 := a') in * end.
    assert (assoc_ok k a1) as Hok by done.
    destruct (grows_insert k _ a1 m s Ea Em Hok) as [Hg Hf].
    apply (Hfin a1 (put k a1 (set_associations m s)) false); [done|done|done|by rewrite <- E1, <- E2].
Qed.

Lemma awaits_named ni ep rts uff n :
  awaits ni n = true -> named n -> named (node_associated hash_uint32 hash_string ni ep rts uff n).
Proof.
  unfold awaits, named. rewrite andb_true_iff. intros [_ [E|E]%orb_true_iff] Hn; cbn.
  - apply node_id_eqb_eq in E. by subst ni.
  - intros _. unfold node_id_is_fqdn in E. apply andb_true_iff in E as [_ E]. by apply String.eqb_eq.
Qed.

(** A node that sets up its association moves; the pending list loses it. *)
Lemma inv_move_up ni ep rts uff n l1 l2 s s' :
  pending_nodes_ s = l1 ++ n :: l2 -> awaits ni n = true -> is_Some (ahm_find (int32 (hash ni)) (associations s)) ->
  move_up (node_associated hash_uint32 hash_string ni ep rts uff n) (l1 ++ l2) s = Val s' -> up_inv s -> up_inv s'.
Proof.
  intros El Haw Hx E [Ht Hu Hp Hn Ha Ho]. unfold move_up in E. set (n' := node_associated _ _ _ _ _ _ _) in *.
  destruct (ahm_insert _ n' (up_nodes_ s)) as [m|] eqn:Em; [|done]. injection E as <-.
  change (hash_node_id_ n') with (hash ni) in Em.
  pose proof (fun k => ahm_find_insert _ _ _ _ k Em) as Hi.
  assert (NoDup (id_ <$> (l1 ++ l2)) /\ (id_ n ∉ id_ <$> (l1 ++ l2)) /\ forall x, x ∈ (id_ <$> (l1 ++ l2)) -> x ∈ id_ <$> pending_nodes_ s) as (Hnd & Hni & Hsub).
  { rewrite El in Hn. rewrite fmap_app, fmap_cons in Hn. apply NoDup_Permutation_proper with (y := id_ n :: (id_ <$> l1) ++ (id_ <$> l2)) in Hn;
      [|by rewrite Permutation_middle]. apply NoDup_cons in Hn as [Hni Hnd]. rewrite fmap_app. split; [done|]. split; [done|].
    intros x. rewrite El, fmap_app, fmap_cons. set_solver. }
  assert (forall k m0, ahm_find k m = Some m0 -> (k = int32 (hash ni) /\ m0 = n') \/ ahm_find k (up_nodes_ s) = Some m0) as Hf.
  { intros k m0. rewrite Hi. case_decide as Hk; [subst k|by right].
    destruct (ahm_find (int32 (hash ni)) (up_nodes_ s)) eqn:Eo; intros [= <-]; [by right|by left]. }
  assert (n ∈ pending_nodes_ s) as Hin by (rewrite El; set_solver).
  split; cbn [set_pending set_up pending_nodes_ up_nodes_ associations]; try done.
  - intros k m0 E0. destruct (Hf k m0 E0) as [[-> ->]|E1]; [|by apply Hu].
    split_and!; [done|done|by left| |done]. apply awaits_named; [done|]. by apply Hp.
  - intros m0 H0. apply Hp. rewrite El. set_solver.
  - intros k m0 E0. destruct (Hf k m0 E0) as [[-> ->]|E1]; [done|]. intros Hx0. by apply (Ha k m0 E1), Hsub.
  - assert (forall k m0, ahm_find k (up_nodes_ s) = Some m0 -> id_ m0 <> id_ n) as Hne.
    { intros k m0 E0 Eq. apply (Ha k m0 E0). rewrite Eq. apply list_elem_of_fmap. eauto. }
    intros k1 m1 k2 m2 E1 E2 Eq. destruct (Hf k1 m1 E1) as [[-> ->]|E1'], (Hf k2 m2 E2) as [[-> ->]|E2']; try done.
    + exfalso. by apply (Hne k2 m2 E2').
    + exfalso. by apply (Hne k1 m1 E1').
    + by apply (Ho k1 m1 k2 m2).
Qed.

Lemma grows_heartbeat_timer h s s' :
  table_ok s -> initiate_heartbeat_request set_port h s = Val s' -> grows s s'.
Proof.
  intros Hs E. unfold initiate_heartbeat_request in E. destruct (ahm_find (int32 h) (associations s)) as [a|] eqn:Ea; [|by injection E as <-].
  destruct (is_trigger_heartbeat_request_procedure a); [|by injection E as <-]. unfold send_heartbeat_request in E.
  set (k := int32 h) in *. set (a1 := assoc_set_retries 0 a) in *. destruct (Hs k a Ea) as [H1 H2].
  destruct (fi_get _) as [[trxn g]|]; [|done]. injection E as <-.
  assert (grows s (put k a1 s)) as Hg1 by (by apply (grows_put k a1 a)).
  etransitivity; [exact Hg1|]. set (s1 := set_uids g (put k a1 s)).
  transitivity s1; [by apply grows_same|]. transitivity (put k (assoc_set_trxn trxn a1) s1); [|by apply grows_same].
  apply (grows_put k _ a1); [|done|done]. unfold s1. cbn [set_uids associations]. rewrite (find_put k a1 a s k Ea). by case_decide.
Qed.

Lemma inv_exec e s s' : up_inv s -> exec e s = Val s' -> up_inv s'.
Proof.
  intros Hs. pose proof (inv_table _ Hs) as Ht. destruct e as [trxn ep ni rts uff upiri|ep ni rts uff|ni|h|trxn|trxn rts|ep rts]; cbn [up_exec].
  - unfold AssociationSetupRequest. destruct (pending_nodes_ s) as [|p0 l0] eqn:Ep.
    + intros [= <-]. destruct this; [|done]. by apply (inv_grows s); [apply grows_same|].
    + rewrite <- Ep. destruct (split_first _ _) as [[[l1 n] l2]|] eqn:E; [|by intros [= <-]].
      apply split_first_Some in E as (El & Haw & _). intros E. apply bind_Val_inv in E as ([ok s1] & E1 & E2).
      destruct (add_request_grows _ _ _ _ _ _ _ _ _ _ Ht E1) as [Hg Hx]. cbn [fst snd] in E2.
      assert (up_inv s1) as Hs1 by (by apply (inv_grows s)). destruct ok; [|by injection E2 as <-].
      eapply inv_move_up; [|exact Haw|exact Hx|exact E2|done]. by rewrite (g_pending _ _ Hg).
  - unfold AssociationSetupResp. destruct (split_first _ _) as [[[l1 n] l2]|] eqn:E; [|by intros [= <-]].
    apply split_first_Some in E as (El & Haw & _). intros E. apply bind_Val_inv in E as ([ok s1] & E1 & E2).
    destruct (add_response_grows _ _ _ _ _ _ _ Ht E1) as (Hg & -> & Hx). cbn [fst snd] in E2.
    eapply inv_move_up; [|exact Haw|exact Hx|exact E2|by apply (inv_grows s)]. by rewrite (g_pending _ _ Hg).
  - intros [= <-]. by apply (inv_grows s); [apply grows_same|].
  - intros E. apply (inv_grows s); [|done]. by eapply grows_heartbeat_timer.
  - intros [= <-]. unfold timeout_heartbeat_request. destruct (find_association _ s) as [[k a]|] eqn:E; [|done].
    apply find_association_Some in E as [E _]. destruct (grows_set_trxn k a 0 s Ht E) as (Hg & Ef & Hok).
    apply inv_notify_not_reachable. apply (inv_grows s); [|done]. etransitivity; [exact Hg|]. by eapply grows_trigger.
  - intros [= <-]. unfold handle_receive_heartbeat_response. destruct (find_association _ s) as [[k a]|] eqn:E; [|done].
    apply find_association_Some in E as [E _]. destruct (grows_set_trxn k a 0 s Ht E) as (Hg & Ef & Hok). case_match.
    + apply inv_notify_reachable. apply (inv_grows s); [|done]. etransitivity; [exact Hg|]. by eapply grows_trigger.
    + apply inv_notify_restarted. by apply (inv_grows s).
  - intros [= <-]. unfold handle_receive_heartbeat_request. destruct (find_association _ s) as [[k a]|] eqn:E; [|done].
    case_match; [by apply inv_notify_reachable|by apply inv_notify_restarted].
Qed.

Lemma set_insert_elem x y l : x ∈ set_insert y l <-> x = y \/ x ∈ l.
Proof.
  induction l as [|z l IH]; simpl; [set_solver|].
  destruct (String_as_OT.compare_spec y z) as [E|E|E]; [|set_solver|rewrite elem_of_cons, IH; set_solver].
  unfold String_as_OT.eq in E. subst. set_solver.
Qed.

Lemma set_insert_sorted x l : StronglySorted String_as_OT.lt l -> StronglySorted String_as_OT.lt (set_insert x l).
Proof.
  induction 1 as [|y l Hl IH Hy]; simpl; [repeat constructor|].
  destruct (String_as_OT.compare_spec x y) as [E|E|E].
  - by constructor.
  - constructor; [by constructor|]. constructor; [done|]. eapply Forall_impl; [exact Hy|]. intros z Hz. by transitivity y.
  - constructor; [done|]. apply Forall_forall. intros z Hz. apply set_insert_elem in Hz as [->|Hz]; [done|].
    by apply (proj1 (Forall_forall _ _) Hy).
Qed.

(** The configured ids, each once. *)
Definition configured (ids : list string) : list string := foldl (fun l x => set_insert x l) [] ids.

Lemma configured_NoDup ids : NoDup (configured ids).
Proof.
  assert (forall l, StronglySorted String_as_OT.lt l -> StronglySorted String_as_OT.lt (foldl (fun l x => set_insert x l) l ids)) as H.
  { induction ids as [|x ids IH]; intros l Hl; [done|]. by apply IH, set_insert_sorted. }
  specialize (H [] ltac:(constructor)). change (foldl _ [] ids) with (configured ids) in H.
  induction H as [|y l _ IH Hy]; constructor; [|done]. intros Hin. apply (proj1 (Forall_forall _ _) Hy) in Hin.
  by apply (irreflexivity String_as_OT.lt y).
Qed.

Abbreviation init := (@up_state_init G T M AM endpoint features resources no_features).

Lemma up_inv_init ids t g : up_inv (init ids t g).
Proof.
  split; cbn [up_state_init associations up_nodes_ pending_nodes_].
  - intros k a. cbn. by rewrite ahm_find_new.
  - intros k n. by rewrite ahm_find_new.
  - intros n (x & -> & _)%list_elem_of_fmap. split; [by left|done].
  - rewrite <- list_fmap_compose. change (id_ ∘ PfcpUpNode_new no_features) with (fun x : string => x).
    rewrite list_fmap_id. apply configured_NoDup.
  - intros k n. by rewrite ahm_find_new.
  - intros k1 n1 k2 n2. by rewrite ahm_find_new.
Qed.

Lemma inv_run s tr s' : up_inv s -> run s tr s' -> up_inv s'.
Proof. intros Hs H. induction H as [|tr e s1 s2 _ IH E]; [done|]. by eapply inv_exec. Qed.

(** ** The configured nodes *)

(** A node with the id [x] waits or is active. *)
Definition held (x : string) (s : state) : Prop :=
  x ∈ (id_ <$> pending_nodes_ s) \/ exists k n, ahm_find k (up_nodes_ s) = Some n /\ id_ n = x.

Lemma held_same s s' x : pending_nodes_ s' = pending_nodes_ s -> up_nodes_ s' = up_nodes_ s -> held x s' <-> held x s.
Proof. unfold held. by intros -> ->. Qed.

Lemma held_grows s s' x : grows s s' -> held x s' <-> held x s.
Proof. intros [H1 H2 _ _]. by apply held_same. Qed.

Lemma held_update_pending P f s x : (forall n, id_ (f n) = id_ n) -> held x (update_pending P f s) <-> held x s.
Proof.
  intros Hf. unfold update_pending. destruct (split_first P (pending_nodes_ s)) as [[[l1 n] l2]|] eqn:E; [|done].
  apply split_first_Some in E as (El & _ & _). unfold held. cbn. rewrite El, !fmap_app, !fmap_cons. by rewrite Hf.
Qed.

(** A node of [up_nodes_] changed in place. *)
Lemma held_put_up h n n' s x : GetUpNode h s = Some n -> id_ n' = id_ n -> held x (put_up h n' s) <-> held x s.
Proof.
  intros E Hid. unfold GetUpNode in E. unfold held, put_up. cbn. setoid_rewrite (ahm_find_assign _ _ _ _ _ E).
  enough ((exists k m, (if decide (k = int32 h) then Some n' else ahm_find k (up_nodes_ s)) = Some m /\ id_ m = x) <->
          exists k m, ahm_find k (up_nodes_ s) = Some m /\ id_ m = x) as -> by done.
  split; intros (k & m & Em & <-); exists k; destruct (decide (k = int32 h)) as [->|]; try (by exists m).
  - injection Em as <-. by exists n.
  - exists n'. split; [done|]. congruence.
Qed.

(** A node found lost: it is still there, now as a waiting one. *)
Lemma held_drop h n n' s x : up_inv s -> GetUpNode h s = Some n -> same_node n n' -> association_state_ n' = kAssocLost ->
  held x (drop_if_lost n' (put_up h n' s)) <-> held x s.
Proof.
  intros Hs E (E1 & E2 & E3) Hl. unfold GetUpNode in E. destruct (inv_up _ Hs _ _ E) as (Hk & _).
  unfold drop_if_lost. rewrite decide_True by done. rewrite E3, <- Hk.
  assert (forall k, ahm_find k (ahm_erase (int32 h) (up_nodes_ (put_up h n' s))) = if decide (k = int32 h) then None else ahm_find k (up_nodes_ s)) as Hf.
  { intros k. rewrite ahm_find_erase. case_decide; [done|]. cbn. rewrite (ahm_find_assign _ _ _ _ _ E). by rewrite decide_False. }
  unfold held. cbn [set_pending set_up pending_nodes_ up_nodes_]. setoid_rewrite Hf.
  rewrite fmap_app, elem_of_app. cbn. rewrite list_elem_of_singleton, E1. split.
  - intros [[Hx| ->]|(k & m & Em & <-)]; [by left|right; by exists (int32 h), n|]. repeat case_decide; try done. right. by exists k, m.
  - intros [Hx|(k & m & Em & <-)]; [by left; left|]. destruct (decide (k = int32 h)) as [->|Hne]; [left; right; congruence|].
    right. exists k, m. by rewrite !decide_False.
Qed.

Lemma held_notify h s x : up_inv s ->
  (held x (NotifyNodeNotReachable h s) <-> held x s) /\ (held x (NotifyNodeReachable h s) <-> held x s) /\
  (held x (NotifyNodeRestarted h s) <-> held x s).
Proof.
  intros Hs. unfold NotifyNodeNotReachable, NotifyNodeReachable, NotifyNodeRestarted. destruct (GetUpNode h s) as [n|] eqn:E.
  - pose proof (node_not_reachable_same n) as H1. split_and!.
    + cbn [notify_node_unreachable]. replace (if decide _ then _ else _) with (drop_if_lost (node_not_reachable n) (put_up h (node_not_reachable n) s))
        by (by case_decide). destruct (decide (association_state_ (node_not_reachable n) = kAssocLost)) as [Hl|Hl].
      * by apply (held_drop h n).
      * unfold drop_if_lost. rewrite decide_False by done. apply (held_put_up h n); [done|apply H1].
    + apply (held_put_up h n); [done|]. apply (node_reachable_same n).
    + by apply (held_put_up h n).
  - split_and!; [apply held_update_pending; intros n; apply node_not_reachable_same
      |apply held_update_pending; intros n; apply node_reachable_same|done].
Qed.

(** A node that is set up: in the table before and, unless the key of its node id is in
    use, after. *)
Lemma held_move_up n n' l1 l2 s s' x : pending_nodes_ s = l1 ++ n :: l2 -> id_ n' = id_ n -> move_up n' (l1 ++ l2) s = Val s' ->
  (held x s' -> held x s) /\ (ahm_find (int32 (hash_node_id_ n')) (up_nodes_ s) = None -> held x s -> held x s').
Proof.
  intros El Hid E. unfold move_up in E. destruct (ahm_insert _ n' (up_nodes_ s)) as [m|] eqn:Em; [|done]. injection E as <-.
  unfold held. cbn. setoid_rewrite (fun k => ahm_find_insert _ _ _ _ k Em). rewrite El, !fmap_app, fmap_cons, !elem_of_app, elem_of_cons. split.
  - intros [[Hx|Hx]|(k & m0 & E0 & <-)]; [tauto..|]. case_decide as Hk; [subst k|right; by exists k, m0].
    destruct (ahm_find _ (up_nodes_ s)) as [o|] eqn:Eo; injection E0 as <-; [right; eauto|left; right; by left].
  - intros Hn [[Hx|[->|Hx]]|(k & m0 & E0 & <-)]; [tauto| |tauto|]; right.
    + exists (int32 (hash_node_id_ n')), n'. by rewrite decide_True, Hn.
    + exists k, m0. case_decide as Hk; [subst k; congruence|done].
Qed.

(** A setup message of a peer that a waiting node is taken for, while an active
    node has the key of its node id: the table keeps the entry it has, and the
    waiting node is dropped. *)
Definition taken_over (e : up_event (endpoint := endpoint) (features := features) (resources := resources)) (s : state) : Prop :=
  match e with
  | EvSetupRequest _ _ ni _ _ _ | EvSetupResponse _ ni _ _ =>
    is_Some (split_first (awaits ni) (pending_nodes_ s)) /\ is_Some (ahm_find (int32 (hash ni)) (up_nodes_ s))
  | _ => False
  end.

Lemma exec_known e s s' x : up_inv s -> exec e s = Val s' ->
  (held x s' -> held x s) /\ (~ taken_over e s -> held x s -> held x s').
Proof.
  intros Hs E. pose proof (inv_table _ Hs) as Ht.
  assert (forall s1, held x s1 <-> held x s -> (held x s1 -> held x s) /\ (~ taken_over e s -> held x s -> held x s1)) as Hiff
    by (intros s1 [? ?]; auto).
  destruct e as [trxn ep ni rts uff upiri|ep ni rts uff|ni|h|trxn|trxn rts|ep rts]; cbn [up_exec] in E.
  - unfold AssociationSetupRequest in E. destruct (pending_nodes_ s) as [|p0 l0] eqn:Ep.
    + injection E as <-. apply Hiff. by destruct this.
    + rewrite <- Ep in E. destruct (split_first (awaits ni) (pending_nodes_ s)) as [[[l1 n] l2]|] eqn:Es; [|injection E as <-; by apply Hiff].
      pose proof Es as (El & _ & _)%split_first_Some. apply bind_Val_inv in E as ([ok s1] & E1 & E2). cbn [fst snd] in E2.
      destruct (add_request_grows _ _ _ _ _ _ _ _ _ _ Ht E1) as [Hg _]. destruct ok; [|injection E2 as <-; by apply Hiff, held_grows].
      rewrite <- (held_grows s s1 x Hg).
      destruct (held_move_up n (node_associated hash_uint32 hash_string ni ep rts uff n) l1 l2 s1 s' x) as [H1 H2];
        [by rewrite (g_pending _ _ Hg)|done|exact E2|]. split; [exact H1|]. intros Hno. apply H2. rewrite (g_up _ _ Hg).
      apply eq_None_not_Some. intros Hk. apply Hno. split; [by rewrite Es|exact Hk].
  - unfold AssociationSetupResp in E. destruct (split_first (awaits ni) (pending_nodes_ s)) as [[[l1 n] l2]|] eqn:Es; [|injection E as <-; by apply Hiff].
    pose proof Es as (El & _ & _)%split_first_Some. apply bind_Val_inv in E as ([ok s1] & E1 & E2). cbn [fst snd] in E2.
    destruct (add_response_grows _ _ _ _ _ _ _ Ht E1) as (Hg & -> & _). rewrite <- (held_grows s s1 x Hg).
    destruct (held_move_up n (node_associated hash_uint32 hash_string ni ep rts uff n) l1 l2 s1 s' x) as [H1 H2];
      [by rewrite (g_pending _ _ Hg)|done|exact E2|]. split; [exact H1|]. intros Hno. apply H2. rewrite (g_up _ _ Hg).
    apply eq_None_not_Some. intros Hk. apply Hno. split; [by rewrite Es|exact Hk].
  - injection E as <-. by apply Hiff.
  - apply Hiff, held_grows. by eapply grows_heartbeat_timer.
  - injection E as <-. apply Hiff. unfold timeout_heartbeat_request. destruct (find_association _ s) as [[k a]|] eqn:Ef; [|done].
    apply find_association_Some in Ef as [Ef _]. destruct (grows_set_trxn k a 0 s Ht Ef) as (Hg & Ef1 & Hok).
    assert (grows s (trigger_heartbeat_request_procedure period k (assoc_set_trxn 0 a) (timer_remove_ (timer_heartbeat a) (put k (assoc_set_trxn 0 a) s)))) as Hg2
      by (etransitivity; [exact Hg|]; by eapply grows_trigger).
    etransitivity; [apply held_notify; by apply (inv_grows s)|by apply held_grows].
  - injection E as <-. apply Hiff. unfold handle_receive_heartbeat_response. destruct (find_association _ s) as [[k a]|] eqn:Ef; [|done].
    apply find_association_Some in Ef as [Ef _]. destruct (grows_set_trxn k a 0 s Ht Ef) as (Hg & Ef1 & Hok). case_match.
    + assert (grows s (trigger_heartbeat_request_procedure period k (assoc_set_trxn 0 a) (timer_remove_ (timer_heartbeat a) (put k (assoc_set_trxn 0 a) s)))) as Hg2
        by (etransitivity; [exact Hg|]; by eapply grows_trigger).
      etransitivity; [apply held_notify; by apply (inv_grows s)|by apply held_grows].
    + etransitivity; [apply held_notify; by apply (inv_grows s)|by apply held_grows].
  - injection E as <-. apply Hiff. unfold handle_receive_heartbeat_request. destruct (find_association _ s) as [[k a]|]; [|done].
    case_match; by apply held_notify.
Qed.

Lemma configured_elem ids x : x ∈ configured ids <-> x ∈ ids.
Proof.
  unfold configured. assert (forall l, x ∈ foldl (fun l x => set_insert x l) l ids <-> x ∈ l \/ x ∈ ids) as ->; [|set_solver].
  induction ids as [|y ids IH]; intros l; simpl; [set_solver|]. rewrite IH, set_insert_elem. set_solver.
Qed.

Lemma held_init ids t g x : held x (init ids t g) <-> x ∈ ids.
Proof.
  unfold held. cbn [up_state_init associations up_nodes_ pending_nodes_]. rewrite <- list_fmap_compose.
  change (id_ ∘ PfcpUpNode_new no_features) with (fun x : string => x). rewrite list_fmap_id, configured_elem.
  split; [|by left]. intros [|(k & n & E & _)]; [done|]. by rewrite ahm_find_new in E.
Qed.

(** No setup message of the run takes a node over. *)
Definition no_take_over (s0 : state) (tr : list (up_event (endpoint := endpoint) (features := features) (resources := resources))) : Prop :=
  forall tr1 e tr2 s1, tr = tr1 ++ e :: tr2 -> run s0 tr1 s1 -> ~ taken_over e s1.

Lemma run_known s tr s' x : up_inv s -> run s tr s' -> (held x s' -> held x s) /\ (no_take_over s tr -> held x s -> held x s').
Proof.
  intros Hs H. induction H as [|tr e s1 s2 H1 IH E]; [by split|]. destruct IH as [I1 I2].
  destruct (exec_known e s1 s2 x ltac:(by eapply inv_run) E) as [J1 J2]. split; [auto|]. intros Hno Hx. apply J2; [by apply (Hno tr e [] s1)|].
  apply I2; [|done]. intros tr1 e1 tr2 s3 -> H3. apply (Hno tr1 e1 (tr2 ++ [e]) s3); [by rewrite <- app_assoc|done].
Qed.

(** C21 In every run of the user-plane table from its configuration, whatever
    peers send and whatever heartbeats fail: the nodes of the table are
    configured ones; a node is waiting (not yet associated, lost, or merely
    known) or active (set up or unstable), never both, and appears once; an
    active node is filed under the low 32 bits of the hash of its node id and
    has an association under the same key; every association is in the state of
    being set up.  And no configured node disappears, as long as no setup message
    is taken for a waiting node while an active one has the key of the node id
    in it ([taken_over]; then the waiting node is dropped). *)
Theorem up_nodes_invariant (ids : list string) (t : T) (g : G) (tr : list up_event) (s : state) :
  run (init ids t g) tr s ->
  up_inv s /\ (forall x, held x s -> x ∈ ids) /\ (no_take_over (init ids t g) tr -> forall x, x ∈ ids -> held x s).
Proof.
  intros H. pose proof (up_inv_init ids t g) as Hi. split; [by eapply inv_run|].
  split; [intros x Hx|intros Hno x Hx]; destruct (run_known _ _ _ x Hi H) as [H1 H2].
  - apply (held_init ids t g). auto.
  - apply H2; [done|]. by apply held_init.
Qed.

(** ** Associations are for ever *)
Lemma exec_keeps e s s' k a :
  up_inv s -> exec e s = Val s' -> ahm_find k (associations s) = Some a ->
  exists a', ahm_find k (associations s') = Some a' /\ id a' = id a.
Proof.
  intros Hs E Ea. pose proof (inv_table _ Hs) as Ht.
  assert (forall s1, grows s s1 -> associations s' = associations s1 -> exists a', ahm_find k (associations s') = Some a' /\ id a' = id a) as Hg.
  { intros s1 Hg Eq. rewrite Eq. by apply (g_keep _ _ Hg). }
  assert (forall h s1, associations (NotifyNodeNotReachable h s1) = associations s1 /\ associations (NotifyNodeReachable h s1) = associations s1 /\
    associations (NotifyNodeRestarted h s1) = associations s1) as Hnot.
  { intros h s1. unfold NotifyNodeNotReachable, NotifyNodeReachable, NotifyNodeRestarted, update_pending, drop_if_lost, notify_node_unreachable.
    destruct (GetUpNode h s1); repeat case_match; done. }
  assert (forall n l s1, move_up n l s1 = Val s' -> associations s' = associations s1) as Hmove.
  { intros n l s1. unfold move_up. case_match; [|done]. by intros [= <-]. }
  destruct e as [trxn ep ni rts uff upiri|ep ni rts uff|ni|h|trxn|trxn rts|ep rts]; cbn [up_exec] in E.
  - unfold AssociationSetupRequest in E. destruct (pending_nodes_ s) as [|p0 l0] eqn:Ep.
    + injection E as <-. apply (Hg s); [done|]. by destruct this.
    + destruct (split_first _ _) as [[[l1 n] l2]|]; [|injection E as <-; eauto].
      apply bind_Val_inv in E as ([ok s1] & E1 & E2). destruct (add_request_grows _ _ _ _ _ _ _ _ _ _ Ht E1) as [Hg1 _].
      apply (Hg s1); [done|]. cbn [fst snd] in E2. destruct ok; [by eapply Hmove|by injection E2 as <-].
  - unfold AssociationSetupResp in E. destruct (split_first _ _) as [[[l1 n] l2]|]; [|injection E as <-; eauto].
    apply bind_Val_inv in E as ([ok s1] & E1 & E2). destruct (add_response_grows _ _ _ _ _ _ _ Ht E1) as (Hg1 & _).
    apply (Hg s1); [done|]. cbn [fst snd] in E2. destruct ok; [by eapply Hmove|by injection E2 as <-].
  - injection E as <-. eauto.
  - apply (Hg s'); [|done]. by eapply grows_heartbeat_timer.
  - injection E as <-. unfold timeout_heartbeat_request. destruct (find_association _ s) as [[k0 a0]|] eqn:Ef; [|eauto].
    apply find_association_Some in Ef as [Ef _]. destruct (grows_set_trxn k0 a0 0 s Ht Ef) as (Hg1 & Ef1 & Hok).
    rewrite (proj1 (Hnot _ _)). apply g_keep with s; [|done]. etransitivity; [exact Hg1|]. by eapply grows_trigger.
  - injection E as <-. unfold handle_receive_heartbeat_response. destruct (find_association _ s) as [[k0 a0]|] eqn:Ef; [|eauto].
    apply find_association_Some in Ef as [Ef _]. destruct (grows_set_trxn k0 a0 0 s Ht Ef) as (Hg1 & Ef1 & Hok). case_match.
    + rewrite (proj1 (proj2 (Hnot _ _))). apply g_keep with s; [|done]. etransitivity; [exact Hg1|]. by eapply grows_trigger.
    + rewrite (proj2 (proj2 (Hnot _ _))). by apply g_keep with s.
  - injection E as <-. unfold handle_receive_heartbeat_request. destruct (find_association _ s) as [[k0 a0]|] eqn:Ef; [|eauto].
    case_match; [rewrite (proj1 (proj2 (Hnot _ _)))|rewrite (proj2 (proj2 (Hnot _ _)))]; eauto.
Qed.

Lemma run_keeps s tr s' k a :
  up_inv s -> run s tr s' -> ahm_find k (associations s) = Some a ->
  exists a', ahm_find k (associations s') = Some a' /\ id a' = id a.
Proof.
  intros Hs H E. induction H as [|tr e s1 s2 H1 IH E2]; [eauto|]. destruct IH as (a1 & E1 & I1).
  destruct (exec_keeps e s1 s2 k a1) as (a2 & Ea2 & I2); [by eapply inv_run|done|done|]. exists a2. split; [done|congruence].
Qed.

(** [std::set::begin] on a set that is not empty. *)
Definition picks (pick : list assoc -> option assoc) : Prop := forall l, l <> [] -> exists a, pick l = Some a /\ a ∈ l.

Lemma elem_candidates a ids s :
  a ∈ candidates ids s <-> id a ∈ ids /\ state_ a = kAssocSetupState /\ exists k, ahm_find k (associations s) = Some a.
Proof.
  unfold candidates. rewrite list_elem_of_In, in_concat. setoid_rewrite <- list_elem_of_In. split.
  - intros (l & (x & -> & Hx)%list_elem_of_fmap & ([k b] & -> & Hb)%list_elem_of_fmap).
    apply list_elem_of_filter in Hb as [[Hid Hst] Hin]. apply ahm_list_find in Hin. apply String.eqb_eq in Hid. cbn in *. subst x. eauto.
  - intros (Hin & Hst & k & E). eexists. split; [apply list_elem_of_fmap; exists (id a); by split|].
    apply list_elem_of_fmap. exists (k, a). split; [done|]. apply list_elem_of_filter. rewrite String.eqb_refl.
    split; [done|]. by apply ahm_list_find.
Qed.

(** Once a configured node has set up an association, it can be selected for
    ever: in every continuation of the run, lost or not, a request of a user
    plane for its APN finds one (the statement meant to mark the association of
    a lost node compares instead of assigning). *)
Theorem lost_node_still_selected (ids : list string) (t : T) (g : G) (tr : list up_event) (s : state) (k : Z) (a : assoc)
    (tr' : list up_event) (s' : state) (pick : list assoc -> option assoc) (apn_nodes : list string) :
  run (init ids t g) tr s -> ahm_find k (associations s) = Some a -> run s tr' s' -> picks pick -> id a ∈ apn_nodes ->
  (exists a', a' ∈ candidates apn_nodes s' /\ id a' = id a) /\
  exists ni, select_up_node pick apn_nodes s' = Some ni.
Proof.
  intros Hr Ea Hr' Hpick Hin. pose proof (inv_run _ _ _ (up_inv_init ids t g) Hr) as Hs.
  destruct (run_keeps s tr' s' k a Hs Hr' Ea) as (a' & Ea' & Hid). pose proof (inv_run _ _ _ Hs Hr') as Hs'.
  destruct (inv_table _ Hs' k a' Ea') as [Hst _].
  assert (a' ∈ candidates apn_nodes s') as Hc by (apply elem_candidates; rewrite Hid; eauto).
  split; [eauto|]. unfold select_up_node. destruct (ahm_list (associations s')) as [|x l] eqn:El.
  - apply ahm_list_find in Ea'. rewrite El in Ea'. set_solver.
  - destruct (Hpick (candidates apn_nodes s')) as (b & -> & _); [intros En; rewrite En in Hc; set_solver|]. by eexists.
Qed.

(** An association the PGW asked for itself has no id: it is never a candidate. *)
Lemma response_never_selected ep ni rts uff s s1 tr s2 ids a :
  up_inv s -> get_association hash_uint32 hash_string ni s = None ->
  exec (EvSetupResponse ep ni rts uff) s = Val s1 -> run s1 tr s2 -> ""%string ∉ ids ->
  ahm_find (int32 (hash ni)) (associations s2) = Some a -> ahm_find (int32 (hash ni)) (associations s1) <> None -> a ∉ candidates ids s2.
Proof.
  intros Hs En E Hr Hids Ea Hsome Hc. pose proof (inv_exec _ _ _ Hs E) as Hs1. cbn [up_exec] in E. unfold AssociationSetupResp in E.
  unfold get_association in En. destruct (split_first _ _) as [[[l1 n] l2]|]; [|by injection E as <-].
  apply bind_Val_inv in E as ([ok s0] & E1 & E2).
  assert (exists b, ahm_find (int32 (hash ni)) (associations s0) = Some b /\ id b = ""%string) as (b & Eb & Hb).
  { unfold add_association_response, get_association in E1. rewrite En in E1. destruct (ahm_insert _ _ _) as [m|] eqn:Em; [|done].
    injection E1 as _ E1. cbv zeta in E1. match type of E1 with context [put_association _ ?x (set_associations m s)] => set (a1 := x) in * end.
    destruct (grows_insert _ _ a1 m s En Em ltac:(done)) as [_ Hf]. destruct (grows_trigger _ a1 a1 _ Hf ltac:(done) eq_refl) as [_ [tm Ht]].
    rewrite <- E1. eexists. split; [exact Ht|done]. }
  cbn [fst snd] in E2. assert (ahm_find (int32 (hash ni)) (associations s1) = Some b) as Eb1.
  { destruct ok; [|by injection E2 as <-]. unfold move_up in E2. case_match; [|done]. by injection E2 as <-. }
  destruct (run_keeps _ _ _ _ _ Hs1 Hr Eb1) as (b' & Eb' & Hb'). apply elem_candidates in Hc as (Hc & _). congruence.
Qed.

(** ** A lost node that answers again *)
Definition known_possible (i : string) s : Prop :=
  exists n, n ∈ pending_nodes_ s /\ id_ n = i /\ association_state_ n = kAssocKnownPossible.

Lemma node_not_reachable_known n :
  association_state_ n = kAssocKnownPossible -> association_state_ (node_not_reachable n) = kAssocKnownPossible.
Proof. intros E. unfold node_not_reachable. cbn. by rewrite E. Qed.

Lemma node_reachable_known n :
  association_state_ n = kAssocKnownPossible -> association_state_ (node_reachable n) = kAssocKnownPossible.
Proof. intros E. unfold node_reachable. cbn. by rewrite E. Qed.

Lemma known_grows i s s' : pending_nodes_ s' = pending_nodes_ s -> known_possible i s -> known_possible i s'.
Proof. intros E. unfold known_possible. by rewrite E. Qed.

Lemma known_update i P f s :
  (forall n, same_node n (f n)) ->
  (forall n, association_state_ n = kAssocKnownPossible -> association_state_ (f n) = kAssocKnownPossible) ->
  known_possible i s -> known_possible i (update_pending P f s).
Proof.
  intros Hsame Hf (n & Hin & Hid & Hst). unfold update_pending.
  destruct (split_first P (pending_nodes_ s)) as [[[l1 m] l2]|] eqn:E; [|by exists n].
  apply split_first_Some in E as (El & _ & _). rewrite El, elem_of_app, elem_of_cons in Hin.
  destruct Hin as [Hin|[->|Hin]]; [exists n; set_solver| |exists n; set_solver].
  exists (f m). split; [cbn; set_solver|]. split; [|by apply Hf]. destruct (Hsame m) as (E1 & _). by rewrite E1.
Qed.

(** A node that waits in another state leaves the list: this one stays. *)
Lemma known_move i ni n0 n l1 l2 s s' :
  pending_nodes_ s = l1 ++ n :: l2 -> awaits ni n = true -> move_up n0 (l1 ++ l2) s = Val s' ->
  known_possible i s -> known_possible i s'.
Proof.
  intros El Haw E (m & Hin & Hid & Hst). unfold move_up in E. case_match; [|done]. injection E as <-.
  exists m. split; [|done]. cbn. rewrite El, elem_of_app, elem_of_cons in Hin.
  destruct Hin as [Hin|[->|Hin]]; [set_solver| |set_solver]. unfold awaits in Haw. rewrite Hst in Haw. done.
Qed.

Lemma known_notify i h s :
  known_possible i s -> known_possible i (NotifyNodeNotReachable h s) /\ known_possible i (NotifyNodeReachable h s) /\
  known_possible i (NotifyNodeRestarted h s).
Proof.
  intros Hk. unfold NotifyNodeNotReachable, NotifyNodeReachable, NotifyNodeRestarted, notify_node_unreachable.
  destruct (GetUpNode h s) as [n|].
  - split; [|by split; apply (known_grows i s)]. assert (known_possible i (drop_if_lost (node_not_reachable n) (put_up h (node_not_reachable n) s))) as H.
    { unfold drop_if_lost. case_decide; [|by apply (known_grows i s)]. destruct Hk as (m & Hin & Hm). exists m. split; [|done]. cbn. set_solver. }
    by case_decide.
  - split_and!; [..|done]; apply known_update; auto using node_not_reachable_same, node_reachable_same, node_not_reachable_known, node_reachable_known.
Qed.

Lemma known_exec i e s s' : up_inv s -> exec e s = Val s' -> known_possible i s -> known_possible i s'.
Proof.
  intros Hs E Hk. pose proof (inv_table _ Hs) as Ht.
  destruct e as [trxn ep ni rts uff upiri|ep ni rts uff|ni|h|trxn|trxn rts|ep rts]; cbn [up_exec] in E.
  - unfold AssociationSetupRequest in E. destruct (pending_nodes_ s) as [|p0 l0] eqn:Ep; [destruct Hk as (n & Hn & _); rewrite Ep in Hn; set_solver|].
    rewrite <- Ep in E. destruct (split_first _ _) as [[[l1 n] l2]|] eqn:Esp; [|by injection E as <-].
    apply split_first_Some in Esp as (El & Haw & _). apply bind_Val_inv in E as ([ok s1] & E1 & E2).
    destruct (add_request_grows _ _ _ _ _ _ _ _ _ _ Ht E1) as [Hg _]. pose proof (g_pending _ _ Hg) as Hp.
    assert (known_possible i s1) as Hk1 by (by apply (known_grows i s)). cbn [fst snd] in E2. destruct ok; [|by injection E2 as <-].
    eapply (known_move i ni _ n l1 l2 s1); [|exact Haw|exact E2|done]. by rewrite Hp.
  - unfold AssociationSetupResp in E. destruct (split_first _ _) as [[[l1 n] l2]|] eqn:Esp; [|by injection E as <-].
    apply split_first_Some in Esp as (El & Haw & _). apply bind_Val_inv in E as ([ok s1] & E1 & E2).
    destruct (add_response_grows _ _ _ _ _ _ _ Ht E1) as (Hg & -> & _). pose proof (g_pending _ _ Hg) as Hp.
    cbn [fst snd] in E2. eapply (known_move i ni _ n l1 l2 s1); [|exact Haw|exact E2|by apply (known_grows i s)]. by rewrite Hp.
  - injection E as <-. by apply (known_grows i s).
  - apply (known_grows i s); [|done]. by eapply g_pending, grows_heartbeat_timer.
  - injection E as <-. unfold timeout_heartbeat_request. destruct (find_association _ s) as [[k a]|]; [|done].
    apply known_notify. apply (known_grows i s); [|done]. unfold trigger_heartbeat_request_procedure. by destruct (ts_setup _ _ _ _).
  - injection E as <-. unfold handle_receive_heartbeat_response. destruct (find_association _ s) as [[k a]|]; [|done].
    case_match; apply known_notify; (apply (known_grows i s); [|done]); [|done].
    unfold trigger_heartbeat_request_procedure. by destruct (ts_setup _ _ _ _).
  - injection E as <-. unfold handle_receive_heartbeat_request. destruct (find_association _ s) as [[k a]|]; [|done].
    case_match; by apply known_notify.
Qed.

Lemma known_run i s tr s' : up_inv s -> run s tr s' -> known_possible i s -> known_possible i s'.
Proof.
  intros Hs H Hk. induction H as [|tr e s1 s2 H1 IH E]; [done|]. eapply known_exec; [by eapply inv_run|done|done].
Qed.

(** The node id a peer gives when it is known by name. *)
Definition fqdn_id (i : string) : node_id_t := mk_node_id NODE_ID_TYPE_FQDN 0 0 0 0 i.

Lemma awaits_fqdn i m s : up_inv s -> m ∈ pending_nodes_ s -> awaits (fqdn_id i) m = true -> id_ m = i.
Proof.
  intros Hs Hm Haw. destruct (inv_pending _ Hs m Hm) as [_ Hnm]. unfold awaits in Haw. apply andb_true_iff in Haw as [_ [E|E]%orb_true_iff].
  - apply node_id_eqb_eq in E. unfold named in Hnm. rewrite E in Hnm. symmetry. by apply Hnm.
  - unfold node_id_is_fqdn in E. apply andb_true_iff in E as [_ E]. symmetry. by apply String.eqb_eq in E.
Qed.

(** A node that was lost and then answers a heartbeat is out for good: it is
    known possible, and in every continuation of the run it stays so, never
    among the active nodes again; its association requests change nothing and
    are not answered, not even refused. *)
Theorem known_possible_for_ever (ids : list string) (t : T) (g : G) (tr : list up_event) (s : state) (i : string)
    (tr' : list up_event) (s' : state) :
  run (init ids t g) tr s -> known_possible i s -> run s tr' s' ->
  known_possible i s' /\
  (forall k n, ahm_find k (up_nodes_ s') = Some n -> id_ n <> i) /\
  forall trxn ep rts uff upiri, exec (EvSetupRequest trxn ep (fqdn_id i) rts uff upiri) s' = Val s'.
Proof.
  intros Hr Hk Hr'. pose proof (inv_run _ _ _ (up_inv_init ids t g) Hr) as Hs. pose proof (inv_run _ _ _ Hs Hr') as Hs'.
  pose proof (known_run i s tr' s' Hs Hr' Hk) as Hk'. split; [done|]. destruct Hk' as (n & Hin & Hid & Hst). split.
  - intros k m E Em. apply (inv_apart _ Hs' k m E). rewrite Em, <- Hid. apply list_elem_of_fmap. eauto.
  - intros trxn ep rts uff upiri. cbn [up_exec]. unfold AssociationSetupRequest.
    destruct (pending_nodes_ s') as [|p0 l0] eqn:Ep; [set_solver|]. rewrite <- Ep in *.
    destruct (split_first _ _) as [[[l1 m] l2]|] eqn:E; [|done]. exfalso.
    apply split_first_Some in E as (El & Haw & _).
    assert (m ∈ pending_nodes_ s') as Hm by (rewrite El; set_solver). pose proof (awaits_fqdn i m s' Hs' Hm Haw) as Hmi.
    assert (m = n) as ->.
    { pose proof (inv_nodup _ Hs') as Hnd. apply list_elem_of_lookup in Hin as [x Hx], Hm as [y Hy].
      assert (x = y) as -> by (eapply (NoDup_lookup _ x y i Hnd); rewrite list_lookup_fmap, ?Hx, ?Hy; cbn; congruence). congruence. }
    unfold awaits in Haw. rewrite Hst in Haw. done.
Qed.

(** ** Requests, time-outs and restarts *)

Lemma move_up_spec (n : node) l s :
  move_up n l s = Throw AhmFullError \/
  exists s', move_up n l s = Val s' /\ pending_nodes_ s' = l /\
    (ahm_find (int32 (hash_node_id_ n)) (up_nodes_ s) = None -> ahm_find (int32 (hash_node_id_ n)) (up_nodes_ s') = Some n) /\
    sent s' = sent s /\ associations s' = associations s /\ timers_of s' = timers_of s.
Proof.
  unfold move_up. destruct (ahm_insert _ _ _) as [m|] eqn:Em; [|by left]. right. eexists. split; [done|]. split; [done|].
  split; [|done]. intros En. cbn. rewrite (ahm_find_insert _ _ _ _ _ Em), En. by rewrite decide_True.
Qed.

(** What the end of [add_association] leaves of the association. *)
Lemma monitored_spec ni r a s :
  ahm_find (int32 (hash ni)) (associations s) = Some a ->
  let s1 := monitored ni r true a s in
  up_nodes_ s1 = up_nodes_ s /\ (exists l, sent s1 = sent s ++ l /\ (r = false -> l = [])) /\
  exists a', ahm_find (int32 (hash ni)) (associations s1) = Some a' /\ recovery_time_stamp a' = recovery_time_stamp a /\
    remote_endpoint a' = remote_endpoint a /\ id a' = id a /\ sessions a' = sessions a.
Proof.
  intros E. unfold monitored, trigger_heartbeat_request_procedure. destruct (ts_setup _ _ _ _) as [tm ts]. set (k := int32 (hash ni)) in *.
  set (s1 := put_association k (assoc_set_timer tm a) (set_timers ts s)).
  assert (ahm_find k (associations s1) = Some (assoc_set_timer tm a)) as E1.
  { unfold s1. rewrite (find_put k _ a) by done. by rewrite decide_True. }
  destruct r; cbv zeta.
  - unfold restore_sx_sessions, get_association. fold k. rewrite E1. case_decide.
    + split; [done|]. split; [exists []; by rewrite app_nil_r|]. by exists (assoc_set_timer tm a).
    + split; [done|]. split; [by eexists|].
      exists (assoc_set_sessions (sessions (assoc_set_timer tm a)) true (assoc_set_timer tm a)). split; [|done].
      cbn [emit associations]. rewrite (find_put k _ _ _ k E1). by rewrite decide_True.
  - split; [done|]. split; [exists []; by rewrite app_nil_r|]. by exists (assoc_set_timer tm a).
Qed.

(** What a setup request does when this node knows its own id, on every
    branch.  With no node waiting it is refused.  When no waiting node matches,
    nothing happens.  Otherwise the node leaves the waiting list and is filed
    under its hash (unless that key is taken), and: for an association that is
    new, or whose peer has restarted, the request is accepted, the association
    takes what the request says and its heartbeat timer is set up; for a peer
    that has not restarted the heartbeat timer is removed and no answer is
    sent.  A full table throws. *)
Theorem setup_request_spec (me : node_id_t) (trxn : Z) (ep : endpoint) (ni : node_id_t) (rts : Z) (uff : features) (upiri : resources)
    (s : state) :
  this = Some me -> up_inv s ->
  let k := int32 (hash ni) in
  let r := exec (EvSetupRequest trxn ep ni rts uff upiri) s in
  match pending_nodes_ s, split_first (awaits ni) (pending_nodes_ s) with
  | [], _ => r = Val (emit (SetupResponse trxn false me ep) s)
  | _, None => r = Val s
  | _, Some (l1, n, l2) =>
    r = Throw AhmFullError \/
    exists s', r = Val s' /\ pending_nodes_ s' = l1 ++ l2 /\
      (ahm_find k (up_nodes_ s) = None ->
       ahm_find k (up_nodes_ s') = Some (node_associated hash_uint32 hash_string ni ep rts uff n)) /\
      match ahm_find k (associations s) with
      | Some a =>
        if recovery_time_stamp a =? rts then
          sent s' = sent s /\ associations s' = associations s /\ timers_of s' = ts_remove (timer_heartbeat a) (timers_of s)
        else
          SetupResponse trxn true me ep ∈ sent s' /\
          exists a', ahm_find k (associations s') = Some a' /\ recovery_time_stamp a' = rts /\
            remote_endpoint a' = Some ep /\ id a' = id a /\ sessions a' = sessions a
      | None =>
        sent s' = sent s ++ [SetupResponse trxn true me ep] /\
        exists a', ahm_find k (associations s') = Some a' /\ recovery_time_stamp a' = rts /\
          remote_endpoint a' = Some ep /\ id a' = id_ n /\ sessions a' = ∅
      end
  end.
Proof.
  intros Hme Hs k r. unfold r. cbn [up_exec]. unfold AssociationSetupRequest. destruct (pending_nodes_ s) as [|p0 l0] eqn:Ep; [by rewrite Hme|].
  rewrite <- Ep. destruct (split_first _ _) as [[[l1 n] l2]|] eqn:Esp; [|done].
  unfold add_association_request, get_association. fold k. rewrite Hme. set (n' := node_associated _ _ _ _ _ _ n).
  destruct (ahm_find k (associations s)) as [a|] eqn:Ea.
  - destruct (recovery_time_stamp a =? rts); cbn [mbind result_bind fst snd].
    + set (s1 := timer_remove_ _ s). destruct (move_up_spec n' (l1 ++ l2) s1) as [|(s' & -> & ? & Hup & ? & ? & ?)]; [by left|right].
      by exists s'.
    + set (a1 := assoc_set_up _ ep _). set (s0 := put_association _ _ _).
      assert (ahm_find k (associations s0) = Some a1) as Ea1 by (unfold s0; rewrite (find_put k a1 a) by done; by rewrite decide_True).
      change (if is_trigger_heartbeat_request_procedure a1 then ?x else _) with x.
      destruct (monitored_spec ni true a1 (emit (SetupResponse trxn true me ep) s0) Ea1) as (Hu & (l & Hsent & _) & Ha').
      change (restore_sx_sessions _ _ ni _) with (monitored ni true true a1 (emit (SetupResponse trxn true me ep) s0)).
      destruct (move_up_spec n' (l1 ++ l2) (monitored ni true true a1 (emit (SetupResponse trxn true me ep) s0))) as [|(s' & -> & ? & Hup & Es & Eas & _)]; [by left|right].
      exists s'. split; [done|]. split; [done|]. split; [by rewrite Hu in Hup|]. rewrite Es, Eas. split; [rewrite Hsent; set_solver|done].
  - destruct (ahm_insert k _ (associations s)) as [m|] eqn:Em; [|by left]. cbn [mbind result_bind fst snd].
    set (a1 := assoc_set_up _ ep _). set (s0 := put_association _ _ _).
    destruct (grows_insert k _ a1 m s Ea Em ltac:(done)) as [_ Hf]. fold s0 in Hf.
    destruct (monitored_spec ni false a1 (emit (SetupResponse trxn true me ep) s0) Hf) as (Hu & (l & Hsent & Hl) & Ha').
    rewrite (Hl eq_refl), app_nil_r in Hsent.
    change (if is_trigger_heartbeat_request_procedure a1 then _ else _) with (monitored ni false true a1 (emit (SetupResponse trxn true me ep) s0)).
    destruct (move_up_spec n' (l1 ++ l2) (monitored ni false true a1 (emit (SetupResponse trxn true me ep) s0))) as [|(s' & -> & ? & Hup & Es & Eas & _)]; [by left|right].
    exists s'. split; [done|]. split; [done|]. split; [by rewrite Hu in Hup|]. rewrite Es, Eas. split; [by rewrite Hsent|done].
Qed.

(** A node that restarts between two heartbeats is never taken back: its
    answer with a new time stamp only counts the restart; the heartbeat timer is
    removed and not set up again, nothing is sent and the node stays active
    under its old time stamp.  The association request it then makes by name is
    refused, or dropped when some other node is waiting. *)
Theorem restarted_node_refused (me : node_id_t) (trxn rts k : Z) (a : assoc) (n : node) (s : state) :
  this = Some me -> up_inv s -> find_association (fun a => trxn_id_heartbeat a =? trxn) s = Some (k, a) ->
  recovery_time_stamp a <> rts -> ahm_find k (up_nodes_ s) = Some n ->
  let s' := handle_receive_heartbeat_response period trxn rts s in
  timers_of s' = ts_remove (timer_heartbeat a) (timers_of s) /\ sent s' = sent s /\
  ahm_find k (associations s') = Some (assoc_set_trxn 0 a) /\
  ahm_find k (up_nodes_ s') = Some (node_restarted n) /\
  forall trxn' ep rts' uff upiri,
    exec (EvSetupRequest trxn' ep (fqdn_id (id_ n)) rts' uff upiri) s' =
    Val (match pending_nodes_ s with [] => emit (SetupResponse trxn' false me ep) s' | _ => s' end).
Proof.
  intros Hme Hs E Hr En s'. pose proof (inv_exec (EvHeartbeatResponse trxn rts) s s' Hs eq_refl) as Hs'.
  revert Hs'. unfold s', handle_receive_heartbeat_response. rewrite E. clear s'. apply find_association_Some in E as [E _].
  destruct (inv_table _ Hs k a E) as [_ Hk]. destruct (grows_set_trxn k a 0 s (inv_table _ Hs) E) as (Hg & Ef & Hok).
  cbn [assoc_set_trxn recovery_time_stamp]. rewrite (proj2 (Z.eqb_neq _ _)) by done.
  change (timer_heartbeat (assoc_set_trxn 0 a)) with (timer_heartbeat a). change (hash_node_id (assoc_set_trxn 0 a)) with (hash_node_id a).
  set (s1 := timer_remove_ _ _) in *. assert (ahm_find k (up_nodes_ s1) = Some n) as En1 by done.
  unfold NotifyNodeRestarted, GetUpNode. rewrite <- Hk, En1. set (s' := put_up _ _ s1). intros Hs'.
  assert (ahm_find k (up_nodes_ s') = Some (node_restarted n)) as En'.
  { unfold s', put_up. cbn. rewrite <- Hk, (ahm_find_assign _ _ _ _ _ En1). by rewrite decide_True. }
  split; [done|]. split; [done|]. split; [done|]. split; [done|]. intros trxn' ep rts' uff upiri. cbn [up_exec]. unfold AssociationSetupRequest.
  change (pending_nodes_ s') with (pending_nodes_ s). destruct (pending_nodes_ s) as [|p0 l0] eqn:Ep; [by rewrite Hme|].
  rewrite <- Ep. destruct (split_first _ _) as [[[l1 m] l2]|] eqn:Esp; [|done]. exfalso.
  apply split_first_Some in Esp as (El & Haw & _). assert (m ∈ pending_nodes_ s') as Hm by (change (pending_nodes_ s') with (pending_nodes_ s); rewrite El; set_solver).
  pose proof (awaits_fqdn _ m s' Hs' Hm Haw) as Hid. apply (inv_apart _ Hs' k (node_restarted n) En').
  change (id_ (node_restarted n)) with (id_ n). rewrite <- Hid. apply list_elem_of_fmap. eauto.
Qed.
End Laws.

(** ** The theorems at work

    Two nodes are configured; the first one associates, is lost, and answers
    again.  Addresses are numbers, the hash of a name is its length. *)
#[local] Instance demo_ids : FreshIds uint_generator := uint_generator_FreshIds 64 eq_refl.

Definition demo_me : node_id_t := mk_node_id NODE_ID_TYPE_IPV4_ADDRESS 16777343 0 0 0 "".
Definition demo_hash (s : string) : Z := Z.of_nat (String.length s).
Abbreviation demo_state := (@up_state uint_generator itti_clock (gmap Z) Z unit unit).
Definition demo_exec : @up_event Z unit unit -> demo_state -> result up_exn demo_state :=
  up_exec tt tt (fun _ e => e) (fun x => x) demo_hash 5000 (Some demo_me).
Abbreviation demo_run := (up_run (M := gmap Z) (G := uint_generator) (T := itti_clock) tt tt (fun _ e => e) (fun x => x) demo_hash 5000 (Some demo_me)).

Definition demo_init : demo_state :=
  up_state_init tt ["upf1"; "upf-2"; "upf1"] (mk_itti_clock 0 5000000000 (itti_init 0)) uint_generator_init.

Definition demo_request : @up_event Z unit unit := EvSetupRequest 77 10 (fqdn_id "upf1") 100 tt tt.
Definition demo_loss : list (@up_event Z unit unit) :=
  [EvHeartbeatTimer 4; EvHeartbeatTimeout 1; EvHeartbeatTimer 4; EvHeartbeatTimeout 2].
Definition demo_back : list (@up_event Z unit unit) := [EvHeartbeatTimer 4; EvHeartbeatResponse 3 100].

Fixpoint demo_execs (s : demo_state) (tr : list up_event) : result up_exn demo_state :=
  match tr with
  | [] => Val s
  | e :: tr => s ← demo_exec e s; demo_execs s tr
  end.

(** The state after some events, when they run. *)
Definition demo_after (s : demo_state) (tr : list up_event) : demo_state :=
  match demo_execs s tr with Val s' => s' | _ => s end.

Lemma demo_run_after s tr :
  match demo_execs s tr with Val _ => true | _ => false end = true -> demo_run s tr (demo_after s tr).
Proof.
  unfold demo_after. destruct (demo_execs s tr) as [s'|e| |] eqn:E; try done. intros _.
  assert (forall tr0 s0, demo_run s tr0 s0 -> demo_execs s0 tr = Val s' -> demo_run s (tr0 ++ tr) s') as H.
  { clear E. induction tr as [|e tr IH]; intros tr0 s0 H0 E; simpl in E; [injection E as <-; by rewrite app_nil_r|].
    apply bind_Val_inv in E as (s1 & E1 & E). change (e :: tr) with ([e] ++ tr). rewrite app_assoc.
    apply (IH (tr0 ++ [e]) s1); [|done]. by eapply up_run_snoc. }
  apply (H [] s); [apply up_run_nil|done].
Qed.

Lemma demo_no_take_over : no_take_over (fun x => x) demo_hash 5000 tt tt (fun _ e => e) (Some demo_me) demo_init (demo_request :: demo_loss).
Proof.
  intros tr1 e tr2 s1 E H. destruct tr1 as [|e1 tr1].
  - injection E as <- <-. inversion H as [H0|tr e' s' s'' _ _ H0]; [|by destruct tr]. intros [_ [n Hn]]. vm_compute in Hn. discriminate.
  - injection E as _ E. assert (e ∈ demo_loss) as He by (rewrite E; set_solver).
    unfold demo_loss in He. rewrite !elem_of_cons in He. destruct He as [->|[->|[->|[->|He]]]]; [intros []..|by apply not_elem_of_nil in He].
Qed.

Lemma up_nodes_invariant_witness : exists s, demo_run demo_init (demo_request :: demo_loss) s /\ up_inv (fun x => x) demo_hash s /\
  held "upf1" s /\ held "upf-2" s.
Proof.
  exists (demo_after demo_init (demo_request :: demo_loss)).
  pose proof (demo_run_after demo_init (demo_request :: demo_loss) ltac:(vm_compute; reflexivity)) as H. split; [exact H|].
  destruct (up_nodes_invariant (fun x => x) demo_hash 5000 tt tt (fun _ e => e) (Some demo_me) ["upf1"; "upf-2"; "upf1"]
    (mk_itti_clock 0 5000000000 (itti_init 0)) uint_generator_init (demo_request :: demo_loss) _ H) as (H1 & _ & H2).
  split; [exact H1|]. split; apply (H2 demo_no_take_over); repeat constructor.
Defined.

(** The node is lost and selected. *)
Lemma lost_node_still_selected_witness :
  let s := demo_after demo_init [demo_request] in
  let s' := demo_after s demo_loss in
  association_state_ <$> pending_nodes_ s' = [kAssocNullState; kAssocLost] /\
  exists ni, select_up_node head ["upf1"] s' = Some ni.
Proof.
  intros s s'. split; [vm_compute; reflexivity|].
  pose proof (demo_run_after demo_init [demo_request] ltac:(vm_compute; reflexivity)) as H.
  pose proof (demo_run_after s demo_loss ltac:(vm_compute; reflexivity)) as H'.
  destruct (ahm_find 4 (associations s)) as [a|] eqn:Ea;
    [|exfalso; assert (match ahm_find 4 (associations s) with Some _ => true | None => false end = true) by (vm_compute; reflexivity);
      rewrite Ea in *; discriminate].
  assert (id a = "upf1"%string) as Hid.
  { assert (match ahm_find 4 (associations s) with Some a => String.eqb (id a) "upf1" | None => false end = true) as Hx by (vm_compute; reflexivity).
    rewrite Ea in Hx. by apply String.eqb_eq. }
  refine (proj2 (lost_node_still_selected (fun x => x) demo_hash 5000 tt tt (fun _ e => e) (Some demo_me) ["upf1"; "upf-2"; "upf1"]
    (mk_itti_clock 0 5000000000 (itti_init 0)) uint_generator_init [demo_request] s 4 a demo_loss s' head ["upf1"] H Ea H' _ _)).
  - intros [|x l] Hl; [done|]. exists x. split; [done|]. apply list_elem_of_here.
  - rewrite Hid. apply list_elem_of_here.
Defined.

Lemma known_possible_for_ever_witness :
  let s := demo_after demo_init (demo_request :: demo_loss ++ demo_back) in
  association_state_ <$> pending_nodes_ s = [kAssocNullState; kAssocKnownPossible] /\ demo_exec demo_request s = Val s.
Proof.
  intros s. split; [vm_compute; reflexivity|].
  pose proof (demo_run_after demo_init (demo_request :: demo_loss ++ demo_back) ltac:(vm_compute; reflexivity)) as H.
  assert (known_possible "upf1" s) as Hk.
  { assert (existsb (fun n => String.eqb (id_ n) "upf1" && bool_decide (association_state_ n = kAssocKnownPossible)) (pending_nodes_ s) = true) as Hx
      by (vm_compute; reflexivity).
    apply existsb_exists in Hx as (n & Hn & Hx). apply andb_true_iff in Hx as [Hi Hst]. exists n. split; [by apply list_elem_of_In|].
    split; [by apply String.eqb_eq|by apply bool_decide_eq_true in Hst]. }
  apply (known_possible_for_ever (fun x => x) demo_hash 5000 tt tt (fun _ e => e) (Some demo_me) ["upf1"; "upf-2"; "upf1"]
    (mk_itti_clock 0 5000000000 (itti_init 0)) uint_generator_init (demo_request :: demo_loss ++ demo_back) s "upf1" [] s H Hk (up_run_nil _ _ _ _ _ _ _ _)).
Defined.

(** The first request: the branch of a new association. *)
Lemma setup_request_spec_witness :
  up_inv (fun x => x) demo_hash demo_init /\
  exists s', demo_exec demo_request demo_init = Val s' /\ sent s' = [SetupResponse 77 true demo_me 10].
Proof.
  pose proof (up_inv_init (fun x => x) demo_hash 5000 tt (fun _ e => e) ["upf1"; "upf-2"; "upf1"]
    (mk_itti_clock 0 5000000000 (itti_init 0)) uint_generator_init : up_inv (fun x => x) demo_hash demo_init) as Hi.
  split; [exact Hi|].
  pose proof (setup_request_spec (fun x => x) demo_hash 5000 tt tt (fun _ e => e) (Some demo_me) demo_me 77 10 (fqdn_id "upf1") 100 tt tt demo_init eq_refl Hi) as H.
  cbv zeta in H. destruct H as [H|(s' & E & _ & _ & H)].
  - exfalso. assert (match demo_exec demo_request demo_init with Val _ => true | _ => false end = true) as Hx by (vm_compute; reflexivity).
    change (demo_exec demo_request demo_init = Throw AhmFullError) in H. rewrite H in Hx. discriminate.
  - exists s'. split; [exact E|]. apply (proj1 H).
Defined.

Lemma up_demo_inv tr : match demo_execs demo_init tr with Val _ => true | _ => false end = true ->
  up_inv (fun x => x) demo_hash (demo_after demo_init tr).
Proof.
  intros H. refine (inv_run _ _ 5000 tt tt (fun _ e => e) (Some demo_me) _ _ _ _ (demo_run_after _ _ H)).
  by apply (up_inv_init _ _ 5000 tt (fun _ e => e)).
Qed.

(** The second failure in a row. *)
Lemma heartbeat_timeout_spec_witness :
  let s := demo_after demo_init (demo_request :: take 3 demo_loss) in
  exists k a, find_association (fun a => trxn_id_heartbeat a =? 2) s = Some (k, a) /\
    ahm_find k (up_nodes_ (timeout_heartbeat_request 5000 2 s)) = None.
Proof.
  intros s. pose proof (up_demo_inv (demo_request :: take 3 demo_loss) ltac:(vm_compute; reflexivity)) as Hi. fold s in Hi.
  destruct (find_association (fun a => trxn_id_heartbeat a =? 2) s) as [[k a]|] eqn:E;
    [|exfalso; assert (match find_association (fun a => trxn_id_heartbeat a =? 2) s with Some _ => true | None => false end = true) as Hx
        by (vm_compute; reflexivity); rewrite E in Hx; discriminate].
  exists k, a. split; [reflexivity|].
  assert (match find_association (fun a => trxn_id_heartbeat a =? 2) s with
          | Some (k, _) => match ahm_find k (up_nodes_ s) with
                           | Some n => bool_decide (association_state_ n = kAssocUnstable /\
                               PFCP_ASSOCIATION_HEARTBEAT_MAX_RETRIES <= u32 (consecutive_failed_echo_proc n + 1))
                           | None => false end
          | None => false end = true) as Hx by (vm_compute; reflexivity).
  rewrite E in Hx.
  pose proof (proj2 (heartbeat_timeout_spec (fun x => x) demo_hash 5000 2 k a s Hi E)) as H.
  destruct (ahm_find k (up_nodes_ s)) as [n|]; [|discriminate]. apply bool_decide_eq_true in Hx. rewrite decide_True in H by exact Hx. exact (proj1 H).
Defined.

(** The node restarts: its answer carries 200 instead of 100. *)
Lemma restarted_node_refused_witness :
  let s := demo_after demo_init [demo_request; EvHeartbeatTimer 4] in
  let s' := handle_receive_heartbeat_response 5000 1 200 s in
  sent s' = sent s /\ demo_exec (EvSetupRequest 78 10 (fqdn_id "upf1") 200 tt tt) s' = Val s'.
Proof.
  intros s s'. pose proof (up_demo_inv [demo_request; EvHeartbeatTimer 4] ltac:(vm_compute; reflexivity)) as Hi. fold s in Hi.
  assert (match find_association (fun a => trxn_id_heartbeat a =? 1) s with
          | Some (k, a) => (recovery_time_stamp a =? 100) &&
              match ahm_find k (up_nodes_ s) with Some n => String.eqb (id_ n) "upf1" | None => false end
          | None => false end = true) as Hx by (vm_compute; reflexivity).
  destruct (find_association (fun a => trxn_id_heartbeat a =? 1) s) as [[k a]|] eqn:E; [|discriminate].
  apply andb_true_iff in Hx as [Hr Hn]. destruct (ahm_find k (up_nodes_ s)) as [n|] eqn:En; [|discriminate].
  apply Z.eqb_eq in Hr. apply String.eqb_eq in Hn.
  destruct (restarted_node_refused (fun x => x) demo_hash 5000 tt tt (fun _ e => e) (Some demo_me) demo_me 1 200 k a n s eq_refl Hi E ltac:(lia) En)
    as (_ & Hsent & _ & _ & Hreq).
  split; [exact Hsent|]. specialize (Hreq 78 10 200 tt tt). rewrite Hn in Hreq.
  assert (match pending_nodes_ s with [] => false | _ => true end = true) as Hp by (vm_compute; reflexivity).
  unfold demo_exec. destruct (pending_nodes_ s); [discriminate|]. exact Hreq.
Defined.

(** Two peers that both give the node id every new node has, the IPv4 address
    0.0.0.0: each is taken for a waiting node, and the second node is dropped. *)
Lemma second_unnamed_peer_drops_node :
  let s := demo_after demo_init [EvSetupRequest 77 10 node_id_init 100 tt tt; EvSetupRequest 78 11 node_id_init 200 tt tt] in
  pending_nodes_ s = [] /\ forall k n, ahm_find k (up_nodes_ s) = Some n -> id_ n = "upf-2".
Proof.
  intros s. split; [vm_compute; reflexivity|]. intros k n E.
  assert (exists m, up_nodes_ s = {[0 := m]} /\ id_ m = "upf-2") as (m & Em & Hm) by (eexists; split; vm_compute; reflexivity).
  rewrite Em in E. change ((({[0 := m]} : gmap Z PfcpUpNode) !! k) = Some n) in E. by apply lookup_singleton_Some in E as [_ <-].
Qed.
