(* ===== verification/Stream.v ===== *)
(** * Byte streams and the serialisation interface

    [std::ostream] writes append bytes; [std::istream::read] fills a
    destination object and, when the buffer runs short, stores what is left,
    sets [failbit] and from then on reads nothing.  The codecs ignore the
    stream state, so a short read leaves (part of) the old value of the
    destination in place: every reader below takes the old value. *)
From S2P Require Import Prelude.
From Stdlib Require Import ZArith Lia.
From stdpp Require Import base numbers tactics list.
Open Scope Z_scope.

Record istream := mk_istream { is_data : list Z; is_good : bool }.

Definition istream_of (l : list Z) : istream := mk_istream l true.

(** [is.read(dst, sizeof dst)]: the bytes of the destination afterwards. *)
Definition read (dst : list Z) (ins : istream) : list Z * istream :=
  if is_good ins then
    let n := length dst in
    let m := length (is_data ins) in
    (take n (is_data ins) ++ drop m dst,
     mk_istream (drop n (is_data ins)) (bool_decide (n <= m)%nat))
  else (dst, ins).

(** One byte; an integer of [n] bytes followed by [ntohs]/[be64toh]/...; an
    integer read raw (kept in network order). *)
Definition read_u8 (old : Z) (ins : istream) : Z * istream :=
  let '(b, ins) := read [old] ins in (le_val b, ins).

Definition read_be (n : nat) (old : Z) (ins : istream) : Z * istream :=
  let '(b, ins) := read (le_bytes n old) ins in (be_val b, ins).

Definition read_raw (n : nat) (old : Z) (ins : istream) : Z * istream :=
  let '(b, ins) := read (le_bytes n old) ins in (le_val b, ins).

Lemma read_app dst bs rest :
  length bs = length dst -> read dst (istream_of (bs ++ rest)) = (bs, istream_of rest).
Proof.
  intros Hl. unfold read, istream_of. cbn [is_good is_data]. rewrite <- Hl.
  rewrite take_app_length, drop_app_length, drop_ge by (rewrite length_app; lia).
  rewrite app_nil_r, bool_decide_true by (rewrite length_app; lia). done.
Qed.

Lemma read_fail dst ins : is_good ins = false -> read dst ins = (dst, ins).
Proof. intros H. unfold read. by rewrite H. Qed.

Lemma read_u8_cons old b rest : read_u8 old (istream_of (b :: rest)) = (b, istream_of rest).
Proof.
  unfold read_u8. change (b :: rest) with ([b] ++ rest).
  rewrite (read_app [old] [b] rest) by done. simpl. f_equal. lia.
Qed.

Lemma read_be_app n old z rest :
  fits (8 * Z.of_nat n) z ->
  read_be n old (istream_of (be_bytes n z ++ rest)) = (z, istream_of rest).
Proof.
  intros Hz. unfold read_be. rewrite read_app by by rewrite length_be_bytes, length_le_bytes.
  by rewrite be_val_bytes.
Qed.

Lemma read_raw_app n old z rest :
  fits (8 * Z.of_nat n) z ->
  read_raw n old (istream_of (le_bytes n z ++ rest)) = (z, istream_of rest).
Proof.
  intros Hz. unfold read_raw. rewrite read_app by by rewrite !length_le_bytes.
  rewrite le_val_bytes. f_equal. by apply Z.mod_small.
Qed.

(** A read into an array without initialiser whose bytes are used right after:
    a short read leaves them indeterminate. *)
Definition read_exact {E} (n : nat) (ins : istream) : result E (list Z * istream) :=
  if (n =? 0)%nat then Val ([], ins)
  else if is_good ins && bool_decide (n <= length (is_data ins))%nat
  then Val (take n (is_data ins), mk_istream (drop n (is_data ins)) true)
  else UB.

Lemma read_exact_app {E} n bs rest :
  length bs = n -> @read_exact E n (istream_of (bs ++ rest)) = Val (bs, istream_of rest).
Proof.
  intros <-. unfold read_exact, istream_of. cbn [is_good is_data].
  destruct (Nat.eqb_spec (length bs) 0) as [E0|E0]; [by apply nil_length_inv in E0 as ->|].
  rewrite bool_decide_true by (rewrite length_app; lia).
  cbn [andb]. by rewrite take_app_length, drop_app_length.
Qed.

Lemma read_bytes_app dst bs rest n :
  length dst = n -> length bs = n -> read dst (istream_of (bs ++ rest)) = (bs, istream_of rest).
Proof. intros <- H. by apply read_app. Qed.

Create Rewrite HintDb stream.
#[export] Hint Rewrite read_u8_cons : stream.
#[export] Hint Rewrite <- @app_assoc : stream.

(** One read of a codec proof: rewrite the read at the head, reduce the
    binding. [side] closes the range condition. *)
Ltac stream_norm := repeat rewrite <- app_assoc; cbn [app].
Ltac stream_step side :=
  first
    [ rewrite read_u8_cons
    | rewrite read_be_app by side
    | rewrite read_raw_app by side
    | rewrite (read_app _ _ _) by side ];
  cbv beta match.

(** ** The 24-bit sequence number of both headers *)

(** The octets [dump_to] builds by shifting and masking, and the value
    [load_from] assembles. *)
Definition sn_bytes (sn : Z) : list Z :=
  [Z.land (Z.shiftr (Z.shiftr sn 8) 8) 255; Z.land (Z.shiftr sn 8) 255; Z.land sn 255].

Definition sn_val (sn : list Z) : Z :=
  match sn with
  | [a; b; c] => Z.lor (Z.lor (Z.shiftl a 16) (Z.shiftl b 8)) c
  | _ => 0
  end.

Lemma sn_roundtrip z : fits 24 z -> sn_val (sn_bytes z) = z.
Proof.
  intros Hz. unfold sn_val, sn_bytes. rewrite Z.shiftr_shiftr by lia. change (8 + 8) with 16.
  apply Z.bits_inj'. intros i Hi.
  rewrite !Z.lor_spec, !Z.shiftl_spec by lia. rewrite !Z.land_spec.
  change 255 with (Z.ones 8).
  destruct (decide (i < 8)).
  - rewrite Z.testbit_neg_r, (Z.testbit_neg_r _ (i - 8)) by lia.
    rewrite (Z.ones_spec_low 8 i) by lia. simpl. by rewrite andb_true_r.
  - rewrite (Z.ones_spec_high 8 i) by lia. rewrite andb_false_r, orb_false_r.
    destruct (decide (i < 16)).
    + rewrite (Z.testbit_neg_r _ (i - 16)) by lia. simpl.
      rewrite Z.ones_spec_low, Z.shiftr_spec, andb_true_r by lia. f_equal. lia.
    + rewrite (Z.ones_spec_high 8 (i - 8)), andb_false_r, orb_false_r by lia.
      rewrite Z.shiftr_spec by lia. replace (i - 16 + 16) with i by lia.
      destruct (decide (i < 24)).
      * rewrite Z.ones_spec_low, andb_true_r by lia. done.
      * rewrite Z.ones_spec_high, andb_false_r by lia. symmetry.
        rewrite <- (Z.mod_small z (2 ^ 24)) by exact Hz. apply Z.mod_pow2_bits_high. lia.
Qed.

(** ** Reading leaves a suffix of the stream *)
Definition avail (ins : istream) : nat := length (is_data ins).

(** [rest_of ins' ins]: [ins'] is [ins] after some reads. *)
Definition rest_of (ins' ins : istream) : Prop := is_data ins' `suffix_of` is_data ins.

#[export] Instance rest_of_preorder : PreOrder rest_of.
Proof. unfold rest_of. split; [by intros ?|]. intros ? ? ? ? ?. by etrans. Qed.

Lemma rest_of_avail ins' ins : rest_of ins' ins -> (avail ins' <= avail ins)%nat.
Proof. apply suffix_length. Qed.

Lemma read_rest dst ins d ins' : read dst ins = (d, ins') -> rest_of ins' ins.
Proof.
  unfold read, rest_of. destruct (is_good ins); intros [= <- <-]; simpl; [apply suffix_drop|done].
Qed.

Lemma read_u8_rest old ins d ins' : read_u8 old ins = (d, ins') -> rest_of ins' ins.
Proof. unfold read_u8. destruct (read _ _) eqn:E. intros [= <- <-]. by eapply read_rest. Qed.

Lemma read_be_rest n old ins d ins' : read_be n old ins = (d, ins') -> rest_of ins' ins.
Proof. unfold read_be. destruct (read _ _) eqn:E. intros [= <- <-]. by eapply read_rest. Qed.

Lemma read_raw_rest n old ins d ins' : read_raw n old ins = (d, ins') -> rest_of ins' ins.
Proof. unfold read_raw. destruct (read _ _) eqn:E. intros [= <- <-]. by eapply read_rest. Qed.

Lemma read_exact_data {E} n ins d ins' : @read_exact E n ins = Val (d, ins') -> is_data ins = d ++ is_data ins'.
Proof.
  unfold read_exact. destruct (n =? 0)%nat; [by intros [= <- <-]|].
  destruct (_ && _); [|done]. intros [= <- <-]. simpl. by rewrite take_drop.
Qed.

Lemma read_exact_rest {E} n ins d ins' : @read_exact E n ins = Val (d, ins') -> rest_of ins' ins.
Proof. intros H. exists d. by eapply read_exact_data. Qed.

Lemma read_exact_returns {E} n ins : @read_exact E n ins <> Diverge.
Proof. unfold read_exact. repeat case_match; done. Qed.

(** A read that gives other octets has taken some from the stream. *)
Lemma read_strict dst ins d ins' :
  read dst ins = (d, ins') -> (0 < length dst)%nat -> (avail ins' < avail ins)%nat \/ d = dst.
Proof.
  unfold read, avail. destruct (is_good ins); intros [= <- <-]; [|by right].
  destruct ins as [[|x l] g]; simpl; intros Hl; [right; by rewrite take_nil|]. left. rewrite length_drop. simpl. lia.
Qed.

(** Takes a chain of reads apart, from the last statement of the method up. *)
Ltac rest_reads :=
  repeat match goal with
  | H : Val _ = Val _ |- _ => injection H as <- <-
  | H : (_, _) = (_, _) |- _ => injection H as <- <-
  | H : read _ _ = _ |- _ => apply read_rest in H
  | H : read_u8 _ _ = _ |- _ => apply read_u8_rest in H
  | H : read_be _ _ _ = _ |- _ => apply read_be_rest in H
  | H : read_raw _ _ _ = _ |- _ => apply read_raw_rest in H
  | H : read_exact _ _ = _ |- _ => apply read_exact_rest in H
  | H : (_ ≫= _) = Val _ |- _ => apply bind_Val_inv in H as ([? ?] & ? & H)
  | H : (_ ≫= _) = Val _ |- _ => apply bind_Val_inv in H as (? & ? & H)
  | H : match ?r with _ => _ end = _ |- _ => destruct r eqn:?; try discriminate H
  end.
Ltac rest_chain := repeat (first [reflexivity|eassumption|etrans; [eassumption|]]).
Ltac rest_tac := intros; cbv zeta in *; rest_reads; rest_chain.
