(* ===== verification/PfcpMsg.v ===== *)
(** * PFCP messages: header and IE list

    [src/pfcp/3gpp_29.244.hpp]: [pfcp_msg_header] and the parts of [pfcp_msg]
    the protocol stack uses (constructor from a message's IEs, [add_ie],
    [dump_to]).  An information element is seen here through its virtual
    interface only: the length its TLV announces and the bytes its
    [dump_to] writes. *)
From S2P Require Import Prelude Stream.
From Stdlib Require Import ZArith Lia.
From stdpp Require Import base numbers tactics list.
Open Scope Z_scope.

(** What a message needs of an IE object. *)
Record wire_ie := mk_wire_ie { ie_length : Z; ie_bytes : list Z }.

Definition tlv_ie_length : Z := 4.

Record pfcp_msg_header := mk_pfcp_header {
  h_s : Z;                   (* u1.bf, low bits first *)
  h_mp : Z;
  h_spare1 : Z;
  h_version : Z;
  h_message_type : Z;
  h_message_length : Z;
  h_seid : Z;
  h_sequence_number : Z;
  h_spare2 : Z;              (* u2.bf *)
  h_message_priority : Z;
}.

Definition pfcp_msg_header_init : pfcp_msg_header :=
  mk_pfcp_header 0 0 0 1 0 (3 + 1) 0 0 0 0.

Definition set_seid (s : Z) (h : pfcp_msg_header) : pfcp_msg_header :=
  let len := if h_s h =? 0 then u16 (h_message_length h + 8) else h_message_length h in
  mk_pfcp_header 1 (h_mp h) (h_spare1 h) (h_version h) (h_message_type h) len s
    (h_sequence_number h) (h_spare2 h) (h_message_priority h).

Definition set_message_type (t : Z) (h : pfcp_msg_header) : pfcp_msg_header :=
  mk_pfcp_header (h_s h) (h_mp h) (h_spare1 h) (h_version h) t (h_message_length h) (h_seid h)
    (h_sequence_number h) (h_spare2 h) (h_message_priority h).

Definition set_message_length (l : Z) (h : pfcp_msg_header) : pfcp_msg_header :=
  mk_pfcp_header (h_s h) (h_mp h) (h_spare1 h) (h_version h) (h_message_type h) (u16 l) (h_seid h)
    (h_sequence_number h) (h_spare2 h) (h_message_priority h).

Definition set_sequence_number (s : Z) (h : pfcp_msg_header) : pfcp_msg_header :=
  mk_pfcp_header (h_s h) (h_mp h) (h_spare1 h) (h_version h) (h_message_type h) (h_message_length h)
    (h_seid h) (Z.land s 16777215) (h_spare2 h) (h_message_priority h).

Definition pfcp_u1 (h : pfcp_msg_header) : Z :=
  bf_pack [(1, h_s h); (1, h_mp h); (3, h_spare1 h); (3, h_version h)].
Definition pfcp_u2 (h : pfcp_msg_header) : Z :=
  bf_pack [(4, h_spare2 h); (4, h_message_priority h)].

(** [dump_to] clears the spare bits, and the priority when the MP flag is not
    set, in the object itself. *)
Definition pfcp_header_clean (h : pfcp_msg_header) : pfcp_msg_header :=
  mk_pfcp_header (h_s h) (h_mp h) 0 (h_version h) (h_message_type h) (h_message_length h) (h_seid h)
    (h_sequence_number h) 0 (if h_mp h =? 0 then 0 else h_message_priority h).

Definition pfcp_header_dump_to (h : pfcp_msg_header) : list Z * pfcp_msg_header :=
  let h := pfcp_header_clean h in
  ([pfcp_u1 h; h_message_type h] ++ be_bytes 2 (h_message_length h) ++
   (if h_s h =? 0 then [] else be_bytes 8 (h_seid h)) ++
   sn_bytes (h_sequence_number h) ++ [pfcp_u2 h], h).

Definition pfcp_header_load_from {E} (h : pfcp_msg_header) (ins : istream) : result E (pfcp_msg_header * istream) :=
  let '(b1, ins) := read_u8 (pfcp_u1 h) ins in
  let '(ty, ins) := read_u8 (h_message_type h) ins in
  let '(len, ins) := read_be 2 (h_message_length h) ins in
  let '(seid, ins) :=
    if bf_field 0 1 b1 =? 0 then (0, ins) else read_be 8 (h_seid h) ins in
  '(sn, ins) ← read_exact 3 ins;
  let '(b2, ins) := read_u8 (pfcp_u2 h) ins in
  Val (mk_pfcp_header (bf_field 0 1 b1) (bf_field 1 1 b1) (bf_field 2 3 b1) (bf_field 5 3 b1)
         ty len seid (sn_val sn) (bf_field 0 4 b2) (bf_field 4 4 b2), ins).

Record pfcp_header_wf (h : pfcp_msg_header) : Prop := {
  hw_s : fits 1 (h_s h);
  hw_mp : fits 1 (h_mp h);
  hw_version : fits 3 (h_version h);
  hw_type : fits 8 (h_message_type h);
  hw_length : fits 16 (h_message_length h);
  hw_seid : fits 64 (h_seid h);
  hw_no_seid : h_s h = 0 -> h_seid h = 0;
  hw_sn : fits 24 (h_sequence_number h);
  hw_prio : fits 4 (h_message_priority h);
}.

(** ** The message *)
Record pfcp_msg := mk_pfcp_msg { hdr : pfcp_msg_header; ies : list wire_ie }.

Definition add_ie (ie : wire_ie) (m : pfcp_msg) : pfcp_msg :=
  mk_pfcp_msg
    (set_message_length (h_message_length (hdr m) + tlv_ie_length + ie_length ie) (hdr m))
    (ies m ++ [ie]).

(** The constructors [pfcp_msg(const pfcp_xxx&)]: the type code, then one
    [add_ie] for each IE present, in order. *)
Definition pfcp_msg_of (msg_type : Z) (l : list wire_ie) : pfcp_msg :=
  foldl (fun m ie => add_ie ie m)
    (mk_pfcp_msg (set_message_type msg_type pfcp_msg_header_init) []) l.

Definition pfcp_msg_dump_to (m : pfcp_msg) : list Z * pfcp_msg :=
  let '(b, h) := pfcp_header_dump_to (hdr m) in
  (b ++ concat (ie_bytes <$> ies m), mk_pfcp_msg h (ies m)).

Definition msg_set_seid (s : Z) (m : pfcp_msg) := mk_pfcp_msg (set_seid s (hdr m)) (ies m).
Definition msg_set_sequence_number (s : Z) (m : pfcp_msg) :=
  mk_pfcp_msg (set_sequence_number s (hdr m)) (ies m).
Definition get_sequence_number (m : pfcp_msg) : Z := h_sequence_number (hdr m).
Definition get_message_type (m : pfcp_msg) : Z := h_message_type (hdr m).
Definition get_message_length (m : pfcp_msg) : Z := h_message_length (hdr m).

(** ** Lemmas *)

(** Reading the packed flag octets back. *)
Lemma pfcp_u1_fields h :
  pfcp_header_wf h -> h_spare1 h = 0 ->
  let b := pfcp_u1 h in
  bf_field 0 1 b = h_s h /\ bf_field 1 1 b = h_mp h /\ bf_field 2 3 b = 0 /\ bf_field 5 3 b = h_version h.
Proof.
  intros H Hsp. unfold pfcp_u1. rewrite Hsp.
  pose proof (hw_s _ H). pose proof (hw_mp _ H). pose proof (hw_version _ H).
  split_and!; bf_simpl; done.
Qed.

Lemma pfcp_u2_fields h :
  fits 4 (h_message_priority h) -> h_spare2 h = 0 ->
  bf_field 0 4 (pfcp_u2 h) = 0 /\ bf_field 4 4 (pfcp_u2 h) = h_message_priority h.
Proof. intros H Hsp. unfold pfcp_u2. rewrite Hsp. split; bf_simpl; done. Qed.

Lemma pfcp_header_clean_wf h : pfcp_header_wf h -> pfcp_header_wf (pfcp_header_clean h).
Proof. intros [? ? ? ? ? ? ? ? ?]. split; simpl; try done. by case_match. Qed.

Lemma pfcp_header_roundtrip_clean {E} h h0 rest :
  pfcp_header_wf h -> h_spare1 h = 0 -> h_spare2 h = 0 ->
  pfcp_header_load_from h0 (istream_of (
    ([pfcp_u1 h; h_message_type h] ++ be_bytes 2 (h_message_length h) ++
     (if h_s h =? 0 then [] else be_bytes 8 (h_seid h)) ++
     sn_bytes (h_sequence_number h) ++ [pfcp_u2 h]) ++ rest)) = Val (E := E) (h, istream_of rest).
Proof.
  intros H Hs1 Hs2. destruct (pfcp_u1_fields h H Hs1) as (E1 & E2 & E3 & E4).
  destruct (pfcp_u2_fields h (hw_prio _ H) Hs2) as (E5 & E6).
  assert (h_seid h = if h_s h =? 0 then 0 else h_seid h) as Hseid.
  { destruct (Z.eqb_spec (h_s h) 0); [by apply (hw_no_seid _ H)|done]. }
  unfold pfcp_header_load_from. stream_norm.
  do 2 stream_step done. stream_step ltac:(apply (hw_length _ H)). rewrite E1.
  destruct (h_s h =? 0); stream_norm; [|stream_step ltac:(apply (hw_seid _ H))];
    rewrite (read_exact_app 3) by done; cbn [mbind result_bind]; stream_norm; stream_step done;
    rewrite E2, E3, E4, E5, E6, sn_roundtrip by apply (hw_sn _ H);
    destruct h; simpl in *; by subst.
Qed.

(** A PFCP header survives the wire: loading what dump_to wrote gives back
    the header (with the spare bits, and the priority of a message without
    the MP flag, cleared) and consumes exactly its bytes. *)
Theorem pfcp_header_roundtrip {E} (h h0 : pfcp_msg_header) (rest : list Z) :
  pfcp_header_wf h ->
  let '(bytes, h') := pfcp_header_dump_to h in
  pfcp_header_load_from h0 (istream_of (bytes ++ rest)) = Val (E := E) (h', istream_of rest) /\
  length bytes = (if h_s h =? 0 then 8%nat else 16%nat).
Proof.
  intros H. unfold pfcp_header_dump_to. split.
  - by apply pfcp_header_roundtrip_clean; [apply pfcp_header_clean_wf| |].
  - simpl. rewrite !length_app. simpl. destruct (h_s h =? 0); simpl; rewrite ?length_be_bytes; done.
Qed.

Lemma pfcp_header_roundtrip_witness :
  let h := set_sequence_number 74565 (set_seid 18446744073709551615 (set_message_type 50 pfcp_msg_header_init)) in
  let '(bytes, h') := pfcp_header_dump_to h in
  pfcp_header_load_from pfcp_msg_header_init (istream_of (bytes ++ [1; 2])) = Val (E := unit) (h', istream_of [1; 2]) /\
  length bytes = (if h_s h =? 0 then 8%nat else 16%nat).
Proof.
  intros h. apply (pfcp_header_roundtrip h). split; vm_compute; intuition congruence.
Defined.
