(* ===== verification/PfcpStack.v ===== *)
(** * The PFCP transaction layer

    [src/pfcp/pfcp.cpp], [pfcp.hpp]: [pfcp_l4_stack] matches requests and
    responses by sequence number, retransmits unanswered requests every T1 up
    to N1 times, and forgets a transaction when its clean-up timer fires.

    The state is the stack object together with what its methods touch: the
    ITTI timers (through [TimerService]), the process-wide id generator
    (through [FreshIds]) and the datagrams and error notifications sent so
    far, newest last.  [std::map::insert] keeps an existing entry:
    [map_insert_new]. *)
From S2P Require Import Prelude Stream UidGenerator Itti TimerService PfcpMsg.
From Stdlib Require Import ZArith Lia.
From stdpp Require Import base gmap numbers tactics list.
Open Scope Z_scope.

(** ** Message types *)
Definition PFCP_HEARTBEAT_REQUEST : Z := 1.
Definition PFCP_HEARTBEAT_RESPONSE : Z := 2.
Definition PFCP_PFCP_PFD_MANAGEMENT_REQUEST : Z := 3.
Definition PFCP_ASSOCIATION_SETUP_REQUEST : Z := 5.
Definition PFCP_ASSOCIATION_SETUP_RESPONSE : Z := 6.
Definition PFCP_ASSOCIATION_UPDATE_REQUEST : Z := 7.
Definition PFCP_ASSOCIATION_RELEASE_REQUEST : Z := 9.
Definition PFCP_ASSOCIATION_RELEASE_RESPONSE : Z := 10.
Definition PFCP_VERSION_NOT_SUPPORTED_RESPONSE : Z := 11.
Definition PFCP_NODE_REPORT_REQUEST : Z := 12.
Definition PFCP_NODE_REPORT_RESPONSE : Z := 13.
Definition PFCP_SESSION_ESTABLISHMENT_REQUEST : Z := 50.
Definition PFCP_SESSION_ESTABLISHMENT_RESPONSE : Z := 51.
Definition PFCP_SESSION_MODIFICATION_REQUEST : Z := 52.
Definition PFCP_SESSION_MODIFICATION_RESPONSE : Z := 53.
Definition PFCP_SESSION_DELETION_REQUEST : Z := 54.
Definition PFCP_SESSION_DELETION_RESPONSE : Z := 55.
Definition PFCP_SESSION_REPORT_REQUEST : Z := 56.
Definition PFCP_SESSION_REPORT_RESPONSE : Z := 57.

Definition check_request_type (initial : Z) : bool :=
  mem initial
    [PFCP_HEARTBEAT_REQUEST; PFCP_PFCP_PFD_MANAGEMENT_REQUEST; PFCP_ASSOCIATION_SETUP_REQUEST;
     PFCP_ASSOCIATION_UPDATE_REQUEST; PFCP_ASSOCIATION_RELEASE_REQUEST; PFCP_NODE_REPORT_REQUEST;
     PFCP_NODE_REPORT_RESPONSE; PFCP_SESSION_ESTABLISHMENT_REQUEST; PFCP_SESSION_MODIFICATION_REQUEST;
     PFCP_SESSION_DELETION_REQUEST; PFCP_SESSION_REPORT_REQUEST; PFCP_SESSION_REPORT_RESPONSE].

Definition check_response_type (initial triggered : Z) : bool :=
  if mem initial
    [PFCP_HEARTBEAT_REQUEST; PFCP_PFCP_PFD_MANAGEMENT_REQUEST; PFCP_ASSOCIATION_SETUP_REQUEST;
     PFCP_ASSOCIATION_UPDATE_REQUEST; PFCP_ASSOCIATION_RELEASE_REQUEST; PFCP_NODE_REPORT_REQUEST;
     PFCP_SESSION_ESTABLISHMENT_REQUEST; PFCP_SESSION_MODIFICATION_REQUEST;
     PFCP_SESSION_DELETION_REQUEST; PFCP_SESSION_REPORT_REQUEST]
  then triggered =? initial + 1
  else triggered =? PFCP_VERSION_NOT_SUPPORTED_RESPONSE.

Inductive pfcp_transaction_action := DELETE_TX | CONTINUE_TX.

(** [m.insert({k, v})] *)
Definition map_insert_new {V} (k : Z) (v : V) (m : gmap Z V) : gmap Z V :=
  match m !! k with Some _ => m | None => <[k := v]> m end.

(** [PFCP_PROC_TIME_OUT_MS(T, N)], in uint32_t arithmetic. *)
Definition PFCP_PROC_TIME_OUT_MS (T N : Z) : Z := u32 (T * u32 (u32 (N + 1) + 1)).

Section stack.
Context {G T : Type} `{FG : FreshIds G} `{TS : TimerService T} {endpoint : Type}.

Record pfcp_procedure := mk_procedure {
  retry_msg : option pfcp_msg;
  remote_endpoint : option endpoint;
  retry_timer_id : Z;
  proc_cleanup_timer_id : Z;
  trxn_id : Z;
  initial_msg_type : Z;
  triggered_msg_type : Z;
  retry_count : Z;
}.

Definition pfcp_procedure_init : pfcp_procedure := mk_procedure None None 0 0 0 0 0 0.

(** What the stack emits. *)
Inductive output :=
| SendAllocated (dest : endpoint) (bytes : list Z)     (* udp_s_allocated *)
| SendRegistered (dest : endpoint) (bytes : list Z)    (* udp_s_registered *)
| NotifyUlError (dest : endpoint) (msg_type seq trxn : Z).

Record pfcp_l4_stack := mk_stack {
  t1_ms : Z;
  n1 : Z;
  seq_num : Z;
  trxn_id2seq_num : gmap Z Z;
  proc_cleanup_timers : gmap Z Z;
  msg_out_retry_timers : gmap Z Z;
  pending_procedures : gmap Z pfcp_procedure;
  timers_of : T;
  uids_of : G;
  outputs : list output;
}.

(** Field updates. *)
Definition upd_seq (v : Z) (s : pfcp_l4_stack) := mk_stack (t1_ms s) (n1 s) v (trxn_id2seq_num s)
  (proc_cleanup_timers s) (msg_out_retry_timers s) (pending_procedures s) (timers_of s) (uids_of s) (outputs s).
Definition upd_trxn (v : gmap Z Z) (s : pfcp_l4_stack) := mk_stack (t1_ms s) (n1 s) (seq_num s) v
  (proc_cleanup_timers s) (msg_out_retry_timers s) (pending_procedures s) (timers_of s) (uids_of s) (outputs s).
Definition upd_cleanup (v : gmap Z Z) (s : pfcp_l4_stack) := mk_stack (t1_ms s) (n1 s) (seq_num s)
  (trxn_id2seq_num s) v (msg_out_retry_timers s) (pending_procedures s) (timers_of s) (uids_of s) (outputs s).
Definition upd_retry (v : gmap Z Z) (s : pfcp_l4_stack) := mk_stack (t1_ms s) (n1 s) (seq_num s)
  (trxn_id2seq_num s) (proc_cleanup_timers s) v (pending_procedures s) (timers_of s) (uids_of s) (outputs s).
Definition upd_pending (v : gmap Z pfcp_procedure) (s : pfcp_l4_stack) := mk_stack (t1_ms s) (n1 s) (seq_num s)
  (trxn_id2seq_num s) (proc_cleanup_timers s) (msg_out_retry_timers s) v (timers_of s) (uids_of s) (outputs s).
Definition upd_timers (v : T) (s : pfcp_l4_stack) := mk_stack (t1_ms s) (n1 s) (seq_num s)
  (trxn_id2seq_num s) (proc_cleanup_timers s) (msg_out_retry_timers s) (pending_procedures s) v (uids_of s) (outputs s).
Definition upd_uids (v : G) (s : pfcp_l4_stack) := mk_stack (t1_ms s) (n1 s) (seq_num s)
  (trxn_id2seq_num s) (proc_cleanup_timers s) (msg_out_retry_timers s) (pending_procedures s) (timers_of s) v (outputs s).
Definition emit (o : output) (s : pfcp_l4_stack) := mk_stack (t1_ms s) (n1 s) (seq_num s)
  (trxn_id2seq_num s) (proc_cleanup_timers s) (msg_out_retry_timers s) (pending_procedures s) (timers_of s)
  (uids_of s) (outputs s ++ [o]).

Definition set_retry_timer_id (v : Z) (p : pfcp_procedure) := mk_procedure (retry_msg p) (remote_endpoint p)
  v (proc_cleanup_timer_id p) (trxn_id p) (initial_msg_type p) (triggered_msg_type p) (retry_count p).
Definition set_cleanup_timer_id (v : Z) (p : pfcp_procedure) := mk_procedure (retry_msg p) (remote_endpoint p)
  (retry_timer_id p) v (trxn_id p) (initial_msg_type p) (triggered_msg_type p) (retry_count p).
Definition set_retry_count (v : Z) (p : pfcp_procedure) := mk_procedure (retry_msg p) (remote_endpoint p)
  (retry_timer_id p) (proc_cleanup_timer_id p) (trxn_id p) (initial_msg_type p) (triggered_msg_type p) v.

(** The constructor; [ns] is the nanoseconds field of the clock it reads. *)
Definition pfcp_l4_stack_new (t1_milli_seconds n1_retransmit ns : Z) (t : T) (g : G) : pfcp_l4_stack :=
  mk_stack t1_milli_seconds n1_retransmit (Z.land (u32 ns) 2147483647) ∅ ∅ ∅ ∅ t g [].

Definition get_next_seq_num (s : pfcp_l4_stack) : Z * pfcp_l4_stack :=
  let n := u32 (seq_num s + 1) in
  let n := if Z.land n 2147483648 =? 0 then n else 0 in
  (n, upd_seq n s).

Definition start_msg_retry_timer (p : pfcp_procedure) (time_out_milli_seconds task_id seq : Z)
    (s : pfcp_l4_stack) : pfcp_procedure * pfcp_l4_stack :=
  let '(id, t) := ts_setup (time_out_milli_seconds / 1000) (time_out_milli_seconds mod 1000 * 1000)
                    task_id (timers_of s) in
  let s := upd_timers t s in
  let p := set_retry_timer_id id p in
  if id =? ITTI_INVALID_TIMER_ID then (p, s)
  else (p, upd_retry (map_insert_new id seq (msg_out_retry_timers s)) s).

(** [stop_msg_retry_timer(p)]: its trace reads [p.retry_msg]. *)
Definition stop_msg_retry_timer (p : pfcp_procedure) (s : pfcp_l4_stack)
  : result Empty_set (pfcp_procedure * pfcp_l4_stack) :=
  if retry_timer_id p =? ITTI_INVALID_TIMER_ID then Val (p, s)
  else
    let s := upd_timers (ts_remove (retry_timer_id p) (timers_of s)) s in
    let s := upd_retry (delete (retry_timer_id p) (msg_out_retry_timers s)) s in
    match retry_msg p with
    | None => UB
    | Some _ => Val (set_retry_timer_id ITTI_INVALID_TIMER_ID p, s)
    end.

Definition start_proc_cleanup_timer (p : pfcp_procedure) (time_out_milli_seconds task_id seq : Z)
    (s : pfcp_l4_stack) : pfcp_procedure * pfcp_l4_stack :=
  let '(id, t) := ts_setup (time_out_milli_seconds / 1000) (time_out_milli_seconds mod 1000 * 1000)
                    task_id (timers_of s) in
  let s := upd_timers t s in
  (set_cleanup_timer_id id p, upd_cleanup (map_insert_new id seq (proc_cleanup_timers s)) s).

Definition stop_proc_cleanup_timer (p : pfcp_procedure) (s : pfcp_l4_stack)
  : pfcp_procedure * pfcp_l4_stack :=
  let s := upd_timers (ts_remove (proc_cleanup_timer_id p) (timers_of s)) s in
  let s := upd_retry (delete (proc_cleanup_timer_id p) (msg_out_retry_timers s)) s in
  let s := upd_cleanup (delete (proc_cleanup_timer_id p) (proc_cleanup_timers s)) s in
  (set_cleanup_timer_id 0 p, s).

Definition free_trxn_id (id : Z) (s : pfcp_l4_stack) : pfcp_l4_stack :=
  upd_uids (fi_free id (uids_of s)) s.

(** Returns [error], [trxn_id] and the stack; [None]: the id generator does
    not return. *)
Definition handle_receive_message_cb (msg : pfcp_msg) (task_id : Z) (s : pfcp_l4_stack)
  : option (result Empty_set (bool * Z * pfcp_l4_stack)) :=
  let seq := get_sequence_number msg in
  match pending_procedures s !! seq with
  | None =>
    if check_request_type (get_message_type msg) then
      match fi_get (uids_of s) with
      | None => None
      | Some (tx, g) =>
        let s := upd_uids g s in
        let proc := mk_procedure None None 0 0 tx (get_message_type msg) 0 0 in
        let '(proc, s) := start_proc_cleanup_timer proc (t1_ms s) task_id seq s in
        let s := upd_pending (map_insert_new seq proc (pending_procedures s)) s in
        let s := upd_trxn (map_insert_new tx seq (trxn_id2seq_num s)) s in
        Some (Val (false, tx, s))
      end
    else Some (Val (true, 0, s))
  | Some p =>
    let check_initial_msg_type :=
      if triggered_msg_type p =? 0 then initial_msg_type p else triggered_msg_type p in
    if check_response_type check_initial_msg_type (get_message_type msg) then
      let tx := trxn_id p in
      Some (
        '(p, s) ← (if retry_timer_id p =? 0 then Val (p, s) else stop_msg_retry_timer p s);
        let '(p, s) := stop_proc_cleanup_timer p s in
        let s := upd_trxn (delete tx (trxn_id2seq_num s)) s in
        let s := free_trxn_id tx s in
        let s := upd_pending (delete seq (pending_procedures s)) s in
        Val (false, tx, s))
    else Some (Val (true, 0, s))
  end.

(** The common body of the [send_request] overloads; [seid]: set for the
    session messages. *)
Definition send_request (dest : endpoint) (seid : option Z) (m : pfcp_msg) (task_id tx : Z)
    (s : pfcp_l4_stack) : Z * pfcp_l4_stack :=
  let m := match seid with Some sd => msg_set_seid sd m | None => m end in
  let '(n, s) := get_next_seq_num s in
  let m := msg_set_sequence_number n m in
  let '(bstream, m) := pfcp_msg_dump_to m in
  let seq := get_sequence_number m in
  let proc := mk_procedure (Some m) (Some dest) 0 0 tx (get_message_type m) 0 0 in
  let '(proc, s) := start_msg_retry_timer proc (t1_ms s) task_id seq s in
  let '(proc, s) := start_proc_cleanup_timer proc (PFCP_PROC_TIME_OUT_MS (t1_ms s) (n1 s)) task_id seq s in
  let s := upd_pending (map_insert_new seq proc (pending_procedures s)) s in
  let s := upd_trxn (map_insert_new tx seq (trxn_id2seq_num s)) s in
  (seq, emit (SendAllocated dest bstream) s).

Definition send_heartbeat_request (dest : endpoint) (l : list wire_ie) :=
  send_request dest None (pfcp_msg_of PFCP_HEARTBEAT_REQUEST l).
Definition send_association_setup_request (dest : endpoint) (l : list wire_ie) :=
  send_request dest None (pfcp_msg_of PFCP_ASSOCIATION_SETUP_REQUEST l).
Definition send_association_release_request (dest : endpoint) (l : list wire_ie) :=
  send_request dest None (pfcp_msg_of PFCP_ASSOCIATION_RELEASE_REQUEST l).
Definition send_node_report_request (dest : endpoint) (seid : Z) (l : list wire_ie) :=
  send_request dest None (pfcp_msg_of PFCP_NODE_REPORT_REQUEST l).
Definition send_session_establishment_request (dest : endpoint) (seid : Z) (l : list wire_ie) :=
  send_request dest (Some seid) (pfcp_msg_of PFCP_SESSION_ESTABLISHMENT_REQUEST l).
Definition send_session_modification_request (dest : endpoint) (seid : Z) (l : list wire_ie) :=
  send_request dest (Some seid) (pfcp_msg_of PFCP_SESSION_MODIFICATION_REQUEST l).
Definition send_session_deletion_request (dest : endpoint) (seid : Z) (l : list wire_ie) :=
  send_request dest (Some seid) (pfcp_msg_of PFCP_SESSION_DELETION_REQUEST l).
Definition send_session_report_request (dest : endpoint) (seid : Z) (l : list wire_ie) :=
  send_request dest (Some seid) (pfcp_msg_of PFCP_SESSION_REPORT_REQUEST l).

(** The common body of the [send_response] overloads.  Only the heartbeat
    overload gives the transaction id back ([free]). *)
Definition send_response (free : bool) (dest : endpoint) (seid : option Z) (m : pfcp_msg) (tx : Z)
    (a : pfcp_transaction_action) (s : pfcp_l4_stack) : pfcp_l4_stack :=
  match trxn_id2seq_num s !! tx with
  | Some seq =>
    let m := match seid with Some sd => msg_set_seid sd m | None => m end in
    let m := msg_set_sequence_number seq m in
    let '(bstream, _) := pfcp_msg_dump_to m in
    let s := emit (SendRegistered dest bstream) s in
    match a with
    | DELETE_TX =>
      let s :=
        match pending_procedures s !! seq with
        | Some p =>
          let '(_, s) := stop_proc_cleanup_timer p s in
          let s := if free then free_trxn_id tx s else s in
          upd_pending (delete seq (pending_procedures s)) s
        | None => s
        end in
      upd_trxn (delete tx (trxn_id2seq_num s)) s
    | CONTINUE_TX => s
    end
  | None => s
  end.

Definition send_heartbeat_response (dest : endpoint) (l : list wire_ie) :=
  send_response true dest None (pfcp_msg_of PFCP_HEARTBEAT_RESPONSE l).
Definition send_association_setup_response (dest : endpoint) (l : list wire_ie) :=
  send_response false dest None (pfcp_msg_of PFCP_ASSOCIATION_SETUP_RESPONSE l).
Definition send_association_release_response (dest : endpoint) (l : list wire_ie) :=
  send_response false dest None (pfcp_msg_of PFCP_ASSOCIATION_RELEASE_RESPONSE l).
Definition send_session_establishment_response (dest : endpoint) (seid : Z) (l : list wire_ie) :=
  send_response false dest (Some seid) (pfcp_msg_of PFCP_SESSION_ESTABLISHMENT_RESPONSE l).
Definition send_session_modification_response (dest : endpoint) (seid : Z) (l : list wire_ie) :=
  send_response false dest (Some seid) (pfcp_msg_of PFCP_SESSION_MODIFICATION_RESPONSE l).
Definition send_session_deletion_response (dest : endpoint) (seid : Z) (l : list wire_ie) :=
  send_response false dest (Some seid) (pfcp_msg_of PFCP_SESSION_DELETION_RESPONSE l).
Definition send_session_report_response (dest : endpoint) (seid : Z) (l : list wire_ie) :=
  send_response false dest (Some seid) (pfcp_msg_of PFCP_SESSION_REPORT_RESPONSE l).

(** [time_out_event]: returns [handled] and the stack. *)
Definition time_out_event (timer_id task_id : Z) (s : pfcp_l4_stack)
  : result Empty_set (bool * pfcp_l4_stack) :=
  match msg_out_retry_timers s !! timer_id with
  | Some seq =>
    let s := upd_retry (delete timer_id (msg_out_retry_timers s)) s in
    match pending_procedures s !! seq with
    | Some p =>
      match retry_msg p, remote_endpoint p with
      | Some m, Some dest =>
        if retry_count p <? n1 s then
          let p := set_retry_count (u8 (retry_count p + 1)) p in
          let '(p, s) := start_msg_retry_timer p (t1_ms s) task_id (get_sequence_number m) s in
          let '(bstream, m) := pfcp_msg_dump_to m in
          let p := mk_procedure (Some m) (Some dest) (retry_timer_id p) (proc_cleanup_timer_id p)
                     (trxn_id p) (initial_msg_type p) (triggered_msg_type p) (retry_count p) in
          let s := upd_pending (<[seq := p]> (pending_procedures s)) s in
          Val (true, emit (SendRegistered dest bstream) s)
        else
          Val (true, emit (NotifyUlError dest (get_message_type m) (get_sequence_number m) (trxn_id p)) s)
      | _, _ => UB    (* null retry_msg dereferenced *)
      end
    | None => Val (true, s)
    end
  | None =>
    match proc_cleanup_timers s !! timer_id with
    | Some seq =>
      match pending_procedures s !! seq with
      | Some p =>
        let s := upd_trxn (delete (trxn_id p) (trxn_id2seq_num s)) s in
        let s := free_trxn_id (trxn_id p) s in
        let s := upd_cleanup (delete timer_id (proc_cleanup_timers s)) s in
        Val (true, upd_pending (delete seq (pending_procedures s)) s)
      | None => UB    (* end() dereferenced *)
      end
    | None => Val (false, s)
    end
  end.

(** ** The invariant of the four tables

    - every pending procedure has a clean-up timer registered for its sequence
      number, and every registered clean-up timer belongs to a pending
      procedure;
    - every registered retry timer belongs to a pending procedure that was
      sent by this side (it has a message to resend and an endpoint);
    - the retransmission count never exceeds N1. *)
Record stack_inv (s : pfcp_l4_stack) : Prop := {
  si_cleanup : forall k p, pending_procedures s !! k = Some p ->
    proc_cleanup_timers s !! proc_cleanup_timer_id p = Some k;
  si_pending : forall t k, proc_cleanup_timers s !! t = Some k ->
    exists p, pending_procedures s !! k = Some p /\ proc_cleanup_timer_id p = t;
  si_retry : forall t k, msg_out_retry_timers s !! t = Some k ->
    exists p, pending_procedures s !! k = Some p /\ retry_timer_id p = t;
  si_msg : forall k p, pending_procedures s !! k = Some p -> retry_timer_id p <> 0 ->
    exists m d, retry_msg p = Some m /\ remote_endpoint p = Some d /\ get_sequence_number m = k;
  si_issued_c : forall t k, proc_cleanup_timers s !! t = Some k -> ts_issued (timers_of s) t /\ t <> 0;
  si_issued_r : forall k p, pending_procedures s !! k = Some p ->
    retry_timer_id p = 0 \/ ts_issued (timers_of s) (retry_timer_id p);
  si_disjoint : forall t k, msg_out_retry_timers s !! t = Some k -> proc_cleanup_timers s !! t = None /\ t <> 0;
  si_count : forall k p, pending_procedures s !! k = Some p -> 0 <= retry_count p <= n1 s;
  si_n1 : 0 <= n1 s < 256;
}.

(** The clean-up timer of a procedure is no retry timer. *)
Lemma inv_cleanup_not_retry s k p :
  stack_inv s -> pending_procedures s !! k = Some p ->
  msg_out_retry_timers s !! proc_cleanup_timer_id p = None.
Proof.
  intros Hi Hp. apply (si_cleanup _ Hi) in Hp.
  destruct (msg_out_retry_timers s !! proc_cleanup_timer_id p) eqn:E; [|done].
  apply (si_disjoint _ Hi) in E as [E _]. congruence.
Qed.

(** Forgetting the procedure under [k] together with its two timers keeps the
    invariant; this is what a matched response, a final response and the
    clean-up timer do. *)
Lemma inv_forget s s' k p :
  stack_inv s -> pending_procedures s !! k = Some p ->
  n1 s' = n1 s ->
  pending_procedures s' = delete k (pending_procedures s) ->
  proc_cleanup_timers s' = delete (proc_cleanup_timer_id p) (proc_cleanup_timers s) ->
  (forall t k', msg_out_retry_timers s' !! t = Some k' ->
     msg_out_retry_timers s !! t = Some k' /\ k' <> k) ->
  (forall i, ts_issued (timers_of s') i <-> ts_issued (timers_of s) i) ->
  stack_inv s'.
Proof.
  intros Hi Hp Hn Hpend Hclean Hretry Hiss. split; rewrite ?Hn, ?Hpend, ?Hclean.
  - intros k' p' H. apply lookup_delete_Some in H as [Hne H]. pose proof (si_cleanup _ Hi _ _ H) as Hc.
    rewrite lookup_delete_ne; [done|]. intros E. rewrite <- E, (si_cleanup _ Hi _ _ Hp) in Hc. congruence.
  - intros t k' H. apply lookup_delete_Some in H as [Hne H].
    destruct (si_pending _ Hi _ _ H) as (p' & Hp' & E). exists p'. split; [|done].
    rewrite lookup_delete_ne; [done|]. intros <-. congruence.
  - intros t k' H. apply Hretry in H as [H Hne]. destruct (si_retry _ Hi _ _ H) as (p' & Hp' & E).
    exists p'. by rewrite lookup_delete_ne.
  - intros k' p' H. apply lookup_delete_Some in H as [_ H]. by apply (si_msg _ Hi).
  - intros t k' H. apply lookup_delete_Some in H as [_ H]. rewrite Hiss. by apply (si_issued_c _ Hi t k').
  - intros k' p' H. apply lookup_delete_Some in H as [_ H]. rewrite Hiss. by apply (si_issued_r _ Hi k').
  - intros t k' H. apply Hretry in H as [H _]. destruct (si_disjoint _ Hi _ _ H) as [Hd ?]. split; [|done].
    apply lookup_delete_None. by right.
  - intros k' p' H. apply lookup_delete_Some in H as [_ H]. by apply (si_count _ Hi k').
  - apply Hi.
Qed.

(** Retry timers that survive the removal of [retry_timer_id p] are those of
    other procedures. *)
Lemma inv_retry_others s k p t k' :
  stack_inv s -> pending_procedures s !! k = Some p ->
  delete (retry_timer_id p) (msg_out_retry_timers s) !! t = Some k' ->
  msg_out_retry_timers s !! t = Some k' /\ k' <> k.
Proof.
  intros Hi Hp H. apply lookup_delete_Some in H as [Hne H]. split; [done|]. intros ->.
  destruct (si_retry _ Hi _ _ H) as (p' & Hp' & E). congruence.
Qed.

(** Registering a fresh procedure, with its clean-up timer, under a free
    sequence number. *)
Lemma inv_register s s' k p c :
  stack_inv s -> pending_procedures s !! k = None ->
  c <> 0 -> ~ ts_issued (timers_of s) c ->
  proc_cleanup_timer_id p = c -> retry_count p = 0 -> n1 s' = n1 s ->
  (retry_timer_id p <> 0 -> ts_issued (timers_of s') (retry_timer_id p) /\
     exists m d, retry_msg p = Some m /\ remote_endpoint p = Some d /\ get_sequence_number m = k) ->
  pending_procedures s' = <[k := p]> (pending_procedures s) ->
  proc_cleanup_timers s' = <[c := k]> (proc_cleanup_timers s) ->
  msg_out_retry_timers s' = msg_out_retry_timers s ->
  (forall i, ts_issued (timers_of s) i -> ts_issued (timers_of s') i) -> ts_issued (timers_of s') c ->
  stack_inv s'.
Proof.
  intros Hi Hk Hc0 Hc Hpc Hcnt Hn Hr Hpend Hclean Hretry Hmono Hcs.
  assert (forall k' p', pending_procedures s !! k' = Some p' -> k <> k' /\ c <> proc_cleanup_timer_id p') as Hpp.
  { intros k' p' H. split; [congruence|]. intros E. apply Hc.
    apply (si_cleanup _ Hi) in H. rewrite <- E in H. by apply (si_issued_c _ Hi _ _ H). }
  split; rewrite ?Hn, ?Hpend, ?Hclean, ?Hretry.
  - intros k' p' H. apply lookup_insert_Some in H as [[<- <-]|[Hne H]]; [by rewrite Hpc, lookup_insert_eq|].
    rewrite lookup_insert_ne by apply (Hpp _ _ H). by apply (si_cleanup _ Hi).
  - intros t k' H. apply lookup_insert_Some in H as [[<- <-]|[Hne H]].
    + exists p. by rewrite lookup_insert_eq.
    + destruct (si_pending _ Hi _ _ H) as (p' & Hp' & E). exists p'.
      rewrite lookup_insert_ne by apply (Hpp _ _ Hp'). done.
  - intros t k' H. destruct (si_retry _ Hi _ _ H) as (p' & Hp' & E). exists p'.
    rewrite lookup_insert_ne by apply (Hpp _ _ Hp'). done.
  - intros k' p' H. apply lookup_insert_Some in H as [[<- <-]|[Hne H]]; [apply Hr|by apply (si_msg _ Hi)].
  - intros t k' H. apply lookup_insert_Some in H as [[<- <-]|[Hne H]]; [done|].
    destruct (si_issued_c _ Hi _ _ H). auto.
  - intros k' p' H. apply lookup_insert_Some in H as [[<- <-]|[Hne H]].
    + destruct (decide (retry_timer_id p = 0)); [by left|right; by apply Hr].
    + destruct (si_issued_r _ Hi _ _ H); auto.
  - intros t k' H. destruct (si_disjoint _ Hi _ _ H) as [Hd Ht0]. split; [|done].
    destruct (si_retry _ Hi _ _ H) as (p' & Hp' & E).
    destruct (si_issued_r _ Hi _ _ Hp') as [E0|Hiss]; [congruence|].
    rewrite lookup_insert_ne by congruence. done.
  - intros k' p' H. apply lookup_insert_Some in H as [[<- <-]|[Hne H]]; [|by apply (si_count _ Hi k')].
    rewrite Hcnt. pose proof (si_n1 _ Hi). lia.
  - apply Hi.
Qed.

(** Registering the retry timer of a pending procedure. *)
Lemma inv_arm_retry s k p :
  stack_inv s -> pending_procedures s !! k = Some p -> retry_timer_id p <> 0 ->
  proc_cleanup_timers s !! retry_timer_id p = None ->
  stack_inv (upd_retry (<[retry_timer_id p := k]> (msg_out_retry_timers s)) s).
Proof.
  intros Hi Hp H0 Hc. split; simpl; try apply Hi.
  - intros t k' H. apply lookup_insert_Some in H as [[<- <-]|[_ H]]; [eauto|by apply (si_retry _ Hi)].
  - intros t k' H. apply lookup_insert_Some in H as [[<- <-]|[_ H]]; [done|by apply (si_disjoint _ Hi t k')].
Qed.

(** Dropping a retry timer that fired. *)
Lemma inv_drop_retry s t : stack_inv s -> stack_inv (upd_retry (delete t (msg_out_retry_timers s)) s).
Proof.
  intros Hi. split; simpl; try apply Hi.
  - intros t' k' H. apply lookup_delete_Some in H as [_ H]. by apply (si_retry _ Hi).
  - intros t' k' H. apply lookup_delete_Some in H as [_ H]. by apply (si_disjoint _ Hi t' k').
Qed.

(** Rewriting a pending procedure for its next retransmission: no retry timer
    is registered for it at that moment. *)
Lemma inv_rewrite s s' k p p' :
  stack_inv s -> pending_procedures s !! k = Some p ->
  (forall t, msg_out_retry_timers s !! t <> Some k) ->
  proc_cleanup_timer_id p' = proc_cleanup_timer_id p -> 0 <= retry_count p' <= n1 s ->
  retry_timer_id p' <> 0 -> ts_issued (timers_of s') (retry_timer_id p') ->
  (exists m d, retry_msg p' = Some m /\ remote_endpoint p' = Some d /\ get_sequence_number m = k) ->
  n1 s' = n1 s -> pending_procedures s' = <[k := p']> (pending_procedures s) ->
  proc_cleanup_timers s' = proc_cleanup_timers s -> msg_out_retry_timers s' = msg_out_retry_timers s ->
  (forall i, ts_issued (timers_of s) i -> ts_issued (timers_of s') i) ->
  stack_inv s'.
Proof.
  intros Hi Hp Hno Hc Hcnt H0 Hiss Hm Hn Hpend Hclean Hretry Hmono.
  split; rewrite ?Hn, ?Hpend, ?Hclean, ?Hretry.
  - intros k' q H. apply lookup_insert_Some in H as [[<- <-]|[Hne H]]; [rewrite Hc|]; by apply (si_cleanup _ Hi).
  - intros t k' H. destruct (si_pending _ Hi _ _ H) as (q & Hq & E).
    destruct (decide (k = k')) as [<-|Hne].
    + exists p'. rewrite lookup_insert_eq, Hc. split; [done|]. congruence.
    + exists q. by rewrite lookup_insert_ne.
  - intros t k' H. destruct (si_retry _ Hi _ _ H) as (q & Hq & E). exists q.
    rewrite lookup_insert_ne; [done|]. intros <-. by apply (Hno t).
  - intros k' q H. apply lookup_insert_Some in H as [[<- <-]|[Hne H]]; [done|by apply (si_msg _ Hi)].
  - intros t k' H. destruct (si_issued_c _ Hi _ _ H). auto.
  - intros k' q H. apply lookup_insert_Some in H as [[<- <-]|[Hne H]]; [auto|].
    destruct (si_issued_r _ Hi _ _ H); auto.
  - apply Hi.
  - intros k' q H. apply lookup_insert_Some in H as [[<- <-]|[Hne H]]; [done|by apply (si_count _ Hi k')].
  - apply Hi.
Qed.

(** A timer id that was never handed out is registered nowhere. *)
Lemma inv_fresh_timer s t :
  stack_inv s -> ~ ts_issued (timers_of s) t ->
  proc_cleanup_timers s !! t = None /\ msg_out_retry_timers s !! t = None.
Proof.
  intros Hi Hn. split.
  - destruct (proc_cleanup_timers s !! t) eqn:E; [|done]. by apply (si_issued_c _ Hi) in E as [? _].
  - destruct (msg_out_retry_timers s !! t) eqn:E; [|done].
    pose proof (si_disjoint _ Hi _ _ E) as [_ H0]. destruct (si_retry _ Hi _ _ E) as (p & Hp & Ep).
    destruct (si_issued_r _ Hi _ _ Hp); congruence.
Qed.

Lemma map_insert_new_None {V} k (v : V) m : m !! k = None -> map_insert_new k v m = <[k := v]> m.
Proof. unfold map_insert_new. by intros ->. Qed.

Lemma map_insert_new_Some {V} k (v w : V) m : m !! k = Some w -> map_insert_new k v m = m.
Proof. unfold map_insert_new. by intros ->. Qed.

Lemma recv_inv s msg task r :
  stack_inv s -> ts_headroom (timers_of s) -> 0 < task < TASK_MAX ->
  handle_receive_message_cb msg task s = Some r ->
  exists e tx s', r = Val (e, tx, s') /\ stack_inv s'.
Proof.
  intros Hi Hh Ht. unfold handle_receive_message_cb.
  destruct (pending_procedures s !! get_sequence_number msg) as [p|] eqn:Hp.
  - destruct (check_response_type _ _); [|intros [= <-]; eauto]. intros [= <-].
    assert (exists s1, (if retry_timer_id p =? 0 then Val (p, s) else stop_msg_retry_timer p s) =
      Val (set_retry_timer_id 0 p, s1) /\ n1 s1 = n1 s /\ pending_procedures s1 = pending_procedures s /\
      proc_cleanup_timers s1 = proc_cleanup_timers s /\
      msg_out_retry_timers s1 = delete (retry_timer_id p) (msg_out_retry_timers s) /\
      forall i, ts_issued (timers_of s1) i <-> ts_issued (timers_of s) i) as (s1 & E & Hn & Hpd & Hc & Hr & Hs).
    { unfold stop_msg_retry_timer, ITTI_INVALID_TIMER_ID. destruct (Z.eqb_spec (retry_timer_id p) 0) as [E|E].
      - exists s. split_and!; try done; [by rewrite <- E; destruct p|]. rewrite E.
        symmetry. apply delete_id. destruct (msg_out_retry_timers s !! 0) eqn:E0; [|done].
        by apply (si_disjoint _ Hi) in E0 as [_ ?].
      - destruct (si_msg _ Hi _ _ Hp E) as (m & d & Em & _). rewrite Em.
        eexists. split_and!; try done. intros i. apply ts_remove_issued. }
    rewrite E. simpl. eexists _, _, _. split; [done|].
    eapply (inv_forget s _ _ p Hi Hp); simpl; rewrite ?Hn, ?Hpd, ?Hc, ?Hr; try done.
    + intros t k' H. apply lookup_delete_Some in H as [_ H]. by eapply inv_retry_others.
    + intros i. rewrite ts_remove_issued. apply Hs.
  - destruct (check_request_type _); [|intros [= <-]; eauto].
    destruct (fi_get (uids_of s)) as [[tx g]|]; [|done].
    unfold start_proc_cleanup_timer. simpl.
    destruct (ts_setup _ _ _ _) as [id t] eqn:E.
    destruct (ts_setup_fresh _ _ _ _ _ _ Hh Ht E) as (H0 & Hni & Hiss). intros [= <-].
    eexists _, _, _. split; [done|]. destruct (inv_fresh_timer s id Hi Hni) as [Hc _].
    eapply (inv_register s _ (get_sequence_number msg)
      (mk_procedure None None 0 id tx (get_message_type msg) 0 0) id Hi Hp H0 Hni); simpl;
      rewrite ?map_insert_new_None by done; try done.
    + intros i Hi'. apply Hiss. by left.
    + apply Hiss. by right.
Qed.

(** The sequence number the next request will carry. *)
Definition next_wire_seq (s : pfcp_l4_stack) : Z := Z.land (get_next_seq_num s).1 16777215.

Lemma get_sequence_number_dump m : get_sequence_number (pfcp_msg_dump_to m).2 = get_sequence_number m.
Proof. done. Qed.

(** A message a dump went over already is dumped the same way again. *)
Lemma dump_idempotent m b m' :
  pfcp_msg_dump_to m = (b, m') -> pfcp_msg_dump_to m' = (b, m').
Proof.
  unfold pfcp_msg_dump_to, pfcp_header_dump_to. intros [= <- <-]. simpl.
  unfold pfcp_header_clean. simpl. destruct (h_mp (hdr m) =? 0); done.
Qed.

Definition task_ok (task : Z) (s : pfcp_l4_stack) : Prop :=
  0 < task < TASK_MAX /\ ts_headroom (timers_of s).

(** Two timers can be started in a row. *)
Definition task_ok2 (task : Z) (s : pfcp_l4_stack) : Prop :=
  task_ok task s /\
  forall sec us id t, ts_setup sec us task (timers_of s) = (id, t) -> ts_headroom t.

(** [send_request] in closed form: two new timers, a message that dumps to the
    bytes sent, and the table updates. *)
Lemma send_request_eq s dest seid m task tx :
  stack_inv s -> task_ok2 task s ->
  exists r c t b m' n,
    (r <> 0 /\ c <> 0 /\ c <> r) /\
    (~ ts_issued (timers_of s) r /\ ~ ts_issued (timers_of s) c /\
     forall i, ts_issued t i <-> ts_issued (timers_of s) i \/ i = r \/ i = c) /\
    (pfcp_msg_dump_to m' = (b, m') /\ get_sequence_number m' = next_wire_seq s /\
     get_message_type m' = get_message_type m) /\
    send_request dest seid m task tx s = (next_wire_seq s,
      mk_stack (t1_ms s) (n1 s) n (map_insert_new tx (next_wire_seq s) (trxn_id2seq_num s))
        (<[c := next_wire_seq s]> (proc_cleanup_timers s)) (<[r := next_wire_seq s]> (msg_out_retry_timers s))
        (map_insert_new (next_wire_seq s) (mk_procedure (Some m') (Some dest) r c tx (get_message_type m') 0 0)
           (pending_procedures s))
        t (uids_of s) (outputs s ++ [SendAllocated dest b])).
Proof.
  intros Hi [[Ht Hh] Hh2]. unfold send_request.
  set (m1 := match seid with Some sd => _ | None => _ end).
  assert (get_message_type m1 = get_message_type m) as Hty by (by destruct seid).
  destruct (get_next_seq_num s) as [n s1] eqn:En.
  assert (n = (get_next_seq_num s).1) as Hn by (by rewrite En).
  assert (s1 = upd_seq n s) as -> by (unfold get_next_seq_num in En; by injection En as <- <-).
  set (m2 := msg_set_sequence_number n m1). change (get_message_type m2 = get_message_type m) in Hty.
  assert (get_sequence_number m2 = next_wire_seq s) as Hn2 by (unfold next_wire_seq; rewrite <- Hn; done).
  destruct (pfcp_msg_dump_to m2) as [b m'] eqn:Ed.
  assert (get_sequence_number m' = next_wire_seq s /\ get_message_type m' = get_message_type m) as [Hs Hty']
    by (rewrite <- Hn2, <- Hty; unfold pfcp_msg_dump_to in Ed; by injection Ed as <- <-).
  unfold start_msg_retry_timer, start_proc_cleanup_timer. cbn [timers_of upd_seq t1_ms].
  destruct (ts_setup _ _ task (timers_of s)) as [r t] eqn:E1.
  destruct (ts_setup_fresh _ _ _ _ _ _ Hh Ht E1) as (Hr0 & Hrn & Hri).
  apply Z.eqb_neq in Hr0 as Hr0'. rewrite Hr0'. simpl.
  destruct (ts_setup _ _ task t) as [c t'] eqn:E2.
  destruct (ts_setup_fresh _ _ _ _ _ _ (Hh2 _ _ _ _ E1) Ht E2) as (Hc0 & Hcn & Hci).
  rewrite Hri in Hcn. destruct (inv_fresh_timer s r Hi Hrn) as [_ Hrr].
  destruct (inv_fresh_timer s c Hi ltac:(tauto)) as [Hcc _].
  exists r, c, t', b, m', n. split_and!; try done; [naive_solver|tauto| |by eapply dump_idempotent|].
  - intros i. rewrite Hci, Hri. tauto.
  - by rewrite Hs, (map_insert_new_None c), (map_insert_new_None r).
Qed.

Lemma send_inv s dest seid m task tx :
  stack_inv s -> task_ok2 task s -> pending_procedures s !! next_wire_seq s = None ->
  stack_inv (send_request dest seid m task tx s).2.
Proof.
  intros Hi Hok Hfree.
  destruct (send_request_eq s dest seid m task tx Hi Hok) as
    (r & c & t & b & m' & n & (Hr0 & Hc0 & Hrc) & (Hrn & Hcn & Hiss) & (Hd & Hs & _) & ->).
  cbn [snd]. rewrite (map_insert_new_None (next_wire_seq s)) by done.
  set (p := mk_procedure _ _ _ _ _ _ _ _). set (s' := mk_stack _ _ _ _ _ _ _ _ _ _).
  set (s1 := upd_retry (msg_out_retry_timers s) s').
  assert (stack_inv s1) as Hi1.
  { eapply (inv_register s s1 (next_wire_seq s) p c Hi Hfree Hc0 Hcn); try done.
    - intros _. split; [apply Hiss; tauto|]. by exists m', dest.
    - intros i Hi'. apply Hiss. tauto.
    - apply Hiss. tauto. }
  destruct (inv_fresh_timer s r Hi Hrn) as [Hrc' _].
  apply (inv_arm_retry s1 (next_wire_seq s) p Hi1); [by apply lookup_insert_eq|done|].
  simpl. by rewrite lookup_insert_ne.
Qed.

(** A response is given only to a received request: its procedure has no
    message of ours to retransmit. *)
Definition answers_received (tx : Z) (s : pfcp_l4_stack) : Prop :=
  forall seq p, trxn_id2seq_num s !! tx = Some seq -> pending_procedures s !! seq = Some p ->
    retry_timer_id p = 0.

Lemma respond_inv s free dest seid m tx a :
  stack_inv s -> answers_received tx s -> stack_inv (send_response free dest seid m tx a s).
Proof.
  intros Hi Hr. unfold send_response. destruct (trxn_id2seq_num s !! tx) as [seq|] eqn:Etx; [|done].
  set (m1 := msg_set_sequence_number _ _). destruct (pfcp_msg_dump_to m1) as [bs m2].
  assert (forall s', stack_inv s' -> forall v, stack_inv (upd_trxn v s')) as Hut
    by (intros s' [] v; by split).
  assert (stack_inv (emit (SendRegistered dest bs) s)) as He by (destruct Hi; by split).
  destruct a; [|done]. apply Hut. simpl.
  destruct (pending_procedures s !! seq) as [p|] eqn:Hp; [|done].
  pose proof (Hr seq p Etx Hp) as Hr0.
  assert (forall t k', msg_out_retry_timers s !! t = Some k' -> k' <> seq) as Hother.
  { intros t k' H ->. destruct (si_retry _ Hi _ _ H) as (p' & Hp' & E).
    pose proof (si_disjoint _ Hi _ _ H) as [_ H0]. congruence. }
  destruct free; (eapply (inv_forget s _ _ p Hi Hp); simpl; try done;
    [intros t k' H; apply lookup_delete_Some in H as [_ H]; split; [done|by eapply Hother]
    |intros i; apply ts_remove_issued]).
Qed.

(** The clean-up timer of a procedure outlives its last retransmission. *)
Definition cleanup_is_last (timer_id : Z) (s : pfcp_l4_stack) : Prop :=
  forall seq p, msg_out_retry_timers s !! timer_id = None ->
    proc_cleanup_timers s !! timer_id = Some seq -> pending_procedures s !! seq = Some p ->
    msg_out_retry_timers s !! retry_timer_id p = None.

Lemma timeout_inv s timer_id task :
  stack_inv s -> ts_headroom (timers_of s) -> 0 < task < TASK_MAX -> cleanup_is_last timer_id s ->
  exists h s', time_out_event timer_id task s = Val (h, s') /\ stack_inv s'.
Proof.
  intros Hi Hh Ht Hlast. unfold time_out_event.
  destruct (msg_out_retry_timers s !! timer_id) as [k|] eqn:Er.
  - destruct (si_retry _ Hi _ _ Er) as (p & Hp & Ep). destruct (si_disjoint _ Hi _ _ Er) as [Hd H0].
    destruct (si_msg _ Hi _ _ Hp ltac:(congruence)) as (m & d & Em & Ed & Eseq).
    pose proof (inv_drop_retry s timer_id Hi) as Hi1. simpl. rewrite Hp, Em, Ed.
    destruct (Z.ltb_spec (retry_count p) (n1 s)) as [Hlt|Hge].
    2:{ eexists _, _. split; [done|]. destruct Hi1. by split. }
    unfold start_msg_retry_timer. simpl. destruct (ts_setup _ _ _ _) as [id t] eqn:E.
    destruct (ts_setup_fresh _ _ _ _ _ _ Hh Ht E) as (Hid0 & Hni & Hiss).
    apply Z.eqb_neq in Hid0 as Hid0'. rewrite Hid0'.
    set (m' := (pfcp_msg_dump_to m).2). pose proof (get_sequence_number_dump m : get_sequence_number m' = _) as Hm'.
    rewrite Eseq in Hm'.
    eexists _, _. split; [done|].
    destruct (inv_fresh_timer s id Hi Hni) as [Hc Hr]. simpl.
    rewrite Eseq, map_insert_new_None by (rewrite lookup_delete_ne; [done|]; congruence).
    set (p' := mk_procedure (Some m') (Some d) id (proc_cleanup_timer_id p) (trxn_id p)
      (initial_msg_type p) (triggered_msg_type p) (u8 (retry_count p + 1))). set (s' := emit _ _).
    set (s0 := upd_retry (delete timer_id (msg_out_retry_timers s)) s) in *.
    set (s1 := upd_retry (delete timer_id (msg_out_retry_timers s)) s').
    assert (stack_inv s1) as Hi2.
    { eapply (inv_rewrite s0 s1 k p p' Hi1); try done.
      - intros t' H. simpl in H. apply lookup_delete_Some in H as [Hne H]. destruct (si_retry _ Hi _ _ H) as (q & Hq & Eq). congruence.
      - simpl. pose proof (si_count _ Hi _ _ Hp). pose proof (si_n1 _ Hi).
        rewrite wrapu_id by (unfold fits; lia). lia.
      - apply Hiss. by right.
      - by exists m', d.
      - intros i Hi'. apply Hiss. by left. }
    pose proof (inv_arm_retry s1 k p' Hi2 (lookup_insert_eq _ _ _) Hid0 Hc) as Hi3. exact Hi3.
  - destruct (proc_cleanup_timers s !! timer_id) as [k|] eqn:Ec; [|eexists _, _; by split].
    destruct (si_pending _ Hi _ _ Ec) as (p & Hp & Ep). rewrite Hp.
    eexists _, _. split; [done|]. pose proof (Hlast k p Er Ec Hp) as Hno.
    eapply (inv_forget s _ k p Hi Hp); simpl; try done; [by rewrite Ep|].
    intros t k' H. split; [done|]. intros ->. destruct (si_retry _ Hi _ _ H) as (q & Hq & Eq). congruence.
Qed.

(** ** Every run

    What happens to the stack: a datagram is delivered, the application sends
    a request or a response, a timer expires, or the timers and ids are used
    by the other tasks of the process. *)
Inductive pfcp_op :=
| OpReceive (msg : pfcp_msg) (task : Z)
| OpRequest (dest : endpoint) (seid : option Z) (m : pfcp_msg) (task tx : Z)
| OpResponse (free : bool) (dest : endpoint) (seid : option Z) (m : pfcp_msg) (tx : Z)
    (a : pfcp_transaction_action)
| OpTimeOut (timer_id task : Z)
| OpOthers (t : T) (g : G).

(** [None]: the id generator does not return. *)
Definition pfcp_exec (op : pfcp_op) (s : pfcp_l4_stack) : option (result Empty_set pfcp_l4_stack) :=
  match op with
  | OpReceive msg task =>
    r ← handle_receive_message_cb msg task s; Some ('(_, _, s) ← r; Val s)
  | OpRequest dest seid m task tx => Some (Val (send_request dest seid m task tx s).2)
  | OpResponse free dest seid m tx a => Some (Val (send_response free dest seid m tx a s))
  | OpTimeOut timer_id task => Some ('(_, s) ← time_out_event timer_id task s; Val s)
  | OpOthers t g => Some (Val (upd_uids g (upd_timers t s)))
  end.

(** What the code relies on without checking it. *)
Definition op_guard (op : pfcp_op) (s : pfcp_l4_stack) : Prop :=
  match op with
  | OpReceive _ task => task_ok task s
  | OpRequest _ _ _ task _ =>
    task_ok2 task s /\ pending_procedures s !! next_wire_seq s = None
  | OpResponse _ _ _ _ tx _ => answers_received tx s
  | OpTimeOut timer_id task => task_ok task s /\ cleanup_is_last timer_id s
  | OpOthers t _ => forall i, ts_issued (timers_of s) i -> ts_issued t i
  end.

Inductive pfcp_run : list pfcp_op -> pfcp_l4_stack -> result Empty_set pfcp_l4_stack -> Prop :=
| run_nil s : pfcp_run [] s (Val s)
| run_cons op ops s s' r :
    op_guard op s -> pfcp_exec op s = Some (Val s') -> pfcp_run ops s' r -> pfcp_run (op :: ops) s r
| run_ub op ops s :
    op_guard op s -> pfcp_exec op s = Some UB -> pfcp_run (op :: ops) s UB.

Lemma inv_others s t g :
  stack_inv s -> (forall i, ts_issued (timers_of s) i -> ts_issued t i) ->
  stack_inv (upd_uids g (upd_timers t s)).
Proof.
  intros Hi Hm. split; simpl; try apply Hi.
  - intros t' k H. apply (si_issued_c _ Hi) in H as [? ?]. auto.
  - intros k p H. destruct (si_issued_r _ Hi _ _ H); auto.
Qed.

Lemma exec_inv op s r :
  stack_inv s -> op_guard op s -> pfcp_exec op s = Some r -> exists s', r = Val s' /\ stack_inv s'.
Proof.
  intros Hi Hg. destruct op; simpl in *.
  - destruct Hg as [Ht Hh]. destruct (handle_receive_message_cb msg task s) as [r'|] eqn:E; [|done].
    destruct (recv_inv s msg task r' Hi Hh Ht E) as (e & tx & s' & -> & H). intros [= <-]. by exists s'.
  - destruct Hg as [Hok Hn]. intros [= <-]. eexists. split; [done|]. by apply send_inv.
  - intros [= <-]. eexists. split; [done|]. by apply respond_inv.
  - destruct Hg as ([Ht Hh] & Hl). destruct (timeout_inv s timer_id task Hi Hh Ht Hl) as (h & s' & -> & H).
    intros [= <-]. by exists s'.
  - intros [= <-]. eexists. split; [done|]. by apply inv_others.
Qed.

Lemma new_inv t1 n ns t g : 0 <= n < 256 -> stack_inv (pfcp_l4_stack_new t1 n ns t g).
Proof. intros. split; simpl; try done; intros *; by rewrite lookup_empty. Qed.

(** C20 Safety of the PFCP transaction layer for users that keep its unwritten
    rules ([op_guard]): whatever datagrams, requests, responses and time-outs
    follow one another, no null message and no end() iterator is dereferenced,
    and the four tables keep agreeing with each other ([stack_inv]).  The rules,
    none of which the code checks: the calling task is valid and timer ids are
    left; the sequence number of a new request is not pending, for one of the
    node's own requests or for a request of a peer; a response is sent only for
    the transaction of a received request; the clean-up timer of a request does
    not expire while its retry timer runs; other users of the timer service give
    no id back.  Without the second the layer is not safe: the end() iterator is
    dereferenced in [seq_collision_cleanup_ub]. *)
Theorem pfcp_stack_safe t1 n ns t g ops r :
  0 <= n < 256 -> pfcp_run ops (pfcp_l4_stack_new t1 n ns t g) r ->
  exists s, r = Val s /\ stack_inv s.
Proof.
  intros Hn Hrun. pose proof (new_inv t1 n ns t g Hn) as Hi. revert Hi.
  induction Hrun as [s|op ops s s' r Hg He _ IH|op ops s Hg He]; intros Hi; [eauto| |];
    destruct (exec_inv _ _ _ Hi Hg He) as (s1 & E & Hi'); [injection E as <-; auto|done].
Qed.

(** ** Reception *)

(** Which procedure state a message meets: the type the pending procedure
    waits an answer for. *)
Definition awaited (p : pfcp_procedure) : Z :=
  if triggered_msg_type p =? 0 then initial_msg_type p else triggered_msg_type p.

(** What becomes of a received message, on every branch.  A request with a
    sequence number that is not pending opens a transaction under a fresh id;
    the expected answer of a pending procedure closes it, leaving none of its
    timers registered, and gives its id back; anything else is reported as an
    error and changes nothing.  The sender plays no part: a request of one
    peer is refused when the sequence number is pending for another. *)
Theorem handle_receive_spec s msg task :
  stack_inv s -> task_ok task s -> fi_get (uids_of s) <> None ->
  exists e tx s', handle_receive_message_cb msg task s = Some (Val (e, tx, s')) /\
  let seq := get_sequence_number msg in
  match pending_procedures s !! seq with
  | None =>
    if check_request_type (get_message_type msg) then
      e = false /\ (tx ∉ fi_live (uids_of s)) /\ fi_live (uids_of s') = {[tx]} ∪ fi_live (uids_of s) /\
      (exists c, pending_procedures s' = <[seq := mk_procedure None None 0 c tx (get_message_type msg) 0 0]>
                   (pending_procedures s) /\
         proc_cleanup_timers s' = <[c := seq]> (proc_cleanup_timers s)) /\
      trxn_id2seq_num s' = map_insert_new tx seq (trxn_id2seq_num s)
    else e = true /\ s' = s
  | Some p =>
    if check_response_type (awaited p) (get_message_type msg) then
      e = false /\ tx = trxn_id p /\
      pending_procedures s' = delete seq (pending_procedures s) /\
      trxn_id2seq_num s' = delete tx (trxn_id2seq_num s) /\
      (forall t, proc_cleanup_timers s' !! t <> Some seq) /\
      (forall t, msg_out_retry_timers s' !! t <> Some seq) /\
      fi_live (uids_of s') = fi_live (uids_of s) ∖ {[tx]}
    else e = true /\ s' = s
  end.
Proof.
  intros Hi [Ht Hh] Hg. pose proof (recv_inv s msg task) as Hinv.
  unfold handle_receive_message_cb, awaited in *.
  destruct (pending_procedures s !! get_sequence_number msg) as [p|] eqn:Hp; cbv zeta.
  - destruct (check_response_type _ _); [|by eexists _, _, _].
    destruct (Hinv _ Hi Hh Ht eq_refl) as (e & tx & s' & E & Hi'). exists e, tx, s'.
    split; [by rewrite E|]. clear Hinv. revert E.
    unfold stop_msg_retry_timer, ITTI_INVALID_TIMER_ID.
    destruct (retry_timer_id p =? 0), (retry_msg p); simpl; intros [= <- <- <-]; simpl;
      (split_and!; [done|done|done|done| | |by rewrite fi_free_live]);
      intros t E; (apply (si_pending _ Hi') in E || apply (si_retry _ Hi') in E);
      destruct E as (q & Hq & _); simpl in Hq; by rewrite lookup_delete_eq in Hq.
  - destruct (check_request_type _); [|by eexists _, _, _].
    destruct (fi_get (uids_of s)) as [[tx g]|] eqn:Eg; [|done].
    destruct (fi_get_fresh _ _ _ Eg) as [Hfr Hlive].
    unfold start_proc_cleanup_timer. simpl. destruct (ts_setup _ _ _ _) as [id t] eqn:E.
    destruct (ts_setup_fresh _ _ _ _ _ _ Hh Ht E) as (_ & Hni & _).
    destruct (inv_fresh_timer s id Hi Hni) as [Hc _].
    eexists _, _, _. split; [done|]. simpl. split_and!; [done|done|done| |done].
    exists id. by rewrite !map_insert_new_None.
Qed.

(** ** Sending: sequence numbers *)

Fixpoint seq_nums (k : nat) (s : pfcp_l4_stack) : Z :=
  match k with
  | O => next_wire_seq s
  | S k => seq_nums k (get_next_seq_num s).2
  end.

Lemma land_bit31 z : 0 <= z < 2 ^ 31 -> Z.land z 2147483648 = 0.
Proof.
  intros Hz. apply Z.bits_inj'. intros i Hi. rewrite Z.land_spec, Z.bits_0.
  change 2147483648 with (2 ^ 31). rewrite Z.pow2_bits_eqb by lia.
  destruct (Z.eqb_spec 31 i) as [<-|]; [|by rewrite andb_false_r].
  rewrite <- (Z.mod_small z (2 ^ 31)) by lia. by rewrite Z.mod_pow2_bits_high by lia.
Qed.

Lemma get_next_seq_num_eq s :
  fits 31 (seq_num s) ->
  get_next_seq_num s = ((seq_num s + 1) mod 2 ^ 31, upd_seq ((seq_num s + 1) mod 2 ^ 31) s).
Proof.
  intros H. unfold fits in H. unfold get_next_seq_num. rewrite wrapu_id by (unfold fits; lia).
  destruct (decide (seq_num s + 1 = 2147483648)) as [->|Hne]; [done|].
  by rewrite Z.mod_small, land_bit31 by lia.
Qed.

Lemma seq_nums_eq k s :
  fits 31 (seq_num s) -> seq_nums k s = (seq_num s + 1 + Z.of_nat k) mod 2 ^ 24.
Proof.
  revert s. induction k as [|k IH]; intros s H; cbn [seq_nums]; unfold next_wire_seq;
    rewrite get_next_seq_num_eq by done; cbn [fst snd].
  - change 16777215 with (Z.ones 24). rewrite Z.land_ones by lia.
    rewrite Z.add_0_r. apply Z.mod_mod_divide. by exists (2 ^ 7).
  - rewrite IH by (apply Z.mod_pos_bound; lia). cbn [seq_num upd_seq].
    rewrite <- Z.add_assoc, Z.add_mod, Z.mod_mod_divide, <- Z.add_mod by (done || by exists (2 ^ 7)).
    f_equal. lia.
Qed.

(** C40 Sequence numbers: the counter runs over 31 bits while a message
    carries 24 of them; the [k]-th next request nevertheless carries the
    counter plus [k+1] modulo 2^24, so that 2^24 requests in a row carry
    pairwise different numbers. *)
Theorem seq_nums_distinct s (i j : nat) :
  fits 31 (seq_num s) -> (i < j)%nat -> Z.of_nat j < Z.of_nat i + 2 ^ 24 ->
  seq_nums i s <> seq_nums j s.
Proof.
  intros H Hij Hj. rewrite !seq_nums_eq by done. intros E.
  assert ((Z.of_nat j - Z.of_nat i) mod 2 ^ 24 = 0) as E'.
  { replace (Z.of_nat j - Z.of_nat i) with
      ((seq_num s + 1 + Z.of_nat j) - (seq_num s + 1 + Z.of_nat i)) by lia.
    rewrite Zminus_mod, E, Z.sub_diag. done. }
  rewrite Z.mod_small in E' by lia. lia.
Qed.

(** ** Retransmission *)

(** The retry timer of the procedure pending under [seq] expires [k] times. *)
Inductive fires (seq task : Z) : nat -> pfcp_l4_stack -> pfcp_l4_stack -> Prop :=
| fires_0 s : fires seq task 0 s s
| fires_S k s s1 p s2 :
    fires seq task k s s1 -> task_ok task s1 ->
    pending_procedures s1 !! seq = Some p ->
    time_out_event (retry_timer_id p) task s1 = Val (true, s2) ->
    fires seq task (S k) s s2.

(** The procedure pending under [seq] after [k] expiries. *)
Definition retransmitting (seq tx : Z) (k : nat) (m : pfcp_msg) (dest : endpoint) (s : pfcp_l4_stack) : Prop :=
  exists p, pending_procedures s !! seq = Some p /\ retry_msg p = Some m /\
    remote_endpoint p = Some dest /\ retry_count p = Z.of_nat k /\ trxn_id p = tx /\
    msg_out_retry_timers s !! retry_timer_id p = Some seq.

Lemma retransmit_once s seq tx k task m b dest :
  stack_inv s -> task_ok task s -> pfcp_msg_dump_to m = (b, m) -> get_sequence_number m = seq ->
  retransmitting seq tx k m dest s -> Z.of_nat k < n1 s ->
  exists p s', pending_procedures s !! seq = Some p /\
    time_out_event (retry_timer_id p) task s = Val (true, s') /\
    retransmitting seq tx (S k) m dest s' /\ n1 s' = n1 s /\
    outputs s' = outputs s ++ [SendRegistered dest b] /\ stack_inv s'.
Proof.
  intros Hi [Ht Hh] Hd Hseq (p & Hp & Hm & He & Hc & Htx & Ht') Hk. exists p.
  destruct (timeout_inv s (retry_timer_id p) task Hi Hh Ht) as (h & s' & E & Hi').
  { intros ? ? Hx. congruence. }
  revert E. unfold time_out_event. rewrite Ht'. cbn [pending_procedures upd_retry].
  rewrite Hp, Hm, He, Hc, Hd.
  assert ((Z.of_nat k <? n1 s) = true) as Hlt by lia.
  unfold start_msg_retry_timer. simpl. destruct (ts_setup _ _ _ _) as [id t] eqn:E.
  destruct (ts_setup_fresh _ _ _ _ _ _ Hh Ht E) as (Hid0 & Hni & _).
  apply Z.eqb_neq in Hid0 as Hid0'. rewrite Hid0'. simpl. rewrite Hlt. intros [= <- <-].
  destruct (inv_fresh_timer s id Hi Hni) as [_ Hr]. pose proof (si_n1 _ Hi).
  eexists. split_and!; [done|done| |done|done|done].
  eexists. split; [apply lookup_insert_eq|]. simpl. split_and!; [done|done| |done|].
  - rewrite wrapu_id by (unfold fits; lia). lia.
  - rewrite map_insert_new_None by (rewrite lookup_delete_ne; [done|congruence]).
    by rewrite Hseq, lookup_insert_eq.
Qed.

Lemma fires_spec s0 s seq tx k task m b dest :
  stack_inv s0 -> retransmitting seq tx 0 m dest s0 -> pfcp_msg_dump_to m = (b, m) ->
  get_sequence_number m = seq -> fires seq task k s0 s -> Z.of_nat k <= n1 s0 ->
  stack_inv s /\ retransmitting seq tx k m dest s /\ n1 s = n1 s0 /\
  outputs s = outputs s0 ++ replicate k (SendRegistered dest b).
Proof.
  intros Hi H0 Hd Hseq Hf. induction Hf as [s0|k s0 s1 p s2 Hf IH Hok Hp Hev]; intros Hk.
  - by rewrite app_nil_r.
  - destruct (IH Hi H0 ltac:(lia)) as (Hi1 & Hr1 & Hn & Ho).
    destruct (retransmit_once s1 seq tx k task m b dest Hi1 Hok Hd Hseq Hr1 ltac:(lia))
      as (p' & s' & Hp' & E & Hr2 & Hn2 & Ho2 & Hi2).
    assert (p' = p) as -> by congruence. assert (s' = s2) as -> by congruence.
    split_and!; [done|done|congruence|]. rewrite Ho2, Ho, <- app_assoc. f_equal.
    symmetry. apply replicate_S_end.
Qed.

(** The last expiry: the application is told, and no retry timer is left. *)
Lemma retransmit_give_up s seq tx k task m dest :
  stack_inv s -> task_ok task s -> get_sequence_number m = seq ->
  retransmitting seq tx k m dest s -> Z.of_nat k = n1 s ->
  exists p s', pending_procedures s !! seq = Some p /\
    time_out_event (retry_timer_id p) task s = Val (true, s') /\
    outputs s' = outputs s ++ [NotifyUlError dest (get_message_type m) seq tx] /\
    (forall t, msg_out_retry_timers s' !! t <> Some seq).
Proof.
  intros Hi [Ht Hh] Hseq (p & Hp & Hm & He & Hc & Htx & Ht') Hk. exists p.
  unfold time_out_event. rewrite Ht'. cbn [pending_procedures upd_retry].
  rewrite Hp, Hm, He, Hc, Htx, Hseq. cbn [n1 upd_retry]. rewrite Hk, Z.ltb_irrefl.
  eexists. split_and!; [done|done|done|]. intros t H. simpl in H.
  apply lookup_delete_Some in H as [Hne H]. destruct (si_retry _ Hi _ _ H) as (q & Hq & Eq). congruence.
Qed.

(** What [send_request] leaves behind. *)
Lemma send_request_spec s dest seid m task tx seq s0 :
  stack_inv s -> op_guard (OpRequest dest seid m task tx) s ->
  send_request dest seid m task tx s = (seq, s0) ->
  exists b m', pfcp_msg_dump_to m' = (b, m') /\ get_sequence_number m' = seq /\ seq = next_wire_seq s /\
    get_message_type m' = get_message_type m /\ n1 s0 = n1 s /\ retransmitting seq tx 0 m' dest s0 /\
    outputs s0 = outputs s ++ [SendAllocated dest b].
Proof.
  intros Hi [Hok Hfree]. destruct (send_request_eq s dest seid m task tx Hi Hok) as
    (r & c & t & b & m' & n & (Hr0 & Hc0 & Hrc) & (Hrn & Hcn & Hiss) & (Hd & Hs & Hty) & ->).
  intros [= <- <-]. exists b, m'. split_and!; try done.
  eexists. split; [simpl; rewrite map_insert_new_None by done; apply lookup_insert_eq|].
  simpl. by rewrite lookup_insert_eq.
Qed.

(** C30 Retransmission: after a request is sent, each expiry of its retry timer
    sends the same bytes to the same endpoint again, N1 times; the next
    expiry tells the application that the request failed and leaves no retry
    timer.  The timer event is handled at every stage. *)
Theorem retransmission_schedule s dest seid m task tx seq s0 :
  stack_inv s -> op_guard (OpRequest dest seid m task tx) s ->
  send_request dest seid m task tx s = (seq, s0) ->
  exists b, outputs s0 = outputs s ++ [SendAllocated dest b] /\
  forall k s1, fires seq task k s0 s1 -> Z.of_nat k <= n1 s ->
    outputs s1 = outputs s0 ++ replicate k (SendRegistered dest b) /\
    (task_ok task s1 -> exists p s2,
       pending_procedures s1 !! seq = Some p /\
       time_out_event (retry_timer_id p) task s1 = Val (true, s2) /\
       (Z.of_nat k = n1 s ->
          outputs s2 = outputs s1 ++ [NotifyUlError dest (get_message_type m) seq tx] /\
          (forall t, msg_out_retry_timers s2 !! t <> Some seq))).
Proof.
  intros Hi Hg E. destruct (send_request_spec _ _ _ _ _ _ _ _ Hi Hg E) as
    (b & m' & Hd & Hs & Hsn & Hty & Hn & Hr & Ho).
  assert (stack_inv s0) as Hi0 by (destruct Hg as [? ?];
    pose proof (send_inv s dest seid m task tx) as Hsi; rewrite E in Hsi; by apply Hsi).
  exists b. split; [done|]. intros k s1 Hf Hk.
  destruct (fires_spec s0 s1 seq tx k task m' b dest Hi0 Hr Hd Hs Hf ltac:(lia)) as (Hi1 & Hr1 & Hn1 & Ho1).
  split; [done|]. intros Hok. destruct (decide (Z.of_nat k = n1 s)) as [Hkn|Hkn].
  - destruct (retransmit_give_up s1 seq tx k task m' dest Hi1 Hok Hs Hr1 ltac:(lia)) as (p & s2 & ? & ? & ? & ?).
    exists p, s2. rewrite <- Hty. done.
  - destruct (retransmit_once s1 seq tx k task m' b dest Hi1 Hok Hd Hs Hr1 ltac:(lia)) as (p & s2 & ? & ? & _).
    by exists p, s2.
Qed.

(** ** Answering *)

Definition with_seid (seid : option Z) (m : pfcp_msg) : pfcp_msg :=
  match seid with Some sd => msg_set_seid sd m | None => m end.

Lemma union_difference_fresh (u : Z) (X : gset Z) : u ∉ X -> ({[u]} ∪ X) ∖ {[u]} = X.
Proof. set_solver. Qed.

(** A request is answered once, under its own sequence number: the response
    carries the number of the request, and afterwards the transaction tables
    are what they were before the request came.  Only the heartbeat overload
    ([free]) returns the transaction id; every other response leaks it. *)
Theorem request_answered s msg task tx e s1 free dest seid m :
  stack_inv s -> task_ok task s ->
  pending_procedures s !! get_sequence_number msg = None ->
  check_request_type (get_message_type msg) = true ->
  handle_receive_message_cb msg task s = Some (Val (e, tx, s1)) ->
  trxn_id2seq_num s !! tx = None ->
  let s2 := send_response free dest seid m tx DELETE_TX s1 in
  outputs s2 = outputs s ++
    [SendRegistered dest (pfcp_msg_dump_to (msg_set_sequence_number (get_sequence_number msg) (with_seid seid m))).1] /\
  pending_procedures s2 = pending_procedures s /\ trxn_id2seq_num s2 = trxn_id2seq_num s /\
  proc_cleanup_timers s2 = proc_cleanup_timers s /\ msg_out_retry_timers s2 = msg_out_retry_timers s /\
  fi_live (uids_of s2) = if free then fi_live (uids_of s) else {[tx]} ∪ fi_live (uids_of s).
Proof.
  set (mm := msg_set_sequence_number _ (with_seid seid m)).
  destruct (pfcp_msg_dump_to mm) as [b m'] eqn:Ed.
  intros Hi [Ht Hh] Hp Hty E Htx. revert E. unfold handle_receive_message_cb. rewrite Hp, Hty.
  destruct (fi_get (uids_of s)) as [[tx' g]|] eqn:Eg; [|done].
  destruct (fi_get_fresh _ _ _ Eg) as [Hfr Hlive].
  unfold start_proc_cleanup_timer. simpl. destruct (ts_setup _ _ _ _) as [id t] eqn:E.
  destruct (ts_setup_fresh _ _ _ _ _ _ Hh Ht E) as (_ & Hni & _).
  destruct (inv_fresh_timer s id Hi Hni) as [Hc Hr]. intros [= <- <- <-].
  unfold send_response. cbn [trxn_id2seq_num upd_trxn].
  rewrite (map_insert_new_None tx'), lookup_insert_eq by done.
  fold (with_seid seid m) mm. rewrite Ed.
  cbn [pending_procedures emit upd_trxn upd_pending].
  rewrite (map_insert_new_None (get_sequence_number msg)), lookup_insert_eq by done.
  destruct free; simpl;
    rewrite ?(map_insert_new_None id), ?fi_free_live, ?Hlive by done;
    rewrite !delete_insert_id, (delete_id (msg_out_retry_timers s)) by done;
    (split_and!; try done). by apply union_difference_fresh.
Qed.

(** The collision the transaction layer does not guard against: a request
    of this side whose sequence number is already pending (a peer chose the
    same number for a request of its own) is sent but not recorded; when that
    other procedure is answered, the clean-up timer of the new one is left
    and its expiry dereferences the end() iterator. *)
Theorem seq_collision_cleanup_ub s dest seid m task tx p s1 seq free dest' seid' m' tx' :
  stack_inv s -> task_ok2 task s ->
  pending_procedures s !! next_wire_seq s = Some p ->
  trxn_id2seq_num s !! tx' = Some (next_wire_seq s) ->
  send_request dest seid m task tx s = (seq, s1) ->
  exists c, time_out_event c task (send_response free dest' seid' m' tx' DELETE_TX s1) = UB.
Proof.
  intros Hi Hok Hp Htx. destruct (send_request_eq s dest seid m task tx Hi Hok) as
    (r & c & t & b & m0 & n & (Hr0 & Hc0 & Hrc) & (Hrn & Hcn & Hiss) & _ & ->).
  destruct (inv_fresh_timer s c Hi Hcn) as [Hcc Hcr].
  assert (proc_cleanup_timer_id p <> c) as Hpc by (intros E; apply (si_cleanup _ Hi) in Hp; congruence).
  assert (map_insert_new tx (next_wire_seq s) (trxn_id2seq_num s) !! tx' = Some (next_wire_seq s)) as Htx'.
  { unfold map_insert_new. case_match eqn:E; [done|]. rewrite lookup_insert_ne; [done|]. congruence. }
  rewrite (map_insert_new_Some (next_wire_seq s) _ p) by done.
  intros [= <- <-]. exists c. unfold send_response. cbn [trxn_id2seq_num]. rewrite Htx'.
  destruct (pfcp_msg_dump_to _) as [b' m2]. simpl. rewrite Hp.
  destruct free; unfold time_out_event; simpl;
    rewrite lookup_delete_ne, lookup_insert_ne, Hcr, lookup_delete_ne, lookup_insert_eq, lookup_delete_eq by done;
    done.
Qed.

End stack.

(** ** The theorems at work

    The stack over the ITTI timers and the 64-bit id generator, with T1 = 1 s
    and N1 = 2, its counter at 6. *)
#[local] Instance trxn_ids : FreshIds uint_generator := uint_generator_FreshIds 64 eq_refl.

Definition demo_clock : itti_clock := mk_itti_clock 0 5000000000 (itti_init 0).
Definition demo_stack : @pfcp_l4_stack uint_generator itti_clock Z :=
  pfcp_l4_stack_new 1000 2 6 demo_clock uint_generator_init.
Definition demo_request : pfcp_msg :=
  msg_set_sequence_number 7 (pfcp_msg_of PFCP_HEARTBEAT_REQUEST [mk_wire_ie 4 (be_bytes 2 96 ++ be_bytes 2 4 ++ [1; 2; 3; 4])]).
Definition demo_task : Z := 3.

Lemma demo_task_ok (s : @pfcp_l4_stack uint_generator itti_clock Z) :
  0 <= timer_id (ic_mw (timers_of s)) < 100 -> task_ok2 demo_task s.
Proof.
  intros H. split.
  - split; [done|]. simpl. lia.
  - intros sec us id t. simpl. unfold ic_setup, timer_setup. simpl.
    intros [= <- <-]. simpl. rewrite wrapu_id by (unfold fits; lia). lia.
Qed.

Definition demo_exec (op : pfcp_op) (s : @pfcp_l4_stack uint_generator itti_clock Z) :=
  match pfcp_exec op s with Some (Val s) => s | _ => s end.

(** A heartbeat request is received and never answered. *)
Definition demo_received := demo_exec (OpReceive demo_request demo_task) demo_stack.
Definition demo_expired := demo_exec (OpTimeOut 1 demo_task) demo_received.
(** A heartbeat request is sent. *)
Definition demo_op_request : @pfcp_op uint_generator itti_clock Z :=
  OpRequest 9 None (pfcp_msg_of PFCP_HEARTBEAT_REQUEST []) demo_task 77.
Definition demo_sent := demo_exec demo_op_request demo_stack.

Lemma demo_inv : stack_inv demo_stack.
Proof. by apply new_inv. Qed.

Lemma pfcp_stack_safe_witness :
  pfcp_run [OpReceive demo_request demo_task; OpTimeOut 1 demo_task] demo_stack (Val demo_expired) /\
  exists s, Val demo_expired = @Val Empty_set _ s /\ stack_inv s.
Proof.
  assert (pfcp_run [OpReceive demo_request demo_task; OpTimeOut 1 demo_task] demo_stack
    (Val demo_expired)) as H.
  { apply run_cons with demo_received; [by apply demo_task_ok|vm_compute; reflexivity|].
    apply run_cons with demo_expired; [split; [by apply demo_task_ok|]|vm_compute; reflexivity|apply run_nil].
    intros seq p _. vm_compute. intros [= <-] [= <-]. done. }
  split; [exact H|]. exact (pfcp_stack_safe 1000 2 6 demo_clock uint_generator_init _ _ ltac:(lia) H).
Defined.

Lemma handle_receive_spec_witness :
  exists e tx s', handle_receive_message_cb demo_request demo_task demo_stack = Some (Val (e, tx, s')) /\
    e = false /\ trxn_id2seq_num s' !! tx = Some 7.
Proof.
  destruct (handle_receive_spec demo_stack demo_request demo_task) as (e & tx & s' & E & H).
  - exact demo_inv.
  - by apply demo_task_ok.
  - by vm_compute.
  - exists e, tx, s'. split; [exact E|]. simpl in H.
    destruct H as (He & _ & _ & _ & Ht). split; [exact He|]. rewrite Ht.
    unfold map_insert_new. rewrite lookup_empty. apply lookup_insert_eq.
Defined.

Lemma seq_nums_distinct_witness : seq_nums 0 demo_stack <> seq_nums 5 demo_stack.
Proof. apply (seq_nums_distinct demo_stack 0 5); [done|lia|lia]. Defined.

Lemma retransmission_schedule_witness :
  exists b, outputs demo_sent = [SendAllocated 9 b] /\
  forall k s1, fires 7 demo_task k demo_sent s1 -> Z.of_nat k <= 2 ->
    outputs s1 = outputs demo_sent ++ replicate k (SendRegistered 9 b).
Proof.
  destruct (retransmission_schedule demo_stack 9 None (pfcp_msg_of PFCP_HEARTBEAT_REQUEST []) demo_task 77
    7 demo_sent) as (b & Ho & H).
  - exact demo_inv.
  - split; [by apply demo_task_ok|by vm_compute].
  - by vm_compute.
  - exists b. split; [exact Ho|]. intros k s1 Hf Hk. by apply (H k s1).
Defined.

Lemma request_answered_witness :
  let s2 := send_response true 9 None (pfcp_msg_of PFCP_HEARTBEAT_RESPONSE []) 1 DELETE_TX demo_received in
  pending_procedures s2 = ∅ /\ fi_live (uids_of s2) = ∅.
Proof.
  destruct (request_answered demo_stack demo_request demo_task 1 false demo_received true 9 None
    (pfcp_msg_of PFCP_HEARTBEAT_RESPONSE [])) as (_ & Hp & _ & _ & _ & Hl);
    [exact demo_inv|by apply demo_task_ok|done|done|by vm_compute|done|].
  intros s2. split; [exact Hp|exact Hl].
Defined.

Lemma seq_collision_cleanup_ub_witness :
  exists c, time_out_event c demo_task
    (send_response true 9 None (pfcp_msg_of PFCP_HEARTBEAT_RESPONSE []) 1 DELETE_TX
       (demo_exec demo_op_request demo_received)) = UB.
Proof.
  apply (seq_collision_cleanup_ub demo_received 9 None (pfcp_msg_of PFCP_HEARTBEAT_REQUEST []) demo_task 77
    (default pfcp_procedure_init (pending_procedures demo_received !! 7)) _ 7).
  - destruct (exec_inv (OpReceive demo_request demo_task) demo_stack (Val demo_received) demo_inv)
      as (s' & E & H); [by apply demo_task_ok|by vm_compute|].
    injection E as ->. exact H.
  - by apply demo_task_ok.
  - by vm_compute.
  - by vm_compute.
  - by vm_compute.
Defined.
