(* ===== verification/GtpTlv.v ===== *)
(** * GTPv2-C TLVs and the interface of the information elements

    [src/gtpv2c/3gpp_29.274.hpp]: [gtpv2c_tlv], the virtual interface of
    [gtpv2c_ie], the two address helpers and the label conversion of access
    point names; [src/common/3gpp_29.274.h]: the exceptions.

    A union of a byte and a bit-field struct is its byte: the constructors
    build it with [bf_pack], the conversions read it with [bf_field]. *)
From S2P Require Import Prelude Stream.
From Stdlib Require Import ZArith Lia.
From stdpp Require Import base numbers tactics list.
Open Scope Z_scope.

Inductive gtpc_exn :=
| gtpc_msg_bad_length_exception (msg_type msg_len : Z)
| gtpc_msg_illegal_ie_exception (ie_type : Z)
| gtpc_ie_unimplemented_exception (ie_type : Z)
| gtpc_tlv_bad_length_exception (ie_type ie_len : Z)
| gtpc_tlv_bad_instance_exception (ie_type ie_instance : Z)
| gtpc_missing_ie_exception
| gtpc_ie_value_exception (ie_type : Z)
| std_length_error.

(** ** The TLV header *)
Record gtpv2c_tlv := mk_tlv { t_type : Z; t_length : Z; t_u1 : Z }.

Definition gtpv2c_tlv_ie_length : Z := 4.
Definition tlv_init : gtpv2c_tlv := mk_tlv 0 0 0.
Definition tlv_set_length (l : Z) (t : gtpv2c_tlv) : gtpv2c_tlv := mk_tlv (t_type t) (u16 l) (t_u1 t).
Definition tlv_get_instance (t : gtpv2c_tlv) : Z := bf_field 0 4 (t_u1 t).
Definition tlv_set_instance (i : Z) (t : gtpv2c_tlv) : gtpv2c_tlv :=
  mk_tlv (t_type t) (t_length t) (bf_pack [(4, i); (4, bf_field 4 4 (t_u1 t))]).

(** [gtpv2c_ie(tlv_type)] followed by [tlv.length = l]. *)
Definition tlv_of (type l : Z) : gtpv2c_tlv := mk_tlv type (u16 l) 0.

Definition tlv_dump_to (t : gtpv2c_tlv) : list Z := [t_type t] ++ be_bytes 2 (t_length t) ++ [t_u1 t].

Definition tlv_load_from (t : gtpv2c_tlv) (ins : istream) : gtpv2c_tlv * istream :=
  let '(ty, ins) := read_u8 (t_type t) ins in
  let '(l, ins) := read_be 2 (t_length t) ins in
  let '(b, ins) := read_u8 (t_u1 t) ins in
  (mk_tlv ty l b, ins).

(** The TLV of a well-formed IE of type [ty]. *)
Definition tlv_ok (ty : Z) (t : gtpv2c_tlv) : Prop :=
  t_type t = ty /\ 0 < t_length t < 2 ^ 16.

Lemma tlv_roundtrip t t0 rest :
  fits 16 (t_length t) ->
  tlv_load_from t0 (istream_of (tlv_dump_to t ++ rest)) = (t, istream_of rest).
Proof.
  intros H. unfold tlv_load_from, tlv_dump_to. stream_norm.
  stream_step done. stream_step done. stream_step done. by destruct t.
Qed.

Lemma length_tlv_dump t : length (tlv_dump_to t) = 4%nat.
Proof. unfold tlv_dump_to. simpl. done. Qed.

(** ** Addresses

    An [in_addr] holds its four bytes in network order: as an integer of this
    host it is read and written raw.  An [in6_addr] is sixteen bytes. *)
Definition in6addr_any : list Z := replicate 16 0.
Definition ipv4_address_dump_to (a : Z) : list Z := le_bytes 4 a.
Definition ipv4_address_load_from (a : Z) (ins : istream) : Z * istream := read_raw 4 a ins.
Definition ipv6_address_dump_to (a : list Z) : list Z := a.
Definition ipv6_address_load_from (a : list Z) (ins : istream) : list Z * istream := read a ins.

(** ** The interface of an information element *)
Class GtpIe (A : Type) := {
  ie_tlv : A -> gtpv2c_tlv;
  ie_dump_to : A -> result gtpc_exn (list Z * A);     (* dump_to may change the object *)
  ie_of_tlv : gtpv2c_tlv -> A;                        (* the constructor from a TLV *)
  ie_load_from : A -> istream -> result gtpc_exn (A * istream);
}.

(** What a sound element owes the messages: the TLV announces the number of
    octets that follow it, and reading these octets after the TLV gives the
    element back. *)
Class GtpCodec (A : Type) `{GtpIe A} (wf : A -> Prop) := {
  codec_tlv : forall a, wf a -> 0 < t_length (ie_tlv a) < 2 ^ 16;
  codec : forall a rest, wf a -> exists body a',
    ie_dump_to a = Val (tlv_dump_to (ie_tlv a) ++ body, a') /\
    Z.of_nat (length body) = t_length (ie_tlv a) /\
    ie_load_from (ie_of_tlv (ie_tlv a)) (istream_of (body ++ rest)) = Val (a, istream_of rest);
}.

(** ** Access point names: text and labels

    A [std::string] is the list of its characters (0 to 255); indexing at
    [size()] reads the terminator. *)
Definition dot : Z := 46.

(** [string_to_dotted]; [value] is the array, uninitialised at first.
    [None]: the loop has not ended ([offset] is a [uint8_t]). *)
Fixpoint string_to_dotted_loop (fuel : nat) (str : list Z) (offset last_size word_length : Z)
    (value : list Z) : option (list Z) :=
  match fuel with
  | O => None
  | S fuel =>
    let c := nth (Z.to_nat offset) str 0 in
    if c =? 0 then Some (<[Z.to_nat last_size := word_length]> value)
    else if c =? dot then
      string_to_dotted_loop fuel str (u8 (offset + 1)) (offset + 1) 0
        (<[Z.to_nat last_size := word_length]> value)
    else
      string_to_dotted_loop fuel str (u8 (offset + 1)) last_size (u8 (word_length + 1))
        (<[Z.to_nat (offset + 1) := c]> value)
  end.

(** 257 rounds: [offset] takes 256 values, a longer run has wrapped. *)
Definition string_to_dotted (junk : list Z) (str : list Z) : option (list Z) :=
  string_to_dotted_loop 257 str 0 0 0 (take (S (length str)) (junk ++ replicate (S (length str)) 0)).

(** [char] is signed. *)
Definition schar (c : Z) : Z := if c <? 128 then c else c - 256.

(** [dotted_to_string]: the result flag and the text; [None]: not ended. *)
Fixpoint dotted_to_string_loop (fuel : nat) (dt : list Z) (offset : Z) (ok : bool) (no_dot : list Z)
  : option (result gtpc_exn (bool * list Z)) :=
  match fuel with
  | O => None
  | S fuel =>
    if offset <? Z.of_nat (length dt) then
      let b := nth (Z.to_nat offset) dt 0 in
      let c := schar b in
      if c <? 64 then
        let next := u16 (offset + 1 + c) in
        if u64 (offset + c) <=? Z.of_nat (length dt) then
          let no_dot := if offset =? 0 then no_dot else no_dot ++ [dot] in
          if c <? 0 then Some (Throw std_length_error)
          else dotted_to_string_loop fuel dt next ok
                 (no_dot ++ take (Z.to_nat c) (drop (Z.to_nat (offset + 1)) (dt ++ [0])))
        else dotted_to_string_loop fuel dt next ok no_dot
      else dotted_to_string_loop fuel dt (u16 (offset + 1)) false (no_dot ++ [b])
    else Some (Val (ok, no_dot))
  end.

(** The control depends on the [uint16_t] offset only: a run of more than 2^16
    rounds never ends. *)
Definition dotted_rounds : nat := Z.to_nat (2 ^ 16 + 1).
Definition dotted_to_string (dt : list Z) : option (result gtpc_exn (bool * list Z)) :=
  dotted_to_string_loop dotted_rounds dt 0 true [].

(** The labels of a name: [w] is the label being read. *)
Fixpoint labels_from (w s : list Z) : list (list Z) :=
  match s with
  | [] => [w]
  | c :: s => if c =? dot then w :: labels_from [] s else labels_from (w ++ [c]) s
  end.
Definition labels : list Z -> list (list Z) := labels_from [].

(** RFC 1035 style encoding: every label preceded by its length. *)
Definition encode_labels (ls : list (list Z)) : list Z :=
  concat ((fun l => Z.of_nat (length l) :: l) <$> ls).

Lemma length_encode_labels_from w s :
  length (encode_labels (labels_from w s)) = S (length w + length s).
Proof.
  revert w. induction s as [|c s IH]; intros w; simpl.
  - unfold encode_labels. simpl. rewrite app_nil_r. lia.
  - destruct (c =? dot).
    + unfold encode_labels in *. simpl. rewrite length_app, IH. simpl. lia.
    + rewrite IH, length_app. simpl. lia.
Qed.

Lemma insert_middle {A} (l : list A) x y k i : i = length l -> <[i := y]> (l ++ x :: k) = l ++ y :: k.
Proof. intros ->. rewrite <- (Nat.add_0_r (length l)), insert_app_r. done. Qed.

Lemma nth_middle_app (l : list Z) c k i : i = length l -> nth i (l ++ c :: k) 0 = c.
Proof. intros ->. rewrite app_nth2 by lia. by rewrite Nat.sub_diag. Qed.

(** The loop, with the label [w] read and its length octet [x] still to be
    written. *)
Lemma string_to_dotted_loop_spec s : forall fuel pre dn x w tail,
  Forall (fun c => c <> 0) s -> (length s < fuel)%nat -> Z.of_nat (length pre + length s) < 256 ->
  length pre = (length dn + length w)%nat -> length tail = length s ->
  string_to_dotted_loop fuel (pre ++ s) (Z.of_nat (length pre)) (Z.of_nat (length dn))
    (Z.of_nat (length w)) (dn ++ x :: w ++ tail) = Some (dn ++ encode_labels (labels_from w s)).
Proof.
  induction s as [|c s IH]; intros fuel pre dn x w tail Hnz Hf Hl Hpre Ht;
    destruct fuel as [|fuel]; simpl in Hf; try lia; cbn [string_to_dotted_loop]; rewrite !Nat2Z.id.
  - rewrite app_nth2, Nat.sub_diag by (rewrite ?app_nil_r; lia). simpl.
    apply nil_length_inv in Ht as ->. rewrite insert_middle by done. unfold encode_labels. simpl.
    done.
  - inversion_clear Hnz as [|? ? Hc Hnz']. destruct tail as [|t tail]; [done|]. injection Ht as Ht.
    rewrite (nth_middle_app pre c s) by done. apply Z.eqb_neq in Hc as ->.
    simpl in Hl. rewrite wrapu_id by (unfold fits; lia).
    replace (Z.of_nat (length pre) + 1) with (Z.of_nat (length (pre ++ [c]))) by (rewrite length_app; simpl; lia).
    replace (pre ++ c :: s) with ((pre ++ [c]) ++ s) by (by rewrite <- app_assoc).
    cbn [labels_from]. destruct (c =? dot).
    + rewrite insert_middle by done.
      replace (dn ++ Z.of_nat (length w) :: w ++ t :: tail)
        with ((dn ++ Z.of_nat (length w) :: w) ++ t :: [] ++ tail) by (simpl; by rewrite <- app_assoc).
      replace (Z.of_nat (length (pre ++ [c]))) with (Z.of_nat (length (dn ++ Z.of_nat (length w) :: w))) at 2
        by (rewrite !length_app; simpl; lia).
      etrans; [apply (IH fuel (pre ++ [c]) (dn ++ Z.of_nat (length w) :: w) t [] tail)|];
        [done|lia|rewrite length_app; simpl; lia|rewrite !length_app; simpl; lia|done|].
      unfold encode_labels. simpl. by rewrite <- app_assoc.
    + rewrite Nat2Z.id.
      replace (dn ++ x :: w ++ t :: tail) with ((dn ++ x :: w) ++ t :: tail) by (by rewrite <- app_assoc).
      rewrite insert_middle by (rewrite !length_app; simpl; lia).
      replace ((dn ++ x :: w) ++ c :: tail) with (dn ++ x :: (w ++ [c]) ++ tail)
        by (by rewrite <- !app_assoc).
      rewrite wrapu_id by (unfold fits; lia).
      replace (Z.of_nat (length w) + 1) with (Z.of_nat (length (w ++ [c]))) by (rewrite length_app; simpl; lia).
      apply IH; [done|lia|rewrite length_app; simpl; lia|rewrite !length_app; simpl; lia|done].
Qed.

Lemma string_to_dotted_spec junk s :
  Forall (fun c => c <> 0) s -> Z.of_nat (length s) < 256 ->
  string_to_dotted junk s = Some (encode_labels (labels s)).
Proof.
  intros Hnz Hl. unfold string_to_dotted.
  assert (exists x tail, take (S (length s)) (junk ++ replicate (S (length s)) 0) = x :: tail /\
    length tail = length s) as (x & tail & -> & Ht).
  { destruct (take _ _) as [|x tail] eqn:E.
    - apply (f_equal length) in E. rewrite length_take, length_app, length_replicate in E. cbn [length] in E. lia.
    - exists x, tail. split; [done|]. apply (f_equal length) in E.
      rewrite length_take, length_app, length_replicate in E. cbn [length] in E. lia. }
  apply (string_to_dotted_loop_spec s 257 [] [] x [] tail); try done. simpl. lia.
Qed.

(** ** Reading the labels back *)
Definition short_label (l : list Z) : Prop := (length l < 64)%nat.

Definition join_labels (ls : list (list Z)) : list Z :=
  match ls with
  | [] => []
  | l :: ls => l ++ concat ((fun l => dot :: l) <$> ls)
  end.

Lemma labels_from_nonempty w s : labels_from w s <> [].
Proof. revert w. induction s as [|c s IH]; intros w; simpl; [done|]. by destruct (c =? dot). Qed.

Lemma join_labels_from w s : join_labels (labels_from w s) = w ++ s.
Proof.
  revert w. induction s as [|c s IH]; intros w; simpl; [done|].
  destruct (Z.eqb_spec c dot) as [->|Hc].
  - simpl. f_equal. specialize (IH []). simpl in IH.
    destruct (labels_from [] s) as [|l ls] eqn:E; [by apply labels_from_nonempty in E|].
    rewrite fmap_cons. cbn [concat app join_labels] in *. by rewrite IH.
  - rewrite IH, <- app_assoc. done.
Qed.

(** One label at [offset]: the text grows by the label, after a dot except at
    the start. *)
Lemma dotted_step fuel pre l post ok acc :
  short_label l -> Z.of_nat (length (pre ++ [Z.of_nat (length l)] ++ l ++ post)) < 2 ^ 16 ->
  dotted_to_string_loop (S fuel) (pre ++ [Z.of_nat (length l)] ++ l ++ post) (Z.of_nat (length pre)) ok acc =
  dotted_to_string_loop fuel (pre ++ [Z.of_nat (length l)] ++ l ++ post)
    (Z.of_nat (length (pre ++ [Z.of_nat (length l)] ++ l))) ok
    (acc ++ (if (length pre =? 0)%nat then [] else [dot]) ++ l).
Proof.
  intros Hs Hlen. unfold short_label in Hs. rewrite !length_app in Hlen. cbn [length] in Hlen.
  cbn [dotted_to_string_loop].
  replace (Z.of_nat (length pre) <? _) with true
    by (symmetry; apply Z.ltb_lt; rewrite !length_app; cbn [length]; lia).
  rewrite Nat2Z.id, (nth_middle_app pre (Z.of_nat (length l)) (l ++ post)) by done.
  unfold schar. replace (Z.of_nat (length l) <? 128) with true by (symmetry; lia).
  replace (Z.of_nat (length l) <? 64) with true by (symmetry; lia).
  rewrite !wrapu_id by (unfold fits; lia).
  replace (_ <=? _) with true by (symmetry; apply Z.leb_le; rewrite !length_app; cbn [length]; lia).
  replace (Z.of_nat (length l) <? 0) with false by (symmetry; lia).
  rewrite Nat2Z.id. replace (Z.to_nat (Z.of_nat (length pre) + 1)) with (length (pre ++ [Z.of_nat (length l)]))
    by (rewrite length_app; simpl; lia).
  replace (((pre ++ [Z.of_nat (length l)] ++ l ++ post) ++ [0]))
    with ((pre ++ [Z.of_nat (length l)]) ++ l ++ post ++ [0]) by (by rewrite <- !app_assoc).
  rewrite drop_app_length, take_app_length. f_equal.
  - rewrite !length_app. simpl. lia.
  - destruct (length pre) eqn:E; simpl; [done|]. by rewrite <- app_assoc.
Qed.

Lemma dotted_loop_spec ls : forall fuel pre acc,
  Forall short_label ls -> (length ls < fuel)%nat ->
  Z.of_nat (length (pre ++ encode_labels ls)) < 2 ^ 16 ->
  dotted_to_string_loop fuel (pre ++ encode_labels ls) (Z.of_nat (length pre)) true acc =
  Some (Val (true, acc ++ (if (length pre =? 0)%nat then join_labels ls else concat ((fun l => dot :: l) <$> ls)))).
Proof.
  induction ls as [|l ls IH]; intros fuel pre acc Hs Hf Hl; destruct fuel as [|fuel]; simpl in Hf; try lia.
  - unfold encode_labels. simpl. rewrite app_nil_r.
    replace (_ <? _) with false by (symmetry; apply Z.ltb_irrefl).
    destruct (length pre =? 0)%nat; by rewrite app_nil_r.
  - inversion_clear Hs as [|? ? Hsl Hs'].
    change (encode_labels (l :: ls)) with ([Z.of_nat (length l)] ++ l ++ encode_labels ls) in *.
    rewrite dotted_step by done.
    replace (pre ++ [Z.of_nat (length l)] ++ l ++ encode_labels ls)
      with ((pre ++ [Z.of_nat (length l)] ++ l) ++ encode_labels ls) in * by (by rewrite <- !app_assoc).
    rewrite IH by (done || lia).
    replace (length (pre ++ [Z.of_nat (length l)] ++ l) =? 0)%nat with false
      by (symmetry; rewrite !length_app; simpl; apply Nat.eqb_neq; lia).
    do 3 f_equal. rewrite <- !app_assoc. f_equal. destruct (length pre =? 0)%nat; simpl; done.
Qed.

Lemma length_labels ls : (length ls <= length (encode_labels ls))%nat.
Proof.
  induction ls as [|l ls IH]; [done|].
  change (encode_labels (l :: ls)) with ((Z.of_nat (length l) :: l) ++ encode_labels ls).
  rewrite length_app. cbn [length]. lia.
Qed.

(** The loop of [dotted_to_string] leaves with a value or [std::length_error]. *)
Lemma dotted_to_string_returns dt r : dotted_to_string dt = Some r -> r <> Diverge.
Proof.
  unfold dotted_to_string. generalize 0, true, (@nil Z).
  induction dotted_rounds as [|n IH]; intros o ok acc; cbn [dotted_to_string_loop]; [done|].
  repeat case_match; try (by apply IH); by intros [= <-].
Qed.

Lemma dotted_rounds_enough (n : nat) : Z.of_nat n < 2 ^ 16 -> (n < dotted_rounds)%nat.
Proof. unfold dotted_rounds. lia. Qed.

Lemma dotted_to_string_spec s :
  Forall short_label (labels s) -> Z.of_nat (length s) < 2 ^ 15 ->
  dotted_to_string (encode_labels (labels s)) = Some (Val (true, s)).
Proof.
  intros Hs Hl. pose proof (length_encode_labels_from [] s) as Hle. fold (labels s) in Hle.
  pose proof (length_labels (labels s)) as Hll. cbn [length Nat.add] in Hle.
  unfold dotted_to_string. etrans; [apply (dotted_loop_spec (labels s) dotted_rounds [] []); [done| |]|].
  - apply dotted_rounds_enough. lia.
  - cbn [app]. lia.
  - simpl. do 3 f_equal. apply join_labels_from.
Qed.

(** Access point names survive their conversion to labels and back: for a
    name without NUL of less than 256 characters whose labels have less than
    64, the label form is one octet longer than the name, does not depend on
    what the working array held, and reads back as the name. *)
Theorem apn_labels_roundtrip junk s :
  Forall (fun c => c <> 0) s -> Z.of_nat (length s) < 256 -> Forall short_label (labels s) ->
  exists dt, string_to_dotted junk s = Some dt /\ length dt = S (length s) /\
    dotted_to_string dt = Some (Val (true, s)).
Proof.
  intros Hnz Hl Hs. exists (encode_labels (labels s)).
  split; [by apply string_to_dotted_spec|]. split; [apply length_encode_labels_from|].
  apply dotted_to_string_spec; [done|lia].
Qed.

Lemma apn_labels_roundtrip_witness :
  let s := [111; 97; 105; 46; 105; 112; 118; 52] in     (* oai.ipv4 *)
  exists dt, string_to_dotted [7; 7; 7] s = Some dt /\ length dt = S (length s) /\
    dotted_to_string dt = Some (Val (true, s)).
Proof.
  apply apn_labels_roundtrip; [repeat constructor; done|done|].
  vm_compute. repeat constructor; lia.
Defined.

(** A received access point name whose first octet is 255 is read as a
    label of length -1: the reading loop steps over it by zero octets and
    never ends, whatever follows. *)
Theorem dotted_to_string_diverges (fuel : nat) (rest : list Z) :
  Z.of_nat (length rest) < 2 ^ 16 ->
  dotted_to_string_loop fuel (255 :: rest) 0 true [] = None.
Proof.
  intros Hl. induction fuel as [|fuel IH]; [done|]. cbn [dotted_to_string_loop length].
  replace (0 <? Z.of_nat (S (length rest))) with true by (symmetry; apply Z.ltb_lt; lia).
  change (Z.to_nat 0) with 0%nat. cbn [nth]. change (schar 255) with (-1). change (-1 <? 64) with true. cbv iota zeta.
  change (u64 (0 + -1)) with (2 ^ 64 - 1). change (u16 (0 + 1 + -1)) with 0.
  replace (2 ^ 64 - 1 <=? Z.of_nat (S (length rest))) with false by (symmetry; apply Z.leb_gt; lia).
  exact IH.
Qed.

Lemma dotted_to_string_diverges_witness : dotted_to_string_loop 1000 [255; 3; 97; 98; 99] 0 true [] = None.
Proof. apply (dotted_to_string_diverges 1000 [3; 97; 98; 99]). simpl. lia. Defined.
