(* ===== verification/GtpScalar.v ===== *)
(** * GTPv2-C elements of one or two octets, and the bit rates

    [src/gtpv2c/3gpp_29.274.hpp] and the core types of
    [src/common/3gpp_29.274.h].  For every class [gtpv2c_X_ie]: [X_of_core] is
    the constructor from the core type, [X_of_tlv] the one from a TLV,
    [X_dump_to], [X_load_from] and [X_to_core] its methods. *)
From S2P Require Import Prelude Stream GtpTlv.
From Stdlib Require Import ZArith Lia.
From stdpp Require Import base numbers tactics list.
Open Scope Z_scope.

Definition GTP_IE_CAUSE : Z := 2.
Definition GTP_IE_RECOVERY_RESTART_COUNTER : Z := 3.
Definition GTP_IE_AGGREGATE_MAXIMUM_BIT_RATE : Z := 72.
Definition GTP_IE_EPS_BEARER_ID : Z := 73.
Definition GTP_IE_RAT_TYPE : Z := 82.
Definition GTP_IE_EPS_BEARER_LEVEL_TRAFFIC_FLOW_TEMPLATE : Z := 84.
Definition GTP_IE_DELAY_VALUE : Z := 92.
Definition GTP_IE_CHARGING_ID : Z := 94.
Definition GTP_IE_BEARER_FLAGS : Z := 97.
Definition GTP_IE_PDN_TYPE : Z := 99.
Definition GTP_IE_UE_TIME_ZONE : Z := 114.
Definition GTP_IE_APN_RESTRICTION : Z := 127.
Definition GTP_IE_SELECTION_MODE : Z := 128.
Definition GTP_IE_NODE_TYPE : Z := 135.
Definition GTP_IE_NODE_FEATURES : Z := 152.
Definition GTP_IE_CIOT_OPTIMIZATIONS_SUPPORT_INDICATION : Z := 194.

Definition MANDATORY_IE_INCORRECT : Z := 69.

(** Closes a codec: the octets are read one after the other. *)
Ltac codec_tac :=
  repeat (stream_norm; stream_step ltac:(done || (unfold fits in *; simpl; lia))); try done.

Lemma tlv_ok_of ty l : 0 < l < 2 ^ 16 -> tlv_ok ty (tlv_of ty l).
Proof. intros H. split; [done|]. simpl. rewrite wrapu_id by (unfold fits; lia). lia. Qed.

(** ** Recovery *)
Record recovery_t := mk_recovery_t { restart_counter : Z }.
Record gtpv2c_recovery_ie := mk_recovery_ie { recovery_tlv : gtpv2c_tlv; recovery_restart_counter : Z }.

Definition recovery_of_core (i : recovery_t) : gtpv2c_recovery_ie :=
  mk_recovery_ie (tlv_of GTP_IE_RECOVERY_RESTART_COUNTER 1) (restart_counter i).
Definition recovery_of_tlv (t : gtpv2c_tlv) : gtpv2c_recovery_ie := mk_recovery_ie t 0.
Definition recovery_to_core (i : gtpv2c_recovery_ie) : recovery_t :=
  mk_recovery_t (recovery_restart_counter i).
Definition recovery_dump_to (i : gtpv2c_recovery_ie) : list Z := tlv_dump_to (recovery_tlv i) ++ [recovery_restart_counter i].
Definition recovery_load_from (i : gtpv2c_recovery_ie) (ins : istream) : result gtpc_exn (gtpv2c_recovery_ie * istream) :=
  let '(b, ins) := read_u8 (recovery_restart_counter i) ins in Val (mk_recovery_ie (recovery_tlv i) b, ins).

#[export] Instance recovery_ie : GtpIe gtpv2c_recovery_ie := {|
  ie_tlv := recovery_tlv; ie_dump_to i := Val (recovery_dump_to i, i); ie_of_tlv := recovery_of_tlv; ie_load_from := recovery_load_from;
|}.

Definition recovery_wf (i : gtpv2c_recovery_ie) : Prop := tlv_ok GTP_IE_RECOVERY_RESTART_COUNTER (recovery_tlv i) /\ t_length (recovery_tlv i) = 1 /\ fits 8 (recovery_restart_counter i).

#[export] Instance recovery_codec : GtpCodec gtpv2c_recovery_ie recovery_wf.
Proof.
  split; [intros i [[_ H] _]; exact H|]. intros [t b] rest (Ht & Hl & Hb). exists [b]. eexists.
  split; [done|]. split; [by simpl in *; rewrite Hl|]. cbn [ie_load_from ie_of_tlv ie_tlv recovery_ie recovery_tlv] in *. unfold recovery_load_from.
  by stream_norm; stream_step done.
Qed.

Lemma recovery_core i : fits 8 (restart_counter i) -> recovery_wf (recovery_of_core i) /\ recovery_to_core (recovery_of_core i) = i.
Proof. intros H0. split; [|by destruct i]. split; [by apply tlv_ok_of|done]. Qed.

(** ** EPS Bearer ID *)
Record ebi_t := mk_ebi_t { ebi : Z }.
Record gtpv2c_eps_bearer_id_ie := mk_eps_bearer_id_ie { eps_bearer_id_tlv : gtpv2c_tlv; eps_bearer_id_b : Z }.

Definition eps_bearer_id_of_core (e : ebi_t) : gtpv2c_eps_bearer_id_ie :=
  mk_eps_bearer_id_ie (tlv_of GTP_IE_EPS_BEARER_ID 1) (bf_pack [(4, (ebi e)); (4, 0)]).
Definition eps_bearer_id_of_tlv (t : gtpv2c_tlv) : gtpv2c_eps_bearer_id_ie := mk_eps_bearer_id_ie t 0.
Definition eps_bearer_id_to_core (i : gtpv2c_eps_bearer_id_ie) : ebi_t :=
  mk_ebi_t (bf_field 0 4 (eps_bearer_id_b i)).
Definition eps_bearer_id_dump_to (i : gtpv2c_eps_bearer_id_ie) : list Z := tlv_dump_to (eps_bearer_id_tlv i) ++ [eps_bearer_id_b i].
Definition eps_bearer_id_load_from (i : gtpv2c_eps_bearer_id_ie) (ins : istream) : result gtpc_exn (gtpv2c_eps_bearer_id_ie * istream) :=
  let '(b, ins) := read_u8 (eps_bearer_id_b i) ins in Val (mk_eps_bearer_id_ie (eps_bearer_id_tlv i) b, ins).

#[export] Instance eps_bearer_id_ie : GtpIe gtpv2c_eps_bearer_id_ie := {|
  ie_tlv := eps_bearer_id_tlv; ie_dump_to i := Val (eps_bearer_id_dump_to i, i); ie_of_tlv := eps_bearer_id_of_tlv; ie_load_from := eps_bearer_id_load_from;
|}.

Definition eps_bearer_id_wf (i : gtpv2c_eps_bearer_id_ie) : Prop := tlv_ok GTP_IE_EPS_BEARER_ID (eps_bearer_id_tlv i) /\ t_length (eps_bearer_id_tlv i) = 1 /\ fits 8 (eps_bearer_id_b i).

#[export] Instance eps_bearer_id_codec : GtpCodec gtpv2c_eps_bearer_id_ie eps_bearer_id_wf.
Proof.
  split; [intros i [[_ H] _]; exact H|]. intros [t b] rest (Ht & Hl & Hb). exists [b]. eexists.
  split; [done|]. split; [by simpl in *; rewrite Hl|]. cbn [ie_load_from ie_of_tlv ie_tlv eps_bearer_id_ie eps_bearer_id_tlv] in *. unfold eps_bearer_id_load_from.
  by stream_norm; stream_step done.
Qed.

Lemma eps_bearer_id_core e : fits 4 (ebi e) -> eps_bearer_id_wf (eps_bearer_id_of_core e) /\ eps_bearer_id_to_core (eps_bearer_id_of_core e) = e.
Proof. 
  intros H0. split.
  - split; [by apply tlv_ok_of|]. split; [done|]. apply bf_pack_fits. repeat constructor; simpl; lia.
  - unfold eps_bearer_id_to_core, eps_bearer_id_of_core. destruct e. cbn [eps_bearer_id_b ebi] in *. f_equal; bf_simpl; done.
 Qed.

(** ** Bearer Flags

    The constructor from the core type announces a Charging ID *)
Record bearer_flags_t := mk_bearer_flags_t { bfl_spare1 : Z; asi : Z; vind : Z; vb : Z; ppc : Z }.
Record gtpv2c_bearer_flags_ie := mk_bearer_flags_ie { bearer_flags_tlv : gtpv2c_tlv; bearer_flags_b : Z }.

Definition bearer_flags_of_core (b : bearer_flags_t) : gtpv2c_bearer_flags_ie :=
  mk_bearer_flags_ie (tlv_of GTP_IE_CHARGING_ID 1) (bf_pack [(1, (ppc b)); (1, (vb b)); (1, (vind b)); (1, (asi b)); (4, 0)]).
Definition bearer_flags_of_tlv (t : gtpv2c_tlv) : gtpv2c_bearer_flags_ie := mk_bearer_flags_ie t 0.
Definition bearer_flags_to_core (i : gtpv2c_bearer_flags_ie) : bearer_flags_t :=
  mk_bearer_flags_t (bf_field 4 4 (bearer_flags_b i)) (bf_field 3 1 (bearer_flags_b i)) (bf_field 2 1 (bearer_flags_b i)) (bf_field 1 1 (bearer_flags_b i)) (bf_field 0 1 (bearer_flags_b i)).
Definition bearer_flags_dump_to (i : gtpv2c_bearer_flags_ie) : list Z := tlv_dump_to (bearer_flags_tlv i) ++ [bearer_flags_b i].
Definition bearer_flags_load_from (i : gtpv2c_bearer_flags_ie) (ins : istream) : result gtpc_exn (gtpv2c_bearer_flags_ie * istream) :=
  if t_length (bearer_flags_tlv i) =? 1 then
    let '(b, ins) := read_u8 (bearer_flags_b i) ins in Val (mk_bearer_flags_ie (bearer_flags_tlv i) b, ins)
  else Throw (gtpc_tlv_bad_length_exception (t_type (bearer_flags_tlv i)) (t_length (bearer_flags_tlv i))).

#[export] Instance bearer_flags_ie : GtpIe gtpv2c_bearer_flags_ie := {|
  ie_tlv := bearer_flags_tlv; ie_dump_to i := Val (bearer_flags_dump_to i, i); ie_of_tlv := bearer_flags_of_tlv; ie_load_from := bearer_flags_load_from;
|}.

Definition bearer_flags_wf (i : gtpv2c_bearer_flags_ie) : Prop :=
  tlv_ok GTP_IE_BEARER_FLAGS (bearer_flags_tlv i) /\ t_length (bearer_flags_tlv i) = 1.

#[export] Instance bearer_flags_codec : GtpCodec gtpv2c_bearer_flags_ie bearer_flags_wf.
Proof.
  split; [intros i [[_ H] _]; exact H|]. intros [t b] rest (Ht & Hl). exists [b]. eexists.
  split; [done|]. split; [by simpl in *; rewrite Hl|].
  cbn [ie_load_from ie_of_tlv ie_tlv bearer_flags_ie bearer_flags_tlv] in *. unfold bearer_flags_load_from.
  cbn [bearer_flags_of_tlv bearer_flags_tlv]. rewrite Hl, Z.eqb_refl. by stream_norm; stream_step done.
Qed.

(** ** PDN Type *)
Record pdn_type_t := mk_pdn_type_t { pt_pdn_type : Z }.
Record gtpv2c_pdn_type_ie := mk_pdn_type_ie { pdn_type_tlv : gtpv2c_tlv; pdn_type_b : Z }.

Definition pdn_type_of_core (p : pdn_type_t) : gtpv2c_pdn_type_ie :=
  mk_pdn_type_ie (tlv_of GTP_IE_PDN_TYPE 1) (bf_pack [(3, (pt_pdn_type p)); (5, 0)]).
Definition pdn_type_of_tlv (t : gtpv2c_tlv) : gtpv2c_pdn_type_ie := mk_pdn_type_ie t 0.
Definition pdn_type_to_core (i : gtpv2c_pdn_type_ie) : pdn_type_t :=
  mk_pdn_type_t (bf_field 0 3 (pdn_type_b i)).
Definition pdn_type_dump_to (i : gtpv2c_pdn_type_ie) : list Z := tlv_dump_to (pdn_type_tlv i) ++ [pdn_type_b i].
Definition pdn_type_load_from (i : gtpv2c_pdn_type_ie) (ins : istream) : result gtpc_exn (gtpv2c_pdn_type_ie * istream) :=
  if t_length (pdn_type_tlv i) =? 1 then
    let '(b, ins) := read_u8 (pdn_type_b i) ins in Val (mk_pdn_type_ie (pdn_type_tlv i) b, ins)
  else Throw (gtpc_tlv_bad_length_exception (t_type (pdn_type_tlv i)) (t_length (pdn_type_tlv i))).

#[export] Instance pdn_type_ie : GtpIe gtpv2c_pdn_type_ie := {|
  ie_tlv := pdn_type_tlv; ie_dump_to i := Val (pdn_type_dump_to i, i); ie_of_tlv := pdn_type_of_tlv; ie_load_from := pdn_type_load_from;
|}.

Definition pdn_type_wf (i : gtpv2c_pdn_type_ie) : Prop := tlv_ok GTP_IE_PDN_TYPE (pdn_type_tlv i) /\ t_length (pdn_type_tlv i) = 1 /\ fits 8 (pdn_type_b i).

#[export] Instance pdn_type_codec : GtpCodec gtpv2c_pdn_type_ie pdn_type_wf.
Proof.
  split; [intros i [[_ H] _]; exact H|]. intros [t b] rest (Ht & Hl & Hb). exists [b]. eexists.
  split; [done|]. split; [by simpl in *; rewrite Hl|]. cbn [ie_load_from ie_of_tlv ie_tlv pdn_type_ie pdn_type_tlv] in *. unfold pdn_type_load_from.
  cbn [pdn_type_of_tlv pdn_type_tlv]. rewrite Hl, Z.eqb_refl. by stream_norm; stream_step done.
Qed.

Lemma pdn_type_core p : fits 3 (pt_pdn_type p) -> pdn_type_wf (pdn_type_of_core p) /\ pdn_type_to_core (pdn_type_of_core p) = p.
Proof. 
  intros H0. split.
  - split; [by apply tlv_ok_of|]. split; [done|]. apply bf_pack_fits. repeat constructor; simpl; lia.
  - unfold pdn_type_to_core, pdn_type_of_core. destruct p. cbn [pdn_type_b pt_pdn_type] in *. f_equal; bf_simpl; done.
 Qed.

(** ** RAT Type *)
Record rat_type_t := mk_rat_type_t { rt_rat_type : Z }.
Record gtpv2c_rat_type_ie := mk_rat_type_ie { rat_type_tlv : gtpv2c_tlv; rat_type : Z }.

Definition rat_type_of_core (r : rat_type_t) : gtpv2c_rat_type_ie :=
  mk_rat_type_ie (tlv_of GTP_IE_RAT_TYPE 1) (rt_rat_type r).
Definition rat_type_of_tlv (t : gtpv2c_tlv) : gtpv2c_rat_type_ie := mk_rat_type_ie t 0.
Definition rat_type_to_core (i : gtpv2c_rat_type_ie) : rat_type_t :=
  mk_rat_type_t (rat_type i).
Definition rat_type_dump_to (i : gtpv2c_rat_type_ie) : list Z := tlv_dump_to (rat_type_tlv i) ++ [rat_type i].
Definition rat_type_load_from (i : gtpv2c_rat_type_ie) (ins : istream) : result gtpc_exn (gtpv2c_rat_type_ie * istream) :=
  if t_length (rat_type_tlv i) =? 1 then
    let '(b, ins) := read_u8 (rat_type i) ins in Val (mk_rat_type_ie (rat_type_tlv i) b, ins)
  else Throw (gtpc_tlv_bad_length_exception GTP_IE_RAT_TYPE (t_length (rat_type_tlv i))).

#[export] Instance rat_type_ie : GtpIe gtpv2c_rat_type_ie := {|
  ie_tlv := rat_type_tlv; ie_dump_to i := Val (rat_type_dump_to i, i); ie_of_tlv := rat_type_of_tlv; ie_load_from := rat_type_load_from;
|}.

Definition rat_type_wf (i : gtpv2c_rat_type_ie) : Prop := tlv_ok GTP_IE_RAT_TYPE (rat_type_tlv i) /\ t_length (rat_type_tlv i) = 1 /\ fits 8 (rat_type i).

#[export] Instance rat_type_codec : GtpCodec gtpv2c_rat_type_ie rat_type_wf.
Proof.
  split; [intros i [[_ H] _]; exact H|]. intros [t b] rest (Ht & Hl & Hb). exists [b]. eexists.
  split; [done|]. split; [by simpl in *; rewrite Hl|]. cbn [ie_load_from ie_of_tlv ie_tlv rat_type_ie rat_type_tlv] in *. unfold rat_type_load_from.
  cbn [rat_type_of_tlv rat_type_tlv]. rewrite Hl, Z.eqb_refl. by stream_norm; stream_step done.
Qed.

Lemma rat_type_core r : fits 8 (rt_rat_type r) -> rat_type_wf (rat_type_of_core r) /\ rat_type_to_core (rat_type_of_core r) = r.
Proof. intros H0. split; [|by destruct r]. split; [by apply tlv_ok_of|done]. Qed.

(** ** Delay Value *)
Record delay_value_t := mk_delay_value_t { dv_delay_value : Z }.
Record gtpv2c_delay_value_ie := mk_delay_value_ie { delay_value_tlv : gtpv2c_tlv; delay_value : Z }.

Definition delay_value_of_core (d : delay_value_t) : gtpv2c_delay_value_ie :=
  mk_delay_value_ie (tlv_of GTP_IE_DELAY_VALUE 1) (dv_delay_value d).
Definition delay_value_of_tlv (t : gtpv2c_tlv) : gtpv2c_delay_value_ie := mk_delay_value_ie t 0.
Definition delay_value_to_core (i : gtpv2c_delay_value_ie) : delay_value_t :=
  mk_delay_value_t (delay_value i).
Definition delay_value_dump_to (i : gtpv2c_delay_value_ie) : list Z := tlv_dump_to (delay_value_tlv i) ++ [delay_value i].
Definition delay_value_load_from (i : gtpv2c_delay_value_ie) (ins : istream) : result gtpc_exn (gtpv2c_delay_value_ie * istream) :=
  if t_length (delay_value_tlv i) =? 1 then
    let '(b, ins) := read_u8 (delay_value i) ins in Val (mk_delay_value_ie (delay_value_tlv i) b, ins)
  else Throw (gtpc_tlv_bad_length_exception (t_type (delay_value_tlv i)) (t_length (delay_value_tlv i))).

#[export] Instance delay_value_ie : GtpIe gtpv2c_delay_value_ie := {|
  ie_tlv := delay_value_tlv; ie_dump_to i := Val (delay_value_dump_to i, i); ie_of_tlv := delay_value_of_tlv; ie_load_from := delay_value_load_from;
|}.

Definition delay_value_wf (i : gtpv2c_delay_value_ie) : Prop := tlv_ok GTP_IE_DELAY_VALUE (delay_value_tlv i) /\ t_length (delay_value_tlv i) = 1 /\ fits 8 (delay_value i).

#[export] Instance delay_value_codec : GtpCodec gtpv2c_delay_value_ie delay_value_wf.
Proof.
  split; [intros i [[_ H] _]; exact H|]. intros [t b] rest (Ht & Hl & Hb). exists [b]. eexists.
  split; [done|]. split; [by simpl in *; rewrite Hl|]. cbn [ie_load_from ie_of_tlv ie_tlv delay_value_ie delay_value_tlv] in *. unfold delay_value_load_from.
  cbn [delay_value_of_tlv delay_value_tlv]. rewrite Hl, Z.eqb_refl. by stream_norm; stream_step done.
Qed.

Lemma delay_value_core d : fits 8 (dv_delay_value d) -> delay_value_wf (delay_value_of_core d) /\ delay_value_to_core (delay_value_of_core d) = d.
Proof. intros H0. split; [|by destruct d]. split; [by apply tlv_ok_of|done]. Qed.

(** ** APN Restriction *)
Record access_point_name_restriction_t := mk_access_point_name_restriction_t { apnr_restriction_type_value : Z }.
Record gtpv2c_apn_restriction_ie := mk_apn_restriction_ie { apn_restriction_tlv : gtpv2c_tlv; restriction_type_value : Z }.

Definition apn_restriction_of_core (a : access_point_name_restriction_t) : gtpv2c_apn_restriction_ie :=
  mk_apn_restriction_ie (tlv_of GTP_IE_APN_RESTRICTION 1) (apnr_restriction_type_value a).
Definition apn_restriction_of_tlv (t : gtpv2c_tlv) : gtpv2c_apn_restriction_ie := mk_apn_restriction_ie t 0.
Definition apn_restriction_to_core (i : gtpv2c_apn_restriction_ie) : access_point_name_restriction_t :=
  mk_access_point_name_restriction_t (restriction_type_value i).
Definition apn_restriction_dump_to (i : gtpv2c_apn_restriction_ie) : list Z := tlv_dump_to (apn_restriction_tlv i) ++ [restriction_type_value i].
Definition apn_restriction_load_from (i : gtpv2c_apn_restriction_ie) (ins : istream) : result gtpc_exn (gtpv2c_apn_restriction_ie * istream) :=
  if t_length (apn_restriction_tlv i) =? 1 then
    let '(b, ins) := read_u8 (restriction_type_value i) ins in Val (mk_apn_restriction_ie (apn_restriction_tlv i) b, ins)
  else Throw (gtpc_tlv_bad_length_exception (t_type (apn_restriction_tlv i)) (t_length (apn_restriction_tlv i))).

#[export] Instance apn_restriction_ie : GtpIe gtpv2c_apn_restriction_ie := {|
  ie_tlv := apn_restriction_tlv; ie_dump_to i := Val (apn_restriction_dump_to i, i); ie_of_tlv := apn_restriction_of_tlv; ie_load_from := apn_restriction_load_from;
|}.

Definition apn_restriction_wf (i : gtpv2c_apn_restriction_ie) : Prop := tlv_ok GTP_IE_APN_RESTRICTION (apn_restriction_tlv i) /\ t_length (apn_restriction_tlv i) = 1 /\ fits 8 (restriction_type_value i).

#[export] Instance apn_restriction_codec : GtpCodec gtpv2c_apn_restriction_ie apn_restriction_wf.
Proof.
  split; [intros i [[_ H] _]; exact H|]. intros [t b] rest (Ht & Hl & Hb). exists [b]. eexists.
  split; [done|]. split; [by simpl in *; rewrite Hl|]. cbn [ie_load_from ie_of_tlv ie_tlv apn_restriction_ie apn_restriction_tlv] in *. unfold apn_restriction_load_from.
  cbn [apn_restriction_of_tlv apn_restriction_tlv]. rewrite Hl, Z.eqb_refl. by stream_norm; stream_step done.
Qed.

Lemma apn_restriction_core a : fits 8 (apnr_restriction_type_value a) -> apn_restriction_wf (apn_restriction_of_core a) /\ apn_restriction_to_core (apn_restriction_of_core a) = a.
Proof. intros H0. split; [|by destruct a]. split; [by apply tlv_ok_of|done]. Qed.

(** ** Selection Mode

    [to_core_type] leaves the spare bits zero *)
Record selection_mode_t := mk_selection_mode_t { selec_mode : Z }.
Record gtpv2c_selection_mode_ie := mk_selection_mode_ie { selection_mode_tlv : gtpv2c_tlv; selection_mode_b : Z }.

Definition selection_mode_of_core (s : selection_mode_t) : gtpv2c_selection_mode_ie :=
  mk_selection_mode_ie (tlv_of GTP_IE_SELECTION_MODE 1) (bf_pack [(2, (selec_mode s)); (6, 0)]).
Definition selection_mode_of_tlv (t : gtpv2c_tlv) : gtpv2c_selection_mode_ie := mk_selection_mode_ie t 0.
Definition selection_mode_to_core (i : gtpv2c_selection_mode_ie) : selection_mode_t :=
  mk_selection_mode_t (bf_field 0 2 (selection_mode_b i)).
Definition selection_mode_dump_to (i : gtpv2c_selection_mode_ie) : list Z := tlv_dump_to (selection_mode_tlv i) ++ [selection_mode_b i].
Definition selection_mode_load_from (i : gtpv2c_selection_mode_ie) (ins : istream) : result gtpc_exn (gtpv2c_selection_mode_ie * istream) :=
  if t_length (selection_mode_tlv i) =? 1 then
    let '(b, ins) := read_u8 (selection_mode_b i) ins in Val (mk_selection_mode_ie (selection_mode_tlv i) b, ins)
  else Throw (gtpc_tlv_bad_length_exception (t_type (selection_mode_tlv i)) (t_length (selection_mode_tlv i))).

#[export] Instance selection_mode_ie : GtpIe gtpv2c_selection_mode_ie := {|
  ie_tlv := selection_mode_tlv; ie_dump_to i := Val (selection_mode_dump_to i, i); ie_of_tlv := selection_mode_of_tlv; ie_load_from := selection_mode_load_from;
|}.

Definition selection_mode_wf (i : gtpv2c_selection_mode_ie) : Prop := tlv_ok GTP_IE_SELECTION_MODE (selection_mode_tlv i) /\ t_length (selection_mode_tlv i) = 1 /\ fits 8 (selection_mode_b i).

#[export] Instance selection_mode_codec : GtpCodec gtpv2c_selection_mode_ie selection_mode_wf.
Proof.
  split; [intros i [[_ H] _]; exact H|]. intros [t b] rest (Ht & Hl & Hb). exists [b]. eexists.
  split; [done|]. split; [by simpl in *; rewrite Hl|]. cbn [ie_load_from ie_of_tlv ie_tlv selection_mode_ie selection_mode_tlv] in *. unfold selection_mode_load_from.
  cbn [selection_mode_of_tlv selection_mode_tlv]. rewrite Hl, Z.eqb_refl. by stream_norm; stream_step done.
Qed.

Lemma selection_mode_core s : fits 2 (selec_mode s) -> selection_mode_wf (selection_mode_of_core s) /\ selection_mode_to_core (selection_mode_of_core s) = s.
Proof. 
  intros H0. split.
  - split; [by apply tlv_ok_of|]. split; [done|]. apply bf_pack_fits. repeat constructor; simpl; lia.
  - unfold selection_mode_to_core, selection_mode_of_core. destruct s. cbn [selection_mode_b selec_mode] in *. f_equal; bf_simpl; done.
 Qed.

(** ** Node Type *)
Record node_type_t := mk_node_type_t { nt_node_type : Z }.
Record gtpv2c_node_type_ie := mk_node_type_ie { node_type_tlv : gtpv2c_tlv; node_type : Z }.

Definition node_type_of_core (n : node_type_t) : gtpv2c_node_type_ie :=
  mk_node_type_ie (tlv_of GTP_IE_NODE_TYPE 1) (nt_node_type n).
Definition node_type_of_tlv (t : gtpv2c_tlv) : gtpv2c_node_type_ie := mk_node_type_ie t 0.
Definition node_type_to_core (i : gtpv2c_node_type_ie) : node_type_t :=
  mk_node_type_t (node_type i).
Definition node_type_dump_to (i : gtpv2c_node_type_ie) : list Z := tlv_dump_to (node_type_tlv i) ++ [node_type i].
Definition node_type_load_from (i : gtpv2c_node_type_ie) (ins : istream) : result gtpc_exn (gtpv2c_node_type_ie * istream) :=
  if t_length (node_type_tlv i) =? 1 then
    let '(b, ins) := read_u8 (node_type i) ins in Val (mk_node_type_ie (node_type_tlv i) b, ins)
  else Throw (gtpc_tlv_bad_length_exception (t_type (node_type_tlv i)) (t_length (node_type_tlv i))).

#[export] Instance node_type_ie : GtpIe gtpv2c_node_type_ie := {|
  ie_tlv := node_type_tlv; ie_dump_to i := Val (node_type_dump_to i, i); ie_of_tlv := node_type_of_tlv; ie_load_from := node_type_load_from;
|}.

Definition node_type_wf (i : gtpv2c_node_type_ie) : Prop := tlv_ok GTP_IE_NODE_TYPE (node_type_tlv i) /\ t_length (node_type_tlv i) = 1 /\ fits 8 (node_type i).

#[export] Instance node_type_codec : GtpCodec gtpv2c_node_type_ie node_type_wf.
Proof.
  split; [intros i [[_ H] _]; exact H|]. intros [t b] rest (Ht & Hl & Hb). exists [b]. eexists.
  split; [done|]. split; [by simpl in *; rewrite Hl|]. cbn [ie_load_from ie_of_tlv ie_tlv node_type_ie node_type_tlv] in *. unfold node_type_load_from.
  cbn [node_type_of_tlv node_type_tlv]. rewrite Hl, Z.eqb_refl. by stream_norm; stream_step done.
Qed.

Lemma node_type_core n : fits 8 (nt_node_type n) -> node_type_wf (node_type_of_core n) /\ node_type_to_core (node_type_of_core n) = n.
Proof. intros H0. split; [|by destruct n]. split; [by apply tlv_ok_of|done]. Qed.

(** ** Node Features *)
Record node_features_t := mk_node_features_t { prn : Z; mabr : Z; ntsr : Z; ciot : Z; s1un : Z }.
Record gtpv2c_node_features_ie := mk_node_features_ie { node_features_tlv : gtpv2c_tlv; node_features_b : Z }.

Definition node_features_of_core (s : node_features_t) : gtpv2c_node_features_ie :=
  mk_node_features_ie (tlv_of GTP_IE_NODE_FEATURES 1) (bf_pack [(1, (prn s)); (1, (mabr s)); (1, (ntsr s)); (1, (ciot s)); (1, (s1un s)); (3, 0)]).
Definition node_features_of_tlv (t : gtpv2c_tlv) : gtpv2c_node_features_ie := mk_node_features_ie t 0.
Definition node_features_to_core (i : gtpv2c_node_features_ie) : node_features_t :=
  mk_node_features_t (bf_field 0 1 (node_features_b i)) (bf_field 1 1 (node_features_b i)) (bf_field 2 1 (node_features_b i)) (bf_field 3 1 (node_features_b i)) (bf_field 4 1 (node_features_b i)).
Definition node_features_dump_to (i : gtpv2c_node_features_ie) : list Z := tlv_dump_to (node_features_tlv i) ++ [node_features_b i].
Definition node_features_load_from (i : gtpv2c_node_features_ie) (ins : istream) : result gtpc_exn (gtpv2c_node_features_ie * istream) :=
  if t_length (node_features_tlv i) =? 1 then
    let '(b, ins) := read_u8 (node_features_b i) ins in Val (mk_node_features_ie (node_features_tlv i) b, ins)
  else Throw (gtpc_tlv_bad_length_exception (t_type (node_features_tlv i)) (t_length (node_features_tlv i))).

#[export] Instance node_features_ie : GtpIe gtpv2c_node_features_ie := {|
  ie_tlv := node_features_tlv; ie_dump_to i := Val (node_features_dump_to i, i); ie_of_tlv := node_features_of_tlv; ie_load_from := node_features_load_from;
|}.

Definition node_features_wf (i : gtpv2c_node_features_ie) : Prop := tlv_ok GTP_IE_NODE_FEATURES (node_features_tlv i) /\ t_length (node_features_tlv i) = 1 /\ fits 8 (node_features_b i).

#[export] Instance node_features_codec : GtpCodec gtpv2c_node_features_ie node_features_wf.
Proof.
  split; [intros i [[_ H] _]; exact H|]. intros [t b] rest (Ht & Hl & Hb). exists [b]. eexists.
  split; [done|]. split; [by simpl in *; rewrite Hl|]. cbn [ie_load_from ie_of_tlv ie_tlv node_features_ie node_features_tlv] in *. unfold node_features_load_from.
  cbn [node_features_of_tlv node_features_tlv]. rewrite Hl, Z.eqb_refl. by stream_norm; stream_step done.
Qed.

Lemma node_features_core s : fits 1 (prn s) -> fits 1 (mabr s) -> fits 1 (ntsr s) -> fits 1 (ciot s) -> fits 1 (s1un s) -> node_features_wf (node_features_of_core s) /\ node_features_to_core (node_features_of_core s) = s.
Proof. 
  intros H0 H1 H2 H3 H4. split.
  - split; [by apply tlv_ok_of|]. split; [done|]. apply bf_pack_fits. repeat constructor; simpl; lia.
  - unfold node_features_to_core, node_features_of_core. destruct s. cbn [node_features_b prn mabr ntsr ciot s1un] in *. f_equal; bf_simpl; done.
 Qed.

(** ** CIoT Optimizations Support Indication *)
Record ciot_optimizations_support_indication_t := mk_ciot_optimizations_support_indication_t { ihcsi : Z; awopdn : Z; scnipdn : Z; sgnipdn : Z }.
Record gtpv2c_ciot_optimizations_support_indication_ie := mk_ciot_optimizations_support_indication_ie { ciot_optimizations_support_indication_tlv : gtpv2c_tlv; ciot_optimizations_support_indication_b : Z }.

Definition ciot_optimizations_support_indication_of_core (s : ciot_optimizations_support_indication_t) : gtpv2c_ciot_optimizations_support_indication_ie :=
  mk_ciot_optimizations_support_indication_ie (tlv_of GTP_IE_CIOT_OPTIMIZATIONS_SUPPORT_INDICATION 1) (bf_pack [(1, (sgnipdn s)); (1, (scnipdn s)); (1, (awopdn s)); (1, (ihcsi s)); (4, 0)]).
Definition ciot_optimizations_support_indication_of_tlv (t : gtpv2c_tlv) : gtpv2c_ciot_optimizations_support_indication_ie := mk_ciot_optimizations_support_indication_ie t 0.
Definition ciot_optimizations_support_indication_to_core (i : gtpv2c_ciot_optimizations_support_indication_ie) : ciot_optimizations_support_indication_t :=
  mk_ciot_optimizations_support_indication_t (bf_field 3 1 (ciot_optimizations_support_indication_b i)) (bf_field 2 1 (ciot_optimizations_support_indication_b i)) (bf_field 1 1 (ciot_optimizations_support_indication_b i)) (bf_field 0 1 (ciot_optimizations_support_indication_b i)).
Definition ciot_optimizations_support_indication_dump_to (i : gtpv2c_ciot_optimizations_support_indication_ie) : list Z := tlv_dump_to (ciot_optimizations_support_indication_tlv i) ++ [ciot_optimizations_support_indication_b i].
Definition ciot_optimizations_support_indication_load_from (i : gtpv2c_ciot_optimizations_support_indication_ie) (ins : istream) : result gtpc_exn (gtpv2c_ciot_optimizations_support_indication_ie * istream) :=
  if t_length (ciot_optimizations_support_indication_tlv i) =? 1 then
    let '(b, ins) := read_u8 (ciot_optimizations_support_indication_b i) ins in Val (mk_ciot_optimizations_support_indication_ie (ciot_optimizations_support_indication_tlv i) b, ins)
  else Throw (gtpc_tlv_bad_length_exception (t_type (ciot_optimizations_support_indication_tlv i)) (t_length (ciot_optimizations_support_indication_tlv i))).

#[export] Instance ciot_optimizations_support_indication_ie : GtpIe gtpv2c_ciot_optimizations_support_indication_ie := {|
  ie_tlv := ciot_optimizations_support_indication_tlv; ie_dump_to i := Val (ciot_optimizations_support_indication_dump_to i, i); ie_of_tlv := ciot_optimizations_support_indication_of_tlv; ie_load_from := ciot_optimizations_support_indication_load_from;
|}.

Definition ciot_optimizations_support_indication_wf (i : gtpv2c_ciot_optimizations_support_indication_ie) : Prop := tlv_ok GTP_IE_CIOT_OPTIMIZATIONS_SUPPORT_INDICATION (ciot_optimizations_support_indication_tlv i) /\ t_length (ciot_optimizations_support_indication_tlv i) = 1 /\ fits 8 (ciot_optimizations_support_indication_b i).

#[export] Instance ciot_optimizations_support_indication_codec : GtpCodec gtpv2c_ciot_optimizations_support_indication_ie ciot_optimizations_support_indication_wf.
Proof.
  split; [intros i [[_ H] _]; exact H|]. intros [t b] rest (Ht & Hl & Hb). exists [b]. eexists.
  split; [done|]. split; [by simpl in *; rewrite Hl|]. cbn [ie_load_from ie_of_tlv ie_tlv ciot_optimizations_support_indication_ie ciot_optimizations_support_indication_tlv] in *. unfold ciot_optimizations_support_indication_load_from.
  cbn [ciot_optimizations_support_indication_of_tlv ciot_optimizations_support_indication_tlv]. rewrite Hl, Z.eqb_refl. by stream_norm; stream_step done.
Qed.

Lemma ciot_optimizations_support_indication_core s : fits 1 (ihcsi s) -> fits 1 (awopdn s) -> fits 1 (scnipdn s) -> fits 1 (sgnipdn s) -> ciot_optimizations_support_indication_wf (ciot_optimizations_support_indication_of_core s) /\ ciot_optimizations_support_indication_to_core (ciot_optimizations_support_indication_of_core s) = s.
Proof. 
  intros H0 H1 H2 H3. split.
  - split; [by apply tlv_ok_of|]. split; [done|]. apply bf_pack_fits. repeat constructor; simpl; lia.
  - unfold ciot_optimizations_support_indication_to_core, ciot_optimizations_support_indication_of_core. destruct s. cbn [ciot_optimizations_support_indication_b ihcsi awopdn scnipdn sgnipdn] in *. f_equal; bf_simpl; done.
 Qed.

(** ** EPS Bearer Level Traffic Flow Template

    Only the first octet is handled; the length is set to 2. [to_core_type]
    does not give the number of packet filters back *)
Record traffic_flow_template_t := mk_traffic_flow_template_t { tftoperationcode : Z; ebit : Z; numberofpacketfilters : Z }.
Record gtpv2c_bearer_tft_ie := mk_bearer_tft_ie { bearer_tft_tlv : gtpv2c_tlv; bearer_tft_b : Z }.

Definition bearer_tft_of_core (t : traffic_flow_template_t) : gtpv2c_bearer_tft_ie :=
  mk_bearer_tft_ie (tlv_of GTP_IE_EPS_BEARER_LEVEL_TRAFFIC_FLOW_TEMPLATE 2) (bf_pack [(4, (numberofpacketfilters t)); (1, (ebit t)); (3, (tftoperationcode t))]).
Definition bearer_tft_of_tlv (t : gtpv2c_tlv) : gtpv2c_bearer_tft_ie := mk_bearer_tft_ie t 0.
Definition bearer_tft_to_core (i : gtpv2c_bearer_tft_ie) : traffic_flow_template_t :=
  mk_traffic_flow_template_t (bf_field 5 3 (bearer_tft_b i)) (bf_field 4 1 (bearer_tft_b i)) 0.
Definition bearer_tft_dump_to (i : gtpv2c_bearer_tft_ie) : list Z := tlv_dump_to (bearer_tft_tlv i) ++ [bearer_tft_b i].
Definition bearer_tft_load_from (i : gtpv2c_bearer_tft_ie) (ins : istream) : result gtpc_exn (gtpv2c_bearer_tft_ie * istream) :=
  let '(b, ins) := read_u8 (bearer_tft_b i) ins in Val (mk_bearer_tft_ie (bearer_tft_tlv i) b, ins).

#[export] Instance bearer_tft_ie : GtpIe gtpv2c_bearer_tft_ie := {|
  ie_tlv := bearer_tft_tlv; ie_dump_to i := Val (bearer_tft_dump_to i, i); ie_of_tlv := bearer_tft_of_tlv; ie_load_from := bearer_tft_load_from;
|}.

(** ** UE Time Zone *)
Record ue_time_zone_t := mk_ue_time_zone_t { tz_time_zone : Z; tz_daylight_saving_time : Z }.
Record gtpv2c_ue_time_zone_ie := mk_ue_time_zone_ie {
  ue_time_zone_tlv : gtpv2c_tlv; time_zone : Z; ue_time_zone_b : Z }.

Definition ue_time_zone_of_core (t : ue_time_zone_t) : gtpv2c_ue_time_zone_ie :=
  mk_ue_time_zone_ie (tlv_of GTP_IE_UE_TIME_ZONE 2) (tz_time_zone t)
    (bf_pack [(2, tz_daylight_saving_time t); (6, 0)]).
Definition ue_time_zone_of_tlv (t : gtpv2c_tlv) : gtpv2c_ue_time_zone_ie := mk_ue_time_zone_ie t 0 0.
Definition ue_time_zone_to_core (i : gtpv2c_ue_time_zone_ie) : ue_time_zone_t :=
  mk_ue_time_zone_t (time_zone i) (bf_field 0 2 (ue_time_zone_b i)).
Definition ue_time_zone_dump_to (i : gtpv2c_ue_time_zone_ie) : list Z :=
  tlv_dump_to (ue_time_zone_tlv i) ++ [time_zone i] ++ [ue_time_zone_b i].
Definition ue_time_zone_load_from (i : gtpv2c_ue_time_zone_ie) (ins : istream)
  : result gtpc_exn (gtpv2c_ue_time_zone_ie * istream) :=
  let t := ue_time_zone_tlv i in
  if t_length t =? 2 then
    let '(z, ins) := read_u8 (time_zone i) ins in
    let '(b, ins) := read_u8 (ue_time_zone_b i) ins in
    Val (mk_ue_time_zone_ie t z b, ins)
  else Throw (gtpc_tlv_bad_length_exception (t_type t) (t_length t)).

#[export] Instance ue_time_zone_ie : GtpIe gtpv2c_ue_time_zone_ie := {|
  ie_tlv := ue_time_zone_tlv; ie_dump_to i := Val (ue_time_zone_dump_to i, i);
  ie_of_tlv := ue_time_zone_of_tlv; ie_load_from := ue_time_zone_load_from;
|}.

Definition ue_time_zone_wf (i : gtpv2c_ue_time_zone_ie) : Prop :=
  tlv_ok GTP_IE_UE_TIME_ZONE (ue_time_zone_tlv i) /\ t_length (ue_time_zone_tlv i) = 2.

#[export] Instance ue_time_zone_codec : GtpCodec gtpv2c_ue_time_zone_ie ue_time_zone_wf.
Proof.
  split; [intros i [[_ H] _]; exact H|]. intros [t z b] rest (Ht & Hl). exists [z; b]. eexists.
  split; [done|]. split; [by simpl in *; rewrite Hl|].
  cbn [ie_load_from ie_of_tlv ie_tlv ue_time_zone_ie ue_time_zone_tlv] in *. unfold ue_time_zone_load_from.
  cbn [ue_time_zone_of_tlv ue_time_zone_tlv]. rewrite Hl, Z.eqb_refl. codec_tac.
Qed.

Lemma ue_time_zone_core t :
  fits 2 (tz_daylight_saving_time t) ->
  ue_time_zone_wf (ue_time_zone_of_core t) /\ ue_time_zone_to_core (ue_time_zone_of_core t) = t.
Proof.
  intros H. split; [split; [by apply tlv_ok_of|done]|].
  unfold ue_time_zone_to_core, ue_time_zone_of_core. destruct t.
  cbn [time_zone ue_time_zone_b tz_time_zone tz_daylight_saving_time] in *. f_equal; bf_simpl; done.
Qed.

(** ** Aggregate Maximum Bit Rate *)
Record ambr_t := mk_ambr_t { br_ul : Z; br_dl : Z }.
Record gtpv2c_aggregate_maximum_bit_rate_ie := mk_ambr_ie {
  ambr_tlv : gtpv2c_tlv; apn_ambr_for_uplink : Z; apn_ambr_for_downlink : Z }.

Definition ambr_of_core (a : ambr_t) : gtpv2c_aggregate_maximum_bit_rate_ie :=
  mk_ambr_ie (tlv_of GTP_IE_AGGREGATE_MAXIMUM_BIT_RATE 8) (br_ul a) (br_dl a).
Definition ambr_of_tlv (t : gtpv2c_tlv) : gtpv2c_aggregate_maximum_bit_rate_ie := mk_ambr_ie t 0 0.
Definition ambr_to_core (i : gtpv2c_aggregate_maximum_bit_rate_ie) : ambr_t :=
  mk_ambr_t (apn_ambr_for_uplink i) (apn_ambr_for_downlink i).
Definition ambr_dump_to (i : gtpv2c_aggregate_maximum_bit_rate_ie) : list Z :=
  tlv_dump_to (ambr_tlv i) ++ be_bytes 4 (apn_ambr_for_uplink i) ++ be_bytes 4 (apn_ambr_for_downlink i).
Definition ambr_load_from (i : gtpv2c_aggregate_maximum_bit_rate_ie) (ins : istream)
  : result gtpc_exn (gtpv2c_aggregate_maximum_bit_rate_ie * istream) :=
  let '(ul, ins) := read_be 4 (apn_ambr_for_uplink i) ins in
  let '(dl, ins) := read_be 4 (apn_ambr_for_downlink i) ins in
  Val (mk_ambr_ie (ambr_tlv i) ul dl, ins).

#[export] Instance ambr_ie : GtpIe gtpv2c_aggregate_maximum_bit_rate_ie := {|
  ie_tlv := ambr_tlv; ie_dump_to i := Val (ambr_dump_to i, i);
  ie_of_tlv := ambr_of_tlv; ie_load_from := ambr_load_from;
|}.

Definition ambr_wf (i : gtpv2c_aggregate_maximum_bit_rate_ie) : Prop :=
  tlv_ok GTP_IE_AGGREGATE_MAXIMUM_BIT_RATE (ambr_tlv i) /\ t_length (ambr_tlv i) = 8 /\
  fits 32 (apn_ambr_for_uplink i) /\ fits 32 (apn_ambr_for_downlink i).

#[export] Instance ambr_codec : GtpCodec gtpv2c_aggregate_maximum_bit_rate_ie ambr_wf.
Proof.
  split; [intros i [[_ H] _]; exact H|]. intros [t ul dl] rest (Ht & Hl & Hu & Hd).
  exists (be_bytes 4 ul ++ be_bytes 4 dl). eexists.
  split; [done|]. split; [by simpl in *; rewrite Hl|].
  cbn [ie_load_from ie_of_tlv ie_tlv ambr_ie ambr_tlv apn_ambr_for_uplink apn_ambr_for_downlink] in *.
  unfold ambr_load_from. codec_tac.
Qed.

Lemma ambr_core a :
  fits 32 (br_ul a) -> fits 32 (br_dl a) ->
  ambr_wf (ambr_of_core a) /\ ambr_to_core (ambr_of_core a) = a.
Proof. intros. split; [split; [by apply tlv_ok_of|done]|by destruct a]. Qed.

(** ** Charging ID *)
Record charging_id_t := mk_charging_id_t { charging_id_value : Z }.
Record gtpv2c_charging_id_ie := mk_charging_id_ie { charging_id_tlv : gtpv2c_tlv; charging_id : Z }.

Definition charging_id_of_core (c : charging_id_t) : gtpv2c_charging_id_ie :=
  mk_charging_id_ie (tlv_of GTP_IE_CHARGING_ID 4) (charging_id_value c).
Definition charging_id_of_tlv (t : gtpv2c_tlv) : gtpv2c_charging_id_ie := mk_charging_id_ie t 0.
Definition charging_id_to_core (i : gtpv2c_charging_id_ie) : charging_id_t := mk_charging_id_t (charging_id i).
Definition charging_id_dump_to (i : gtpv2c_charging_id_ie) : list Z :=
  tlv_dump_to (charging_id_tlv i) ++ be_bytes 4 (charging_id i).
Definition charging_id_load_from (i : gtpv2c_charging_id_ie) (ins : istream)
  : result gtpc_exn (gtpv2c_charging_id_ie * istream) :=
  let t := charging_id_tlv i in
  if t_length t =? 4 then
    let '(c, ins) := read_be 4 (charging_id i) ins in Val (mk_charging_id_ie t c, ins)
  else Throw (gtpc_tlv_bad_length_exception (t_type t) (t_length t)).

#[export] Instance charging_id_ie : GtpIe gtpv2c_charging_id_ie := {|
  ie_tlv := charging_id_tlv; ie_dump_to i := Val (charging_id_dump_to i, i);
  ie_of_tlv := charging_id_of_tlv; ie_load_from := charging_id_load_from;
|}.

Definition charging_id_wf (i : gtpv2c_charging_id_ie) : Prop :=
  tlv_ok GTP_IE_CHARGING_ID (charging_id_tlv i) /\ t_length (charging_id_tlv i) = 4 /\ fits 32 (charging_id i).

#[export] Instance charging_id_codec : GtpCodec gtpv2c_charging_id_ie charging_id_wf.
Proof.
  split; [intros i [[_ H] _]; exact H|]. intros [t c] rest (Ht & Hl & Hc). exists (be_bytes 4 c). eexists.
  split; [done|]. split; [by simpl in *; rewrite Hl|].
  cbn [ie_load_from ie_of_tlv ie_tlv charging_id_ie charging_id_tlv charging_id] in *. unfold charging_id_load_from.
  cbn [charging_id_of_tlv charging_id_tlv]. rewrite Hl, Z.eqb_refl. codec_tac.
Qed.

Lemma charging_id_core c :
  fits 32 (charging_id_value c) ->
  charging_id_wf (charging_id_of_core c) /\ charging_id_to_core (charging_id_of_core c) = c.
Proof. intros. split; [split; [by apply tlv_ok_of|done]|by destruct c]. Qed.

(** ** Cause *)
Record cause_t := mk_cause_t {
  c_cause_value : Z; c_pce : Z; c_bce : Z; c_cs : Z;
  c_offending_ie_type : Z; c_offending_ie_length : Z; c_offending_ie_instance : Z }.
Record gtpv2c_cause_ie := mk_cause_ie {
  cause_tlv : gtpv2c_tlv;
  cause_value : Z;
  cause_u1 : Z;
  type_of_the_offending_ie : Z;
  length_of_the_offending_ie : Z;
  cause_u2 : Z;
}.

Definition cause_length (v : Z) : Z := if v =? MANDATORY_IE_INCORRECT then 6 else 2.

Definition cause_of_core (i : cause_t) : gtpv2c_cause_ie :=
  mk_cause_ie (tlv_of GTP_IE_CAUSE (cause_length (c_cause_value i))) (c_cause_value i)
    (bf_pack [(1, c_cs i); (1, c_bce i); (1, c_pce i); (5, 0)])
    (c_offending_ie_type i) (c_offending_ie_length i)
    (bf_pack [(4, c_offending_ie_instance i); (4, 0)]).
Definition cause_of_tlv (t : gtpv2c_tlv) : gtpv2c_cause_ie := mk_cause_ie t 0 0 0 0 0.
Definition cause_to_core (i : gtpv2c_cause_ie) : cause_t :=
  mk_cause_t (cause_value i) (bf_field 2 1 (cause_u1 i)) (bf_field 1 1 (cause_u1 i)) (bf_field 0 1 (cause_u1 i))
    (type_of_the_offending_ie i) (length_of_the_offending_ie i) (bf_field 0 4 (cause_u2 i)).

(** [dump_to] sets the length first; of the four octets about the offending
    IE it writes three. *)
Definition cause_dump_to (i : gtpv2c_cause_ie) : list Z * gtpv2c_cause_ie :=
  let i := mk_cause_ie (tlv_set_length (cause_length (cause_value i)) (cause_tlv i)) (cause_value i) (cause_u1 i)
             (type_of_the_offending_ie i) (length_of_the_offending_ie i) (cause_u2 i) in
  (tlv_dump_to (cause_tlv i) ++ [cause_value i] ++ [cause_u1 i] ++
   (if t_length (cause_tlv i) =? 6
    then [type_of_the_offending_ie i] ++ be_bytes 2 (length_of_the_offending_ie i) else []), i).
Definition cause_load_from (i : gtpv2c_cause_ie) (ins : istream) : result gtpc_exn (gtpv2c_cause_ie * istream) :=
  let '(v, ins) := read_u8 (cause_value i) ins in
  let '(b1, ins) := read_u8 (cause_u1 i) ins in
  if t_length (cause_tlv i) =? 6 then
    let '(ty, ins) := read_u8 (type_of_the_offending_ie i) ins in
    let '(l, ins) := read_be 2 (length_of_the_offending_ie i) ins in
    let '(b2, ins) := read_u8 (cause_u2 i) ins in
    Val (mk_cause_ie (cause_tlv i) v b1 ty l b2, ins)
  else Val (mk_cause_ie (cause_tlv i) v b1 (type_of_the_offending_ie i) (length_of_the_offending_ie i) (cause_u2 i), ins).

#[export] Instance cause_ie : GtpIe gtpv2c_cause_ie := {|
  ie_tlv := cause_tlv; ie_dump_to i := Val (cause_dump_to i);
  ie_of_tlv := cause_of_tlv; ie_load_from := cause_load_from;
|}.

(** A cause other than "mandatory IE incorrect", and no offending IE. *)
Definition cause_wf (i : gtpv2c_cause_ie) : Prop :=
  tlv_ok GTP_IE_CAUSE (cause_tlv i) /\ t_length (cause_tlv i) = 2 /\ cause_value i <> MANDATORY_IE_INCORRECT /\
  type_of_the_offending_ie i = 0 /\ length_of_the_offending_ie i = 0 /\ cause_u2 i = 0.

#[export] Instance cause_codec : GtpCodec gtpv2c_cause_ie cause_wf.
Proof.
  split; [intros i [[_ H] _]; exact H|]. intros [t v b ty l b2] rest (Ht & Hl & Hv & H1 & H2 & H3).
  exists [v; b]. eexists. simpl in *. subst. apply Z.eqb_neq in Hv.
  unfold cause_dump_to, cause_length. simpl. rewrite Hv. destruct t as [tt tl tu]. simpl in *. subst.
  split; [done|]. split; [done|]. unfold cause_load_from. codec_tac.
Qed.

Lemma cause_core c :
  fits 1 (c_pce c) -> fits 1 (c_bce c) -> fits 1 (c_cs c) -> c_cause_value c <> MANDATORY_IE_INCORRECT ->
  c_offending_ie_type c = 0 -> c_offending_ie_length c = 0 -> c_offending_ie_instance c = 0 ->
  cause_wf (cause_of_core c) /\ cause_to_core (cause_of_core c) = c.
Proof.
  intros H1 H2 H3 Hv H4 H5 H6. apply Z.eqb_neq in Hv as Hv'. unfold cause_of_core, cause_length. rewrite Hv'. split.
  - split; [by apply tlv_ok_of|]. simpl. by rewrite H6.
  - unfold cause_to_core. destruct c. simpl c_cause_value in *.
    cbn [cause_value cause_u1 cause_u2 type_of_the_offending_ie length_of_the_offending_ie
      c_pce c_bce c_cs c_offending_ie_type c_offending_ie_length c_offending_ie_instance] in *.
    f_equal; bf_simpl; try done. by subst.
Qed.
