(* ===== verification/GtpIdentity.v ===== *)
(** * GTPv2-C elements that identify the subscriber and the network

    IMSI, MEI, MSISDN (packed BCD digits, [src/gtpv2c/3gpp_29.274.hpp]) and
    the access point name.  The sixteen nibbles of a digit union cover its
    eight octets, so that copying them one by one copies [b]. *)
From S2P Require Import Prelude Stream GtpTlv GtpScalar.
From Stdlib Require Import ZArith Lia.
From stdpp Require Import base numbers tactics list.
Open Scope Z_scope.

Definition GTP_IE_IMSI : Z := 1.
Definition GTP_IE_ACCESS_POINT_NAME : Z := 71.
Definition GTP_IE_MOBILE_EQUIPMENT_IDENTITY : Z := 75.
Definition GTP_IE_MSISDN : Z := 76.
Definition IMSI_BCD8_SIZE : nat := 8.

(** ** Packed digits *)

(** [os.write(b, n)] and [is.read(b, n)] on an array of eight octets. *)
Definition bcd_write {E} (b : list Z) (n : Z) : result E (list Z) :=
  if n <=? 8 then Val (take (Z.to_nat n) b) else UB.
Definition bcd_read {E} (b : list Z) (n : Z) (ins : istream) : result E (list Z * istream) :=
  if n <=? 8 then
    let '(d, ins) := read (take (Z.to_nat n) b) ins in Val (d ++ drop (Z.to_nat n) b, ins)
  else UB.

(** [2 * n], less one when the last high nibble is a filler; [b[-1]] is read
    for [n = 0]. *)
Definition bcd_num_digits {E} (b : list Z) (n : Z) : result E Z :=
  if n =? 0 then UB
  else Val (if Z.land (nth (Z.to_nat (n - 1)) b 0) 240 =? 240 then n * 2 - 1 else n * 2).

(** Octets of [n] digits. *)
Definition bcd_octets (n : Z) : Z := (n + 1) / 2.

(** [n] digits in [b], zeroes behind, a filler exactly when [n] is odd. *)
Definition bcd_wf (b : list Z) (n : Z) : Prop :=
  length b = IMSI_BCD8_SIZE /\ 1 <= n <= 15 /\
  drop (Z.to_nat (bcd_octets n)) b = replicate (8 - Z.to_nat (bcd_octets n)) 0 /\
  (Z.land (nth (Z.to_nat (bcd_octets n - 1)) b 0) 240 =? 240) = (n mod 2 =? 1).

Lemma bcd_octets_range n : 1 <= n <= 15 -> 1 <= bcd_octets n <= 8.
Proof. unfold bcd_octets. intros. split; [apply Z.div_le_lower_bound; lia|apply Z.div_le_upper_bound; lia]. Qed.

Lemma bcd_digits_parity n : bcd_octets n * 2 = if n mod 2 =? 1 then n + 1 else n.
Proof.
  unfold bcd_octets. pose proof (Z.div_mod n 2 ltac:(lia)). pose proof (Z.mod_pos_bound n 2 ltac:(lia)).
  destruct (Z.eqb_spec (n mod 2) 1) as [E|E].
  - replace (n + 1) with ((n / 2 + 1) * 2) by lia. rewrite Z.div_mul by lia. lia.
  - replace (n + 1) with (1 + (n / 2) * 2) by lia. rewrite Z.div_add by lia. change (1 / 2) with 0. lia.
Qed.

Lemma bcd_num_digits_wf {E} b n : bcd_wf b n -> @bcd_num_digits E b (bcd_octets n) = Val n.
Proof.
  intros (Hl & Hn & _ & Hf). pose proof (bcd_octets_range n Hn). unfold bcd_num_digits.
  replace (bcd_octets n =? 0) with false by (symmetry; lia). rewrite Hf, bcd_digits_parity.
  f_equal. destruct (n mod 2 =? 1); lia.
Qed.

Lemma bcd_write_wf {E} b n : bcd_wf b n ->
  @bcd_write E b (bcd_octets n) = Val (take (Z.to_nat (bcd_octets n)) b) /\
  Z.of_nat (length (take (Z.to_nat (bcd_octets n)) b)) = bcd_octets n.
Proof.
  intros (Hl & Hn & _ & _). pose proof (bcd_octets_range n Hn). unfold bcd_write.
  replace (bcd_octets n <=? 8) with true by (symmetry; lia).
  split; [done|]. rewrite length_take, Hl. unfold IMSI_BCD8_SIZE. lia.
Qed.

(** Reading the written digits into a cleared array. *)
Lemma bcd_read_wf {E} b n rest : bcd_wf b n ->
  @bcd_read E (replicate 8 0) (bcd_octets n) (istream_of (take (Z.to_nat (bcd_octets n)) b ++ rest)) =
  Val (b, istream_of rest).
Proof.
  intros (Hl & Hn & Hz & _). pose proof (bcd_octets_range n Hn). unfold bcd_read.
  replace (bcd_octets n <=? 8) with true by (symmetry; lia).
  rewrite read_app by (rewrite !length_take, length_replicate, Hl; done).
  rewrite drop_replicate, <- Hz, take_drop. done.
Qed.

(** ** IMSI *)
Record imsi_t := mk_imsi_t { imsi_core_b : list Z; imsi_core_num_digits : Z }.
Record gtpv2c_imsi_ie := mk_imsi_ie { imsi_tlv : gtpv2c_tlv; imsi_b : list Z; imsi_num_digits : Z }.

Definition imsi_of_core (i : imsi_t) : gtpv2c_imsi_ie :=
  mk_imsi_ie (tlv_of GTP_IE_IMSI (u32 (imsi_core_num_digits i + 1) / 2)) (imsi_core_b i) (imsi_core_num_digits i).
Definition imsi_of_tlv (t : gtpv2c_tlv) : gtpv2c_imsi_ie := mk_imsi_ie t (replicate 8 0) 0.
Definition imsi_to_core (i : gtpv2c_imsi_ie) : imsi_t := mk_imsi_t (imsi_b i) (imsi_num_digits i).
Definition imsi_dump_to (i : gtpv2c_imsi_ie) : result gtpc_exn (list Z) :=
  d ← bcd_write (imsi_b i) (t_length (imsi_tlv i)); Val (tlv_dump_to (imsi_tlv i) ++ d).
Definition imsi_load_from (i : gtpv2c_imsi_ie) (ins : istream) : result gtpc_exn (gtpv2c_imsi_ie * istream) :=
  let l := t_length (imsi_tlv i) in
  '(b, ins) ← bcd_read (imsi_b i) l ins;
  n ← bcd_num_digits b l;
  Val (mk_imsi_ie (imsi_tlv i) b (if 15 <? n then 15 else n), ins).

#[export] Instance imsi_ie : GtpIe gtpv2c_imsi_ie := {|
  ie_tlv := imsi_tlv; ie_dump_to i := b ← imsi_dump_to i; Val (b, i);
  ie_of_tlv := imsi_of_tlv; ie_load_from := imsi_load_from;
|}.

Definition imsi_wf (i : gtpv2c_imsi_ie) : Prop :=
  tlv_ok GTP_IE_IMSI (imsi_tlv i) /\ t_length (imsi_tlv i) = bcd_octets (imsi_num_digits i) /\
  bcd_wf (imsi_b i) (imsi_num_digits i).

#[export] Instance imsi_codec : GtpCodec gtpv2c_imsi_ie imsi_wf.
Proof.
  split; [intros i [[_ H] _]; exact H|]. intros [t b n] rest (Ht & Hl & Hw). simpl in *.
  destruct (bcd_write_wf (E := gtpc_exn) b n Hw) as [E1 E2].
  exists (take (Z.to_nat (bcd_octets n)) b). eexists.
  unfold imsi_dump_to, imsi_load_from. simpl. rewrite Hl, E1. split; [done|]. split; [done|].
  rewrite bcd_read_wf by done. simpl. rewrite bcd_num_digits_wf by done. simpl.
  destruct Hw as (_ & Hn & _). by replace (15 <? n) with false by (symmetry; lia).
Qed.

Lemma bcd_tlv_of ty n : 1 <= n <= 15 ->
  tlv_ok ty (tlv_of ty (bcd_octets n)) /\ t_length (tlv_of ty (bcd_octets n)) = bcd_octets n.
Proof.
  intros Hn. pose proof (bcd_octets_range n Hn). split; [apply tlv_ok_of; lia|].
  simpl. apply wrapu_id. unfold fits. lia.
Qed.

Lemma imsi_core i :
  bcd_wf (imsi_core_b i) (imsi_core_num_digits i) ->
  imsi_wf (imsi_of_core i) /\ imsi_to_core (imsi_of_core i) = i.
Proof.
  intros Hw. split; [|by destruct i]. destruct Hw as (? & Hn & ? & ?).
  unfold imsi_of_core. rewrite wrapu_id by (unfold fits; lia).
  fold (bcd_octets (imsi_core_num_digits i)).
  destruct (bcd_tlv_of GTP_IE_IMSI _ Hn). by split.
Qed.

(** ** MEI

    [num_digits = 16] (an IMEISV) fills the eight octets. *)
Record mei_t := mk_mei_t { mei_core_b : list Z; mei_core_num_digits : Z }.
Record gtpv2c_mei_ie := mk_mei_ie { mei_tlv : gtpv2c_tlv; mei_b : list Z; mei_num_digits : Z }.

(** [b[n / 2] |= 0xF0] for an odd [n]. *)
Definition bcd_fill {E} (b : list Z) (n : Z) : result E (list Z) :=
  if n mod 2 =? 1 then
    if n / 2 <? 8 then Val (<[Z.to_nat (n / 2) := Z.lor (nth (Z.to_nat (n / 2)) b 0) 240]> b) else UB
  else Val b.

Definition mei_of_core (i : mei_t) : result gtpc_exn gtpv2c_mei_ie :=
  let n := mei_core_num_digits i in
  b ← bcd_fill (mei_core_b i) n;
  Val (mk_mei_ie (tlv_of GTP_IE_MOBILE_EQUIPMENT_IDENTITY (n / 2 + n mod 2)) b n).
Definition mei_of_tlv (t : gtpv2c_tlv) : gtpv2c_mei_ie := mk_mei_ie t (replicate 8 0) 0.
Definition mei_to_core (i : gtpv2c_mei_ie) : mei_t := mk_mei_t (mei_b i) (mei_num_digits i).
Definition mei_dump_to (i : gtpv2c_mei_ie) : result gtpc_exn (list Z) :=
  d ← bcd_write (mei_b i) (t_length (mei_tlv i)); Val (tlv_dump_to (mei_tlv i) ++ d).
Definition mei_load_from (i : gtpv2c_mei_ie) (ins : istream) : result gtpc_exn (gtpv2c_mei_ie * istream) :=
  let l := t_length (mei_tlv i) in
  '(b, ins) ← bcd_read (mei_b i) l ins;
  n ← bcd_num_digits b l;
  Val (mk_mei_ie (mei_tlv i) b (if 15 <? n then 15 else n), ins).

#[export] Instance mei_ie : GtpIe gtpv2c_mei_ie := {|
  ie_tlv := mei_tlv; ie_dump_to i := b ← mei_dump_to i; Val (b, i);
  ie_of_tlv := mei_of_tlv; ie_load_from := mei_load_from;
|}.

Definition mei_wf (i : gtpv2c_mei_ie) : Prop :=
  tlv_ok GTP_IE_MOBILE_EQUIPMENT_IDENTITY (mei_tlv i) /\
  t_length (mei_tlv i) = bcd_octets (mei_num_digits i) /\ bcd_wf (mei_b i) (mei_num_digits i).

#[export] Instance mei_codec : GtpCodec gtpv2c_mei_ie mei_wf.
Proof.
  split; [intros i [[_ H] _]; exact H|]. intros [t b n] rest (Ht & Hl & Hw). simpl in *.
  destruct (bcd_write_wf (E := gtpc_exn) b n Hw) as [E1 E2].
  exists (take (Z.to_nat (bcd_octets n)) b). eexists.
  unfold mei_dump_to, mei_load_from. simpl. rewrite Hl, E1. split; [done|]. split; [done|].
  rewrite bcd_read_wf by done. simpl. rewrite bcd_num_digits_wf by done. simpl.
  destruct Hw as (_ & Hn & _). by replace (15 <? n) with false by (symmetry; lia).
Qed.

Lemma lor_filler x : Z.land x 240 = 240 -> Z.lor x 240 = x.
Proof.
  intros H. apply Z.bits_inj'. intros i Hi. rewrite Z.lor_spec.
  apply (f_equal (fun z => Z.testbit z i)) in H. rewrite Z.land_spec in H.
  destruct (Z.testbit x i), (Z.testbit 240 i); done.
Qed.

Lemma bcd_half n : n / 2 + n mod 2 = bcd_octets n /\ ((n mod 2 =? 1) = true -> n / 2 = bcd_octets n - 1).
Proof.
  pose proof (bcd_digits_parity n) as H. pose proof (Z.div_mod n 2 ltac:(lia)).
  pose proof (Z.mod_pos_bound n 2 ltac:(lia)).
  destruct (Z.eqb_spec (n mod 2) 1); split; intros; try done; lia.
Qed.

(** The filler is already in place. *)
Lemma bcd_fill_wf {X} b n : bcd_wf b n -> @bcd_fill X b n = Val b.
Proof.
  intros (Hl & Hn & _ & Hf). unfold bcd_fill. destruct (bcd_half n) as [_ Hh].
  destruct (n mod 2 =? 1) eqn:E; [|done]. rewrite (Hh eq_refl). pose proof (bcd_octets_range n Hn).
  replace (bcd_octets n - 1 <? 8) with true by (symmetry; lia).
  apply Z.eqb_eq in Hf. rewrite lor_filler by done. f_equal. apply list_insert_id.
  rewrite nth_lookup. destruct (b !! Z.to_nat (bcd_octets n - 1)) eqn:Eb; [done|].
  apply lookup_ge_None in Eb. rewrite Hl in Eb. unfold IMSI_BCD8_SIZE in Eb. lia.
Qed.

Lemma mei_core i :
  bcd_wf (mei_core_b i) (mei_core_num_digits i) ->
  exists a, mei_of_core i = Val a /\ mei_wf a /\ mei_to_core a = i.
Proof.
  intros Hw. unfold mei_of_core. rewrite bcd_fill_wf by done. simpl. eexists. split; [done|].
  split; [|by destruct i]. rewrite (proj1 (bcd_half _)).
  destruct (bcd_tlv_of GTP_IE_MOBILE_EQUIPMENT_IDENTITY (mei_core_num_digits i)) as [? ?]; [by destruct Hw as (? & ? & ?)|].
  by split.
Qed.

(** ** MSISDN

    Fifteen nibbles are copied: the last one of the object built from the core
    type is whatever the memory held ([junk]). *)
Record msisdn_t := mk_msisdn_t { msisdn_core_b : list Z; msisdn_core_num_digits : Z }.
Record gtpv2c_msisdn_ie := mk_msisdn_ie { msisdn_tlv : gtpv2c_tlv; msisdn_b : list Z; msisdn_num_digits : Z }.

Definition copy15 (src : list Z) (hi : Z) : list Z := take 7 src ++ [bf_pack [(4, bf_field 0 4 (nth 7 src 0)); (4, hi)]].
Definition msisdn_octets (n : Z) : Z := let n := if 15 <? n then 15 else n in n / 2 + n mod 2.

Definition msisdn_of_core (junk : Z) (m : msisdn_t) : gtpv2c_msisdn_ie :=
  mk_msisdn_ie (tlv_of GTP_IE_MSISDN (msisdn_octets (msisdn_core_num_digits m)))
    (copy15 (msisdn_core_b m) junk) (msisdn_core_num_digits m).
Definition msisdn_of_tlv (t : gtpv2c_tlv) : gtpv2c_msisdn_ie := mk_msisdn_ie t (replicate 8 0) 0.
Definition msisdn_to_core (i : gtpv2c_msisdn_ie) : msisdn_t :=
  mk_msisdn_t (copy15 (msisdn_b i) 0) (msisdn_num_digits i).
Definition msisdn_dump_to (i : gtpv2c_msisdn_ie) : result gtpc_exn (list Z * gtpv2c_msisdn_ie) :=
  let n := if 15 <? msisdn_num_digits i then 15 else msisdn_num_digits i in
  let l := n / 2 + n mod 2 in
  b ← bcd_fill (msisdn_b i) n;
  let i := mk_msisdn_ie (tlv_set_length l (msisdn_tlv i)) b n in
  d ← bcd_write b l;
  Val (tlv_dump_to (msisdn_tlv i) ++ d, i).
Definition msisdn_load_from (i : gtpv2c_msisdn_ie) (ins : istream) : result gtpc_exn (gtpv2c_msisdn_ie * istream) :=
  let l := t_length (msisdn_tlv i) in
  '(b, ins) ← bcd_read (msisdn_b i) l ins;
  n ← bcd_num_digits b l;
  Val (mk_msisdn_ie (msisdn_tlv i) b n, ins).

#[export] Instance msisdn_ie : GtpIe gtpv2c_msisdn_ie := {|
  ie_tlv := msisdn_tlv; ie_dump_to := msisdn_dump_to; ie_of_tlv := msisdn_of_tlv; ie_load_from := msisdn_load_from;
|}.

Definition msisdn_wf (i : gtpv2c_msisdn_ie) : Prop :=
  tlv_ok GTP_IE_MSISDN (msisdn_tlv i) /\ t_length (msisdn_tlv i) = bcd_octets (msisdn_num_digits i) /\
  bcd_wf (msisdn_b i) (msisdn_num_digits i).

#[export] Instance msisdn_codec : GtpCodec gtpv2c_msisdn_ie msisdn_wf.
Proof.
  split; [intros i [[_ H] _]; exact H|]. intros [t b n] rest (Ht & Hl & Hw). simpl in *.
  destruct (bcd_write_wf (E := gtpc_exn) b n Hw) as [E1 E2]. destruct (Hw) as (_ & Hn & _).
  pose proof (bcd_octets_range n Hn).
  exists (take (Z.to_nat (bcd_octets n)) b), (mk_msisdn_ie t b n).
  assert (tlv_set_length (bcd_octets n) t = t) as Et.
  { unfold tlv_set_length. rewrite wrapu_id by (unfold fits; lia). destruct t. simpl in *. by subst. }
  unfold msisdn_dump_to, msisdn_load_from.
  cbn [msisdn_num_digits msisdn_b msisdn_tlv msisdn_of_tlv]. replace (15 <? n) with false by (symmetry; lia).
  rewrite bcd_fill_wf by done. cbn [mbind result_bind].
  rewrite (proj1 (bcd_half n)), E1, Et. cbn [mbind result_bind].
  split; [done|]. split; [by rewrite Hl|]. rewrite Hl.
  rewrite bcd_read_wf by done. simpl. by rewrite bcd_num_digits_wf.
Qed.

Lemma copy15_id b hi : length b = 8%nat -> nth 7 b 0 = 0 -> hi = 0 -> copy15 b hi = b.
Proof.
  intros Hl H7 ->. unfold copy15. rewrite H7.
  do 8 (destruct b as [|? b]; [simpl in Hl; lia|]). destruct b; [|simpl in Hl; lia].
  cbn [nth] in H7. by rewrite H7.
Qed.

(** Up to fourteen digits the last octet is unused. *)
Lemma bcd_last_zero b n : bcd_wf b n -> n <= 14 -> nth 7 b 0 = 0.
Proof.
  intros (Hl & Hn & Hz & _) H14.
  assert (bcd_octets n <= 7) by (unfold bcd_octets; apply Z.lt_succ_r, Z.div_lt_upper_bound; lia).
  pose proof (bcd_octets_range n Hn).
  rewrite <- (take_drop (Z.to_nat (bcd_octets n)) b), Hz, app_nth2 by (rewrite length_take, Hl; unfold IMSI_BCD8_SIZE; lia).
  rewrite nth_lookup. destruct (replicate _ _ !! _) eqn:E; [|done]. by apply lookup_replicate in E as [-> _].
Qed.

Lemma msisdn_core m :
  bcd_wf (msisdn_core_b m) (msisdn_core_num_digits m) -> msisdn_core_num_digits m <= 14 ->
  msisdn_wf (msisdn_of_core 0 m) /\ msisdn_to_core (msisdn_of_core 0 m) = m.
Proof.
  intros Hw H14. pose proof (bcd_last_zero _ _ Hw H14) as H7. pose proof (proj1 Hw) as Hl.
  destruct (Hw) as (_ & Hn & _). unfold msisdn_to_core, msisdn_of_core, msisdn_octets.
  replace (15 <? _) with false by (symmetry; lia). rewrite (proj1 (bcd_half _)).
  cbn [msisdn_b msisdn_num_digits]. rewrite !(copy15_id (msisdn_core_b m)) by done. split; [|by destruct m].
  destruct (bcd_tlv_of GTP_IE_MSISDN _ Hn). by split.
Qed.

(** ** Access Point Name *)
Record apn_t := mk_apn_t { apn_core : list Z }.
Record gtpv2c_access_point_name_ie := mk_apn_ie { apn_tlv : gtpv2c_tlv; access_point_name : list Z }.

Definition apn_of_core (a : apn_t) : gtpv2c_access_point_name_ie :=
  mk_apn_ie (tlv_of GTP_IE_ACCESS_POINT_NAME (Z.of_nat (length (apn_core a)) + 1)) (apn_core a).
Definition apn_of_tlv (t : gtpv2c_tlv) : gtpv2c_access_point_name_ie := mk_apn_ie t [].
Definition apn_to_core (i : gtpv2c_access_point_name_ie) : apn_t := mk_apn_t (access_point_name i).

(** [string_to_dotted] never ends on a name of 256 characters or more, and
    [dotted_to_string] on some octets a peer can send. *)
Definition apn_dump_to (junk : list Z) (i : gtpv2c_access_point_name_ie)
  : result gtpc_exn (list Z * gtpv2c_access_point_name_ie) :=
  match string_to_dotted junk (access_point_name i) with
  | None => Diverge
  | Some dotted =>
    let i := mk_apn_ie (tlv_set_length (Z.of_nat (length dotted)) (apn_tlv i)) (access_point_name i) in
    Val (tlv_dump_to (apn_tlv i) ++ dotted, i)
  end.
Definition apn_load_from (i : gtpv2c_access_point_name_ie) (ins : istream)
  : result gtpc_exn (gtpv2c_access_point_name_ie * istream) :=
  '(apn, ins) ← read_exact (Z.to_nat (t_length (apn_tlv i))) ins;
  match dotted_to_string apn with
  | None => Diverge
  | Some r => '(_, s) ← r; Val (mk_apn_ie (apn_tlv i) s, ins)
  end.

#[export] Instance apn_ie : GtpIe gtpv2c_access_point_name_ie := {|
  ie_tlv := apn_tlv; ie_dump_to := apn_dump_to []; ie_of_tlv := apn_of_tlv; ie_load_from := apn_load_from;
|}.

Definition apn_text_ok (s : list Z) : Prop :=
  Forall (fun c => c <> 0) s /\ Z.of_nat (length s) < 256 /\ Forall short_label (labels s).

Definition apn_wf (i : gtpv2c_access_point_name_ie) : Prop :=
  tlv_ok GTP_IE_ACCESS_POINT_NAME (apn_tlv i) /\
  t_length (apn_tlv i) = Z.of_nat (length (access_point_name i)) + 1 /\ apn_text_ok (access_point_name i).

Lemma encode_labels_length s : length (encode_labels (labels s)) = S (length s).
Proof. apply length_encode_labels_from. Qed.

#[export] Instance apn_codec : GtpCodec gtpv2c_access_point_name_ie apn_wf.
Proof.
  split; [intros i [[_ H] _]; exact H|]. intros [t s] rest (Ht & Hl & Hnz & Hlen & Hs). simpl in *.
  exists (encode_labels (labels s)), (mk_apn_ie t s).
  assert (tlv_set_length (Z.of_nat (length (encode_labels (labels s)))) t = t) as Et.
  { rewrite encode_labels_length. unfold tlv_set_length. rewrite wrapu_id by (unfold fits; lia).
    destruct t. simpl in *. f_equal. lia. }
  unfold apn_dump_to, apn_load_from. cbn [access_point_name apn_tlv apn_of_tlv].
  rewrite string_to_dotted_spec, Et by done. cbn [apn_tlv].
  rewrite encode_labels_length. split; [done|]. split; [lia|]. rewrite Hl.
  rewrite read_exact_app by (rewrite encode_labels_length; lia). simpl.
  by rewrite dotted_to_string_spec by (done || lia).
Qed.

Lemma apn_core_ok a :
  apn_text_ok (apn_core a) -> apn_wf (apn_of_core a) /\ apn_to_core (apn_of_core a) = a.
Proof.
  intros Ha. pose proof Ha as (? & ? & ?). split; [|by destruct a].
  split; [apply tlv_ok_of; lia|]. split; [|done]. simpl. apply wrapu_id. unfold fits. lia.
Qed.
