(* ===== verification/GtpQos.v ===== *)
(** * GTPv2-C quality of service and indication flags

    [gtpv2c_bearer_qos_ie], [gtpv2c_flow_qos_ie], [gtpv2c_indication_ie]
    ([src/gtpv2c/3gpp_29.274.hpp]).  A bit rate travels as five octets, most
    significant first; the core types hold it as a [uint64_t]. *)
From S2P Require Import Prelude Stream GtpTlv GtpScalar.
From Stdlib Require Import ZArith Lia.
From stdpp Require Import base numbers tactics list.
Open Scope Z_scope.

Definition GTP_IE_INDICATION : Z := 77.
Definition GTP_IE_BEARER_QUALITY_OF_SERVICE : Z := 80.
Definition GTP_IE_FLOW_QUALITY_OF_SERVICE : Z := 81.

(** ** Bit rates as octets *)

(** The loop [a[i] = x & 0xFF; x = x >> 8], [i] going down. *)
Fixpoint rate_store (n : nat) (x : Z) (acc : list Z) : list Z :=
  match n with
  | O => acc
  | S n => rate_store n (Z.shiftr x 8) (Z.land x 255 :: acc)
  end.
Definition rate_octets (x : Z) : list Z := rate_store 5 (Z.land x 1099511627775) [].

(** The loop [x = x << 8; x |= a[i]], [i] going up. *)
Definition rate_value (a : list Z) : Z := foldl (fun x b => Z.lor (u64 (Z.shiftl x 8)) b) 0 a.

Lemma rate_store_be n x acc : rate_store n x acc = be_bytes n x ++ acc.
Proof.
  revert x acc. induction n as [|n IH]; intros x acc; [done|].
  cbn [rate_store]. rewrite IH. unfold be_bytes. cbn [le_bytes rev]. rewrite <- app_assoc. cbn [app].
  rewrite Z.shiftr_div_pow2 by lia. change 255 with (Z.ones 8). rewrite Z.land_ones by lia. done.
Qed.

Lemma rate_octets_be x : fits 40 x -> rate_octets x = be_bytes 5 x.
Proof.
  intros H. unfold rate_octets. rewrite rate_store_be, app_nil_r.
  change 1099511627775 with (Z.ones 40). rewrite Z.land_ones by lia. by rewrite Z.mod_small.
Qed.

Lemma lor_shift8 x b : 0 <= x -> fits 8 b -> Z.lor (Z.shiftl x 8) b = x * 256 + b.
Proof.
  intros Hx Hb. rewrite <- Z.lxor_lor, <- Z.add_nocarry_lxor.
  1: rewrite Z.shiftl_mul_pow2 by lia; done.
  all: apply Z.bits_inj'; intros i Hi; rewrite Z.land_spec, Z.bits_0, Z.shiftl_spec by lia;
    destruct (decide (i < 8)); [rewrite Z.testbit_neg_r by lia; done|];
    rewrite <- (Z.mod_small b (2 ^ 8)) by exact Hb; rewrite Z.mod_pow2_bits_high by lia; apply andb_false_r.
Qed.

Lemma be_val_snoc l b : be_val (l ++ [b]) = be_val l * 256 + b.
Proof. unfold be_val. rewrite rev_app_distr. simpl. lia. Qed.

Lemma be_val_range l : byte_list l -> 0 <= be_val l < 2 ^ (8 * Z.of_nat (length l)).
Proof. apply be_val_fits. Qed.

Lemma rate_value_be l : byte_list l -> (length l <= 7)%nat -> rate_value l = be_val l.
Proof.
  induction l as [|b l IH] using rev_ind; intros Hb Hl; [done|].
  apply Forall_app in Hb as [Hb Hb1]. apply Forall_inv in Hb1. rewrite length_app in Hl. simpl in Hl.
  unfold rate_value in *. rewrite foldl_app. simpl. rewrite IH by (done || lia).
  pose proof (be_val_range l Hb) as Hr.
  assert (be_val l < 2 ^ 48) by (eapply Z.lt_le_trans; [apply Hr|]; apply Z.pow_le_mono_r; lia).
  rewrite wrapu_id by (rewrite Z.shiftl_mul_pow2 by lia; unfold fits; lia).
  rewrite lor_shift8, be_val_snoc by (apply Hr || exact Hb1). done.
Qed.

Lemma rate_roundtrip x : fits 40 x -> rate_value (rate_octets x) = x.
Proof.
  intros H. rewrite rate_octets_be, rate_value_be by (done || apply be_bytes_byte || (rewrite length_be_bytes; lia)). by apply be_val_bytes.
Qed.

Lemma length_rate_octets x : length (rate_octets x) = 5%nat.
Proof. done. Qed.

(** ** Bearer QoS *)
Record bearer_qos_t := mk_bearer_qos_t {
  bq_pci : Z; bq_pl : Z; bq_pvi : Z; bq_label_qci : Z;
  bq_mbr_ul : Z; bq_mbr_dl : Z; bq_gbr_ul : Z; bq_gbr_dl : Z }.
Record gtpv2c_bearer_qos_ie := mk_bearer_qos_ie {
  bearer_qos_tlv : gtpv2c_tlv;
  bearer_qos_b : Z;
  label_qci : Z;
  maximum_bit_rate_for_uplink : list Z;
  maximum_bit_rate_for_downlink : list Z;
  guaranted_bit_rate_for_uplink : list Z;
  guaranted_bit_rate_for_downlink : list Z;
}.

Definition zero5 : list Z := replicate 5 0.

Definition bearer_qos_of_core (b : bearer_qos_t) : gtpv2c_bearer_qos_ie :=
  mk_bearer_qos_ie (tlv_of GTP_IE_BEARER_QUALITY_OF_SERVICE 22)
    (bf_pack [(1, bq_pvi b); (1, 0); (4, bq_pl b); (1, bq_pci b); (1, 0)]) (bq_label_qci b)
    (rate_octets (bq_mbr_ul b)) (rate_octets (bq_mbr_dl b)) (rate_octets (bq_gbr_ul b)) (rate_octets (bq_gbr_dl b)).
Definition bearer_qos_of_tlv (t : gtpv2c_tlv) : gtpv2c_bearer_qos_ie :=
  mk_bearer_qos_ie t 0 0 zero5 zero5 zero5 zero5.
Definition bearer_qos_to_core (i : gtpv2c_bearer_qos_ie) : bearer_qos_t :=
  mk_bearer_qos_t (bf_field 6 1 (bearer_qos_b i)) (bf_field 2 4 (bearer_qos_b i)) (bf_field 0 1 (bearer_qos_b i))
    (label_qci i) (rate_value (maximum_bit_rate_for_uplink i)) (rate_value (maximum_bit_rate_for_downlink i))
    (rate_value (guaranted_bit_rate_for_uplink i)) (rate_value (guaranted_bit_rate_for_downlink i)).
Definition bearer_qos_dump_to (i : gtpv2c_bearer_qos_ie) : list Z :=
  tlv_dump_to (bearer_qos_tlv i) ++ [bearer_qos_b i] ++ [label_qci i] ++
  maximum_bit_rate_for_uplink i ++ maximum_bit_rate_for_downlink i ++
  guaranted_bit_rate_for_uplink i ++ guaranted_bit_rate_for_downlink i.
Definition bearer_qos_load_from (i : gtpv2c_bearer_qos_ie) (ins : istream)
  : result gtpc_exn (gtpv2c_bearer_qos_ie * istream) :=
  let t := bearer_qos_tlv i in
  if t_length t =? 22 then
    let '(b, ins) := read_u8 (bearer_qos_b i) ins in
    let '(q, ins) := read_u8 (label_qci i) ins in
    let '(mu, ins) := read (maximum_bit_rate_for_uplink i) ins in
    let '(md, ins) := read (maximum_bit_rate_for_downlink i) ins in
    let '(gu, ins) := read (guaranted_bit_rate_for_uplink i) ins in
    let '(gd, ins) := read (guaranted_bit_rate_for_downlink i) ins in
    Val (mk_bearer_qos_ie t b q mu md gu gd, ins)
  else Throw (gtpc_tlv_bad_length_exception GTP_IE_BEARER_QUALITY_OF_SERVICE (t_length t)).

#[export] Instance bearer_qos_ie : GtpIe gtpv2c_bearer_qos_ie := {|
  ie_tlv := bearer_qos_tlv; ie_dump_to i := Val (bearer_qos_dump_to i, i);
  ie_of_tlv := bearer_qos_of_tlv; ie_load_from := bearer_qos_load_from;
|}.

Definition bearer_qos_wf (i : gtpv2c_bearer_qos_ie) : Prop :=
  tlv_ok GTP_IE_BEARER_QUALITY_OF_SERVICE (bearer_qos_tlv i) /\ t_length (bearer_qos_tlv i) = 22 /\
  length (maximum_bit_rate_for_uplink i) = 5%nat /\ length (maximum_bit_rate_for_downlink i) = 5%nat /\
  length (guaranted_bit_rate_for_uplink i) = 5%nat /\ length (guaranted_bit_rate_for_downlink i) = 5%nat.

#[export] Instance bearer_qos_codec : GtpCodec gtpv2c_bearer_qos_ie bearer_qos_wf.
Proof.
  split; [intros i [[_ H] _]; exact H|]. intros [t b q mu md gu gd] rest (Ht & Hl & H1 & H2 & H3 & H4).
  exists ([b; q] ++ mu ++ md ++ gu ++ gd). eexists. split; [done|].
  cbn [ie_load_from ie_of_tlv ie_tlv bearer_qos_ie bearer_qos_tlv maximum_bit_rate_for_uplink
    maximum_bit_rate_for_downlink guaranted_bit_rate_for_uplink guaranted_bit_rate_for_downlink] in *.
  split; [rewrite !length_app; simpl; lia|].
  unfold bearer_qos_load_from. cbn [bearer_qos_of_tlv bearer_qos_tlv]. rewrite Hl, Z.eqb_refl. codec_tac.
Qed.

Lemma bearer_qos_core b :
  fits 1 (bq_pci b) -> fits 4 (bq_pl b) -> fits 1 (bq_pvi b) ->
  fits 40 (bq_mbr_ul b) -> fits 40 (bq_mbr_dl b) -> fits 40 (bq_gbr_ul b) -> fits 40 (bq_gbr_dl b) ->
  bearer_qos_wf (bearer_qos_of_core b) /\ bearer_qos_to_core (bearer_qos_of_core b) = b.
Proof.
  intros. split; [split; [by apply tlv_ok_of|done]|].
  unfold bearer_qos_to_core, bearer_qos_of_core. destruct b.
  cbn [bearer_qos_b label_qci maximum_bit_rate_for_uplink maximum_bit_rate_for_downlink
    guaranted_bit_rate_for_uplink guaranted_bit_rate_for_downlink
    bq_pci bq_pl bq_pvi bq_label_qci bq_mbr_ul bq_mbr_dl bq_gbr_ul bq_gbr_dl] in *.
  rewrite !rate_roundtrip by done. f_equal; bf_simpl; done.
Qed.

(** ** Flow QoS

    The constructor's loop runs for [i = 4; i <= 0]: never.  The four arrays
    keep what the memory held. *)
Record flow_qos_t := mk_flow_qos_t {
  fq_label_qci : Z; fq_mbr_ul : Z; fq_mbr_dl : Z; fq_gbr_ul : Z; fq_gbr_dl : Z }.
Record gtpv2c_flow_qos_ie := mk_flow_qos_ie {
  flow_qos_tlv : gtpv2c_tlv;
  flow_label_qci : Z;
  flow_mbr_ul : list Z;
  flow_mbr_dl : list Z;
  flow_gbr_ul : list Z;
  flow_gbr_dl : list Z;
}.

Definition flow_qos_of_core (junk : list Z * list Z * list Z * list Z) (b : flow_qos_t) : gtpv2c_flow_qos_ie :=
  let '(j1, j2, j3, j4) := junk in
  mk_flow_qos_ie (tlv_of GTP_IE_FLOW_QUALITY_OF_SERVICE 21) (fq_label_qci b) j1 j2 j3 j4.
Definition flow_qos_of_tlv (t : gtpv2c_tlv) : gtpv2c_flow_qos_ie := mk_flow_qos_ie t 0 zero5 zero5 zero5 zero5.

(** Here the shift comes after the octet. *)
Definition flow_rate_value (a : list Z) : Z := foldl (fun x b => u64 (Z.shiftl (Z.lor x b) 8)) 0 a.
Definition flow_qos_to_core (i : gtpv2c_flow_qos_ie) : flow_qos_t :=
  mk_flow_qos_t (flow_label_qci i) (flow_rate_value (flow_mbr_ul i)) (flow_rate_value (flow_mbr_dl i))
    (flow_rate_value (flow_gbr_ul i)) (flow_rate_value (flow_gbr_dl i)).
Definition flow_qos_dump_to (i : gtpv2c_flow_qos_ie) : list Z :=
  tlv_dump_to (flow_qos_tlv i) ++ [flow_label_qci i] ++ flow_mbr_ul i ++ flow_mbr_dl i ++ flow_gbr_ul i ++ flow_gbr_dl i.
Definition flow_qos_load_from (i : gtpv2c_flow_qos_ie) (ins : istream)
  : result gtpc_exn (gtpv2c_flow_qos_ie * istream) :=
  let t := flow_qos_tlv i in
  if t_length t =? 21 then
    let '(q, ins) := read_u8 (flow_label_qci i) ins in
    let '(mu, ins) := read (flow_mbr_ul i) ins in
    let '(md, ins) := read (flow_mbr_dl i) ins in
    let '(gu, ins) := read (flow_gbr_ul i) ins in
    let '(gd, ins) := read (flow_gbr_dl i) ins in
    Val (mk_flow_qos_ie t q mu md gu gd, ins)
  else Throw (gtpc_tlv_bad_length_exception GTP_IE_FLOW_QUALITY_OF_SERVICE (t_length t)).

#[export] Instance flow_qos_ie : GtpIe gtpv2c_flow_qos_ie := {|
  ie_tlv := flow_qos_tlv; ie_dump_to i := Val (flow_qos_dump_to i, i);
  ie_of_tlv := flow_qos_of_tlv; ie_load_from := flow_qos_load_from;
|}.

Definition flow_qos_wf (i : gtpv2c_flow_qos_ie) : Prop :=
  tlv_ok GTP_IE_FLOW_QUALITY_OF_SERVICE (flow_qos_tlv i) /\ t_length (flow_qos_tlv i) = 21 /\
  length (flow_mbr_ul i) = 5%nat /\ length (flow_mbr_dl i) = 5%nat /\
  length (flow_gbr_ul i) = 5%nat /\ length (flow_gbr_dl i) = 5%nat.

#[export] Instance flow_qos_codec : GtpCodec gtpv2c_flow_qos_ie flow_qos_wf.
Proof.
  split; [intros i [[_ H] _]; exact H|]. intros [t q mu md gu gd] rest (Ht & Hl & H1 & H2 & H3 & H4).
  exists ([q] ++ mu ++ md ++ gu ++ gd). eexists. split; [done|].
  cbn [ie_load_from ie_of_tlv ie_tlv flow_qos_ie flow_qos_tlv flow_mbr_ul flow_mbr_dl flow_gbr_ul flow_gbr_dl] in *.
  split; [rewrite !length_app; simpl; lia|].
  unfold flow_qos_load_from. cbn [flow_qos_of_tlv flow_qos_tlv]. rewrite Hl, Z.eqb_refl. codec_tac.
Qed.

(** ** Indication *)
Record indication_t := mk_indication_t {
  ind_daf : Z; ind_dtf : Z; ind_hi : Z; ind_dfi : Z; ind_oi : Z; ind_isrsi : Z; ind_israi : Z; ind_sgwci : Z;
  ind_sqci : Z; ind_uimsi : Z; ind_cfsi : Z; ind_crsi : Z; ind_p : Z; ind_pt : Z; ind_si : Z; ind_msv : Z;
  ind_retloc : Z; ind_pbic : Z; ind_srni : Z; ind_s6af : Z; ind_s4af : Z; ind_mbmdt : Z; ind_israu : Z; ind_ccrsi : Z;
  ind_cprai : Z; ind_arrl : Z; ind_ppof : Z; ind_ppon : Z; ind_ppsi : Z; ind_csfbi : Z; ind_clii : Z; ind_cpsr : Z;
  ind_nsi : Z; ind_uasi : Z; ind_dtci : Z; ind_bdwi : Z; ind_psci : Z; ind_pcri : Z; ind_aosi : Z; ind_aopi : Z;
  ind_roaai : Z; ind_epcosi : Z; ind_cpopci : Z; ind_pmtsmi : Z; ind_s11tf : Z; ind_pnsi : Z; ind_unaccsi : Z; ind_wpmsi : Z;
  ind_eevrsi : Z; ind_ltemui : Z; ind_ltempi : Z; ind_enbcpi : Z; ind_tspcmi : Z }.
Record gtpv2c_indication_ie := mk_indication_ie {
  indication_tlv : gtpv2c_tlv;
  ind_u1 : Z; ind_u2 : Z; ind_u3 : Z; ind_u4 : Z; ind_u5 : Z; ind_u6 : Z; ind_u7 : Z;
}.

Definition indication_of_core (i : indication_t) : gtpv2c_indication_ie :=
  mk_indication_ie (tlv_of GTP_IE_INDICATION 7)
    (bf_pack [(1, ind_sgwci i); (1, ind_israi i); (1, ind_isrsi i); (1, ind_oi i); (1, ind_dfi i); (1, ind_hi i); (1, ind_dtf i); (1, ind_daf i)])
    (bf_pack [(1, ind_msv i); (1, ind_si i); (1, ind_pt i); (1, ind_p i); (1, ind_crsi i); (1, ind_cfsi i); (1, ind_uimsi i); (1, ind_sqci i)])
    (bf_pack [(1, ind_ccrsi i); (1, ind_israu i); (1, ind_mbmdt i); (1, ind_s4af i); (1, ind_s6af i); (1, ind_srni i); (1, ind_pbic i); (1, ind_retloc i)])
    (bf_pack [(1, ind_cpsr i); (1, ind_clii i); (1, ind_csfbi i); (1, ind_ppsi i); (1, ind_ppon i); (1, ind_ppof i); (1, ind_arrl i); (1, ind_cprai i)])
    (bf_pack [(1, ind_aopi i); (1, ind_aosi i); (1, ind_pcri i); (1, ind_psci i); (1, ind_bdwi i); (1, ind_dtci i); (1, ind_uasi i); (1, ind_nsi i)])
    (bf_pack [(1, ind_wpmsi i); (1, ind_unaccsi i); (1, ind_pnsi i); (1, ind_s11tf i); (1, ind_pmtsmi i); (1, ind_cpopci i); (1, ind_epcosi i); (1, ind_roaai i)])
    (bf_pack [(1, ind_tspcmi i); (1, ind_enbcpi i); (1, ind_ltempi i); (1, ind_ltemui i); (1, ind_eevrsi i); (1, 0); (1, 0); (1, 0)]).
Definition indication_of_tlv (t : gtpv2c_tlv) : gtpv2c_indication_ie := mk_indication_ie t 0 0 0 0 0 0 0.
Definition indication_to_core (i : gtpv2c_indication_ie) : indication_t :=
  mk_indication_t
    (bf_field 7 1 (ind_u1 i)) (bf_field 6 1 (ind_u1 i)) (bf_field 5 1 (ind_u1 i)) (bf_field 4 1 (ind_u1 i))
    (bf_field 3 1 (ind_u1 i)) (bf_field 2 1 (ind_u1 i)) (bf_field 1 1 (ind_u1 i)) (bf_field 0 1 (ind_u1 i))
    (bf_field 7 1 (ind_u2 i)) (bf_field 6 1 (ind_u2 i)) (bf_field 5 1 (ind_u2 i)) (bf_field 4 1 (ind_u2 i))
    (bf_field 3 1 (ind_u2 i)) (bf_field 2 1 (ind_u2 i)) (bf_field 1 1 (ind_u2 i)) (bf_field 0 1 (ind_u2 i))
    (bf_field 7 1 (ind_u3 i)) (bf_field 6 1 (ind_u3 i)) (bf_field 5 1 (ind_u3 i)) (bf_field 4 1 (ind_u3 i))
    (bf_field 3 1 (ind_u3 i)) (bf_field 2 1 (ind_u3 i)) (bf_field 1 1 (ind_u3 i)) (bf_field 0 1 (ind_u3 i))
    (bf_field 7 1 (ind_u4 i)) (bf_field 6 1 (ind_u4 i)) (bf_field 5 1 (ind_u4 i)) (bf_field 4 1 (ind_u4 i))
    (bf_field 3 1 (ind_u4 i)) (bf_field 2 1 (ind_u4 i)) (bf_field 1 1 (ind_u4 i)) (bf_field 0 1 (ind_u4 i))
    (bf_field 7 1 (ind_u5 i)) (bf_field 6 1 (ind_u5 i)) (bf_field 5 1 (ind_u5 i)) (bf_field 4 1 (ind_u5 i))
    (bf_field 3 1 (ind_u5 i)) (bf_field 2 1 (ind_u5 i)) (bf_field 1 1 (ind_u5 i)) (bf_field 0 1 (ind_u5 i))
    (bf_field 7 1 (ind_u6 i)) (bf_field 6 1 (ind_u6 i)) (bf_field 5 1 (ind_u6 i)) (bf_field 4 1 (ind_u6 i))
    (bf_field 3 1 (ind_u6 i)) (bf_field 2 1 (ind_u6 i)) (bf_field 1 1 (ind_u6 i)) (bf_field 0 1 (ind_u6 i))
    (bf_field 4 1 (ind_u7 i)) (bf_field 3 1 (ind_u7 i)) (bf_field 2 1 (ind_u7 i)) (bf_field 1 1 (ind_u7 i))
    (bf_field 0 1 (ind_u7 i)).
Definition indication_dump_to (i : gtpv2c_indication_ie) : list Z :=
  let l := t_length (indication_tlv i) in
  tlv_dump_to (indication_tlv i) ++ [ind_u1 i] ++
  (if 1 <? l then [ind_u2 i] ++
  (if 2 <? l then [ind_u3 i] ++
  (if 3 <? l then [ind_u4 i] ++
  (if 4 <? l then [ind_u5 i] ++
  (if 5 <? l then [ind_u6 i] ++
  (if 6 <? l then [ind_u7 i] else []) else []) else []) else []) else []) else []).

(** One further octet, present when the length exceeds [k]. *)
Definition ind_next (k l old : Z) (ins : istream) : Z * istream :=
  if k <? l then read_u8 old ins else (old, ins).

(** The nested tests of [load_from]: [k + 1 < l] implies [k < l]. *)
Definition indication_load_from (i : gtpv2c_indication_ie) (ins : istream)
  : result gtpc_exn (gtpv2c_indication_ie * istream) :=
  let t := indication_tlv i in
  let l := t_length t in
  if l <? 1 then Throw (gtpc_tlv_bad_length_exception (t_type t) l)
  else
    let '(b1, ins) := read_u8 (ind_u1 i) ins in
    let '(b2, ins) := ind_next 1 l (ind_u2 i) ins in
    let '(b3, ins) := ind_next 2 l (ind_u3 i) ins in
    let '(b4, ins) := ind_next 3 l (ind_u4 i) ins in
    let '(b5, ins) := ind_next 4 l (ind_u5 i) ins in
    let '(b6, ins) := ind_next 5 l (ind_u6 i) ins in
    let '(b7, ins) := ind_next 6 l (ind_u7 i) ins in
    Val (mk_indication_ie t b1 b2 b3 b4 b5 b6 b7, ins).

#[export] Instance indication_ie : GtpIe gtpv2c_indication_ie := {|
  ie_tlv := indication_tlv; ie_dump_to i := Val (indication_dump_to i, i);
  ie_of_tlv := indication_of_tlv; ie_load_from := indication_load_from;
|}.

Definition indication_wf (i : gtpv2c_indication_ie) : Prop :=
  tlv_ok GTP_IE_INDICATION (indication_tlv i) /\ t_length (indication_tlv i) = 7.

#[export] Instance indication_codec : GtpCodec gtpv2c_indication_ie indication_wf.
Proof.
  split; [intros i [[_ H] _]; exact H|]. intros [t b1 b2 b3 b4 b5 b6 b7] rest (Ht & Hl).
  cbn [ie_load_from ie_of_tlv ie_tlv ie_dump_to indication_ie indication_tlv] in *.
  exists [b1; b2; b3; b4; b5; b6; b7]. eexists. unfold indication_dump_to, indication_load_from, ind_next.
  cbn [indication_of_tlv indication_tlv]. rewrite Hl.
  split; [done|]. split; [done|]. change (7 <? 1) with false.
  repeat match goal with |- context [?k <? 7] => change (k <? 7) with true end. cbv iota. codec_tac.
Qed.

Definition indication_core_wf (i : indication_t) : Prop :=
  Forall (fits 1)
    [ind_daf i; ind_dtf i; ind_hi i; ind_dfi i; ind_oi i; ind_isrsi i; ind_israi i; ind_sgwci i;
     ind_sqci i; ind_uimsi i; ind_cfsi i; ind_crsi i; ind_p i; ind_pt i; ind_si i; ind_msv i;
     ind_retloc i; ind_pbic i; ind_srni i; ind_s6af i; ind_s4af i; ind_mbmdt i; ind_israu i; ind_ccrsi i;
     ind_cprai i; ind_arrl i; ind_ppof i; ind_ppon i; ind_ppsi i; ind_csfbi i; ind_clii i; ind_cpsr i;
     ind_nsi i; ind_uasi i; ind_dtci i; ind_bdwi i; ind_psci i; ind_pcri i; ind_aosi i; ind_aopi i;
     ind_roaai i; ind_epcosi i; ind_cpopci i; ind_pmtsmi i; ind_s11tf i; ind_pnsi i; ind_unaccsi i; ind_wpmsi i;
     ind_eevrsi i; ind_ltemui i; ind_ltempi i; ind_enbcpi i; ind_tspcmi i].

Lemma indication_core i :
  indication_core_wf i ->
  indication_wf (indication_of_core i) /\ indication_to_core (indication_of_core i) = i.
Proof.
  intros H. split; [split; [by apply tlv_ok_of|done]|].
  unfold indication_core_wf in H. repeat (apply Forall_cons in H as [? H]).
  unfold indication_to_core, indication_of_core. destruct i.
  cbn [ind_u1 ind_u2 ind_u3 ind_u4 ind_u5 ind_u6 ind_u7
    ind_daf ind_dtf ind_hi ind_dfi ind_oi ind_isrsi ind_israi ind_sgwci
    ind_sqci ind_uimsi ind_cfsi ind_crsi ind_p ind_pt ind_si ind_msv
    ind_retloc ind_pbic ind_srni ind_s6af ind_s4af ind_mbmdt ind_israu ind_ccrsi
    ind_cprai ind_arrl ind_ppof ind_ppon ind_ppsi ind_csfbi ind_clii ind_cpsr
    ind_nsi ind_uasi ind_dtci ind_bdwi ind_psci ind_pcri ind_aosi ind_aopi
    ind_roaai ind_epcosi ind_cpopci ind_pmtsmi ind_s11tf ind_pnsi ind_unaccsi ind_wpmsi
    ind_eevrsi ind_ltemui ind_ltempi ind_enbcpi ind_tspcmi] in *.
  f_equal; bf_simpl; done.
Qed.
