(* ===== verification/GtpLocation.v ===== *)
(** * GTPv2-C location elements

    Serving Network, the fields of the User Location Information and the ULI
    itself ([src/gtpv2c/3gpp_29.274.hpp]).  All of them start with the same
    three octets of MCC and MNC digits: [plmn_octets], built from the digits
    of the core types ([plmn]). *)
From S2P Require Import Prelude Stream GtpTlv GtpScalar GtpQos.
From Stdlib Require Import ZArith Lia.
From stdpp Require Import base numbers tactics list.
Open Scope Z_scope.

Definition GTP_IE_SERVING_NETWORK : Z := 83.
Definition GTP_IE_USER_LOCATION_INFORMATION : Z := 86.

(** ** MCC and MNC digits *)
Record plmn := mk_plmn {
  mcc_digit_1 : Z; mcc_digit_2 : Z; mcc_digit_3 : Z; mnc_digit_1 : Z; mnc_digit_2 : Z; mnc_digit_3 : Z }.
Record plmn_octets := mk_plmn_octets { pl_u1 : Z; pl_u2 : Z; pl_u3 : Z }.

Definition plmn_pack (p : plmn) : plmn_octets :=
  mk_plmn_octets (bf_pack [(4, mcc_digit_1 p); (4, mcc_digit_2 p)]) (bf_pack [(4, mcc_digit_3 p); (4, mnc_digit_3 p)])
    (bf_pack [(4, mnc_digit_1 p); (4, mnc_digit_2 p)]).
Definition plmn_unpack (o : plmn_octets) : plmn :=
  mk_plmn (bf_field 0 4 (pl_u1 o)) (bf_field 4 4 (pl_u1 o)) (bf_field 0 4 (pl_u2 o))
    (bf_field 0 4 (pl_u3 o)) (bf_field 4 4 (pl_u3 o)) (bf_field 4 4 (pl_u2 o)).
Definition plmn_zero : plmn_octets := mk_plmn_octets 0 0 0.
Definition plmn_dump (o : plmn_octets) : list Z := [pl_u1 o] ++ [pl_u2 o] ++ [pl_u3 o].
Definition plmn_load (o : plmn_octets) (ins : istream) : plmn_octets * istream :=
  let '(a, ins) := read_u8 (pl_u1 o) ins in
  let '(b, ins) := read_u8 (pl_u2 o) ins in
  let '(c, ins) := read_u8 (pl_u3 o) ins in
  (mk_plmn_octets a b c, ins).

Definition plmn_wf (p : plmn) : Prop :=
  fits 4 (mcc_digit_1 p) /\ fits 4 (mcc_digit_2 p) /\ fits 4 (mcc_digit_3 p) /\
  fits 4 (mnc_digit_1 p) /\ fits 4 (mnc_digit_2 p) /\ fits 4 (mnc_digit_3 p).

Lemma plmn_core p : plmn_wf p -> plmn_unpack (plmn_pack p) = p.
Proof.
  intros (? & ? & ? & ? & ? & ?). unfold plmn_unpack, plmn_pack. destruct p.
  cbn [pl_u1 pl_u2 pl_u3 mcc_digit_1 mcc_digit_2 mcc_digit_3 mnc_digit_1 mnc_digit_2 mnc_digit_3] in *.
  f_equal; bf_simpl; done.
Qed.

Lemma plmn_load_dump o0 o rest : plmn_load o0 (istream_of (plmn_dump o ++ rest)) = (o, istream_of rest).
Proof. unfold plmn_load, plmn_dump. codec_tac. by destruct o. Qed.

(** ** Serving Network *)
Record serving_network_t := mk_serving_network_t { sn_plmn : plmn }.
Record gtpv2c_serving_network_ie := mk_serving_network_ie { serving_network_tlv : gtpv2c_tlv; sn_octets : plmn_octets }.

Definition serving_network_of_core (s : serving_network_t) : gtpv2c_serving_network_ie :=
  mk_serving_network_ie (tlv_of GTP_IE_SERVING_NETWORK 3) (plmn_pack (sn_plmn s)).
Definition serving_network_of_tlv (t : gtpv2c_tlv) : gtpv2c_serving_network_ie := mk_serving_network_ie t plmn_zero.
Definition serving_network_to_core (i : gtpv2c_serving_network_ie) : serving_network_t :=
  mk_serving_network_t (plmn_unpack (sn_octets i)).
Definition serving_network_dump_to (i : gtpv2c_serving_network_ie) : list Z :=
  tlv_dump_to (serving_network_tlv i) ++ plmn_dump (sn_octets i).
Definition serving_network_load_from (i : gtpv2c_serving_network_ie) (ins : istream)
  : result gtpc_exn (gtpv2c_serving_network_ie * istream) :=
  let t := serving_network_tlv i in
  if t_length t =? 3 then
    let '(o, ins) := plmn_load (sn_octets i) ins in Val (mk_serving_network_ie t o, ins)
  else Throw (gtpc_tlv_bad_length_exception GTP_IE_SERVING_NETWORK (t_length t)).

#[export] Instance serving_network_ie : GtpIe gtpv2c_serving_network_ie := {|
  ie_tlv := serving_network_tlv; ie_dump_to i := Val (serving_network_dump_to i, i);
  ie_of_tlv := serving_network_of_tlv; ie_load_from := serving_network_load_from;
|}.

Definition serving_network_wf (i : gtpv2c_serving_network_ie) : Prop :=
  tlv_ok GTP_IE_SERVING_NETWORK (serving_network_tlv i) /\ t_length (serving_network_tlv i) = 3.

#[export] Instance serving_network_codec : GtpCodec gtpv2c_serving_network_ie serving_network_wf.
Proof.
  split; [intros i [[_ H] _]; exact H|]. intros [t o] rest (Ht & Hl). exists (plmn_dump o). eexists.
  cbn [ie_load_from ie_of_tlv ie_tlv serving_network_ie serving_network_tlv] in *.
  split; [done|]. split; [by rewrite Hl|]. unfold serving_network_load_from.
  cbn [serving_network_of_tlv serving_network_tlv]. by rewrite Hl, Z.eqb_refl, plmn_load_dump.
Qed.

Lemma serving_network_core s :
  plmn_wf (sn_plmn s) ->
  serving_network_wf (serving_network_of_core s) /\ serving_network_to_core (serving_network_of_core s) = s.
Proof.
  intros H. split; [split; [by apply tlv_ok_of|done]|].
  unfold serving_network_to_core, serving_network_of_core. simpl. rewrite plmn_core by done. by destruct s.
Qed.

(** ** CGI *)
Record cgi_field_t := mk_cgi_field_t { cgi_plmn : plmn; cgi_location_area_code : Z; cgi_cell_identity : Z }.
Record gtpv2c_cgi_field_ie := mk_cgi_field_ie { cgi_octets : plmn_octets; cgi_ie_location_area_code : Z; cgi_ie_cell_identity : Z }.

Definition cgi_field_of_core (c : cgi_field_t) : gtpv2c_cgi_field_ie := mk_cgi_field_ie (plmn_pack (cgi_plmn c)) (cgi_location_area_code c) (cgi_cell_identity c).
Definition cgi_field_default : gtpv2c_cgi_field_ie := mk_cgi_field_ie plmn_zero 0 0.
Definition cgi_field_to_core (i : gtpv2c_cgi_field_ie) : cgi_field_t := mk_cgi_field_t (plmn_unpack (cgi_octets i)) (cgi_ie_location_area_code i) (cgi_ie_cell_identity i).
Definition cgi_field_dump_to (i : gtpv2c_cgi_field_ie) : list Z :=
  plmn_dump (cgi_octets i) ++ be_bytes 2 (cgi_ie_location_area_code i) ++ be_bytes 2 (cgi_ie_cell_identity i).
Definition cgi_field_load_from (i : gtpv2c_cgi_field_ie) (ins : istream) : gtpv2c_cgi_field_ie * istream :=
  let '(o, ins) := plmn_load (cgi_octets i) ins in
  let '(v0, ins) := read_be 2 (cgi_ie_location_area_code i) ins in
  let '(v1, ins) := read_be 2 (cgi_ie_cell_identity i) ins in
  (mk_cgi_field_ie o v0 v1, ins).

Definition cgi_field_wf (i : gtpv2c_cgi_field_ie) : Prop := fits 16 (cgi_ie_location_area_code i) /\ fits 16 (cgi_ie_cell_identity i).

Lemma cgi_field_roundtrip i i0 rest : cgi_field_wf i ->
  cgi_field_load_from i0 (istream_of (cgi_field_dump_to i ++ rest)) = (i, istream_of rest).
Proof.
  intros Hw. unfold cgi_field_wf in Hw. unfold cgi_field_load_from, cgi_field_dump_to.
  rewrite <- app_assoc, plmn_load_dump. stream_norm; stream_step ltac:(apply Hw). stream_step ltac:(apply Hw). by destruct i.
Qed.

Lemma cgi_field_core c : plmn_wf (cgi_plmn c) -> fits 16 (cgi_location_area_code c) /\ fits 16 (cgi_cell_identity c) ->
  cgi_field_wf (cgi_field_of_core c) /\ cgi_field_to_core (cgi_field_of_core c) = c.
Proof.
  intros Hp Hw. split; [exact Hw|]. unfold cgi_field_to_core, cgi_field_of_core. simpl.
  rewrite plmn_core by done. by destruct c.
Qed.

(** ** SAI *)
Record sai_field_t := mk_sai_field_t { sai_plmn : plmn; sai_location_area_code : Z; sai_service_area_code : Z }.
Record gtpv2c_sai_field_ie := mk_sai_field_ie { sai_octets : plmn_octets; sai_ie_location_area_code : Z; sai_ie_service_area_code : Z }.

Definition sai_field_of_core (c : sai_field_t) : gtpv2c_sai_field_ie := mk_sai_field_ie (plmn_pack (sai_plmn c)) (sai_location_area_code c) (sai_service_area_code c).
Definition sai_field_default : gtpv2c_sai_field_ie := mk_sai_field_ie plmn_zero 0 0.
Definition sai_field_to_core (i : gtpv2c_sai_field_ie) : sai_field_t := mk_sai_field_t (plmn_unpack (sai_octets i)) (sai_ie_location_area_code i) (sai_ie_service_area_code i).
Definition sai_field_dump_to (i : gtpv2c_sai_field_ie) : list Z :=
  plmn_dump (sai_octets i) ++ be_bytes 2 (sai_ie_location_area_code i) ++ be_bytes 2 (sai_ie_service_area_code i).
Definition sai_field_load_from (i : gtpv2c_sai_field_ie) (ins : istream) : gtpv2c_sai_field_ie * istream :=
  let '(o, ins) := plmn_load (sai_octets i) ins in
  let '(v0, ins) := read_be 2 (sai_ie_location_area_code i) ins in
  let '(v1, ins) := read_be 2 (sai_ie_service_area_code i) ins in
  (mk_sai_field_ie o v0 v1, ins).

Definition sai_field_wf (i : gtpv2c_sai_field_ie) : Prop := fits 16 (sai_ie_location_area_code i) /\ fits 16 (sai_ie_service_area_code i).

Lemma sai_field_roundtrip i i0 rest : sai_field_wf i ->
  sai_field_load_from i0 (istream_of (sai_field_dump_to i ++ rest)) = (i, istream_of rest).
Proof.
  intros Hw. unfold sai_field_wf in Hw. unfold sai_field_load_from, sai_field_dump_to.
  rewrite <- app_assoc, plmn_load_dump. stream_norm; stream_step ltac:(apply Hw). stream_step ltac:(apply Hw). by destruct i.
Qed.

Lemma sai_field_core c : plmn_wf (sai_plmn c) -> fits 16 (sai_location_area_code c) /\ fits 16 (sai_service_area_code c) ->
  sai_field_wf (sai_field_of_core c) /\ sai_field_to_core (sai_field_of_core c) = c.
Proof.
  intros Hp Hw. split; [exact Hw|]. unfold sai_field_to_core, sai_field_of_core. simpl.
  rewrite plmn_core by done. by destruct c.
Qed.

(** ** RAI *)
Record rai_field_t := mk_rai_field_t { rai_plmn : plmn; rai_location_area_code : Z; rai_routing_area_code : Z }.
Record gtpv2c_rai_field_ie := mk_rai_field_ie { rai_octets : plmn_octets; rai_ie_location_area_code : Z; rai_ie_routing_area_code : Z }.

Definition rai_field_of_core (c : rai_field_t) : gtpv2c_rai_field_ie := mk_rai_field_ie (plmn_pack (rai_plmn c)) (rai_location_area_code c) (rai_routing_area_code c).
Definition rai_field_default : gtpv2c_rai_field_ie := mk_rai_field_ie plmn_zero 0 0.
Definition rai_field_to_core (i : gtpv2c_rai_field_ie) : rai_field_t := mk_rai_field_t (plmn_unpack (rai_octets i)) (rai_ie_location_area_code i) (rai_ie_routing_area_code i).
Definition rai_field_dump_to (i : gtpv2c_rai_field_ie) : list Z :=
  plmn_dump (rai_octets i) ++ be_bytes 2 (rai_ie_location_area_code i) ++ be_bytes 2 (rai_ie_routing_area_code i).
Definition rai_field_load_from (i : gtpv2c_rai_field_ie) (ins : istream) : gtpv2c_rai_field_ie * istream :=
  let '(o, ins) := plmn_load (rai_octets i) ins in
  let '(v0, ins) := read_be 2 (rai_ie_location_area_code i) ins in
  let '(v1, ins) := read_be 2 (rai_ie_routing_area_code i) ins in
  (mk_rai_field_ie o v0 v1, ins).

Definition rai_field_wf (i : gtpv2c_rai_field_ie) : Prop := fits 16 (rai_ie_location_area_code i) /\ fits 16 (rai_ie_routing_area_code i).

Lemma rai_field_roundtrip i i0 rest : rai_field_wf i ->
  rai_field_load_from i0 (istream_of (rai_field_dump_to i ++ rest)) = (i, istream_of rest).
Proof.
  intros Hw. unfold rai_field_wf in Hw. unfold rai_field_load_from, rai_field_dump_to.
  rewrite <- app_assoc, plmn_load_dump. stream_norm; stream_step ltac:(apply Hw). stream_step ltac:(apply Hw). by destruct i.
Qed.

Lemma rai_field_core c : plmn_wf (rai_plmn c) -> fits 16 (rai_location_area_code c) /\ fits 16 (rai_routing_area_code c) ->
  rai_field_wf (rai_field_of_core c) /\ rai_field_to_core (rai_field_of_core c) = c.
Proof.
  intros Hp Hw. split; [exact Hw|]. unfold rai_field_to_core, rai_field_of_core. simpl.
  rewrite plmn_core by done. by destruct c.
Qed.

(** ** TAI *)
Record tai_field_t := mk_tai_field_t { tai_plmn : plmn; tai_tracking_area_code : Z }.
Record gtpv2c_tai_field_ie := mk_tai_field_ie { tai_octets : plmn_octets; tai_ie_tracking_area_code : Z }.

Definition tai_field_of_core (c : tai_field_t) : gtpv2c_tai_field_ie := mk_tai_field_ie (plmn_pack (tai_plmn c)) (tai_tracking_area_code c).
Definition tai_field_default : gtpv2c_tai_field_ie := mk_tai_field_ie plmn_zero 0.
Definition tai_field_to_core (i : gtpv2c_tai_field_ie) : tai_field_t := mk_tai_field_t (plmn_unpack (tai_octets i)) (tai_ie_tracking_area_code i).
Definition tai_field_dump_to (i : gtpv2c_tai_field_ie) : list Z :=
  plmn_dump (tai_octets i) ++ be_bytes 2 (tai_ie_tracking_area_code i).
Definition tai_field_load_from (i : gtpv2c_tai_field_ie) (ins : istream) : gtpv2c_tai_field_ie * istream :=
  let '(o, ins) := plmn_load (tai_octets i) ins in
  let '(v0, ins) := read_be 2 (tai_ie_tracking_area_code i) ins in
  (mk_tai_field_ie o v0, ins).

Definition tai_field_wf (i : gtpv2c_tai_field_ie) : Prop := fits 16 (tai_ie_tracking_area_code i).

Lemma tai_field_roundtrip i i0 rest : tai_field_wf i ->
  tai_field_load_from i0 (istream_of (tai_field_dump_to i ++ rest)) = (i, istream_of rest).
Proof.
  intros Hw. unfold tai_field_wf in Hw. unfold tai_field_load_from, tai_field_dump_to.
  rewrite <- app_assoc, plmn_load_dump. stream_norm; stream_step ltac:(apply Hw). by destruct i.
Qed.

Lemma tai_field_core c : plmn_wf (tai_plmn c) -> fits 16 (tai_tracking_area_code c) ->
  tai_field_wf (tai_field_of_core c) /\ tai_field_to_core (tai_field_of_core c) = c.
Proof.
  intros Hp Hw. split; [exact Hw|]. unfold tai_field_to_core, tai_field_of_core. simpl.
  rewrite plmn_core by done. by destruct c.
Qed.

(** ** LAI *)
Record lai_field_t := mk_lai_field_t { lai_plmn : plmn; lai_location_area_code : Z }.
Record gtpv2c_lai_field_ie := mk_lai_field_ie { lai_octets : plmn_octets; lai_ie_location_area_code : Z }.

Definition lai_field_of_core (c : lai_field_t) : gtpv2c_lai_field_ie := mk_lai_field_ie (plmn_pack (lai_plmn c)) (lai_location_area_code c).
Definition lai_field_default : gtpv2c_lai_field_ie := mk_lai_field_ie plmn_zero 0.
Definition lai_field_to_core (i : gtpv2c_lai_field_ie) : lai_field_t := mk_lai_field_t (plmn_unpack (lai_octets i)) (lai_ie_location_area_code i).
Definition lai_field_dump_to (i : gtpv2c_lai_field_ie) : list Z :=
  plmn_dump (lai_octets i) ++ be_bytes 2 (lai_ie_location_area_code i).
Definition lai_field_load_from (i : gtpv2c_lai_field_ie) (ins : istream) : gtpv2c_lai_field_ie * istream :=
  let '(o, ins) := plmn_load (lai_octets i) ins in
  let '(v0, ins) := read_be 2 (lai_ie_location_area_code i) ins in
  (mk_lai_field_ie o v0, ins).

Definition lai_field_wf (i : gtpv2c_lai_field_ie) : Prop := fits 16 (lai_ie_location_area_code i).

Lemma lai_field_roundtrip i i0 rest : lai_field_wf i ->
  lai_field_load_from i0 (istream_of (lai_field_dump_to i ++ rest)) = (i, istream_of rest).
Proof.
  intros Hw. unfold lai_field_wf in Hw. unfold lai_field_load_from, lai_field_dump_to.
  rewrite <- app_assoc, plmn_load_dump. stream_norm; stream_step ltac:(apply Hw). by destruct i.
Qed.

Lemma lai_field_core c : plmn_wf (lai_plmn c) -> fits 16 (lai_location_area_code c) ->
  lai_field_wf (lai_field_of_core c) /\ lai_field_to_core (lai_field_of_core c) = c.
Proof.
  intros Hp Hw. split; [exact Hw|]. unfold lai_field_to_core, lai_field_of_core. simpl.
  rewrite plmn_core by done. by destruct c.
Qed.

(** ** ECGI *)
Record ecgi_field_t := mk_ecgi_field_t { ecgi_plmn : plmn; ecgi_spare : Z; eci : Z; ecgi_cell_identifier : list Z }.
Record gtpv2c_ecgi_field_ie := mk_ecgi_field_ie { ecgi_octets : plmn_octets; ecgi_u4 : Z; e_utran_cell_identifier : list Z }.

Definition ecgi_field_of_core (c : ecgi_field_t) : gtpv2c_ecgi_field_ie :=
  mk_ecgi_field_ie (plmn_pack (ecgi_plmn c)) (bf_pack [(4, eci c); (4, 0)]) (ecgi_cell_identifier c).
Definition ecgi_field_default : gtpv2c_ecgi_field_ie := mk_ecgi_field_ie plmn_zero 0 [0; 0; 0].
Definition ecgi_field_to_core (i : gtpv2c_ecgi_field_ie) : ecgi_field_t :=
  mk_ecgi_field_t (plmn_unpack (ecgi_octets i)) (bf_field 4 4 (ecgi_u4 i)) (bf_field 0 4 (ecgi_u4 i))
    (e_utran_cell_identifier i).
Definition ecgi_field_dump_to (i : gtpv2c_ecgi_field_ie) : list Z :=
  plmn_dump (ecgi_octets i) ++ [ecgi_u4 i] ++ e_utran_cell_identifier i.
Definition ecgi_field_load_from (i : gtpv2c_ecgi_field_ie) (ins : istream) : gtpv2c_ecgi_field_ie * istream :=
  let '(o, ins) := plmn_load (ecgi_octets i) ins in
  let '(b, ins) := read_u8 (ecgi_u4 i) ins in
  let '(e, ins) := read (e_utran_cell_identifier i) ins in
  (mk_ecgi_field_ie o b e, ins).

Definition ecgi_field_wf (i : gtpv2c_ecgi_field_ie) : Prop := length (e_utran_cell_identifier i) = 3%nat.

Lemma ecgi_field_roundtrip i i0 rest : ecgi_field_wf i -> ecgi_field_wf i0 ->
  ecgi_field_load_from i0 (istream_of (ecgi_field_dump_to i ++ rest)) = (i, istream_of rest).
Proof.
  intros Hw Hw0. unfold ecgi_field_wf in *. unfold ecgi_field_load_from, ecgi_field_dump_to.
  rewrite <- app_assoc, plmn_load_dump. stream_norm. stream_step done.
  rewrite read_app by lia. by destruct i.
Qed.

Lemma ecgi_field_core c :
  plmn_wf (ecgi_plmn c) -> ecgi_spare c = 0 -> fits 4 (eci c) -> length (ecgi_cell_identifier c) = 3%nat ->
  ecgi_field_wf (ecgi_field_of_core c) /\ ecgi_field_to_core (ecgi_field_of_core c) = c.
Proof.
  intros Hp Hs He Hl. split; [exact Hl|]. unfold ecgi_field_to_core, ecgi_field_of_core. destruct c.
  cbn [ecgi_octets ecgi_u4 e_utran_cell_identifier ecgi_plmn ecgi_spare eci ecgi_cell_identifier] in *.
  rewrite plmn_core by done. f_equal; bf_simpl; done.
Qed.

(** ** Macro eNodeB ID

    The four high bits of the identity are kept in an octet that [dump_to]
    does not write and [load_from] does not read. *)
Record macro_enodeb_id_field_t := mk_macro_enodeb_id_field_t {
  menb_plmn : plmn; menb_spare : Z; menb_macro_enodeb_id : Z }.
Record gtpv2c_macro_enodeb_id_field_ie := mk_macro_enodeb_id_field_ie {
  menb_octets : plmn_octets; menb_u4 : Z; macro_enodeb_id : Z }.

Definition macro_enodeb_id_field_of_core (c : macro_enodeb_id_field_t) : gtpv2c_macro_enodeb_id_field_ie :=
  mk_macro_enodeb_id_field_ie (plmn_pack (menb_plmn c))
    (bf_pack [(4, Z.shiftr (Z.land (menb_macro_enodeb_id c) 16711680) 16); (4, 0)])
    (Z.land (menb_macro_enodeb_id c) 65535).
Definition macro_enodeb_id_field_default : gtpv2c_macro_enodeb_id_field_ie :=
  mk_macro_enodeb_id_field_ie plmn_zero 0 0.
Definition macro_enodeb_id_field_to_core (i : gtpv2c_macro_enodeb_id_field_ie) : macro_enodeb_id_field_t :=
  mk_macro_enodeb_id_field_t (plmn_unpack (menb_octets i)) (bf_field 4 4 (menb_u4 i))
    (wrapu 20 (Z.lor (macro_enodeb_id i) (Z.shiftl (bf_field 0 4 (menb_u4 i)) 16))).
Definition macro_enodeb_id_field_dump_to (i : gtpv2c_macro_enodeb_id_field_ie) : list Z :=
  plmn_dump (menb_octets i) ++ be_bytes 2 (macro_enodeb_id i).
Definition macro_enodeb_id_field_load_from (i : gtpv2c_macro_enodeb_id_field_ie) (ins : istream)
  : gtpv2c_macro_enodeb_id_field_ie * istream :=
  let '(o, ins) := plmn_load (menb_octets i) ins in
  let '(m, ins) := read_be 2 (macro_enodeb_id i) ins in
  (mk_macro_enodeb_id_field_ie o (menb_u4 i) m, ins).

(** ** Extended Macro eNodeB ID

    The identity of the core type has 21 bits, the octet has room for four of
    the five high ones. *)
Record extended_macro_enodeb_id_field_t := mk_extended_macro_enodeb_id_field_t {
  xenb_plmn : plmn; xenb_smenb : Z; xenb_spare : Z; xenb_id : Z }.
Record gtpv2c_extended_macro_enodeb_id_field_ie := mk_extended_macro_enodeb_id_field_ie {
  xenb_octets : plmn_octets; xenb_u4 : Z; extended_macro_enodeb_id : Z }.

Definition extended_macro_enodeb_id_field_of_core (c : extended_macro_enodeb_id_field_t)
  : gtpv2c_extended_macro_enodeb_id_field_ie :=
  mk_extended_macro_enodeb_id_field_ie (plmn_pack (xenb_plmn c))
    (bf_pack [(4, Z.shiftr (Z.land (xenb_id c) 16711680) 16); (3, 0); (1, xenb_smenb c)])
    (Z.land (xenb_id c) 65535).
Definition extended_macro_enodeb_id_field_default : gtpv2c_extended_macro_enodeb_id_field_ie :=
  mk_extended_macro_enodeb_id_field_ie plmn_zero 0 0.
Definition extended_macro_enodeb_id_field_to_core (i : gtpv2c_extended_macro_enodeb_id_field_ie)
  : extended_macro_enodeb_id_field_t :=
  mk_extended_macro_enodeb_id_field_t (plmn_unpack (xenb_octets i)) (bf_field 7 1 (xenb_u4 i))
    (wrapu 2 (bf_field 4 3 (xenb_u4 i)))
    (wrapu 21 (Z.lor (extended_macro_enodeb_id i) (Z.shiftl (bf_field 0 4 (xenb_u4 i)) 16))).
Definition extended_macro_enodeb_id_field_dump_to (i : gtpv2c_extended_macro_enodeb_id_field_ie) : list Z :=
  plmn_dump (xenb_octets i) ++ [xenb_u4 i] ++ be_bytes 2 (extended_macro_enodeb_id i).
Definition extended_macro_enodeb_id_field_load_from (i : gtpv2c_extended_macro_enodeb_id_field_ie) (ins : istream)
  : gtpv2c_extended_macro_enodeb_id_field_ie * istream :=
  let '(o, ins) := plmn_load (xenb_octets i) ins in
  let '(b, ins) := read_u8 (xenb_u4 i) ins in
  let '(m, ins) := read_be 2 (extended_macro_enodeb_id i) ins in
  (mk_extended_macro_enodeb_id_field_ie o b m, ins).

Lemma macro_enodeb_id_field_roundtrip i i0 rest :
  fits 16 (macro_enodeb_id i) -> menb_u4 i0 = menb_u4 i ->
  macro_enodeb_id_field_load_from i0 (istream_of (macro_enodeb_id_field_dump_to i ++ rest)) = (i, istream_of rest).
Proof.
  intros Hw Hu. unfold macro_enodeb_id_field_load_from, macro_enodeb_id_field_dump_to.
  rewrite <- app_assoc, plmn_load_dump. stream_norm. stream_step done. rewrite Hu. by destruct i.
Qed.

Lemma extended_macro_enodeb_id_field_roundtrip i i0 rest :
  fits 16 (extended_macro_enodeb_id i) ->
  extended_macro_enodeb_id_field_load_from i0
    (istream_of (extended_macro_enodeb_id_field_dump_to i ++ rest)) = (i, istream_of rest).
Proof.
  intros Hw. unfold extended_macro_enodeb_id_field_load_from, extended_macro_enodeb_id_field_dump_to.
  rewrite <- app_assoc, plmn_load_dump. stream_norm. stream_step done. stream_step done. by destruct i.
Qed.

(** ** User Location Information *)
Record uli_t := mk_uli_t {
  hdr_cgi : Z;
  hdr_sai : Z;
  hdr_rai : Z;
  hdr_tai : Z;
  hdr_ecgi : Z;
  hdr_lai : Z;
  hdr_menb : Z;
  hdr_xenb : Z;
  cgi1 : cgi_field_t;
  sai1 : sai_field_t;
  rai1 : rai_field_t;
  tai1 : tai_field_t;
  ecgi1 : ecgi_field_t;
  lai1 : lai_field_t;
  menb1 : macro_enodeb_id_field_t;
  xenb1 : extended_macro_enodeb_id_field_t;
}.
Record gtpv2c_user_location_information_ie := mk_uli_ie {
  uli_tlv : gtpv2c_tlv;
  uli_b : Z;
  uli_cgi : gtpv2c_cgi_field_ie;
  uli_sai : gtpv2c_sai_field_ie;
  uli_rai : gtpv2c_rai_field_ie;
  uli_tai : gtpv2c_tai_field_ie;
  uli_ecgi : gtpv2c_ecgi_field_ie;
  uli_lai : gtpv2c_lai_field_ie;
  uli_menb : gtpv2c_macro_enodeb_id_field_ie;
  uli_xenb : gtpv2c_extended_macro_enodeb_id_field_ie;
}.

(** [if (flag) field = ie(core) else field = ie()] *)
Definition sel {A} (flag : Z) (on off : A) : A := if flag =? 0 then off else on.

(** The cores of [u = {0}]. *)
Definition plmn0 : plmn := mk_plmn 0 0 0 0 0 0.
Definition uli_zero : uli_t := mk_uli_t 0 0 0 0 0 0 0 0 (mk_cgi_field_t plmn0 0 0) (mk_sai_field_t plmn0 0 0)
  (mk_rai_field_t plmn0 0 0) (mk_tai_field_t plmn0 0) (mk_ecgi_field_t plmn0 0 0 [0; 0; 0]) (mk_lai_field_t plmn0 0)
  (mk_macro_enodeb_id_field_t plmn0 0 0) (mk_extended_macro_enodeb_id_field_t plmn0 0 0 0).

Definition uli_of_core (u : uli_t) : gtpv2c_user_location_information_ie :=
  mk_uli_ie
    (tlv_of GTP_IE_USER_LOCATION_INFORMATION
      (1 + sel (wrapu 1 (hdr_xenb u)) 6 0 + sel (wrapu 1 (hdr_menb u)) 6 0 + sel (wrapu 1 (hdr_lai u)) 4 0 + sel (wrapu 1 (hdr_ecgi u)) 7 0 + sel (wrapu 1 (hdr_tai u)) 5 0 + sel (wrapu 1 (hdr_rai u)) 5 0 + sel (wrapu 1 (hdr_sai u)) 7 0 + sel (wrapu 1 (hdr_cgi u)) 7 0))
    (bf_pack [(1, hdr_cgi u); (1, hdr_sai u); (1, hdr_rai u); (1, hdr_tai u); (1, hdr_ecgi u); (1, hdr_lai u); (1, hdr_menb u); (1, hdr_xenb u)])
    (sel (wrapu 1 (hdr_cgi u)) (cgi_field_of_core (cgi1 u)) cgi_field_default)
    (sel (wrapu 1 (hdr_sai u)) (sai_field_of_core (sai1 u)) sai_field_default)
    (sel (wrapu 1 (hdr_rai u)) (rai_field_of_core (rai1 u)) rai_field_default)
    (sel (wrapu 1 (hdr_tai u)) (tai_field_of_core (tai1 u)) tai_field_default)
    (sel (wrapu 1 (hdr_ecgi u)) (ecgi_field_of_core (ecgi1 u)) ecgi_field_default)
    (sel (wrapu 1 (hdr_lai u)) (lai_field_of_core (lai1 u)) lai_field_default)
    (sel (wrapu 1 (hdr_menb u)) (macro_enodeb_id_field_of_core (menb1 u)) macro_enodeb_id_field_default)
    (sel (wrapu 1 (hdr_xenb u)) (extended_macro_enodeb_id_field_of_core (xenb1 u)) extended_macro_enodeb_id_field_default).
Definition uli_of_tlv (t : gtpv2c_tlv) : gtpv2c_user_location_information_ie :=
  mk_uli_ie t 0 cgi_field_default sai_field_default rai_field_default tai_field_default ecgi_field_default lai_field_default macro_enodeb_id_field_default extended_macro_enodeb_id_field_default.

(** A flag of the first octet. *)
Definition uli_flag (k : Z) (i : gtpv2c_user_location_information_ie) : Z := bf_field k 1 (uli_b i).

Definition uli_to_core (i : gtpv2c_user_location_information_ie) : uli_t :=
  mk_uli_t (uli_flag 0 i) (uli_flag 1 i) (uli_flag 2 i) (uli_flag 3 i) (uli_flag 4 i) (uli_flag 5 i) (uli_flag 6 i) (uli_flag 7 i)
    (sel (uli_flag 0 i) (cgi_field_to_core (uli_cgi i)) (cgi1 uli_zero))
    (sel (uli_flag 1 i) (sai_field_to_core (uli_sai i)) (sai1 uli_zero))
    (sel (uli_flag 2 i) (rai_field_to_core (uli_rai i)) (rai1 uli_zero))
    (sel (uli_flag 3 i) (tai_field_to_core (uli_tai i)) (tai1 uli_zero))
    (sel (uli_flag 4 i) (ecgi_field_to_core (uli_ecgi i)) (ecgi1 uli_zero))
    (sel (uli_flag 5 i) (lai_field_to_core (uli_lai i)) (lai1 uli_zero))
    (sel (uli_flag 6 i) (macro_enodeb_id_field_to_core (uli_menb i)) (menb1 uli_zero))
    (sel (uli_flag 7 i) (extended_macro_enodeb_id_field_to_core (uli_xenb i)) (xenb1 uli_zero)).
Definition uli_dump_to (i : gtpv2c_user_location_information_ie) : list Z :=
  tlv_dump_to (uli_tlv i) ++ [uli_b i] ++
  sel (uli_flag 0 i) (cgi_field_dump_to (uli_cgi i)) [] ++
  sel (uli_flag 1 i) (sai_field_dump_to (uli_sai i)) [] ++
  sel (uli_flag 2 i) (rai_field_dump_to (uli_rai i)) [] ++
  sel (uli_flag 3 i) (tai_field_dump_to (uli_tai i)) [] ++
  sel (uli_flag 4 i) (ecgi_field_dump_to (uli_ecgi i)) [] ++
  sel (uli_flag 5 i) (lai_field_dump_to (uli_lai i)) [] ++
  sel (uli_flag 6 i) (macro_enodeb_id_field_dump_to (uli_menb i)) [] ++
  sel (uli_flag 7 i) (extended_macro_enodeb_id_field_dump_to (uli_xenb i)) [].

(** [if (flag) field.load_from(is)] *)
Definition sel_load {A} (flag : Z) (load : A -> istream -> A * istream) (a : A) (ins : istream) : A * istream :=
  if flag =? 0 then (a, ins) else load a ins.

Definition uli_load_from (i : gtpv2c_user_location_information_ie) (ins : istream)
  : result gtpc_exn (gtpv2c_user_location_information_ie * istream) :=
  let '(b, ins) := read_u8 (uli_b i) ins in
  let '(v0, ins) := sel_load (bf_field 0 1 b) cgi_field_load_from (uli_cgi i) ins in
  let '(v1, ins) := sel_load (bf_field 1 1 b) sai_field_load_from (uli_sai i) ins in
  let '(v2, ins) := sel_load (bf_field 2 1 b) rai_field_load_from (uli_rai i) ins in
  let '(v3, ins) := sel_load (bf_field 3 1 b) tai_field_load_from (uli_tai i) ins in
  let '(v4, ins) := sel_load (bf_field 4 1 b) ecgi_field_load_from (uli_ecgi i) ins in
  let '(v5, ins) := sel_load (bf_field 5 1 b) lai_field_load_from (uli_lai i) ins in
  let '(v6, ins) := sel_load (bf_field 6 1 b) macro_enodeb_id_field_load_from (uli_menb i) ins in
  let '(v7, ins) := sel_load (bf_field 7 1 b) extended_macro_enodeb_id_field_load_from (uli_xenb i) ins in
  Val (mk_uli_ie (uli_tlv i) b v0 v1 v2 v3 v4 v5 v6 v7, ins).

#[export] Instance uli_ie : GtpIe gtpv2c_user_location_information_ie := {|
  ie_tlv := uli_tlv; ie_dump_to i := Val (uli_dump_to i, i); ie_of_tlv := uli_of_tlv; ie_load_from := uli_load_from;
|}.

(** What the fields are when their flag is off, and what they must be for the
    wire when it is on.  The TLV length a field adds and the octets it
    writes differ for the RAI, LAI and macro eNodeB fields: none of them is
    present in a well-formed element. *)
Definition field_ok {A} (flag : Z) (wf : A -> Prop) (default a : A) : Prop :=
  if flag =? 0 then a = default else wf a.

Definition uli_wf (i : gtpv2c_user_location_information_ie) : Prop :=
  tlv_ok GTP_IE_USER_LOCATION_INFORMATION (uli_tlv i) /\
  t_length (uli_tlv i) = 1 + sel (uli_flag 0 i) 7 0 + sel (uli_flag 1 i) 7 0 + sel (uli_flag 3 i) 5 0 +
    sel (uli_flag 4 i) 7 0 + sel (uli_flag 7 i) 6 0 /\
  uli_flag 2 i = 0 /\ uli_flag 5 i = 0 /\ uli_flag 6 i = 0 /\
  field_ok (uli_flag 0 i) cgi_field_wf cgi_field_default (uli_cgi i) /\
  field_ok (uli_flag 1 i) sai_field_wf sai_field_default (uli_sai i) /\
  uli_rai i = rai_field_default /\
  field_ok (uli_flag 3 i) tai_field_wf tai_field_default (uli_tai i) /\
  field_ok (uli_flag 4 i) ecgi_field_wf ecgi_field_default (uli_ecgi i) /\
  uli_lai i = lai_field_default /\ uli_menb i = macro_enodeb_id_field_default /\
  field_ok (uli_flag 7 i) (fun x => fits 16 (extended_macro_enodeb_id x)) extended_macro_enodeb_id_field_default
    (uli_xenb i).

(** An optional field is read back, and adds its octets. *)
Lemma sel_load_dump {A} flag (load : A -> istream -> A * istream) (dump : A -> list Z) wf default a rest :
  field_ok flag wf default a ->
  (wf a -> load default (istream_of (dump a ++ rest)) = (a, istream_of rest)) ->
  sel_load flag load default (istream_of (sel flag (dump a) [] ++ rest)) = (a, istream_of rest).
Proof. unfold field_ok, sel_load, sel. destruct (flag =? 0); [by intros ->|auto]. Qed.

Lemma sel_load_off {A} flag (load : A -> istream -> A * istream) a ins : flag = 0 -> sel_load flag load a ins = (a, ins).
Proof. by intros ->. Qed.

Lemma sel_off {A} flag (on off : A) : flag = 0 -> sel flag on off = off.
Proof. by intros ->. Qed.

Lemma sel_length {A} flag (l : list A) n : length l = n -> length (sel flag l []) = sel flag n 0%nat.
Proof. unfold sel. by destruct (flag =? 0). Qed.

Lemma sel_Z (flag : Z) (n : nat) : Z.of_nat (sel flag n 0%nat) = sel flag (Z.of_nat n) 0.
Proof. unfold sel. by destruct (flag =? 0). Qed.

#[export] Instance uli_codec : GtpCodec gtpv2c_user_location_information_ie uli_wf.
Proof.
  split; [intros i [[_ H] _]; exact H|].
  intros [t b f0 f1 f2 f3 f4 f5 f6 f7] rest (Ht & Hl & E2 & E5 & E6 & H0 & H1 & H2 & H3 & H4 & H5 & H6 & H7).
  cbn [ie_load_from ie_of_tlv ie_tlv ie_dump_to uli_ie uli_tlv uli_cgi uli_sai uli_rai uli_tai uli_ecgi
    uli_lai uli_menb uli_xenb] in *. subst f2 f5 f6.
  eexists. eexists. split; [unfold uli_dump_to; cbn [uli_tlv]; reflexivity|].
  cbn [uli_b uli_cgi uli_sai uli_rai uli_tai uli_ecgi uli_lai uli_menb uli_xenb] in *.
  rewrite (sel_off _ (rai_field_dump_to _) _ E2), (sel_off _ (lai_field_dump_to _) _ E5),
    (sel_off _ (macro_enodeb_id_field_dump_to _) _ E6). cbn [app]. split.
  - cbn [length]. rewrite !length_app, Nat2Z.inj_succ, !Nat2Z.inj_add.
    rewrite (sel_length _ _ 7%nat), (sel_length (uli_flag 1 _) _ 7%nat), (sel_length (uli_flag 3 _) _ 5%nat),
      (sel_length (uli_flag 4 _) _ 7%nat), (sel_length (uli_flag 7 _) _ 6%nat), !sel_Z; try done.
    { change (Z.of_nat 7) with 7. change (Z.of_nat 5) with 5. change (Z.of_nat 6) with 6. lia. }
    unfold field_ok, ecgi_field_wf in H4. unfold ecgi_field_dump_to.
    destruct (uli_flag 4 _ =? 0); [by subst|]. rewrite !length_app. simpl. lia.
  - unfold uli_load_from. cbn [uli_of_tlv uli_tlv uli_cgi uli_sai uli_rai uli_tai uli_ecgi uli_lai uli_menb uli_xenb].
    rewrite read_u8_cons. unfold uli_flag in *. cbn [uli_b] in *. rewrite <- !app_assoc.
    rewrite (sel_load_dump _ _ _ cgi_field_wf) by (done || apply cgi_field_roundtrip).
    rewrite (sel_load_dump _ _ _ sai_field_wf) by (done || apply sai_field_roundtrip).
    rewrite (sel_load_off _ rai_field_load_from _ _ E2).
    rewrite (sel_load_dump _ _ _ tai_field_wf) by (done || apply tai_field_roundtrip).
    rewrite (sel_load_dump _ _ _ ecgi_field_wf) by (done || (intros; by apply ecgi_field_roundtrip)).
    rewrite (sel_load_off _ lai_field_load_from _ _ E5), (sel_load_off _ macro_enodeb_id_field_load_from _ _ E6).
    rewrite (sel_load_dump _ _ _ (fun x => fits 16 (extended_macro_enodeb_id x)))
      by (done || apply extended_macro_enodeb_id_field_roundtrip).
    done.
Qed.

Lemma uli_ecgi_length u :
  length (ecgi_cell_identifier (ecgi1 u)) = 3%nat ->
  length (ecgi_field_dump_to (uli_ecgi (uli_of_core u))) = 7%nat.
Proof.
  intros Hl. unfold uli_of_core, sel. cbn [uli_ecgi]. destruct (wrapu 1 (hdr_ecgi u) =? 0); [done|].
  unfold ecgi_field_dump_to. rewrite !length_app. simpl. by rewrite Hl.
Qed.

(** The length a User Location Information announces is wrong by two
    octets too few for a RAI, one too few for a LAI and one too many for a
    macro eNodeB identity, whatever else it holds. *)
Theorem uli_length_error u :
  length (ecgi_cell_identifier (ecgi1 u)) = 3%nat ->
  let i := uli_of_core u in
  Z.of_nat (length (uli_dump_to i)) =
  gtpv2c_tlv_ie_length + t_length (uli_tlv i) + sel (uli_flag 2 i) 2 0 + sel (uli_flag 5 i) 1 0 - sel (uli_flag 6 i) 1 0.
Proof.
  intros Hl i. unfold uli_dump_to. rewrite !length_app, !Nat2Z.inj_add, length_tlv_dump.
  rewrite (sel_length (uli_flag 0 _) _ 7%nat), (sel_length (uli_flag 1 _) _ 7%nat), (sel_length (uli_flag 2 _) _ 7%nat),
    (sel_length (uli_flag 3 _) _ 5%nat), (sel_length (uli_flag 5 _) _ 5%nat), (sel_length (uli_flag 6 _) _ 5%nat),
    (sel_length (uli_flag 4 _) _ 7%nat), (sel_length (uli_flag 7 _) _ 6%nat), !sel_Z by (done || by apply uli_ecgi_length).
  assert (forall k h, uli_flag k i = wrapu 1 h -> forall n, sel (wrapu 1 h) n 0 = sel (uli_flag k i) n 0) as Hf
    by (by intros k h ->).
  unfold i at 10. unfold uli_of_core. cbn [uli_tlv tlv_of t_length].
  rewrite (Hf 0 (hdr_cgi u)), (Hf 1 (hdr_sai u)), (Hf 2 (hdr_rai u)), (Hf 3 (hdr_tai u)), (Hf 4 (hdr_ecgi u)),
    (Hf 5 (hdr_lai u)), (Hf 6 (hdr_menb u)), (Hf 7 (hdr_xenb u)) by (unfold uli_flag, i; cbn [uli_b uli_of_core]; bf_simpl; done).
  rewrite wrapu_id; unfold gtpv2c_tlv_ie_length, fits, sel;
  repeat match goal with |- context [?f =? 0] => destruct (f =? 0) end; simpl; lia.
Qed.

Lemma uli_length_error_witness :
  let u := mk_uli_t 0 0 1 0 0 0 0 0 (cgi1 uli_zero) (sai1 uli_zero)
    (mk_rai_field_t (mk_plmn 2 0 8 9 5 15) 258 3) (tai1 uli_zero) (ecgi1 uli_zero) (lai1 uli_zero)
    (menb1 uli_zero) (xenb1 uli_zero) in
  let i := uli_of_core u in
  Z.of_nat (length (uli_dump_to i)) =
  gtpv2c_tlv_ie_length + t_length (uli_tlv i) + sel (uli_flag 2 i) 2 0 + sel (uli_flag 5 i) 1 0 - sel (uli_flag 6 i) 1 0.
Proof. intros u. apply (uli_length_error u). reflexivity. Defined.

(** ** ULI core types *)
Lemma testbit_16_24 i : 16 <= i < 24 -> Z.testbit 16711680 i = true.
Proof.
  intros H. assert (i = 16 \/ i = 17 \/ i = 18 \/ i = 19 \/ i = 20 \/ i = 21 \/ i = 22 \/ i = 23) as Hi by lia.
  by repeat (destruct Hi as [->|Hi]; [done|]); subst.
Qed.

Lemma split16 x : fits 20 x -> Z.lor (Z.land x 65535) (Z.shiftl (Z.shiftr (Z.land x 16711680) 16) 16) = x.
Proof.
  intros Hx. apply Z.bits_inj'. intros i Hi. rewrite Z.lor_spec, Z.land_spec, Z.shiftl_spec by lia.
  change 65535 with (Z.ones 16). destruct (decide (i < 16)).
  - rewrite Z.ones_spec_low, (Z.testbit_neg_r _ (i - 16)) by lia. by rewrite andb_true_r, orb_false_r.
  - rewrite Z.ones_spec_high, andb_false_r, Z.shiftr_spec, Z.land_spec by lia.
    replace (i - 16 + 16) with i by lia. destruct (decide (i < 24)).
    + by rewrite testbit_16_24, andb_true_r by lia.
    + rewrite <- (Z.mod_small x (2 ^ 20)) by exact Hx. by rewrite Z.mod_pow2_bits_high by lia.
Qed.

Lemma high_nibble x : fits 20 x -> fits 4 (Z.shiftr (Z.land x 16711680) 16).
Proof.
  intros Hx. assert (Z.land x 16711680 = Z.shiftl (Z.shiftr x 16) 16) as ->.
  { apply Z.bits_inj'. intros i Hi. rewrite Z.land_spec, Z.shiftl_spec by lia.
    destruct (decide (i < 16)).
    - rewrite (Z.testbit_neg_r _ (i - 16)) by lia.
      replace (Z.testbit 16711680 i) with false; [apply andb_false_r|].
      change 16711680 with (Z.shiftl 255 16). by rewrite Z.shiftl_spec, Z.testbit_neg_r by lia.
    - rewrite Z.shiftr_spec by lia. replace (i - 16 + 16) with i by lia. destruct (decide (i < 24)).
      + by rewrite testbit_16_24, andb_true_r by lia.
      + rewrite <- (Z.mod_small x (2 ^ 20)) by exact Hx. by rewrite Z.mod_pow2_bits_high by lia. }
  rewrite Z.shiftr_shiftl_l, Z.sub_diag, Z.shiftl_0_r, Z.shiftr_div_pow2 by lia. unfold fits in *.
  split; [apply Z.div_pos; lia|apply Z.div_lt_upper_bound; lia].
Qed.

(** Identities of at most twenty bits survive. *)
Lemma extended_macro_enodeb_id_field_core c :
  plmn_wf (xenb_plmn c) -> fits 1 (xenb_smenb c) -> xenb_spare c = 0 -> fits 20 (xenb_id c) ->
  fits 16 (extended_macro_enodeb_id (extended_macro_enodeb_id_field_of_core c)) /\
  extended_macro_enodeb_id_field_to_core (extended_macro_enodeb_id_field_of_core c) = c.
Proof.
  intros Hp Hs Hsp Hx. split.
  - simpl. change 65535 with (Z.ones 16). rewrite Z.land_ones by lia. apply Z.mod_pos_bound. lia.
  - unfold extended_macro_enodeb_id_field_to_core, extended_macro_enodeb_id_field_of_core. destruct c as [p s sp x].
    cbn [xenb_octets xenb_u4 extended_macro_enodeb_id xenb_plmn xenb_smenb xenb_spare xenb_id] in *.
    pose proof (high_nibble x Hx). rewrite plmn_core by done. f_equal; [bf_simpl; done|bf_simpl; by subst|].
    bf_simpl. rewrite (wrapu_id 4), split16 by done. apply wrapu_id. unfold fits in *. lia.
Qed.

(** A core field that is absent is zero; one that is present is in range. *)
Definition core_ok {A} (flag : Z) (wf : A -> Prop) (zero a : A) : Prop :=
  fits 1 flag /\ if flag =? 0 then a = zero else wf a.

Definition uli_core_wf (u : uli_t) : Prop :=
  hdr_rai u = 0 /\ hdr_lai u = 0 /\ hdr_menb u = 0 /\
  rai1 u = rai1 uli_zero /\ lai1 u = lai1 uli_zero /\ menb1 u = menb1 uli_zero /\
  core_ok (hdr_cgi u) (fun c => plmn_wf (cgi_plmn c) /\ fits 16 (cgi_location_area_code c) /\ fits 16 (cgi_cell_identity c))
    (cgi1 uli_zero) (cgi1 u) /\
  core_ok (hdr_sai u) (fun c => plmn_wf (sai_plmn c) /\ fits 16 (sai_location_area_code c) /\ fits 16 (sai_service_area_code c))
    (sai1 uli_zero) (sai1 u) /\
  core_ok (hdr_tai u) (fun c => plmn_wf (tai_plmn c) /\ fits 16 (tai_tracking_area_code c)) (tai1 uli_zero) (tai1 u) /\
  core_ok (hdr_ecgi u) (fun c => plmn_wf (ecgi_plmn c) /\ ecgi_spare c = 0 /\ fits 4 (eci c) /\
    length (ecgi_cell_identifier c) = 3%nat) (ecgi1 uli_zero) (ecgi1 u) /\
  core_ok (hdr_xenb u) (fun c => plmn_wf (xenb_plmn c) /\ fits 1 (xenb_smenb c) /\ xenb_spare c = 0 /\ fits 20 (xenb_id c))
    (xenb1 uli_zero) (xenb1 u).

(** One optional field, from core to element and back. *)
Lemma field_core {A B} flag (cwf : A -> Prop) (zero a : A) (of_core : A -> B) (to_core : B -> A) (wf : B -> Prop) default :
  core_ok flag cwf zero a -> (cwf a -> wf (of_core a) /\ to_core (of_core a) = a) ->
  field_ok flag wf default (sel flag (of_core a) default) /\
  sel flag (to_core (sel flag (of_core a) default)) zero = a.
Proof.
  unfold core_ok, field_ok, sel. intros [_ H] Hc. destruct (flag =? 0) eqn:E; rewrite ?E; [by subst|tauto].
Qed.

Lemma uli_core u :
  uli_core_wf u -> uli_wf (uli_of_core u) /\ uli_to_core (uli_of_core u) = u.
Proof.
  intros (R & L & M & Rz & Lz & Mz & Hc & Hs & Ht & He & Hx).
  pose proof (proj1 Hc). pose proof (proj1 Hs). pose proof (proj1 Ht). pose proof (proj1 He). pose proof (proj1 Hx).
  destruct (field_core _ _ _ _ cgi_field_of_core cgi_field_to_core cgi_field_wf cgi_field_default Hc)
    as [Wc Cc]; [intros (? & ?); by apply cgi_field_core|].
  destruct (field_core _ _ _ _ sai_field_of_core sai_field_to_core sai_field_wf sai_field_default Hs)
    as [Ws Cs]; [intros (? & ?); by apply sai_field_core|].
  destruct (field_core _ _ _ _ tai_field_of_core tai_field_to_core tai_field_wf tai_field_default Ht)
    as [Wt Ct]; [intros (? & ?); by apply tai_field_core|].
  destruct (field_core _ _ _ _ ecgi_field_of_core ecgi_field_to_core ecgi_field_wf ecgi_field_default He)
    as [We Ce]; [intros (? & ? & ? & ?); by apply ecgi_field_core|].
  destruct (field_core _ _ _ _ extended_macro_enodeb_id_field_of_core extended_macro_enodeb_id_field_to_core
    (fun x => fits 16 (extended_macro_enodeb_id x)) extended_macro_enodeb_id_field_default Hx)
    as [Wx Cx]; [intros (? & ? & ? & ?); by apply extended_macro_enodeb_id_field_core|].
  clear Hc Hs Ht He Hx.
  destruct u. cbn [hdr_cgi hdr_sai hdr_rai hdr_tai hdr_ecgi hdr_lai hdr_menb hdr_xenb
    cgi1 sai1 rai1 tai1 ecgi1 lai1 menb1 xenb1] in *. subst.
  unfold uli_of_core, uli_wf, uli_to_core, uli_flag.
  cbn [hdr_cgi hdr_sai hdr_rai hdr_tai hdr_ecgi hdr_lai hdr_menb hdr_xenb cgi1 sai1 rai1 tai1 ecgi1 lai1 menb1 xenb1
    uli_tlv uli_b uli_cgi uli_sai uli_rai uli_tai uli_ecgi uli_lai uli_menb uli_xenb].
  bf_simpl. rewrite ?Cc, ?Cs, ?Ct, ?Ce, ?Cx. split; [|done].
  split; [apply tlv_ok_of|]; [unfold sel; repeat case_match; lia|].
  split_and!; try done. cbn [tlv_of t_length]. rewrite wrapu_id; [unfold sel; simpl; lia|].
  unfold sel, fits. repeat case_match; lia.
Qed.
