(* ===== verification/GtpAddress.v ===== *)
(** * GTPv2-C addresses, tunnel endpoints, connection sets, configuration options

    [gtpv2c_ip_address_ie], [gtpv2c_paa_ie], [gtpv2c_fully_qualified_teid_ie],
    [gtpv2c_fq_csid_ie], [gtpv2c_ran_nas_cause_ie], [gtpv2c_epco_ie] and the
    protocol configuration options [gtpv2c_pco_ie]
    ([src/gtpv2c/3gpp_29.274.hpp]). *)
From S2P Require Import Prelude PaaDynamic Stream GtpTlv GtpScalar.
From Stdlib Require Import ZArith Lia.
From stdpp Require Import base numbers tactics list.
Open Scope Z_scope.

Definition GTP_IE_IP_ADDRESS : Z := 74.
Definition GTP_IE_PROTOCOL_CONFIGURATION_OPTIONS : Z := 78.
Definition GTP_IE_PDN_ADDRESS_ALLOCATION : Z := 79.
Definition GTP_IE_FULLY_QUALIFIED_TUNNEL_ENDPOINT_IDENTIFIER : Z := 87.
Definition GTP_IE_FQ_CSID : Z := 132.
Definition GTP_IE_RAN_NAS_CAUSE : Z := 172.
Definition GTP_IE_EXTENDED_PROTOCOL_CONFIGURATION_OPTIONS : Z := 197.

Lemma length_ipv4 a : length (ipv4_address_dump_to a) = 4%nat.
Proof. done. Qed.

(** ** IP Address

    The union of the two address types is its sixteen octets; the IPv4 member
    is the first four. *)
Record ip_address_t := mk_ip_address_t { ip_core_is_ipv4 : bool; ip_core_address : list Z }.
Record gtpv2c_ip_address_ie := mk_ip_address_ie { ip_address_tlv : gtpv2c_tlv; ip_u1 : list Z; is_ipv4 : bool }.

Definition set_v4_member (a : list Z) : list Z := take 4 a ++ drop 4 in6addr_any.

Definition ip_address_of_core (i : ip_address_t) : gtpv2c_ip_address_ie :=
  if ip_core_is_ipv4 i
  then mk_ip_address_ie (tlv_of GTP_IE_IP_ADDRESS 4) (set_v4_member (ip_core_address i)) true
  else mk_ip_address_ie (tlv_of GTP_IE_IP_ADDRESS 16) (ip_core_address i) false.
Definition ip_address_of_tlv (t : gtpv2c_tlv) : gtpv2c_ip_address_ie := mk_ip_address_ie t in6addr_any true.
Definition ip_address_to_core (i : gtpv2c_ip_address_ie) : ip_address_t :=
  mk_ip_address_t (is_ipv4 i) (if is_ipv4 i then set_v4_member (ip_u1 i) else ip_u1 i).
Definition ip_address_dump_to (i : gtpv2c_ip_address_ie) : list Z :=
  tlv_dump_to (ip_address_tlv i) ++ if is_ipv4 i then take 4 (ip_u1 i) else ip_u1 i.
Definition ip_address_load_from (i : gtpv2c_ip_address_ie) (ins : istream)
  : result gtpc_exn (gtpv2c_ip_address_ie * istream) :=
  let t := ip_address_tlv i in
  if t_length t =? 4 then
    let '(a, ins) := read (take 4 (ip_u1 i)) ins in
    Val (mk_ip_address_ie t (a ++ drop 4 (ip_u1 i)) (is_ipv4 i), ins)
  else if t_length t =? 16 then
    let '(a, ins) := read (ip_u1 i) ins in Val (mk_ip_address_ie t a (is_ipv4 i), ins)
  else Throw (gtpc_tlv_bad_length_exception (t_type t) (t_length t)).

#[export] Instance ip_address_ie : GtpIe gtpv2c_ip_address_ie := {|
  ie_tlv := ip_address_tlv; ie_dump_to i := Val (ip_address_dump_to i, i);
  ie_of_tlv := ip_address_of_tlv; ie_load_from := ip_address_load_from;
|}.

(** An IPv4 address. *)
Definition ip_address_wf (i : gtpv2c_ip_address_ie) : Prop :=
  tlv_ok GTP_IE_IP_ADDRESS (ip_address_tlv i) /\ t_length (ip_address_tlv i) = 4 /\ is_ipv4 i = true /\
  length (ip_u1 i) = 16%nat /\ drop 4 (ip_u1 i) = drop 4 in6addr_any.

#[export] Instance ip_address_codec : GtpCodec gtpv2c_ip_address_ie ip_address_wf.
Proof.
  split; [intros i [[_ H] _]; exact H|]. intros [t a v] rest (Ht & Hl & Hv & Ha & Hd).
  cbn [ie_load_from ie_of_tlv ie_tlv ie_dump_to ip_address_ie ip_address_tlv is_ipv4 ip_u1] in *. subst v.
  exists (take 4 a). eexists. split; [done|]. split; [rewrite length_take, Ha, Hl; done|].
  unfold ip_address_load_from. cbn [ip_address_of_tlv ip_address_tlv ip_u1 is_ipv4]. rewrite Hl.
  change (4 =? 4) with true. cbv iota.
  rewrite read_app by (rewrite !length_take, Ha; done). by rewrite <- Hd, take_drop.
Qed.

Lemma ip_address_core i :
  ip_core_is_ipv4 i = true -> length (ip_core_address i) = 16%nat ->
  drop 4 (ip_core_address i) = drop 4 in6addr_any ->
  ip_address_wf (ip_address_of_core i) /\ ip_address_to_core (ip_address_of_core i) = i.
Proof.
  intros Hv Hl Hd. destruct i as [v a]. cbn [ip_core_is_ipv4 ip_core_address] in *. subst v.
  unfold ip_address_to_core, ip_address_of_core, set_v4_member. cbn [ip_core_is_ipv4 ip_core_address is_ipv4 ip_u1].
  rewrite <- Hd, !take_drop. split; [|done]. split; [by apply tlv_ok_of|done].
Qed.

(** An IPv6 address sent by a peer is not recognised as one: the parser reads
    the sixteen octets but leaves the object marked IPv4, and its core type
    holds the first four octets as an IPv4 address. *)
Lemma ip_address_v6_read_as_v4 (t : gtpv2c_tlv) (a rest : list Z) :
  t_length t = 16 -> length a = 16%nat ->
  exists i, ip_address_load_from (ip_address_of_tlv t) (istream_of (a ++ rest)) = Val (i, istream_of rest) /\
    ip_address_to_core i = mk_ip_address_t true (take 4 a ++ replicate 12 0).
Proof.
  intros Hl Ha. unfold ip_address_load_from. cbn [ip_address_of_tlv ip_address_tlv ip_u1 is_ipv4]. rewrite Hl.
  change (16 =? 4) with false. change (16 =? 16) with true. cbv iota.
  rewrite read_app by (by rewrite Ha). eexists. split; [done|]. done.
Qed.

Lemma ip_address_v6_read_as_v4_witness :
  exists i, ip_address_load_from (ip_address_of_tlv (mk_tlv 74 16 0))
      (istream_of ([32; 1; 13; 184; 0; 0; 0; 0; 0; 0; 0; 0; 0; 0; 0; 1] ++ [])) = Val (i, istream_of []) /\
    ip_address_to_core i = mk_ip_address_t true (take 4 [32; 1; 13; 184; 0; 0; 0; 0; 0; 0; 0; 0; 0; 0; 0; 1] ++ replicate 12 0).
Proof. apply ip_address_v6_read_as_v4; reflexivity. Defined.

(** ** PDN Address Allocation *)
Record gtpv2c_paa_ie := mk_paa_ie {
  paa_tlv : gtpv2c_tlv;
  paa_b : Z;
  paa_ipv6_prefix_length : Z;
  paa_ipv6_address : list Z;
  paa_ipv4_address : Z;
}.

Definition paa_type (i : gtpv2c_paa_ie) : Z := bf_field 0 3 (paa_b i).

Definition paa_of_core (p : paa_t) : result gtpc_exn gtpv2c_paa_ie :=
  let b := bf_pack [(3, pdn_type p); (5, 0)] in
  let ty := bf_field 0 3 b in
  if ty =? PDN_TYPE_E_IPV4 then
    Val (mk_paa_ie (tlv_of GTP_IE_PDN_ADDRESS_ALLOCATION 5) b 0 in6addr_any (ipv4_address p))
  else if ty =? PDN_TYPE_E_IPV6 then
    Val (mk_paa_ie (tlv_of GTP_IE_PDN_ADDRESS_ALLOCATION 18) b (ipv6_prefix_length p) (ipv6_address p) 0)
  else if ty =? PDN_TYPE_E_IPV4V6 then
    Val (mk_paa_ie (tlv_of GTP_IE_PDN_ADDRESS_ALLOCATION 22) b (ipv6_prefix_length p) (ipv6_address p) (ipv4_address p))
  else if ty =? PDN_TYPE_E_NON_IP then
    Val (mk_paa_ie (tlv_of GTP_IE_PDN_ADDRESS_ALLOCATION 1) b 0 in6addr_any 0)
  else Throw (gtpc_ie_value_exception GTP_IE_PDN_ADDRESS_ALLOCATION).
Definition paa_of_tlv (t : gtpv2c_tlv) : gtpv2c_paa_ie := mk_paa_ie t PDN_TYPE_E_NON_IP 0 in6addr_any 0.
Definition paa_to_core (i : gtpv2c_paa_ie) : result gtpc_exn paa_t :=
  let ty := paa_type i in
  if ty =? PDN_TYPE_E_IPV4 then Val (mk_paa ty 0 in6addr_any (paa_ipv4_address i))
  else if ty =? PDN_TYPE_E_IPV6 then Val (mk_paa ty (paa_ipv6_prefix_length i) (paa_ipv6_address i) 0)
  else if ty =? PDN_TYPE_E_IPV4V6 then
    Val (mk_paa ty (paa_ipv6_prefix_length i) (paa_ipv6_address i) (paa_ipv4_address i))
  else if ty =? PDN_TYPE_E_NON_IP then Val (mk_paa ty 0 in6addr_any 0)
  else Throw (gtpc_ie_value_exception GTP_IE_PDN_ADDRESS_ALLOCATION).
Definition paa_dump_to (i : gtpv2c_paa_ie) : result gtpc_exn (list Z) :=
  let ty := paa_type i in
  let head := tlv_dump_to (paa_tlv i) ++ [paa_b i] in
  if ty =? PDN_TYPE_E_IPV4 then Val (head ++ ipv4_address_dump_to (paa_ipv4_address i))
  else if ty =? PDN_TYPE_E_IPV6 then
    Val (head ++ [paa_ipv6_prefix_length i] ++ ipv6_address_dump_to (paa_ipv6_address i))
  else if ty =? PDN_TYPE_E_IPV4V6 then
    Val (head ++ [paa_ipv6_prefix_length i] ++ ipv6_address_dump_to (paa_ipv6_address i) ++
         ipv4_address_dump_to (paa_ipv4_address i))
  else if ty =? PDN_TYPE_E_NON_IP then Val head
  else Throw (gtpc_ie_value_exception GTP_IE_PDN_ADDRESS_ALLOCATION).
Definition paa_load_from (i : gtpv2c_paa_ie) (ins : istream) : result gtpc_exn (gtpv2c_paa_ie * istream) :=
  let t := paa_tlv i in
  let bad := Throw (gtpc_tlv_bad_length_exception GTP_IE_PDN_ADDRESS_ALLOCATION (t_length t)) in
  let '(b, ins) := read_u8 (paa_b i) ins in
  let ty := bf_field 0 3 b in
  if ty =? PDN_TYPE_E_IPV4 then
    if t_length t =? 5 then
      let '(a4, ins) := ipv4_address_load_from (paa_ipv4_address i) ins in
      Val (mk_paa_ie t b 0 in6addr_any a4, ins)
    else bad
  else if ty =? PDN_TYPE_E_IPV6 then
    if t_length t =? 18 then
      let '(p, ins) := read_u8 (paa_ipv6_prefix_length i) ins in
      let '(a6, ins) := ipv6_address_load_from (paa_ipv6_address i) ins in
      Val (mk_paa_ie t b p a6 0, ins)
    else bad
  else if ty =? PDN_TYPE_E_IPV4V6 then
    if t_length t =? 22 then
      let '(p, ins) := read_u8 (paa_ipv6_prefix_length i) ins in
      let '(a6, ins) := ipv6_address_load_from (paa_ipv6_address i) ins in
      let '(a4, ins) := ipv4_address_load_from (paa_ipv4_address i) ins in
      Val (mk_paa_ie t b p a6 a4, ins)
    else bad
  else if ty =? PDN_TYPE_E_NON_IP then
    if t_length t =? 1 then Val (mk_paa_ie t b 0 in6addr_any 0, ins) else bad
  else Throw (gtpc_ie_value_exception GTP_IE_PDN_ADDRESS_ALLOCATION).

#[export] Instance paa_ie : GtpIe gtpv2c_paa_ie := {|
  ie_tlv := paa_tlv; ie_dump_to i := b ← paa_dump_to i; Val (b, i);
  ie_of_tlv := paa_of_tlv; ie_load_from := paa_load_from;
|}.

(** The members a PDN type does not use hold their neutral value. *)
Definition paa_parts_ok (ty prefix : Z) (a6 : list Z) (a4 : Z) : Prop :=
  length a6 = 16%nat /\ fits 32 a4 /\
  (ty = PDN_TYPE_E_IPV4 /\ prefix = 0 /\ a6 = in6addr_any \/ ty = PDN_TYPE_E_IPV6 /\ a4 = 0 \/
   ty = PDN_TYPE_E_IPV4V6 \/ ty = PDN_TYPE_E_NON_IP /\ prefix = 0 /\ a6 = in6addr_any /\ a4 = 0).

Definition paa_ie_length (ty : Z) : Z :=
  if ty =? PDN_TYPE_E_IPV4 then 5 else if ty =? PDN_TYPE_E_IPV6 then 18
  else if ty =? PDN_TYPE_E_IPV4V6 then 22 else 1.

Definition paa_wf (i : gtpv2c_paa_ie) : Prop :=
  tlv_ok GTP_IE_PDN_ADDRESS_ALLOCATION (paa_tlv i) /\ t_length (paa_tlv i) = paa_ie_length (paa_type i) /\
  paa_parts_ok (paa_type i) (paa_ipv6_prefix_length i) (paa_ipv6_address i) (paa_ipv4_address i).

#[export] Instance paa_codec : GtpCodec gtpv2c_paa_ie paa_wf.
Proof.
  split; [intros i [[_ H] _]; exact H|]. intros [t b p a6 a4] rest (Ht & Hl & Ha6 & Ha4 & Hty).
  cbn [ie_load_from ie_of_tlv ie_tlv ie_dump_to paa_ie paa_tlv paa_ipv6_prefix_length paa_ipv6_address paa_ipv4_address] in *.
  unfold paa_dump_to, paa_load_from, paa_type in *.
  cbn [paa_tlv paa_b paa_ipv6_prefix_length paa_ipv6_address paa_ipv4_address paa_of_tlv] in *.
  destruct Hty as [(E & -> & ->)|[(E & ->)|[E|(E & -> & -> & ->)]]]; rewrite E in *;
    unfold paa_ie_length in Hl; simpl in Hl; eexists _, _; cbn [mbind result_bind];
    (split; [simpl; rewrite <- ?app_assoc; reflexivity|]); rewrite Hl; stream_norm;
    (split; [cbn [length]; rewrite ?length_app; unfold ipv6_address_dump_to; rewrite ?Ha6; done|]);
    unfold ipv4_address_dump_to, ipv6_address_dump_to, ipv4_address_load_from, ipv6_address_load_from;
    rewrite read_u8_cons, E; simpl Z.eqb; cbv iota; codec_tac.
Qed.

Lemma paa_core p :
  paa_parts_ok (pdn_type p) (ipv6_prefix_length p) (ipv6_address p) (ipv4_address p) ->
  exists i, paa_of_core p = Val i /\ paa_wf i /\ paa_to_core i = Val p.
Proof.
  intros (Ha6 & Ha4 & Hty). destruct p as [ty pl a6 a4].
  cbn [pdn_type ipv6_prefix_length ipv6_address ipv4_address] in *.
  unfold paa_of_core. cbn [pdn_type ipv6_prefix_length ipv6_address ipv4_address].
  assert (fits 3 ty) as Hf by (destruct Hty as [(-> & _)|[(-> & _)|[->|(-> & _)]]]; done).
  rewrite bf_field_pack_0, wrapu_id by (done || lia).
  destruct Hty as [(-> & -> & ->)|[(-> & ->)|[->|(-> & -> & -> & ->)]]]; simpl Z.eqb; cbv iota; eexists;
    (split; [done|]); (split; [|done]); (split; [by apply tlv_ok_of|]); (split; [done|]); split; try done;
    (split; [done|]); vm_compute; tauto.
Qed.

(** ** Fully Qualified TEID *)
Record fteid_t := mk_fteid_t {
  fc_v4 : Z; fc_v6 : Z; fc_interface_type : Z; fc_teid_gre_key : Z; fc_ipv4_address : Z; fc_ipv6_address : list Z }.
Record gtpv2c_fully_qualified_teid_ie := mk_fteid_ie {
  fteid_tlv : gtpv2c_tlv;
  fteid_b : Z;
  teid_gre_key : Z;
  fteid_ipv4_address : Z;
  fteid_ipv6_address : list Z;
}.

Definition fteid_v4 (b : Z) : Z := bf_field 7 1 b.
Definition fteid_v6 (b : Z) : Z := bf_field 6 1 b.
(** [5], plus 4 and 16 for the addresses present. *)
Definition fteid_length (b : Z) : Z :=
  5 + (if fteid_v4 b =? 0 then 0 else 4) + (if fteid_v6 b =? 0 then 0 else 16).

Definition fteid_of_core (f : fteid_t) : gtpv2c_fully_qualified_teid_ie :=
  let b := bf_pack [(6, fc_interface_type f); (1, fc_v6 f); (1, fc_v4 f)] in
  mk_fteid_ie (tlv_of GTP_IE_FULLY_QUALIFIED_TUNNEL_ENDPOINT_IDENTIFIER (fteid_length b)) b
    (fc_teid_gre_key f) (fc_ipv4_address f) (fc_ipv6_address f).
Definition fteid_of_tlv (t : gtpv2c_tlv) : gtpv2c_fully_qualified_teid_ie := mk_fteid_ie t 0 0 0 in6addr_any.
Definition fteid_to_core (i : gtpv2c_fully_qualified_teid_ie) : fteid_t :=
  mk_fteid_t (fteid_v4 (fteid_b i)) (fteid_v6 (fteid_b i)) (bf_field 0 6 (fteid_b i)) (teid_gre_key i)
    (fteid_ipv4_address i) (fteid_ipv6_address i).
Definition fteid_dump_to (i : gtpv2c_fully_qualified_teid_ie) : list Z :=
  tlv_dump_to (fteid_tlv i) ++ [fteid_b i] ++ be_bytes 4 (teid_gre_key i) ++
  (if fteid_v4 (fteid_b i) =? 0 then [] else ipv4_address_dump_to (fteid_ipv4_address i)) ++
  (if fteid_v6 (fteid_b i) =? 0 then [] else ipv6_address_dump_to (fteid_ipv6_address i)).
Definition fteid_load_from (i : gtpv2c_fully_qualified_teid_ie) (ins : istream)
  : result gtpc_exn (gtpv2c_fully_qualified_teid_ie * istream) :=
  let t := fteid_tlv i in
  let '(b, ins) := read_u8 (fteid_b i) ins in
  if t_length t =? fteid_length b then
    let '(k, ins) := read_be 4 (teid_gre_key i) ins in
    let '(a4, ins) :=
      if fteid_v4 b =? 0 then (fteid_ipv4_address i, ins) else ipv4_address_load_from (fteid_ipv4_address i) ins in
    let '(a6, ins) :=
      if fteid_v6 b =? 0 then (fteid_ipv6_address i, ins) else ipv6_address_load_from (fteid_ipv6_address i) ins in
    Val (mk_fteid_ie t b k a4 a6, ins)
  else Throw (gtpc_tlv_bad_length_exception (t_type t) (t_length t)).

#[export] Instance fteid_ie : GtpIe gtpv2c_fully_qualified_teid_ie := {|
  ie_tlv := fteid_tlv; ie_dump_to i := Val (fteid_dump_to i, i); ie_of_tlv := fteid_of_tlv; ie_load_from := fteid_load_from;
|}.

Definition fteid_parts_ok (v4 v6 key a4 : Z) (a6 : list Z) : Prop :=
  fits 32 key /\ fits 32 a4 /\ length a6 = 16%nat /\ (v4 = 0 -> a4 = 0) /\ (v6 = 0 -> a6 = in6addr_any).

Definition fteid_wf (i : gtpv2c_fully_qualified_teid_ie) : Prop :=
  tlv_ok GTP_IE_FULLY_QUALIFIED_TUNNEL_ENDPOINT_IDENTIFIER (fteid_tlv i) /\
  t_length (fteid_tlv i) = fteid_length (fteid_b i) /\
  fteid_parts_ok (fteid_v4 (fteid_b i)) (fteid_v6 (fteid_b i)) (teid_gre_key i) (fteid_ipv4_address i)
    (fteid_ipv6_address i).

#[export] Instance fteid_codec : GtpCodec gtpv2c_fully_qualified_teid_ie fteid_wf.
Proof.
  split; [intros i [[_ H] _]; exact H|]. intros [t b k a4 a6] rest (Ht & Hl & Hk & Ha4 & Ha6 & H4 & H6).
  cbn [ie_load_from ie_of_tlv ie_tlv ie_dump_to fteid_ie fteid_tlv fteid_b teid_gre_key fteid_ipv4_address
    fteid_ipv6_address] in *.
  unfold fteid_dump_to, fteid_load_from. eexists _, _. split; [cbn [fteid_tlv]; reflexivity|].
  cbn [fteid_tlv fteid_b teid_gre_key fteid_ipv4_address fteid_ipv6_address fteid_of_tlv].
  unfold ipv4_address_dump_to, ipv6_address_dump_to, ipv4_address_load_from, ipv6_address_load_from.
  split.
  - rewrite Hl. unfold fteid_length. destruct (fteid_v4 b =? 0), (fteid_v6 b =? 0);
      rewrite !length_app, ?length_be_bytes, ?length_le_bytes, ?Ha6; done.
  - stream_norm. rewrite read_u8_cons. cbv beta match. rewrite Hl, Z.eqb_refl. stream_step done.
    destruct (Z.eqb_spec (fteid_v4 b) 0) as [E4|E4], (Z.eqb_spec (fteid_v6 b) 0) as [E6|E6]; codec_tac;
      by rewrite ?H4, ?H6 by done.
Qed.

Lemma fteid_core f :
  fits 1 (fc_v4 f) -> fits 1 (fc_v6 f) -> fits 6 (fc_interface_type f) ->
  fteid_parts_ok (fc_v4 f) (fc_v6 f) (fc_teid_gre_key f) (fc_ipv4_address f) (fc_ipv6_address f) ->
  fteid_wf (fteid_of_core f) /\ fteid_to_core (fteid_of_core f) = f.
Proof.
  intros H4 H6 Hi Hp. destruct f as [v4 v6 ty k a4 a6].
  cbn [fc_v4 fc_v6 fc_interface_type fc_teid_gre_key fc_ipv4_address fc_ipv6_address] in *.
  unfold fteid_wf, fteid_to_core, fteid_of_core, fteid_length, fteid_v4, fteid_v6.
  cbn [fc_v4 fc_v6 fc_interface_type fc_teid_gre_key fc_ipv4_address fc_ipv6_address
    fteid_tlv fteid_b teid_gre_key fteid_ipv4_address fteid_ipv6_address].
  bf_simpl. split; [|done]. split; [apply tlv_ok_of; repeat case_match; lia|]. split; [|done].
  cbn [tlv_of t_length]. apply wrapu_id. unfold fits. repeat case_match; lia.
Qed.

(** *** Comparing tunnel endpoints ([operator<], [operator==])

    [s6_addr32] is the address as four words. *)
Definition s6_addr32 (a : list Z) (k : nat) : Z := le_val (take 4 (drop (4 * k) a)).

Definition fteid_lt (f g : fteid_t) : bool :=
  (fc_teid_gre_key f <? fc_teid_gre_key g) || (fc_ipv4_address f <? fc_ipv4_address g) ||
  (fc_interface_type f <? fc_interface_type g) || (fc_v4 f =? fc_v4 g) || (fc_v6 f =? fc_v6 g) ||
  (s6_addr32 (fc_ipv6_address f) 0 =? s6_addr32 (fc_ipv6_address g) 0) ||
  (s6_addr32 (fc_ipv6_address f) 1 =? s6_addr32 (fc_ipv6_address g) 1) ||
  (s6_addr32 (fc_ipv6_address f) 2 =? s6_addr32 (fc_ipv6_address g) 2) ||
  (s6_addr32 (fc_ipv6_address f) 3 =? s6_addr32 (fc_ipv6_address g) 3).

Definition fteid_eq (f g : fteid_t) : bool :=
  (fc_teid_gre_key f =? fc_teid_gre_key g) && (fc_ipv4_address f =? fc_ipv4_address g) &&
  (fc_interface_type f =? fc_interface_type g) &&
  (s6_addr32 (fc_ipv6_address f) 0 =? s6_addr32 (fc_ipv6_address g) 0) &&
  (s6_addr32 (fc_ipv6_address f) 1 =? s6_addr32 (fc_ipv6_address g) 1) &&
  (s6_addr32 (fc_ipv6_address f) 2 =? s6_addr32 (fc_ipv6_address g) 2) &&
  (s6_addr32 (fc_ipv6_address f) 3 =? s6_addr32 (fc_ipv6_address g) 3) &&
  (fc_v4 f =? fc_v4 g) && (fc_v6 f =? fc_v6 g).

(** The order on tunnel endpoints is not one: every endpoint is less than
    itself, and any two IPv4 endpoints are each less than the other, so that
    a [std::map] or [std::set] keyed by it has no defined behaviour. *)
Lemma fteid_lt_not_strict f g :
  fteid_lt f f = true /\ (fc_v4 f = fc_v4 g -> fteid_lt f g = true /\ fteid_lt g f = true).
Proof.
  unfold fteid_lt. split; [by rewrite Z.eqb_refl, !orb_true_r|].
  intros ->. rewrite !Z.eqb_refl, !orb_true_r. done.
Qed.

(** ** FQ-CSID

    Each member of the node id union is a field here; the node id type tells
    which one is in use. *)
Definition GLOBAL_UNICAST_IPv4 : Z := 0.
Definition GLOBAL_UNICAST_IPv6 : Z := 1.
Definition TYPE_EXOTIC : Z := 2.
Record node_id := mk_node_id {
  unicast_ipv4 : Z; unicast_ipv6 : list Z; exotic_mcc : Z; exotic_mnc : Z; exotic_operator_specific_id : Z }.
Definition node_id_zero : node_id := mk_node_id 0 in6addr_any 0 0 0.
Record fq_csid_t := mk_fq_csid_t {
  csid_node_id_type : Z; csid_number_of_csids : Z; csid_node_id : node_id;
  csid_pdn_connection_set_identifier : list Z }.
Record gtpv2c_fq_csid_ie := mk_fq_csid_ie {
  fq_csid_tlv : gtpv2c_tlv; fq_csid_b : Z; fq_csid_u2 : node_id; pdn_connection_set_identifier : list Z }.

Definition fq_node_id_type (b : Z) : Z := bf_field 4 4 b.
Definition fq_number_of_csids (b : Z) : Z := bf_field 0 4 b.

(** The member in use is copied. *)
Definition node_id_copy (ty : Z) (n : node_id) : result gtpc_exn node_id :=
  if ty =? GLOBAL_UNICAST_IPv4 then Val (mk_node_id (unicast_ipv4 n) in6addr_any 0 0 0)
  else if ty =? GLOBAL_UNICAST_IPv6 then Val (mk_node_id 0 (unicast_ipv6 n) 0 0 0)
  else if ty =? TYPE_EXOTIC then
    Val (mk_node_id 0 in6addr_any (exotic_mcc n) (exotic_mnc n) (exotic_operator_specific_id n))
  else Throw (gtpc_ie_value_exception GTP_IE_FQ_CSID).
Definition node_id_length (ty : Z) : Z := if ty =? GLOBAL_UNICAST_IPv6 then 16 else 4.

(** The array of the core type has fifteen entries, [number_of_csids] four
    bits. *)
Definition fq_csid_of_core (f : fq_csid_t) : result gtpc_exn gtpv2c_fq_csid_ie :=
  let b := bf_pack [(4, csid_number_of_csids f); (4, csid_node_id_type f)] in
  n ← node_id_copy (fq_node_id_type b) (csid_node_id f);
  Val (mk_fq_csid_ie
    (tlv_of GTP_IE_FQ_CSID (1 + 2 * fq_number_of_csids b + node_id_length (fq_node_id_type b))) b n
    (take (Z.to_nat (fq_number_of_csids b)) (csid_pdn_connection_set_identifier f))).
Definition fq_csid_of_tlv (t : gtpv2c_tlv) : gtpv2c_fq_csid_ie := mk_fq_csid_ie t 0 node_id_zero [].
Definition fq_csid_to_core (i : gtpv2c_fq_csid_ie) : result gtpc_exn fq_csid_t :=
  n ← node_id_copy (fq_node_id_type (fq_csid_b i)) (fq_csid_u2 i);
  Val (mk_fq_csid_t (fq_node_id_type (fq_csid_b i)) (fq_number_of_csids (fq_csid_b i)) n
    (pdn_connection_set_identifier i)).

Definition htons (x : Z) : Z := be_val (le_bytes 2 x).

(** [x = htons(x)] is stored back in the vector. *)
Definition fq_csid_dump_to (i : gtpv2c_fq_csid_ie) : result gtpc_exn (list Z * gtpv2c_fq_csid_ie) :=
  let ty := fq_node_id_type (fq_csid_b i) in
  let n := fq_csid_u2 i in
  id ← (if ty =? GLOBAL_UNICAST_IPv4 then Val (ipv4_address_dump_to (unicast_ipv4 n))
        else if ty =? GLOBAL_UNICAST_IPv6 then Val (ipv6_address_dump_to (unicast_ipv6 n))
        else if ty =? TYPE_EXOTIC then
          Val (be_bytes 4 (u32 (Z.lor (Z.shiftl (1000 * exotic_mcc n + exotic_mnc n) 12) (exotic_operator_specific_id n))))
        else Throw (gtpc_ie_value_exception GTP_IE_FQ_CSID));
  let swapped := htons <$> pdn_connection_set_identifier i in
  Val (tlv_dump_to (fq_csid_tlv i) ++ [fq_csid_b i] ++ id ++ concat (le_bytes 2 <$> swapped),
       mk_fq_csid_ie (fq_csid_tlv i) (fq_csid_b i) n swapped).

Fixpoint csids_load (k : nat) (ids : list Z) (ins : istream) : result gtpc_exn (list Z * istream) :=
  match k with
  | O => Val (ids, ins)
  | S k => '(x, ins) ← read_exact 2 ins; csids_load k (ids ++ [be_val x]) ins
  end.

Definition fq_csid_load_from (i : gtpv2c_fq_csid_ie) (ins : istream)
  : result gtpc_exn (gtpv2c_fq_csid_ie * istream) :=
  let t := fq_csid_tlv i in
  let '(b, ins) := read_u8 (fq_csid_b i) ins in
  let ty := fq_node_id_type b in
  let k := fq_number_of_csids b in
  let n := fq_csid_u2 i in
  let bad := Throw (gtpc_tlv_bad_length_exception (t_type t) (t_length t)) in
  '(n, ins) ←
    (if ty =? GLOBAL_UNICAST_IPv4 then
       if t_length t <? 5 + k * 2 then bad
       else let '(a, ins) := ipv4_address_load_from (unicast_ipv4 n) ins in
            Val (mk_node_id a (unicast_ipv6 n) (exotic_mcc n) (exotic_mnc n) (exotic_operator_specific_id n), ins)
     else if ty =? GLOBAL_UNICAST_IPv6 then
       if t_length t <? 17 + k * 2 then bad
       else let '(a, ins) := ipv6_address_load_from (unicast_ipv6 n) ins in
            Val (mk_node_id (unicast_ipv4 n) a (exotic_mcc n) (exotic_mnc n) (exotic_operator_specific_id n), ins)
     else if ty =? TYPE_EXOTIC then
       if t_length t <? 5 + k * 2 then bad
       else let '(x, ins) := read_be 4 0 ins in
            let y := Z.shiftr x 12 in
            Val (mk_node_id (unicast_ipv4 n) (unicast_ipv6 n) (u16 (y / 1000)) (y mod 1000) (Z.land x 4095), ins)
     else Throw (gtpc_ie_value_exception GTP_IE_FQ_CSID));
  '(ids, ins) ← csids_load (Z.to_nat k) (pdn_connection_set_identifier i) ins;
  Val (mk_fq_csid_ie t b n ids, ins).

#[export] Instance fq_csid_ie : GtpIe gtpv2c_fq_csid_ie := {|
  ie_tlv := fq_csid_tlv; ie_dump_to := fq_csid_dump_to; ie_of_tlv := fq_csid_of_tlv; ie_load_from := fq_csid_load_from;
|}.

Lemma le_bytes_htons x : le_bytes 2 (htons x) = be_bytes 2 x.
Proof.
  unfold htons, be_val, be_bytes. rewrite <- (le_bytes_val (rev (le_bytes 2 x))) at 2.
  - by rewrite length_rev, length_le_bytes.
  - apply Forall_rev, le_bytes_byte.
Qed.

Lemma htons_involutive x : fits 16 x -> htons (htons x) = x.
Proof.
  intros H. unfold htons at 1. rewrite le_bytes_htons. by apply (be_val_bytes 2).
Qed.

Lemma swapped_octets ids : concat (le_bytes 2 <$> (htons <$> ids)) = concat (be_bytes 2 <$> ids).
Proof. rewrite <- list_fmap_compose. f_equal. apply list_fmap_ext. intros. apply le_bytes_htons. Qed.

Lemma csids_load_app ids acc rest :
  Forall (fits 16) ids ->
  csids_load (length ids) acc (istream_of (concat (be_bytes 2 <$> ids) ++ rest)) = Val (acc ++ ids, istream_of rest).
Proof.
  intros H. revert acc. induction H as [|x ids Hx H IH]; intros acc; [by rewrite app_nil_r|].
  rewrite fmap_cons. cbn [concat length csids_load]. rewrite <- app_assoc.
  rewrite read_exact_app by apply length_be_bytes. cbn [mbind result_bind].
  rewrite IH, (be_val_bytes 2), <- app_assoc by done. done.
Qed.

Lemma length_csids ids : length (concat (be_bytes 2 <$> ids)) = (2 * length ids)%nat.
Proof. induction ids as [|x ids IH]; [done|]. rewrite fmap_cons. cbn [concat]. rewrite length_app, IH, length_be_bytes. simpl. lia. Qed.

Definition node_id_wf (ty : Z) (n : node_id) : Prop :=
  node_id_copy ty n = Val n /\ fits 32 (unicast_ipv4 n) /\ length (unicast_ipv6 n) = 16%nat /\
  0 <= exotic_mcc n < 1000 /\ 0 <= exotic_mnc n < 1000 /\ fits 12 (exotic_operator_specific_id n).

Definition fq_csid_wf (i : gtpv2c_fq_csid_ie) : Prop :=
  let ty := fq_node_id_type (fq_csid_b i) in
  tlv_ok GTP_IE_FQ_CSID (fq_csid_tlv i) /\
  t_length (fq_csid_tlv i) = 1 + 2 * fq_number_of_csids (fq_csid_b i) + node_id_length ty /\
  node_id_wf ty (fq_csid_u2 i) /\ Forall (fits 16) (pdn_connection_set_identifier i) /\
  Z.of_nat (length (pdn_connection_set_identifier i)) = fq_number_of_csids (fq_csid_b i).

(** The operator's integer shares a word with MCC and MNC. *)
Lemma exotic_word mcc mnc op :
  0 <= mcc < 1000 -> 0 <= mnc < 1000 -> fits 12 op ->
  let x := u32 (Z.lor (Z.shiftl (1000 * mcc + mnc) 12) op) in
  fits 32 x /\ u16 (Z.shiftr x 12 / 1000) = mcc /\ Z.shiftr x 12 mod 1000 = mnc /\ Z.land x 4095 = op.
Proof.
  intros Hc Hn Ho x. split; [by apply wrapu_fits|]. unfold fits in Ho.
  assert (x = (1000 * mcc + mnc) * 2 ^ 12 + op) as ->.
  { unfold x. rewrite <- Z.lxor_lor, <- Z.add_nocarry_lxor.
    1: rewrite Z.shiftl_mul_pow2 by lia; apply wrapu_id; unfold fits; lia.
    all: apply Z.bits_inj'; intros i Hi; rewrite Z.land_spec, Z.bits_0, Z.shiftl_spec by lia;
      destruct (decide (i < 12)); [rewrite Z.testbit_neg_r by lia; done|];
      rewrite <- (Z.mod_small op (2 ^ 12)) by lia; rewrite Z.mod_pow2_bits_high by lia; apply andb_false_r. }
  rewrite Z.shiftr_div_pow2, Z.div_add_l, (Z.div_small op), Z.add_0_r by lia.
  replace (1000 * mcc + mnc) with (mcc * 1000 + mnc) by lia.
  rewrite Z.div_add_l, (Z.div_small mnc), Z.add_0_r by lia. split_and!.
  - apply wrapu_id. unfold fits. lia.
  - rewrite Z.add_comm, Z.mod_add by lia. by apply Z.mod_small.
  - change 4095 with (Z.ones 12). rewrite Z.land_ones, Z.add_comm, Z.mod_add by lia. by apply Z.mod_small.
Qed.

#[export] Instance fq_csid_codec : GtpCodec gtpv2c_fq_csid_ie fq_csid_wf.
Proof.
  split; [intros i [[_ H] _]; exact H|]. intros [t b n ids] rest (Ht & Hl & (Hn & H4 & H6 & Hmcc & Hmnc & Hop) & Hids & Hk).
  cbn [ie_load_from ie_of_tlv ie_tlv ie_dump_to fq_csid_ie fq_csid_tlv fq_csid_b fq_csid_u2
    pdn_connection_set_identifier] in *.
  pose proof (bf_field_fits 0 4 b ltac:(lia)) as Hk4. unfold fq_number_of_csids in *. unfold fits in Hk4.
  unfold fq_csid_dump_to, fq_csid_load_from.
  cbn [fq_csid_tlv fq_csid_b fq_csid_u2 pdn_connection_set_identifier fq_csid_of_tlv node_id_zero
    unicast_ipv4 unicast_ipv6 exotic_mcc exotic_mnc exotic_operator_specific_id].
  rewrite swapped_octets. unfold node_id_copy, node_id_length, fq_number_of_csids in *.
  destruct (fq_node_id_type b =? GLOBAL_UNICAST_IPv4) eqn:E0; [|destruct (fq_node_id_type b =? GLOBAL_UNICAST_IPv6) eqn:E1;
    [|destruct (fq_node_id_type b =? TYPE_EXOTIC) eqn:E2; [|done]]]; injection Hn as Hn.
  - apply Z.eqb_eq in E0 as E0'. rewrite E0' in Hl. change (GLOBAL_UNICAST_IPv4 =? GLOBAL_UNICAST_IPv6) with false in Hl. cbv iota in Hl.
    eexists _, _. split; [reflexivity|].
    split; [cbn [app length]; rewrite length_app, length_csids, length_ipv4; lia|].
    stream_norm. rewrite read_u8_cons, E0. replace (t_length t <? _) with false by (symmetry; lia).
    unfold ipv4_address_load_from, ipv4_address_dump_to. rewrite read_raw_app by done. cbn [mbind result_bind].
    rewrite <- Hk, Nat2Z.id, csids_load_app by done. simpl. by rewrite <- Hn.
  - cbv iota in Hl. eexists _, _. split; [reflexivity|]. unfold ipv6_address_load_from, ipv6_address_dump_to.
    split; [cbn [app length]; rewrite length_app, length_csids; lia|].
    stream_norm. rewrite read_u8_cons, E0, E1. replace (t_length t <? _) with false by (symmetry; lia).
    rewrite read_app by done. cbn [mbind result_bind].
    rewrite <- Hk, Nat2Z.id, csids_load_app by done. simpl. by rewrite <- Hn.
  - destruct (exotic_word _ _ _ Hmcc Hmnc Hop) as (Hx & X1 & X2 & X3). set (x := u32 _) in *.
    eexists _, _. split; [reflexivity|]. cbv iota in Hl.
    split; [cbn [app length]; rewrite length_app, length_csids, length_be_bytes; lia|].
    stream_norm. rewrite read_u8_cons, E0, E1, E2. replace (t_length t <? _) with false by (symmetry; lia).
    rewrite read_be_app by done. cbn [mbind result_bind].
    rewrite <- Hk, Nat2Z.id, csids_load_app by done. simpl. rewrite X1, X2, X3, <- Hn. done.
Qed.

Lemma fq_csid_core f :
  fits 4 (csid_node_id_type f) -> fits 4 (csid_number_of_csids f) -> node_id_wf (csid_node_id_type f) (csid_node_id f) ->
  Forall (fits 16) (csid_pdn_connection_set_identifier f) ->
  Z.of_nat (length (csid_pdn_connection_set_identifier f)) = csid_number_of_csids f ->
  exists i, fq_csid_of_core f = Val i /\ fq_csid_wf i /\ fq_csid_to_core i = Val f.
Proof.
  intros Hty Hk Hn Hids Hlen. destruct f as [ty k n ids].
  cbn [csid_node_id_type csid_number_of_csids csid_node_id csid_pdn_connection_set_identifier] in *.
  unfold fq_csid_of_core, fq_number_of_csids, fq_node_id_type.
  cbn [csid_node_id_type csid_number_of_csids csid_node_id csid_pdn_connection_set_identifier].
  bf_simpl. rewrite (proj1 Hn). cbn [mbind result_bind]. rewrite <- Hlen, Nat2Z.id, firstn_all, Hlen.
  unfold fits in Hk. eexists. split; [done|].
  unfold fq_csid_wf, fq_csid_to_core, fq_number_of_csids, fq_node_id_type.
  cbn [fq_csid_tlv fq_csid_b fq_csid_u2 pdn_connection_set_identifier].
  bf_simpl. rewrite (proj1 Hn). split; [|done]. change (2 ^ 4) with 16 in Hk.
  split; [apply tlv_ok_of; unfold node_id_length; case_match; lia|]. split; [|done].
  cbn [tlv_of t_length]. apply wrapu_id. unfold fits, node_id_length. case_match; lia.
Qed.

(** Writing an FQ-CSID changes it: the connection set identifiers are byte
    swapped in place, so that a message written a second time, as a
    retransmission does, carries them in the wrong byte order. *)
Theorem fq_csid_second_dump_swapped i b1 i1 b2 i2 :
  fq_csid_dump_to i = Val (b1, i1) -> fq_csid_dump_to i1 = Val (b2, i2) ->
  exists head, b1 = head ++ concat (be_bytes 2 <$> pdn_connection_set_identifier i) /\
               b2 = head ++ concat (be_bytes 2 <$> (htons <$> pdn_connection_set_identifier i)).
Proof.
  unfold fq_csid_dump_to. intros E1. apply bind_Val_inv in E1 as (id & Hid & [= <- <-]).
  cbn [fq_csid_b fq_csid_u2 fq_csid_tlv pdn_connection_set_identifier]. rewrite Hid. cbn [mbind result_bind].
  intros [= <- <-]. exists (tlv_dump_to (fq_csid_tlv i) ++ [fq_csid_b i] ++ id).
  rewrite !swapped_octets, <- !app_assoc. done.
Qed.

Lemma fq_csid_second_dump_swapped_witness :
  let i := mk_fq_csid_ie (mk_tlv 132 7 0) 1 (mk_node_id 16777343 in6addr_any 0 0 0) [258] in
  exists b1 i1 b2 i2 head, fq_csid_dump_to i = Val (b1, i1) /\ fq_csid_dump_to i1 = Val (b2, i2) /\
    b1 = head ++ [1; 2] /\ b2 = head ++ [2; 1].
Proof.
  intros i. eexists _, _, _, _.
  destruct (fq_csid_second_dump_swapped i _ _ _ _ eq_refl eq_refl) as (head & H1 & H2).
  exists head. split; [reflexivity|]. split; [reflexivity|]. split; [exact H1|exact H2].
Defined.
