(* ===== verification/GtpOptions.v ===== *)
(** * GTPv2-C protocol configuration options and RAN/NAS cause

    [protocol_or_container_id], [gtpv2c_pco_ie], [gtpv2c_epco_ie] and
    [gtpv2c_ran_nas_cause_ie] of [src/gtpv2c/3gpp_29.274.hpp]; the core types
    of [src/common/3gpp_24.008.h] and [3gpp_29.274.h]. *)
From S2P Require Import Prelude PaaDynamic Stream GtpTlv GtpScalar GtpAddress.
From Stdlib Require Import ZArith Lia.
From stdpp Require Import base numbers tactics list.
Open Scope Z_scope.

(** ** One container

    The core type [pco_protocol_or_container_id_t] has the same three fields. *)
Record protocol_or_container_id := mk_container {
  protocol_id : Z; length_of_protocol_id_contents : Z; protocol_id_contents : list Z }.
Definition container_init : protocol_or_container_id := mk_container 0 0 [].

Definition container_dump_to (c : protocol_or_container_id) : list Z :=
  be_bytes 2 (protocol_id c) ++ [length_of_protocol_id_contents c] ++ protocol_id_contents c.
Definition container_load_from (c : protocol_or_container_id) (ins : istream)
  : result gtpc_exn (protocol_or_container_id * istream) :=
  let '(id, ins) := read_be 2 (protocol_id c) ins in
  let '(l, ins) := read_u8 (length_of_protocol_id_contents c) ins in
  '(s, ins) ← read_exact (Z.to_nat l) ins;
  Val (mk_container id l s, ins).

Definition container_wf (c : protocol_or_container_id) : Prop :=
  fits 16 (protocol_id c) /\ fits 8 (length_of_protocol_id_contents c) /\
  Z.of_nat (length (protocol_id_contents c)) = length_of_protocol_id_contents c.

Lemma container_roundtrip c c0 rest :
  container_wf c ->
  container_load_from c0 (istream_of (container_dump_to c ++ rest)) = Val (c, istream_of rest).
Proof.
  intros (Hi & Hl & Hs). unfold container_load_from, container_dump_to. stream_norm.
  do 2 stream_step done. rewrite read_exact_app by lia. by destruct c.
Qed.

Lemma length_container_dump c :
  container_wf c -> Z.of_nat (length (container_dump_to c)) = length_of_protocol_id_contents c + 3.
Proof.
  intros (_ & _ & Hs). unfold container_dump_to. rewrite !length_app, length_be_bytes. cbn [length]. lia.
Qed.

(** ** PCO

    The core type's array of containers has thirty entries; [pco_core_ids]
    lists the used ones. *)
Definition PCO_UNSPEC_MAXIMUM_PROTOCOL_ID_OR_CONTAINER_ID : Z := 30.
Record protocol_configuration_options_t := mk_pco_t {
  pco_core_ext : Z; pco_core_configuration_protocol : Z; pco_core_num : Z;
  pco_core_ids : list protocol_or_container_id }.
Record gtpv2c_pco_ie := mk_pco_ie {
  pco_tlv : gtpv2c_tlv;
  pco_b : Z;
  num_protocol_or_container_id : Z;
  protocol_or_container_ids : list protocol_or_container_id;
}.

(** Bytes of the containers: each adds its contents and three octets. *)
Definition containers_length (l : list protocol_or_container_id) : Z :=
  foldr (fun c n => length_of_protocol_id_contents c + 3 + n) 0 l.

Definition pco_of_core (p : protocol_configuration_options_t) : result gtpc_exn gtpv2c_pco_ie :=
  if PCO_UNSPEC_MAXIMUM_PROTOCOL_ID_OR_CONTAINER_ID <? pco_core_num p then UB
  else
    let ids := (fun k => nth k (pco_core_ids p) container_init) <$> seq 0 (Z.to_nat (pco_core_num p)) in
    Val (mk_pco_ie (tlv_of GTP_IE_PROTOCOL_CONFIGURATION_OPTIONS (1 + containers_length ids))
      (bf_pack [(3, pco_core_configuration_protocol p); (4, 0); (1, pco_core_ext p)])
      (u8 (Z.of_nat (length ids))) ids).
Definition pco_of_tlv (t : gtpv2c_tlv) : gtpv2c_pco_ie := mk_pco_ie t (bf_pack [(3, 0); (4, 0); (1, 1)]) 0 [].

(** [p.protocol_or_container_ids[i]] is written for every container. *)
Definition pco_to_core (i : gtpv2c_pco_ie) : result gtpc_exn protocol_configuration_options_t :=
  let n := Z.of_nat (length (protocol_or_container_ids i)) in
  if PCO_UNSPEC_MAXIMUM_PROTOCOL_ID_OR_CONTAINER_ID <? n then UB
  else Val (mk_pco_t (bf_field 7 1 (pco_b i)) (bf_field 0 3 (pco_b i)) (u8 n) (protocol_or_container_ids i)).

Definition pco_dump_to (i : gtpv2c_pco_ie) : list Z :=
  tlv_dump_to (pco_tlv i) ++ [pco_b i] ++ concat (container_dump_to <$> protocol_or_container_ids i).

(** The [while (remaining_size > 0)] loop; every round takes three octets or
    more, so [remaining_size] rounds are enough. *)
Fixpoint pco_load_loop (fuel : nat) (t : gtpv2c_tlv) (remaining num : Z) (ids : list protocol_or_container_id)
    (ins : istream) : result gtpc_exn (Z * list protocol_or_container_id * istream) :=
  match fuel with
  | O => Val (num, ids, ins)
  | S fuel =>
    if 0 <? remaining then
      '(c, ins) ← container_load_from container_init ins;
      let n := length_of_protocol_id_contents c + 3 in
      if n <=? remaining then pco_load_loop fuel t (remaining - n) (u8 (num + 1)) (ids ++ [c]) ins
      else Throw (gtpc_tlv_bad_length_exception (t_type t) (t_length t))
    else Val (num, ids, ins)
  end.

Definition pco_load_from (i : gtpv2c_pco_ie) (ins : istream) : result gtpc_exn (gtpv2c_pco_ie * istream) :=
  let t := pco_tlv i in
  let '(b, ins) := read_u8 (pco_b i) ins in
  let remaining := t_length t - 1 in
  '(num, ids, ins) ← pco_load_loop (Z.to_nat remaining) t remaining 0 (protocol_or_container_ids i) ins;
  Val (mk_pco_ie t b num ids, ins).

#[export] Instance pco_ie : GtpIe gtpv2c_pco_ie := {|
  ie_tlv := pco_tlv; ie_dump_to i := Val (pco_dump_to i, i); ie_of_tlv := pco_of_tlv; ie_load_from := pco_load_from;
|}.

(** Octets stay octets through the reads. *)
Lemma read_byte dst ins :
  byte_list dst -> byte_list (is_data ins) ->
  byte_list (read dst ins).1 /\ byte_list (is_data (read dst ins).2) /\ length (read dst ins).1 = length dst.
Proof.
  intros Hd Hi. unfold read. destruct (is_good ins); [|done]. cbn [fst snd is_data]. split_and!.
  - apply Forall_app. split; [by apply Forall_take|by apply Forall_drop].
  - by apply Forall_drop.
  - rewrite length_app, length_take, length_drop. lia.
Qed.

Lemma container_load_byte c ins c' ins' :
  fits 8 (length_of_protocol_id_contents c) -> byte_list (is_data ins) ->
  container_load_from c ins = Val (c', ins') ->
  0 <= length_of_protocol_id_contents c' /\ byte_list (is_data ins').
Proof.
  intros Hc Hi. unfold container_load_from, read_be, read_u8.
  destruct (read (le_bytes 2 (protocol_id c)) ins) as [x ins1] eqn:E1.
  pose proof (read_byte _ _ (le_bytes_byte 2 (protocol_id c)) Hi) as (_ & H1 & _). rewrite E1 in H1.
  destruct (read [length_of_protocol_id_contents c] ins1) as [y ins2] eqn:E2.
  pose proof (read_byte [length_of_protocol_id_contents c] ins1 ltac:(by constructor) H1) as (Hy & H2 & _).
  rewrite E2 in Hy, H2. cbn [fst snd] in Hy, H2. intros E. apply bind_Val_inv in E as ([s3 ins3] & E3 & [= <- <-]).
  split; [simpl; apply (le_val_fits y Hy)|]. revert E3. unfold read_exact.
  repeat case_match; intros [= <- <-]; [done|]. simpl. by apply Forall_drop.
Qed.

(** The fuel is enough: more of it changes nothing. *)
Lemma pco_load_loop_fuel fuel t remaining num ids ins :
  byte_list (is_data ins) -> (Z.to_nat remaining <= fuel)%nat ->
  pco_load_loop (S fuel) t remaining num ids ins = pco_load_loop fuel t remaining num ids ins.
Proof.
  revert remaining num ids ins. induction fuel as [|fuel IH]; intros remaining num ids ins Hi Hf.
  - cbn [pco_load_loop]. by replace (0 <? remaining) with false by (symmetry; lia).
  - cbn [pco_load_loop]. destruct (0 <? remaining) eqn:E0; [|done].
    destruct (container_load_from container_init ins) as [[c ins']| | |] eqn:E; [|done..].
    destruct (container_load_byte container_init ins c ins' ltac:(done) Hi E) as [Hp Hi'].
    cbn [mbind result_bind]. destruct (_ <=? _) eqn:El; [|done].
    specialize (IH (remaining - (length_of_protocol_id_contents c + 3)) (u8 (num + 1)) (ids ++ [c]) ins' Hi' ltac:(lia)).
    exact IH.
Qed.

Lemma pco_load_loop_app ids : forall fuel t num acc rest,
  Forall container_wf ids -> (length ids <= fuel)%nat ->
  pco_load_loop fuel t (containers_length ids) num acc
    (istream_of (concat (container_dump_to <$> ids) ++ rest)) =
  Val (foldl (fun n _ => u8 (n + 1)) num ids, acc ++ ids, istream_of rest).
Proof.
  induction ids as [|c ids IH]; intros fuel t num acc rest Hw Hf.
  - rewrite app_nil_r. by destruct fuel.
  - destruct fuel as [|fuel]; [simpl in Hf; lia|]. inversion_clear Hw as [|? ? Hc Hw'].
    assert (0 <= containers_length ids) as Hpos.
    { clear -Hw'. induction Hw' as [|c ids (_ & Hc & _) _ IH]; [done|]. simpl. unfold fits in Hc. lia. }
    pose proof Hc as (_ & Hl & _). unfold fits in Hl.
    change (containers_length (c :: ids)) with (length_of_protocol_id_contents c + 3 + containers_length ids).
    rewrite fmap_cons. cbn [concat]. rewrite <- app_assoc. cbn [pco_load_loop].
    replace (0 <? _) with true by (symmetry; lia). rewrite container_roundtrip by done. cbn [mbind result_bind].
    replace (_ <=? _) with true by (symmetry; lia).
    replace (_ - _) with (containers_length ids) by lia. simpl in Hf.
    rewrite IH by (done || lia). rewrite <- app_assoc. done.
Qed.

Lemma count_containers {A} (ids : list A) n :
  0 <= n -> n + Z.of_nat (length ids) < 256 -> foldl (fun n _ => u8 (n + 1)) n ids = n + Z.of_nat (length ids).
Proof.
  revert n. induction ids as [|c ids IH]; intros n H0 H; simpl in *; [lia|].
  rewrite IH; rewrite wrapu_id by (unfold fits; lia); lia.
Qed.

Lemma length_containers ids : Forall container_wf ids ->
  Z.of_nat (length (concat (container_dump_to <$> ids))) = containers_length ids /\
  Z.of_nat (length ids) <= containers_length ids.
Proof.
  induction 1 as [|c ids Hc _ [IH1 IH2]]; [done|]. rewrite fmap_cons. cbn [concat].
  rewrite length_app, Nat2Z.inj_add, length_container_dump by done. pose proof Hc as (_ & Hl & _). unfold fits in Hl.
  change (containers_length (c :: ids)) with (length_of_protocol_id_contents c + 3 + containers_length ids).
  cbn [length]. lia.
Qed.

Definition pco_wf (i : gtpv2c_pco_ie) : Prop :=
  tlv_ok GTP_IE_PROTOCOL_CONFIGURATION_OPTIONS (pco_tlv i) /\
  t_length (pco_tlv i) = 1 + containers_length (protocol_or_container_ids i) /\
  Forall container_wf (protocol_or_container_ids i) /\
  Z.of_nat (length (protocol_or_container_ids i)) <= PCO_UNSPEC_MAXIMUM_PROTOCOL_ID_OR_CONTAINER_ID /\
  num_protocol_or_container_id i = Z.of_nat (length (protocol_or_container_ids i)).

#[export] Instance pco_codec : GtpCodec gtpv2c_pco_ie pco_wf.
Proof.
  split; [intros i [[_ H] _]; exact H|]. intros [t b num ids] rest (Ht & Hl & Hw & Hmax & Hnum).
  cbn [ie_load_from ie_of_tlv ie_tlv ie_dump_to pco_ie pco_tlv protocol_or_container_ids num_protocol_or_container_id] in *.
  unfold PCO_UNSPEC_MAXIMUM_PROTOCOL_ID_OR_CONTAINER_ID in Hmax. subst num.
  destruct (length_containers ids Hw) as [Hlen Hle].
  exists ([b] ++ concat (container_dump_to <$> ids)). eexists. split; [done|].
  split; [rewrite length_app; cbn [length]; lia|].
  unfold pco_load_from. cbn [pco_of_tlv pco_tlv protocol_or_container_ids]. stream_norm. rewrite read_u8_cons.
  replace (t_length t - 1) with (containers_length ids) by lia.
  rewrite pco_load_loop_app by (done || lia). cbn [mbind result_bind]. by rewrite count_containers by lia.
Qed.

Lemma nth_seq_id {A} (l : list A) d : (fun k => nth k l d) <$> seq 0 (length l) = l.
Proof.
  induction l as [|x l IH]; [done|]. cbn [length seq]. rewrite fmap_cons. cbn [nth]. f_equal.
  rewrite <- IH at 2. rewrite <- seq_shift, <- list_fmap_compose. done.
Qed.

Lemma pco_core p :
  fits 1 (pco_core_ext p) -> fits 3 (pco_core_configuration_protocol p) ->
  Forall container_wf (pco_core_ids p) -> pco_core_num p = Z.of_nat (length (pco_core_ids p)) ->
  pco_core_num p <= PCO_UNSPEC_MAXIMUM_PROTOCOL_ID_OR_CONTAINER_ID ->
  exists i, pco_of_core p = Val i /\ pco_wf i /\ pco_to_core i = Val p.
Proof.
  intros He Hc Hw Hn Hmax. destruct p as [e c n ids].
  cbn [pco_core_ext pco_core_configuration_protocol pco_core_ids pco_core_num] in *.
  unfold pco_of_core. cbn [pco_core_ext pco_core_configuration_protocol pco_core_ids pco_core_num].
  destruct (length_containers ids Hw) as [_ Hle].
  assert (containers_length ids <= 258 * Z.of_nat (length ids)) as Hup.
  { clear -Hw. induction Hw as [|c ids (_ & Hl & _) _ IH]; [done|]. unfold fits in Hl. simpl in *. lia. }
  unfold PCO_UNSPEC_MAXIMUM_PROTOCOL_ID_OR_CONTAINER_ID in *.
  replace (30 <? n) with false by (symmetry; lia). rewrite Hn, Nat2Z.id, nth_seq_id.
  eexists. split; [done|]. split.
  - split; [apply tlv_ok_of; lia|]. cbn [pco_tlv tlv_of t_length protocol_or_container_ids num_protocol_or_container_id].
    rewrite !wrapu_id by (unfold fits; lia). split_and!; [done|done| |done].
    unfold PCO_UNSPEC_MAXIMUM_PROTOCOL_ID_OR_CONTAINER_ID. lia.
  - unfold pco_to_core. cbn [protocol_or_container_ids pco_b].
    unfold PCO_UNSPEC_MAXIMUM_PROTOCOL_ID_OR_CONTAINER_ID.
    replace (30 <? _) with false by (symmetry; lia). bf_simpl.
    by rewrite wrapu_id by (unfold fits; lia).
Qed.

(** A peer can send more containers than the core type has room for: the
    parser accepts thirty-one empty ones (94 octets), and converting the
    element then writes past the end of the array. *)
Theorem pco_overflow (n : nat) (rest : list Z) :
  (30 < n)%nat -> Z.of_nat n < 20000 ->
  let t := mk_tlv GTP_IE_PROTOCOL_CONFIGURATION_OPTIONS (1 + 3 * Z.of_nat n) 0 in
  exists i, pco_load_from (pco_of_tlv t)
      (istream_of (128 :: concat (replicate n [0; 13; 0]) ++ rest)) = Val (i, istream_of rest) /\
    pco_to_core i = UB.
Proof.
  intros H1 H2 t. set (c := mk_container 13 0 []). set (ids := replicate n c).
  assert (Forall container_wf ids) as Hw by (apply Forall_replicate; done).
  assert (concat (replicate n [0; 13; 0]) = concat (container_dump_to <$> ids)) as ->
    by (unfold ids; by rewrite fmap_replicate).
  assert (containers_length ids = 3 * Z.of_nat n) as Hc.
  { unfold ids, c. clear. induction n as [|n IH]; [done|]. cbn [replicate containers_length foldr] in *.
    unfold containers_length in IH. rewrite IH. cbn [length_of_protocol_id_contents]. lia. }
  destruct (length_containers ids Hw) as [_ Hle].
  unfold pco_load_from. cbn [pco_of_tlv pco_tlv protocol_or_container_ids t t_length]. rewrite read_u8_cons.
  replace (1 + 3 * Z.of_nat n - 1) with (containers_length ids) by lia.
  rewrite pco_load_loop_app by (done || lia). cbn [mbind result_bind]. eexists. split; [done|].
  unfold pco_to_core. cbn [protocol_or_container_ids app]. unfold ids. rewrite length_replicate.
  by replace (_ <? _) with true by (symmetry; unfold PCO_UNSPEC_MAXIMUM_PROTOCOL_ID_OR_CONTAINER_ID; lia).
Qed.

Lemma pco_overflow_witness :
  let t := mk_tlv GTP_IE_PROTOCOL_CONFIGURATION_OPTIONS 94 0 in
  exists i, pco_load_from (pco_of_tlv t)
      (istream_of (128 :: concat (replicate 31 [0; 13; 0]) ++ [])) = Val (i, istream_of []) /\
    pco_to_core i = UB.
Proof. apply (pco_overflow 31 []); [lia|lia]. Defined.

(** ** Extended PCO: an opaque string. *)
Record extended_protocol_configuration_options_t := mk_epco_t { epco_core : list Z }.
Record gtpv2c_epco_ie := mk_epco_ie { epco_tlv : gtpv2c_tlv; extended_protocol_configuration_options : list Z }.

Definition epco_of_core (e : extended_protocol_configuration_options_t) : gtpv2c_epco_ie :=
  mk_epco_ie (tlv_of GTP_IE_EXTENDED_PROTOCOL_CONFIGURATION_OPTIONS (Z.of_nat (length (epco_core e)))) (epco_core e).
Definition epco_of_tlv (t : gtpv2c_tlv) : gtpv2c_epco_ie := mk_epco_ie t [].
Definition epco_to_core (i : gtpv2c_epco_ie) : extended_protocol_configuration_options_t :=
  mk_epco_t (extended_protocol_configuration_options i).
Definition epco_dump_to (i : gtpv2c_epco_ie) : list Z * gtpv2c_epco_ie :=
  let s := extended_protocol_configuration_options i in
  let i := mk_epco_ie (tlv_set_length (Z.of_nat (length s)) (epco_tlv i)) s in
  (tlv_dump_to (epco_tlv i) ++ s, i).
Definition epco_load_from (i : gtpv2c_epco_ie) (ins : istream) : result gtpc_exn (gtpv2c_epco_ie * istream) :=
  '(s, ins) ← read_exact (Z.to_nat (t_length (epco_tlv i))) ins; Val (mk_epco_ie (epco_tlv i) s, ins).

#[export] Instance epco_ie : GtpIe gtpv2c_epco_ie := {|
  ie_tlv := epco_tlv; ie_dump_to i := Val (epco_dump_to i); ie_of_tlv := epco_of_tlv; ie_load_from := epco_load_from;
|}.

Definition epco_wf (i : gtpv2c_epco_ie) : Prop :=
  tlv_ok GTP_IE_EXTENDED_PROTOCOL_CONFIGURATION_OPTIONS (epco_tlv i) /\
  t_length (epco_tlv i) = Z.of_nat (length (extended_protocol_configuration_options i)).

#[export] Instance epco_codec : GtpCodec gtpv2c_epco_ie epco_wf.
Proof.
  split; [intros i [[_ H] _]; exact H|]. intros [t s] rest ([Hty Ht] & Hl).
  cbn [ie_load_from ie_of_tlv ie_tlv ie_dump_to epco_ie epco_tlv extended_protocol_configuration_options] in *.
  assert (tlv_set_length (Z.of_nat (length s)) t = t) as Et.
  { unfold tlv_set_length. rewrite wrapu_id by (unfold fits; lia). destruct t. simpl in *. by subst. }
  exists s, (mk_epco_ie t s). unfold epco_dump_to, epco_load_from.
  cbn [epco_tlv extended_protocol_configuration_options epco_of_tlv]. rewrite Et, Hl. split; [done|]. split; [done|].
  by rewrite read_exact_app by (by rewrite Nat2Z.id).
Qed.

(** ** RAN/NAS Cause

    [ran_value] is the member of the union the protocol type selects. *)
Definition PROTOCOL_TYPE_E_S1AP : Z := 0.
Definition PROTOCOL_TYPE_E_EMM : Z := 1.
Definition PROTOCOL_TYPE_E_ESM : Z := 2.
Definition PROTOCOL_TYPE_E_DIAMETER : Z := 3.
Definition PROTOCOL_TYPE_E_IKEV2 : Z := 4.
Record ran_nas_cause_t := mk_ran_nas_cause_t { rn_protocol_type : Z; rn_cause_type : Z; rn_value : Z }.
Record gtpv2c_ran_nas_cause_ie := mk_ran_nas_cause_ie { ran_tlv : gtpv2c_tlv; ran_b : Z; ran_value : Z }.

(** Octets of the member: one for EMM and ESM, two for the others. *)
Definition ran_octets (proto : Z) : result gtpc_exn nat :=
  if (proto =? PROTOCOL_TYPE_E_EMM) || (proto =? PROTOCOL_TYPE_E_ESM) then Val 1%nat
  else if (proto =? PROTOCOL_TYPE_E_S1AP) || (proto =? PROTOCOL_TYPE_E_DIAMETER) || (proto =? PROTOCOL_TYPE_E_IKEV2)
  then Val 2%nat
  else Throw (gtpc_ie_value_exception GTP_IE_RAN_NAS_CAUSE).

Definition ran_nas_cause_of_core (c : ran_nas_cause_t) : result gtpc_exn gtpv2c_ran_nas_cause_ie :=
  n ← ran_octets (rn_protocol_type c);
  Val (mk_ran_nas_cause_ie (tlv_of GTP_IE_RAN_NAS_CAUSE (1 + Z.of_nat n))
    (bf_pack [(4, rn_cause_type c); (4, rn_protocol_type c)]) (rn_value c)).
Definition ran_nas_cause_of_tlv (t : gtpv2c_tlv) : gtpv2c_ran_nas_cause_ie := mk_ran_nas_cause_ie t 0 0.
Definition ran_nas_cause_to_core (i : gtpv2c_ran_nas_cause_ie) : result gtpc_exn ran_nas_cause_t :=
  _ ← ran_octets (bf_field 4 4 (ran_b i));
  Val (mk_ran_nas_cause_t (bf_field 4 4 (ran_b i)) (bf_field 0 4 (ran_b i)) (ran_value i)).
Definition ran_nas_cause_dump_to (i : gtpv2c_ran_nas_cause_ie) : result gtpc_exn (list Z) :=
  n ← ran_octets (bf_field 4 4 (ran_b i));
  Val (tlv_dump_to (ran_tlv i) ++ [ran_b i] ++ be_bytes n (ran_value i)).
Definition ran_nas_cause_load_from (i : gtpv2c_ran_nas_cause_ie) (ins : istream)
  : result gtpc_exn (gtpv2c_ran_nas_cause_ie * istream) :=
  let '(b, ins) := read_u8 (ran_b i) ins in
  n ← ran_octets (bf_field 4 4 b);
  let '(v, ins) := read_be n (ran_value i) ins in
  Val (mk_ran_nas_cause_ie (ran_tlv i) b v, ins).

#[export] Instance ran_nas_cause_ie : GtpIe gtpv2c_ran_nas_cause_ie := {|
  ie_tlv := ran_tlv; ie_dump_to i := b ← ran_nas_cause_dump_to i; Val (b, i);
  ie_of_tlv := ran_nas_cause_of_tlv; ie_load_from := ran_nas_cause_load_from;
|}.

Definition ran_nas_cause_wf (i : gtpv2c_ran_nas_cause_ie) : Prop :=
  tlv_ok GTP_IE_RAN_NAS_CAUSE (ran_tlv i) /\
  exists n, ran_octets (bf_field 4 4 (ran_b i)) = Val n /\ t_length (ran_tlv i) = 1 + Z.of_nat n /\
    fits (8 * Z.of_nat n) (ran_value i).

#[export] Instance ran_nas_cause_codec : GtpCodec gtpv2c_ran_nas_cause_ie ran_nas_cause_wf.
Proof.
  split; [intros i [[_ H] _]; exact H|]. intros [t b v] rest (Ht & n & Hn & Hl & Hv).
  cbn [ie_load_from ie_of_tlv ie_tlv ie_dump_to ran_nas_cause_ie ran_tlv ran_b ran_value] in *.
  exists ([b] ++ be_bytes n v). eexists. unfold ran_nas_cause_dump_to, ran_nas_cause_load_from.
  cbn [ran_tlv ran_b ran_value ran_nas_cause_of_tlv]. rewrite Hn. cbn [mbind result_bind]. split; [done|].
  split; [rewrite length_app, length_be_bytes; cbn [length]; lia|].
  stream_norm. rewrite read_u8_cons, Hn. cbn [mbind result_bind]. by rewrite read_be_app.
Qed.
