(* ===== verification/GtpIe.v ===== *)
(** * Any GTPv2-C information element

    The class hierarchy under [gtpv2c_ie] ([src/gtpv2c/3gpp_29.274.hpp]) as one
    type, the bearer context with its nested elements, and the factory
    [gtpv2c_ie::new_gtpv2c_ie_from_stream] ([3gpp_29.274.cpp]).

    [IeEpco] and [IeRanNasCause] can be written but are not known to the
    factory. *)
From S2P Require Import Prelude PaaDynamic Stream GtpTlv GtpScalar GtpIdentity GtpQos GtpLocation GtpAddress GtpOptions.
From Stdlib Require Import ZArith Lia.
From stdpp Require Import base numbers tactics list.
Open Scope Z_scope.

Definition GTP_IE_BEARER_CONTEXT : Z := 93.

Set Warnings "-register-all".

Inductive gtpv2c_ie :=
| IeImsi (i : gtpv2c_imsi_ie)
| IeCause (i : gtpv2c_cause_ie)
| IeRecovery (i : gtpv2c_recovery_ie)
| IeApn (i : gtpv2c_access_point_name_ie)
| IeAmbr (i : gtpv2c_aggregate_maximum_bit_rate_ie)
| IeEbi (i : gtpv2c_eps_bearer_id_ie)
| IeIpAddress (i : gtpv2c_ip_address_ie)
| IeMei (i : gtpv2c_mei_ie)
| IeMsisdn (i : gtpv2c_msisdn_ie)
| IeIndication (i : gtpv2c_indication_ie)
| IePco (i : gtpv2c_pco_ie)
| IePaa (i : gtpv2c_paa_ie)
| IeBearerQos (i : gtpv2c_bearer_qos_ie)
| IeFlowQos (i : gtpv2c_flow_qos_ie)
| IeRatType (i : gtpv2c_rat_type_ie)
| IeServingNetwork (i : gtpv2c_serving_network_ie)
| IeBearerTft (i : gtpv2c_bearer_tft_ie)
| IeUli (i : gtpv2c_user_location_information_ie)
| IeFteid (i : gtpv2c_fully_qualified_teid_ie)
| IeDelayValue (i : gtpv2c_delay_value_ie)
| IeChargingId (i : gtpv2c_charging_id_ie)
| IeBearerFlags (i : gtpv2c_bearer_flags_ie)
| IePdnType (i : gtpv2c_pdn_type_ie)
| IeUeTimeZone (i : gtpv2c_ue_time_zone_ie)
| IeApnRestriction (i : gtpv2c_apn_restriction_ie)
| IeSelectionMode (i : gtpv2c_selection_mode_ie)
| IeFqCsid (i : gtpv2c_fq_csid_ie)
| IeNodeType (i : gtpv2c_node_type_ie)
| IeNodeFeatures (i : gtpv2c_node_features_ie)
| IeCiot (i : gtpv2c_ciot_optimizations_support_indication_ie)
| IeEpco (i : gtpv2c_epco_ie)
| IeRanNasCause (i : gtpv2c_ran_nas_cause_ie)
| IeBearerContext (t : gtpv2c_tlv) (l : list gtpv2c_ie).

(** The [tlv] member. *)
Definition tlv_of_ie (i : gtpv2c_ie) : gtpv2c_tlv :=
  match i with
  | IeImsi i => ie_tlv i
  | IeCause i => ie_tlv i
  | IeRecovery i => ie_tlv i
  | IeApn i => ie_tlv i
  | IeAmbr i => ie_tlv i
  | IeEbi i => ie_tlv i
  | IeIpAddress i => ie_tlv i
  | IeMei i => ie_tlv i
  | IeMsisdn i => ie_tlv i
  | IeIndication i => ie_tlv i
  | IePco i => ie_tlv i
  | IePaa i => ie_tlv i
  | IeBearerQos i => ie_tlv i
  | IeFlowQos i => ie_tlv i
  | IeRatType i => ie_tlv i
  | IeServingNetwork i => ie_tlv i
  | IeBearerTft i => ie_tlv i
  | IeUli i => ie_tlv i
  | IeFteid i => ie_tlv i
  | IeDelayValue i => ie_tlv i
  | IeChargingId i => ie_tlv i
  | IeBearerFlags i => ie_tlv i
  | IePdnType i => ie_tlv i
  | IeUeTimeZone i => ie_tlv i
  | IeApnRestriction i => ie_tlv i
  | IeSelectionMode i => ie_tlv i
  | IeFqCsid i => ie_tlv i
  | IeNodeType i => ie_tlv i
  | IeNodeFeatures i => ie_tlv i
  | IeCiot i => ie_tlv i
  | IeEpco i => ie_tlv i
  | IeRanNasCause i => ie_tlv i
  | IeBearerContext t _ => t
  end.

(** [tlv.set_instance] on the element. *)
Definition ie_set_instance (n : Z) (i : gtpv2c_ie) : gtpv2c_ie :=
  match i with
  | IeImsi (mk_imsi_ie t x1 x2) => IeImsi (mk_imsi_ie (tlv_set_instance n t) x1 x2)
  | IeCause (mk_cause_ie t x1 x2 x3 x4 x5) => IeCause (mk_cause_ie (tlv_set_instance n t) x1 x2 x3 x4 x5)
  | IeRecovery (mk_recovery_ie t x1) => IeRecovery (mk_recovery_ie (tlv_set_instance n t) x1)
  | IeApn (mk_apn_ie t x1) => IeApn (mk_apn_ie (tlv_set_instance n t) x1)
  | IeAmbr (mk_ambr_ie t x1 x2) => IeAmbr (mk_ambr_ie (tlv_set_instance n t) x1 x2)
  | IeEbi (mk_eps_bearer_id_ie t x1) => IeEbi (mk_eps_bearer_id_ie (tlv_set_instance n t) x1)
  | IeIpAddress (mk_ip_address_ie t x1 x2) => IeIpAddress (mk_ip_address_ie (tlv_set_instance n t) x1 x2)
  | IeMei (mk_mei_ie t x1 x2) => IeMei (mk_mei_ie (tlv_set_instance n t) x1 x2)
  | IeMsisdn (mk_msisdn_ie t x1 x2) => IeMsisdn (mk_msisdn_ie (tlv_set_instance n t) x1 x2)
  | IeIndication (mk_indication_ie t x1 x2 x3 x4 x5 x6 x7) => IeIndication (mk_indication_ie (tlv_set_instance n t) x1 x2 x3 x4 x5 x6 x7)
  | IePco (mk_pco_ie t x1 x2 x3) => IePco (mk_pco_ie (tlv_set_instance n t) x1 x2 x3)
  | IePaa (mk_paa_ie t x1 x2 x3 x4) => IePaa (mk_paa_ie (tlv_set_instance n t) x1 x2 x3 x4)
  | IeBearerQos (mk_bearer_qos_ie t x1 x2 x3 x4 x5 x6) => IeBearerQos (mk_bearer_qos_ie (tlv_set_instance n t) x1 x2 x3 x4 x5 x6)
  | IeFlowQos (mk_flow_qos_ie t x1 x2 x3 x4 x5) => IeFlowQos (mk_flow_qos_ie (tlv_set_instance n t) x1 x2 x3 x4 x5)
  | IeRatType (mk_rat_type_ie t x1) => IeRatType (mk_rat_type_ie (tlv_set_instance n t) x1)
  | IeServingNetwork (mk_serving_network_ie t x1) => IeServingNetwork (mk_serving_network_ie (tlv_set_instance n t) x1)
  | IeBearerTft (mk_bearer_tft_ie t x1) => IeBearerTft (mk_bearer_tft_ie (tlv_set_instance n t) x1)
  | IeUli (mk_uli_ie t x1 x2 x3 x4 x5 x6 x7 x8 x9) => IeUli (mk_uli_ie (tlv_set_instance n t) x1 x2 x3 x4 x5 x6 x7 x8 x9)
  | IeFteid (mk_fteid_ie t x1 x2 x3 x4) => IeFteid (mk_fteid_ie (tlv_set_instance n t) x1 x2 x3 x4)
  | IeDelayValue (mk_delay_value_ie t x1) => IeDelayValue (mk_delay_value_ie (tlv_set_instance n t) x1)
  | IeChargingId (mk_charging_id_ie t x1) => IeChargingId (mk_charging_id_ie (tlv_set_instance n t) x1)
  | IeBearerFlags (mk_bearer_flags_ie t x1) => IeBearerFlags (mk_bearer_flags_ie (tlv_set_instance n t) x1)
  | IePdnType (mk_pdn_type_ie t x1) => IePdnType (mk_pdn_type_ie (tlv_set_instance n t) x1)
  | IeUeTimeZone (mk_ue_time_zone_ie t x1 x2) => IeUeTimeZone (mk_ue_time_zone_ie (tlv_set_instance n t) x1 x2)
  | IeApnRestriction (mk_apn_restriction_ie t x1) => IeApnRestriction (mk_apn_restriction_ie (tlv_set_instance n t) x1)
  | IeSelectionMode (mk_selection_mode_ie t x1) => IeSelectionMode (mk_selection_mode_ie (tlv_set_instance n t) x1)
  | IeFqCsid (mk_fq_csid_ie t x1 x2 x3) => IeFqCsid (mk_fq_csid_ie (tlv_set_instance n t) x1 x2 x3)
  | IeNodeType (mk_node_type_ie t x1) => IeNodeType (mk_node_type_ie (tlv_set_instance n t) x1)
  | IeNodeFeatures (mk_node_features_ie t x1) => IeNodeFeatures (mk_node_features_ie (tlv_set_instance n t) x1)
  | IeCiot (mk_ciot_optimizations_support_indication_ie t x1) => IeCiot (mk_ciot_optimizations_support_indication_ie (tlv_set_instance n t) x1)
  | IeEpco (mk_epco_ie t x1) => IeEpco (mk_epco_ie (tlv_set_instance n t) x1)
  | IeRanNasCause (mk_ran_nas_cause_ie t x1 x2) => IeRanNasCause (mk_ran_nas_cause_ie (tlv_set_instance n t) x1 x2)
  | IeBearerContext t l => IeBearerContext (tlv_set_instance n t) l
  end.

(** The virtual [dump_to]. *)
Definition dump_as {A} `{GtpIe A} (c : A -> gtpv2c_ie) (a : A) : result gtpc_exn (list Z * gtpv2c_ie) :=
  '(b, a) ← ie_dump_to a; Val (b, c a).

Definition dump_all (dump : gtpv2c_ie -> result gtpc_exn (list Z * gtpv2c_ie))
  : list gtpv2c_ie -> result gtpc_exn (list Z * list gtpv2c_ie) :=
  fix go l :=
    match l with
    | [] => Val ([], [])
    | i :: l => '(b, i) ← dump i; '(bs, l) ← go l; Val (b ++ bs, i :: l)
    end.

Fixpoint gtpv2c_ie_dump_to (i : gtpv2c_ie) : result gtpc_exn (list Z * gtpv2c_ie) :=
  match i with
  | IeImsi i => dump_as IeImsi i
  | IeCause i => dump_as IeCause i
  | IeRecovery i => dump_as IeRecovery i
  | IeApn i => dump_as IeApn i
  | IeAmbr i => dump_as IeAmbr i
  | IeEbi i => dump_as IeEbi i
  | IeIpAddress i => dump_as IeIpAddress i
  | IeMei i => dump_as IeMei i
  | IeMsisdn i => dump_as IeMsisdn i
  | IeIndication i => dump_as IeIndication i
  | IePco i => dump_as IePco i
  | IePaa i => dump_as IePaa i
  | IeBearerQos i => dump_as IeBearerQos i
  | IeFlowQos i => dump_as IeFlowQos i
  | IeRatType i => dump_as IeRatType i
  | IeServingNetwork i => dump_as IeServingNetwork i
  | IeBearerTft i => dump_as IeBearerTft i
  | IeUli i => dump_as IeUli i
  | IeFteid i => dump_as IeFteid i
  | IeDelayValue i => dump_as IeDelayValue i
  | IeChargingId i => dump_as IeChargingId i
  | IeBearerFlags i => dump_as IeBearerFlags i
  | IePdnType i => dump_as IePdnType i
  | IeUeTimeZone i => dump_as IeUeTimeZone i
  | IeApnRestriction i => dump_as IeApnRestriction i
  | IeSelectionMode i => dump_as IeSelectionMode i
  | IeFqCsid i => dump_as IeFqCsid i
  | IeNodeType i => dump_as IeNodeType i
  | IeNodeFeatures i => dump_as IeNodeFeatures i
  | IeCiot i => dump_as IeCiot i
  | IeEpco i => dump_as IeEpco i
  | IeRanNasCause i => dump_as IeRanNasCause i
  | IeBearerContext t l =>
    '(b, l) ← dump_all gtpv2c_ie_dump_to l; Val (tlv_dump_to t ++ b, IeBearerContext t l)
  end.

(** [gtpv2c_grouped_ie::add_ie] *)
Definition grouped_add_ie (i : gtpv2c_ie) (t : gtpv2c_tlv) (l : list gtpv2c_ie) : gtpv2c_tlv * list gtpv2c_ie :=
  (tlv_set_length (t_length t + (gtpv2c_tlv_ie_length + t_length (tlv_of_ie i))) t, l ++ [i]).

(** ** The factory *)
Definition load_as {A} `{GtpIe A} (c : A -> gtpv2c_ie) (t : gtpv2c_tlv) (ins : istream)
  : result gtpc_exn (option gtpv2c_ie * istream) :=
  '(a, ins) ← ie_load_from (ie_of_tlv t) ins; Val (Some (c a), ins).

(** [gtpv2c_grouped_ie::load_from]; [new_ie] reads one nested element. *)
Fixpoint grouped_load_from (fuel : nat) (new_ie : istream -> result gtpc_exn (option gtpv2c_ie * istream))
    (t : gtpv2c_tlv) (remaining_size : Z) (l : list gtpv2c_ie) (ins : istream)
  : result gtpc_exn (list gtpv2c_ie * istream) :=
  if 0 <? remaining_size then
    match fuel with
    | O => Diverge
    | S fuel =>
      '(oi, ins) ← new_ie ins;
      match oi with
      | Some i =>
        grouped_load_from fuel new_ie t (remaining_size - (t_length (tlv_of_ie i) + gtpv2c_tlv_ie_length)) (l ++ [i]) ins
      | None => Throw (gtpc_tlv_bad_length_exception (t_type t) (t_length t))
      end
    end
  else Val (l, ins).

(** [None] is the null pointer.  [fuel] bounds the nesting and the number of
    elements of a group. *)
Fixpoint new_gtpv2c_ie_from_stream (fuel : nat) (ins : istream) : result gtpc_exn (option gtpv2c_ie * istream) :=
  match fuel with
  | O => Diverge
  | S fuel =>
    let '(t, ins) := tlv_load_from tlv_init ins in
    let ty := t_type t in
    if t_length t =? 0 then Val (None, ins)
    else if ty =? GTP_IE_IMSI then load_as IeImsi t ins
    else if ty =? GTP_IE_CAUSE then load_as IeCause t ins
    else if ty =? GTP_IE_RECOVERY_RESTART_COUNTER then load_as IeRecovery t ins
    else if ty =? GTP_IE_ACCESS_POINT_NAME then load_as IeApn t ins
    else if ty =? GTP_IE_AGGREGATE_MAXIMUM_BIT_RATE then load_as IeAmbr t ins
    else if ty =? GTP_IE_EPS_BEARER_ID then load_as IeEbi t ins
    else if ty =? GTP_IE_IP_ADDRESS then load_as IeIpAddress t ins
    else if ty =? GTP_IE_MOBILE_EQUIPMENT_IDENTITY then load_as IeMei t ins
    else if ty =? GTP_IE_MSISDN then load_as IeMsisdn t ins
    else if ty =? GTP_IE_INDICATION then load_as IeIndication t ins
    else if ty =? GTP_IE_PROTOCOL_CONFIGURATION_OPTIONS then load_as IePco t ins
    else if ty =? GTP_IE_PDN_ADDRESS_ALLOCATION then load_as IePaa t ins
    else if ty =? GTP_IE_BEARER_QUALITY_OF_SERVICE then load_as IeBearerQos t ins
    else if ty =? GTP_IE_FLOW_QUALITY_OF_SERVICE then load_as IeFlowQos t ins
    else if ty =? GTP_IE_RAT_TYPE then load_as IeRatType t ins
    else if ty =? GTP_IE_SERVING_NETWORK then load_as IeServingNetwork t ins
    else if ty =? GTP_IE_EPS_BEARER_LEVEL_TRAFFIC_FLOW_TEMPLATE then load_as IeBearerTft t ins
    else if ty =? GTP_IE_USER_LOCATION_INFORMATION then load_as IeUli t ins
    else if ty =? GTP_IE_FULLY_QUALIFIED_TUNNEL_ENDPOINT_IDENTIFIER then load_as IeFteid t ins
    else if ty =? GTP_IE_DELAY_VALUE then load_as IeDelayValue t ins
    else if ty =? GTP_IE_CHARGING_ID then load_as IeChargingId t ins
    else if ty =? GTP_IE_BEARER_FLAGS then load_as IeBearerFlags t ins
    else if ty =? GTP_IE_PDN_TYPE then load_as IePdnType t ins
    else if ty =? GTP_IE_UE_TIME_ZONE then load_as IeUeTimeZone t ins
    else if ty =? GTP_IE_APN_RESTRICTION then load_as IeApnRestriction t ins
    else if ty =? GTP_IE_SELECTION_MODE then load_as IeSelectionMode t ins
    else if ty =? GTP_IE_FQ_CSID then load_as IeFqCsid t ins
    else if ty =? GTP_IE_NODE_TYPE then load_as IeNodeType t ins
    else if ty =? GTP_IE_NODE_FEATURES then load_as IeNodeFeatures t ins
    else if ty =? GTP_IE_CIOT_OPTIMIZATIONS_SUPPORT_INDICATION then load_as IeCiot t ins
    else if ty =? GTP_IE_BEARER_CONTEXT then
      '(l, ins) ← grouped_load_from fuel (new_gtpv2c_ie_from_stream fuel) t (t_length t) [] ins;
      Val (Some (IeBearerContext t l), ins)
    else Val (None, ins)
  end.

(** ** Well-formed elements *)
Definition ies_length (l : list gtpv2c_ie) : Z :=
  foldr (fun i n => gtpv2c_tlv_ie_length + t_length (tlv_of_ie i) + n) 0 l.

Fixpoint ie_wf (i : gtpv2c_ie) : Prop :=
  match i with
  | IeImsi i => imsi_wf i
  | IeCause i => cause_wf i
  | IeRecovery i => recovery_wf i
  | IeApn i => apn_wf i
  | IeAmbr i => ambr_wf i
  | IeEbi i => eps_bearer_id_wf i
  | IeIpAddress i => ip_address_wf i
  | IeMei i => mei_wf i
  | IeMsisdn i => msisdn_wf i
  | IeIndication i => indication_wf i
  | IePco i => pco_wf i
  | IePaa i => paa_wf i
  | IeBearerQos i => bearer_qos_wf i
  | IeFlowQos i => flow_qos_wf i
  | IeRatType i => rat_type_wf i
  | IeServingNetwork i => serving_network_wf i
  | IeBearerTft _ => False                 (* announces two octets, writes one *)
  | IeUli i => uli_wf i
  | IeFteid i => fteid_wf i
  | IeDelayValue i => delay_value_wf i
  | IeChargingId i => charging_id_wf i
  | IeBearerFlags i => bearer_flags_wf i
  | IePdnType i => pdn_type_wf i
  | IeUeTimeZone i => ue_time_zone_wf i
  | IeApnRestriction i => apn_restriction_wf i
  | IeSelectionMode i => selection_mode_wf i
  | IeFqCsid i => fq_csid_wf i
  | IeNodeType i => node_type_wf i
  | IeNodeFeatures i => node_features_wf i
  | IeCiot i => ciot_optimizations_support_indication_wf i
  | IeEpco _ | IeRanNasCause _ => False     (* unknown to the factory *)
  | IeBearerContext t l =>
    tlv_ok GTP_IE_BEARER_CONTEXT t /\ t_length t = ies_length l /\ foldr (fun i P => ie_wf i /\ P) True l
  end.

(** The number of nested elements. *)
Fixpoint ie_size (i : gtpv2c_ie) : nat :=
  match i with
  | IeBearerContext _ l => S (foldr (fun i n => (ie_size i + n)%nat) 0%nat l)
  | _ => 1%nat
  end.

(** The instance is no part of what makes an element well formed. *)
Lemma ie_set_instance_wf n i : ie_wf i -> ie_wf (ie_set_instance n i).
Proof. case i; intros x; [destruct x; exact id..|done]. Qed.

Lemma tlv_set_instance_ie n i : tlv_of_ie (ie_set_instance n i) = tlv_set_instance n (tlv_of_ie i).
Proof. case i; intros x; [by destruct x..|done]. Qed.

Lemma ie_set_instance_size n i : ie_size (ie_set_instance n i) = ie_size i.
Proof. case i; intros x; [by destruct x..|done]. Qed.

Lemma tlv_get_set_instance n t : fits 4 n -> tlv_get_instance (tlv_set_instance n t) = n.
Proof.
  intros Hn. unfold tlv_get_instance, tlv_set_instance. cbn [t_u1].
  rewrite bf_field_pack_0 by lia. by apply wrapu_id.
Qed.

(** ** Round trip of one element *)

(** The type each constructor of a well-formed element announces decides the
    branch of the factory. *)
Definition parses (fuel : nat) (i : gtpv2c_ie) : Prop :=
  exists b i', gtpv2c_ie_dump_to i = Val (b, i') /\
    Z.of_nat (length b) = gtpv2c_tlv_ie_length + t_length (tlv_of_ie i) /\
    forall rest, new_gtpv2c_ie_from_stream fuel (istream_of (b ++ rest)) = Val (Some i, istream_of rest).

Lemma load_as_codec {A} `{H : GtpIe A} (wf : A -> Prop) `{!GtpCodec A wf} (c : A -> gtpv2c_ie) (a : A) fuel :
  wf a -> tlv_of_ie (c a) = ie_tlv a -> gtpv2c_ie_dump_to (c a) = dump_as c a ->
  (forall ins ins', tlv_load_from tlv_init ins = (ie_tlv a, ins') ->
     new_gtpv2c_ie_from_stream (S fuel) ins = load_as c (ie_tlv a) ins') ->
  parses (S fuel) (c a).
Proof.
  intros Hw Et Ed Hnew. pose proof (codec_tlv (wf := wf) a Hw) as Hl.
  destruct (codec (wf := wf) a [] Hw) as (body & a' & E1 & E2 & _).
  exists (tlv_dump_to (ie_tlv a) ++ body), (c a'). rewrite Ed, Et. unfold dump_as. rewrite E1. simpl mbind.
  split; [done|]. split; [rewrite length_app, length_tlv_dump, Nat2Z.inj_add, E2; done|].
  intros rest. destruct (codec (wf := wf) a rest Hw) as (body' & a'' & E1' & _ & E3).
  assert (body' = body) as -> by (rewrite E1 in E1'; by injection E1').
  rewrite <- app_assoc.
  rewrite (Hnew _ (istream_of (body ++ rest))) by (apply tlv_roundtrip; unfold fits; lia).
  unfold load_as. by rewrite E3.
Qed.

(** The branch of the factory for an element that is not nested. *)
Ltac factory_branch :=
  match goal with H : tlv_ok _ ?t |- context [load_as _ ?t' _] =>
    change t' with t; let E := fresh in
    intros ? ? E; cbn [new_gtpv2c_ie_from_stream]; rewrite E; destruct H as [H ?];
    replace (t_length t =? 0) with false by (symmetry; apply Z.eqb_neq; lia); rewrite H; reflexivity
  end.

Lemma leaf_parses fuel i :
  ie_wf i -> (match i with IeBearerContext _ _ => False | _ => True end) -> parses (S fuel) i.
Proof.
  destruct i; intros Hw Hleaf; try done; cbn [ie_wf] in Hw;
    (eapply load_as_codec; [apply _|exact Hw|done|done|]); destruct Hw as [Hw _]; factory_branch.
Qed.

(** Elements written one after the other are read one after the other. *)
Definition all_parse (fuel : nat) (l : list gtpv2c_ie) : Prop :=
  exists b l', dump_all gtpv2c_ie_dump_to l = Val (b, l') /\
    Z.of_nat (length b) = ies_length l /\
    forall rest t acc n, (length l <= n)%nat ->
      grouped_load_from n (new_gtpv2c_ie_from_stream fuel) t (ies_length l) acc (istream_of (b ++ rest)) =
      Val (acc ++ l, istream_of rest).

Lemma ie_wf_length i : ie_wf i -> 0 <= t_length (tlv_of_ie i).
Proof. destruct i; try done; intros [[_ H] _]; exact (Z.lt_le_incl _ _ (proj1 H)). Qed.

Lemma ies_length_nonneg l : Forall ie_wf l -> 0 <= ies_length l.
Proof.
  induction 1 as [|i l Hi _ IH]; [done|]. apply ie_wf_length in Hi.
  change (0 <= 4 + t_length (tlv_of_ie i) + ies_length l). lia.
Qed.

Lemma all_parse_of fuel l : Forall ie_wf l -> Forall (parses fuel) l -> all_parse fuel l.
Proof.
  intros Hw. induction 1 as [|i l (b & i' & E1 & E2 & E3) _ IH].
  - exists [], []. repeat split; try done. intros rest t acc [|n] _; simpl; by rewrite app_nil_r.
  - inversion_clear Hw as [|? ? Hi Hl]. destruct (IH Hl) as (bs & l' & F1 & F2 & F3).
    exists (b ++ bs), (i' :: l'). cbn [dump_all]. rewrite E1. simpl mbind. rewrite F1. simpl mbind.
    pose proof (ies_length_nonneg l Hl). pose proof (ie_wf_length i Hi).
    change (ies_length (i :: l)) with (gtpv2c_tlv_ie_length + t_length (tlv_of_ie i) + ies_length l).
    split; [done|]. split; [rewrite length_app; lia|].
    intros rest t acc [|n] Hn; simpl in Hn; [lia|]. cbn [grouped_load_from].
    replace (0 <? _) with true by (symmetry; apply Z.ltb_lt; unfold gtpv2c_tlv_ie_length; lia).
    rewrite <- app_assoc, E3. simpl mbind.
    replace (_ - _) with (ies_length l) by lia. rewrite F3 by lia. by rewrite <- app_assoc.
Qed.

Lemma ie_size_pos i : (1 <= ie_size i)%nat.
Proof. destruct i; simpl; lia. Qed.

Definition ies_size (l : list gtpv2c_ie) : nat := foldr (fun i n => (ie_size i + n)%nat) 0%nat l.

Lemma ies_size_bound l : (length l <= ies_size l)%nat /\ Forall (fun i => ie_size i <= ies_size l)%nat l.
Proof.
  induction l as [|i l [IH1 IH2]]; [done|]. pose proof (ie_size_pos i). simpl. split; [lia|].
  constructor; [lia|]. eapply Forall_impl; [exact IH2|]. simpl. intros; lia.
Qed.

Lemma foldr_wf l : foldr (fun i P => ie_wf i /\ P) True l <-> Forall ie_wf l.
Proof. induction l as [|i l IH]; simpl; [done|]. rewrite Forall_cons. tauto. Qed.

Lemma wf_parses fuel : forall i, (ie_size i <= fuel)%nat -> ie_wf i -> parses fuel i.
Proof.
  induction fuel as [|fuel IH]; intros i Hs Hw; [pose proof (ie_size_pos i); lia|].
  destruct i as [| | | | | | | | | | | | | | | | | | | | | | | | | | | | | | | |t l]; try (by apply leaf_parses).
  destruct Hw as (Ht & El & Hl). apply foldr_wf in Hl.
  change (ie_size (IeBearerContext t l)) with (S (ies_size l)) in Hs.
  destruct (ies_size_bound l) as [Hn Hsz].
  destruct (all_parse_of fuel l Hl) as (b & l' & E1 & E2 & E3).
  { apply Forall_forall. intros i Hi. rewrite Forall_forall in Hl, Hsz. apply IH; [|by apply Hl].
    specialize (Hsz i Hi). simpl in Hsz. lia. }
  exists (tlv_dump_to t ++ b), (IeBearerContext t l'). cbn [gtpv2c_ie_dump_to tlv_of_ie]. rewrite E1. simpl mbind.
  split; [done|]. split; [rewrite length_app, length_tlv_dump, Nat2Z.inj_add, E2, El; done|].
  intros rest. destruct Ht as [Hty Hlen]. cbn [new_gtpv2c_ie_from_stream]. rewrite <- app_assoc, tlv_roundtrip by (unfold fits; lia).
  replace (t_length t =? 0) with false by (symmetry; lia). rewrite Hty.
  transitivity ('(l, ins) ← grouped_load_from fuel (new_gtpv2c_ie_from_stream fuel) t (t_length t) [] (istream_of (b ++ rest));
                 Val (E := gtpc_exn) (Some (IeBearerContext t l), ins)); [reflexivity|].
  by rewrite El, E3 by lia.
Qed.

(** An element whose fields fit its octets (for the elements a sound
    constructor builds, and for bearer contexts nesting such elements to any
    depth) is written on exactly the four octets of its header and the octets
    it announces, and the factory gives it back and leaves the rest of the
    stream untouched. *)
Theorem ie_roundtrip (i : gtpv2c_ie) (fuel : nat) :
  ie_wf i -> (ie_size i <= fuel)%nat ->
  exists b i', gtpv2c_ie_dump_to i = Val (b, i') /\
    Z.of_nat (length b) = gtpv2c_tlv_ie_length + t_length (tlv_of_ie i) /\
    forall rest, new_gtpv2c_ie_from_stream fuel (istream_of (b ++ rest)) = Val (Some i, istream_of rest).
Proof. intros Hw Hs. by apply wf_parses. Qed.

(** A bearer context with an EBI, a QoS and the S1-U F-TEID of an eNodeB. *)
Definition demo_ebi : gtpv2c_ie := IeEbi (eps_bearer_id_of_core (mk_ebi_t 5)).
Definition demo_qos : gtpv2c_ie :=
  IeBearerQos (bearer_qos_of_core (mk_bearer_qos_t 1 15 0 9 1000 2000 0 0)).
Definition demo_fteid : gtpv2c_ie :=
  IeFteid (fteid_of_core (mk_fteid_t 1 0 0 48879 16777343 (replicate 16 0))).
Definition demo_bearer_context : gtpv2c_ie :=
  let '(t, l) := grouped_add_ie demo_ebi (tlv_of GTP_IE_BEARER_CONTEXT 0) [] in
  let '(t, l) := grouped_add_ie demo_qos t l in
  let '(t, l) := grouped_add_ie demo_fteid t l in
  IeBearerContext t l.

Lemma ie_roundtrip_witness :
  ie_wf demo_bearer_context /\
  exists b i', gtpv2c_ie_dump_to demo_bearer_context = Val (b, i') /\ Z.of_nat (length b) = 48 /\
    forall rest, new_gtpv2c_ie_from_stream 4 (istream_of (b ++ rest)) = Val (Some demo_bearer_context, istream_of rest).
Proof.
  assert (ie_wf demo_bearer_context) as Hw.
  { unfold demo_bearer_context, demo_ebi, demo_qos, demo_fteid, ie_wf, tlv_ok, fits. repeat split; try reflexivity; vm_compute; intro; discriminate. }
  split; [exact Hw|]. apply (ie_roundtrip demo_bearer_context 4); [exact Hw|]. vm_compute. lia.
Defined.

(** An IMSI element that announces more than eight octets makes the factory
    leave the bounds of its eight-octet array, whatever the datagram holds. *)
Theorem imsi_overflow (fuel : nat) (t : gtpv2c_tlv) (rest : list Z) :
  t_type t = GTP_IE_IMSI -> 8 < t_length t < 2 ^ 16 ->
  new_gtpv2c_ie_from_stream (S fuel) (istream_of (tlv_dump_to t ++ rest)) = UB.
Proof.
  intros Ht Hl. cbn [new_gtpv2c_ie_from_stream]. rewrite tlv_roundtrip by (unfold fits; lia).
  replace (t_length t =? 0) with false by (symmetry; apply Z.eqb_neq; lia). rewrite Ht. change (GTP_IE_IMSI =? GTP_IE_IMSI) with true.
  cbn match. unfold load_as, ie_load_from, imsi_ie, imsi_load_from, bcd_read. cbn [imsi_tlv ie_of_tlv imsi_of_tlv].
  replace (t_length t <=? 8) with false by (symmetry; apply Z.leb_gt; lia). done.
Qed.

Lemma imsi_overflow_witness :
  new_gtpv2c_ie_from_stream 1 (istream_of (tlv_dump_to (mk_tlv GTP_IE_IMSI 9 0) ++ [1; 2; 3; 4; 5; 6; 7; 8; 9])) = UB.
Proof. apply (imsi_overflow 0 (mk_tlv GTP_IE_IMSI 9 0) [1; 2; 3; 4; 5; 6; 7; 8; 9]); [reflexivity|simpl; lia]. Defined.
