(* ===== verification/GtpCore.v ===== *)
(** * GTPv2-C elements and the values the applications exchange

    Every class of [src/gtpv2c/3gpp_29.274.hpp] has a constructor from a core
    type ([src/common/3gpp_29.274.h]) and a [to_core_type] back.  This file
    collects them and shows what a value meets between two peers: constructor,
    [dump_to], the factory and [to_core_type].  Some classes do not convey
    their value; for them it shows what happens instead. *)
From S2P Require Import Prelude PaaDynamic Stream GtpTlv GtpScalar GtpIdentity GtpQos GtpLocation GtpAddress GtpOptions GtpIe.
From Stdlib Require Import ZArith Lia.
From stdpp Require Import base numbers tactics list.
Open Scope Z_scope.

Set Warnings "-register-all".

Inductive gtpv2c_core :=
| CoreImsi (c : imsi_t)
| CoreCause (c : cause_t)
| CoreRecovery (c : recovery_t)
| CoreApn (c : apn_t)
| CoreAmbr (c : ambr_t)
| CoreEbi (c : ebi_t)
| CoreIpAddress (c : ip_address_t)
| CoreMei (c : mei_t)
| CoreMsisdn (c : msisdn_t)
| CoreIndication (c : indication_t)
| CorePco (c : protocol_configuration_options_t)
| CorePaa (c : paa_t)
| CoreBearerQos (c : bearer_qos_t)
| CoreFlowQos (c : flow_qos_t)
| CoreRatType (c : rat_type_t)
| CoreServingNetwork (c : serving_network_t)
| CoreBearerTft (c : traffic_flow_template_t)
| CoreUli (c : uli_t)
| CoreFteid (c : fteid_t)
| CoreDelayValue (c : delay_value_t)
| CoreChargingId (c : charging_id_t)
| CoreBearerFlags (c : bearer_flags_t)
| CorePdnType (c : pdn_type_t)
| CoreUeTimeZone (c : ue_time_zone_t)
| CoreApnRestriction (c : access_point_name_restriction_t)
| CoreSelectionMode (c : selection_mode_t)
| CoreFqCsid (c : fq_csid_t)
| CoreNodeType (c : node_type_t)
| CoreNodeFeatures (c : node_features_t)
| CoreCiot (c : ciot_optimizations_support_indication_t)
| CoreEpco (c : extended_protocol_configuration_options_t)
| CoreRanNasCause (c : ran_nas_cause_t)
| CoreBearerContext (l : list (Z * gtpv2c_core)).  (* the calls of [set]: instance and value, in order *)

(** What the memory holds where a constructor leaves it uninitialised: the
    last nibble of an MSISDN, the rates of a flow QoS. *)
Record junk := mk_junk { msisdn_junk : Z; flow_qos_junk : list Z * list Z * list Z * list Z }.

(** The constructors from the core types. *)
Definition ie_of_core (j : junk) (c : gtpv2c_core) : result gtpc_exn gtpv2c_ie :=
  match c with
  | CoreImsi c => Val (IeImsi (imsi_of_core c))
  | CoreCause c => Val (IeCause (cause_of_core c))
  | CoreRecovery c => Val (IeRecovery (recovery_of_core c))
  | CoreApn c => Val (IeApn (apn_of_core c))
  | CoreAmbr c => Val (IeAmbr (ambr_of_core c))
  | CoreEbi c => Val (IeEbi (eps_bearer_id_of_core c))
  | CoreIpAddress c => Val (IeIpAddress (ip_address_of_core c))
  | CoreMei c => i ← mei_of_core c; Val (IeMei i)
  | CoreMsisdn c => Val (IeMsisdn (msisdn_of_core (msisdn_junk j) c))
  | CoreIndication c => Val (IeIndication (indication_of_core c))
  | CorePco c => i ← pco_of_core c; Val (IePco i)
  | CorePaa c => i ← paa_of_core c; Val (IePaa i)
  | CoreBearerQos c => Val (IeBearerQos (bearer_qos_of_core c))
  | CoreFlowQos c => Val (IeFlowQos (flow_qos_of_core (flow_qos_junk j) c))
  | CoreRatType c => Val (IeRatType (rat_type_of_core c))
  | CoreServingNetwork c => Val (IeServingNetwork (serving_network_of_core c))
  | CoreBearerTft c => Val (IeBearerTft (bearer_tft_of_core c))
  | CoreUli c => Val (IeUli (uli_of_core c))
  | CoreFteid c => Val (IeFteid (fteid_of_core c))
  | CoreDelayValue c => Val (IeDelayValue (delay_value_of_core c))
  | CoreChargingId c => Val (IeChargingId (charging_id_of_core c))
  | CoreBearerFlags c => Val (IeBearerFlags (bearer_flags_of_core c))
  | CorePdnType c => Val (IePdnType (pdn_type_of_core c))
  | CoreUeTimeZone c => Val (IeUeTimeZone (ue_time_zone_of_core c))
  | CoreApnRestriction c => Val (IeApnRestriction (apn_restriction_of_core c))
  | CoreSelectionMode c => Val (IeSelectionMode (selection_mode_of_core c))
  | CoreFqCsid c => i ← fq_csid_of_core c; Val (IeFqCsid i)
  | CoreNodeType c => Val (IeNodeType (node_type_of_core c))
  | CoreNodeFeatures c => Val (IeNodeFeatures (node_features_of_core c))
  | CoreCiot c => Val (IeCiot (ciot_optimizations_support_indication_of_core c))
  | CoreEpco c => Val (IeEpco (epco_of_core c))
  | CoreRanNasCause c => i ← ran_nas_cause_of_core c; Val (IeRanNasCause i)
  | CoreBearerContext _ => Val (IeBearerContext (tlv_of GTP_IE_BEARER_CONTEXT 0) [])
  end.

(** The constructor followed by [tlv.set_instance(n)]. *)
Definition ie_of_core_at (j : junk) (n : Z) (c : gtpv2c_core) : result gtpc_exn gtpv2c_ie :=
  i ← ie_of_core j c; Val (ie_set_instance n i).

(** [to_core_type]: the value passed to [set].  A bearer context passes the
    values of its elements, with their instances, to the context it builds. *)
Fixpoint ie_to_core (i : gtpv2c_ie) : result gtpc_exn gtpv2c_core :=
  match i with
  | IeImsi i => Val (CoreImsi (imsi_to_core i))
  | IeCause i => Val (CoreCause (cause_to_core i))
  | IeRecovery i => Val (CoreRecovery (recovery_to_core i))
  | IeApn i => Val (CoreApn (apn_to_core i))
  | IeAmbr i => Val (CoreAmbr (ambr_to_core i))
  | IeEbi i => Val (CoreEbi (eps_bearer_id_to_core i))
  | IeIpAddress i => Val (CoreIpAddress (ip_address_to_core i))
  | IeMei i => Val (CoreMei (mei_to_core i))
  | IeMsisdn i => Val (CoreMsisdn (msisdn_to_core i))
  | IeIndication i => Val (CoreIndication (indication_to_core i))
  | IePco i => c ← pco_to_core i; Val (CorePco c)
  | IePaa i => c ← paa_to_core i; Val (CorePaa c)
  | IeBearerQos i => Val (CoreBearerQos (bearer_qos_to_core i))
  | IeFlowQos i => Val (CoreFlowQos (flow_qos_to_core i))
  | IeRatType i => Val (CoreRatType (rat_type_to_core i))
  | IeServingNetwork i => Val (CoreServingNetwork (serving_network_to_core i))
  | IeBearerTft i => Val (CoreBearerTft (bearer_tft_to_core i))
  | IeUli i => Val (CoreUli (uli_to_core i))
  | IeFteid i => Val (CoreFteid (fteid_to_core i))
  | IeDelayValue i => Val (CoreDelayValue (delay_value_to_core i))
  | IeChargingId i => Val (CoreChargingId (charging_id_to_core i))
  | IeBearerFlags i => Val (CoreBearerFlags (bearer_flags_to_core i))
  | IePdnType i => Val (CorePdnType (pdn_type_to_core i))
  | IeUeTimeZone i => Val (CoreUeTimeZone (ue_time_zone_to_core i))
  | IeApnRestriction i => Val (CoreApnRestriction (apn_restriction_to_core i))
  | IeSelectionMode i => Val (CoreSelectionMode (selection_mode_to_core i))
  | IeFqCsid i => c ← fq_csid_to_core i; Val (CoreFqCsid c)
  | IeNodeType i => Val (CoreNodeType (node_type_to_core i))
  | IeNodeFeatures i => Val (CoreNodeFeatures (node_features_to_core i))
  | IeCiot i => Val (CoreCiot (ciot_optimizations_support_indication_to_core i))
  | IeEpco i => Val (CoreEpco (epco_to_core i))
  | IeRanNasCause i => c ← ran_nas_cause_to_core i; Val (CoreRanNasCause c)
  | IeBearerContext _ l =>
    l ← (fix go l :=
           match l with
           | [] => Val []
           | i :: l => c ← ie_to_core i; cs ← go l; Val ((tlv_get_instance (tlv_of_ie i), c) :: cs)
           end) l;
    Val (CoreBearerContext l)
  end.

(** The values an element can carry: the fields fit the octets of the element.
    Restrictions that come from defects: no ULI with a routing or location area
    or a macro eNodeB, IPv4 in the IP address element, no Mandatory IE
    Incorrect cause with its offending element.  Bearer flags, bearer TFTs, flow
    QoS and bearer contexts built from a value are not conveyed at all; the
    factory does not know extended PCOs and RAN/NAS causes. *)
Definition core_wf (c : gtpv2c_core) : Prop :=
  match c with
  | CoreImsi c => bcd_wf (imsi_core_b c) (imsi_core_num_digits c)
  | CoreCause c =>
      fits 1 (c_pce c) /\ fits 1 (c_bce c) /\ fits 1 (c_cs c) /\ c_cause_value c <> MANDATORY_IE_INCORRECT /\
      c_offending_ie_type c = 0 /\ c_offending_ie_length c = 0 /\ c_offending_ie_instance c = 0
  | CoreRecovery c => fits 8 (restart_counter c)
  | CoreApn c => apn_text_ok (apn_core c)
  | CoreAmbr c => fits 32 (br_ul c) /\ fits 32 (br_dl c)
  | CoreEbi c => fits 4 (ebi c)
  | CoreIpAddress c =>
      ip_core_is_ipv4 c = true /\ length (ip_core_address c) = 16%nat /\ drop 4 (ip_core_address c) = drop 4 in6addr_any
  | CoreMei c => bcd_wf (mei_core_b c) (mei_core_num_digits c)
  | CoreMsisdn c =>
      bcd_wf (msisdn_core_b c) (msisdn_core_num_digits c) /\ msisdn_core_num_digits c <= 14
  | CoreIndication c => indication_core_wf c
  | CorePco c =>
      fits 1 (pco_core_ext c) /\ fits 3 (pco_core_configuration_protocol c) /\ Forall container_wf (pco_core_ids c) /\
      pco_core_num c = Z.of_nat (length (pco_core_ids c)) /\ pco_core_num c <= PCO_UNSPEC_MAXIMUM_PROTOCOL_ID_OR_CONTAINER_ID
  | CorePaa c =>
      paa_parts_ok (pdn_type c) (ipv6_prefix_length c) (ipv6_address c) (ipv4_address c)
  | CoreBearerQos c =>
      fits 1 (bq_pci c) /\ fits 4 (bq_pl c) /\ fits 1 (bq_pvi c) /\
      fits 40 (bq_mbr_ul c) /\ fits 40 (bq_mbr_dl c) /\ fits 40 (bq_gbr_ul c) /\ fits 40 (bq_gbr_dl c)
  | CoreFlowQos _ => False
  | CoreRatType c => fits 8 (rt_rat_type c)
  | CoreServingNetwork c => plmn_wf (sn_plmn c)
  | CoreBearerTft _ => False
  | CoreUli c => uli_core_wf c
  | CoreFteid c =>
      fits 1 (fc_v4 c) /\ fits 1 (fc_v6 c) /\ fits 6 (fc_interface_type c) /\
      fteid_parts_ok (fc_v4 c) (fc_v6 c) (fc_teid_gre_key c) (fc_ipv4_address c) (fc_ipv6_address c)
  | CoreDelayValue c => fits 8 (dv_delay_value c)
  | CoreChargingId c => fits 32 (charging_id_value c)
  | CoreBearerFlags _ => False
  | CorePdnType c => fits 3 (pt_pdn_type c)
  | CoreUeTimeZone c => fits 2 (tz_daylight_saving_time c)
  | CoreApnRestriction c => fits 8 (apnr_restriction_type_value c)
  | CoreSelectionMode c => fits 2 (selec_mode c)
  | CoreFqCsid c =>
      fits 4 (csid_node_id_type c) /\ fits 4 (csid_number_of_csids c) /\
      node_id_wf (csid_node_id_type c) (csid_node_id c) /\ Forall (fits 16) (csid_pdn_connection_set_identifier c) /\
      Z.of_nat (length (csid_pdn_connection_set_identifier c)) = csid_number_of_csids c
  | CoreNodeType c => fits 8 (nt_node_type c)
  | CoreNodeFeatures c =>
      fits 1 (prn c) /\ fits 1 (mabr c) /\ fits 1 (ntsr c) /\ fits 1 (ciot c) /\ fits 1 (s1un c)
  | CoreCiot c =>
      fits 1 (ihcsi c) /\ fits 1 (awopdn c) /\ fits 1 (scnipdn c) /\ fits 1 (sgnipdn c)
  | CoreEpco _ | CoreRanNasCause _ | CoreBearerContext _ => False
  end.

(** An element [i0] that is written as the one built from [c] for the instance
    [n], and holds [c] with that instance. *)
Definition conveyed_as (j : junk) (n : Z) (c : gtpv2c_core) (i i0 : gtpv2c_ie) : Prop :=
  ie_of_core_at j n c = Val i /\ ie_wf i0 /\ ie_size i0 = 1%nat /\
  t_length (tlv_of_ie i) = t_length (tlv_of_ie i0) /\
  (exists b i' i0', gtpv2c_ie_dump_to i = Val (b, i') /\ gtpv2c_ie_dump_to i0 = Val (b, i0')) /\
  ie_to_core i0 = Val c /\ tlv_get_instance (tlv_of_ie i0) = n.

Definition conveyed (j : junk) (c : gtpv2c_core) : Prop :=
  forall n, fits 4 n -> exists i i0, conveyed_as j n c i i0.

Lemma ie_to_core_set_instance n i :
  ie_to_core (ie_set_instance n i) = ie_to_core i.
Proof.
  case i; intros x; [by destruct x..|done].
Qed.

Lemma ie_set_instance_instance n i : fits 4 n -> tlv_get_instance (tlv_of_ie (ie_set_instance n i)) = n.
Proof. intros Hn. rewrite tlv_set_instance_ie. by apply tlv_get_set_instance. Qed.

(** A class whose constructor and conversion are inverse. *)
Lemma conveyed_direct j c i :
  ie_of_core j c = Val i -> ie_wf i -> ie_size i = 1%nat ->
  ie_to_core i = Val c -> conveyed j c.
Proof.
  intros E1 Hw Hs E2 n Hn.
  pose proof (ie_set_instance_wf n i Hw) as Hw'. rewrite <- (ie_set_instance_size n i) in Hs.
  destruct (wf_parses 1 (ie_set_instance n i) ltac:(lia) Hw') as (b & i' & E & _).
  exists (ie_set_instance n i), (ie_set_instance n i). unfold conveyed_as, ie_of_core_at. rewrite E1.
  rewrite ie_set_instance_instance, ie_to_core_set_instance by done.
  split_and!; try done. by exists b, i', i'.
Qed.

Lemma conveyed_pure {C A} j (k : C -> gtpv2c_core) (ki : A -> gtpv2c_ie) (wf : A -> Prop) (c : C) (a : A) (to_core : A -> C) :
  ie_of_core j (k c) = Val (ki a) -> ie_to_core (ki a) = Val (k (to_core a)) ->
  (wf a -> ie_wf (ki a)) -> ie_size (ki a) = 1%nat ->
  wf a /\ to_core a = c -> conveyed j (k c).
Proof. intros E E2 Hi Hs [Hw <-]. eapply conveyed_direct; eauto. Qed.

(** The same when the constructor or the conversion may throw. *)
Lemma conveyed_fallible {C A} j (k : C -> gtpv2c_core) (ki : A -> gtpv2c_ie) (wf : A -> Prop) (c : C)
    (of_core : C -> result gtpc_exn A) (to_core : A -> result gtpc_exn C) :
  ie_of_core j (k c) = (a ← of_core c; Val (ki a)) ->
  (forall a, ie_to_core (ki a) = c ← to_core a; Val (k c)) ->
  (forall a, wf a -> ie_wf (ki a)) -> (forall a, ie_size (ki a) = 1%nat) ->
  (exists a, of_core c = Val a /\ wf a /\ to_core a = Val c) -> conveyed j (k c).
Proof.
  intros E E2 Hi Hs (a & Ea & Hw & Ec). rewrite Ea in E. specialize (E2 a). rewrite Ec in E2.
  eapply conveyed_direct; eauto.
Qed.

Create HintDb gtp_core.
#[export] Hint Resolve imsi_core cause_core recovery_core apn_core_ok ambr_core eps_bearer_id_core ip_address_core
  indication_core pco_core paa_core bearer_qos_core rat_type_core serving_network_core uli_core fteid_core
  delay_value_core charging_id_core pdn_type_core ue_time_zone_core apn_restriction_core selection_mode_core
  fq_csid_core node_type_core node_features_core ciot_optimizations_support_indication_core : gtp_core.

Lemma mei_conveyed j c : bcd_wf (mei_core_b c) (mei_core_num_digits c) -> conveyed j (CoreMei c).
Proof.
  intros H. destruct (mei_core c H) as (a & E & ? & E2). apply (conveyed_direct j _ (IeMei a)); try done.
  - cbn [ie_of_core]. by rewrite E.
  - cbn [ie_to_core]. by rewrite E2.
Qed.

(** The MSISDN of at most fourteen digits: the uninitialised nibble is not
    written. *)
Lemma msisdn_dump_junk hi n0 m :
  bcd_wf (msisdn_core_b m) (msisdn_core_num_digits m) -> msisdn_core_num_digits m <= 14 ->
  exists b i i', gtpv2c_ie_dump_to (ie_set_instance n0 (IeMsisdn (msisdn_of_core hi m))) = Val (b, i) /\
    gtpv2c_ie_dump_to (ie_set_instance n0 (IeMsisdn (msisdn_of_core 0 m))) = Val (b, i').
Proof.
  destruct m as [b n]. cbn [msisdn_core_b msisdn_core_num_digits]. intros (Hl & Hn & _) H14.
  do 8 (destruct b as [|? b]; [done|]). destruct b; [|done].
  assert (exists k, (k <= 14)%nat /\ n = Z.of_nat k) as (k & Hk & ->) by (exists (Z.to_nat n); lia).
  do 15 (destruct k as [|k]; [first [lia | eexists _, _, _; split; reflexivity]|]). lia.
Qed.

Lemma msisdn_conveyed j m :
  bcd_wf (msisdn_core_b m) (msisdn_core_num_digits m) -> msisdn_core_num_digits m <= 14 -> conveyed j (CoreMsisdn m).
Proof.
  intros Hw H14 n Hn. destruct (msisdn_core m Hw H14) as [Hi E].
  destruct (msisdn_dump_junk (msisdn_junk j) n m Hw H14) as (b & i & i' & E1 & E2).
  exists (ie_set_instance n (IeMsisdn (msisdn_of_core (msisdn_junk j) m))), (ie_set_instance n (IeMsisdn (msisdn_of_core 0 m))).
  unfold conveyed_as. rewrite ie_set_instance_instance, ie_to_core_set_instance by done. cbn [ie_to_core]. rewrite E.
  split; [done|]. split; [by apply ie_set_instance_wf|]. split_and!; try done. by exists b, i, i'.
Qed.

Lemma core_conveyed j c : core_wf c -> conveyed j c.
Proof.
  destruct c; intros Hw; try done; cbn [core_wf] in Hw; destruct_and?;
    first
    [ by apply msisdn_conveyed
    | by apply mei_conveyed
    | eapply conveyed_pure; [reflexivity|reflexivity|exact id|reflexivity|auto with gtp_core]
    | eapply conveyed_fallible; [reflexivity|reflexivity|exact (fun _ H => H)|reflexivity|auto with gtp_core] ].
Qed.

(** What one peer passes to the other: for a value whose fields fit and any
    instance, the element built from the value is written on the octets it
    announces, the factory reads an element of that instance back and leaves
    the rest of the stream, and [to_core_type] of that element is the value.
    It does not depend on uninitialised memory. *)
Theorem ie_core_roundtrip (j : junk) (n : Z) (c : gtpv2c_core) (rest : list Z) :
  core_wf c -> fits 4 n ->
  exists i b i' i0, ie_of_core_at j n c = Val i /\ gtpv2c_ie_dump_to i = Val (b, i') /\
    Z.of_nat (length b) = gtpv2c_tlv_ie_length + t_length (tlv_of_ie i) /\
    new_gtpv2c_ie_from_stream 1 (istream_of (b ++ rest)) = Val (Some i0, istream_of rest) /\
    ie_to_core i0 = Val c /\ tlv_get_instance (tlv_of_ie i0) = n.
Proof.
  intros Hw Hn.
  destruct (core_conveyed j c Hw n Hn) as (i & i0 & E1 & Hi & Hs & El & (b & i' & i0' & E2 & E3) & E4 & E5).
  destruct (wf_parses 1 i0 ltac:(lia) Hi) as (b' & i1 & F1 & F2 & F3).
  rewrite E3 in F1. injection F1 as <- <-.
  exists i, b, i', i0. rewrite El. done.
Qed.

Definition demo_junk : junk := mk_junk 7 ([1], [], [2], []).

Lemma ie_core_roundtrip_witness :
  core_wf (CoreMsisdn (mk_msisdn_t [51; 102; 0; 0; 0; 0; 0; 0] 4)) /\
  exists i b i' i0, ie_of_core_at demo_junk 3 (CoreMsisdn (mk_msisdn_t [51; 102; 0; 0; 0; 0; 0; 0] 4)) = Val i /\
    gtpv2c_ie_dump_to i = Val (b, i') /\ Z.of_nat (length b) = 4 + t_length (tlv_of_ie i) /\
    new_gtpv2c_ie_from_stream 1 (istream_of (b ++ [255])) = Val (Some i0, istream_of [255]) /\
    ie_to_core i0 = Val (CoreMsisdn (mk_msisdn_t [51; 102; 0; 0; 0; 0; 0; 0] 4)) /\ tlv_get_instance (tlv_of_ie i0) = 3.
Proof.
  assert (core_wf (CoreMsisdn (mk_msisdn_t [51; 102; 0; 0; 0; 0; 0; 0] 4))) as Hw.
  { unfold core_wf, bcd_wf. repeat split; try reflexivity; vm_compute; intro; discriminate. }
  split; [exact Hw|]. apply (ie_core_roundtrip demo_junk 3 _ [255] Hw). unfold fits. lia.
Defined.

(** ** Values that are not conveyed *)

(** Bearer flags built from a value are announced as a Charging ID of one
    octet: whatever the flags and whatever follows, the factory of the peer
    leaves with a bad-length exception. *)
Theorem bearer_flags_rejected (j : junk) (c : bearer_flags_t) (rest : list Z) (fuel : nat) :
  exists i b i', ie_of_core j (CoreBearerFlags c) = Val i /\ gtpv2c_ie_dump_to i = Val (b, i') /\
    new_gtpv2c_ie_from_stream (S fuel) (istream_of (b ++ rest)) =
    Throw (gtpc_tlv_bad_length_exception GTP_IE_CHARGING_ID 1).
Proof. by eexists _, _, _. Qed.

(** Two elements are shorter than they announce, by one octet each: a
    bearer TFT, and a cause Mandatory IE Incorrect.  A peer that follows the
    announced length takes the first octet of the next element for theirs. *)
Theorem short_elements (j : junk) (c : gtpv2c_core) :
  (match c with CoreBearerTft _ => True | CoreCause c => c_cause_value c = MANDATORY_IE_INCORRECT | _ => False end) ->
  exists i b i', ie_of_core j c = Val i /\ gtpv2c_ie_dump_to i = Val (b, i') /\ t_length (tlv_of_ie i') = t_length (tlv_of_ie i) /\
    Z.of_nat (length b) = gtpv2c_tlv_ie_length + t_length (tlv_of_ie i) - 1.
Proof.
  destruct c as [|c| | | | | | | | | | | | | | |c| | | | | | | | | | | | | | | |]; intros H; try done.
  - cbn [ie_of_core]. eexists _, _, _. split; [done|].
    cbn [gtpv2c_ie_dump_to]. unfold dump_as, ie_dump_to, cause_ie, cause_dump_to, cause_of_core, cause_length.
    cbn [cause_value c_cause_value]. rewrite H. split; [reflexivity|]. split; reflexivity.
  - eexists _, _, _. split; [done|]. split; [reflexivity|]. split; reflexivity.
Qed.

Lemma short_elements_witness :
  exists i b i', ie_of_core demo_junk (CoreCause (mk_cause_t MANDATORY_IE_INCORRECT 0 0 1 71 3 0)) = Val i /\
    gtpv2c_ie_dump_to i = Val (b, i') /\ t_length (tlv_of_ie i') = t_length (tlv_of_ie i) /\ 
    Z.of_nat (length b) = gtpv2c_tlv_ie_length + t_length (tlv_of_ie i) - 1.
Proof. apply (short_elements demo_junk (CoreCause (mk_cause_t MANDATORY_IE_INCORRECT 0 0 1 71 3 0))). reflexivity. Defined.

(** A flow QoS built from a value does not carry its rates. *)
Lemma flow_qos_rates_lost (j : junk) (c c' : flow_qos_t) :
  fq_label_qci c = fq_label_qci c' -> ie_of_core j (CoreFlowQos c) = ie_of_core j (CoreFlowQos c').
Proof. intros E. cbn [ie_of_core]. unfold flow_qos_of_core. by rewrite E. Qed.
