(* ===== verification/Pco.v ===== *)
(** * Negotiation of protocol configuration options

    [src/oai_spgwc/pgw_pco.cpp] and [pgw_pco.hpp]: what the PGW answers to the
    options a UE puts in its PCO.  Three kinds of containers are answered: an
    IPCP packet (DNS servers, negotiated as in RFC 1877), the request of a DNS
    server address, and the request of the link MTU.

    [protocol_id_contents] is a [std::string]: [at] throws on an index out of
    it, and gives a [char], which is signed: [sext] is its conversion to
    [uint32_t].  A failed [assert] ends the process ([abort]); the build never
    defines [NDEBUG]. *)
From S2P Require Import Prelude Itti PaaDynamic Stream GtpTlv GtpScalar GtpAddress GtpOptions GtpIe GtpCore.
From Stdlib Require Import ZArith Lia.
From stdpp Require Import base numbers tactics list relations.
Open Scope Z_scope.

Definition PCO_CONFIGURATION_PROTOCOL_PPP_FOR_USE_WITH_IP_PDP_TYPE_OR_IP_PDN_TYPE : Z := 0.
Definition PCO_PROTOCOL_IDENTIFIER_IPCP : Z := 0x8021.
Definition PCO_CONTAINER_IDENTIFIER_IP_ADDRESS_ALLOCATION_VIA_NAS_SIGNALLING : Z := 0x000A.
Definition PCO_CONTAINER_IDENTIFIER_DNS_SERVER_IPV4_ADDRESS_REQUEST : Z := 0x000D.
Definition PCO_CONTAINER_IDENTIFIER_IPV4_LINK_MTU_REQUEST : Z := 0x0010.
Definition PCO_CONTAINER_IDENTIFIER_DNS_SERVER_IPV4_ADDRESS : Z := 0x000D.
Definition PCO_CONTAINER_IDENTIFIER_IPV4_LINK_MTU : Z := 0x0010.
Definition IPCP_CODE_CONFIGURE_ACK : Z := 2.
Definition IPCP_CODE_CONFIGURE_NACK : Z := 3.
Definition IPCP_OPTION_PRIMARY_DNS_SERVER_IP_ADDRESS : Z := 0x81.
Definition IPCP_OPTION_SECONDARY_DNS_SERVER_IP_ADDRESS : Z := 0x83.
Definition INADDR_ANY : Z := 0.
Definition INADDR_NONE : Z := 2 ^ 32 - 1.

(** How a call ends when it does not return. *)
Inductive pco_exn := out_of_range | abort.

(** The part of [pgw_cfg.spgw_app_] this file reads; an [in_addr] by its
    [s_addr]: the first octet of the address is the low one. *)
Record spgw_app_cfg := mk_spgw_app_cfg {
  default_dnsv4 : Z; default_dns_secv4 : Z; default_ue_mtu_ipv4 : Z; force_push_pco : bool }.

(** [protocol_configuration_options_ids_t] *)
Record pco_ids_t := mk_pco_ids {
  pi_ipcp : bool;
  ci_dns_server_ipv4_address_request : bool;
  ci_ip_address_allocation_via_nas_signalling : bool;
  ci_ipv4_address_allocation_via_dhcpv4 : bool;
  ci_ipv4_link_mtu_request : bool;
}.

Definition pco_ids_init : pco_ids_t := mk_pco_ids false false false false false.

(** ** [pco_push_protocol_or_container_id] *)
Definition pco_push_protocol_or_container_id (pco : protocol_configuration_options_t) (c : protocol_or_container_id)
  : result pco_exn (Z * protocol_configuration_options_t) :=
  let n := pco_core_num pco in
  if PCO_UNSPEC_MAXIMUM_PROTOCOL_ID_OR_CONTAINER_ID <=? n then Val (RETURNerror, pco)
  else if length_of_protocol_id_contents c =? Z.of_nat (length (protocol_id_contents c)) then
    Val (RETURNok, mk_pco_t (pco_core_ext pco) (pco_core_configuration_protocol pco) (u8 (n + 1))
                     (take (Z.to_nat n) (pco_core_ids pco) ++ [c]))
  else Throw abort.

(** ** IPCP *)

(** [s.at(i)] *)
Definition string_at (s : list Z) (i : Z) : result pco_exn Z :=
  match s !! Z.to_nat i with Some b => Val b | None => Throw out_of_range end.

(** [(uint32_t) c] of the [char] with octet [b]. *)
Definition sext (b : Z) : Z := u32 (if b <? 128 then b else b - 256).

(** [htonl((uint32_t) a << 24 | (uint32_t) b << 16 | (uint32_t) c << 8 | (uint32_t) d)] *)
Definition ipcp_address (a b c d : Z) : Z :=
  htobe32 (Z.lor (Z.lor (Z.lor (u32 (Z.shiftl (sext a) 24)) (u32 (Z.shiftl (sext b) 16)))
    (u32 (Z.shiftl (sext c) 8))) (sext d)).

(** The four octets of an address, [(addr >> 8k) & 0xFF]. *)
Definition address_octets (addr : Z) : list Z :=
  [Z.land addr 255; Z.land (Z.shiftr addr 8) 255; Z.land (Z.shiftr addr 16) 255; Z.land (Z.shiftr addr 24) 255].

(** The variables of the loop. *)
Record ipcp_state := mk_ipcp {
  req_remaining_length : Z;        (* size_t *)
  in_index : Z;                    (* size_t *)
  out_dns_prim : Z;
  out_dns_sec : Z;
  out_code : Z;
  out_length : Z;                  (* uint16_t *)
  out_contents : list Z;
}.

(** The body of both DNS cases: from the address configured and the one to be
    answered so far, the address answered and the code. *)
Definition ipcp_dns (configured : Z) (s : list Z) (index len out_addr code : Z) : result pco_exn (Z * Z) :=
  if 6 <=? len then
    a ← string_at s (index + 2); b ← string_at s (index + 3);
    c ← string_at s (index + 4); d ← string_at s (index + 5);
    let addr := ipcp_address a b c d in
    Val (if addr =? INADDR_ANY then (configured, IPCP_CODE_CONFIGURE_NACK)
         else if configured =? addr then (addr, code)
         else (configured, IPCP_CODE_CONFIGURE_NACK))
  else Val (out_addr, code).

Section Config.
Variable cfg : spgw_app_cfg.

Definition ipcp_option (s : list Z) (st : ipcp_state) : result pco_exn ipcp_state :=
  let index := in_index st in
  opt ← string_at s index;
  len ← string_at s (index + 1);
  let remaining := u64 (req_remaining_length st - len) in
  if opt =? IPCP_OPTION_PRIMARY_DNS_SERVER_IP_ADDRESS then
    '(addr, code) ← ipcp_dns (default_dnsv4 cfg) s index len (out_dns_prim st) (out_code st);
    Val (mk_ipcp remaining (u64 (index + len)) addr (out_dns_sec st) code (u16 (out_length st + 6))
           (out_contents st ++ [IPCP_OPTION_PRIMARY_DNS_SERVER_IP_ADDRESS; 6] ++ address_octets addr))
  else if opt =? IPCP_OPTION_SECONDARY_DNS_SERVER_IP_ADDRESS then
    '(addr, code) ← ipcp_dns (default_dns_secv4 cfg) s index len (out_dns_sec st) (out_code st);
    Val (mk_ipcp remaining (u64 (index + len)) (out_dns_prim st) addr code (u16 (out_length st + 6))
           (out_contents st ++ [IPCP_OPTION_SECONDARY_DNS_SERVER_IP_ADDRESS; 6] ++ address_octets addr))
  else
    Val (mk_ipcp remaining (u64 (index + len)) (out_dns_prim st) (out_dns_sec st) (out_code st) (out_length st)
           (out_contents st)).

(** [while (ipcp_req_remaining_length >= 2)] *)
Fixpoint ipcp_loop (fuel : nat) (s : list Z) (st : ipcp_state) : result pco_exn ipcp_state :=
  match fuel with
  | O => Diverge
  | S fuel =>
    if 2 <=? req_remaining_length st then st ← ipcp_option s st; ipcp_loop fuel s st else Val st
  end.

(** The four octets at the start of the answer, [at(0)] to [at(3)], are written
    last. *)
Definition process_pco_request_ipcp (fuel : nat) (pco_resp : protocol_configuration_options_t)
    (poc : protocol_or_container_id) : result pco_exn (Z * protocol_configuration_options_t) :=
  let s := protocol_id_contents poc in
  _ ← string_at s 0;
  ident ← string_at s 1;
  _ ← string_at s 2;
  _ ← string_at s 3;
  let remaining := u64 (length_of_protocol_id_contents poc - 1 - 1 - 2) in
  st ← ipcp_loop fuel s
         (mk_ipcp remaining 4 INADDR_NONE INADDR_NONE IPCP_CODE_CONFIGURE_ACK (1 + 1 + 2) [0; 0; 0; 0]);
  let contents := [out_code st; ident; u8 (Z.shiftr (out_length st) 8); Z.land (out_length st) 255]
                    ++ drop 4 (out_contents st) in
  pco_push_protocol_or_container_id pco_resp (mk_container (protocol_id poc) (u8 (out_length st)) contents).

(** ** The other two requests *)
Definition process_pco_dns_server_request (pco_resp : protocol_configuration_options_t)
  : result pco_exn (Z * protocol_configuration_options_t) :=
  pco_push_protocol_or_container_id pco_resp
    (mk_container PCO_CONTAINER_IDENTIFIER_DNS_SERVER_IPV4_ADDRESS 4 (address_octets (default_dnsv4 cfg))).

Definition process_pco_link_mtu_request (pco_resp : protocol_configuration_options_t)
  : result pco_exn (Z * protocol_configuration_options_t) :=
  pco_push_protocol_or_container_id pco_resp
    (mk_container PCO_CONTAINER_IDENTIFIER_IPV4_LINK_MTU 2
       [u8 (Z.shiftr (default_ue_mtu_ipv4 cfg) 8); u8 (Z.land (default_ue_mtu_ipv4 cfg) 255)]).

(** ** [process_pco_request] *)

(** One container of the request; the return codes are not looked at. *)
Definition process_pco_container (fuel : nat) (c : protocol_or_container_id)
    (r : protocol_configuration_options_t * pco_ids_t)
  : result pco_exn (protocol_configuration_options_t * pco_ids_t) :=
  let '(resp, ids) := r in
  let id := protocol_id c in
  if id =? PCO_PROTOCOL_IDENTIFIER_IPCP then
    '(_, resp) ← process_pco_request_ipcp fuel resp c;
    Val (resp, mk_pco_ids true (ci_dns_server_ipv4_address_request ids) (ci_ip_address_allocation_via_nas_signalling ids)
                 (ci_ipv4_address_allocation_via_dhcpv4 ids) (ci_ipv4_link_mtu_request ids))
  else if id =? PCO_CONTAINER_IDENTIFIER_DNS_SERVER_IPV4_ADDRESS_REQUEST then
    '(_, resp) ← process_pco_dns_server_request resp;
    Val (resp, mk_pco_ids (pi_ipcp ids) true (ci_ip_address_allocation_via_nas_signalling ids)
                 (ci_ipv4_address_allocation_via_dhcpv4 ids) (ci_ipv4_link_mtu_request ids))
  else if id =? PCO_CONTAINER_IDENTIFIER_IP_ADDRESS_ALLOCATION_VIA_NAS_SIGNALLING then
    Val (resp, mk_pco_ids (pi_ipcp ids) (ci_dns_server_ipv4_address_request ids) true
                 (ci_ipv4_address_allocation_via_dhcpv4 ids) (ci_ipv4_link_mtu_request ids))
  else if id =? PCO_CONTAINER_IDENTIFIER_IPV4_LINK_MTU_REQUEST then
    '(_, resp) ← process_pco_link_mtu_request resp;
    Val (resp, mk_pco_ids (pi_ipcp ids) (ci_dns_server_ipv4_address_request ids)
                 (ci_ip_address_allocation_via_nas_signalling ids) (ci_ipv4_address_allocation_via_dhcpv4 ids) true)
  else Val (resp, ids).

Fixpoint process_pco_containers (fuel : nat) (l : list protocol_or_container_id)
    (r : protocol_configuration_options_t * pco_ids_t)
  : result pco_exn (protocol_configuration_options_t * pco_ids_t) :=
  match l with
  | [] => Val r
  | c :: l => r ← process_pco_container fuel c r; process_pco_containers fuel l r
  end.

(** [if (pgw_cfg.spgw_app_.force_push_pco)] *)
Definition process_pco_force (r : protocol_configuration_options_t * pco_ids_t)
  : result pco_exn (protocol_configuration_options_t * pco_ids_t) :=
  if force_push_pco cfg then
    let '(resp, ids) := r in
    let ids := mk_pco_ids (pi_ipcp ids) (ci_dns_server_ipv4_address_request ids) true
                 (ci_ipv4_address_allocation_via_dhcpv4 ids) (ci_ipv4_link_mtu_request ids) in
    resp ← (if ci_dns_server_ipv4_address_request ids then Val resp
            else '(_, resp) ← process_pco_dns_server_request resp; Val resp);
    resp ← (if ci_ipv4_link_mtu_request ids then Val resp
            else '(_, resp) ← process_pco_link_mtu_request resp; Val resp);
    Val (resp, ids)
  else Val r.

(** The containers [0 .. num - 1] of the array of a core PCO. *)
Definition pco_request_containers (p : protocol_configuration_options_t) : list protocol_or_container_id :=
  (fun k => nth k (pco_core_ids p) container_init) <$> seq 0 (Z.to_nat (pco_core_num p)).

(** It returns [RETURNok] whatever happens. *)
Definition process_pco_request (fuel : nat) (pco_req pco_resp : protocol_configuration_options_t) (pco_ids : pco_ids_t)
  : result pco_exn (protocol_configuration_options_t * pco_ids_t) :=
  let pco_resp :=
    if pco_core_configuration_protocol pco_req =? PCO_CONFIGURATION_PROTOCOL_PPP_FOR_USE_WITH_IP_PDP_TYPE_OR_IP_PDN_TYPE
    then mk_pco_t 1 (pco_core_configuration_protocol pco_req) 0 (pco_core_ids pco_resp)
    else pco_resp in
  if PCO_UNSPEC_MAXIMUM_PROTOCOL_ID_OR_CONTAINER_ID <? pco_core_num pco_req then UB
  else
    r ← process_pco_containers fuel (pco_request_containers pco_req) (pco_resp, pco_ids);
    process_pco_force r.
End Config.

(** ** The address the code reads

    [sext] fills the upper octets with ones when an octet has its high bit set:
    the octets before it in the address read 255. *)
Definition smeared (a b c d : Z) : list Z :=
  [if (b <? 128) && (c <? 128) && (d <? 128) then a else 255;
   if (c <? 128) && (d <? 128) then b else 255;
   if d <? 128 then c else 255;
   d].

Lemma byte_forall (P : Z -> bool) :
  forallb P (Z.of_nat <$> seq 0 256) = true -> forall x, fits 8 x -> P x = true.
Proof.
  rewrite forallb_forall. intros H x [H0 H1]. apply H, list_elem_of_In, list_elem_of_fmap.
  exists (Z.to_nat x). split; [lia|]. apply elem_of_seq. change (2 ^ 8) with 256 in H1. lia.
Qed.

(** Octet [k] of [(uint32_t) x << 8 j]. *)
Definition sext_octet (j k x : Z) : Z :=
  if k <? j then 0 else if k =? j then x else if x <? 128 then 0 else 255.

Lemma sext_octet_spec j k x :
  0 <= j < 4 -> 0 <= k < 4 -> fits 8 x ->
  Z.land (Z.shiftr (u32 (Z.shiftl (sext x) (8 * j))) (8 * k)) 255 = sext_octet j k x.
Proof.
  intros Hj Hk Hx. apply Z.eqb_eq. revert x Hx. apply byte_forall.
  assert (j = 0 \/ j = 1 \/ j = 2 \/ j = 3) as Hj' by lia.
  assert (k = 0 \/ k = 1 \/ k = 2 \/ k = 3) as Hk' by lia.
  destruct Hj' as [-> | [-> | [-> | ->]]], Hk' as [-> | [-> | [-> | ->]]]; vm_compute; reflexivity.
Qed.

Lemma lor_255 x : fits 8 x -> Z.lor x 255 = 255.
Proof. intros Hx. apply Z.eqb_eq. revert x Hx. apply byte_forall. reflexivity. Qed.

Lemma land_octet z k : 0 <= k -> Z.land (Z.shiftr z (8 * k)) 255 = z / 2 ^ (8 * k) mod 256.
Proof. intros Hk. rewrite (Z.land_ones _ 8), Z.shiftr_div_pow2 by lia. done. Qed.

Lemma address_octets_le z : address_octets z = le_bytes 4 z.
Proof.
  unfold address_octets. cbn [le_bytes].
  rewrite <- (Z.shiftr_0_r z) at 1. change 8 with (8 * 1) at 1. change 16 with (8 * 2). change 24 with (8 * 3).
  change (Z.shiftr z 0) with (Z.shiftr z (8 * 0)). rewrite !land_octet by lia.
  rewrite !Z.div_div by lia. by rewrite Z.div_1_r.
Qed.

Lemma ipcp_address_smeared a b c d :
  fits 8 a -> fits 8 b -> fits 8 c -> fits 8 d -> ipcp_address a b c d = le_val (smeared a b c d).
Proof.
  intros Ha Hb Hc Hd. unfold ipcp_address.
  set (v := Z.lor _ _).
  assert (le_bytes 4 v = rev (smeared a b c d)) as E.
  { rewrite <- address_octets_le. unfold address_octets.
    assert (forall k, 0 <= k < 4 -> Z.land (Z.shiftr v (8 * k)) 255 =
      Z.lor (Z.lor (Z.lor (sext_octet 3 k a) (sext_octet 2 k b)) (sext_octet 1 k c)) (sext_octet 0 k d)) as H.
    { intros k Hk. unfold v. rewrite !Z.shiftr_lor, !Z.land_lor_distr_l.
      rewrite <- (sext_octet_spec 3 k a), <- (sext_octet_spec 2 k b), <- (sext_octet_spec 1 k c), <- (sext_octet_spec 0 k d) by (done || lia).
      do 4 f_equal. unfold wrapu. rewrite Z.mul_0_r, Z.shiftl_0_r. unfold sext, wrapu. by rewrite Z.mod_mod by lia. }
    rewrite <- (Z.shiftr_0_r v) at 1. change (Z.shiftr v 0) with (Z.shiftr v (8 * 0)).
    change 8 with (8 * 1) at 2. change 16 with (8 * 2). change 24 with (8 * 3). rewrite !H by lia.
    unfold sext_octet, smeared. simpl.
    destruct (b <? 128), (c <? 128), (d <? 128); simpl; rewrite ?Z.lor_0_l, ?Z.lor_0_r, ?(lor_255 a), ?(lor_255 b), ?(lor_255 c) by done; done. }
  unfold be32toh, be_val. by rewrite E, rev_involutive.
Qed.

(** ** The loop over the options *)
Lemma string_at_Val s i b : 0 <= i -> string_at s i = Val b -> s !! Z.to_nat i = Some b /\ i < Z.of_nat (length s).
Proof.
  intros Hi. unfold string_at. destruct (s !! _) as [x|] eqn:E; [|done]. intros [= <-].
  split; [done|]. apply lookup_lt_Some in E. lia.
Qed.

Lemma string_at_ends s i : string_at s i <> Diverge.
Proof. unfold string_at. by case_match. Qed.

Lemma ipcp_dns_ends x s i len addr code : ipcp_dns x s i len addr code <> Diverge.
Proof.
  unfold ipcp_dns. case_match; [|done]. intros E.
  repeat (apply bind_Diverge_inv in E as [E|(? & _ & E)]; [by apply string_at_ends in E|]). done.
Qed.

Lemma ipcp_option_ends cfg s st : ipcp_option cfg s st <> Diverge.
Proof.
  unfold ipcp_option. intros E.
  do 2 (apply bind_Diverge_inv in E as [E|(? & _ & E)]; [by apply string_at_ends in E|]).
  repeat case_match; try done; apply bind_Diverge_inv in E as [E|([] & _ & E)]; by try apply ipcp_dns_ends in E.
Qed.

Lemma ipcp_option_Val cfg s st st' :
  byte_list s -> 0 <= in_index st -> Z.of_nat (length s) < 2 ^ 32 -> ipcp_option cfg s st = Val st' ->
  exists len, s !! Z.to_nat (in_index st + 1) = Some len /\ fits 8 len /\ in_index st + 1 < Z.of_nat (length s) /\
    in_index st' = in_index st + len /\ req_remaining_length st' = u64 (req_remaining_length st - len).
Proof.
  intros Hs Hi Hl E. unfold ipcp_option in E. apply bind_Val_inv in E as (opt & _ & E).
  apply bind_Val_inv in E as (len & Elen & E). apply string_at_Val in Elen as [Elen Hlt]; [|lia].
  pose proof (proj1 (Forall_lookup _ _) Hs _ _ Elen) as Hb. exists len. split; [done|]. split; [done|]. split; [done|].
  assert (u64 (in_index st + len) = in_index st + len) as Ei by (apply wrapu_id; unfold fits in *; lia).
  destruct (opt =? _).
  - apply bind_Val_inv in E as ([a c] & _ & [= <-]). by rewrite Ei.
  - destruct (opt =? _); [apply bind_Val_inv in E as ([a c] & _ & [= <-])|injection E as <-]; by rewrite Ei.
Qed.

(** Where the octet of the length is 0 the loop stays. *)
Definition stuck (s : list Z) (st : ipcp_state) : Prop :=
  2 <= req_remaining_length st < 2 ^ 64 /\ s !! Z.to_nat (in_index st + 1) = Some 0.

Lemma ipcp_option_stuck cfg s st :
  byte_list s -> 0 <= in_index st -> Z.of_nat (length s) < 2 ^ 32 -> stuck s st ->
  exists st', ipcp_option cfg s st = Val st' /\ in_index st' = in_index st /\ stuck s st'.
Proof.
  intros Hs Hi Hl [Hr Hz]. pose proof (lookup_lt_Some _ _ _ Hz) as Hlt.
  assert (exists st', ipcp_option cfg s st = Val st') as [st' E].
  { unfold ipcp_option, string_at. destruct (lookup_lt_is_Some_2 s (Z.to_nat (in_index st)) ltac:(lia)) as [opt ->].
    rewrite Hz. cbn [mbind result_bind]. unfold ipcp_dns. change (6 <=? 0) with false. cbn.
    destruct (opt =? _); [by eexists|]. destruct (opt =? _); by eexists. }
  exists st'. split; [done|]. destruct (ipcp_option_Val cfg s st st' Hs Hi Hl E) as (len & Elen & _ & _ & Ei & Er).
  rewrite Hz in Elen. injection Elen as <-. rewrite Z.sub_0_r in Er. rewrite Z.add_0_r in Ei. split; [done|].
  unfold stuck. rewrite Ei, Er, wrapu_id by (unfold fits; lia). done.
Qed.

Lemma ipcp_loop_stuck cfg fuel s st :
  byte_list s -> 0 <= in_index st -> Z.of_nat (length s) < 2 ^ 32 -> stuck s st -> ipcp_loop cfg fuel s st = Diverge.
Proof.
  revert st. induction fuel as [|fuel IH]; intros st Hs Hi Hl Hst; [done|]. cbn [ipcp_loop].
  destruct (ipcp_option_stuck cfg s st Hs Hi Hl Hst) as (st' & E & Ei & Hst').
  replace (2 <=? req_remaining_length st) with true by (symmetry; destruct Hst; lia). rewrite E. apply IH; [done|lia|done..].
Qed.

(** The rounds of the loop. *)
Definition ipcp_step (cfg : spgw_app_cfg) (s : list Z) (st st' : ipcp_state) : Prop :=
  2 <= req_remaining_length st /\ ipcp_option cfg s st = Val st'.

Definition state_ok (st : ipcp_state) : Prop := 0 <= in_index st /\ fits 64 (req_remaining_length st).

Lemma ipcp_step_ok cfg s st st' :
  byte_list s -> Z.of_nat (length s) < 2 ^ 32 -> state_ok st -> ipcp_step cfg s st st' -> state_ok st'.
Proof.
  intros Hs Hl [Hi Hr] [_ E]. destruct (ipcp_option_Val cfg s st st' Hs Hi Hl E) as (len & _ & Hb & _ & Ei & Er).
  split; [unfold fits in *; lia|]. rewrite Er. by apply wrapu_fits.
Qed.

(** As many rounds as octets decide the loop: it is over, or it has met an
    option of length 0. *)
Lemma ipcp_loop_decided cfg fuel s st :
  byte_list s -> Z.of_nat (length s) < 2 ^ 32 -> state_ok st ->
  Z.of_nat (length s) - in_index st < Z.of_nat fuel -> (0 < fuel)%nat ->
  ipcp_loop cfg fuel s st = Diverge -> exists st', rtc (ipcp_step cfg s) st st' /\ stuck s st'.
Proof.
  revert st. induction fuel as [|fuel IH]; intros st Hs Hl Hok Hf Hf0; [lia|]. cbn [ipcp_loop].
  destruct (2 <=? req_remaining_length st) eqn:Hr; [|done]. intros E.
  apply bind_Diverge_inv in E as [E|(st1 & E1 & E)].
  - by apply ipcp_option_ends in E.
  - assert (ipcp_step cfg s st st1) as Hstep by (split; [lia|done]).
    destruct (ipcp_option_Val cfg s st st1 Hs (proj1 Hok) Hl E1) as (len & Elen & Hb & Hlt & Ei & _).
    destruct (decide (len = 0)) as [->|Hne].
    + exists st. split; [apply rtc_refl|]. split; [|done]. destruct Hok as [_ Hok]. unfold fits in Hok. lia.
    + destruct (IH st1) as (st' & Hrtc & Hst'); [done|done|by eapply ipcp_step_ok| | |done|].
      * unfold fits in Hb. lia.
      * unfold fits in Hb. destruct fuel; [|lia]. lia.
      * exists st'. split; [by eapply rtc_l|done].
Qed.

Lemma ipcp_loop_reach cfg fuel s st st' :
  byte_list s -> Z.of_nat (length s) < 2 ^ 32 -> state_ok st ->
  rtc (ipcp_step cfg s) st st' -> stuck s st' -> ipcp_loop cfg fuel s st = Diverge.
Proof.
  intros Hs Hl Hok Hr. revert fuel Hok. induction Hr as [st|st st1 st' Hstep Hr IH]; intros fuel Hok Hst.
  - by apply ipcp_loop_stuck; [|destruct Hok|..].
  - destruct fuel as [|fuel]; [done|]. cbn [ipcp_loop]. pose proof Hstep as [H2 E].
    replace (2 <=? req_remaining_length st) with true by (symmetry; lia). rewrite E. apply IH; [|done].
    by eapply ipcp_step_ok.
Qed.

(** ** Well-formed IPCP packets

    The options as RFC 1332 has them: a type, a length that counts its own two
    octets, and data. *)
Record ipcp_opt := mk_ipcp_opt { o_type : Z; o_data : list Z }.

Definition opt_ok (o : ipcp_opt) : Prop := fits 8 (o_type o) /\ byte_list (o_data o) /\ (length (o_data o) <= 253)%nat.
Definition opt_bytes (o : ipcp_opt) : list Z := o_type o :: Z.of_nat (2 + length (o_data o)) :: o_data o.

Section Reply.
Variable cfg : spgw_app_cfg.

(** The address configured for the server an option asks about. *)
Definition opt_configured (o : ipcp_opt) : option Z :=
  if o_type o =? IPCP_OPTION_PRIMARY_DNS_SERVER_IP_ADDRESS then Some (default_dnsv4 cfg)
  else if o_type o =? IPCP_OPTION_SECONDARY_DNS_SERVER_IP_ADDRESS then Some (default_dns_secv4 cfg)
  else None.

Definition opt_address (o : ipcp_opt) : option Z :=
  match o_data o with a :: b :: c :: d :: _ => Some (ipcp_address a b c d) | _ => None end.

(** The option proposes the address that is configured. *)
Definition opt_agrees (o : ipcp_opt) : bool :=
  match opt_configured o, opt_address o with
  | Some x, Some y => (x =? y) && negb (y =? INADDR_ANY)
  | _, _ => true
  end.

Definition is_dns (o : ipcp_opt) : bool :=
  (o_type o =? IPCP_OPTION_PRIMARY_DNS_SERVER_IP_ADDRESS) || (o_type o =? IPCP_OPTION_SECONDARY_DNS_SERVER_IP_ADDRESS).
Definition dns_count (l : list ipcp_opt) : Z := Z.of_nat (length (filter (fun o => is_dns o = true) l)).

(** What is answered to the options: to each request of a DNS server its
    configured address.  An option too short for an address gets what the last
    one of its type got, [255.255.255.255] when there was none. *)
Fixpoint opts_answer (prim sec : Z) (l : list ipcp_opt) : list Z :=
  match l with
  | [] => []
  | o :: l =>
    let answer x old := if opt_address o is Some _ then x else old in
    if o_type o =? IPCP_OPTION_PRIMARY_DNS_SERVER_IP_ADDRESS then
      let prim := answer (default_dnsv4 cfg) prim in
      [o_type o; 6] ++ le_bytes 4 prim ++ opts_answer prim sec l
    else if o_type o =? IPCP_OPTION_SECONDARY_DNS_SERVER_IP_ADDRESS then
      let sec := answer (default_dns_secv4 cfg) sec in
      [o_type o; 6] ++ le_bytes 4 sec ++ opts_answer prim sec l
    else opts_answer prim sec l
  end.

Lemma string_at_app pre x post : string_at (pre ++ x :: post) (Z.of_nat (length pre)) = Val x.
Proof. unfold string_at. by rewrite Nat2Z.id, list_lookup_middle. Qed.

Lemma string_at_app' pre x post i : i = Z.of_nat (length pre) -> string_at (pre ++ x :: post) i = Val x.
Proof. intros ->. apply string_at_app. Qed.

(** The DNS cases on an option at [index]. *)
Lemma ipcp_dns_opt x pre o post out_addr code :
  opt_ok o ->
  ipcp_dns x (pre ++ opt_bytes o ++ post) (Z.of_nat (length pre)) (Z.of_nat (2 + length (o_data o))) out_addr code =
  Val (if opt_address o is Some _ then x else out_addr,
       match opt_address o with
       | Some y => if (x =? y) && negb (y =? INADDR_ANY) then code else IPCP_CODE_CONFIGURE_NACK
       | None => code
       end).
Proof.
  intros (Ht & Hb & Hl). unfold ipcp_dns, opt_address, opt_bytes. destruct o as [ty data]. cbn [o_type o_data] in *.
  destruct data as [|a [|b [|c [|d data]]]]; try done.
  rewrite (proj2 (Z.leb_le 6 _)) by (cbn [length]; lia).
  set (s := pre ++ _).
  assert (s = (pre ++ [ty; Z.of_nat (2 + length (a :: b :: c :: d :: data))]) ++ a :: b :: c :: d :: data ++ post) as Ea
    by (unfold s; by rewrite <- !app_assoc).
  set (p := pre ++ _) in Ea. assert (Z.of_nat (length p) = Z.of_nat (length pre) + 2) as Hp
    by (unfold p; rewrite length_app; cbn [length]; lia).
  assert (forall i k x q, s = (p ++ k) ++ x :: q -> i = Z.of_nat (length k) + 2 -> string_at s (Z.of_nat (length pre) + i) = Val x) as Hat.
  { intros i k y q -> ->. apply string_at_app'. rewrite length_app. lia. }
  rewrite (Hat 2 [] a (b :: c :: d :: data ++ post)) by (done || by rewrite app_nil_r).
  rewrite (Hat 3 [a] b (c :: d :: data ++ post)) by (done || by rewrite <- app_assoc).
  rewrite (Hat 4 [a; b] c (d :: data ++ post)) by (done || by rewrite <- app_assoc).
  rewrite (Hat 5 [a; b; c] d (data ++ post)) by (done || by rewrite <- app_assoc).
  cbn [mbind result_bind]. destruct (_ =? INADDR_ANY) eqn:E0; [by rewrite andb_false_r|].
  rewrite andb_true_r. destruct (x =? _) eqn:Ex; [|done]. apply Z.eqb_eq in Ex. by rewrite <- Ex.
Qed.

(** One round on an option. *)
Lemma ipcp_option_opt pre o post st :
  opt_ok o -> in_index st = Z.of_nat (length pre) -> Z.of_nat (length (opt_bytes o)) <= req_remaining_length st < 2 ^ 64 ->
  Z.of_nat (length pre) < 2 ^ 32 -> fits 16 (out_length st) ->
  exists st', ipcp_option cfg (pre ++ opt_bytes o ++ post) st = Val st' /\
    in_index st' = Z.of_nat (length (pre ++ opt_bytes o)) /\
    req_remaining_length st' = req_remaining_length st - Z.of_nat (length (opt_bytes o)) /\
    out_code st' = (if opt_agrees o then out_code st else IPCP_CODE_CONFIGURE_NACK) /\
    out_length st' = u16 (out_length st + (if is_dns o then 6 else 0)) /\
    forall l, out_contents st' ++ opts_answer (out_dns_prim st') (out_dns_sec st') l =
              out_contents st ++ opts_answer (out_dns_prim st) (out_dns_sec st) (o :: l).
Proof.
  intros Ho Hi Hr Hp Hf. pose proof Ho as (Ht & Hb & Hl).
  assert (string_at (pre ++ opt_bytes o ++ post) (in_index st) = Val (o_type o)) as E1 by (rewrite Hi; apply string_at_app).
  assert (string_at (pre ++ opt_bytes o ++ post) (in_index st + 1) = Val (Z.of_nat (2 + length (o_data o)))) as E2.
  { unfold opt_bytes. cbn [app]. change (?a :: ?b :: ?c) with ([a] ++ b :: c). rewrite app_assoc.
    apply string_at_app'. rewrite length_app. cbn [length]. lia. }
  assert (Z.of_nat (length (opt_bytes o)) = Z.of_nat (2 + length (o_data o))) as El by done.
  assert (u64 (in_index st + Z.of_nat (2 + length (o_data o))) = Z.of_nat (length (pre ++ opt_bytes o))) as Ei.
  { rewrite wrapu_id by (unfold fits; lia). rewrite length_app, Hi. lia. }
  assert (u64 (req_remaining_length st - Z.of_nat (2 + length (o_data o))) =
    req_remaining_length st - Z.of_nat (length (opt_bytes o))) as Er by (rewrite wrapu_id by (unfold fits; lia); lia).
  unfold ipcp_option. rewrite E1, E2. cbn [mbind result_bind]. rewrite Hi in Ei |- *.
  rewrite !ipcp_dns_opt by done. cbn [mbind result_bind]. rewrite Ei, Er.
  unfold opt_agrees, is_dns, opt_configured. cbn [opts_answer].
  destruct (o_type o =? IPCP_OPTION_PRIMARY_DNS_SERVER_IP_ADDRESS) eqn:Ep;
    [|destruct (o_type o =? IPCP_OPTION_SECONDARY_DNS_SERVER_IP_ADDRESS) eqn:Es];
    (eexists; split; [reflexivity|]); cbn [in_index req_remaining_length out_code out_length out_contents out_dns_prim out_dns_sec];
    rewrite ?address_octets_le; split_and!; try done; try (intros l; rewrite <- !app_assoc; by rewrite ?(proj1 (Z.eqb_eq _ _) Ep), ?(proj1 (Z.eqb_eq _ _) Es)).
  - by destruct (opt_address o).
  - by destruct (opt_address o).
  - by rewrite Z.add_0_r, wrapu_id.
Qed.

Lemma dns_count_cons o l : dns_count (o :: l) = (if is_dns o then 1 else 0) + dns_count l.
Proof. unfold dns_count. rewrite filter_cons. destruct (is_dns o); case_decide; try done; cbn [length]; lia. Qed.

Lemma dns_count_length l : 0 <= dns_count l <= Z.of_nat (length l).
Proof. induction l as [|o l IH]; [done|]. rewrite dns_count_cons. cbn [length]. destruct (is_dns o); lia. Qed.

Abbreviation opts_bytes l := (concat (opt_bytes <$> l)).

Lemma length_opts_bytes l : (2 * length l <= length (opts_bytes l))%nat.
Proof. induction l as [|o l IH]; [done|]. rewrite fmap_cons. cbn [concat]. rewrite length_app. cbn [opt_bytes length]. lia. Qed.

Lemma ipcp_loop_opts l fuel pre tail st :
  Forall opt_ok l -> (length tail < 2)%nat -> (length l < fuel)%nat -> in_index st = Z.of_nat (length pre) ->
  req_remaining_length st = Z.of_nat (length (opts_bytes l ++ tail)) ->
  Z.of_nat (length (pre ++ opts_bytes l ++ tail)) < 2 ^ 32 -> fits 16 (out_length st) ->
  exists st', ipcp_loop cfg fuel (pre ++ opts_bytes l ++ tail) st = Val st' /\
    out_code st' = (if forallb opt_agrees l then out_code st else IPCP_CODE_CONFIGURE_NACK) /\
    out_length st' = u16 (out_length st + 6 * dns_count l) /\
    out_contents st' = out_contents st ++ opts_answer (out_dns_prim st) (out_dns_sec st) l.
Proof.
  revert fuel pre st. induction l as [|o l IH]; intros fuel pre st Hok Ht Hf Hi Hr Hs Hl;
    (destruct fuel as [|fuel]; [lia|]); cbn [ipcp_loop].
  - replace (2 <=? _) with false by (cbn in Hr; lia). exists st. split; [done|]. split; [done|].
    cbn [opts_answer]. rewrite app_nil_r. change (6 * dns_count []) with 0. by rewrite Z.add_0_r, wrapu_id.
  - apply Forall_cons in Hok as [Ho Hok]. rewrite fmap_cons in Hr, Hs |- *. cbn [concat] in Hr, Hs |- *.
    rewrite <- app_assoc in Hr, Hs |- *. rewrite !length_app in Hr. rewrite !length_app in Hs.
    assert (2 <= length (opt_bytes o))%nat by (cbn; lia). cbn [length] in Hf.
    replace (2 <=? _) with true by lia.
    destruct (ipcp_option_opt pre o (opts_bytes l ++ tail) st) as (st1 & E & Ei & Er & Ec & Elen & Hc); [done|done|lia|lia|done|].
    rewrite E. cbn [mbind result_bind]. rewrite app_assoc.
    destruct (IH fuel (pre ++ opt_bytes o) st1) as (st' & E' & Ec' & El' & Hc');
      [done|done|lia|done|rewrite length_app; lia|rewrite !length_app; lia|rewrite Elen; by apply wrapu_fits|].
    exists st'. split; [done|]. rewrite Ec', El', Hc', <- Hc, Ec, Elen. cbn [forallb]. split_and!.
    + by destruct (opt_agrees o), (forallb _ l).
    + rewrite dns_count_cons. unfold wrapu. rewrite Z.add_mod_idemp_l by lia. f_equal. destruct (is_dns o); lia.
    + done.
Qed.

(** ** IPCP, whole packets *)
Definition ipcp_packet (code ident l1 l2 : Z) (l : list ipcp_opt) (tail : list Z) : list Z :=
  [code; ident; l1; l2] ++ opts_bytes l ++ tail.

(** The container answered to a packet with these options. *)
Definition ipcp_reply (ident : Z) (l : list ipcp_opt) : protocol_or_container_id :=
  let n := 4 + 6 * dns_count l in
  mk_container PCO_PROTOCOL_IDENTIFIER_IPCP n
    ([if forallb opt_agrees l then IPCP_CODE_CONFIGURE_ACK else IPCP_CODE_CONFIGURE_NACK; ident; 0; n] ++
     opts_answer INADDR_NONE INADDR_NONE l).

Lemma length_opts_answer p q l : Z.of_nat (length (opts_answer p q l)) = 6 * dns_count l.
Proof.
  revert p q. induction l as [|o l IH]; intros p q; [done|]. rewrite dns_count_cons. cbn [opts_answer].
  unfold is_dns, opt_configured. repeat case_match; try done; rewrite ?length_app, ?length_le_bytes; cbn [length];
    rewrite ?Nat2Z.inj_add, ?IH; lia.
Qed.

Lemma opts_answer_byte p q l : Forall opt_ok l -> byte_list (opts_answer p q l).
Proof.
  intros H. revert p q. induction H as [|o l (Ho & _) _ IH]; intros p q; [constructor|]. cbn [opts_answer].
  repeat case_match; try apply IH; (constructor; [done|]); (constructor; [done|]); apply Forall_app;
    (split; [apply le_bytes_byte|apply IH]).
Qed.

Lemma process_ipcp_packet fuel resp c code ident l1 l2 l tail :
  protocol_id c = PCO_PROTOCOL_IDENTIFIER_IPCP -> container_wf c ->
  protocol_id_contents c = ipcp_packet code ident l1 l2 l tail ->
  Forall opt_ok l -> (length tail < 2)%nat -> (length (protocol_id_contents c) <= fuel)%nat ->
  process_pco_request_ipcp cfg fuel resp c =
    (if dns_count l <=? 41 then pco_push_protocol_or_container_id resp (ipcp_reply ident l)
     else if PCO_UNSPEC_MAXIMUM_PROTOCOL_ID_OR_CONTAINER_ID <=? pco_core_num resp then Val (RETURNerror, resp)
     else Throw abort).
Proof.
  intros Hid (_ & Hl8 & Hlen) Hc Hok Ht Hf. rewrite Hc in Hlen, Hf. unfold process_pco_request_ipcp. rewrite Hc.
  change (string_at (ipcp_packet code ident l1 l2 l tail) 0) with (@Val pco_exn Z code).
  change (string_at (ipcp_packet code ident l1 l2 l tail) 1) with (@Val pco_exn Z ident).
  change (string_at (ipcp_packet code ident l1 l2 l tail) 2) with (@Val pco_exn Z l1).
  change (string_at (ipcp_packet code ident l1 l2 l tail) 3) with (@Val pco_exn Z l2).
  cbn [mbind result_bind]. unfold ipcp_packet in *. pose proof (length_opts_bytes l) as Hlb. pose proof (dns_count_length l) as Hn.
  change (length ([code; ident; l1; l2] ++ opts_bytes l ++ tail)) with (4 + length (opts_bytes l ++ tail))%nat in Hlen, Hf.
  unfold fits in Hl8. rewrite length_app in Hlen, Hf.
  destruct (ipcp_loop_opts l fuel [code; ident; l1; l2] tail
    (mk_ipcp (u64 (length_of_protocol_id_contents c - 1 - 1 - 2)) 4 INADDR_NONE INADDR_NONE IPCP_CODE_CONFIGURE_ACK (1 + 1 + 2) [0; 0; 0; 0]))
    as (st & E & Ec & El & Eo); [done|done|lia|done| |rewrite !length_app; cbn [length]; lia|by unfold fits|].
  { cbn [req_remaining_length]. rewrite length_app, wrapu_id by (unfold fits; lia). lia. }
  rewrite E. cbn [mbind result_bind]. rewrite Ec, El, Eo. cbn [out_code out_length out_contents out_dns_prim out_dns_sec app drop]. rewrite drop_0.
  change (1 + 1 + 2) with 4. rewrite (wrapu_id 16) by (unfold fits; lia).
  pose proof (length_opts_answer INADDR_NONE INADDR_NONE l) as Hla.
  unfold ipcp_reply, pco_push_protocol_or_container_id. cbn [length_of_protocol_id_contents protocol_id_contents]. rewrite Hid.
  cbn [app]. rewrite !length_cons, !Nat2Z.inj_succ, Hla.
  destruct (dns_count l <=? 41) eqn:Hk.
  - rewrite (wrapu_id 8 (4 + _)) by (unfold fits; lia). rewrite Z.shiftr_div_pow2, (Z.land_ones _ 8) by lia.
    rewrite Z.div_small, (Z.mod_small (4 + _)) by lia. done.
  - destruct (_ <=? pco_core_num resp); [done|]. replace (_ =? _) with false; [done|]. symmetry. apply Z.eqb_neq.
    pose proof (wrapu_fits 8 (4 + 6 * dns_count l) ltac:(lia)) as Hu. unfold fits in Hu. lia.
Qed.

Lemma ipcp_reply_wf ident l :
  Forall opt_ok l -> dns_count l <= 41 -> container_wf (ipcp_reply ident l).
Proof.
  intros Hl Hn. pose proof (dns_count_length l). split; [by unfold fits|].
  cbn [ipcp_reply length_of_protocol_id_contents protocol_id_contents app]. split; [unfold fits; lia|].
  rewrite !length_cons, !Nat2Z.inj_succ, length_opts_answer. lia.
Qed.
End Reply.

(** The octets of the address an option proposes, and the ones it is taken for. *)
Definition proposed (o : ipcp_opt) : option (list Z) :=
  match o_data o with a :: b :: c :: d :: _ => Some [a; b; c; d] | _ => None end.
Definition taken_for (o : ipcp_opt) : option (list Z) :=
  match o_data o with a :: b :: c :: d :: _ => Some (smeared a b c d) | _ => None end.

(** Every server that is asked for, with an address, is proposed as configured,
    and the address is not 0.0.0.0; [f] gives the octets of the proposal. *)
Definition all_agree (cfg : spgw_app_cfg) (f : ipcp_opt -> option (list Z)) (l : list ipcp_opt) : Prop :=
  forall o x y, o ∈ l -> opt_configured cfg o = Some x -> f o = Some y -> y = le_bytes 4 x /\ x <> INADDR_ANY.

Lemma opt_agrees_spec cfg o : fits 32 (default_dnsv4 cfg) -> fits 32 (default_dns_secv4 cfg) -> opt_ok o ->
  opt_agrees cfg o = true <-> forall x y, opt_configured cfg o = Some x -> taken_for o = Some y -> y = le_bytes 4 x /\ x <> INADDR_ANY.
Proof.
  intros H1 H2 (_ & Hb & _). unfold opt_agrees, taken_for, opt_address. destruct (opt_configured cfg o) as [x|] eqn:Ex; [|by split].
  assert (fits 32 x) as Hx by (unfold opt_configured in Ex; repeat case_match; congruence).
  destruct (o_data o) as [|a [|b [|c [|d r]]]]; try by split. unfold byte_list in Hb. rewrite !Forall_cons in Hb. destruct Hb as (Ha & Hb & Hc & Hd & _).
  rewrite ipcp_address_smeared by done. assert (byte_list (smeared a b c d)) as Hs.
  { unfold byte_list, smeared. rewrite !Forall_cons. assert (fits 8 255) by done. split_and!; try case_match; done. }
  rewrite andb_true_iff, Z.eqb_eq, negb_true_iff, Z.eqb_neq. split.
  - intros [E Hne] x' y' [= <-] [= <-]. split; [|congruence]. rewrite E. symmetry. apply (le_bytes_val _ Hs).
  - intros H. destruct (H x _ eq_refl eq_refl) as [E Hne]. assert (x = le_val (smeared a b c d)) as Exx; [|by rewrite <- Exx].
    rewrite E, le_val_bytes. symmetry. by apply Z.mod_small.
Qed.

Lemma agree_spec cfg l : fits 32 (default_dnsv4 cfg) -> fits 32 (default_dns_secv4 cfg) -> Forall opt_ok l ->
  forallb (opt_agrees cfg) l = true <-> all_agree cfg taken_for l.
Proof.
  intros H1 H2 Hl. rewrite forallb_forall. split.
  - intros H o x y Ho. apply opt_agrees_spec; [done|done|by eapply Forall_forall|]. apply H. by apply list_elem_of_In.
  - intros H o Ho%list_elem_of_In. apply opt_agrees_spec; [done|done|by eapply Forall_forall|]. intros x y. by apply H.
Qed.

Lemma small_octets_taken o : Forall (fun z => z < 128) (o_data o) -> taken_for o = proposed o.
Proof.
  unfold taken_for, proposed. destruct (o_data o) as [|a [|b [|c [|d r]]]]; try done. rewrite !Forall_cons. intros (? & ? & ? & ? & _).
  unfold smeared. repeat case_match; try done; lia.
Qed.

(** C29 The IPCP negotiation, on every packet of well-formed options (with at
    most one octet after them).  With up to 41 requests of a DNS server the
    answer is one container: the identifier of the request, and for each request
    of the primary or secondary server its configured address, in order, unknown
    options left out.  It is a Configure-Ack exactly when every proposed
    address, as the program reads it, is the configured one and not 0.0.0.0.
    The program reads the octets as signed characters, so that an octet of 128
    or more turns the octets before it into 255 ([smeared]): when no octet of
    the proposals is that large, the answer is a Configure-Ack exactly when
    every proposed address is the configured one and not 0.0.0.0.  With more
    than 41 requests the length of the answer does not fit its octet and the
    assertion of the push ends the process.  A full response is left alone. *)
Theorem ipcp_negotiation (cfg : spgw_app_cfg) (resp : protocol_configuration_options_t) (c : protocol_or_container_id)
    (code ident l1 l2 : Z) (l : list ipcp_opt) (tail : list Z) (fuel : nat) :
  protocol_id c = PCO_PROTOCOL_IDENTIFIER_IPCP -> container_wf c ->
  protocol_id_contents c = ipcp_packet code ident l1 l2 l tail ->
  Forall opt_ok l -> (length tail < 2)%nat -> (length (protocol_id_contents c) <= fuel)%nat ->
  pco_core_num resp = Z.of_nat (length (pco_core_ids resp)) ->
  fits 32 (default_dnsv4 cfg) -> fits 32 (default_dns_secv4 cfg) ->
  let n := 4 + 6 * dns_count l in
  exists ack, process_pco_request_ipcp cfg fuel resp c =
    (if PCO_UNSPEC_MAXIMUM_PROTOCOL_ID_OR_CONTAINER_ID <=? pco_core_num resp then Val (RETURNerror, resp)
     else if dns_count l <=? 41 then
       Val (RETURNok, mk_pco_t (pco_core_ext resp) (pco_core_configuration_protocol resp) (pco_core_num resp + 1)
                        (pco_core_ids resp ++ [mk_container PCO_PROTOCOL_IDENTIFIER_IPCP n
                          ([if ack : bool then IPCP_CODE_CONFIGURE_ACK else IPCP_CODE_CONFIGURE_NACK; ident; 0; n] ++
                           opts_answer cfg INADDR_NONE INADDR_NONE l)]))
     else Throw abort) /\
    (ack = true <-> all_agree cfg taken_for l) /\
    (Forall (fun o => Forall (fun z => z < 128) (o_data o)) l -> ack = true <-> all_agree cfg proposed l).
Proof.
  intros Hid Hw Hc Hok Ht Hf Hn H1 H2 n. exists (forallb (opt_agrees cfg) l). split; [|split].
  - rewrite (process_ipcp_packet cfg fuel resp c code ident l1 l2 l tail) by done.
    unfold pco_push_protocol_or_container_id, PCO_UNSPEC_MAXIMUM_PROTOCOL_ID_OR_CONTAINER_ID.
    destruct (30 <=? pco_core_num resp) eqn:H30; [by destruct (_ <=? 41)|]. destruct (dns_count l <=? 41) eqn:Hd; [|done].
    cbn [ipcp_reply length_of_protocol_id_contents protocol_id_contents app].
    rewrite !length_cons, !Nat2Z.inj_succ, length_opts_answer. rewrite (proj2 (Z.eqb_eq _ _)) by lia.
    rewrite wrapu_id by (unfold fits; lia). by rewrite Hn, Nat2Z.id, firstn_all.
  - by apply agree_spec.
  - intros Hs. rewrite agree_spec by done. unfold all_agree.
    split; intros H o x y Ho Ex Ey; (apply (H o x y); [done|done|]); [rewrite small_octets_taken|rewrite <- small_octets_taken]; try done;
      exact (proj1 (Forall_forall _ _) Hs o Ho).
Qed.

(** A UE that asks for both servers, with 0.0.0.0 and with the right address. *)
Definition demo_cfg : spgw_app_cfg := mk_spgw_app_cfg 0x08080808 0x04040808 1464 false.
Definition demo_opts : list ipcp_opt := [mk_ipcp_opt 0x81 [0; 0; 0; 0]; mk_ipcp_opt 0x83 [8; 8; 4; 4]].
Definition demo_ipcp : protocol_or_container_id :=
  mk_container PCO_PROTOCOL_IDENTIFIER_IPCP 16 (ipcp_packet 1 7 0 16 demo_opts []).

Lemma ipcp_negotiation_witness :
  process_pco_request_ipcp demo_cfg 20 (mk_pco_t 1 0 0 []) demo_ipcp =
    Val (RETURNok, mk_pco_t 1 0 1 [mk_container PCO_PROTOCOL_IDENTIFIER_IPCP 16
      [IPCP_CODE_CONFIGURE_NACK; 7; 0; 16; 0x81; 6; 8; 8; 8; 8; 0x83; 6; 8; 8; 4; 4]]).
Proof.
  assert (Forall opt_ok demo_opts).
  { repeat constructor; cbn; try lia; (apply Forall_forall; intros x; rewrite !elem_of_cons, elem_of_nil; unfold fits; lia). }
  destruct (ipcp_negotiation demo_cfg (mk_pco_t 1 0 0 []) demo_ipcp 1 7 0 16 demo_opts [] 20) as (ack & E & _ & Hack);
    [reflexivity|by repeat split; vm_compute|reflexivity|done|cbn; lia|cbn; lia|reflexivity|by vm_compute|by vm_compute|].
  rewrite E. assert (ack = false) as ->; [|reflexivity]. apply not_true_is_false. intros Ha. apply Hack in Ha.
  - destruct (Ha (mk_ipcp_opt 0x81 [0; 0; 0; 0]) 0x08080808 [0; 0; 0; 0] ltac:(by left) eq_refl eq_refl) as [E0 _]. discriminate E0.
  - repeat constructor; cbn; lia.
Defined.

(** ** Termination *)
Lemma ipcp_loop_more cfg fuel fuel' s st r :
  (fuel <= fuel')%nat -> ipcp_loop cfg fuel s st = r -> r <> Diverge -> ipcp_loop cfg fuel' s st = r.
Proof.
  revert fuel' st. induction fuel as [|fuel IH]; intros fuel' st Hle E Hr; [by subst r|].
  destruct fuel' as [|fuel']; [lia|]. cbn [ipcp_loop] in *. destruct (2 <=? _); [|done].
  destruct (ipcp_option cfg s st) as [st1| | |]; try done. apply IH; [lia|done..].
Qed.

(** The state the loop starts in. *)
Definition ipcp_start (c : protocol_or_container_id) : ipcp_state :=
  mk_ipcp (u64 (length_of_protocol_id_contents c - 1 - 1 - 2)) 4 INADDR_NONE INADDR_NONE IPCP_CODE_CONFIGURE_ACK
    (1 + 1 + 2) [0; 0; 0; 0].

Lemma ipcp_start_ok c : state_ok (ipcp_start c).
Proof. split; [done|]. by apply wrapu_fits. Qed.

Lemma process_ipcp_long cfg fuel resp c :
  (4 <= length (protocol_id_contents c))%nat ->
  exists k, process_pco_request_ipcp cfg fuel resp c =
    (st ← ipcp_loop cfg fuel (protocol_id_contents c) (ipcp_start c); k st) /\ (forall st, k st <> Diverge) /\
    forall fuel', process_pco_request_ipcp cfg fuel' resp c = (st ← ipcp_loop cfg fuel' (protocol_id_contents c) (ipcp_start c); k st).
Proof.
  intros Hl. unfold process_pco_request_ipcp.
  destruct (protocol_id_contents c) as [|a [|b [|d [|e s]]]]; cbn [length] in Hl; try lia.
  cbn [mbind result_bind string_at lookup list_lookup Z.to_nat Pos.to_nat Pos.iter_op Init.Nat.add].
  eexists. split; [reflexivity|]. split; [|reflexivity]. intros st. unfold pco_push_protocol_or_container_id. by repeat case_match.
Qed.

Lemma process_ipcp_short cfg fuel resp c :
  (length (protocol_id_contents c) < 4)%nat -> process_pco_request_ipcp cfg fuel resp c = Throw out_of_range.
Proof.
  intros Hl. unfold process_pco_request_ipcp.
  destruct (protocol_id_contents c) as [|a [|b [|d [|e s]]]]; cbn [length] in Hl; try lia; done.
Qed.

(** C38 Whether the IPCP negotiation returns, for any octets: as many rounds as
    the packet has octets decide it, and it runs for ever exactly when the
    packet has room for the header and the loop comes to an option that
    announces a length of 0. *)
Theorem ipcp_terminates_iff (cfg : spgw_app_cfg) (resp : protocol_configuration_options_t) (c : protocol_or_container_id)
    (fuel : nat) :
  byte_list (protocol_id_contents c) -> Z.of_nat (length (protocol_id_contents c)) < 2 ^ 32 ->
  (length (protocol_id_contents c) < fuel)%nat ->
  process_pco_request_ipcp cfg fuel resp c = process_pco_request_ipcp cfg (S (length (protocol_id_contents c))) resp c /\
  (process_pco_request_ipcp cfg fuel resp c = Diverge <->
   (4 <= length (protocol_id_contents c))%nat /\
   exists st, rtc (ipcp_step cfg (protocol_id_contents c)) (ipcp_start c) st /\ stuck (protocol_id_contents c) st).
Proof.
  intros Hb Hl Hf. destruct (decide (4 <= length (protocol_id_contents c))%nat) as [H4|H4];
    [|rewrite !process_ipcp_short by lia; split; [done|split; [done|lia]]].
  destruct (process_ipcp_long cfg fuel resp c H4) as (k & E & Hk & E'). rewrite E, E'.
  pose proof (ipcp_start_ok c) as Hok. set (s := protocol_id_contents c) in *. set (st0 := ipcp_start c) in *.
  assert (forall f, (length s < f)%nat -> ipcp_loop cfg f s st0 = Diverge -> exists st, rtc (ipcp_step cfg s) st0 st /\ stuck s st) as Hd.
  { intros f Hf' Ed. apply (ipcp_loop_decided cfg f); [done|done|done|unfold st0; cbn [ipcp_start in_index]; lia|lia|done]. }
  assert (forall f st, rtc (ipcp_step cfg s) st0 st -> stuck s st -> ipcp_loop cfg f s st0 = Diverge) as Hr.
  { intros f st H1 H2. by eapply ipcp_loop_reach. }
  split.
  - destruct (ipcp_loop cfg (S (length s)) s st0) as [st|e| |] eqn:E1;
      try by rewrite (ipcp_loop_more cfg (S (length s)) fuel s st0 _ ltac:(lia) E1).
    destruct (Hd (S (length s)) ltac:(lia) E1) as (st & H1 & H2). by rewrite (Hr fuel st H1 H2).
  - split.
    + intros Hdiv. split; [done|]. apply bind_Diverge_inv in Hdiv as [Hdiv|(st & _ & Hdiv)]; [by apply (Hd fuel)|by apply Hk in Hdiv].
    + intros (_ & st & H1 & H2). by rewrite (Hr fuel st H1 H2).
Qed.

(** A header and an IP-Address option of length 0. *)
Lemma ipcp_terminates_iff_witness :
  let c := mk_container PCO_PROTOCOL_IDENTIFIER_IPCP 6 [1; 7; 0; 6; 3; 0] in
  process_pco_request_ipcp demo_cfg 1000 (mk_pco_t 1 0 0 []) c = Diverge /\ container_wf c.
Proof.
  intros c. split; [|by repeat split; vm_compute].
  apply (ipcp_terminates_iff demo_cfg (mk_pco_t 1 0 0 []) c 1000);
    [by repeat constructor; vm_compute|reflexivity|cbn; lia|]. split; [cbn; lia|].
  exists (ipcp_start c). split; [apply rtc_refl|]. split; [by vm_compute|reflexivity].
Defined.

(** ** The whole request *)
Section Request.
Variable cfg : spgw_app_cfg.

Definition dns_answer : protocol_or_container_id :=
  mk_container PCO_CONTAINER_IDENTIFIER_DNS_SERVER_IPV4_ADDRESS 4 (le_bytes 4 (default_dnsv4 cfg)).
Definition mtu_answer : protocol_or_container_id :=
  mk_container PCO_CONTAINER_IDENTIFIER_IPV4_LINK_MTU 2 (be_bytes 2 (default_ue_mtu_ipv4 cfg)).

(** The containers a container of the request is answered with. *)
Inductive answers (c : protocol_or_container_id) : list protocol_or_container_id -> Prop :=
| answers_ipcp code ident l1 l2 l tail :
    protocol_id c = PCO_PROTOCOL_IDENTIFIER_IPCP -> container_wf c ->
    protocol_id_contents c = ipcp_packet code ident l1 l2 l tail ->
    Forall opt_ok l -> (length tail < 2)%nat -> dns_count l <= 41 -> answers c [ipcp_reply cfg ident l]
| answers_dns : protocol_id c = PCO_CONTAINER_IDENTIFIER_DNS_SERVER_IPV4_ADDRESS_REQUEST -> answers c [dns_answer]
| answers_mtu : protocol_id c = PCO_CONTAINER_IDENTIFIER_IPV4_LINK_MTU_REQUEST -> answers c [mtu_answer]
| answers_none :
    protocol_id c <> PCO_PROTOCOL_IDENTIFIER_IPCP ->
    protocol_id c <> PCO_CONTAINER_IDENTIFIER_DNS_SERVER_IPV4_ADDRESS_REQUEST ->
    protocol_id c <> PCO_CONTAINER_IDENTIFIER_IPV4_LINK_MTU_REQUEST -> answers c [].

Definition requested (id : Z) (l : list protocol_or_container_id) : bool := existsb (fun c => protocol_id c =? id) l.

(** What is pushed unasked. *)
Definition forced (l : list protocol_or_container_id) : list protocol_or_container_id :=
  if force_push_pco cfg then
    (if requested PCO_CONTAINER_IDENTIFIER_DNS_SERVER_IPV4_ADDRESS_REQUEST l then [] else [dns_answer]) ++
    (if requested PCO_CONTAINER_IDENTIFIER_IPV4_LINK_MTU_REQUEST l then [] else [mtu_answer])
  else [].

(** A response with these containers; thirty at most. *)
Definition pco_of (l : list protocol_or_container_id) : protocol_configuration_options_t :=
  let l := take 30 l in mk_pco_t 1 0 (Z.of_nat (length l)) l.

Lemma mtu_octets m : [u8 (Z.shiftr m 8); u8 (Z.land m 255)] = be_bytes 2 m.
Proof.
  unfold be_bytes. cbn [le_bytes rev app]. change 255 with (Z.ones 8). rewrite Z.shiftr_div_pow2, Z.land_ones by lia.
  unfold wrapu. change (2 ^ 8) with 256. by rewrite Z.mod_mod by lia.
Qed.

Lemma dns_answer_wf : container_wf dns_answer.
Proof. repeat split; cbn; try done. Qed.

Lemma mtu_answer_wf : container_wf mtu_answer.
Proof. repeat split; cbn; try done. Qed.

Lemma answers_wf c l : answers c l -> Forall container_wf l.
Proof.
  destruct 1; repeat constructor; try apply dns_answer_wf; try apply mtu_answer_wf; by apply ipcp_reply_wf.
Qed.

Lemma push_answer l c :
  container_wf c -> exists rc, pco_push_protocol_or_container_id (pco_of l) c = Val (rc, pco_of (take 30 l ++ [c])).
Proof.
  intros (_ & _ & Hc). unfold pco_push_protocol_or_container_id, pco_of.
  cbn [pco_core_num pco_core_ids pco_core_ext pco_core_configuration_protocol].
  rewrite (proj2 (Z.eqb_eq _ _)) by lia. pose proof (length_take l 30) as Hl. unfold PCO_UNSPEC_MAXIMUM_PROTOCOL_ID_OR_CONTAINER_ID.
  destruct (30 <=? _) eqn:H30; eexists; do 2 f_equal.
  - rewrite (take_app_le (take 30 l)) by lia. by rewrite take_take, Nat.min_id.
  - rewrite Nat2Z.id, firstn_all. rewrite (take_ge (take 30 l ++ [c])) by (rewrite length_app; cbn [length]; lia).
    rewrite wrapu_id by (unfold fits; lia). rewrite length_app. cbn [length]. f_equal. lia.
Qed.

Lemma pco_of_take l k : pco_of (take 30 l ++ k) = pco_of (l ++ k).
Proof.
  unfold pco_of. assert (take 30 (take 30 l ++ k) = take 30 (l ++ k)) as ->; [|done].
  rewrite !take_app, take_take, Nat.min_id, length_take. f_equal. f_equal. lia.
Qed.

Lemma push_of l c :
  container_wf c -> exists rc, pco_push_protocol_or_container_id (pco_of l) c = Val (rc, pco_of (l ++ [c])).
Proof. intros Hc. destruct (push_answer l c Hc) as [rc E]. exists rc. by rewrite E, pco_of_take. Qed.

Lemma process_dns l : exists rc, process_pco_dns_server_request cfg (pco_of l) = Val (rc, pco_of (l ++ [dns_answer])).
Proof. unfold process_pco_dns_server_request. rewrite address_octets_le. apply push_of, dns_answer_wf. Qed.

Lemma process_mtu l : exists rc, process_pco_link_mtu_request cfg (pco_of l) = Val (rc, pco_of (l ++ [mtu_answer])).
Proof. unfold process_pco_link_mtu_request. rewrite mtu_octets. apply push_of, mtu_answer_wf. Qed.

Lemma process_ipcp_answers fuel l c k :
  protocol_id c = PCO_PROTOCOL_IDENTIFIER_IPCP -> answers c k -> (256 <= fuel)%nat ->
  exists rc, process_pco_request_ipcp cfg fuel (pco_of l) c = Val (rc, pco_of (l ++ k)).
Proof.
  intros Hid Hk Hf. destruct Hk as [code ident l1 l2 ol tail Hi Hw Hc Hok Ht Hn|E|E|E]; try (rewrite E in Hid; discriminate); [|done].
  rewrite (process_ipcp_packet cfg fuel _ c code ident l1 l2 ol tail); try done.
  - rewrite (proj2 (Z.leb_le _ _)) by done. by apply push_of, ipcp_reply_wf.
  - destruct Hw as (_ & H8 & Hlen). unfold fits in H8. lia.
Qed.

(** The flags after the containers [l]. *)
Definition ids_after (l : list protocol_or_container_id) (i : pco_ids_t) : pco_ids_t :=
  mk_pco_ids (requested PCO_PROTOCOL_IDENTIFIER_IPCP l || pi_ipcp i)
    (requested PCO_CONTAINER_IDENTIFIER_DNS_SERVER_IPV4_ADDRESS_REQUEST l || ci_dns_server_ipv4_address_request i)
    (requested PCO_CONTAINER_IDENTIFIER_IP_ADDRESS_ALLOCATION_VIA_NAS_SIGNALLING l || ci_ip_address_allocation_via_nas_signalling i)
    (ci_ipv4_address_allocation_via_dhcpv4 i)
    (requested PCO_CONTAINER_IDENTIFIER_IPV4_LINK_MTU_REQUEST l || ci_ipv4_link_mtu_request i).

Lemma ids_after_cons c l i : ids_after l (ids_after [c] i) = ids_after (c :: l) i.
Proof.
  unfold ids_after, requested. cbn [existsb pi_ipcp ci_dns_server_ipv4_address_request
    ci_ip_address_allocation_via_nas_signalling ci_ipv4_address_allocation_via_dhcpv4 ci_ipv4_link_mtu_request].
  rewrite !orb_false_r. f_equal; rewrite orb_assoc; f_equal; apply orb_comm.
Qed.

Lemma process_container_answers fuel l c k i :
  answers c k -> (256 <= fuel)%nat ->
  process_pco_container cfg fuel c (pco_of l, i) = Val (pco_of (l ++ k), ids_after [c] i).
Proof.
  intros Hk Hf. unfold process_pco_container, ids_after, requested. cbn [existsb]. rewrite !orb_false_r.
  destruct (protocol_id c =? PCO_PROTOCOL_IDENTIFIER_IPCP) eqn:E1.
  { apply Z.eqb_eq in E1. destruct (process_ipcp_answers fuel l c k E1 Hk Hf) as [rc ->]. by rewrite E1. }
  destruct (protocol_id c =? PCO_CONTAINER_IDENTIFIER_DNS_SERVER_IPV4_ADDRESS_REQUEST) eqn:E2.
  { apply Z.eqb_eq in E2. destruct (process_dns l) as [rc ->].
    destruct Hk as [? ? ? ? ? ? E|E|E|_ E _]; [by rewrite E in E2|by rewrite E2|by rewrite E in E2|done]. }
  destruct (protocol_id c =? PCO_CONTAINER_IDENTIFIER_IPV4_LINK_MTU_REQUEST) eqn:E3.
  { apply Z.eqb_eq in E3. destruct (process_mtu l) as [rc ->].
    destruct Hk as [? ? ? ? ? ? E|E|E|_ _ E]; [by rewrite E in E3|by rewrite E in E3|by rewrite E3|done]. }
  apply Z.eqb_neq in E1, E2, E3. assert (k = []) as -> by (by destruct Hk). rewrite app_nil_r.
  by destruct (_ =? PCO_CONTAINER_IDENTIFIER_IP_ADDRESS_ALLOCATION_VIA_NAS_SIGNALLING), i.
Qed.

Lemma process_containers_answers fuel reqs ls l i :
  Forall2 answers reqs ls -> (256 <= fuel)%nat ->
  process_pco_containers cfg fuel reqs (pco_of l, i) = Val (pco_of (l ++ concat ls), ids_after reqs i).
Proof.
  intros H Hf. revert l i. induction H as [|c k reqs ls Hk _ IH]; intros l i.
  - cbn [process_pco_containers concat]. rewrite app_nil_r. by destruct i.
  - cbn [process_pco_containers concat]. rewrite (process_container_answers fuel l c k i) by done.
    cbn [mbind result_bind]. by rewrite IH, <- app_assoc, ids_after_cons.
Qed.

Lemma process_force_answers reqs l :
  process_pco_force cfg (pco_of l, ids_after reqs pco_ids_init) =
  Val (pco_of (l ++ forced reqs),
       mk_pco_ids (requested PCO_PROTOCOL_IDENTIFIER_IPCP reqs)
         (requested PCO_CONTAINER_IDENTIFIER_DNS_SERVER_IPV4_ADDRESS_REQUEST reqs)
         (requested PCO_CONTAINER_IDENTIFIER_IP_ADDRESS_ALLOCATION_VIA_NAS_SIGNALLING reqs || force_push_pco cfg)
         false (requested PCO_CONTAINER_IDENTIFIER_IPV4_LINK_MTU_REQUEST reqs)).
Proof.
  unfold process_pco_force, forced, ids_after, pco_ids_init.
  cbn [pi_ipcp ci_dns_server_ipv4_address_request ci_ip_address_allocation_via_nas_signalling
    ci_ipv4_address_allocation_via_dhcpv4 ci_ipv4_link_mtu_request]. rewrite !orb_false_r.
  destruct (force_push_pco cfg); [|by rewrite app_nil_r, orb_false_r]. rewrite orb_true_r.
  destruct (requested PCO_CONTAINER_IDENTIFIER_DNS_SERVER_IPV4_ADDRESS_REQUEST reqs); cbn [mbind result_bind app];
    [|destruct (process_dns l) as [rc ->]; cbn [mbind result_bind]];
    (destruct (requested PCO_CONTAINER_IDENTIFIER_IPV4_LINK_MTU_REQUEST reqs); cbn [mbind result_bind app]; [by rewrite ?app_nil_r|]).
  - by destruct (process_mtu l) as [rc ->].
  - destruct (process_mtu (l ++ [dns_answer])) as [rc' ->]. cbn [mbind result_bind]. by rewrite <- app_assoc.
Qed.

Lemma forced_wf reqs : Forall container_wf (forced reqs).
Proof.
  pose proof dns_answer_wf. pose proof mtu_answer_wf. unfold forced.
  destruct (force_push_pco cfg); [|done]. apply Forall_app. split; case_match; by repeat constructor.
Qed.

Lemma pco_of_wf l : Forall container_wf l -> core_wf (CorePco (pco_of l)).
Proof.
  intros H. cbn [core_wf pco_of pco_core_ext pco_core_configuration_protocol pco_core_ids pco_core_num].
  split_and!; try done; [by apply Forall_take|]. rewrite length_take. unfold PCO_UNSPEC_MAXIMUM_PROTOCOL_ID_OR_CONTAINER_ID. lia.
Qed.
End Request.

(** C33 The PCO of a Create Session Request, when its containers are ones the PGW
    can read: the negotiation returns, and its response (PPP) is, up to the
    thirty containers it has room for, the answers to the containers of the
    request in their order followed by what the configuration forces on every
    UE; the flags say what was asked.  The response is one that GTPv2-C conveys
    to the peer unchanged. *)
Theorem pco_request_answered (cfg : spgw_app_cfg) (req : protocol_configuration_options_t)
    (ls : list (list protocol_or_container_id)) (fuel : nat) :
  pco_core_configuration_protocol req = PCO_CONFIGURATION_PROTOCOL_PPP_FOR_USE_WITH_IP_PDP_TYPE_OR_IP_PDN_TYPE ->
  pco_core_num req = Z.of_nat (length (pco_core_ids req)) ->
  pco_core_num req <= PCO_UNSPEC_MAXIMUM_PROTOCOL_ID_OR_CONTAINER_ID ->
  Forall2 (answers cfg) (pco_core_ids req) ls -> (256 <= fuel)%nat ->
  let reqs := pco_core_ids req in
  let resp := pco_of (concat ls ++ forced cfg reqs) in
  process_pco_request cfg fuel req (mk_pco_t 0 0 0 []) pco_ids_init =
    Val (resp, mk_pco_ids (requested PCO_PROTOCOL_IDENTIFIER_IPCP reqs)
      (requested PCO_CONTAINER_IDENTIFIER_DNS_SERVER_IPV4_ADDRESS_REQUEST reqs)
      (requested PCO_CONTAINER_IDENTIFIER_IP_ADDRESS_ALLOCATION_VIA_NAS_SIGNALLING reqs || force_push_pco cfg)
      false (requested PCO_CONTAINER_IDENTIFIER_IPV4_LINK_MTU_REQUEST reqs)) /\
  forall j, conveyed j (CorePco resp).
Proof.
  intros Hp Hn Hmax Hans Hf reqs resp. unfold process_pco_request. rewrite Hp, Z.eqb_refl.
  change (mk_pco_t 1 _ 0 _) with (pco_of []). rewrite (proj2 (Z.ltb_ge _ _)) by done.
  unfold pco_request_containers. rewrite Hn, Nat2Z.id, nth_seq_id.
  rewrite (process_containers_answers cfg fuel _ ls) by done. cbn [mbind result_bind app].
  rewrite process_force_answers. split; [done|]. intros j. apply core_conveyed, pco_of_wf, Forall_app. split; [|apply forced_wf].
  apply Forall_concat. clear -Hans. induction Hans as [|c k reqs ls Hk _ IH]; constructor; [by eapply answers_wf|done].
Qed.

(** A UE asking for a DNS server by IPCP, for the MTU and for an address by NAS
    signalling, of a PGW that pushes the DNS server. *)
Definition demo_request_pco : protocol_configuration_options_t :=
  mk_pco_t 1 0 3 [demo_ipcp; mk_container 0x10 0 []; mk_container 0xA 0 []].

Lemma pco_request_answered_witness :
  let cfg := mk_spgw_app_cfg 0x08080808 0x04040808 1464 true in
  process_pco_request cfg 256 demo_request_pco (mk_pco_t 0 0 0 []) pco_ids_init =
  Val (mk_pco_t 1 0 3
         [mk_container PCO_PROTOCOL_IDENTIFIER_IPCP 16
            [IPCP_CODE_CONFIGURE_NACK; 7; 0; 16; 0x81; 6; 8; 8; 8; 8; 0x83; 6; 8; 8; 4; 4];
          mk_container PCO_CONTAINER_IDENTIFIER_IPV4_LINK_MTU 2 [5; 184];
          mk_container PCO_CONTAINER_IDENTIFIER_DNS_SERVER_IPV4_ADDRESS 4 [8; 8; 8; 8]],
       mk_pco_ids true false true false true).
Proof.
  intros cfg. assert (Forall opt_ok demo_opts).
  { repeat constructor; cbn; try lia; (apply Forall_forall; intros x; rewrite !elem_of_cons, elem_of_nil; unfold fits; lia). }
  assert (Forall2 (answers cfg) (pco_core_ids demo_request_pco) [[ipcp_reply cfg 7 demo_opts]; [mtu_answer cfg]; []]) as Ha.
  { constructor; [|constructor; [by apply answers_mtu|constructor; [by apply answers_none|constructor]]].
    apply (answers_ipcp cfg demo_ipcp 1 7 0 16 demo_opts []);
      [reflexivity|repeat split; by vm_compute|reflexivity|done|cbn; lia|by vm_compute]. }
  rewrite (proj1 (pco_request_answered cfg demo_request_pco _ 256 eq_refl eq_refl ltac:(by vm_compute) Ha ltac:(lia))).
  reflexivity.
Defined.

(** ** What the negotiation gets wrong *)

(** A UE that proposes exactly the primary server the PGW is configured with
    is refused, with that same server as the address to use, when one of the
    last three octets of the address is 128 or more and the octets before it are
    not all 255 (192.168.1.53, say): the octets are read as signed characters.
    The UE can propose it again, with the same outcome.  Other addresses are
    acknowledged. *)
Theorem configured_dns_refused (cfg : spgw_app_cfg) (a b c d code ident l1 l2 : Z) (ext num : Z)
    (ids : list protocol_or_container_id) (fuel : nat) :
  byte_list [a; b; c; d] -> default_dnsv4 cfg = le_val [a; b; c; d] -> default_dnsv4 cfg <> INADDR_ANY ->
  num = Z.of_nat (length ids) -> num < PCO_UNSPEC_MAXIMUM_PROTOCOL_ID_OR_CONTAINER_ID -> (10 <= fuel)%nat ->
  process_pco_request_ipcp cfg fuel (mk_pco_t ext 0 num ids)
    (mk_container PCO_PROTOCOL_IDENTIFIER_IPCP 10 [code; ident; l1; l2; 0x81; 6; a; b; c; d]) =
  Val (RETURNok, mk_pco_t ext 0 (num + 1) (ids ++ [mk_container PCO_PROTOCOL_IDENTIFIER_IPCP 10
    [if decide (smeared a b c d = [a; b; c; d]) then IPCP_CODE_CONFIGURE_ACK else IPCP_CODE_CONFIGURE_NACK;
     ident; 0; 10; 0x81; 6; a; b; c; d]])).
Proof.
  intros Hb Hd H0 Hn H30 Hf. set (o := mk_ipcp_opt 0x81 [a; b; c; d]).
  assert (Forall opt_ok [o]) as Hok by (constructor; [split; [done|split; [done|cbn; lia]]|constructor]).
  rewrite (process_ipcp_packet cfg fuel _ _ code ident l1 l2 [o] []); try done; try (cbn; lia).
  change (dns_count [o] <=? 41) with true. cbn [negb].
  pose proof Hb as Hb4. unfold byte_list in Hb4. rewrite !Forall_cons in Hb4. destruct Hb4 as (Ha & Hb' & Hc & Hd' & _).
  pose proof (ipcp_address_smeared a b c d Ha Hb' Hc Hd') as Ea.
  assert (byte_list (smeared a b c d)) as Hsm.
  { unfold byte_list, smeared. rewrite !Forall_cons. assert (fits 8 255) by done. split_and!; try case_match; done. }
  assert (forallb (opt_agrees cfg) [o] = bool_decide (smeared a b c d = [a; b; c; d])) as Hag.
  { cbn [forallb]. rewrite andb_true_r. unfold opt_agrees, opt_configured, opt_address. cbn [o_type o_data o].
    change (129 =? IPCP_OPTION_PRIMARY_DNS_SERVER_IP_ADDRESS) with true. cbn match. rewrite Ea, Hd. symmetry.
    destruct (decide (smeared a b c d = [a; b; c; d])) as [E|E].
    - rewrite bool_decide_eq_true_2 by done. rewrite E, Z.eqb_refl. symmetry. apply negb_true_iff, Z.eqb_neq. by rewrite <- Hd.
    - rewrite bool_decide_eq_false_2 by done. symmetry. apply andb_false_iff. left. apply Z.eqb_neq. intros E'.
      apply E. rewrite <- (le_bytes_val _ Hsm), <- (le_bytes_val _ Hb), E'. done. }
  unfold pco_push_protocol_or_container_id, ipcp_reply. cbn [pco_core_num pco_core_ids pco_core_ext pco_core_configuration_protocol].
  rewrite (proj2 (Z.leb_gt _ _)) by done. change (dns_count [o]) with 1.
  assert (opts_answer cfg INADDR_NONE INADDR_NONE [o] = [0x81; 6; a; b; c; d]) as ->.
  { cbn [opts_answer o o_type opt_address o_data]. change (129 =? IPCP_OPTION_PRIMARY_DNS_SERVER_IP_ADDRESS) with true.
    cbn iota. rewrite Hd, app_nil_r. change 4%nat with (length [a; b; c; d]). by rewrite (le_bytes_val _ Hb). }
  cbn [app]. rewrite Hag. cbn [length_of_protocol_id_contents protocol_id_contents length]. change (4 + 6 * 1) with 10.
  change (10 =? Z.of_nat 10) with true. cbn iota. unfold PCO_UNSPEC_MAXIMUM_PROTOCOL_ID_OR_CONTAINER_ID in H30.
  rewrite wrapu_id by (unfold fits; lia). rewrite Hn, Nat2Z.id, firstn_all. destruct (decide (smeared a b c d = [a; b; c; d])).
  - by rewrite bool_decide_eq_true_2.
  - by rewrite bool_decide_eq_false_2.
Qed.

Lemma configured_dns_refused_witness :
  process_pco_request_ipcp (mk_spgw_app_cfg (le_val [192; 168; 1; 53]) 0 1464 false) 10 (mk_pco_t 1 0 0 [])
    (mk_container PCO_PROTOCOL_IDENTIFIER_IPCP 10 [1; 1; 0; 10; 0x81; 6; 192; 168; 1; 53]) =
  Val (RETURNok, mk_pco_t 1 0 1 [mk_container PCO_PROTOCOL_IDENTIFIER_IPCP 10
    [IPCP_CODE_CONFIGURE_NACK; 1; 0; 10; 0x81; 6; 192; 168; 1; 53]]).
Proof.
  apply (configured_dns_refused (mk_spgw_app_cfg (le_val [192; 168; 1; 53]) 0 1464 false) 192 168 1 53 1 1 0 10 1 0 [] 10);
    [repeat constructor; by vm_compute|reflexivity|by vm_compute|reflexivity|reflexivity|lia].
Defined.

(** The flag that a UE prefers DHCPv4, on which the allocation of its address
    depends, is never raised. *)
Lemma dhcpv4_preference_ignored cfg fuel req resp ids resp' ids' :
  process_pco_request cfg fuel req resp ids = Val (resp', ids') ->
  ci_ipv4_address_allocation_via_dhcpv4 ids' = ci_ipv4_address_allocation_via_dhcpv4 ids.
Proof.
  unfold process_pco_request. case_match; [done|]. intros E. apply bind_Val_inv in E as ([resp1 ids1] & E1 & E2).
  transitivity (ci_ipv4_address_allocation_via_dhcpv4 ids1).
  - unfold process_pco_force in E2. case_match; [|by simplify_eq].
    apply bind_Val_inv in E2 as (? & _ & E2). apply bind_Val_inv in E2 as (? & _ & E2). by simplify_eq.
  - clear E2. revert E1. generalize (if pco_core_configuration_protocol req =? PCO_CONFIGURATION_PROTOCOL_PPP_FOR_USE_WITH_IP_PDP_TYPE_OR_IP_PDN_TYPE
      then mk_pco_t 1 (pco_core_configuration_protocol req) 0 (pco_core_ids resp) else resp) as r0.
    generalize (pco_request_containers req) as l. intros l. revert ids. induction l as [|c l IH]; intros ids r0 E1; [by simplify_eq/=|].
    cbn [process_pco_containers] in E1. apply bind_Val_inv in E1 as ([r1 i1] & E & E1). rewrite (IH i1 r1 E1).
    unfold process_pco_container in E. repeat case_match; try (apply bind_Val_inv in E as ([? ?] & _ & E)); by simplify_eq.
Qed.
