(* ===== verification/GtpMsg.v ===== *)
(** * GTPv2-C messages

    [src/gtpv2c/3gpp_29.274.hpp]: [gtpv2c_msg_header] and [gtpv2c_msg] (setters,
    [add_ie], [dump_to], [load_from], [to_core_type]).  The
    [message_length] of the header counts what follows its first four
    octets. *)
From S2P Require Import Prelude PaaDynamic Stream GtpTlv GtpScalar GtpIdentity GtpQos GtpLocation GtpAddress GtpOptions GtpIe GtpCore.
From Stdlib Require Import ZArith Lia.
From stdpp Require Import base numbers tactics list.
Open Scope Z_scope.

(** ** The header *)
Record gtpv2c_msg_header := mk_gtpv2c_header {
  gh_mp : Z;                 (* u1.bf above its two spare bits *)
  gh_t : Z;
  gh_p : Z;
  gh_version : Z;
  gh_spare1 : Z;
  gh_message_type : Z;
  gh_message_length : Z;
  gh_teid : Z;
  gh_sequence_number : Z;
  gh_spare2 : Z;             (* u2.bf *)
  gh_message_priority : Z;
}.

Definition gtpv2c_msg_header_init : gtpv2c_msg_header := mk_gtpv2c_header 0 0 0 2 0 0 (3 + 1) 0 0 0 0.

Definition set_teid (tid : Z) (h : gtpv2c_msg_header) : gtpv2c_msg_header :=
  let len := if gh_t h =? 0 then u16 (gh_message_length h + 4) else gh_message_length h in
  mk_gtpv2c_header (gh_mp h) 1 (gh_p h) (gh_version h) (gh_spare1 h) (gh_message_type h) len tid
    (gh_sequence_number h) (gh_spare2 h) (gh_message_priority h).
Definition has_teid (h : gtpv2c_msg_header) : bool := gh_t h =? 1.
Definition gtp_set_message_type (t : Z) (h : gtpv2c_msg_header) : gtpv2c_msg_header :=
  mk_gtpv2c_header (gh_mp h) (gh_t h) (gh_p h) (gh_version h) (gh_spare1 h) t (gh_message_length h) (gh_teid h)
    (gh_sequence_number h) (gh_spare2 h) (gh_message_priority h).
Definition gtp_set_message_length (l : Z) (h : gtpv2c_msg_header) : gtpv2c_msg_header :=
  mk_gtpv2c_header (gh_mp h) (gh_t h) (gh_p h) (gh_version h) (gh_spare1 h) (gh_message_type h) (u16 l) (gh_teid h)
    (gh_sequence_number h) (gh_spare2 h) (gh_message_priority h).
Definition gtp_set_sequence_number (s : Z) (h : gtpv2c_msg_header) : gtpv2c_msg_header :=
  mk_gtpv2c_header (gh_mp h) (gh_t h) (gh_p h) (gh_version h) (gh_spare1 h) (gh_message_type h) (gh_message_length h)
    (gh_teid h) (Z.land s 16777215) (gh_spare2 h) (gh_message_priority h).

Definition gtp_u1 (h : gtpv2c_msg_header) : Z :=
  bf_pack [(2, gh_spare1 h); (1, gh_mp h); (1, gh_t h); (1, gh_p h); (3, gh_version h)].
Definition gtp_u2 (h : gtpv2c_msg_header) : Z := bf_pack [(4, gh_spare2 h); (4, gh_message_priority h)].

(** [dump_to] changes the object on the way: spare bits first, the MP flag of a
    message without TEID after its octet has been written, then the priority
    of a message without MP flag. *)
Definition gtp_clear_spare (h : gtpv2c_msg_header) : gtpv2c_msg_header :=
  mk_gtpv2c_header (gh_mp h) (gh_t h) (gh_p h) (gh_version h) 0 (gh_message_type h) (gh_message_length h) (gh_teid h)
    (gh_sequence_number h) 0 (gh_message_priority h).
Definition gtp_clear_mp (h : gtpv2c_msg_header) : gtpv2c_msg_header :=
  mk_gtpv2c_header 0 (gh_t h) (gh_p h) (gh_version h) (gh_spare1 h) (gh_message_type h) (gh_message_length h) (gh_teid h)
    (gh_sequence_number h) (gh_spare2 h) (gh_message_priority h).
Definition gtp_clear_priority (h : gtpv2c_msg_header) : gtpv2c_msg_header :=
  mk_gtpv2c_header (gh_mp h) (gh_t h) (gh_p h) (gh_version h) (gh_spare1 h) (gh_message_type h) (gh_message_length h) (gh_teid h)
    (gh_sequence_number h) (gh_spare2 h) 0.

Definition gtpv2c_header_dump_to (h : gtpv2c_msg_header) : list Z * gtpv2c_msg_header :=
  let h := gtp_clear_spare h in
  let b1 := [gtp_u1 h] ++ [gh_message_type h] ++ be_bytes 2 (gh_message_length h) in
  let '(b2, h) := if gh_t h =? 0 then ([], gtp_clear_mp h) else (be_bytes 4 (gh_teid h), h) in
  let b3 := sn_bytes (gh_sequence_number h) in
  let h := if gh_mp h =? 0 then gtp_clear_priority h else h in
  (b1 ++ b2 ++ b3 ++ [gtp_u2 h], h).

Definition gtpv2c_header_load_from (h : gtpv2c_msg_header) (ins : istream)
  : result gtpc_exn (gtpv2c_msg_header * istream) :=
  let '(b1, ins) := read_u8 (gtp_u1 h) ins in
  let '(ty, ins) := read_u8 (gh_message_type h) ins in
  let '(len, ins) := read_be 2 (gh_message_length h) ins in
  let '(teid, ins) := if bf_field 3 1 b1 =? 0 then (0, ins) else read_be 4 (gh_teid h) ins in
  '(sn, ins) ← read_exact 3 ins;
  let '(b2, ins) := read_u8 (gtp_u2 h) ins in
  Val (mk_gtpv2c_header (bf_field 2 1 b1) (bf_field 3 1 b1) (bf_field 4 1 b1) (bf_field 5 3 b1) (bf_field 0 2 b1)
         ty len teid (sn_val sn) (bf_field 0 4 b2) (bf_field 4 4 b2), ins).

(** ** The message *)
Record gtpv2c_msg := mk_gtpv2c_msg { ghdr : gtpv2c_msg_header; gremote_port : Z; gies : list gtpv2c_ie }.

Definition gtpv2c_msg_init : gtpv2c_msg := mk_gtpv2c_msg gtpv2c_msg_header_init 0 [].

Definition gtp_map_header (f : gtpv2c_msg_header -> gtpv2c_msg_header) (m : gtpv2c_msg) : gtpv2c_msg :=
  mk_gtpv2c_msg (f (ghdr m)) (gremote_port m) (gies m).

Definition gtp_add_ie (i : gtpv2c_ie) (m : gtpv2c_msg) : gtpv2c_msg :=
  mk_gtpv2c_msg
    (gtp_set_message_length (gh_message_length (ghdr m) + gtpv2c_tlv_ie_length + t_length (tlv_of_ie i)) (ghdr m))
    (gremote_port m) (gies m ++ [i]).

Definition gtpv2c_msg_dump_to (m : gtpv2c_msg) : result gtpc_exn (list Z * gtpv2c_msg) :=
  let '(b, h) := gtpv2c_header_dump_to (ghdr m) in
  '(bs, l) ← dump_all gtpv2c_ie_dump_to (gies m);
  Val (b ++ bs, mk_gtpv2c_msg h (gremote_port m) l).

(** The [do ... while] of [load_from]; [ies_length] is a [uint16_t]. *)
Fixpoint msg_ies_loop (fuel : nat) (new_ie : istream -> result gtpc_exn (option gtpv2c_ie * istream))
    (check_msg_length ies_length : Z) (l : list gtpv2c_ie) (ins : istream)
  : result gtpc_exn (Z * list gtpv2c_ie * istream) :=
  match fuel with
  | O => Diverge
  | S fuel =>
    '(oi, ins) ← new_ie ins;
    match oi with
    | Some i =>
      let ies_length := u16 (ies_length + (gtpv2c_tlv_ie_length + t_length (tlv_of_ie i))) in
      if ies_length <? check_msg_length
      then msg_ies_loop fuel new_ie check_msg_length ies_length (l ++ [i]) ins
      else Val (ies_length, l ++ [i], ins)
    | None => Val (ies_length, l, ins)
    end
  end.

Definition gtpv2c_msg_load_from (fuel : nat) (m : gtpv2c_msg) (ins : istream)
  : result gtpc_exn (gtpv2c_msg * istream) :=
  '(h, ins) ← gtpv2c_header_load_from (ghdr m) ins;
  let check := u16 (gh_message_length h - 3 - 1) in
  let check := if has_teid h then u16 (check - 4) else check in
  '(n, l, ins) ← msg_ies_loop fuel (new_gtpv2c_ie_from_stream fuel) check 0 (gies m) ins;
  if n =? check then Val (mk_gtpv2c_msg h (gremote_port m) l, ins)
  else Throw (gtpc_msg_bad_length_exception (gh_message_type h) (gh_message_length h)).

(** [to_core_type] of a message: the calls of [set] on its container. *)
Fixpoint gtpv2c_msg_to_core (l : list gtpv2c_ie) : result gtpc_exn (list (Z * gtpv2c_core)) :=
  match l with
  | [] => Val []
  | i :: l => c ← ie_to_core i; cs ← gtpv2c_msg_to_core l; Val ((tlv_get_instance (tlv_of_ie i), c) :: cs)
  end.

(** ** Well-formed headers and messages *)
Record gtpv2c_header_wf (h : gtpv2c_msg_header) : Prop := {
  ghw_mp : fits 1 (gh_mp h);
  ghw_t : fits 1 (gh_t h);
  ghw_p : fits 1 (gh_p h);
  ghw_version : fits 3 (gh_version h);
  ghw_length : fits 16 (gh_message_length h);
  ghw_teid : fits 32 (gh_teid h);
  ghw_no_teid : gh_t h = 0 -> gh_teid h = 0;
  ghw_sn : fits 24 (gh_sequence_number h);
  ghw_prio : fits 4 (gh_message_priority h);
}.

Definition gtp_header_clean (h : gtpv2c_msg_header) : Prop :=
  gh_spare1 h = 0 /\ gh_spare2 h = 0 /\ (gh_t h = 0 -> gh_mp h = 0) /\ (gh_mp h = 0 -> gh_message_priority h = 0).

Definition gtp_header_size (h : gtpv2c_msg_header) : Z := if gh_t h =? 0 then 8 else 12.

Lemma gtp_header_dump_clean h :
  gtp_header_clean h ->
  gtpv2c_header_dump_to h =
  ([gtp_u1 h; gh_message_type h] ++ be_bytes 2 (gh_message_length h) ++
   (if gh_t h =? 0 then [] else be_bytes 4 (gh_teid h)) ++ sn_bytes (gh_sequence_number h) ++ [gtp_u2 h], h).
Proof.
  intros (H1 & H2 & H3 & H4). destruct h. unfold gtpv2c_header_dump_to, gtp_clear_spare, gtp_clear_mp, gtp_clear_priority.
  cbn [gh_mp gh_t gh_p gh_version gh_spare1 gh_message_type gh_message_length gh_teid gh_sequence_number gh_spare2
       gh_message_priority] in *.
  subst. destruct (Z.eqb_spec gh_t0 0) as [->|Ht].
  - rewrite (H3 eq_refl), (H4 (H3 eq_refl)). cbn [gh_mp]. done.
  - cbn [gh_mp]. destruct (Z.eqb_spec gh_mp0 0) as [->|Hm]; [|done]. by rewrite (H4 eq_refl).
Qed.

Lemma gtp_u1_fields h :
  gtpv2c_header_wf h -> gh_spare1 h = 0 ->
  let b := gtp_u1 h in
  bf_field 0 2 b = 0 /\ bf_field 2 1 b = gh_mp h /\ bf_field 3 1 b = gh_t h /\ bf_field 4 1 b = gh_p h /\
  bf_field 5 3 b = gh_version h.
Proof.
  intros H Hsp. unfold gtp_u1. rewrite Hsp.
  pose proof (ghw_mp _ H). pose proof (ghw_t _ H). pose proof (ghw_p _ H). pose proof (ghw_version _ H).
  split_and!; bf_simpl; done.
Qed.

Lemma gtp_header_load_clean h h0 rest :
  gtpv2c_header_wf h -> gtp_header_clean h ->
  gtpv2c_header_load_from h0 (istream_of ((gtpv2c_header_dump_to h).1 ++ rest)) = Val (h, istream_of rest).
Proof.
  intros H Hc. rewrite gtp_header_dump_clean by done. destruct Hc as (H1 & H2 & H3 & H4).
  destruct (gtp_u1_fields h H H1) as (E1 & E2 & E3 & E4 & E5).
  assert (bf_field 0 4 (gtp_u2 h) = 0 /\ bf_field 4 4 (gtp_u2 h) = gh_message_priority h) as [E6 E7].
  { pose proof (ghw_prio _ H). unfold gtp_u2. rewrite H2. split; bf_simpl; done. }
  pose proof (ghw_no_teid _ H) as Hn.
  cbn [fst]. unfold gtpv2c_header_load_from. stream_norm.
  do 2 stream_step done. stream_step ltac:(apply (ghw_length _ H)). rewrite E3.
  destruct (Z.eqb_spec (gh_t h) 0) as [Ht|Ht]; stream_norm; [|stream_step ltac:(apply (ghw_teid _ H))];
    (rewrite (read_exact_app 3) by done); cbn [mbind result_bind]; stream_norm; stream_step done;
    rewrite E1, E2, E4, E5, E6, E7, sn_roundtrip by apply (ghw_sn _ H); destruct h; simpl in *; by subst; rewrite ?Hn by done.
Qed.

(** [dump_to] leaves a clean object. *)
Lemma gtp_header_dump_object h :
  gtpv2c_header_wf h -> (gh_t h = 0 -> gh_mp h = 0) ->
  let h' := (gtpv2c_header_dump_to h).2 in
  gtpv2c_header_wf h' /\ gtp_header_clean h' /\ (gtpv2c_header_dump_to h).1 = (gtpv2c_header_dump_to h').1 /\ gh_t h' = gh_t h.
Proof.
  intros [? ? ? ? ? ? ? ? ?] Hm. destruct h.
  unfold gtpv2c_header_dump_to, gtp_clear_spare, gtp_clear_mp, gtp_clear_priority, gtp_header_clean.
  cbn [gh_mp gh_t gh_p gh_version gh_spare1 gh_message_type gh_message_length gh_teid gh_sequence_number gh_spare2
       gh_message_priority] in *.
  destruct (Z.eqb_spec gh_t0 0) as [->|Ht]; cbn [gh_mp]; [rewrite (Hm eq_refl) in *; cbn [Z.eqb]|destruct (Z.eqb_spec gh_mp0 0) as [->|?]];
    cbn [fst snd gh_mp gh_t gh_p gh_version gh_spare1 gh_message_type gh_message_length gh_teid gh_sequence_number gh_spare2
       gh_message_priority]; (split; [by split|]); (split; [by repeat split|]); rewrite ?Z.eqb_refl;
    apply Z.eqb_neq in Ht || idtac; rewrite ?Ht; cbn [gh_mp fst]; rewrite ?Z.eqb_refl; try done.
  all: apply Z.eqb_neq in n; by rewrite n.
Qed.

Lemma length_gtp_header h : gtp_header_clean h -> Z.of_nat (length (gtpv2c_header_dump_to h).1) = gtp_header_size h.
Proof.
  intros H. rewrite gtp_header_dump_clean by done. unfold gtp_header_size. cbn [fst].
  rewrite !length_app, length_be_bytes. destruct (gh_t h =? 0); rewrite ?length_be_bytes; done.
Qed.

(** A GTPv2-C header survives the wire: loading what dump_to wrote gives
    back the object dump_to left (spare bits cleared, and the priority of a
    message without MP flag), on 8 octets without a TEID and 12 with one. *)
Theorem gtpv2c_header_roundtrip (h h0 : gtpv2c_msg_header) (rest : list Z) :
  gtpv2c_header_wf h -> (gh_t h = 0 -> gh_mp h = 0) ->
  let '(b, h') := gtpv2c_header_dump_to h in
  gtpv2c_header_load_from h0 (istream_of (b ++ rest)) = Val (h', istream_of rest) /\
  Z.of_nat (length b) = gtp_header_size h.
Proof.
  intros Hw Hm. destruct (gtp_header_dump_object h Hw Hm) as (Hw' & Hc & E & Et).
  destruct (gtpv2c_header_dump_to h) as [b h'] eqn:Ed. cbn [fst snd] in *. subst b.
  split; [by apply gtp_header_load_clean|]. rewrite length_gtp_header by done.
  unfold gtp_header_size. by rewrite Et.
Qed.

Lemma gtpv2c_header_roundtrip_witness :
  let h := gtp_set_sequence_number 16909060 (set_teid 4294967295 (gtp_set_message_type 32 gtpv2c_msg_header_init)) in
  let '(b, h') := gtpv2c_header_dump_to h in
  gtpv2c_header_load_from gtpv2c_msg_header_init (istream_of (b ++ [9])) = Val (h', istream_of [9]) /\
  Z.of_nat (length b) = 12.
Proof.
  intros h. apply (gtpv2c_header_roundtrip h); [|done]. split; vm_compute; intuition congruence.
Defined.

(** An MP flag without TEID is written, then cleared in the object only. *)
Lemma mp_without_teid :
  let h := mk_gtpv2c_header 1 0 0 2 0 1 4 0 0 0 9 in
  let '(b, h') := gtpv2c_header_dump_to h in
  exists h'', gtpv2c_header_load_from gtpv2c_msg_header_init (istream_of b) = Val (h'', istream_of []) /\
    gh_mp h' = 0 /\ gh_mp h'' = 1.
Proof. eexists. split; [reflexivity|]. done. Qed.

(** ** Messages *)
Definition gtp_len_ok (m : gtpv2c_msg) : Prop :=
  gh_message_length (ghdr m) = gtp_header_size (ghdr m) - 4 + ies_length (gies m).

Record gtpv2c_msg_wf (m : gtpv2c_msg) : Prop := {
  gmw_header : gtpv2c_header_wf (ghdr m);
  gmw_clean : gtp_header_clean (ghdr m);
  gmw_length : gtp_len_ok m;
  gmw_ies : Forall ie_wf (gies m);
}.

Lemma ies_length_app l k : ies_length (l ++ k) = ies_length l + ies_length k.
Proof.
  induction l as [|i l IH]; [done|].
  change (4 + t_length (tlv_of_ie i) + ies_length (l ++ k) = 4 + t_length (tlv_of_ie i) + ies_length l + ies_length k). lia.
Qed.

(** The loop reads exactly the elements, when there is one. *)
Lemma msg_ies_loop_spec fuel rest l : forall n b l' acc len,
  Forall ie_wf l -> Forall (parses fuel) l -> l <> [] -> (length l <= n)%nat ->
  dump_all gtpv2c_ie_dump_to l = Val (b, l') -> 0 <= len -> len + ies_length l < 2 ^ 16 ->
  msg_ies_loop n (new_gtpv2c_ie_from_stream fuel) (len + ies_length l) len acc (istream_of (b ++ rest)) =
  Val (len + ies_length l, acc ++ l, istream_of rest).
Proof.
  induction l as [|i l IH]; intros n b l' acc len Hw Hp Hne Hn Hd H0 Hlen; [done|].
  destruct n as [|n]; [simpl in Hn; lia|]. inversion_clear Hw as [|? ? Hi Hl].
  inversion_clear Hp as [|? ? (bi & i' & E1 & E2 & E3) Hp'].
  cbn [dump_all] in Hd. rewrite E1 in Hd. cbn [mbind result_bind] in Hd.
  destruct (dump_all gtpv2c_ie_dump_to l) as [[bs ls]| | |] eqn:Ed; try done. injection Hd as <- <-.
  change (ies_length (i :: l)) with (gtpv2c_tlv_ie_length + t_length (tlv_of_ie i) + ies_length l) in *.
  pose proof (ie_wf_length i Hi). pose proof (ies_length_nonneg l Hl).
  cbn [msg_ies_loop]. rewrite <- app_assoc, E3. cbn [mbind result_bind].
  rewrite wrapu_id by (unfold fits, gtpv2c_tlv_ie_length in *; lia).
  replace (len + (gtpv2c_tlv_ie_length + t_length (tlv_of_ie i) + ies_length l))
    with (len + (gtpv2c_tlv_ie_length + t_length (tlv_of_ie i)) + ies_length l) by lia.
  destruct (decide (l = [])) as [->|Hne'].
  - injection Ed as <- <-. change (ies_length []) with 0. by rewrite Z.add_0_r, Z.ltb_irrefl.
  - replace (_ <? _) with true.
    + rewrite (IH n bs ls) by (done || (simpl in Hn; unfold gtpv2c_tlv_ie_length in *; lia)). by rewrite <- app_assoc.
    + symmetry. apply Z.ltb_lt. destruct l as [|i2 l2]; [done|].
      inversion_clear Hl as [|? ? Hi2 Hl2]. apply ie_wf_length in Hi2. apply ies_length_nonneg in Hl2.
      change (ies_length (i2 :: l2)) with (4 + t_length (tlv_of_ie i2) + ies_length l2) in *. lia.
Qed.

Lemma msg_wf_ies fuel m :
  gtpv2c_msg_wf m -> (ies_size (gies m) < fuel)%nat -> all_parse fuel (gies m) /\ Forall (parses fuel) (gies m).
Proof.
  intros Hw Hf. destruct (ies_size_bound (gies m)) as [_ Hs].
  assert (Forall (parses fuel) (gies m)) as Hp.
  { apply Forall_forall. intros i Hi. pose proof (gmw_ies m Hw) as Hi'. rewrite Forall_forall in Hs, Hi'.
    apply wf_parses; [|by apply Hi']. specialize (Hs i Hi). simpl in Hs. lia. }
  split; [|done]. apply all_parse_of; [apply (gmw_ies m Hw)|done].
Qed.

(** The octets [load_from] expects after the header. *)
Lemma check_length m :
  gtpv2c_msg_wf m -> 0 <= ies_length (gies m) ->
  (if has_teid (ghdr m) then u16 (u16 (gh_message_length (ghdr m) - 3 - 1) - 4)
   else u16 (gh_message_length (ghdr m) - 3 - 1)) = ies_length (gies m).
Proof.
  intros Hw H0. pose proof (gmw_length m Hw) as Hl. unfold gtp_len_ok, gtp_header_size in Hl.
  pose proof (ghw_length _ (gmw_header m Hw)) as Hf. pose proof (ghw_t _ (gmw_header m Hw)) as Ht. unfold has_teid.
  unfold fits in *. destruct (Z.eqb_spec (gh_t (ghdr m)) 0) as [E0|E0].
  - rewrite E0. cbn [Z.eqb]. rewrite wrapu_id; unfold fits; lia.
  - replace (gh_t (ghdr m) =? 1) with true by (symmetry; apply Z.eqb_eq; lia).
    rewrite (wrapu_id 16 (gh_message_length _ - _ - _)) by (unfold fits; lia). rewrite wrapu_id; unfold fits; lia.
Qed.

(** The factory on an exhausted stream. *)
Lemma new_ie_empty fuel : exists ins, is_data ins = [] /\
  new_gtpv2c_ie_from_stream (S fuel) (istream_of []) = Val (None, ins).
Proof. eexists. split; [|reflexivity]. reflexivity. Qed.

Lemma msg_wf_load fuel m port rest :
  gtpv2c_msg_wf m -> (ies_size (gies m) < fuel)%nat -> (gies m <> [] \/ rest = []) ->
  exists b m' ins, gtpv2c_msg_dump_to m = Val (b, m') /\
    Z.of_nat (length b) = 4 + gh_message_length (ghdr m) /\
    gtpv2c_msg_load_from fuel (mk_gtpv2c_msg gtpv2c_msg_header_init port []) (istream_of (b ++ rest)) =
      Val (mk_gtpv2c_msg (ghdr m) port (gies m), ins) /\ is_data ins = rest.
Proof.
  intros Hw Hf Hr. destruct (msg_wf_ies fuel m Hw Hf) as [(bs & l' & E1 & E2 & _) Hp].
  pose proof (ies_length_nonneg _ (gmw_ies m Hw)) as H0. pose proof (gmw_length m Hw) as Hl.
  pose proof (ghw_length _ (gmw_header m Hw)) as H16.
  assert (ies_length (gies m) < 2 ^ 16) as Hlt by (unfold gtp_len_ok, gtp_header_size, fits in *; case_match; lia).
  pose proof (gtp_header_load_clean (ghdr m) gtpv2c_msg_header_init (bs ++ rest) (gmw_header m Hw) (gmw_clean m Hw)) as Hh.
  pose proof (length_gtp_header _ (gmw_clean m Hw)) as Hhl.
  unfold gtpv2c_msg_dump_to, gtpv2c_msg_load_from. destruct (gtpv2c_header_dump_to (ghdr m)) as [bh h'] eqn:Eh.
  cbn [fst] in Hh, Hhl. rewrite E1. cbn [mbind result_bind].
  assert (exists ins, msg_ies_loop fuel (new_gtpv2c_ie_from_stream fuel) (ies_length (gies m)) 0 [] (istream_of (bs ++ rest)) =
    Val (ies_length (gies m), gies m, ins) /\ is_data ins = rest) as (ins & EL & Ei).
  { destruct (decide (gies m = [])) as [En|Hne].
    - rewrite En in *. injection E1 as <- <-. destruct Hr as [Hr| ->]; [done|]. destruct fuel as [|fuel]; [lia|].
      destruct (new_ie_empty fuel) as (ins & Ei & En'). exists ins. cbn [msg_ies_loop app]. rewrite En'. done.
    - exists (istream_of rest). split; [|done].
      refine (msg_ies_loop_spec fuel rest (gies m) fuel bs l' [] 0 _ _ _ _ _ _ _); try done; try apply (gmw_ies m Hw); try lia.
      pose proof (proj1 (ies_size_bound (gies m))). lia. }
  exists (bh ++ bs), (mk_gtpv2c_msg h' (gremote_port m) l'), ins. split; [done|].
  split; [rewrite length_app, Nat2Z.inj_add, Hhl, E2, Hl; lia|].
  split; [|done]. cbn [ghdr gies gremote_port]. rewrite <- app_assoc, Hh. cbn [mbind result_bind].
  rewrite check_length by done. rewrite EL. cbn [mbind result_bind]. by rewrite Z.eqb_refl.
Qed.

(** ** Building a message: what the constructors and the stack call *)
Inductive gtp_build_op :=
| OpSetMessageType (t : Z)
| OpSetTeid (tid : Z)
| OpSetSequenceNumber (s : Z)
| OpAddIe (i : gtpv2c_ie).

Definition gtp_build_step (m : gtpv2c_msg) (op : gtp_build_op) : gtpv2c_msg :=
  match op with
  | OpSetMessageType t => gtp_map_header (gtp_set_message_type t) m
  | OpSetTeid tid => gtp_map_header (set_teid tid) m
  | OpSetSequenceNumber s => gtp_map_header (gtp_set_sequence_number s) m
  | OpAddIe i => gtp_add_ie i m
  end.
Definition gtp_build (ops : list gtp_build_op) : gtpv2c_msg := foldl gtp_build_step gtpv2c_msg_init ops.

Definition build_op_ok (op : gtp_build_op) : Prop :=
  match op with OpSetTeid tid => fits 32 tid | OpAddIe i => ie_wf i | _ => True end.
Definition build_ies (ops : list gtp_build_op) : list gtpv2c_ie :=
  omap (fun op => match op with OpAddIe i => Some i | _ => None end) ops.

Lemma build_step_wf m op :
  gtpv2c_msg_wf m -> build_op_ok op -> 8 + ies_length (gies (gtp_build_step m op)) < 2 ^ 16 ->
  gtpv2c_msg_wf (gtp_build_step m op).
Proof.
  intros [[? ? ? ? Hlen ? ? ? ?] (? & ? & Hc & ?) Hl Hi] Hop Hb. unfold gtp_len_ok, gtp_header_size in Hl.
  destruct m as [h port l]. cbn [ghdr gies] in *.
  pose proof (ies_length_nonneg l Hi) as Hnn.
  destruct op as [t|tid|s|i]; cbn [gtp_build_step build_op_ok] in *.
  - split; [by split|done|done|done].
  - unfold gtp_map_header, set_teid in *. cbn [ghdr gies gremote_port] in *.
    split; [split| | |]; unfold gtp_header_clean, gtp_len_ok, gtp_header_size;
      cbn [gh_mp gh_t gh_p gh_version gh_spare1 gh_message_type gh_message_length gh_teid gh_sequence_number gh_spare2
           gh_message_priority ghdr gies] in *; try done.
    + case_match; [apply wrapu_fits; lia|done].
    + rewrite Hl. change (1 =? 0) with false. cbn match.
      case_match; [rewrite wrapu_id; unfold fits; lia|done].
  - split; [split|done|done|done]; cbn; try done. change 16777215 with (Z.ones 24).
    rewrite Z.land_ones by lia. apply Z.mod_pos_bound. lia.
  - unfold gtp_add_ie in *. cbn [ghdr gies gremote_port] in *. rewrite ies_length_app in Hb.
    assert (ies_length [i] = gtpv2c_tlv_ie_length + t_length (tlv_of_ie i)) as Ei
      by (change (ies_length [i]) with (gtpv2c_tlv_ie_length + t_length (tlv_of_ie i) + 0); lia).
    pose proof (ie_wf_length i Hop). unfold gtpv2c_tlv_ie_length in *.
    split; [split|done| |apply Forall_app; by repeat constructor]; try done; [apply wrapu_fits; lia|].
    unfold gtp_len_ok, gtp_header_size. cbn [gh_message_length gtp_set_message_length gh_t ghdr gies].
    rewrite ies_length_app, Ei, Hl. case_match; rewrite wrapu_id; unfold fits; lia.
Qed.

Lemma build_gies ops m : gies (foldl gtp_build_step m ops) = gies m ++ build_ies ops.
Proof.
  revert m. induction ops as [|op ops IH]; intros m; simpl; [by rewrite app_nil_r|].
  rewrite IH. destruct op; simpl; try done. by rewrite <- app_assoc.
Qed.

Lemma build_wf ops :
  Forall build_op_ok ops -> 8 + ies_length (build_ies ops) < 2 ^ 16 -> gtpv2c_msg_wf (gtp_build ops).
Proof.
  unfold gtp_build. induction ops as [|op ops IH] using rev_ind; intros Ho Hl.
  - split; [split; vm_compute; intuition congruence|done|done|constructor].
  - apply Forall_app in Ho as [Ho Hop]. inversion_clear Hop as [|? ? Hop' _]. rewrite foldl_app. simpl.
    unfold build_ies in *. rewrite omap_app, ies_length_app in Hl.
    assert (0 <= ies_length (omap (fun op => match op with OpAddIe i => Some i | _ => None end) [op])).
    { apply ies_length_nonneg. by destruct op; repeat constructor. }
    apply build_step_wf; [apply IH; [done|lia]|done|].
    change (gtp_build_step ?m op) with (foldl gtp_build_step m [op]).
    rewrite (build_gies [op]), build_gies, !ies_length_app. change (ies_length (gies gtpv2c_msg_init)) with 0. unfold build_ies. lia.
Qed.

(** C24 A message built by any sequence of the calls the stack makes (type,
    TEID, sequence number, elements, in any order) from well-formed elements,
    and not longer than its length field can say, is written on exactly four
    octets more than its length field says, and a receiver that loads the
    datagram gets the same header and the same elements. *)
Theorem built_msg_roundtrip (ops : list gtp_build_op) (fuel : nat) (port : Z) :
  Forall build_op_ok ops -> 8 + ies_length (build_ies ops) < 2 ^ 16 -> (ies_size (build_ies ops) < fuel)%nat ->
  exists b m' ins, gtpv2c_msg_dump_to (gtp_build ops) = Val (b, m') /\
    Z.of_nat (length b) = 4 + gh_message_length (ghdr (gtp_build ops)) /\
    gtpv2c_msg_load_from fuel (mk_gtpv2c_msg gtpv2c_msg_header_init port []) (istream_of b) =
      Val (mk_gtpv2c_msg (ghdr (gtp_build ops)) port (build_ies ops), ins) /\ is_data ins = [].
Proof.
  intros Ho Hl Hf. pose proof (build_wf ops Ho Hl) as Hw.
  assert (gies (gtp_build ops) = build_ies ops) as Eg by apply (build_gies ops gtpv2c_msg_init).
  destruct (msg_wf_load fuel (gtp_build ops) port [] Hw) as (b & m' & ins & E); [by rewrite Eg|by right|].
  rewrite app_nil_r, Eg in E. by exists b, m', ins.
Qed.

Definition demo_build : list gtp_build_op :=
  [OpSetMessageType 32; OpAddIe demo_ebi; OpSetTeid 4096; OpAddIe demo_bearer_context; OpSetSequenceNumber 70000].

Lemma built_msg_roundtrip_witness :
  exists b m' ins, gtpv2c_msg_dump_to (gtp_build demo_build) = Val (b, m') /\ Z.of_nat (length b) = 65 /\
    gtpv2c_msg_load_from 8 (mk_gtpv2c_msg gtpv2c_msg_header_init 2123 []) (istream_of b) =
      Val (mk_gtpv2c_msg (ghdr (gtp_build demo_build)) 2123 [demo_ebi; demo_bearer_context], ins) /\ is_data ins = [].
Proof.
  apply (built_msg_roundtrip demo_build 8 2123); [|reflexivity|vm_compute; lia].
  repeat constructor; unfold demo_ebi, fits; try (vm_compute; intuition congruence).
Defined.
