(* ===== verification/GtpTermination.v ===== *)
(** * Parsing GTPv2-C terminates

    The model of the factory and of [gtpv2c_msg::load_from] carries fuel.
    This file shows that fuel is no restriction: every element the factory
    returns has consumed octets of the stream, so that any fuel beyond the
    octets of the stream gives the same result, and that result is not
    [Diverge] unless the octets of an access point name hang
    [dotted_to_string]. *)
From S2P Require Import Prelude PaaDynamic Stream GtpTlv GtpScalar GtpIdentity GtpQos GtpLocation GtpAddress GtpOptions GtpIe GtpMsg.
From Stdlib Require Import ZArith Lia.
From stdpp Require Import base numbers tactics list.
Open Scope Z_scope.

(** Octets that hold a run on which [dotted_to_string] never returns. *)
Definition stuck_apn (data : list Z) : Prop :=
  exists pre apn post, data = pre ++ apn ++ post /\ dotted_to_string apn = None.

Lemma stuck_apn_rest ins' ins : rest_of ins' ins -> stuck_apn (is_data ins') -> stuck_apn (is_data ins).
Proof. intros [l ->] (pre & apn & post & -> & H). exists (l ++ pre), apn, post. by rewrite <- app_assoc. Qed.

(** ** What the loading of an element does to the stream

    It leaves a suffix, and it returns unless it meets such octets. *)
Class GtpConsumes (A : Type) `{GtpIe A} := {
  ie_load_rest : forall (a a' : A) ins ins', ie_load_from a ins = Val (a', ins') -> rest_of ins' ins;
  ie_load_returns : forall (a : A) ins, ie_load_from a ins = Diverge -> stuck_apn (is_data ins);
}.

(** No statement of the method diverges. *)
Ltac returns_tac :=
  intros; exfalso; cbv zeta in *;
  repeat match goal with
  | H : Val _ = Diverge |- _ => discriminate H
  | H : Throw _ = Diverge |- _ => discriminate H
  | H : UB = Diverge |- _ => discriminate H
  | H : bcd_num_digits _ _ = Diverge |- _ => unfold bcd_num_digits in H
  | H : read_exact _ _ = Diverge |- _ => by apply read_exact_returns in H
  | H : (_ ≫= _) = Diverge |- _ => apply bind_Diverge_inv in H as [H|([? ?] & _ & H)]
  | H : (_ ≫= _) = Diverge |- _ => apply bind_Diverge_inv in H as [H|(? & _ & H)]
  | H : match ?r with _ => _ end = Diverge |- _ => destruct r
  end.

Lemma plmn_load_rest o ins o' ins' : plmn_load o ins = (o', ins') -> rest_of ins' ins.
Proof. unfold plmn_load. rest_tac. Qed.

Lemma sel_load_rest {A} flag load (a a' : A) ins ins' :
  (forall ins ins' a', load a ins = (a', ins') -> rest_of ins' ins) ->
  sel_load flag load a ins = (a', ins') -> rest_of ins' ins.
Proof. unfold sel_load. destruct (flag =? 0); [rest_tac|eauto]. Qed.

Lemma cgi_field_rest i ins i' ins' : cgi_field_load_from i ins = (i', ins') -> rest_of ins' ins.
Proof. unfold cgi_field_load_from, plmn_load. rest_tac. Qed.
Lemma sai_field_rest i ins i' ins' : sai_field_load_from i ins = (i', ins') -> rest_of ins' ins.
Proof. unfold sai_field_load_from, plmn_load. rest_tac. Qed.
Lemma rai_field_rest i ins i' ins' : rai_field_load_from i ins = (i', ins') -> rest_of ins' ins.
Proof. unfold rai_field_load_from, plmn_load. rest_tac. Qed.
Lemma tai_field_rest i ins i' ins' : tai_field_load_from i ins = (i', ins') -> rest_of ins' ins.
Proof. unfold tai_field_load_from, plmn_load. rest_tac. Qed.
Lemma lai_field_rest i ins i' ins' : lai_field_load_from i ins = (i', ins') -> rest_of ins' ins.
Proof. unfold lai_field_load_from, plmn_load. rest_tac. Qed.
Lemma ecgi_field_rest i ins i' ins' : ecgi_field_load_from i ins = (i', ins') -> rest_of ins' ins.
Proof. unfold ecgi_field_load_from, plmn_load. rest_tac. Qed.
Lemma macro_enodeb_id_field_rest i ins i' ins' : macro_enodeb_id_field_load_from i ins = (i', ins') -> rest_of ins' ins.
Proof. unfold macro_enodeb_id_field_load_from, plmn_load. rest_tac. Qed.
Lemma extended_macro_enodeb_id_field_rest i ins i' ins' : extended_macro_enodeb_id_field_load_from i ins = (i', ins') -> rest_of ins' ins.
Proof. unfold extended_macro_enodeb_id_field_load_from, plmn_load. rest_tac. Qed.

Lemma ind_next_rest k l old ins b ins' : ind_next k l old ins = (b, ins') -> rest_of ins' ins.
Proof. unfold ind_next. rest_tac. Qed.

Lemma container_rest c ins c' ins' : container_load_from c ins = Val (c', ins') -> rest_of ins' ins.
Proof. unfold container_load_from. rest_tac. Qed.

Lemma pco_loop_rest fuel : forall t r num ids ins x ins',
  pco_load_loop fuel t r num ids ins = Val (x, ins') -> rest_of ins' ins.
Proof.
  induction fuel as [|fuel IH]; intros t r num ids ins x ins'; cbn [pco_load_loop]; [rest_tac|].
  destruct (0 <? r); [|rest_tac]. intros H. apply bind_Val_inv in H as ([c i1] & E & H).
  apply container_rest in E. destruct (_ <=? _); [|done]. apply IH in H. rest_chain.
Qed.

Lemma csids_rest k : forall ids ins x ins', csids_load k ids ins = Val (x, ins') -> rest_of ins' ins.
Proof.
  induction k as [|k IH]; intros ids ins x ins'; cbn [csids_load]; [rest_tac|].
  intros H. apply bind_Val_inv in H as ([c i1] & E & H). apply read_exact_rest in E. apply IH in H. rest_chain.
Qed.

Lemma pco_loop_returns fuel : forall t r num ids ins, pco_load_loop fuel t r num ids ins <> Diverge.
Proof.
  induction fuel as [|fuel IH]; intros t r num ids ins H; cbn [pco_load_loop] in H; [done|].
  revert H. unfold container_load_from. returns_tac. by eapply IH.
Qed.

Lemma csids_returns k : forall ids ins, csids_load k ids ins <> Diverge.
Proof.
  induction k as [|k IH]; intros ids ins H; cbn [csids_load] in H; [done|]. revert H. returns_tac. by eapply IH.
Qed.

#[export] Instance imsi_consumes : GtpConsumes gtpv2c_imsi_ie.
Proof. split; intros *; unfold ie_load_from, imsi_ie, imsi_load_from, bcd_read; [rest_tac|returns_tac]. Qed.
#[export] Instance cause_consumes : GtpConsumes gtpv2c_cause_ie.
Proof. split; intros *; unfold ie_load_from, cause_ie, cause_load_from; [rest_tac|returns_tac]. Qed.
#[export] Instance recovery_consumes : GtpConsumes gtpv2c_recovery_ie.
Proof. split; intros *; unfold ie_load_from, recovery_ie, recovery_load_from; [rest_tac|returns_tac]. Qed.
#[export] Instance apn_consumes : GtpConsumes gtpv2c_access_point_name_ie.
Proof.
  split; intros *; unfold ie_load_from, apn_ie, apn_load_from; [rest_tac|]. intros H.
  apply bind_Diverge_inv in H as [H|([apn ins'] & E & H)]; [by apply read_exact_returns in H|].
  destruct (dotted_to_string apn) as [r|] eqn:Ed.
  - apply dotted_to_string_returns in Ed. apply bind_Diverge_inv in H as [H|([? ?] & _ & H)]; done.
  - apply read_exact_data in E. rewrite E. by exists [], apn, (is_data ins').
Qed.
#[export] Instance ambr_consumes : GtpConsumes gtpv2c_aggregate_maximum_bit_rate_ie.
Proof. split; intros *; unfold ie_load_from, ambr_ie, ambr_load_from; [rest_tac|returns_tac]. Qed.
#[export] Instance eps_bearer_id_consumes : GtpConsumes gtpv2c_eps_bearer_id_ie.
Proof. split; intros *; unfold ie_load_from, eps_bearer_id_ie, eps_bearer_id_load_from; [rest_tac|returns_tac]. Qed.
#[export] Instance ip_address_consumes : GtpConsumes gtpv2c_ip_address_ie.
Proof. split; intros *; unfold ie_load_from, ip_address_ie, ip_address_load_from; [rest_tac|returns_tac]. Qed.
#[export] Instance mei_consumes : GtpConsumes gtpv2c_mei_ie.
Proof. split; intros *; unfold ie_load_from, mei_ie, mei_load_from, bcd_read; [rest_tac|returns_tac]. Qed.
#[export] Instance msisdn_consumes : GtpConsumes gtpv2c_msisdn_ie.
Proof. split; intros *; unfold ie_load_from, msisdn_ie, msisdn_load_from, bcd_read; [rest_tac|returns_tac]. Qed.
#[export] Instance indication_consumes : GtpConsumes gtpv2c_indication_ie.
Proof.
  split; intros *; unfold ie_load_from, indication_ie, indication_load_from; [|returns_tac]. intros E. cbv zeta in E.
  rest_reads; repeat match goal with H : ind_next _ _ _ _ = _ |- _ => apply ind_next_rest in H end; rest_chain.
Qed.
#[export] Instance paa_consumes : GtpConsumes gtpv2c_paa_ie.
Proof. split; intros *; unfold ie_load_from, paa_ie, paa_load_from, ipv4_address_load_from, ipv6_address_load_from; [rest_tac|returns_tac]. Qed.
#[export] Instance bearer_qos_consumes : GtpConsumes gtpv2c_bearer_qos_ie.
Proof. split; intros *; unfold ie_load_from, bearer_qos_ie, bearer_qos_load_from; [rest_tac|returns_tac]. Qed.
#[export] Instance flow_qos_consumes : GtpConsumes gtpv2c_flow_qos_ie.
Proof. split; intros *; unfold ie_load_from, flow_qos_ie, flow_qos_load_from; [rest_tac|returns_tac]. Qed.
#[export] Instance rat_type_consumes : GtpConsumes gtpv2c_rat_type_ie.
Proof. split; intros *; unfold ie_load_from, rat_type_ie, rat_type_load_from; [rest_tac|returns_tac]. Qed.
#[export] Instance serving_network_consumes : GtpConsumes gtpv2c_serving_network_ie.
Proof. split; intros *; unfold ie_load_from, serving_network_ie, serving_network_load_from, plmn_load; [rest_tac|returns_tac]. Qed.
#[export] Instance bearer_tft_consumes : GtpConsumes gtpv2c_bearer_tft_ie.
Proof. split; intros *; unfold ie_load_from, bearer_tft_ie, bearer_tft_load_from; [rest_tac|returns_tac]. Qed.
#[export] Instance fteid_consumes : GtpConsumes gtpv2c_fully_qualified_teid_ie.
Proof. split; intros *; unfold ie_load_from, fteid_ie, fteid_load_from, ipv4_address_load_from, ipv6_address_load_from; [rest_tac|returns_tac]. Qed.
#[export] Instance delay_value_consumes : GtpConsumes gtpv2c_delay_value_ie.
Proof. split; intros *; unfold ie_load_from, delay_value_ie, delay_value_load_from; [rest_tac|returns_tac]. Qed.
#[export] Instance charging_id_consumes : GtpConsumes gtpv2c_charging_id_ie.
Proof. split; intros *; unfold ie_load_from, charging_id_ie, charging_id_load_from; [rest_tac|returns_tac]. Qed.
#[export] Instance bearer_flags_consumes : GtpConsumes gtpv2c_bearer_flags_ie.
Proof. split; intros *; unfold ie_load_from, bearer_flags_ie, bearer_flags_load_from; [rest_tac|returns_tac]. Qed.
#[export] Instance pdn_type_consumes : GtpConsumes gtpv2c_pdn_type_ie.
Proof. split; intros *; unfold ie_load_from, pdn_type_ie, pdn_type_load_from; [rest_tac|returns_tac]. Qed.
#[export] Instance ue_time_zone_consumes : GtpConsumes gtpv2c_ue_time_zone_ie.
Proof. split; intros *; unfold ie_load_from, ue_time_zone_ie, ue_time_zone_load_from; [rest_tac|returns_tac]. Qed.
#[export] Instance apn_restriction_consumes : GtpConsumes gtpv2c_apn_restriction_ie.
Proof. split; intros *; unfold ie_load_from, apn_restriction_ie, apn_restriction_load_from; [rest_tac|returns_tac]. Qed.
#[export] Instance selection_mode_consumes : GtpConsumes gtpv2c_selection_mode_ie.
Proof. split; intros *; unfold ie_load_from, selection_mode_ie, selection_mode_load_from; [rest_tac|returns_tac]. Qed.
#[export] Instance node_type_consumes : GtpConsumes gtpv2c_node_type_ie.
Proof. split; intros *; unfold ie_load_from, node_type_ie, node_type_load_from; [rest_tac|returns_tac]. Qed.
#[export] Instance node_features_consumes : GtpConsumes gtpv2c_node_features_ie.
Proof. split; intros *; unfold ie_load_from, node_features_ie, node_features_load_from; [rest_tac|returns_tac]. Qed.
#[export] Instance ciot_optimizations_support_indication_consumes : GtpConsumes gtpv2c_ciot_optimizations_support_indication_ie.
Proof. split; intros *; unfold ie_load_from, ciot_optimizations_support_indication_ie, ciot_optimizations_support_indication_load_from; [rest_tac|returns_tac]. Qed.
#[export] Instance pco_consumes : GtpConsumes gtpv2c_pco_ie.
Proof.
  split; intros *; unfold ie_load_from, pco_ie, pco_load_from; [|returns_tac; by eapply pco_loop_returns].
  intros E. cbv zeta in E. rest_reads.
  match goal with H : pco_load_loop _ _ _ _ _ _ = _ |- _ => apply pco_loop_rest in H end. rest_chain.
Qed.
#[export] Instance fq_csid_consumes : GtpConsumes gtpv2c_fq_csid_ie.
Proof.
  split; intros *; unfold ie_load_from, fq_csid_ie, fq_csid_load_from, ipv4_address_load_from, ipv6_address_load_from;
    [|returns_tac; by eapply csids_returns].
  intros E. cbv zeta in E. rest_reads;
  match goal with H : csids_load _ _ _ = _ |- _ => apply csids_rest in H end; rest_chain.
Qed.
#[export] Instance uli_consumes : GtpConsumes gtpv2c_user_location_information_ie.
Proof.
  split; intros *; unfold ie_load_from, uli_ie, uli_load_from; [|returns_tac]. intros E. rest_reads.
  repeat match goal with
    H : sel_load _ _ _ _ = _ |- _ =>
      apply sel_load_rest in H;
      [|intros ? ? ?; first [apply cgi_field_rest|apply sai_field_rest|apply rai_field_rest|apply tai_field_rest
        |apply ecgi_field_rest|apply lai_field_rest|apply macro_enodeb_id_field_rest|apply extended_macro_enodeb_id_field_rest]]
  end. rest_chain.
Qed.

(** ** The factory *)
Lemma load_as_rest {A} `{GtpConsumes A} c t ins oi ins' :
  load_as c t ins = Val (oi, ins') -> rest_of ins' ins.
Proof. unfold load_as. intros E. rest_reads. by eapply ie_load_rest. Qed.

Lemma load_as_returns {A} `{GtpConsumes A} c t ins :
  load_as c t ins = Diverge -> stuck_apn (is_data ins).
Proof.
  unfold load_as. intros E. apply bind_Diverge_inv in E as [E|([? ?] & _ & E)]; [|done]. by eapply ie_load_returns.
Qed.

(** A TLV with a length has been read from the stream. *)
Lemma tlv_load_strict ins t ins' :
  tlv_load_from tlv_init ins = (t, ins') ->
  rest_of ins' ins /\ (t_length t <> 0 -> (avail ins' < avail ins)%nat).
Proof.
  unfold tlv_load_from. destruct (read_u8 _ ins) as [ty i1] eqn:E1. unfold read_be.
  destruct (read _ i1) as [d i2] eqn:E2. destruct (read_u8 _ i2) as [b i3] eqn:E3. intros [= <- <-].
  apply read_u8_rest in E1, E3. pose proof (read_rest _ _ _ _ E2). split; [rest_chain|]. cbn [t_length]. intros Hl.
  apply rest_of_avail in E1, E3.
  destruct (read_strict _ _ _ _ E2 ltac:(rewrite length_le_bytes; lia)) as [Hs| ->]; [lia|]. by destruct Hl.
Qed.

Lemma grouped_rest new_ie :
  (forall ins oi ins', new_ie ins = Val (oi, ins') -> rest_of ins' ins) ->
  forall fuel t r l ins l' ins', grouped_load_from fuel new_ie t r l ins = Val (l', ins') -> rest_of ins' ins.
Proof.
  intros Hn. induction fuel as [|fuel IH]; intros t r l ins l' ins'; cbn [grouped_load_from];
    (destruct (0 <? r); [|rest_tac]); [done|].
  intros H. apply bind_Val_inv in H as ([[i|] i1] & E & H); [|done]. apply Hn in E. apply IH in H. rest_chain.
Qed.

(** An element returned has taken octets; a null pointer need not. *)
Lemma new_ie_rest fuel : forall ins oi ins',
  new_gtpv2c_ie_from_stream fuel ins = Val (oi, ins') ->
  rest_of ins' ins /\ (oi <> None -> (avail ins' < avail ins)%nat).
Proof.
  induction fuel as [|fuel IH]; intros ins oi ins'; cbn [new_gtpv2c_ie_from_stream]; [done|].
  destruct (tlv_load_from tlv_init ins) as [t i1] eqn:Et. apply tlv_load_strict in Et as [Hle Hlt]. cbv zeta.
  destruct (Z.eqb_spec (t_length t) 0) as [E0|E0]; [by intros [= <- <-]|]. specialize (Hlt E0).
  assert (rest_of ins' i1 -> rest_of ins' ins /\ (oi <> None -> (avail ins' < avail ins)%nat))
    as Hi by (intros Hr; split; [by etrans|intros _; apply rest_of_avail in Hr; lia]).
  intros H. apply Hi. clear Hi E0. revert H.
  repeat (destruct (t_type t =? _); [first [apply load_as_rest
    | intros H; apply bind_Val_inv in H as ([l i2] & E & [= <- <-]);
      eapply grouped_rest; [|exact E]; intros ? ? ? Hn; by apply IH in Hn as [Hn _]]|]).
  by intros [= <- <-].
Qed.

Lemma new_ie_some fuel ins i ins' :
  new_gtpv2c_ie_from_stream fuel ins = Val (Some i, ins') -> rest_of ins' ins /\ (avail ins' < avail ins)%nat.
Proof. intros H. apply new_ie_rest in H as [Hr H]. split; [done|]. by apply H. Qed.

(** The loop of a group and the loop of a message, with any fuel beyond the
    octets left: more fuel changes nothing, and they return when the factory does. *)
Section loops.
Context (new1 new2 : istream -> result gtpc_exn (option gtpv2c_ie * istream)) (n : nat).
Hypothesis new_same : forall ins, (avail ins <= n)%nat -> new1 ins = new2 ins.
Hypothesis new_some : forall ins i ins',
  new2 ins = Val (Some i, ins') -> rest_of ins' ins /\ (avail ins' < avail ins)%nat.
Hypothesis new_returns : forall ins, (avail ins <= n)%nat -> new2 ins = Diverge -> stuck_apn (is_data ins).

Lemma grouped_fuel : forall k1 k2 t r l ins,
  (avail ins <= n)%nat -> (avail ins < k1)%nat -> (avail ins < k2)%nat ->
  grouped_load_from k1 new1 t r l ins = grouped_load_from k2 new2 t r l ins.
Proof.
  induction k1 as [|k1 IH]; intros k2 t r l ins Hn H1 H2; [lia|].
  destruct k2 as [|k2]; [lia|]. cbn [grouped_load_from]. destruct (0 <? r); [|done].
  rewrite new_same by done. destruct (new2 ins) as [[[i|] ins']| | |] eqn:E; try done. cbn [mbind result_bind].
  apply new_some in E as [_ E]. apply IH; try done; lia.
Qed.

Lemma msg_loop_fuel : forall k1 k2 check len l ins,
  (avail ins <= n)%nat -> (avail ins < k1)%nat -> (avail ins < k2)%nat ->
  msg_ies_loop k1 new1 check len l ins = msg_ies_loop k2 new2 check len l ins.
Proof.
  induction k1 as [|k1 IH]; intros k2 check len l ins Hn H1 H2; [lia|].
  destruct k2 as [|k2]; [lia|]. cbn [msg_ies_loop].
  rewrite new_same by done. destruct (new2 ins) as [[[i|] ins']| | |] eqn:E; try done. cbn [mbind result_bind].
  apply new_some in E as [_ E]. case_match; [|done]. apply IH; try done; lia.
Qed.

Lemma grouped_returns : forall k t r l ins,
  (avail ins <= n)%nat -> (avail ins < k)%nat ->
  grouped_load_from k new2 t r l ins = Diverge -> stuck_apn (is_data ins).
Proof.
  induction k as [|k IH]; intros t r l ins Hn Hk; [lia|]. cbn [grouped_load_from]. destruct (0 <? r); [|done].
  intros H. apply bind_Diverge_inv in H as [H|([[i|] ins'] & E & H)]; [by apply new_returns| |done].
  apply new_some in E as [Hr E]. eapply stuck_apn_rest; [exact Hr|]. eapply IH; [| |exact H]; lia.
Qed.

Lemma msg_loop_returns : forall k check len l ins,
  (avail ins <= n)%nat -> (avail ins < k)%nat ->
  msg_ies_loop k new2 check len l ins = Diverge -> stuck_apn (is_data ins).
Proof.
  induction k as [|k IH]; intros check len l ins Hn Hk; [lia|]. cbn [msg_ies_loop]. cbv zeta.
  intros H. apply bind_Diverge_inv in H as [H|([[i|] ins'] & E & H)]; [by apply new_returns| |done].
  apply new_some in E as [Hr E]. case_match; [|done]. eapply stuck_apn_rest; [exact Hr|]. eapply IH; [| |exact H]; lia.
Qed.
End loops.

Lemma new_ie_fuel k1 : forall k2 ins, (avail ins < k1)%nat -> (avail ins < k2)%nat ->
  new_gtpv2c_ie_from_stream k1 ins = new_gtpv2c_ie_from_stream k2 ins.
Proof.
  induction k1 as [|k1 IH]; intros k2 ins H1 H2; [lia|]. destruct k2 as [|k2]; [lia|].
  cbn [new_gtpv2c_ie_from_stream]. destruct (tlv_load_from tlv_init ins) as [t i1] eqn:Et.
  apply tlv_load_strict in Et as [_ Hlt]. cbv zeta.
  destruct (Z.eqb_spec (t_length t) 0) as [E0|E0]; [done|]. specialize (Hlt E0).
  repeat (destruct (t_type t =? _); [first [reflexivity|f_equal]|]); [|done].
  apply (grouped_fuel _ _ (avail i1)); try lia; [|apply new_ie_some]. intros. apply IH; lia.
Qed.

Lemma new_ie_returns k : forall ins, (avail ins < k)%nat ->
  new_gtpv2c_ie_from_stream k ins = Diverge -> stuck_apn (is_data ins).
Proof.
  induction k as [|k IH]; intros ins Hk; [lia|].
  cbn [new_gtpv2c_ie_from_stream]. destruct (tlv_load_from tlv_init ins) as [t i1] eqn:Et.
  apply tlv_load_strict in Et as [Hr Hlt]. cbv zeta.
  destruct (Z.eqb_spec (t_length t) 0) as [E0|E0]; [done|]. specialize (Hlt E0).
  intros H. eapply stuck_apn_rest; [exact Hr|]. clear E0. revert H.
  repeat (destruct (t_type t =? _); [first [apply load_as_returns
    | intros H; apply bind_Diverge_inv in H as [H|([? ?] & _ & H)]; [|done];
      eapply (grouped_returns _ (avail i1)); [apply new_ie_some| | | |exact H]; try lia;
      intros; apply IH; [lia|done]]|]).
  done.
Qed.

Lemma header_load_rest h ins h' ins' : gtpv2c_header_load_from h ins = Val (h', ins') -> rest_of ins' ins.
Proof. unfold gtpv2c_header_load_from. rest_tac. Qed.

Lemma header_load_returns h ins : gtpv2c_header_load_from h ins <> Diverge.
Proof. unfold gtpv2c_header_load_from. intros H. revert H. returns_tac. Qed.

Lemma msg_load_fuel (m : gtpv2c_msg) (data : list Z) (fuel : nat) :
  (length data < fuel)%nat ->
  gtpv2c_msg_load_from fuel m (istream_of data) = gtpv2c_msg_load_from (S (length data)) m (istream_of data).
Proof.
  intros Hf. unfold gtpv2c_msg_load_from.
  destruct (gtpv2c_header_load_from (ghdr m) (istream_of data)) as [[h ins]| | |] eqn:E; [|done..].
  apply header_load_rest in E. pose proof (rest_of_avail _ _ E) as Hi. change (avail (istream_of data)) with (length data) in Hi.
  cbn [mbind result_bind]. f_equal. apply (msg_loop_fuel _ _ (avail ins)); try lia; [|apply new_ie_some]. intros. apply new_ie_fuel; lia.
Qed.

(** C25 Parsing a datagram needs at most one round of fuel per octet, whatever
    the octets: more fuel changes nothing, so the loops of load_from and of
    the bearer contexts and the nesting of the factory are bounded by the
    datagram; and parsing returns (a message, an exception, or undefined
    behaviour) unless some octets of the datagram are labels on which
    dotted_to_string itself never returns ([stuck_apn]). *)
Theorem msg_load_terminates (m : gtpv2c_msg) (data : list Z) (fuel : nat) :
  (length data < fuel)%nat ->
  gtpv2c_msg_load_from fuel m (istream_of data) = gtpv2c_msg_load_from (S (length data)) m (istream_of data) /\
  (gtpv2c_msg_load_from fuel m (istream_of data) = Diverge ->
   stuck_apn data).
Proof.
  intros Hf. split; [by apply msg_load_fuel|]. unfold gtpv2c_msg_load_from.
  destruct (gtpv2c_header_load_from (ghdr m) (istream_of data)) as [[h ins]| | |] eqn:E;
    [|done|done|by apply header_load_returns in E].
  apply header_load_rest in E. pose proof (rest_of_avail _ _ E) as Hi. change (avail (istream_of data)) with (length data) in Hi.
  cbn [mbind result_bind]. intros H. apply bind_Diverge_inv in H as [H|([[? ?] ?] & _ & H)]; [|by case_match].
  apply (stuck_apn_rest _ _ E). eapply (msg_loop_returns _ (avail ins)); [apply new_ie_some| | | |exact H]; try lia.
  intros. apply new_ie_returns with fuel; [lia|done].
Qed.

(** A bearer context inside a bearer context, truncated: the parser returns. *)
Lemma msg_load_terminates_witness :
  let data := [72; 32; 0; 32; 0; 0; 0; 1; 0; 0; 7; 0; 93; 0; 20; 0; 93; 0; 5; 0; 73; 0; 1; 0; 5; 93; 0; 9; 0] in
  gtpv2c_msg_load_from 1000 gtpv2c_msg_init (istream_of data) = Throw (gtpc_tlv_bad_length_exception 93 9) /\
  gtpv2c_msg_load_from 1000 gtpv2c_msg_init (istream_of data) = gtpv2c_msg_load_from 30 gtpv2c_msg_init (istream_of data).
Proof.
  intros data. pose proof (proj1 (msg_load_terminates gtpv2c_msg_init data 1000 ltac:(vm_compute; lia))) as H.
  split; [|exact H]. rewrite H. vm_compute. reflexivity.
Defined.
