(* ===== verification/Gtpv2cStack.v ===== *)
(** * The GTPv2-C transaction layer

    [src/gtpv2c/gtpv2c.cpp], [gtpv2c.hpp]: [gtpv2c_stack] matches requests and
    responses by sequence number, retransmits unanswered requests every T3 up
    to N3 times, and forgets a transaction when its clean-up timer fires.  It
    is written like the PFCP layer, but differs in what it forgets.

    The four tables are [folly::AtomicHashMap]s, a library this repository only
    calls: the class [AtomicMap] states what the stack uses of it.  The state
    is the stack object with the ITTI timers, the process-wide id generator
    and what has been emitted so far, newest last. *)
From S2P Require Import Prelude PaaDynamic Stream UidGenerator Itti TimerService AtomicMap GtpTlv GtpScalar GtpIdentity GtpQos GtpLocation GtpAddress GtpOptions GtpIe GtpCore GtpMsg.
From Stdlib Require Import ZArith Lia.
From stdpp Require Import base gmap numbers tactics list.
Open Scope Z_scope.

(** ** Message types *)
Definition GTP_ECHO_REQUEST : Z := 1.
Definition GTP_CREATE_SESSION_REQUEST : Z := 32.
Definition GTP_MODIFY_BEARER_REQUEST : Z := 34.
Definition GTP_DELETE_SESSION_REQUEST : Z := 36.
Definition GTP_CHANGE_NOTIFICATION_REQUEST : Z := 38.
Definition GTP_REMOTE_UE_REPORT_NOTIFICATION : Z := 40.
Definition GTP_MODIFY_BEARER_COMMAND : Z := 64.
Definition GTP_DELETE_BEARER_COMMAND : Z := 66.
Definition GTP_BEARER_RESOURCE_COMMAND : Z := 68.
Definition GTP_CREATE_BEARER_REQUEST : Z := 95.
Definition GTP_UPDATE_BEARER_REQUEST : Z := 97.
Definition GTP_DELETE_BEARER_REQUEST : Z := 99.
Definition GTP_DELETE_PDN_CONNECTION_SET_REQUEST : Z := 101.
Definition GTP_PGW_DOWNLINK_TRIGGERING_NOTIFICATION : Z := 103.
Definition GTP_IDENTIFICATION_REQUEST : Z := 128.
Definition GTP_CONTEXT_REQUEST : Z := 130.
Definition GTP_FORWARD_RELOCATION_REQUEST : Z := 133.
Definition GTP_FORWARD_RELOCATION_COMPLETE_NOTIFICATION : Z := 135.
Definition GTP_FORWARD_ACCESS_CONTEXT_NOTIFICATION : Z := 137.
Definition GTP_RELOCATION_CANCEL_REQUEST : Z := 139.
Definition GTP_DETACH_NOTIFICATION : Z := 149.
Definition GTP_ALERT_MME_NOTIFICATION : Z := 153.
Definition GTP_UE_ACTIVITY_NOTIFICATION : Z := 155.
Definition GTP_UE_REGISTRATION_QUERY_REQUEST : Z := 158.
Definition GTP_CREATE_FORWARDING_TUNNEL_REQUEST : Z := 160.
Definition GTP_SUSPEND_NOTIFICATION : Z := 162.
Definition GTP_RESUME_NOTIFICATION : Z := 164.
Definition GTP_CREATE_INDIRECT_DATA_FORWARDING_TUNNEL_REQUEST : Z := 166.
Definition GTP_DELETE_INDIRECT_DATA_FORWARDING_TUNNEL_REQUEST : Z := 168.
Definition GTP_RELEASE_ACCESS_BEARERS_REQUEST : Z := 170.
Definition GTP_DOWNLINK_DATA_NOTIFICATION : Z := 176.
Definition GTP_PGW_RESTART_NOTIFICATION : Z := 179.
Definition GTP_UPDATE_PDN_CONNECTION_SET_REQUEST : Z := 200.
Definition GTP_MODIFY_ACCESS_BEARERS_REQUEST : Z := 211.
Definition GTP_MBMS_SESSION_START_REQUEST : Z := 231.
Definition GTP_MBMS_SESSION_UPDATE_REQUEST : Z := 233.
Definition GTP_MBMS_SESSION_STOP_REQUEST : Z := 235.
Definition GTP_ECHO_RESPONSE : Z := 2.
Definition GTP_CREATE_SESSION_RESPONSE : Z := 33.
Definition GTP_DELETE_SESSION_RESPONSE : Z := 37.
Definition GTP_MODIFY_BEARER_RESPONSE : Z := 35.
Definition GTP_RELEASE_ACCESS_BEARERS_RESPONSE : Z := 171.
Definition GTP_DOWNLINK_DATA_NOTIFICATION_ACKNOWLEDGE : Z := 177.
Definition GTP_VERSION_NOT_SUPPORTED_INDICATION : Z := 3.
Definition REMOTE_PEER_NOT_RESPONDING : Z := 100.

Definition check_initial_message_type (initial : Z) : bool :=
  mem initial
    [GTP_ECHO_REQUEST; GTP_CREATE_SESSION_REQUEST; GTP_MODIFY_BEARER_REQUEST; GTP_DELETE_SESSION_REQUEST;
     GTP_CHANGE_NOTIFICATION_REQUEST; GTP_REMOTE_UE_REPORT_NOTIFICATION; GTP_MODIFY_BEARER_COMMAND;
     GTP_DELETE_BEARER_COMMAND; GTP_BEARER_RESOURCE_COMMAND; GTP_CREATE_BEARER_REQUEST;
     GTP_UPDATE_BEARER_REQUEST; GTP_DELETE_BEARER_REQUEST; GTP_DELETE_PDN_CONNECTION_SET_REQUEST;
     GTP_PGW_DOWNLINK_TRIGGERING_NOTIFICATION; GTP_IDENTIFICATION_REQUEST; GTP_CONTEXT_REQUEST;
     GTP_FORWARD_RELOCATION_REQUEST; GTP_FORWARD_RELOCATION_COMPLETE_NOTIFICATION;
     GTP_FORWARD_ACCESS_CONTEXT_NOTIFICATION; GTP_RELOCATION_CANCEL_REQUEST; GTP_DETACH_NOTIFICATION;
     GTP_ALERT_MME_NOTIFICATION; GTP_UE_ACTIVITY_NOTIFICATION; GTP_UE_REGISTRATION_QUERY_REQUEST;
     GTP_CREATE_FORWARDING_TUNNEL_REQUEST; GTP_SUSPEND_NOTIFICATION; GTP_RESUME_NOTIFICATION;
     GTP_CREATE_INDIRECT_DATA_FORWARDING_TUNNEL_REQUEST; GTP_DELETE_INDIRECT_DATA_FORWARDING_TUNNEL_REQUEST;
     GTP_RELEASE_ACCESS_BEARERS_REQUEST; GTP_DOWNLINK_DATA_NOTIFICATION; GTP_PGW_RESTART_NOTIFICATION;
     GTP_UPDATE_PDN_CONNECTION_SET_REQUEST; GTP_MODIFY_ACCESS_BEARERS_REQUEST; GTP_MBMS_SESSION_START_REQUEST;
     GTP_MBMS_SESSION_UPDATE_REQUEST; GTP_MBMS_SESSION_STOP_REQUEST].

Definition check_triggered_message_type (initial triggered : Z) : bool :=
  let matched :=
    if mem initial
      [GTP_ECHO_REQUEST; GTP_CREATE_SESSION_REQUEST; GTP_MODIFY_BEARER_REQUEST; GTP_DELETE_SESSION_REQUEST;
       GTP_CHANGE_NOTIFICATION_REQUEST; GTP_REMOTE_UE_REPORT_NOTIFICATION; GTP_MODIFY_BEARER_COMMAND;
       GTP_DELETE_BEARER_COMMAND; GTP_BEARER_RESOURCE_COMMAND; GTP_CREATE_BEARER_REQUEST;
       GTP_UPDATE_BEARER_REQUEST; GTP_DELETE_BEARER_REQUEST; GTP_DELETE_PDN_CONNECTION_SET_REQUEST;
       GTP_PGW_DOWNLINK_TRIGGERING_NOTIFICATION; GTP_IDENTIFICATION_REQUEST; GTP_CONTEXT_REQUEST;
       GTP_FORWARD_RELOCATION_REQUEST; GTP_FORWARD_RELOCATION_COMPLETE_NOTIFICATION;
       GTP_FORWARD_ACCESS_CONTEXT_NOTIFICATION; GTP_RELOCATION_CANCEL_REQUEST; GTP_DETACH_NOTIFICATION;
       GTP_ALERT_MME_NOTIFICATION; GTP_UE_ACTIVITY_NOTIFICATION; GTP_UE_REGISTRATION_QUERY_REQUEST;
       GTP_CREATE_FORWARDING_TUNNEL_REQUEST; GTP_SUSPEND_NOTIFICATION; GTP_RESUME_NOTIFICATION;
       GTP_CREATE_INDIRECT_DATA_FORWARDING_TUNNEL_REQUEST; GTP_DELETE_INDIRECT_DATA_FORWARDING_TUNNEL_REQUEST;
       GTP_RELEASE_ACCESS_BEARERS_REQUEST; GTP_DOWNLINK_DATA_NOTIFICATION; GTP_PGW_RESTART_NOTIFICATION;
       GTP_UPDATE_PDN_CONNECTION_SET_REQUEST; GTP_MODIFY_ACCESS_BEARERS_REQUEST; GTP_MBMS_SESSION_START_REQUEST;
       GTP_MBMS_SESSION_UPDATE_REQUEST; GTP_MBMS_SESSION_STOP_REQUEST]
    then triggered =? initial + 1
    else triggered =? GTP_VERSION_NOT_SUPPORTED_INDICATION in
  if matched then true
  else mem triggered [GTP_CREATE_BEARER_REQUEST; GTP_UPDATE_BEARER_REQUEST; GTP_DELETE_BEARER_REQUEST].

Inductive gtpv2c_transaction_action := DELETE_TX | CONTINUE_TX.

(** [GTPV2C_PROC_TIME_OUT_MS(T, N)], in uint32_t arithmetic. *)
Definition GTPV2C_PROC_TIME_OUT_MS (T N : Z) : Z := u32 (T * u32 (u32 (N + 1) + 1)).

(** What leaves the stack as an exception. *)
Inductive stack_exn := AtomicHashMapFullError | GtpcException (e : gtpc_exn).

Definition of_gtpc {A} (r : result gtpc_exn A) : result stack_exn A :=
  match r with Val a => Val a | Throw e => Throw (GtpcException e) | UB => UB | Diverge => Diverge end.

Definition insert_or_throw {M} `{AtomicMap M} {V} (k : Z) (v : V) (m : M V) : result stack_exn (M V) :=
  match ahm_insert k v m with Some m => Val m | None => Throw AtomicHashMapFullError end.

(** The constructors [gtpv2c_msg(const gtpv2c_xxx&)]: the type code, then one
    [add_ie] for each element present, in order. *)
Definition gtpv2c_msg_of (msg_type : Z) (l : list gtpv2c_ie) : gtpv2c_msg :=
  foldl (fun m i => gtp_add_ie i m) (gtp_map_header (gtp_set_message_type msg_type) gtpv2c_msg_init) l.

Definition msg_seq (m : gtpv2c_msg) : Z := gh_sequence_number (ghdr m).
Definition msg_type (m : gtpv2c_msg) : Z := gh_message_type (ghdr m).

Section stack.
Context {G T : Type} {M : Type -> Type} `{FG : FreshIds G} `{TS : TimerService T} `{AM : AtomicMap M} {endpoint : Type}.

Record gtpv2c_procedure := mk_procedure {
  retry_msg : option gtpv2c_msg;
  remote_endpoint : option endpoint;
  local_teid : Z;
  retry_timer_id : Z;
  proc_cleanup_timer_id : Z;
  gtpc_tx_id : Z;
  initial_msg_type : Z;
  triggered_msg_type : Z;
  retry_count : Z;
}.

(** What the stack emits. *)
Inductive output :=
| SendAllocated (dest : endpoint) (bytes : list Z)     (* udp_s_allocated *)
| Send (dest : endpoint) (bytes : list Z)              (* udp_s *)
| NotifyUlError (dest : option endpoint) (l_teid cause tx : Z).

Record gtpv2c_stack := mk_stack {
  t3_ms : Z;
  n3 : Z;
  seq_num : Z;
  gtpc_tx_id2seq_num : M Z;
  proc_cleanup_timers : M Z;
  msg_out_retry_timers : M Z;
  pending_procedures : M gtpv2c_procedure;
  timers_of : T;
  uids_of : G;
  outputs : list output;
}.

(** Field updates. *)
Definition upd_seq (v : Z) (s : gtpv2c_stack) := mk_stack (t3_ms s) (n3 s) v (gtpc_tx_id2seq_num s)
  (proc_cleanup_timers s) (msg_out_retry_timers s) (pending_procedures s) (timers_of s) (uids_of s) (outputs s).
Definition upd_tx (v : M Z) (s : gtpv2c_stack) := mk_stack (t3_ms s) (n3 s) (seq_num s) v
  (proc_cleanup_timers s) (msg_out_retry_timers s) (pending_procedures s) (timers_of s) (uids_of s) (outputs s).
Definition upd_cleanup (v : M Z) (s : gtpv2c_stack) := mk_stack (t3_ms s) (n3 s) (seq_num s)
  (gtpc_tx_id2seq_num s) v (msg_out_retry_timers s) (pending_procedures s) (timers_of s) (uids_of s) (outputs s).
Definition upd_retry (v : M Z) (s : gtpv2c_stack) := mk_stack (t3_ms s) (n3 s) (seq_num s)
  (gtpc_tx_id2seq_num s) (proc_cleanup_timers s) v (pending_procedures s) (timers_of s) (uids_of s) (outputs s).
Definition upd_pending (v : M gtpv2c_procedure) (s : gtpv2c_stack) := mk_stack (t3_ms s) (n3 s) (seq_num s)
  (gtpc_tx_id2seq_num s) (proc_cleanup_timers s) (msg_out_retry_timers s) v (timers_of s) (uids_of s) (outputs s).
Definition upd_timers (v : T) (s : gtpv2c_stack) := mk_stack (t3_ms s) (n3 s) (seq_num s)
  (gtpc_tx_id2seq_num s) (proc_cleanup_timers s) (msg_out_retry_timers s) (pending_procedures s) v (uids_of s) (outputs s).
Definition upd_uids (v : G) (s : gtpv2c_stack) := mk_stack (t3_ms s) (n3 s) (seq_num s)
  (gtpc_tx_id2seq_num s) (proc_cleanup_timers s) (msg_out_retry_timers s) (pending_procedures s) (timers_of s) v (outputs s).
Definition emit (o : output) (s : gtpv2c_stack) := mk_stack (t3_ms s) (n3 s) (seq_num s)
  (gtpc_tx_id2seq_num s) (proc_cleanup_timers s) (msg_out_retry_timers s) (pending_procedures s) (timers_of s)
  (uids_of s) (outputs s ++ [o]).

Definition set_retry_msg (v : gtpv2c_msg) (p : gtpv2c_procedure) := mk_procedure (Some v) (remote_endpoint p)
  (local_teid p) (retry_timer_id p) (proc_cleanup_timer_id p) (gtpc_tx_id p) (initial_msg_type p) (triggered_msg_type p) (retry_count p).
Definition set_retry_timer_id (v : Z) (p : gtpv2c_procedure) := mk_procedure (retry_msg p) (remote_endpoint p)
  (local_teid p) v (proc_cleanup_timer_id p) (gtpc_tx_id p) (initial_msg_type p) (triggered_msg_type p) (retry_count p).
Definition set_cleanup_timer_id (v : Z) (p : gtpv2c_procedure) := mk_procedure (retry_msg p) (remote_endpoint p)
  (local_teid p) (retry_timer_id p) v (gtpc_tx_id p) (initial_msg_type p) (triggered_msg_type p) (retry_count p).
Definition set_retry_count (v : Z) (p : gtpv2c_procedure) := mk_procedure (retry_msg p) (remote_endpoint p)
  (local_teid p) (retry_timer_id p) (proc_cleanup_timer_id p) (gtpc_tx_id p) (initial_msg_type p) (triggered_msg_type p) v.

(** The constructor; [ns] is the nanoseconds field of the clock it reads. *)
Definition gtpv2c_stack_new (t3_milli_seconds n3_retransmit ns : Z) (t : T) (g : G) : gtpv2c_stack :=
  mk_stack t3_milli_seconds n3_retransmit (Z.land (u32 ns) 2147483647) (ahm_new 512) (ahm_new 1024) (ahm_new 512)
    (ahm_new 512) t g [].

Definition get_next_seq_num (s : gtpv2c_stack) : Z * gtpv2c_stack :=
  let n := u32 (seq_num s + 1) in
  let n := if Z.land n 2147483648 =? 0 then n else 0 in
  (n, upd_seq n s).

Definition start_msg_retry_timer (p : gtpv2c_procedure) (time_out_milli_seconds task_id seq : Z)
    (s : gtpv2c_stack) : result stack_exn (gtpv2c_procedure * gtpv2c_stack) :=
  let '(id, t) := ts_setup (time_out_milli_seconds / 1000) (time_out_milli_seconds mod 1000 * 1000)
                    task_id (timers_of s) in
  let s := upd_timers t s in
  let p := set_retry_timer_id id p in
  if id =? ITTI_INVALID_TIMER_ID then Val (p, s)
  else m ← insert_or_throw id seq (msg_out_retry_timers s); Val (p, upd_retry m s).

(** [stop_msg_retry_timer(p)]: its trace reads [p.retry_msg]. *)
Definition stop_msg_retry_timer (p : gtpv2c_procedure) (s : gtpv2c_stack)
  : result stack_exn (gtpv2c_procedure * gtpv2c_stack) :=
  if retry_timer_id p =? ITTI_INVALID_TIMER_ID then Val (p, s)
  else
    let s := upd_timers (ts_remove (retry_timer_id p) (timers_of s)) s in
    let s := upd_retry (ahm_erase (retry_timer_id p) (msg_out_retry_timers s)) s in
    match retry_msg p with
    | None => UB
    | Some _ => Val (set_retry_timer_id ITTI_INVALID_TIMER_ID p, s)
    end.

Definition start_proc_cleanup_timer (p : gtpv2c_procedure) (time_out_milli_seconds task_id seq : Z)
    (s : gtpv2c_stack) : result stack_exn (gtpv2c_procedure * gtpv2c_stack) :=
  if proc_cleanup_timer_id p =? ITTI_INVALID_TIMER_ID then
    let '(id, t) := ts_setup (time_out_milli_seconds / 1000) (time_out_milli_seconds mod 1000 * 1000)
                      task_id (timers_of s) in
    let s := upd_timers t s in
    m ← insert_or_throw id seq (proc_cleanup_timers s);
    Val (set_cleanup_timer_id id p, upd_cleanup m s)
  else Val (p, s).

(** The entry of [proc_cleanup_timers] stays: it is [msg_out_retry_timers]
    that the id is erased from. *)
Definition stop_proc_cleanup_timer (p : gtpv2c_procedure) (s : gtpv2c_stack)
  : gtpv2c_procedure * gtpv2c_stack :=
  let s := upd_timers (ts_remove (proc_cleanup_timer_id p) (timers_of s)) s in
  let s := upd_retry (ahm_erase (proc_cleanup_timer_id p) (msg_out_retry_timers s)) s in
  (set_cleanup_timer_id ITTI_INVALID_TIMER_ID p, s).

Definition free_gtpc_tx_id (id : Z) (s : gtpv2c_stack) : gtpv2c_stack :=
  upd_uids (fi_free id (uids_of s)) s.

(** The type a pending procedure waits an answer for. *)
Definition awaited (p : gtpv2c_procedure) : Z :=
  if triggered_msg_type p =? 0 then initial_msg_type p else triggered_msg_type p.

(** Returns [error], [gtpc_tx_id] and the stack; [None]: the id generator does
    not return. *)
Definition handle_receive_message_cb (msg : gtpv2c_msg) (task_id : Z) (s : gtpv2c_stack)
  : option (result stack_exn (bool * Z * gtpv2c_stack)) :=
  let seq := msg_seq msg in
  match ahm_find seq (pending_procedures s) with
  | None =>
    if check_initial_message_type (msg_type msg) then
      match fi_get (uids_of s) with
      | None => None
      | Some (tx, g) => Some (
        let s := upd_uids g s in
        let proc := mk_procedure None None 0 0 0 tx (msg_type msg) 0 0 in
        '(proc, s) ← start_proc_cleanup_timer proc (GTPV2C_PROC_TIME_OUT_MS (t3_ms s) (n3 s)) task_id seq s;
        pend ← insert_or_throw seq proc (pending_procedures s);
        let s := upd_pending pend s in
        txs ← insert_or_throw tx seq (gtpc_tx_id2seq_num s);
        Val (false, tx, upd_tx txs s))
      end
    else Some (Val (true, 0, s))
  | Some p =>
    if check_triggered_message_type (awaited p) (msg_type msg) then
      let tx := gtpc_tx_id p in
      Some (
        '(p, s) ← (if retry_timer_id p =? 0 then Val (p, s) else stop_msg_retry_timer p s);
        let '(p, s) := stop_proc_cleanup_timer p s in
        let s := upd_tx (ahm_erase tx (gtpc_tx_id2seq_num s)) s in
        let s := free_gtpc_tx_id tx s in
        Val (false, tx, upd_pending (ahm_erase seq (pending_procedures s)) s))
    else Some (Val (true, 0, s))
  end.

(** The common body of the [send_initial_message] overloads; [teids]: the
    remote and the local TEID, for the messages of a tunnel. *)
Definition send_initial_message (dest : endpoint) (teids : option (Z * Z)) (m : gtpv2c_msg) (task_id tx : Z)
    (s : gtpv2c_stack) : result stack_exn (Z * gtpv2c_stack) :=
  let m := match teids with Some (r_teid, _) => gtp_map_header (set_teid r_teid) m | None => m end in
  let '(n, s) := get_next_seq_num s in
  let m := gtp_map_header (gtp_set_sequence_number n) m in
  '(bstream, m) ← of_gtpc (gtpv2c_msg_dump_to m);
  let seq := msg_seq m in
  let l_teid := match teids with Some (_, l_teid) => l_teid | None => 0 end in
  let proc := mk_procedure (Some m) (Some dest) l_teid 0 0 tx (msg_type m) 0 0 in
  '(proc, s) ← start_msg_retry_timer proc (t3_ms s) task_id seq s;
  '(proc, s) ← start_proc_cleanup_timer proc (GTPV2C_PROC_TIME_OUT_MS (t3_ms s) (n3 s)) task_id seq s;
  pend ← insert_or_throw seq proc (pending_procedures s);
  let s := upd_pending pend s in
  txs ← insert_or_throw tx seq (gtpc_tx_id2seq_num s);
  Val (seq, emit (SendAllocated dest bstream) (upd_tx txs s)).

Definition send_echo_request (dest : endpoint) (l : list gtpv2c_ie) :=
  send_initial_message dest None (gtpv2c_msg_of GTP_ECHO_REQUEST l).
Definition send_create_session_request (dest : endpoint) (r_teid l_teid : Z) (l : list gtpv2c_ie) :=
  send_initial_message dest (Some (r_teid, l_teid)) (gtpv2c_msg_of GTP_CREATE_SESSION_REQUEST l).
Definition send_delete_session_request (dest : endpoint) (r_teid l_teid : Z) (l : list gtpv2c_ie) :=
  send_initial_message dest (Some (r_teid, l_teid)) (gtpv2c_msg_of GTP_DELETE_SESSION_REQUEST l).
Definition send_modify_bearer_request (dest : endpoint) (r_teid l_teid : Z) (l : list gtpv2c_ie) :=
  send_initial_message dest (Some (r_teid, l_teid)) (gtpv2c_msg_of GTP_MODIFY_BEARER_REQUEST l).
Definition send_release_access_bearers_request (dest : endpoint) (r_teid l_teid : Z) (l : list gtpv2c_ie) :=
  send_initial_message dest (Some (r_teid, l_teid)) (gtpv2c_msg_of GTP_RELEASE_ACCESS_BEARERS_REQUEST l).
Definition send_downlink_data_notification (dest : endpoint) (r_teid l_teid : Z) (l : list gtpv2c_ie) :=
  send_initial_message dest (Some (r_teid, l_teid)) (gtpv2c_msg_of GTP_DOWNLINK_DATA_NOTIFICATION l).

(** The common body of the [send_triggered_message] overloads. *)
Definition send_triggered_message (dest : endpoint) (r_teid : option Z) (m : gtpv2c_msg) (tx : Z)
    (a : gtpv2c_transaction_action) (s : gtpv2c_stack) : result stack_exn gtpv2c_stack :=
  match ahm_find tx (gtpc_tx_id2seq_num s) with
  | Some seq =>
    let m := match r_teid with Some tid => gtp_map_header (set_teid tid) m | None => m end in
    let m := gtp_map_header (gtp_set_sequence_number seq) m in
    '(bstream, _) ← of_gtpc (gtpv2c_msg_dump_to m);
    let s := emit (Send dest bstream) s in
    match a with
    | DELETE_TX =>
      let s :=
        match ahm_find seq (pending_procedures s) with
        | Some p =>
          let '(_, s) := stop_proc_cleanup_timer p s in
          let s := free_gtpc_tx_id tx s in
          upd_pending (ahm_erase seq (pending_procedures s)) s
        | None => s
        end in
      Val (upd_tx (ahm_erase tx (gtpc_tx_id2seq_num s)) s)
    | CONTINUE_TX => Val s
    end
  | None => Val s
  end.

Definition send_echo_response (dest : endpoint) (l : list gtpv2c_ie) :=
  send_triggered_message dest None (gtpv2c_msg_of GTP_ECHO_RESPONSE l).
Definition send_create_session_response (dest : endpoint) (r_teid : Z) (l : list gtpv2c_ie) :=
  send_triggered_message dest (Some r_teid) (gtpv2c_msg_of GTP_CREATE_SESSION_RESPONSE l).
Definition send_delete_session_response (dest : endpoint) (r_teid : Z) (l : list gtpv2c_ie) :=
  send_triggered_message dest (Some r_teid) (gtpv2c_msg_of GTP_DELETE_SESSION_RESPONSE l).
Definition send_modify_bearer_response (dest : endpoint) (r_teid : Z) (l : list gtpv2c_ie) :=
  send_triggered_message dest (Some r_teid) (gtpv2c_msg_of GTP_MODIFY_BEARER_RESPONSE l).
Definition send_release_access_bearers_response (dest : endpoint) (r_teid : Z) (l : list gtpv2c_ie) :=
  send_triggered_message dest (Some r_teid) (gtpv2c_msg_of GTP_RELEASE_ACCESS_BEARERS_RESPONSE l).
Definition send_downlink_data_notification_acknowledge (dest : endpoint) (r_teid : Z) (l : list gtpv2c_ie) :=
  send_triggered_message dest (Some r_teid) (gtpv2c_msg_of GTP_DOWNLINK_DATA_NOTIFICATION_ACKNOWLEDGE l).

(** [time_out_event]: returns [handled] and the stack. *)
Definition time_out_event (timer_id task_id : Z) (s : gtpv2c_stack) : result stack_exn (bool * gtpv2c_stack) :=
  match ahm_find timer_id (msg_out_retry_timers s) with
  | Some seq =>
    let s := upd_retry (ahm_erase timer_id (msg_out_retry_timers s)) s in
    match ahm_find seq (pending_procedures s) with
    | Some p =>
      if retry_count p <? n3 s then
        match retry_msg p, remote_endpoint p with
        | Some m, Some dest =>
          let p := set_retry_timer_id 0 (set_retry_count (u8 (retry_count p + 1)) p) in
          '(p, s) ← start_msg_retry_timer p (t3_ms s) task_id (msg_seq m) s;
          '(bstream, m) ← of_gtpc (gtpv2c_msg_dump_to m);
          let s := upd_pending (ahm_assign seq (set_retry_msg m p) (pending_procedures s)) s in
          Val (true, emit (Send dest bstream) s)
        | _, _ => UB    (* null retry_msg dereferenced *)
        end
      else
        let s := emit (NotifyUlError (remote_endpoint p) (local_teid p) REMOTE_PEER_NOT_RESPONDING (gtpc_tx_id p)) s in
        Val (true, upd_pending (ahm_erase seq (pending_procedures s)) s)
    | None => Val (true, s)
    end
  | None =>
    match ahm_find timer_id (proc_cleanup_timers s) with
    | Some seq =>
      match ahm_find seq (pending_procedures s) with
      | Some p =>
        let s := upd_tx (ahm_erase (gtpc_tx_id p) (gtpc_tx_id2seq_num s)) s in
        let s := free_gtpc_tx_id (gtpc_tx_id p) s in
        let s := upd_cleanup (ahm_erase timer_id (proc_cleanup_timers s)) s in
        Val (true, upd_pending (ahm_erase seq (pending_procedures s)) s)
      | None => UB    (* end() dereferenced *)
      end
    | None => Val (false, s)
    end
  end.

(** ** Lemmas *)
Lemma insert_or_throw_Val {V} k (v : V) (m m' : M V) :
  insert_or_throw k v m = Val m' -> ahm_insert k v m = Some m'.
Proof. unfold insert_or_throw. destruct (ahm_insert k v m); by intros [= ->]. Qed.

Lemma find_insert_fresh {V} k (v : V) (m m' : M V) :
  ahm_insert k v m = Some m' -> ahm_find k m = None -> ahm_find k m' = Some v.
Proof. intros E Hk. by rewrite (ahm_find_insert _ _ _ _ _ E), decide_True, Hk. Qed.

Lemma find_insert_ne {V} k k' (v : V) (m m' : M V) :
  ahm_insert k v m = Some m' -> k' <> k -> ahm_find k' m' = ahm_find k' m.
Proof. intros E Hk. by rewrite (ahm_find_insert _ _ _ _ _ E), decide_False. Qed.

Lemma find_erase_eq {V} k (m : M V) : ahm_find k (ahm_erase k m) = None.
Proof. by rewrite ahm_find_erase, decide_True. Qed.

Lemma find_erase_ne {V} k k' (m : M V) : k' <> k -> ahm_find k' (ahm_erase k m) = ahm_find k' m.
Proof. intros. by rewrite ahm_find_erase, decide_False. Qed.

Lemma find_erase_Some {V} k k' (m : M V) v : ahm_find k' (ahm_erase k m) = Some v -> k' <> k /\ ahm_find k' m = Some v.
Proof. rewrite ahm_find_erase. by destruct (decide (k' = k)). Qed.

Lemma find_insert_Some {V} k k' (v w : V) (m m' : M V) :
  ahm_insert k v m = Some m' -> ahm_find k' m' = Some w -> k' = k \/ ahm_find k' m = Some w.
Proof. intros E. rewrite (ahm_find_insert _ _ _ _ _ E). destruct (decide (k' = k)); auto. Qed.

(** Some table cannot take one entry more. *)
Definition table_full (s : gtpv2c_stack) : Prop :=
  (exists k v, ahm_insert k v (gtpc_tx_id2seq_num s) = None) \/ (exists k v, ahm_insert k v (proc_cleanup_timers s) = None) \/
  (exists k v, ahm_insert k v (msg_out_retry_timers s) = None) \/ (exists k v, ahm_insert k v (pending_procedures s) = None).

Lemma insert_or_throw_cases {V} k (v : V) (m : M V) :
  (exists m', insert_or_throw k v m = Val m' /\ ahm_insert k v m = Some m') \/
  (insert_or_throw k v m = Throw AtomicHashMapFullError /\ exists k v, ahm_insert k v m = None).
Proof. unfold insert_or_throw. destruct (ahm_insert k v m) eqn:E; [left|right]; eauto. Qed.

(** ** The timer tables

    Every registered timer has been issued, and no timer is registered both as
    a retry timer and as a clean-up timer. *)
Record timer_tables_inv (s : gtpv2c_stack) : Prop := {
  ti_retry : forall t k, ahm_find t (msg_out_retry_timers s) = Some k ->
    ts_issued (timers_of s) t /\ ahm_find t (proc_cleanup_timers s) = None;
  ti_cleanup : forall t k, ahm_find t (proc_cleanup_timers s) = Some k -> ts_issued (timers_of s) t;
}.

Definition task_ok (task : Z) (s : gtpv2c_stack) : Prop := 0 < task < TASK_MAX /\ ts_headroom (timers_of s).

(** The invariant reads the two timer tables and the timers only. *)
Lemma timer_tables_inv_ext s s' :
  timer_tables_inv s -> msg_out_retry_timers s' = msg_out_retry_timers s -> proc_cleanup_timers s' = proc_cleanup_timers s ->
  (forall i, ts_issued (timers_of s) i -> ts_issued (timers_of s') i) -> timer_tables_inv s'.
Proof.
  intros [H1 H2] Er Ec Hi. split; rewrite ?Er, ?Ec; [|eauto].
  intros t k H. destruct (H1 t k H). auto.
Qed.

Lemma timer_tables_inv_fresh s t :
  timer_tables_inv s -> ~ ts_issued (timers_of s) t ->
  ahm_find t (msg_out_retry_timers s) = None /\ ahm_find t (proc_cleanup_timers s) = None.
Proof.
  intros [H1 H2] Hn. split.
  - destruct (ahm_find t (msg_out_retry_timers s)) eqn:E; [|done]. by apply H1 in E as [? _].
  - destruct (ahm_find t (proc_cleanup_timers s)) eqn:E; [|done]. by apply H2 in E.
Qed.

Lemma timer_tables_inv_erase_retry s t :
  timer_tables_inv s -> timer_tables_inv (upd_retry (ahm_erase t (msg_out_retry_timers s)) s).
Proof.
  intros [H1 H2]. split; simpl; [|done]. intros t' k H. apply find_erase_Some in H as [_ H]. eauto.
Qed.

Lemma timer_tables_inv_erase_cleanup s t :
  timer_tables_inv s -> timer_tables_inv (upd_cleanup (ahm_erase t (proc_cleanup_timers s)) s).
Proof.
  intros [H1 H2]. split; simpl.
  - intros t' k H. destruct (H1 t' k H) as [? Hc]. split; [done|]. rewrite ahm_find_erase. by case_decide.
  - intros t' k H. apply find_erase_Some in H as [_ H]. eauto.
Qed.

(** Starting a retry timer. *)
Lemma start_retry_spec p ms task seq s :
  timer_tables_inv s -> task_ok task s ->
  (start_msg_retry_timer p ms task seq s = Throw AtomicHashMapFullError /\ table_full s) \/
  exists id t m, start_msg_retry_timer p ms task seq s =
      Val (set_retry_timer_id id p, upd_retry m (upd_timers t s)) /\
    ahm_insert id seq (msg_out_retry_timers s) = Some m /\ id <> 0 /\ ~ ts_issued (timers_of s) id /\
    (forall i, ts_issued t i <-> ts_issued (timers_of s) i \/ i = id) /\
    timer_tables_inv (upd_retry m (upd_timers t s)).
Proof.
  intros Hi [Ht Hh]. unfold start_msg_retry_timer. destruct (ts_setup _ _ _ _) as [id t] eqn:E.
  destruct (ts_setup_fresh _ _ _ _ _ _ Hh Ht E) as (H0 & Hn & Hiss). apply Z.eqb_neq in H0 as H0'. rewrite H0'. simpl.
  destruct (insert_or_throw_cases id seq (msg_out_retry_timers s)) as [(m & -> & Em)|(-> & Hf)];
    [right|left; split; [done|by right; right; left]].
  exists id, t, m. split_and!; try done. destruct (timer_tables_inv_fresh s id Hi Hn) as [_ Hc]. destruct Hi as [H1 H2].
  split; simpl.
  - intros t' k H. apply (find_insert_Some _ _ _ _ _ _ Em) in H as [->|H]; [split; [|done]; apply Hiss; by right|].
    destruct (H1 t' k H). split; [|done]. apply Hiss. by left.
  - intros t' k H. apply Hiss. left. eauto.
Qed.

(** Starting a clean-up timer. *)
Lemma start_cleanup_spec p ms task seq s :
  timer_tables_inv s -> task_ok task s -> proc_cleanup_timer_id p = 0 ->
  (start_proc_cleanup_timer p ms task seq s = Throw AtomicHashMapFullError /\ table_full s) \/
  exists id t m, start_proc_cleanup_timer p ms task seq s =
      Val (set_cleanup_timer_id id p, upd_cleanup m (upd_timers t s)) /\
    ahm_insert id seq (proc_cleanup_timers s) = Some m /\ id <> 0 /\ ~ ts_issued (timers_of s) id /\
    (forall i, ts_issued t i <-> ts_issued (timers_of s) i \/ i = id) /\
    timer_tables_inv (upd_cleanup m (upd_timers t s)) /\ ts_setup (ms / 1000) (ms mod 1000 * 1000) task (timers_of s) = (id, t).
Proof.
  intros Hi [Ht Hh] Hp. unfold start_proc_cleanup_timer. rewrite Hp, Z.eqb_refl.
  destruct (ts_setup _ _ _ _) as [id t] eqn:E.
  destruct (ts_setup_fresh _ _ _ _ _ _ Hh Ht E) as (H0 & Hn & Hiss). simpl.
  destruct (insert_or_throw_cases id seq (proc_cleanup_timers s)) as [(m & -> & Em)|(-> & Hf)];
    [right|left; split; [done|by right; left]].
  exists id, t, m. split_and!; try done. destruct (timer_tables_inv_fresh s id Hi Hn) as [Hr _]. destruct Hi as [H1 H2].
  split; simpl.
  - intros t' k H. destruct (H1 t' k H) as [? Hc]. split; [apply Hiss; by left|].
    rewrite (find_insert_ne _ _ _ _ _ Em); [done|]. congruence.
  - intros t' k H. apply (find_insert_Some _ _ _ _ _ _ Em) in H as [->|H]; apply Hiss; eauto.
Qed.

Lemma stop_cleanup_spec p s :
  exists s', stop_proc_cleanup_timer p s = (set_cleanup_timer_id 0 p, s') /\
    s' = upd_retry (ahm_erase (proc_cleanup_timer_id p) (msg_out_retry_timers s))
           (upd_timers (ts_remove (proc_cleanup_timer_id p) (timers_of s)) s) /\
    (timer_tables_inv s -> timer_tables_inv s').
Proof.
  eexists. split; [done|]. split; [done|]. intros Hi.
  apply (timer_tables_inv_erase_retry (upd_timers _ s)).
  apply (timer_tables_inv_ext s); [done|done|done|]. intros i. simpl. by rewrite ts_remove_issued.
Qed.

(** ** Reception *)

(** A procedure with a retry timer holds the message to resend. *)
Definition holds_msg (p : gtpv2c_procedure) : Prop := retry_timer_id p <> 0 -> retry_msg p <> None.

(** The procedure, and the tables after a new request under [seq]. *)
Lemma receive_request_spec s msg task tx g :
  timer_tables_inv s -> task_ok task s -> fi_get (uids_of s) = Some (tx, g) ->
  ahm_find (msg_seq msg) (pending_procedures s) = None -> check_initial_message_type (msg_type msg) = true ->
  (handle_receive_message_cb msg task s = Some (Throw AtomicHashMapFullError) /\ table_full s) \/
  exists c t cl pend txs,
    let proc := mk_procedure None None 0 0 c tx (msg_type msg) 0 0 in
    handle_receive_message_cb msg task s =
      Some (Val (false, tx, mk_stack (t3_ms s) (n3 s) (seq_num s) txs cl (msg_out_retry_timers s) pend t g (outputs s))) /\
    ahm_insert c (msg_seq msg) (proc_cleanup_timers s) = Some cl /\
    ahm_insert (msg_seq msg) proc (pending_procedures s) = Some pend /\
    ahm_insert tx (msg_seq msg) (gtpc_tx_id2seq_num s) = Some txs /\
    c <> 0 /\ ~ ts_issued (timers_of s) c /\ (forall i, ts_issued t i <-> ts_issued (timers_of s) i \/ i = c) /\
    let ms := GTPV2C_PROC_TIME_OUT_MS (t3_ms s) (n3 s) in ts_setup (ms / 1000) (ms mod 1000 * 1000) task (timers_of s) = (c, t).
Proof.
  intros Hi Hok Eg Hp Hty. unfold handle_receive_message_cb. rewrite Hp, Hty, Eg. cbv zeta.
  destruct (start_cleanup_spec (mk_procedure None None 0 0 0 tx (msg_type msg) 0 0)
    (GTPV2C_PROC_TIME_OUT_MS (t3_ms (upd_uids g s)) (n3 (upd_uids g s))) task (msg_seq msg) (upd_uids g s))
    as [[-> Hf]|(c & t & cl & -> & Ecl & Hc0 & Hcn & Hiss & _ & Hset)]; [by destruct Hi|done|done|by left|].
  cbn [mbind result_bind pending_procedures upd_cleanup upd_timers upd_uids].
  destruct (insert_or_throw_cases (msg_seq msg) (set_cleanup_timer_id c (mk_procedure None None 0 0 0 tx (msg_type msg) 0 0))
    (pending_procedures s)) as [(pend & -> & Epd)|(-> & Hf)]; [|left; split; [done|by right; right; right]].
  cbn [mbind result_bind gtpc_tx_id2seq_num upd_pending upd_cleanup upd_timers upd_uids].
  destruct (insert_or_throw_cases tx (msg_seq msg) (gtpc_tx_id2seq_num s)) as [(txs & -> & Etx)|(-> & Hf)];
    [|left; split; [done|by left]].
  right. exists c, t, cl, pend, txs. done.
Qed.

(** The answer a pending procedure waits for. *)
Lemma receive_answer_spec s msg task p :
  ahm_find (msg_seq msg) (pending_procedures s) = Some p -> holds_msg p ->
  check_triggered_message_type (awaited p) (msg_type msg) = true ->
  exists s', handle_receive_message_cb msg task s = Some (Val (false, gtpc_tx_id p, s')) /\
    fi_live (uids_of s') = fi_live (uids_of s) ∖ {[gtpc_tx_id p]} /\
    (forall k, ahm_find k (pending_procedures s') = if decide (k = msg_seq msg) then None else ahm_find k (pending_procedures s)) /\
    (forall k, ahm_find k (gtpc_tx_id2seq_num s') = if decide (k = gtpc_tx_id p) then None else ahm_find k (gtpc_tx_id2seq_num s)) /\
    (forall k, ahm_find k (msg_out_retry_timers s') =
       if decide (k = proc_cleanup_timer_id p \/ (retry_timer_id p <> 0 /\ k = retry_timer_id p)) then None
       else ahm_find k (msg_out_retry_timers s)) /\
    proc_cleanup_timers s' = proc_cleanup_timers s /\ outputs s' = outputs s /\
    timers_of s' = ts_remove (proc_cleanup_timer_id p)
      (if decide (retry_timer_id p = 0) then timers_of s else ts_remove (retry_timer_id p) (timers_of s)) /\
    t3_ms s' = t3_ms s /\ n3 s' = n3 s /\ seq_num s' = seq_num s.
Proof.
  intros Hp Hm Ht. unfold handle_receive_message_cb. rewrite Hp, Ht.
  unfold stop_msg_retry_timer, ITTI_INVALID_TIMER_ID. destruct (Z.eqb_spec (retry_timer_id p) 0) as [E0|E0].
  - cbn [mbind result_bind]. eexists. split; [done|]. simpl. rewrite fi_free_live, decide_True by done.
    split_and!; try done; intros; try apply ahm_find_erase. rewrite ahm_find_erase. repeat case_decide; tauto.
  - specialize (Hm E0). destruct (retry_msg p) as [m|]; [|done].
    cbn [mbind result_bind]. eexists. split; [done|]. simpl. rewrite fi_free_live, decide_False by done.
    split_and!; try done; intros; try apply ahm_find_erase. rewrite !ahm_find_erase. repeat case_decide; tauto.
Qed.

(** C32 What becomes of a received GTPv2-C message, on every branch, with the whole
    state it leaves (the tables are read through find).  A request whose
    sequence number is not pending opens a transaction under a fresh id, which
    leads to the number of the request, and starts its clean-up timer, unless a
    table is full.  An accepted answer of a pending procedure closes it: its
    number and its transaction lead nowhere, its id is given back, both its
    timers are removed, and their entries erased from the table of
    retransmission timers (the entry of the clean-up timer stays in its own
    table).  Anything else is reported as an error and changes nothing. *)
Theorem gtp_receive_spec s msg task :
  timer_tables_inv s -> task_ok task s -> fi_get (uids_of s) <> None ->
  (forall p, ahm_find (msg_seq msg) (pending_procedures s) = Some p -> holds_msg p) ->
  exists r, handle_receive_message_cb msg task s = Some r /\
  let seq := msg_seq msg in
  match ahm_find seq (pending_procedures s) with
  | None =>
    if check_initial_message_type (msg_type msg) then
      (r = Throw AtomicHashMapFullError /\ table_full s) \/
      exists tx c s', r = Val (false, tx, s') /\
        (tx ∉ fi_live (uids_of s)) /\ fi_live (uids_of s') = {[tx]} ∪ fi_live (uids_of s) /\
        (forall k, ahm_find k (pending_procedures s') =
           if decide (k = seq) then Some (mk_procedure None None 0 0 c tx (msg_type msg) 0 0)
           else ahm_find k (pending_procedures s)) /\
        (forall k, ahm_find k (gtpc_tx_id2seq_num s') =
           if decide (k = tx) then Some (default seq (ahm_find tx (gtpc_tx_id2seq_num s)))
           else ahm_find k (gtpc_tx_id2seq_num s)) /\
        (forall t, ahm_find t (proc_cleanup_timers s') = if decide (t = c) then Some seq else ahm_find t (proc_cleanup_timers s)) /\
        (let ms := GTPV2C_PROC_TIME_OUT_MS (t3_ms s) (n3 s) in
         ts_setup (ms / 1000) (ms mod 1000 * 1000) task (timers_of s) = (c, timers_of s')) /\
        msg_out_retry_timers s' = msg_out_retry_timers s /\ outputs s' = outputs s /\
        t3_ms s' = t3_ms s /\ n3 s' = n3 s /\ seq_num s' = seq_num s
    else r = Val (true, 0, s)
  | Some p =>
    if check_triggered_message_type (awaited p) (msg_type msg) then
      exists s', r = Val (false, gtpc_tx_id p, s') /\
        fi_live (uids_of s') = fi_live (uids_of s) ∖ {[gtpc_tx_id p]} /\
        (forall k, ahm_find k (pending_procedures s') = if decide (k = seq) then None else ahm_find k (pending_procedures s)) /\
        (forall k, ahm_find k (gtpc_tx_id2seq_num s') =
           if decide (k = gtpc_tx_id p) then None else ahm_find k (gtpc_tx_id2seq_num s)) /\
        (forall k, ahm_find k (msg_out_retry_timers s') =
           if decide (k = proc_cleanup_timer_id p \/ (retry_timer_id p <> 0 /\ k = retry_timer_id p)) then None
           else ahm_find k (msg_out_retry_timers s)) /\
        proc_cleanup_timers s' = proc_cleanup_timers s /\ outputs s' = outputs s /\
        timers_of s' = ts_remove (proc_cleanup_timer_id p)
          (if decide (retry_timer_id p = 0) then timers_of s else ts_remove (retry_timer_id p) (timers_of s)) /\
        t3_ms s' = t3_ms s /\ n3 s' = n3 s /\ seq_num s' = seq_num s
    else r = Val (true, 0, s)
  end.
Proof.
  intros Hi Hok Hg Hm. cbv zeta. destruct (ahm_find (msg_seq msg) (pending_procedures s)) as [p|] eqn:Hp.
  - specialize (Hm p eq_refl). destruct (check_triggered_message_type (awaited p) (msg_type msg)) eqn:Ht.
    + destruct (receive_answer_spec s msg task p Hp Hm Ht) as (s' & E & H). eexists. split; [exact E|]. by exists s'.
    + eexists. split; [|done]. unfold handle_receive_message_cb. by rewrite Hp, Ht.
  - destruct (fi_get (uids_of s)) as [[tx g]|] eqn:Eg; [|done].
    destruct (check_initial_message_type (msg_type msg)) eqn:Hty;
      [|exists (Val (true, 0, s)); split; [unfold handle_receive_message_cb; by rewrite Hp, Hty|done]].
    destruct (receive_request_spec s msg task tx g Hi Hok Eg Hp Hty) as
      [[E Hf]|(c & t & cl & pend & txs & E & Ecl & Epd & Etx & Hc0 & Hcn & Hiss & Hset)]; eexists; (split; [exact E|]); [by left|right].
    destruct (fi_get_fresh _ _ _ Eg) as [Hfr Hlive]. destruct (timer_tables_inv_fresh s c Hi Hcn) as [_ Hc].
    eexists tx, c, _. split; [done|]. simpl. split_and!; try done.
    + intros k. by rewrite (ahm_find_insert _ _ _ _ _ Epd), Hp.
    + intros k. rewrite (ahm_find_insert _ _ _ _ _ Etx). by destruct (ahm_find tx _).
    + intros k. by rewrite (ahm_find_insert _ _ _ _ _ Ecl), Hc.
Qed.

(** A received request that the application never answers is forgotten when
    its clean-up timer fires: the event is handled, the sequence number, the
    transaction id and the timer are free again. *)
Theorem gtp_received_expires s msg task task' tx s1 :
  timer_tables_inv s -> task_ok task s -> ahm_find (msg_seq msg) (pending_procedures s) = None ->
  handle_receive_message_cb msg task s = Some (Val (false, tx, s1)) ->
  exists c s2, ahm_find c (proc_cleanup_timers s1) = Some (msg_seq msg) /\
    time_out_event c task' s1 = Val (true, s2) /\
    (forall k, ahm_find k (pending_procedures s2) = ahm_find k (pending_procedures s)) /\
    (forall t, ahm_find t (proc_cleanup_timers s2) = ahm_find t (proc_cleanup_timers s)) /\
    ahm_find tx (gtpc_tx_id2seq_num s2) = None /\ fi_live (uids_of s2) = fi_live (uids_of s).
Proof.
  intros Hi Hok Hp E. destruct (check_initial_message_type (msg_type msg)) eqn:Hty;
    [|unfold handle_receive_message_cb in E; by rewrite Hp, Hty in E].
  destruct (fi_get (uids_of s)) as [[tx' g]|] eqn:Eg;
    [|unfold handle_receive_message_cb in E; by rewrite Hp, Hty, Eg in E].
  destruct (receive_request_spec s msg task tx' g Hi Hok Eg Hp Hty) as
    [[E' Hf]|(c & t & cl & pend & txs & E' & Ecl & Epd & Etx & Hc0 & Hcn & Hiss & Hset)]; rewrite E' in E; [done|].
  injection E as <- <-. destruct (fi_get_fresh _ _ _ Eg) as [Hfr Hlive].
  destruct (timer_tables_inv_fresh s c Hi Hcn) as [Hcr Hcc].
  pose proof (find_insert_fresh _ _ _ _ Ecl Hcc) as Hf1. pose proof (find_insert_fresh _ _ _ _ Epd Hp) as Hf2.
  eexists c, _. split; [exact Hf1|]. unfold time_out_event. simpl. rewrite Hcr, Hf1, Hf2. simpl.
  split; [reflexivity|]. simpl. split_and!.
  - intros k. rewrite ahm_find_erase, (ahm_find_insert _ _ _ _ _ Epd). case_decide; [by subst|done].
  - intros k. rewrite ahm_find_erase, (ahm_find_insert _ _ _ _ _ Ecl). case_decide; [by subst|done].
  - apply find_erase_eq.
  - rewrite fi_free_live, Hlive. set_solver.
Qed.

(** ** Answering *)

Definition with_teid (r_teid : option Z) (m : gtpv2c_msg) : gtpv2c_msg :=
  match r_teid with Some tid => gtp_map_header (set_teid tid) m | None => m end.

(** A request is answered under its own sequence number: the response
    carries the number of the request, the procedure is forgotten, and both
    the transaction id and its entry are given back.  The clean-up timer of
    the procedure stays registered, and if its expiry is already on its way
    to the task, time_out_event dereferences the end() iterator. *)
Theorem gtp_request_answered s msg task task' tx s1 dest r_teid m b m' :
  timer_tables_inv s -> task_ok task s -> ahm_find (msg_seq msg) (pending_procedures s) = None ->
  handle_receive_message_cb msg task s = Some (Val (false, tx, s1)) -> ahm_find tx (gtpc_tx_id2seq_num s) = None ->
  gtpv2c_msg_dump_to (gtp_map_header (gtp_set_sequence_number (msg_seq msg)) (with_teid r_teid m)) = Val (b, m') ->
  exists s2 c, send_triggered_message dest r_teid m tx DELETE_TX s1 = Val s2 /\
    outputs s2 = outputs s ++ [Send dest b] /\
    (forall k, ahm_find k (pending_procedures s2) = ahm_find k (pending_procedures s)) /\
    (forall k, ahm_find k (gtpc_tx_id2seq_num s2) = ahm_find k (gtpc_tx_id2seq_num s)) /\
    fi_live (uids_of s2) = fi_live (uids_of s) /\
    ahm_find c (proc_cleanup_timers s2) = Some (msg_seq msg) /\
    time_out_event c task' s2 = UB.
Proof.
  intros Hi Hok Hp E Htx Hd. destruct (check_initial_message_type (msg_type msg)) eqn:Hty;
    [|unfold handle_receive_message_cb in E; by rewrite Hp, Hty in E].
  destruct (fi_get (uids_of s)) as [[tx' g]|] eqn:Eg;
    [|unfold handle_receive_message_cb in E; by rewrite Hp, Hty, Eg in E].
  destruct (receive_request_spec s msg task tx' g Hi Hok Eg Hp Hty) as
    [[E' Hf]|(c & t & cl & pend & txs & E' & Ecl & Epd & Etx & Hc0 & Hcn & Hiss & Hset)]; rewrite E' in E; [done|].
  injection E as <- <-. destruct (fi_get_fresh _ _ _ Eg) as [Hfr Hlive].
  destruct (timer_tables_inv_fresh s c Hi Hcn) as [Hcr Hcc].
  pose proof (find_insert_fresh _ _ _ _ Ecl Hcc) as Hf1. pose proof (find_insert_fresh _ _ _ _ Epd Hp) as Hf2.
  pose proof (find_insert_fresh _ _ _ _ Etx Htx) as Hf3.
  unfold send_triggered_message. cbn [gtpc_tx_id2seq_num]. rewrite Hf3. fold (with_teid r_teid m). rewrite Hd.
  cbn [of_gtpc mbind result_bind pending_procedures emit]. rewrite Hf2. simpl.
  eexists _, c. split; [reflexivity|]. simpl. split_and!; try done.
  - intros k. rewrite ahm_find_erase, (ahm_find_insert _ _ _ _ _ Epd). case_decide; [by subst|done].
  - intros k. rewrite ahm_find_erase, (ahm_find_insert _ _ _ _ _ Etx). case_decide; [by subst|done].
  - rewrite fi_free_live, Hlive. set_solver.
  - unfold time_out_event. simpl. by rewrite find_erase_eq, Hf1, find_erase_eq.
Qed.

(** ** Retransmission *)

(** The message [send_initial_message] numbers and writes. *)
Definition numbered (teids : option (Z * Z)) (m : gtpv2c_msg) (s : gtpv2c_stack) : gtpv2c_msg :=
  gtp_map_header (gtp_set_sequence_number (get_next_seq_num s).1) (with_teid (fst <$> teids) m).

Definition teid_of (teids : option (Z * Z)) : Z := match teids with Some (_, l) => l | None => 0 end.

(** The timers can be set up twice in a row. *)
Definition task_ok2 (task : Z) (s : gtpv2c_stack) : Prop :=
  task_ok task s /\ forall sec us id t, ts_setup sec us task (timers_of s) = (id, t) -> ts_headroom t.

Lemma start_retry_headroom p ms task seq s p' s' :
  (forall sec us id t, ts_setup sec us task (timers_of s) = (id, t) -> ts_headroom t) ->
  start_msg_retry_timer p ms task seq s = Val (p', s') -> ts_headroom (timers_of s').
Proof.
  intros Hh. unfold start_msg_retry_timer. destruct (ts_setup _ _ _ _) as [id t] eqn:E. apply Hh in E.
  destruct (id =? _); [by intros [= _ <-]|]. destruct (insert_or_throw _ _ _); try done. by intros [= _ <-].
Qed.

(** The retry timer of the procedure pending under [seq] expires [k] times. *)
Inductive fires (seq task : Z) : nat -> gtpv2c_stack -> gtpv2c_stack -> Prop :=
| fires_0 s : fires seq task 0 s s
| fires_S k s s1 p s2 :
    fires seq task k s s1 -> task_ok task s1 ->
    ahm_find seq (pending_procedures s1) = Some p ->
    time_out_event (retry_timer_id p) task s1 = Val (true, s2) ->
    fires seq task (S k) s s2.

(** The procedure pending under [seq] after [k] expiries; [c] is its clean-up
    timer. *)
Record retransmitting (seq tx l_teid c : Z) (k : nat) (m : gtpv2c_msg) (dest : endpoint) (s : gtpv2c_stack) : Prop := {
  rt_inv : timer_tables_inv s;
  rt_proc : exists r, ahm_find seq (pending_procedures s) =
      Some (mk_procedure (Some m) (Some dest) l_teid r c tx (msg_type m) 0 (Z.of_nat k)) /\
    ahm_find r (msg_out_retry_timers s) = Some seq;
  rt_cleanup : ahm_find c (proc_cleanup_timers s) = Some seq;
}.

Lemma cleanup_no_retry s c seq :
  timer_tables_inv s -> ahm_find c (proc_cleanup_timers s) = Some seq -> ahm_find c (msg_out_retry_timers s) = None.
Proof.
  intros Hi Hc. destruct (ahm_find c (msg_out_retry_timers s)) eqn:E; [|done].
  apply (ti_retry _ Hi) in E as [_ E]. congruence.
Qed.

Lemma gtp_retransmit_once s seq tx l_teid c k task m b dest :
  task_ok task s -> gtpv2c_msg_dump_to m = Val (b, m) -> msg_seq m = seq ->
  retransmitting seq tx l_teid c k m dest s -> Z.of_nat k < n3 s < 256 ->
  exists p, ahm_find seq (pending_procedures s) = Some p /\
    ((time_out_event (retry_timer_id p) task s = Throw AtomicHashMapFullError) \/
     exists s', time_out_event (retry_timer_id p) task s = Val (true, s') /\
       retransmitting seq tx l_teid c (S k) m dest s' /\ n3 s' = n3 s /\
       outputs s' = outputs s ++ [Send dest b]).
Proof.
  intros Hok Hd Hseq [Hi (r & Hp & Hr) Hc] Hk. eexists. split; [exact Hp|]. simpl.
  unfold time_out_event. rewrite Hr. cbn [pending_procedures upd_retry n3]. rewrite Hp. cbn [retry_count retry_msg remote_endpoint].
  replace (Z.of_nat k <? n3 s) with true by (symmetry; apply Z.ltb_lt; lia).
  set (s1 := upd_retry (ahm_erase r (msg_out_retry_timers s)) s).
  pose proof (timer_tables_inv_erase_retry s r Hi : timer_tables_inv s1) as Hi1.
  match goal with |- context [start_msg_retry_timer ?p ?ms ?task ?sq ?s] =>
    destruct (start_retry_spec p ms task sq s Hi1 Hok) as [[-> _]|(id & t & mm & -> & Em & H0 & Hn & Hiss & Hi2)] end;
    [by left|right].
  cbn [mbind result_bind]. rewrite Hd. cbn [of_gtpc mbind result_bind]. eexists. split; [reflexivity|]. split; [|done].
  pose proof (proj1 (timer_tables_inv_fresh s1 id Hi1 Hn)) as Hfr.
  split.
  - eapply timer_tables_inv_ext; [exact Hi2|done|done|done].
  - exists id. simpl. split.
    + rewrite (ahm_find_assign _ _ _ _ _ Hp), decide_True by done. rewrite wrapu_id by (unfold fits; lia).
      unfold set_retry_msg. simpl. do 2 f_equal. lia.
    + rewrite Hseq in Em. exact (find_insert_fresh _ _ _ _ Em Hfr).
  - exact Hc.
Qed.

Lemma gtp_fires_spec s0 s seq tx l_teid c k task m b dest :
  retransmitting seq tx l_teid c 0 m dest s0 -> gtpv2c_msg_dump_to m = Val (b, m) -> msg_seq m = seq ->
  fires seq task k s0 s -> Z.of_nat k <= n3 s0 < 256 ->
  retransmitting seq tx l_teid c k m dest s /\ n3 s = n3 s0 /\ outputs s = outputs s0 ++ replicate k (Send dest b).
Proof.
  intros H0 Hd Hseq Hf. induction Hf as [s0|k s0 s1 p s2 Hf IH Hok Hp Hev]; intros Hk.
  - by rewrite app_nil_r.
  - destruct (IH H0 ltac:(lia)) as (Hr & Hn & Ho).
    destruct (gtp_retransmit_once s1 seq tx l_teid c k task m b dest Hok Hd Hseq Hr ltac:(lia))
      as (p' & Hp' & [E|(s' & E & Hr2 & Hn2 & Ho2)]); assert (p' = p) as -> by congruence; [congruence|].
    assert (s' = s2) as -> by congruence. split_and!; [done|congruence|].
    rewrite Ho2, Ho, <- app_assoc. f_equal. symmetry. apply replicate_S_end.
Qed.

(** The expiry after the last retransmission, and the clean-up expiry. *)
Lemma gtp_retransmit_give_up s seq tx l_teid c k task task' m dest :
  retransmitting seq tx l_teid c k m dest s -> Z.of_nat k = n3 s ->
  exists p s', ahm_find seq (pending_procedures s) = Some p /\
    time_out_event (retry_timer_id p) task s = Val (true, s') /\
    outputs s' = outputs s ++ [NotifyUlError (Some dest) l_teid REMOTE_PEER_NOT_RESPONDING tx] /\
    ahm_find seq (pending_procedures s') = None /\ gtpc_tx_id2seq_num s' = gtpc_tx_id2seq_num s /\
    uids_of s' = uids_of s /\ time_out_event c task' s' = UB.
Proof.
  intros [Hi (r & Hp & Hr) Hc] Hk. pose proof (cleanup_no_retry s c seq Hi Hc) as Hcr.
  eexists _, _. split; [exact Hp|]. split.
  { unfold time_out_event. cbn [retry_timer_id]. rewrite Hr. cbn [pending_procedures upd_retry n3]. rewrite Hp.
    cbn [retry_count]. rewrite Hk, Z.ltb_irrefl. reflexivity. }
  simpl. split_and!; try done; [apply find_erase_eq|].
  unfold time_out_event. simpl. rewrite ahm_find_erase, Hcr, Hc, find_erase_eq. by case_decide.
Qed.

(** What [send_initial_message] leaves behind. *)
Lemma send_initial_spec s dest teids m task tx seq s0 b m' :
  timer_tables_inv s -> task_ok2 task s -> gtpv2c_msg_dump_to (numbered teids m s) = Val (b, m') ->
  ahm_find (msg_seq m') (pending_procedures s) = None ->
  send_initial_message dest teids m task tx s = Val (seq, s0) ->
  seq = msg_seq m' /\ n3 s0 = n3 s /\ outputs s0 = outputs s ++ [SendAllocated dest b] /\
  exists c, retransmitting seq tx (teid_of teids) c 0 m' dest s0.
Proof.
  intros Hi [Hok Hok2] Hd Hp. unfold send_initial_message.
  assert (match teids with Some (r, _) => gtp_map_header (set_teid r) m | None => m end = with_teid (fst <$> teids) m) as ->
    by (destruct teids as [[? ?]|]; done).
  unfold numbered in Hd. destruct (get_next_seq_num s) as [n s1] eqn:En. cbn [fst] in Hd. rewrite Hd.
  injection En as _ <-. set (s1 := upd_seq _ s). cbn [of_gtpc mbind result_bind]. cbv zeta.
  assert (timer_tables_inv s1) as Hi1 by (by apply (timer_tables_inv_ext s)).
  fold (teid_of teids).
  match goal with |- context [start_msg_retry_timer ?p ?ms ?task ?sq ?s] =>
    destruct (start_retry_spec p ms task sq s Hi1 Hok) as [[-> _]|(r & t & mm & Es & Em & H0 & Hn & Hiss & Hi2)] end; [done|].
  rewrite Es. cbn [mbind result_bind].
  set (s2 := upd_retry mm (upd_timers t s1)) in *.
  assert (task_ok task s2) as Hok' by (split; [apply Hok|exact (start_retry_headroom _ _ _ _ s1 _ _ Hok2 Es)]).
  match goal with |- context [start_proc_cleanup_timer ?p ?ms ?task ?sq ?s] =>
    destruct (start_cleanup_spec p ms task sq s Hi2 Hok' eq_refl) as [[-> _]|(c & t2 & cm & -> & Ecm & Hc0 & Hcn & Hiss2 & Hi3 & _)] end; [done|].
  cbn [mbind result_bind pending_procedures upd_cleanup upd_timers upd_retry upd_seq s2 s1].
  match goal with |- context [insert_or_throw (msg_seq m') ?p ?mp] =>
    destruct (insert_or_throw_cases (msg_seq m') p mp) as [(pend & -> & Epd)|(-> & _)] end; [|done].
  cbn [mbind result_bind gtpc_tx_id2seq_num upd_pending upd_cleanup upd_timers upd_retry upd_seq s2 s1].
  destruct (insert_or_throw_cases tx (msg_seq m') (gtpc_tx_id2seq_num s)) as [(txs & -> & Etx)|(-> & _)]; [|done].
  cbn [mbind result_bind]. intros [= <- <-]. split_and!; try done.
  destruct (timer_tables_inv_fresh s1 r Hi1 Hn) as [Hfr _]. destruct (timer_tables_inv_fresh s2 c Hi2 Hcn) as [_ Hfc].
  exists c. split.
  - eapply timer_tables_inv_ext; [exact Hi3|done|done|done].
  - exists r. simpl. split; [|exact (find_insert_fresh _ _ _ _ Em Hfr)].
    exact (find_insert_fresh _ _ _ _ Epd Hp).
  - exact (find_insert_fresh _ _ _ _ Ecm Hfc).
Qed.

(** It returns, unless a table is full. *)
Lemma send_initial_returns s dest teids m task tx b m' :
  timer_tables_inv s -> task_ok2 task s -> gtpv2c_msg_dump_to (numbered teids m s) = Val (b, m') ->
  send_initial_message dest teids m task tx s = Throw AtomicHashMapFullError \/
  exists seq s0, send_initial_message dest teids m task tx s = Val (seq, s0).
Proof.
  intros Hi [Hok Hok2] Hd. unfold send_initial_message.
  assert (match teids with Some (r, _) => gtp_map_header (set_teid r) m | None => m end = with_teid (fst <$> teids) m) as ->
    by (destruct teids as [[? ?]|]; done).
  unfold numbered in Hd. destruct (get_next_seq_num s) as [n s1] eqn:En. cbn [fst] in Hd. rewrite Hd.
  injection En as _ <-. set (s1 := upd_seq _ s). cbn [of_gtpc mbind result_bind]. cbv zeta.
  assert (timer_tables_inv s1) as Hi1 by (by apply (timer_tables_inv_ext s)).
  match goal with |- context [start_msg_retry_timer ?p ?ms ?task ?sq ?s] =>
    destruct (start_retry_spec p ms task sq s Hi1 Hok) as [[-> _]|(r & t & mm & Es & _ & _ & _ & _ & Hi2)] end; [by left|].
  rewrite Es. cbn [mbind result_bind].
  set (s2 := upd_retry mm (upd_timers t s1)) in *.
  assert (task_ok task s2) as Hok' by (split; [apply Hok|exact (start_retry_headroom _ _ _ _ s1 _ _ Hok2 Es)]).
  match goal with |- context [start_proc_cleanup_timer ?p ?ms ?task ?sq ?s] =>
    destruct (start_cleanup_spec p ms task sq s Hi2 Hok' eq_refl) as [[-> _]|(c & t2 & cm & -> & _)] end; [by left|].
  cbn [mbind result_bind].
  destruct (insert_or_throw_cases (msg_seq m') (set_cleanup_timer_id c (set_retry_timer_id r
    (mk_procedure (Some m') (Some dest) (teid_of teids) 0 0 tx (msg_type m') 0 0))) (pending_procedures s)) as [(pend & Ep & _)|(Ep & _)];
    cbn [pending_procedures upd_cleanup upd_timers upd_retry upd_seq s2 s1]; unfold teid_of in Ep; rewrite Ep; [|by left].
  cbn [mbind result_bind gtpc_tx_id2seq_num upd_pending upd_cleanup upd_timers upd_retry upd_seq s2 s1].
  destruct (insert_or_throw_cases tx (msg_seq m') (gtpc_tx_id2seq_num s)) as [(txs & -> & _)|(-> & _)]; [right|by left].
  cbn [mbind result_bind]. by eexists _, _.
Qed.

(** C31 Retransmission: after a request is sent, each expiry of its retry timer
    sends the same bytes to the same endpoint again, N3 times (or a table is
    full).  The next expiry tells the application that the peer does not
    respond and forgets the procedure; the transaction id is not given back,
    and the clean-up timer, still running and still registered, then
    dereferences the end() iterator: a peer that never answers ends in
    undefined behaviour. *)
Theorem unanswered_request_ub s dest teids m task tx seq s0 b m' :
  timer_tables_inv s -> task_ok2 task s -> 0 <= n3 s < 256 ->
  gtpv2c_msg_dump_to (numbered teids m s) = Val (b, m') -> gtpv2c_msg_dump_to m' = Val (b, m') ->
  ahm_find (msg_seq m') (pending_procedures s) = None ->
  send_initial_message dest teids m task tx s = Val (seq, s0) ->
  outputs s0 = outputs s ++ [SendAllocated dest b] /\
  forall k s1, fires seq task k s0 s1 -> Z.of_nat k <= n3 s ->
    outputs s1 = outputs s0 ++ replicate k (Send dest b) /\
    exists p, ahm_find seq (pending_procedures s1) = Some p /\
      (Z.of_nat k < n3 s -> task_ok task s1 ->
         time_out_event (retry_timer_id p) task s1 = Throw AtomicHashMapFullError \/
         exists s2, time_out_event (retry_timer_id p) task s1 = Val (true, s2)) /\
      (Z.of_nat k = n3 s -> exists s2,
         time_out_event (retry_timer_id p) task s1 = Val (true, s2) /\
         outputs s2 = outputs s1 ++ [NotifyUlError (Some dest) (teid_of teids) REMOTE_PEER_NOT_RESPONDING tx] /\
         ahm_find seq (pending_procedures s2) = None /\ uids_of s2 = uids_of s1 /\
         exists c, ahm_find c (proc_cleanup_timers s0) = Some seq /\ time_out_event c task s2 = UB).
Proof.
  intros Hi Hok Hn3 Hd Hd' Hp E.
  destruct (send_initial_spec s dest teids m task tx seq s0 b m' Hi Hok Hd Hp E) as (Hseq & Hn & Ho & c & Hr).
  split; [done|]. intros k s1 Hf Hk.
  destruct (gtp_fires_spec s0 s1 seq tx (teid_of teids) c k task m' b dest Hr Hd' (eq_sym Hseq) Hf ltac:(lia)) as (Hr1 & Hn1 & Ho1).
  split; [done|]. destruct (rt_proc _ _ _ _ _ _ _ _ Hr1) as (r & Hpp & _). eexists. split; [exact Hpp|]. split.
  - intros Hlt Hok1.
    destruct (gtp_retransmit_once s1 seq tx (teid_of teids) c k task m' b dest Hok1 Hd' (eq_sym Hseq) Hr1 ltac:(lia))
      as (p & Hp' & H). rewrite Hpp in Hp'. injection Hp' as <-. destruct H as [H|(s2 & H & _)]; eauto.
  - intros Hkn. destruct (gtp_retransmit_give_up s1 seq tx (teid_of teids) c k task task m' dest Hr1 ltac:(lia))
      as (p & s2 & Hp' & E1 & E2 & E3 & _ & E4 & E5). rewrite Hpp in Hp'. injection Hp' as <-.
    exists s2. split_and!; try done. exists c. split; [apply (rt_cleanup _ _ _ _ _ _ _ _ Hr)|done].
Qed.

(** ** Every run *)
Inductive gtp_op :=
| OpReceive (msg : gtpv2c_msg) (task : Z)
| OpInitial (dest : endpoint) (teids : option (Z * Z)) (m : gtpv2c_msg) (task tx : Z)
| OpTriggered (dest : endpoint) (r_teid : option Z) (m : gtpv2c_msg) (tx : Z) (a : gtpv2c_transaction_action)
| OpTimeOut (timer_id task : Z)
| OpOthers (t : T) (g : G).

(** [None]: the id generator does not return. *)
Definition gtp_exec (op : gtp_op) (s : gtpv2c_stack) : option (result stack_exn gtpv2c_stack) :=
  match op with
  | OpReceive msg task => r ← handle_receive_message_cb msg task s; Some ('(_, _, s) ← r; Val s)
  | OpInitial dest teids m task tx => Some ('(_, s) ← send_initial_message dest teids m task tx s; Val s)
  | OpTriggered dest r_teid m tx a => Some (send_triggered_message dest r_teid m tx a s)
  | OpTimeOut timer_id task => Some ('(_, s) ← time_out_event timer_id task s; Val s)
  | OpOthers t g => Some (Val (upd_uids g (upd_timers t s)))
  end.

Definition op_guard (op : gtp_op) (s : gtpv2c_stack) : Prop :=
  match op with
  | OpReceive _ task | OpTimeOut _ task => task_ok task s
  | OpInitial _ _ _ task _ => task_ok2 task s
  | OpTriggered _ _ _ _ _ => True
  | OpOthers t _ => forall i, ts_issued (timers_of s) i -> ts_issued t i
  end.

Inductive gtp_reach : gtpv2c_stack -> gtpv2c_stack -> Prop :=
| reach_refl s : gtp_reach s s
| reach_step op s1 s2 s3 :
    gtp_reach s1 s2 -> op_guard op s2 -> gtp_exec op s2 = Some (Val s3) -> gtp_reach s1 s3.

Lemma receive_timers s msg task e tx s' :
  timer_tables_inv s -> task_ok task s -> handle_receive_message_cb msg task s = Some (Val (e, tx, s')) -> timer_tables_inv s'.
Proof.
  intros Hi Hok. unfold handle_receive_message_cb.
  destruct (ahm_find (msg_seq msg) (pending_procedures s)) as [p|].
  - destruct (check_triggered_message_type _ _); [|by intros [= _ _ <-]].
    assert (forall p1 s1, (if retry_timer_id p =? 0 then Val (p, s) else stop_msg_retry_timer p s) = Val (p1, s1) -> timer_tables_inv s1) as Hs.
    { intros p1 s1. unfold stop_msg_retry_timer. destruct (retry_timer_id p =? 0); [by intros [= _ <-]|].
      destruct (_ =? _); [by intros [= _ <-]|]. destruct (retry_msg p); [|done]. intros [= _ <-].
      apply (timer_tables_inv_erase_retry (upd_timers _ s)). apply (timer_tables_inv_ext s); try done.
      intros i. simpl. by rewrite ts_remove_issued. }
    destruct (if retry_timer_id p =? 0 then _ else _) as [[p1 s1]| | |]; try done. specialize (Hs _ _ eq_refl).
    cbn [mbind result_bind]. destruct (stop_cleanup_spec p1 s1) as (s2 & -> & _ & H). intros [= _ _ <-].
    apply H in Hs. by apply (timer_tables_inv_ext s2).
  - destruct (check_initial_message_type _); [|by intros [= _ _ <-]].
    destruct (fi_get (uids_of s)) as [[u g]|]; [|done]. cbv zeta.
    match goal with |- context [start_proc_cleanup_timer ?p ?ms ?task ?sq ?s] =>
      destruct (start_cleanup_spec p ms task sq s) as [[-> _]|(c & t2 & cm & -> & _ & _ & _ & _ & Hi3 & _)] end; try done.
    { by apply (timer_tables_inv_ext s). }
    cbn [mbind result_bind]. destruct (insert_or_throw (msg_seq msg) _ _); try done. cbn [mbind result_bind].
    destruct (insert_or_throw u _ _); try done. cbn [mbind result_bind]. intros [= _ _ <-]. by eapply timer_tables_inv_ext.
Qed.

Lemma initial_timers s dest teids m task tx seq s' :
  timer_tables_inv s -> task_ok2 task s -> send_initial_message dest teids m task tx s = Val (seq, s') -> timer_tables_inv s'.
Proof.
  intros Hi [Hok Hok2]. unfold send_initial_message. destruct (get_next_seq_num s) as [n s1] eqn:En.
  injection En as _ <-. set (s1 := upd_seq _ s). assert (timer_tables_inv s1) as Hi1 by (by apply (timer_tables_inv_ext s)).
  destruct (of_gtpc _) as [[b m']| | |]; try done. cbn [mbind result_bind]. cbv zeta.
  match goal with |- context [start_msg_retry_timer ?p ?ms ?task ?sq ?s] =>
    destruct (start_retry_spec p ms task sq s Hi1 Hok) as [[-> _]|(r & t & mm & Es & _ & _ & _ & _ & Hi2)] end; [done|].
  rewrite Es. cbn [mbind result_bind].
  pose proof (start_retry_headroom _ _ _ _ s1 _ _ Hok2 Es : ts_headroom t) as Hh.
  match goal with |- context [start_proc_cleanup_timer ?p ?ms ?task ?sq ?s] =>
    destruct (start_cleanup_spec p ms task sq s Hi2 (conj (proj1 Hok) Hh) eq_refl)
      as [[-> _]|(c & t2 & cm & -> & _ & _ & _ & _ & Hi3 & _)] end; [done|].
  cbn [mbind result_bind]. destruct (insert_or_throw (msg_seq m') _ _); try done. cbn [mbind result_bind].
  destruct (insert_or_throw tx _ _); try done. cbn [mbind result_bind]. intros [= _ <-]. by eapply timer_tables_inv_ext.
Qed.

Lemma triggered_timers s dest r_teid m tx a s' :
  timer_tables_inv s -> send_triggered_message dest r_teid m tx a s = Val s' -> timer_tables_inv s'.
Proof.
  intros Hi. unfold send_triggered_message. destruct (ahm_find tx _) as [seq|]; [|by intros [= <-]].
  destruct (of_gtpc _) as [[b m']| | |]; try done. cbn [mbind result_bind].
  assert (timer_tables_inv (emit (Send dest b) s)) as Hi1 by (by apply (timer_tables_inv_ext s)).
  destruct a; [|by intros [= <-]]. destruct (ahm_find seq _) as [p|]; [|intros [= <-]; by eapply timer_tables_inv_ext].
  destruct (stop_cleanup_spec p (emit (Send dest b) s)) as (s2 & -> & _ & H). intros [= <-]. apply H in Hi1.
  by eapply timer_tables_inv_ext.
Qed.

Lemma timeout_timers s timer_id task h s' :
  timer_tables_inv s -> task_ok task s -> time_out_event timer_id task s = Val (h, s') -> timer_tables_inv s'.
Proof.
  intros Hi Hok. unfold time_out_event. destruct (ahm_find timer_id (msg_out_retry_timers s)) as [seq|].
  - pose proof (timer_tables_inv_erase_retry s timer_id Hi) as Hi1. cbv zeta.
    destruct (ahm_find seq _) as [p|]; [|by intros [= _ <-]].
    destruct (retry_count p <? n3 _); [|intros [= _ <-]; by eapply timer_tables_inv_ext].
    destruct (retry_msg p) as [m|], (remote_endpoint p) as [d|]; try done.
    match goal with |- context [start_msg_retry_timer ?p ?ms ?task ?sq ?s] =>
      destruct (start_retry_spec p ms task sq s Hi1 Hok) as [[-> _]|(r & t & mm & -> & _ & _ & _ & _ & Hi2)] end; [done|].
    cbn [mbind result_bind]. destruct (of_gtpc _) as [[b m']| | |]; try done. cbn [mbind result_bind].
    intros [= _ <-]. by eapply timer_tables_inv_ext.
  - destruct (ahm_find timer_id (proc_cleanup_timers s)) as [seq|]; [|by intros [= _ <-]].
    destruct (ahm_find seq _) as [p|]; [|done]. intros [= _ <-].
    pose proof (timer_tables_inv_erase_cleanup s timer_id Hi) as Hi1. by eapply timer_tables_inv_ext.
Qed.

Lemma exec_timers op s s' :
  timer_tables_inv s -> op_guard op s -> gtp_exec op s = Some (Val s') -> timer_tables_inv s'.
Proof.
  intros Hi Hg. destruct op; simpl in *.
  - destruct (handle_receive_message_cb msg task s) as [[[[e tx] s1]| | |]|] eqn:E; try done.
    intros [= <-]. by eapply receive_timers.
  - destruct (send_initial_message _ _ _ _ _ _) as [[q s1]| | |] eqn:E; try done. intros [= <-]. by eapply initial_timers.
  - intros [= E]. by eapply triggered_timers.
  - destruct (time_out_event _ _ _) as [[h s1]| | |] eqn:E; try done. intros [= <-]. by eapply timeout_timers.
  - intros [= <-]. by apply (timer_tables_inv_ext s).
Qed.

(** In every state the stack can reach, however receptions, requests,
    responses and time-outs follow each other, a registered timer has been
    issued by the timer service and is registered in one of the two tables
    only: time_out_event never takes the expiry of a clean-up timer for a
    retransmission, nor the reverse. *)
Theorem gtp_timers_disjoint t3 n ns t g s :
  gtp_reach (gtpv2c_stack_new t3 n ns t g) s -> timer_tables_inv s.
Proof.
  remember (gtpv2c_stack_new t3 n ns t g) as s0 eqn:E0. induction 1 as [s|op s1 s2 s3 _ IH Hg He].
  - subst s. split; simpl; intros ? ?; by rewrite ahm_find_new.
  - eapply exec_timers; eauto.
Qed.

End stack.

(** ** The theorems at work

    The stack over finite maps, the ITTI timers and the 64-bit id generator,
    with T3 = 1 s, N3 = 2 and its counter at 6. *)
#[local] Instance tx_ids : FreshIds uint_generator := uint_generator_FreshIds 64 eq_refl.

Abbreviation demo_type := (@gtpv2c_stack uint_generator itti_clock (gmap Z) Z).
Definition demo_clock : itti_clock := mk_itti_clock 0 5000000000 (itti_init 0).
Definition demo_stack : demo_type := gtpv2c_stack_new 1000 2 6 demo_clock uint_generator_init.
Definition demo_recovery : gtpv2c_ie := IeRecovery (recovery_of_core (mk_recovery_t 1)).
Definition demo_echo : gtpv2c_msg := gtpv2c_msg_of GTP_ECHO_REQUEST [demo_recovery].
Definition demo_request : gtpv2c_msg := gtp_map_header (gtp_set_sequence_number 7) demo_echo.
Definition demo_task : Z := 3.
Definition demo_exec (op : gtp_op) (s : demo_type) : demo_type :=
  match gtp_exec op s with Some (Val s) => s | _ => s end.

Lemma gtp_demo_task_ok (s : demo_type) : 0 <= timer_id (ic_mw (timers_of s)) < 100 -> task_ok2 demo_task s.
Proof.
  intros H. split.
  - split; [done|]. simpl. lia.
  - intros sec us id t. simpl. unfold ic_setup, timer_setup. simpl.
    intros [= <- <-]. simpl. rewrite wrapu_id by (unfold fits; lia). lia.
Qed.

Lemma gtp_demo_inv : timer_tables_inv demo_stack.
Proof. split; intros ? ? H; vm_compute in H; discriminate. Qed.

(** An echo request is received; one is sent. *)
Definition demo_received : demo_type := demo_exec (OpReceive demo_request demo_task) demo_stack.
Definition demo_sent : demo_type := demo_exec (OpInitial 9 None demo_echo demo_task 77) demo_stack.

Lemma gtp_receive_spec_witness :
  exists tx c s', handle_receive_message_cb demo_request demo_task demo_stack = Some (Val (false, tx, s')) /\
    ahm_find 7 (pending_procedures s') = Some (mk_procedure None None 0 0 c tx 1 0 0) /\
    ahm_find tx (gtpc_tx_id2seq_num s') = Some 7.
Proof.
  destruct (gtp_receive_spec demo_stack demo_request demo_task) as (r & E & H).
  - exact gtp_demo_inv.
  - by apply gtp_demo_task_ok.
  - by vm_compute.
  - done.
  - simpl in H. destruct H as [[_ H]|(tx & c & s' & -> & _ & _ & H & H2 & _)].
    + exfalso. destruct H as [(? & ? & H)|[(? & ? & H)|[(? & ? & H)|(? & ? & H)]]]; discriminate H.
    + exists tx, c, s'. split; [exact E|]. split; [exact (H 7)|]. specialize (H2 tx). by rewrite decide_True in H2.
Defined.

Lemma gtp_received_expires_witness :
  exists c s2, ahm_find c (proc_cleanup_timers demo_received) = Some 7 /\
    time_out_event c demo_task demo_received = Val (true, s2) /\ fi_live (uids_of s2) = ∅.
Proof.
  destruct (gtp_received_expires demo_stack demo_request demo_task demo_task 1 demo_received) as (c & s2 & H1 & H2 & _ & _ & _ & H3).
  - exact gtp_demo_inv.
  - by apply gtp_demo_task_ok.
  - by vm_compute.
  - by vm_compute.
  - exists c, s2. split; [exact H1|]. split; [exact H2|exact H3].
Defined.

Lemma gtp_request_answered_witness :
  exists s2 c, send_triggered_message 9 None (gtpv2c_msg_of GTP_ECHO_RESPONSE [demo_recovery]) 1 DELETE_TX demo_received = Val s2 /\
    outputs s2 = [Send 9 [64; 2; 0; 9; 0; 0; 7; 0; 3; 0; 1; 0; 1]] /\ time_out_event c demo_task s2 = UB.
Proof.
  destruct (gtp_request_answered demo_stack demo_request demo_task demo_task 1 demo_received 9 None
    (gtpv2c_msg_of GTP_ECHO_RESPONSE [demo_recovery]) [64; 2; 0; 9; 0; 0; 7; 0; 3; 0; 1; 0; 1]
    (gtp_map_header (gtp_set_sequence_number 7) (gtpv2c_msg_of GTP_ECHO_RESPONSE [demo_recovery])))
    as (s2 & c & H1 & H2 & _ & _ & _ & _ & H3).
  - exact gtp_demo_inv.
  - by apply gtp_demo_task_ok.
  - by vm_compute.
  - by vm_compute.
  - by vm_compute.
  - by vm_compute.
  - exists s2, c. split; [exact H1|]. split; [exact H2|exact H3].
Defined.

Lemma unanswered_request_ub_witness :
  outputs demo_sent = [SendAllocated 9 [64; 1; 0; 9; 0; 0; 7; 0; 3; 0; 1; 0; 1]] /\
  forall s1, fires 7 demo_task 2 demo_sent s1 ->
    exists p s2 c, ahm_find 7 (pending_procedures s1) = Some p /\
      time_out_event (retry_timer_id p) demo_task s1 = Val (true, s2) /\ time_out_event c demo_task s2 = UB.
Proof.
  destruct (unanswered_request_ub demo_stack 9 None demo_echo demo_task 77 7 demo_sent
    [64; 1; 0; 9; 0; 0; 7; 0; 3; 0; 1; 0; 1] (gtp_map_header (gtp_set_sequence_number 7) demo_echo)) as (Ho & H).
  - exact gtp_demo_inv.
  - by apply gtp_demo_task_ok.
  - simpl. lia.
  - by vm_compute.
  - by vm_compute.
  - by vm_compute.
  - by vm_compute.
  - split; [exact Ho|]. intros s1 Hf. destruct (H 2%nat s1 Hf ltac:(simpl; lia)) as (_ & p & Hp & _ & Hg).
    destruct (Hg eq_refl) as (s2 & E & _ & _ & _ & c & _ & Hu). exists p, s2, c. done.
Defined.

(** The run exists: the request is sent, resent twice, given up. *)
Definition demo_expire (s : demo_type) : demo_type :=
  match ahm_find 7 (pending_procedures s) with
  | Some p => demo_exec (OpTimeOut (retry_timer_id p) demo_task) s
  | None => s
  end.
Lemma demo_fires : fires 7 demo_task 2 demo_sent (demo_expire (demo_expire demo_sent)).
Proof.
  eapply fires_S; [eapply fires_S; [apply fires_0| | |]| | |];
    [by apply gtp_demo_task_ok|by vm_compute|by vm_compute|by apply gtp_demo_task_ok|by vm_compute|by vm_compute].
Qed.

Lemma gtp_timers_disjoint_witness : timer_tables_inv demo_received.
Proof.
  apply (gtp_timers_disjoint 1000 2 6 demo_clock uint_generator_init).
  apply reach_step with (OpReceive demo_request demo_task) demo_stack; [apply reach_refl|by apply gtp_demo_task_ok|by vm_compute].
Defined.
