(* ===== verification/GtpContainer.v ===== *)
(** * The containers of the GTPv2-C messages

    [src/gtpv2c/msg_gtpv2c.hpp] has one class per message and per bearer
    context, all under [gtpv2c_ies_container]: typed members with a presence
    flag, an overload of [get] and of [set] per type (choosing the member by the
    instance where there are several), vectors of bearer contexts.  A class is
    here the table of its members and overloads ([ies_class], [message_class]);
    the operations interpret the tables.  The tables themselves are in
    [GtpMessages].

    The constructors of [gtpv2c_msg] from a container
    ([src/gtpv2c/3gpp_29.274.cpp]) are tables too, of the elements they add
    ([build]); [message_of] interprets them.  [message_to_container] is
    [gtpv2c_msg::to_core_type]: every element is given to the [set] of the
    container, through the base class. *)
From S2P Require Import Prelude PaaDynamic Stream GtpTlv GtpScalar GtpIdentity GtpQos GtpLocation GtpAddress GtpOptions GtpIe GtpCore GtpMsg Container.
From Stdlib Require Import ZArith Lia String.
From stdpp Require Import base numbers tactics list strings gmap.
Open Scope Z_scope.

Set Warnings "-register-all".

Definition GTP_IE_PROCEDURE_TRANSACTION_ID : Z := 100.
Definition GTP_IE_USER_CSG_INFORMATION : Z := 145.
Definition GTP_IE_LOCAL_DISTINGUISHED_NAME : Z := 151.
Definition GTP_IE_EPC_TIMER : Z := 156.

(** ** Values and their types

    The values of a container: those an element carries, and those of types
    without an element class ([procedure_transaction_id_t], [uci_t],
    [local_distinguished_name_t], [epc_timer_t], [uli_timestamp_t], [arp_t]). *)
Inductive value :=
| VCore (c : gtpv2c_core)
| VPti (procedure_transaction_id : Z)
| VUci (p : plmn) (csg_id access_mode lcsg cmi : Z)
| VLdn (ldn : list Z)
| VEpcTimer (timer_unit timer_value : Z)
| VUliTimestamp (uli_timestamp_value : Z)
| VArp (pci pl pvi : Z).

(** The types overloads are chosen by. *)
Inductive ie_kind :=
  | Kimsi | Kcause | Krecovery | Kapn | Kambr | Kebi | Kip_address | Kmei | Kmsisdn | Kindication | Kpco | Kpaa
  | Kbearer_qos | Kflow_qos | Krat_type | Kserving_network | Ktft | Kuli | Kfteid | Kdelay_value | Kcharging_id
  | Kbearer_flags | Kpdn_type | Kue_time_zone | Kapn_restriction | Kselection_mode | Kfq_csid | Knode_type
  | Knode_features | Kciot | Kepco | Kran_nas_cause | Kpti | Kuci | Kldn | Kepc_timer | Kuli_timestamp | Karp
  | Kbearer_context.

#[export] Instance ie_kind_eq_dec : EqDecision ie_kind.
Proof. solve_decision. Defined.

Definition kind_of (v : value) : ie_kind :=
  match v with
  | VCore (CoreImsi _) => Kimsi
  | VCore (CoreCause _) => Kcause
  | VCore (CoreRecovery _) => Krecovery
  | VCore (CoreApn _) => Kapn
  | VCore (CoreAmbr _) => Kambr
  | VCore (CoreEbi _) => Kebi
  | VCore (CoreIpAddress _) => Kip_address
  | VCore (CoreMei _) => Kmei
  | VCore (CoreMsisdn _) => Kmsisdn
  | VCore (CoreIndication _) => Kindication
  | VCore (CorePco _) => Kpco
  | VCore (CorePaa _) => Kpaa
  | VCore (CoreBearerQos _) => Kbearer_qos
  | VCore (CoreFlowQos _) => Kflow_qos
  | VCore (CoreRatType _) => Krat_type
  | VCore (CoreServingNetwork _) => Kserving_network
  | VCore (CoreBearerTft _) => Ktft
  | VCore (CoreUli _) => Kuli
  | VCore (CoreFteid _) => Kfteid
  | VCore (CoreDelayValue _) => Kdelay_value
  | VCore (CoreChargingId _) => Kcharging_id
  | VCore (CoreBearerFlags _) => Kbearer_flags
  | VCore (CorePdnType _) => Kpdn_type
  | VCore (CoreUeTimeZone _) => Kue_time_zone
  | VCore (CoreApnRestriction _) => Kapn_restriction
  | VCore (CoreSelectionMode _) => Kselection_mode
  | VCore (CoreFqCsid _) => Kfq_csid
  | VCore (CoreNodeType _) => Knode_type
  | VCore (CoreNodeFeatures _) => Knode_features
  | VCore (CoreCiot _) => Kciot
  | VCore (CoreEpco _) => Kepco
  | VCore (CoreRanNasCause _) => Kran_nas_cause
  | VPti _ => Kpti
  | VUci _ _ _ _ _ => Kuci
  | VLdn _ => Kldn
  | VEpcTimer _ _ => Kepc_timer
  | VUliTimestamp _ => Kuli_timestamp
  | VArp _ _ _ => Karp
  | VCore (CoreBearerContext _) => Kbearer_context
  end.

(** The element type in the exception of [gtpv2c_ies_container]'s own overload
    for a type; it has none for the last two. *)
Definition base_ie_type (k : ie_kind) : Z :=
  match k with
  | Kimsi => GTP_IE_IMSI
  | Kcause => GTP_IE_CAUSE
  | Krecovery => GTP_IE_RECOVERY_RESTART_COUNTER
  | Kapn => GTP_IE_ACCESS_POINT_NAME
  | Kambr => GTP_IE_AGGREGATE_MAXIMUM_BIT_RATE
  | Kebi => GTP_IE_EPS_BEARER_ID
  | Kip_address => GTP_IE_IP_ADDRESS
  | Kmei => GTP_IE_MOBILE_EQUIPMENT_IDENTITY
  | Kmsisdn => GTP_IE_MSISDN
  | Kindication => GTP_IE_INDICATION
  | Kpco => GTP_IE_PROTOCOL_CONFIGURATION_OPTIONS
  | Kpaa => GTP_IE_PDN_ADDRESS_ALLOCATION
  | Kbearer_qos => GTP_IE_BEARER_QUALITY_OF_SERVICE
  | Kflow_qos => GTP_IE_FLOW_QUALITY_OF_SERVICE
  | Krat_type => GTP_IE_RAT_TYPE
  | Kserving_network => GTP_IE_SERVING_NETWORK
  | Ktft => GTP_IE_EPS_BEARER_LEVEL_TRAFFIC_FLOW_TEMPLATE
  | Kuli => GTP_IE_USER_LOCATION_INFORMATION
  | Kfteid => GTP_IE_FULLY_QUALIFIED_TUNNEL_ENDPOINT_IDENTIFIER
  | Kdelay_value => GTP_IE_DELAY_VALUE
  | Kcharging_id => GTP_IE_CHARGING_ID
  | Kbearer_flags => GTP_IE_BEARER_FLAGS
  | Kpdn_type => GTP_IE_PDN_TYPE
  | Kue_time_zone => GTP_IE_UE_TIME_ZONE
  | Kapn_restriction => GTP_IE_APN_RESTRICTION
  | Kselection_mode => GTP_IE_SELECTION_MODE
  | Kfq_csid => GTP_IE_FQ_CSID
  | Knode_type => GTP_IE_NODE_TYPE
  | Knode_features => GTP_IE_NODE_FEATURES
  | Kciot => GTP_IE_CIOT_OPTIMIZATIONS_SUPPORT_INDICATION
  | Kepco => GTP_IE_EXTENDED_PROTOCOL_CONFIGURATION_OPTIONS
  | Kran_nas_cause => GTP_IE_RAN_NAS_CAUSE
  | Kpti => GTP_IE_PROCEDURE_TRANSACTION_ID
  | Kuci => GTP_IE_USER_CSG_INFORMATION
  | Kldn => GTP_IE_LOCAL_DISTINGUISHED_NAME
  | Kepc_timer => GTP_IE_EPC_TIMER
  | Kbearer_context => GTP_IE_BEARER_CONTEXT
  | Kuli_timestamp | Karp => 0
  end.

(** A value-initialised object of the type. *)
Definition value_init (k : ie_kind) : value :=
  match k with
  | Kimsi => VCore (CoreImsi (mk_imsi_t (replicate 8 0) 0))
  | Kcause => VCore (CoreCause (mk_cause_t 0 0 0 0 0 0 0))
  | Krecovery => VCore (CoreRecovery (mk_recovery_t 0))
  | Kapn => VCore (CoreApn (mk_apn_t []))
  | Kambr => VCore (CoreAmbr (mk_ambr_t 0 0))
  | Kebi => VCore (CoreEbi (mk_ebi_t 0))
  | Kip_address => VCore (CoreIpAddress (mk_ip_address_t false in6addr_any))
  | Kmei => VCore (CoreMei (mk_mei_t (replicate 8 0) 0))
  | Kmsisdn => VCore (CoreMsisdn (mk_msisdn_t (replicate 8 0) 0))
  | Kindication => VCore (CoreIndication (mk_indication_t 0 0 0 0 0 0 0 0 0 0 0 0 0 0 0 0 0 0 0 0 0 0 0 0 0 0 0 0 0 0 0 0 0 0 0 0 0 0 0 0 0 0 0 0 0 0 0 0 0 0 0 0 0))
  | Kpco => VCore (CorePco (mk_pco_t 0 0 0 []))
  | Kpaa => VCore (CorePaa (mk_paa PDN_TYPE_E_IPV4 0 in6addr_any 0))
  | Kbearer_qos => VCore (CoreBearerQos (mk_bearer_qos_t 0 0 0 0 0 0 0 0))
  | Kflow_qos => VCore (CoreFlowQos (mk_flow_qos_t 0 0 0 0 0))
  | Krat_type => VCore (CoreRatType (mk_rat_type_t 0))
  | Kserving_network => VCore (CoreServingNetwork (mk_serving_network_t plmn0))
  | Ktft => VCore (CoreBearerTft (mk_traffic_flow_template_t 0 0 0))
  | Kuli => VCore (CoreUli uli_zero)
  | Kfteid => VCore (CoreFteid (mk_fteid_t 0 0 0 0 0 in6addr_any))
  | Kdelay_value => VCore (CoreDelayValue (mk_delay_value_t 0))
  | Kcharging_id => VCore (CoreChargingId (mk_charging_id_t 0))
  | Kbearer_flags => VCore (CoreBearerFlags (mk_bearer_flags_t 0 0 0 0 0))
  | Kpdn_type => VCore (CorePdnType (mk_pdn_type_t PDN_TYPE_E_IPV4))
  | Kue_time_zone => VCore (CoreUeTimeZone (mk_ue_time_zone_t 0 0))
  | Kapn_restriction => VCore (CoreApnRestriction (mk_access_point_name_restriction_t 0))
  | Kselection_mode => VCore (CoreSelectionMode (mk_selection_mode_t 0))
  | Kfq_csid => VCore (CoreFqCsid (mk_fq_csid_t 0 0 node_id_zero []))
  | Knode_type => VCore (CoreNodeType (mk_node_type_t 0))
  | Knode_features => VCore (CoreNodeFeatures (mk_node_features_t 0 0 0 0 0))
  | Kciot => VCore (CoreCiot (mk_ciot_optimizations_support_indication_t 0 0 0 0))
  | Kepco => VCore (CoreEpco (mk_epco_t []))
  | Kran_nas_cause => VCore (CoreRanNasCause (mk_ran_nas_cause_t 0 0 0))
  | Kpti => VPti 0
  | Kuci => VUci plmn0 0 0 0 0
  | Kldn => VLdn []
  | Kepc_timer => VEpcTimer 0 0
  | Kuli_timestamp => VUliTimestamp 0
  | Karp => VArp 0 0 0
  | Kbearer_context => VCore (CoreBearerContext [])
  end.

(** ** Classes *)

(** The body of an overload: one member; a member by instance, throwing
    [gtpc_tlv_bad_instance_exception] on the others; an array indexed by the
    instance, where only [set] throws on the others. *)
Inductive access :=
| Direct (s : slot)
| Switch (cases : list (Z * slot)) (ie_type : Z)
| Indexed (cases : list (Z * slot)) (ie_type : Z).

(** [o_overrides]: it has the instance parameter of the virtual function of the
    base class, and so overrides it. *)
Record overload := mk_overload { o_kind : ie_kind; o_overrides : bool; o_access : access }.

Record ies_class := mk_ies_class {
  c_width : Z;                              (* of [ie_presence_mask] *)
  c_members : list (string * ie_kind);
  c_init : list (string * value);           (* members the constructor does not zero *)
  c_get : list overload;
  c_set : list overload;
  c_named_get : list (string * slot);       (* [get_x] and [set_x]: the member of each [x] *)
  c_named_set : list (string * slot);
}.

Definition class_init (c : ies_class) : fields value :=
  mk_fields 0 ∅ (list_to_map (c_init c ++ ((fun mk => (mk.1, value_init mk.2)) <$> c_members c))).

Definition case_slot (n : Z) (cases : list (Z * slot)) : option slot :=
  snd <$> find (fun c => c.1 =? n) cases.

Definition find_overload (k : ie_kind) (l : list overload) : option overload :=
  find (fun o => bool_decide (o_kind o = k)) l.

Definition access_get (a : access) (n : Z) (f : fields value) : result gtpc_exn (option value) :=
  match a with
  | Direct s => Val (slot_get s f)
  | Switch cases ie =>
    match case_slot n cases with
    | Some s => Val (slot_get s f)
    | None => Throw (gtpc_tlv_bad_instance_exception ie n)
    end
  | Indexed cases _ =>
    match case_slot n cases with
    | Some s => Val (slot_get s f)
    | None => Val None
    end
  end.

Definition access_set (w : Z) (a : access) (n : Z) (v : value) (f : fields value) : result gtpc_exn (fields value) :=
  match a with
  | Direct s => Val (slot_set w s v f)
  | Switch cases ie | Indexed cases ie =>
    match case_slot n cases with
    | Some s => Val (slot_set w s v f)
    | None => Throw (gtpc_tlv_bad_instance_exception ie n)
    end
  end.

Section Operations.
Variable c : ies_class.

(** [get] and [set] called on an object of the class.  [None]: there is no such
    overload, the call does not compile. *)
Definition class_get (k : ie_kind) (n : Z) (f : fields value) : option (result gtpc_exn (option value)) :=
  o ← find_overload k (c_get c); Some (access_get (o_access o) n f).

Definition class_set (v : value) (n : Z) (f : fields value) : option (result gtpc_exn (fields value)) :=
  o ← find_overload (kind_of v) (c_set c); Some (access_set (c_width c) (o_access o) n v f).

(** [get_x] and [set_x]. *)
Definition class_named_get (x : string) (f : fields value) : option (option value) :=
  s ← list_to_map (M := gmap string slot) (c_named_get c) !! x; Some (slot_get s f).

Definition class_named_set (x : string) (v : value) (f : fields value) : option (fields value) :=
  s ← list_to_map (M := gmap string slot) (c_named_set c) !! x; Some (slot_set (c_width c) s v f).

(** [set] called through [gtpv2c_ies_container&]. *)
Definition virtual_set (v : value) (n : Z) (f : fields value) : result gtpc_exn (fields value) :=
  match find_overload (kind_of v) (c_set c) with
  | Some o =>
    if o_overrides o then access_set (c_width c) (o_access o) n v f
    else Throw (gtpc_msg_illegal_ie_exception (base_ie_type (kind_of v)))
  | None => Throw (gtpc_msg_illegal_ie_exception (base_ie_type (kind_of v)))
  end.
End Operations.

(** ** [bearer_context]: what the elements of a grouped element are set in *)
Definition bearer_context_fteid : list (Z * slot) :=
  [(0, (First, "fteid[0]")); (1, (First, "fteid[1]")); (2, (First, "fteid[2]")); (3, (First, "fteid[3]"));
   (4, (First, "fteid[4]")); (5, (First, "fteid[5]")); (6, (First, "fteid[6]")); (7, (First, "fteid[7]"));
   (8, (First, "fteid[8]")); (9, (First, "fteid[9]")); (10, (First, "fteid[10]")); (11, (First, "fteid[11]"))].

Definition bearer_context_members : list (string * ie_kind) :=
  [("eps_bearer_id", Kebi); ("tft", Ktft)] ++ ((fun c => (c.2.2, Kfteid)) <$> bearer_context_fteid) ++
  [("bearer_level_qos", Kbearer_qos); ("cause", Kcause); ("charging_id", Kcharging_id); ("bearer_flags", Kbearer_flags);
   ("pco", Kpco); ("epco", Kepco); ("ran_nas_cause", Kran_nas_cause)].

Definition bearer_context_set : list overload :=
  [mk_overload Kebi true (Direct (First, "eps_bearer_id"));
   mk_overload Ktft true (Direct (First, "tft"));
   mk_overload Kfteid true (Indexed bearer_context_fteid GTP_IE_BEARER_CONTEXT);
   mk_overload Kbearer_qos true (Direct (First, "bearer_level_qos"));
   mk_overload Kcause true (Direct (First, "cause"));
   mk_overload Kcharging_id true (Direct (First, "charging_id"));
   mk_overload Kbearer_flags true (Direct (First, "bearer_flags"));
   mk_overload Kpco true (Direct (First, "pco"));
   mk_overload Kepco true (Direct (First, "epco"));
   mk_overload Kran_nas_cause true (Direct (First, "ran_nas_cause"))].

Definition bearer_context_get : list overload :=
  [mk_overload Kebi true (Direct (First, "eps_bearer_id"));
   mk_overload Ktft true (Direct (First, "tft"));
   mk_overload Kfteid true (Indexed bearer_context_fteid GTP_IE_BEARER_CONTEXT);
   mk_overload Kbearer_qos true (Direct (First, "bearer_level_qos"));
   mk_overload Kcause true (Direct (First, "cause"));
   mk_overload Kcharging_id true (Direct (First, "charging_id"));
   mk_overload Kbearer_flags true (Direct (First, "bearer_flags"));
   mk_overload Kpco true (Direct (First, "pco"));
   mk_overload Kepco true (Direct (First, "epco"));
   mk_overload Kran_nas_cause true (Direct (First, "ran_nas_cause"))].

Definition bearer_context : ies_class :=
  mk_ies_class 64 bearer_context_members [] bearer_context_get bearer_context_set [] [].

(** ** The bearer contexts of the messages

    A row of the constructor of a context from a [bearer_context]:
    [if (b.get(member, n)) flag], or the initialiser [member(b.member)] of a
    pair. *)
Inductive of_row :=
| OfGet (s : slot) (k : ie_kind) (n : Z)
| OfPair (m from : string).

Record context_class := mk_context_class { cc_class : ies_class; cc_of : list of_row }.

Definition of_step (w : Z) (b : fields value) (f : fields value) (r : of_row) : result gtpc_exn (fields value) :=
  match r with
  | OfGet s k n =>
    match class_get bearer_context k n b with
    | Some r => ov ← r; Val (match ov with Some v => slot_set w s v f | None => f end)
    | None => UB                                      (* does not compile *)
    end
  | OfPair m from =>
    Val (mk_fields (f_mask f)
      (if decide (from ∈ f_first b) then {[m]} ∪ f_first f else f_first f ∖ {[m]})
      (match f_vals b !! from with Some v => <[m := v]> (f_vals f) | None => f_vals f end))
  end.

Fixpoint of_rows (w : Z) (b : fields value) (f : fields value) (l : list of_row) : result gtpc_exn (fields value) :=
  match l with
  | [] => Val f
  | r :: l => f ← of_step w b f r; of_rows w b f l
  end.

Definition context_of_bearer (cc : context_class) (b : fields value) : result gtpc_exn (fields value) :=
  of_rows (c_width (cc_class cc)) b (class_init (cc_class cc)) (cc_of cc).

(** ** Messages *)
Record container := mk_container { ct_fields : fields value; ct_lists : gmap string (list (fields value)) }.

(** [mc_contexts]: for each instance, the vector and the class of its contexts.
    [None]: [set(const bearer_context&)] is not overridden. *)
Record message_class := mk_message_class {
  mc_class : ies_class;
  mc_contexts : option (list (Z * (slot * context_class)));
}.

Definition new_container (mc : message_class) : container := mk_container (class_init (mc_class mc)) ∅.

(** [contexts.push_back(b)] and the flag. *)
Definition add_context (w : Z) (s : slot) (x : fields value) (c : container) : container :=
  mk_container (slot_raise w s (ct_fields c)) (<[s.2 := default [] (ct_lists c !! s.2) ++ [x]]> (ct_lists c)).

Definition set_bearer_context (mc : message_class) (b : fields value) (n : Z) (c : container)
  : result gtpc_exn container :=
  match mc_contexts mc with
  | None => Throw (gtpc_msg_illegal_ie_exception GTP_IE_BEARER_CONTEXT)
  | Some cases =>
    match find (fun x => x.1 =? n) cases with
    | Some (_, (s, cc)) => x ← context_of_bearer cc b; Val (add_context (c_width (mc_class mc)) s x c)
    | None => Throw (gtpc_tlv_bad_instance_exception GTP_IE_BEARER_CONTEXT n)
    end
  end.

(** *** [to_core_type] *)
Definition ie_instance (i : gtpv2c_ie) : Z := tlv_get_instance (tlv_of_ie i).

(** Of an element of a bearer context; a nested bearer context is built, and
    refused. *)
Fixpoint ie_to_bearer (i : gtpv2c_ie) (b : fields value) : result gtpc_exn (fields value) :=
  match i with
  | IeBearerContext _ l =>
    _ ← (fix go l b := match l with [] => Val b | i :: l => b ← ie_to_bearer i b; go l b end) l (class_init bearer_context);
    Throw (gtpc_msg_illegal_ie_exception GTP_IE_BEARER_CONTEXT)
  | _ => v ← ie_to_core i; virtual_set bearer_context (VCore v) (ie_instance i) b
  end.

Fixpoint ies_to_bearer (l : list gtpv2c_ie) (b : fields value) : result gtpc_exn (fields value) :=
  match l with
  | [] => Val b
  | i :: l => b ← ie_to_bearer i b; ies_to_bearer l b
  end.

Definition ie_to_container (mc : message_class) (i : gtpv2c_ie) (c : container) : result gtpc_exn container :=
  match i with
  | IeBearerContext _ l =>
    b ← ies_to_bearer l (class_init bearer_context); set_bearer_context mc b (ie_instance i) c
  | _ =>
    v ← ie_to_core i; f ← virtual_set (mc_class mc) (VCore v) (ie_instance i) (ct_fields c);
    Val (mk_container f (ct_lists c))
  end.

(** [gtpv2c_msg::to_core_type] *)
Fixpoint ies_to_container (mc : message_class) (l : list gtpv2c_ie) (c : container) : result gtpc_exn container :=
  match l with
  | [] => Val c
  | i :: l => c ← ie_to_container mc i c; ies_to_container mc l c
  end.

Definition message_to_container (mc : message_class) (m : gtpv2c_msg) (c : container) : result gtpc_exn container :=
  ies_to_container mc (gies m) c.

(** *** The constructors of [gtpv2c_msg]

    A row: the condition, the member the element is built from, the argument of
    [set_instance] when it is called, and whether the [else] branch throws. *)
Record build_row := mk_build_row { b_slot : slot; b_kind : ie_kind; b_instance : option Z; b_required : bool }.

Inductive build :=
| BuildIe (r : build_row)
| BuildContexts (s : slot) (n : option Z) (rows : list build_row).

Definition row_ies (j : junk) (r : build_row) (f : fields value) : result gtpc_exn (list gtpv2c_ie) :=
  if slot_present (b_slot r) f then
    match f_vals f !! (b_slot r).2 with
    | Some (VCore v) =>
      i ← ie_of_core j v;
      Val [match b_instance r with Some n => ie_set_instance n i | None => i end]
    | _ => UB                                         (* no such class *)
    end
  else if b_required r then Throw gtpc_missing_ie_exception
  else Val [].

Fixpoint rows_ies (j : junk) (l : list build_row) (f : fields value) : result gtpc_exn (list gtpv2c_ie) :=
  match l with
  | [] => Val []
  | r :: l => i ← row_ies j r f; ies ← rows_ies j l f; Val (i ++ ies)
  end.

(** [new gtpv2c_grouped_ie(GTP_IE_BEARER_CONTEXT)], [set_instance] and an
    [add_ie] per element. *)
Definition group_of (n : option Z) (l : list gtpv2c_ie) : gtpv2c_ie :=
  let t := tlv_of GTP_IE_BEARER_CONTEXT 0 in
  let t := match n with Some n => tlv_set_instance n t | None => t end in
  let '(t, l) := foldl (fun tl i => grouped_add_ie i tl.1 tl.2) (t, []) l in
  IeBearerContext t l.

Fixpoint contexts_ies (j : junk) (n : option Z) (rows : list build_row) (l : list (fields value))
  : result gtpc_exn (list gtpv2c_ie) :=
  match l with
  | [] => Val []
  | x :: l => ies ← rows_ies j rows x; gs ← contexts_ies j n rows l; Val (group_of n ies :: gs)
  end.

(** The vector a constructor loops over. *)
Definition contexts_at (s : slot) (c : container) : list (fields value) :=
  if slot_present s (ct_fields c) then default [] (ct_lists c !! s.2) else [].

Definition build_ies_of (j : junk) (b : build) (c : container) : result gtpc_exn (list gtpv2c_ie) :=
  match b with
  | BuildIe r => row_ies j r (ct_fields c)
  | BuildContexts s n rows => contexts_ies j n rows (contexts_at s c)
  end.

Fixpoint builds_ies (j : junk) (l : list build) (c : container) : result gtpc_exn (list gtpv2c_ie) :=
  match l with
  | [] => Val []
  | b :: l => ies ← build_ies_of j b c; rest ← builds_ies j l c; Val (ies ++ rest)
  end.

(** A message that has a constructor: its type, its container, its rows. *)
Record message := mk_message { mg_type : Z; mg_class : message_class; mg_builds : list build }.

Definition message_of (j : junk) (M : message) (c : container) : result gtpc_exn gtpv2c_msg :=
  ies ← builds_ies j (mg_builds M) c;
  Val (gtp_build (OpSetMessageType (mg_type M) :: (OpAddIe <$> ies))).

(** ** Copies

    [copies]: the members in the initialisers of the copy constructor, vectors
    included.  A member left out keeps the value of [into] (in a copy: its
    initial value). *)
Definition copy_fields (copies : list string) (from into : fields value) : fields value :=
  mk_fields (if decide ("ie_presence_mask" ∈ copies) then f_mask from else f_mask into)
    (filter (fun m => m ∈ copies) (f_first from) ∪ filter (fun m => m ∉ copies) (f_first into))
    (filter (fun mv => mv.1 ∈ copies) (f_vals from) ∪ filter (fun mv => mv.1 ∉ copies) (f_vals into)).

Definition copy_container (copies : list string) (from into : container) : container :=
  mk_container (copy_fields copies (ct_fields from) (ct_fields into))
    (filter (fun mv => mv.1 ∈ copies) (ct_lists from) ∪ filter (fun mv => mv.1 ∉ copies) (ct_lists into)).

(** [operator=(T other)] swaps members with the copy it is given: a member
    swapped twice is back where it was. *)
Definition swapped (swaps : list string) : list string :=
  filter (fun m => Nat.odd (length (filter (eq m) swaps)) = true) swaps.

Definition assign_container (swaps : list string) (other this : container) : container :=
  copy_container (swapped swaps) other this.

(** [clear_x()] of a Create Session Response: the member back to its initial
    value and the flag down, or the vector emptied. *)
Definition container_clear (mc : message_class) (m : string) (c : container) : container :=
  match list_to_map (M := gmap string ie_kind) (c_members (mc_class mc)) !! m with
  | Some k => mk_container (slot_clear (First, m) (value_init k) (ct_fields c)) (ct_lists c)
  | None =>
    mk_container (mk_fields (f_mask (ct_fields c)) (f_first (ct_fields c) ∖ {[m]}) (f_vals (ct_fields c)))
      (<[m := []]> (ct_lists c))
  end.
