(* ===== verification/GtpMessages.v ===== *)
(** * The GTPv2-C messages

    The classes of [src/gtpv2c/msg_gtpv2c.hpp], as tables of their members, of
    their overloads of [get] and [set], of the vectors [set(bearer_context)] adds
    to, of the constructors of the bearer contexts from a [bearer_context], and of
    the members copied by the copy constructor and swapped by [operator=]; and the
    rows of the constructors of [gtpv2c_msg] ([src/gtpv2c/3gpp_29.274.cpp]).
    [GtpContainer] interprets them. *)
From S2P Require Import Prelude PaaDynamic GtpTlv GtpScalar GtpIdentity GtpLocation GtpAddress GtpOptions GtpIe GtpCore Gtpv2cStack Container GtpContainer.
From Stdlib Require Import ZArith String.
From stdpp Require Import base numbers list strings.
Open Scope Z_scope.

Definition RAT_TYPE_E_UTRAN : Z := 1.

(** ** The bits of the presence masks *)
Definition GTPV2C_BEARER_CONTEXT_TO_BE_CREATED_WITHIN_CREATE_SESSION_REQUEST_PR_IE_EPS_BEARER_ID : Z := 1.
Definition GTPV2C_BEARER_CONTEXT_TO_BE_CREATED_WITHIN_CREATE_SESSION_REQUEST_PR_IE_TFT : Z := Z.shiftl 1 1.
Definition GTPV2C_BEARER_CONTEXT_TO_BE_CREATED_WITHIN_CREATE_SESSION_REQUEST_PR_IE_BEARER_LEVEL_QOS : Z := Z.shiftl 1 9.
Definition GTPV2C_BEARER_CONTEXT_TO_BE_CREATED_WITHIN_CREATE_SESSION_REQUEST_PR_IE_S1_U_ENB_FTEID : Z := Z.shiftl 1 2.
Definition GTPV2C_BEARER_CONTEXT_TO_BE_CREATED_WITHIN_CREATE_SESSION_REQUEST_PR_IE_S4_U_SGSN_FTEID : Z := Z.shiftl 1 3.
Definition GTPV2C_BEARER_CONTEXT_TO_BE_CREATED_WITHIN_CREATE_SESSION_REQUEST_PR_IE_S5_S8_U_SGW_FTEID : Z := Z.shiftl 1 4.
Definition GTPV2C_BEARER_CONTEXT_TO_BE_CREATED_WITHIN_CREATE_SESSION_REQUEST_PR_IE_S5_S8_U_PGW_FTEID : Z := Z.shiftl 1 5.
Definition GTPV2C_BEARER_CONTEXT_TO_BE_CREATED_WITHIN_CREATE_SESSION_REQUEST_PR_IE_S12_RNC_FTEID : Z := Z.shiftl 1 6.
Definition GTPV2C_BEARER_CONTEXT_TO_BE_CREATED_WITHIN_CREATE_SESSION_REQUEST_PR_IE_S2B_U_EPDG_FTEID : Z := Z.shiftl 1 7.
Definition GTPV2C_BEARER_CONTEXT_TO_BE_CREATED_WITHIN_CREATE_SESSION_REQUEST_PR_IE_S2A_U_TWAN_FTEID : Z := Z.shiftl 1 8.
Definition GTPV2C_BEARER_CONTEXT_TO_BE_CREATED_WITHIN_CREATE_SESSION_REQUEST_PR_IE_S11_U_MME_FTEID : Z := Z.shiftl 1 10.
Definition GTPV2C_BEARER_CONTEXT_TO_BE_REMOVED_WITHIN_CREATE_SESSION_REQUEST_PR_IE_EPS_BEARER_ID : Z := 1.
Definition GTPV2C_BEARER_CONTEXT_TO_BE_REMOVED_WITHIN_CREATE_SESSION_REQUEST_PR_IE_S4_U_SGSN_FTEID : Z := Z.shiftl 1 1.
Definition GTPV2C_CREATE_SESSION_REQUEST_PR_IE_IMSI : Z := 1.
Definition GTPV2C_CREATE_SESSION_REQUEST_PR_IE_MSISDN : Z := Z.shiftl 1 1.
Definition GTPV2C_CREATE_SESSION_REQUEST_PR_IE_MEI : Z := Z.shiftl 1 2.
Definition GTPV2C_CREATE_SESSION_REQUEST_PR_IE_ULI : Z := Z.shiftl 1 3.
Definition GTPV2C_CREATE_SESSION_REQUEST_PR_IE_SERVING_NETWORK : Z := Z.shiftl 1 4.
Definition GTPV2C_CREATE_SESSION_REQUEST_PR_IE_RAT_TYPE : Z := Z.shiftl 1 5.
Definition GTPV2C_CREATE_SESSION_REQUEST_PR_IE_INDICATION_FLAGS : Z := Z.shiftl 1 6.
Definition GTPV2C_CREATE_SESSION_REQUEST_PR_IE_APN : Z := Z.shiftl 1 9.
Definition GTPV2C_CREATE_SESSION_REQUEST_PR_IE_SELECTION_MODE : Z := Z.shiftl 1 10.
Definition GTPV2C_CREATE_SESSION_REQUEST_PR_IE_PDN_TYPE : Z := Z.shiftl 1 11.
Definition GTPV2C_CREATE_SESSION_REQUEST_PR_IE_PAA : Z := Z.shiftl 1 12.
Definition GTPV2C_CREATE_SESSION_REQUEST_PR_IE_APN_RESTRICTION : Z := Z.shiftl 1 13.
Definition GTPV2C_CREATE_SESSION_REQUEST_PR_IE_APN_AMBR : Z := Z.shiftl 1 14.
Definition GTPV2C_CREATE_SESSION_REQUEST_PR_IE_LINKED_EPS_BEARER_ID : Z := Z.shiftl 1 15.
Definition GTPV2C_CREATE_SESSION_REQUEST_PR_IE_PCO : Z := Z.shiftl 1 17.
Definition GTPV2C_CREATE_SESSION_REQUEST_PR_IE_RECOVERY : Z := Z.shiftl 1 21.
Definition GTPV2C_CREATE_SESSION_REQUEST_PR_IE_UE_TIME_ZONE : Z := Z.shiftl 1 26.
Definition GTPV2C_CREATE_SESSION_REQUEST_PR_IE_UCI : Z := Z.shiftl 1 27.
Definition GTPV2C_CREATE_SESSION_REQUEST_PR_IE_SENDER_FTEID_FOR_CONTROL_PLANE : Z := Z.shiftl 1 7.
Definition GTPV2C_CREATE_SESSION_REQUEST_PR_IE_PGW_S5S8_ADDRESS_FOR_CONTROL_PLANE : Z := Z.shiftl 1 8.
Definition GTPV2C_CREATE_SESSION_REQUEST_PR_IE_MME_FQ_CSID : Z := Z.shiftl 1 22.
Definition GTPV2C_CREATE_SESSION_REQUEST_PR_IE_SGW_FQ_CSID : Z := Z.shiftl 1 23.
Definition GTPV2C_CREATE_SESSION_REQUEST_PR_IE_EPDG_FQ_CSID : Z := Z.shiftl 1 24.
Definition GTPV2C_CREATE_SESSION_REQUEST_PR_IE_TWAN_FQ_CSID : Z := Z.shiftl 1 25.
Definition GTPV2C_CREATE_SESSION_REQUEST_PR_IE_BEARER_CONTEXTS_TO_BE_CREATED : Z := Z.shiftl 1 18.
Definition GTPV2C_CREATE_SESSION_REQUEST_PR_IE_BEARER_CONTEXTS_TO_BE_REMOVED : Z := Z.shiftl 1 19.
Definition GTPV2C_BEARER_CONTEXT_CREATED_WITHIN_CREATE_SESSION_RESPONSE_PR_IE_EPS_BEARER_ID : Z := 1.
Definition GTPV2C_BEARER_CONTEXT_CREATED_WITHIN_CREATE_SESSION_RESPONSE_PR_IE_CAUSE : Z := Z.shiftl 1 1.
Definition GTPV2C_BEARER_CONTEXT_CREATED_WITHIN_CREATE_SESSION_RESPONSE_PR_IE_S5_S8_BEARER_LEVEL_QOS : Z := Z.shiftl 1 8.
Definition GTPV2C_BEARER_CONTEXT_CREATED_WITHIN_CREATE_SESSION_RESPONSE_PR_IE_CHARGING_ID : Z := Z.shiftl 1 9.
Definition GTPV2C_BEARER_CONTEXT_CREATED_WITHIN_CREATE_SESSION_RESPONSE_PR_IE_BEARER_FLAGS : Z := Z.shiftl 1 10.
Definition GTPV2C_BEARER_CONTEXT_CREATED_WITHIN_CREATE_SESSION_RESPONSE_PR_IE_S1_U_SGW_FTEID : Z := Z.shiftl 1 2.
Definition GTPV2C_BEARER_CONTEXT_CREATED_WITHIN_CREATE_SESSION_RESPONSE_PR_IE_S4_U_SGW_FTEID : Z := Z.shiftl 1 3.
Definition GTPV2C_BEARER_CONTEXT_CREATED_WITHIN_CREATE_SESSION_RESPONSE_PR_IE_S5_S8_U_PGW_FTEID : Z := Z.shiftl 1 4.
Definition GTPV2C_BEARER_CONTEXT_CREATED_WITHIN_CREATE_SESSION_RESPONSE_PR_IE_S12_SGW_FTEID : Z := Z.shiftl 1 5.
Definition GTPV2C_BEARER_CONTEXT_CREATED_WITHIN_CREATE_SESSION_RESPONSE_PR_IE_S2B_U_PGW_FTEID : Z := Z.shiftl 1 6.
Definition GTPV2C_BEARER_CONTEXT_CREATED_WITHIN_CREATE_SESSION_RESPONSE_PR_IE_S2A_U_PGW_FTEID : Z := Z.shiftl 1 7.
Definition GTPV2C_BEARER_CONTEXT_CREATED_WITHIN_CREATE_SESSION_RESPONSE_PR_IE_S11_U_SGW_FTEID : Z := Z.shiftl 1 11.
Definition GTPV2C_BEARER_CONTEXT_MARKED_FOR_REMOVAL_WITHIN_CREATE_SESSION_RESPONSE_PR_IE_EPS_BEARER_ID : Z := 1.
Definition GTPV2C_BEARER_CONTEXT_MARKED_FOR_REMOVAL_WITHIN_CREATE_SESSION_RESPONSE_PR_IE_CAUSE : Z := Z.shiftl 1 1.
Definition GTPV2C_BEARER_CONTEXT_TO_BE_CREATED_WITHIN_CREATE_BEARER_REQUEST_PR_IE_EPS_BEARER_ID : Z := 1.
Definition GTPV2C_BEARER_CONTEXT_TO_BE_CREATED_WITHIN_CREATE_BEARER_REQUEST_PR_IE_TFT : Z := Z.shiftl 1 1.
Definition GTPV2C_BEARER_CONTEXT_TO_BE_CREATED_WITHIN_CREATE_BEARER_REQUEST_PR_IE_BEARER_LEVEL_QOS : Z := Z.shiftl 1 9.
Definition GTPV2C_BEARER_CONTEXT_TO_BE_CREATED_WITHIN_CREATE_BEARER_REQUEST_PR_IE_CHARGING_ID : Z := Z.shiftl 1 10.
Definition GTPV2C_BEARER_CONTEXT_TO_BE_CREATED_WITHIN_CREATE_BEARER_REQUEST_PR_IE_BEARER_FLAGS : Z := Z.shiftl 1 11.
Definition GTPV2C_BEARER_CONTEXT_TO_BE_CREATED_WITHIN_CREATE_BEARER_REQUEST_PR_IE_PCO : Z := Z.shiftl 1 12.
Definition GTPV2C_BEARER_CONTEXT_TO_BE_CREATED_WITHIN_CREATE_BEARER_REQUEST_PR_IE_EPCO : Z := Z.shiftl 1 13.
Definition GTPV2C_BEARER_CONTEXT_TO_BE_CREATED_WITHIN_CREATE_BEARER_REQUEST_PR_IE_S1_U_SGW_FTEID : Z := Z.shiftl 1 2.
Definition GTPV2C_BEARER_CONTEXT_TO_BE_CREATED_WITHIN_CREATE_BEARER_REQUEST_PR_IE_S5_S8_U_PGW_FTEID : Z := Z.shiftl 1 3.
Definition GTPV2C_BEARER_CONTEXT_TO_BE_CREATED_WITHIN_CREATE_BEARER_REQUEST_PR_IE_S12_SGW_FTEID : Z := Z.shiftl 1 4.
Definition GTPV2C_BEARER_CONTEXT_TO_BE_CREATED_WITHIN_CREATE_BEARER_REQUEST_PR_IE_S4_U_SGW_FTEID : Z := Z.shiftl 1 5.
Definition GTPV2C_BEARER_CONTEXT_TO_BE_CREATED_WITHIN_CREATE_BEARER_REQUEST_PR_IE_S2B_U_PGW_FTEID : Z := Z.shiftl 1 6.
Definition GTPV2C_BEARER_CONTEXT_TO_BE_CREATED_WITHIN_CREATE_BEARER_REQUEST_PR_IE_S2A_U_PGW_FTEID : Z := Z.shiftl 1 7.
Definition GTPV2C_CREATE_BEARER_REQUEST_PR_IE_PROCEDURE_TRANSACTION_IDENTIFIER : Z := 1.
Definition GTPV2C_CREATE_BEARER_REQUEST_PR_IE_LINKED_EPS_BEARER_ID : Z := Z.shiftl 1 1.
Definition GTPV2C_CREATE_BEARER_REQUEST_PR_IE_PCO : Z := Z.shiftl 1 2.
Definition GTPV2C_CREATE_BEARER_REQUEST_PR_IE_INDICATION_FLAGS : Z := Z.shiftl 1 10.
Definition GTPV2C_CREATE_BEARER_REQUEST_PR_IE_PGW_FQ_CSID : Z := Z.shiftl 1 4.
Definition GTPV2C_CREATE_BEARER_REQUEST_PR_IE_SGW_FQ_CSID : Z := Z.shiftl 1 5.
Definition GTPV2C_CREATE_BEARER_REQUEST_PR_IE_BEARER_CONTEXTS : Z := Z.shiftl 1 3.
Definition GTPV2C_BEARER_CONTEXT_WITHIN_CREATE_BEARER_RESPONSE_PR_IE_EPS_BEARER_ID : Z := 1.
Definition GTPV2C_BEARER_CONTEXT_WITHIN_CREATE_BEARER_RESPONSE_PR_IE_CAUSE : Z := Z.shiftl 1 1.
Definition GTPV2C_BEARER_CONTEXT_WITHIN_CREATE_BEARER_RESPONSE_PR_IE_PCO : Z := Z.shiftl 1 14.
Definition GTPV2C_BEARER_CONTEXT_WITHIN_CREATE_BEARER_RESPONSE_PR_IE_EPCO : Z := Z.shiftl 1 16.
Definition GTPV2C_BEARER_CONTEXT_WITHIN_CREATE_BEARER_RESPONSE_PR_IE_S1_U_ENB_FTEID : Z := Z.shiftl 1 2.
Definition GTPV2C_BEARER_CONTEXT_WITHIN_CREATE_BEARER_RESPONSE_PR_IE_S1_U_SGW_FTEID : Z := Z.shiftl 1 3.
Definition GTPV2C_BEARER_CONTEXT_WITHIN_CREATE_BEARER_RESPONSE_PR_IE_S5_S8_U_SGW_FTEID : Z := Z.shiftl 1 4.
Definition GTPV2C_BEARER_CONTEXT_WITHIN_CREATE_BEARER_RESPONSE_PR_IE_S5_S8_U_PGW_FTEID : Z := Z.shiftl 1 5.
Definition GTPV2C_BEARER_CONTEXT_WITHIN_CREATE_BEARER_RESPONSE_PR_IE_S12_RNC_FTEID : Z := Z.shiftl 1 6.
Definition GTPV2C_BEARER_CONTEXT_WITHIN_CREATE_BEARER_RESPONSE_PR_IE_S12_SGW_FTEID : Z := Z.shiftl 1 7.
Definition GTPV2C_BEARER_CONTEXT_WITHIN_CREATE_BEARER_RESPONSE_PR_IE_S4_U_SGSN_FTEID : Z := Z.shiftl 1 8.
Definition GTPV2C_BEARER_CONTEXT_WITHIN_CREATE_BEARER_RESPONSE_PR_IE_S4_U_SGW_FTEID : Z := Z.shiftl 1 9.
Definition GTPV2C_BEARER_CONTEXT_WITHIN_CREATE_BEARER_RESPONSE_PR_IE_S2B_U_EPDG_FTEID : Z := Z.shiftl 1 10.
Definition GTPV2C_BEARER_CONTEXT_WITHIN_CREATE_BEARER_RESPONSE_PR_IE_S2B_U_PGW_FTEID : Z := Z.shiftl 1 11.
Definition GTPV2C_BEARER_CONTEXT_WITHIN_CREATE_BEARER_RESPONSE_PR_IE_S2A_U_TWAN_FTEID : Z := Z.shiftl 1 12.
Definition GTPV2C_BEARER_CONTEXT_WITHIN_CREATE_BEARER_RESPONSE_PR_IE_S2A_U_PGW_FTEID : Z := Z.shiftl 1 13.
Definition GTPV2C_CREATE_BEARER_RESPONSE_PR_IE_CAUSE : Z := 1.
Definition GTPV2C_CREATE_BEARER_RESPONSE_PR_IE_PCO : Z := Z.shiftl 1 7.
Definition GTPV2C_CREATE_BEARER_RESPONSE_PR_IE_UE_TIME_ZONE : Z := Z.shiftl 1 8.
Definition GTPV2C_CREATE_BEARER_RESPONSE_PR_IE_ULI : Z := Z.shiftl 1 9.
Definition GTPV2C_CREATE_BEARER_RESPONSE_PR_IE_MME_FQ_CSID : Z := Z.shiftl 1 3.
Definition GTPV2C_CREATE_BEARER_RESPONSE_PR_IE_SGW_FQ_CSID : Z := Z.shiftl 1 4.
Definition GTPV2C_CREATE_BEARER_RESPONSE_PR_IE_EPDG_FQ_CSID : Z := Z.shiftl 1 5.
Definition GTPV2C_CREATE_BEARER_RESPONSE_PR_IE_TWAN_FQ_CSID : Z := Z.shiftl 1 6.
Definition GTPV2C_CREATE_BEARER_RESPONSE_PR_IE_BEARER_CONTEXTS : Z := Z.shiftl 1 1.
Definition GTPV2C_BEARER_CONTEXT_TO_BE_MODIFIED_WITHIN_MODIFY_BEARER_REQUEST_PR_IE_EPS_BEARER_ID : Z := 1.
Definition GTPV2C_BEARER_CONTEXT_TO_BE_MODIFIED_WITHIN_MODIFY_BEARER_REQUEST_PR_IE_S1_U_ENB_FTEID : Z := Z.shiftl 1 1.
Definition GTPV2C_BEARER_CONTEXT_TO_BE_MODIFIED_WITHIN_MODIFY_BEARER_REQUEST_PR_IE_S5_S8_U_SGW_FTEID : Z := Z.shiftl 1 2.
Definition GTPV2C_BEARER_CONTEXT_TO_BE_MODIFIED_WITHIN_MODIFY_BEARER_REQUEST_PR_IE_S12_RNC_FTEID : Z := Z.shiftl 1 3.
Definition GTPV2C_BEARER_CONTEXT_TO_BE_MODIFIED_WITHIN_MODIFY_BEARER_REQUEST_PR_IE_S4_U_SGSN_FTEID : Z := Z.shiftl 1 4.
Definition GTPV2C_BEARER_CONTEXT_TO_BE_MODIFIED_WITHIN_MODIFY_BEARER_REQUEST_PR_IE_S11_U_MME_FTEID : Z := Z.shiftl 1 5.
Definition GTPV2C_BEARER_CONTEXT_TO_BE_REMOVED_WITHIN_MODIFY_BEARER_REQUEST_PR_IE_EPS_BEARER_ID : Z := 1.
Definition GTPV2C_MODIFY_BEARER_REQUEST_PR_IE_MEI : Z := 1.
Definition GTPV2C_MODIFY_BEARER_REQUEST_PR_IE_ULI : Z := Z.shiftl 1 1.
Definition GTPV2C_MODIFY_BEARER_REQUEST_PR_IE_SERVING_NETWORK : Z := Z.shiftl 1 2.
Definition GTPV2C_MODIFY_BEARER_REQUEST_PR_IE_RAT_TYPE : Z := Z.shiftl 1 3.
Definition GTPV2C_MODIFY_BEARER_REQUEST_PR_IE_INDICATION_FLAGS : Z := Z.shiftl 1 4.
Definition GTPV2C_MODIFY_BEARER_REQUEST_PR_IE_APN_AMBR : Z := Z.shiftl 1 6.
Definition GTPV2C_MODIFY_BEARER_REQUEST_PR_IE_DELAY_DOWNLINK_PACKET_NOTIFICATION_REQUEST : Z := Z.shiftl 1 7.
Definition GTPV2C_MODIFY_BEARER_REQUEST_PR_IE_UE_TIME_ZONE : Z := Z.shiftl 1 11.
Definition GTPV2C_MODIFY_BEARER_REQUEST_PR_IE_UCI : Z := Z.shiftl 1 14.
Definition GTPV2C_MODIFY_BEARER_REQUEST_PR_IE_IMSI : Z := Z.shiftl 1 29.
Definition GTPV2C_MODIFY_BEARER_REQUEST_PR_IE_SENDER_FTEID_FOR_CONTROL_PLANE : Z := Z.shiftl 1 5.
Definition GTPV2C_MODIFY_BEARER_REQUEST_PR_IE_MME_FQ_CSID : Z := Z.shiftl 1 12.
Definition GTPV2C_MODIFY_BEARER_REQUEST_PR_IE_SGW_FQ_CSID : Z := Z.shiftl 1 13.
Definition GTPV2C_MODIFY_BEARER_REQUEST_PR_IE_BEARER_CONTEXTS_TO_BE_MODIFIED : Z := Z.shiftl 1 8.
Definition GTPV2C_MODIFY_BEARER_REQUEST_PR_IE_BEARER_CONTEXTS_TO_BE_REMOVED : Z := Z.shiftl 1 9.
Definition GTPV2C_DELETE_SESSION_REQUEST_PR_IE_CAUSE : Z := 1.
Definition GTPV2C_DELETE_SESSION_REQUEST_PR_IE_LINKED_EPS_BEARER_ID : Z := Z.shiftl 1 1.
Definition GTPV2C_DELETE_SESSION_REQUEST_PR_IE_ULI : Z := Z.shiftl 1 2.
Definition GTPV2C_DELETE_SESSION_REQUEST_PR_IE_INDICATION_FLAGS : Z := Z.shiftl 1 3.
Definition GTPV2C_DELETE_SESSION_REQUEST_PR_IE_PCO : Z := Z.shiftl 1 4.
Definition GTPV2C_DELETE_SESSION_REQUEST_PR_IE_ORIGINATING_NODE : Z := Z.shiftl 1 5.
Definition GTPV2C_DELETE_SESSION_REQUEST_PR_IE_SENDER_FTEID_FOR_CONTROL_PLANE : Z := Z.shiftl 1 6.
Definition GTPV2C_DELETE_SESSION_REQUEST_PR_IE_UE_TIME_ZONE : Z := Z.shiftl 1 7.
Definition GTPV2C_DELETE_SESSION_REQUEST_PR_IE_RAN_NAS_RELEASE_CAUSE : Z := Z.shiftl 1 9.
Definition GTPV2C_DELETE_SESSION_REQUEST_PR_IE_EPCO : Z := Z.shiftl 1 19.
Definition GTPV2C_DELETE_SESSION_RESPONSE_PR_IE_CAUSE : Z := 1.
Definition GTPV2C_DELETE_SESSION_RESPONSE_PR_IE_PCO : Z := Z.shiftl 1 2.
Definition GTPV2C_DELETE_SESSION_RESPONSE_PR_IE_INDICATION_FLAGS : Z := Z.shiftl 1 3.
Definition GTPV2C_DELETE_SESSION_RESPONSE_PR_IE_EPCO : Z := Z.shiftl 1 9.
Definition GTPV2C_BEARER_CONTEXT_WITHIN_DELETE_BEARER_COMMAND_PR_IE_EPS_BEARER_ID : Z := 1.
Definition GTPV2C_BEARER_CONTEXT_WITHIN_DELETE_BEARER_COMMAND_PR_IE_BEARER_FLAGS : Z := Z.shiftl 1 1.
Definition GTPV2C_BEARER_CONTEXT_WITHIN_DELETE_BEARER_COMMAND_PR_IE_RAN_NAS_RELEASE_CAUSE : Z := Z.shiftl 1 2.
Definition GTPV2C_DELETE_BEARER_COMMAND_PR_IE_ULI : Z := Z.shiftl 1 1.
Definition GTPV2C_DELETE_BEARER_COMMAND_PR_IE_ULI_TIMESTAMP : Z := Z.shiftl 1 2.
Definition GTPV2C_DELETE_BEARER_COMMAND_PR_IE_UE_TIME_ZONE : Z := Z.shiftl 1 3.
Definition GTPV2C_DELETE_BEARER_COMMAND_PR_IE_SENDER_FTEID_FOR_CONTROL_PLANE : Z := Z.shiftl 1 6.
Definition GTPV2C_DELETE_BEARER_COMMAND_PR_IE_BEARER_CONTEXTS : Z := 1.
Definition GTPV2C_BEARER_CONTEXT_WITHIN_DELETE_BEARER_FAILURE_INDICATION_PR_IE_EPS_BEARER_ID : Z := 1.
Definition GTPV2C_BEARER_CONTEXT_WITHIN_DELETE_BEARER_FAILURE_INDICATION_PR_IE_CAUSE : Z := Z.shiftl 1 1.
Definition GTPV2C_DELETE_BEARER_FAILURE_INDICATION_PR_IE_CAUSE : Z := 1.
Definition GTPV2C_DELETE_BEARER_FAILURE_INDICATION_PR_IE_INDICATION_FLAGS : Z := Z.shiftl 1 3.
Definition GTPV2C_DELETE_BEARER_FAILURE_INDICATION_PR_IE_BEARER_CONTEXTS : Z := Z.shiftl 1 1.
Definition DOWNLINK_DATA_NOTIFICATION_PR_IE_CAUSE : Z := 1.
Definition DOWNLINK_DATA_NOTIFICATION_PR_IE_EPS_BEARER_ID : Z := Z.shiftl 1 1.
Definition DOWNLINK_DATA_NOTIFICATION_PR_IE_ARP : Z := Z.shiftl 1 2.
Definition DOWNLINK_DATA_NOTIFICATION_PR_IE_IMSI : Z := Z.shiftl 1 3.
Definition DOWNLINK_DATA_NOTIFICATION_PR_IE_SENDER_FTEID_FOR_CP : Z := Z.shiftl 1 4.
Definition DOWNLINK_DATA_NOTIFICATION_PR_IE_INDICATION_FLAGS : Z := Z.shiftl 1 5.
Definition DOWNLINK_DATA_NOTIFICATION_ACK_PR_IE_CAUSE : Z := 1.
Definition DOWNLINK_DATA_NOTIFICATION_ACK_PR_IE_IMSI : Z := Z.shiftl 1 4.
Definition DOWNLINK_DATA_NOTIFICATION_FAILURE_IND_PR_IE_CAUSE : Z := 1.
Definition DOWNLINK_DATA_NOTIFICATION_FAILURE_IND_PR_IE_ORIGINATING_NODE : Z := Z.shiftl 1 1.
Definition DOWNLINK_DATA_NOTIFICATION_FAILURE_IND_PR_IE_IMSI : Z := Z.shiftl 1 2.

(** ** The classes *)

(** *** [bearer_context_to_be_created_within_create_session_request] *)

Definition bearer_context_to_be_created_within_create_session_request_members : list (string * ie_kind) :=
  [("eps_bearer_id", Kebi); ("tft", Ktft); ("s1_u_enb_fteid", Kfteid); ("s4_u_sgsn_fteid", Kfteid);
   ("s5_s8_u_sgw_fteid", Kfteid); ("s5_s8_u_pgw_fteid", Kfteid); ("s12_rnc_fteid", Kfteid);
   ("s2b_u_epdg_fteid", Kfteid); ("s2a_u_twan_fteid", Kfteid); ("bearer_level_qos", Kbearer_qos);
   ("s11_u_mme_fteid", Kfteid)].

Definition bearer_context_to_be_created_within_create_session_request_get : list overload :=
  [mk_overload Kebi true (Direct (Mask GTPV2C_BEARER_CONTEXT_TO_BE_CREATED_WITHIN_CREATE_SESSION_REQUEST_PR_IE_EPS_BEARER_ID, "eps_bearer_id"));
   mk_overload Ktft true (Direct (Mask GTPV2C_BEARER_CONTEXT_TO_BE_CREATED_WITHIN_CREATE_SESSION_REQUEST_PR_IE_TFT, "tft"));
   mk_overload Kbearer_qos true (Direct (Mask GTPV2C_BEARER_CONTEXT_TO_BE_CREATED_WITHIN_CREATE_SESSION_REQUEST_PR_IE_BEARER_LEVEL_QOS, "bearer_level_qos"));
   mk_overload Kfteid true (Switch [(0, (Mask GTPV2C_BEARER_CONTEXT_TO_BE_CREATED_WITHIN_CREATE_SESSION_REQUEST_PR_IE_S1_U_ENB_FTEID, "s1_u_enb_fteid")); (1, (Mask GTPV2C_BEARER_CONTEXT_TO_BE_CREATED_WITHIN_CREATE_SESSION_REQUEST_PR_IE_S4_U_SGSN_FTEID, "s4_u_sgsn_fteid")); (2, (Mask GTPV2C_BEARER_CONTEXT_TO_BE_CREATED_WITHIN_CREATE_SESSION_REQUEST_PR_IE_S5_S8_U_SGW_FTEID, "s5_s8_u_sgw_fteid")); (3, (Mask GTPV2C_BEARER_CONTEXT_TO_BE_CREATED_WITHIN_CREATE_SESSION_REQUEST_PR_IE_S5_S8_U_PGW_FTEID, "s5_s8_u_pgw_fteid")); (4, (Mask GTPV2C_BEARER_CONTEXT_TO_BE_CREATED_WITHIN_CREATE_SESSION_REQUEST_PR_IE_S12_RNC_FTEID, "s12_rnc_fteid")); (5, (Mask GTPV2C_BEARER_CONTEXT_TO_BE_CREATED_WITHIN_CREATE_SESSION_REQUEST_PR_IE_S2B_U_EPDG_FTEID, "s2b_u_epdg_fteid")); (6, (Mask GTPV2C_BEARER_CONTEXT_TO_BE_CREATED_WITHIN_CREATE_SESSION_REQUEST_PR_IE_S2A_U_TWAN_FTEID, "s2a_u_twan_fteid")); (7, (Mask GTPV2C_BEARER_CONTEXT_TO_BE_CREATED_WITHIN_CREATE_SESSION_REQUEST_PR_IE_S11_U_MME_FTEID, "s11_u_mme_fteid"))] GTP_IE_BEARER_CONTEXT)].

Definition bearer_context_to_be_created_within_create_session_request_set : list overload :=
  [mk_overload Kebi true (Direct (Mask GTPV2C_BEARER_CONTEXT_TO_BE_CREATED_WITHIN_CREATE_SESSION_REQUEST_PR_IE_EPS_BEARER_ID, "eps_bearer_id"));
   mk_overload Ktft true (Direct (Mask GTPV2C_BEARER_CONTEXT_TO_BE_CREATED_WITHIN_CREATE_SESSION_REQUEST_PR_IE_TFT, "tft"));
   mk_overload Kbearer_qos true (Direct (Mask GTPV2C_BEARER_CONTEXT_TO_BE_CREATED_WITHIN_CREATE_SESSION_REQUEST_PR_IE_BEARER_LEVEL_QOS, "bearer_level_qos"));
   mk_overload Kfteid true (Switch [(0, (Mask GTPV2C_BEARER_CONTEXT_TO_BE_CREATED_WITHIN_CREATE_SESSION_REQUEST_PR_IE_S1_U_ENB_FTEID, "s1_u_enb_fteid")); (1, (Mask GTPV2C_BEARER_CONTEXT_TO_BE_CREATED_WITHIN_CREATE_SESSION_REQUEST_PR_IE_S4_U_SGSN_FTEID, "s4_u_sgsn_fteid")); (2, (Mask GTPV2C_BEARER_CONTEXT_TO_BE_CREATED_WITHIN_CREATE_SESSION_REQUEST_PR_IE_S5_S8_U_SGW_FTEID, "s5_s8_u_sgw_fteid")); (3, (Mask GTPV2C_BEARER_CONTEXT_TO_BE_CREATED_WITHIN_CREATE_SESSION_REQUEST_PR_IE_S5_S8_U_PGW_FTEID, "s5_s8_u_pgw_fteid")); (4, (Mask GTPV2C_BEARER_CONTEXT_TO_BE_CREATED_WITHIN_CREATE_SESSION_REQUEST_PR_IE_S12_RNC_FTEID, "s12_rnc_fteid")); (5, (Mask GTPV2C_BEARER_CONTEXT_TO_BE_CREATED_WITHIN_CREATE_SESSION_REQUEST_PR_IE_S2B_U_EPDG_FTEID, "s2b_u_epdg_fteid")); (6, (Mask GTPV2C_BEARER_CONTEXT_TO_BE_CREATED_WITHIN_CREATE_SESSION_REQUEST_PR_IE_S2A_U_TWAN_FTEID, "s2a_u_twan_fteid")); (7, (Mask GTPV2C_BEARER_CONTEXT_TO_BE_CREATED_WITHIN_CREATE_SESSION_REQUEST_PR_IE_S11_U_MME_FTEID, "s11_u_mme_fteid"))] GTP_IE_BEARER_CONTEXT)].

Definition bearer_context_to_be_created_within_create_session_request_named_get : list (string * slot) :=
  [("s1_u_enb_fteid", (Mask GTPV2C_BEARER_CONTEXT_TO_BE_CREATED_WITHIN_CREATE_SESSION_REQUEST_PR_IE_S1_U_ENB_FTEID, "s1_u_enb_fteid"));
   ("s4_u_sgsn_fteid", (Mask GTPV2C_BEARER_CONTEXT_TO_BE_CREATED_WITHIN_CREATE_SESSION_REQUEST_PR_IE_S4_U_SGSN_FTEID, "s4_u_sgsn_fteid"));
   ("s5_s8_u_sgw_fteid", (Mask GTPV2C_BEARER_CONTEXT_TO_BE_CREATED_WITHIN_CREATE_SESSION_REQUEST_PR_IE_S5_S8_U_SGW_FTEID, "s5_s8_u_sgw_fteid"));
   ("s5_s8_u_pgw_fteid", (Mask GTPV2C_BEARER_CONTEXT_TO_BE_CREATED_WITHIN_CREATE_SESSION_REQUEST_PR_IE_S5_S8_U_PGW_FTEID, "s5_s8_u_pgw_fteid"));
   ("s12_rnc_fteid", (Mask GTPV2C_BEARER_CONTEXT_TO_BE_CREATED_WITHIN_CREATE_SESSION_REQUEST_PR_IE_S12_RNC_FTEID, "s12_rnc_fteid"));
   ("s2b_u_epdg_fteid", (Mask GTPV2C_BEARER_CONTEXT_TO_BE_CREATED_WITHIN_CREATE_SESSION_REQUEST_PR_IE_S2B_U_EPDG_FTEID, "s2b_u_epdg_fteid"));
   ("s2a_u_twan_fteid", (Mask GTPV2C_BEARER_CONTEXT_TO_BE_CREATED_WITHIN_CREATE_SESSION_REQUEST_PR_IE_S2A_U_TWAN_FTEID, "s2a_u_twan_fteid"));
   ("s11_u_mme_fteid", (Mask GTPV2C_BEARER_CONTEXT_TO_BE_CREATED_WITHIN_CREATE_SESSION_REQUEST_PR_IE_S11_U_MME_FTEID, "s11_u_mme_fteid"))].

Definition bearer_context_to_be_created_within_create_session_request_named_set : list (string * slot) :=
  [("s1_u_enb_fteid", (Mask GTPV2C_BEARER_CONTEXT_TO_BE_CREATED_WITHIN_CREATE_SESSION_REQUEST_PR_IE_S1_U_ENB_FTEID, "s1_u_enb_fteid"));
   ("s4_u_sgsn_fteid", (Mask GTPV2C_BEARER_CONTEXT_TO_BE_CREATED_WITHIN_CREATE_SESSION_REQUEST_PR_IE_S4_U_SGSN_FTEID, "s4_u_sgsn_fteid"));
   ("s5_s8_u_sgw_fteid", (Mask GTPV2C_BEARER_CONTEXT_TO_BE_CREATED_WITHIN_CREATE_SESSION_REQUEST_PR_IE_S5_S8_U_SGW_FTEID, "s5_s8_u_sgw_fteid"));
   ("s5_s8_u_pgw_fteid", (Mask GTPV2C_BEARER_CONTEXT_TO_BE_CREATED_WITHIN_CREATE_SESSION_REQUEST_PR_IE_S5_S8_U_PGW_FTEID, "s5_s8_u_pgw_fteid"));
   ("s12_rnc_fteid", (Mask GTPV2C_BEARER_CONTEXT_TO_BE_CREATED_WITHIN_CREATE_SESSION_REQUEST_PR_IE_S12_RNC_FTEID, "s12_rnc_fteid"));
   ("s2b_u_epdg_fteid", (Mask GTPV2C_BEARER_CONTEXT_TO_BE_CREATED_WITHIN_CREATE_SESSION_REQUEST_PR_IE_S2B_U_EPDG_FTEID, "s2b_u_epdg_fteid"));
   ("s2a_u_twan_fteid", (Mask GTPV2C_BEARER_CONTEXT_TO_BE_CREATED_WITHIN_CREATE_SESSION_REQUEST_PR_IE_S2A_U_TWAN_FTEID, "s2a_u_twan_fteid"));
   ("s11_u_mme_fteid", (Mask GTPV2C_BEARER_CONTEXT_TO_BE_CREATED_WITHIN_CREATE_SESSION_REQUEST_PR_IE_S11_U_MME_FTEID, "s11_u_mme_fteid"))].

Definition bearer_context_to_be_created_within_create_session_request_class : ies_class :=
  mk_ies_class 32 bearer_context_to_be_created_within_create_session_request_members [] bearer_context_to_be_created_within_create_session_request_get bearer_context_to_be_created_within_create_session_request_set
    bearer_context_to_be_created_within_create_session_request_named_get bearer_context_to_be_created_within_create_session_request_named_set.

Definition bearer_context_to_be_created_within_create_session_request_of : list of_row :=
  [OfGet (Mask GTPV2C_BEARER_CONTEXT_TO_BE_CREATED_WITHIN_CREATE_SESSION_REQUEST_PR_IE_EPS_BEARER_ID, "eps_bearer_id") Kebi 0;
   OfGet (Mask GTPV2C_BEARER_CONTEXT_TO_BE_CREATED_WITHIN_CREATE_SESSION_REQUEST_PR_IE_TFT, "tft") Ktft 0;
   OfGet (Mask GTPV2C_BEARER_CONTEXT_TO_BE_CREATED_WITHIN_CREATE_SESSION_REQUEST_PR_IE_S1_U_ENB_FTEID, "s1_u_enb_fteid") Kfteid 0;
   OfGet (Mask GTPV2C_BEARER_CONTEXT_TO_BE_CREATED_WITHIN_CREATE_SESSION_REQUEST_PR_IE_S4_U_SGSN_FTEID, "s4_u_sgsn_fteid") Kfteid 1;
   OfGet (Mask GTPV2C_BEARER_CONTEXT_TO_BE_CREATED_WITHIN_CREATE_SESSION_REQUEST_PR_IE_S5_S8_U_SGW_FTEID, "s5_s8_u_sgw_fteid") Kfteid 2;
   OfGet (Mask GTPV2C_BEARER_CONTEXT_TO_BE_CREATED_WITHIN_CREATE_SESSION_REQUEST_PR_IE_S5_S8_U_PGW_FTEID, "s5_s8_u_pgw_fteid") Kfteid 3;
   OfGet (Mask GTPV2C_BEARER_CONTEXT_TO_BE_CREATED_WITHIN_CREATE_SESSION_REQUEST_PR_IE_S12_RNC_FTEID, "s12_rnc_fteid") Kfteid 4;
   OfGet (Mask GTPV2C_BEARER_CONTEXT_TO_BE_CREATED_WITHIN_CREATE_SESSION_REQUEST_PR_IE_S2B_U_EPDG_FTEID, "s2b_u_epdg_fteid") Kfteid 5;
   OfGet (Mask GTPV2C_BEARER_CONTEXT_TO_BE_CREATED_WITHIN_CREATE_SESSION_REQUEST_PR_IE_S2A_U_TWAN_FTEID, "s2a_u_twan_fteid") Kfteid 6;
   OfGet (Mask GTPV2C_BEARER_CONTEXT_TO_BE_CREATED_WITHIN_CREATE_SESSION_REQUEST_PR_IE_BEARER_LEVEL_QOS, "bearer_level_qos") Kbearer_qos 0;
   OfGet (Mask GTPV2C_BEARER_CONTEXT_TO_BE_CREATED_WITHIN_CREATE_SESSION_REQUEST_PR_IE_S11_U_MME_FTEID, "s11_u_mme_fteid") Kfteid 7].

Definition bearer_context_to_be_created_within_create_session_request : context_class := mk_context_class bearer_context_to_be_created_within_create_session_request_class bearer_context_to_be_created_within_create_session_request_of.

(** *** [bearer_context_to_be_removed_within_create_session_request] *)

Definition bearer_context_to_be_removed_within_create_session_request_members : list (string * ie_kind) :=
  [("eps_bearer_id", Kebi); ("s4_u_sgsn_fteid", Kfteid)].

Definition bearer_context_to_be_removed_within_create_session_request_get : list overload :=
  [mk_overload Kebi false (Direct (Mask GTPV2C_BEARER_CONTEXT_TO_BE_REMOVED_WITHIN_CREATE_SESSION_REQUEST_PR_IE_EPS_BEARER_ID, "eps_bearer_id"));
   mk_overload Kfteid false (Switch [(0, (Mask GTPV2C_BEARER_CONTEXT_TO_BE_REMOVED_WITHIN_CREATE_SESSION_REQUEST_PR_IE_S4_U_SGSN_FTEID, "s4_u_sgsn_fteid"))] GTP_IE_BEARER_CONTEXT)].

Definition bearer_context_to_be_removed_within_create_session_request_set : list overload :=
  [mk_overload Kebi false (Direct (Mask GTPV2C_BEARER_CONTEXT_TO_BE_REMOVED_WITHIN_CREATE_SESSION_REQUEST_PR_IE_EPS_BEARER_ID, "eps_bearer_id"));
   mk_overload Kfteid false (Switch [(0, (Mask GTPV2C_BEARER_CONTEXT_TO_BE_REMOVED_WITHIN_CREATE_SESSION_REQUEST_PR_IE_S4_U_SGSN_FTEID, "s4_u_sgsn_fteid"))] GTP_IE_BEARER_CONTEXT)].

Definition bearer_context_to_be_removed_within_create_session_request_named_get : list (string * slot) :=
  [("s4_u_sgsn_fteid", (Mask GTPV2C_BEARER_CONTEXT_TO_BE_REMOVED_WITHIN_CREATE_SESSION_REQUEST_PR_IE_S4_U_SGSN_FTEID, "s4_u_sgsn_fteid"))].

Definition bearer_context_to_be_removed_within_create_session_request_named_set : list (string * slot) :=
  [("s4_u_sgsn_fteid", (Mask GTPV2C_BEARER_CONTEXT_TO_BE_REMOVED_WITHIN_CREATE_SESSION_REQUEST_PR_IE_S4_U_SGSN_FTEID, "s4_u_sgsn_fteid"))].

Definition bearer_context_to_be_removed_within_create_session_request_class : ies_class :=
  mk_ies_class 32 bearer_context_to_be_removed_within_create_session_request_members [] bearer_context_to_be_removed_within_create_session_request_get bearer_context_to_be_removed_within_create_session_request_set
    bearer_context_to_be_removed_within_create_session_request_named_get bearer_context_to_be_removed_within_create_session_request_named_set.

Definition bearer_context_to_be_removed_within_create_session_request_of : list of_row :=
  [OfGet (Mask GTPV2C_BEARER_CONTEXT_TO_BE_REMOVED_WITHIN_CREATE_SESSION_REQUEST_PR_IE_EPS_BEARER_ID, "eps_bearer_id") Kebi 0;
   OfGet (Mask GTPV2C_BEARER_CONTEXT_TO_BE_REMOVED_WITHIN_CREATE_SESSION_REQUEST_PR_IE_S4_U_SGSN_FTEID, "s4_u_sgsn_fteid") Kfteid 0].

Definition bearer_context_to_be_removed_within_create_session_request : context_class := mk_context_class bearer_context_to_be_removed_within_create_session_request_class bearer_context_to_be_removed_within_create_session_request_of.

(** *** [gtpv2c_create_session_request] *)

Definition gtpv2c_create_session_request_members : list (string * ie_kind) :=
  [("imsi", Kimsi); ("msisdn", Kmsisdn); ("mei", Kmei); ("uli", Kuli); ("serving_network", Kserving_network);
   ("rat_type", Krat_type); ("indication_flags", Kindication); ("sender_fteid_for_cp", Kfteid);
   ("pgw_s5s8_address_for_cp", Kfteid); ("apn", Kapn); ("selection_mode", Kselection_mode); ("pdn_type", Kpdn_type);
   ("paa", Kpaa); ("apn_restriction", Kapn_restriction); ("ambr", Kambr); ("linked_eps_bearer_id", Kebi);
   ("pco", Kpco); ("recovery", Krecovery); ("mme_fq_csid", Kfq_csid); ("sgw_fq_csid", Kfq_csid);
   ("epdg_fq_csid", Kfq_csid); ("twan_fq_csid", Kfq_csid); ("ue_time_zone", Kue_time_zone); ("uci", Kuci)].

Definition gtpv2c_create_session_request_get : list overload :=
  [mk_overload Kimsi true (Direct (Mask GTPV2C_CREATE_SESSION_REQUEST_PR_IE_IMSI, "imsi"));
   mk_overload Kmsisdn true (Direct (Mask GTPV2C_CREATE_SESSION_REQUEST_PR_IE_MSISDN, "msisdn"));
   mk_overload Kmei true (Direct (Mask GTPV2C_CREATE_SESSION_REQUEST_PR_IE_MEI, "mei"));
   mk_overload Kuli true (Direct (Mask GTPV2C_CREATE_SESSION_REQUEST_PR_IE_ULI, "uli"));
   mk_overload Kserving_network true (Direct (Mask GTPV2C_CREATE_SESSION_REQUEST_PR_IE_SERVING_NETWORK, "serving_network"));
   mk_overload Krat_type true (Direct (Mask GTPV2C_CREATE_SESSION_REQUEST_PR_IE_RAT_TYPE, "rat_type"));
   mk_overload Kindication true (Direct (Mask GTPV2C_CREATE_SESSION_REQUEST_PR_IE_INDICATION_FLAGS, "indication_flags"));
   mk_overload Kapn true (Direct (Mask GTPV2C_CREATE_SESSION_REQUEST_PR_IE_APN, "apn"));
   mk_overload Kselection_mode true (Direct (Mask GTPV2C_CREATE_SESSION_REQUEST_PR_IE_SELECTION_MODE, "selection_mode"));
   mk_overload Kpdn_type true (Direct (Mask GTPV2C_CREATE_SESSION_REQUEST_PR_IE_PDN_TYPE, "pdn_type"));
   mk_overload Kpaa true (Direct (Mask GTPV2C_CREATE_SESSION_REQUEST_PR_IE_PAA, "paa"));
   mk_overload Kapn_restriction true (Direct (Mask GTPV2C_CREATE_SESSION_REQUEST_PR_IE_APN_RESTRICTION, "apn_restriction"));
   mk_overload Kambr true (Direct (Mask GTPV2C_CREATE_SESSION_REQUEST_PR_IE_APN_AMBR, "ambr"));
   mk_overload Kebi true (Direct (Mask GTPV2C_CREATE_SESSION_REQUEST_PR_IE_LINKED_EPS_BEARER_ID, "linked_eps_bearer_id"));
   mk_overload Kpco true (Direct (Mask GTPV2C_CREATE_SESSION_REQUEST_PR_IE_PCO, "pco"));
   mk_overload Krecovery true (Direct (Mask GTPV2C_CREATE_SESSION_REQUEST_PR_IE_RECOVERY, "recovery"));
   mk_overload Kue_time_zone true (Direct (Mask GTPV2C_CREATE_SESSION_REQUEST_PR_IE_UE_TIME_ZONE, "ue_time_zone"));
   mk_overload Kuci true (Direct (Mask GTPV2C_CREATE_SESSION_REQUEST_PR_IE_UCI, "uci"));
   mk_overload Kfteid false (Switch [(0, (Mask GTPV2C_CREATE_SESSION_REQUEST_PR_IE_SENDER_FTEID_FOR_CONTROL_PLANE, "sender_fteid_for_cp")); (1, (Mask GTPV2C_CREATE_SESSION_REQUEST_PR_IE_PGW_S5S8_ADDRESS_FOR_CONTROL_PLANE, "pgw_s5s8_address_for_cp"))] GTP_IE_FULLY_QUALIFIED_TUNNEL_ENDPOINT_IDENTIFIER);
   mk_overload Kfq_csid false (Switch [(0, (Mask GTPV2C_CREATE_SESSION_REQUEST_PR_IE_MME_FQ_CSID, "mme_fq_csid")); (1, (Mask GTPV2C_CREATE_SESSION_REQUEST_PR_IE_SGW_FQ_CSID, "sgw_fq_csid")); (2, (Mask GTPV2C_CREATE_SESSION_REQUEST_PR_IE_EPDG_FQ_CSID, "epdg_fq_csid")); (3, (Mask GTPV2C_CREATE_SESSION_REQUEST_PR_IE_TWAN_FQ_CSID, "twan_fq_csid"))] GTP_IE_FQ_CSID)].

Definition gtpv2c_create_session_request_set : list overload :=
  [mk_overload Kimsi true (Direct (Mask GTPV2C_CREATE_SESSION_REQUEST_PR_IE_IMSI, "imsi"));
   mk_overload Kmsisdn true (Direct (Mask GTPV2C_CREATE_SESSION_REQUEST_PR_IE_MSISDN, "msisdn"));
   mk_overload Kmei true (Direct (Mask GTPV2C_CREATE_SESSION_REQUEST_PR_IE_MEI, "mei"));
   mk_overload Kuli true (Direct (Mask GTPV2C_CREATE_SESSION_REQUEST_PR_IE_ULI, "uli"));
   mk_overload Kserving_network true (Direct (Mask GTPV2C_CREATE_SESSION_REQUEST_PR_IE_SERVING_NETWORK, "serving_network"));
   mk_overload Krat_type true (Direct (Mask GTPV2C_CREATE_SESSION_REQUEST_PR_IE_RAT_TYPE, "rat_type"));
   mk_overload Kindication true (Direct (Mask GTPV2C_CREATE_SESSION_REQUEST_PR_IE_INDICATION_FLAGS, "indication_flags"));
   mk_overload Kapn true (Direct (Mask GTPV2C_CREATE_SESSION_REQUEST_PR_IE_APN, "apn"));
   mk_overload Kselection_mode true (Direct (Mask GTPV2C_CREATE_SESSION_REQUEST_PR_IE_SELECTION_MODE, "selection_mode"));
   mk_overload Kpdn_type true (Direct (Mask GTPV2C_CREATE_SESSION_REQUEST_PR_IE_PDN_TYPE, "pdn_type"));
   mk_overload Kpaa true (Direct (Mask GTPV2C_CREATE_SESSION_REQUEST_PR_IE_PAA, "paa"));
   mk_overload Kapn_restriction true (Direct (Mask GTPV2C_CREATE_SESSION_REQUEST_PR_IE_APN_RESTRICTION, "apn_restriction"));
   mk_overload Kambr true (Direct (Mask GTPV2C_CREATE_SESSION_REQUEST_PR_IE_APN_AMBR, "ambr"));
   mk_overload Kebi true (Direct (Mask GTPV2C_CREATE_SESSION_REQUEST_PR_IE_LINKED_EPS_BEARER_ID, "linked_eps_bearer_id"));
   mk_overload Kpco true (Direct (Mask GTPV2C_CREATE_SESSION_REQUEST_PR_IE_PCO, "pco"));
   mk_overload Krecovery true (Direct (Mask GTPV2C_CREATE_SESSION_REQUEST_PR_IE_RECOVERY, "recovery"));
   mk_overload Kue_time_zone true (Direct (Mask GTPV2C_CREATE_SESSION_REQUEST_PR_IE_UE_TIME_ZONE, "ue_time_zone"));
   mk_overload Kuci true (Direct (Mask GTPV2C_CREATE_SESSION_REQUEST_PR_IE_UCI, "uci"));
   mk_overload Kfteid true (Switch [(0, (Mask GTPV2C_CREATE_SESSION_REQUEST_PR_IE_SENDER_FTEID_FOR_CONTROL_PLANE, "sender_fteid_for_cp")); (1, (Mask GTPV2C_CREATE_SESSION_REQUEST_PR_IE_PGW_S5S8_ADDRESS_FOR_CONTROL_PLANE, "pgw_s5s8_address_for_cp"))] GTP_IE_FULLY_QUALIFIED_TUNNEL_ENDPOINT_IDENTIFIER);
   mk_overload Kfq_csid true (Switch [(0, (Mask GTPV2C_CREATE_SESSION_REQUEST_PR_IE_MME_FQ_CSID, "mme_fq_csid")); (1, (Mask GTPV2C_CREATE_SESSION_REQUEST_PR_IE_SGW_FQ_CSID, "sgw_fq_csid")); (2, (Mask GTPV2C_CREATE_SESSION_REQUEST_PR_IE_EPDG_FQ_CSID, "epdg_fq_csid")); (3, (Mask GTPV2C_CREATE_SESSION_REQUEST_PR_IE_TWAN_FQ_CSID, "twan_fq_csid"))] GTP_IE_FQ_CSID)].

Definition gtpv2c_create_session_request_named_get : list (string * slot) :=
  [("sender_fteid_for_cp", (Mask GTPV2C_CREATE_SESSION_REQUEST_PR_IE_SENDER_FTEID_FOR_CONTROL_PLANE, "sender_fteid_for_cp"));
   ("pgw_s5s8_address_for_cp", (Mask GTPV2C_CREATE_SESSION_REQUEST_PR_IE_PGW_S5S8_ADDRESS_FOR_CONTROL_PLANE, "pgw_s5s8_address_for_cp"));
   ("mme_fq_csid", (Mask GTPV2C_CREATE_SESSION_REQUEST_PR_IE_MME_FQ_CSID, "mme_fq_csid"));
   ("sgw_fq_csid", (Mask GTPV2C_CREATE_SESSION_REQUEST_PR_IE_SGW_FQ_CSID, "sgw_fq_csid"));
   ("epdg_fq_csid", (Mask GTPV2C_CREATE_SESSION_REQUEST_PR_IE_EPDG_FQ_CSID, "epdg_fq_csid"));
   ("twan_fq_csid", (Mask GTPV2C_CREATE_SESSION_REQUEST_PR_IE_TWAN_FQ_CSID, "twan_fq_csid"))].

Definition gtpv2c_create_session_request_named_set : list (string * slot) :=
  [("sender_fteid_for_cp", (Mask GTPV2C_CREATE_SESSION_REQUEST_PR_IE_SENDER_FTEID_FOR_CONTROL_PLANE, "sender_fteid_for_cp"));
   ("pgw_s5s8_address_for_cp", (Mask GTPV2C_CREATE_SESSION_REQUEST_PR_IE_PGW_S5S8_ADDRESS_FOR_CONTROL_PLANE, "pgw_s5s8_address_for_cp"));
   ("mme_fq_csid", (Mask GTPV2C_CREATE_SESSION_REQUEST_PR_IE_MME_FQ_CSID, "mme_fq_csid"));
   ("sgw_fq_csid", (Mask GTPV2C_CREATE_SESSION_REQUEST_PR_IE_SGW_FQ_CSID, "sgw_fq_csid"));
   ("epdg_fq_csid", (Mask GTPV2C_CREATE_SESSION_REQUEST_PR_IE_EPDG_FQ_CSID, "epdg_fq_csid"));
   ("twan_fq_csid", (Mask GTPV2C_CREATE_SESSION_REQUEST_PR_IE_TWAN_FQ_CSID, "twan_fq_csid"))].

Definition gtpv2c_create_session_request_class : ies_class :=
  mk_ies_class 64 gtpv2c_create_session_request_members [("pdn_type", VCore (CorePdnType (mk_pdn_type_t 0))); ("rat_type", VCore (CoreRatType (mk_rat_type_t RAT_TYPE_E_UTRAN)))] gtpv2c_create_session_request_get gtpv2c_create_session_request_set
    gtpv2c_create_session_request_named_get gtpv2c_create_session_request_named_set.

Definition gtpv2c_create_session_request_contexts : list (Z * (slot * context_class)) :=
  [(0, ((Mask GTPV2C_CREATE_SESSION_REQUEST_PR_IE_BEARER_CONTEXTS_TO_BE_CREATED, "bearer_contexts_to_be_created"), bearer_context_to_be_created_within_create_session_request));
   (1, ((Mask GTPV2C_CREATE_SESSION_REQUEST_PR_IE_BEARER_CONTEXTS_TO_BE_REMOVED, "bearer_contexts_to_be_removed"), bearer_context_to_be_removed_within_create_session_request))].

Definition gtpv2c_create_session_request : message_class := mk_message_class gtpv2c_create_session_request_class (Some gtpv2c_create_session_request_contexts).

Definition gtpv2c_create_session_request_copy : list string :=
  ["ie_presence_mask"; "imsi"; "msisdn"; "mei"; "uli"; "serving_network"; "rat_type"; "indication_flags";
   "sender_fteid_for_cp"; "pgw_s5s8_address_for_cp"; "apn"; "selection_mode"; "pdn_type"; "paa"; "apn_restriction";
   "ambr"; "linked_eps_bearer_id"; "pco"; "bearer_contexts_to_be_created"; "bearer_contexts_to_be_removed";
   "recovery"; "mme_fq_csid"; "sgw_fq_csid"; "epdg_fq_csid"; "twan_fq_csid"; "ue_time_zone"; "uci"].

Definition gtpv2c_create_session_request_assign : list string :=
  ["ie_presence_mask"; "imsi"; "msisdn"; "mei"; "uli"; "serving_network"; "rat_type"; "indication_flags";
   "sender_fteid_for_cp"; "pgw_s5s8_address_for_cp"; "apn"; "selection_mode"; "pdn_type"; "paa"; "apn_restriction";
   "ambr"; "linked_eps_bearer_id"; "pco"; "bearer_contexts_to_be_created"; "bearer_contexts_to_be_removed";
   "recovery"; "mme_fq_csid"; "sgw_fq_csid"; "epdg_fq_csid"; "twan_fq_csid"; "ue_time_zone"; "uci"].

Definition create_session_request_bearer_contexts_to_be_created_rows : list build_row :=
  [mk_build_row (Mask GTPV2C_BEARER_CONTEXT_TO_BE_CREATED_WITHIN_CREATE_SESSION_REQUEST_PR_IE_EPS_BEARER_ID, "eps_bearer_id") Kebi None false;
   mk_build_row (Mask GTPV2C_BEARER_CONTEXT_TO_BE_CREATED_WITHIN_CREATE_SESSION_REQUEST_PR_IE_S1_U_ENB_FTEID, "s1_u_enb_fteid") Kfteid None false;
   mk_build_row (Mask GTPV2C_BEARER_CONTEXT_TO_BE_CREATED_WITHIN_CREATE_SESSION_REQUEST_PR_IE_S4_U_SGSN_FTEID, "s4_u_sgsn_fteid") Kfteid (Some 1) false;
   mk_build_row (Mask GTPV2C_BEARER_CONTEXT_TO_BE_CREATED_WITHIN_CREATE_SESSION_REQUEST_PR_IE_S5_S8_U_SGW_FTEID, "s5_s8_u_sgw_fteid") Kfteid (Some 2) false;
   mk_build_row (Mask GTPV2C_BEARER_CONTEXT_TO_BE_CREATED_WITHIN_CREATE_SESSION_REQUEST_PR_IE_S5_S8_U_PGW_FTEID, "s5_s8_u_pgw_fteid") Kfteid (Some 3) false;
   mk_build_row (Mask GTPV2C_BEARER_CONTEXT_TO_BE_CREATED_WITHIN_CREATE_SESSION_REQUEST_PR_IE_S12_RNC_FTEID, "s12_rnc_fteid") Kfteid (Some 4) false;
   mk_build_row (Mask GTPV2C_BEARER_CONTEXT_TO_BE_CREATED_WITHIN_CREATE_SESSION_REQUEST_PR_IE_S2B_U_EPDG_FTEID, "s2b_u_epdg_fteid") Kfteid (Some 5) false;
   mk_build_row (Mask GTPV2C_BEARER_CONTEXT_TO_BE_CREATED_WITHIN_CREATE_SESSION_REQUEST_PR_IE_S2A_U_TWAN_FTEID, "s2a_u_twan_fteid") Kfteid (Some 6) false;
   mk_build_row (Mask GTPV2C_BEARER_CONTEXT_TO_BE_CREATED_WITHIN_CREATE_SESSION_REQUEST_PR_IE_BEARER_LEVEL_QOS, "bearer_level_qos") Kbearer_qos None false;
   mk_build_row (Mask GTPV2C_BEARER_CONTEXT_TO_BE_CREATED_WITHIN_CREATE_SESSION_REQUEST_PR_IE_S11_U_MME_FTEID, "s11_u_mme_fteid") Kfteid (Some 7) false].

Definition create_session_request_bearer_contexts_to_be_removed_rows : list build_row :=
  [mk_build_row (Mask GTPV2C_BEARER_CONTEXT_TO_BE_REMOVED_WITHIN_CREATE_SESSION_REQUEST_PR_IE_EPS_BEARER_ID, "eps_bearer_id") Kebi None false;
   mk_build_row (Mask GTPV2C_BEARER_CONTEXT_TO_BE_REMOVED_WITHIN_CREATE_SESSION_REQUEST_PR_IE_S4_U_SGSN_FTEID, "s4_u_sgsn_fteid") Kfteid None false].

Definition create_session_request_build1 : list build :=
  [BuildIe (mk_build_row (Mask GTPV2C_CREATE_SESSION_REQUEST_PR_IE_IMSI, "imsi") Kimsi None false);
   BuildIe (mk_build_row (Mask GTPV2C_CREATE_SESSION_REQUEST_PR_IE_MSISDN, "msisdn") Kmsisdn None false);
   BuildIe (mk_build_row (Mask GTPV2C_CREATE_SESSION_REQUEST_PR_IE_MEI, "mei") Kmei None false);
   BuildIe (mk_build_row (Mask GTPV2C_CREATE_SESSION_REQUEST_PR_IE_ULI, "uli") Kuli None false);
   BuildIe (mk_build_row (Mask GTPV2C_CREATE_SESSION_REQUEST_PR_IE_SERVING_NETWORK, "serving_network") Kserving_network None false);
   BuildIe (mk_build_row (Mask GTPV2C_CREATE_SESSION_REQUEST_PR_IE_RAT_TYPE, "rat_type") Krat_type None false);
   BuildIe (mk_build_row (Mask GTPV2C_CREATE_SESSION_REQUEST_PR_IE_INDICATION_FLAGS, "indication_flags") Kindication None false);
   BuildIe (mk_build_row (Mask GTPV2C_CREATE_SESSION_REQUEST_PR_IE_SENDER_FTEID_FOR_CONTROL_PLANE, "sender_fteid_for_cp") Kfteid None false);
   BuildIe (mk_build_row (Mask GTPV2C_CREATE_SESSION_REQUEST_PR_IE_PGW_S5S8_ADDRESS_FOR_CONTROL_PLANE, "pgw_s5s8_address_for_cp") Kfteid (Some 1) false);
   BuildIe (mk_build_row (Mask GTPV2C_CREATE_SESSION_REQUEST_PR_IE_APN, "apn") Kapn None false);
   BuildIe (mk_build_row (Mask GTPV2C_CREATE_SESSION_REQUEST_PR_IE_SELECTION_MODE, "selection_mode") Kselection_mode None false);
   BuildIe (mk_build_row (Mask GTPV2C_CREATE_SESSION_REQUEST_PR_IE_PDN_TYPE, "pdn_type") Kpdn_type None false);
   BuildIe (mk_build_row (Mask GTPV2C_CREATE_SESSION_REQUEST_PR_IE_PAA, "paa") Kpaa None false);
   BuildIe (mk_build_row (Mask GTPV2C_CREATE_SESSION_REQUEST_PR_IE_APN_RESTRICTION, "apn_restriction") Kapn_restriction None false);
   BuildIe (mk_build_row (Mask GTPV2C_CREATE_SESSION_REQUEST_PR_IE_APN_AMBR, "ambr") Kambr None false);
   BuildIe (mk_build_row (Mask GTPV2C_CREATE_SESSION_REQUEST_PR_IE_LINKED_EPS_BEARER_ID, "linked_eps_bearer_id") Kebi None false);
   BuildIe (mk_build_row (Mask GTPV2C_CREATE_SESSION_REQUEST_PR_IE_PCO, "pco") Kpco None false)].

Definition create_session_request_build2 : list build :=
  [BuildIe (mk_build_row (Mask GTPV2C_CREATE_SESSION_REQUEST_PR_IE_MME_FQ_CSID, "mme_fq_csid") Kfq_csid None false);
   BuildIe (mk_build_row (Mask GTPV2C_CREATE_SESSION_REQUEST_PR_IE_SGW_FQ_CSID, "sgw_fq_csid") Kfq_csid (Some 1) false);
   BuildIe (mk_build_row (Mask GTPV2C_CREATE_SESSION_REQUEST_PR_IE_UE_TIME_ZONE, "ue_time_zone") Kue_time_zone None false)].

Definition create_session_request_message : message :=
  mk_message GTP_CREATE_SESSION_REQUEST gtpv2c_create_session_request
    (create_session_request_build1 ++
     [BuildContexts (Mask GTPV2C_CREATE_SESSION_REQUEST_PR_IE_BEARER_CONTEXTS_TO_BE_CREATED, "bearer_contexts_to_be_created") None create_session_request_bearer_contexts_to_be_created_rows] ++
     [BuildContexts (Mask GTPV2C_CREATE_SESSION_REQUEST_PR_IE_BEARER_CONTEXTS_TO_BE_REMOVED, "bearer_contexts_to_be_removed") (Some 1) create_session_request_bearer_contexts_to_be_removed_rows] ++
     create_session_request_build2).

(** *** [bearer_context_created_within_create_session_response] *)

Definition bearer_context_created_within_create_session_response_members : list (string * ie_kind) :=
  [("eps_bearer_id", Kebi); ("cause", Kcause); ("s1_u_sgw_fteid", Kfteid); ("s4_u_sgw_fteid", Kfteid);
   ("s5_s8_u_pgw_fteid", Kfteid); ("s12_sgw_fteid", Kfteid); ("s2b_u_pgw_fteid", Kfteid); ("s2a_u_pgw_fteid", Kfteid);
   ("bearer_level_qos", Kbearer_qos); ("charging_id", Kcharging_id); ("bearer_flags", Kbearer_flags);
   ("s11_u_sgw_fteid", Kfteid)].

Definition bearer_context_created_within_create_session_response_get : list overload :=
  [mk_overload Kebi false (Direct (Mask GTPV2C_BEARER_CONTEXT_CREATED_WITHIN_CREATE_SESSION_RESPONSE_PR_IE_EPS_BEARER_ID, "eps_bearer_id"));
   mk_overload Kcause false (Direct (Mask GTPV2C_BEARER_CONTEXT_CREATED_WITHIN_CREATE_SESSION_RESPONSE_PR_IE_CAUSE, "cause"));
   mk_overload Kbearer_qos false (Direct (Mask GTPV2C_BEARER_CONTEXT_CREATED_WITHIN_CREATE_SESSION_RESPONSE_PR_IE_S5_S8_BEARER_LEVEL_QOS, "bearer_level_qos"));
   mk_overload Kcharging_id false (Direct (Mask GTPV2C_BEARER_CONTEXT_CREATED_WITHIN_CREATE_SESSION_RESPONSE_PR_IE_CHARGING_ID, "charging_id"));
   mk_overload Kbearer_flags false (Direct (Mask GTPV2C_BEARER_CONTEXT_CREATED_WITHIN_CREATE_SESSION_RESPONSE_PR_IE_BEARER_FLAGS, "bearer_flags"));
   mk_overload Kfteid false (Switch [(0, (Mask GTPV2C_BEARER_CONTEXT_CREATED_WITHIN_CREATE_SESSION_RESPONSE_PR_IE_S1_U_SGW_FTEID, "s1_u_sgw_fteid")); (1, (Mask GTPV2C_BEARER_CONTEXT_CREATED_WITHIN_CREATE_SESSION_RESPONSE_PR_IE_S4_U_SGW_FTEID, "s4_u_sgw_fteid")); (2, (Mask GTPV2C_BEARER_CONTEXT_CREATED_WITHIN_CREATE_SESSION_RESPONSE_PR_IE_S5_S8_U_PGW_FTEID, "s5_s8_u_pgw_fteid")); (3, (Mask GTPV2C_BEARER_CONTEXT_CREATED_WITHIN_CREATE_SESSION_RESPONSE_PR_IE_S12_SGW_FTEID, "s12_sgw_fteid")); (4, (Mask GTPV2C_BEARER_CONTEXT_CREATED_WITHIN_CREATE_SESSION_RESPONSE_PR_IE_S2B_U_PGW_FTEID, "s2b_u_pgw_fteid")); (5, (Mask GTPV2C_BEARER_CONTEXT_CREATED_WITHIN_CREATE_SESSION_RESPONSE_PR_IE_S2A_U_PGW_FTEID, "s2a_u_pgw_fteid")); (6, (Mask GTPV2C_BEARER_CONTEXT_CREATED_WITHIN_CREATE_SESSION_RESPONSE_PR_IE_S11_U_SGW_FTEID, "s11_u_sgw_fteid"))] GTP_IE_FULLY_QUALIFIED_TUNNEL_ENDPOINT_IDENTIFIER)].

Definition bearer_context_created_within_create_session_response_set : list overload :=
  [mk_overload Kebi false (Direct (Mask GTPV2C_BEARER_CONTEXT_CREATED_WITHIN_CREATE_SESSION_RESPONSE_PR_IE_EPS_BEARER_ID, "eps_bearer_id"));
   mk_overload Kcause false (Direct (Mask GTPV2C_BEARER_CONTEXT_CREATED_WITHIN_CREATE_SESSION_RESPONSE_PR_IE_CAUSE, "cause"));
   mk_overload Kbearer_qos false (Direct (Mask GTPV2C_BEARER_CONTEXT_CREATED_WITHIN_CREATE_SESSION_RESPONSE_PR_IE_S5_S8_BEARER_LEVEL_QOS, "bearer_level_qos"));
   mk_overload Kcharging_id false (Direct (Mask GTPV2C_BEARER_CONTEXT_CREATED_WITHIN_CREATE_SESSION_RESPONSE_PR_IE_CHARGING_ID, "charging_id"));
   mk_overload Kbearer_flags false (Direct (Mask GTPV2C_BEARER_CONTEXT_CREATED_WITHIN_CREATE_SESSION_RESPONSE_PR_IE_BEARER_FLAGS, "bearer_flags"));
   mk_overload Kfteid false (Switch [(0, (Mask GTPV2C_BEARER_CONTEXT_CREATED_WITHIN_CREATE_SESSION_RESPONSE_PR_IE_S1_U_SGW_FTEID, "s1_u_sgw_fteid")); (1, (Mask GTPV2C_BEARER_CONTEXT_CREATED_WITHIN_CREATE_SESSION_RESPONSE_PR_IE_S4_U_SGW_FTEID, "s4_u_sgw_fteid")); (2, (Mask GTPV2C_BEARER_CONTEXT_CREATED_WITHIN_CREATE_SESSION_RESPONSE_PR_IE_S5_S8_U_PGW_FTEID, "s5_s8_u_pgw_fteid")); (3, (Mask GTPV2C_BEARER_CONTEXT_CREATED_WITHIN_CREATE_SESSION_RESPONSE_PR_IE_S12_SGW_FTEID, "s12_sgw_fteid")); (4, (Mask GTPV2C_BEARER_CONTEXT_CREATED_WITHIN_CREATE_SESSION_RESPONSE_PR_IE_S2B_U_PGW_FTEID, "s2b_u_pgw_fteid")); (5, (Mask GTPV2C_BEARER_CONTEXT_CREATED_WITHIN_CREATE_SESSION_RESPONSE_PR_IE_S2A_U_PGW_FTEID, "s2a_u_pgw_fteid")); (6, (Mask GTPV2C_BEARER_CONTEXT_CREATED_WITHIN_CREATE_SESSION_RESPONSE_PR_IE_S11_U_SGW_FTEID, "s11_u_sgw_fteid"))] GTP_IE_FULLY_QUALIFIED_TUNNEL_ENDPOINT_IDENTIFIER)].

Definition bearer_context_created_within_create_session_response_named_get : list (string * slot) :=
  [("s1_u_sgw_fteid", (Mask GTPV2C_BEARER_CONTEXT_CREATED_WITHIN_CREATE_SESSION_RESPONSE_PR_IE_S1_U_SGW_FTEID, "s1_u_sgw_fteid"));
   ("s4_u_sgw_fteid", (Mask GTPV2C_BEARER_CONTEXT_CREATED_WITHIN_CREATE_SESSION_RESPONSE_PR_IE_S4_U_SGW_FTEID, "s4_u_sgw_fteid"));
   ("s5_s8_u_pgw_fteid", (Mask GTPV2C_BEARER_CONTEXT_CREATED_WITHIN_CREATE_SESSION_RESPONSE_PR_IE_S5_S8_U_PGW_FTEID, "s5_s8_u_pgw_fteid"));
   ("s12_sgw_fteid", (Mask GTPV2C_BEARER_CONTEXT_CREATED_WITHIN_CREATE_SESSION_RESPONSE_PR_IE_S12_SGW_FTEID, "s12_sgw_fteid"));
   ("s2b_u_pgw_fteid", (Mask GTPV2C_BEARER_CONTEXT_CREATED_WITHIN_CREATE_SESSION_RESPONSE_PR_IE_S2B_U_PGW_FTEID, "s2b_u_pgw_fteid"));
   ("s2a_u_pgw_fteid", (Mask GTPV2C_BEARER_CONTEXT_CREATED_WITHIN_CREATE_SESSION_RESPONSE_PR_IE_S2A_U_PGW_FTEID, "s2a_u_pgw_fteid"));
   ("s11_u_sgw_fteid", (Mask GTPV2C_BEARER_CONTEXT_CREATED_WITHIN_CREATE_SESSION_RESPONSE_PR_IE_S11_U_SGW_FTEID, "s11_u_sgw_fteid"))].

Definition bearer_context_created_within_create_session_response_named_set : list (string * slot) :=
  [("s1_u_sgw_fteid", (Mask GTPV2C_BEARER_CONTEXT_CREATED_WITHIN_CREATE_SESSION_RESPONSE_PR_IE_S1_U_SGW_FTEID, "s1_u_sgw_fteid"));
   ("s4_u_sgw_fteid", (Mask GTPV2C_BEARER_CONTEXT_CREATED_WITHIN_CREATE_SESSION_RESPONSE_PR_IE_S4_U_SGW_FTEID, "s4_u_sgw_fteid"));
   ("s5_s8_u_pgw_fteid", (Mask GTPV2C_BEARER_CONTEXT_CREATED_WITHIN_CREATE_SESSION_RESPONSE_PR_IE_S5_S8_U_PGW_FTEID, "s5_s8_u_pgw_fteid"));
   ("s12_sgw_fteid", (Mask GTPV2C_BEARER_CONTEXT_CREATED_WITHIN_CREATE_SESSION_RESPONSE_PR_IE_S12_SGW_FTEID, "s12_sgw_fteid"));
   ("s2b_u_pgw_fteid", (Mask GTPV2C_BEARER_CONTEXT_CREATED_WITHIN_CREATE_SESSION_RESPONSE_PR_IE_S2B_U_PGW_FTEID, "s2b_u_pgw_fteid"));
   ("s2a_u_pgw_fteid", (Mask GTPV2C_BEARER_CONTEXT_CREATED_WITHIN_CREATE_SESSION_RESPONSE_PR_IE_S2A_U_PGW_FTEID, "s2a_u_pgw_fteid"));
   ("s11_u_sgw_fteid", (Mask GTPV2C_BEARER_CONTEXT_CREATED_WITHIN_CREATE_SESSION_RESPONSE_PR_IE_S11_U_SGW_FTEID, "s11_u_sgw_fteid"))].

Definition bearer_context_created_within_create_session_response_class : ies_class :=
  mk_ies_class 32 bearer_context_created_within_create_session_response_members [] bearer_context_created_within_create_session_response_get bearer_context_created_within_create_session_response_set
    bearer_context_created_within_create_session_response_named_get bearer_context_created_within_create_session_response_named_set.

Definition bearer_context_created_within_create_session_response_of : list of_row :=
  [OfGet (Mask GTPV2C_BEARER_CONTEXT_CREATED_WITHIN_CREATE_SESSION_RESPONSE_PR_IE_EPS_BEARER_ID, "eps_bearer_id") Kebi 0;
   OfGet (Mask GTPV2C_BEARER_CONTEXT_CREATED_WITHIN_CREATE_SESSION_RESPONSE_PR_IE_CAUSE, "cause") Kcause 0;
   OfGet (Mask GTPV2C_BEARER_CONTEXT_CREATED_WITHIN_CREATE_SESSION_RESPONSE_PR_IE_S1_U_SGW_FTEID, "s1_u_sgw_fteid") Kfteid 0;
   OfGet (Mask GTPV2C_BEARER_CONTEXT_CREATED_WITHIN_CREATE_SESSION_RESPONSE_PR_IE_S4_U_SGW_FTEID, "s4_u_sgw_fteid") Kfteid 1;
   OfGet (Mask GTPV2C_BEARER_CONTEXT_CREATED_WITHIN_CREATE_SESSION_RESPONSE_PR_IE_S5_S8_U_PGW_FTEID, "s5_s8_u_pgw_fteid") Kfteid 2;
   OfGet (Mask GTPV2C_BEARER_CONTEXT_CREATED_WITHIN_CREATE_SESSION_RESPONSE_PR_IE_S12_SGW_FTEID, "s12_sgw_fteid") Kfteid 3;
   OfGet (Mask GTPV2C_BEARER_CONTEXT_CREATED_WITHIN_CREATE_SESSION_RESPONSE_PR_IE_S2B_U_PGW_FTEID, "s2b_u_pgw_fteid") Kfteid 4;
   OfGet (Mask GTPV2C_BEARER_CONTEXT_CREATED_WITHIN_CREATE_SESSION_RESPONSE_PR_IE_S2A_U_PGW_FTEID, "s2a_u_pgw_fteid") Kfteid 5;
   OfGet (Mask GTPV2C_BEARER_CONTEXT_CREATED_WITHIN_CREATE_SESSION_RESPONSE_PR_IE_S5_S8_BEARER_LEVEL_QOS, "bearer_level_qos") Kbearer_qos 0;
   OfGet (Mask GTPV2C_BEARER_CONTEXT_CREATED_WITHIN_CREATE_SESSION_RESPONSE_PR_IE_CHARGING_ID, "charging_id") Kcharging_id 0;
   OfGet (Mask GTPV2C_BEARER_CONTEXT_CREATED_WITHIN_CREATE_SESSION_RESPONSE_PR_IE_BEARER_FLAGS, "bearer_flags") Kbearer_flags 0;
   OfGet (Mask GTPV2C_BEARER_CONTEXT_CREATED_WITHIN_CREATE_SESSION_RESPONSE_PR_IE_S11_U_SGW_FTEID, "s11_u_sgw_fteid") Kfteid 6].

Definition bearer_context_created_within_create_session_response : context_class := mk_context_class bearer_context_created_within_create_session_response_class bearer_context_created_within_create_session_response_of.

(** *** [bearer_context_marked_for_removal_within_create_session_response] *)

Definition bearer_context_marked_for_removal_within_create_session_response_members : list (string * ie_kind) :=
  [("eps_bearer_id", Kebi); ("cause", Kcause)].

Definition bearer_context_marked_for_removal_within_create_session_response_get : list overload :=
  [mk_overload Kebi false (Direct (Mask GTPV2C_BEARER_CONTEXT_MARKED_FOR_REMOVAL_WITHIN_CREATE_SESSION_RESPONSE_PR_IE_EPS_BEARER_ID, "eps_bearer_id"));
   mk_overload Kcause false (Direct (Mask GTPV2C_BEARER_CONTEXT_MARKED_FOR_REMOVAL_WITHIN_CREATE_SESSION_RESPONSE_PR_IE_CAUSE, "cause"))].

Definition bearer_context_marked_for_removal_within_create_session_response_set : list overload :=
  [mk_overload Kebi false (Direct (Mask GTPV2C_BEARER_CONTEXT_MARKED_FOR_REMOVAL_WITHIN_CREATE_SESSION_RESPONSE_PR_IE_EPS_BEARER_ID, "eps_bearer_id"));
   mk_overload Kcause false (Direct (Mask GTPV2C_BEARER_CONTEXT_MARKED_FOR_REMOVAL_WITHIN_CREATE_SESSION_RESPONSE_PR_IE_CAUSE, "cause"))].

Definition bearer_context_marked_for_removal_within_create_session_response_class : ies_class :=
  mk_ies_class 32 bearer_context_marked_for_removal_within_create_session_response_members [] bearer_context_marked_for_removal_within_create_session_response_get bearer_context_marked_for_removal_within_create_session_response_set
    [] [].

Definition bearer_context_marked_for_removal_within_create_session_response_of : list of_row :=
  [OfGet (Mask GTPV2C_BEARER_CONTEXT_MARKED_FOR_REMOVAL_WITHIN_CREATE_SESSION_RESPONSE_PR_IE_EPS_BEARER_ID, "eps_bearer_id") Kebi 0;
   OfGet (Mask GTPV2C_BEARER_CONTEXT_MARKED_FOR_REMOVAL_WITHIN_CREATE_SESSION_RESPONSE_PR_IE_CAUSE, "cause") Kcause 0].

Definition bearer_context_marked_for_removal_within_create_session_response : context_class := mk_context_class bearer_context_marked_for_removal_within_create_session_response_class bearer_context_marked_for_removal_within_create_session_response_of.

(** *** [gtpv2c_create_session_response] *)

Definition gtpv2c_create_session_response_members : list (string * ie_kind) :=
  [("cause", Kcause); ("sender_fteid_for_cp", Kfteid); ("s5_s8_pgw_fteid", Kfteid); ("paa", Kpaa);
   ("apn_restriction", Kapn_restriction); ("apn_ambr", Kambr); ("linked_eps_bearer_id", Kebi); ("pco", Kpco);
   ("pgw_fq_csid", Kfq_csid); ("sgw_fq_csid", Kfq_csid); ("sgw_ldn", Kldn); ("pgw_ldn", Kldn);
   ("pgw_back_off_time", Kepc_timer); ("indication_flags", Kindication)].

Definition gtpv2c_create_session_response_get : list overload :=
  [mk_overload Kcause true (Direct (First, "cause")); mk_overload Kpaa true (Direct (First, "paa"));
   mk_overload Kapn_restriction true (Direct (First, "apn_restriction"));
   mk_overload Kambr true (Direct (First, "apn_ambr"));
   mk_overload Kebi true (Direct (First, "linked_eps_bearer_id")); mk_overload Kpco true (Direct (First, "pco"));
   mk_overload Kepc_timer false (Direct (First, "pgw_back_off_time"));
   mk_overload Kindication true (Direct (First, "indication_flags"));
   mk_overload Kfteid false (Switch [(0, (First, "sender_fteid_for_cp")); (1, (First, "s5_s8_pgw_fteid"))] GTP_IE_FULLY_QUALIFIED_TUNNEL_ENDPOINT_IDENTIFIER);
   mk_overload Kfq_csid false (Switch [(0, (First, "pgw_fq_csid")); (1, (First, "sgw_fq_csid"))] GTP_IE_FQ_CSID);
   mk_overload Kldn false (Switch [(0, (First, "sgw_ldn")); (1, (First, "pgw_ldn"))] GTP_IE_LOCAL_DISTINGUISHED_NAME)].

Definition gtpv2c_create_session_response_set : list overload :=
  [mk_overload Kcause true (Direct (First, "cause")); mk_overload Kpaa true (Direct (First, "paa"));
   mk_overload Kapn_restriction true (Direct (First, "apn_restriction"));
   mk_overload Kambr true (Direct (First, "apn_ambr"));
   mk_overload Kebi true (Direct (First, "linked_eps_bearer_id")); mk_overload Kpco true (Direct (First, "pco"));
   mk_overload Kepc_timer true (Direct (First, "pgw_back_off_time"));
   mk_overload Kindication true (Direct (First, "indication_flags"));
   mk_overload Kfteid true (Switch [(0, (First, "sender_fteid_for_cp")); (1, (First, "s5_s8_pgw_fteid"))] GTP_IE_FULLY_QUALIFIED_TUNNEL_ENDPOINT_IDENTIFIER);
   mk_overload Kfq_csid true (Switch [(0, (First, "pgw_fq_csid")); (1, (First, "sgw_fq_csid"))] GTP_IE_FQ_CSID);
   mk_overload Kldn true (Switch [(0, (First, "sgw_ldn")); (1, (First, "pgw_ldn"))] GTP_IE_LOCAL_DISTINGUISHED_NAME)].

Definition gtpv2c_create_session_response_named_get : list (string * slot) :=
  [("sender_fteid_for_cp", (First, "sender_fteid_for_cp")); ("s5_s8_pgw_fteid", (First, "s5_s8_pgw_fteid"));
   ("pgw_fq_csid", (First, "pgw_fq_csid")); ("sgw_fq_csid", (First, "sgw_fq_csid")); ("sgw_ldn", (First, "sgw_ldn"));
   ("pgw_ldn", (First, "pgw_ldn"))].

Definition gtpv2c_create_session_response_named_set : list (string * slot) :=
  [("sender_fteid_for_cp", (First, "sender_fteid_for_cp")); ("s5_s8_pgw_fteid", (First, "s5_s8_pgw_fteid"));
   ("pgw_fq_csid", (First, "pgw_fq_csid")); ("sgw_fq_csid", (First, "sgw_fq_csid")); ("sgw_ldn", (First, "sgw_ldn"));
   ("pgw_ldn", (First, "pgw_ldn"))].

Definition gtpv2c_create_session_response_class : ies_class :=
  mk_ies_class 64 gtpv2c_create_session_response_members [] gtpv2c_create_session_response_get gtpv2c_create_session_response_set
    gtpv2c_create_session_response_named_get gtpv2c_create_session_response_named_set.

Definition gtpv2c_create_session_response_contexts : list (Z * (slot * context_class)) :=
  [(0, ((First, "bearer_contexts_created"), bearer_context_created_within_create_session_response));
   (1, ((First, "bearer_contexts_marked_for_removal"), bearer_context_marked_for_removal_within_create_session_response))].

Definition gtpv2c_create_session_response : message_class := mk_message_class gtpv2c_create_session_response_class (Some gtpv2c_create_session_response_contexts).

Definition gtpv2c_create_session_response_copy : list string :=
  ["cause"; "sender_fteid_for_cp"; "pgw_back_off_time"; "indication_flags"; "s5_s8_pgw_fteid"; "paa";
   "apn_restriction"; "apn_ambr"; "linked_eps_bearer_id"; "pco"; "bearer_contexts_created";
   "bearer_contexts_marked_for_removal"; "pgw_fq_csid"; "sgw_fq_csid"; "sgw_ldn"; "pgw_ldn"].

Definition gtpv2c_create_session_response_assign : list string :=
  ["cause"; "pgw_back_off_time"; "indication_flags"; "sender_fteid_for_cp"; "s5_s8_pgw_fteid"; "paa";
   "apn_restriction"; "apn_ambr"; "linked_eps_bearer_id"; "pco"; "bearer_contexts_created";
   "bearer_contexts_marked_for_removal"; "pgw_fq_csid"; "sgw_fq_csid"; "sgw_ldn"; "pgw_ldn"].

Definition gtpv2c_create_session_response_clear : list (string * string) :=
  [("cause", "cause"); ("sender_fteid_for_cp", "sender_fteid_for_cp"); ("s5_s8_pgw_fteid", "s5_s8_pgw_fteid");
   ("paa", "paa"); ("apn_restriction", "apn_restriction"); ("apn_ambr", "apn_ambr");
   ("linked_eps_bearer_id", "linked_eps_bearer_id"); ("pco", "pco");
   ("bearer_context_created", "bearer_contexts_created");
   ("bearer_context_marked_for_removal", "bearer_contexts_marked_for_removal"); ("pgw_fq_csid", "pgw_fq_csid");
   ("sgw_fq_csid", "sgw_fq_csid"); ("sgw_ldn", "sgw_ldn"); ("pgw_ldn", "pgw_ldn");
   ("pgw_back_off_time", "pgw_back_off_time"); ("indication_flags", "indication_flags")].

Definition create_session_response_bearer_contexts_created_rows : list build_row :=
  [mk_build_row (Mask GTPV2C_BEARER_CONTEXT_CREATED_WITHIN_CREATE_SESSION_RESPONSE_PR_IE_EPS_BEARER_ID, "eps_bearer_id") Kebi None false;
   mk_build_row (Mask GTPV2C_BEARER_CONTEXT_CREATED_WITHIN_CREATE_SESSION_RESPONSE_PR_IE_CAUSE, "cause") Kcause None false;
   mk_build_row (Mask GTPV2C_BEARER_CONTEXT_CREATED_WITHIN_CREATE_SESSION_RESPONSE_PR_IE_S1_U_SGW_FTEID, "s1_u_sgw_fteid") Kfteid None false;
   mk_build_row (Mask GTPV2C_BEARER_CONTEXT_CREATED_WITHIN_CREATE_SESSION_RESPONSE_PR_IE_S4_U_SGW_FTEID, "s4_u_sgw_fteid") Kfteid (Some 1) false;
   mk_build_row (Mask GTPV2C_BEARER_CONTEXT_CREATED_WITHIN_CREATE_SESSION_RESPONSE_PR_IE_S5_S8_U_PGW_FTEID, "s5_s8_u_pgw_fteid") Kfteid (Some 2) false;
   mk_build_row (Mask GTPV2C_BEARER_CONTEXT_CREATED_WITHIN_CREATE_SESSION_RESPONSE_PR_IE_S12_SGW_FTEID, "s12_sgw_fteid") Kfteid (Some 3) false;
   mk_build_row (Mask GTPV2C_BEARER_CONTEXT_CREATED_WITHIN_CREATE_SESSION_RESPONSE_PR_IE_S5_S8_BEARER_LEVEL_QOS, "bearer_level_qos") Kbearer_qos None false;
   mk_build_row (Mask GTPV2C_BEARER_CONTEXT_CREATED_WITHIN_CREATE_SESSION_RESPONSE_PR_IE_CHARGING_ID, "charging_id") Kcharging_id None false;
   mk_build_row (Mask GTPV2C_BEARER_CONTEXT_CREATED_WITHIN_CREATE_SESSION_RESPONSE_PR_IE_BEARER_FLAGS, "bearer_flags") Kbearer_flags None false;
   mk_build_row (Mask GTPV2C_BEARER_CONTEXT_CREATED_WITHIN_CREATE_SESSION_RESPONSE_PR_IE_S11_U_SGW_FTEID, "s11_u_sgw_fteid") Kfteid (Some 6) false].

Definition create_session_response_bearer_contexts_marked_for_removal_rows : list build_row :=
  [mk_build_row (Mask GTPV2C_BEARER_CONTEXT_MARKED_FOR_REMOVAL_WITHIN_CREATE_SESSION_RESPONSE_PR_IE_EPS_BEARER_ID, "eps_bearer_id") Kebi None false;
   mk_build_row (Mask GTPV2C_BEARER_CONTEXT_MARKED_FOR_REMOVAL_WITHIN_CREATE_SESSION_RESPONSE_PR_IE_CAUSE, "cause") Kcause None false].

Definition create_session_response_build1 : list build :=
  [BuildIe (mk_build_row (First, "cause") Kcause None true);
   BuildIe (mk_build_row (First, "sender_fteid_for_cp") Kfteid None false);
   BuildIe (mk_build_row (First, "s5_s8_pgw_fteid") Kfteid (Some 1) false);
   BuildIe (mk_build_row (First, "paa") Kpaa None false);
   BuildIe (mk_build_row (First, "apn_restriction") Kapn_restriction None false);
   BuildIe (mk_build_row (First, "apn_ambr") Kambr None false);
   BuildIe (mk_build_row (First, "linked_eps_bearer_id") Kebi None false);
   BuildIe (mk_build_row (First, "pco") Kpco None false)].

Definition create_session_response_build2 : list build :=
  [BuildIe (mk_build_row (First, "pgw_fq_csid") Kfq_csid None false);
   BuildIe (mk_build_row (First, "sgw_fq_csid") Kfq_csid (Some 1) false);
   BuildIe (mk_build_row (First, "indication_flags") Kindication None false)].

Definition create_session_response_message : message :=
  mk_message GTP_CREATE_SESSION_RESPONSE gtpv2c_create_session_response
    (create_session_response_build1 ++
     [BuildContexts (First, "bearer_contexts_created") None create_session_response_bearer_contexts_created_rows] ++
     [BuildContexts (First, "bearer_contexts_marked_for_removal") (Some 1) create_session_response_bearer_contexts_marked_for_removal_rows] ++
     create_session_response_build2).

(** *** [gtpv2c_echo_request] *)

Definition gtpv2c_echo_request_members : list (string * ie_kind) :=
  [("recovery_restart_counter", Krecovery); ("sending_node_features", Knode_features)].

Definition gtpv2c_echo_request_get : list overload :=
  [mk_overload Krecovery false (Direct (First, "recovery_restart_counter"));
   mk_overload Knode_features false (Direct (First, "sending_node_features"))].

Definition gtpv2c_echo_request_set : list overload :=
  [mk_overload Krecovery false (Direct (First, "recovery_restart_counter"));
   mk_overload Knode_features false (Direct (First, "sending_node_features"))].

Definition gtpv2c_echo_request_class : ies_class :=
  mk_ies_class 64 gtpv2c_echo_request_members [] gtpv2c_echo_request_get gtpv2c_echo_request_set
    [] [].

Definition gtpv2c_echo_request : message_class := mk_message_class gtpv2c_echo_request_class None.

Definition gtpv2c_echo_request_copy : list string :=
  ["recovery_restart_counter"; "sending_node_features"].

Definition gtpv2c_echo_request_assign : list string :=
  ["recovery_restart_counter"; "sending_node_features"].

Definition echo_request_build1 : list build :=
  [BuildIe (mk_build_row (First, "recovery_restart_counter") Krecovery None false);
   BuildIe (mk_build_row (First, "sending_node_features") Knode_features None false)].

Definition echo_request_message : message :=
  mk_message GTP_ECHO_REQUEST gtpv2c_echo_request
    (echo_request_build1).

(** *** [gtpv2c_echo_response] *)

Definition gtpv2c_echo_response_members : list (string * ie_kind) :=
  [("recovery_restart_counter", Krecovery); ("sending_node_features", Knode_features)].

Definition gtpv2c_echo_response_get : list overload :=
  [mk_overload Krecovery false (Direct (First, "recovery_restart_counter"));
   mk_overload Knode_features false (Direct (First, "sending_node_features"))].

Definition gtpv2c_echo_response_set : list overload :=
  [mk_overload Krecovery false (Direct (First, "recovery_restart_counter"));
   mk_overload Knode_features false (Direct (First, "sending_node_features"))].

Definition gtpv2c_echo_response_class : ies_class :=
  mk_ies_class 64 gtpv2c_echo_response_members [] gtpv2c_echo_response_get gtpv2c_echo_response_set
    [] [].

Definition gtpv2c_echo_response : message_class := mk_message_class gtpv2c_echo_response_class None.

Definition gtpv2c_echo_response_copy : list string :=
  ["recovery_restart_counter"; "sending_node_features"].

Definition gtpv2c_echo_response_assign : list string :=
  ["recovery_restart_counter"; "sending_node_features"].

Definition echo_response_build1 : list build :=
  [BuildIe (mk_build_row (First, "recovery_restart_counter") Krecovery None false);
   BuildIe (mk_build_row (First, "sending_node_features") Knode_features None false)].

Definition echo_response_message : message :=
  mk_message GTP_ECHO_RESPONSE gtpv2c_echo_response
    (echo_response_build1).

(** *** [bearer_context_to_be_created_within_create_bearer_request] *)

Definition bearer_context_to_be_created_within_create_bearer_request_members : list (string * ie_kind) :=
  [("eps_bearer_id", Kebi); ("tft", Ktft); ("s1_u_sgw_fteid", Kfteid); ("s5_s8_u_pgw_fteid", Kfteid);
   ("s12_sgw_fteid", Kfteid); ("s4_u_sgw_fteid", Kfteid); ("s2b_u_pgw_fteid", Kfteid); ("s2a_u_pgw_fteid", Kfteid);
   ("bearer_level_qos", Kbearer_qos); ("charging_id", Kcharging_id); ("bearer_flags", Kbearer_flags); ("pco", Kpco);
   ("epco", Kepco)].

Definition bearer_context_to_be_created_within_create_bearer_request_set : list overload :=
  [mk_overload Kebi false (Direct (Mask GTPV2C_BEARER_CONTEXT_TO_BE_CREATED_WITHIN_CREATE_BEARER_REQUEST_PR_IE_EPS_BEARER_ID, "eps_bearer_id"));
   mk_overload Ktft false (Direct (Mask GTPV2C_BEARER_CONTEXT_TO_BE_CREATED_WITHIN_CREATE_BEARER_REQUEST_PR_IE_TFT, "tft"));
   mk_overload Kbearer_qos false (Direct (Mask GTPV2C_BEARER_CONTEXT_TO_BE_CREATED_WITHIN_CREATE_BEARER_REQUEST_PR_IE_BEARER_LEVEL_QOS, "bearer_level_qos"));
   mk_overload Kcharging_id false (Direct (Mask GTPV2C_BEARER_CONTEXT_TO_BE_CREATED_WITHIN_CREATE_BEARER_REQUEST_PR_IE_CHARGING_ID, "charging_id"));
   mk_overload Kbearer_flags false (Direct (Mask GTPV2C_BEARER_CONTEXT_TO_BE_CREATED_WITHIN_CREATE_BEARER_REQUEST_PR_IE_BEARER_FLAGS, "bearer_flags"));
   mk_overload Kpco false (Direct (Mask GTPV2C_BEARER_CONTEXT_TO_BE_CREATED_WITHIN_CREATE_BEARER_REQUEST_PR_IE_PCO, "pco"));
   mk_overload Kepco false (Direct (Mask GTPV2C_BEARER_CONTEXT_TO_BE_CREATED_WITHIN_CREATE_BEARER_REQUEST_PR_IE_EPCO, "epco"));
   mk_overload Kfteid false (Switch [(0, (Mask GTPV2C_BEARER_CONTEXT_TO_BE_CREATED_WITHIN_CREATE_BEARER_REQUEST_PR_IE_S1_U_SGW_FTEID, "s1_u_sgw_fteid")); (1, (Mask GTPV2C_BEARER_CONTEXT_TO_BE_CREATED_WITHIN_CREATE_BEARER_REQUEST_PR_IE_S5_S8_U_PGW_FTEID, "s5_s8_u_pgw_fteid")); (2, (Mask GTPV2C_BEARER_CONTEXT_TO_BE_CREATED_WITHIN_CREATE_BEARER_REQUEST_PR_IE_S12_SGW_FTEID, "s12_sgw_fteid")); (3, (Mask GTPV2C_BEARER_CONTEXT_TO_BE_CREATED_WITHIN_CREATE_BEARER_REQUEST_PR_IE_S4_U_SGW_FTEID, "s4_u_sgw_fteid")); (4, (Mask GTPV2C_BEARER_CONTEXT_TO_BE_CREATED_WITHIN_CREATE_BEARER_REQUEST_PR_IE_S2B_U_PGW_FTEID, "s2b_u_pgw_fteid")); (5, (Mask GTPV2C_BEARER_CONTEXT_TO_BE_CREATED_WITHIN_CREATE_BEARER_REQUEST_PR_IE_S2A_U_PGW_FTEID, "s2a_u_pgw_fteid"))] GTP_IE_FULLY_QUALIFIED_TUNNEL_ENDPOINT_IDENTIFIER)].

Definition bearer_context_to_be_created_within_create_bearer_request_named_set : list (string * slot) :=
  [("s1_u_sgw_fteid", (Mask GTPV2C_BEARER_CONTEXT_TO_BE_CREATED_WITHIN_CREATE_BEARER_REQUEST_PR_IE_S1_U_SGW_FTEID, "s1_u_sgw_fteid"));
   ("s5_s8_u_pgw_fteid", (Mask GTPV2C_BEARER_CONTEXT_TO_BE_CREATED_WITHIN_CREATE_BEARER_REQUEST_PR_IE_S5_S8_U_PGW_FTEID, "s5_s8_u_pgw_fteid"));
   ("s12_sgw_fteid", (Mask GTPV2C_BEARER_CONTEXT_TO_BE_CREATED_WITHIN_CREATE_BEARER_REQUEST_PR_IE_S12_SGW_FTEID, "s12_sgw_fteid"));
   ("s4_u_sgw_fteid", (Mask GTPV2C_BEARER_CONTEXT_TO_BE_CREATED_WITHIN_CREATE_BEARER_REQUEST_PR_IE_S4_U_SGW_FTEID, "s4_u_sgw_fteid"));
   ("s2b_u_pgw_fteid", (Mask GTPV2C_BEARER_CONTEXT_TO_BE_CREATED_WITHIN_CREATE_BEARER_REQUEST_PR_IE_S2B_U_PGW_FTEID, "s2b_u_pgw_fteid"));
   ("s2a_u_pgw_fteid", (Mask GTPV2C_BEARER_CONTEXT_TO_BE_CREATED_WITHIN_CREATE_BEARER_REQUEST_PR_IE_S2A_U_PGW_FTEID, "s2a_u_pgw_fteid"))].

Definition bearer_context_to_be_created_within_create_bearer_request_class : ies_class :=
  mk_ies_class 32 bearer_context_to_be_created_within_create_bearer_request_members [] [] bearer_context_to_be_created_within_create_bearer_request_set
    [] bearer_context_to_be_created_within_create_bearer_request_named_set.

Definition bearer_context_to_be_created_within_create_bearer_request_of : list of_row :=
  [OfGet (Mask GTPV2C_BEARER_CONTEXT_TO_BE_CREATED_WITHIN_CREATE_BEARER_REQUEST_PR_IE_EPS_BEARER_ID, "eps_bearer_id") Kebi 0;
   OfGet (Mask GTPV2C_BEARER_CONTEXT_TO_BE_CREATED_WITHIN_CREATE_BEARER_REQUEST_PR_IE_TFT, "tft") Ktft 0;
   OfGet (Mask GTPV2C_BEARER_CONTEXT_TO_BE_CREATED_WITHIN_CREATE_BEARER_REQUEST_PR_IE_S1_U_SGW_FTEID, "s1_u_sgw_fteid") Kfteid 0;
   OfGet (Mask GTPV2C_BEARER_CONTEXT_TO_BE_CREATED_WITHIN_CREATE_BEARER_REQUEST_PR_IE_S5_S8_U_PGW_FTEID, "s5_s8_u_pgw_fteid") Kfteid 1;
   OfGet (Mask GTPV2C_BEARER_CONTEXT_TO_BE_CREATED_WITHIN_CREATE_BEARER_REQUEST_PR_IE_S12_SGW_FTEID, "s12_sgw_fteid") Kfteid 2;
   OfGet (Mask GTPV2C_BEARER_CONTEXT_TO_BE_CREATED_WITHIN_CREATE_BEARER_REQUEST_PR_IE_S4_U_SGW_FTEID, "s4_u_sgw_fteid") Kfteid 3;
   OfGet (Mask GTPV2C_BEARER_CONTEXT_TO_BE_CREATED_WITHIN_CREATE_BEARER_REQUEST_PR_IE_S2B_U_PGW_FTEID, "s2b_u_pgw_fteid") Kfteid 4;
   OfGet (Mask GTPV2C_BEARER_CONTEXT_TO_BE_CREATED_WITHIN_CREATE_BEARER_REQUEST_PR_IE_S2A_U_PGW_FTEID, "s2a_u_pgw_fteid") Kfteid 5;
   OfGet (Mask GTPV2C_BEARER_CONTEXT_TO_BE_CREATED_WITHIN_CREATE_BEARER_REQUEST_PR_IE_BEARER_LEVEL_QOS, "bearer_level_qos") Kbearer_qos 0;
   OfGet (Mask GTPV2C_BEARER_CONTEXT_TO_BE_CREATED_WITHIN_CREATE_BEARER_REQUEST_PR_IE_CHARGING_ID, "charging_id") Kcharging_id 0;
   OfGet (Mask GTPV2C_BEARER_CONTEXT_TO_BE_CREATED_WITHIN_CREATE_BEARER_REQUEST_PR_IE_BEARER_FLAGS, "bearer_flags") Kbearer_flags 0;
   OfGet (Mask GTPV2C_BEARER_CONTEXT_TO_BE_CREATED_WITHIN_CREATE_BEARER_REQUEST_PR_IE_PCO, "pco") Kpco 0;
   OfGet (Mask GTPV2C_BEARER_CONTEXT_TO_BE_CREATED_WITHIN_CREATE_BEARER_REQUEST_PR_IE_EPCO, "epco") Kepco 0].

Definition bearer_context_to_be_created_within_create_bearer_request : context_class := mk_context_class bearer_context_to_be_created_within_create_bearer_request_class bearer_context_to_be_created_within_create_bearer_request_of.

(** *** [gtpv2c_create_bearer_request] *)

Definition gtpv2c_create_bearer_request_members : list (string * ie_kind) :=
  [("pti", Kpti); ("linked_eps_bearer_id", Kebi); ("pco", Kpco); ("pgw_fq_csid", Kfq_csid); ("sgw_fq_csid", Kfq_csid);
   ("indication_flags", Kindication)].

Definition gtpv2c_create_bearer_request_set : list overload :=
  [mk_overload Kpti true (Direct (Mask GTPV2C_CREATE_BEARER_REQUEST_PR_IE_PROCEDURE_TRANSACTION_IDENTIFIER, "pti"));
   mk_overload Kebi true (Direct (Mask GTPV2C_CREATE_BEARER_REQUEST_PR_IE_LINKED_EPS_BEARER_ID, "linked_eps_bearer_id"));
   mk_overload Kpco true (Direct (Mask GTPV2C_CREATE_BEARER_REQUEST_PR_IE_PCO, "pco"));
   mk_overload Kindication true (Direct (Mask GTPV2C_CREATE_BEARER_REQUEST_PR_IE_INDICATION_FLAGS, "indication_flags"));
   mk_overload Kfq_csid true (Switch [(0, (Mask GTPV2C_CREATE_BEARER_REQUEST_PR_IE_PGW_FQ_CSID, "pgw_fq_csid")); (1, (Mask GTPV2C_CREATE_BEARER_REQUEST_PR_IE_SGW_FQ_CSID, "sgw_fq_csid"))] GTP_IE_FQ_CSID)].

Definition gtpv2c_create_bearer_request_named_set : list (string * slot) :=
  [("pgw_fq_csid", (Mask GTPV2C_CREATE_BEARER_REQUEST_PR_IE_PGW_FQ_CSID, "pgw_fq_csid"));
   ("sgw_fq_csid", (Mask GTPV2C_CREATE_BEARER_REQUEST_PR_IE_SGW_FQ_CSID, "sgw_fq_csid"))].

Definition gtpv2c_create_bearer_request_class : ies_class :=
  mk_ies_class 64 gtpv2c_create_bearer_request_members [] [] gtpv2c_create_bearer_request_set
    [] gtpv2c_create_bearer_request_named_set.

Definition gtpv2c_create_bearer_request_contexts : list (Z * (slot * context_class)) :=
  [(0, ((Mask GTPV2C_CREATE_BEARER_REQUEST_PR_IE_BEARER_CONTEXTS, "bearer_contexts"), bearer_context_to_be_created_within_create_bearer_request))].

Definition gtpv2c_create_bearer_request : message_class := mk_message_class gtpv2c_create_bearer_request_class (Some gtpv2c_create_bearer_request_contexts).

Definition gtpv2c_create_bearer_request_copy : list string :=
  ["ie_presence_mask"; "pti"; "linked_eps_bearer_id"; "pco"; "bearer_contexts"; "pgw_fq_csid"; "sgw_fq_csid";
   "indication_flags"].

Definition gtpv2c_create_bearer_request_assign : list string :=
  ["ie_presence_mask"; "pti"; "linked_eps_bearer_id"; "pco"; "bearer_contexts"; "pgw_fq_csid"; "sgw_fq_csid";
   "indication_flags"].

(** *** [bearer_context_within_create_bearer_response] *)

Definition bearer_context_within_create_bearer_response_members : list (string * ie_kind) :=
  [("eps_bearer_id", Kebi); ("cause", Kcause); ("s1_u_enb_fteid", Kfteid); ("s1_u_sgw_fteid", Kfteid);
   ("s5_s8_u_sgw_fteid", Kfteid); ("s5_s8_u_pgw_fteid", Kfteid); ("s12_rnc_fteid", Kfteid); ("s12_sgw_fteid", Kfteid);
   ("s4_u_sgsn_fteid", Kfteid); ("s4_u_sgw_fteid", Kfteid); ("s2b_u_epdg_fteid", Kfteid); ("s2b_u_pgw_fteid", Kfteid);
   ("s2a_u_twan_fteid", Kfteid); ("s2a_u_pgw_fteid", Kfteid); ("pco", Kpco); ("epco", Kepco)].

Definition bearer_context_within_create_bearer_response_set : list overload :=
  [mk_overload Kebi false (Direct (Mask GTPV2C_BEARER_CONTEXT_WITHIN_CREATE_BEARER_RESPONSE_PR_IE_EPS_BEARER_ID, "eps_bearer_id"));
   mk_overload Kcause false (Direct (Mask GTPV2C_BEARER_CONTEXT_WITHIN_CREATE_BEARER_RESPONSE_PR_IE_CAUSE, "cause"));
   mk_overload Kpco false (Direct (Mask GTPV2C_BEARER_CONTEXT_WITHIN_CREATE_BEARER_RESPONSE_PR_IE_PCO, "pco"));
   mk_overload Kepco false (Direct (Mask GTPV2C_BEARER_CONTEXT_WITHIN_CREATE_BEARER_RESPONSE_PR_IE_EPCO, "epco"));
   mk_overload Kfteid false (Switch [(0, (Mask GTPV2C_BEARER_CONTEXT_WITHIN_CREATE_BEARER_RESPONSE_PR_IE_S1_U_ENB_FTEID, "s1_u_enb_fteid")); (1, (Mask GTPV2C_BEARER_CONTEXT_WITHIN_CREATE_BEARER_RESPONSE_PR_IE_S1_U_SGW_FTEID, "s1_u_sgw_fteid")); (2, (Mask GTPV2C_BEARER_CONTEXT_WITHIN_CREATE_BEARER_RESPONSE_PR_IE_S5_S8_U_SGW_FTEID, "s5_s8_u_sgw_fteid")); (3, (Mask GTPV2C_BEARER_CONTEXT_WITHIN_CREATE_BEARER_RESPONSE_PR_IE_S5_S8_U_PGW_FTEID, "s5_s8_u_pgw_fteid")); (4, (Mask GTPV2C_BEARER_CONTEXT_WITHIN_CREATE_BEARER_RESPONSE_PR_IE_S12_RNC_FTEID, "s12_sgw_fteid")); (5, (Mask GTPV2C_BEARER_CONTEXT_WITHIN_CREATE_BEARER_RESPONSE_PR_IE_S12_SGW_FTEID, "s12_sgw_fteid")); (6, (Mask GTPV2C_BEARER_CONTEXT_WITHIN_CREATE_BEARER_RESPONSE_PR_IE_S4_U_SGSN_FTEID, "s4_u_sgsn_fteid")); (7, (Mask GTPV2C_BEARER_CONTEXT_WITHIN_CREATE_BEARER_RESPONSE_PR_IE_S4_U_SGW_FTEID, "s4_u_sgw_fteid")); (8, (Mask GTPV2C_BEARER_CONTEXT_WITHIN_CREATE_BEARER_RESPONSE_PR_IE_S2B_U_EPDG_FTEID, "s2b_u_epdg_fteid")); (9, (Mask GTPV2C_BEARER_CONTEXT_WITHIN_CREATE_BEARER_RESPONSE_PR_IE_S2B_U_PGW_FTEID, "s2b_u_pgw_fteid")); (10, (Mask GTPV2C_BEARER_CONTEXT_WITHIN_CREATE_BEARER_RESPONSE_PR_IE_S2A_U_TWAN_FTEID, "s2a_u_twan_fteid")); (11, (Mask GTPV2C_BEARER_CONTEXT_WITHIN_CREATE_BEARER_RESPONSE_PR_IE_S2A_U_PGW_FTEID, "s2a_u_pgw_fteid"))] GTP_IE_FULLY_QUALIFIED_TUNNEL_ENDPOINT_IDENTIFIER)].

Definition bearer_context_within_create_bearer_response_named_set : list (string * slot) :=
  [("s1_u_enb_fteid", (Mask GTPV2C_BEARER_CONTEXT_WITHIN_CREATE_BEARER_RESPONSE_PR_IE_S1_U_ENB_FTEID, "s1_u_enb_fteid"));
   ("s1_u_sgw_fteid", (Mask GTPV2C_BEARER_CONTEXT_WITHIN_CREATE_BEARER_RESPONSE_PR_IE_S1_U_SGW_FTEID, "s1_u_sgw_fteid"));
   ("s5_s8_u_sgw_fteid", (Mask GTPV2C_BEARER_CONTEXT_WITHIN_CREATE_BEARER_RESPONSE_PR_IE_S5_S8_U_SGW_FTEID, "s5_s8_u_sgw_fteid"));
   ("s5_s8_u_pgw_fteid", (Mask GTPV2C_BEARER_CONTEXT_WITHIN_CREATE_BEARER_RESPONSE_PR_IE_S5_S8_U_PGW_FTEID, "s5_s8_u_pgw_fteid"));
   ("s12_rnc_fteid", (Mask GTPV2C_BEARER_CONTEXT_WITHIN_CREATE_BEARER_RESPONSE_PR_IE_S12_RNC_FTEID, "s12_sgw_fteid"));
   ("s12_sgw_fteid", (Mask GTPV2C_BEARER_CONTEXT_WITHIN_CREATE_BEARER_RESPONSE_PR_IE_S12_SGW_FTEID, "s12_sgw_fteid"));
   ("s4_u_sgsn_fteid", (Mask GTPV2C_BEARER_CONTEXT_WITHIN_CREATE_BEARER_RESPONSE_PR_IE_S4_U_SGSN_FTEID, "s4_u_sgsn_fteid"));
   ("s4_u_sgw_fteid", (Mask GTPV2C_BEARER_CONTEXT_WITHIN_CREATE_BEARER_RESPONSE_PR_IE_S4_U_SGW_FTEID, "s4_u_sgw_fteid"));
   ("s2b_u_epdg_fteid", (Mask GTPV2C_BEARER_CONTEXT_WITHIN_CREATE_BEARER_RESPONSE_PR_IE_S2B_U_EPDG_FTEID, "s2b_u_epdg_fteid"));
   ("s2b_u_pgw_fteid", (Mask GTPV2C_BEARER_CONTEXT_WITHIN_CREATE_BEARER_RESPONSE_PR_IE_S2B_U_PGW_FTEID, "s2b_u_pgw_fteid"));
   ("s2a_u_twan_fteid", (Mask GTPV2C_BEARER_CONTEXT_WITHIN_CREATE_BEARER_RESPONSE_PR_IE_S2A_U_TWAN_FTEID, "s2a_u_twan_fteid"));
   ("s2a_u_pgw_fteid", (Mask GTPV2C_BEARER_CONTEXT_WITHIN_CREATE_BEARER_RESPONSE_PR_IE_S2A_U_PGW_FTEID, "s2a_u_pgw_fteid"))].

Definition bearer_context_within_create_bearer_response_class : ies_class :=
  mk_ies_class 32 bearer_context_within_create_bearer_response_members [] [] bearer_context_within_create_bearer_response_set
    [] bearer_context_within_create_bearer_response_named_set.

Definition bearer_context_within_create_bearer_response_of : list of_row :=
  [OfGet (Mask GTPV2C_BEARER_CONTEXT_WITHIN_CREATE_BEARER_RESPONSE_PR_IE_EPS_BEARER_ID, "eps_bearer_id") Kebi 0;
   OfGet (Mask GTPV2C_BEARER_CONTEXT_WITHIN_CREATE_BEARER_RESPONSE_PR_IE_CAUSE, "cause") Kcause 0;
   OfGet (Mask GTPV2C_BEARER_CONTEXT_WITHIN_CREATE_BEARER_RESPONSE_PR_IE_S1_U_ENB_FTEID, "s1_u_enb_fteid") Kfteid 0;
   OfGet (Mask GTPV2C_BEARER_CONTEXT_WITHIN_CREATE_BEARER_RESPONSE_PR_IE_S1_U_SGW_FTEID, "s1_u_sgw_fteid") Kfteid 1;
   OfGet (Mask GTPV2C_BEARER_CONTEXT_WITHIN_CREATE_BEARER_RESPONSE_PR_IE_S5_S8_U_SGW_FTEID, "s5_s8_u_sgw_fteid") Kfteid 2;
   OfGet (Mask GTPV2C_BEARER_CONTEXT_WITHIN_CREATE_BEARER_RESPONSE_PR_IE_S5_S8_U_PGW_FTEID, "s5_s8_u_pgw_fteid") Kfteid 3;
   OfGet (Mask GTPV2C_BEARER_CONTEXT_WITHIN_CREATE_BEARER_RESPONSE_PR_IE_S12_RNC_FTEID, "s12_rnc_fteid") Kfteid 4;
   OfGet (Mask GTPV2C_BEARER_CONTEXT_WITHIN_CREATE_BEARER_RESPONSE_PR_IE_S12_SGW_FTEID, "s12_sgw_fteid") Kfteid 5;
   OfGet (Mask GTPV2C_BEARER_CONTEXT_WITHIN_CREATE_BEARER_RESPONSE_PR_IE_S4_U_SGSN_FTEID, "s4_u_sgsn_fteid") Kfteid 6;
   OfGet (Mask GTPV2C_BEARER_CONTEXT_WITHIN_CREATE_BEARER_RESPONSE_PR_IE_S4_U_SGW_FTEID, "s4_u_sgw_fteid") Kfteid 7;
   OfGet (Mask GTPV2C_BEARER_CONTEXT_WITHIN_CREATE_BEARER_RESPONSE_PR_IE_S2B_U_EPDG_FTEID, "s2b_u_epdg_fteid") Kfteid 8;
   OfGet (Mask GTPV2C_BEARER_CONTEXT_WITHIN_CREATE_BEARER_RESPONSE_PR_IE_S2B_U_PGW_FTEID, "s2b_u_pgw_fteid") Kfteid 9;
   OfGet (Mask GTPV2C_BEARER_CONTEXT_WITHIN_CREATE_BEARER_RESPONSE_PR_IE_S2A_U_TWAN_FTEID, "s2a_u_twan_fteid") Kfteid 10;
   OfGet (Mask GTPV2C_BEARER_CONTEXT_WITHIN_CREATE_BEARER_RESPONSE_PR_IE_S2A_U_PGW_FTEID, "s2a_u_pgw_fteid") Kfteid 11;
   OfGet (Mask GTPV2C_BEARER_CONTEXT_WITHIN_CREATE_BEARER_RESPONSE_PR_IE_PCO, "pco") Kpco 0;
   OfGet (Mask GTPV2C_BEARER_CONTEXT_WITHIN_CREATE_BEARER_RESPONSE_PR_IE_EPCO, "epco") Kepco 0].

Definition bearer_context_within_create_bearer_response : context_class := mk_context_class bearer_context_within_create_bearer_response_class bearer_context_within_create_bearer_response_of.

(** *** [gtpv2c_create_bearer_response] *)

Definition gtpv2c_create_bearer_response_members : list (string * ie_kind) :=
  [("cause", Kcause); ("mme_fq_csid", Kfq_csid); ("sgw_fq_csid", Kfq_csid); ("epdg_fq_csid", Kfq_csid);
   ("twan_fq_csid", Kfq_csid); ("pco", Kpco); ("ue_time_zone", Kue_time_zone); ("uli", Kuli)].

Definition gtpv2c_create_bearer_response_set : list overload :=
  [mk_overload Kcause true (Direct (Mask GTPV2C_CREATE_BEARER_RESPONSE_PR_IE_CAUSE, "cause"));
   mk_overload Kpco true (Direct (Mask GTPV2C_CREATE_BEARER_RESPONSE_PR_IE_PCO, "pco"));
   mk_overload Kue_time_zone true (Direct (Mask GTPV2C_CREATE_BEARER_RESPONSE_PR_IE_UE_TIME_ZONE, "ue_time_zone"));
   mk_overload Kuli true (Direct (Mask GTPV2C_CREATE_BEARER_RESPONSE_PR_IE_ULI, "uli"));
   mk_overload Kfq_csid true (Switch [(0, (Mask GTPV2C_CREATE_BEARER_RESPONSE_PR_IE_MME_FQ_CSID, "mme_fq_csid")); (1, (Mask GTPV2C_CREATE_BEARER_RESPONSE_PR_IE_SGW_FQ_CSID, "sgw_fq_csid")); (2, (Mask GTPV2C_CREATE_BEARER_RESPONSE_PR_IE_EPDG_FQ_CSID, "epdg_fq_csid")); (3, (Mask GTPV2C_CREATE_BEARER_RESPONSE_PR_IE_TWAN_FQ_CSID, "twan_fq_csid"))] GTP_IE_FQ_CSID)].

Definition gtpv2c_create_bearer_response_named_set : list (string * slot) :=
  [("mme_fq_csid", (Mask GTPV2C_CREATE_BEARER_RESPONSE_PR_IE_MME_FQ_CSID, "mme_fq_csid"));
   ("sgw_fq_csid", (Mask GTPV2C_CREATE_BEARER_RESPONSE_PR_IE_SGW_FQ_CSID, "sgw_fq_csid"));
   ("epdg_fq_csid", (Mask GTPV2C_CREATE_BEARER_RESPONSE_PR_IE_EPDG_FQ_CSID, "epdg_fq_csid"));
   ("twan_fq_csid", (Mask GTPV2C_CREATE_BEARER_RESPONSE_PR_IE_TWAN_FQ_CSID, "twan_fq_csid"))].

Definition gtpv2c_create_bearer_response_class : ies_class :=
  mk_ies_class 64 gtpv2c_create_bearer_response_members [] [] gtpv2c_create_bearer_response_set
    [] gtpv2c_create_bearer_response_named_set.

Definition gtpv2c_create_bearer_response_contexts : list (Z * (slot * context_class)) :=
  [(0, ((Mask GTPV2C_CREATE_BEARER_RESPONSE_PR_IE_BEARER_CONTEXTS, "bearer_contexts"), bearer_context_within_create_bearer_response))].

Definition gtpv2c_create_bearer_response : message_class := mk_message_class gtpv2c_create_bearer_response_class (Some gtpv2c_create_bearer_response_contexts).

Definition gtpv2c_create_bearer_response_copy : list string :=
  ["ie_presence_mask"; "cause"; "bearer_contexts"; "mme_fq_csid"; "sgw_fq_csid"; "epdg_fq_csid"; "twan_fq_csid";
   "pco"; "ue_time_zone"; "uli"].

Definition gtpv2c_create_bearer_response_assign : list string :=
  ["ie_presence_mask"; "cause"; "bearer_contexts"; "mme_fq_csid"; "sgw_fq_csid"; "epdg_fq_csid"; "twan_fq_csid";
   "pco"; "ue_time_zone"; "uli"].

(** *** [bearer_context_to_be_modified_within_modify_bearer_request] *)

Definition bearer_context_to_be_modified_within_modify_bearer_request_members : list (string * ie_kind) :=
  [("eps_bearer_id", Kebi); ("s1_u_enb_fteid", Kfteid); ("s5_s8_u_sgw_fteid", Kfteid); ("s12_rnc_fteid", Kfteid);
   ("s4_u_sgsn_fteid", Kfteid); ("s11_u_mme_fteid", Kfteid)].

Definition bearer_context_to_be_modified_within_modify_bearer_request_get : list overload :=
  [mk_overload Kebi false (Direct (Mask GTPV2C_BEARER_CONTEXT_TO_BE_MODIFIED_WITHIN_MODIFY_BEARER_REQUEST_PR_IE_EPS_BEARER_ID, "eps_bearer_id"))].

Definition bearer_context_to_be_modified_within_modify_bearer_request_set : list overload :=
  [mk_overload Kebi false (Direct (Mask GTPV2C_BEARER_CONTEXT_TO_BE_MODIFIED_WITHIN_MODIFY_BEARER_REQUEST_PR_IE_EPS_BEARER_ID, "eps_bearer_id"))].

Definition bearer_context_to_be_modified_within_modify_bearer_request_named_get : list (string * slot) :=
  [("s1_u_enb_fteid", (Mask GTPV2C_BEARER_CONTEXT_TO_BE_MODIFIED_WITHIN_MODIFY_BEARER_REQUEST_PR_IE_S1_U_ENB_FTEID, "s1_u_enb_fteid"));
   ("s5_s8_u_sgw_fteid", (Mask GTPV2C_BEARER_CONTEXT_TO_BE_MODIFIED_WITHIN_MODIFY_BEARER_REQUEST_PR_IE_S5_S8_U_SGW_FTEID, "s5_s8_u_sgw_fteid"));
   ("s12_rnc_fteid", (Mask GTPV2C_BEARER_CONTEXT_TO_BE_MODIFIED_WITHIN_MODIFY_BEARER_REQUEST_PR_IE_S12_RNC_FTEID, "s12_rnc_fteid"));
   ("s4_u_sgsn_fteid", (Mask GTPV2C_BEARER_CONTEXT_TO_BE_MODIFIED_WITHIN_MODIFY_BEARER_REQUEST_PR_IE_S4_U_SGSN_FTEID, "s4_u_sgsn_fteid"));
   ("s11_u_mme_fteid", (Mask GTPV2C_BEARER_CONTEXT_TO_BE_MODIFIED_WITHIN_MODIFY_BEARER_REQUEST_PR_IE_S11_U_MME_FTEID, "s11_u_mme_fteid"))].

Definition bearer_context_to_be_modified_within_modify_bearer_request_named_set : list (string * slot) :=
  [("s1_u_enb_fteid", (Mask GTPV2C_BEARER_CONTEXT_TO_BE_MODIFIED_WITHIN_MODIFY_BEARER_REQUEST_PR_IE_S1_U_ENB_FTEID, "s1_u_enb_fteid"));
   ("s5_s8_u_sgw_fteid", (Mask GTPV2C_BEARER_CONTEXT_TO_BE_MODIFIED_WITHIN_MODIFY_BEARER_REQUEST_PR_IE_S5_S8_U_SGW_FTEID, "s5_s8_u_sgw_fteid"));
   ("s12_rnc_fteid", (Mask GTPV2C_BEARER_CONTEXT_TO_BE_MODIFIED_WITHIN_MODIFY_BEARER_REQUEST_PR_IE_S12_RNC_FTEID, "s12_rnc_fteid"));
   ("s4_u_sgsn_fteid", (Mask GTPV2C_BEARER_CONTEXT_TO_BE_MODIFIED_WITHIN_MODIFY_BEARER_REQUEST_PR_IE_S4_U_SGSN_FTEID, "s4_u_sgsn_fteid"));
   ("s11_u_mme_fteid", (Mask GTPV2C_BEARER_CONTEXT_TO_BE_MODIFIED_WITHIN_MODIFY_BEARER_REQUEST_PR_IE_S11_U_MME_FTEID, "s11_u_mme_fteid"))].

Definition bearer_context_to_be_modified_within_modify_bearer_request_class : ies_class :=
  mk_ies_class 32 bearer_context_to_be_modified_within_modify_bearer_request_members [] bearer_context_to_be_modified_within_modify_bearer_request_get bearer_context_to_be_modified_within_modify_bearer_request_set
    bearer_context_to_be_modified_within_modify_bearer_request_named_get bearer_context_to_be_modified_within_modify_bearer_request_named_set.

Definition bearer_context_to_be_modified_within_modify_bearer_request_of : list of_row :=
  [OfGet (Mask GTPV2C_BEARER_CONTEXT_TO_BE_MODIFIED_WITHIN_MODIFY_BEARER_REQUEST_PR_IE_EPS_BEARER_ID, "eps_bearer_id") Kebi 0;
   OfGet (Mask GTPV2C_BEARER_CONTEXT_TO_BE_MODIFIED_WITHIN_MODIFY_BEARER_REQUEST_PR_IE_S1_U_ENB_FTEID, "s1_u_enb_fteid") Kfteid 0;
   OfGet (Mask GTPV2C_BEARER_CONTEXT_TO_BE_MODIFIED_WITHIN_MODIFY_BEARER_REQUEST_PR_IE_S5_S8_U_SGW_FTEID, "s5_s8_u_sgw_fteid") Kfteid 1;
   OfGet (Mask GTPV2C_BEARER_CONTEXT_TO_BE_MODIFIED_WITHIN_MODIFY_BEARER_REQUEST_PR_IE_S12_RNC_FTEID, "s12_rnc_fteid") Kfteid 2;
   OfGet (Mask GTPV2C_BEARER_CONTEXT_TO_BE_MODIFIED_WITHIN_MODIFY_BEARER_REQUEST_PR_IE_S4_U_SGSN_FTEID, "s4_u_sgsn_fteid") Kfteid 3;
   OfGet (Mask GTPV2C_BEARER_CONTEXT_TO_BE_MODIFIED_WITHIN_MODIFY_BEARER_REQUEST_PR_IE_S11_U_MME_FTEID, "s11_u_mme_fteid") Kfteid 4].

Definition bearer_context_to_be_modified_within_modify_bearer_request : context_class := mk_context_class bearer_context_to_be_modified_within_modify_bearer_request_class bearer_context_to_be_modified_within_modify_bearer_request_of.

(** *** [bearer_context_to_be_removed_within_modify_bearer_request] *)

Definition bearer_context_to_be_removed_within_modify_bearer_request_members : list (string * ie_kind) :=
  [("eps_bearer_id", Kebi)].

Definition bearer_context_to_be_removed_within_modify_bearer_request_set : list overload :=
  [mk_overload Kebi false (Direct (Mask GTPV2C_BEARER_CONTEXT_TO_BE_REMOVED_WITHIN_MODIFY_BEARER_REQUEST_PR_IE_EPS_BEARER_ID, "eps_bearer_id"))].

Definition bearer_context_to_be_removed_within_modify_bearer_request_class : ies_class :=
  mk_ies_class 32 bearer_context_to_be_removed_within_modify_bearer_request_members [] [] bearer_context_to_be_removed_within_modify_bearer_request_set
    [] [].

Definition bearer_context_to_be_removed_within_modify_bearer_request_of : list of_row :=
  [OfGet (Mask GTPV2C_BEARER_CONTEXT_TO_BE_REMOVED_WITHIN_MODIFY_BEARER_REQUEST_PR_IE_EPS_BEARER_ID, "eps_bearer_id") Kebi 0].

Definition bearer_context_to_be_removed_within_modify_bearer_request : context_class := mk_context_class bearer_context_to_be_removed_within_modify_bearer_request_class bearer_context_to_be_removed_within_modify_bearer_request_of.

(** *** [gtpv2c_modify_bearer_request] *)

Definition gtpv2c_modify_bearer_request_members : list (string * ie_kind) :=
  [("mei", Kmei); ("uli", Kuli); ("serving_network", Kserving_network); ("rat_type", Krat_type);
   ("indication_flags", Kindication); ("sender_fteid_for_cp", Kfteid); ("apn_ambr", Kambr);
   ("delay_dl_packet_notif_req", Kdelay_value); ("ue_time_zone", Kue_time_zone); ("mme_fq_csid", Kfq_csid);
   ("sgw_fq_csid", Kfq_csid); ("uci", Kuci); ("imsi", Kimsi)].

Definition gtpv2c_modify_bearer_request_get : list overload :=
  [mk_overload Kmei true (Direct (Mask GTPV2C_MODIFY_BEARER_REQUEST_PR_IE_MEI, "mei"));
   mk_overload Kuli true (Direct (Mask GTPV2C_MODIFY_BEARER_REQUEST_PR_IE_ULI, "uli"));
   mk_overload Kserving_network true (Direct (Mask GTPV2C_MODIFY_BEARER_REQUEST_PR_IE_SERVING_NETWORK, "serving_network"));
   mk_overload Krat_type true (Direct (Mask GTPV2C_MODIFY_BEARER_REQUEST_PR_IE_RAT_TYPE, "rat_type"));
   mk_overload Kindication true (Direct (Mask GTPV2C_MODIFY_BEARER_REQUEST_PR_IE_INDICATION_FLAGS, "indication_flags"));
   mk_overload Kambr true (Direct (Mask GTPV2C_MODIFY_BEARER_REQUEST_PR_IE_APN_AMBR, "apn_ambr"));
   mk_overload Kdelay_value true (Direct (Mask GTPV2C_MODIFY_BEARER_REQUEST_PR_IE_DELAY_DOWNLINK_PACKET_NOTIFICATION_REQUEST, "delay_dl_packet_notif_req"));
   mk_overload Kue_time_zone true (Direct (Mask GTPV2C_MODIFY_BEARER_REQUEST_PR_IE_UE_TIME_ZONE, "ue_time_zone"));
   mk_overload Kuci true (Direct (Mask GTPV2C_MODIFY_BEARER_REQUEST_PR_IE_UCI, "uci"));
   mk_overload Kimsi true (Direct (Mask GTPV2C_MODIFY_BEARER_REQUEST_PR_IE_IMSI, "imsi"));
   mk_overload Kfteid false (Switch [(0, (Mask GTPV2C_MODIFY_BEARER_REQUEST_PR_IE_SENDER_FTEID_FOR_CONTROL_PLANE, "sender_fteid_for_cp"))] GTP_IE_FULLY_QUALIFIED_TUNNEL_ENDPOINT_IDENTIFIER);
   mk_overload Kfq_csid false (Switch [(0, (Mask GTPV2C_MODIFY_BEARER_REQUEST_PR_IE_MME_FQ_CSID, "mme_fq_csid")); (1, (Mask GTPV2C_MODIFY_BEARER_REQUEST_PR_IE_SGW_FQ_CSID, "sgw_fq_csid"))] GTP_IE_FQ_CSID)].

Definition gtpv2c_modify_bearer_request_set : list overload :=
  [mk_overload Kmei true (Direct (Mask GTPV2C_MODIFY_BEARER_REQUEST_PR_IE_MEI, "mei"));
   mk_overload Kuli true (Direct (Mask GTPV2C_MODIFY_BEARER_REQUEST_PR_IE_ULI, "uli"));
   mk_overload Kserving_network true (Direct (Mask GTPV2C_MODIFY_BEARER_REQUEST_PR_IE_SERVING_NETWORK, "serving_network"));
   mk_overload Krat_type true (Direct (Mask GTPV2C_MODIFY_BEARER_REQUEST_PR_IE_RAT_TYPE, "rat_type"));
   mk_overload Kindication true (Direct (Mask GTPV2C_MODIFY_BEARER_REQUEST_PR_IE_INDICATION_FLAGS, "indication_flags"));
   mk_overload Kfteid true (Direct (Mask GTPV2C_MODIFY_BEARER_REQUEST_PR_IE_SENDER_FTEID_FOR_CONTROL_PLANE, "sender_fteid_for_cp"));
   mk_overload Kambr true (Direct (Mask GTPV2C_MODIFY_BEARER_REQUEST_PR_IE_APN_AMBR, "apn_ambr"));
   mk_overload Kdelay_value true (Direct (Mask GTPV2C_MODIFY_BEARER_REQUEST_PR_IE_DELAY_DOWNLINK_PACKET_NOTIFICATION_REQUEST, "delay_dl_packet_notif_req"));
   mk_overload Kue_time_zone true (Direct (Mask GTPV2C_MODIFY_BEARER_REQUEST_PR_IE_UE_TIME_ZONE, "ue_time_zone"));
   mk_overload Kuci true (Direct (Mask GTPV2C_MODIFY_BEARER_REQUEST_PR_IE_UCI, "uci"));
   mk_overload Kimsi true (Direct (Mask GTPV2C_MODIFY_BEARER_REQUEST_PR_IE_IMSI, "imsi"))].

Definition gtpv2c_modify_bearer_request_named_get : list (string * slot) :=
  [("sender_fteid_for_cp", (Mask GTPV2C_MODIFY_BEARER_REQUEST_PR_IE_SENDER_FTEID_FOR_CONTROL_PLANE, "sender_fteid_for_cp"));
   ("mme_fq_csid", (Mask GTPV2C_MODIFY_BEARER_REQUEST_PR_IE_MME_FQ_CSID, "mme_fq_csid"));
   ("sgw_fq_csid", (Mask GTPV2C_MODIFY_BEARER_REQUEST_PR_IE_SGW_FQ_CSID, "sgw_fq_csid"))].

Definition gtpv2c_modify_bearer_request_named_set : list (string * slot) :=
  [("sender_fteid_for_cp", (Mask GTPV2C_MODIFY_BEARER_REQUEST_PR_IE_SENDER_FTEID_FOR_CONTROL_PLANE, "sender_fteid_for_cp"));
   ("mme_fq_csid", (Mask GTPV2C_MODIFY_BEARER_REQUEST_PR_IE_MME_FQ_CSID, "mme_fq_csid"));
   ("sgw_fq_csid", (Mask GTPV2C_MODIFY_BEARER_REQUEST_PR_IE_SGW_FQ_CSID, "sgw_fq_csid"))].

Definition gtpv2c_modify_bearer_request_class : ies_class :=
  mk_ies_class 64 gtpv2c_modify_bearer_request_members [("rat_type", VCore (CoreRatType (mk_rat_type_t RAT_TYPE_E_UTRAN)))] gtpv2c_modify_bearer_request_get gtpv2c_modify_bearer_request_set
    gtpv2c_modify_bearer_request_named_get gtpv2c_modify_bearer_request_named_set.

Definition gtpv2c_modify_bearer_request_contexts : list (Z * (slot * context_class)) :=
  [(0, ((Mask GTPV2C_MODIFY_BEARER_REQUEST_PR_IE_BEARER_CONTEXTS_TO_BE_MODIFIED, "bearer_contexts_to_be_modified"), bearer_context_to_be_modified_within_modify_bearer_request));
   (1, ((Mask GTPV2C_MODIFY_BEARER_REQUEST_PR_IE_BEARER_CONTEXTS_TO_BE_REMOVED, "bearer_contexts_to_be_removed"), bearer_context_to_be_removed_within_modify_bearer_request))].

Definition gtpv2c_modify_bearer_request : message_class := mk_message_class gtpv2c_modify_bearer_request_class (Some gtpv2c_modify_bearer_request_contexts).

Definition gtpv2c_modify_bearer_request_copy : list string :=
  ["ie_presence_mask"; "mei"; "uli"; "serving_network"; "rat_type"; "indication_flags"; "sender_fteid_for_cp";
   "apn_ambr"; "delay_dl_packet_notif_req"; "bearer_contexts_to_be_modified"; "bearer_contexts_to_be_removed";
   "ue_time_zone"; "mme_fq_csid"; "sgw_fq_csid"; "uci"; "imsi"].

Definition gtpv2c_modify_bearer_request_assign : list string :=
  ["ie_presence_mask"; "mei"; "uli"; "serving_network"; "rat_type"; "rat_type"; "indication_flags";
   "sender_fteid_for_cp"; "apn_ambr"; "delay_dl_packet_notif_req"; "bearer_contexts_to_be_modified";
   "bearer_contexts_to_be_removed"; "ue_time_zone"; "mme_fq_csid"; "sgw_fq_csid"; "uci"; "imsi"].

Definition modify_bearer_request_bearer_contexts_to_be_modified_rows : list build_row :=
  [mk_build_row (Mask GTPV2C_BEARER_CONTEXT_TO_BE_MODIFIED_WITHIN_MODIFY_BEARER_REQUEST_PR_IE_EPS_BEARER_ID, "eps_bearer_id") Kebi None false;
   mk_build_row (Mask GTPV2C_BEARER_CONTEXT_TO_BE_MODIFIED_WITHIN_MODIFY_BEARER_REQUEST_PR_IE_S1_U_ENB_FTEID, "s1_u_enb_fteid") Kfteid None false;
   mk_build_row (Mask GTPV2C_BEARER_CONTEXT_TO_BE_MODIFIED_WITHIN_MODIFY_BEARER_REQUEST_PR_IE_S5_S8_U_SGW_FTEID, "s5_s8_u_sgw_fteid") Kfteid (Some 1) false;
   mk_build_row (Mask GTPV2C_BEARER_CONTEXT_TO_BE_MODIFIED_WITHIN_MODIFY_BEARER_REQUEST_PR_IE_S12_RNC_FTEID, "s12_rnc_fteid") Kfteid (Some 2) false;
   mk_build_row (Mask GTPV2C_BEARER_CONTEXT_TO_BE_MODIFIED_WITHIN_MODIFY_BEARER_REQUEST_PR_IE_S4_U_SGSN_FTEID, "s4_u_sgsn_fteid") Kfteid (Some 3) false;
   mk_build_row (Mask GTPV2C_BEARER_CONTEXT_TO_BE_MODIFIED_WITHIN_MODIFY_BEARER_REQUEST_PR_IE_S11_U_MME_FTEID, "s11_u_mme_fteid") Kfteid (Some 4) false].

Definition modify_bearer_request_bearer_contexts_to_be_removed_rows : list build_row :=
  [mk_build_row (Mask GTPV2C_BEARER_CONTEXT_TO_BE_REMOVED_WITHIN_MODIFY_BEARER_REQUEST_PR_IE_EPS_BEARER_ID, "eps_bearer_id") Kebi None false].

Definition modify_bearer_request_build1 : list build :=
  [BuildIe (mk_build_row (Mask GTPV2C_MODIFY_BEARER_REQUEST_PR_IE_MEI, "mei") Kmei None false);
   BuildIe (mk_build_row (Mask GTPV2C_MODIFY_BEARER_REQUEST_PR_IE_ULI, "uli") Kuli None false);
   BuildIe (mk_build_row (Mask GTPV2C_MODIFY_BEARER_REQUEST_PR_IE_SERVING_NETWORK, "serving_network") Kserving_network None false);
   BuildIe (mk_build_row (Mask GTPV2C_MODIFY_BEARER_REQUEST_PR_IE_RAT_TYPE, "rat_type") Krat_type None false);
   BuildIe (mk_build_row (Mask GTPV2C_MODIFY_BEARER_REQUEST_PR_IE_INDICATION_FLAGS, "indication_flags") Kindication None false);
   BuildIe (mk_build_row (Mask GTPV2C_MODIFY_BEARER_REQUEST_PR_IE_SENDER_FTEID_FOR_CONTROL_PLANE, "sender_fteid_for_cp") Kfteid None false);
   BuildIe (mk_build_row (Mask GTPV2C_MODIFY_BEARER_REQUEST_PR_IE_APN_AMBR, "apn_ambr") Kambr None false);
   BuildIe (mk_build_row (Mask GTPV2C_MODIFY_BEARER_REQUEST_PR_IE_DELAY_DOWNLINK_PACKET_NOTIFICATION_REQUEST, "delay_dl_packet_notif_req") Kdelay_value None false)].

Definition modify_bearer_request_build2 : list build :=
  [BuildIe (mk_build_row (Mask GTPV2C_MODIFY_BEARER_REQUEST_PR_IE_UE_TIME_ZONE, "ue_time_zone") Kue_time_zone None false);
   BuildIe (mk_build_row (Mask GTPV2C_MODIFY_BEARER_REQUEST_PR_IE_MME_FQ_CSID, "mme_fq_csid") Kfq_csid None false);
   BuildIe (mk_build_row (Mask GTPV2C_MODIFY_BEARER_REQUEST_PR_IE_SGW_FQ_CSID, "sgw_fq_csid") Kfq_csid (Some 1) false);
   BuildIe (mk_build_row (Mask GTPV2C_MODIFY_BEARER_REQUEST_PR_IE_IMSI, "imsi") Kimsi None false)].

Definition modify_bearer_request_message : message :=
  mk_message GTP_MODIFY_BEARER_REQUEST gtpv2c_modify_bearer_request
    (modify_bearer_request_build1 ++
     [BuildContexts (Mask GTPV2C_MODIFY_BEARER_REQUEST_PR_IE_BEARER_CONTEXTS_TO_BE_MODIFIED, "bearer_contexts_to_be_modified") None modify_bearer_request_bearer_contexts_to_be_modified_rows] ++
     [BuildContexts (Mask GTPV2C_MODIFY_BEARER_REQUEST_PR_IE_BEARER_CONTEXTS_TO_BE_REMOVED, "bearer_contexts_to_be_removed") (Some 1) modify_bearer_request_bearer_contexts_to_be_removed_rows] ++
     modify_bearer_request_build2).

(** *** [bearer_context_modified_within_modify_bearer_response] *)

Definition bearer_context_modified_within_modify_bearer_response_members : list (string * ie_kind) :=
  [("eps_bearer_id", Kebi); ("cause", Kcause); ("s1_u_sgw_fteid", Kfteid); ("s12_sgw_fteid", Kfteid);
   ("s4_u_sgw_fteid", Kfteid); ("charging_id", Kcharging_id); ("bearer_flags", Kbearer_flags);
   ("s11_u_sgw_fteid", Kfteid)].

Definition bearer_context_modified_within_modify_bearer_response_get : list overload :=
  [mk_overload Kebi false (Direct (First, "eps_bearer_id")); mk_overload Kcause false (Direct (First, "cause"))].

Definition bearer_context_modified_within_modify_bearer_response_set : list overload :=
  [mk_overload Kebi false (Direct (First, "eps_bearer_id")); mk_overload Kcause false (Direct (First, "cause"))].

Definition bearer_context_modified_within_modify_bearer_response_named_get : list (string * slot) :=
  [("s1_u_sgw_fteid", (First, "s1_u_sgw_fteid")); ("s12_sgw_fteid", (First, "s12_sgw_fteid"));
   ("s4_u_sgw_fteid", (First, "s4_u_sgw_fteid"))].

Definition bearer_context_modified_within_modify_bearer_response_named_set : list (string * slot) :=
  [("s1_u_sgw_fteid", (First, "s1_u_sgw_fteid")); ("s12_sgw_fteid", (First, "s12_sgw_fteid"));
   ("s4_u_sgw_fteid", (First, "s4_u_sgw_fteid"))].

Definition bearer_context_modified_within_modify_bearer_response_class : ies_class :=
  mk_ies_class 64 bearer_context_modified_within_modify_bearer_response_members [] bearer_context_modified_within_modify_bearer_response_get bearer_context_modified_within_modify_bearer_response_set
    bearer_context_modified_within_modify_bearer_response_named_get bearer_context_modified_within_modify_bearer_response_named_set.

Definition bearer_context_modified_within_modify_bearer_response_of : list of_row :=
  [OfPair "eps_bearer_id" "eps_bearer_id"; OfPair "cause" "cause"; OfPair "charging_id" "charging_id";
   OfPair "bearer_flags" "bearer_flags"; OfGet (First, "s1_u_sgw_fteid") Kfteid 0;
   OfGet (First, "s12_sgw_fteid") Kfteid 1; OfGet (First, "s4_u_sgw_fteid") Kfteid 2;
   OfGet (First, "s11_u_sgw_fteid") Kfteid 3].

Definition bearer_context_modified_within_modify_bearer_response : context_class := mk_context_class bearer_context_modified_within_modify_bearer_response_class bearer_context_modified_within_modify_bearer_response_of.

(** *** [bearer_context_marked_for_removal_within_modify_bearer_response] *)

Definition bearer_context_marked_for_removal_within_modify_bearer_response_members : list (string * ie_kind) :=
  [("eps_bearer_id", Kebi); ("cause", Kcause)].

Definition bearer_context_marked_for_removal_within_modify_bearer_response_get : list overload :=
  [mk_overload Kebi false (Direct (First, "eps_bearer_id")); mk_overload Kcause false (Direct (First, "cause"))].

Definition bearer_context_marked_for_removal_within_modify_bearer_response_set : list overload :=
  [mk_overload Kebi false (Direct (First, "eps_bearer_id")); mk_overload Kcause false (Direct (First, "cause"))].

Definition bearer_context_marked_for_removal_within_modify_bearer_response_class : ies_class :=
  mk_ies_class 64 bearer_context_marked_for_removal_within_modify_bearer_response_members [] bearer_context_marked_for_removal_within_modify_bearer_response_get bearer_context_marked_for_removal_within_modify_bearer_response_set
    [] [].

Definition bearer_context_marked_for_removal_within_modify_bearer_response_of : list of_row :=
  [OfPair "eps_bearer_id" "eps_bearer_id"; OfPair "cause" "cause"].

Definition bearer_context_marked_for_removal_within_modify_bearer_response : context_class := mk_context_class bearer_context_marked_for_removal_within_modify_bearer_response_class bearer_context_marked_for_removal_within_modify_bearer_response_of.

(** *** [gtpv2c_modify_bearer_response] *)

Definition gtpv2c_modify_bearer_response_members : list (string * ie_kind) :=
  [("cause", Kcause); ("msisdn", Kmsisdn); ("linked_eps_bearer_id", Kebi); ("apn_restriction", Kapn_restriction);
   ("pco", Kpco); ("pgw_fq_csid", Kfq_csid); ("sgw_fq_csid", Kfq_csid); ("indication_flags", Kindication);
   ("pdn_connection_charging_id", Kcharging_id)].

Definition gtpv2c_modify_bearer_response_get : list overload :=
  [mk_overload Kcause true (Direct (First, "cause")); mk_overload Kmsisdn true (Direct (First, "msisdn"));
   mk_overload Kebi true (Direct (First, "linked_eps_bearer_id"));
   mk_overload Kapn_restriction true (Direct (First, "apn_restriction"));
   mk_overload Kpco true (Direct (First, "pco")); mk_overload Kindication true (Direct (First, "indication_flags"));
   mk_overload Kcharging_id false (Direct (First, "pdn_connection_charging_id"))].

Definition gtpv2c_modify_bearer_response_set : list overload :=
  [mk_overload Kcause true (Direct (First, "cause")); mk_overload Kmsisdn true (Direct (First, "msisdn"));
   mk_overload Kebi true (Direct (First, "linked_eps_bearer_id"));
   mk_overload Kapn_restriction true (Direct (First, "apn_restriction"));
   mk_overload Kpco true (Direct (First, "pco")); mk_overload Kindication true (Direct (First, "indication_flags"));
   mk_overload Kcharging_id true (Direct (First, "pdn_connection_charging_id"));
   mk_overload Kfq_csid true (Switch [(0, (First, "pgw_fq_csid")); (1, (First, "sgw_fq_csid"))] GTP_IE_FQ_CSID)].

Definition gtpv2c_modify_bearer_response_named_get : list (string * slot) :=
  [("pgw_fq_csid", (First, "pgw_fq_csid")); ("sgw_fq_csid", (First, "sgw_fq_csid"))].

Definition gtpv2c_modify_bearer_response_named_set : list (string * slot) :=
  [("pgw_fq_csid", (First, "pgw_fq_csid")); ("sgw_fq_csid", (First, "sgw_fq_csid"))].

Definition gtpv2c_modify_bearer_response_class : ies_class :=
  mk_ies_class 64 gtpv2c_modify_bearer_response_members [] gtpv2c_modify_bearer_response_get gtpv2c_modify_bearer_response_set
    gtpv2c_modify_bearer_response_named_get gtpv2c_modify_bearer_response_named_set.

Definition gtpv2c_modify_bearer_response_contexts : list (Z * (slot * context_class)) :=
  [(0, ((First, "bearer_contexts_modified"), bearer_context_modified_within_modify_bearer_response));
   (1, ((First, "bearer_contexts_marked_for_removal"), bearer_context_marked_for_removal_within_modify_bearer_response))].

Definition gtpv2c_modify_bearer_response : message_class := mk_message_class gtpv2c_modify_bearer_response_class (Some gtpv2c_modify_bearer_response_contexts).

Definition gtpv2c_modify_bearer_response_copy : list string :=
  ["cause"; "msisdn"; "linked_eps_bearer_id"; "apn_restriction"; "pco"; "bearer_contexts_modified";
   "bearer_contexts_marked_for_removal"; "pgw_fq_csid"; "sgw_fq_csid"; "indication_flags";
   "pdn_connection_charging_id"].

Definition gtpv2c_modify_bearer_response_assign : list string :=
  ["cause"; "msisdn"; "linked_eps_bearer_id"; "apn_restriction"; "pco"; "bearer_contexts_modified";
   "bearer_contexts_marked_for_removal"; "pgw_fq_csid"; "sgw_fq_csid"; "indication_flags";
   "pdn_connection_charging_id"].

Definition modify_bearer_response_bearer_contexts_modified_rows : list build_row :=
  [mk_build_row (First, "eps_bearer_id") Kebi None false; mk_build_row (First, "cause") Kcause None false;
   mk_build_row (First, "s1_u_sgw_fteid") Kfteid None false;
   mk_build_row (First, "s12_sgw_fteid") Kfteid (Some 1) false;
   mk_build_row (First, "s4_u_sgw_fteid") Kfteid (Some 2) false;
   mk_build_row (First, "s11_u_sgw_fteid") Kfteid (Some 3) false;
   mk_build_row (First, "charging_id") Kcharging_id None false;
   mk_build_row (First, "bearer_flags") Kbearer_flags None false;
   mk_build_row (First, "s11_u_sgw_fteid") Kfteid (Some 6) false].

Definition modify_bearer_response_bearer_contexts_marked_for_removal_rows : list build_row :=
  [mk_build_row (First, "eps_bearer_id") Kebi None false; mk_build_row (First, "cause") Kcause None false].

Definition modify_bearer_response_build1 : list build :=
  [BuildIe (mk_build_row (First, "cause") Kcause None false);
   BuildIe (mk_build_row (First, "msisdn") Kmsisdn None false);
   BuildIe (mk_build_row (First, "linked_eps_bearer_id") Kebi None false);
   BuildIe (mk_build_row (First, "apn_restriction") Kapn_restriction None false);
   BuildIe (mk_build_row (First, "pco") Kpco None false);
   BuildIe (mk_build_row (First, "pgw_fq_csid") Kfq_csid None false);
   BuildIe (mk_build_row (First, "sgw_fq_csid") Kfq_csid (Some 1) false);
   BuildIe (mk_build_row (First, "indication_flags") Kindication None false);
   BuildIe (mk_build_row (First, "pdn_connection_charging_id") Kcharging_id None false)].

Definition modify_bearer_response_message : message :=
  mk_message GTP_MODIFY_BEARER_RESPONSE gtpv2c_modify_bearer_response
    (modify_bearer_response_build1 ++
     [BuildContexts (First, "bearer_contexts_modified") None modify_bearer_response_bearer_contexts_modified_rows] ++
     [BuildContexts (First, "bearer_contexts_marked_for_removal") (Some 1) modify_bearer_response_bearer_contexts_marked_for_removal_rows]).

(** *** [gtpv2c_delete_session_request] *)

Definition gtpv2c_delete_session_request_members : list (string * ie_kind) :=
  [("cause", Kcause); ("linked_eps_bearer_id", Kebi); ("uli", Kuli); ("indication_flags", Kindication); ("pco", Kpco);
   ("originating_node", Knode_type); ("sender_fteid_for_cp", Kfteid); ("ue_time_zone", Kue_time_zone);
   ("ran_nas_release_cause", Kran_nas_cause); ("epco", Kepco)].

Definition gtpv2c_delete_session_request_get : list overload :=
  [mk_overload Kcause true (Direct (Mask GTPV2C_DELETE_SESSION_REQUEST_PR_IE_CAUSE, "cause"));
   mk_overload Kebi true (Direct (Mask GTPV2C_DELETE_SESSION_REQUEST_PR_IE_LINKED_EPS_BEARER_ID, "linked_eps_bearer_id"));
   mk_overload Kuli true (Direct (Mask GTPV2C_DELETE_SESSION_REQUEST_PR_IE_ULI, "uli"));
   mk_overload Kindication true (Direct (Mask GTPV2C_DELETE_SESSION_REQUEST_PR_IE_INDICATION_FLAGS, "indication_flags"));
   mk_overload Kpco true (Direct (Mask GTPV2C_DELETE_SESSION_REQUEST_PR_IE_PCO, "pco"));
   mk_overload Knode_type true (Direct (Mask GTPV2C_DELETE_SESSION_REQUEST_PR_IE_ORIGINATING_NODE, "originating_node"));
   mk_overload Kfteid true (Direct (Mask GTPV2C_DELETE_SESSION_REQUEST_PR_IE_SENDER_FTEID_FOR_CONTROL_PLANE, "sender_fteid_for_cp"));
   mk_overload Kue_time_zone true (Direct (Mask GTPV2C_DELETE_SESSION_REQUEST_PR_IE_UE_TIME_ZONE, "ue_time_zone"));
   mk_overload Kran_nas_cause true (Direct (Mask GTPV2C_DELETE_SESSION_REQUEST_PR_IE_RAN_NAS_RELEASE_CAUSE, "ran_nas_release_cause"));
   mk_overload Kepco true (Direct (Mask GTPV2C_DELETE_SESSION_REQUEST_PR_IE_EPCO, "epco"))].

Definition gtpv2c_delete_session_request_set : list overload :=
  [mk_overload Kcause true (Direct (Mask GTPV2C_DELETE_SESSION_REQUEST_PR_IE_CAUSE, "cause"));
   mk_overload Kebi true (Direct (Mask GTPV2C_DELETE_SESSION_REQUEST_PR_IE_LINKED_EPS_BEARER_ID, "linked_eps_bearer_id"));
   mk_overload Kuli true (Direct (Mask GTPV2C_DELETE_SESSION_REQUEST_PR_IE_ULI, "uli"));
   mk_overload Kindication true (Direct (Mask GTPV2C_DELETE_SESSION_REQUEST_PR_IE_INDICATION_FLAGS, "indication_flags"));
   mk_overload Kpco true (Direct (Mask GTPV2C_DELETE_SESSION_REQUEST_PR_IE_PCO, "pco"));
   mk_overload Knode_type true (Direct (Mask GTPV2C_DELETE_SESSION_REQUEST_PR_IE_ORIGINATING_NODE, "originating_node"));
   mk_overload Kfteid true (Direct (Mask GTPV2C_DELETE_SESSION_REQUEST_PR_IE_SENDER_FTEID_FOR_CONTROL_PLANE, "sender_fteid_for_cp"));
   mk_overload Kue_time_zone true (Direct (Mask GTPV2C_DELETE_SESSION_REQUEST_PR_IE_UE_TIME_ZONE, "ue_time_zone"));
   mk_overload Kran_nas_cause true (Direct (Mask GTPV2C_DELETE_SESSION_REQUEST_PR_IE_RAN_NAS_RELEASE_CAUSE, "ran_nas_release_cause"));
   mk_overload Kepco true (Direct (Mask GTPV2C_DELETE_SESSION_REQUEST_PR_IE_EPCO, "epco"))].

Definition gtpv2c_delete_session_request_named_set : list (string * slot) :=
  [("sender_fteid_for_cp", (Mask GTPV2C_DELETE_SESSION_REQUEST_PR_IE_SENDER_FTEID_FOR_CONTROL_PLANE, "sender_fteid_for_cp"))].

Definition gtpv2c_delete_session_request_class : ies_class :=
  mk_ies_class 64 gtpv2c_delete_session_request_members [] gtpv2c_delete_session_request_get gtpv2c_delete_session_request_set
    [] gtpv2c_delete_session_request_named_set.

Definition gtpv2c_delete_session_request : message_class := mk_message_class gtpv2c_delete_session_request_class None.

Definition gtpv2c_delete_session_request_copy : list string :=
  ["ie_presence_mask"; "cause"; "linked_eps_bearer_id"; "uli"; "indication_flags"; "pco"; "originating_node";
   "sender_fteid_for_cp"; "ue_time_zone"; "ran_nas_release_cause"; "epco"].

Definition gtpv2c_delete_session_request_assign : list string :=
  ["ie_presence_mask"; "cause"; "linked_eps_bearer_id"; "uli"; "indication_flags"; "pco"; "originating_node";
   "sender_fteid_for_cp"; "ue_time_zone"; "ran_nas_release_cause"; "epco"].

Definition delete_session_request_build1 : list build :=
  [BuildIe (mk_build_row (Mask GTPV2C_DELETE_SESSION_REQUEST_PR_IE_CAUSE, "cause") Kcause None false);
   BuildIe (mk_build_row (Mask GTPV2C_DELETE_SESSION_REQUEST_PR_IE_LINKED_EPS_BEARER_ID, "linked_eps_bearer_id") Kebi None false);
   BuildIe (mk_build_row (Mask GTPV2C_DELETE_SESSION_REQUEST_PR_IE_ULI, "uli") Kuli None false);
   BuildIe (mk_build_row (Mask GTPV2C_DELETE_SESSION_REQUEST_PR_IE_INDICATION_FLAGS, "indication_flags") Kindication None false);
   BuildIe (mk_build_row (Mask GTPV2C_DELETE_SESSION_REQUEST_PR_IE_PCO, "pco") Kpco None false);
   BuildIe (mk_build_row (Mask GTPV2C_DELETE_SESSION_REQUEST_PR_IE_ORIGINATING_NODE, "originating_node") Knode_type None false);
   BuildIe (mk_build_row (Mask GTPV2C_DELETE_SESSION_REQUEST_PR_IE_SENDER_FTEID_FOR_CONTROL_PLANE, "sender_fteid_for_cp") Kfteid None false);
   BuildIe (mk_build_row (Mask GTPV2C_DELETE_SESSION_REQUEST_PR_IE_UE_TIME_ZONE, "ue_time_zone") Kue_time_zone None false);
   BuildIe (mk_build_row (Mask GTPV2C_DELETE_SESSION_REQUEST_PR_IE_RAN_NAS_RELEASE_CAUSE, "ran_nas_release_cause") Kran_nas_cause None false);
   BuildIe (mk_build_row (Mask GTPV2C_DELETE_SESSION_REQUEST_PR_IE_EPCO, "epco") Kepco None false)].

Definition delete_session_request_message : message :=
  mk_message GTP_DELETE_SESSION_REQUEST gtpv2c_delete_session_request
    (delete_session_request_build1).

(** *** [gtpv2c_delete_session_response] *)

Definition gtpv2c_delete_session_response_members : list (string * ie_kind) :=
  [("cause", Kcause); ("pco", Kpco); ("indication_flags", Kindication); ("epco", Kepco)].

Definition gtpv2c_delete_session_response_get : list overload :=
  [mk_overload Kcause true (Direct (Mask GTPV2C_DELETE_SESSION_RESPONSE_PR_IE_CAUSE, "cause"));
   mk_overload Kpco true (Direct (Mask GTPV2C_DELETE_SESSION_RESPONSE_PR_IE_PCO, "pco"));
   mk_overload Kindication true (Direct (Mask GTPV2C_DELETE_SESSION_RESPONSE_PR_IE_INDICATION_FLAGS, "indication_flags"));
   mk_overload Kepco true (Direct (Mask GTPV2C_DELETE_SESSION_RESPONSE_PR_IE_EPCO, "epco"))].

Definition gtpv2c_delete_session_response_set : list overload :=
  [mk_overload Kcause true (Direct (Mask GTPV2C_DELETE_SESSION_RESPONSE_PR_IE_CAUSE, "cause"));
   mk_overload Kpco true (Direct (Mask GTPV2C_DELETE_SESSION_RESPONSE_PR_IE_PCO, "pco"));
   mk_overload Kindication true (Direct (Mask GTPV2C_DELETE_SESSION_RESPONSE_PR_IE_INDICATION_FLAGS, "indication_flags"));
   mk_overload Kepco true (Direct (Mask GTPV2C_DELETE_SESSION_RESPONSE_PR_IE_EPCO, "epco"))].

Definition gtpv2c_delete_session_response_class : ies_class :=
  mk_ies_class 64 gtpv2c_delete_session_response_members [] gtpv2c_delete_session_response_get gtpv2c_delete_session_response_set
    [] [].

Definition gtpv2c_delete_session_response : message_class := mk_message_class gtpv2c_delete_session_response_class None.

Definition gtpv2c_delete_session_response_copy : list string :=
  ["ie_presence_mask"; "cause"; "pco"; "indication_flags"; "epco"].

Definition gtpv2c_delete_session_response_assign : list string :=
  ["ie_presence_mask"; "cause"; "pco"; "indication_flags"; "epco"].

Definition delete_session_response_build1 : list build :=
  [BuildIe (mk_build_row (Mask GTPV2C_DELETE_SESSION_RESPONSE_PR_IE_CAUSE, "cause") Kcause None false);
   BuildIe (mk_build_row (Mask GTPV2C_DELETE_SESSION_RESPONSE_PR_IE_PCO, "pco") Kpco None false);
   BuildIe (mk_build_row (Mask GTPV2C_DELETE_SESSION_RESPONSE_PR_IE_INDICATION_FLAGS, "indication_flags") Kindication None false);
   BuildIe (mk_build_row (Mask GTPV2C_DELETE_SESSION_RESPONSE_PR_IE_EPCO, "epco") Kepco None false)].

Definition delete_session_response_message : message :=
  mk_message GTP_DELETE_SESSION_RESPONSE gtpv2c_delete_session_response
    (delete_session_response_build1).

(** *** [gtpv2c_release_access_bearers_request] *)

Definition gtpv2c_release_access_bearers_request_members : list (string * ie_kind) :=
  [("originating_node", Knode_type); ("indication_flags", Kindication)].

Definition gtpv2c_release_access_bearers_request_get : list overload :=
  [mk_overload Knode_type true (Direct (First, "originating_node"));
   mk_overload Kindication true (Direct (First, "indication_flags"))].

Definition gtpv2c_release_access_bearers_request_set : list overload :=
  [mk_overload Knode_type true (Direct (First, "originating_node"));
   mk_overload Kindication true (Direct (First, "indication_flags"))].

Definition gtpv2c_release_access_bearers_request_class : ies_class :=
  mk_ies_class 64 gtpv2c_release_access_bearers_request_members [] gtpv2c_release_access_bearers_request_get gtpv2c_release_access_bearers_request_set
    [] [].

Definition gtpv2c_release_access_bearers_request : message_class := mk_message_class gtpv2c_release_access_bearers_request_class None.

Definition gtpv2c_release_access_bearers_request_copy : list string :=
  ["originating_node"; "indication_flags"].

Definition gtpv2c_release_access_bearers_request_assign : list string :=
  ["originating_node"; "indication_flags"].

Definition release_access_bearers_request_build1 : list build :=
  [BuildIe (mk_build_row (First, "originating_node") Knode_type None false);
   BuildIe (mk_build_row (First, "indication_flags") Kindication None false)].

Definition release_access_bearers_request_message : message :=
  mk_message GTP_RELEASE_ACCESS_BEARERS_REQUEST gtpv2c_release_access_bearers_request
    (release_access_bearers_request_build1).

(** *** [gtpv2c_release_access_bearers_response] *)

Definition gtpv2c_release_access_bearers_response_members : list (string * ie_kind) :=
  [("cause", Kcause); ("indication_flags", Kindication)].

Definition gtpv2c_release_access_bearers_response_get : list overload :=
  [mk_overload Kcause true (Direct (First, "cause"));
   mk_overload Kindication true (Direct (First, "indication_flags"))].

Definition gtpv2c_release_access_bearers_response_set : list overload :=
  [mk_overload Kcause true (Direct (First, "cause"));
   mk_overload Kindication true (Direct (First, "indication_flags"))].

Definition gtpv2c_release_access_bearers_response_class : ies_class :=
  mk_ies_class 64 gtpv2c_release_access_bearers_response_members [] gtpv2c_release_access_bearers_response_get gtpv2c_release_access_bearers_response_set
    [] [].

Definition gtpv2c_release_access_bearers_response : message_class := mk_message_class gtpv2c_release_access_bearers_response_class None.

Definition gtpv2c_release_access_bearers_response_copy : list string :=
  ["cause"; "indication_flags"].

Definition gtpv2c_release_access_bearers_response_assign : list string :=
  ["cause"; "indication_flags"].

Definition release_access_bearers_response_build1 : list build :=
  [BuildIe (mk_build_row (First, "cause") Kcause None false);
   BuildIe (mk_build_row (First, "indication_flags") Kindication None false)].

Definition release_access_bearers_response_message : message :=
  mk_message GTP_RELEASE_ACCESS_BEARERS_RESPONSE gtpv2c_release_access_bearers_response
    (release_access_bearers_response_build1).

(** *** [bearer_context_within_delete_bearer_command] *)

Definition bearer_context_within_delete_bearer_command_members : list (string * ie_kind) :=
  [("eps_bearer_id", Kebi); ("bearer_flags", Kbearer_flags); ("ran_nas_release_cause", Kran_nas_cause)].

Definition bearer_context_within_delete_bearer_command_set : list overload :=
  [mk_overload Kebi false (Direct (Mask GTPV2C_BEARER_CONTEXT_WITHIN_DELETE_BEARER_COMMAND_PR_IE_EPS_BEARER_ID, "eps_bearer_id"));
   mk_overload Kbearer_flags false (Direct (Mask GTPV2C_BEARER_CONTEXT_WITHIN_DELETE_BEARER_COMMAND_PR_IE_BEARER_FLAGS, "bearer_flags"));
   mk_overload Kran_nas_cause false (Direct (Mask GTPV2C_BEARER_CONTEXT_WITHIN_DELETE_BEARER_COMMAND_PR_IE_RAN_NAS_RELEASE_CAUSE, "ran_nas_release_cause"))].

Definition bearer_context_within_delete_bearer_command_class : ies_class :=
  mk_ies_class 32 bearer_context_within_delete_bearer_command_members [] [] bearer_context_within_delete_bearer_command_set
    [] [].

Definition bearer_context_within_delete_bearer_command_of : list of_row :=
  [OfGet (Mask GTPV2C_BEARER_CONTEXT_WITHIN_DELETE_BEARER_COMMAND_PR_IE_EPS_BEARER_ID, "eps_bearer_id") Kebi 0;
   OfGet (Mask GTPV2C_BEARER_CONTEXT_WITHIN_DELETE_BEARER_COMMAND_PR_IE_BEARER_FLAGS, "bearer_flags") Kbearer_flags 0;
   OfGet (Mask GTPV2C_BEARER_CONTEXT_WITHIN_DELETE_BEARER_COMMAND_PR_IE_RAN_NAS_RELEASE_CAUSE, "ran_nas_release_cause") Kran_nas_cause 0].

Definition bearer_context_within_delete_bearer_command : context_class := mk_context_class bearer_context_within_delete_bearer_command_class bearer_context_within_delete_bearer_command_of.

Definition bearer_context_within_delete_bearer_command_copy : list string :=
  ["ie_presence_mask"; "eps_bearer_id"; "bearer_flags"; "ran_nas_release_cause"].

Definition bearer_context_within_delete_bearer_command_assign : list string :=
  ["ie_presence_mask"; "eps_bearer_id"; "bearer_flags"; "ran_nas_release_cause"].

(** *** [gtpv2c_delete_bearer_command] *)

Definition gtpv2c_delete_bearer_command_members : list (string * ie_kind) :=
  [("uli", Kuli); ("uli_timestamp", Kuli_timestamp); ("ue_time_zone", Kue_time_zone);
   ("sender_fteid_for_cp", Kfteid)].

Definition gtpv2c_delete_bearer_command_set : list overload :=
  [mk_overload Kuli true (Direct (Mask GTPV2C_DELETE_BEARER_COMMAND_PR_IE_ULI, "uli"));
   mk_overload Kuli_timestamp false (Direct (Mask GTPV2C_DELETE_BEARER_COMMAND_PR_IE_ULI_TIMESTAMP, "uli_timestamp"));
   mk_overload Kue_time_zone true (Direct (Mask GTPV2C_DELETE_BEARER_COMMAND_PR_IE_UE_TIME_ZONE, "ue_time_zone"));
   mk_overload Kfteid true (Direct (Mask GTPV2C_DELETE_BEARER_COMMAND_PR_IE_SENDER_FTEID_FOR_CONTROL_PLANE, "sender_fteid_for_cp"))].

Definition gtpv2c_delete_bearer_command_class : ies_class :=
  mk_ies_class 64 gtpv2c_delete_bearer_command_members [] [] gtpv2c_delete_bearer_command_set
    [] [].

Definition gtpv2c_delete_bearer_command_contexts : list (Z * (slot * context_class)) :=
  [(0, ((Mask GTPV2C_DELETE_BEARER_COMMAND_PR_IE_BEARER_CONTEXTS, "bearer_contexts"), bearer_context_within_delete_bearer_command))].

Definition gtpv2c_delete_bearer_command : message_class := mk_message_class gtpv2c_delete_bearer_command_class (Some gtpv2c_delete_bearer_command_contexts).

Definition gtpv2c_delete_bearer_command_copy : list string :=
  ["ie_presence_mask"; "bearer_contexts"; "uli"; "uli_timestamp"; "ue_time_zone"; "sender_fteid_for_cp"].

Definition gtpv2c_delete_bearer_command_assign : list string :=
  ["ie_presence_mask"; "bearer_contexts"; "uli"; "uli_timestamp"; "ue_time_zone"; "sender_fteid_for_cp"].

(** *** [bearer_context_within_delete_bearer_failure_indication] *)

Definition bearer_context_within_delete_bearer_failure_indication_members : list (string * ie_kind) :=
  [("eps_bearer_id", Kebi); ("cause", Kcause)].

Definition bearer_context_within_delete_bearer_failure_indication_set : list overload :=
  [mk_overload Kebi false (Direct (Mask GTPV2C_BEARER_CONTEXT_WITHIN_DELETE_BEARER_FAILURE_INDICATION_PR_IE_EPS_BEARER_ID, "eps_bearer_id"));
   mk_overload Kcause false (Direct (Mask GTPV2C_BEARER_CONTEXT_WITHIN_DELETE_BEARER_FAILURE_INDICATION_PR_IE_CAUSE, "cause"))].

Definition bearer_context_within_delete_bearer_failure_indication_class : ies_class :=
  mk_ies_class 32 bearer_context_within_delete_bearer_failure_indication_members [] [] bearer_context_within_delete_bearer_failure_indication_set
    [] [].

Definition bearer_context_within_delete_bearer_failure_indication_of : list of_row :=
  [OfGet (Mask GTPV2C_BEARER_CONTEXT_WITHIN_DELETE_BEARER_FAILURE_INDICATION_PR_IE_EPS_BEARER_ID, "eps_bearer_id") Kebi 0;
   OfGet (Mask GTPV2C_BEARER_CONTEXT_WITHIN_DELETE_BEARER_FAILURE_INDICATION_PR_IE_CAUSE, "cause") Kcause 0].

Definition bearer_context_within_delete_bearer_failure_indication : context_class := mk_context_class bearer_context_within_delete_bearer_failure_indication_class bearer_context_within_delete_bearer_failure_indication_of.

Definition bearer_context_within_delete_bearer_failure_indication_copy : list string :=
  ["ie_presence_mask"; "eps_bearer_id"; "cause"].

Definition bearer_context_within_delete_bearer_failure_indication_assign : list string :=
  ["ie_presence_mask"; "eps_bearer_id"; "cause"].

(** *** [gtpv2c_delete_bearer_failure_indication] *)

Definition gtpv2c_delete_bearer_failure_indication_members : list (string * ie_kind) :=
  [("cause", Kcause); ("indication_flags", Kindication)].

Definition gtpv2c_delete_bearer_failure_indication_set : list overload :=
  [mk_overload Kcause true (Direct (Mask GTPV2C_DELETE_BEARER_FAILURE_INDICATION_PR_IE_CAUSE, "cause"));
   mk_overload Kindication true (Direct (Mask GTPV2C_DELETE_BEARER_FAILURE_INDICATION_PR_IE_INDICATION_FLAGS, "indication_flags"))].

Definition gtpv2c_delete_bearer_failure_indication_class : ies_class :=
  mk_ies_class 64 gtpv2c_delete_bearer_failure_indication_members [] [] gtpv2c_delete_bearer_failure_indication_set
    [] [].

Definition gtpv2c_delete_bearer_failure_indication_contexts : list (Z * (slot * context_class)) :=
  [(0, ((Mask GTPV2C_DELETE_BEARER_FAILURE_INDICATION_PR_IE_BEARER_CONTEXTS, "bearer_contexts"), bearer_context_within_delete_bearer_failure_indication))].

Definition gtpv2c_delete_bearer_failure_indication : message_class := mk_message_class gtpv2c_delete_bearer_failure_indication_class (Some gtpv2c_delete_bearer_failure_indication_contexts).

Definition gtpv2c_delete_bearer_failure_indication_copy : list string :=
  ["ie_presence_mask"; "bearer_contexts"; "cause"; "indication_flags"].

Definition gtpv2c_delete_bearer_failure_indication_assign : list string :=
  ["ie_presence_mask"; "bearer_contexts"; "cause"; "indication_flags"].

(** *** [gtpv2c_downlink_data_notification] *)

Definition gtpv2c_downlink_data_notification_members : list (string * ie_kind) :=
  [("cause", Kcause); ("eps_bearer_id", Kebi); ("arp", Karp); ("imsi", Kimsi); ("sender_fteid_for_cp", Kfteid);
   ("indication_flags", Kindication)].

Definition gtpv2c_downlink_data_notification_get : list overload :=
  [mk_overload Kcause true (Direct (Mask DOWNLINK_DATA_NOTIFICATION_PR_IE_CAUSE, "cause"));
   mk_overload Kebi true (Direct (Mask DOWNLINK_DATA_NOTIFICATION_PR_IE_EPS_BEARER_ID, "eps_bearer_id"));
   mk_overload Karp false (Direct (Mask DOWNLINK_DATA_NOTIFICATION_PR_IE_ARP, "arp"));
   mk_overload Kimsi true (Direct (Mask DOWNLINK_DATA_NOTIFICATION_PR_IE_IMSI, "imsi"));
   mk_overload Kfteid true (Direct (Mask DOWNLINK_DATA_NOTIFICATION_PR_IE_SENDER_FTEID_FOR_CP, "sender_fteid_for_cp"));
   mk_overload Kindication true (Direct (Mask DOWNLINK_DATA_NOTIFICATION_PR_IE_INDICATION_FLAGS, "indication_flags"))].

Definition gtpv2c_downlink_data_notification_set : list overload :=
  [mk_overload Kcause true (Direct (Mask DOWNLINK_DATA_NOTIFICATION_PR_IE_CAUSE, "cause"));
   mk_overload Kebi true (Direct (Mask DOWNLINK_DATA_NOTIFICATION_PR_IE_EPS_BEARER_ID, "eps_bearer_id"));
   mk_overload Karp false (Direct (Mask DOWNLINK_DATA_NOTIFICATION_PR_IE_ARP, "arp"));
   mk_overload Kimsi true (Direct (Mask DOWNLINK_DATA_NOTIFICATION_PR_IE_IMSI, "imsi"));
   mk_overload Kfteid true (Direct (Mask DOWNLINK_DATA_NOTIFICATION_PR_IE_SENDER_FTEID_FOR_CP, "sender_fteid_for_cp"));
   mk_overload Kindication true (Direct (Mask DOWNLINK_DATA_NOTIFICATION_PR_IE_INDICATION_FLAGS, "indication_flags"))].

Definition gtpv2c_downlink_data_notification_class : ies_class :=
  mk_ies_class 64 gtpv2c_downlink_data_notification_members [] gtpv2c_downlink_data_notification_get gtpv2c_downlink_data_notification_set
    [] [].

Definition gtpv2c_downlink_data_notification : message_class := mk_message_class gtpv2c_downlink_data_notification_class None.

Definition gtpv2c_downlink_data_notification_copy : list string :=
  ["ie_presence_mask"; "cause"; "eps_bearer_id"; "arp"; "imsi"; "sender_fteid_for_cp"; "indication_flags"].

Definition gtpv2c_downlink_data_notification_assign : list string :=
  ["ie_presence_mask"; "cause"; "eps_bearer_id"; "arp"; "imsi"; "sender_fteid_for_cp"; "indication_flags"].

Definition downlink_data_notification_build1 : list build :=
  [BuildIe (mk_build_row (Mask DOWNLINK_DATA_NOTIFICATION_PR_IE_CAUSE, "cause") Kcause None false);
   BuildIe (mk_build_row (Mask DOWNLINK_DATA_NOTIFICATION_PR_IE_EPS_BEARER_ID, "eps_bearer_id") Kebi None false);
   BuildIe (mk_build_row (Mask GTPV2C_MODIFY_BEARER_REQUEST_PR_IE_IMSI, "imsi") Kimsi None false);
   BuildIe (mk_build_row (Mask DOWNLINK_DATA_NOTIFICATION_PR_IE_SENDER_FTEID_FOR_CP, "sender_fteid_for_cp") Kfteid None false);
   BuildIe (mk_build_row (Mask DOWNLINK_DATA_NOTIFICATION_PR_IE_INDICATION_FLAGS, "indication_flags") Kindication None false)].

Definition downlink_data_notification_message : message :=
  mk_message GTP_DOWNLINK_DATA_NOTIFICATION gtpv2c_downlink_data_notification
    (downlink_data_notification_build1).

(** *** [gtpv2c_downlink_data_notification_acknowledge] *)

Definition gtpv2c_downlink_data_notification_acknowledge_members : list (string * ie_kind) :=
  [("cause", Kcause); ("imsi", Kimsi)].

Definition gtpv2c_downlink_data_notification_acknowledge_get : list overload :=
  [mk_overload Kcause true (Direct (Mask DOWNLINK_DATA_NOTIFICATION_ACK_PR_IE_CAUSE, "cause"));
   mk_overload Kimsi true (Direct (Mask DOWNLINK_DATA_NOTIFICATION_ACK_PR_IE_IMSI, "imsi"))].

Definition gtpv2c_downlink_data_notification_acknowledge_set : list overload :=
  [mk_overload Kcause true (Direct (Mask DOWNLINK_DATA_NOTIFICATION_ACK_PR_IE_CAUSE, "cause"));
   mk_overload Kimsi true (Direct (Mask DOWNLINK_DATA_NOTIFICATION_ACK_PR_IE_IMSI, "imsi"))].

Definition gtpv2c_downlink_data_notification_acknowledge_class : ies_class :=
  mk_ies_class 64 gtpv2c_downlink_data_notification_acknowledge_members [] gtpv2c_downlink_data_notification_acknowledge_get gtpv2c_downlink_data_notification_acknowledge_set
    [] [].

Definition gtpv2c_downlink_data_notification_acknowledge : message_class := mk_message_class gtpv2c_downlink_data_notification_acknowledge_class None.

Definition gtpv2c_downlink_data_notification_acknowledge_copy : list string :=
  ["ie_presence_mask"; "cause"; "imsi"].

Definition gtpv2c_downlink_data_notification_acknowledge_assign : list string :=
  ["ie_presence_mask"; "cause"; "imsi"].

Definition downlink_data_notification_acknowledge_build1 : list build :=
  [BuildIe (mk_build_row (Mask DOWNLINK_DATA_NOTIFICATION_ACK_PR_IE_CAUSE, "cause") Kcause None false);
   BuildIe (mk_build_row (Mask DOWNLINK_DATA_NOTIFICATION_ACK_PR_IE_IMSI, "imsi") Kimsi None false)].

Definition downlink_data_notification_acknowledge_message : message :=
  mk_message GTP_DOWNLINK_DATA_NOTIFICATION_ACKNOWLEDGE gtpv2c_downlink_data_notification_acknowledge
    (downlink_data_notification_acknowledge_build1).

(** *** [gtpv2c_downlink_data_notification_failure_indication] *)

Definition gtpv2c_downlink_data_notification_failure_indication_members : list (string * ie_kind) :=
  [("cause", Kcause); ("originating_node", Knode_type); ("imsi", Kimsi)].

Definition gtpv2c_downlink_data_notification_failure_indication_set : list overload :=
  [mk_overload Kcause true (Direct (Mask DOWNLINK_DATA_NOTIFICATION_FAILURE_IND_PR_IE_CAUSE, "cause"));
   mk_overload Knode_type true (Direct (Mask DOWNLINK_DATA_NOTIFICATION_FAILURE_IND_PR_IE_ORIGINATING_NODE, "originating_node"));
   mk_overload Kimsi true (Direct (Mask DOWNLINK_DATA_NOTIFICATION_FAILURE_IND_PR_IE_IMSI, "imsi"))].

Definition gtpv2c_downlink_data_notification_failure_indication_class : ies_class :=
  mk_ies_class 64 gtpv2c_downlink_data_notification_failure_indication_members [] [] gtpv2c_downlink_data_notification_failure_indication_set
    [] [].

Definition gtpv2c_downlink_data_notification_failure_indication : message_class := mk_message_class gtpv2c_downlink_data_notification_failure_indication_class None.

Definition gtpv2c_downlink_data_notification_failure_indication_copy : list string :=
  ["ie_presence_mask"; "cause"; "originating_node"; "imsi"].

Definition gtpv2c_downlink_data_notification_failure_indication_assign : list string :=
  ["ie_presence_mask"; "cause"; "originating_node"; "imsi"].
