(* ===== verification/GtpClassLaws.v ===== *)
(** * What the tables of the containers promise

    A decidable condition on a class ([class_ok]): its members do not overlap,
    every overload stores into a member of its type, and [get] reads the member
    [set] writes.  From it, for every class: reading gives what was set and
    nothing else changes; the object stays typed whatever is received; copies
    are complete.  The classes that do not satisfy it are named. *)
From S2P Require Import Prelude GtpTlv GtpAddress GtpIe GtpCore GtpMsg Container GtpContainer GtpMessages.
From Stdlib Require Import ZArith Lia String.
From stdpp Require Import base numbers tactics list strings gmap sets.
Open Scope Z_scope.

(** ** The member an overload accesses *)
Definition access_target (a : access) (n : Z) : option slot :=
  match a with Direct s => Some s | Switch cases _ | Indexed cases _ => case_slot n cases end.

Definition access_slots (a : access) : list slot :=
  match a with Direct s => [s] | Switch cases _ | Indexed cases _ => cases.*2 end.

Definition set_target (c : ies_class) (k : ie_kind) (n : Z) : option slot :=
  o ← find_overload k (c_set c); access_target (o_access o) n.
Definition get_target (c : ies_class) (k : ie_kind) (n : Z) : option slot :=
  o ← find_overload k (c_get c); access_target (o_access o) n.

(** The members the overloads and the named functions reach. *)
Definition class_slots (c : ies_class) : list slot :=
  remove_dups (((c_set c ++ c_get c) ≫= (fun o => access_slots (o_access o))) ++ (c_named_set c ++ c_named_get c).*2).

Definition member_kind (c : ies_class) (m : string) : option ie_kind :=
  list_to_map (M := gmap string ie_kind) (c_members c) !! m.

(** ** The condition *)
Definition overload_typed (c : ies_class) (o : overload) : bool :=
  forallb (fun s => bool_decide (member_kind c s.2 = Some (o_kind o))) (access_slots (o_access o)).

Definition overload_matched (c : ies_class) (o : overload) : bool :=
  match find_overload (o_kind o) (c_get c), o_access o with
  | Some g, Direct s =>
    match o_access g with
    | Direct t => bool_decide (t = s)
    | Switch cases _ => forallb (fun t => bool_decide (t = s)) cases.*2
    | Indexed _ _ => false
    end
  | Some g, (Switch cases _ | Indexed cases _) =>
    match o_access g with Switch cases' _ | Indexed cases' _ => bool_decide (cases = cases') | Direct _ => false end
  | None, _ => true
  end.

Definition named_matched (c : ies_class) (xs : string * slot) : bool :=
  match list_to_map (M := gmap string slot) (c_named_get c) !! xs.1 with
  | Some t => bool_decide (xs.2 = t)
  | None => true
  end.

(** Overloads store values of the type of the member. *)
Definition class_typed (c : ies_class) : bool :=
  bool_decide (NoDup (c_members c).*1) &&
  forallb (fun mv => bool_decide (member_kind c mv.1 = Some (kind_of mv.2))) (c_init c) &&
  forallb (overload_typed c) (c_set c) && forallb (overload_typed c) (c_get c).

Definition class_ok (c : ies_class) : bool :=
  class_typed c && slots_ok (c_width c) (class_slots c) &&
  forallb (overload_matched c) (c_set c) && forallb (named_matched c) (c_named_set c).

Lemma class_typed_and c : class_typed c = true ->
  NoDup (c_members c).*1 /\ (forall mv, mv ∈ c_init c -> member_kind c mv.1 = Some (kind_of mv.2)) /\
  (forall o, o ∈ c_set c -> overload_typed c o = true) /\ (forall o, o ∈ c_get c -> overload_typed c o = true).
Proof.
  unfold class_typed. rewrite !andb_true_iff, !forallb_forall, bool_decide_eq_true.
  setoid_rewrite <- list_elem_of_In. setoid_rewrite bool_decide_eq_true. intuition.
Qed.

Lemma class_ok_and c : class_ok c = true ->
  class_typed c = true /\ slots_ok (c_width c) (class_slots c) = true /\
  (forall o, o ∈ c_set c -> overload_matched c o = true) /\ (forall x, x ∈ c_named_set c -> named_matched c x = true).
Proof.
  unfold class_ok. rewrite !andb_true_iff, !forallb_forall. setoid_rewrite <- list_elem_of_In. intuition.
Qed.

(** ** Overloads *)
Lemma find_overload_in k l o : find_overload k l = Some o -> o ∈ l /\ o_kind o = k.
Proof.
  intros [H1 H2]%find_some. split; [by apply list_elem_of_In|]. by apply bool_decide_eq_true in H2.
Qed.

Lemma case_slot_in n cases s : case_slot n cases = Some s -> s ∈ cases.*2.
Proof.
  unfold case_slot. destruct (find _ cases) as [[m t]|] eqn:E; [|done]. simpl. intros [= <-].
  apply find_some in E as [E _]. apply list_elem_of_In in E. apply list_elem_of_fmap. by exists (m, t).
Qed.

Lemma access_target_in a n s : access_target a n = Some s -> s ∈ access_slots a.
Proof.
  destruct a as [t|cases ie|cases ie]; simpl; [intros [= <-]; set_solver|apply case_slot_in|apply case_slot_in].
Qed.

Lemma access_set_Val w a n v f f' :
  access_set w a n v f = Val f' -> exists s, access_target a n = Some s /\ f' = slot_set w s v f.
Proof.
  destruct a as [t|cases ie|cases ie]; simpl; [intros [= <-]; by exists t| |];
    destruct (case_slot n cases); intros [= <-]; by eexists.
Qed.

Lemma access_get_Some a n f s : access_target a n = Some s -> access_get a n f = Val (slot_get s f).
Proof. destruct a as [t|cases ie|cases ie]; simpl; [by intros [= ->]| |]; by intros ->. Qed.

Lemma overload_slot_in c o s :
  (o ∈ c_set c \/ o ∈ c_get c) -> s ∈ access_slots (o_access o) -> s ∈ class_slots c.
Proof.
  intros Ho Hs. unfold class_slots. apply elem_of_remove_dups, elem_of_app. left.
  apply list_elem_of_bind. exists o. split; [done|]. apply elem_of_app. naive_solver.
Qed.

Lemma named_slot_in c x s : (x, s) ∈ c_named_set c \/ (x, s) ∈ c_named_get c -> s ∈ class_slots c.
Proof.
  intros H. unfold class_slots. apply elem_of_remove_dups, elem_of_app. right.
  apply list_elem_of_fmap. exists (x, s). split; [done|]. apply elem_of_app. naive_solver.
Qed.

Lemma set_target_in c k n s : set_target c k n = Some s -> s ∈ class_slots c.
Proof.
  unfold set_target. destruct (find_overload k (c_set c)) as [o|] eqn:E; [|done]. simpl. intros H.
  apply find_overload_in in E as [E _]. apply (overload_slot_in c o); [by left|]. by eapply access_target_in.
Qed.

Lemma get_target_in c k n s : get_target c k n = Some s -> s ∈ class_slots c.
Proof.
  unfold get_target. destruct (find_overload k (c_get c)) as [o|] eqn:E; [|done]. simpl. intros H.
  apply find_overload_in in E as [E _]. apply (overload_slot_in c o); [by right|]. by eapply access_target_in.
Qed.

Lemma class_set_target c v n f f' :
  class_set c v n f = Some (Val f') ->
  exists s, set_target c (kind_of v) n = Some s /\ f' = slot_set (c_width c) s v f.
Proof.
  unfold class_set, set_target. destruct (find_overload (kind_of v) (c_set c)) as [o|]; [|done].
  simpl. intros [= H]. by apply access_set_Val in H.
Qed.

Lemma virtual_set_target c v n f f' :
  virtual_set c v n f = Val f' ->
  exists s, set_target c (kind_of v) n = Some s /\ f' = slot_set (c_width c) s v f.
Proof.
  unfold virtual_set, set_target. destruct (find_overload (kind_of v) (c_set c)) as [o|]; [|done].
  destruct (o_overrides o); [|done]. simpl. apply access_set_Val.
Qed.

Lemma class_get_target c k n f s : get_target c k n = Some s -> class_get c k n f = Some (Val (slot_get s f)).
Proof.
  unfold class_get, get_target. destruct (find_overload k (c_get c)) as [o|]; [|done]. simpl. intros H.
  by rewrite (access_get_Some _ _ _ s).
Qed.

(** A class with both overloads for a type reads the member it writes, when it
    accepts the instance. *)
Lemma set_get_target c k n s f r :
  class_ok c = true -> set_target c k n = Some s -> class_get c k n f = Some (Val r) -> get_target c k n = Some s.
Proof.
  intros (_ & _ & Hm & _)%class_ok_and. unfold set_target, get_target, class_get.
  destruct (find_overload k (c_set c)) as [o|] eqn:Eo; [|done].
  destruct (find_overload k (c_get c)) as [g|] eqn:Eg; [|done]. simpl.
  apply find_overload_in in Eo as [Ho <-]. specialize (Hm o Ho). unfold overload_matched in Hm. rewrite Eg in Hm.
  destruct (o_access o) as [u|cases ie|cases ie], (o_access g) as [t|cases' ie'|cases' ie']; simpl in *; try done;
    rewrite ?forallb_forall in Hm; rewrite ?bool_decide_eq_true in Hm; subst; try congruence.
  intros [= ->]. destruct (case_slot n cases') as [t|] eqn:Et; [|done]. intros _.
  apply case_slot_in, list_elem_of_In, Hm, bool_decide_eq_true in Et. by subst.
Qed.

(** ** Typed objects *)
Record class_inv (c : ies_class) (f : fields value) : Prop := {
  inv_dom : dom (f_vals f) = list_to_set (C := gset string) (c_members c).*1;
  inv_kind : forall m k v, member_kind c m = Some k -> f_vals f !! m = Some v -> kind_of v = k;
}.

Lemma member_kind_in c m k : member_kind c m = Some k -> m ∈ (c_members c).*1.
Proof.
  unfold member_kind. intros H%elem_of_list_to_map_2. apply list_elem_of_fmap. by exists (m, k).
Qed.

Lemma members_insert c m :
  m ∈ (c_members c).*1 ->
  {[m]} ∪ list_to_set (C := gset string) (c_members c).*1 = list_to_set (c_members c).*1.
Proof. intros H. apply subseteq_union_1_L, singleton_subseteq_l. by apply elem_of_list_to_set. Qed.

Lemma class_init_inv c : class_typed c = true -> class_inv c (class_init c).
Proof.
  intros (Hnd & Hi & _)%class_typed_and.
  assert (forall m k v, (m, v) ∈ c_init c ++ ((fun mk => (mk.1, value_init mk.2)) <$> c_members c) ->
    member_kind c m = Some k -> kind_of v = k) as Hk.
  { intros m k v [Hv|Hv]%elem_of_app Hm; [specialize (Hi _ Hv); simpl in Hi; congruence|].
    apply list_elem_of_fmap in Hv as ([m' k'] & [= -> ->] & Hv). simpl in *.
    unfold member_kind in Hm. rewrite (elem_of_list_to_map_1 _ _ k') in Hm by done. injection Hm as ->. by destruct k. }
  split.
  - apply set_eq. intros m. simpl. rewrite dom_list_to_map_L, elem_of_list_to_set, elem_of_list_to_set, fmap_app, elem_of_app.
    rewrite <- list_fmap_compose. change (fst ∘ _) with (fun mk : string * ie_kind => mk.1).
    split; [|by right]. intros [([m' v] & -> & Hm)%list_elem_of_fmap|]; [|done].
    specialize (Hi _ Hm). by apply member_kind_in in Hi.
  - intros m k v Hm Hv. simpl in Hv. apply elem_of_list_to_map_2 in Hv. by eapply Hk.
Qed.

(** The store of a value of the member's type keeps the object typed. *)
Lemma slot_set_inv c w s v f :
  class_inv c f -> member_kind c s.2 = Some (kind_of v) -> class_inv c (slot_set w s v f).
Proof.
  intros [Hd Hk] Hm. pose proof (member_kind_in _ _ _ Hm) as Hin. split.
  - rewrite f_vals_set, dom_insert_L, Hd. by apply members_insert.
  - intros m k x Hmk. rewrite f_vals_set. intros [[E E2]|[Hne E]]%lookup_insert_Some.
    + rewrite <- E in Hmk. congruence.
    + eauto.
Qed.

Lemma set_target_kind c k n s : class_typed c = true -> set_target c k n = Some s -> member_kind c s.2 = Some k.
Proof.
  intros (_ & _ & Ht & _)%class_typed_and. unfold set_target.
  destruct (find_overload k (c_set c)) as [o|] eqn:E; [|done]. simpl. intros Hs.
  apply find_overload_in in E as [Ho <-]. specialize (Ht o Ho). unfold overload_typed in Ht.
  rewrite forallb_forall in Ht. apply access_target_in, list_elem_of_In in Hs.
  by apply Ht, bool_decide_eq_true in Hs.
Qed.

Lemma get_target_kind c k n s : class_typed c = true -> get_target c k n = Some s -> member_kind c s.2 = Some k.
Proof.
  intros (_ & _ & _ & Ht)%class_typed_and. unfold get_target.
  destruct (find_overload k (c_get c)) as [o|] eqn:E; [|done]. simpl. intros Hs.
  apply find_overload_in in E as [Ho <-]. specialize (Ht o Ho). unfold overload_typed in Ht.
  rewrite forallb_forall in Ht. apply access_target_in, list_elem_of_In in Hs.
  by apply Ht, bool_decide_eq_true in Hs.
Qed.

Lemma virtual_set_inv c v n f f' :
  class_typed c = true -> class_inv c f -> virtual_set c v n f = Val f' -> class_inv c f'.
Proof.
  intros Hok Hi (s & Hs & ->)%virtual_set_target. apply slot_set_inv; [done|]. by eapply set_target_kind.
Qed.

Lemma slot_get_kind c s f k v :
  class_inv c f -> member_kind c s.2 = Some k -> slot_get s f = Some v -> kind_of v = k.
Proof. intros [_ Hk] Hm. unfold slot_get. destruct (slot_present s f); [|done]. by apply Hk. Qed.

(** ** The classes *)
Definition context_classes : list context_class :=
  [bearer_context_to_be_created_within_create_session_request; bearer_context_to_be_removed_within_create_session_request;
   bearer_context_created_within_create_session_response; bearer_context_marked_for_removal_within_create_session_response;
   bearer_context_to_be_created_within_create_bearer_request; bearer_context_to_be_modified_within_modify_bearer_request;
   bearer_context_to_be_removed_within_modify_bearer_request; bearer_context_modified_within_modify_bearer_response;
   bearer_context_marked_for_removal_within_modify_bearer_response; bearer_context_within_delete_bearer_command;
   bearer_context_within_delete_bearer_failure_indication].

Definition message_classes : list message_class :=
  [gtpv2c_echo_request; gtpv2c_echo_response; gtpv2c_create_session_request; gtpv2c_create_session_response;
   gtpv2c_create_bearer_request; gtpv2c_create_bearer_response; gtpv2c_modify_bearer_request; gtpv2c_modify_bearer_response;
   gtpv2c_delete_session_request; gtpv2c_delete_session_response; gtpv2c_release_access_bearers_request;
   gtpv2c_release_access_bearers_response; gtpv2c_delete_bearer_command; gtpv2c_delete_bearer_failure_indication;
   gtpv2c_downlink_data_notification; gtpv2c_downlink_data_notification_acknowledge;
   gtpv2c_downlink_data_notification_failure_indication].

(** All but the context of a Create Bearer Response. *)
Definition sound_classes : list ies_class :=
  bearer_context :: (cc_class <$> context_classes) ++ (mc_class <$> message_classes).

Lemma sound_classes_ok c : c ∈ sound_classes -> class_ok c = true.
Proof.
  assert (forallb class_ok sound_classes = true) as H by (vm_compute; reflexivity).
  rewrite forallb_forall in H. intros Hc. by apply H, list_elem_of_In.
Qed.

(** Setting a value in a container and reading it back gives the value,
    through the overloads of [set] and [get] for its type and the same instance
    (where [get] accepts the instance); and no other [get] changes its answer,
    unless it reads the member just set. *)
Theorem container_get_set (c : ies_class) (v : value) (n : Z) (f f' : fields value) :
  c ∈ sound_classes -> class_set c v n f = Some (Val f') ->
  (forall r, class_get c (kind_of v) n f = Some (Val r) -> class_get c (kind_of v) n f' = Some (Val (Some v))) /\
  (forall k m, get_target c k m <> set_target c (kind_of v) n -> class_get c k m f' = class_get c k m f).
Proof.
  intros Hc%sound_classes_ok (s & Hs & ->)%class_set_target.
  pose proof (class_ok_and _ Hc) as (_ & Hso & _). pose proof (slots_ok_width _ _ Hso) as Hw.
  split.
  - intros r Hr. rewrite (class_get_target _ _ _ _ s) by (by eapply set_get_target).
    do 2 f_equal. apply slot_get_set; [done|]. eapply slots_ok_fits; [done|]. by eapply set_target_in.
  - intros k m Hne. unfold class_get. destruct (find_overload k (c_get c)) as [o|] eqn:Eo; [|done]. simpl. f_equal.
    destruct (get_target c k m) as [t|] eqn:Et; unfold get_target in Et; rewrite Eo in Et; simpl in Et.
    + rewrite !(access_get_Some _ _ _ t) by done. f_equal. rewrite Hs in Hne.
      assert (t ∈ class_slots c) as Hin by (apply (get_target_in c k m); unfold get_target; by rewrite Eo).
      apply slot_get_set_apart; [done|by eapply slots_ok_fits|].
      apply (slots_ok_apart (c_width c) (class_slots c)); [done|by eapply set_target_in|done|congruence].
    + destruct (o_access o); simpl in *; [done| |]; by rewrite Et.
Qed.

Lemma container_get_set_witness :
  let c := mc_class gtpv2c_create_session_request in
  let v := VCore (CoreFteid (mk_fteid_t 1 0 7 48879 16777343 (replicate 16 0))) in
  exists f', class_set c v 1 (class_init c) = Some (Val f') /\
  (forall r, class_get c (kind_of v) 1 (class_init c) = Some (Val r) -> class_get c (kind_of v) 1 f' = Some (Val (Some v))) /\
  (forall k m, get_target c k m <> set_target c (kind_of v) 1 -> class_get c k m f' = class_get c k m (class_init c)).
Proof.
  intros c v. eexists. split; [reflexivity|].
  apply (container_get_set c v 1 (class_init c)); [|reflexivity].
  unfold c, sound_classes. apply list_elem_of_further, elem_of_app. right.
  apply list_elem_of_fmap_2. unfold message_classes. do 2 apply list_elem_of_further. apply list_elem_of_here.
Defined.

(** ** Typed containers

    The constructors of the contexts read members of the type they store. *)
Definition of_row_typed (c : ies_class) (r : of_row) : bool :=
  match r with
  | OfGet s k n => bool_decide (member_kind c s.2 = Some k)
  | OfPair m from => bool_decide (is_Some (member_kind c m) /\ member_kind c m = member_kind bearer_context from)
  end.

Definition context_typed (cc : context_class) : bool :=
  class_typed (cc_class cc) && forallb (of_row_typed (cc_class cc)) (cc_of cc).

Definition message_contexts (mc : message_class) : list (Z * (slot * context_class)) := default [] (mc_contexts mc).

Definition message_typed (mc : message_class) : bool :=
  class_typed (mc_class mc) && forallb (fun x => context_typed x.2.2) (message_contexts mc).

(** Every member of the container and of its contexts holds a value of its
    type. *)
Record container_inv (mc : message_class) (c : container) : Prop := {
  ci_fields : class_inv (mc_class mc) (ct_fields c);
  ci_lists : forall m l, ct_lists c !! m = Some l ->
    Forall (fun x => exists n s cc, (n, (s, cc)) ∈ message_contexts mc /\ s.2 = m /\ class_inv (cc_class cc) x) l;
}.

Lemma bearer_context_typed : class_typed bearer_context = true.
Proof. vm_compute. reflexivity. Qed.

Lemma of_step_inv c w b f f' r :
  class_inv bearer_context b -> class_inv c f -> of_row_typed c r = true ->
  of_step w b f r = Val f' -> class_inv c f'.
Proof.
  intros Hb Hf. destruct r as [s k n|m from]; simpl; rewrite bool_decide_eq_true.
  - intros Hk. unfold class_get. destruct (find_overload k (c_get bearer_context)) as [o|] eqn:Eo; [|done]. simpl.
    intros H. apply bind_Val_inv in H as ([v|] & Ev & [= <-]); [|done].
    assert (exists t, get_target bearer_context k n = Some t /\ slot_get t b = Some v) as (t & Et & Eg).
    { unfold get_target. rewrite Eo. simpl. destruct (o_access o) as [t|cases ie|cases ie]; simpl in *.
      - exists t. by injection Ev.
      - destruct (case_slot n cases) as [t|]; [|done]. exists t. by injection Ev.
      - destruct (case_slot n cases) as [t|]; [|done]. exists t. by injection Ev. }
    apply slot_set_inv; [done|]. rewrite Hk. f_equal. symmetry.
    eapply slot_get_kind; [exact Hb|exact (get_target_kind _ _ _ _ bearer_context_typed Et)|done].
  - intros [[k Hk] E] [= <-]. rewrite Hk in E. destruct Hb as [Hbd Hbk], Hf as [Hd Hkd].
    pose proof (member_kind_in _ _ _ Hk) as Hin. split; simpl.
    + destruct (f_vals b !! from); [|done]. rewrite dom_insert_L, Hd. by apply members_insert.
    + intros m' k' v Hm'. destruct (f_vals b !! from) as [x|] eqn:Ex; [|eauto].
      intros [[<- ->]|[_ ?]]%lookup_insert_Some; [|eauto]. rewrite Hk in Hm'. injection Hm' as <-. by apply (Hbk from).
Qed.

Lemma of_rows_inv c w b l : forall f f',
  class_inv bearer_context b -> class_inv c f -> forallb (of_row_typed c) l = true ->
  of_rows w b f l = Val f' -> class_inv c f'.
Proof.
  induction l as [|r l IH]; intros f f' Hb Hf Hl; simpl; [intros [= <-]; done|].
  simpl in Hl. apply andb_true_iff in Hl as [Hr Hl]. intros (f1 & E1 & E2)%bind_Val_inv.
  apply (IH f1 f' Hb); [by eapply of_step_inv|done|done].
Qed.

Lemma context_of_bearer_inv cc b x :
  context_typed cc = true -> class_inv bearer_context b -> context_of_bearer cc b = Val x -> class_inv (cc_class cc) x.
Proof.
  intros [Hc Ho]%andb_true_iff Hb. apply of_rows_inv; [done|by apply class_init_inv|done].
Qed.

Lemma ie_to_bearer_inv i b b' : class_inv bearer_context b -> ie_to_bearer i b = Val b' -> class_inv bearer_context b'.
Proof.
  intros Hb. destruct i; cbn [ie_to_bearer]; intros (v & _ & H)%bind_Val_inv;
    try exact (virtual_set_inv _ _ _ _ _ bearer_context_typed Hb H). done.
Qed.

Lemma ies_to_bearer_inv l : forall b b',
  class_inv bearer_context b -> ies_to_bearer l b = Val b' -> class_inv bearer_context b'.
Proof.
  induction l as [|i l IH]; intros b b' Hb; simpl; [intros [= <-]; done|].
  intros (b1 & E1 & E2)%bind_Val_inv. eapply IH; [|done]. by eapply ie_to_bearer_inv.
Qed.

Lemma class_inv_raise c w s f : class_inv c f -> class_inv c (slot_raise w s f).
Proof. intros [Hd Hk]. split; by rewrite f_vals_raise. Qed.

Lemma add_context_inv mc w n s cc x c :
  container_inv mc c -> (n, (s, cc)) ∈ message_contexts mc -> class_inv (cc_class cc) x ->
  container_inv mc (add_context w s x c).
Proof.
  intros [Hf Hl] Hin Hx. split; [by apply class_inv_raise|]. unfold add_context. cbn [ct_lists].
  intros m l [[<- <-]|[_ H]]%lookup_insert_Some; [|by apply Hl].
  apply Forall_app. split; [|repeat constructor; naive_solver].
  destruct (ct_lists c !! s.2) eqn:E; simpl; [by apply Hl|constructor].
Qed.

Lemma set_bearer_context_inv mc b n c c' :
  message_typed mc = true -> class_inv bearer_context b -> container_inv mc c ->
  set_bearer_context mc b n c = Val c' -> container_inv mc c'.
Proof.
  intros [_ Ht]%andb_true_iff Hb Hc. unfold set_bearer_context.
  destruct (mc_contexts mc) as [cases|] eqn:Em; [|done].
  destruct (find _ cases) as [[n' [s cc]]|] eqn:Ef; [|done]. intros (x & Ex & [= <-])%bind_Val_inv.
  apply find_some in Ef as [Hin _]. rewrite forallb_forall in Ht.
  assert ((n', (s, cc)) ∈ message_contexts mc) as Hin' by (unfold message_contexts; rewrite Em; by apply list_elem_of_In).
  eapply add_context_inv; [done|exact Hin'|]. eapply context_of_bearer_inv; [|exact Hb|exact Ex].
  apply (Ht (n', (s, cc))). by apply list_elem_of_In.
Qed.

Lemma ie_to_container_inv mc i c c' :
  message_typed mc = true -> container_inv mc c -> ie_to_container mc i c = Val c' -> container_inv mc c'.
Proof.
  intros Hm Hc. pose proof (proj1 (andb_true_iff _ _) Hm) as [Ht _]. destruct i; cbn [ie_to_container]; intros (v & Ev & H)%bind_Val_inv.
  all: try (apply bind_Val_inv in H as (f & Ef & [= <-]); destruct Hc as [Hf Hl]; split; [|exact Hl];
            by eapply virtual_set_inv; [exact Ht|exact Hf|exact Ef]).
  eapply set_bearer_context_inv; [done| |done|exact H].
  eapply ies_to_bearer_inv; [|exact Ev]. apply class_init_inv, bearer_context_typed.
Qed.

Lemma new_container_inv mc : message_typed mc = true -> container_inv mc (new_container mc).
Proof. intros [Ht _]%andb_true_iff. split; [by apply class_init_inv|done]. Qed.

Lemma ies_to_container_inv mc l : forall c c',
  message_typed mc = true -> container_inv mc c -> ies_to_container mc l c = Val c' -> container_inv mc c'.
Proof.
  induction l as [|i l IH]; intros c c' Hm Hc; simpl; [intros [= <-]; done|].
  intros (c1 & E1 & E2)%bind_Val_inv. eapply IH; [done| |done]. by eapply ie_to_container_inv.
Qed.

Lemma message_classes_typed mc : mc ∈ message_classes -> message_typed mc = true.
Proof.
  assert (forallb message_typed message_classes = true) as H by (vm_compute; reflexivity).
  rewrite forallb_forall in H. intros Hc. by apply H, list_elem_of_In.
Qed.

(** Whatever elements a peer sends, in whatever order and number: when
    [to_core_type] fills a container of a message without exception, every
    member of the container and of its bearer contexts holds a value of its
    declared type, so a [get] that answers true delivers a value of the type
    asked for. *)
Lemma received_container_typed (mc : message_class) (m : gtpv2c_msg) (c : container) :
  mc ∈ message_classes -> message_to_container mc m (new_container mc) = Val c ->
  container_inv mc c /\
  forall k n v, class_get (mc_class mc) k n (ct_fields c) = Some (Val (Some v)) -> kind_of v = k.
Proof.
  intros Hm%message_classes_typed Hc. pose proof (proj1 (andb_true_iff _ _) Hm) as [Ht _].
  assert (container_inv mc c) as Hi.
  { eapply ies_to_container_inv; [done|by apply new_container_inv|exact Hc]. }
  split; [done|]. intros k n v Hg. unfold class_get in Hg.
  destruct (find_overload k (c_get (mc_class mc))) as [o|] eqn:Eo; [|done]. simpl in Hg.
  destruct (get_target (mc_class mc) k n) as [t|] eqn:Et.
  - pose proof (get_target_kind _ _ _ _ Ht Et) as Hk. unfold get_target in Et. rewrite Eo in Et.
    rewrite (access_get_Some _ _ _ t Et) in Hg. eapply slot_get_kind; [exact (ci_fields _ _ Hi)|exact Hk|congruence].
  - unfold get_target in Et. rewrite Eo in Et. simpl in Et. destruct (o_access o); simpl in *; by rewrite ?Et in Hg.
Qed.

Lemma received_container_typed_witness :
  let mc := gtpv2c_modify_bearer_request in
  let m := gtp_build [OpSetMessageType 34; OpAddIe demo_bearer_context] in
  match message_to_container mc m (new_container mc) with
  | Val c => container_inv mc c /\
    forall k n v, class_get (mc_class mc) k n (ct_fields c) = Some (Val (Some v)) -> kind_of v = k
  | _ => False
  end.
Proof.
  intros mc m.
  assert ((match message_to_container mc m (new_container mc) with Val _ => true | _ => false end) = true) as H
    by (vm_compute; reflexivity).
  destruct (message_to_container mc m (new_container mc)) as [c| | |] eqn:E; try discriminate H.
  apply (received_container_typed mc m c); [|exact E].
  unfold mc, message_classes. do 6 apply list_elem_of_further. apply list_elem_of_here.
Defined.

(** ** Copies *)
Definition slot_copied (copies : list string) (s : slot) : bool :=
  bool_decide (s.2 ∈ copies) &&
  match s.1 with Mask _ => bool_decide ("ie_presence_mask" ∈ copies) | First => true end.

Definition copies_ok (mc : message_class) (copies : list string) : bool :=
  forallb (slot_copied copies) (class_slots (mc_class mc) ++ (message_contexts mc).*2.*1).

Lemma copy_lookup {A} (copies : list string) (from into : gmap string A) m :
  m ∈ copies ->
  (filter (fun mv => mv.1 ∈ copies) from ∪ filter (fun mv => mv.1 ∉ copies) into) !! m = from !! m.
Proof.
  intros Hm. destruct (from !! m) as [v|] eqn:E.
  - apply lookup_union_Some_l, map_lookup_filter_Some. done.
  - apply lookup_union_None. split; apply map_lookup_filter_None; naive_solver.
Qed.

Lemma copy_present copies s from into :
  slot_copied copies s = true -> slot_present s (copy_fields copies from into) = slot_present s from.
Proof.
  intros [Hm%bool_decide_eq_true Hg]%andb_true_iff. unfold slot_present, copy_fields. simpl.
  destruct (s.1); [apply bool_decide_eq_true in Hg; by rewrite decide_True|].
  apply bool_decide_ext. set_solver.
Qed.

Lemma copy_slot_get copies s from into :
  slot_copied copies s = true -> slot_get s (copy_fields copies from into) = slot_get s from.
Proof.
  intros Hs. unfold slot_get. rewrite copy_present by done.
  apply andb_true_iff in Hs as [Hm%bool_decide_eq_true _]. unfold copy_fields. simpl. by rewrite copy_lookup.
Qed.

(** The copy constructors and the assignments. *)
Definition copy_tables : list (message_class * list string) :=
  [(gtpv2c_echo_request, gtpv2c_echo_request_copy); (gtpv2c_echo_request, swapped gtpv2c_echo_request_assign);
   (gtpv2c_echo_response, gtpv2c_echo_response_copy); (gtpv2c_echo_response, swapped gtpv2c_echo_response_assign);
   (gtpv2c_create_session_request, gtpv2c_create_session_request_copy);
   (gtpv2c_create_session_request, swapped gtpv2c_create_session_request_assign);
   (gtpv2c_create_session_response, gtpv2c_create_session_response_copy);
   (gtpv2c_create_session_response, swapped gtpv2c_create_session_response_assign);
   (gtpv2c_create_bearer_request, gtpv2c_create_bearer_request_copy);
   (gtpv2c_create_bearer_request, swapped gtpv2c_create_bearer_request_assign);
   (gtpv2c_create_bearer_response, gtpv2c_create_bearer_response_copy);
   (gtpv2c_create_bearer_response, swapped gtpv2c_create_bearer_response_assign);
   (gtpv2c_modify_bearer_request, gtpv2c_modify_bearer_request_copy);
   (gtpv2c_modify_bearer_request, swapped gtpv2c_modify_bearer_request_assign);
   (gtpv2c_modify_bearer_response, gtpv2c_modify_bearer_response_copy);
   (gtpv2c_modify_bearer_response, swapped gtpv2c_modify_bearer_response_assign);
   (gtpv2c_delete_session_request, gtpv2c_delete_session_request_copy);
   (gtpv2c_delete_session_request, swapped gtpv2c_delete_session_request_assign);
   (gtpv2c_delete_session_response, gtpv2c_delete_session_response_copy);
   (gtpv2c_delete_session_response, swapped gtpv2c_delete_session_response_assign);
   (gtpv2c_release_access_bearers_request, gtpv2c_release_access_bearers_request_copy);
   (gtpv2c_release_access_bearers_request, swapped gtpv2c_release_access_bearers_request_assign);
   (gtpv2c_release_access_bearers_response, gtpv2c_release_access_bearers_response_copy);
   (gtpv2c_release_access_bearers_response, swapped gtpv2c_release_access_bearers_response_assign);
   (gtpv2c_delete_bearer_command, gtpv2c_delete_bearer_command_copy);
   (gtpv2c_delete_bearer_command, swapped gtpv2c_delete_bearer_command_assign);
   (gtpv2c_delete_bearer_failure_indication, gtpv2c_delete_bearer_failure_indication_copy);
   (gtpv2c_delete_bearer_failure_indication, swapped gtpv2c_delete_bearer_failure_indication_assign);
   (gtpv2c_downlink_data_notification, gtpv2c_downlink_data_notification_copy);
   (gtpv2c_downlink_data_notification, swapped gtpv2c_downlink_data_notification_assign);
   (gtpv2c_downlink_data_notification_acknowledge, gtpv2c_downlink_data_notification_acknowledge_copy);
   (gtpv2c_downlink_data_notification_acknowledge, swapped gtpv2c_downlink_data_notification_acknowledge_assign);
   (gtpv2c_downlink_data_notification_failure_indication, gtpv2c_downlink_data_notification_failure_indication_copy);
   (gtpv2c_downlink_data_notification_failure_indication, swapped gtpv2c_downlink_data_notification_failure_indication_assign)].

(** The assignment of a Modify Bearer Request, which swaps the RAT type twice. *)
Definition twice_swapped : message_class * list string :=
  (gtpv2c_modify_bearer_request, swapped gtpv2c_modify_bearer_request_assign).

(** Every member an element of kind [k] may be in is copied. *)
Definition kind_copied (mc : message_class) (copies : list string) (k : ie_kind) : Prop :=
  forall o s, find_overload k (c_get (mc_class mc)) = Some o -> s ∈ access_slots (o_access o) -> slot_copied copies s = true.

Definition lists_copied (mc : message_class) (copies : list string) : bool :=
  forallb (slot_copied copies) ((message_contexts mc).*2.*1).

Lemma copies_ok_kinds mc copies : copies_ok mc copies = true -> (forall k, kind_copied mc copies k) /\ lists_copied mc copies = true.
Proof.
  unfold copies_ok, lists_copied. rewrite forallb_app, andb_true_iff. intros [H1 H2]. split; [|done]. rewrite forallb_forall in H1.
  intros k o s [Ho _]%find_overload_in Hs. apply H1, list_elem_of_In. by eapply overload_slot_in; eauto.
Qed.

Lemma twice_swapped_kinds : (forall k, k <> Krat_type -> kind_copied twice_swapped.1 twice_swapped.2 k) /\ lists_copied twice_swapped.1 twice_swapped.2 = true.
Proof.
  split; [|vm_compute; reflexivity]. intros k Hk o s [Ho Hok]%find_overload_in Hs.
  assert (forallb (fun o => bool_decide (o_kind o = Krat_type) || forallb (slot_copied twice_swapped.2) (access_slots (o_access o)))
    (c_get (mc_class twice_swapped.1)) = true) as H by (vm_compute; reflexivity).
  rewrite forallb_forall in H. specialize (H o ltac:(by apply list_elem_of_In)). rewrite bool_decide_eq_false_2 in H by congruence. simpl in H.
  rewrite forallb_forall in H. apply H. by apply list_elem_of_In.
Qed.

Lemma copy_tables_ok mc copies : (mc, copies) ∈ copy_tables ->
  (mc, copies) = twice_swapped \/ copies_ok mc copies = true.
Proof.
  unfold copy_tables. intros H.
  repeat (apply elem_of_cons in H as [H|H]; [first [left; exact H|injection H as -> ->; right; vm_compute; reflexivity]|]).
  by apply not_elem_of_nil in H.
Qed.

Lemma copy_class_get mc copies k n from into : kind_copied mc copies k ->
  class_get (mc_class mc) k n (ct_fields (copy_container copies from into)) = class_get (mc_class mc) k n (ct_fields from).
Proof.
  intros H. unfold class_get. destruct (find_overload k (c_get (mc_class mc))) as [o|] eqn:Eo; [|done]. simpl. f_equal.
  assert (forall s, access_target (o_access o) n = Some s ->
    slot_get s (copy_fields copies (ct_fields from) (ct_fields into)) = slot_get s (ct_fields from)) as Hs.
  { intros s Hs%access_target_in. apply copy_slot_get. by eapply H. }
  destruct (o_access o) as [s|cases ie|cases ie]; simpl in *; [by rewrite Hs| |];
    (destruct (case_slot n cases) as [s|]; [by rewrite Hs|done]).
Qed.

Lemma copy_contexts mc copies s from into : lists_copied mc copies = true -> s ∈ (message_contexts mc).*2.*1 ->
  contexts_at s (copy_container copies from into) = contexts_at s from.
Proof.
  unfold lists_copied. rewrite forallb_forall. intros H Hs. pose proof (H s ltac:(by apply list_elem_of_In)) as Hc. unfold contexts_at. simpl.
  rewrite copy_present by done. apply andb_true_iff in Hc as [Hm%bool_decide_eq_true _]. by rewrite copy_lookup.
Qed.

(** A member that is not copied keeps the target's value. *)
Lemma copy_kept (copies : list string) from into m : m ∉ copies ->
  f_vals (ct_fields (copy_container copies from into)) !! m = f_vals (ct_fields into) !! m.
Proof.
  intros Hm. unfold copy_container, copy_fields. cbn [ct_fields f_vals]. destruct (f_vals (ct_fields into) !! m) as [v|] eqn:E.
  - rewrite lookup_union_r; [|by apply map_lookup_filter_None; naive_solver]. by apply map_lookup_filter_Some.
  - apply lookup_union_None. split; apply map_lookup_filter_None; naive_solver.
Qed.

(** The RAT type after the assignment of a Modify Bearer Request: the flag is
    the source's, the value the target's. *)
Definition rat_type_slot : slot := (Mask 8, "rat_type").

Lemma rat_type_kept n from into :
  class_get (mc_class twice_swapped.1) Krat_type n (ct_fields (copy_container twice_swapped.2 from into)) =
  Some (Val (if slot_present rat_type_slot (ct_fields from) then f_vals (ct_fields into) !! "rat_type" else None)).
Proof.
  assert (get_target (mc_class twice_swapped.1) Krat_type n = Some rat_type_slot) as Ht by reflexivity.
  rewrite (class_get_target _ _ _ _ _ Ht). do 2 f_equal. unfold slot_get. rewrite copy_kept; [reflexivity|].
  apply (bool_decide_eq_false_1 ("rat_type" ∈ twice_swapped.2)). vm_compute. reflexivity.
Qed.

(** C34 Copying a container, by the copy constructor or by assignment over any
    other one, of every class of messages: every [get] answers as the source's,
    and the vectors of bearer contexts are the source's.  The one exception is
    the RAT type in the assignment of a Modify Bearer Request, which swaps it
    twice: after it, [get] finds the RAT type of the target, present or not as
    in the source. *)
Theorem copy_equivalent (mc : message_class) (copies : list string) (from into : container) :
  (mc, copies) ∈ copy_tables ->
  (forall k n, (mc, copies) <> twice_swapped \/ k <> Krat_type ->
     class_get (mc_class mc) k n (ct_fields (copy_container copies from into)) = class_get (mc_class mc) k n (ct_fields from)) /\
  (forall s, s ∈ (message_contexts mc).*2.*1 -> contexts_at s (copy_container copies from into) = contexts_at s from) /\
  ((mc, copies) = twice_swapped -> forall n,
     class_get (mc_class mc) Krat_type n (ct_fields (copy_container copies from into)) =
     Some (Val (if slot_present rat_type_slot (ct_fields from) then f_vals (ct_fields into) !! "rat_type" else None))).
Proof.
  intros H. assert ((mc, copies) = twice_swapped -> forall n,
     class_get (mc_class mc) Krat_type n (ct_fields (copy_container copies from into)) =
     Some (Val (if slot_present rat_type_slot (ct_fields from) then f_vals (ct_fields into) !! "rat_type" else None))) as Hrat
    by (intros E n; injection E as -> ->; apply rat_type_kept).
  destruct (copy_tables_ok _ _ H) as [E|Hok].
  - destruct twice_swapped_kinds as [H1 H2]. split_and!; [|intros s|exact Hrat]; injection E as -> ->; [|by apply copy_contexts].
    intros k n [Hne|Hk]; [done|]. by apply copy_class_get, H1.
  - apply copies_ok_kinds in Hok as [H1 H2]. split_and!; [intros k n _; by apply copy_class_get|intros s; by apply copy_contexts|exact Hrat].
Qed.

Lemma copy_equivalent_witness :
  let mc := gtpv2c_release_access_bearers_request in
  let v := VCore (CoreNodeType (GtpScalar.mk_node_type_t 1)) in
  let from := mk_container (slot_set 64 (First, "originating_node") v (class_init (mc_class mc))) ∅ in
  class_get (mc_class mc) Knode_type 0 (ct_fields from) = Some (Val (Some v)) /\
  class_get (mc_class mc) Knode_type 0 (ct_fields (copy_container gtpv2c_release_access_bearers_request_copy from (new_container mc))) =
    class_get (mc_class mc) Knode_type 0 (ct_fields from).
Proof.
  intros mc v from. split; [reflexivity|].
  apply (copy_equivalent mc gtpv2c_release_access_bearers_request_copy from (new_container mc)); [|by right].
  unfold mc, copy_tables. do 20 apply list_elem_of_further. apply list_elem_of_here.
Defined.

(** The assignment of a Modify Bearer Request swaps the RAT type twice: the
    target keeps its own RAT type, with the presence mask of the source. *)
Lemma modify_bearer_request_assign_rat_type (other this : container) :
  let c := assign_container gtpv2c_modify_bearer_request_assign other this in
  f_mask (ct_fields c) = f_mask (ct_fields other) /\
  f_vals (ct_fields c) !! "rat_type" = f_vals (ct_fields this) !! "rat_type".
Proof.
  split; [reflexivity|]. apply copy_kept.
  apply (bool_decide_eq_false_1 ("rat_type" ∈ swapped gtpv2c_modify_bearer_request_assign)). vm_compute. reflexivity.
Qed.

(** The S12 RNC F-TEID of a Create Bearer Response context is stored in the
    member of the S12 SGW F-TEID, and flagged as the RNC's: the RNC's member
    keeps its old value, and the SGW's address is lost. *)
Lemma create_bearer_response_s12 (v w : value) (f : fields value) :
  kind_of v = Kfteid -> kind_of w = Kfteid ->
  let c := bearer_context_within_create_bearer_response_class in
  exists f1 f2, class_set c w 5 f = Some (Val f1) /\ class_set c v 4 f1 = Some (Val f2) /\
    f_vals f2 !! "s12_sgw_fteid" = Some v /\ f_vals f2 !! "s12_rnc_fteid" = f_vals f !! "s12_rnc_fteid".
Proof.
  intros Hv Hw. simpl. unfold class_set. rewrite Hv, Hw. eexists _, _. split; [reflexivity|]. split; [reflexivity|].
  rewrite !f_vals_set. simpl. rewrite lookup_insert_eq. by rewrite !lookup_insert_ne.
Qed.
