(* ===== verification/GtpEndToEnd.v ===== *)
(** * From one container to the other

    What the SGW or the PGW puts in a container and what its peer finds in its
    own: the constructor of [gtpv2c_msg] builds the elements, [dump_to] writes
    them, [load_from] reads them on the other side and [to_core_type] sets them.
    The tables of a message are checked by [message_ok]; from it, every present
    member that is sent (and whose value an element can carry) is read back,
    bearer contexts included, and no other member is present. *)
From S2P Require Import Prelude PaaDynamic Stream GtpTlv GtpScalar GtpIdentity GtpQos GtpLocation GtpAddress GtpOptions GtpIe GtpCore GtpMsg Container GtpContainer GtpMessages GtpClassLaws.
From Stdlib Require Import ZArith Lia String.
From stdpp Require Import base numbers tactics list strings gmap sets.
Open Scope Z_scope.

(** ** The elements of a constructor

    [i] and the well-formed [i0] are written alike. *)
Definition same_wire (i i0 : gtpv2c_ie) : Prop :=
  ie_wf i0 /\ ie_size i = ie_size i0 /\ t_length (tlv_of_ie i) = t_length (tlv_of_ie i0) /\
  exists b i' i0', gtpv2c_ie_dump_to i = Val (b, i') /\ gtpv2c_ie_dump_to i0 = Val (b, i0').

Lemma same_wire_dump_all l l0 :
  Forall2 same_wire l l0 ->
  exists b l' l0', dump_all gtpv2c_ie_dump_to l = Val (b, l') /\ dump_all gtpv2c_ie_dump_to l0 = Val (b, l0').
Proof.
  induction 1 as [|i i0 l l0 (_ & _ & _ & b & i' & i0' & E & E0) _ (bs & l' & l0' & F & F0)]; [by exists [], [], []|].
  exists (b ++ bs), (i' :: l'), (i0' :: l0'). cbn [dump_all]. rewrite E, E0. cbn [mbind result_bind]. by rewrite F, F0.
Qed.

Lemma same_wire_length l l0 : Forall2 same_wire l l0 -> ies_length l = ies_length l0.
Proof.
  induction 1 as [|i i0 l l0 (_ & _ & E & _) _ IH]; [done|]. unfold ies_length in *. simpl. by rewrite E, IH.
Qed.

Lemma same_wire_size l l0 : Forall2 same_wire l l0 -> ies_size l = ies_size l0.
Proof. induction 1 as [|i i0 l l0 (_ & E & _) _ IH]; [done|]. unfold ies_size in *. simpl. by rewrite E, IH. Qed.

Lemma same_wire_wf l l0 : Forall2 same_wire l l0 -> Forall ie_wf l0.
Proof. induction 1 as [|i i0 l l0 (? & _) _ IH]; constructor; auto. Qed.

(** A fresh element has instance 0. *)
Lemma ie_of_core_instance0 j c i : ie_of_core j c = Val i -> ie_set_instance 0 i = i /\ ie_size i = 1%nat.
Proof.
  destruct c; cbn [ie_of_core]; intros H; try (injection H as <-; split; reflexivity);
    try (injection H as <-; split; [unfold ip_address_of_core, flow_qos_of_core; repeat case_match; reflexivity|reflexivity]);
    apply bind_Val_inv in H as (a & Ha & [= <-]); (split; [|done]).
  - unfold mei_of_core in Ha. apply bind_Val_inv in Ha as (b & _ & [= <-]). reflexivity.
  - unfold pco_of_core in Ha. repeat (case_match; try done). by injection Ha as <-.
  - unfold paa_of_core in Ha. repeat (case_match; try done); by injection Ha as <-.
  - unfold fq_csid_of_core in Ha. apply bind_Val_inv in Ha as (b & _ & [= <-]). reflexivity.
  - unfold ran_nas_cause_of_core in Ha. apply bind_Val_inv in Ha as (b & _ & [= <-]). reflexivity.
Qed.

Definition row_instance (r : build_row) : Z := default 0 (b_instance r).

(** A leaf element that carries [v] with instance [n]. *)
Definition carries (i0 : gtpv2c_ie) (n : Z) (v : gtpv2c_core) : Prop :=
  ie_to_core i0 = Val v /\ ie_instance i0 = n /\ forall t l, i0 <> IeBearerContext t l.

Lemma conveyed_leaf j r v :
  core_wf v -> fits 4 (row_instance r) ->
  exists i i0, ie_of_core j v = Val i /\
    same_wire (match b_instance r with Some n => ie_set_instance n i | None => i end) i0 /\ carries i0 (row_instance r) v.
Proof.
  intros Hv Hn. destruct (core_conveyed j v Hv _ Hn) as (i & i0 & Ei & Hw & Hs & Hl & Hd & Hc & Hin).
  unfold ie_of_core_at in Ei. apply bind_Val_inv in Ei as (i1 & Ei & [= <-]).
  destruct (ie_of_core_instance0 _ _ _ Ei) as [E0 Es].
  assert ((match b_instance r with Some n => ie_set_instance n i1 | None => i1 end) = ie_set_instance (row_instance r) i1) as E.
  { unfold row_instance. destruct (b_instance r); [done|]. simpl. by rewrite E0. }
  exists i1, i0. rewrite E. split; [done|]. split.
  - unfold same_wire. rewrite ie_set_instance_size, Es, Hs. done.
  - split; [done|]. split; [done|]. intros t l ->. cbn [ie_to_core] in Hc.
    apply bind_Val_inv in Hc as (cs & _ & [= <-]). done.
Qed.

(** ** One row *)

(** The member of the row is absent, and may be; or it holds a value that its
    element carries. *)
Definition row_sendable (r : build_row) (f : fields value) : Prop :=
  match slot_get (b_slot r) f with
  | Some (VCore v) => core_wf v /\ kind_of (VCore v) = b_kind r
  | Some _ => False
  | None => slot_present (b_slot r) f = false /\ b_required r = false
  end.

Definition row_sent (f : fields value) (r : build_row) : option (build_row * gtpv2c_core) :=
  match slot_get (b_slot r) f with Some (VCore v) => Some (r, v) | _ => None end.

(** An element for each row sent. *)
Definition carried (i0 : gtpv2c_ie) (rv : build_row * gtpv2c_core) : Prop := carries i0 (row_instance rv.1) rv.2.

Lemma row_ies_sent j r f :
  row_sendable r f -> fits 4 (row_instance r) ->
  exists l l0, row_ies j r f = Val l /\ Forall2 same_wire l l0 /\ Forall2 carried l0 (omap (row_sent f) [r]).
Proof.
  unfold row_sendable, row_ies, row_sent, slot_get. cbn [omap list_omap]. intros H Hn.
  destruct (slot_present (b_slot r) f).
  - destruct (f_vals f !! (b_slot r).2) as [[v| | | | | |]|]; try done; [|by destruct H].
    destruct H as [Hv _]. destruct (conveyed_leaf j r v Hv Hn) as (i & i0 & Ei & Hs & Hc).
    rewrite Ei. cbn [mbind result_bind]. eexists _, [i0]. split; [done|]. split; (constructor; [done|constructor]).
  - destruct H as [_ ->]. by exists [], [].
Qed.

Lemma rows_ies_sent j rows f :
  Forall (fun r => row_sendable r f /\ fits 4 (row_instance r)) rows ->
  exists l l0, rows_ies j rows f = Val l /\ Forall2 same_wire l l0 /\ Forall2 carried l0 (omap (row_sent f) rows).
Proof.
  induction 1 as [|r rows [Hr Hn] _ (l & l0 & E & Hs & Hc)]; [by exists [], []|].
  destruct (row_ies_sent j r f Hr Hn) as (k & k0 & F & Gs & Gc).
  exists (k ++ l), (k0 ++ l0). cbn [rows_ies]. rewrite F. cbn [mbind result_bind]. rewrite E. cbn [mbind result_bind].
  split; [done|]. split; [by apply Forall2_app|].
  change (r :: rows) with ([r] ++ rows). rewrite omap_app. by apply Forall2_app.
Qed.

(** ** Bearer contexts on the wire *)
Lemma grouped_add_all l : forall t acc,
  fits 16 (t_length t) ->
  foldl (fun tl i => grouped_add_ie i tl.1 tl.2) (t, acc) l = (tlv_set_length (t_length t + ies_length l) t, acc ++ l).
Proof.
  induction l as [|i l IH]; intros t acc Ht.
  - simpl. rewrite Z.add_0_r, app_nil_r. unfold tlv_set_length. rewrite wrapu_id by done. by destruct t.
  - cbn [foldl]. etrans; [apply (IH (tlv_set_length (t_length t + (gtpv2c_tlv_ie_length + t_length (tlv_of_ie i))) t) (acc ++ [i]))|].
    { apply wrapu_fits. lia. }
    unfold tlv_set_length. cbn [t_length t_type t_u1]. rewrite <- app_assoc. do 2 f_equal.
    unfold ies_length. simpl. unfold wrapu. rewrite Zplus_mod_idemp_l. f_equal. lia.
Qed.

Lemma group_of_eq n l :
  group_of n l = IeBearerContext (mk_tlv GTP_IE_BEARER_CONTEXT (u16 (ies_length l)) (default 0 n mod 2 ^ 4)) l.
Proof.
  unfold group_of. destruct n as [n|].
  - rewrite grouped_add_all by (vm_compute; intuition congruence). unfold tlv_set_length, tlv_set_instance, tlv_of. cbn [t_length t_type t_u1].
    unfold wrapu at 2. change (0 mod 2 ^ 16) with 0. rewrite Z.add_0_l. do 2 f_equal.
    cbn [bf_pack]. change (bf_field 4 4 0 mod 2 ^ 4 + 2 ^ 4 * 0) with 0. simpl default. lia.
  - rewrite grouped_add_all by (vm_compute; intuition congruence). done.
Qed.

Lemma same_wire_group n l l0 :
  Forall2 same_wire l l0 -> 0 < ies_length l < 2 ^ 16 -> fits 4 (default 0 n) ->
  same_wire (group_of n l) (group_of n l0) /\ ie_instance (group_of n l0) = default 0 n.
Proof.
  intros Hl Hlen Hn. rewrite !group_of_eq. pose proof (same_wire_length _ _ Hl) as E. rewrite <- E.
  rewrite (wrapu_id 16) by (unfold fits; lia). split.
  - split; [|split; [|split; [done|]]].
    + split; [split; [done|exact Hlen]|]. split; [done|]. apply foldr_wf. by eapply same_wire_wf.
    + change (S (ies_size l) = S (ies_size l0)). f_equal. by apply same_wire_size.
    + destruct (same_wire_dump_all _ _ Hl) as (b & l' & l0' & E1 & E2). cbn [gtpv2c_ie_dump_to]. rewrite E1, E2. by eexists _, _, _.
  - unfold ie_instance, tlv_get_instance, bf_field. cbn [tlv_of_ie t_u1]. rewrite Z.pow_0_r, Z.div_1_r.
    unfold fits in Hn. rewrite !Z.mod_small by (rewrite ?Z.mod_small; lia). done.
Qed.

(** ** Bearer contexts at the receiver *)

(** The member [set] reaches through the base class. *)
Definition virtual_target (c : ies_class) (k : ie_kind) (n : Z) : option slot :=
  o ← find_overload k (c_set c); if o_overrides o then access_target (o_access o) n else None.

Lemma virtual_set_at c v n s f :
  virtual_target c (kind_of v) n = Some s -> virtual_set c v n f = Val (slot_set (c_width c) s v f).
Proof.
  unfold virtual_target, virtual_set. destruct (find_overload (kind_of v) (c_set c)) as [o|]; [|done]. simpl.
  destruct (o_overrides o); [|done]. destruct (o_access o) as [t|cases ie|cases ie]; simpl; [by intros [= ->]| |]; by intros ->.
Qed.

Lemma virtual_target_in c k n s : virtual_target c k n = Some s -> s ∈ class_slots c.
Proof.
  intros H. apply (set_target_in c k n). unfold virtual_target, set_target in *.
  destruct (find_overload k (c_set c)) as [o|]; [|done]. simpl in *. by destruct (o_overrides o).
Qed.

Lemma ie_to_bearer_leaf i0 n v b :
  carries i0 n v -> ie_to_bearer i0 b = virtual_set bearer_context (VCore v) n b.
Proof.
  intros (Ec & <- & Hl). destruct i0; try (cbn [ie_to_bearer]; by rewrite Ec). by destruct (Hl t l).
Qed.

Lemma ie_to_container_leaf mc i0 n v c :
  carries i0 n v ->
  ie_to_container mc i0 c = f ← virtual_set (mc_class mc) (VCore v) n (ct_fields c); Val (mk_container f (ct_lists c)).
Proof.
  intros (Ec & <- & Hl). destruct i0; try (cbn [ie_to_container]; by rewrite Ec). by destruct (Hl t l).
Qed.

Definition bearer_slot (r : build_row) : option slot := virtual_target bearer_context (b_kind r) (row_instance r).

(** What the rows of a constructor store in the receiver's [bearer_context]. *)
Definition bearer_stores (rows : list build_row) (x : fields value) : list (slot * value) :=
  omap (fun r => s ← bearer_slot r; v ← slot_get (b_slot r) x; Some (s, v)) rows.

Lemma bearer_slots_ok : slots_ok 64 (class_slots bearer_context) = true.
Proof. vm_compute. reflexivity. Qed.

Lemma bearer_stores_in rows x s v :
  (s, v) ∈ bearer_stores rows x <-> exists r, r ∈ rows /\ bearer_slot r = Some s /\ slot_get (b_slot r) x = Some v.
Proof.
  unfold bearer_stores. rewrite list_elem_of_omap. split.
  - intros (r & Hr & E). destruct (bearer_slot r) as [t|] eqn:Et; [|done]. simpl in E.
    destruct (slot_get (b_slot r) x) eqn:Ev; [|done]. simpl in E. injection E as -> ->. eauto.
  - intros (r & Hr & Es & Ev). exists r. by rewrite Es, Ev.
Qed.

Lemma bearer_stores_slots rows x : (bearer_stores rows x).*1 ⊆ class_slots bearer_context.
Proof.
  intros s ([t v] & -> & H)%list_elem_of_fmap. apply bearer_stores_in in H as (r & _ & E & _).
  by eapply virtual_target_in.
Qed.

Lemma ies_to_bearer_sent x rows : forall l0 b,
  Forall (fun r => row_sendable r x /\ is_Some (bearer_slot r)) rows ->
  Forall2 carried l0 (omap (row_sent x) rows) ->
  ies_to_bearer l0 b = Val (set_all 64 (bearer_stores rows x) b).
Proof.
  induction rows as [|r rows IH]; intros l0 b Hr Hl; [by inversion_clear Hl|].
  inversion_clear Hr as [|? ? [Hs [t Ht]] Hr']. unfold bearer_stores. cbn [omap list_omap] in *.
  rewrite Ht. cbn [mbind option_bind]. unfold row_sendable in Hs. unfold row_sent in Hl at 1.
  destruct (slot_get (b_slot r) x) as [[v| | | | | |]|]; try done; [|by apply IH].
  cbn [mbind option_bind]. destruct Hs as [_ Hk]. inversion_clear Hl as [|i0 ? l1 ? Hc Hl'].
  cbn [ies_to_bearer]. rewrite (ie_to_bearer_leaf i0 _ v) by exact Hc. cbn [fst].
  unfold bearer_slot in Ht. rewrite <- Hk in Ht. rewrite (virtual_set_at _ _ _ t) by exact Ht.
  cbn [mbind result_bind]. rewrite (IH l1) by done. done.
Qed.

(** ** The constructor of a context from a [bearer_context] *)
Definition of_source (r : of_row) : option (slot * slot) :=
  match r with
  | OfGet s k n => t ← get_target bearer_context k n; Some (s, t)
  | OfPair m from => Some ((First, m), (First, from))
  end.

(** A member of the [bearer_context] always has a value. *)
Lemma bearer_value b m k :
  class_inv bearer_context b -> member_kind bearer_context m = Some k -> is_Some (f_vals b !! m).
Proof.
  intros [Hd _] Hm. apply elem_of_dom. rewrite Hd. apply elem_of_list_to_set. by eapply member_kind_in.
Qed.

Lemma of_step_get c w slots b f r s t :
  class_inv bearer_context b -> of_row_typed c r = true -> slots_ok w slots = true -> s ∈ slots ->
  of_source r = Some (s, t) -> slot_get s f = None ->
  exists f', of_step w b f r = Val f' /\ slot_get s f' = slot_get t b /\
    forall u, u ∈ slots -> u <> s -> slot_get u f' = slot_get u f.
Proof.
  intros Hb Hty Hok Hs Hsrc Hf. pose proof (slots_ok_width _ _ Hok) as Hw. destruct r as [s' k n|m from]; simpl in *.
  - destruct (get_target bearer_context k n) as [t'|] eqn:Et; [|done]. injection Hsrc as -> ->.
    rewrite (class_get_target _ _ _ _ t) by done. cbn [mbind result_bind].
    destruct (slot_get t b) as [v|]; [|by exists f].
    exists (slot_set w s v f). split; [done|]. split; [apply slot_get_set; [done|by eapply slots_ok_fits]|].
    intros u Hu Hne. apply slot_get_set_apart; [done|by eapply slots_ok_fits|]. by apply (slots_ok_apart w slots).
  - injection Hsrc as <- <-. apply bool_decide_eq_true in Hty as [[k Hk] E]. rewrite Hk in E.
    destruct (bearer_value b from k Hb (eq_sym E)) as [v Hv]. rewrite Hv.
    eexists. split; [done|]. unfold slot_get, slot_present in *. simpl in *. split.
    + destruct (decide (from ∈ f_first b)) as [Hin|Hin].
      * rewrite !bool_decide_eq_true_2 by (clear -Hin; set_solver). by rewrite lookup_insert_eq.
      * rewrite !bool_decide_eq_false_2 by (clear -Hin; set_solver). done.
    + intros u Hu Hne. assert (u.2 <> m) as Hn.
      { intros <-. apply Hne. by apply (slots_ok_name w slots). }
      rewrite lookup_insert_ne by done. destruct (u.1); [done|].
      erewrite bool_decide_ext; [reflexivity|]. clear -Hn. destruct (decide (from ∈ f_first b)); set_solver.
Qed.

Definition of_sources (l : list of_row) : list (slot * slot) := omap of_source l.

Lemma of_rows_get c w slots b l : forall f,
  class_inv bearer_context b -> forallb (of_row_typed c) l = true -> slots_ok w slots = true ->
  Forall (fun r => is_Some (of_source r)) l -> NoDup (of_sources l).*1 -> (of_sources l).*1 ⊆ slots ->
  (forall s, s ∈ (of_sources l).*1 -> slot_get s f = None) ->
  exists f', of_rows w b f l = Val f' /\
    (forall s t, (s, t) ∈ of_sources l -> slot_get s f' = slot_get t b) /\
    (forall s, s ∈ slots -> s ∉ (of_sources l).*1 -> slot_get s f' = slot_get s f).
Proof.
  induction l as [|r l IH]; intros f Hb Hty Hok Hsrc Hnd Hsub Hnone.
  { exists f. split; [done|]. split; [intros s t []%elem_of_nil|done]. }
  simpl in Hty. apply andb_true_iff in Hty as [Hr Hty]. inversion_clear Hsrc as [|? ? [[s t] Hst] Hsrc'].
  unfold of_sources in *. cbn [omap list_omap] in *. rewrite Hst in *. simpl in Hnd, Hsub, Hnone.
  apply NoDup_cons in Hnd as [Hn Hnd].
  destruct (of_step_get c w slots b f r s t) as (f1 & E1 & Es & Eo); try done; [set_solver|apply Hnone; set_solver|].
  destruct (IH f1) as (f' & E' & Hs' & Ho'); try done; [set_solver| |].
  { intros u Hu. rewrite Eo; [apply Hnone; set_solver|set_solver|]. intros ->. by apply Hn. }
  exists f'. cbn [of_rows]. rewrite E1. split; [done|]. split.
  - intros u v [[= -> ->]|Hin]%elem_of_cons; [|by apply Hs']. rewrite Ho'; [done|set_solver|done].
  - intros u Hu Hnu. simpl in Hnu. rewrite Ho' by set_solver. apply Eo; [done|set_solver].
Qed.

(** ** The check on the rows of a context *)
Definition context_slots (cc : context_class) : list slot :=
  remove_dups (class_slots (cc_class cc) ++ (of_sources (cc_of cc)).*1).

Definition instance_fits (n : option Z) : bool := (0 <=? default 0 n) && (default 0 n <? 16).

(** Each member sent is read from the place it is stored in, and nothing else is
    read from the places stored in. *)
Definition context_ok (cc : context_class) (rows : list build_row) : bool :=
  context_typed cc && slots_ok (c_width (cc_class cc)) (context_slots cc) &&
  forallb (fun r => bool_decide (is_Some (of_source r))) (cc_of cc) &&
  bool_decide (NoDup (of_sources (cc_of cc)).*1) &&
  forallb (fun st => bool_decide (st.2 ∈ class_slots bearer_context)) (of_sources (cc_of cc)) &&
  forallb (fun r => instance_fits (b_instance r) && bool_decide (is_Some (bearer_slot r))) rows &&
  forallb (fun st => forallb (fun r => bool_decide (bearer_slot r = Some st.2 -> b_slot r = st.1)) rows) (of_sources (cc_of cc)) &&
  forallb (fun r => existsb (fun st => bool_decide (st.1 = b_slot r) &&
     existsb (fun r' => bool_decide (bearer_slot r' = Some st.2)) rows) (of_sources (cc_of cc))) rows.

Record context_checked (cc : context_class) (rows : list build_row) : Prop := {
  cx_typed : context_typed cc = true;
  cx_slots : slots_ok (c_width (cc_class cc)) (context_slots cc) = true;
  cx_source : Forall (fun r => is_Some (of_source r)) (cc_of cc);
  cx_nodup : NoDup (of_sources (cc_of cc)).*1;
  cx_reach : forall s t, (s, t) ∈ of_sources (cc_of cc) -> t ∈ class_slots bearer_context;
  cx_instance : Forall (fun r => fits 4 (row_instance r) /\ is_Some (bearer_slot r)) rows;
  cx_only : forall s t r, (s, t) ∈ of_sources (cc_of cc) -> r ∈ rows -> bearer_slot r = Some t -> b_slot r = s;
  cx_all : forall r, r ∈ rows -> exists t r', (b_slot r, t) ∈ of_sources (cc_of cc) /\ r' ∈ rows /\ bearer_slot r' = Some t;
}.

Lemma instance_fits_spec n : instance_fits n = true -> fits 4 (default 0 n).
Proof. unfold instance_fits, fits. rewrite andb_true_iff. lia. Qed.

Lemma context_ok_checked cc rows : context_ok cc rows = true -> context_checked cc rows.
Proof.
  unfold context_ok. rewrite !andb_true_iff, !forallb_forall, bool_decide_eq_true. setoid_rewrite <- list_elem_of_In.
  intros [[[[[[[H1 H2] H3] H4] H8] H5] H6] H7]. split; try done.
  - apply Forall_forall. intros r Hr. by apply H3, bool_decide_eq_true in Hr.
  - intros s t Hst. by apply H8, bool_decide_eq_true in Hst.
  - apply Forall_forall. intros r Hr. specialize (H5 r Hr). apply andb_true_iff in H5 as [Hi Hb%bool_decide_eq_true].
    split; [by apply instance_fits_spec|done].
  - intros s t r Hst Hr. specialize (H6 _ Hst). rewrite forallb_forall in H6. apply list_elem_of_In in Hr.
    by specialize (H6 r Hr); apply bool_decide_eq_true in H6.
  - intros r Hr. specialize (H7 r Hr). apply existsb_exists in H7 as ([s t] & Hst & Hx).
    apply andb_true_iff in Hx as [Es%bool_decide_eq_true Hx]. apply existsb_exists in Hx as (r' & Hr' & E%bool_decide_eq_true).
    cbn [fst snd] in *. subst s. exists t, r'. rewrite !list_elem_of_In. done.
Qed.

Lemma slot_get_init c s : slot_get s (class_init c) = None.
Proof.
  unfold slot_get, slot_present, class_init. destruct (s.1); simpl; [done|].
  by rewrite bool_decide_eq_false_2.
Qed.

(** The context [x'] found for the context [x] sent: the members sent read as in
    [x], the others are absent. *)
Definition received_context (cc : context_class) (rows : list build_row) (x x' : fields value) : Prop :=
  forall s, s ∈ context_slots cc -> slot_get s x' = if decide (s ∈ b_slot <$> rows) then slot_get s x else None.

Lemma bearer_stores_inv rows x : forall b,
  class_inv bearer_context b -> Forall (fun r => row_sendable r x) rows ->
  class_inv bearer_context (set_all 64 (bearer_stores rows x) b).
Proof.
  induction rows as [|r rows IH]; intros b Hb Hr; [done|]. inversion_clear Hr as [|? ? Hr0 Hr'].
  unfold bearer_stores. cbn [omap list_omap].
  destruct (bearer_slot r) as [s|] eqn:Es; simpl; [|by apply IH].
  unfold row_sendable in Hr0. destruct (slot_get (b_slot r) x) as [v|]; simpl; [|by apply IH].
  apply IH; [|done]. destruct v as [v| | | | | |]; try done. apply slot_set_inv; [done|].
  destruct Hr0 as [_ ->]. unfold bearer_slot, virtual_target in Es.
  apply (set_target_kind _ _ (row_instance r) _ bearer_context_typed). unfold set_target.
  destruct (find_overload (b_kind r) (c_set bearer_context)) as [o|]; [|done]. simpl in *. by destruct (o_overrides o).
Qed.

(** What [of_rows] reads in the [bearer_context]. *)
Lemma bearer_read cc rows x s t :
  context_checked cc rows -> (s, t) ∈ of_sources (cc_of cc) ->
  slot_get t (set_all 64 (bearer_stores rows x) (class_init bearer_context)) =
  if decide (s ∈ b_slot <$> rows) then slot_get s x else None.
Proof.
  intros Hc Hst. pose proof (cx_reach _ _ Hc s t Hst) as Ht.
  assert (forall v, (t, v) ∈ bearer_stores rows x -> slot_get s x = Some v) as Hv.
  { intros v (r & Hr & Es & Ev)%bearer_stores_in. by rewrite <- (cx_only _ _ Hc s t r). }
  assert (t ∉ (bearer_stores rows x).*1 ->
    slot_get t (set_all 64 (bearer_stores rows x) (class_init bearer_context)) = None) as Hnone.
  { intros Hn. rewrite (set_all_other 64 (class_slots bearer_context)); auto using bearer_slots_ok, bearer_stores_slots.
    apply slot_get_init. }
  assert (forall v, (t, v) ∈ bearer_stores rows x ->
    slot_get t (set_all 64 (bearer_stores rows x) (class_init bearer_context)) = Some v) as Hsome.
  { intros v Hin. apply (set_all_same 64 (class_slots bearer_context)); auto using bearer_slots_ok, bearer_stores_slots.
    intros v' Hin'. apply Hv in Hin, Hin'. congruence. }
  destruct (decide (s ∈ b_slot <$> rows)) as [Hin|Hnin].
  - apply list_elem_of_fmap in Hin as (r & -> & Hr).
    destruct (cx_all _ _ Hc r Hr) as (t' & r' & Hst' & Hr' & Et').
    assert (t' = t) as -> by (eapply NoDup_fst_inj; [exact (cx_nodup _ _ Hc)|done|done]).
    assert (b_slot r' = b_slot r) as Eb by (by eapply (cx_only _ _ Hc)).
    destruct (slot_get (b_slot r) x) as [v|] eqn:Ev.
    + apply Hsome, bearer_stores_in. exists r'. by rewrite Eb.
    + apply Hnone. intros ([? v] & -> & Hin)%list_elem_of_fmap. apply Hv in Hin. congruence.
  - apply Hnone. intros ([? v] & -> & (r & Hr & Es & _)%bearer_stores_in)%list_elem_of_fmap.
    apply Hnin, list_elem_of_fmap. exists r. split; [|done]. symmetry. by eapply (cx_only _ _ Hc).
Qed.

Lemma context_of_bearer_received cc rows x :
  context_checked cc rows -> Forall (fun r => row_sendable r x) rows ->
  exists x', context_of_bearer cc (set_all 64 (bearer_stores rows x) (class_init bearer_context)) = Val x' /\
    received_context cc rows x x'.
Proof.
  intros Hc Hr. pose proof (proj1 (andb_true_iff _ _) (cx_typed _ _ Hc)) as [_ Hof].
  pose proof (bearer_stores_inv rows x (class_init bearer_context)
    ltac:(apply class_init_inv, bearer_context_typed) Hr) as Hb.
  destruct (of_rows_get (cc_class cc) (c_width (cc_class cc)) (context_slots cc) _ (cc_of cc) (class_init (cc_class cc))
    Hb Hof (cx_slots _ _ Hc) (cx_source _ _ Hc) (cx_nodup _ _ Hc)) as (x' & E & Hs & Ho).
  - intros s Hs. apply elem_of_remove_dups, elem_of_app. by right.
  - intros s _. apply slot_get_init.
  - exists x'. split; [exact E|]. intros s Hin. destruct (decide (s ∈ (of_sources (cc_of cc)).*1)) as [Hd|Hd].
    + apply list_elem_of_fmap in Hd as ([s' t] & -> & Hst). cbn [fst]. rewrite (Hs s' t Hst). by apply (bearer_read cc).
    + rewrite Ho, slot_get_init by done. rewrite decide_False; [done|]. intros (r & -> & Hr')%list_elem_of_fmap.
      destruct (cx_all _ _ Hc r Hr') as (t & r' & Hst & _). apply Hd, list_elem_of_fmap. by exists (b_slot r, t).
Qed.

(** A grouped element sent for [x] is received as [x']. *)
Lemma group_received mc j n rows x s cc :
  context_checked cc rows -> fits 4 (default 0 n) ->
  Forall (fun r => row_sendable r x) rows ->
  (exists l, rows_ies j rows x = Val l /\ 0 < ies_length l < 2 ^ 16) ->
  find (fun y => y.1 =? default 0 n) (message_contexts mc) = Some (default 0 n, (s, cc)) ->
  exists l i0 x', rows_ies j rows x = Val l /\ same_wire (group_of n l) i0 /\
    (forall c1, ie_to_container mc i0 c1 = Val (add_context (c_width (mc_class mc)) s x' c1)) /\
    received_context cc rows x x'.
Proof.
  intros Hc Hn Hr (l & El & Hlen) Hf. pose proof (cx_instance _ _ Hc) as Hi.
  destruct (rows_ies_sent j rows x) as (l' & l0 & El' & Hs & Hca).
  { apply Forall_forall. intros r Hr'. rewrite Forall_forall in Hi, Hr. split; [by apply Hr|by apply Hi]. }
  rewrite El in El'. injection El' as <-.
  destruct (same_wire_group n l l0 Hs Hlen Hn) as [Hg Hin].
  destruct (context_of_bearer_received cc rows x Hc Hr) as (x' & Ex & Hx).
  exists l, (group_of n l0), x'. split; [done|]. split; [done|]. split; [|done].
  intros c1. rewrite group_of_eq in *. cbn [ie_to_container]. rewrite (ies_to_bearer_sent x rows).
  - cbn [mbind result_bind]. unfold set_bearer_context. unfold message_contexts in Hf. destruct (mc_contexts mc) as [cases|]; [|done].
    rewrite Hin. simpl in Hf. rewrite Hf. cbv beta iota. rewrite Ex. done.
  - apply Forall_forall. intros r Hr'. rewrite Forall_forall in Hi, Hr. split; [by apply Hr|by apply Hi].
  - exact Hca.
Qed.

(** ** Messages *)
Definition context_slots_of (mc : message_class) : list slot := (message_contexts mc).*2.*1.

(** All the guarded members of a container, vectors included. *)
Definition container_slots (mc : message_class) : list slot := class_slots (mc_class mc) ++ context_slots_of mc.

(** The receiver sets the member the row was built from. *)
Definition row_ok (mc : message_class) (r : build_row) : bool :=
  bool_decide (virtual_target (mc_class mc) (b_kind r) (row_instance r) = Some (b_slot r)).

Definition context_case (mc : message_class) (n : option Z) : option (slot * context_class) :=
  snd <$> find (fun y => y.1 =? default 0 n) (message_contexts mc).

Definition build_ok (mc : message_class) (b : build) : bool :=
  match b with
  | BuildIe r => instance_fits (b_instance r)
  | BuildContexts s n rows =>
    instance_fits n &&
    match context_case mc n with Some (t, cc) => bool_decide (s = t) && context_ok cc rows | None => false end
  end.

Definition build_vectors (l : list build) : list slot :=
  omap (fun b => match b with BuildContexts s _ _ => Some s | BuildIe _ => None end) l.

Definition message_ok (M : message) : bool :=
  slots_ok (c_width (mc_class (mg_class M))) (container_slots (mg_class M)) &&
  forallb (build_ok (mg_class M)) (mg_builds M) && bool_decide (NoDup (build_vectors (mg_builds M))).

(** The members the constructor sends and the receiver accepts. *)
Definition sent_slots (mc : message_class) (l : list build) : list slot :=
  omap (fun b => match b with BuildIe r => if row_ok mc r then Some (b_slot r) else None | _ => None end) l.

(** What can be sent: the members present hold values their elements carry, the
    receiver has a [set] for them; each context is neither empty nor too long for
    the length field of its element. *)
Definition build_sendable (j : junk) (mc : message_class) (c : container) (b : build) : Prop :=
  match b with
  | BuildIe r =>
    row_sendable r (ct_fields c) /\ (slot_present (b_slot r) (ct_fields c) = true -> row_ok mc r = true)
  | BuildContexts s n rows =>
    Forall (fun x => Forall (fun r => row_sendable r x) rows /\
      exists l, rows_ies j rows x = Val l /\ 0 < ies_length l < 2 ^ 16) (contexts_at s c)
  end.

Definition sendable (j : junk) (M : message) (c : container) : Prop :=
  Forall (build_sendable j (mg_class M) c) (mg_builds M).

(** The container [c'] found for the container [c] sent. *)
Record received (M : message) (c c' : container) : Prop := {
  rc_fields : forall s, s ∈ class_slots (mc_class (mg_class M)) ->
    slot_get s (ct_fields c') = if decide (s ∈ sent_slots (mg_class M) (mg_builds M)) then slot_get s (ct_fields c) else None;
  rc_contexts : forall s n rows, BuildContexts s n rows ∈ mg_builds M -> exists cc, context_case (mg_class M) n = Some (s, cc) /\
    Forall2 (received_context cc rows) (contexts_at s c) (contexts_at s c');
}.

(** A vector whose flag is down is empty. *)
Definition lists_ok (mc : message_class) (c : container) : Prop :=
  forall s, s ∈ context_slots_of mc -> slot_present s (ct_fields c) = false -> default [] (ct_lists c !! s.2) = [].

Lemma ies_to_container_app mc l k c :
  ies_to_container mc (l ++ k) c = c ← ies_to_container mc l c; ies_to_container mc k c.
Proof.
  revert c. induction l as [|i l IH]; intros c; [done|]. cbn [app ies_to_container].
  destruct (ie_to_container mc i c); [|done|done|done]. cbn [mbind result_bind]. apply IH.
Qed.

Section Message.
Variable mc : message_class.
Hypothesis slots_sound : slots_ok (c_width (mc_class mc)) (container_slots mc) = true.
Let w := c_width (mc_class mc).

Lemma class_in_slots s : s ∈ class_slots (mc_class mc) -> s ∈ container_slots mc.
Proof. intros H. apply elem_of_app. by left. Qed.

Lemma context_in_slots s : s ∈ context_slots_of mc -> s ∈ container_slots mc.
Proof. intros H. apply elem_of_app. by right. Qed.

Lemma context_class_apart s t :
  s ∈ class_slots (mc_class mc) -> t ∈ context_slots_of mc -> slots_apart s t = true.
Proof.
  intros Hs Ht. revert slots_sound. unfold container_slots. generalize (c_width (mc_class mc)). intros w0.
  induction (class_slots (mc_class mc)) as [|u l IH]; [set_solver|]. simpl. rewrite !andb_true_iff, forallb_forall.
  intros [[_ Ha] Hl]. apply elem_of_cons in Hs as [->|Hs]; [|auto].
  apply Ha, list_elem_of_In, elem_of_app. by right.
Qed.

(** Setting a member leaves the vectors alone. *)
Lemma set_field_contexts s t v c :
  s ∈ class_slots (mc_class mc) -> t ∈ context_slots_of mc ->
  slot_present t (slot_set w s v (ct_fields c)) = slot_present t (ct_fields c) /\
  contexts_at t (mk_container (slot_set w s v (ct_fields c)) (ct_lists c)) = contexts_at t c.
Proof.
  intros Hs Ht.
  assert (slot_present t (slot_set w s v (ct_fields c)) = slot_present t (ct_fields c)) as E.
  { unfold slot_set. rewrite slot_present_raise_apart; [done| |by eapply slots_ok_fits, context_in_slots|by apply context_class_apart].
    by eapply slots_ok_width. }
  split; [done|]. unfold contexts_at. cbn [ct_fields ct_lists]. by rewrite E.
Qed.

(** Adding contexts to one vector. *)
Definition add_contexts (s : slot) (xs : list (fields value)) (c : container) : container :=
  foldl (fun c x => add_context w s x c) c xs.

Lemma add_contexts_spec s xs : forall c,
  s ∈ context_slots_of mc -> lists_ok mc c ->
  lists_ok mc (add_contexts s xs c) /\ contexts_at s (add_contexts s xs c) = contexts_at s c ++ xs /\
  (forall t, t ∈ context_slots_of mc -> t <> s -> contexts_at t (add_contexts s xs c) = contexts_at t c) /\
  (forall t, t ∈ class_slots (mc_class mc) -> slot_get t (ct_fields (add_contexts s xs c)) = slot_get t (ct_fields c)).
Proof.
  pose proof (slots_ok_width _ _ slots_sound) as Hw.
  induction xs as [|x xs IH]; intros c Hs Hl; [by rewrite app_nil_r|].
  pose proof (slots_ok_fits _ _ _ slots_sound (context_in_slots s Hs)) as Hf.
  assert (forall t, t ∈ context_slots_of mc -> t <> s ->
    slot_present t (slot_raise w s (ct_fields c)) = slot_present t (ct_fields c) /\ t.2 <> s.2) as Ho.
  { intros t Ht Hne. split.
    - apply slot_present_raise_apart; [done|by eapply slots_ok_fits, context_in_slots|].
      apply (slots_ok_apart w (container_slots mc)); auto using context_in_slots.
    - intros E. apply Hne. apply (slots_ok_name w (container_slots mc)); auto using context_in_slots. }
  assert (slot_present s (slot_raise w s (ct_fields c)) = true) as Hp by (by apply slot_present_raise).
  destruct (IH (add_context w s x c) Hs) as (IH1 & IH2 & IH3 & IH4).
  { intros t Ht. unfold add_context. cbn [ct_fields ct_lists]. destruct (decide (t = s)) as [->|Hne]; [by rewrite Hp|].
    destruct (Ho t Ht Hne) as [-> Hn]. rewrite lookup_insert_ne by done. by apply Hl. }
  split; [done|]. split; [|split].
  - cbn [add_contexts foldl]. change (foldl _ ?c xs) with (add_contexts s xs c). rewrite IH2.
    unfold contexts_at, add_context. cbn [ct_fields ct_lists]. rewrite Hp, lookup_insert_eq. change (default [] (Some ?l)) with l.
    destruct (slot_present s (ct_fields c)) eqn:Ep; [by rewrite <- app_assoc|]. by rewrite (Hl s Hs Ep).
  - intros t Ht Hne. cbn [add_contexts foldl]. change (foldl _ ?c xs) with (add_contexts s xs c). rewrite IH3 by done.
    destruct (Ho t Ht Hne) as [E Hn]. unfold contexts_at, add_context. cbn [ct_fields ct_lists].
    by rewrite E, lookup_insert_ne.
  - intros t Ht. cbn [add_contexts foldl]. change (foldl _ ?c xs) with (add_contexts s xs c). rewrite IH4 by done.
    unfold add_context. cbn [ct_fields]. apply slot_get_raise_apart; [done|by eapply slots_ok_fits, class_in_slots|].
    rewrite slots_apart_sym. by apply context_class_apart.
Qed.

Lemma contexts_received j n rows s cc xs :
  context_case mc n = Some (s, cc) -> context_checked cc rows -> fits 4 (default 0 n) ->
  Forall (fun x => Forall (fun r => row_sendable r x) rows /\
    exists l, rows_ies j rows x = Val l /\ 0 < ies_length l < 2 ^ 16) xs ->
  exists l l0 xs', contexts_ies j n rows xs = Val l /\ Forall2 same_wire l l0 /\
    Forall2 (received_context cc rows) xs xs' /\ forall c, ies_to_container mc l0 c = Val (add_contexts s xs' c).
Proof.
  intros Hcase Hc Hn. unfold context_case in Hcase.
  destruct (find _ (message_contexts mc)) as [[m y]|] eqn:Ef; [|done]. simpl in Hcase. injection Hcase as ->.
  assert (m = default 0 n) as -> by (apply find_some in Ef as [_ E]; simpl in E; lia).
  induction 1 as [|x xs [Hr Hx] _ (l & l0 & xs' & E & Hs & Hrc & Hto)]; [by exists [], [], []|].
  destruct (group_received mc j n rows x s cc Hc Hn Hr Hx Ef) as (lx & i0 & x' & Ex & Hsx & Htx & Hrx).
  exists (group_of n lx :: l), (i0 :: l0), (x' :: xs'). cbn [contexts_ies]. rewrite Ex. cbn [mbind result_bind]. rewrite E.
  split; [done|]. split; [by constructor|]. split; [by constructor|].
  intros c. cbn [ies_to_container]. rewrite Htx. cbn [mbind result_bind]. rewrite Hto. done.
Qed.

Lemma lists_ok_set s v c :
  s ∈ class_slots (mc_class mc) -> lists_ok mc c -> lists_ok mc (mk_container (slot_set w s v (ct_fields c)) (ct_lists c)).
Proof.
  intros Hs Hl t Ht. cbn [ct_fields ct_lists]. rewrite (proj1 (set_field_contexts s t v c Hs Ht)). by apply Hl.
Qed.

(** The effect of the elements of some rows on the receiver's container. *)
Definition builds_effect (c : container) (bs : list build) (c1 c2 : container) : Prop :=
  lists_ok mc c2 /\
  (forall s, s ∈ class_slots (mc_class mc) -> slot_get s (ct_fields c2) =
    if decide (s ∈ sent_slots mc bs) then
      match slot_get s (ct_fields c) with Some v => Some v | None => slot_get s (ct_fields c1) end
    else slot_get s (ct_fields c1)) /\
  (forall s n rows, BuildContexts s n rows ∈ bs -> exists cc xs', context_case mc n = Some (s, cc) /\
    contexts_at s c2 = contexts_at s c1 ++ xs' /\ Forall2 (received_context cc rows) (contexts_at s c) xs') /\
  (forall s, s ∈ context_slots_of mc -> s ∉ build_vectors bs -> contexts_at s c2 = contexts_at s c1).

Lemma context_case_in n s cc : context_case mc n = Some (s, cc) -> s ∈ context_slots_of mc.
Proof.
  unfold context_case. destruct (find _ _) as [[m y]|] eqn:Ef; [|done]. simpl. intros [= ->].
  apply find_some in Ef as [Hf _]. apply list_elem_of_In in Hf. unfold context_slots_of.
  apply list_elem_of_fmap. exists (s, cc). split; [done|]. apply list_elem_of_fmap. by exists (m, (s, cc)).
Qed.

Lemma builds_effect_cons c b bs c1 c2 c3 :
  NoDup (build_vectors (b :: bs)) -> builds_effect c [b] c1 c2 -> builds_effect c bs c2 c3 ->
  builds_effect c (b :: bs) c1 c3.
Proof.
  change (b :: bs) with ([b] ++ bs). intros Hnd (_ & Hf2 & Hx2 & Ho2) (Hl3 & Hf3 & Hx3 & Ho3).
  unfold build_vectors in *. rewrite omap_app in Hnd. apply NoDup_app in Hnd as (_ & Hdis & _).
  split; [done|]. split; [|split].
  - intros s Hin. rewrite Hf3, Hf2 by done. unfold sent_slots. rewrite omap_app.
    fold (sent_slots mc [b]) (sent_slots mc bs). destruct (slot_get s (ct_fields c)); repeat case_decide; set_solver.
  - intros s n rows [Hin|Hin]%elem_of_app.
    + destruct (Hx2 s n rows Hin) as (cc & xs' & Ecc & Ex & HF). exists cc, xs'. split; [done|]. split; [|done].
      rewrite Ho3; [done|by eapply context_case_in|]. apply Hdis, list_elem_of_omap. by exists (BuildContexts s n rows).
    + destruct (Hx3 s n rows Hin) as (cc & xs' & Ecc & Ex & HF). exists cc, xs'. split; [done|]. split; [|done].
      rewrite Ex, Ho2; [done|by eapply context_case_in|]. intros Hs. apply (Hdis s Hs), list_elem_of_omap.
      by exists (BuildContexts s n rows).
  - intros s Hin. unfold build_vectors. rewrite omap_app. intros Hn. rewrite Ho3, Ho2 by set_solver. done.
Qed.

(** The elements of one row. *)
Definition build_conveyed (j : junk) (c : container) (b : build) : Prop :=
  exists l l0, build_ies_of j b c = Val l /\ Forall2 same_wire l l0 /\
  forall c1, lists_ok mc c1 -> exists c2, ies_to_container mc l0 c1 = Val c2 /\ builds_effect c [b] c1 c2.

Lemma row_conveyed j r c :
  instance_fits (b_instance r) = true -> build_sendable j mc c (BuildIe r) -> build_conveyed j c (BuildIe r).
Proof.
  intros Hn%instance_fits_spec [Hr Hok].
  destruct (row_ies_sent j r (ct_fields c) Hr Hn) as (l & l0 & E & Hs & Hc).
  exists l, l0. split; [exact E|]. split; [done|]. intros c1 Hl1. unfold builds_effect, sent_slots. cbn [omap list_omap].
  assert (forall s n rows, BuildContexts s n rows ∉ [BuildIe r]) as Hno by (intros s n rows; by intros ?%list_elem_of_singleton).
  unfold row_sendable in Hr. cbn [omap list_omap] in Hc. unfold row_sent in Hc.
  destruct (slot_get (b_slot r) (ct_fields c)) as [[v| | | | | |]|] eqn:Ev; try done.
  - inversion_clear Hc as [|i0 ? ? ? Hi Hnil]. inversion_clear Hnil. destruct Hr as [_ Hk].
    assert (row_ok mc r = true) as Hro.
    { apply Hok. unfold slot_get in Ev. by destruct (slot_present (b_slot r) (ct_fields c)). }
    rewrite Hro. pose proof Hro as Ht%bool_decide_eq_true. rewrite <- Hk in Ht. pose proof (virtual_target_in _ _ _ _ Ht) as Hin.
    eexists. cbn [ies_to_container]. rewrite (ie_to_container_leaf mc i0 _ v) by exact Hi. cbn [fst].
    rewrite (virtual_set_at _ _ _ _ _ Ht). cbn [mbind result_bind]. split; [done|].
    split; [by apply lists_ok_set|]. split; [|split].
    + intros s Hsl. cbn [ct_fields]. case_decide as Hd.
      * apply list_elem_of_singleton in Hd as ->. rewrite Ev.
        apply slot_get_set; [by eapply slots_ok_width|by eapply slots_ok_fits, class_in_slots].
      * apply slot_get_set_apart; [by eapply slots_ok_width|by eapply slots_ok_fits, class_in_slots|].
        apply (slots_ok_apart w (container_slots mc)); auto using class_in_slots. set_solver.
    + intros s n rows []%Hno.
    + intros s Hsl _. by apply set_field_contexts.
  - inversion_clear Hc. exists c1. split; [done|]. split; [done|]. split; [|split; [intros s n rows []%Hno|done]].
    intros s _. case_decide as Hd; [|done]. destruct (row_ok mc r); [|set_solver].
    apply list_elem_of_singleton in Hd as ->. by rewrite Ev.
Qed.

Lemma vector_conveyed j s n rows c :
  build_ok mc (BuildContexts s n rows) = true -> build_sendable j mc c (BuildContexts s n rows) ->
  build_conveyed j c (BuildContexts s n rows).
Proof.
  cbn [build_ok build_sendable]. intros [Hn%instance_fits_spec Hb]%andb_true_iff Hs.
  destruct (context_case mc n) as [[t cc]|] eqn:Ecc; [|done].
  apply andb_true_iff in Hb as [->%bool_decide_eq_true Hcc%context_ok_checked].
  destruct (contexts_received j n rows t cc (contexts_at t c) Ecc Hcc Hn Hs) as (k & k0 & xs' & Ek & Hk & HF & Hkto).
  exists k, k0. split; [done|]. split; [done|]. intros c1 Hl1. pose proof (context_case_in _ _ _ Ecc) as Ht.
  destruct (add_contexts_spec t xs' c1 Ht Hl1) as (Hl2 & Hx2 & Ho2 & Hf2).
  exists (add_contexts t xs' c1). split; [done|]. split; [done|]. split; [|split].
  - intros s Hin. by apply Hf2.
  - intros s m rows' [= -> -> ->]%list_elem_of_singleton. by exists cc, xs'.
  - intros s Hin Hns. apply Ho2; [done|]. set_solver.
Qed.

Lemma builds_received j c bs :
  Forall (fun b => build_ok mc b = true) bs -> NoDup (build_vectors bs) -> Forall (build_sendable j mc c) bs ->
  exists l l0, builds_ies j bs c = Val l /\ Forall2 same_wire l l0 /\
  forall c1, lists_ok mc c1 -> exists c2, ies_to_container mc l0 c1 = Val c2 /\ builds_effect c bs c1 c2.
Proof.
  induction bs as [|b bs IH]; intros Hok Hnd Hs.
  { exists [], []. split; [done|]. split; [done|]. intros c1 Hl. exists c1. split; [done|].
    split; [done|]. split; [done|]. split; [intros s n rows []%elem_of_nil|done]. }
  inversion_clear Hok as [|? ? Hb Hok']. inversion_clear Hs as [|? ? Hsb Hs'].
  destruct (IH Hok') as (l & l0 & E & Hw & Hto); [by destruct b; [|apply NoDup_cons in Hnd as [_ ?]]|done|]. clear IH.
  assert (build_conveyed j c b) as (k & k0 & Ek & Hk & Hkto)
    by (destruct b; [by apply row_conveyed|by apply vector_conveyed]).
  exists (k ++ l), (k0 ++ l0). cbn [builds_ies]. rewrite Ek. cbn [mbind result_bind]. rewrite E.
  split; [done|]. split; [by apply Forall2_app|]. intros c1 Hl1.
  destruct (Hkto c1 Hl1) as (c2 & E2 & He2). destruct (Hto c2 (proj1 He2)) as (c3 & E3 & He3).
  exists c3. rewrite ies_to_container_app, E2. split; [exact E3|]. by eapply builds_effect_cons.
Qed.
End Message.

(** ** The wire *)

(** Elements of the same length give the same header. *)
Lemma build_same_header l l0 : forall m m0,
  Forall2 same_wire l l0 -> ghdr m = ghdr m0 -> gremote_port m = gremote_port m0 ->
  ghdr (foldl gtp_build_step m (OpAddIe <$> l)) = ghdr (foldl gtp_build_step m0 (OpAddIe <$> l0)) /\
  gremote_port (foldl gtp_build_step m (OpAddIe <$> l)) = gremote_port (foldl gtp_build_step m0 (OpAddIe <$> l0)).
Proof.
  intros m m0 H. revert m m0. induction H as [|i i0 l l0 (_ & _ & E & _) _ IH]; intros m m0 Hh Hp; [done|].
  cbn [fmap list_fmap foldl]. apply IH; [|done]. cbn [gtp_build_step]. unfold gtp_add_ie. cbn [ghdr].
  by rewrite Hh, E.
Qed.

Lemma tail_same_header tail : forall m m0,
  build_ies tail = [] -> ghdr m = ghdr m0 -> ghdr (foldl gtp_build_step m tail) = ghdr (foldl gtp_build_step m0 tail).
Proof.
  induction tail as [|op tail IH]; intros m m0 Ht Hh; [done|]. cbn [foldl].
  destruct op; try done; (apply IH; [done|]); cbn; by rewrite Hh.
Qed.

Lemma build_ies_add l : build_ies (OpAddIe <$> l) = l.
Proof. unfold build_ies. induction l as [|i l IH]; [done|]. cbn. by rewrite IH. Qed.

(** A message written as another one whose elements are well formed is read as
    that one. *)
Lemma wire_load t l l0 tail fuel port :
  Forall2 same_wire l l0 -> Forall build_op_ok tail -> build_ies tail = [] ->
  8 + ies_length l < 2 ^ 16 -> (ies_size l < fuel)%nat ->
  let m := foldl gtp_build_step (gtp_build (OpSetMessageType t :: (OpAddIe <$> l))) tail in
  exists b m' ins, gtpv2c_msg_dump_to m = Val (b, m') /\ Z.of_nat (length b) = 4 + gh_message_length (ghdr m) /\
    gtpv2c_msg_load_from fuel (mk_gtpv2c_msg gtpv2c_msg_header_init port []) (istream_of b) =
      Val (mk_gtpv2c_msg (ghdr m) port l0, ins) /\ is_data ins = [].
Proof.
  intros Hs Ht Htn Hlen Hf m.
  set (ops := OpSetMessageType t :: (OpAddIe <$> l0)). set (m0 := gtp_build (ops ++ tail)).
  assert (ghdr m = ghdr m0) as Eh.
  { unfold m, m0, gtp_build. rewrite foldl_app. apply tail_same_header; [done|]. unfold ops. cbn [foldl].
    by apply build_same_header. }
  assert (gies m = l) as Em.
  { unfold m. rewrite build_gies, Htn, app_nil_r. unfold gtp_build. rewrite build_gies.
    change (build_ies (OpSetMessageType t :: ?x)) with (build_ies x). by rewrite build_ies_add. }
  assert (build_ies (ops ++ tail) = l0) as Eb.
  { unfold build_ies. rewrite omap_app. fold (build_ies ops) (build_ies tail). rewrite Htn, app_nil_r.
    unfold ops. change (build_ies (OpSetMessageType t :: ?x)) with (build_ies x). by rewrite build_ies_add. }
  assert (gies m0 = l0) as Em0.
  { unfold m0, gtp_build. by rewrite build_gies, Eb. }
  assert (gtpv2c_msg_wf m0) as Hw.
  { apply build_wf; [|by rewrite Eb, <- (same_wire_length _ _ Hs)]. apply Forall_app. split; [|done].
    constructor; [done|]. apply Forall_fmap. exact (same_wire_wf _ _ Hs). }
  destruct (msg_wf_load fuel m0 port [] Hw) as (b & m0' & ins & E1 & E2 & E3 & E4); [|by right|].
  { by rewrite Em0, <- (same_wire_size _ _ Hs). }
  rewrite app_nil_r in E3. rewrite Em0, <- Eh in E3. rewrite <- Eh in E2.
  unfold gtpv2c_msg_dump_to in *. rewrite <- Eh in E1. rewrite Em0 in E1. rewrite Em.
  destruct (same_wire_dump_all _ _ Hs) as (bs & l' & l0' & F & F0). rewrite F0 in E1. rewrite F.
  destruct (gtpv2c_header_dump_to (ghdr m)) as [bh h']. cbn [mbind result_bind] in *. injection E1 as <- _.
  by eexists _, _, ins.
Qed.

(** ** The messages *)
Definition sent_messages : list message :=
  [echo_request_message; echo_response_message; create_session_request_message; create_session_response_message;
   modify_bearer_request_message; modify_bearer_response_message; delete_session_request_message;
   delete_session_response_message; release_access_bearers_request_message; release_access_bearers_response_message;
   downlink_data_notification_message; downlink_data_notification_acknowledge_message].

Lemma sent_messages_ok M : M ∈ sent_messages -> message_ok M = true.
Proof.
  assert (forallb message_ok sent_messages = true) as H by (vm_compute; reflexivity).
  rewrite forallb_forall in H. intros Hc. by apply H, list_elem_of_In.
Qed.

Lemma message_conveyed (j : junk) (M : message) (c : container) :
  M ∈ sent_messages -> sendable j M c ->
  exists m, message_of j M c = Val m /\
  forall (tail : list gtp_build_op) (fuel : nat) (port : Z),
    Forall build_op_ok tail -> build_ies tail = [] ->
    8 + ies_length (gies m) < 2 ^ 16 -> (ies_size (gies m) < fuel)%nat ->
    let m1 := foldl gtp_build_step m tail in
    exists b m' ins m2 c', gtpv2c_msg_dump_to m1 = Val (b, m') /\ Z.of_nat (length b) = 4 + gh_message_length (ghdr m1) /\
      gtpv2c_msg_load_from fuel (mk_gtpv2c_msg gtpv2c_msg_header_init port []) (istream_of b) = Val (m2, ins) /\
      ghdr m2 = ghdr m1 /\ is_data ins = [] /\
      message_to_container (mg_class M) m2 (new_container (mg_class M)) = Val c' /\ received M c c'.
Proof.
  intros HM Hs. pose proof (sent_messages_ok M HM) as Hok. unfold message_ok in Hok.
  rewrite !andb_true_iff, forallb_forall, bool_decide_eq_true in Hok. destruct Hok as [[Hslots Hb] Hnd].
  destruct (builds_received (mg_class M) Hslots j c (mg_builds M)) as (l & l0 & E & Hw & Hto); [|done|done|].
  { apply Forall_forall. intros b Hb'. apply Hb. by apply list_elem_of_In. }
  unfold message_of. rewrite E. eexists. split; [reflexivity|]. intros tail fuel port Ht Htn Hlen Hf.
  assert (gies (gtp_build (OpSetMessageType (mg_type M) :: (OpAddIe <$> l))) = l) as Em.
  { unfold gtp_build. rewrite build_gies. change (build_ies (OpSetMessageType _ :: ?x)) with (build_ies x). by rewrite build_ies_add. }
  rewrite Em in Hlen, Hf.
  destruct (wire_load (mg_type M) l l0 tail fuel port Hw Ht Htn Hlen Hf) as (b & m' & ins & E1 & E2 & E3 & E4).
  destruct (Hto (new_container (mg_class M))) as (c' & Ec & _ & Hf' & Hx & _); [by intros s _|].
  eexists b, m', ins, (mk_gtpv2c_msg _ port l0), c'. repeat (split; [done|]). split.
  - intros s Hin. rewrite Hf' by done. cbn [new_container ct_fields]. rewrite slot_get_init.
    destruct (slot_get s (ct_fields c)); done.
  - intros s n rows Hin. destruct (Hx s n rows Hin) as (cc & xs' & Ecc & Ex & HF). exists cc. split; [done|].
    rewrite Ex. unfold contexts_at at 2, new_container. cbn [ct_fields ct_lists].
    replace (if slot_present s _ then _ else _) with (@nil (fields value)); [done|]. by destruct (slot_present _ _).
Qed.

(** C22 What one node puts in a container that can be sent ([sendable]) is what
    its peer finds.  For every message that has a constructor, the constructor
    succeeds; when the message is not longer than its length field can say, then
    whatever TEID and sequence number the stack gives it, it is written on the
    octets it announces, the peer loads it with the same header, and
    [to_core_type] fills an initial container in which every member sent reads
    as in the sender's, the vectors of bearer contexts correspond one to one,
    and every other member is absent.
    [sendable] asks that the members the constructor always sends are present,
    and of each member it sends that the value is one its element conveys
    ([core_wf]: the fields fit their widths) and that the class of the receiver
    overrides [set] for it; a bearer context has at least one element and fits
    its length field.  [core_wf] leaves out what the encodings do not convey:
    the flow QoS, the bearer TFT, the bearer flags, the extended PCO, the
    RAN/NAS cause, an IPv6 address in an IP-address element, an MSISDN of 15
    digits, a location with a routing area, location area or macro eNodeB, and a
    cause Mandatory IE incorrect or with an offending element.  The [set]s leave
    out the members of [unreceivable_elements], among them the recovery counter
    of an echo. *)
Theorem message_container_roundtrip (j : junk) (M : message) (c : container) :
  M ∈ sent_messages -> sendable j M c ->
  exists m, message_of j M c = Val m /\
  forall (tail : list gtp_build_op) (fuel : nat) (port : Z),
    Forall build_op_ok tail -> build_ies tail = [] ->
    8 + ies_length (gies m) < 2 ^ 16 -> (ies_size (gies m) < fuel)%nat ->
    let m1 := foldl gtp_build_step m tail in
    exists b m' ins m2 c', gtpv2c_msg_dump_to m1 = Val (b, m') /\ Z.of_nat (length b) = 4 + gh_message_length (ghdr m1) /\
      gtpv2c_msg_load_from fuel (mk_gtpv2c_msg gtpv2c_msg_header_init port []) (istream_of b) = Val (m2, ins) /\
      ghdr m2 = ghdr m1 /\ is_data ins = [] /\
      message_to_container (mg_class M) m2 (new_container (mg_class M)) = Val c' /\ received M c c'.
Proof. apply message_conveyed. Qed.

(** A Create Session Request of an SGW: IMSI, the two control-plane F-TEIDs and
    a bearer context with its EBI, QoS and user-plane F-TEID. *)
Definition demo_fteid_value (t n : Z) : value := VCore (CoreFteid (mk_fteid_t 1 0 t n 16777343 (replicate 16 0))).

Definition demo_context : fields value :=
  let c := cc_class bearer_context_to_be_created_within_create_session_request in
  set_all (c_width c)
    [((Mask GTPV2C_BEARER_CONTEXT_TO_BE_CREATED_WITHIN_CREATE_SESSION_REQUEST_PR_IE_EPS_BEARER_ID, "eps_bearer_id"),
      VCore (CoreEbi (mk_ebi_t 5)));
     ((Mask GTPV2C_BEARER_CONTEXT_TO_BE_CREATED_WITHIN_CREATE_SESSION_REQUEST_PR_IE_BEARER_LEVEL_QOS, "bearer_level_qos"),
      VCore (CoreBearerQos (mk_bearer_qos_t 1 15 0 9 1000 2000 0 0)));
     ((Mask GTPV2C_BEARER_CONTEXT_TO_BE_CREATED_WITHIN_CREATE_SESSION_REQUEST_PR_IE_S5_S8_U_SGW_FTEID, "s5_s8_u_sgw_fteid"),
      demo_fteid_value 4 77)] (class_init c).

Definition demo_request : container :=
  let mc := gtpv2c_create_session_request in
  let w := c_width (mc_class mc) in
  add_context w (Mask GTPV2C_CREATE_SESSION_REQUEST_PR_IE_BEARER_CONTEXTS_TO_BE_CREATED, "bearer_contexts_to_be_created") demo_context
    (mk_container
      (set_all w
        [((Mask GTPV2C_CREATE_SESSION_REQUEST_PR_IE_IMSI, "imsi"), VCore (CoreImsi (mk_imsi_t [18; 52; 86; 120; 144; 33; 67; 245] 15)));
         ((Mask GTPV2C_CREATE_SESSION_REQUEST_PR_IE_SENDER_FTEID_FOR_CONTROL_PLANE, "sender_fteid_for_cp"), demo_fteid_value 6 48879);
         ((Mask GTPV2C_CREATE_SESSION_REQUEST_PR_IE_PGW_S5S8_ADDRESS_FOR_CONTROL_PLANE, "pgw_s5s8_address_for_cp"), demo_fteid_value 7 0)]
        (class_init (mc_class mc))) ∅).

Lemma absent_row r f : slot_get (b_slot r) f = None -> slot_present (b_slot r) f = false -> b_required r = false -> row_sendable r f.
Proof. intros E. unfold row_sendable. by rewrite E. Qed.

Lemma present_row r f v : slot_get (b_slot r) f = Some (VCore v) -> core_wf v -> kind_of (VCore v) = b_kind r -> row_sendable r f.
Proof. intros E. unfold row_sendable. by rewrite E. Qed.

(** A concrete row: absent, or with a value that fits. *)
Ltac row_tac :=
  first
  [ apply absent_row; vm_compute; reflexivity
  | eapply present_row; [vm_compute; reflexivity| |reflexivity];
    unfold core_wf, bcd_wf, fteid_parts_ok, fits; repeat split; try reflexivity; vm_compute; intuition discriminate ].

Lemma demo_request_sendable : sendable demo_junk create_session_request_message demo_request.
Proof.
  unfold sendable, create_session_request_message. cbn [mg_builds mg_class].
  unfold create_session_request_build1, create_session_request_build2. cbn [app].
  repeat (apply Forall_cons; split; [first [split; [row_tac|intros _; vm_compute; reflexivity]|idtac]|]).
  - split.
    + unfold create_session_request_bearer_contexts_to_be_created_rows. repeat (apply Forall_cons; split; [row_tac|]). by apply Forall_nil.
    + eexists. split; [vm_compute; reflexivity|]. vm_compute. split; reflexivity.
  - by apply Forall_nil.
  - cbn [build_sendable]. replace (contexts_at _ _) with (@nil (fields value)) by (vm_compute; reflexivity). by apply Forall_nil.
  - by apply Forall_nil.
Qed.

Lemma message_container_roundtrip_witness :
  exists m, message_of demo_junk create_session_request_message demo_request = Val m /\
    exists b m' ins m2 c', gtpv2c_msg_dump_to (foldl gtp_build_step m [OpSetTeid 4096; OpSetSequenceNumber 70000]) = Val (b, m') /\
      gtpv2c_msg_load_from 9 (mk_gtpv2c_msg gtpv2c_msg_header_init 2123 []) (istream_of b) = Val (m2, ins) /\
      message_to_container gtpv2c_create_session_request m2 (new_container gtpv2c_create_session_request) = Val c' /\
      received create_session_request_message demo_request c'.
Proof.
  destruct (message_container_roundtrip demo_junk create_session_request_message demo_request) as (m & Em & H).
  - unfold sent_messages. do 2 apply list_elem_of_further. apply list_elem_of_here.
  - exact demo_request_sendable.
  - exists m. split; [exact Em|].
    assert (8 + ies_length (gies m) < 2 ^ 16 /\ (ies_size (gies m) < 9)%nat) as [Hlen Hsz].
    { assert ((match message_of demo_junk create_session_request_message demo_request with
               | Val m => (8 + ies_length (gies m) <? 2 ^ 16) && Nat.ltb (ies_size (gies m)) 9
               | _ => false
               end) = true) as Hc by (vm_compute; reflexivity).
      rewrite Em in Hc. apply andb_true_iff in Hc as [Hc1%Z.ltb_lt Hc2%Nat.ltb_lt]. split; assumption. }
    destruct (H [OpSetTeid 4096; OpSetSequenceNumber 70000] 9%nat 2123) as (b & m' & ins & m2 & c' & E1 & _ & E3 & _ & _ & E6 & E7).
    + repeat constructor; vm_compute; intuition congruence.
    + reflexivity.
    + exact Hlen.
    + exact Hsz.
    + exists b, m', ins, m2, c'. split; [exact E1|]. split; [exact E3|]. split; [exact E6|exact E7].
Defined.

(** ** What is not conveyed *)

(** C35 The overloads of [set] in the containers of the two Echo messages have no
    instance parameter and so do not override the base class; the container of
    the Modify Bearer Request has no [set] for FQ-CSIDs.  A peer that receives a
    recovery counter or node features in an Echo, or an FQ-CSID in a Modify
    Bearer Request, leaves with an illegal-element exception, whatever the value
    and whatever its container already holds. *)
Theorem unreceivable_elements :
  (forall mc k, mc = gtpv2c_echo_request \/ mc = gtpv2c_echo_response -> k = Krecovery \/ k = Knode_features ->
     forall v i0 n c, kind_of (VCore v) = k -> carries i0 n v ->
       ie_to_container mc i0 c = Throw (gtpc_msg_illegal_ie_exception (base_ie_type k))) /\
  (forall v i0 n c, kind_of (VCore v) = Kfq_csid -> carries i0 n v ->
     ie_to_container gtpv2c_modify_bearer_request i0 c = Throw (gtpc_msg_illegal_ie_exception GTP_IE_FQ_CSID)).
Proof.
  split.
  - intros mc k Hmc Hk v i0 n c Hv Hc. rewrite (ie_to_container_leaf mc i0 n v) by done.
    unfold virtual_set. rewrite Hv. destruct Hmc; destruct Hk; subst; reflexivity.
  - intros v i0 n c Hv Hc. rewrite (ie_to_container_leaf _ i0 n v) by done. unfold virtual_set. by rewrite Hv.
Qed.

Lemma unreceivable_elements_witness :
  let i0 := IeRecovery (recovery_of_core (mk_recovery_t 7)) in
  carries i0 0 (CoreRecovery (mk_recovery_t 7)) /\
  ie_to_container gtpv2c_echo_response i0 (new_container gtpv2c_echo_response) =
    Throw (gtpc_msg_illegal_ie_exception GTP_IE_RECOVERY_RESTART_COUNTER).
Proof.
  intros i0. assert (carries i0 0 (CoreRecovery (mk_recovery_t 7))) as Hc by (split; [reflexivity|split; [reflexivity|discriminate]]).
  split; [exact Hc|].
  apply (proj1 unreceivable_elements gtpv2c_echo_response Krecovery (or_intror eq_refl) (or_introl eq_refl)
    (CoreRecovery (mk_recovery_t 7)) i0 0); [reflexivity|exact Hc].
Defined.

(** The constructor of a Downlink Data Notification sends the IMSI when the bit
    of a Modify Bearer Request's IMSI is up: [set] raises another one. *)
Lemma ddn_imsi_ignored (v : imsi_t) (n : Z) (f f' : fields value) :
  class_set (mc_class gtpv2c_downlink_data_notification) (VCore (CoreImsi v)) n f = Some (Val f') ->
  slot_present (Mask GTPV2C_MODIFY_BEARER_REQUEST_PR_IE_IMSI, "imsi") f' =
  slot_present (Mask GTPV2C_MODIFY_BEARER_REQUEST_PR_IE_IMSI, "imsi") f.
Proof.
  intros [= <-]. unfold slot_present. cbn [fst slot_set slot_raise f_mask]. do 2 f_equal.
  unfold GTPV2C_MODIFY_BEARER_REQUEST_PR_IE_IMSI. apply Z.bits_inj'. intros k Hk. rewrite !Z.land_spec.
  destruct (decide (k = 29)) as [->|Hne].
  - unfold wrapu. rewrite Z.mod_pow2_bits_low, Z.lor_spec by (vm_compute; congruence). by rewrite orb_false_r.
  - rewrite Z.shiftl_spec by lia. change 1 with (2 ^ 0). rewrite Z.pow2_bits_false by lia. by rewrite !andb_false_r.
Qed.

(** A Create Session Response without a cause cannot be built. *)
Lemma create_session_response_needs_cause (j : junk) (c : container) :
  slot_present (First, "cause") (ct_fields c) = false ->
  message_of j create_session_response_message c = Throw gtpc_missing_ie_exception.
Proof.
  intros H.
  assert (exists rest, mg_builds create_session_response_message =
    BuildIe (mk_build_row (First, "cause") Kcause None true) :: rest) as [rest E] by (by eexists).
  unfold message_of. rewrite E. cbn [builds_ies build_ies_of]. unfold row_ies. cbn [b_slot b_required]. by rewrite H.
Qed.
