(* ===== verification/PfcpTlv.v ===== *)
(** * PFCP TLVs and the interface of the information elements

    [src/pfcp/3gpp_29.244.hpp]: [pfcp_tlv] and the virtual interface of
    [pfcp_ie]; [src/common/3gpp_29.244.h]: the exceptions.  Addresses and the
    label form of names are those of [GtpTlv]: the helper functions of the two
    protocols have the same text.

    Many constructors leave members of their object, which is allocated with
    [new], without a value: these hold what the memory held, a [heap].  Spare
    members of the core types, which no code reads, are left out. *)
From S2P Require Import Prelude Stream GtpTlv.
From Stdlib Require Import ZArith Lia String Ascii.
From stdpp Require Import base numbers tactics list strings.
Open Scope Z_scope.

Inductive pfcp_exn :=
| pfcp_msg_bad_length_exception (msg_type hdr_size ie_size check_ie_size : Z)
| pfcp_msg_illegal_ie_exception (msg_type ie_type : Z)
| pfcp_ie_unimplemented_exception (ie_type : Z)
| pfcp_tlv_bad_length_exception (ie_type ie_length : Z)
| pfcp_ie_value_exception (ie_type : Z) (field : string)
| pfcp_length_error.                                   (* [std::length_error] *)

(** What uninitialised memory holds, member by member. *)
Definition heap := nat -> Z.
Definition heap_chars (h : heap) (n : nat) : list Z := h <$> seq 0 n.

(** ** The TLV header *)
Record pfcp_tlv := mk_pfcp_tlv { pt_type : Z; pt_length : Z; pt_enterprise_id : Z }.

Definition pfcp_tlv_init : pfcp_tlv := mk_pfcp_tlv 0 0 0.
Definition pfcp_tlv_ie_length : Z := 4.
Definition pfcp_set_length (l : Z) (t : pfcp_tlv) : pfcp_tlv := mk_pfcp_tlv (pt_type t) (u16 l) (pt_enterprise_id t).
Definition pfcp_add_length (l : Z) (t : pfcp_tlv) : pfcp_tlv := pfcp_set_length (pt_length t + u16 l) t.

(** [pfcp_ie(const uint8_t tlv_type)] followed by [tlv.set_length(l)]. *)
Definition pfcp_tlv_of (type l : Z) : pfcp_tlv := mk_pfcp_tlv (u8 type) (u16 l) 0.

Definition pfcp_tlv_dump_to (t : pfcp_tlv) : list Z :=
  be_bytes 2 (pt_type t) ++ be_bytes 2 (pt_length t) ++
  (if Z.land (pt_type t) 0x8000 =? 0 then [] else be_bytes 2 (pt_enterprise_id t)).

Definition pfcp_tlv_load_from (t : pfcp_tlv) (ins : istream) : pfcp_tlv * istream :=
  let '(ty, ins) := read_be 2 (pt_type t) ins in
  let '(l, ins) := read_be 2 (pt_length t) ins in
  let '(e, ins) := if Z.land ty 0x8000 =? 0 then (pt_enterprise_id t, ins) else read_be 2 (pt_enterprise_id t) ins in
  (mk_pfcp_tlv ty l e, ins).

(** The TLV of a well-formed element of type [ty]. *)
Definition pfcp_tlv_ok (ty : Z) (t : pfcp_tlv) : Prop :=
  pt_type t = ty /\ 0 < pt_length t < 2 ^ 16 /\ pt_enterprise_id t = 0 /\ fits 8 ty.

Lemma no_enterprise ty : fits 8 ty -> Z.land ty 0x8000 = 0.
Proof.
  intros H. change 0x8000 with (2 ^ 15). apply Z.bits_inj'. intros n Hn. rewrite Z.land_spec, Z.bits_0.
  destruct (decide (n = 15)) as [->|Hne].
  - apply andb_false_iff. left. rewrite <- (wrapu_id 8 ty H). unfold wrapu. by apply Z.mod_pow2_bits_high.
  - rewrite Z.pow2_bits_false by lia. apply andb_false_r.
Qed.

Lemma pfcp_tlv_roundtrip ty t rest :
  pfcp_tlv_ok ty t ->
  pfcp_tlv_load_from pfcp_tlv_init (istream_of (pfcp_tlv_dump_to t ++ rest)) = (t, istream_of rest) /\
  length (pfcp_tlv_dump_to t) = 4%nat.
Proof.
  destruct t as [ty' l e]. intros (E & Hl & He & Hty). simpl in E, Hl, He. subst. unfold pfcp_tlv_load_from, pfcp_tlv_dump_to.
  cbn [pt_type pt_length pt_enterprise_id pfcp_tlv_init]. rewrite (no_enterprise ty Hty). change (0 =? 0) with true. cbv match. rewrite app_nil_r. split; [|done].
  stream_norm. stream_step ltac:(unfold fits in *; simpl; lia). stream_step ltac:(unfold fits in *; simpl; lia).
  by rewrite (no_enterprise ty Hty).
Qed.

Lemma pfcp_tlv_ok_of ty l : fits 8 ty -> 0 < l < 2 ^ 16 -> pfcp_tlv_ok ty (pfcp_tlv_of ty l).
Proof.
  intros Hty Hl. unfold pfcp_tlv_of. rewrite (wrapu_id 8 ty) by done. rewrite wrapu_id by (unfold fits; lia).
  split; [done|]. split; [exact Hl|done].
Qed.

Lemma pfcp_add_length_of ty l m : 0 <= l -> 0 <= m -> l + m < 2 ^ 16 ->
  pfcp_add_length m (pfcp_tlv_of ty l) = pfcp_tlv_of ty (l + m).
Proof.
  intros Hl Hm H. unfold pfcp_add_length, pfcp_set_length, pfcp_tlv_of. cbn [pt_type pt_length pt_enterprise_id].
  by rewrite (wrapu_id 16 l), (wrapu_id 16 m) by (unfold fits; lia).
Qed.

Lemma pfcp_set_length_of ty l m : pfcp_set_length m (pfcp_tlv_of ty l) = pfcp_tlv_of ty m.
Proof. done. Qed.

Lemma pfcp_tlv_of_length ty l : fits 16 l -> pt_length (pfcp_tlv_of ty l) = l.
Proof. intros H. by apply wrapu_id. Qed.

(** ** Names *)
Definition chars (s : string) : list Z := (fun a => Z.of_N (N_of_ascii a)) <$> list_ascii_of_string s.
Definition string_of_chars (l : list Z) : string := string_of_list_ascii ((fun z => ascii_of_N (Z.to_N z)) <$> l).

Lemma string_of_chars_chars s : string_of_chars (chars s) = s.
Proof.
  unfold string_of_chars, chars. rewrite <- list_fmap_compose.
  rewrite (list_fmap_ext _ id); [rewrite list_fmap_id; apply string_of_list_ascii_of_string|].
  intros i a _. unfold compose. by rewrite N2Z.id, ascii_N_embedding.
Qed.

(** [string_to_dotted] and [dotted_to_string] of [pfcp_ie]. *)
Definition pfcp_string_to_dotted (h : heap) (str : list Z) : result pfcp_exn (list Z) :=
  match string_to_dotted (heap_chars h (S (length str))) str with Some dt => Val dt | None => Diverge end.

Definition pfcp_dotted_to_string (dt : list Z) : result pfcp_exn (list Z) :=
  match dotted_to_string dt with
  | Some (Val (_, s)) => Val s
  | Some (Throw _) => Throw pfcp_length_error
  | Some UB => UB
  | Some Diverge | None => Diverge
  end.

(** A name that survives: no NUL, short labels. *)
Definition name_ok (s : list Z) : Prop :=
  Forall (fun c => c <> 0) s /\ Z.of_nat (length s) < 255 /\ Forall short_label (labels s).

Lemma pfcp_labels_roundtrip h s : name_ok s ->
  exists dt, pfcp_string_to_dotted h s = Val dt /\ length dt = S (length s) /\ pfcp_dotted_to_string dt = Val s.
Proof.
  intros (Hnz & Hl & Hs). exists (encode_labels (labels s)). unfold pfcp_string_to_dotted, pfcp_dotted_to_string.
  rewrite string_to_dotted_spec by (done || lia). rewrite dotted_to_string_spec by (done || lia).
  split_and!; [done|apply length_encode_labels_from|done].
Qed.

(** ** Addresses as words

    [in6_addr] is sixteen octets; the core types that are compared or hashed
    are modelled by its four 32-bit words. *)
Definition in6_words (a : list Z) : Z * Z * Z * Z :=
  (le_val (take 4 a), le_val (take 4 (drop 4 a)), le_val (take 4 (drop 8 a)), le_val (take 4 (drop 12 a))).
Definition in6_octets (a b c d : Z) : list Z := le_bytes 4 a ++ le_bytes 4 b ++ le_bytes 4 c ++ le_bytes 4 d.

Lemma in6_words_octets a b c d : fits 32 a -> fits 32 b -> fits 32 c -> fits 32 d ->
  in6_words (in6_octets a b c d) = (a, b, c, d).
Proof.
  intros Ha Hb Hc Hd.
  assert (forall z, fits 32 z -> le_val (le_bytes 4 z) = z) as E by (intros z Hz; rewrite le_val_bytes; by apply Z.mod_small).
  pose proof (E a Ha) as Ea. pose proof (E b Hb) as Eb. pose proof (E c Hc) as Ec. pose proof (E d Hd) as Ed. clear E.
  unfold in6_words, in6_octets. cbn [le_bytes app take drop] in *. by rewrite Ea, Eb, Ec, Ed.
Qed.

Lemma length_in6_octets a b c d : length (in6_octets a b c d) = 16%nat.
Proof. done. Qed.

(** ** The interface of an information element

    [A] is the class of the element, [C] its core type. *)
Class PfcpIe (A C : Type) := {
  pie_tlv : A -> pfcp_tlv;
  pie_of_core : heap -> C -> result pfcp_exn A;             (* constructor from the core type *)
  pie_to_core : A -> C;                                    (* into a value-initialised core value *)
  pie_of_tlv : heap -> pfcp_tlv -> A;                      (* constructor from a TLV *)
  pie_dump_to : heap -> A -> result pfcp_exn (list Z * A);  (* may change the object *)
  pie_load_from : A -> istream -> result pfcp_exn (A * istream);
}.

(** What a sound class owes the messages, for the core values [ok] describes:
    the TLV announces the type and the number of octets that follow it, and a
    new object that reads these octets converts to [rx h c] where [h] is what its
    memory held.  [rx h c] is [c] but for the classes that garble their value or
    leave part of it as the memory was. *)
Definition as_sent {C : Type} (h : heap) (c : C) : C := c.
Class PfcpCodec (A C : Type) `{PfcpIe A C} (ty : Z) (ok : C -> Prop) (rx : heap -> C -> C) :=
  pfcp_conveyed : forall h h' c, ok c -> exists a body a',
    pie_of_core h c = Val a /\ pfcp_tlv_ok ty (pie_tlv a) /\
    pie_dump_to h' a = Val (pfcp_tlv_dump_to (pie_tlv a) ++ body, a') /\
    Z.of_nat (length body) = pt_length (pie_tlv a) /\
    forall h'' rest, exists i,
      pie_load_from (pie_of_tlv h'' (pie_tlv a)) (istream_of (body ++ rest)) = Val (i, istream_of rest) /\
      pie_tlv i = pie_tlv a /\ pie_to_core i = rx h'' c.

(** The check most [load_from] methods start with. *)
Definition with_length {A} (t : pfcp_tlv) (n : Z) (k : result pfcp_exn A) : result pfcp_exn A :=
  if pt_length t =? n then k else Throw (pfcp_tlv_bad_length_exception (pt_type t) (pt_length t)).

Lemma with_length_of {A} ty n (k : result pfcp_exn A) : fits 16 n -> with_length (pfcp_tlv_of ty n) n k = k.
Proof. intros H. unfold with_length. by rewrite pfcp_tlv_of_length, Z.eqb_refl. Qed.
