(* ===== verification/PfcpScalar.v ===== *)
(** * PFCP elements of one value or of flags

    [src/pfcp/3gpp_29.244.hpp] with the core types of
    [src/common/3gpp_29.244.h].  For every class [pfcp_X_ie]:
    [pfcp_X_of_core] is the constructor from the core type, [pfcp_X_of_tlv] the
    one from a TLV, [pfcp_X_to_core], [pfcp_X_dump_to] and [pfcp_X_load_from]
    its methods. *)
From S2P Require Import Prelude Stream PfcpTlv.
From Stdlib Require Import ZArith Lia.
From stdpp Require Import base numbers tactics list.
Open Scope Z_scope.

Definition PFCP_IE_CAUSE : Z := 19.
Definition PFCP_IE_SOURCE_INTERFACE : Z := 20.
Definition PFCP_IE_GATE_STATUS : Z := 25.
Definition PFCP_IE_QER_CORRELATION_ID : Z := 28.
Definition PFCP_IE_PRECEDENCE : Z := 29.
Definition PFCP_IE_TIME_THRESHOLD : Z := 32.
Definition PFCP_IE_MONITORING_TIME : Z := 33.
Definition PFCP_IE_SUBSEQUENT_TIME_THRESHOLD : Z := 35.
Definition PFCP_IE_INACTIVITY_DETECTION_TIME : Z := 36.
Definition PFCP_IE_REPORTING_TRIGGERS : Z := 37.
Definition PFCP_IE_REPORT_TYPE : Z := 39.
Definition PFCP_IE_OFFENDING_IE : Z := 40.
Definition PFCP_IE_DESTINATION_INTERFACE : Z := 42.
Definition PFCP_IE_UP_FUNCTION_FEATURES : Z := 43.
Definition PFCP_IE_APPLY_ACTION : Z := 44.
Definition PFCP_IE_PACKET_DETECTION_RULE_ID : Z := 56.
Definition PFCP_IE_URR_ID : Z := 81.
Definition PFCP_IE_BAR_ID : Z := 88.
Definition PFCP_IE_CP_FUNCTION_FEATURES : Z := 89.
Definition PFCP_IE_OUTER_HEADER_REMOVAL : Z := 95.
Definition PFCP_IE_RECOVERY_TIME_STAMP : Z := 96.
Definition PFCP_IE_NODE_REPORT_TYPE : Z := 101.
Definition PFCP_IE_FAR_ID : Z := 108.
Definition PFCP_IE_QER_ID : Z := 109.
Definition PFCP_IE_USER_PLANE_INACTIVITY_TIMER : Z := 117.
Definition PFCP_IE_QFI : Z := 124.

(** An element of one value: the octets are read back as they were written. *)
Ltac scalar_codec load :=
  let c := fresh "c" in let Hc := fresh in intros ? ? c Hc; do 3 eexists; split; [reflexivity|];
  split; [by apply pfcp_tlv_ok_of|]; split; [reflexivity|]; split; [reflexivity|]; intros ? ?; eexists;
  cbn [pie_load_from pie_of_tlv pie_tlv pie_to_core]; unfold load;
  (split; [etrans; [by apply with_length_of|]; stream_norm; stream_step ltac:(exact Hc); reflexivity|]);
  by destruct c.

Lemma bf_bit_pack_0 a l : fits 1 a -> bf_field 0 1 (bf_pack ((1, a) :: l)) = a.
Proof. intros H. rewrite bf_field_pack_0 by lia. by apply wrapu_id. Qed.

Lemma bf_bit_pack_S k a l : 1 <= k -> bf_field k 1 (bf_pack ((1, a) :: l)) = bf_field (k - 1) 1 (bf_pack l).
Proof. intros H. by apply bf_field_pack_skip. Qed.

(** The flags are read back from the octets they are packed in. *)
Ltac flags_simpl :=
  repeat first
    [ rewrite bf_bit_pack_0 by assumption
    | rewrite bf_bit_pack_S by lia;
      match goal with |- context [bf_field ?e 1 _] => let e' := eval vm_compute in e in change e with e' end ];
  bf_simpl.

Ltac flags_codec cls load ok to_core :=
  let c := fresh "c" in let Hc := fresh in intros ? ? c Hc; do 3 eexists; split; [reflexivity|];
  split; [by apply pfcp_tlv_ok_of|]; split; [reflexivity|]; split; [reflexivity|]; intros ? ?; eexists;
  cbn [pie_load_from pie_of_tlv pie_tlv pie_to_core cls]; unfold load;
  (split; [first [etrans; [by apply with_length_of|]|lazymatch goal with |- (if ?e then _ else _) = _ => change e with false end; cbv match]; stream_norm; repeat stream_step done; reflexivity|]);
  (split; [reflexivity|]); unfold ok in Hc; destruct_and?; destruct c; cbn -[bf_pack bf_field fits] in *;
  unfold to_core; cbn -[bf_pack bf_field]; f_equal; flags_simpl; first [reflexivity|assumption].

(** ** Cause *)
Record cause_t := mk_cause_t { cause_cause_value : Z }.
Record pfcp_cause_ie := mk_pfcp_cause_ie { pfcp_cause_tlv : pfcp_tlv; pfcp_cause_cause_value : Z }.

Definition pfcp_cause_of_core (b : cause_t) : pfcp_cause_ie :=
  mk_pfcp_cause_ie (pfcp_tlv_of PFCP_IE_CAUSE 1) (cause_cause_value b).
Definition pfcp_cause_of_tlv (h : heap) (t : pfcp_tlv) : pfcp_cause_ie := mk_pfcp_cause_ie t 0.
Definition pfcp_cause_to_core (i : pfcp_cause_ie) : cause_t := mk_cause_t (pfcp_cause_cause_value i).
Definition pfcp_cause_dump_to (i : pfcp_cause_ie) : list Z * pfcp_cause_ie :=
  (pfcp_tlv_dump_to (pfcp_cause_tlv i) ++ [pfcp_cause_cause_value i], i).
Definition pfcp_cause_load_from (i : pfcp_cause_ie) (ins : istream) : result pfcp_exn (pfcp_cause_ie * istream) :=
  with_length (pfcp_cause_tlv i) 1
    (let '(v, ins) := read_u8 (pfcp_cause_cause_value i) ins in Val (mk_pfcp_cause_ie (pfcp_cause_tlv i) v, ins)).

#[export] Instance pfcp_cause_class : PfcpIe pfcp_cause_ie cause_t := {|
  pie_tlv := pfcp_cause_tlv; pie_of_core h b := Val (pfcp_cause_of_core b); pie_to_core := pfcp_cause_to_core;
  pie_of_tlv := pfcp_cause_of_tlv; pie_dump_to h i := Val (pfcp_cause_dump_to i); pie_load_from := pfcp_cause_load_from;
|}.

#[export] Instance pfcp_cause_codec : PfcpCodec pfcp_cause_ie cause_t PFCP_IE_CAUSE (fun b => fits 8 (cause_cause_value b)) as_sent.
Proof. scalar_codec pfcp_cause_load_from. Qed.

(** ** Source Interface *)
Record source_interface_t := mk_source_interface_t { source_interface_interface_value : Z }.
Record pfcp_source_interface_ie := mk_pfcp_source_interface_ie { pfcp_source_interface_tlv : pfcp_tlv; pfcp_source_interface_interface_value : Z }.

Definition pfcp_source_interface_of_core (b : source_interface_t) : pfcp_source_interface_ie :=
  mk_pfcp_source_interface_ie (pfcp_tlv_of PFCP_IE_SOURCE_INTERFACE 1) (source_interface_interface_value b).
Definition pfcp_source_interface_of_tlv (h : heap) (t : pfcp_tlv) : pfcp_source_interface_ie := mk_pfcp_source_interface_ie t 255.
Definition pfcp_source_interface_to_core (i : pfcp_source_interface_ie) : source_interface_t := mk_source_interface_t (pfcp_source_interface_interface_value i).
Definition pfcp_source_interface_dump_to (i : pfcp_source_interface_ie) : list Z * pfcp_source_interface_ie :=
  (pfcp_tlv_dump_to (pfcp_source_interface_tlv i) ++ [pfcp_source_interface_interface_value i], i).
Definition pfcp_source_interface_load_from (i : pfcp_source_interface_ie) (ins : istream) : result pfcp_exn (pfcp_source_interface_ie * istream) :=
  with_length (pfcp_source_interface_tlv i) 1
    (let '(v, ins) := read_u8 (pfcp_source_interface_interface_value i) ins in Val (mk_pfcp_source_interface_ie (pfcp_source_interface_tlv i) v, ins)).

#[export] Instance pfcp_source_interface_class : PfcpIe pfcp_source_interface_ie source_interface_t := {|
  pie_tlv := pfcp_source_interface_tlv; pie_of_core h b := Val (pfcp_source_interface_of_core b); pie_to_core := pfcp_source_interface_to_core;
  pie_of_tlv := pfcp_source_interface_of_tlv; pie_dump_to h i := Val (pfcp_source_interface_dump_to i); pie_load_from := pfcp_source_interface_load_from;
|}.

#[export] Instance pfcp_source_interface_codec : PfcpCodec pfcp_source_interface_ie source_interface_t PFCP_IE_SOURCE_INTERFACE (fun b => fits 8 (source_interface_interface_value b)) as_sent.
Proof. scalar_codec pfcp_source_interface_load_from. Qed.

(** ** QER Correlation ID

    [load_from] expects one octet where [dump_to] writes four. *)
Record qer_correlation_id_t := mk_qer_correlation_id_t { qer_correlation_id_qer_correlation_id : Z }.
Record pfcp_qer_correlation_id_ie := mk_pfcp_qer_correlation_id_ie { pfcp_qer_correlation_id_tlv : pfcp_tlv; pfcp_qer_correlation_id_qer_correlation_id : Z }.

Definition pfcp_qer_correlation_id_of_core (b : qer_correlation_id_t) : pfcp_qer_correlation_id_ie :=
  mk_pfcp_qer_correlation_id_ie (pfcp_tlv_of PFCP_IE_QER_CORRELATION_ID 4) (qer_correlation_id_qer_correlation_id b).
Definition pfcp_qer_correlation_id_of_tlv (h : heap) (t : pfcp_tlv) : pfcp_qer_correlation_id_ie := mk_pfcp_qer_correlation_id_ie t 0.
Definition pfcp_qer_correlation_id_to_core (i : pfcp_qer_correlation_id_ie) : qer_correlation_id_t := mk_qer_correlation_id_t (pfcp_qer_correlation_id_qer_correlation_id i).
Definition pfcp_qer_correlation_id_dump_to (i : pfcp_qer_correlation_id_ie) : list Z * pfcp_qer_correlation_id_ie :=
  (pfcp_tlv_dump_to (pfcp_qer_correlation_id_tlv i) ++ be_bytes 4 (pfcp_qer_correlation_id_qer_correlation_id i), i).
Definition pfcp_qer_correlation_id_load_from (i : pfcp_qer_correlation_id_ie) (ins : istream) : result pfcp_exn (pfcp_qer_correlation_id_ie * istream) :=
  with_length (pfcp_qer_correlation_id_tlv i) 1
    (let '(v, ins) := read_be 4 (pfcp_qer_correlation_id_qer_correlation_id i) ins in Val (mk_pfcp_qer_correlation_id_ie (pfcp_qer_correlation_id_tlv i) v, ins)).

#[export] Instance pfcp_qer_correlation_id_class : PfcpIe pfcp_qer_correlation_id_ie qer_correlation_id_t := {|
  pie_tlv := pfcp_qer_correlation_id_tlv; pie_of_core h b := Val (pfcp_qer_correlation_id_of_core b); pie_to_core := pfcp_qer_correlation_id_to_core;
  pie_of_tlv := pfcp_qer_correlation_id_of_tlv; pie_dump_to h i := Val (pfcp_qer_correlation_id_dump_to i); pie_load_from := pfcp_qer_correlation_id_load_from;
|}.

(** ** Precedence *)
Record precedence_t := mk_precedence_t { precedence_precedence : Z }.
Record pfcp_precedence_ie := mk_pfcp_precedence_ie { pfcp_precedence_tlv : pfcp_tlv; pfcp_precedence_precedence : Z }.

Definition pfcp_precedence_of_core (b : precedence_t) : pfcp_precedence_ie :=
  mk_pfcp_precedence_ie (pfcp_tlv_of PFCP_IE_PRECEDENCE 4) (precedence_precedence b).
Definition pfcp_precedence_of_tlv (h : heap) (t : pfcp_tlv) : pfcp_precedence_ie := mk_pfcp_precedence_ie t 0.
Definition pfcp_precedence_to_core (i : pfcp_precedence_ie) : precedence_t := mk_precedence_t (pfcp_precedence_precedence i).
Definition pfcp_precedence_dump_to (i : pfcp_precedence_ie) : list Z * pfcp_precedence_ie :=
  (pfcp_tlv_dump_to (pfcp_precedence_tlv i) ++ be_bytes 4 (pfcp_precedence_precedence i), i).
Definition pfcp_precedence_load_from (i : pfcp_precedence_ie) (ins : istream) : result pfcp_exn (pfcp_precedence_ie * istream) :=
  with_length (pfcp_precedence_tlv i) 4
    (let '(v, ins) := read_be 4 (pfcp_precedence_precedence i) ins in Val (mk_pfcp_precedence_ie (pfcp_precedence_tlv i) v, ins)).

#[export] Instance pfcp_precedence_class : PfcpIe pfcp_precedence_ie precedence_t := {|
  pie_tlv := pfcp_precedence_tlv; pie_of_core h b := Val (pfcp_precedence_of_core b); pie_to_core := pfcp_precedence_to_core;
  pie_of_tlv := pfcp_precedence_of_tlv; pie_dump_to h i := Val (pfcp_precedence_dump_to i); pie_load_from := pfcp_precedence_load_from;
|}.

#[export] Instance pfcp_precedence_codec : PfcpCodec pfcp_precedence_ie precedence_t PFCP_IE_PRECEDENCE (fun b => fits 32 (precedence_precedence b)) as_sent.
Proof. scalar_codec pfcp_precedence_load_from. Qed.

(** ** Time Threshold *)
Record time_threshold_t := mk_time_threshold_t { time_threshold_time_threshold : Z }.
Record pfcp_time_threshold_ie := mk_pfcp_time_threshold_ie { pfcp_time_threshold_tlv : pfcp_tlv; pfcp_time_threshold_time_threshold : Z }.

Definition pfcp_time_threshold_of_core (b : time_threshold_t) : pfcp_time_threshold_ie :=
  mk_pfcp_time_threshold_ie (pfcp_tlv_of PFCP_IE_TIME_THRESHOLD 4) (time_threshold_time_threshold b).
Definition pfcp_time_threshold_of_tlv (h : heap) (t : pfcp_tlv) : pfcp_time_threshold_ie := mk_pfcp_time_threshold_ie t 0.
Definition pfcp_time_threshold_to_core (i : pfcp_time_threshold_ie) : time_threshold_t := mk_time_threshold_t (pfcp_time_threshold_time_threshold i).
Definition pfcp_time_threshold_dump_to (i : pfcp_time_threshold_ie) : list Z * pfcp_time_threshold_ie :=
  (pfcp_tlv_dump_to (pfcp_time_threshold_tlv i) ++ be_bytes 4 (pfcp_time_threshold_time_threshold i), i).
Definition pfcp_time_threshold_load_from (i : pfcp_time_threshold_ie) (ins : istream) : result pfcp_exn (pfcp_time_threshold_ie * istream) :=
  with_length (pfcp_time_threshold_tlv i) 4
    (let '(v, ins) := read_be 4 (pfcp_time_threshold_time_threshold i) ins in Val (mk_pfcp_time_threshold_ie (pfcp_time_threshold_tlv i) v, ins)).

#[export] Instance pfcp_time_threshold_class : PfcpIe pfcp_time_threshold_ie time_threshold_t := {|
  pie_tlv := pfcp_time_threshold_tlv; pie_of_core h b := Val (pfcp_time_threshold_of_core b); pie_to_core := pfcp_time_threshold_to_core;
  pie_of_tlv := pfcp_time_threshold_of_tlv; pie_dump_to h i := Val (pfcp_time_threshold_dump_to i); pie_load_from := pfcp_time_threshold_load_from;
|}.

#[export] Instance pfcp_time_threshold_codec : PfcpCodec pfcp_time_threshold_ie time_threshold_t PFCP_IE_TIME_THRESHOLD (fun b => fits 32 (time_threshold_time_threshold b)) as_sent.
Proof. scalar_codec pfcp_time_threshold_load_from. Qed.

(** ** Monitoring Time *)
Record monitoring_time_t := mk_monitoring_time_t { monitoring_time_monitoring_time : Z }.
Record pfcp_monitoring_time_ie := mk_pfcp_monitoring_time_ie { pfcp_monitoring_time_tlv : pfcp_tlv; pfcp_monitoring_time_monitoring_time : Z }.

Definition pfcp_monitoring_time_of_core (b : monitoring_time_t) : pfcp_monitoring_time_ie :=
  mk_pfcp_monitoring_time_ie (pfcp_tlv_of PFCP_IE_MONITORING_TIME 4) (monitoring_time_monitoring_time b).
Definition pfcp_monitoring_time_of_tlv (h : heap) (t : pfcp_tlv) : pfcp_monitoring_time_ie := mk_pfcp_monitoring_time_ie t 0.
Definition pfcp_monitoring_time_to_core (i : pfcp_monitoring_time_ie) : monitoring_time_t := mk_monitoring_time_t (pfcp_monitoring_time_monitoring_time i).
Definition pfcp_monitoring_time_dump_to (i : pfcp_monitoring_time_ie) : list Z * pfcp_monitoring_time_ie :=
  (pfcp_tlv_dump_to (pfcp_monitoring_time_tlv i) ++ be_bytes 4 (pfcp_monitoring_time_monitoring_time i), i).
Definition pfcp_monitoring_time_load_from (i : pfcp_monitoring_time_ie) (ins : istream) : result pfcp_exn (pfcp_monitoring_time_ie * istream) :=
  with_length (pfcp_monitoring_time_tlv i) 4
    (let '(v, ins) := read_be 4 (pfcp_monitoring_time_monitoring_time i) ins in Val (mk_pfcp_monitoring_time_ie (pfcp_monitoring_time_tlv i) v, ins)).

#[export] Instance pfcp_monitoring_time_class : PfcpIe pfcp_monitoring_time_ie monitoring_time_t := {|
  pie_tlv := pfcp_monitoring_time_tlv; pie_of_core h b := Val (pfcp_monitoring_time_of_core b); pie_to_core := pfcp_monitoring_time_to_core;
  pie_of_tlv := pfcp_monitoring_time_of_tlv; pie_dump_to h i := Val (pfcp_monitoring_time_dump_to i); pie_load_from := pfcp_monitoring_time_load_from;
|}.

#[export] Instance pfcp_monitoring_time_codec : PfcpCodec pfcp_monitoring_time_ie monitoring_time_t PFCP_IE_MONITORING_TIME (fun b => fits 32 (monitoring_time_monitoring_time b)) as_sent.
Proof. scalar_codec pfcp_monitoring_time_load_from. Qed.

(** ** Subsequent Time Threshold *)
Record subsequent_time_threshold_t := mk_subsequent_time_threshold_t { subsequent_time_threshold_subsequent_time_threshold : Z }.
Record pfcp_subsequent_time_threshold_ie := mk_pfcp_subsequent_time_threshold_ie { pfcp_subsequent_time_threshold_tlv : pfcp_tlv; pfcp_subsequent_time_threshold_subsequent_time_threshold : Z }.

Definition pfcp_subsequent_time_threshold_of_core (b : subsequent_time_threshold_t) : pfcp_subsequent_time_threshold_ie :=
  mk_pfcp_subsequent_time_threshold_ie (pfcp_tlv_of PFCP_IE_SUBSEQUENT_TIME_THRESHOLD 4) (subsequent_time_threshold_subsequent_time_threshold b).
Definition pfcp_subsequent_time_threshold_of_tlv (h : heap) (t : pfcp_tlv) : pfcp_subsequent_time_threshold_ie := mk_pfcp_subsequent_time_threshold_ie t 0.
Definition pfcp_subsequent_time_threshold_to_core (i : pfcp_subsequent_time_threshold_ie) : subsequent_time_threshold_t := mk_subsequent_time_threshold_t (pfcp_subsequent_time_threshold_subsequent_time_threshold i).
Definition pfcp_subsequent_time_threshold_dump_to (i : pfcp_subsequent_time_threshold_ie) : list Z * pfcp_subsequent_time_threshold_ie :=
  (pfcp_tlv_dump_to (pfcp_subsequent_time_threshold_tlv i) ++ be_bytes 4 (pfcp_subsequent_time_threshold_subsequent_time_threshold i), i).
Definition pfcp_subsequent_time_threshold_load_from (i : pfcp_subsequent_time_threshold_ie) (ins : istream) : result pfcp_exn (pfcp_subsequent_time_threshold_ie * istream) :=
  with_length (pfcp_subsequent_time_threshold_tlv i) 4
    (let '(v, ins) := read_be 4 (pfcp_subsequent_time_threshold_subsequent_time_threshold i) ins in Val (mk_pfcp_subsequent_time_threshold_ie (pfcp_subsequent_time_threshold_tlv i) v, ins)).

#[export] Instance pfcp_subsequent_time_threshold_class : PfcpIe pfcp_subsequent_time_threshold_ie subsequent_time_threshold_t := {|
  pie_tlv := pfcp_subsequent_time_threshold_tlv; pie_of_core h b := Val (pfcp_subsequent_time_threshold_of_core b); pie_to_core := pfcp_subsequent_time_threshold_to_core;
  pie_of_tlv := pfcp_subsequent_time_threshold_of_tlv; pie_dump_to h i := Val (pfcp_subsequent_time_threshold_dump_to i); pie_load_from := pfcp_subsequent_time_threshold_load_from;
|}.

#[export] Instance pfcp_subsequent_time_threshold_codec : PfcpCodec pfcp_subsequent_time_threshold_ie subsequent_time_threshold_t PFCP_IE_SUBSEQUENT_TIME_THRESHOLD (fun b => fits 32 (subsequent_time_threshold_subsequent_time_threshold b)) as_sent.
Proof. scalar_codec pfcp_subsequent_time_threshold_load_from. Qed.

(** ** Inactivity Detection Time *)
Record inactivity_detection_time_t := mk_inactivity_detection_time_t { inactivity_detection_time_inactivity_detection_time : Z }.
Record pfcp_inactivity_detection_time_ie := mk_pfcp_inactivity_detection_time_ie { pfcp_inactivity_detection_time_tlv : pfcp_tlv; pfcp_inactivity_detection_time_inactivity_detection_time : Z }.

Definition pfcp_inactivity_detection_time_of_core (b : inactivity_detection_time_t) : pfcp_inactivity_detection_time_ie :=
  mk_pfcp_inactivity_detection_time_ie (pfcp_tlv_of PFCP_IE_INACTIVITY_DETECTION_TIME 4) (inactivity_detection_time_inactivity_detection_time b).
Definition pfcp_inactivity_detection_time_of_tlv (h : heap) (t : pfcp_tlv) : pfcp_inactivity_detection_time_ie := mk_pfcp_inactivity_detection_time_ie t 0.
Definition pfcp_inactivity_detection_time_to_core (i : pfcp_inactivity_detection_time_ie) : inactivity_detection_time_t := mk_inactivity_detection_time_t (pfcp_inactivity_detection_time_inactivity_detection_time i).
Definition pfcp_inactivity_detection_time_dump_to (i : pfcp_inactivity_detection_time_ie) : list Z * pfcp_inactivity_detection_time_ie :=
  (pfcp_tlv_dump_to (pfcp_inactivity_detection_time_tlv i) ++ be_bytes 4 (pfcp_inactivity_detection_time_inactivity_detection_time i), i).
Definition pfcp_inactivity_detection_time_load_from (i : pfcp_inactivity_detection_time_ie) (ins : istream) : result pfcp_exn (pfcp_inactivity_detection_time_ie * istream) :=
  with_length (pfcp_inactivity_detection_time_tlv i) 4
    (let '(v, ins) := read_be 4 (pfcp_inactivity_detection_time_inactivity_detection_time i) ins in Val (mk_pfcp_inactivity_detection_time_ie (pfcp_inactivity_detection_time_tlv i) v, ins)).

#[export] Instance pfcp_inactivity_detection_time_class : PfcpIe pfcp_inactivity_detection_time_ie inactivity_detection_time_t := {|
  pie_tlv := pfcp_inactivity_detection_time_tlv; pie_of_core h b := Val (pfcp_inactivity_detection_time_of_core b); pie_to_core := pfcp_inactivity_detection_time_to_core;
  pie_of_tlv := pfcp_inactivity_detection_time_of_tlv; pie_dump_to h i := Val (pfcp_inactivity_detection_time_dump_to i); pie_load_from := pfcp_inactivity_detection_time_load_from;
|}.

#[export] Instance pfcp_inactivity_detection_time_codec : PfcpCodec pfcp_inactivity_detection_time_ie inactivity_detection_time_t PFCP_IE_INACTIVITY_DETECTION_TIME (fun b => fits 32 (inactivity_detection_time_inactivity_detection_time b)) as_sent.
Proof. scalar_codec pfcp_inactivity_detection_time_load_from. Qed.

(** ** Offending IE *)
Record offending_ie_t := mk_offending_ie_t { offending_ie_offending_ie : Z }.
Record pfcp_offending_ie_ie := mk_pfcp_offending_ie_ie { pfcp_offending_ie_tlv : pfcp_tlv; pfcp_offending_ie_type_of_the_offending_ie : Z }.

Definition pfcp_offending_ie_of_core (b : offending_ie_t) : pfcp_offending_ie_ie :=
  mk_pfcp_offending_ie_ie (pfcp_tlv_of PFCP_IE_OFFENDING_IE 2) (offending_ie_offending_ie b).
Definition pfcp_offending_ie_of_tlv (h : heap) (t : pfcp_tlv) : pfcp_offending_ie_ie := mk_pfcp_offending_ie_ie t 0.
Definition pfcp_offending_ie_to_core (i : pfcp_offending_ie_ie) : offending_ie_t := mk_offending_ie_t (pfcp_offending_ie_type_of_the_offending_ie i).
Definition pfcp_offending_ie_dump_to (i : pfcp_offending_ie_ie) : list Z * pfcp_offending_ie_ie :=
  (pfcp_tlv_dump_to (pfcp_offending_ie_tlv i) ++ be_bytes 2 (pfcp_offending_ie_type_of_the_offending_ie i), i).
Definition pfcp_offending_ie_load_from (i : pfcp_offending_ie_ie) (ins : istream) : result pfcp_exn (pfcp_offending_ie_ie * istream) :=
  with_length (pfcp_offending_ie_tlv i) 2
    (let '(v, ins) := read_be 2 (pfcp_offending_ie_type_of_the_offending_ie i) ins in Val (mk_pfcp_offending_ie_ie (pfcp_offending_ie_tlv i) v, ins)).

#[export] Instance pfcp_offending_ie_class : PfcpIe pfcp_offending_ie_ie offending_ie_t := {|
  pie_tlv := pfcp_offending_ie_tlv; pie_of_core h b := Val (pfcp_offending_ie_of_core b); pie_to_core := pfcp_offending_ie_to_core;
  pie_of_tlv := pfcp_offending_ie_of_tlv; pie_dump_to h i := Val (pfcp_offending_ie_dump_to i); pie_load_from := pfcp_offending_ie_load_from;
|}.

#[export] Instance pfcp_offending_ie_codec : PfcpCodec pfcp_offending_ie_ie offending_ie_t PFCP_IE_OFFENDING_IE (fun b => fits 16 (offending_ie_offending_ie b)) as_sent.
Proof. scalar_codec pfcp_offending_ie_load_from. Qed.

(** ** Destination Interface *)
Record destination_interface_t := mk_destination_interface_t { destination_interface_interface_value : Z }.
Record pfcp_destination_interface_ie := mk_pfcp_destination_interface_ie { pfcp_destination_interface_tlv : pfcp_tlv; pfcp_destination_interface_interface_value : Z }.

Definition pfcp_destination_interface_of_core (b : destination_interface_t) : pfcp_destination_interface_ie :=
  mk_pfcp_destination_interface_ie (pfcp_tlv_of PFCP_IE_DESTINATION_INTERFACE 1) (destination_interface_interface_value b).
Definition pfcp_destination_interface_of_tlv (h : heap) (t : pfcp_tlv) : pfcp_destination_interface_ie := mk_pfcp_destination_interface_ie t 255.
Definition pfcp_destination_interface_to_core (i : pfcp_destination_interface_ie) : destination_interface_t := mk_destination_interface_t (pfcp_destination_interface_interface_value i).
Definition pfcp_destination_interface_dump_to (i : pfcp_destination_interface_ie) : list Z * pfcp_destination_interface_ie :=
  (pfcp_tlv_dump_to (pfcp_destination_interface_tlv i) ++ [pfcp_destination_interface_interface_value i], i).
Definition pfcp_destination_interface_load_from (i : pfcp_destination_interface_ie) (ins : istream) : result pfcp_exn (pfcp_destination_interface_ie * istream) :=
  with_length (pfcp_destination_interface_tlv i) 1
    (let '(v, ins) := read_u8 (pfcp_destination_interface_interface_value i) ins in Val (mk_pfcp_destination_interface_ie (pfcp_destination_interface_tlv i) v, ins)).

#[export] Instance pfcp_destination_interface_class : PfcpIe pfcp_destination_interface_ie destination_interface_t := {|
  pie_tlv := pfcp_destination_interface_tlv; pie_of_core h b := Val (pfcp_destination_interface_of_core b); pie_to_core := pfcp_destination_interface_to_core;
  pie_of_tlv := pfcp_destination_interface_of_tlv; pie_dump_to h i := Val (pfcp_destination_interface_dump_to i); pie_load_from := pfcp_destination_interface_load_from;
|}.

#[export] Instance pfcp_destination_interface_codec : PfcpCodec pfcp_destination_interface_ie destination_interface_t PFCP_IE_DESTINATION_INTERFACE (fun b => fits 8 (destination_interface_interface_value b)) as_sent.
Proof. scalar_codec pfcp_destination_interface_load_from. Qed.

(** ** PDR ID *)
Record pdr_id_t := mk_pdr_id_t { pdr_id_rule_id : Z }.
Record pfcp_pdr_id_ie := mk_pfcp_pdr_id_ie { pfcp_pdr_id_tlv : pfcp_tlv; pfcp_pdr_id_rule_id : Z }.

Definition pfcp_pdr_id_of_core (b : pdr_id_t) : pfcp_pdr_id_ie :=
  mk_pfcp_pdr_id_ie (pfcp_tlv_of PFCP_IE_PACKET_DETECTION_RULE_ID 2) (pdr_id_rule_id b).
Definition pfcp_pdr_id_of_tlv (h : heap) (t : pfcp_tlv) : pfcp_pdr_id_ie := mk_pfcp_pdr_id_ie t 0.
Definition pfcp_pdr_id_to_core (i : pfcp_pdr_id_ie) : pdr_id_t := mk_pdr_id_t (pfcp_pdr_id_rule_id i).
Definition pfcp_pdr_id_dump_to (i : pfcp_pdr_id_ie) : list Z * pfcp_pdr_id_ie :=
  (pfcp_tlv_dump_to (pfcp_pdr_id_tlv i) ++ be_bytes 2 (pfcp_pdr_id_rule_id i), i).
Definition pfcp_pdr_id_load_from (i : pfcp_pdr_id_ie) (ins : istream) : result pfcp_exn (pfcp_pdr_id_ie * istream) :=
  with_length (pfcp_pdr_id_tlv i) 2
    (let '(v, ins) := read_be 2 (pfcp_pdr_id_rule_id i) ins in Val (mk_pfcp_pdr_id_ie (pfcp_pdr_id_tlv i) v, ins)).

#[export] Instance pfcp_pdr_id_class : PfcpIe pfcp_pdr_id_ie pdr_id_t := {|
  pie_tlv := pfcp_pdr_id_tlv; pie_of_core h b := Val (pfcp_pdr_id_of_core b); pie_to_core := pfcp_pdr_id_to_core;
  pie_of_tlv := pfcp_pdr_id_of_tlv; pie_dump_to h i := Val (pfcp_pdr_id_dump_to i); pie_load_from := pfcp_pdr_id_load_from;
|}.

#[export] Instance pfcp_pdr_id_codec : PfcpCodec pfcp_pdr_id_ie pdr_id_t PFCP_IE_PACKET_DETECTION_RULE_ID (fun b => fits 16 (pdr_id_rule_id b)) as_sent.
Proof. scalar_codec pfcp_pdr_id_load_from. Qed.

(** ** URR ID

    [dump_to] writes the value in host order, [load_from] reads network order. *)
Record urr_id_t := mk_urr_id_t { urr_id_urr_id : Z }.
Record pfcp_urr_id_ie := mk_pfcp_urr_id_ie { pfcp_urr_id_tlv : pfcp_tlv; pfcp_urr_id_urr_id : Z }.

Definition pfcp_urr_id_of_core (b : urr_id_t) : pfcp_urr_id_ie :=
  mk_pfcp_urr_id_ie (pfcp_tlv_of PFCP_IE_URR_ID 4) (urr_id_urr_id b).
Definition pfcp_urr_id_of_tlv (h : heap) (t : pfcp_tlv) : pfcp_urr_id_ie := mk_pfcp_urr_id_ie t (h 0%nat).
Definition pfcp_urr_id_to_core (i : pfcp_urr_id_ie) : urr_id_t := mk_urr_id_t (pfcp_urr_id_urr_id i).
Definition pfcp_urr_id_dump_to (i : pfcp_urr_id_ie) : list Z * pfcp_urr_id_ie :=
  (pfcp_tlv_dump_to (pfcp_urr_id_tlv i) ++ le_bytes 4 (pfcp_urr_id_urr_id i), i).
Definition pfcp_urr_id_load_from (i : pfcp_urr_id_ie) (ins : istream) : result pfcp_exn (pfcp_urr_id_ie * istream) :=
  with_length (pfcp_urr_id_tlv i) 4
    (let '(v, ins) := read_be 4 (pfcp_urr_id_urr_id i) ins in Val (mk_pfcp_urr_id_ie (pfcp_urr_id_tlv i) v, ins)).

#[export] Instance pfcp_urr_id_class : PfcpIe pfcp_urr_id_ie urr_id_t := {|
  pie_tlv := pfcp_urr_id_tlv; pie_of_core h b := Val (pfcp_urr_id_of_core b); pie_to_core := pfcp_urr_id_to_core;
  pie_of_tlv := pfcp_urr_id_of_tlv; pie_dump_to h i := Val (pfcp_urr_id_dump_to i); pie_load_from := pfcp_urr_id_load_from;
|}.

(** ** BAR ID *)
Record bar_id_t := mk_bar_id_t { bar_id_bar_id : Z }.
Record pfcp_bar_id_ie := mk_pfcp_bar_id_ie { pfcp_bar_id_tlv : pfcp_tlv; pfcp_bar_id_bar_id : Z }.

Definition pfcp_bar_id_of_core (b : bar_id_t) : pfcp_bar_id_ie :=
  mk_pfcp_bar_id_ie (pfcp_tlv_of PFCP_IE_BAR_ID 1) (bar_id_bar_id b).
Definition pfcp_bar_id_of_tlv (h : heap) (t : pfcp_tlv) : pfcp_bar_id_ie := mk_pfcp_bar_id_ie t 0.
Definition pfcp_bar_id_to_core (i : pfcp_bar_id_ie) : bar_id_t := mk_bar_id_t (pfcp_bar_id_bar_id i).
Definition pfcp_bar_id_dump_to (i : pfcp_bar_id_ie) : list Z * pfcp_bar_id_ie :=
  (pfcp_tlv_dump_to (pfcp_bar_id_tlv i) ++ [pfcp_bar_id_bar_id i], i).
Definition pfcp_bar_id_load_from (i : pfcp_bar_id_ie) (ins : istream) : result pfcp_exn (pfcp_bar_id_ie * istream) :=
  with_length (pfcp_bar_id_tlv i) 1
    (let '(v, ins) := read_u8 (pfcp_bar_id_bar_id i) ins in Val (mk_pfcp_bar_id_ie (pfcp_bar_id_tlv i) v, ins)).

#[export] Instance pfcp_bar_id_class : PfcpIe pfcp_bar_id_ie bar_id_t := {|
  pie_tlv := pfcp_bar_id_tlv; pie_of_core h b := Val (pfcp_bar_id_of_core b); pie_to_core := pfcp_bar_id_to_core;
  pie_of_tlv := pfcp_bar_id_of_tlv; pie_dump_to h i := Val (pfcp_bar_id_dump_to i); pie_load_from := pfcp_bar_id_load_from;
|}.

#[export] Instance pfcp_bar_id_codec : PfcpCodec pfcp_bar_id_ie bar_id_t PFCP_IE_BAR_ID (fun b => fits 8 (bar_id_bar_id b)) as_sent.
Proof. scalar_codec pfcp_bar_id_load_from. Qed.

(** ** Outer Header Removal *)
Record outer_header_removal_t := mk_outer_header_removal_t { outer_header_removal_description : Z }.
Record pfcp_outer_header_removal_ie := mk_pfcp_outer_header_removal_ie { pfcp_outer_header_removal_tlv : pfcp_tlv; pfcp_outer_header_removal_description : Z }.

Definition pfcp_outer_header_removal_of_core (b : outer_header_removal_t) : pfcp_outer_header_removal_ie :=
  mk_pfcp_outer_header_removal_ie (pfcp_tlv_of PFCP_IE_OUTER_HEADER_REMOVAL 1) (outer_header_removal_description b).
Definition pfcp_outer_header_removal_of_tlv (h : heap) (t : pfcp_tlv) : pfcp_outer_header_removal_ie := mk_pfcp_outer_header_removal_ie t (h 0%nat).
Definition pfcp_outer_header_removal_to_core (i : pfcp_outer_header_removal_ie) : outer_header_removal_t := mk_outer_header_removal_t (pfcp_outer_header_removal_description i).
Definition pfcp_outer_header_removal_dump_to (i : pfcp_outer_header_removal_ie) : list Z * pfcp_outer_header_removal_ie :=
  let t := pfcp_set_length 1 (pfcp_outer_header_removal_tlv i) in
  (pfcp_tlv_dump_to t ++ [pfcp_outer_header_removal_description i], mk_pfcp_outer_header_removal_ie t (pfcp_outer_header_removal_description i)).
Definition pfcp_outer_header_removal_load_from (i : pfcp_outer_header_removal_ie) (ins : istream) : result pfcp_exn (pfcp_outer_header_removal_ie * istream) :=
  with_length (pfcp_outer_header_removal_tlv i) 1
    (let '(v, ins) := read_u8 (pfcp_outer_header_removal_description i) ins in Val (mk_pfcp_outer_header_removal_ie (pfcp_outer_header_removal_tlv i) v, ins)).

#[export] Instance pfcp_outer_header_removal_class : PfcpIe pfcp_outer_header_removal_ie outer_header_removal_t := {|
  pie_tlv := pfcp_outer_header_removal_tlv; pie_of_core h b := Val (pfcp_outer_header_removal_of_core b); pie_to_core := pfcp_outer_header_removal_to_core;
  pie_of_tlv := pfcp_outer_header_removal_of_tlv; pie_dump_to h i := Val (pfcp_outer_header_removal_dump_to i); pie_load_from := pfcp_outer_header_removal_load_from;
|}.

#[export] Instance pfcp_outer_header_removal_codec : PfcpCodec pfcp_outer_header_removal_ie outer_header_removal_t PFCP_IE_OUTER_HEADER_REMOVAL (fun b => fits 8 (outer_header_removal_description b)) as_sent.
Proof. scalar_codec pfcp_outer_header_removal_load_from. Qed.

(** ** Recovery Time Stamp *)
Record recovery_time_stamp_t := mk_recovery_time_stamp_t { recovery_time_stamp_recovery_time_stamp : Z }.
Record pfcp_recovery_time_stamp_ie := mk_pfcp_recovery_time_stamp_ie { pfcp_recovery_time_stamp_tlv : pfcp_tlv; pfcp_recovery_time_stamp_recovery_time_stamp : Z }.

Definition pfcp_recovery_time_stamp_of_core (b : recovery_time_stamp_t) : pfcp_recovery_time_stamp_ie :=
  mk_pfcp_recovery_time_stamp_ie (pfcp_tlv_of PFCP_IE_RECOVERY_TIME_STAMP 4) (recovery_time_stamp_recovery_time_stamp b).
Definition pfcp_recovery_time_stamp_of_tlv (h : heap) (t : pfcp_tlv) : pfcp_recovery_time_stamp_ie := mk_pfcp_recovery_time_stamp_ie t 0.
Definition pfcp_recovery_time_stamp_to_core (i : pfcp_recovery_time_stamp_ie) : recovery_time_stamp_t := mk_recovery_time_stamp_t (pfcp_recovery_time_stamp_recovery_time_stamp i).
Definition pfcp_recovery_time_stamp_dump_to (i : pfcp_recovery_time_stamp_ie) : list Z * pfcp_recovery_time_stamp_ie :=
  (pfcp_tlv_dump_to (pfcp_recovery_time_stamp_tlv i) ++ be_bytes 4 (pfcp_recovery_time_stamp_recovery_time_stamp i), i).
Definition pfcp_recovery_time_stamp_load_from (i : pfcp_recovery_time_stamp_ie) (ins : istream) : result pfcp_exn (pfcp_recovery_time_stamp_ie * istream) :=
  with_length (pfcp_recovery_time_stamp_tlv i) 4
    (let '(v, ins) := read_be 4 (pfcp_recovery_time_stamp_recovery_time_stamp i) ins in Val (mk_pfcp_recovery_time_stamp_ie (pfcp_recovery_time_stamp_tlv i) v, ins)).

#[export] Instance pfcp_recovery_time_stamp_class : PfcpIe pfcp_recovery_time_stamp_ie recovery_time_stamp_t := {|
  pie_tlv := pfcp_recovery_time_stamp_tlv; pie_of_core h b := Val (pfcp_recovery_time_stamp_of_core b); pie_to_core := pfcp_recovery_time_stamp_to_core;
  pie_of_tlv := pfcp_recovery_time_stamp_of_tlv; pie_dump_to h i := Val (pfcp_recovery_time_stamp_dump_to i); pie_load_from := pfcp_recovery_time_stamp_load_from;
|}.

#[export] Instance pfcp_recovery_time_stamp_codec : PfcpCodec pfcp_recovery_time_stamp_ie recovery_time_stamp_t PFCP_IE_RECOVERY_TIME_STAMP (fun b => fits 32 (recovery_time_stamp_recovery_time_stamp b)) as_sent.
Proof. scalar_codec pfcp_recovery_time_stamp_load_from. Qed.

(** ** FAR ID *)
Record far_id_t := mk_far_id_t { far_id_far_id : Z }.
Record pfcp_far_id_ie := mk_pfcp_far_id_ie { pfcp_far_id_tlv : pfcp_tlv; pfcp_far_id_far_id : Z }.

Definition pfcp_far_id_of_core (b : far_id_t) : pfcp_far_id_ie :=
  mk_pfcp_far_id_ie (pfcp_tlv_of PFCP_IE_FAR_ID 4) (far_id_far_id b).
Definition pfcp_far_id_of_tlv (h : heap) (t : pfcp_tlv) : pfcp_far_id_ie := mk_pfcp_far_id_ie t (h 0%nat).
Definition pfcp_far_id_to_core (i : pfcp_far_id_ie) : far_id_t := mk_far_id_t (pfcp_far_id_far_id i).
Definition pfcp_far_id_dump_to (i : pfcp_far_id_ie) : list Z * pfcp_far_id_ie :=
  (pfcp_tlv_dump_to (pfcp_far_id_tlv i) ++ be_bytes 4 (pfcp_far_id_far_id i), i).
Definition pfcp_far_id_load_from (i : pfcp_far_id_ie) (ins : istream) : result pfcp_exn (pfcp_far_id_ie * istream) :=
  with_length (pfcp_far_id_tlv i) 4
    (let '(v, ins) := read_be 4 (pfcp_far_id_far_id i) ins in Val (mk_pfcp_far_id_ie (pfcp_far_id_tlv i) v, ins)).

#[export] Instance pfcp_far_id_class : PfcpIe pfcp_far_id_ie far_id_t := {|
  pie_tlv := pfcp_far_id_tlv; pie_of_core h b := Val (pfcp_far_id_of_core b); pie_to_core := pfcp_far_id_to_core;
  pie_of_tlv := pfcp_far_id_of_tlv; pie_dump_to h i := Val (pfcp_far_id_dump_to i); pie_load_from := pfcp_far_id_load_from;
|}.

#[export] Instance pfcp_far_id_codec : PfcpCodec pfcp_far_id_ie far_id_t PFCP_IE_FAR_ID (fun b => fits 32 (far_id_far_id b)) as_sent.
Proof. scalar_codec pfcp_far_id_load_from. Qed.

(** ** QER ID *)
Record qer_id_t := mk_qer_id_t { qer_id_qer_id : Z }.
Record pfcp_qer_id_ie := mk_pfcp_qer_id_ie { pfcp_qer_id_tlv : pfcp_tlv; pfcp_qer_id_qer_id : Z }.

Definition pfcp_qer_id_of_core (b : qer_id_t) : pfcp_qer_id_ie :=
  mk_pfcp_qer_id_ie (pfcp_tlv_of PFCP_IE_QER_ID 4) (qer_id_qer_id b).
Definition pfcp_qer_id_of_tlv (h : heap) (t : pfcp_tlv) : pfcp_qer_id_ie := mk_pfcp_qer_id_ie t (h 0%nat).
Definition pfcp_qer_id_to_core (i : pfcp_qer_id_ie) : qer_id_t := mk_qer_id_t (pfcp_qer_id_qer_id i).
Definition pfcp_qer_id_dump_to (i : pfcp_qer_id_ie) : list Z * pfcp_qer_id_ie :=
  (pfcp_tlv_dump_to (pfcp_qer_id_tlv i) ++ be_bytes 4 (pfcp_qer_id_qer_id i), i).
Definition pfcp_qer_id_load_from (i : pfcp_qer_id_ie) (ins : istream) : result pfcp_exn (pfcp_qer_id_ie * istream) :=
  with_length (pfcp_qer_id_tlv i) 4
    (let '(v, ins) := read_be 4 (pfcp_qer_id_qer_id i) ins in Val (mk_pfcp_qer_id_ie (pfcp_qer_id_tlv i) v, ins)).

#[export] Instance pfcp_qer_id_class : PfcpIe pfcp_qer_id_ie qer_id_t := {|
  pie_tlv := pfcp_qer_id_tlv; pie_of_core h b := Val (pfcp_qer_id_of_core b); pie_to_core := pfcp_qer_id_to_core;
  pie_of_tlv := pfcp_qer_id_of_tlv; pie_dump_to h i := Val (pfcp_qer_id_dump_to i); pie_load_from := pfcp_qer_id_load_from;
|}.

#[export] Instance pfcp_qer_id_codec : PfcpCodec pfcp_qer_id_ie qer_id_t PFCP_IE_QER_ID (fun b => fits 32 (qer_id_qer_id b)) as_sent.
Proof. scalar_codec pfcp_qer_id_load_from. Qed.

(** ** User Plane Inactivity Timer *)
Record user_plane_inactivity_timer_t := mk_user_plane_inactivity_timer_t { user_plane_inactivity_timer_timer : Z }.
Record pfcp_user_plane_inactivity_timer_ie := mk_pfcp_user_plane_inactivity_timer_ie { pfcp_user_plane_inactivity_timer_tlv : pfcp_tlv; pfcp_user_plane_inactivity_timer_timer : Z }.

Definition pfcp_user_plane_inactivity_timer_of_core (b : user_plane_inactivity_timer_t) : pfcp_user_plane_inactivity_timer_ie :=
  mk_pfcp_user_plane_inactivity_timer_ie (pfcp_tlv_of PFCP_IE_USER_PLANE_INACTIVITY_TIMER 4) (user_plane_inactivity_timer_timer b).
Definition pfcp_user_plane_inactivity_timer_of_tlv (h : heap) (t : pfcp_tlv) : pfcp_user_plane_inactivity_timer_ie := mk_pfcp_user_plane_inactivity_timer_ie t (h 0%nat).
Definition pfcp_user_plane_inactivity_timer_to_core (i : pfcp_user_plane_inactivity_timer_ie) : user_plane_inactivity_timer_t := mk_user_plane_inactivity_timer_t (pfcp_user_plane_inactivity_timer_timer i).
Definition pfcp_user_plane_inactivity_timer_dump_to (i : pfcp_user_plane_inactivity_timer_ie) : list Z * pfcp_user_plane_inactivity_timer_ie :=
  (pfcp_tlv_dump_to (pfcp_user_plane_inactivity_timer_tlv i) ++ be_bytes 4 (pfcp_user_plane_inactivity_timer_timer i), i).
Definition pfcp_user_plane_inactivity_timer_load_from (i : pfcp_user_plane_inactivity_timer_ie) (ins : istream) : result pfcp_exn (pfcp_user_plane_inactivity_timer_ie * istream) :=
  with_length (pfcp_user_plane_inactivity_timer_tlv i) 4
    (let '(v, ins) := read_be 4 (pfcp_user_plane_inactivity_timer_timer i) ins in Val (mk_pfcp_user_plane_inactivity_timer_ie (pfcp_user_plane_inactivity_timer_tlv i) v, ins)).

#[export] Instance pfcp_user_plane_inactivity_timer_class : PfcpIe pfcp_user_plane_inactivity_timer_ie user_plane_inactivity_timer_t := {|
  pie_tlv := pfcp_user_plane_inactivity_timer_tlv; pie_of_core h b := Val (pfcp_user_plane_inactivity_timer_of_core b); pie_to_core := pfcp_user_plane_inactivity_timer_to_core;
  pie_of_tlv := pfcp_user_plane_inactivity_timer_of_tlv; pie_dump_to h i := Val (pfcp_user_plane_inactivity_timer_dump_to i); pie_load_from := pfcp_user_plane_inactivity_timer_load_from;
|}.

#[export] Instance pfcp_user_plane_inactivity_timer_codec : PfcpCodec pfcp_user_plane_inactivity_timer_ie user_plane_inactivity_timer_t PFCP_IE_USER_PLANE_INACTIVITY_TIMER (fun b => fits 32 (user_plane_inactivity_timer_timer b)) as_sent.
Proof. scalar_codec pfcp_user_plane_inactivity_timer_load_from. Qed.

(** ** Gate Status *)
Record gate_status_t := mk_gate_status_t {
  gate_status_dl_gate : Z; gate_status_ul_gate : Z }.
Record pfcp_gate_status_ie := mk_pfcp_gate_status_ie { pfcp_gate_status_tlv : pfcp_tlv; pfcp_gate_status_u1 : Z }.

Definition pfcp_gate_status_of_core (b : gate_status_t) : pfcp_gate_status_ie :=
  mk_pfcp_gate_status_ie (pfcp_tlv_of PFCP_IE_GATE_STATUS 1)
    (bf_pack [(2, gate_status_dl_gate b); (2, gate_status_ul_gate b); (4, 0)]).
Definition pfcp_gate_status_of_tlv (h : heap) (t : pfcp_tlv) : pfcp_gate_status_ie := mk_pfcp_gate_status_ie t (h 0%nat).
Definition pfcp_gate_status_to_core (i : pfcp_gate_status_ie) : gate_status_t :=
  mk_gate_status_t
    (bf_field 0 2 (pfcp_gate_status_u1 i)) (bf_field 2 2 (pfcp_gate_status_u1 i)).
Definition pfcp_gate_status_dump_to (i : pfcp_gate_status_ie) : list Z * pfcp_gate_status_ie :=
  (pfcp_tlv_dump_to (pfcp_gate_status_tlv i) ++ [pfcp_gate_status_u1 i], i).
Definition pfcp_gate_status_load_from (i : pfcp_gate_status_ie) (ins : istream) : result pfcp_exn (pfcp_gate_status_ie * istream) :=
  with_length (pfcp_gate_status_tlv i) 1 (
    let '(b1, ins) := read_u8 (pfcp_gate_status_u1 i) ins in
    Val (mk_pfcp_gate_status_ie (pfcp_gate_status_tlv i) b1, ins)).

#[export] Instance pfcp_gate_status_class : PfcpIe pfcp_gate_status_ie gate_status_t := {|
  pie_tlv := pfcp_gate_status_tlv; pie_of_core h b := Val (pfcp_gate_status_of_core b); pie_to_core := pfcp_gate_status_to_core;
  pie_of_tlv := pfcp_gate_status_of_tlv; pie_dump_to h i := Val (pfcp_gate_status_dump_to i); pie_load_from := pfcp_gate_status_load_from;
|}.

Definition pfcp_gate_status_ok (b : gate_status_t) : Prop :=
  fits 2 (gate_status_dl_gate b) /\ fits 2 (gate_status_ul_gate b).

#[export] Instance pfcp_gate_status_codec : PfcpCodec pfcp_gate_status_ie gate_status_t PFCP_IE_GATE_STATUS pfcp_gate_status_ok as_sent.
Proof. flags_codec pfcp_gate_status_class pfcp_gate_status_load_from pfcp_gate_status_ok pfcp_gate_status_to_core. Qed.

(** ** Report Type *)
Record report_type_t := mk_report_type_t {
  report_type_dldr : Z; report_type_usar : Z; report_type_erir : Z; report_type_upir : Z }.
Record pfcp_report_type_ie := mk_pfcp_report_type_ie { pfcp_report_type_tlv : pfcp_tlv; pfcp_report_type_u1 : Z }.

Definition pfcp_report_type_of_core (b : report_type_t) : pfcp_report_type_ie :=
  mk_pfcp_report_type_ie (pfcp_tlv_of PFCP_IE_REPORT_TYPE 1)
    (bf_pack [(1, report_type_dldr b); (1, report_type_usar b); (1, report_type_erir b); (1, report_type_upir b); (4, 0)]).
Definition pfcp_report_type_of_tlv (h : heap) (t : pfcp_tlv) : pfcp_report_type_ie := mk_pfcp_report_type_ie t 0.
Definition pfcp_report_type_to_core (i : pfcp_report_type_ie) : report_type_t :=
  mk_report_type_t
    (bf_field 0 1 (pfcp_report_type_u1 i)) (bf_field 1 1 (pfcp_report_type_u1 i)) (bf_field 2 1 (pfcp_report_type_u1 i)) (bf_field 3 1 (pfcp_report_type_u1 i)).
Definition pfcp_report_type_dump_to (i : pfcp_report_type_ie) : list Z * pfcp_report_type_ie :=
  (pfcp_tlv_dump_to (pfcp_report_type_tlv i) ++ [pfcp_report_type_u1 i], i).
Definition pfcp_report_type_load_from (i : pfcp_report_type_ie) (ins : istream) : result pfcp_exn (pfcp_report_type_ie * istream) :=
  with_length (pfcp_report_type_tlv i) 1 (
    let '(b1, ins) := read_u8 (pfcp_report_type_u1 i) ins in
    Val (mk_pfcp_report_type_ie (pfcp_report_type_tlv i) b1, ins)).

#[export] Instance pfcp_report_type_class : PfcpIe pfcp_report_type_ie report_type_t := {|
  pie_tlv := pfcp_report_type_tlv; pie_of_core h b := Val (pfcp_report_type_of_core b); pie_to_core := pfcp_report_type_to_core;
  pie_of_tlv := pfcp_report_type_of_tlv; pie_dump_to h i := Val (pfcp_report_type_dump_to i); pie_load_from := pfcp_report_type_load_from;
|}.

Definition pfcp_report_type_ok (b : report_type_t) : Prop :=
  fits 1 (report_type_dldr b) /\ fits 1 (report_type_usar b) /\ fits 1 (report_type_erir b) /\ fits 1 (report_type_upir b).

#[export] Instance pfcp_report_type_codec : PfcpCodec pfcp_report_type_ie report_type_t PFCP_IE_REPORT_TYPE pfcp_report_type_ok as_sent.
Proof. flags_codec pfcp_report_type_class pfcp_report_type_load_from pfcp_report_type_ok pfcp_report_type_to_core. Qed.

(** ** Apply Action *)
Record apply_action_t := mk_apply_action_t {
  apply_action_drop : Z; apply_action_forw : Z; apply_action_buff : Z; apply_action_nocp : Z; apply_action_dupl : Z }.
Record pfcp_apply_action_ie := mk_pfcp_apply_action_ie { pfcp_apply_action_tlv : pfcp_tlv; pfcp_apply_action_u1 : Z }.

Definition pfcp_apply_action_of_core (b : apply_action_t) : pfcp_apply_action_ie :=
  mk_pfcp_apply_action_ie (pfcp_tlv_of PFCP_IE_APPLY_ACTION 1)
    (bf_pack [(1, apply_action_drop b); (1, apply_action_forw b); (1, apply_action_buff b); (1, apply_action_nocp b); (1, apply_action_dupl b); (3, 0)]).
Definition pfcp_apply_action_of_tlv (h : heap) (t : pfcp_tlv) : pfcp_apply_action_ie := mk_pfcp_apply_action_ie t 0.
Definition pfcp_apply_action_to_core (i : pfcp_apply_action_ie) : apply_action_t :=
  mk_apply_action_t
    (bf_field 0 1 (pfcp_apply_action_u1 i)) (bf_field 1 1 (pfcp_apply_action_u1 i)) (bf_field 2 1 (pfcp_apply_action_u1 i)) (bf_field 3 1 (pfcp_apply_action_u1 i)) (bf_field 4 1 (pfcp_apply_action_u1 i)).
Definition pfcp_apply_action_dump_to (i : pfcp_apply_action_ie) : list Z * pfcp_apply_action_ie :=
  (pfcp_tlv_dump_to (pfcp_apply_action_tlv i) ++ [pfcp_apply_action_u1 i], i).
Definition pfcp_apply_action_load_from (i : pfcp_apply_action_ie) (ins : istream) : result pfcp_exn (pfcp_apply_action_ie * istream) :=
  with_length (pfcp_apply_action_tlv i) 1 (
    let '(b1, ins) := read_u8 (pfcp_apply_action_u1 i) ins in
    Val (mk_pfcp_apply_action_ie (pfcp_apply_action_tlv i) b1, ins)).

#[export] Instance pfcp_apply_action_class : PfcpIe pfcp_apply_action_ie apply_action_t := {|
  pie_tlv := pfcp_apply_action_tlv; pie_of_core h b := Val (pfcp_apply_action_of_core b); pie_to_core := pfcp_apply_action_to_core;
  pie_of_tlv := pfcp_apply_action_of_tlv; pie_dump_to h i := Val (pfcp_apply_action_dump_to i); pie_load_from := pfcp_apply_action_load_from;
|}.

Definition pfcp_apply_action_ok (b : apply_action_t) : Prop :=
  fits 1 (apply_action_drop b) /\ fits 1 (apply_action_forw b) /\ fits 1 (apply_action_buff b) /\ fits 1 (apply_action_nocp b) /\ fits 1 (apply_action_dupl b).

#[export] Instance pfcp_apply_action_codec : PfcpCodec pfcp_apply_action_ie apply_action_t PFCP_IE_APPLY_ACTION pfcp_apply_action_ok as_sent.
Proof. flags_codec pfcp_apply_action_class pfcp_apply_action_load_from pfcp_apply_action_ok pfcp_apply_action_to_core. Qed.

(** ** CP Function Features *)
Record cp_function_features_t := mk_cp_function_features_t {
  cp_function_features_load : Z; cp_function_features_ovrl : Z }.
Record pfcp_cp_function_features_ie := mk_pfcp_cp_function_features_ie { pfcp_cp_function_features_tlv : pfcp_tlv; pfcp_cp_function_features_u1 : Z }.

Definition pfcp_cp_function_features_of_core (b : cp_function_features_t) : pfcp_cp_function_features_ie :=
  mk_pfcp_cp_function_features_ie (pfcp_tlv_of PFCP_IE_CP_FUNCTION_FEATURES 1)
    (bf_pack [(1, cp_function_features_load b); (1, cp_function_features_ovrl b); (6, 0)]).
Definition pfcp_cp_function_features_of_tlv (h : heap) (t : pfcp_tlv) : pfcp_cp_function_features_ie := mk_pfcp_cp_function_features_ie t 0.
Definition pfcp_cp_function_features_to_core (i : pfcp_cp_function_features_ie) : cp_function_features_t :=
  mk_cp_function_features_t
    (bf_field 0 1 (pfcp_cp_function_features_u1 i)) (bf_field 1 1 (pfcp_cp_function_features_u1 i)).
Definition pfcp_cp_function_features_dump_to (i : pfcp_cp_function_features_ie) : list Z * pfcp_cp_function_features_ie :=
  (pfcp_tlv_dump_to (pfcp_cp_function_features_tlv i) ++ [pfcp_cp_function_features_u1 i], i).
Definition pfcp_cp_function_features_load_from (i : pfcp_cp_function_features_ie) (ins : istream) : result pfcp_exn (pfcp_cp_function_features_ie * istream) :=
  with_length (pfcp_cp_function_features_tlv i) 1 (
    let '(b1, ins) := read_u8 (pfcp_cp_function_features_u1 i) ins in
    Val (mk_pfcp_cp_function_features_ie (pfcp_cp_function_features_tlv i) b1, ins)).

#[export] Instance pfcp_cp_function_features_class : PfcpIe pfcp_cp_function_features_ie cp_function_features_t := {|
  pie_tlv := pfcp_cp_function_features_tlv; pie_of_core h b := Val (pfcp_cp_function_features_of_core b); pie_to_core := pfcp_cp_function_features_to_core;
  pie_of_tlv := pfcp_cp_function_features_of_tlv; pie_dump_to h i := Val (pfcp_cp_function_features_dump_to i); pie_load_from := pfcp_cp_function_features_load_from;
|}.

Definition pfcp_cp_function_features_ok (b : cp_function_features_t) : Prop :=
  fits 1 (cp_function_features_load b) /\ fits 1 (cp_function_features_ovrl b).

#[export] Instance pfcp_cp_function_features_codec : PfcpCodec pfcp_cp_function_features_ie cp_function_features_t PFCP_IE_CP_FUNCTION_FEATURES pfcp_cp_function_features_ok as_sent.
Proof. flags_codec pfcp_cp_function_features_class pfcp_cp_function_features_load_from pfcp_cp_function_features_ok pfcp_cp_function_features_to_core. Qed.

(** ** QFI *)
Record qfi_t := mk_qfi_t {
  qfi_qfi : Z }.
Record pfcp_qfi_ie := mk_pfcp_qfi_ie { pfcp_qfi_tlv : pfcp_tlv; pfcp_qfi_u1 : Z }.

Definition pfcp_qfi_of_core (b : qfi_t) : pfcp_qfi_ie :=
  mk_pfcp_qfi_ie (pfcp_tlv_of PFCP_IE_QFI 1)
    (bf_pack [(6, qfi_qfi b); (2, 0)]).
Definition pfcp_qfi_of_tlv (h : heap) (t : pfcp_tlv) : pfcp_qfi_ie := mk_pfcp_qfi_ie t (h 0%nat).
Definition pfcp_qfi_to_core (i : pfcp_qfi_ie) : qfi_t :=
  mk_qfi_t
    (bf_field 0 6 (pfcp_qfi_u1 i)).
Definition pfcp_qfi_dump_to (i : pfcp_qfi_ie) : list Z * pfcp_qfi_ie :=
  (pfcp_tlv_dump_to (pfcp_qfi_tlv i) ++ [pfcp_qfi_u1 i], i).
Definition pfcp_qfi_load_from (i : pfcp_qfi_ie) (ins : istream) : result pfcp_exn (pfcp_qfi_ie * istream) :=
  with_length (pfcp_qfi_tlv i) 1 (
    let '(b1, ins) := read_u8 (pfcp_qfi_u1 i) ins in
    Val (mk_pfcp_qfi_ie (pfcp_qfi_tlv i) b1, ins)).

#[export] Instance pfcp_qfi_class : PfcpIe pfcp_qfi_ie qfi_t := {|
  pie_tlv := pfcp_qfi_tlv; pie_of_core h b := Val (pfcp_qfi_of_core b); pie_to_core := pfcp_qfi_to_core;
  pie_of_tlv := pfcp_qfi_of_tlv; pie_dump_to h i := Val (pfcp_qfi_dump_to i); pie_load_from := pfcp_qfi_load_from;
|}.

Definition pfcp_qfi_ok (b : qfi_t) : Prop :=
  fits 6 (qfi_qfi b).

#[export] Instance pfcp_qfi_codec : PfcpCodec pfcp_qfi_ie qfi_t PFCP_IE_QFI pfcp_qfi_ok as_sent.
Proof. flags_codec pfcp_qfi_class pfcp_qfi_load_from pfcp_qfi_ok pfcp_qfi_to_core. Qed.

(** ** Reporting Triggers *)
Record reporting_triggers_t := mk_reporting_triggers_t {
  reporting_triggers_perio : Z; reporting_triggers_volth : Z; reporting_triggers_timth : Z; reporting_triggers_quhti : Z; reporting_triggers_start : Z; reporting_triggers_stop : Z; reporting_triggers_droth : Z; reporting_triggers_liusa : Z;
  reporting_triggers_volqu : Z; reporting_triggers_timqu : Z; reporting_triggers_envcl : Z; reporting_triggers_macar : Z; reporting_triggers_eveth : Z }.
Record pfcp_reporting_triggers_ie := mk_pfcp_reporting_triggers_ie { pfcp_reporting_triggers_tlv : pfcp_tlv; pfcp_reporting_triggers_u1 : Z; pfcp_reporting_triggers_u2 : Z }.

Definition pfcp_reporting_triggers_of_core (b : reporting_triggers_t) : pfcp_reporting_triggers_ie :=
  mk_pfcp_reporting_triggers_ie (pfcp_tlv_of PFCP_IE_REPORTING_TRIGGERS 2)
    (bf_pack [(1, reporting_triggers_perio b); (1, reporting_triggers_volth b); (1, reporting_triggers_timth b); (1, reporting_triggers_quhti b); (1, reporting_triggers_start b); (1, reporting_triggers_stop b); (1, reporting_triggers_droth b); (1, reporting_triggers_liusa b)])
    (bf_pack [(1, reporting_triggers_volqu b); (1, reporting_triggers_timqu b); (1, reporting_triggers_envcl b); (1, reporting_triggers_macar b); (1, reporting_triggers_eveth b); (3, 0)]).
Definition pfcp_reporting_triggers_of_tlv (h : heap) (t : pfcp_tlv) : pfcp_reporting_triggers_ie := mk_pfcp_reporting_triggers_ie t (h 0%nat) (h 1%nat).
Definition pfcp_reporting_triggers_to_core (i : pfcp_reporting_triggers_ie) : reporting_triggers_t :=
  mk_reporting_triggers_t
    (bf_field 0 1 (pfcp_reporting_triggers_u1 i)) (bf_field 1 1 (pfcp_reporting_triggers_u1 i)) (bf_field 2 1 (pfcp_reporting_triggers_u1 i)) (bf_field 3 1 (pfcp_reporting_triggers_u1 i)) (bf_field 4 1 (pfcp_reporting_triggers_u1 i)) (bf_field 5 1 (pfcp_reporting_triggers_u1 i)) (bf_field 6 1 (pfcp_reporting_triggers_u1 i)) (bf_field 7 1 (pfcp_reporting_triggers_u1 i))
    (bf_field 0 1 (pfcp_reporting_triggers_u2 i)) (bf_field 1 1 (pfcp_reporting_triggers_u2 i)) (bf_field 2 1 (pfcp_reporting_triggers_u2 i)) (bf_field 3 1 (pfcp_reporting_triggers_u2 i)) (bf_field 4 1 (pfcp_reporting_triggers_u2 i)).
Definition pfcp_reporting_triggers_dump_to (i : pfcp_reporting_triggers_ie) : list Z * pfcp_reporting_triggers_ie :=
  let t := pfcp_set_length 2 (pfcp_reporting_triggers_tlv i) in
  (pfcp_tlv_dump_to t ++ [pfcp_reporting_triggers_u1 i; pfcp_reporting_triggers_u2 i],
   mk_pfcp_reporting_triggers_ie t (pfcp_reporting_triggers_u1 i) (pfcp_reporting_triggers_u2 i)).
Definition pfcp_reporting_triggers_load_from (i : pfcp_reporting_triggers_ie) (ins : istream) : result pfcp_exn (pfcp_reporting_triggers_ie * istream) :=
  with_length (pfcp_reporting_triggers_tlv i) 2 (
    let '(b1, ins) := read_u8 (pfcp_reporting_triggers_u1 i) ins in
    let '(b2, ins) := read_u8 (pfcp_reporting_triggers_u2 i) ins in
    Val (mk_pfcp_reporting_triggers_ie (pfcp_reporting_triggers_tlv i) b1 b2, ins)).

#[export] Instance pfcp_reporting_triggers_class : PfcpIe pfcp_reporting_triggers_ie reporting_triggers_t := {|
  pie_tlv := pfcp_reporting_triggers_tlv; pie_of_core h b := Val (pfcp_reporting_triggers_of_core b); pie_to_core := pfcp_reporting_triggers_to_core;
  pie_of_tlv := pfcp_reporting_triggers_of_tlv; pie_dump_to h i := Val (pfcp_reporting_triggers_dump_to i); pie_load_from := pfcp_reporting_triggers_load_from;
|}.

Definition pfcp_reporting_triggers_ok (b : reporting_triggers_t) : Prop :=
  fits 1 (reporting_triggers_perio b) /\ fits 1 (reporting_triggers_volth b) /\ fits 1 (reporting_triggers_timth b) /\ fits 1 (reporting_triggers_quhti b) /\ fits 1 (reporting_triggers_start b) /\ fits 1 (reporting_triggers_stop b) /\ fits 1 (reporting_triggers_droth b) /\ fits 1 (reporting_triggers_liusa b) /\
  fits 1 (reporting_triggers_volqu b) /\ fits 1 (reporting_triggers_timqu b) /\ fits 1 (reporting_triggers_envcl b) /\ fits 1 (reporting_triggers_macar b) /\ fits 1 (reporting_triggers_eveth b).

#[export] Instance pfcp_reporting_triggers_codec : PfcpCodec pfcp_reporting_triggers_ie reporting_triggers_t PFCP_IE_REPORTING_TRIGGERS pfcp_reporting_triggers_ok as_sent.
Proof. flags_codec pfcp_reporting_triggers_class pfcp_reporting_triggers_load_from pfcp_reporting_triggers_ok pfcp_reporting_triggers_to_core. Qed.

(** ** UP Function Features

    [load_from] accepts an announced length below six and reads six octets. *)
Record up_function_features_s := mk_up_function_features_s {
  up_function_features_bucp : Z; up_function_features_ddnd : Z; up_function_features_dlbd : Z; up_function_features_trst : Z; up_function_features_ftup : Z; up_function_features_pfdm : Z; up_function_features_heeu : Z; up_function_features_treu : Z;
  up_function_features_empu : Z; up_function_features_pdiu : Z; up_function_features_udbc : Z; up_function_features_quoac : Z; up_function_features_trace : Z; up_function_features_frrt : Z; up_function_features_pfde : Z; up_function_features_epfar : Z;
  up_function_features_dpdra : Z; up_function_features_adpdp : Z; up_function_features_ueip : Z; up_function_features_sset : Z; up_function_features_mnop : Z; up_function_features_mte : Z; up_function_features_bundl : Z; up_function_features_gcom : Z;
  up_function_features_mpas : Z; up_function_features_rttl : Z; up_function_features_vtime : Z; up_function_features_norp : Z; up_function_features_iptv : Z; up_function_features_ip6pl : Z; up_function_features_tscu : Z; up_function_features_mptcp : Z;
  up_function_features_atsss_ll : Z; up_function_features_qfqm : Z; up_function_features_gpqm : Z; up_function_features_mt_edt : Z; up_function_features_ciot : Z; up_function_features_ethar : Z; up_function_features_ddds : Z; up_function_features_rds : Z;
  up_function_features_rttwp : Z }.
Record pfcp_up_function_features_ie := mk_pfcp_up_function_features_ie { pfcp_up_function_features_tlv : pfcp_tlv; pfcp_up_function_features_u1 : Z; pfcp_up_function_features_u2 : Z; pfcp_up_function_features_u3 : Z; pfcp_up_function_features_u4 : Z; pfcp_up_function_features_u5 : Z; pfcp_up_function_features_u6 : Z }.

Definition pfcp_up_function_features_of_core (b : up_function_features_s) : pfcp_up_function_features_ie :=
  mk_pfcp_up_function_features_ie (pfcp_tlv_of PFCP_IE_UP_FUNCTION_FEATURES 6)
    (bf_pack [(1, up_function_features_bucp b); (1, up_function_features_ddnd b); (1, up_function_features_dlbd b); (1, up_function_features_trst b); (1, up_function_features_ftup b); (1, up_function_features_pfdm b); (1, up_function_features_heeu b); (1, up_function_features_treu b)])
    (bf_pack [(1, up_function_features_empu b); (1, up_function_features_pdiu b); (1, up_function_features_udbc b); (1, up_function_features_quoac b); (1, up_function_features_trace b); (1, up_function_features_frrt b); (1, up_function_features_pfde b); (1, up_function_features_epfar b)])
    (bf_pack [(1, up_function_features_dpdra b); (1, up_function_features_adpdp b); (1, up_function_features_ueip b); (1, up_function_features_sset b); (1, up_function_features_mnop b); (1, up_function_features_mte b); (1, up_function_features_bundl b); (1, up_function_features_gcom b)])
    (bf_pack [(1, up_function_features_mpas b); (1, up_function_features_rttl b); (1, up_function_features_vtime b); (1, up_function_features_norp b); (1, up_function_features_iptv b); (1, up_function_features_ip6pl b); (1, up_function_features_tscu b); (1, up_function_features_mptcp b)])
    (bf_pack [(1, up_function_features_atsss_ll b); (1, up_function_features_qfqm b); (1, up_function_features_gpqm b); (1, up_function_features_mt_edt b); (1, up_function_features_ciot b); (1, up_function_features_ethar b); (1, up_function_features_ddds b); (1, up_function_features_rds b)])
    (bf_pack [(1, up_function_features_rttwp b); (7, 0)]).
Definition pfcp_up_function_features_of_tlv (h : heap) (t : pfcp_tlv) : pfcp_up_function_features_ie := mk_pfcp_up_function_features_ie t 0 0 0 0 0 0.
Definition pfcp_up_function_features_to_core (i : pfcp_up_function_features_ie) : up_function_features_s :=
  mk_up_function_features_s
    (bf_field 0 1 (pfcp_up_function_features_u1 i)) (bf_field 1 1 (pfcp_up_function_features_u1 i)) (bf_field 2 1 (pfcp_up_function_features_u1 i)) (bf_field 3 1 (pfcp_up_function_features_u1 i)) (bf_field 4 1 (pfcp_up_function_features_u1 i)) (bf_field 5 1 (pfcp_up_function_features_u1 i)) (bf_field 6 1 (pfcp_up_function_features_u1 i)) (bf_field 7 1 (pfcp_up_function_features_u1 i))
    (bf_field 0 1 (pfcp_up_function_features_u2 i)) (bf_field 1 1 (pfcp_up_function_features_u2 i)) (bf_field 2 1 (pfcp_up_function_features_u2 i)) (bf_field 3 1 (pfcp_up_function_features_u2 i)) (bf_field 4 1 (pfcp_up_function_features_u2 i)) (bf_field 5 1 (pfcp_up_function_features_u2 i)) (bf_field 6 1 (pfcp_up_function_features_u2 i)) (bf_field 7 1 (pfcp_up_function_features_u2 i))
    (bf_field 0 1 (pfcp_up_function_features_u3 i)) (bf_field 1 1 (pfcp_up_function_features_u3 i)) (bf_field 2 1 (pfcp_up_function_features_u3 i)) (bf_field 3 1 (pfcp_up_function_features_u3 i)) (bf_field 4 1 (pfcp_up_function_features_u3 i)) (bf_field 5 1 (pfcp_up_function_features_u3 i)) (bf_field 6 1 (pfcp_up_function_features_u3 i)) (bf_field 7 1 (pfcp_up_function_features_u3 i))
    (bf_field 0 1 (pfcp_up_function_features_u4 i)) (bf_field 1 1 (pfcp_up_function_features_u4 i)) (bf_field 2 1 (pfcp_up_function_features_u4 i)) (bf_field 3 1 (pfcp_up_function_features_u4 i)) (bf_field 4 1 (pfcp_up_function_features_u4 i)) (bf_field 5 1 (pfcp_up_function_features_u4 i)) (bf_field 6 1 (pfcp_up_function_features_u4 i)) (bf_field 7 1 (pfcp_up_function_features_u4 i))
    (bf_field 0 1 (pfcp_up_function_features_u5 i)) (bf_field 1 1 (pfcp_up_function_features_u5 i)) (bf_field 2 1 (pfcp_up_function_features_u5 i)) (bf_field 3 1 (pfcp_up_function_features_u5 i)) (bf_field 4 1 (pfcp_up_function_features_u5 i)) (bf_field 5 1 (pfcp_up_function_features_u5 i)) (bf_field 6 1 (pfcp_up_function_features_u5 i)) (bf_field 7 1 (pfcp_up_function_features_u5 i))
    (bf_field 0 1 (pfcp_up_function_features_u6 i)).
Definition pfcp_up_function_features_dump_to (i : pfcp_up_function_features_ie) : list Z * pfcp_up_function_features_ie :=
  let t := pfcp_set_length 6 (pfcp_up_function_features_tlv i) in
  (pfcp_tlv_dump_to t ++ [pfcp_up_function_features_u1 i; pfcp_up_function_features_u2 i; pfcp_up_function_features_u3 i; pfcp_up_function_features_u4 i; pfcp_up_function_features_u5 i; pfcp_up_function_features_u6 i],
   mk_pfcp_up_function_features_ie t (pfcp_up_function_features_u1 i) (pfcp_up_function_features_u2 i) (pfcp_up_function_features_u3 i) (pfcp_up_function_features_u4 i) (pfcp_up_function_features_u5 i) (pfcp_up_function_features_u6 i)).
Definition pfcp_up_function_features_load_from (i : pfcp_up_function_features_ie) (ins : istream) : result pfcp_exn (pfcp_up_function_features_ie * istream) :=
  if 6 <? pt_length (pfcp_up_function_features_tlv i) then
    Throw (pfcp_tlv_bad_length_exception (pt_type (pfcp_up_function_features_tlv i)) (pt_length (pfcp_up_function_features_tlv i)))
  else
    let '(b1, ins) := read_u8 (pfcp_up_function_features_u1 i) ins in
    let '(b2, ins) := read_u8 (pfcp_up_function_features_u2 i) ins in
    let '(b3, ins) := read_u8 (pfcp_up_function_features_u3 i) ins in
    let '(b4, ins) := read_u8 (pfcp_up_function_features_u4 i) ins in
    let '(b5, ins) := read_u8 (pfcp_up_function_features_u5 i) ins in
    let '(b6, ins) := read_u8 (pfcp_up_function_features_u6 i) ins in
    Val (mk_pfcp_up_function_features_ie (pfcp_up_function_features_tlv i) b1 b2 b3 b4 b5 b6, ins).

#[export] Instance pfcp_up_function_features_class : PfcpIe pfcp_up_function_features_ie up_function_features_s := {|
  pie_tlv := pfcp_up_function_features_tlv; pie_of_core h b := Val (pfcp_up_function_features_of_core b); pie_to_core := pfcp_up_function_features_to_core;
  pie_of_tlv := pfcp_up_function_features_of_tlv; pie_dump_to h i := Val (pfcp_up_function_features_dump_to i); pie_load_from := pfcp_up_function_features_load_from;
|}.

Definition pfcp_up_function_features_ok (b : up_function_features_s) : Prop :=
  fits 1 (up_function_features_bucp b) /\ fits 1 (up_function_features_ddnd b) /\ fits 1 (up_function_features_dlbd b) /\ fits 1 (up_function_features_trst b) /\ fits 1 (up_function_features_ftup b) /\ fits 1 (up_function_features_pfdm b) /\ fits 1 (up_function_features_heeu b) /\ fits 1 (up_function_features_treu b) /\
  fits 1 (up_function_features_empu b) /\ fits 1 (up_function_features_pdiu b) /\ fits 1 (up_function_features_udbc b) /\ fits 1 (up_function_features_quoac b) /\ fits 1 (up_function_features_trace b) /\ fits 1 (up_function_features_frrt b) /\ fits 1 (up_function_features_pfde b) /\ fits 1 (up_function_features_epfar b) /\
  fits 1 (up_function_features_dpdra b) /\ fits 1 (up_function_features_adpdp b) /\ fits 1 (up_function_features_ueip b) /\ fits 1 (up_function_features_sset b) /\ fits 1 (up_function_features_mnop b) /\ fits 1 (up_function_features_mte b) /\ fits 1 (up_function_features_bundl b) /\ fits 1 (up_function_features_gcom b) /\
  fits 1 (up_function_features_mpas b) /\ fits 1 (up_function_features_rttl b) /\ fits 1 (up_function_features_vtime b) /\ fits 1 (up_function_features_norp b) /\ fits 1 (up_function_features_iptv b) /\ fits 1 (up_function_features_ip6pl b) /\ fits 1 (up_function_features_tscu b) /\ fits 1 (up_function_features_mptcp b) /\
  fits 1 (up_function_features_atsss_ll b) /\ fits 1 (up_function_features_qfqm b) /\ fits 1 (up_function_features_gpqm b) /\ fits 1 (up_function_features_mt_edt b) /\ fits 1 (up_function_features_ciot b) /\ fits 1 (up_function_features_ethar b) /\ fits 1 (up_function_features_ddds b) /\ fits 1 (up_function_features_rds b) /\
  fits 1 (up_function_features_rttwp b).

#[export] Instance pfcp_up_function_features_codec : PfcpCodec pfcp_up_function_features_ie up_function_features_s PFCP_IE_UP_FUNCTION_FEATURES pfcp_up_function_features_ok as_sent.
Proof. flags_codec pfcp_up_function_features_class pfcp_up_function_features_load_from pfcp_up_function_features_ok pfcp_up_function_features_to_core. Qed.

(** ** Node Report Type

    The constructor drops the flag of the core value, and [to_core_type] takes
    the flag of its target instead of setting it: the value read is always the
    one of a value-initialised target. *)
Record node_report_type_t := mk_node_report_type_t { node_report_type_upfr : Z }.
Record pfcp_node_report_type_ie := mk_pfcp_node_report_type_ie { pfcp_node_report_type_tlv : pfcp_tlv; pfcp_node_report_type_u1 : Z }.

Definition pfcp_node_report_type_of_core (b : node_report_type_t) : pfcp_node_report_type_ie :=
  mk_pfcp_node_report_type_ie (pfcp_tlv_of PFCP_IE_NODE_REPORT_TYPE 1) 0.
Definition pfcp_node_report_type_of_tlv (h : heap) (t : pfcp_tlv) : pfcp_node_report_type_ie := mk_pfcp_node_report_type_ie t 0.
Definition pfcp_node_report_type_to_core (i : pfcp_node_report_type_ie) : node_report_type_t := mk_node_report_type_t 0.
Definition pfcp_node_report_type_dump_to (i : pfcp_node_report_type_ie) : list Z * pfcp_node_report_type_ie :=
  (pfcp_tlv_dump_to (pfcp_node_report_type_tlv i) ++ [pfcp_node_report_type_u1 i], i).
Definition pfcp_node_report_type_load_from (i : pfcp_node_report_type_ie) (ins : istream)
  : result pfcp_exn (pfcp_node_report_type_ie * istream) :=
  with_length (pfcp_node_report_type_tlv i) 1 (
    let '(v, ins) := read_u8 (pfcp_node_report_type_u1 i) ins in
    Val (mk_pfcp_node_report_type_ie (pfcp_node_report_type_tlv i) v, ins)).

#[export] Instance pfcp_node_report_type_class : PfcpIe pfcp_node_report_type_ie node_report_type_t := {|
  pie_tlv := pfcp_node_report_type_tlv; pie_of_core h b := Val (pfcp_node_report_type_of_core b);
  pie_to_core := pfcp_node_report_type_to_core; pie_of_tlv := pfcp_node_report_type_of_tlv;
  pie_dump_to h i := Val (pfcp_node_report_type_dump_to i); pie_load_from := pfcp_node_report_type_load_from;
|}.

#[export] Instance pfcp_node_report_type_codec : PfcpCodec pfcp_node_report_type_ie node_report_type_t PFCP_IE_NODE_REPORT_TYPE
  (fun _ => True) (fun _ _ => mk_node_report_type_t 0).
Proof.
  intros h h' c _. do 3 eexists. split; [reflexivity|]. split; [by apply pfcp_tlv_ok_of|]. do 2 (split; [reflexivity|]).
  intros h'' rest. eexists. split; [|done]. etrans; [by apply with_length_of|]. by stream_norm; stream_step done.
Qed.

(** ** What the other two convey *)

(** The peer reads the octets of a URR ID in the opposite order. *)
#[export] Instance pfcp_urr_id_codec : PfcpCodec pfcp_urr_id_ie urr_id_t PFCP_IE_URR_ID
  (fun b => fits 32 (urr_id_urr_id b)) (fun _ b => mk_urr_id_t (be32toh (urr_id_urr_id b))).
Proof.
  intros h h' [u] Hu. do 3 eexists. split; [reflexivity|]. split; [by apply pfcp_tlv_ok_of|]. do 2 (split; [reflexivity|]).
  intros h'' rest. exists (mk_pfcp_urr_id_ie (pfcp_tlv_of PFCP_IE_URR_ID 4) (be32toh u)). split; [|done].
  etrans; [by apply with_length_of|]. unfold read_be. by rewrite read_app.
Qed.

(** A QER correlation id is refused by the class that wrote it. *)
Lemma qer_correlation_id_refused (h h' : heap) (c : qer_correlation_id_t) (ins : istream) :
  let a := pfcp_qer_correlation_id_of_core c in
  pfcp_qer_correlation_id_load_from (pfcp_qer_correlation_id_of_tlv h (pfcp_qer_correlation_id_tlv a)) ins =
  Throw (pfcp_tlv_bad_length_exception PFCP_IE_QER_CORRELATION_ID 4).
Proof. done. Qed.
