(* ===== verification/PfcpElements.v ===== *)
(** * PFCP elements: names, rules, markings and rates

    The classes of [src/pfcp/3gpp_29.244.hpp] that convey a string of octets, in
    the conventions of [PfcpScalar]. *)
From S2P Require Import Prelude Stream GtpTlv GtpQos PfcpTlv.
From Stdlib Require Import ZArith Lia String.
From stdpp Require Import base numbers tactics list strings.
Open Scope Z_scope.

Definition PFCP_IE_NETWORK_INSTANCE : Z := 22.
Definition PFCP_IE_APPLICATION_ID : Z := 24.
Definition PFCP_IE_MBR : Z := 26.
Definition PFCP_IE_GBR : Z := 27.
Definition PFCP_IE_TRANSPORT_LEVEL_MARKING : Z := 30.
Definition PFCP_IE_FORWARDING_POLICY : Z := 41.
Definition PFCP_IE_ACTIVATE_PREDEFINED_RULES : Z := 106.
Definition PFCP_IE_DEACTIVATE_PREDEFINED_RULES : Z := 107.

(** [char e[n]; is.read(e, n); s.assign(e, n)] *)
Definition read_string (n : Z) (ins : istream) : result pfcp_exn (list Z * istream) := read_exact (Z.to_nat n) ins.

Lemma read_string_app s rest : read_string (Z.of_nat (length s)) (istream_of (s ++ rest)) = Val (s, istream_of rest).
Proof. unfold read_string. apply read_exact_app. by rewrite Nat2Z.id. Qed.

Definition string_ok (s : list Z) : Prop := 0 < Z.of_nat (length s) < 2 ^ 16.

Lemma string_tlv ty s : fits 8 ty -> string_ok s ->
  pfcp_tlv_ok ty (pfcp_tlv_of ty (Z.of_nat (length s))) /\
  pt_length (pfcp_tlv_of ty (Z.of_nat (length s))) = Z.of_nat (length s).
Proof.
  intros Hty H. split; [by apply pfcp_tlv_ok_of|]. apply pfcp_tlv_of_length. unfold string_ok, fits in *. lia.
Qed.

(** ** Network Instance

    The constructor stores the label form; [to_core_type] gives it as it is. *)
Record network_instance_t := mk_network_instance_t { network_instance : list Z }.
Record pfcp_network_instance_ie := mk_pfcp_network_instance_ie {
  pfcp_network_instance_tlv : pfcp_tlv; pfcp_network_instance : list Z }.

Definition pfcp_network_instance_of_core (h : heap) (b : network_instance_t) : result pfcp_exn pfcp_network_instance_ie :=
  dt ← pfcp_string_to_dotted h (network_instance b);
  Val (mk_pfcp_network_instance_ie (pfcp_tlv_of PFCP_IE_NETWORK_INSTANCE (Z.of_nat (length dt))) dt).
Definition pfcp_network_instance_of_tlv (h : heap) (t : pfcp_tlv) : pfcp_network_instance_ie := mk_pfcp_network_instance_ie t [].
Definition pfcp_network_instance_to_core (i : pfcp_network_instance_ie) : network_instance_t :=
  mk_network_instance_t (pfcp_network_instance i).
Definition pfcp_network_instance_dump_to (i : pfcp_network_instance_ie) : list Z * pfcp_network_instance_ie :=
  (pfcp_tlv_dump_to (pfcp_network_instance_tlv i) ++ pfcp_network_instance i, i).
Definition pfcp_network_instance_load_from (i : pfcp_network_instance_ie) (ins : istream)
  : result pfcp_exn (pfcp_network_instance_ie * istream) :=
  '(e, ins) ← read_string (pt_length (pfcp_network_instance_tlv i)) ins;
  Val (mk_pfcp_network_instance_ie (pfcp_network_instance_tlv i) e, ins).

#[export] Instance pfcp_network_instance_class : PfcpIe pfcp_network_instance_ie network_instance_t := {|
  pie_tlv := pfcp_network_instance_tlv; pie_of_core := pfcp_network_instance_of_core; pie_to_core := pfcp_network_instance_to_core;
  pie_of_tlv := pfcp_network_instance_of_tlv; pie_dump_to h i := Val (pfcp_network_instance_dump_to i);
  pie_load_from := pfcp_network_instance_load_from;
|}.

#[export] Instance pfcp_network_instance_codec : PfcpCodec pfcp_network_instance_ie network_instance_t PFCP_IE_NETWORK_INSTANCE
  (fun b => name_ok (network_instance b)) (fun _ b => mk_network_instance_t (encode_labels (labels (network_instance b)))).
Proof.
  intros h h' [s] (Hnz & Hl & Hs). cbn [network_instance] in *. set (dt := encode_labels (labels s)).
  assert (pfcp_string_to_dotted h s = Val dt) as Edt
    by (unfold pfcp_string_to_dotted; by rewrite string_to_dotted_spec by (done || lia)).
  assert (length dt = S (length s)) as Elen by apply length_encode_labels_from.
  destruct (string_tlv PFCP_IE_NETWORK_INSTANCE dt) as [Hok Epl]; [done|unfold string_ok; lia|].
  eexists _, dt, _. split; [cbn [pie_of_core pfcp_network_instance_class]; unfold pfcp_network_instance_of_core; cbn [network_instance]; by rewrite Edt|].
  do 2 (split; [done|]). split; [exact (eq_sym Epl)|].
  intros h'' rest. eexists. split; [|done].
  cbn [pie_load_from pie_of_tlv pie_tlv pfcp_network_instance_class pfcp_network_instance_tlv]. unfold pfcp_network_instance_load_from.
  cbn [pfcp_network_instance_of_tlv pfcp_network_instance_tlv]. by rewrite Epl, read_string_app.
Qed.

(** ** Application ID *)
Record application_id_t := mk_application_id_t { application_id : list Z }.
Record pfcp_application_id_ie := mk_pfcp_application_id_ie { pfcp_application_id_tlv : pfcp_tlv; pfcp_application_id : list Z }.

Definition pfcp_application_id_of_core (b : application_id_t) : pfcp_application_id_ie :=
  mk_pfcp_application_id_ie (pfcp_tlv_of PFCP_IE_APPLICATION_ID (Z.of_nat (length (application_id b)))) (application_id b).
Definition pfcp_application_id_of_tlv (h : heap) (t : pfcp_tlv) : pfcp_application_id_ie := mk_pfcp_application_id_ie t [].
Definition pfcp_application_id_to_core (i : pfcp_application_id_ie) : application_id_t := mk_application_id_t (pfcp_application_id i).
Definition pfcp_application_id_dump_to (i : pfcp_application_id_ie) : list Z * pfcp_application_id_ie :=
  (pfcp_tlv_dump_to (pfcp_application_id_tlv i) ++ pfcp_application_id i, i).
Definition pfcp_application_id_load_from (i : pfcp_application_id_ie) (ins : istream)
  : result pfcp_exn (pfcp_application_id_ie * istream) :=
  '(e, ins) ← read_string (pt_length (pfcp_application_id_tlv i)) ins;
  Val (mk_pfcp_application_id_ie (pfcp_application_id_tlv i) e, ins).

#[export] Instance pfcp_application_id_class : PfcpIe pfcp_application_id_ie application_id_t := {|
  pie_tlv := pfcp_application_id_tlv; pie_of_core h b := Val (pfcp_application_id_of_core b); pie_to_core := pfcp_application_id_to_core;
  pie_of_tlv := pfcp_application_id_of_tlv; pie_dump_to h i := Val (pfcp_application_id_dump_to i);
  pie_load_from := pfcp_application_id_load_from;
|}.

#[export] Instance pfcp_application_id_codec : PfcpCodec pfcp_application_id_ie application_id_t PFCP_IE_APPLICATION_ID
  (fun b => string_ok (application_id b)) as_sent.
Proof.
  intros h h' [s] Hs. destruct (string_tlv PFCP_IE_APPLICATION_ID s) as [Hok Epl]; [done..|].
  eexists _, s, _. do 3 (split; [done|]). split; [exact (eq_sym Epl)|]. intros h'' rest. eexists. split; [|done].
  etrans; [apply (f_equal (fun n => '(e, ins) ← read_string n _; Val (mk_pfcp_application_id_ie _ e, ins))); exact Epl|].
  by rewrite read_string_app.
Qed.

(** ** Activate and Deactivate Predefined Rules *)
Record activate_predefined_rules_t := mk_activate_predefined_rules_t { act_rules_name : list Z }.
Record pfcp_activate_predefined_rules_ie := mk_pfcp_activate_predefined_rules_ie {
  pfcp_act_rules_tlv : pfcp_tlv; pfcp_act_rules_name : list Z }.

Definition pfcp_activate_predefined_rules_of_core (b : activate_predefined_rules_t) : pfcp_activate_predefined_rules_ie :=
  mk_pfcp_activate_predefined_rules_ie
    (pfcp_tlv_of PFCP_IE_ACTIVATE_PREDEFINED_RULES (Z.of_nat (length (act_rules_name b)))) (act_rules_name b).
Definition pfcp_activate_predefined_rules_of_tlv (h : heap) (t : pfcp_tlv) : pfcp_activate_predefined_rules_ie :=
  mk_pfcp_activate_predefined_rules_ie t [].
Definition pfcp_activate_predefined_rules_to_core (i : pfcp_activate_predefined_rules_ie) : activate_predefined_rules_t :=
  mk_activate_predefined_rules_t (pfcp_act_rules_name i).
Definition pfcp_activate_predefined_rules_dump_to (i : pfcp_activate_predefined_rules_ie)
  : list Z * pfcp_activate_predefined_rules_ie :=
  let t := pfcp_set_length (Z.of_nat (length (pfcp_act_rules_name i))) (pfcp_act_rules_tlv i) in
  (pfcp_tlv_dump_to t ++ pfcp_act_rules_name i, mk_pfcp_activate_predefined_rules_ie t (pfcp_act_rules_name i)).
Definition pfcp_activate_predefined_rules_load_from (i : pfcp_activate_predefined_rules_ie) (ins : istream)
  : result pfcp_exn (pfcp_activate_predefined_rules_ie * istream) :=
  let t := pfcp_act_rules_tlv i in
  if pt_length t =? 0 then Throw (pfcp_tlv_bad_length_exception (pt_type t) (pt_length t))
  else '(e, ins) ← read_string (pt_length t) ins; Val (mk_pfcp_activate_predefined_rules_ie t e, ins).

#[export] Instance pfcp_activate_predefined_rules_class
  : PfcpIe pfcp_activate_predefined_rules_ie activate_predefined_rules_t := {|
  pie_tlv := pfcp_act_rules_tlv; pie_of_core h b := Val (pfcp_activate_predefined_rules_of_core b);
  pie_to_core := pfcp_activate_predefined_rules_to_core; pie_of_tlv := pfcp_activate_predefined_rules_of_tlv;
  pie_dump_to h i := Val (pfcp_activate_predefined_rules_dump_to i); pie_load_from := pfcp_activate_predefined_rules_load_from;
|}.

#[export] Instance pfcp_activate_predefined_rules_codec :
  PfcpCodec pfcp_activate_predefined_rules_ie activate_predefined_rules_t PFCP_IE_ACTIVATE_PREDEFINED_RULES
    (fun b => string_ok (act_rules_name b)) as_sent.
Proof.
  intros h h' [s] Hs. destruct (string_tlv PFCP_IE_ACTIVATE_PREDEFINED_RULES s) as [Hok Epl]; [done..|].
  eexists _, s, _. do 3 (split; [done|]). split; [exact (eq_sym Epl)|]. intros h'' rest. eexists. split; [|done].
  cbn [pie_load_from pie_of_tlv pie_tlv pfcp_activate_predefined_rules_class]. unfold pfcp_activate_predefined_rules_load_from.
  cbn [pfcp_activate_predefined_rules_of_tlv pfcp_act_rules_tlv pfcp_activate_predefined_rules_of_core act_rules_name].
  rewrite Epl. replace (_ =? 0) with false by (unfold string_ok in Hs; simpl in Hs; lia). by rewrite read_string_app.
Qed.

Record deactivate_predefined_rules_t := mk_deactivate_predefined_rules_t { deact_rules_name : list Z }.
Record pfcp_deactivate_predefined_rules_ie := mk_pfcp_deactivate_predefined_rules_ie {
  pfcp_deact_rules_tlv : pfcp_tlv; pfcp_deact_rules_name : list Z }.

Definition pfcp_deactivate_predefined_rules_of_core (b : deactivate_predefined_rules_t) : pfcp_deactivate_predefined_rules_ie :=
  mk_pfcp_deactivate_predefined_rules_ie
    (pfcp_tlv_of PFCP_IE_DEACTIVATE_PREDEFINED_RULES (Z.of_nat (length (deact_rules_name b)))) (deact_rules_name b).
Definition pfcp_deactivate_predefined_rules_of_tlv (h : heap) (t : pfcp_tlv) : pfcp_deactivate_predefined_rules_ie :=
  mk_pfcp_deactivate_predefined_rules_ie t [].
Definition pfcp_deactivate_predefined_rules_to_core (i : pfcp_deactivate_predefined_rules_ie) : deactivate_predefined_rules_t :=
  mk_deactivate_predefined_rules_t (pfcp_deact_rules_name i).
Definition pfcp_deactivate_predefined_rules_dump_to (i : pfcp_deactivate_predefined_rules_ie)
  : list Z * pfcp_deactivate_predefined_rules_ie :=
  let t := pfcp_set_length (Z.of_nat (length (pfcp_deact_rules_name i))) (pfcp_deact_rules_tlv i) in
  (pfcp_tlv_dump_to t ++ pfcp_deact_rules_name i, mk_pfcp_deactivate_predefined_rules_ie t (pfcp_deact_rules_name i)).
Definition pfcp_deactivate_predefined_rules_load_from (i : pfcp_deactivate_predefined_rules_ie) (ins : istream)
  : result pfcp_exn (pfcp_deactivate_predefined_rules_ie * istream) :=
  let t := pfcp_deact_rules_tlv i in
  if pt_length t =? 0 then Throw (pfcp_tlv_bad_length_exception (pt_type t) (pt_length t))
  else '(e, ins) ← read_string (pt_length t) ins; Val (mk_pfcp_deactivate_predefined_rules_ie t e, ins).

#[export] Instance pfcp_deactivate_predefined_rules_class
  : PfcpIe pfcp_deactivate_predefined_rules_ie deactivate_predefined_rules_t := {|
  pie_tlv := pfcp_deact_rules_tlv; pie_of_core h b := Val (pfcp_deactivate_predefined_rules_of_core b);
  pie_to_core := pfcp_deactivate_predefined_rules_to_core; pie_of_tlv := pfcp_deactivate_predefined_rules_of_tlv;
  pie_dump_to h i := Val (pfcp_deactivate_predefined_rules_dump_to i); pie_load_from := pfcp_deactivate_predefined_rules_load_from;
|}.

#[export] Instance pfcp_deactivate_predefined_rules_codec :
  PfcpCodec pfcp_deactivate_predefined_rules_ie deactivate_predefined_rules_t PFCP_IE_DEACTIVATE_PREDEFINED_RULES
    (fun b => string_ok (deact_rules_name b)) as_sent.
Proof.
  intros h h' [s] Hs. destruct (string_tlv PFCP_IE_DEACTIVATE_PREDEFINED_RULES s) as [Hok Epl]; [done..|].
  eexists _, s, _. do 3 (split; [done|]). split; [exact (eq_sym Epl)|]. intros h'' rest. eexists. split; [|done].
  cbn [pie_load_from pie_of_tlv pie_tlv pfcp_deactivate_predefined_rules_class]. unfold pfcp_deactivate_predefined_rules_load_from.
  cbn [pfcp_deactivate_predefined_rules_of_tlv pfcp_deact_rules_tlv pfcp_deactivate_predefined_rules_of_core deact_rules_name].
  rewrite Epl. replace (_ =? 0) with false by (unfold string_ok in Hs; simpl in Hs; lia). by rewrite read_string_app.
Qed.

(** ** Transport Level Marking

    [dump_to] throws, after it has written the header, unless two octets are
    announced. *)
Record transport_level_marking_t := mk_transport_level_marking_t { transport_level_marking : list Z }.
Record pfcp_transport_level_marking_ie := mk_pfcp_transport_level_marking_ie { pfcp_tlm_tlv : pfcp_tlv; pfcp_tlm : list Z }.

Definition pfcp_transport_level_marking_of_core (b : transport_level_marking_t) : pfcp_transport_level_marking_ie :=
  mk_pfcp_transport_level_marking_ie
    (pfcp_tlv_of PFCP_IE_TRANSPORT_LEVEL_MARKING (Z.of_nat (length (transport_level_marking b)))) (transport_level_marking b).
Definition pfcp_transport_level_marking_of_tlv (h : heap) (t : pfcp_tlv) : pfcp_transport_level_marking_ie :=
  mk_pfcp_transport_level_marking_ie t [].
Definition pfcp_transport_level_marking_to_core (i : pfcp_transport_level_marking_ie) : transport_level_marking_t :=
  mk_transport_level_marking_t (pfcp_tlm i).
Definition pfcp_transport_level_marking_dump_to (i : pfcp_transport_level_marking_ie)
  : result pfcp_exn (list Z * pfcp_transport_level_marking_ie) :=
  with_length (pfcp_tlm_tlv i) 2 (Val (pfcp_tlv_dump_to (pfcp_tlm_tlv i) ++ pfcp_tlm i, i)).
Definition pfcp_transport_level_marking_load_from (i : pfcp_transport_level_marking_ie) (ins : istream)
  : result pfcp_exn (pfcp_transport_level_marking_ie * istream) :=
  with_length (pfcp_tlm_tlv i) 2
    ('(e, ins) ← read_string 2 ins; Val (mk_pfcp_transport_level_marking_ie (pfcp_tlm_tlv i) e, ins)).

#[export] Instance pfcp_transport_level_marking_class : PfcpIe pfcp_transport_level_marking_ie transport_level_marking_t := {|
  pie_tlv := pfcp_tlm_tlv; pie_of_core h b := Val (pfcp_transport_level_marking_of_core b);
  pie_to_core := pfcp_transport_level_marking_to_core; pie_of_tlv := pfcp_transport_level_marking_of_tlv;
  pie_dump_to h := pfcp_transport_level_marking_dump_to; pie_load_from := pfcp_transport_level_marking_load_from;
|}.

#[export] Instance pfcp_transport_level_marking_codec :
  PfcpCodec pfcp_transport_level_marking_ie transport_level_marking_t PFCP_IE_TRANSPORT_LEVEL_MARKING
    (fun b => length (transport_level_marking b) = 2%nat) as_sent.
Proof.
  intros h h' [s] Hs. cbn [transport_level_marking] in Hs. destruct s as [|a [|b [|]]]; try done.
  eexists _, [a; b], _. do 4 (split; [done|]). intros h'' rest. eexists. split; [|done].
  etrans; [by apply with_length_of|]. exact (f_equal (fun r => r ≫= _) (read_string_app [a; b] rest)).
Qed.

(** ** Forwarding Policy *)
Record forwarding_policy_t := mk_forwarding_policy_t {
  forwarding_policy_identifier_length : Z; forwarding_policy_identifier : list Z }.
Record pfcp_forwarding_policy_ie := mk_pfcp_forwarding_policy_ie {
  pfcp_fp_tlv : pfcp_tlv; pfcp_fp_identifier_length : Z; pfcp_fp_identifier : list Z }.

Definition pfcp_forwarding_policy_of_core (b : forwarding_policy_t) : pfcp_forwarding_policy_ie :=
  mk_pfcp_forwarding_policy_ie
    (pfcp_tlv_of PFCP_IE_FORWARDING_POLICY (1 + Z.of_nat (length (forwarding_policy_identifier b))))
    (forwarding_policy_identifier_length b) (forwarding_policy_identifier b).
Definition pfcp_forwarding_policy_of_tlv (h : heap) (t : pfcp_tlv) : pfcp_forwarding_policy_ie := mk_pfcp_forwarding_policy_ie t 0 [].
Definition pfcp_forwarding_policy_to_core (i : pfcp_forwarding_policy_ie) : forwarding_policy_t :=
  mk_forwarding_policy_t (pfcp_fp_identifier_length i) (pfcp_fp_identifier i).
Definition pfcp_forwarding_policy_dump_to (i : pfcp_forwarding_policy_ie) : list Z * pfcp_forwarding_policy_ie :=
  (pfcp_tlv_dump_to (pfcp_fp_tlv i) ++ [pfcp_fp_identifier_length i] ++ pfcp_fp_identifier i, i).
Definition pfcp_forwarding_policy_load_from (i : pfcp_forwarding_policy_ie) (ins : istream)
  : result pfcp_exn (pfcp_forwarding_policy_ie * istream) :=
  let t := pfcp_fp_tlv i in
  if pt_length t <? 1 then Throw (pfcp_tlv_bad_length_exception (pt_type t) (pt_length t))
  else
    let '(n, ins) := read_u8 (pfcp_fp_identifier_length i) ins in
    with_length t (1 + n) ('(e, ins) ← read_string n ins; Val (mk_pfcp_forwarding_policy_ie t n e, ins)).

#[export] Instance pfcp_forwarding_policy_class : PfcpIe pfcp_forwarding_policy_ie forwarding_policy_t := {|
  pie_tlv := pfcp_fp_tlv; pie_of_core h b := Val (pfcp_forwarding_policy_of_core b); pie_to_core := pfcp_forwarding_policy_to_core;
  pie_of_tlv := pfcp_forwarding_policy_of_tlv; pie_dump_to h i := Val (pfcp_forwarding_policy_dump_to i);
  pie_load_from := pfcp_forwarding_policy_load_from;
|}.

#[export] Instance pfcp_forwarding_policy_codec : PfcpCodec pfcp_forwarding_policy_ie forwarding_policy_t PFCP_IE_FORWARDING_POLICY
  (fun b => fits 8 (forwarding_policy_identifier_length b) /\
            Z.of_nat (length (forwarding_policy_identifier b)) = forwarding_policy_identifier_length b) as_sent.
Proof.
  intros h h' [n s] [Hn Es]. cbn in Hn, Es. unfold fits in Hn.
  assert (pt_length (pfcp_tlv_of PFCP_IE_FORWARDING_POLICY (1 + n)) = 1 + n) as Epl by (apply pfcp_tlv_of_length; unfold fits; lia).
  exists (mk_pfcp_forwarding_policy_ie (pfcp_tlv_of PFCP_IE_FORWARDING_POLICY (1 + n)) n s), (n :: s).
  eexists. split; [by rewrite <- Es|]. split; [apply pfcp_tlv_ok_of; [done|lia]|]. split; [reflexivity|].
  split; [cbn [pie_tlv pfcp_forwarding_policy_class pfcp_fp_tlv]; rewrite Epl; cbn [length]; lia|].
  intros h'' rest. eexists. split; [|done]. cbn [pie_load_from pie_of_tlv pie_tlv pfcp_forwarding_policy_class pfcp_fp_tlv].
  unfold pfcp_forwarding_policy_load_from. cbn [pfcp_forwarding_policy_of_tlv pfcp_fp_tlv]. rewrite Epl.
  replace (1 + n <? 1) with false by lia. stream_norm. stream_step done. rewrite with_length_of by (unfold fits; lia).
  by rewrite <- Es, read_string_app.
Qed.

(** ** MBR and GBR *)
Record mbr_t := mk_mbr_t { ul_mbr : Z; dl_mbr : Z }.
Record pfcp_mbr_ie := mk_pfcp_mbr_ie { pfcp_mbr_tlv : pfcp_tlv; pfcp_ul_mbr : list Z; pfcp_dl_mbr : list Z }.

Definition pfcp_mbr_of_core (b : mbr_t) : pfcp_mbr_ie :=
  mk_pfcp_mbr_ie (pfcp_tlv_of PFCP_IE_MBR 10) (rate_octets (ul_mbr b)) (rate_octets (dl_mbr b)).
Definition pfcp_mbr_of_tlv (h : heap) (t : pfcp_tlv) : pfcp_mbr_ie := mk_pfcp_mbr_ie t (replicate 5 0) (replicate 5 0).
Definition pfcp_mbr_to_core (i : pfcp_mbr_ie) : mbr_t := mk_mbr_t (rate_value (pfcp_ul_mbr i)) (rate_value (pfcp_dl_mbr i)).
Definition pfcp_mbr_dump_to (i : pfcp_mbr_ie) : list Z * pfcp_mbr_ie :=
  (pfcp_tlv_dump_to (pfcp_mbr_tlv i) ++ pfcp_ul_mbr i ++ pfcp_dl_mbr i, i).
Definition pfcp_mbr_load_from (i : pfcp_mbr_ie) (ins : istream) : result pfcp_exn (pfcp_mbr_ie * istream) :=
  with_length (pfcp_mbr_tlv i) 10 (
    let '(u, ins) := read (pfcp_ul_mbr i) ins in
    let '(d, ins) := read (pfcp_dl_mbr i) ins in
    Val (mk_pfcp_mbr_ie (pfcp_mbr_tlv i) u d, ins)).

#[export] Instance pfcp_mbr_class : PfcpIe pfcp_mbr_ie mbr_t := {|
  pie_tlv := pfcp_mbr_tlv; pie_of_core h b := Val (pfcp_mbr_of_core b); pie_to_core := pfcp_mbr_to_core;
  pie_of_tlv := pfcp_mbr_of_tlv; pie_dump_to h i := Val (pfcp_mbr_dump_to i); pie_load_from := pfcp_mbr_load_from;
|}.

#[export] Instance pfcp_mbr_codec : PfcpCodec pfcp_mbr_ie mbr_t PFCP_IE_MBR (fun b => fits 40 (ul_mbr b) /\ fits 40 (dl_mbr b)) as_sent.
Proof.
  intros h h' [u d] [Hu Hd]. eexists _, (rate_octets u ++ rate_octets d), _. do 4 (split; [done|]).
  intros h'' rest. exists (pfcp_mbr_of_core (mk_mbr_t u d)). split; [|split; [done|]].
  - etrans; [by apply with_length_of|]. stream_norm. do 2 stream_step done. done.
  - cbn. unfold pfcp_mbr_to_core. cbn [pfcp_ul_mbr pfcp_dl_mbr pfcp_mbr_of_core ul_mbr dl_mbr]. by rewrite !rate_roundtrip.
Qed.

Record gbr_t := mk_gbr_t { ul_gbr : Z; dl_gbr : Z }.
Record pfcp_gbr_ie := mk_pfcp_gbr_ie { pfcp_gbr_tlv : pfcp_tlv; pfcp_ul_gbr : list Z; pfcp_dl_gbr : list Z }.

Definition pfcp_gbr_of_core (b : gbr_t) : pfcp_gbr_ie :=
  mk_pfcp_gbr_ie (pfcp_tlv_of PFCP_IE_GBR 10) (rate_octets (ul_gbr b)) (rate_octets (dl_gbr b)).
Definition pfcp_gbr_of_tlv (h : heap) (t : pfcp_tlv) : pfcp_gbr_ie := mk_pfcp_gbr_ie t (replicate 5 0) (replicate 5 0).
Definition pfcp_gbr_to_core (i : pfcp_gbr_ie) : gbr_t := mk_gbr_t (rate_value (pfcp_ul_gbr i)) (rate_value (pfcp_dl_gbr i)).
Definition pfcp_gbr_dump_to (i : pfcp_gbr_ie) : list Z * pfcp_gbr_ie :=
  (pfcp_tlv_dump_to (pfcp_gbr_tlv i) ++ pfcp_ul_gbr i ++ pfcp_dl_gbr i, i).
Definition pfcp_gbr_load_from (i : pfcp_gbr_ie) (ins : istream) : result pfcp_exn (pfcp_gbr_ie * istream) :=
  with_length (pfcp_gbr_tlv i) 10 (
    let '(u, ins) := read (pfcp_ul_gbr i) ins in
    let '(d, ins) := read (pfcp_dl_gbr i) ins in
    Val (mk_pfcp_gbr_ie (pfcp_gbr_tlv i) u d, ins)).

#[export] Instance pfcp_gbr_class : PfcpIe pfcp_gbr_ie gbr_t := {|
  pie_tlv := pfcp_gbr_tlv; pie_of_core h b := Val (pfcp_gbr_of_core b); pie_to_core := pfcp_gbr_to_core;
  pie_of_tlv := pfcp_gbr_of_tlv; pie_dump_to h i := Val (pfcp_gbr_dump_to i); pie_load_from := pfcp_gbr_load_from;
|}.

#[export] Instance pfcp_gbr_codec : PfcpCodec pfcp_gbr_ie gbr_t PFCP_IE_GBR (fun b => fits 40 (ul_gbr b) /\ fits 40 (dl_gbr b)) as_sent.
Proof.
  intros h h' [u d] [Hu Hd]. eexists _, (rate_octets u ++ rate_octets d), _. do 4 (split; [done|]).
  intros h'' rest. exists (pfcp_gbr_of_core (mk_gbr_t u d)). split; [|split; [done|]].
  - etrans; [by apply with_length_of|]. stream_norm. do 2 stream_step done. done.
  - cbn. unfold pfcp_gbr_to_core. cbn [pfcp_ul_gbr pfcp_dl_gbr pfcp_gbr_of_core ul_gbr dl_gbr]. by rewrite !rate_roundtrip.
Qed.
