(* ===== verification/PfcpTunnel.v ===== *)
(** * PFCP elements: tunnel endpoints, sessions, nodes and addresses

    [pfcp_fteid_ie], [pfcp_f_seid_ie], [pfcp_node_id_ie],
    [pfcp_ue_ip_address_ie], [pfcp_outer_header_creation_ie] of
    [src/pfcp/3gpp_29.244.hpp], in the conventions of [PfcpScalar].  Their
    fields depend on flags in the first octets. *)
From S2P Require Import Prelude Stream GtpTlv PfcpNode PfcpTlv PfcpElements.
From Stdlib Require Import ZArith Lia String.
From stdpp Require Import base numbers tactics list strings.
Open Scope Z_scope.

(** [if (flag) tlv.add_length(n)] and [if (flag) check_length += n]. *)
Definition add_if (flag n : Z) (t : pfcp_tlv) : pfcp_tlv := if flag =? 0 then t else pfcp_add_length n t.
Definition plus_if (flag n l : Z) : Z := if flag =? 0 then l else u16 (l + n).

Lemma add_if_of flag n ty l : 0 <= l -> 0 <= n -> l + n < 2 ^ 16 ->
  add_if flag n (pfcp_tlv_of ty l) = pfcp_tlv_of ty (plus_if flag n l).
Proof.
  intros Hl Hn H. unfold add_if, plus_if. destruct (flag =? 0); [done|]. rewrite pfcp_add_length_of by done.
  by rewrite wrapu_id by (unfold fits; lia).
Qed.

(** Write and read an optional field. *)
Definition opt_bytes (flag : Z) (l : list Z) : list Z := if flag =? 0 then [] else l.
Definition opt_read {A} (flag : Z) (old : A) (rd : A -> istream -> A * istream) (ins : istream) : A * istream :=
  if flag =? 0 then (old, ins) else rd old ins.

Lemma bit_cases b : fits 1 b -> b = 0 \/ b = 1.
Proof. unfold fits. simpl. lia. Qed.

(** Flags by cases: every octet of flags is then a numeral. *)
Ltac flag_cases :=
  repeat match goal with
    | H : fits 1 ?b |- _ => is_var b; let E := fresh in destruct (bit_cases b H) as [E|E]; clear H; subst b
    end.
Ltac flag_eval :=
  repeat match goal with
    | |- context [bf_field ?a ?b ?c] => let v := eval vm_compute in (bf_field a b c) in progress change (bf_field a b c) with v
    | |- context [?a =? ?b] => let v := eval vm_compute in (a =? b) in first [is_ground v; progress change (a =? b) with v]
    end; cbv match.

Lemma read_ipv4 old a rest : fits 32 a ->
  ipv4_address_load_from old (istream_of (ipv4_address_dump_to a ++ rest)) = (a, istream_of rest).
Proof. intros H. by apply read_raw_app. Qed.

Lemma read_ipv6 old a rest : length old = 16%nat -> length a = 16%nat ->
  ipv6_address_load_from old (istream_of (ipv6_address_dump_to a ++ rest)) = (a, istream_of rest).
Proof. intros H1 H2. apply read_app. by rewrite H1. Qed.

Lemma length_ipv6_dump a : length (ipv6_address_dump_to a) = length a.
Proof. done. Qed.

Lemma length_heap_chars h n : length (heap_chars h n) = n.
Proof. unfold heap_chars. by rewrite length_fmap, length_seq. Qed.

Definition PFCP_IE_F_TEID : Z := 21.
Definition PFCP_IE_F_SEID : Z := 57.
Definition PFCP_IE_NODE_ID : Z := 60.
Definition PFCP_IE_OUTER_HEADER_CREATION : Z := 84.
Definition PFCP_IE_UE_IP_ADDRESS : Z := 93.

(** ** F-TEID

    The constructor leaves [choose_id] without a value unless the peer is to
    choose.  [dump_to] writes [choose_id] whenever [chid] is set, and counts it
    only with [ch]. *)
Record fteid_t := mk_fteid_t {
  ft_chid : Z; ft_ch : Z; ft_v4 : Z; ft_v6 : Z; ft_teid : Z; ft_ipv4_address : Z; ft_ipv6_address : list Z; ft_choose_id : Z }.
Record pfcp_fteid_ie := mk_pfcp_fteid_ie {
  pfcp_fteid_tlv : pfcp_tlv; pfcp_fteid_u1 : Z; pfcp_fteid_teid : Z; pfcp_fteid_ipv4_address : Z;
  pfcp_fteid_ipv6_address : list Z; pfcp_fteid_choose_id : Z }.

Abbreviation fteid_v4 := (bf_field 0 1).
Abbreviation fteid_v6 := (bf_field 1 1).
Abbreviation fteid_ch := (bf_field 2 1).
Abbreviation fteid_chid := (bf_field 3 1).

Definition pfcp_fteid_of_core (h : heap) (b : fteid_t) : pfcp_fteid_ie :=
  let t := pfcp_tlv_of PFCP_IE_F_TEID 1 in
  let u1 := bf_pack [(1, 0); (1, 0); (1, ft_ch b); (1, ft_chid b); (4, 0)] in
  if fteid_ch u1 =? 0 then
    let t := pfcp_add_length 4 t in
    let u1 := bf_pack [(1, ft_v4 b); (1, ft_v6 b); (1, ft_ch b); (1, ft_chid b); (4, 0)] in
    mk_pfcp_fteid_ie (add_if (fteid_v6 u1) 16 (add_if (fteid_v4 u1) 4 t)) u1 (ft_teid b) (ft_ipv4_address b) (ft_ipv6_address b)
      (h 0%nat)
  else
    mk_pfcp_fteid_ie (add_if (fteid_chid u1) 1 t) u1 (ft_teid b) 0 in6addr_any
      (if fteid_chid u1 =? 0 then h 0%nat else ft_choose_id b).
Definition pfcp_fteid_of_tlv (h : heap) (t : pfcp_tlv) : pfcp_fteid_ie := mk_pfcp_fteid_ie t 0 0 0 in6addr_any 0.
Definition pfcp_fteid_to_core (i : pfcp_fteid_ie) : fteid_t :=
  let u1 := pfcp_fteid_u1 i in
  mk_fteid_t (fteid_chid u1) (fteid_ch u1) (fteid_v4 u1) (fteid_v6 u1) (pfcp_fteid_teid i) (pfcp_fteid_ipv4_address i)
    (pfcp_fteid_ipv6_address i) (pfcp_fteid_choose_id i).
Definition pfcp_fteid_octets (i : pfcp_fteid_ie) : list Z :=
  let u1 := pfcp_fteid_u1 i in
  [u1] ++
  (if fteid_ch u1 =? 0 then
     be_bytes 4 (pfcp_fteid_teid i) ++ opt_bytes (fteid_v4 u1) (ipv4_address_dump_to (pfcp_fteid_ipv4_address i)) ++
     opt_bytes (fteid_v6 u1) (ipv6_address_dump_to (pfcp_fteid_ipv6_address i))
   else []) ++
  opt_bytes (fteid_chid u1) [pfcp_fteid_choose_id i].
Definition pfcp_fteid_dump_to (i : pfcp_fteid_ie) : list Z * pfcp_fteid_ie :=
  let u1 := pfcp_fteid_u1 i in
  let t := pfcp_set_length 1 (pfcp_fteid_tlv i) in
  let t :=
    if fteid_ch u1 =? 0 then add_if (fteid_v6 u1) 16 (add_if (fteid_v4 u1) 4 (pfcp_add_length 4 t))
    else add_if (fteid_chid u1) 1 t in
  (pfcp_tlv_dump_to t ++ pfcp_fteid_octets i,
   mk_pfcp_fteid_ie t u1 (pfcp_fteid_teid i) (pfcp_fteid_ipv4_address i) (pfcp_fteid_ipv6_address i) (pfcp_fteid_choose_id i)).
Definition pfcp_fteid_load_from (i : pfcp_fteid_ie) (ins : istream) : result pfcp_exn (pfcp_fteid_ie * istream) :=
  let t := pfcp_fteid_tlv i in
  let '(u1, ins) := read_u8 (pfcp_fteid_u1 i) ins in
  let check_length :=
    if fteid_ch u1 =? 0 then plus_if (fteid_v6 u1) 16 (plus_if (fteid_v4 u1) 4 (1 + 4)) else plus_if (fteid_chid u1) 1 1 in
  with_length t check_length (
    if fteid_ch u1 =? 0 then
      let '(teid, ins) := read_be 4 (pfcp_fteid_teid i) ins in
      let '(a4, ins) := opt_read (fteid_v4 u1) (pfcp_fteid_ipv4_address i) ipv4_address_load_from ins in
      let '(a6, ins) := opt_read (fteid_v6 u1) (pfcp_fteid_ipv6_address i) ipv6_address_load_from ins in
      Val (mk_pfcp_fteid_ie t u1 teid a4 a6 (pfcp_fteid_choose_id i), ins)
    else
      let '(c, ins) := opt_read (fteid_chid u1) (pfcp_fteid_choose_id i) read_u8 ins in
      Val (mk_pfcp_fteid_ie t u1 (pfcp_fteid_teid i) (pfcp_fteid_ipv4_address i) (pfcp_fteid_ipv6_address i) c, ins)).

#[export] Instance pfcp_fteid_class : PfcpIe pfcp_fteid_ie fteid_t := {|
  pie_tlv := pfcp_fteid_tlv; pie_of_core h b := Val (pfcp_fteid_of_core h b); pie_to_core := pfcp_fteid_to_core;
  pie_of_tlv := pfcp_fteid_of_tlv; pie_dump_to h i := Val (pfcp_fteid_dump_to i); pie_load_from := pfcp_fteid_load_from;
|}.

(** A tunnel endpoint with the addresses its flags announce, or one the peer is
    to choose. *)
Definition pfcp_fteid_ok (b : fteid_t) : Prop :=
  fits 1 (ft_chid b) /\ fits 1 (ft_ch b) /\ fits 1 (ft_v4 b) /\ fits 1 (ft_v6 b) /\ fits 32 (ft_teid b) /\
  fits 32 (ft_ipv4_address b) /\ length (ft_ipv6_address b) = 16%nat /\
  (ft_v4 b = 0 -> ft_ipv4_address b = 0) /\ (ft_v6 b = 0 -> ft_ipv6_address b = in6addr_any) /\
  (ft_ch b = 0 -> ft_chid b = 0) /\ (ft_ch b = 1 -> ft_v4 b = 0 /\ ft_v6 b = 0 /\ ft_teid b = 0) /\
  (ft_chid b = 0 -> ft_choose_id b = 0).

(** What is left once the flags are numerals: the TLV, the length of the octets,
    and the reads one after the other. *)
Ltac tlv_by_cases := split; [reflexivity|]; split; [by vm_compute|]; split; [reflexivity|by vm_compute].
Ltac octets_length octets H :=
  unfold octets, opt_bytes; flag_eval;
  lazymatch type of H with length ?a = _ => try change (ipv6_address_dump_to _) with a end;
  rewrite ?length_app, ?H; reflexivity.
Ltac read_opts :=
  unfold opt_bytes, opt_read;
  repeat (flag_eval; stream_norm;
    first [ rewrite read_ipv4 by assumption | rewrite read_ipv6 by (assumption || apply length_heap_chars || done)
          | stream_step ltac:(assumption || done) ]; cbv match).

Ltac load_by_cases cls load octets :=
  cbn [pie_load_from pie_of_tlv pie_tlv]; unfold cls; cbn [pie_load_from pie_of_tlv pie_tlv]; unfold load, octets; stream_norm; stream_step done; read_opts; reflexivity.

#[export] Instance pfcp_fteid_codec : PfcpCodec pfcp_fteid_ie fteid_t PFCP_IE_F_TEID pfcp_fteid_ok as_sent.
Proof.
  intros h h' [chid ch v4 v6 teid a4 a6 cid] (H1 & H2 & H3 & H4 & Ht & Ha4 & Ha6 & N4 & N6 & Nch & Nch1 & Ncid).
  cbn [ft_chid ft_ch ft_v4 ft_v6 ft_teid ft_ipv4_address ft_ipv6_address ft_choose_id] in *.
  flag_cases; try (specialize (Nch eq_refl); done); try (destruct (Nch1 eq_refl) as (? & ? & ->); try done);
    try specialize (N4 eq_refl); try specialize (N6 eq_refl); try specialize (Ncid eq_refl); subst;
    eexists _, (pfcp_fteid_octets (pfcp_fteid_of_core h _)), _;
    (split; [reflexivity|]); (split; [tlv_by_cases|]); (split; [reflexivity|]).
  all: split; [octets_length pfcp_fteid_octets Ha6|].
  all: intros h'' rest; eexists; split; [load_by_cases pfcp_fteid_class pfcp_fteid_load_from pfcp_fteid_octets|split; reflexivity].
Qed.

(** ** F-SEID

    The addresses are octets in the object and words in the core type, whose
    comparison is on words. *)
Record pfcp_f_seid_ie := mk_pfcp_f_seid_ie {
  pfcp_f_seid_tlv : pfcp_tlv; pfcp_f_seid_u1 : Z; pfcp_f_seid : Z; pfcp_f_seid_ipv4_address : Z; pfcp_f_seid_ipv6_address : list Z }.

Abbreviation f_seid_v6 := (bf_field 0 1).
Abbreviation f_seid_v4 := (bf_field 1 1).

Definition pfcp_f_seid_of_core (b : fseid_t) : pfcp_f_seid_ie :=
  let t := pfcp_tlv_of PFCP_IE_F_SEID 9 in
  let u1 := bf_pack [(1, fs_v6 b); (1, fs_v4 b); (6, 0)] in
  mk_pfcp_f_seid_ie (add_if (f_seid_v6 u1) 16 (add_if (f_seid_v4 u1) 4 t)) u1 (fs_seid b)
    (if f_seid_v4 u1 =? 0 then 0 else fs_ipv4_address b)
    (if f_seid_v6 u1 =? 0 then in6addr_any else in6_octets (fs_ip6_0 b) (fs_ip6_1 b) (fs_ip6_2 b) (fs_ip6_3 b)).
Definition pfcp_f_seid_of_tlv (h : heap) (t : pfcp_tlv) : pfcp_f_seid_ie :=
  mk_pfcp_f_seid_ie t (h 0%nat) (h 1%nat) (h 2%nat) (heap_chars (fun k => h (3 + k)%nat) 16).
Definition pfcp_f_seid_to_core (i : pfcp_f_seid_ie) : fseid_t :=
  let u1 := pfcp_f_seid_u1 i in
  let '(a, b, c, d) := if f_seid_v6 u1 =? 0 then (0, 0, 0, 0) else in6_words (pfcp_f_seid_ipv6_address i) in
  mk_fseid (f_seid_v4 u1) (f_seid_v6 u1) (pfcp_f_seid i) (if f_seid_v4 u1 =? 0 then 0 else pfcp_f_seid_ipv4_address i) a b c d.
Definition pfcp_f_seid_octets (i : pfcp_f_seid_ie) : list Z :=
  let u1 := pfcp_f_seid_u1 i in
  [u1] ++ be_bytes 8 (pfcp_f_seid i) ++ opt_bytes (f_seid_v4 u1) (ipv4_address_dump_to (pfcp_f_seid_ipv4_address i)) ++
  opt_bytes (f_seid_v6 u1) (ipv6_address_dump_to (pfcp_f_seid_ipv6_address i)).
Definition pfcp_f_seid_dump_to (i : pfcp_f_seid_ie) : list Z * pfcp_f_seid_ie :=
  let u1 := pfcp_f_seid_u1 i in
  let t := pfcp_set_length (plus_if (f_seid_v6 u1) 16 (plus_if (f_seid_v4 u1) 4 9)) (pfcp_f_seid_tlv i) in
  (pfcp_tlv_dump_to t ++ pfcp_f_seid_octets i,
   mk_pfcp_f_seid_ie t u1 (pfcp_f_seid i) (pfcp_f_seid_ipv4_address i) (pfcp_f_seid_ipv6_address i)).
Definition pfcp_f_seid_load_from (i : pfcp_f_seid_ie) (ins : istream) : result pfcp_exn (pfcp_f_seid_ie * istream) :=
  let t := pfcp_f_seid_tlv i in
  let '(u1, ins) := read_u8 (pfcp_f_seid_u1 i) ins in
  with_length t (plus_if (f_seid_v6 u1) 16 (plus_if (f_seid_v4 u1) 4 9)) (
    let '(seid, ins) := read_be 8 (pfcp_f_seid i) ins in
    let '(a4, ins) := opt_read (f_seid_v4 u1) (pfcp_f_seid_ipv4_address i) ipv4_address_load_from ins in
    let '(a6, ins) := opt_read (f_seid_v6 u1) (pfcp_f_seid_ipv6_address i) ipv6_address_load_from ins in
    Val (mk_pfcp_f_seid_ie t u1 seid a4 a6, ins)).

#[export] Instance pfcp_f_seid_class : PfcpIe pfcp_f_seid_ie fseid_t := {|
  pie_tlv := pfcp_f_seid_tlv; pie_of_core h b := Val (pfcp_f_seid_of_core b); pie_to_core := pfcp_f_seid_to_core;
  pie_of_tlv := pfcp_f_seid_of_tlv; pie_dump_to h i := Val (pfcp_f_seid_dump_to i); pie_load_from := pfcp_f_seid_load_from;
|}.

(** An address that is not announced is the unspecified one. *)
Definition pfcp_f_seid_ok (b : fseid_t) : Prop :=
  fits 1 (fs_v4 b) /\ fits 1 (fs_v6 b) /\ fits 64 (fs_seid b) /\ fits 32 (fs_ipv4_address b) /\
  (fits 32 (fs_ip6_0 b) /\ fits 32 (fs_ip6_1 b) /\ fits 32 (fs_ip6_2 b) /\ fits 32 (fs_ip6_3 b)) /\
  (fs_v4 b = 0 -> fs_ipv4_address b = 0) /\
  (fs_v6 b = 0 -> fs_ip6_0 b = 0 /\ fs_ip6_1 b = 0 /\ fs_ip6_2 b = 0 /\ fs_ip6_3 b = 0).

#[export] Instance pfcp_f_seid_codec : PfcpCodec pfcp_f_seid_ie fseid_t PFCP_IE_F_SEID pfcp_f_seid_ok as_sent.
Proof.
  intros h h' [v4 v6 seid a4 w0 w1 w2 w3] (H1 & H2 & Hs & Ha4 & (W0 & W1 & W2 & W3) & N4 & N6).
  cbn [fs_v4 fs_v6 fs_seid fs_ipv4_address fs_ip6_0 fs_ip6_1 fs_ip6_2 fs_ip6_3] in *.
  pose proof (length_in6_octets w0 w1 w2 w3) as Ha6. pose proof (in6_words_octets w0 w1 w2 w3 W0 W1 W2 W3) as Ew.
  flag_cases; try specialize (N4 eq_refl); try destruct (N6 eq_refl) as (? & ? & ? & ?); subst;
    eexists _, (pfcp_f_seid_octets (pfcp_f_seid_of_core _)), _;
    (split; [reflexivity|]); (split; [tlv_by_cases|]); (split; [reflexivity|]); (split; [reflexivity|]);
    intros h'' rest; eexists; (split; [load_by_cases pfcp_f_seid_class pfcp_f_seid_load_from pfcp_f_seid_octets|]);
    (split; [reflexivity|]); try reflexivity; cbn [pie_to_core pfcp_f_seid_class]; unfold pfcp_f_seid_to_core;
    cbn [pfcp_f_seid_u1 pfcp_f_seid_ipv6_address pfcp_f_seid_of_core fs_v4 fs_v6]; flag_eval;
    change (in6_words _) with (in6_words (in6_octets w0 w1 w2 w3)); rewrite Ew; reflexivity.
Qed.

(** ** UE IP Address *)
Record ue_ip_address_t := mk_ue_ip_address_t {
  ue_ipv6d : Z; ue_sd : Z; ue_v4 : Z; ue_v6 : Z; ue_ipv4_address : Z; ue_ipv6_address : list Z;
  ue_ipv6_prefix_delegation_bits : Z }.
Record pfcp_ue_ip_address_ie := mk_pfcp_ue_ip_address_ie {
  pfcp_ue_tlv : pfcp_tlv; pfcp_ue_u1 : Z; pfcp_ue_ipv4_address : Z; pfcp_ue_ipv6_address : list Z; pfcp_ue_prefix_bits : Z }.

Abbreviation ue_bit_v6 := (bf_field 0 1).
Abbreviation ue_bit_v4 := (bf_field 1 1).
Abbreviation ue_bit_sd := (bf_field 2 1).
Abbreviation ue_bit_ipv6d := (bf_field 3 1).

(** [v6] and [ipv6d]: the prefix length follows the IPv6 address. *)
Definition ue_prefix (u1 : Z) : Z := if ue_bit_v6 u1 =? 0 then 0 else ue_bit_ipv6d u1.

Definition pfcp_ue_ip_address_of_core (b : ue_ip_address_t) : pfcp_ue_ip_address_ie :=
  let t := pfcp_tlv_of PFCP_IE_UE_IP_ADDRESS 1 in
  let u1 := bf_pack [(1, ue_v6 b); (1, ue_v4 b); (1, ue_sd b); (1, 0); (4, 0)] in
  let t := add_if (ue_bit_v4 u1) 4 t in
  let a4 := if ue_bit_v4 u1 =? 0 then 0 else ue_ipv4_address b in
  if ue_bit_v6 u1 =? 0 then mk_pfcp_ue_ip_address_ie t u1 a4 in6addr_any 0
  else
    let u1 := bf_pack [(1, ue_v6 b); (1, ue_v4 b); (1, ue_sd b); (1, ue_ipv6d b); (4, 0)] in
    mk_pfcp_ue_ip_address_ie (add_if (ue_bit_ipv6d u1) 1 (pfcp_add_length 16 t)) u1 a4 (ue_ipv6_address b)
      (if ue_bit_ipv6d u1 =? 0 then 0 else ue_ipv6_prefix_delegation_bits b).
Definition pfcp_ue_ip_address_of_tlv (h : heap) (t : pfcp_tlv) : pfcp_ue_ip_address_ie :=
  mk_pfcp_ue_ip_address_ie t (h 0%nat) (h 1%nat) (heap_chars (fun k => h (2 + k)%nat) 16) (h 18%nat).
Definition pfcp_ue_ip_address_to_core (i : pfcp_ue_ip_address_ie) : ue_ip_address_t :=
  let u1 := pfcp_ue_u1 i in
  mk_ue_ip_address_t (ue_prefix u1) (ue_bit_sd u1) (ue_bit_v4 u1) (ue_bit_v6 u1)
    (if ue_bit_v4 u1 =? 0 then 0 else pfcp_ue_ipv4_address i)
    (if ue_bit_v6 u1 =? 0 then in6addr_any else pfcp_ue_ipv6_address i)
    (if ue_prefix u1 =? 0 then 0 else pfcp_ue_prefix_bits i).
Definition pfcp_ue_ip_address_octets (i : pfcp_ue_ip_address_ie) : list Z :=
  let u1 := pfcp_ue_u1 i in
  [u1] ++ opt_bytes (ue_bit_v4 u1) (ipv4_address_dump_to (pfcp_ue_ipv4_address i)) ++
  opt_bytes (ue_bit_v6 u1) (ipv6_address_dump_to (pfcp_ue_ipv6_address i)) ++
  opt_bytes (ue_prefix u1) [pfcp_ue_prefix_bits i].
Definition ue_ip_address_length (u1 : Z) : Z := plus_if (ue_prefix u1) 1 (plus_if (ue_bit_v6 u1) 16 (plus_if (ue_bit_v4 u1) 4 1)).
Definition pfcp_ue_ip_address_dump_to (i : pfcp_ue_ip_address_ie) : list Z * pfcp_ue_ip_address_ie :=
  let t := pfcp_set_length (ue_ip_address_length (pfcp_ue_u1 i)) (pfcp_ue_tlv i) in
  (pfcp_tlv_dump_to t ++ pfcp_ue_ip_address_octets i,
   mk_pfcp_ue_ip_address_ie t (pfcp_ue_u1 i) (pfcp_ue_ipv4_address i) (pfcp_ue_ipv6_address i) (pfcp_ue_prefix_bits i)).
Definition pfcp_ue_ip_address_load_from (i : pfcp_ue_ip_address_ie) (ins : istream)
  : result pfcp_exn (pfcp_ue_ip_address_ie * istream) :=
  let t := pfcp_ue_tlv i in
  let '(u1, ins) := read_u8 (pfcp_ue_u1 i) ins in
  with_length t (ue_ip_address_length u1) (
    let '(a4, ins) := opt_read (ue_bit_v4 u1) (pfcp_ue_ipv4_address i) ipv4_address_load_from ins in
    let '(a6, ins) := opt_read (ue_bit_v6 u1) (pfcp_ue_ipv6_address i) ipv6_address_load_from ins in
    let '(p, ins) := opt_read (ue_prefix u1) (pfcp_ue_prefix_bits i) read_u8 ins in
    Val (mk_pfcp_ue_ip_address_ie t u1 a4 a6 p, ins)).

#[export] Instance pfcp_ue_ip_address_class : PfcpIe pfcp_ue_ip_address_ie ue_ip_address_t := {|
  pie_tlv := pfcp_ue_tlv; pie_of_core h b := Val (pfcp_ue_ip_address_of_core b); pie_to_core := pfcp_ue_ip_address_to_core;
  pie_of_tlv := pfcp_ue_ip_address_of_tlv; pie_dump_to h i := Val (pfcp_ue_ip_address_dump_to i);
  pie_load_from := pfcp_ue_ip_address_load_from;
|}.

Definition pfcp_ue_ip_address_ok (b : ue_ip_address_t) : Prop :=
  fits 1 (ue_ipv6d b) /\ fits 1 (ue_sd b) /\ fits 1 (ue_v4 b) /\ fits 1 (ue_v6 b) /\ fits 32 (ue_ipv4_address b) /\
  length (ue_ipv6_address b) = 16%nat /\ (ue_v4 b = 0 -> ue_ipv4_address b = 0) /\
  (ue_v6 b = 0 -> ue_ipv6_address b = in6addr_any /\ ue_ipv6d b = 0) /\
  (ue_ipv6d b = 0 -> ue_ipv6_prefix_delegation_bits b = 0).

#[export] Instance pfcp_ue_ip_address_codec :
  PfcpCodec pfcp_ue_ip_address_ie ue_ip_address_t PFCP_IE_UE_IP_ADDRESS pfcp_ue_ip_address_ok as_sent.
Proof.
  intros h h' [d sd v4 v6 a4 a6 p] (H1 & H2 & H3 & H4 & Ha4 & Ha6 & N4 & N6 & Nd).
  cbn [ue_ipv6d ue_sd ue_v4 ue_v6 ue_ipv4_address ue_ipv6_address ue_ipv6_prefix_delegation_bits] in *.
  flag_cases; try specialize (N4 eq_refl); try (destruct (N6 eq_refl) as [? ?]; try done); try specialize (Nd eq_refl); subst;
    eexists _, (pfcp_ue_ip_address_octets (pfcp_ue_ip_address_of_core _)), _;
    (split; [reflexivity|]); (split; [tlv_by_cases|]); (split; [reflexivity|]);
    (split; [unfold pfcp_ue_ip_address_octets, ue_prefix, opt_bytes; flag_eval; octets_length pfcp_ue_ip_address_octets Ha6|]);
    intros h'' rest; eexists; (split; [load_by_cases pfcp_ue_ip_address_class pfcp_ue_ip_address_load_from pfcp_ue_ip_address_octets|]);
    split; reflexivity.
Qed.

(** ** Node ID

    The name is kept as text in the object and written in label form. *)
Record pfcp_node_id_ie := mk_pfcp_node_id_ie {
  pfcp_node_id_tlv : pfcp_tlv; pfcp_node_id_u1 : Z; pfcp_node_id_ipv4_address : Z; pfcp_node_id_ipv6_address : list Z;
  pfcp_node_id_fqdn : list Z }.

Abbreviation nid_type := (bf_field 0 4).

Definition pfcp_node_id_of_core (b : node_id_t) : pfcp_node_id_ie :=
  let t := pfcp_tlv_of PFCP_IE_NODE_ID 1 in
  let u1 := bf_pack [(4, node_id_type b); (4, 0)] in
  if nid_type u1 =? NODE_ID_TYPE_IPV4_ADDRESS then mk_pfcp_node_id_ie (pfcp_add_length 4 t) u1 (u1_0 b) in6addr_any []
  else if nid_type u1 =? NODE_ID_TYPE_IPV6_ADDRESS then
    mk_pfcp_node_id_ie (pfcp_add_length 16 t) u1 0 (in6_octets (u1_0 b) (u1_1 b) (u1_2 b) (u1_3 b)) []
  else if nid_type u1 =? NODE_ID_TYPE_FQDN then
    mk_pfcp_node_id_ie (pfcp_add_length (Z.of_nat (length (chars (fqdn b))) + 1) t) u1 0 in6addr_any (chars (fqdn b))
  else mk_pfcp_node_id_ie t u1 0 in6addr_any [].
Definition pfcp_node_id_of_tlv (h : heap) (t : pfcp_tlv) : pfcp_node_id_ie :=
  mk_pfcp_node_id_ie t (h 0%nat) (h 1%nat) (heap_chars (fun k => h (2 + k)%nat) 16) [].
Definition pfcp_node_id_to_core (i : pfcp_node_id_ie) : node_id_t :=
  let ty := nid_type (pfcp_node_id_u1 i) in
  if ty =? NODE_ID_TYPE_IPV4_ADDRESS then mk_node_id ty (pfcp_node_id_ipv4_address i) 0 0 0 ""
  else if ty =? NODE_ID_TYPE_IPV6_ADDRESS then
    let '(a, b, c, d) := in6_words (pfcp_node_id_ipv6_address i) in mk_node_id ty a b c d ""
  else if ty =? NODE_ID_TYPE_FQDN then mk_node_id ty 0 0 0 0 (string_of_chars (pfcp_node_id_fqdn i))
  else mk_node_id ty 0 0 0 0 "".
Definition pfcp_node_id_octets (h : heap) (i : pfcp_node_id_ie) : result pfcp_exn (list Z) :=
  let ty := nid_type (pfcp_node_id_u1 i) in
  if ty =? NODE_ID_TYPE_IPV4_ADDRESS then Val (pfcp_node_id_u1 i :: ipv4_address_dump_to (pfcp_node_id_ipv4_address i))
  else if ty =? NODE_ID_TYPE_IPV6_ADDRESS then Val (pfcp_node_id_u1 i :: ipv6_address_dump_to (pfcp_node_id_ipv6_address i))
  else if ty =? NODE_ID_TYPE_FQDN then
    dotted ← pfcp_string_to_dotted h (pfcp_node_id_fqdn i); Val (pfcp_node_id_u1 i :: dotted)
  else Val [pfcp_node_id_u1 i].
Definition pfcp_node_id_dump_to (h : heap) (i : pfcp_node_id_ie) : result pfcp_exn (list Z * pfcp_node_id_ie) :=
  body ← pfcp_node_id_octets h i; Val (pfcp_tlv_dump_to (pfcp_node_id_tlv i) ++ body, i).
Definition pfcp_node_id_load_from (i : pfcp_node_id_ie) (ins : istream) : result pfcp_exn (pfcp_node_id_ie * istream) :=
  let t := pfcp_node_id_tlv i in
  let '(u1, ins) := read_u8 (pfcp_node_id_u1 i) ins in
  let check_length := u16 (pt_length t - 1) in
  let bad := Throw (pfcp_tlv_bad_length_exception (pt_type t) (pt_length t)) in
  if nid_type u1 =? NODE_ID_TYPE_IPV4_ADDRESS then
    if negb (check_length =? 4) then bad
    else
      let '(a, ins) := ipv4_address_load_from (pfcp_node_id_ipv4_address i) ins in
      Val (mk_pfcp_node_id_ie t u1 a (pfcp_node_id_ipv6_address i) (pfcp_node_id_fqdn i), ins)
  else if nid_type u1 =? NODE_ID_TYPE_IPV6_ADDRESS then
    if negb (check_length =? 16) then bad
    else
      let '(a, ins) := ipv6_address_load_from (pfcp_node_id_ipv6_address i) ins in
      Val (mk_pfcp_node_id_ie t u1 (pfcp_node_id_ipv4_address i) a (pfcp_node_id_fqdn i), ins)
  else if nid_type u1 =? NODE_ID_TYPE_FQDN then
    if check_length =? 0 then bad
    else
      '(dot, ins) ← read_string check_length ins;
      f ← pfcp_dotted_to_string dot;
      Val (mk_pfcp_node_id_ie t u1 (pfcp_node_id_ipv4_address i) (pfcp_node_id_ipv6_address i) f, ins)
  else Val (mk_pfcp_node_id_ie t u1 (pfcp_node_id_ipv4_address i) (pfcp_node_id_ipv6_address i) (pfcp_node_id_fqdn i), ins).

#[export] Instance pfcp_node_id_class : PfcpIe pfcp_node_id_ie node_id_t := {|
  pie_tlv := pfcp_node_id_tlv; pie_of_core h b := Val (pfcp_node_id_of_core b); pie_to_core := pfcp_node_id_to_core;
  pie_of_tlv := pfcp_node_id_of_tlv; pie_dump_to := pfcp_node_id_dump_to; pie_load_from := pfcp_node_id_load_from;
|}.

(** An IPv4 address, an IPv6 address or a name, and nothing else. *)
Inductive pfcp_node_id_ok : node_id_t -> Prop :=
| node_id_ok_v4 a : fits 32 a -> pfcp_node_id_ok (mk_node_id NODE_ID_TYPE_IPV4_ADDRESS a 0 0 0 "")
| node_id_ok_v6 a b c d : fits 32 a -> fits 32 b -> fits 32 c -> fits 32 d ->
    pfcp_node_id_ok (mk_node_id NODE_ID_TYPE_IPV6_ADDRESS a b c d "")
| node_id_ok_fqdn s : name_ok (chars s) -> pfcp_node_id_ok (mk_node_id NODE_ID_TYPE_FQDN 0 0 0 0 s).

Ltac node_id_load :=
  cbn [pie_load_from pie_of_tlv pie_tlv pfcp_node_id_class]; unfold pfcp_node_id_load_from; stream_norm; stream_step done;
  flag_eval.

#[export] Instance pfcp_node_id_codec : PfcpCodec pfcp_node_id_ie node_id_t PFCP_IE_NODE_ID pfcp_node_id_ok as_sent.
Proof.
  intros h h' _ [a Ha | a b c d Ha Hb Hc Hd | s Hs].
  - eexists _, (0 :: ipv4_address_dump_to a), _. split; [reflexivity|]. split; [tlv_by_cases|]. do 2 (split; [reflexivity|]).
    intros h'' rest. eexists. split; [node_id_load; rewrite read_ipv4 by done; reflexivity|split; reflexivity].
  - eexists _, (1 :: in6_octets a b c d), _. split; [reflexivity|]. split; [tlv_by_cases|]. do 2 (split; [reflexivity|]).
    intros h'' rest. eexists.
    split; [node_id_load; rewrite (read_ipv6 _ (in6_octets a b c d)) by (done || apply length_heap_chars); reflexivity|].
    split; [reflexivity|].
    etrans; [|exact (f_equal (fun '(a, b, c, d) => mk_node_id 1 a b c d "") (in6_words_octets a b c d Ha Hb Hc Hd))]. reflexivity.
  - destruct (pfcp_labels_roundtrip h' (chars s) Hs) as (dt & Ed & Elen & Es). pose proof Hs as (_ & Hlen & _).
    assert (pfcp_add_length (Z.of_nat (length (chars s)) + 1) (pfcp_tlv_of PFCP_IE_NODE_ID 1) =
            pfcp_tlv_of PFCP_IE_NODE_ID (1 + Z.of_nat (length dt))) as Et
      by (rewrite pfcp_add_length_of by lia; f_equal; lia).
    exists (mk_pfcp_node_id_ie (pfcp_tlv_of PFCP_IE_NODE_ID (1 + Z.of_nat (length dt))) 2 0 in6addr_any (chars s)), (2 :: dt).
    eexists. split; [by rewrite <- Et|]. split; [apply pfcp_tlv_ok_of; [done|lia]|].
    split; [unfold pie_dump_to, pfcp_node_id_class, pfcp_node_id_dump_to, pfcp_node_id_octets; cbn; by rewrite Ed|].
    split; [cbn [pie_tlv pfcp_node_id_class pfcp_node_id_tlv]; rewrite pfcp_tlv_of_length by (unfold fits; lia); simpl; lia|].
    intros h'' rest. exists (mk_pfcp_node_id_ie (pfcp_tlv_of PFCP_IE_NODE_ID (1 + Z.of_nat (length dt))) 2 (h'' 1%nat)
      (heap_chars (fun k => h'' (2 + k)%nat) 16) (chars s)).
    split; [|split; [reflexivity|]].
    2: { unfold as_sent. cbn [pie_to_core pfcp_node_id_class]. unfold pfcp_node_id_to_core.
         cbn [pfcp_node_id_u1 pfcp_node_id_fqdn]. by rewrite string_of_chars_chars. }
    cbn [pie_load_from pie_of_tlv pie_tlv pfcp_node_id_class]. unfold pfcp_node_id_load_from. stream_norm. stream_step done.
    change (nid_type 2 =? NODE_ID_TYPE_IPV4_ADDRESS) with false. change (nid_type 2 =? NODE_ID_TYPE_IPV6_ADDRESS) with false.
    change (nid_type 2 =? NODE_ID_TYPE_FQDN) with true. cbv match.
    cbn [pfcp_node_id_of_tlv pfcp_node_id_tlv]. rewrite pfcp_tlv_of_length by (unfold fits; lia).
    rewrite wrapu_id by (unfold fits; lia). replace (1 + Z.of_nat (length dt) - 1) with (Z.of_nat (length dt)) by lia.
    replace (_ =? 0) with false by lia. rewrite read_string_app. cbn. by rewrite Es.
Qed.

(** ** Outer Header Creation

    [to_core_type] copies every member, also those the description does not
    announce, which [load_from] leaves as the memory was. *)
Record outer_header_creation_t := mk_outer_header_creation_t {
  ohc_description : Z; ohc_teid : Z; ohc_ipv4_address : Z; ohc_ipv6_address : list Z; ohc_port_number : Z }.
Record pfcp_outer_header_creation_ie := mk_pfcp_outer_header_creation_ie {
  pfcp_ohc_tlv : pfcp_tlv; pfcp_ohc_description : Z; pfcp_ohc_teid : Z; pfcp_ohc_ipv4_address : Z;
  pfcp_ohc_ipv6_address : list Z; pfcp_ohc_port_number : Z }.

Definition OUTER_HEADER_CREATION_GTPU_UDP_IPV4 : Z := 0x0100.
Definition OUTER_HEADER_CREATION_GTPU_UDP_IPV6 : Z := 0x0200.
Definition OUTER_HEADER_CREATION_UDP_IPV4 : Z := 0x0400.
Definition OUTER_HEADER_CREATION_UDP_IPV6 : Z := 0x0800.

(** The conditions on the description under which a field is present. *)
Definition ohc_has_teid (d : Z) : Z := Z.land d (Z.lor OUTER_HEADER_CREATION_GTPU_UDP_IPV4 OUTER_HEADER_CREATION_GTPU_UDP_IPV6).
Definition ohc_has_v4 (d : Z) : Z := Z.land d (Z.lor OUTER_HEADER_CREATION_GTPU_UDP_IPV4 OUTER_HEADER_CREATION_UDP_IPV4).
Definition ohc_has_v6 (d : Z) : Z := Z.land d (Z.lor OUTER_HEADER_CREATION_GTPU_UDP_IPV6 OUTER_HEADER_CREATION_UDP_IPV6).
Definition ohc_has_port (d : Z) : Z := Z.land d OUTER_HEADER_CREATION_UDP_IPV4.

Definition pfcp_outer_header_creation_of_core (b : outer_header_creation_t) : pfcp_outer_header_creation_ie :=
  let d := ohc_description b in
  let t := pfcp_tlv_of PFCP_IE_OUTER_HEADER_CREATION 2 in
  mk_pfcp_outer_header_creation_ie
    (add_if (ohc_has_port d) 2 (add_if (ohc_has_v6 d) 16 (add_if (ohc_has_v4 d) 4 (add_if (ohc_has_teid d) 4 t)))) d
    (if ohc_has_teid d =? 0 then 0 else ohc_teid b)
    (if ohc_has_v4 d =? 0 then 0 else ohc_ipv4_address b)
    (if ohc_has_v6 d =? 0 then in6addr_any else ohc_ipv6_address b)
    (if ohc_has_port d =? 0 then 0 else ohc_port_number b).
Definition pfcp_outer_header_creation_of_tlv (h : heap) (t : pfcp_tlv) : pfcp_outer_header_creation_ie :=
  mk_pfcp_outer_header_creation_ie t (h 0%nat) (h 1%nat) (h 2%nat) (heap_chars (fun k => h (3 + k)%nat) 16) (h 19%nat).
Definition pfcp_outer_header_creation_to_core (i : pfcp_outer_header_creation_ie) : outer_header_creation_t :=
  mk_outer_header_creation_t (pfcp_ohc_description i) (pfcp_ohc_teid i) (pfcp_ohc_ipv4_address i) (pfcp_ohc_ipv6_address i)
    (pfcp_ohc_port_number i).
Definition pfcp_outer_header_creation_octets (i : pfcp_outer_header_creation_ie) : list Z :=
  let d := pfcp_ohc_description i in
  be_bytes 2 d ++ opt_bytes (ohc_has_teid d) (be_bytes 4 (pfcp_ohc_teid i)) ++
  opt_bytes (ohc_has_v4 d) (ipv4_address_dump_to (pfcp_ohc_ipv4_address i)) ++
  opt_bytes (ohc_has_v6 d) (ipv6_address_dump_to (pfcp_ohc_ipv6_address i)) ++
  opt_bytes (ohc_has_port d) (be_bytes 2 (pfcp_ohc_port_number i)).
Definition pfcp_outer_header_creation_dump_to (i : pfcp_outer_header_creation_ie) : list Z * pfcp_outer_header_creation_ie :=
  (pfcp_tlv_dump_to (pfcp_ohc_tlv i) ++ pfcp_outer_header_creation_octets i, i).
Definition pfcp_outer_header_creation_load_from (i : pfcp_outer_header_creation_ie) (ins : istream)
  : result pfcp_exn (pfcp_outer_header_creation_ie * istream) :=
  let t := pfcp_ohc_tlv i in
  if pt_length t <? 4 then Throw (pfcp_tlv_bad_length_exception (pt_type t) (pt_length t))
  else
    let '(d, ins) := read_be 2 (pfcp_ohc_description i) ins in
    let '(teid, ins) := opt_read (ohc_has_teid d) (pfcp_ohc_teid i) (read_be 4) ins in
    let '(a4, ins) := opt_read (ohc_has_v4 d) (pfcp_ohc_ipv4_address i) ipv4_address_load_from ins in
    let '(a6, ins) := opt_read (ohc_has_v6 d) (pfcp_ohc_ipv6_address i) ipv6_address_load_from ins in
    let '(port, ins) := opt_read (ohc_has_port d) (pfcp_ohc_port_number i) (read_be 2) ins in
    Val (mk_pfcp_outer_header_creation_ie t d teid a4 a6 port, ins).

#[export] Instance pfcp_outer_header_creation_class : PfcpIe pfcp_outer_header_creation_ie outer_header_creation_t := {|
  pie_tlv := pfcp_ohc_tlv; pie_of_core h b := Val (pfcp_outer_header_creation_of_core b);
  pie_to_core := pfcp_outer_header_creation_to_core; pie_of_tlv := pfcp_outer_header_creation_of_tlv;
  pie_dump_to h i := Val (pfcp_outer_header_creation_dump_to i); pie_load_from := pfcp_outer_header_creation_load_from;
|}.

Definition pfcp_outer_header_creation_ok (b : outer_header_creation_t) : Prop :=
  let d := ohc_description b in
  fits 16 d /\ (ohc_has_teid d <> 0 \/ ohc_has_v4 d <> 0 \/ ohc_has_v6 d <> 0) /\
  fits 32 (ohc_teid b) /\ fits 32 (ohc_ipv4_address b) /\ length (ohc_ipv6_address b) = 16%nat /\ fits 16 (ohc_port_number b).

(** The fields the description does not announce are what the memory held. *)
Definition outer_header_creation_seen (h : heap) (b : outer_header_creation_t) : outer_header_creation_t :=
  let d := ohc_description b in
  mk_outer_header_creation_t d
    (if ohc_has_teid d =? 0 then h 1%nat else ohc_teid b)
    (if ohc_has_v4 d =? 0 then h 2%nat else ohc_ipv4_address b)
    (if ohc_has_v6 d =? 0 then heap_chars (fun k => h (3 + k)%nat) 16 else ohc_ipv6_address b)
    (if ohc_has_port d =? 0 then h 19%nat else ohc_port_number b).

#[export] Instance pfcp_outer_header_creation_codec :
  PfcpCodec pfcp_outer_header_creation_ie outer_header_creation_t PFCP_IE_OUTER_HEADER_CREATION
    pfcp_outer_header_creation_ok outer_header_creation_seen.
Proof.
  intros h h' [d teid a4 a6 port] (Hd & Hne & Ht & Ha4 & Ha6 & Hp). cbn [ohc_description ohc_teid ohc_ipv4_address ohc_ipv6_address ohc_port_number] in *.
  assert (negb (ohc_has_teid d =? 0) || negb (ohc_has_v4 d =? 0) || negb (ohc_has_v6 d =? 0) = true) as Hb by lia. clear Hne.
  destruct (ohc_has_teid d =? 0) eqn:E1, (ohc_has_v4 d =? 0) eqn:E2, (ohc_has_v6 d =? 0) eqn:E3, (ohc_has_port d =? 0) eqn:E4; try done.
  all: eexists _, (pfcp_outer_header_creation_octets (pfcp_outer_header_creation_of_core (mk_outer_header_creation_t d teid a4 a6 port))), _; split; [reflexivity|].
  all: cbn [pie_tlv pie_dump_to pie_load_from pie_of_tlv pie_to_core pfcp_outer_header_creation_class].
  all: unfold pfcp_outer_header_creation_dump_to, pfcp_outer_header_creation_octets, outer_header_creation_seen,
    pfcp_outer_header_creation_of_core, pfcp_outer_header_creation_of_tlv, pfcp_outer_header_creation_load_from, add_if, opt_bytes.
  all: cbn [pfcp_ohc_tlv pfcp_ohc_description pfcp_ohc_teid pfcp_ohc_ipv4_address pfcp_ohc_ipv6_address pfcp_ohc_port_number
    ohc_description ohc_teid ohc_ipv4_address ohc_ipv6_address ohc_port_number].
  all: rewrite ?E1, ?E2, ?E3, ?E4.
  all: split; [tlv_by_cases|]; split; [reflexivity|]; split; [rewrite ?length_app, ?length_ipv6_dump, ?Ha6; reflexivity|].
  all: intros h'' rest; eexists; split; [|split].
  all: try match goal with |- context [?a <? 4] => change (a <? 4) with false; cbv match; rewrite <- ?(assoc_L (++));
         rewrite read_be_app by done; unfold opt_read; rewrite E1, E2, E3, E4; read_opts; reflexivity end.
  all: reflexivity.
Qed.
