(* ===== verification/PfcpFilters.v ===== *)
(** * PFCP elements whose octets and length do not agree

    [pfcp_sdf_filter_ie], the two volume thresholds, [pfcp_failed_rule_id_ie],
    [pfcp_user_plane_ip_resource_information_ie] and [pfcp_user_id_ie] of
    [src/pfcp/3gpp_29.244.hpp], in the conventions of [PfcpScalar].  The lemmas
    say for which values they convey what they were given. *)
From S2P Require Import Prelude Stream GtpTlv GtpIdentity PfcpTlv PfcpElements PfcpTunnel.
From Stdlib Require Import ZArith Lia String.
From stdpp Require Import base numbers tactics list strings pretty.
Open Scope Z_scope.

Definition PFCP_IE_SDF_FILTER : Z := 23.
Definition PFCP_IE_VOLUME_THRESHOLD : Z := 31.
Definition PFCP_IE_SUBSEQUENT_VOLUME_THRESHOLD : Z := 34.
Definition PFCP_IE_FAILED_RULE_ID : Z := 114.
Definition PFCP_IE_USER_PLANE_IP_RESOURCE_INFORMATION : Z := 116.
Definition PFCP_IE_USER_ID : Z := 141.

(** ** SDF Filter

    The length counts neither the flow label nor the filter id, and the filter
    id is written as decimal text. *)
Record sdf_filter_t := mk_sdf_filter_t {
  sdf_bid : Z; sdf_fl : Z; sdf_spi : Z; sdf_ttc : Z; sdf_fd : Z;
  length_of_flow_description : Z; flow_description : list Z; tos_traffic_class : list Z;
  security_parameter_index : list Z; flow_label : list Z; sdf_filter_id : Z }.
Record pfcp_sdf_filter_ie := mk_pfcp_sdf_filter_ie {
  pfcp_sdf_tlv : pfcp_tlv; pfcp_sdf_u1 : Z; pfcp_sdf_fd_length : Z; pfcp_sdf_flow_description : list Z;
  pfcp_sdf_tos : list Z; pfcp_sdf_spi : list Z; pfcp_sdf_flow_label : list Z; pfcp_sdf_filter_id : Z }.

Abbreviation sdf_bit_fd := (bf_field 0 1).
Abbreviation sdf_bit_ttc := (bf_field 1 1).
Abbreviation sdf_bit_spi := (bf_field 2 1).
Abbreviation sdf_bit_fl := (bf_field 3 1).
Abbreviation sdf_bit_bid := (bf_field 4 1).

(** [if (flag) { if (s.size() != n) throw ...; }] *)
Definition sized_if (flag : Z) (s : list Z) (n : nat) (field : string) : result pfcp_exn (list Z) :=
  if flag =? 0 then Val []
  else if (length s =? n)%nat then Val s else Throw (pfcp_ie_value_exception PFCP_IE_SDF_FILTER field).

Definition pfcp_sdf_filter_of_core (b : sdf_filter_t) : result pfcp_exn pfcp_sdf_filter_ie :=
  let t := pfcp_tlv_of PFCP_IE_SDF_FILTER 2 in
  let u1 := bf_pack [(1, sdf_fd b); (1, sdf_ttc b); (1, sdf_spi b); (1, sdf_fl b); (1, sdf_bid b); (3, 0)] in
  let t := add_if (sdf_bit_fd u1) (2 + Z.of_nat (length (flow_description b))) t in
  tos ← sized_if (sdf_bit_ttc u1) (tos_traffic_class b) 2 "tos_traffic_class";
  let t := add_if (sdf_bit_ttc u1) 2 t in
  spi ← sized_if (sdf_bit_spi u1) (security_parameter_index b) 4 "security_parameter_index";
  let t := add_if (sdf_bit_spi u1) 4 t in
  fl ← sized_if (sdf_bit_fl u1) (flow_label b) 3 "flow_label";
  Val (mk_pfcp_sdf_filter_ie t u1
    (if sdf_bit_fd u1 =? 0 then 0 else length_of_flow_description b)
    (if sdf_bit_fd u1 =? 0 then [] else flow_description b) tos spi fl
    (if sdf_bit_bid u1 =? 0 then 0 else sdf_filter_id b)).
Definition pfcp_sdf_filter_of_tlv (h : heap) (t : pfcp_tlv) : pfcp_sdf_filter_ie :=
  mk_pfcp_sdf_filter_ie t (h 0%nat) (h 1%nat) [] [] [] [] (h 2%nat).
Definition pfcp_sdf_filter_to_core (i : pfcp_sdf_filter_ie) : sdf_filter_t :=
  let u1 := pfcp_sdf_u1 i in
  mk_sdf_filter_t (sdf_bit_bid u1) (sdf_bit_fl u1) (sdf_bit_spi u1) (sdf_bit_ttc u1) (sdf_bit_fd u1)
    (if sdf_bit_fd u1 =? 0 then 0 else pfcp_sdf_fd_length i)
    (if sdf_bit_fd u1 =? 0 then [] else pfcp_sdf_flow_description i)
    (if sdf_bit_ttc u1 =? 0 then [] else pfcp_sdf_tos i)
    (if sdf_bit_spi u1 =? 0 then [] else pfcp_sdf_spi i)
    (if sdf_bit_fl u1 =? 0 then [] else pfcp_sdf_flow_label i)
    (if sdf_bit_bid u1 =? 0 then 0 else pfcp_sdf_filter_id i).

(** [os << n] *)
Definition decimal (n : Z) : list Z := chars (pretty (Z.to_N n)).

Definition pfcp_sdf_filter_octets (i : pfcp_sdf_filter_ie) : list Z :=
  let u1 := pfcp_sdf_u1 i in
  [u1; 0] ++ opt_bytes (sdf_bit_fd u1) (be_bytes 2 (pfcp_sdf_fd_length i) ++ pfcp_sdf_flow_description i) ++
  opt_bytes (sdf_bit_ttc u1) (pfcp_sdf_tos i) ++ opt_bytes (sdf_bit_spi u1) (pfcp_sdf_spi i) ++
  opt_bytes (sdf_bit_fl u1) (pfcp_sdf_flow_label i) ++ opt_bytes (sdf_bit_bid u1) (decimal (pfcp_sdf_filter_id i)).
Definition pfcp_sdf_filter_dump_to (i : pfcp_sdf_filter_ie) : list Z * pfcp_sdf_filter_ie :=
  (pfcp_tlv_dump_to (pfcp_sdf_tlv i) ++ pfcp_sdf_filter_octets i, i).

(** [if (flag) { char e[n]; is.read(e, n); s.assign(e, n); }] *)
Definition opt_string (flag n : Z) (old : list Z) (ins : istream) : result pfcp_exn (list Z * istream) :=
  if flag =? 0 then Val (old, ins) else read_string n ins.

Definition pfcp_sdf_filter_load_from (i : pfcp_sdf_filter_ie) (ins : istream) : result pfcp_exn (pfcp_sdf_filter_ie * istream) :=
  let '(u1, ins) := read_u8 (pfcp_sdf_u1 i) ins in
  let '(_, ins) := read_u8 0 ins in
  let '(n, ins) := opt_read (sdf_bit_fd u1) (pfcp_sdf_fd_length i) (read_be 2) ins in
  '(d, ins) ← opt_string (sdf_bit_fd u1) n (pfcp_sdf_flow_description i) ins;
  '(tos, ins) ← opt_string (sdf_bit_ttc u1) 2 (pfcp_sdf_tos i) ins;
  '(spi, ins) ← opt_string (sdf_bit_spi u1) 4 (pfcp_sdf_spi i) ins;
  '(fl, ins) ← opt_string (sdf_bit_fl u1) 3 (pfcp_sdf_flow_label i) ins;
  let '(id, ins) := opt_read (sdf_bit_bid u1) (pfcp_sdf_filter_id i) (read_be 4) ins in
  Val (mk_pfcp_sdf_filter_ie (pfcp_sdf_tlv i) u1 n d tos spi fl id, ins).

#[export] Instance pfcp_sdf_filter_class : PfcpIe pfcp_sdf_filter_ie sdf_filter_t := {|
  pie_tlv := pfcp_sdf_tlv; pie_of_core h := pfcp_sdf_filter_of_core; pie_to_core := pfcp_sdf_filter_to_core;
  pie_of_tlv := pfcp_sdf_filter_of_tlv; pie_dump_to h i := Val (pfcp_sdf_filter_dump_to i);
  pie_load_from := pfcp_sdf_filter_load_from;
|}.

(** A filter by a flow description, a traffic class and a security parameter
    index: no flow label, no filter id. *)
Definition pfcp_sdf_filter_ok (b : sdf_filter_t) : Prop :=
  sdf_bid b = 0 /\ sdf_fl b = 0 /\ fits 1 (sdf_spi b) /\ fits 1 (sdf_ttc b) /\ fits 1 (sdf_fd b) /\
  flow_label b = [] /\ sdf_filter_id b = 0 /\
  length (tos_traffic_class b) = (if sdf_ttc b =? 0 then 0%nat else 2%nat) /\
  length (security_parameter_index b) = (if sdf_spi b =? 0 then 0%nat else 4%nat) /\
  length_of_flow_description b = Z.of_nat (length (flow_description b)) /\ length_of_flow_description b < 2 ^ 15 /\
  (sdf_fd b = 0 -> flow_description b = []).

Lemma opt_string_0 n old ins : opt_string 0 n old ins = Val (old, ins).
Proof. done. Qed.

Lemma opt_string_1 n s old rest : n = Z.of_nat (length s) ->
  opt_string 1 n old (istream_of (s ++ rest)) = Val (s, istream_of rest).
Proof. intros ->. apply read_string_app. Qed.

Definition sdf_filter_length (fd ttc spi n : Z) : Z := 2 + (if fd =? 0 then 0 else 2 + n) + (if ttc =? 0 then 0 else 2) + (if spi =? 0 then 0 else 4).

Lemma pfcp_sdf_filter_of_core_ok b : pfcp_sdf_filter_ok b ->
  pfcp_sdf_filter_of_core b = Val (mk_pfcp_sdf_filter_ie
    (pfcp_tlv_of PFCP_IE_SDF_FILTER (sdf_filter_length (sdf_fd b) (sdf_ttc b) (sdf_spi b) (length_of_flow_description b)))
    (bf_pack [(1, sdf_fd b); (1, sdf_ttc b); (1, sdf_spi b); (1, 0); (1, 0); (3, 0)])
    (length_of_flow_description b) (flow_description b) (tos_traffic_class b) (security_parameter_index b) [] 0).
Proof.
  destruct b as [bid fl spi ttc fd n d tos sp lab id].
  intros (B & F & H1 & H2 & H3 & L & I & Ht & Hs & Hn & Hlt & Nd).
  cbn [sdf_bid sdf_fl sdf_spi sdf_ttc sdf_fd length_of_flow_description flow_description tos_traffic_class
    security_parameter_index flow_label sdf_filter_id] in *. subst bid fl lab id.
  unfold pfcp_sdf_filter_of_core, sized_if, add_if, sdf_filter_length.
  cbn [sdf_bid sdf_fl sdf_spi sdf_ttc sdf_fd length_of_flow_description flow_description tos_traffic_class
    security_parameter_index flow_label sdf_filter_id].
  flag_cases; try specialize (Nd eq_refl); subst; flag_eval; cbn [Z.eqb] in Ht, Hs;
    try apply nil_length_inv in Ht; try apply nil_length_inv in Hs; subst; rewrite ?Ht, ?Hs; cbn [Nat.eqb mbind result_bind];
    rewrite ?pfcp_add_length_of by lia; f_equal; f_equal; f_equal; lia.
Qed.

#[export] Instance pfcp_sdf_filter_codec : PfcpCodec pfcp_sdf_filter_ie sdf_filter_t PFCP_IE_SDF_FILTER pfcp_sdf_filter_ok as_sent.
Proof.
  intros h h' b Hb. pose proof (pfcp_sdf_filter_of_core_ok b Hb) as Eo.
  destruct b as [bid fl spi ttc fd n d tos sp lab id].
  destruct Hb as (B & F & H1 & H2 & H3 & L & I & Ht & Hs & Hn & Hlt & Nd).
  cbn [sdf_bid sdf_fl sdf_spi sdf_ttc sdf_fd length_of_flow_description flow_description tos_traffic_class
    security_parameter_index flow_label sdf_filter_id] in *. subst bid fl lab id.
  eexists _, (pfcp_sdf_filter_octets _), _. split; [exact Eo|]. cbn [pie_tlv pie_dump_to pfcp_sdf_filter_class pfcp_sdf_tlv].
  split; [apply pfcp_tlv_ok_of; [done|]; unfold sdf_filter_length; repeat case_match; lia|]. split; [reflexivity|].
  split; [|intros h'' rest; exists (mk_pfcp_sdf_filter_ie (pfcp_tlv_of PFCP_IE_SDF_FILTER (sdf_filter_length fd ttc spi n))
    (bf_pack [(1, fd); (1, ttc); (1, spi); (1, 0); (1, 0); (3, 0)]) (if fd =? 0 then h'' 1%nat else n) d tos sp [] (h'' 2%nat));
    split; [|split; [reflexivity|]]].
  - rewrite pfcp_tlv_of_length by (unfold sdf_filter_length, fits; repeat case_match; lia).
    unfold pfcp_sdf_filter_octets, sdf_filter_length, opt_bytes. cbn [pfcp_sdf_u1 pfcp_sdf_fd_length pfcp_sdf_flow_description
      pfcp_sdf_tos pfcp_sdf_spi pfcp_sdf_flow_label pfcp_sdf_filter_id].
    flag_cases; flag_eval; rewrite ?length_app, ?Ht, ?Hs; cbn [length be_bytes le_bytes rev app Z.eqb]; rewrite ?length_app; simpl length; lia.
  - cbn [pie_load_from pie_of_tlv pfcp_sdf_filter_class]. unfold pfcp_sdf_filter_load_from, pfcp_sdf_filter_octets.
    cbn [pfcp_sdf_u1 pfcp_sdf_fd_length pfcp_sdf_flow_description pfcp_sdf_tos pfcp_sdf_spi pfcp_sdf_flow_label
      pfcp_sdf_filter_id pfcp_sdf_filter_of_tlv].
    stream_norm. stream_step done. stream_step done.
    assert (fits 16 n) as Hn16 by (unfold fits; lia).
    flag_cases; try specialize (Nd eq_refl); subst; cbn [Z.eqb] in Ht, Hs; try apply nil_length_inv in Ht; try apply nil_length_inv in Hs;
      subst; unfold opt_read, opt_bytes; flag_eval; stream_norm; rewrite ?read_be_app by done; cbv match.
    all: repeat (first [rewrite opt_string_0 | rewrite opt_string_1 by (rewrite ?Ht, ?Hs; done)]; cbv [mbind result_bind]; cbv beta match).
    all: reflexivity.
  - flag_cases; try specialize (Nd eq_refl); subst; cbn [Z.eqb] in Ht, Hs; try apply nil_length_inv in Ht; try apply nil_length_inv in Hs;
      subst; reflexivity.
Qed.

(** Two octets are announced, and the flow label and the digits of the filter id
    follow them. *)
Lemma sdf_filter_uncounted lab id : length lab = 3%nat ->
  exists i, pfcp_sdf_filter_of_core (mk_sdf_filter_t 1 1 0 0 0 0 [] [] [] lab id) = Val i /\
    pt_length (pfcp_sdf_tlv i) = 2 /\ pfcp_sdf_filter_octets i = [0x18; 0] ++ lab ++ decimal id.
Proof.
  intros Hl. exists (mk_pfcp_sdf_filter_ie (pfcp_tlv_of PFCP_IE_SDF_FILTER 2) 0x18 0 [] [] [] lab id).
  split; [|split; reflexivity]. unfold pfcp_sdf_filter_of_core, sized_if.
  cbn [sdf_bid sdf_fl sdf_spi sdf_ttc sdf_fd flow_label]. rewrite Hl. reflexivity.
Qed.

(** ** Volume Threshold

    [load_from] does not read the octet of flags: which volumes it reads is what
    the memory held.  It also stores every volume it converts in
    [total_volume]. *)
Record volume_threshold_t := mk_volume_threshold_t {
  vt_tovol : Z; vt_ulvol : Z; vt_dlvol : Z; vt_total_volume : Z; vt_uplink_volume : Z; vt_downlink_volume : Z }.
Record pfcp_volume_threshold_ie := mk_pfcp_volume_threshold_ie {
  pfcp_vt_tlv : pfcp_tlv; pfcp_vt_u1 : Z; pfcp_vt_total : Z; pfcp_vt_uplink : Z; pfcp_vt_downlink : Z }.

Abbreviation vt_bit_tovol := (bf_field 0 1).
Abbreviation vt_bit_ulvol := (bf_field 1 1).
Abbreviation vt_bit_dlvol := (bf_field 2 1).

(** [be64toh] on a little-endian host. *)
Definition be64toh (z : Z) : Z := be_val (le_bytes 8 z).

Definition volume_tlv (u1 : Z) (t : pfcp_tlv) : pfcp_tlv :=
  add_if (vt_bit_dlvol u1) 8 (add_if (vt_bit_ulvol u1) 8 (add_if (vt_bit_tovol u1) 8 (pfcp_set_length 1 t))).
Definition volume_octets (u1 total uplink downlink : Z) : list Z :=
  [u1] ++ opt_bytes (vt_bit_tovol u1) (be_bytes 8 total) ++ opt_bytes (vt_bit_ulvol u1) (be_bytes 8 uplink) ++
  opt_bytes (vt_bit_dlvol u1) (be_bytes 8 downlink).

(** The three [if]s of [load_from], on [(total, uplink, downlink)]. *)
Definition volume_read (u1 : Z) (v : Z * Z * Z) (ins : istream) : Z * Z * Z * istream :=
  let '(total, uplink, downlink) := v in
  let '(total, ins) := opt_read (vt_bit_tovol u1) total (read_be 8) ins in
  let '(uplink, ins) := opt_read (vt_bit_ulvol u1) uplink (read_raw 8) ins in
  let total := if vt_bit_ulvol u1 =? 0 then total else be64toh uplink in
  let '(downlink, ins) := opt_read (vt_bit_dlvol u1) downlink (read_raw 8) ins in
  let total := if vt_bit_dlvol u1 =? 0 then total else be64toh downlink in
  (total, uplink, downlink, ins).

Definition pfcp_volume_threshold_of_core (b : volume_threshold_t) : pfcp_volume_threshold_ie :=
  let u1 := bf_pack [(1, vt_tovol b); (1, vt_ulvol b); (1, vt_dlvol b); (5, 0)] in
  mk_pfcp_volume_threshold_ie (volume_tlv u1 (pfcp_tlv_of PFCP_IE_VOLUME_THRESHOLD 1)) u1
    (if vt_bit_tovol u1 =? 0 then 0 else vt_total_volume b) (if vt_bit_ulvol u1 =? 0 then 0 else vt_uplink_volume b)
    (if vt_bit_dlvol u1 =? 0 then 0 else vt_downlink_volume b).
Definition pfcp_volume_threshold_of_tlv (h : heap) (t : pfcp_tlv) : pfcp_volume_threshold_ie :=
  mk_pfcp_volume_threshold_ie t (h 0%nat) (h 1%nat) (h 2%nat) (h 3%nat).
Definition pfcp_volume_threshold_to_core (i : pfcp_volume_threshold_ie) : volume_threshold_t :=
  let u1 := pfcp_vt_u1 i in
  mk_volume_threshold_t (vt_bit_tovol u1) (vt_bit_ulvol u1) (vt_bit_dlvol u1)
    (if vt_bit_tovol u1 =? 0 then 0 else pfcp_vt_total i) (if vt_bit_ulvol u1 =? 0 then 0 else pfcp_vt_uplink i)
    (if vt_bit_dlvol u1 =? 0 then 0 else pfcp_vt_downlink i).
Definition pfcp_volume_threshold_dump_to (i : pfcp_volume_threshold_ie) : list Z * pfcp_volume_threshold_ie :=
  let t := volume_tlv (pfcp_vt_u1 i) (pfcp_vt_tlv i) in
  (pfcp_tlv_dump_to t ++ volume_octets (pfcp_vt_u1 i) (pfcp_vt_total i) (pfcp_vt_uplink i) (pfcp_vt_downlink i),
   mk_pfcp_volume_threshold_ie t (pfcp_vt_u1 i) (pfcp_vt_total i) (pfcp_vt_uplink i) (pfcp_vt_downlink i)).
Definition pfcp_volume_threshold_load_from (i : pfcp_volume_threshold_ie) (ins : istream)
  : result pfcp_exn (pfcp_volume_threshold_ie * istream) :=
  let t := pfcp_vt_tlv i in
  if pt_length t <? 1 then Throw (pfcp_tlv_bad_length_exception (pt_type t) (pt_length t))
  else
    let '(total, uplink, downlink, ins) := volume_read (pfcp_vt_u1 i) (pfcp_vt_total i, pfcp_vt_uplink i, pfcp_vt_downlink i) ins in
    Val (mk_pfcp_volume_threshold_ie t (pfcp_vt_u1 i) total uplink downlink, ins).

#[export] Instance pfcp_volume_threshold_class : PfcpIe pfcp_volume_threshold_ie volume_threshold_t := {|
  pie_tlv := pfcp_vt_tlv; pie_of_core h b := Val (pfcp_volume_threshold_of_core b); pie_to_core := pfcp_volume_threshold_to_core;
  pie_of_tlv := pfcp_volume_threshold_of_tlv; pie_dump_to h i := Val (pfcp_volume_threshold_dump_to i);
  pie_load_from := pfcp_volume_threshold_load_from;
|}.

(** Into cleared memory nothing at all is read: the threshold is lost, and the
    element after it is read from its octets. *)
Lemma volume_threshold_lost (h : heap) (t : pfcp_tlv) ins : h 0%nat = 0 -> 1 <= pt_length t ->
  exists i, pfcp_volume_threshold_load_from (pfcp_volume_threshold_of_tlv h t) ins = Val (i, ins) /\
    pfcp_volume_threshold_to_core i = mk_volume_threshold_t 0 0 0 0 0 0.
Proof.
  intros H Hl. unfold pfcp_volume_threshold_load_from, pfcp_volume_threshold_of_tlv. cbn [pfcp_vt_tlv pfcp_vt_u1].
  rewrite H. replace (_ <? 1) with false by lia. by eexists.
Qed.

(** The same text with the other type. *)
Record subsequent_volume_threshold_t := mk_subsequent_volume_threshold_t {
  svt_tovol : Z; svt_ulvol : Z; svt_dlvol : Z; svt_total_volume : Z; svt_uplink_volume : Z; svt_downlink_volume : Z }.
Record pfcp_subsequent_volume_threshold_ie := mk_pfcp_subsequent_volume_threshold_ie {
  pfcp_svt_tlv : pfcp_tlv; pfcp_svt_u1 : Z; pfcp_svt_total : Z; pfcp_svt_uplink : Z; pfcp_svt_downlink : Z }.

Definition pfcp_subsequent_volume_threshold_of_core (b : subsequent_volume_threshold_t) : pfcp_subsequent_volume_threshold_ie :=
  let u1 := bf_pack [(1, svt_tovol b); (1, svt_ulvol b); (1, svt_dlvol b); (5, 0)] in
  mk_pfcp_subsequent_volume_threshold_ie (volume_tlv u1 (pfcp_tlv_of PFCP_IE_SUBSEQUENT_VOLUME_THRESHOLD 1)) u1
    (if vt_bit_tovol u1 =? 0 then 0 else svt_total_volume b) (if vt_bit_ulvol u1 =? 0 then 0 else svt_uplink_volume b)
    (if vt_bit_dlvol u1 =? 0 then 0 else svt_downlink_volume b).
Definition pfcp_subsequent_volume_threshold_of_tlv (h : heap) (t : pfcp_tlv) : pfcp_subsequent_volume_threshold_ie :=
  mk_pfcp_subsequent_volume_threshold_ie t (h 0%nat) (h 1%nat) (h 2%nat) (h 3%nat).
Definition pfcp_subsequent_volume_threshold_to_core (i : pfcp_subsequent_volume_threshold_ie) : subsequent_volume_threshold_t :=
  let u1 := pfcp_svt_u1 i in
  mk_subsequent_volume_threshold_t (vt_bit_tovol u1) (vt_bit_ulvol u1) (vt_bit_dlvol u1)
    (if vt_bit_tovol u1 =? 0 then 0 else pfcp_svt_total i) (if vt_bit_ulvol u1 =? 0 then 0 else pfcp_svt_uplink i)
    (if vt_bit_dlvol u1 =? 0 then 0 else pfcp_svt_downlink i).
Definition pfcp_subsequent_volume_threshold_dump_to (i : pfcp_subsequent_volume_threshold_ie) : list Z * pfcp_subsequent_volume_threshold_ie :=
  let t := volume_tlv (pfcp_svt_u1 i) (pfcp_svt_tlv i) in
  (pfcp_tlv_dump_to t ++ volume_octets (pfcp_svt_u1 i) (pfcp_svt_total i) (pfcp_svt_uplink i) (pfcp_svt_downlink i),
   mk_pfcp_subsequent_volume_threshold_ie t (pfcp_svt_u1 i) (pfcp_svt_total i) (pfcp_svt_uplink i) (pfcp_svt_downlink i)).
Definition pfcp_subsequent_volume_threshold_load_from (i : pfcp_subsequent_volume_threshold_ie) (ins : istream)
  : result pfcp_exn (pfcp_subsequent_volume_threshold_ie * istream) :=
  let t := pfcp_svt_tlv i in
  if pt_length t <? 1 then Throw (pfcp_tlv_bad_length_exception (pt_type t) (pt_length t))
  else
    let '(total, uplink, downlink, ins) := volume_read (pfcp_svt_u1 i) (pfcp_svt_total i, pfcp_svt_uplink i, pfcp_svt_downlink i) ins in
    Val (mk_pfcp_subsequent_volume_threshold_ie t (pfcp_svt_u1 i) total uplink downlink, ins).

#[export] Instance pfcp_subsequent_volume_threshold_class : PfcpIe pfcp_subsequent_volume_threshold_ie subsequent_volume_threshold_t := {|
  pie_tlv := pfcp_svt_tlv; pie_of_core h b := Val (pfcp_subsequent_volume_threshold_of_core b); pie_to_core := pfcp_subsequent_volume_threshold_to_core;
  pie_of_tlv := pfcp_subsequent_volume_threshold_of_tlv; pie_dump_to h i := Val (pfcp_subsequent_volume_threshold_dump_to i);
  pie_load_from := pfcp_subsequent_volume_threshold_load_from;
|}.

Lemma subsequent_volume_threshold_lost (h : heap) (t : pfcp_tlv) ins : h 0%nat = 0 -> 1 <= pt_length t ->
  exists i, pfcp_subsequent_volume_threshold_load_from (pfcp_subsequent_volume_threshold_of_tlv h t) ins = Val (i, ins) /\
    pfcp_subsequent_volume_threshold_to_core i = mk_subsequent_volume_threshold_t 0 0 0 0 0 0.
Proof.
  intros H Hl. unfold pfcp_subsequent_volume_threshold_load_from, pfcp_subsequent_volume_threshold_of_tlv.
  cbn [pfcp_svt_tlv pfcp_svt_u1]. rewrite H. replace (_ <? 1) with false by lia. by eexists.
Qed.

(** ** Failed Rule ID

    The length is that of the value alone, without the octet of the type;
    [load_from] accepts only the length 1. *)
Definition FAILED_RULE_ID_TYPE_PDR : Z := 0.
Definition FAILED_RULE_ID_TYPE_FAR : Z := 1.
Definition FAILED_RULE_ID_TYPE_QER : Z := 2.
Definition FAILED_RULE_ID_TYPE_URR : Z := 3.
Definition FAILED_RULE_ID_TYPE_BAR : Z := 4.

Record failed_rule_id_t := mk_failed_rule_id_t { rule_id_type : Z; rule_id_value : Z }.
Record pfcp_failed_rule_id_ie := mk_pfcp_failed_rule_id_ie {
  pfcp_failed_rule_tlv : pfcp_tlv; pfcp_failed_rule_u1 : Z; pfcp_failed_rule_value : Z }.

Abbreviation failed_rule_type := (bf_field 0 5).

(** URR, FAR and QER share a branch. *)
Definition long_rule_id (ty : Z) : bool :=
  (ty =? FAILED_RULE_ID_TYPE_URR) || (ty =? FAILED_RULE_ID_TYPE_FAR) || (ty =? FAILED_RULE_ID_TYPE_QER).
Definition failed_rule_id_length (ty : Z) : Z :=
  if ty =? FAILED_RULE_ID_TYPE_BAR then 1 else if ty =? FAILED_RULE_ID_TYPE_PDR then 2 else if long_rule_id ty then 4 else 0.

Definition pfcp_failed_rule_id_of_core (b : failed_rule_id_t) : pfcp_failed_rule_id_ie :=
  mk_pfcp_failed_rule_id_ie (pfcp_tlv_of PFCP_IE_FAILED_RULE_ID (failed_rule_id_length (rule_id_type b)))
    (bf_pack [(5, rule_id_type b); (3, 0)]) (rule_id_value b).
Definition pfcp_failed_rule_id_of_tlv (h : heap) (t : pfcp_tlv) : pfcp_failed_rule_id_ie := mk_pfcp_failed_rule_id_ie t 0 0.
Definition pfcp_failed_rule_id_to_core (i : pfcp_failed_rule_id_ie) : failed_rule_id_t :=
  mk_failed_rule_id_t (failed_rule_type (pfcp_failed_rule_u1 i)) (pfcp_failed_rule_value i).
Definition pfcp_failed_rule_id_dump_to (i : pfcp_failed_rule_id_ie) : result pfcp_exn (list Z * pfcp_failed_rule_id_ie) :=
  let t := pfcp_failed_rule_tlv i in
  let out n := Val (pfcp_tlv_dump_to t ++ [pfcp_failed_rule_u1 i] ++ be_bytes n (pfcp_failed_rule_value i), i) in
  if pt_length t =? 1 then out 1%nat
  else if pt_length t =? 2 then out 2%nat
  else if pt_length t =? 4 then out 4%nat
  else Throw (pfcp_tlv_bad_length_exception (pt_type t) (pt_length t)).

Definition pfcp_failed_rule_id_load_from (i : pfcp_failed_rule_id_ie) (ins : istream)
  : result pfcp_exn (pfcp_failed_rule_id_ie * istream) :=
  let t := pfcp_failed_rule_tlv i in
  with_length t 1 (
    let '(u1, ins) := read_u8 (pfcp_failed_rule_u1 i) ins in
    let ty := failed_rule_type u1 in
    let value n := '(v, ins) ← read_exact n ins; Val (mk_pfcp_failed_rule_id_ie t u1 (be_val v), ins) in
    if ty =? FAILED_RULE_ID_TYPE_BAR then with_length t 1 (value 1%nat)
    else if ty =? FAILED_RULE_ID_TYPE_PDR then with_length t 2 (value 2%nat)
    else if long_rule_id ty then with_length t 4 (value 4%nat)
    else Throw (pfcp_ie_value_exception (pt_type t) "rule_id_type")).

#[export] Instance pfcp_failed_rule_id_class : PfcpIe pfcp_failed_rule_id_ie failed_rule_id_t := {|
  pie_tlv := pfcp_failed_rule_tlv; pie_of_core h b := Val (pfcp_failed_rule_id_of_core b); pie_to_core := pfcp_failed_rule_id_to_core;
  pie_of_tlv := pfcp_failed_rule_id_of_tlv; pie_dump_to h := pfcp_failed_rule_id_dump_to;
  pie_load_from := pfcp_failed_rule_id_load_from;
|}.

(** A rule that is not a BAR is refused by the class that wrote it. *)
Lemma failed_rule_id_refused h b ins : rule_id_type b <> FAILED_RULE_ID_TYPE_BAR ->
  let t := pfcp_failed_rule_tlv (pfcp_failed_rule_id_of_core b) in
  pfcp_failed_rule_id_load_from (pfcp_failed_rule_id_of_tlv h t) ins =
  Throw (pfcp_tlv_bad_length_exception (pt_type t) (pt_length t)).
Proof.
  intros H. unfold pfcp_failed_rule_id_load_from, pfcp_failed_rule_id_of_tlv, pfcp_failed_rule_id_of_core, failed_rule_id_length, with_length.
  cbn [pfcp_failed_rule_tlv]. replace (_ =? FAILED_RULE_ID_TYPE_BAR) with false by lia.
  destruct (_ =? FAILED_RULE_ID_TYPE_PDR); [done|]. by destruct (long_rule_id _).
Qed.

(** A BAR is conveyed, in two octets where one is announced. *)
Lemma failed_bar_id_conveyed h v rest : fits 8 v ->
  let i := pfcp_failed_rule_id_of_core (mk_failed_rule_id_t FAILED_RULE_ID_TYPE_BAR v) in
  exists body i', pfcp_failed_rule_id_dump_to i = Val (pfcp_tlv_dump_to (pfcp_failed_rule_tlv i) ++ body, i) /\
    length body = 2%nat /\ pt_length (pfcp_failed_rule_tlv i) = 1 /\
    pfcp_failed_rule_id_load_from (pfcp_failed_rule_id_of_tlv h (pfcp_failed_rule_tlv i)) (istream_of (body ++ rest)) =
      Val (i', istream_of rest) /\
    pfcp_failed_rule_id_to_core i' = mk_failed_rule_id_t FAILED_RULE_ID_TYPE_BAR v.
Proof.
  intros Hv i. exists ([4] ++ be_bytes 1 v), i. do 3 (split; [done|]). split; [|done].
  etrans; [by apply with_length_of|]. stream_norm. stream_step done. flag_eval.
  etrans; [by apply with_length_of|]. rewrite read_exact_app by done.
  cbn [mbind result_bind]. by rewrite be_val_bytes.
Qed.

(** ** User Plane IP Resource Information

    The TEID range, one octet, is written as four octets that the length does not
    count and read as one octet, which [be32toh] then shifts out of the member;
    the network instance is written as four octets and read as two. *)
Record user_plane_ip_resource_information_t := mk_user_plane_ip_resource_information_t {
  upi_assosi : Z; upi_assoni : Z; upi_teidri : Z; upi_v6 : Z; upi_v4 : Z; upi_teid_range : Z; upi_ipv4_address : Z;
  upi_ipv6_address : list Z; upi_network_instance : Z; upi_source_interface : Z }.
Record pfcp_user_plane_ip_resource_information_ie := mk_pfcp_user_plane_ip_resource_information_ie {
  pfcp_upi_tlv : pfcp_tlv; pfcp_upi_u1 : Z; pfcp_upi_teid_range : Z; pfcp_upi_ipv4_address : Z; pfcp_upi_ipv6_address : list Z;
  pfcp_upi_network_instance : Z; pfcp_upi_u2 : Z }.

Abbreviation upi_bit_v4 := (bf_field 0 1).
Abbreviation upi_bit_v6 := (bf_field 1 1).
Abbreviation upi_bit_assoni := (bf_field 5 1).
Abbreviation upi_bit_assosi := (bf_field 6 1).

Definition pfcp_user_plane_ip_resource_information_of_core (b : user_plane_ip_resource_information_t)
  : pfcp_user_plane_ip_resource_information_ie :=
  let t := pfcp_tlv_of PFCP_IE_USER_PLANE_IP_RESOURCE_INFORMATION 1 in
  let u1 := bf_pack [(1, upi_v4 b); (1, upi_v6 b); (3, upi_teidri b); (1, upi_assoni b); (1, upi_assosi b); (1, 0)] in
  mk_pfcp_user_plane_ip_resource_information_ie
    (add_if (upi_bit_assosi u1) 1 (add_if (upi_bit_assoni u1) 2 (add_if (upi_bit_v6 u1) 16 (add_if (upi_bit_v4 u1) 4 t)))) u1
    (upi_teid_range b)
    (if upi_bit_v4 u1 =? 0 then 0 else upi_ipv4_address b)
    (if upi_bit_v6 u1 =? 0 then in6addr_any else upi_ipv6_address b)
    (if upi_bit_assoni u1 =? 0 then 0 else upi_network_instance b)
    (if upi_bit_assosi u1 =? 0 then 0 else bf_pack [(4, upi_source_interface b); (4, 0)]).
Definition pfcp_user_plane_ip_resource_information_of_tlv (h : heap) (t : pfcp_tlv) : pfcp_user_plane_ip_resource_information_ie :=
  mk_pfcp_user_plane_ip_resource_information_ie t 0 0 0 in6addr_any 0 0.
Definition pfcp_user_plane_ip_resource_information_to_core (i : pfcp_user_plane_ip_resource_information_ie)
  : user_plane_ip_resource_information_t :=
  let u1 := pfcp_upi_u1 i in
  mk_user_plane_ip_resource_information_t (upi_bit_assosi u1) (upi_bit_assoni u1) (bf_field 2 3 u1) (upi_bit_v6 u1) (upi_bit_v4 u1)
    (pfcp_upi_teid_range i)
    (if upi_bit_v4 u1 =? 0 then 0 else pfcp_upi_ipv4_address i)
    (if upi_bit_v6 u1 =? 0 then in6addr_any else pfcp_upi_ipv6_address i)
    (if upi_bit_assoni u1 =? 0 then 0 else pfcp_upi_network_instance i)
    (if upi_bit_assosi u1 =? 0 then 0 else bf_field 0 4 (pfcp_upi_u2 i)).
Definition pfcp_upi_octets (i : pfcp_user_plane_ip_resource_information_ie) : list Z :=
  let u1 := pfcp_upi_u1 i in
  [u1] ++ be_bytes 4 (pfcp_upi_teid_range i) ++
  opt_bytes (upi_bit_v4 u1) (ipv4_address_dump_to (pfcp_upi_ipv4_address i)) ++
  opt_bytes (upi_bit_v6 u1) (ipv6_address_dump_to (pfcp_upi_ipv6_address i)) ++
  opt_bytes (upi_bit_assoni u1) (be_bytes 4 (pfcp_upi_network_instance i)) ++
  opt_bytes (upi_bit_assosi u1) [pfcp_upi_u2 i].
Definition pfcp_user_plane_ip_resource_information_dump_to (i : pfcp_user_plane_ip_resource_information_ie)
  : list Z * pfcp_user_plane_ip_resource_information_ie :=
  (pfcp_tlv_dump_to (pfcp_upi_tlv i) ++ pfcp_upi_octets i, i).
Definition pfcp_user_plane_ip_resource_information_load_from (i : pfcp_user_plane_ip_resource_information_ie) (ins : istream)
  : result pfcp_exn (pfcp_user_plane_ip_resource_information_ie * istream) :=
  let t := pfcp_upi_tlv i in
  if pt_length t <? 1 then Throw (pfcp_tlv_bad_length_exception (pt_type t) (pt_length t))
  else
    let '(u1, ins) := read_u8 (pfcp_upi_u1 i) ins in
    let '(r, ins) := read_u8 (pfcp_upi_teid_range i) ins in
    let teid_range := u8 (be32toh r) in
    let '(a4, ins) := opt_read (upi_bit_v4 u1) (pfcp_upi_ipv4_address i) ipv4_address_load_from ins in
    let '(a6, ins) := opt_read (upi_bit_v6 u1) (pfcp_upi_ipv6_address i) ipv6_address_load_from ins in
    let '(ni, ins) := opt_read (upi_bit_assoni u1) (pfcp_upi_network_instance i) (read_be 2) ins in
    let '(u2, ins) := opt_read (upi_bit_assosi u1) (pfcp_upi_u2 i) read_u8 ins in
    Val (mk_pfcp_user_plane_ip_resource_information_ie t u1 teid_range a4 a6 ni u2, ins).

#[export] Instance pfcp_user_plane_ip_resource_information_class
  : PfcpIe pfcp_user_plane_ip_resource_information_ie user_plane_ip_resource_information_t := {|
  pie_tlv := pfcp_upi_tlv; pie_of_core h b := Val (pfcp_user_plane_ip_resource_information_of_core b);
  pie_to_core := pfcp_user_plane_ip_resource_information_to_core; pie_of_tlv := pfcp_user_plane_ip_resource_information_of_tlv;
  pie_dump_to h i := Val (pfcp_user_plane_ip_resource_information_dump_to i);
  pie_load_from := pfcp_user_plane_ip_resource_information_load_from;
|}.

(** No TEID range is ever received. *)
Lemma be32toh_octet r : fits 8 r -> u8 (be32toh r) = 0.
Proof.
  intros H. assert (le_bytes 4 r = [r; 0; 0; 0]) as E.
  { unfold fits in H. cbn [le_bytes]. rewrite Z.mod_small by lia. rewrite (Z.div_small r) by lia. done. }
  unfold be32toh. rewrite E. unfold be_val. cbn [rev app le_val].
  replace (_ + _) with ((r * 2 ^ 16) * 2 ^ 8) by lia. unfold wrapu. by rewrite Z.mod_mul by lia.
Qed.

(** An IPv4 resource: nine octets where five are announced, and the receiver
    takes the address out of the TEID range. *)
Lemma user_plane_ip_resource_garbled h r a rest : fits 8 r -> fits 32 a ->
  let i := pfcp_user_plane_ip_resource_information_of_core
             (mk_user_plane_ip_resource_information_t 0 0 0 0 1 r a in6addr_any 0 0) in
  pt_length (pfcp_upi_tlv i) = 5 /\ length (pfcp_upi_octets i) = 9%nat /\
  exists i', pfcp_user_plane_ip_resource_information_load_from
      (pfcp_user_plane_ip_resource_information_of_tlv h (pfcp_upi_tlv i)) (istream_of (pfcp_upi_octets i ++ rest)) =
      Val (i', istream_of (drop 1 (le_bytes 4 a) ++ rest)) /\
    pfcp_user_plane_ip_resource_information_to_core i' =
      mk_user_plane_ip_resource_information_t 0 0 0 0 1 0 (le_val [0; 0; r; a mod 256]) in6addr_any 0 0.
Proof.
  intros Hr Ha i. split; [done|]. split; [done|].
  exists (mk_pfcp_user_plane_ip_resource_information_ie (pfcp_upi_tlv i) 1 0 (le_val [0; 0; r; a mod 256]) in6addr_any 0 0).
  split; [|done].
  assert (pfcp_upi_octets i = [1; 0] ++ [0; 0; r; a mod 256] ++ drop 1 (le_bytes 4 a)) as ->.
  { unfold pfcp_upi_octets. cbn [pfcp_upi_u1 pfcp_upi_teid_range i pfcp_user_plane_ip_resource_information_of_core upi_teid_range
      upi_v4 upi_v6 upi_teidri upi_assoni upi_assosi]. unfold opt_bytes. flag_eval. unfold be_bytes. cbn [le_bytes].
    unfold fits in Hr. rewrite (Z.mod_small r) by lia. rewrite (Z.div_small r) by lia. done. }
  unfold pfcp_user_plane_ip_resource_information_load_from. cbn [pfcp_user_plane_ip_resource_information_of_tlv pfcp_upi_tlv].
  change (pt_length (pfcp_upi_tlv i) <? 1) with false. stream_norm. cbv match. do 2 stream_step done.
  rewrite (be32toh_octet 0) by done. unfold opt_read. flag_eval. cbv beta.
  change (0 :: 0 :: r :: a mod 256 :: ?l) with ([0; 0; r; a mod 256] ++ l).
  unfold ipv4_address_load_from, read_raw. rewrite read_app by done. reflexivity.
Qed.

(** ** User ID

    [dump_to] adds the lengths the constructor has already counted;
    [load_from] accepts only the length 1. *)
Record user_id_t := mk_user_id_t {
  uid_naif : Z; uid_msisdnf : Z; uid_imeif : Z; uid_imsif : Z; uid_length_of_imsi : Z; uid_imsi : imsi_t; uid_length_of_imei : Z;
  uid_imei : list Z; uid_length_of_msisdn : Z; uid_msisdn : msisdn_t; uid_length_of_nai : Z; uid_nai : list Z }.
Record pfcp_user_id_ie := mk_pfcp_user_id_ie {
  pfcp_uid_tlv : pfcp_tlv; pfcp_uid_u1 : Z; pfcp_uid_imsi_length : Z; pfcp_uid_imsi : imsi_t; pfcp_uid_imei_length : Z;
  pfcp_uid_imei : list Z; pfcp_uid_msisdn_length : Z; pfcp_uid_msisdn : msisdn_t; pfcp_uid_nai_length : Z; pfcp_uid_nai : list Z }.

Abbreviation uid_bit_imsi := (bf_field 0 1).
Abbreviation uid_bit_imei := (bf_field 1 1).
Abbreviation uid_bit_msisdn := (bf_field 2 1).
Abbreviation uid_bit_nai := (bf_field 3 1).

Definition imsi_zero : imsi_t := mk_imsi_t (replicate 8 0) 0.
Definition msisdn_zero : msisdn_t := mk_msisdn_t (replicate 8 0) 0.
Definition user_id_tlv (u1 imsi imei msisdn nai : Z) (t : pfcp_tlv) : pfcp_tlv :=
  add_if (uid_bit_nai u1) (1 + nai) (add_if (uid_bit_msisdn u1) (1 + msisdn)
    (add_if (uid_bit_imei u1) (1 + imei) (add_if (uid_bit_imsi u1) (1 + imsi) t))).

Definition pfcp_user_id_of_core (b : user_id_t) : pfcp_user_id_ie :=
  let u1 := bf_pack [(1, uid_imsif b); (1, uid_imeif b); (1, uid_msisdnf b); (1, uid_naif b); (4, 0)] in
  let when {X} (flag : Z) (x d : X) := if flag =? 0 then d else x in
  mk_pfcp_user_id_ie
    (user_id_tlv u1 (uid_length_of_imsi b) (uid_length_of_imei b) (uid_length_of_msisdn b) (uid_length_of_nai b)
       (pfcp_tlv_of PFCP_IE_USER_ID 1)) u1
    (when (uid_bit_imsi u1) (uid_length_of_imsi b) 0) (when (uid_bit_imsi u1) (uid_imsi b) imsi_zero)
    (when (uid_bit_imei u1) (uid_length_of_imei b) 0) (when (uid_bit_imei u1) (uid_imei b) [])
    (when (uid_bit_msisdn u1) (uid_length_of_msisdn b) 0) (when (uid_bit_msisdn u1) (uid_msisdn b) msisdn_zero)
    (when (uid_bit_nai u1) (uid_length_of_nai b) 0) (when (uid_bit_nai u1) (uid_nai b) []).
Definition pfcp_user_id_of_tlv (h : heap) (t : pfcp_tlv) : pfcp_user_id_ie :=
  mk_pfcp_user_id_ie t (h 0%nat) (h 1%nat) (mk_imsi_t (heap_chars (fun k => h (2 + k)%nat) 8) (h 10%nat)) (h 11%nat) []
    (h 12%nat) (mk_msisdn_t (heap_chars (fun k => h (13 + k)%nat) 8) (h 21%nat)) (h 22%nat) [].
Definition pfcp_user_id_to_core (i : pfcp_user_id_ie) : user_id_t :=
  let u1 := pfcp_uid_u1 i in
  let when {X} (flag : Z) (x d : X) := if flag =? 0 then d else x in
  mk_user_id_t (uid_bit_nai u1) (uid_bit_msisdn u1) (uid_bit_imei u1) (uid_bit_imsi u1)
    (when (uid_bit_imsi u1) (pfcp_uid_imsi_length i) 0) (when (uid_bit_imsi u1) (pfcp_uid_imsi i) imsi_zero)
    (when (uid_bit_imei u1) (pfcp_uid_imei_length i) 0) (when (uid_bit_imei u1) (pfcp_uid_imei i) [])
    (when (uid_bit_msisdn u1) (pfcp_uid_msisdn_length i) 0) (when (uid_bit_msisdn u1) (pfcp_uid_msisdn i) msisdn_zero)
    (when (uid_bit_nai u1) (pfcp_uid_nai_length i) 0) (when (uid_bit_nai u1) (pfcp_uid_nai i) []).

(** At most fifteen digits, a filler behind an odd number of them: the octets
    and how many they are. *)
Definition digits_fill (b : list Z) (n : Z) : result pfcp_exn (list Z * Z * Z) :=
  let n := if 15 <? n then 15 else n in
  b ← bcd_fill b n; Val (b, n, n / 2 + n mod 2).

Definition pfcp_user_id_dump_to (i : pfcp_user_id_ie) : result pfcp_exn (list Z * pfcp_user_id_ie) :=
  let u1 := pfcp_uid_u1 i in
  '(imsi, li) ← (if uid_bit_imsi u1 =? 0 then Val (pfcp_uid_imsi i, pfcp_uid_imsi_length i) else
    '(b, n, l) ← digits_fill (imsi_core_b (pfcp_uid_imsi i)) (imsi_core_num_digits (pfcp_uid_imsi i)); Val (mk_imsi_t b n, l));
  '(msisdn, lm) ← (if uid_bit_msisdn u1 =? 0 then Val (pfcp_uid_msisdn i, pfcp_uid_msisdn_length i) else
    '(b, n, l) ← digits_fill (msisdn_core_b (pfcp_uid_msisdn i)) (msisdn_core_num_digits (pfcp_uid_msisdn i));
    Val (mk_msisdn_t b n, l));
  let t := user_id_tlv u1 li (pfcp_uid_imei_length i) lm (pfcp_uid_nai_length i) (pfcp_uid_tlv i) in
  d ← (if uid_bit_imsi u1 =? 0 then Val [] else bcd_write (imsi_core_b imsi) li);
  m ← (if uid_bit_msisdn u1 =? 0 then Val [] else bcd_write (msisdn_core_b msisdn) lm);
  Val (pfcp_tlv_dump_to t ++ [u1] ++ opt_bytes (uid_bit_imsi u1) (li :: d) ++
       opt_bytes (uid_bit_imei u1) (pfcp_uid_imei_length i :: pfcp_uid_imei i) ++
       opt_bytes (uid_bit_msisdn u1) (lm :: m) ++ opt_bytes (uid_bit_nai u1) (pfcp_uid_nai_length i :: pfcp_uid_nai i),
       mk_pfcp_user_id_ie t u1 li imsi (pfcp_uid_imei_length i) (pfcp_uid_imei i) lm msisdn (pfcp_uid_nai_length i) (pfcp_uid_nai i)).
Definition pfcp_user_id_load_from (i : pfcp_user_id_ie) (ins : istream) : result pfcp_exn (pfcp_user_id_ie * istream) :=
  let t := pfcp_uid_tlv i in
  with_length t 1 (
    let '(u1, ins) := read_u8 (pfcp_uid_u1 i) ins in
    '(li, imsi, ins) ← (if uid_bit_imsi u1 =? 0 then Val (pfcp_uid_imsi_length i, pfcp_uid_imsi i, ins) else
      let '(l, ins) := read_u8 (pfcp_uid_imsi_length i) ins in
      '(b, ins) ← bcd_read (imsi_core_b (pfcp_uid_imsi i)) l ins;
      n ← bcd_num_digits b l;
      Val (l, mk_imsi_t b (if 15 <? n then 15 else n), ins));
    let '(le, ins) := opt_read (uid_bit_imei u1) (pfcp_uid_imei_length i) read_u8 ins in
    '(imei, ins) ← opt_string (uid_bit_imei u1) le (pfcp_uid_imei i) ins;
    '(lm, msisdn, ins) ← (if uid_bit_msisdn u1 =? 0 then Val (pfcp_uid_msisdn_length i, pfcp_uid_msisdn i, ins) else
      let '(l, ins) := read_u8 (pfcp_uid_msisdn_length i) ins in
      '(b, ins) ← bcd_read (msisdn_core_b (pfcp_uid_msisdn i)) l ins;
      n ← bcd_num_digits b l;
      Val (l, mk_msisdn_t b n, ins));
    let '(ln, ins) := opt_read (uid_bit_nai u1) (pfcp_uid_nai_length i) read_u8 ins in
    '(nai, ins) ← opt_string (uid_bit_nai u1) ln (pfcp_uid_nai i) ins;
    Val (mk_pfcp_user_id_ie t u1 li imsi le imei lm msisdn ln nai, ins)).

#[export] Instance pfcp_user_id_class : PfcpIe pfcp_user_id_ie user_id_t := {|
  pie_tlv := pfcp_uid_tlv; pie_of_core h b := Val (pfcp_user_id_of_core b); pie_to_core := pfcp_user_id_to_core;
  pie_of_tlv := pfcp_user_id_of_tlv; pie_dump_to h := pfcp_user_id_dump_to; pie_load_from := pfcp_user_id_load_from;
|}.

(** A subscriber given by an IMSI: twice the octets of the IMSI are announced,
    and the class refuses to read it back. *)
Lemma user_id_imsi_refused h i rest : bcd_wf (imsi_core_b i) (imsi_core_num_digits i) ->
  let k := bcd_octets (imsi_core_num_digits i) in
  let a := pfcp_user_id_of_core (mk_user_id_t 0 0 0 1 k i 0 [] 0 msisdn_zero 0 []) in
  exists body a', pfcp_user_id_dump_to a = Val (pfcp_tlv_dump_to (pfcp_uid_tlv a') ++ body, a') /\
    Z.of_nat (length body) = 2 + k /\ pt_length (pfcp_uid_tlv a') = 3 + 2 * k /\
    pfcp_user_id_load_from (pfcp_user_id_of_tlv h (pfcp_uid_tlv a')) (istream_of (body ++ rest)) =
      Throw (pfcp_tlv_bad_length_exception PFCP_IE_USER_ID (3 + 2 * k)).
Proof.
  intros Hw k a. destruct i as [b n]. cbn [imsi_core_b imsi_core_num_digits] in *. pose proof Hw as (Hl & Hn & _).
  pose proof (bcd_octets_range n Hn) as Hk. fold k in Hk. destruct (bcd_write_wf (E := pfcp_exn) b n Hw) as [Ew El]. fold k in Ew, El.
  set (t := pfcp_tlv_of PFCP_IE_USER_ID (3 + 2 * k)).
  assert (pfcp_add_length (1 + k) (pfcp_add_length (1 + k) (pfcp_tlv_of PFCP_IE_USER_ID 1)) = t) as Et
    by (rewrite !pfcp_add_length_of by lia; unfold t; f_equal; lia).
  exists (1 :: k :: take (Z.to_nat k) b), (mk_pfcp_user_id_ie t 1 k (mk_imsi_t b n) 0 [] 0 msisdn_zero 0 []).
  split; [|split; [cbn [length]; lia|split; [apply pfcp_tlv_of_length; unfold fits; lia|]]].
  - unfold pfcp_user_id_dump_to, digits_fill. cbn [a pfcp_user_id_of_core pfcp_uid_u1 pfcp_uid_imsi pfcp_uid_imsi_length pfcp_uid_msisdn
      pfcp_uid_msisdn_length pfcp_uid_tlv uid_imsif uid_imeif uid_msisdnf uid_naif uid_imsi uid_msisdn]. unfold user_id_tlv, add_if, opt_bytes.
    flag_eval. cbn [imsi_core_b imsi_core_num_digits uid_length_of_imsi]. replace (15 <? n) with false by lia.
    rewrite bcd_fill_wf by done. cbn [mbind result_bind]. rewrite (proj1 (bcd_half n)). fold k. cbn [imsi_core_b].
    rewrite Ew, Et. cbn [mbind result_bind]. cbn [app]. rewrite app_nil_r. reflexivity.
  - unfold pfcp_user_id_load_from, with_length. cbn [pfcp_uid_tlv pfcp_user_id_of_tlv]. unfold t.
    rewrite pfcp_tlv_of_length by (unfold fits; lia). by replace (_ =? 1) with false by lia.
Qed.
