(* ===== verification/PfcpIe.v ===== *)
(** * Any PFCP information element

    The class hierarchy under [pfcp_ie] ([src/pfcp/3gpp_29.244.hpp]) as one type
    of single and grouped elements, the factory
    [pfcp_ie::new_pfcp_ie_from_stream] ([3gpp_29.244.cpp]), and what a core value
    becomes when it is written and read. *)
From S2P Require Import Prelude Stream GtpTlv PfcpNode PfcpTlv PfcpScalar PfcpElements PfcpTunnel PfcpFilters.
From Stdlib Require Import ZArith Lia String.
From stdpp Require Import base numbers tactics list strings.
Open Scope Z_scope.

Set Warnings "-register-all".

(** The types of the grouped elements. *)
Definition PFCP_IE_CREATE_PDR : Z := 1.
Definition PFCP_IE_PDI : Z := 2.
Definition PFCP_IE_CREATE_FAR : Z := 3.
Definition PFCP_IE_FORWARDING_PARAMETERS : Z := 4.
Definition PFCP_IE_DUPLICATING_PARAMETERS : Z := 5.
Definition PFCP_IE_CREATE_URR : Z := 6.
Definition PFCP_IE_CREATE_QER : Z := 7.
Definition PFCP_IE_CREATED_PDR : Z := 8.
Definition PFCP_IE_UPDATE_PDR : Z := 9.
Definition PFCP_IE_UPDATE_FAR : Z := 10.
Definition PFCP_IE_UPDATE_FORWARDING_PARAMETERS : Z := 11.
Definition PFCP_IE_UPDATE_BAR_WITHIN_PFCP_SESSION_REPORT_RESPONSE : Z := 12.
Definition PFCP_IE_UPDATE_URR : Z := 13.
Definition PFCP_IE_UPDATE_QER : Z := 14.
Definition PFCP_IE_REMOVE_PDR : Z := 15.
Definition PFCP_IE_REMOVE_FAR : Z := 16.
Definition PFCP_IE_REMOVE_URR : Z := 17.
Definition PFCP_IE_REMOVE_QER : Z := 18.
Definition PFCP_IE_DOWNLINK_DATA_REPORT : Z := 83.
Definition PFCP_IE_CREATE_TRAFFIC_ENDPOINT : Z := 127.

(** ** The classes of single elements *)
Inductive element :=
  | Ecause | Esource_interface | Eqer_correlation_id | Eprecedence | Etime_threshold | Emonitoring_time
  | Esubsequent_time_threshold | Einactivity_detection_time | Eoffending_ie | Edestination_interface | Epdr_id
  | Eurr_id | Ebar_id | Eouter_header_removal | Erecovery_time_stamp | Efar_id | Eqer_id
  | Euser_plane_inactivity_timer | Egate_status | Ereport_type | Eapply_action | Ecp_function_features | Eqfi
  | Ereporting_triggers | Eup_function_features | Enode_report_type | Enetwork_instance | Eapplication_id
  | Eactivate_predefined_rules | Edeactivate_predefined_rules | Etransport_level_marking | Eforwarding_policy | Embr
  | Egbr | Efteid | Ef_seid | Eue_ip_address | Enode_id | Eouter_header_creation | Esdf_filter | Evolume_threshold
  | Esubsequent_volume_threshold | Efailed_rule_id | Euser_plane_ip_resource_information | Euser_id.

#[export] Instance element_eq_dec : EqDecision element.
Proof. solve_decision. Defined.

(** The class, and its core type. *)
Definition element_ie (e : element) : Type :=
  match e with
  | Ecause => pfcp_cause_ie
  | Esource_interface => pfcp_source_interface_ie
  | Eqer_correlation_id => pfcp_qer_correlation_id_ie
  | Eprecedence => pfcp_precedence_ie
  | Etime_threshold => pfcp_time_threshold_ie
  | Emonitoring_time => pfcp_monitoring_time_ie
  | Esubsequent_time_threshold => pfcp_subsequent_time_threshold_ie
  | Einactivity_detection_time => pfcp_inactivity_detection_time_ie
  | Eoffending_ie => pfcp_offending_ie_ie
  | Edestination_interface => pfcp_destination_interface_ie
  | Epdr_id => pfcp_pdr_id_ie
  | Eurr_id => pfcp_urr_id_ie
  | Ebar_id => pfcp_bar_id_ie
  | Eouter_header_removal => pfcp_outer_header_removal_ie
  | Erecovery_time_stamp => pfcp_recovery_time_stamp_ie
  | Efar_id => pfcp_far_id_ie
  | Eqer_id => pfcp_qer_id_ie
  | Euser_plane_inactivity_timer => pfcp_user_plane_inactivity_timer_ie
  | Egate_status => pfcp_gate_status_ie
  | Ereport_type => pfcp_report_type_ie
  | Eapply_action => pfcp_apply_action_ie
  | Ecp_function_features => pfcp_cp_function_features_ie
  | Eqfi => pfcp_qfi_ie
  | Ereporting_triggers => pfcp_reporting_triggers_ie
  | Eup_function_features => pfcp_up_function_features_ie
  | Enode_report_type => pfcp_node_report_type_ie
  | Enetwork_instance => pfcp_network_instance_ie
  | Eapplication_id => pfcp_application_id_ie
  | Eactivate_predefined_rules => pfcp_activate_predefined_rules_ie
  | Edeactivate_predefined_rules => pfcp_deactivate_predefined_rules_ie
  | Etransport_level_marking => pfcp_transport_level_marking_ie
  | Eforwarding_policy => pfcp_forwarding_policy_ie
  | Embr => pfcp_mbr_ie
  | Egbr => pfcp_gbr_ie
  | Efteid => pfcp_fteid_ie
  | Ef_seid => pfcp_f_seid_ie
  | Eue_ip_address => pfcp_ue_ip_address_ie
  | Enode_id => pfcp_node_id_ie
  | Eouter_header_creation => pfcp_outer_header_creation_ie
  | Esdf_filter => pfcp_sdf_filter_ie
  | Evolume_threshold => pfcp_volume_threshold_ie
  | Esubsequent_volume_threshold => pfcp_subsequent_volume_threshold_ie
  | Efailed_rule_id => pfcp_failed_rule_id_ie
  | Euser_plane_ip_resource_information => pfcp_user_plane_ip_resource_information_ie
  | Euser_id => pfcp_user_id_ie
  end.

Definition element_core (e : element) : Type :=
  match e with
  | Ecause => cause_t
  | Esource_interface => source_interface_t
  | Eqer_correlation_id => qer_correlation_id_t
  | Eprecedence => precedence_t
  | Etime_threshold => time_threshold_t
  | Emonitoring_time => monitoring_time_t
  | Esubsequent_time_threshold => subsequent_time_threshold_t
  | Einactivity_detection_time => inactivity_detection_time_t
  | Eoffending_ie => offending_ie_t
  | Edestination_interface => destination_interface_t
  | Epdr_id => pdr_id_t
  | Eurr_id => urr_id_t
  | Ebar_id => bar_id_t
  | Eouter_header_removal => outer_header_removal_t
  | Erecovery_time_stamp => recovery_time_stamp_t
  | Efar_id => far_id_t
  | Eqer_id => qer_id_t
  | Euser_plane_inactivity_timer => user_plane_inactivity_timer_t
  | Egate_status => gate_status_t
  | Ereport_type => report_type_t
  | Eapply_action => apply_action_t
  | Ecp_function_features => cp_function_features_t
  | Eqfi => qfi_t
  | Ereporting_triggers => reporting_triggers_t
  | Eup_function_features => up_function_features_s
  | Enode_report_type => node_report_type_t
  | Enetwork_instance => network_instance_t
  | Eapplication_id => application_id_t
  | Eactivate_predefined_rules => activate_predefined_rules_t
  | Edeactivate_predefined_rules => deactivate_predefined_rules_t
  | Etransport_level_marking => transport_level_marking_t
  | Eforwarding_policy => forwarding_policy_t
  | Embr => mbr_t
  | Egbr => gbr_t
  | Efteid => fteid_t
  | Ef_seid => fseid_t
  | Eue_ip_address => ue_ip_address_t
  | Enode_id => node_id_t
  | Eouter_header_creation => outer_header_creation_t
  | Esdf_filter => sdf_filter_t
  | Evolume_threshold => volume_threshold_t
  | Esubsequent_volume_threshold => subsequent_volume_threshold_t
  | Efailed_rule_id => failed_rule_id_t
  | Euser_plane_ip_resource_information => user_plane_ip_resource_information_t
  | Euser_id => user_id_t
  end.

#[export] Instance element_class (e : element) : PfcpIe (element_ie e) (element_core e).
Proof. destruct e; apply _. Defined.

(** The type the constructor from the core type announces. *)
Definition element_type (e : element) : Z :=
  match e with
  | Ecause => PFCP_IE_CAUSE
  | Esource_interface => PFCP_IE_SOURCE_INTERFACE
  | Eqer_correlation_id => PFCP_IE_QER_CORRELATION_ID
  | Eprecedence => PFCP_IE_PRECEDENCE
  | Etime_threshold => PFCP_IE_TIME_THRESHOLD
  | Emonitoring_time => PFCP_IE_MONITORING_TIME
  | Esubsequent_time_threshold => PFCP_IE_SUBSEQUENT_TIME_THRESHOLD
  | Einactivity_detection_time => PFCP_IE_INACTIVITY_DETECTION_TIME
  | Eoffending_ie => PFCP_IE_OFFENDING_IE
  | Edestination_interface => PFCP_IE_DESTINATION_INTERFACE
  | Epdr_id => PFCP_IE_PACKET_DETECTION_RULE_ID
  | Eurr_id => PFCP_IE_URR_ID
  | Ebar_id => PFCP_IE_BAR_ID
  | Eouter_header_removal => PFCP_IE_OUTER_HEADER_REMOVAL
  | Erecovery_time_stamp => PFCP_IE_RECOVERY_TIME_STAMP
  | Efar_id => PFCP_IE_FAR_ID
  | Eqer_id => PFCP_IE_QER_ID
  | Euser_plane_inactivity_timer => PFCP_IE_USER_PLANE_INACTIVITY_TIMER
  | Egate_status => PFCP_IE_GATE_STATUS
  | Ereport_type => PFCP_IE_REPORT_TYPE
  | Eapply_action => PFCP_IE_APPLY_ACTION
  | Ecp_function_features => PFCP_IE_CP_FUNCTION_FEATURES
  | Eqfi => PFCP_IE_QFI
  | Ereporting_triggers => PFCP_IE_REPORTING_TRIGGERS
  | Eup_function_features => PFCP_IE_UP_FUNCTION_FEATURES
  | Enode_report_type => PFCP_IE_NODE_REPORT_TYPE
  | Enetwork_instance => PFCP_IE_NETWORK_INSTANCE
  | Eapplication_id => PFCP_IE_APPLICATION_ID
  | Eactivate_predefined_rules => PFCP_IE_ACTIVATE_PREDEFINED_RULES
  | Edeactivate_predefined_rules => PFCP_IE_DEACTIVATE_PREDEFINED_RULES
  | Etransport_level_marking => PFCP_IE_TRANSPORT_LEVEL_MARKING
  | Eforwarding_policy => PFCP_IE_FORWARDING_POLICY
  | Embr => PFCP_IE_MBR
  | Egbr => PFCP_IE_GBR
  | Efteid => PFCP_IE_F_TEID
  | Ef_seid => PFCP_IE_F_SEID
  | Eue_ip_address => PFCP_IE_UE_IP_ADDRESS
  | Enode_id => PFCP_IE_NODE_ID
  | Eouter_header_creation => PFCP_IE_OUTER_HEADER_CREATION
  | Esdf_filter => PFCP_IE_SDF_FILTER
  | Evolume_threshold => PFCP_IE_VOLUME_THRESHOLD
  | Esubsequent_volume_threshold => PFCP_IE_SUBSEQUENT_VOLUME_THRESHOLD
  | Efailed_rule_id => PFCP_IE_FAILED_RULE_ID
  | Euser_plane_ip_resource_information => PFCP_IE_USER_PLANE_IP_RESOURCE_INFORMATION
  | Euser_id => PFCP_IE_USER_ID
  end.

(** The values a class conveys, and what the receiver sees of them.  None for the
    classes whose octets do not agree with what they announce, and for the node
    report type, which the factory does not know. *)
Definition element_ok (e : element) : element_core e -> Prop :=
  match e with
  | Ecause => (fun b => fits 8 (cause_cause_value b))
  | Esource_interface => (fun b => fits 8 (source_interface_interface_value b))
  | Eprecedence => (fun b => fits 32 (precedence_precedence b))
  | Etime_threshold => (fun b => fits 32 (time_threshold_time_threshold b))
  | Emonitoring_time => (fun b => fits 32 (monitoring_time_monitoring_time b))
  | Esubsequent_time_threshold => (fun b => fits 32 (subsequent_time_threshold_subsequent_time_threshold b))
  | Einactivity_detection_time => (fun b => fits 32 (inactivity_detection_time_inactivity_detection_time b))
  | Eoffending_ie => (fun b => fits 16 (offending_ie_offending_ie b))
  | Edestination_interface => (fun b => fits 8 (destination_interface_interface_value b))
  | Epdr_id => (fun b => fits 16 (pdr_id_rule_id b))
  | Eurr_id => (fun b => fits 32 (urr_id_urr_id b))
  | Ebar_id => (fun b => fits 8 (bar_id_bar_id b))
  | Eouter_header_removal => (fun b => fits 8 (outer_header_removal_description b))
  | Erecovery_time_stamp => (fun b => fits 32 (recovery_time_stamp_recovery_time_stamp b))
  | Efar_id => (fun b => fits 32 (far_id_far_id b))
  | Eqer_id => (fun b => fits 32 (qer_id_qer_id b))
  | Euser_plane_inactivity_timer => (fun b => fits 32 (user_plane_inactivity_timer_timer b))
  | Egate_status => pfcp_gate_status_ok
  | Ereport_type => pfcp_report_type_ok
  | Eapply_action => pfcp_apply_action_ok
  | Ecp_function_features => pfcp_cp_function_features_ok
  | Eqfi => pfcp_qfi_ok
  | Ereporting_triggers => pfcp_reporting_triggers_ok
  | Eup_function_features => pfcp_up_function_features_ok
  | Enetwork_instance => (fun b => name_ok (network_instance b))
  | Eapplication_id => (fun b => string_ok (application_id b))
  | Eactivate_predefined_rules => (fun b => string_ok (act_rules_name b))
  | Edeactivate_predefined_rules => (fun b => string_ok (deact_rules_name b))
  | Etransport_level_marking => (fun b => length (transport_level_marking b) = 2%nat)
  | Eforwarding_policy => (fun b => fits 8 (forwarding_policy_identifier_length b) /\ Z.of_nat (length (forwarding_policy_identifier b)) = forwarding_policy_identifier_length b)
  | Embr => (fun b => fits 40 (ul_mbr b) /\ fits 40 (dl_mbr b))
  | Egbr => (fun b => fits 40 (ul_gbr b) /\ fits 40 (dl_gbr b))
  | Efteid => pfcp_fteid_ok
  | Ef_seid => pfcp_f_seid_ok
  | Eue_ip_address => pfcp_ue_ip_address_ok
  | Enode_id => pfcp_node_id_ok
  | Eouter_header_creation => pfcp_outer_header_creation_ok
  | Esdf_filter => pfcp_sdf_filter_ok
  | _ => fun _ => False
  end.

Definition element_seen (e : element) : heap -> element_core e -> element_core e :=
  match e with
  | Eurr_id => (fun _ b => mk_urr_id_t (be32toh (urr_id_urr_id b)))
  | Enetwork_instance => (fun _ b => mk_network_instance_t (encode_labels (labels (network_instance b))))
  | Eouter_header_creation => outer_header_creation_seen
  | _ => as_sent
  end.

#[export] Instance element_codec (e : element) :
  PfcpCodec (element_ie e) (element_core e) (element_type e) (element_ok e) (element_seen e).
Proof.
  destruct e; first [by intros ? ? ? []
    | exact pfcp_cause_codec
    | exact pfcp_source_interface_codec
    | exact pfcp_precedence_codec
    | exact pfcp_time_threshold_codec
    | exact pfcp_monitoring_time_codec
    | exact pfcp_subsequent_time_threshold_codec
    | exact pfcp_inactivity_detection_time_codec
    | exact pfcp_offending_ie_codec
    | exact pfcp_destination_interface_codec
    | exact pfcp_pdr_id_codec
    | exact pfcp_urr_id_codec
    | exact pfcp_bar_id_codec
    | exact pfcp_outer_header_removal_codec
    | exact pfcp_recovery_time_stamp_codec
    | exact pfcp_far_id_codec
    | exact pfcp_qer_id_codec
    | exact pfcp_user_plane_inactivity_timer_codec
    | exact pfcp_gate_status_codec
    | exact pfcp_report_type_codec
    | exact pfcp_apply_action_codec
    | exact pfcp_cp_function_features_codec
    | exact pfcp_qfi_codec
    | exact pfcp_reporting_triggers_codec
    | exact pfcp_up_function_features_codec
    | exact pfcp_network_instance_codec
    | exact pfcp_application_id_codec
    | exact pfcp_activate_predefined_rules_codec
    | exact pfcp_deactivate_predefined_rules_codec
    | exact pfcp_transport_level_marking_codec
    | exact pfcp_forwarding_policy_codec
    | exact pfcp_mbr_codec
    | exact pfcp_gbr_codec
    | exact pfcp_fteid_codec
    | exact pfcp_f_seid_codec
    | exact pfcp_ue_ip_address_codec
    | exact pfcp_node_id_codec
    | exact pfcp_outer_header_creation_codec
    | exact pfcp_sdf_filter_codec
    ].
Qed.

(** ** The classes of grouped elements *)
Inductive group :=
  | Gcreate_pdr | Gpdi | Gcreate_far | Gforwarding_parameters | Gduplicating_parameters | Gcreate_urr | Gcreate_qer
  | Gcreated_pdr | Gupdate_pdr | Gupdate_far | Gupdate_forwarding_parameters
  | Gupdate_bar_within_pfcp_session_report_response | Gupdate_urr | Gupdate_qer | Gremove_pdr | Gremove_far
  | Gremove_urr | Gremove_qer | Gdownlink_data_report | Gcreate_traffic_endpoint.

#[export] Instance group_eq_dec : EqDecision group.
Proof. solve_decision. Defined.

Definition group_type (g : group) : Z :=
  match g with
  | Gcreate_pdr => PFCP_IE_CREATE_PDR
  | Gpdi => PFCP_IE_PDI
  | Gcreate_far => PFCP_IE_CREATE_FAR
  | Gforwarding_parameters => PFCP_IE_FORWARDING_PARAMETERS
  | Gduplicating_parameters => PFCP_IE_DUPLICATING_PARAMETERS
  | Gcreate_urr => PFCP_IE_CREATE_URR
  | Gcreate_qer => PFCP_IE_CREATE_QER
  | Gcreated_pdr => PFCP_IE_CREATED_PDR
  | Gupdate_pdr => PFCP_IE_UPDATE_PDR
  | Gupdate_far => PFCP_IE_UPDATE_FAR
  | Gupdate_forwarding_parameters => PFCP_IE_UPDATE_FORWARDING_PARAMETERS
  | Gupdate_bar_within_pfcp_session_report_response => PFCP_IE_UPDATE_BAR_WITHIN_PFCP_SESSION_REPORT_RESPONSE
  | Gupdate_urr => PFCP_IE_UPDATE_URR
  | Gupdate_qer => PFCP_IE_UPDATE_QER
  | Gremove_pdr => PFCP_IE_REMOVE_PDR
  | Gremove_far => PFCP_IE_REMOVE_FAR
  | Gremove_urr => PFCP_IE_REMOVE_URR
  | Gremove_qer => PFCP_IE_REMOVE_QER
  | Gdownlink_data_report => PFCP_IE_DOWNLINK_DATA_REPORT
  | Gcreate_traffic_endpoint => PFCP_IE_CREATE_TRAFFIC_ENDPOINT
  end.

(** The cases of the factory. *)
Definition factory_groups : list group :=
  [Gcreate_pdr; Gpdi; Gcreate_far; Gforwarding_parameters; Gduplicating_parameters; Gcreate_urr; Gcreate_qer;
   Gcreated_pdr; Gupdate_pdr; Gupdate_far; Gupdate_forwarding_parameters;
   Gupdate_bar_within_pfcp_session_report_response; Gupdate_urr; Gupdate_qer; Gremove_pdr; Gremove_far; Gremove_urr;
   Gremove_qer; Gdownlink_data_report].

Definition factory_elements : list element :=
  [Ecause; Esource_interface; Efteid; Enetwork_instance; Esdf_filter; Eapplication_id; Egate_status; Embr; Egbr;
   Eqer_correlation_id; Eprecedence; Etransport_level_marking; Evolume_threshold; Etime_threshold; Emonitoring_time;
   Esubsequent_volume_threshold; Esubsequent_time_threshold; Einactivity_detection_time; Ereporting_triggers;
   Ereport_type; Eoffending_ie; Eforwarding_policy; Edestination_interface; Eup_function_features; Eapply_action;
   Epdr_id; Ef_seid; Enode_id; Eurr_id; Eouter_header_creation; Ebar_id; Ecp_function_features; Eue_ip_address;
   Eouter_header_removal; Erecovery_time_stamp; Eactivate_predefined_rules; Edeactivate_predefined_rules; Efar_id;
   Eqer_id; Efailed_rule_id; Euser_plane_ip_resource_information; Euser_plane_inactivity_timer; Eqfi; Euser_id].

(** ** Objects *)
Inductive pfcp_ie :=
| IeElement (e : element) (a : element_ie e)
| IeGroup (g : group) (t : pfcp_tlv) (ies : list pfcp_ie).

(** Their core values; those of a group in the order of its elements. *)
Inductive pfcp_core :=
| CoreElement (e : element) (c : element_core e)
| CoreGroup (g : group) (cs : list pfcp_core).

Definition tlv_of_pfcp_ie (i : pfcp_ie) : pfcp_tlv :=
  match i with
  | IeElement e a => pie_tlv a
  | IeGroup _ t _ => t
  end.

(** What the memory of each object of a tree held, by its path from the root. *)
Definition memory := list nat -> heap.

(** [f] on every element of a group at [path], numbered from [k]. *)
Definition each_at {A B} (f : list nat -> A -> result pfcp_exn B) (path : list nat) : nat -> list A -> result pfcp_exn (list B) :=
  fix go k l :=
    match l with
    | [] => Val []
    | x :: l => y ← f (k :: path) x; ys ← go (S k) l; Val (y :: ys)
    end.

(** [pfcp_grouped_ie::add_ie], the length of the TLV. *)
Definition grouped_add_length (t : pfcp_tlv) (i : pfcp_ie) : pfcp_tlv :=
  pfcp_set_length (pt_length t + (pfcp_tlv_ie_length + pt_length (tlv_of_pfcp_ie i))) t.

(** The constructors from a core value. *)
Fixpoint ie_of_core (mem : memory) (path : list nat) (c : pfcp_core) : result pfcp_exn pfcp_ie :=
  match c with
  | CoreElement e c => a ← pie_of_core (mem path) c; Val (IeElement e a)
  | CoreGroup g cs =>
    l ← each_at (ie_of_core mem) path 0 cs;
    Val (IeGroup g (foldl grouped_add_length (pfcp_tlv_of (group_type g) 0) l) l)
  end.

Fixpoint core_of_ie (i : pfcp_ie) : pfcp_core :=
  match i with
  | IeElement e a => CoreElement e (pie_to_core a)
  | IeGroup g _ l => CoreGroup g (core_of_ie <$> l)
  end.

(** The virtual [dump_to]; that of a group writes its elements in order. *)
Fixpoint pfcp_ie_dump_to (mem : memory) (path : list nat) (i : pfcp_ie) : result pfcp_exn (list Z * pfcp_ie) :=
  match i with
  | IeElement e a => '(b, a) ← pie_dump_to (mem path) a; Val (b, IeElement e a)
  | IeGroup g t l =>
    bl ← each_at (pfcp_ie_dump_to mem) path 0 l;
    Val (pfcp_tlv_dump_to t ++ concat bl.*1, IeGroup g t bl.*2)
  end.

(** ** The factory *)
Inductive factory_case := CaseElement (e : element) | CaseGroup (g : group).

Definition factory_switch (ty : Z) : option factory_case :=
  match find (fun g => group_type g =? ty) factory_groups with
  | Some g => Some (CaseGroup g)
  | None => CaseElement <$> find (fun e => element_type e =? ty) factory_elements
  end.

(** [pfcp_grouped_ie::load_from]; [new_ie] reads one element of the group. *)
Fixpoint pfcp_grouped_load_from (fuel : nat) (new_ie : istream -> result pfcp_exn (option pfcp_ie * istream))
    (t : pfcp_tlv) (remaining_size : Z) (l : list pfcp_ie) (ins : istream) : result pfcp_exn (list pfcp_ie * istream) :=
  if 0 <? remaining_size then
    match fuel with
    | O => Diverge
    | S fuel =>
      '(oi, ins) ← new_ie ins;
      match oi with
      | Some i =>
        pfcp_grouped_load_from fuel new_ie t (remaining_size - (pt_length (tlv_of_pfcp_ie i) + pfcp_tlv_ie_length)) (l ++ [i]) ins
      | None => Throw (pfcp_tlv_bad_length_exception (pt_type t) (pt_length t))
      end
    end
  else Val (l, ins).

(** [None] is the null pointer.  [mem] is what the memory of a new object held,
    by the number of octets left in the stream; [fuel] bounds the nesting and
    the number of elements of a group. *)
Fixpoint new_pfcp_ie_from_stream (fuel : nat) (mem : nat -> heap) (ins : istream) : result pfcp_exn (option pfcp_ie * istream) :=
  match fuel with
  | O => Diverge
  | S fuel =>
    let '(t, ins) := pfcp_tlv_load_from pfcp_tlv_init ins in
    if pt_length t =? 0 then Val (None, ins)
    else
      match factory_switch (pt_type t) with
      | Some (CaseElement e) =>
        '(a, ins) ← pie_load_from (pie_of_tlv (mem (avail ins)) t : element_ie e) ins; Val (Some (IeElement e a), ins)
      | Some (CaseGroup g) =>
        '(l, ins) ← pfcp_grouped_load_from fuel (new_pfcp_ie_from_stream fuel mem) t (pt_length t) [] ins;
        Val (Some (IeGroup g t l), ins)
      | None => Val (None, ins)
      end
  end.

(** Every case is reached by its own type. *)
Lemma factory_switch_element e : e ∈ factory_elements -> factory_switch (element_type e) = Some (CaseElement e).
Proof. intros H. destruct e; try reflexivity. by apply (bool_decide_eq_true_2 _) in H. Qed.

Lemma factory_switch_group g : g ∈ factory_groups -> factory_switch (group_type g) = Some (CaseGroup g).
Proof. intros H. destruct g; try reflexivity. by apply (bool_decide_eq_true_2 _) in H. Qed.

Lemma element_ok_factory e c : element_ok e c -> e ∈ factory_elements.
Proof. intros H. destruct e; first [done | apply (bool_decide_unpack _); exact I]. Qed.

(** ** What is conveyed *)

(** The receiver's view of a value, whatever its memory held. *)
Inductive core_seen : pfcp_core -> pfcp_core -> Prop :=
| seen_element e c h : core_seen (CoreElement e c) (CoreElement e (element_seen e h c))
| seen_group g cs ds : Forall2 core_seen cs ds -> core_seen (CoreGroup g cs) (CoreGroup g ds).

(** A value conveyed by its class; a group that is not empty, of such values. *)
Fixpoint core_ok (c : pfcp_core) : Prop :=
  match c with
  | CoreElement e c => element_ok e c
  | CoreGroup g cs => g ∈ factory_groups /\ cs <> [] /\ foldr (fun c P => core_ok c /\ P) True cs
  end.

Fixpoint core_size (c : pfcp_core) : nat :=
  match c with
  | CoreElement _ _ => 1
  | CoreGroup _ cs => S (foldr (fun c n => core_size c + n) 0 cs)%nat
  end.

(** Octets on the wire. *)
Fixpoint ie_octets (i : pfcp_ie) : Z :=
  match i with
  | IeElement e a => pfcp_tlv_ie_length + pt_length (pie_tlv a)
  | IeGroup _ _ l => pfcp_tlv_ie_length + foldr (fun i n => ie_octets i + n) 0 l
  end.

Definition ies_octets (l : list pfcp_ie) : Z := foldr (fun i n => ie_octets i + n) 0 l.

Section CoreInd.
Variable P : pfcp_core -> Prop.
Hypothesis P_element : forall e c, P (CoreElement e c).
Hypothesis P_group : forall g cs, Forall P cs -> P (CoreGroup g cs).

Fixpoint pfcp_core_nested_ind (c : pfcp_core) : P c :=
  match c with
  | CoreElement e c => P_element e c
  | CoreGroup g cs =>
    P_group g cs ((fix go l : Forall P l :=
      match l with [] => Forall_nil_2 P | c :: l => Forall_cons_2 P c l (pfcp_core_nested_ind c) (go l) end) cs)
  end.
End CoreInd.

Lemma foldr_core_ok cs : foldr (fun c P => core_ok c /\ P) True cs <-> Forall core_ok cs.
Proof. induction cs as [|c cs IH]; simpl; [done|]. rewrite Forall_cons. tauto. Qed.

(** Whatever the memory, written on the octets it announces, and read as a value
    that looks like [c]. *)
Definition conveys (fuel : nat) (i : pfcp_ie) (c : pfcp_core) : Prop :=
  forall mem path, exists b i', pfcp_ie_dump_to mem path i = Val (b, i') /\ Z.of_nat (length b) = ie_octets i /\
    forall rmem rest, exists j, new_pfcp_ie_from_stream fuel rmem (istream_of (b ++ rest)) = Val (Some j, istream_of rest) /\
      pfcp_tlv_ie_length + pt_length (tlv_of_pfcp_ie j) = ie_octets i /\ core_seen c (core_of_ie j).

Lemma element_conveys fuel e (c : element_core e) h a :
  element_ok e c -> pie_of_core h c = Val a -> conveys (S fuel) (IeElement e a) (CoreElement e c).
Proof.
  intros Hok Ea mem path. destruct (pfcp_conveyed h (mem path) c Hok) as (a0 & body & a' & E0 & Ht & Ed & El & Hl).
  rewrite Ea in E0. injection E0 as <-. exists (pfcp_tlv_dump_to (pie_tlv a) ++ body), (IeElement e a').
  cbn [pfcp_ie_dump_to ie_octets]. rewrite Ed. split; [done|].
  destruct (pfcp_tlv_roundtrip _ _ [] Ht) as [_ E4]. split; [rewrite length_app, E4, Nat2Z.inj_add, El; done|].
  intros rmem rest. destruct (Hl (rmem (length (body ++ rest))) rest) as (i & Ei & Eti & Ec).
  exists (IeElement e i). cbn [new_pfcp_ie_from_stream]. rewrite <- app_assoc, (proj1 (pfcp_tlv_roundtrip _ _ _ Ht)).
  destruct Ht as (Hty & Hlen & _). replace (pt_length (pie_tlv a) =? 0) with false by lia.
  rewrite Hty, factory_switch_element by by eapply element_ok_factory.
  change (avail (istream_of (body ++ rest))) with (length (body ++ rest)). rewrite Ei. split; [done|].
  cbn [tlv_of_pfcp_ie core_of_ie]. rewrite Eti, Ec. split; [done|constructor].
Qed.

(** *** The TLV of a group *)
Lemma each_at_Forall2 {A B} (f : list nat -> A -> result pfcp_exn B) path l : forall k ys,
  each_at f path k l = Val ys -> Forall2 (fun y x => exists p, f p x = Val y) ys l.
Proof.
  induction l as [|x l IH]; intros k ys; cbn [each_at]; [intros [= <-]; constructor|].
  intros H. apply bind_Val_inv in H as (y & Ey & H). apply bind_Val_inv in H as (ys' & Eys & [= <-]).
  constructor; [by eexists|]. by eapply IH.
Qed.

Lemma each_at_total {A B} (f : list nat -> A -> result pfcp_exn B) path l :
  Forall (fun x => forall p, exists y, f p x = Val y) l -> forall k, exists ys, each_at f path k l = Val ys.
Proof.
  induction 1 as [|x l Hx _ IH]; intros k; cbn [each_at]; [by eexists|].
  destruct (Hx (k :: path)) as [y ->]. destruct (IH (S k)) as [ys E]. exists (y :: ys). cbn [mbind result_bind]. by rewrite E.
Qed.

Definition tlv_counts (i : pfcp_ie) : Prop :=
  0 < pt_length (tlv_of_pfcp_ie i) /\ pfcp_tlv_ie_length + pt_length (tlv_of_pfcp_ie i) = ie_octets i.

Lemma ies_octets_pos l : Forall tlv_counts l -> l <> [] -> pfcp_tlv_ie_length < ies_octets l.
Proof.
  induction 1 as [|i l [Hi Ei] Hl IH]; [done|]. intros _. change (ies_octets (i :: l)) with (ie_octets i + ies_octets l).
  destruct l; [|specialize (IH ltac:(done))]; unfold pfcp_tlv_ie_length in *; simpl in *; lia.
Qed.

Lemma ies_octets_nonneg l : Forall tlv_counts l -> 0 <= ies_octets l.
Proof.
  intros H. destruct l; [done|]. pose proof (ies_octets_pos _ H ltac:(done)). unfold pfcp_tlv_ie_length in *. lia.
Qed.

Lemma grouped_tlv ty l : Forall tlv_counts l -> forall n, 0 <= n -> n + ies_octets l < 2 ^ 16 ->
  foldl grouped_add_length (pfcp_tlv_of ty n) l = pfcp_tlv_of ty (n + ies_octets l).
Proof.
  induction 1 as [|i l [Hi Ei] Hl IH]; intros n Hn Hb; [by rewrite Z.add_0_r|].
  change (ies_octets (i :: l)) with (ie_octets i + ies_octets l) in *. pose proof (ies_octets_nonneg l Hl).
  cbn [foldl]. unfold grouped_add_length at 2. rewrite Ei, pfcp_set_length_of, pfcp_tlv_of_length by (unfold fits, pfcp_tlv_ie_length in *; lia).
  rewrite IH by (unfold pfcp_tlv_ie_length in *; lia). f_equal. lia.
Qed.

Lemma ie_octets_nonneg c : forall mem path i, core_ok c -> ie_of_core mem path c = Val i -> pfcp_tlv_ie_length < ie_octets i.
Proof.
  induction c as [e c|g cs IH] using pfcp_core_nested_ind; intros mem path i Hok H; cbn [ie_of_core] in H;
    apply bind_Val_inv in H as (x & Ex & [= <-]); cbn [ie_octets].
  - destruct (pfcp_conveyed (mem path) (mem path) c Hok) as (a & body & a' & E0 & (_ & Ht & _) & _).
    rewrite Ex in E0. injection E0 as ->. lia.
  - destruct Hok as (_ & Hne & Hok%foldr_core_ok). apply each_at_Forall2 in Ex.
    assert (Forall (fun i => pfcp_tlv_ie_length < ie_octets i) x) as Hx.
    { clear Hne. induction Ex as [|i c l cs [p Ei] _ IHx]; [done|]. inversion_clear IH. inversion_clear Hok.
      constructor; [by eapply H|by apply IHx]. }
    clear IH. destruct Hx as [|i l Hi Hl]; [by inversion Ex; subst|]. simpl.
    assert (0 <= foldr (fun i n => ie_octets i + n) 0 l); [|unfold pfcp_tlv_ie_length in *; lia].
    clear Ex Hi. induction Hl; simpl; unfold pfcp_tlv_ie_length in *; lia.
Qed.

Lemma built_octets_nonneg mem cs l : Forall core_ok cs ->
  Forall2 (fun i c => exists p, ie_of_core mem p c = Val i) l cs -> 0 <= ies_octets l.
Proof.
  intros Hok H. induction H as [|i c l cs [p Ei] _ IH]; [done|]. inversion_clear Hok as [|? ? Hc Hcs].
  pose proof (ie_octets_nonneg _ _ _ _ Hc Ei). specialize (IH Hcs).
  change (ies_octets (i :: l)) with (ie_octets i + ies_octets l). unfold pfcp_tlv_ie_length in *. lia.
Qed.

(** A value whose octets the length of a TLV can count. *)
Lemma built_tlv c : forall mem path i, core_ok c -> ie_of_core mem path c = Val i ->
  ie_octets i < pfcp_tlv_ie_length + 2 ^ 16 -> tlv_counts i.
Proof.
  induction c as [e c|g cs IH] using pfcp_core_nested_ind; intros mem path i Hok H Hb; pose proof (ie_octets_nonneg _ _ _ _ Hok H) as Hpos;
    cbn [ie_of_core] in H; apply bind_Val_inv in H as (x & Ex & [= <-]).
  - destruct (pfcp_conveyed (mem path) (mem path) c Hok) as (a & body & a' & E0 & (_ & Ht & _) & _).
    rewrite Ex in E0. injection E0 as ->. by split; [cbn [tlv_of_pfcp_ie]; lia|].
  - destruct Hok as (_ & Hne & Hok%foldr_core_ok). cbn [ie_octets] in Hb, Hpos.
    apply each_at_Forall2 in Ex. fold (ies_octets x) in Hb, Hpos.
    assert (Forall tlv_counts x) as Hx.
    { clear Hne Hpos. revert Hb. induction Ex as [|i c l cs [p Ei] Hl IHx]; intros Hb; [done|].
      change (ies_octets (i :: l)) with (ie_octets i + ies_octets l) in Hb.
      inversion_clear IH as [|? ? H1 H2]. inversion_clear Hok as [|? ? K1 K2].
      pose proof (built_octets_nonneg _ _ _ K2 Hl) as Hn.
      pose proof (ie_octets_nonneg _ _ _ _ K1 Ei).
      unfold pfcp_tlv_ie_length in *. constructor; [eapply H1; [done|done|lia]|apply IHx; [done|done|lia]]. }
    unfold tlv_counts. cbn [tlv_of_pfcp_ie ie_octets]. fold (ies_octets x).
    pose proof (ies_octets_nonneg x Hx). rewrite grouped_tlv by (done || lia). rewrite Z.add_0_l.
    rewrite pfcp_tlv_of_length by (unfold fits; lia). split; [unfold pfcp_tlv_ie_length in *; lia|done].
Qed.

(** *** The elements of a group, one after the other *)
Definition conveys_all (fuel : nat) (l : list pfcp_ie) (cs : list pfcp_core) : Prop :=
  forall mem path k, exists bl, each_at (pfcp_ie_dump_to mem) path k l = Val bl /\
    Z.of_nat (length (concat bl.*1)) = ies_octets l /\
    forall rmem rest t acc n, (length l <= n)%nat -> exists js,
      pfcp_grouped_load_from n (new_pfcp_ie_from_stream fuel rmem) t (ies_octets l) acc (istream_of (concat bl.*1 ++ rest)) =
        Val (acc ++ js, istream_of rest) /\
      Forall2 core_seen cs (core_of_ie <$> js).

Lemma conveys_all_of fuel l cs : Forall tlv_counts l -> Forall2 (conveys fuel) l cs -> conveys_all fuel l cs.
Proof.
  intros Hw. induction 1 as [|i c l cs Hi _ IH]; intros mem path k.
  - exists []. do 2 (split; [done|]). intros rmem rest t acc [|n] _; exists []; cbn; rewrite app_nil_r; by split.
  - inversion_clear Hw as [|? ? Ki Kl]. destruct (Hi mem (k :: path)) as (b & i' & E1 & E2 & E3).
    destruct (IH Kl mem path (S k)) as (bl & F1 & F2 & F3). exists ((b, i') :: bl). cbn [each_at]. rewrite E1. cbn [mbind result_bind].
    rewrite F1. cbn [mbind result_bind fmap list_fmap fst concat]. split; [done|].
    change (ies_octets (i :: l)) with (ie_octets i + ies_octets l). split; [rewrite length_app; fold (bl.*1); lia|].
    intros rmem rest t acc [|n] Hn; simpl in Hn; [lia|]. destruct (E3 rmem (concat bl.*1 ++ rest)) as (j & Ej & Etj & Hj).
    destruct (F3 rmem rest t (acc ++ [j]) n ltac:(lia)) as (js & Ejs & Hjs). exists (j :: js).
    cbn [pfcp_grouped_load_from]. pose proof (ies_octets_nonneg l Kl). destruct Ki as [Kp Kc].
    replace (0 <? _) with true by (unfold pfcp_tlv_ie_length in *; lia).
    fold (bl.*1). rewrite <- app_assoc, Ej. cbn [mbind result_bind].
    replace (_ - _) with (ies_octets l) by lia. rewrite Ejs, <- app_assoc. split; [done|]. by constructor.
Qed.

Lemma core_size_pos c : (1 <= core_size c)%nat.
Proof. destruct c; simpl; lia. Qed.

Lemma cores_size_bound cs : (length cs <= foldr (fun c n => core_size c + n) 0 cs)%nat /\
  Forall (fun c => core_size c <= foldr (fun c n => core_size c + n) 0 cs)%nat cs.
Proof.
  induction cs as [|c cs [IH1 IH2]]; [done|]. pose proof (core_size_pos c). simpl. split; [lia|].
  constructor; [lia|]. eapply Forall_impl; [exact IH2|]. simpl. intros; lia.
Qed.

Lemma group_children fuel mem cs l :
  (forall c mem path i, core_ok c -> ie_of_core mem path c = Val i -> ie_octets i < pfcp_tlv_ie_length + 2 ^ 16 ->
     (core_size c <= fuel)%nat -> conveys fuel i c) ->
  Forall (fun c => core_ok c /\ (core_size c <= fuel)%nat) cs ->
  Forall2 (fun i c => exists p, ie_of_core mem p c = Val i) l cs -> ies_octets l < 2 ^ 16 ->
  Forall tlv_counts l /\ Forall2 (conveys fuel) l cs.
Proof.
  intros IH Hcs El Hb. induction El as [|i c l cs [p Ei] Hl IHl]; [done|].
  change (ies_octets (i :: l)) with (ie_octets i + ies_octets l) in Hb. inversion_clear Hcs as [|? ? [Kc Ks] Kcs].
  pose proof (ie_octets_nonneg _ _ _ _ Kc Ei) as Hpos.
  pose proof (built_octets_nonneg mem cs l ltac:(eapply Forall_impl; [exact Kcs|by intros ? [? _]]) Hl) as Hn.
  unfold pfcp_tlv_ie_length in *. destruct IHl as [IH1 IH2]; [done|lia|].
  split; constructor; try done; [eapply built_tlv|eapply IH]; try done; unfold pfcp_tlv_ie_length; lia.
Qed.

Lemma pfcp_core_conveyed fuel : forall c mem path i,
  core_ok c -> ie_of_core mem path c = Val i -> ie_octets i < pfcp_tlv_ie_length + 2 ^ 16 -> (core_size c <= fuel)%nat ->
  conveys fuel i c.
Proof.
  induction fuel as [|fuel IH]; intros c mem path i Hok H Hb Hs; [pose proof (core_size_pos c); lia|].
  destruct c as [e c|g cs].
  { cbn [ie_of_core] in H. apply bind_Val_inv in H as (a & Ea & [= <-]). by eapply element_conveys. }
  pose proof (built_tlv _ _ _ _ Hok H Hb) as [Kp Kc]. pose proof (ie_octets_nonneg _ _ _ _ Hok H) as Hpos.
  cbn [ie_of_core] in H. apply bind_Val_inv in H as (l & El & [= <-]). cbn [tlv_of_pfcp_ie ie_octets] in *. fold (ies_octets l) in *.
  destruct Hok as (Hg & Hne & Hok%foldr_core_ok). apply each_at_Forall2 in El. cbn [core_size] in Hs.
  destruct (cores_size_bound cs) as [Hn Hsz].
  assert (Forall (fun c => core_ok c /\ (core_size c <= fuel)%nat) cs) as Hcs.
  { apply Forall_and. split; [done|]. eapply Forall_impl; [exact Hsz|]. simpl. lia. }
  destruct (group_children fuel mem cs l IH Hcs El) as [Hw Hc]; [unfold pfcp_tlv_ie_length in *; lia|].
  intros dmem dpath. destruct (conveys_all_of fuel l cs Hw Hc dmem dpath 0%nat) as (bl & F1 & F2 & F3).
  rewrite grouped_tlv in * by (done || lia || (pose proof (ies_octets_nonneg l Hw); unfold pfcp_tlv_ie_length in *; lia)).
  rewrite Z.add_0_l in *. set (t := pfcp_tlv_of (group_type g) (ies_octets l)) in *.
  assert (pfcp_tlv_ok (group_type g) t) as Ht.
  { apply pfcp_tlv_ok_of; [by destruct g|]. pose proof (ies_octets_nonneg l Hw). unfold pfcp_tlv_ie_length in *. lia. }
  destruct (pfcp_tlv_roundtrip _ _ [] Ht) as [_ E4].
  exists (pfcp_tlv_dump_to t ++ concat bl.*1), (IeGroup g t bl.*2). cbn [pfcp_ie_dump_to]. rewrite F1. cbn [mbind result_bind].
  split; [done|]. split; [rewrite length_app, E4, Nat2Z.inj_add, F2; done|].
  intros rmem rest. destruct (F3 rmem rest t [] fuel) as (js & Ejs & Hjs).
  { apply Forall2_length in El. lia. }
  exists (IeGroup g t js). cbn [new_pfcp_ie_from_stream]. rewrite <- app_assoc, (proj1 (pfcp_tlv_roundtrip _ _ _ Ht)).
  replace (pt_length t =? 0) with false by lia. rewrite (proj1 Ht), factory_switch_group by done.
  replace (pt_length t) with (ies_octets l) by lia. rewrite Ejs. split; [done|]. split; [done|]. by constructor.
Qed.

Lemma core_builds c : core_ok c -> forall mem path, exists i, ie_of_core mem path c = Val i.
Proof.
  induction c as [e c|g cs IH] using pfcp_core_nested_ind; intros Hok mem path; cbn [ie_of_core].
  - destruct (pfcp_conveyed (mem path) (mem path) c Hok) as (a & _ & _ & -> & _). by eexists.
  - destruct Hok as (_ & _ & Hok%foldr_core_ok). destruct (each_at_total (ie_of_core mem) path cs) with (k := 0%nat) as [l ->]; [|by eexists].
    clear -IH Hok. induction IH; inversion_clear Hok; constructor; auto.
Qed.
