(* ===== verification/PfcpLoad.v ===== *)
(** * Parsing PFCP messages

    [pfcp_msg::load_from] of [src/pfcp/3gpp_29.244.hpp]: what a message of
    conveyed values becomes at the receiver, and the termination of the parser
    on any datagram. *)
From S2P Require Import Prelude Stream GtpTlv GtpIdentity PfcpNode PfcpTlv PfcpScalar PfcpElements PfcpTunnel PfcpFilters PfcpMsg PfcpIe.
From Stdlib Require Import ZArith Lia String.
From stdpp Require Import base numbers tactics list strings.
Open Scope Z_scope.

Record pfcp_msg_in := mk_pfcp_msg_in { in_hdr : pfcp_msg_header; in_ies : list pfcp_ie }.
Definition pfcp_msg_in_init : pfcp_msg_in := mk_pfcp_msg_in pfcp_msg_header_init [].

(** The [do ... while]: the octets counted, the elements. *)
Fixpoint pfcp_ies_loop (fuel : nat) (new_ie : istream -> result pfcp_exn (option pfcp_ie * istream))
    (check_msg_length ies_length : Z) (l : list pfcp_ie) (ins : istream) : result pfcp_exn (Z * list pfcp_ie * istream) :=
  match fuel with
  | O => Diverge
  | S fuel =>
    '(oi, ins) ← new_ie ins;
    match oi with
    | Some i =>
      let ies_length := u16 (ies_length + (pfcp_tlv_ie_length + pt_length (tlv_of_pfcp_ie i))) in
      if ies_length <? check_msg_length then pfcp_ies_loop fuel new_ie check_msg_length ies_length (l ++ [i]) ins
      else Val (ies_length, l ++ [i], ins)
    | None => Val (ies_length, l, ins)
    end
  end.

Definition pfcp_msg_load_from (fuel : nat) (mem : nat -> heap) (m : pfcp_msg_in) (ins : istream)
  : result pfcp_exn (pfcp_msg_in * istream) :=
  '(h, ins) ← pfcp_header_load_from (in_hdr m) ins;
  let check_msg_length := u16 (h_message_length h - 3 - 1) in
  let check_msg_length := if h_s h =? 1 then u16 (check_msg_length - 8) else check_msg_length in
  '(ies_length, l, ins) ← pfcp_ies_loop fuel (new_pfcp_ie_from_stream fuel mem) check_msg_length 0 (in_ies m) ins;
  if ies_length =? check_msg_length then Val (mk_pfcp_msg_in h l, ins)
  else Throw (pfcp_msg_bad_length_exception (h_message_type h) (h_message_length h) ies_length check_msg_length).

(** ** Sending values *)

(** The constructors of [pfcp_msg], by the values whose elements they add, and
    what [dump_to] will write of each element. *)
Definition wire_of (mem dmem : memory) (path : list nat) (c : pfcp_core) : result pfcp_exn wire_ie :=
  i ← ie_of_core mem path c;
  '(b, _) ← pfcp_ie_dump_to dmem path i;
  Val (mk_wire_ie (pt_length (tlv_of_pfcp_ie i)) b).

Definition pfcp_msg_of_cores (mem dmem : memory) (msg_type : Z) (cs : list pfcp_core) : result pfcp_exn pfcp_msg :=
  l ← each_at (wire_of mem dmem) [] 0 cs; Val (pfcp_msg_of msg_type l).

Definition wires_octets (l : list wire_ie) : Z := foldr (fun w n => tlv_ie_length + ie_length w + n) 0 l.
Definition wires_bytes (l : list wire_ie) : list Z := concat (ie_bytes <$> l).

(** [w] is how an element of value [c] is written, and it is read as such. *)
Definition wire_conveys (fuel : nat) (w : wire_ie) (c : pfcp_core) : Prop :=
  0 < ie_length w /\
  forall rmem rest, exists j, new_pfcp_ie_from_stream fuel rmem (istream_of (ie_bytes w ++ rest)) = Val (Some j, istream_of rest) /\
    pt_length (tlv_of_pfcp_ie j) = ie_length w /\ core_seen c (core_of_ie j).

Lemma wire_of_conveys fuel mem dmem path c w :
  core_ok c -> wire_of mem dmem path c = Val w -> (core_size c <= fuel)%nat ->
  (forall i, ie_of_core mem path c = Val i -> ie_octets i < pfcp_tlv_ie_length + 2 ^ 16) -> wire_conveys fuel w c.
Proof.
  intros Hok H Hs Hb. unfold wire_of in H. apply bind_Val_inv in H as (i & Ei & H). apply bind_Val_inv in H as ([b i'] & Eb & [= <-]).
  specialize (Hb i Ei). destruct (built_tlv _ _ _ _ Hok Ei Hb) as [Kp Kc].
  destruct (pfcp_core_conveyed fuel c mem path i Hok Ei Hb Hs dmem path) as (b0 & i0 & Eb0 & _ & Hr). rewrite Eb in Eb0. injection Eb0 as <- <-.
  split; [done|]. intros rmem rest. destruct (Hr rmem rest) as (j & Ej & Etj & Hj). exists j. cbn [ie_bytes ie_length].
  split; [done|]. split; [lia|done].
Qed.

Lemma pfcp_loop_conveys fuel ws cs : Forall2 (wire_conveys fuel) ws cs -> ws <> [] ->
  forall rmem rest acc n len check, (length ws <= n)%nat -> 0 <= len -> len + wires_octets ws = check -> check < 2 ^ 16 ->
  exists js, pfcp_ies_loop n (new_pfcp_ie_from_stream fuel rmem) check len acc (istream_of (wires_bytes ws ++ rest)) =
      Val (check, acc ++ js, istream_of rest) /\
    Forall2 core_seen cs (core_of_ie <$> js).
Proof.
  induction 1 as [|w c ws cs [Hl Hw] Hws IH]; [done|]. intros _ rmem rest acc n len check Hn Hlen Hsum Hb.
  destruct n as [|n]; simpl in Hn; [lia|]. cbn [pfcp_ies_loop].
  change (wires_bytes (w :: ws)) with (ie_bytes w ++ wires_bytes ws). rewrite <- app_assoc.
  destruct (Hw rmem (wires_bytes ws ++ rest)) as (j & Ej & Etj & Hj). rewrite Ej. cbn [mbind result_bind]. rewrite Etj. cbv zeta.
  change (wires_octets (w :: ws)) with (tlv_ie_length + ie_length w + wires_octets ws) in Hsum.
  assert (0 <= wires_octets ws /\ (ws <> [] -> 0 < wires_octets ws)) as [Hnn Hpos].
  { clear -Hws. induction Hws as [|w c ws cs [Hl _] _ [IH _]]; [done|].
    change (wires_octets (w :: ws)) with (tlv_ie_length + ie_length w + wires_octets ws). unfold tlv_ie_length. lia. }
  unfold tlv_ie_length, pfcp_tlv_ie_length in *. rewrite wrapu_id by (unfold fits; lia). destruct ws as [|w' ws].
  - inversion Hws; subst. replace (_ <? _) with false by (cbn in *; lia). exists [j]. cbn. split; [|by repeat constructor].
    do 3 f_equal. cbn in *. lia.
  - specialize (Hpos ltac:(done)). replace (_ <? _) with true by lia.
    destruct (IH ltac:(done) rmem rest (acc ++ [j]) n (len + (4 + ie_length w)) check) as (js & Ejs & Hjs); [simpl in *; lia..|].
    exists (j :: js). rewrite Ejs, <- app_assoc. split; [done|]. by constructor.
Qed.

(** ** The header of a message with its elements *)
Definition header_of (msg_type : Z) (seid : option Z) (sn len : Z) : pfcp_msg_header :=
  mk_pfcp_header (match seid with Some _ => 1 | None => 0 end) 0 0 1 msg_type
    (len + match seid with Some _ => 12 | None => 4 end) (default 0 seid) sn 0 0.

(** [send_request] and [send_response] set the SEID, when there is one, and the
    sequence number. *)
Definition addressed (seid : option Z) (sn : Z) (m : pfcp_msg) : pfcp_msg :=
  msg_set_sequence_number sn (match seid with Some s => msg_set_seid s m | None => m end).

Lemma wires_octets_snoc ws w : wires_octets (ws ++ [w]) = wires_octets ws + (tlv_ie_length + ie_length w).
Proof. unfold wires_octets. induction ws as [|v ws IH]; simpl; lia. Qed.

Lemma pfcp_msg_of_spec ty ws : Forall (fun w => 0 <= ie_length w) ws -> 4 + wires_octets ws < 2 ^ 16 ->
  0 <= wires_octets ws /\ pfcp_msg_of ty ws = mk_pfcp_msg (header_of ty None 0 (wires_octets ws)) ws.
Proof.
  induction ws as [|w ws IH] using rev_ind; intros Hw Hb; [done|].
  apply Forall_app in Hw as [Hws Hw]. inversion_clear Hw. rewrite wires_octets_snoc in *. unfold tlv_ie_length in *.
  destruct IH as [Hn E]; [done|lia|]. split; [lia|]. unfold pfcp_msg_of in *. rewrite foldl_snoc, E.
  unfold add_ie, set_message_length. cbn [hdr ies h_message_length header_of]. unfold tlv_ie_length.
  rewrite wrapu_id by (unfold fits; lia). unfold header_of. cbn. f_equal. f_equal. lia.
Qed.

Lemma land_sn sn : fits 24 sn -> Z.land sn 16777215 = sn.
Proof. intros H. change 16777215 with (Z.ones 24). rewrite Z.land_ones by lia. by apply Z.mod_small. Qed.

Lemma addressed_spec ty seid sn ws : fits 24 sn -> 0 <= wires_octets ws -> 12 + wires_octets ws < 2 ^ 16 ->
  addressed seid sn (mk_pfcp_msg (header_of ty None 0 (wires_octets ws)) ws) =
  mk_pfcp_msg (header_of ty seid sn (wires_octets ws)) ws.
Proof.
  intros Hsn Hn Hb. unfold addressed, msg_set_sequence_number, msg_set_seid, set_sequence_number, set_seid, header_of.
  destruct seid as [s|]; cbn [hdr ies h_s h_mp h_spare1 h_version h_message_type h_message_length h_seid h_spare2 h_message_priority default];
    rewrite land_sn by done; [|done]. change (0 =? 0) with true. cbv match. rewrite wrapu_id by (unfold fits; lia).
  f_equal. f_equal. lia.
Qed.

Lemma header_of_check ty seid sn len : 0 <= len -> 12 + len < 2 ^ 16 ->
  (let check := u16 (h_message_length (header_of ty seid sn len) - 3 - 1) in
   if h_s (header_of ty seid sn len) =? 1 then u16 (check - 8) else check) = len.
Proof.
  intros Hl Hb. unfold header_of. cbn [h_message_length h_s]. cbv zeta. destruct seid; cbn [Z.eqb Pos.eqb].
  - rewrite (wrapu_id 16 (len + 12 - 3 - 1)) by (unfold fits; lia). rewrite wrapu_id by (unfold fits; lia). lia.
  - rewrite wrapu_id by (unfold fits; lia). lia.
Qed.

Lemma header_of_wf ty seid sn len : fits 8 ty -> (forall s, seid = Some s -> fits 64 s) -> fits 24 sn ->
  0 <= len -> 12 + len < 2 ^ 16 -> pfcp_header_wf (header_of ty seid sn len).
Proof.
  intros Hty Hs Hsn Hl Hb. split; unfold header_of; cbn [h_s h_mp h_version h_message_type h_message_length h_seid h_sequence_number
    h_message_priority]; try done; destruct seid as [s|]; cbn [default]; try done; try (by apply Hs); unfold fits; try lia.
Qed.

(** ** A message of conveyed values *)
Lemma wires_of_cores fuel mem dmem path cs : forall k l,
  Forall core_ok cs -> Forall (fun c => core_size c <= fuel)%nat cs ->
  each_at (ie_of_core mem) path k cs = Val l -> ies_octets l < 2 ^ 16 ->
  exists ws, each_at (wire_of mem dmem) path k cs = Val ws /\ Forall2 (wire_conveys fuel) ws cs /\ wires_octets ws = ies_octets l.
Proof.
  induction cs as [|c cs IH]; intros k l Hok Hs H Hb; cbn [each_at] in *; [injection H as <-; by exists []|].
  inversion_clear Hok as [|? ? Hc Hcs]. inversion_clear Hs as [|? ? Sc Scs].
  apply bind_Val_inv in H as (i & Ei & H). apply bind_Val_inv in H as (l' & El & [= <-]).
  change (ies_octets (i :: l')) with (ie_octets i + ies_octets l') in Hb.
  pose proof (ie_octets_nonneg _ _ _ _ Hc Ei) as Hpos. pose proof (built_octets_nonneg _ _ _ Hcs (each_at_Forall2 _ _ _ _ _ El)) as Hn.
  unfold pfcp_tlv_ie_length in Hpos. destruct (IH (S k) l' Hcs Scs El) as (ws & Ews & Hws & Eo); [lia|].
  destruct (pfcp_core_conveyed fuel c mem (k :: path) i Hc Ei ltac:(unfold pfcp_tlv_ie_length; lia) Sc dmem (k :: path)) as (b & i' & Eb & _ & _).
  destruct (built_tlv _ _ _ _ Hc Ei ltac:(unfold pfcp_tlv_ie_length; lia)) as [_ Kc].
  assert (wire_of mem dmem (k :: path) c = Val (mk_wire_ie (pt_length (tlv_of_pfcp_ie i)) b)) as Ew
    by (unfold wire_of; rewrite Ei; cbn [mbind result_bind]; by rewrite Eb).
  eexists. rewrite Ew. cbn [mbind result_bind]. rewrite Ews. split; [done|]. split.
  - constructor; [|done]. eapply wire_of_conveys; [done|done|done|]. intros j Ej. rewrite Ei in Ej. injection Ej as <-.
    unfold pfcp_tlv_ie_length. lia.
  - unfold wires_octets, ies_octets in *. cbn [foldr ie_length]. rewrite Eo, <- Kc. done.
Qed.

(** The parser stops on the empty rest of a datagram. *)
Lemma new_pfcp_ie_nil fuel mem : exists ins, new_pfcp_ie_from_stream (S fuel) mem (istream_of []) = Val (None, ins).
Proof. by eexists. Qed.

Definition cores_size (cs : list pfcp_core) : nat := foldr (fun c n => core_size c + n)%nat 0%nat cs.

(** Values conveyed by their classes, in a message whose length its header can
    count: the receiver parses the message to its header and to elements that
    show these values. *)
Theorem pfcp_message_conveyed (fuel : nat) (mem dmem : memory) (rmem : nat -> heap) (ty sn : Z) (seid : option Z)
    (cs : list pfcp_core) (l : list pfcp_ie) :
  Forall core_ok cs -> each_at (ie_of_core mem) [] 0 cs = Val l -> 12 + ies_octets l < 2 ^ 16 ->
  fits 8 ty -> fits 24 sn -> (forall s, seid = Some s -> fits 64 s) -> (cores_size cs < fuel)%nat ->
  exists m js ins, pfcp_msg_of_cores mem dmem ty cs = Val m /\
    pfcp_msg_load_from fuel rmem pfcp_msg_in_init (istream_of (pfcp_msg_dump_to (addressed seid sn m)).1) =
      Val (mk_pfcp_msg_in (header_of ty seid sn (ies_octets l)) js, ins) /\
    Forall2 core_seen cs (core_of_ie <$> js).
Proof.
  intros Hok El Hb Hty Hsn Hseid Hf. destruct (cores_size_bound cs) as [Hlen Hsz]. fold (cores_size cs) in Hlen, Hsz.
  destruct (wires_of_cores fuel mem dmem [] cs 0 l Hok) as (ws & Ews & Hws & Eo); [|done|lia|].
  { eapply Forall_impl; [exact Hsz|]. simpl. lia. }
  assert (Forall (fun w => 0 <= ie_length w) ws) as Hp.
  { clear -Hws. induction Hws as [|w c ws cs [H _]]; constructor; [lia|done]. }
  destruct (pfcp_msg_of_spec ty ws Hp ltac:(lia)) as [Hn Em].
  exists (pfcp_msg_of ty ws). unfold pfcp_msg_of_cores. rewrite Ews, Em, addressed_spec by (done || lia).
  unfold pfcp_msg_dump_to. cbn [hdr ies]. rewrite Eo in *.
  pose proof (pfcp_header_roundtrip (E := pfcp_exn) (header_of ty seid sn (ies_octets l)) pfcp_msg_header_init (wires_bytes ws)
    (header_of_wf ty seid sn _ Hty Hseid Hsn Hn Hb)) as Hh.
  change (pfcp_header_dump_to (header_of ty seid sn (ies_octets l))) with
    ((pfcp_header_dump_to (header_of ty seid sn (ies_octets l))).1, header_of ty seid sn (ies_octets l)) in Hh |- *.
  cbv beta match in Hh. destruct Hh as [Hh _]. cbn [fst]. unfold pfcp_msg_load_from. cbn [in_hdr in_ies pfcp_msg_in_init].
  fold (wires_bytes ws). rewrite Hh. cbn [mbind result_bind]. rewrite header_of_check by (done || lia).
  destruct ws as [|w ws].
  - inversion Hws; subst. cbn [each_at] in El. injection El as <-. destruct fuel as [|fuel]; [simpl in Hf; lia|].
    destruct (new_pfcp_ie_nil fuel rmem) as [ins E]. exists [], ins. cbn [wires_bytes fmap list_fmap concat pfcp_ies_loop].
    rewrite E. split_and!; [by f_equal|done|done].
  - destruct (pfcp_loop_conveys fuel (w :: ws) cs Hws ltac:(done) rmem [] [] fuel 0 (ies_octets l)) as (js & Ejs & Hjs);
      [apply Forall2_length in Hws; lia|lia|lia|lia|].
    exists js, (istream_of []). rewrite app_nil_r in Ejs. rewrite Ejs. cbn [mbind result_bind]. rewrite Z.eqb_refl. split_and!; [by f_equal|done|done].
Qed.

(** ** The parser terminates *)

(** Octets that hold a name on which [dotted_to_string] never returns. *)
Definition stuck_name (data : list Z) : Prop :=
  exists pre dot post, data = pre ++ dot ++ post /\ pfcp_dotted_to_string dot = Diverge.

Lemma stuck_name_rest ins' ins : rest_of ins' ins -> stuck_name (is_data ins') -> stuck_name (is_data ins).
Proof. intros [l ->] (pre & dot & post & -> & H). exists (l ++ pre), dot, post. by rewrite <- app_assoc. Qed.

(** The body of any [load_from], down to the reads. *)
Ltac load_body :=
  cbv [pie_load_from element_class element_ie element_core pfcp_cause_class pfcp_source_interface_class
    pfcp_qer_correlation_id_class pfcp_precedence_class pfcp_time_threshold_class pfcp_monitoring_time_class
    pfcp_subsequent_time_threshold_class pfcp_inactivity_detection_time_class pfcp_offending_ie_class
    pfcp_destination_interface_class pfcp_pdr_id_class pfcp_urr_id_class pfcp_bar_id_class
    pfcp_outer_header_removal_class pfcp_recovery_time_stamp_class pfcp_far_id_class pfcp_qer_id_class
    pfcp_user_plane_inactivity_timer_class pfcp_gate_status_class pfcp_report_type_class pfcp_apply_action_class
    pfcp_cp_function_features_class pfcp_qfi_class pfcp_reporting_triggers_class pfcp_up_function_features_class
    pfcp_node_report_type_class pfcp_network_instance_class pfcp_application_id_class
    pfcp_activate_predefined_rules_class pfcp_deactivate_predefined_rules_class pfcp_transport_level_marking_class
    pfcp_forwarding_policy_class pfcp_mbr_class pfcp_gbr_class pfcp_fteid_class pfcp_f_seid_class
    pfcp_ue_ip_address_class pfcp_node_id_class pfcp_outer_header_creation_class pfcp_sdf_filter_class
    pfcp_volume_threshold_class pfcp_subsequent_volume_threshold_class pfcp_failed_rule_id_class
    pfcp_user_plane_ip_resource_information_class pfcp_user_id_class];
  unfold pfcp_cause_load_from, pfcp_source_interface_load_from, pfcp_qer_correlation_id_load_from, 
    pfcp_precedence_load_from, pfcp_time_threshold_load_from, pfcp_monitoring_time_load_from, 
    pfcp_subsequent_time_threshold_load_from, pfcp_inactivity_detection_time_load_from, pfcp_offending_ie_load_from, 
    pfcp_destination_interface_load_from, pfcp_pdr_id_load_from, pfcp_urr_id_load_from, pfcp_bar_id_load_from, 
    pfcp_outer_header_removal_load_from, pfcp_recovery_time_stamp_load_from, pfcp_far_id_load_from, 
    pfcp_qer_id_load_from, pfcp_user_plane_inactivity_timer_load_from, pfcp_gate_status_load_from, 
    pfcp_report_type_load_from, pfcp_apply_action_load_from, pfcp_cp_function_features_load_from, pfcp_qfi_load_from, 
    pfcp_reporting_triggers_load_from, pfcp_up_function_features_load_from, pfcp_node_report_type_load_from, 
    pfcp_network_instance_load_from, pfcp_application_id_load_from, pfcp_activate_predefined_rules_load_from, 
    pfcp_deactivate_predefined_rules_load_from, pfcp_transport_level_marking_load_from, 
    pfcp_forwarding_policy_load_from, pfcp_mbr_load_from, pfcp_gbr_load_from, pfcp_fteid_load_from, 
    pfcp_f_seid_load_from, pfcp_ue_ip_address_load_from, pfcp_node_id_load_from, pfcp_outer_header_creation_load_from, 
    pfcp_sdf_filter_load_from, pfcp_volume_threshold_load_from, pfcp_subsequent_volume_threshold_load_from, 
    pfcp_failed_rule_id_load_from, pfcp_user_plane_ip_resource_information_load_from, pfcp_user_id_load_from;
  unfold with_length, volume_read, opt_read, opt_string, read_string, ipv4_address_load_from, ipv6_address_load_from, bcd_read;
  cbv zeta.

Ltac load_diverge :=
  intros; exfalso; cbv zeta in *;
  repeat match goal with
  | H : Val _ = Diverge |- _ => discriminate H
  | H : Throw _ = Diverge |- _ => discriminate H
  | H : UB = Diverge |- _ => discriminate H
  | H : bcd_num_digits _ _ = Diverge |- _ => unfold bcd_num_digits in H
  | H : read_exact _ _ = Diverge |- _ => by apply read_exact_returns in H
  | H : (_ ≫= _) = Diverge |- _ => apply bind_Diverge_inv in H as [H|([[? ?] ?] & _ & H)]
  | H : (_ ≫= _) = Diverge |- _ => apply bind_Diverge_inv in H as [H|([? ?] & _ & H)]
  | H : (_ ≫= _) = Diverge |- _ => apply bind_Diverge_inv in H as [H|(? & _ & H)]
  | H : match ?r with _ => _ end = Diverge |- _ => destruct r
  end.

Lemma element_load_rest e (a a' : element_ie e) ins ins' : pie_load_from a ins = Val (a', ins') -> rest_of ins' ins.
Proof. destruct e; load_body; intros; repeat (progress (rest_reads; simplify_eq)); rest_chain. Qed.

Lemma element_load_returns e (a : element_ie e) ins : pie_load_from a ins = Diverge -> stuck_name (is_data ins).
Proof.
  destruct e; load_body; try (load_diverge; fail).
  destruct (read_u8 _ ins) as [u1 i1] eqn:E1. apply read_u8_rest in E1. intros H. apply (stuck_name_rest _ _ E1).
  repeat match goal with H : (if ?b then _ else _) = Diverge |- _ => destruct b end; try done;
    try (by revert H; case_match).
  apply bind_Diverge_inv in H as [H|([dot i2] & E2 & H)]; [by apply read_exact_returns in H|].
  apply bind_Diverge_inv in H as [H|(f & _ & H)]; [|done]. apply read_exact_data in E2. rewrite E2. by exists [], dot, (is_data i2).
Qed.

(** *** The factory *)
Lemma pfcp_tlv_load_strict ins t ins' :
  pfcp_tlv_load_from pfcp_tlv_init ins = (t, ins') ->
  rest_of ins' ins /\ (pt_length t <> 0 -> (avail ins' < avail ins)%nat).
Proof.
  unfold pfcp_tlv_load_from. destruct (read_be 2 _ ins) as [ty i1] eqn:E1. destruct (read_be 2 _ i1) as [len i2] eqn:E2.
  intros H. assert (rest_of ins' i2 /\ pt_length t = len) as [E3 El].
  { destruct (Z.land ty _ =? 0); [by injection H as <- <-|]. destruct (read_be 2 _ i2) as [e i3] eqn:E3. injection H as <- <-.
    by apply read_be_rest in E3. }
  clear H. pose proof (read_be_rest _ _ _ _ _ E2) as R2. apply read_be_rest in E1. split; [rest_chain|].
  rewrite El. intros Hl. apply rest_of_avail in E1, E3. unfold read_be in E2. destruct (read _ i1) as [d i2'] eqn:E2'.
  injection E2 as <- <-. destruct (read_strict _ _ _ _ E2' ltac:(rewrite length_le_bytes; lia)) as [Hs| ->]; [lia|]. by destruct Hl.
Qed.

Lemma pfcp_grouped_rest new_ie :
  (forall ins oi ins', new_ie ins = Val (oi, ins') -> rest_of ins' ins) ->
  forall fuel t r l ins l' ins', pfcp_grouped_load_from fuel new_ie t r l ins = Val (l', ins') -> rest_of ins' ins.
Proof.
  intros Hn. induction fuel as [|fuel IH]; intros t r l ins l' ins'; cbn [pfcp_grouped_load_from];
    (destruct (0 <? r); [|rest_tac]); [done|].
  intros H. apply bind_Val_inv in H as ([[i|] i1] & E & H); [|done]. apply Hn in E. apply IH in H. rest_chain.
Qed.

(** An element returned has taken octets; a null pointer need not. *)
Lemma new_pfcp_ie_rest fuel mem : forall ins oi ins',
  new_pfcp_ie_from_stream fuel mem ins = Val (oi, ins') ->
  rest_of ins' ins /\ (oi <> None -> (avail ins' < avail ins)%nat).
Proof.
  induction fuel as [|fuel IH]; intros ins oi ins'; cbn [new_pfcp_ie_from_stream]; [done|].
  destruct (pfcp_tlv_load_from pfcp_tlv_init ins) as [t i1] eqn:Et. apply pfcp_tlv_load_strict in Et as [Hle Hlt].
  destruct (Z.eqb_spec (pt_length t) 0) as [E0|E0]; [by intros [= <- <-]|]. specialize (Hlt E0).
  assert (rest_of ins' i1 -> rest_of ins' ins /\ (oi <> None -> (avail ins' < avail ins)%nat))
    as Hi by (intros Hr; split; [by etrans|intros _; apply rest_of_avail in Hr; lia]).
  intros H. apply Hi. clear Hi E0. destruct (factory_switch (pt_type t)) as [[e|g]|].
  - apply bind_Val_inv in H as ([a i2] & E & [= <- <-]). by eapply element_load_rest.
  - apply bind_Val_inv in H as ([l i2] & E & [= <- <-]). eapply pfcp_grouped_rest; [|exact E].
    intros ? ? ? Hn. by apply IH in Hn as [Hn _].
  - by injection H as <- <-.
Qed.

Lemma new_pfcp_ie_some fuel mem ins i ins' :
  new_pfcp_ie_from_stream fuel mem ins = Val (Some i, ins') -> rest_of ins' ins /\ (avail ins' < avail ins)%nat.
Proof. intros H. apply new_pfcp_ie_rest in H as [Hr H]. split; [done|]. by apply H. Qed.

(** The two loops, with any fuel beyond the octets left. *)
Section loops.
Context (new1 new2 : istream -> result pfcp_exn (option pfcp_ie * istream)) (n : nat).
Hypothesis new_same : forall ins, (avail ins <= n)%nat -> new1 ins = new2 ins.
Hypothesis new_some : forall ins i ins',
  new2 ins = Val (Some i, ins') -> rest_of ins' ins /\ (avail ins' < avail ins)%nat.
Hypothesis new_returns : forall ins, (avail ins <= n)%nat -> new2 ins = Diverge -> stuck_name (is_data ins).

Lemma pfcp_grouped_fuel : forall k1 k2 t r l ins,
  (avail ins <= n)%nat -> (avail ins < k1)%nat -> (avail ins < k2)%nat ->
  pfcp_grouped_load_from k1 new1 t r l ins = pfcp_grouped_load_from k2 new2 t r l ins.
Proof.
  induction k1 as [|k1 IH]; intros k2 t r l ins Hn H1 H2; [lia|].
  destruct k2 as [|k2]; [lia|]. cbn [pfcp_grouped_load_from]. destruct (0 <? r); [|done].
  rewrite new_same by done. destruct (new2 ins) as [[[i|] ins']| | |] eqn:E; try done. cbn [mbind result_bind].
  apply new_some in E as [_ E]. apply IH; try done; lia.
Qed.

Lemma pfcp_loop_fuel : forall k1 k2 check len l ins,
  (avail ins <= n)%nat -> (avail ins < k1)%nat -> (avail ins < k2)%nat ->
  pfcp_ies_loop k1 new1 check len l ins = pfcp_ies_loop k2 new2 check len l ins.
Proof.
  induction k1 as [|k1 IH]; intros k2 check len l ins Hn H1 H2; [lia|].
  destruct k2 as [|k2]; [lia|]. cbn [pfcp_ies_loop].
  rewrite new_same by done. destruct (new2 ins) as [[[i|] ins']| | |] eqn:E; try done. cbn [mbind result_bind].
  apply new_some in E as [_ E]. cbv zeta. case_match; [|done]. apply IH; try done; lia.
Qed.

Lemma pfcp_grouped_returns : forall k t r l ins,
  (avail ins <= n)%nat -> (avail ins < k)%nat ->
  pfcp_grouped_load_from k new2 t r l ins = Diverge -> stuck_name (is_data ins).
Proof.
  induction k as [|k IH]; intros t r l ins Hn Hk; [lia|]. cbn [pfcp_grouped_load_from]. destruct (0 <? r); [|done].
  intros H. apply bind_Diverge_inv in H as [H|([[i|] ins'] & E & H)]; [by apply new_returns| |done].
  apply new_some in E as [Hr E]. eapply stuck_name_rest; [exact Hr|]. eapply IH; [| |exact H]; lia.
Qed.

Lemma pfcp_loop_returns : forall k check len l ins,
  (avail ins <= n)%nat -> (avail ins < k)%nat ->
  pfcp_ies_loop k new2 check len l ins = Diverge -> stuck_name (is_data ins).
Proof.
  induction k as [|k IH]; intros check len l ins Hn Hk; [lia|]. cbn [pfcp_ies_loop]. cbv zeta.
  intros H. apply bind_Diverge_inv in H as [H|([[i|] ins'] & E & H)]; [by apply new_returns| |done].
  apply new_some in E as [Hr E]. case_match; [|done]. eapply stuck_name_rest; [exact Hr|]. eapply IH; [| |exact H]; lia.
Qed.
End loops.

Lemma new_pfcp_ie_fuel mem k1 : forall k2 ins, (avail ins < k1)%nat -> (avail ins < k2)%nat ->
  new_pfcp_ie_from_stream k1 mem ins = new_pfcp_ie_from_stream k2 mem ins.
Proof.
  induction k1 as [|k1 IH]; intros k2 ins H1 H2; [lia|]. destruct k2 as [|k2]; [lia|].
  cbn [new_pfcp_ie_from_stream]. destruct (pfcp_tlv_load_from pfcp_tlv_init ins) as [t i1] eqn:Et.
  apply pfcp_tlv_load_strict in Et as [_ Hlt].
  destruct (Z.eqb_spec (pt_length t) 0) as [E0|E0]; [done|]. specialize (Hlt E0).
  destruct (factory_switch (pt_type t)) as [[e|g]|]; [done| |done]. f_equal.
  apply (pfcp_grouped_fuel _ _ (avail i1)); try lia; [|apply new_pfcp_ie_some]. intros. apply IH; lia.
Qed.

Lemma new_pfcp_ie_returns mem k : forall ins, (avail ins < k)%nat ->
  new_pfcp_ie_from_stream k mem ins = Diverge -> stuck_name (is_data ins).
Proof.
  induction k as [|k IH]; intros ins Hk; [lia|].
  cbn [new_pfcp_ie_from_stream]. destruct (pfcp_tlv_load_from pfcp_tlv_init ins) as [t i1] eqn:Et.
  apply pfcp_tlv_load_strict in Et as [Hr Hlt].
  destruct (Z.eqb_spec (pt_length t) 0) as [E0|E0]; [done|]. specialize (Hlt E0).
  intros H. eapply stuck_name_rest; [exact Hr|]. clear E0.
  destruct (factory_switch (pt_type t)) as [[e|g]|]; [| |done]; apply bind_Diverge_inv in H as [H|([? ?] & _ & H)]; try done.
  - by eapply element_load_returns.
  - eapply (pfcp_grouped_returns _ (avail i1)); [apply new_pfcp_ie_some| | | |exact H]; try lia. intros; apply IH; [lia|done].
Qed.

Lemma pfcp_header_load_rest h ins h' ins' : pfcp_header_load_from (E := pfcp_exn) h ins = Val (h', ins') -> rest_of ins' ins.
Proof. unfold pfcp_header_load_from. rest_tac. Qed.

Lemma pfcp_header_load_returns h ins : pfcp_header_load_from (E := pfcp_exn) h ins <> Diverge.
Proof. unfold pfcp_header_load_from. intros H. revert H. load_diverge. Qed.

Lemma pfcp_load_fuel mem m data fuel : (length data < fuel)%nat ->
  pfcp_msg_load_from fuel mem m (istream_of data) = pfcp_msg_load_from (S (length data)) mem m (istream_of data).
Proof.
  intros Hf. unfold pfcp_msg_load_from.
  destruct (pfcp_header_load_from (in_hdr m) (istream_of data)) as [[h ins]| | |] eqn:E; try done.
  apply pfcp_header_load_rest, rest_of_avail in E. change (avail (istream_of data)) with (length data) in E.
  cbn [mbind result_bind]. f_equal. apply (pfcp_loop_fuel _ _ (avail ins)); try lia; [|apply new_pfcp_ie_some].
  intros. apply new_pfcp_ie_fuel; lia.
Qed.

(** C26 Parsing a PFCP datagram needs at most one round of fuel per octet, whatever the
    octets: more fuel changes nothing; and it returns a message, an exception
    or undefined behaviour unless the datagram holds a name on which
    dotted_to_string never returns. *)
Theorem pfcp_load_terminates (mem : nat -> heap) (m : pfcp_msg_in) (data : list Z) (fuel : nat) :
  (length data < fuel)%nat ->
  pfcp_msg_load_from fuel mem m (istream_of data) = pfcp_msg_load_from (S (length data)) mem m (istream_of data) /\
  (pfcp_msg_load_from fuel mem m (istream_of data) = Diverge -> stuck_name data).
Proof.
  intros Hf. split; [by apply pfcp_load_fuel|]. unfold pfcp_msg_load_from.
  destruct (pfcp_header_load_from (in_hdr m) (istream_of data)) as [[h ins]| | |] eqn:E;
    [|done|done|by apply pfcp_header_load_returns in E].
  apply pfcp_header_load_rest in E. pose proof (rest_of_avail _ _ E) as Hi. change (avail (istream_of data)) with (length data) in Hi.
  cbn [mbind result_bind]. intros H. apply bind_Diverge_inv in H as [H|([[? ?] ?] & _ & H)]; [|by case_match].
  apply (stuck_name_rest _ _ E). eapply (pfcp_loop_returns _ (avail ins)); [apply new_pfcp_ie_some| | | |exact H]; try lia.
  intros. apply new_pfcp_ie_returns with mem fuel; [lia|done].
Qed.

(** A heartbeat request. *)
Lemma pfcp_load_terminates_witness :
  let data := [0x20; 1; 0; 12; 0; 0; 7; 0; 0; 96; 0; 4; 1; 2; 3; 4] in
  pfcp_msg_load_from 40 (fun _ _ => 0) pfcp_msg_in_init (istream_of data) =
    pfcp_msg_load_from 17 (fun _ _ => 0) pfcp_msg_in_init (istream_of data) /\
  match pfcp_msg_load_from 40 (fun _ _ => 0) pfcp_msg_in_init (istream_of data) with
  | Val (m, _) => map core_of_ie (in_ies m) = [CoreElement Erecovery_time_stamp (mk_recovery_time_stamp_t 16909060)]
  | _ => False
  end.
Proof.
  intros data. split; [apply (pfcp_load_terminates (fun _ _ => 0) pfcp_msg_in_init data 40); simpl; lia|].
  vm_compute. reflexivity.
Defined.
