(* ===== verification/PfcpTables.v ===== *)
(** * The PFCP containers, as tables

    [src/pfcp/msg_pfcp.hpp] has one class per message and per grouped element,
    under [pfcp_ies_container]: members that are a [std::pair<bool, T>], a [T] or
    a [std::vector<T>], with an overload of [set] and of [get] per type, and
    [set_x] and [get_x] where several members have one type.  A class is here
    the table of its members, of the member each overload of [set] and of [get]
    is for, and of the members of [set_x] and [get_x].  Every constructor makes
    the members empty, every copy constructor copies them all.

    [group_rows] and the messages are the constructors of the grouped elements
    ([src/pfcp/3gpp_29.244.hpp]) and of [pfcp_msg] ([3gpp_29.244.cpp]): the
    members they add elements for, in order.  [PfcpContainer] interprets all
    tables. *)
From S2P Require Import Prelude PfcpTlv PfcpScalar PfcpStack PfcpIe.
From Stdlib Require Import ZArith String.
From stdpp Require Import base numbers list strings.
Open Scope Z_scope.

(** The type of a member: that of an element, of a grouped element, or one no
    element class has. *)
Inductive ctype := TElement (e : element) | TGroup (g : group) | TOther (name : string).

#[export] Instance ctype_eq_dec : EqDecision ctype.
Proof. solve_decision. Defined.

Inductive shape := Pair | Plain | Vector.

Record pfcp_class := mk_pfcp_class {
  cl_members : list (string * (shape * ctype));
  cl_set : list (ctype * string);
  cl_get : list (ctype * string);
  cl_named_set : list (string * string);
  cl_named_get : list (string * string);
}.

Record pfcp_message := mk_pfcp_message { msg_type : Z; msg_class : pfcp_class; msg_rows : list string }.

Definition pfd_class : pfcp_class := mk_pfcp_class
    [("pfd_contents", (Pair, TOther "pfd_contents_t"))]
    [(TOther "pfd_contents_t", "pfd_contents")]
    [(TOther "pfd_contents_t", "pfd_contents")]
    []
    [].

Definition application_ids_pfds_class : pfcp_class := mk_pfcp_class
    [("application_id", (Pair, TElement Eapplication_id)); ("pfds", (Pair, TOther "std::vector<pfd>"))]
    [(TElement Eapplication_id, "application_id"); (TOther "std::vector<pfd>", "pfds")]
    [(TElement Eapplication_id, "application_id"); (TOther "std::vector<pfd>", "pfds")]
    []
    [].

Definition user_plane_path_failure_report_class : pfcp_class := mk_pfcp_class
    [("remote_gtp_u_peer", (Pair, TOther "remote_gtp_u_peer_t"))]
    [(TOther "remote_gtp_u_peer_t", "remote_gtp_u_peer")]
    [(TOther "remote_gtp_u_peer_t", "remote_gtp_u_peer")]
    []
    [].

Definition ethernet_packet_filter_class : pfcp_class := mk_pfcp_class
    [("ethernet_filter_id", (Pair, TOther "ethernet_filter_id_t"));
     ("ethernet_filter_properties", (Pair, TOther "ethernet_filter_properties_t"));
     ("mac_address", (Pair, TOther "mac_address_t")); ("ethertype", (Pair, TOther "ethertype_t"));
     ("c_tag", (Pair, TOther "c_tag_t")); ("s_tag", (Pair, TOther "s_tag_t"));
     ("sdf_filter", (Pair, TElement Esdf_filter))]
    [(TOther "ethernet_filter_id_t", "ethernet_filter_id");
     (TOther "ethernet_filter_properties_t", "ethernet_filter_properties"); (TOther "mac_address_t", "mac_address");
     (TOther "ethertype_t", "ethertype"); (TOther "c_tag_t", "c_tag"); (TOther "s_tag_t", "s_tag");
     (TElement Esdf_filter, "sdf_filter")]
    [(TOther "ethernet_filter_id_t", "ethernet_filter_id");
     (TOther "ethernet_filter_properties_t", "ethernet_filter_properties"); (TOther "mac_address_t", "mac_address");
     (TOther "ethertype_t", "ethertype"); (TOther "c_tag_t", "c_tag"); (TOther "s_tag_t", "s_tag");
     (TElement Esdf_filter, "sdf_filter")]
    []
    [].

Definition pdi_class : pfcp_class := mk_pfcp_class
    [("source_interface", (Pair, TElement Esource_interface)); ("local_fteid", (Pair, TElement Efteid));
     ("network_instance", (Pair, TElement Enetwork_instance)); ("ue_ip_address", (Pair, TElement Eue_ip_address));
     ("traffic_endpoint_id", (Pair, TOther "traffic_endpoint_id_t")); ("sdf_filter", (Pair, TElement Esdf_filter));
     ("application_id", (Pair, TElement Eapplication_id));
     ("ethernet_packet_filter", (Pair, TOther "ethernet_packet_filter")); ("qfi", (Pair, TElement Eqfi));
     ("framed_route", (Pair, TOther "framed_route_t")); ("framed_routing", (Pair, TOther "framed_routing_t"));
     ("framed_ipv6_route", (Pair, TOther "framed_ipv6_route_t"))]
    [(TElement Esource_interface, "source_interface"); (TElement Efteid, "local_fteid");
     (TElement Enetwork_instance, "network_instance"); (TElement Eue_ip_address, "ue_ip_address");
     (TOther "traffic_endpoint_id_t", "traffic_endpoint_id"); (TElement Esdf_filter, "sdf_filter");
     (TElement Eapplication_id, "application_id"); (TOther "ethernet_packet_filter", "ethernet_packet_filter");
     (TElement Eqfi, "qfi"); (TOther "framed_route_t", "framed_route"); (TOther "framed_routing_t", "framed_routing");
     (TOther "framed_ipv6_route_t", "framed_ipv6_route")]
    [(TElement Esource_interface, "source_interface"); (TElement Efteid, "local_fteid");
     (TElement Enetwork_instance, "network_instance"); (TElement Eue_ip_address, "ue_ip_address");
     (TOther "traffic_endpoint_id_t", "traffic_endpoint_id"); (TElement Esdf_filter, "sdf_filter");
     (TElement Eapplication_id, "application_id"); (TOther "ethernet_packet_filter", "ethernet_packet_filter");
     (TElement Eqfi, "qfi"); (TOther "framed_route_t", "framed_route"); (TOther "framed_routing_t", "framed_routing");
     (TOther "framed_ipv6_route_t", "framed_ipv6_route")]
    []
    [].

Definition create_pdr_class : pfcp_class := mk_pfcp_class
    [("pdr_id", (Pair, TElement Epdr_id)); ("precedence", (Pair, TElement Eprecedence)); ("pdi", (Pair, TGroup Gpdi));
     ("outer_header_removal", (Pair, TElement Eouter_header_removal)); ("far_id", (Pair, TElement Efar_id));
     ("urr_id", (Pair, TElement Eurr_id)); ("qer_id", (Pair, TElement Eqer_id));
     ("activate_predefined_rules", (Pair, TElement Eactivate_predefined_rules))]
    [(TElement Epdr_id, "pdr_id"); (TElement Eprecedence, "precedence"); (TGroup Gpdi, "pdi");
     (TElement Eouter_header_removal, "outer_header_removal"); (TElement Efar_id, "far_id");
     (TElement Eurr_id, "urr_id"); (TElement Eqer_id, "qer_id");
     (TElement Eactivate_predefined_rules, "activate_predefined_rules")]
    [(TElement Epdr_id, "pdr_id"); (TElement Eprecedence, "precedence"); (TGroup Gpdi, "pdi");
     (TElement Eouter_header_removal, "outer_header_removal"); (TElement Efar_id, "far_id");
     (TElement Eurr_id, "urr_id"); (TElement Eqer_id, "qer_id");
     (TElement Eactivate_predefined_rules, "activate_predefined_rules")]
    []
    [].

Definition update_forwarding_parameters_class : pfcp_class := mk_pfcp_class
    [("destination_interface", (Pair, TElement Edestination_interface));
     ("network_instance", (Pair, TElement Enetwork_instance));
     ("outer_header_creation", (Pair, TElement Eouter_header_creation));
     ("transport_level_marking", (Pair, TElement Etransport_level_marking));
     ("forwarding_policy", (Pair, TElement Eforwarding_policy));
     ("header_enrichment", (Pair, TOther "header_enrichment_t"));
     ("pfcpsmreq_flags", (Pair, TOther "pfcpsmreq_flags_t"));
     ("linked_traffic_endpoint_id", (Pair, TOther "traffic_endpoint_id_t"))]
    [(TElement Edestination_interface, "destination_interface"); (TElement Enetwork_instance, "network_instance");
     (TElement Eouter_header_creation, "outer_header_creation");
     (TElement Etransport_level_marking, "transport_level_marking");
     (TElement Eforwarding_policy, "forwarding_policy"); (TOther "header_enrichment_t", "header_enrichment");
     (TOther "pfcpsmreq_flags_t", "pfcpsmreq_flags"); (TOther "traffic_endpoint_id_t", "linked_traffic_endpoint_id")]
    [(TElement Edestination_interface, "destination_interface"); (TElement Enetwork_instance, "network_instance");
     (TElement Eouter_header_creation, "outer_header_creation");
     (TElement Etransport_level_marking, "transport_level_marking");
     (TElement Eforwarding_policy, "forwarding_policy"); (TOther "header_enrichment_t", "header_enrichment");
     (TOther "pfcpsmreq_flags_t", "pfcpsmreq_flags"); (TOther "traffic_endpoint_id_t", "linked_traffic_endpoint_id")]
    []
    [].

Definition forwarding_parameters_class : pfcp_class := mk_pfcp_class
    [("destination_interface", (Pair, TElement Edestination_interface));
     ("network_instance", (Pair, TElement Enetwork_instance));
     ("redirect_information", (Pair, TOther "redirect_information_t"));
     ("outer_header_creation", (Pair, TElement Eouter_header_creation));
     ("transport_level_marking", (Pair, TElement Etransport_level_marking));
     ("forwarding_policy", (Pair, TElement Eforwarding_policy));
     ("header_enrichment", (Pair, TOther "header_enrichment_t"));
     ("linked_traffic_endpoint_id", (Pair, TOther "traffic_endpoint_id_t")); ("proxying", (Pair, TOther "proxying_t"))]
    [(TElement Edestination_interface, "destination_interface"); (TElement Enetwork_instance, "network_instance");
     (TOther "redirect_information_t", "redirect_information");
     (TElement Eouter_header_creation, "outer_header_creation");
     (TElement Etransport_level_marking, "transport_level_marking");
     (TElement Eforwarding_policy, "forwarding_policy"); (TOther "header_enrichment_t", "header_enrichment");
     (TOther "traffic_endpoint_id_t", "linked_traffic_endpoint_id"); (TOther "proxying_t", "proxying")]
    [(TElement Edestination_interface, "destination_interface"); (TElement Enetwork_instance, "network_instance");
     (TOther "redirect_information_t", "redirect_information");
     (TElement Eouter_header_creation, "outer_header_creation");
     (TElement Etransport_level_marking, "transport_level_marking");
     (TElement Eforwarding_policy, "forwarding_policy"); (TOther "header_enrichment_t", "header_enrichment");
     (TOther "traffic_endpoint_id_t", "linked_traffic_endpoint_id"); (TOther "proxying_t", "proxying")]
    []
    [].

Definition update_duplicating_parameters_class : pfcp_class := mk_pfcp_class
    [("destination_interface", (Pair, TElement Edestination_interface));
     ("outer_header_creation", (Pair, TElement Eouter_header_creation));
     ("transport_level_marking", (Pair, TElement Etransport_level_marking));
     ("forwarding_policy", (Pair, TElement Eforwarding_policy))]
    [(TElement Edestination_interface, "destination_interface");
     (TElement Eouter_header_creation, "outer_header_creation");
     (TElement Etransport_level_marking, "transport_level_marking");
     (TElement Eforwarding_policy, "forwarding_policy")]
    [(TElement Edestination_interface, "destination_interface");
     (TElement Eouter_header_creation, "outer_header_creation");
     (TElement Etransport_level_marking, "transport_level_marking");
     (TElement Eforwarding_policy, "forwarding_policy")]
    []
    [].

Definition duplicating_parameters_class : pfcp_class := mk_pfcp_class
    [("destination_interface", (Pair, TElement Edestination_interface));
     ("outer_header_creation", (Pair, TElement Eouter_header_creation));
     ("transport_level_marking", (Pair, TElement Etransport_level_marking));
     ("forwarding_policy", (Pair, TElement Eforwarding_policy))]
    [(TElement Edestination_interface, "destination_interface");
     (TElement Eouter_header_creation, "outer_header_creation");
     (TElement Etransport_level_marking, "transport_level_marking");
     (TElement Eforwarding_policy, "forwarding_policy")]
    [(TElement Edestination_interface, "destination_interface");
     (TElement Eouter_header_creation, "outer_header_creation");
     (TElement Etransport_level_marking, "transport_level_marking");
     (TElement Eforwarding_policy, "forwarding_policy")]
    []
    [].

Definition create_far_class : pfcp_class := mk_pfcp_class
    [("far_id", (Pair, TElement Efar_id)); ("apply_action", (Pair, TElement Eapply_action));
     ("forwarding_parameters", (Pair, TGroup Gforwarding_parameters));
     ("duplicating_parameters", (Pair, TGroup Gduplicating_parameters)); ("bar_id", (Pair, TElement Ebar_id))]
    [(TElement Efar_id, "far_id"); (TElement Eapply_action, "apply_action");
     (TGroup Gforwarding_parameters, "forwarding_parameters");
     (TGroup Gduplicating_parameters, "duplicating_parameters"); (TElement Ebar_id, "bar_id")]
    [(TElement Efar_id, "far_id"); (TElement Eapply_action, "apply_action");
     (TGroup Gforwarding_parameters, "forwarding_parameters");
     (TGroup Gduplicating_parameters, "duplicating_parameters"); (TElement Ebar_id, "bar_id")]
    []
    [].

Definition aggregated_urrs_class : pfcp_class := mk_pfcp_class
    [("aggregated_urr_id", (Pair, TOther "aggregated_urr_id_t")); ("multiplier", (Pair, TOther "multiplier_t"))]
    [(TOther "aggregated_urr_id_t", "aggregated_urr_id"); (TOther "multiplier_t", "multiplier")]
    [(TOther "aggregated_urr_id_t", "aggregated_urr_id"); (TOther "multiplier_t", "multiplier")]
    []
    [].

Definition additional_monitoring_time_class : pfcp_class := mk_pfcp_class
    [("monitoring_time", (Pair, TElement Emonitoring_time));
     ("subsequent_volume_threshold", (Pair, TElement Esubsequent_volume_threshold));
     ("subsequent_time_threshold", (Pair, TElement Esubsequent_time_threshold));
     ("subsequent_volume_quota", (Pair, TOther "subsequent_volume_quota_t"));
     ("subsequent_time_quota", (Pair, TOther "subsequent_time_quota_t"))]
    [(TElement Emonitoring_time, "monitoring_time");
     (TElement Esubsequent_volume_threshold, "subsequent_volume_threshold");
     (TElement Esubsequent_time_threshold, "subsequent_time_threshold");
     (TOther "subsequent_volume_quota_t", "subsequent_volume_quota");
     (TOther "subsequent_time_quota_t", "subsequent_time_quota")]
    [(TElement Emonitoring_time, "monitoring_time");
     (TElement Esubsequent_volume_threshold, "subsequent_volume_threshold");
     (TElement Esubsequent_time_threshold, "subsequent_time_threshold");
     (TOther "subsequent_volume_quota_t", "subsequent_volume_quota");
     (TOther "subsequent_time_quota_t", "subsequent_time_quota")]
    []
    [].

Definition event_information_class : pfcp_class := mk_pfcp_class
    [("event_id", (Pair, TOther "event_id_t")); ("event_threshold", (Pair, TOther "event_threshold_t"))]
    [(TOther "event_id_t", "event_id"); (TOther "event_threshold_t", "event_threshold")]
    [(TOther "event_id_t", "event_id"); (TOther "event_threshold_t", "event_threshold")]
    []
    [].

Definition create_urr_class : pfcp_class := mk_pfcp_class
    [("urr_id", (Pair, TElement Eurr_id)); ("measurement_method", (Pair, TOther "measurement_method_t"));
     ("reporting_triggers", (Pair, TElement Ereporting_triggers));
     ("measurement_period", (Pair, TOther "measurement_period_t"));
     ("volume_threshold", (Pair, TElement Evolume_threshold)); ("volume_quota", (Pair, TOther "volume_quota_t"));
     ("time_threshold", (Pair, TElement Etime_threshold)); ("time_quota", (Pair, TOther "time_quota_t"));
     ("quota_holding_time", (Pair, TOther "quota_holding_time_t"));
     ("dropped_dl_traffic_threshold", (Pair, TOther "dropped_dl_traffic_threshold_t"));
     ("monitoring_time", (Pair, TElement Emonitoring_time));
     ("event_information", (Pair, TOther "event_information"));
     ("subsequent_volume_threshold", (Pair, TElement Esubsequent_volume_threshold));
     ("subsequent_time_threshold", (Pair, TElement Esubsequent_time_threshold));
     ("subsequent_volume_quota", (Pair, TOther "subsequent_volume_quota_t"));
     ("subsequent_time_quota", (Pair, TOther "subsequent_time_quota_t"));
     ("inactivity_detection_time", (Pair, TElement Einactivity_detection_time));
     ("linked_urr_id", (Pair, TOther "linked_urr_id_t"));
     ("measurement_information", (Pair, TOther "measurement_information_t"));
     ("time_quota_mechanism", (Pair, TOther "time_quota_mechanism_t"));
     ("aggregated_urrs", (Pair, TOther "aggregated_urrs")); ("far_id_for_quota_action", (Pair, TElement Efar_id));
     ("ethernet_inactivity_timer", (Pair, TOther "ethernet_inactivity_timer_t"));
     ("additional_monitoring_time", (Pair, TOther "additional_monitoring_time"))]
    [(TElement Eurr_id, "urr_id"); (TOther "measurement_method_t", "measurement_method");
     (TElement Ereporting_triggers, "reporting_triggers"); (TOther "measurement_period_t", "measurement_period");
     (TElement Evolume_threshold, "volume_threshold"); (TOther "volume_quota_t", "volume_quota");
     (TElement Etime_threshold, "time_threshold"); (TOther "time_quota_t", "time_quota");
     (TOther "quota_holding_time_t", "quota_holding_time");
     (TOther "dropped_dl_traffic_threshold_t", "dropped_dl_traffic_threshold");
     (TElement Emonitoring_time, "monitoring_time"); (TOther "event_information", "event_information");
     (TElement Esubsequent_volume_threshold, "subsequent_volume_threshold");
     (TElement Esubsequent_time_threshold, "subsequent_time_threshold");
     (TOther "subsequent_volume_quota_t", "subsequent_volume_quota");
     (TOther "subsequent_time_quota_t", "subsequent_time_quota");
     (TElement Einactivity_detection_time, "inactivity_detection_time"); (TOther "linked_urr_id_t", "linked_urr_id");
     (TOther "measurement_information_t", "measurement_information");
     (TOther "time_quota_mechanism_t", "time_quota_mechanism"); (TOther "aggregated_urrs", "aggregated_urrs");
     (TElement Efar_id, "far_id_for_quota_action");
     (TOther "ethernet_inactivity_timer_t", "ethernet_inactivity_timer");
     (TOther "additional_monitoring_time", "additional_monitoring_time")]
    [(TElement Eurr_id, "urr_id"); (TOther "measurement_method_t", "measurement_method");
     (TElement Ereporting_triggers, "reporting_triggers"); (TOther "measurement_period_t", "measurement_period");
     (TElement Evolume_threshold, "volume_threshold"); (TOther "volume_quota_t", "volume_quota");
     (TElement Etime_threshold, "time_threshold"); (TOther "time_quota_t", "time_quota");
     (TOther "quota_holding_time_t", "quota_holding_time");
     (TOther "dropped_dl_traffic_threshold_t", "dropped_dl_traffic_threshold");
     (TElement Emonitoring_time, "monitoring_time"); (TOther "event_information", "event_information");
     (TElement Esubsequent_volume_threshold, "subsequent_volume_threshold");
     (TElement Esubsequent_time_threshold, "subsequent_time_threshold");
     (TOther "subsequent_volume_quota_t", "subsequent_volume_quota");
     (TOther "subsequent_time_quota_t", "subsequent_time_quota");
     (TElement Einactivity_detection_time, "inactivity_detection_time"); (TOther "linked_urr_id_t", "linked_urr_id");
     (TOther "measurement_information_t", "measurement_information");
     (TOther "time_quota_mechanism_t", "time_quota_mechanism"); (TOther "aggregated_urrs", "aggregated_urrs");
     (TElement Efar_id, "far_id_for_quota_action");
     (TOther "ethernet_inactivity_timer_t", "ethernet_inactivity_timer");
     (TOther "additional_monitoring_time", "additional_monitoring_time")]
    []
    [].

Definition create_qer_class : pfcp_class := mk_pfcp_class
    [("qer_id", (Pair, TElement Eqer_id)); ("qer_correlation_id", (Pair, TElement Eqer_correlation_id));
     ("gate_status", (Pair, TElement Egate_status)); ("maximum_bitrate", (Pair, TElement Embr));
     ("guaranteed_bitrate", (Pair, TElement Egbr)); ("packet_rate", (Pair, TOther "packet_rate_t"));
     ("dl_flow_level_marking", (Pair, TOther "dl_flow_level_marking_t"));
     ("qos_flow_identifier", (Pair, TElement Eqfi)); ("reflective_qos", (Pair, TOther "rqi_t"))]
    [(TElement Eqer_id, "qer_id"); (TElement Eqer_correlation_id, "qer_correlation_id");
     (TElement Egate_status, "gate_status"); (TElement Embr, "maximum_bitrate");
     (TElement Egbr, "guaranteed_bitrate"); (TOther "packet_rate_t", "packet_rate");
     (TOther "dl_flow_level_marking_t", "dl_flow_level_marking"); (TElement Eqfi, "qos_flow_identifier");
     (TOther "rqi_t", "reflective_qos")]
    [(TElement Eqer_id, "qer_id"); (TElement Eqer_correlation_id, "qer_correlation_id");
     (TElement Egate_status, "gate_status"); (TElement Embr, "maximum_bitrate");
     (TElement Egbr, "guaranteed_bitrate"); (TOther "packet_rate_t", "packet_rate");
     (TOther "dl_flow_level_marking_t", "dl_flow_level_marking"); (TElement Eqfi, "qos_flow_identifier");
     (TOther "rqi_t", "reflective_qos")]
    []
    [].

Definition create_bar_class : pfcp_class := mk_pfcp_class
    [("bar_id", (Pair, TElement Ebar_id));
     ("downlink_data_notification_delay", (Pair, TOther "downlink_data_notification_delay_t"));
     ("suggested_buffering_packets_count", (Pair, TOther "suggested_buffering_packets_count_t"))]
    [(TElement Ebar_id, "bar_id"); (TOther "downlink_data_notification_delay_t", "downlink_data_notification_delay");
     (TOther "suggested_buffering_packets_count_t", "suggested_buffering_packets_count")]
    [(TElement Ebar_id, "bar_id"); (TOther "downlink_data_notification_delay_t", "downlink_data_notification_delay");
     (TOther "suggested_buffering_packets_count_t", "suggested_buffering_packets_count")]
    []
    [].

Definition create_traffic_endpoint_class : pfcp_class := mk_pfcp_class
    [("traffic_endpoint_id", (Pair, TOther "traffic_endpoint_id_t")); ("local_fteid", (Pair, TElement Efteid));
     ("network_instance", (Pair, TElement Enetwork_instance)); ("ue_ip_address", (Pair, TElement Eue_ip_address));
     ("ethernet_pdu_session_information", (Pair, TOther "ethernet_pdu_session_information_t"));
     ("framed_route", (Pair, TOther "framed_route_t")); ("framed_routing", (Pair, TOther "framed_routing_t"));
     ("framed_ipv6_route", (Pair, TOther "framed_ipv6_route_t"))]
    [(TOther "traffic_endpoint_id_t", "traffic_endpoint_id"); (TElement Efteid, "local_fteid");
     (TElement Enetwork_instance, "network_instance"); (TElement Eue_ip_address, "ue_ip_address");
     (TOther "ethernet_pdu_session_information_t", "ethernet_pdu_session_information");
     (TOther "framed_route_t", "framed_route"); (TOther "framed_routing_t", "framed_routing");
     (TOther "framed_ipv6_route_t", "framed_ipv6_route")]
    [(TOther "traffic_endpoint_id_t", "traffic_endpoint_id"); (TElement Efteid, "local_fteid");
     (TElement Enetwork_instance, "network_instance"); (TElement Eue_ip_address, "ue_ip_address");
     (TOther "ethernet_pdu_session_information_t", "ethernet_pdu_session_information");
     (TOther "framed_route_t", "framed_route"); (TOther "framed_routing_t", "framed_routing");
     (TOther "framed_ipv6_route_t", "framed_ipv6_route")]
    []
    [].

Definition created_pdr_class : pfcp_class := mk_pfcp_class
    [("pdr_id", (Pair, TElement Epdr_id)); ("local_fteid", (Pair, TElement Efteid))]
    [(TElement Epdr_id, "pdr_id"); (TElement Efteid, "local_fteid")]
    [(TElement Epdr_id, "pdr_id"); (TElement Efteid, "local_fteid")]
    []
    [].

Definition load_control_information_class : pfcp_class := mk_pfcp_class
    [("load_control_sequence_number", (Pair, TOther "sequence_number_t")); ("load_metric", (Pair, TOther "metric_t"))]
    [(TOther "sequence_number_t", "load_control_sequence_number"); (TOther "metric_t", "load_metric")]
    [(TOther "sequence_number_t", "load_control_sequence_number"); (TOther "metric_t", "load_metric")]
    []
    [].

Definition overload_control_information_class : pfcp_class := mk_pfcp_class
    [("overload_control_sequence_number", (Pair, TOther "sequence_number_t"));
     ("overload_reduction_metric", (Pair, TOther "metric_t")); ("period_of_validity", (Pair, TOther "timer_t"));
     ("overload_control_information_flags", (Pair, TOther "oci_flags_t"))]
    [(TOther "sequence_number_t", "overload_control_sequence_number");
     (TOther "metric_t", "overload_reduction_metric"); (TOther "timer_t", "period_of_validity");
     (TOther "oci_flags_t", "overload_control_information_flags")]
    [(TOther "sequence_number_t", "overload_control_sequence_number");
     (TOther "metric_t", "overload_reduction_metric"); (TOther "timer_t", "period_of_validity");
     (TOther "oci_flags_t", "overload_control_information_flags")]
    []
    [].

Definition update_pdr_class : pfcp_class := mk_pfcp_class
    [("pdr_id", (Plain, TElement Epdr_id)); ("outer_header_removal", (Pair, TElement Eouter_header_removal));
     ("precedence", (Pair, TElement Eprecedence)); ("pdi", (Pair, TGroup Gpdi)); ("far_id", (Pair, TElement Efar_id));
     ("urr_id", (Pair, TElement Eurr_id)); ("qer_id", (Pair, TElement Eqer_id));
     ("activate_predefined_rules", (Vector, TElement Eactivate_predefined_rules));
     ("deactivate_predefined_rules", (Vector, TElement Edeactivate_predefined_rules))]
    [(TElement Epdr_id, "pdr_id"); (TElement Eouter_header_removal, "outer_header_removal");
     (TElement Eprecedence, "precedence"); (TGroup Gpdi, "pdi"); (TElement Efar_id, "far_id");
     (TElement Eurr_id, "urr_id"); (TElement Eqer_id, "qer_id");
     (TElement Eactivate_predefined_rules, "activate_predefined_rules");
     (TElement Edeactivate_predefined_rules, "deactivate_predefined_rules")]
    [(TElement Epdr_id, "pdr_id"); (TElement Eouter_header_removal, "outer_header_removal");
     (TElement Eprecedence, "precedence"); (TGroup Gpdi, "pdi"); (TElement Efar_id, "far_id");
     (TElement Eurr_id, "urr_id"); (TElement Eqer_id, "qer_id")]
    []
    [].

Definition update_far_class : pfcp_class := mk_pfcp_class
    [("far_id", (Plain, TElement Efar_id)); ("apply_action", (Pair, TElement Eapply_action));
     ("update_forwarding_parameters", (Pair, TGroup Gupdate_forwarding_parameters));
     ("update_duplicating_parameters", (Pair, TOther "update_duplicating_parameters"));
     ("bar_id", (Pair, TElement Ebar_id))]
    [(TElement Efar_id, "far_id"); (TElement Eapply_action, "apply_action");
     (TGroup Gupdate_forwarding_parameters, "update_forwarding_parameters");
     (TOther "update_duplicating_parameters", "update_duplicating_parameters"); (TElement Ebar_id, "bar_id")]
    [(TElement Efar_id, "far_id"); (TElement Eapply_action, "apply_action");
     (TGroup Gupdate_forwarding_parameters, "update_forwarding_parameters");
     (TOther "update_duplicating_parameters", "update_duplicating_parameters"); (TElement Ebar_id, "bar_id")]
    []
    [].

Definition update_urr_class : pfcp_class := mk_pfcp_class
    [("urr_id", (Pair, TElement Eurr_id)); ("measurement_method", (Pair, TOther "measurement_method_t"));
     ("reporting_triggers", (Pair, TElement Ereporting_triggers));
     ("measurement_period", (Pair, TOther "measurement_period_t"));
     ("volume_threshold", (Pair, TElement Evolume_threshold)); ("volume_quota", (Pair, TOther "volume_quota_t"));
     ("time_threshold", (Pair, TElement Etime_threshold)); ("time_quota", (Pair, TOther "time_quota_t"));
     ("quota_holding_time", (Pair, TOther "quota_holding_time_t"));
     ("dropped_dl_traffic_threshold", (Pair, TOther "dropped_dl_traffic_threshold_t"));
     ("monitoring_time", (Pair, TElement Emonitoring_time));
     ("event_information", (Pair, TOther "event_information"));
     ("subsequent_volume_threshold", (Pair, TElement Esubsequent_volume_threshold));
     ("subsequent_time_threshold", (Pair, TElement Esubsequent_time_threshold));
     ("subsequent_volume_quota", (Pair, TOther "subsequent_volume_quota_t"));
     ("subsequent_time_quota", (Pair, TOther "subsequent_time_quota_t"));
     ("inactivity_detection_time", (Pair, TElement Einactivity_detection_time));
     ("linked_urr_id", (Pair, TOther "linked_urr_id_t"));
     ("measurement_information", (Pair, TOther "measurement_information_t"));
     ("time_quota_mechanism", (Pair, TOther "time_quota_mechanism_t"));
     ("aggregated_urrs", (Pair, TOther "aggregated_urrs")); ("far_id_for_quota_action", (Pair, TElement Efar_id));
     ("ethernet_inactivity_timer", (Pair, TOther "ethernet_inactivity_timer_t"));
     ("additional_monitoring_time", (Pair, TOther "additional_monitoring_time"))]
    [(TElement Eurr_id, "urr_id"); (TOther "measurement_method_t", "measurement_method");
     (TElement Ereporting_triggers, "reporting_triggers"); (TOther "measurement_period_t", "measurement_period");
     (TElement Evolume_threshold, "volume_threshold"); (TOther "volume_quota_t", "volume_quota");
     (TElement Etime_threshold, "time_threshold"); (TOther "time_quota_t", "time_quota");
     (TOther "quota_holding_time_t", "quota_holding_time");
     (TOther "dropped_dl_traffic_threshold_t", "dropped_dl_traffic_threshold");
     (TElement Emonitoring_time, "monitoring_time"); (TOther "event_information", "event_information");
     (TElement Esubsequent_volume_threshold, "subsequent_volume_threshold");
     (TElement Esubsequent_time_threshold, "subsequent_time_threshold");
     (TOther "subsequent_volume_quota_t", "subsequent_volume_quota");
     (TOther "subsequent_time_quota_t", "subsequent_time_quota");
     (TElement Einactivity_detection_time, "inactivity_detection_time"); (TOther "linked_urr_id_t", "linked_urr_id");
     (TOther "measurement_information_t", "measurement_information");
     (TOther "time_quota_mechanism_t", "time_quota_mechanism"); (TOther "aggregated_urrs", "aggregated_urrs");
     (TElement Efar_id, "far_id_for_quota_action");
     (TOther "ethernet_inactivity_timer_t", "ethernet_inactivity_timer");
     (TOther "additional_monitoring_time", "additional_monitoring_time")]
    [(TElement Eurr_id, "urr_id"); (TOther "measurement_method_t", "measurement_method");
     (TElement Ereporting_triggers, "reporting_triggers"); (TOther "measurement_period_t", "measurement_period");
     (TElement Evolume_threshold, "volume_threshold"); (TOther "volume_quota_t", "volume_quota");
     (TElement Etime_threshold, "time_threshold"); (TOther "time_quota_t", "time_quota");
     (TOther "quota_holding_time_t", "quota_holding_time");
     (TOther "dropped_dl_traffic_threshold_t", "dropped_dl_traffic_threshold");
     (TElement Emonitoring_time, "monitoring_time"); (TOther "event_information", "event_information");
     (TElement Esubsequent_volume_threshold, "subsequent_volume_threshold");
     (TElement Esubsequent_time_threshold, "subsequent_time_threshold");
     (TOther "subsequent_volume_quota_t", "subsequent_volume_quota");
     (TOther "subsequent_time_quota_t", "subsequent_time_quota");
     (TElement Einactivity_detection_time, "inactivity_detection_time"); (TOther "linked_urr_id_t", "linked_urr_id");
     (TOther "measurement_information_t", "measurement_information");
     (TOther "time_quota_mechanism_t", "time_quota_mechanism"); (TOther "aggregated_urrs", "aggregated_urrs");
     (TElement Efar_id, "far_id_for_quota_action");
     (TOther "ethernet_inactivity_timer_t", "ethernet_inactivity_timer");
     (TOther "additional_monitoring_time", "additional_monitoring_time")]
    []
    [].

Definition update_qer_class : pfcp_class := mk_pfcp_class
    [("qer_id", (Pair, TElement Eqer_id)); ("qer_correlation_id", (Pair, TElement Eqer_correlation_id));
     ("gate_status", (Pair, TElement Egate_status)); ("maximum_bitrate", (Pair, TElement Embr));
     ("guaranteed_bitrate", (Pair, TElement Egbr)); ("packet_rate", (Pair, TOther "packet_rate_t"));
     ("dl_flow_level_marking", (Pair, TOther "dl_flow_level_marking_t"));
     ("qos_flow_identifier", (Pair, TElement Eqfi)); ("reflective_qos", (Pair, TOther "rqi_t"))]
    [(TElement Eqer_id, "qer_id"); (TElement Eqer_correlation_id, "qer_correlation_id");
     (TElement Egate_status, "gate_status"); (TElement Embr, "maximum_bitrate");
     (TElement Egbr, "guaranteed_bitrate"); (TOther "packet_rate_t", "packet_rate");
     (TOther "dl_flow_level_marking_t", "dl_flow_level_marking"); (TElement Eqfi, "qos_flow_identifier");
     (TOther "rqi_t", "reflective_qos")]
    [(TElement Eqer_id, "qer_id"); (TElement Eqer_correlation_id, "qer_correlation_id");
     (TElement Egate_status, "gate_status"); (TElement Embr, "maximum_bitrate");
     (TElement Egbr, "guaranteed_bitrate"); (TOther "packet_rate_t", "packet_rate");
     (TOther "dl_flow_level_marking_t", "dl_flow_level_marking"); (TElement Eqfi, "qos_flow_identifier");
     (TOther "rqi_t", "reflective_qos")]
    []
    [].

Definition remove_pdr_class : pfcp_class := mk_pfcp_class
    [("pdr_id", (Pair, TElement Epdr_id))]
    [(TElement Epdr_id, "pdr_id")]
    [(TElement Epdr_id, "pdr_id")]
    []
    [].

Definition remove_far_class : pfcp_class := mk_pfcp_class
    [("far_id", (Pair, TElement Efar_id))]
    [(TElement Efar_id, "far_id")]
    [(TElement Efar_id, "far_id")]
    []
    [].

Definition remove_urr_class : pfcp_class := mk_pfcp_class
    [("urr_id", (Pair, TElement Eurr_id))]
    [(TElement Eurr_id, "urr_id")]
    [(TElement Eurr_id, "urr_id")]
    []
    [].

Definition remove_qer_class : pfcp_class := mk_pfcp_class
    [("qer_id", (Pair, TElement Eqer_id))]
    [(TElement Eqer_id, "qer_id")]
    [(TElement Eqer_id, "qer_id")]
    []
    [].

Definition query_urr_class : pfcp_class := mk_pfcp_class
    [("urr_id", (Pair, TElement Eurr_id))]
    [(TElement Eurr_id, "urr_id")]
    [(TElement Eurr_id, "urr_id")]
    []
    [].

Definition update_bar_within_pfcp_session_modification_request_class : pfcp_class := mk_pfcp_class
    [("bar_id", (Pair, TElement Ebar_id));
     ("downlink_data_notification_delay", (Pair, TOther "downlink_data_notification_delay_t"));
     ("suggested_buffering_packets_count", (Pair, TOther "suggested_buffering_packets_count_t"))]
    [(TElement Ebar_id, "bar_id"); (TOther "downlink_data_notification_delay_t", "downlink_data_notification_delay");
     (TOther "suggested_buffering_packets_count_t", "suggested_buffering_packets_count")]
    [(TElement Ebar_id, "bar_id"); (TOther "downlink_data_notification_delay_t", "downlink_data_notification_delay");
     (TOther "suggested_buffering_packets_count_t", "suggested_buffering_packets_count")]
    []
    [].

Definition remove_bar_class : pfcp_class := mk_pfcp_class
    [("bar_id", (Pair, TElement Ebar_id))]
    [(TElement Ebar_id, "bar_id")]
    [(TElement Ebar_id, "bar_id")]
    []
    [].

Definition created_traffic_endpoint_class : pfcp_class := mk_pfcp_class
    [("traffic_endpoint_id", (Pair, TOther "traffic_endpoint_id_t")); ("local_fteid", (Pair, TElement Efteid))]
    [(TOther "traffic_endpoint_id_t", "traffic_endpoint_id"); (TElement Efteid, "local_fteid")]
    [(TOther "traffic_endpoint_id_t", "traffic_endpoint_id"); (TElement Efteid, "local_fteid")]
    []
    [].

Definition update_traffic_endpoint_class : pfcp_class := mk_pfcp_class
    [("traffic_endpoint_id", (Pair, TOther "traffic_endpoint_id_t")); ("local_fteid", (Pair, TElement Efteid));
     ("network_instance", (Pair, TElement Enetwork_instance)); ("ue_ip_address", (Pair, TElement Eue_ip_address));
     ("framed_route", (Pair, TOther "framed_route_t")); ("framed_routing", (Pair, TOther "framed_routing_t"));
     ("framed_ipv6_route", (Pair, TOther "framed_ipv6_route_t"))]
    [(TOther "traffic_endpoint_id_t", "traffic_endpoint_id"); (TElement Efteid, "local_fteid");
     (TElement Enetwork_instance, "network_instance"); (TElement Eue_ip_address, "ue_ip_address");
     (TOther "framed_route_t", "framed_route"); (TOther "framed_routing_t", "framed_routing");
     (TOther "framed_ipv6_route_t", "framed_ipv6_route")]
    [(TOther "traffic_endpoint_id_t", "traffic_endpoint_id"); (TElement Efteid, "local_fteid");
     (TElement Enetwork_instance, "network_instance"); (TElement Eue_ip_address, "ue_ip_address");
     (TOther "framed_route_t", "framed_route"); (TOther "framed_routing_t", "framed_routing");
     (TOther "framed_ipv6_route_t", "framed_ipv6_route")]
    []
    [].

Definition remove_traffic_endpoint_class : pfcp_class := mk_pfcp_class
    [("traffic_endpoint_id", (Pair, TOther "traffic_endpoint_id_t"))]
    [(TOther "traffic_endpoint_id_t", "traffic_endpoint_id")]
    [(TOther "traffic_endpoint_id_t", "traffic_endpoint_id")]
    []
    [].

Definition ethernet_traffic_information_class : pfcp_class := mk_pfcp_class
    [("mac_addresses_detected", (Pair, TOther "mac_addresses_detected_t"));
     ("mac_addresses_removed", (Pair, TOther "mac_addresses_removed_t"))]
    [(TOther "mac_addresses_detected_t", "mac_addresses_detected");
     (TOther "mac_addresses_removed_t", "mac_addresses_removed")]
    [(TOther "mac_addresses_detected_t", "mac_addresses_detected");
     (TOther "mac_addresses_removed_t", "mac_addresses_removed")]
    []
    [].

Definition usage_report_within_pfcp_session_modification_response_class : pfcp_class := mk_pfcp_class
    [("urr_id", (Pair, TElement Eurr_id)); ("ur_seqn", (Pair, TOther "ur_seqn_t"));
     ("usage_report_trigger", (Pair, TOther "usage_report_trigger_t")); ("start_time", (Pair, TOther "start_time_t"));
     ("end_time", (Pair, TOther "end_time_t")); ("volume_measurement", (Pair, TOther "volume_measurement_t"));
     ("duration_measurement", (Pair, TOther "duration_measurement_t"));
     ("time_of_first_packet", (Pair, TOther "time_of_first_packet_t"));
     ("time_of_last_packet", (Pair, TOther "time_of_last_packet_t"));
     ("usage_information", (Pair, TOther "usage_information_t"));
     ("query_urr_reference", (Pair, TOther "query_urr_reference_t"));
     ("ethernet_traffic_information", (Pair, TOther "ethernet_traffic_information"))]
    [(TElement Eurr_id, "urr_id"); (TOther "ur_seqn_t", "ur_seqn");
     (TOther "usage_report_trigger_t", "usage_report_trigger"); (TOther "start_time_t", "start_time");
     (TOther "end_time_t", "end_time"); (TOther "volume_measurement_t", "volume_measurement");
     (TOther "duration_measurement_t", "duration_measurement");
     (TOther "time_of_first_packet_t", "time_of_first_packet");
     (TOther "time_of_last_packet_t", "time_of_last_packet"); (TOther "usage_information_t", "usage_information");
     (TOther "query_urr_reference_t", "query_urr_reference");
     (TOther "ethernet_traffic_information", "ethernet_traffic_information")]
    [(TElement Eurr_id, "urr_id"); (TOther "ur_seqn_t", "ur_seqn");
     (TOther "usage_report_trigger_t", "usage_report_trigger"); (TOther "start_time_t", "start_time");
     (TOther "end_time_t", "end_time"); (TOther "volume_measurement_t", "volume_measurement");
     (TOther "duration_measurement_t", "duration_measurement");
     (TOther "time_of_first_packet_t", "time_of_first_packet");
     (TOther "time_of_last_packet_t", "time_of_last_packet"); (TOther "usage_information_t", "usage_information");
     (TOther "query_urr_reference_t", "query_urr_reference");
     (TOther "ethernet_traffic_information", "ethernet_traffic_information")]
    []
    [].

Definition usage_report_within_pfcp_session_deletion_response_class : pfcp_class := mk_pfcp_class
    [("urr_id", (Pair, TElement Eurr_id)); ("ur_seqn", (Pair, TOther "ur_seqn_t"));
     ("usage_report_trigger", (Pair, TOther "usage_report_trigger_t")); ("start_time", (Pair, TOther "start_time_t"));
     ("end_time", (Pair, TOther "end_time_t")); ("volume_measurement", (Pair, TOther "volume_measurement_t"));
     ("duration_measurement", (Pair, TOther "duration_measurement_t"));
     ("time_of_first_packet", (Pair, TOther "time_of_first_packet_t"));
     ("time_of_last_packet", (Pair, TOther "time_of_last_packet_t"));
     ("usage_information", (Pair, TOther "usage_information_t"));
     ("ethernet_traffic_information", (Pair, TOther "ethernet_traffic_information"))]
    [(TElement Eurr_id, "urr_id"); (TOther "ur_seqn_t", "ur_seqn");
     (TOther "usage_report_trigger_t", "usage_report_trigger"); (TOther "start_time_t", "start_time");
     (TOther "end_time_t", "end_time"); (TOther "volume_measurement_t", "volume_measurement");
     (TOther "duration_measurement_t", "duration_measurement");
     (TOther "time_of_first_packet_t", "time_of_first_packet");
     (TOther "time_of_last_packet_t", "time_of_last_packet"); (TOther "usage_information_t", "usage_information");
     (TOther "ethernet_traffic_information", "ethernet_traffic_information")]
    [(TElement Eurr_id, "urr_id"); (TOther "ur_seqn_t", "ur_seqn");
     (TOther "usage_report_trigger_t", "usage_report_trigger"); (TOther "start_time_t", "start_time");
     (TOther "end_time_t", "end_time"); (TOther "volume_measurement_t", "volume_measurement");
     (TOther "duration_measurement_t", "duration_measurement");
     (TOther "time_of_first_packet_t", "time_of_first_packet");
     (TOther "time_of_last_packet_t", "time_of_last_packet"); (TOther "usage_information_t", "usage_information");
     (TOther "ethernet_traffic_information", "ethernet_traffic_information")]
    []
    [].

Definition downlink_data_report_class : pfcp_class := mk_pfcp_class
    [("pdr_id", (Pair, TElement Epdr_id));
     ("downlink_data_service_information", (Pair, TOther "downlink_data_service_information_t"))]
    [(TElement Epdr_id, "pdr_id"); (TOther "downlink_data_service_information_t", "downlink_data_service_information")]
    [(TElement Epdr_id, "pdr_id"); (TOther "downlink_data_service_information_t", "downlink_data_service_information")]
    []
    [].

Definition application_detection_information_class : pfcp_class := mk_pfcp_class
    [("application_id", (Pair, TElement Eapplication_id));
     ("application_instance_id", (Pair, TOther "application_instance_id_t"));
     ("flow_information", (Pair, TOther "flow_information_t"))]
    [(TElement Eapplication_id, "application_id"); (TOther "application_instance_id_t", "application_instance_id");
     (TOther "flow_information_t", "flow_information")]
    [(TElement Eapplication_id, "application_id"); (TOther "application_instance_id_t", "application_instance_id");
     (TOther "flow_information_t", "flow_information")]
    []
    [].

Definition event_reporting_class : pfcp_class := mk_pfcp_class
    [("event_id", (Pair, TOther "event_id_t"))]
    [(TOther "event_id_t", "event_id")]
    [(TOther "event_id_t", "event_id")]
    []
    [].

Definition usage_report_within_pfcp_session_report_request_class : pfcp_class := mk_pfcp_class
    [("urr_id", (Pair, TElement Eurr_id)); ("ur_seqn", (Pair, TOther "ur_seqn_t"));
     ("usage_report_trigger", (Pair, TOther "usage_report_trigger_t")); ("start_time", (Pair, TOther "start_time_t"));
     ("end_time", (Pair, TOther "end_time_t")); ("volume_measurement", (Pair, TOther "volume_measurement_t"));
     ("duration_measurement", (Pair, TOther "duration_measurement_t"));
     ("application_detection_information", (Pair, TOther "application_detection_information"));
     ("ue_ip_address", (Pair, TElement Eue_ip_address)); ("network_instance", (Pair, TElement Enetwork_instance));
     ("time_of_first_packet", (Pair, TOther "time_of_first_packet_t"));
     ("time_of_last_packet", (Pair, TOther "time_of_last_packet_t"));
     ("usage_information", (Pair, TOther "usage_information_t"));
     ("query_urr_reference", (Pair, TOther "query_urr_reference_t"));
     ("event_reporting", (Pair, TOther "event_reporting"));
     ("ethernet_traffic_information", (Pair, TOther "ethernet_traffic_information"))]
    [(TElement Eurr_id, "urr_id"); (TOther "ur_seqn_t", "ur_seqn");
     (TOther "usage_report_trigger_t", "usage_report_trigger"); (TOther "start_time_t", "start_time");
     (TOther "end_time_t", "end_time"); (TOther "volume_measurement_t", "volume_measurement");
     (TOther "duration_measurement_t", "duration_measurement");
     (TOther "application_detection_information", "application_detection_information");
     (TElement Eue_ip_address, "ue_ip_address"); (TElement Enetwork_instance, "network_instance");
     (TOther "time_of_first_packet_t", "time_of_first_packet");
     (TOther "time_of_last_packet_t", "time_of_last_packet"); (TOther "usage_information_t", "usage_information");
     (TOther "query_urr_reference_t", "query_urr_reference"); (TOther "event_reporting", "event_reporting");
     (TOther "ethernet_traffic_information", "ethernet_traffic_information")]
    [(TElement Eurr_id, "urr_id"); (TOther "ur_seqn_t", "ur_seqn");
     (TOther "usage_report_trigger_t", "usage_report_trigger"); (TOther "start_time_t", "start_time");
     (TOther "end_time_t", "end_time"); (TOther "volume_measurement_t", "volume_measurement");
     (TOther "duration_measurement_t", "duration_measurement");
     (TOther "application_detection_information", "application_detection_information");
     (TElement Eue_ip_address, "ue_ip_address"); (TElement Enetwork_instance, "network_instance");
     (TOther "time_of_first_packet_t", "time_of_first_packet");
     (TOther "time_of_last_packet_t", "time_of_last_packet"); (TOther "usage_information_t", "usage_information");
     (TOther "query_urr_reference_t", "query_urr_reference"); (TOther "event_reporting", "event_reporting");
     (TOther "ethernet_traffic_information", "ethernet_traffic_information")]
    []
    [].

Definition error_indication_report_class : pfcp_class := mk_pfcp_class
    [("remote_fteid", (Pair, TElement Efteid))]
    [(TElement Efteid, "remote_fteid")]
    [(TElement Efteid, "remote_fteid")]
    []
    [].

Definition update_bar_within_pfcp_session_report_response_class : pfcp_class := mk_pfcp_class
    [("bar_id", (Pair, TElement Ebar_id));
     ("downlink_data_notification_delay", (Pair, TOther "downlink_data_notification_delay_t"));
     ("dl_buffering_duration", (Pair, TOther "dl_buffering_duration_t"));
     ("dl_buffering_buffering_suggested_packet_count", (Pair, TOther "dl_buffering_suggested_packet_count_t"));
     ("suggested_buffering_packets_count", (Pair, TOther "suggested_buffering_packets_count_t"))]
    [(TElement Ebar_id, "bar_id"); (TOther "downlink_data_notification_delay_t", "downlink_data_notification_delay");
     (TOther "dl_buffering_duration_t", "dl_buffering_duration");
     (TOther "dl_buffering_suggested_packet_count_t", "dl_buffering_buffering_suggested_packet_count");
     (TOther "suggested_buffering_packets_count_t", "suggested_buffering_packets_count")]
    [(TElement Ebar_id, "bar_id"); (TOther "downlink_data_notification_delay_t", "downlink_data_notification_delay");
     (TOther "dl_buffering_duration_t", "dl_buffering_duration");
     (TOther "dl_buffering_suggested_packet_count_t", "dl_buffering_buffering_suggested_packet_count");
     (TOther "suggested_buffering_packets_count_t", "suggested_buffering_packets_count")]
    []
    [].

Definition pfcp_heartbeat_request_class : pfcp_class := mk_pfcp_class
    [("recovery_time_stamp", (Pair, TElement Erecovery_time_stamp))]
    [(TElement Erecovery_time_stamp, "recovery_time_stamp")]
    [(TElement Erecovery_time_stamp, "recovery_time_stamp")]
    []
    [].

Definition pfcp_heartbeat_response_class : pfcp_class := mk_pfcp_class
    [("recovery_time_stamp", (Pair, TElement Erecovery_time_stamp))]
    [(TElement Erecovery_time_stamp, "recovery_time_stamp")]
    [(TElement Erecovery_time_stamp, "recovery_time_stamp")]
    []
    [].

Definition pfcp_pfd_management_request_class : pfcp_class := mk_pfcp_class
    [("application_ids_pfds", (Pair, TOther "application_ids_pfds"))]
    [(TOther "application_ids_pfds", "application_ids_pfds")]
    [(TOther "application_ids_pfds", "application_ids_pfds")]
    []
    [].

Definition pfcp_pfd_management_response_class : pfcp_class := mk_pfcp_class
    [("cause", (Pair, TElement Ecause)); ("offending_ie", (Pair, TElement Eoffending_ie))]
    [(TElement Ecause, "cause"); (TElement Eoffending_ie, "offending_ie")]
    [(TElement Ecause, "cause"); (TElement Eoffending_ie, "offending_ie")]
    []
    [].

Definition pfcp_association_setup_request_class : pfcp_class := mk_pfcp_class
    [("node_id", (Pair, TElement Enode_id)); ("recovery_time_stamp", (Pair, TElement Erecovery_time_stamp));
     ("up_function_features", (Pair, TElement Eup_function_features));
     ("cp_function_features", (Pair, TElement Ecp_function_features));
     ("user_plane_ip_resource_information", (Pair, TElement Euser_plane_ip_resource_information))]
    [(TElement Enode_id, "node_id"); (TElement Erecovery_time_stamp, "recovery_time_stamp");
     (TElement Eup_function_features, "up_function_features");
     (TElement Ecp_function_features, "cp_function_features");
     (TElement Euser_plane_ip_resource_information, "user_plane_ip_resource_information")]
    [(TElement Enode_id, "node_id"); (TElement Erecovery_time_stamp, "recovery_time_stamp");
     (TElement Eup_function_features, "up_function_features");
     (TElement Ecp_function_features, "cp_function_features");
     (TElement Euser_plane_ip_resource_information, "user_plane_ip_resource_information")]
    []
    [].

Definition pfcp_association_setup_response_class : pfcp_class := mk_pfcp_class
    [("node_id", (Pair, TElement Enode_id)); ("cause", (Pair, TElement Ecause));
     ("recovery_time_stamp", (Pair, TElement Erecovery_time_stamp));
     ("up_function_features", (Pair, TElement Eup_function_features));
     ("cp_function_features", (Pair, TElement Ecp_function_features));
     ("user_plane_ip_resource_information", (Pair, TElement Euser_plane_ip_resource_information))]
    [(TElement Enode_id, "node_id"); (TElement Ecause, "cause");
     (TElement Erecovery_time_stamp, "recovery_time_stamp"); (TElement Eup_function_features, "up_function_features");
     (TElement Ecp_function_features, "cp_function_features");
     (TElement Euser_plane_ip_resource_information, "user_plane_ip_resource_information")]
    [(TElement Enode_id, "node_id"); (TElement Ecause, "cause");
     (TElement Erecovery_time_stamp, "recovery_time_stamp"); (TElement Eup_function_features, "up_function_features");
     (TElement Ecp_function_features, "cp_function_features");
     (TElement Euser_plane_ip_resource_information, "user_plane_ip_resource_information")]
    []
    [].

Definition pfcp_association_update_request_class : pfcp_class := mk_pfcp_class
    [("node_id", (Pair, TElement Enode_id)); ("up_function_features", (Pair, TElement Eup_function_features));
     ("cp_function_features", (Pair, TElement Ecp_function_features));
     ("pfcp_association_release_request", (Pair, TOther "pfcp_association_release_request_t"));
     ("graceful_release_period", (Pair, TOther "graceful_release_period_t"));
     ("user_plane_ip_resource_information", (Pair, TElement Euser_plane_ip_resource_information))]
    [(TElement Enode_id, "node_id"); (TElement Eup_function_features, "up_function_features");
     (TElement Ecp_function_features, "cp_function_features");
     (TOther "pfcp_association_release_request_t", "pfcp_association_release_request");
     (TOther "graceful_release_period_t", "graceful_release_period");
     (TElement Euser_plane_ip_resource_information, "user_plane_ip_resource_information")]
    [(TElement Enode_id, "node_id"); (TElement Eup_function_features, "up_function_features");
     (TElement Ecp_function_features, "cp_function_features");
     (TOther "pfcp_association_release_request_t", "pfcp_association_release_request");
     (TOther "graceful_release_period_t", "graceful_release_period");
     (TElement Euser_plane_ip_resource_information, "user_plane_ip_resource_information")]
    []
    [].

Definition pfcp_association_update_response_class : pfcp_class := mk_pfcp_class
    [("node_id", (Pair, TElement Enode_id)); ("cause", (Pair, TElement Ecause));
     ("up_function_features", (Pair, TElement Eup_function_features));
     ("cp_function_features", (Pair, TElement Ecp_function_features))]
    [(TElement Enode_id, "node_id"); (TElement Ecause, "cause");
     (TElement Eup_function_features, "up_function_features");
     (TElement Ecp_function_features, "cp_function_features")]
    [(TElement Enode_id, "node_id"); (TElement Ecause, "cause");
     (TElement Eup_function_features, "up_function_features");
     (TElement Ecp_function_features, "cp_function_features")]
    []
    [].

Definition pfcp_association_release_request_class : pfcp_class := mk_pfcp_class
    [("node_id", (Pair, TElement Enode_id))]
    [(TElement Enode_id, "node_id")]
    [(TElement Enode_id, "node_id")]
    []
    [].

Definition pfcp_association_release_response_class : pfcp_class := mk_pfcp_class
    [("node_id", (Pair, TElement Enode_id)); ("cause", (Pair, TElement Ecause))]
    [(TElement Enode_id, "node_id"); (TElement Ecause, "cause")]
    [(TElement Enode_id, "node_id"); (TElement Ecause, "cause")]
    []
    [].

Definition pfcp_version_not_supported_response_class : pfcp_class := mk_pfcp_class
    []
    []
    []
    []
    [].

Definition pfcp_node_report_request_class : pfcp_class := mk_pfcp_class
    [("node_id", (Pair, TElement Enode_id)); ("node_report_type", (Pair, TElement Enode_report_type));
     ("user_plane_path_failure_report", (Pair, TOther "user_plane_path_failure_report"))]
    [(TElement Enode_id, "node_id"); (TElement Enode_report_type, "node_report_type");
     (TOther "user_plane_path_failure_report", "user_plane_path_failure_report")]
    [(TElement Enode_id, "node_id"); (TElement Enode_report_type, "node_report_type");
     (TOther "user_plane_path_failure_report", "user_plane_path_failure_report")]
    []
    [].

Definition pfcp_node_report_response_class : pfcp_class := mk_pfcp_class
    [("node_id", (Pair, TElement Enode_id)); ("cause", (Pair, TElement Ecause));
     ("offending_ie", (Pair, TElement Eoffending_ie))]
    [(TElement Enode_id, "node_id"); (TElement Ecause, "cause"); (TElement Eoffending_ie, "offending_ie")]
    [(TElement Enode_id, "node_id"); (TElement Ecause, "cause"); (TElement Eoffending_ie, "offending_ie")]
    []
    [].

Definition pfcp_session_set_deletion_request_class : pfcp_class := mk_pfcp_class
    [("node_id", (Pair, TElement Enode_id)); ("sgw_c_fq_csid", (Pair, TOther "fq_csid_t"));
     ("pgw_c_fq_csid", (Pair, TOther "fq_csid_t")); ("sgw_u_fq_csid", (Pair, TOther "fq_csid_t"));
     ("pgw_u_fq_csid", (Pair, TOther "fq_csid_t")); ("twan_fq_csid", (Pair, TOther "fq_csid_t"));
     ("epdg_fq_csid", (Pair, TOther "fq_csid_t")); ("mme_fq_csid", (Pair, TOther "fq_csid_t"))]
    [(TElement Enode_id, "node_id")]
    [(TElement Enode_id, "node_id")]
    [("sgw_c_fq_csid", "sgw_c_fq_csid"); ("pgw_c_fq_csid", "pgw_c_fq_csid"); ("sgw_u_fq_csid", "sgw_u_fq_csid");
     ("pgw_u_fq_csid", "pgw_u_fq_csid"); ("twan_fq_csid", "twan_fq_csid"); ("epdg_fq_csid", "epdg_fq_csid");
     ("mme_fq_csid", "mme_fq_csid")]
    [("sgw_c_fq_csid", "sgw_c_fq_csid"); ("pgw_c_fq_csid", "pgw_c_fq_csid"); ("sgw_u_fq_csid", "sgw_u_fq_csid");
     ("pgw_u_fq_csid", "pgw_u_fq_csid"); ("twan_fq_csid", "twan_fq_csid"); ("epdg_fq_csid", "epdg_fq_csid");
     ("mme_fq_csid", "mme_fq_csid")].

Definition pfcp_session_set_deletion_response_class : pfcp_class := mk_pfcp_class
    [("node_id", (Pair, TElement Enode_id)); ("cause", (Pair, TElement Ecause));
     ("offending_ie", (Pair, TElement Eoffending_ie))]
    [(TElement Enode_id, "node_id"); (TElement Ecause, "cause"); (TElement Eoffending_ie, "offending_ie")]
    [(TElement Enode_id, "node_id"); (TElement Ecause, "cause"); (TElement Eoffending_ie, "offending_ie")]
    []
    [].

Definition pfcp_session_establishment_request_class : pfcp_class := mk_pfcp_class
    [("node_id", (Pair, TElement Enode_id)); ("cp_fseid", (Pair, TElement Ef_seid));
     ("create_pdrs", (Vector, TGroup Gcreate_pdr)); ("create_fars", (Vector, TGroup Gcreate_far));
     ("create_urrs", (Vector, TGroup Gcreate_urr)); ("create_qers", (Vector, TGroup Gcreate_qer));
     ("create_bar", (Pair, TOther "create_bar"));
     ("create_traffic_endpoint", (Pair, TGroup Gcreate_traffic_endpoint)); ("pdn_type", (Pair, TOther "pdn_type_t"));
     ("sgw_c_fq_csid", (Pair, TOther "fq_csid_t")); ("mme_fq_csid", (Pair, TOther "fq_csid_t"));
     ("pgw_c_fq_csid", (Pair, TOther "fq_csid_t")); ("epdg_fq_csid", (Pair, TOther "fq_csid_t"));
     ("twan_fq_csid", (Pair, TOther "fq_csid_t"));
     ("user_plane_inactivity_timer", (Pair, TElement Euser_plane_inactivity_timer));
     ("user_id", (Pair, TElement Euser_id)); ("trace_information", (Pair, TOther "trace_information_t"))]
    [(TElement Enode_id, "node_id"); (TElement Ef_seid, "cp_fseid"); (TGroup Gcreate_pdr, "create_pdrs");
     (TGroup Gcreate_far, "create_fars"); (TGroup Gcreate_urr, "create_urrs"); (TGroup Gcreate_qer, "create_qers");
     (TOther "create_bar", "create_bar"); (TElement Euser_plane_inactivity_timer, "user_plane_inactivity_timer");
     (TElement Euser_id, "user_id"); (TOther "trace_information_t", "trace_information")]
    [(TElement Enode_id, "node_id"); (TElement Ef_seid, "cp_fseid"); (TOther "create_bar", "create_bar");
     (TElement Euser_plane_inactivity_timer, "user_plane_inactivity_timer"); (TElement Euser_id, "user_id");
     (TOther "trace_information_t", "trace_information")]
    [("sgw_c_fq_csid", "sgw_c_fq_csid"); ("mme_fq_csid", "mme_fq_csid"); ("pgw_c_fq_csid", "pgw_c_fq_csid");
     ("epdg_fq_csid", "epdg_fq_csid"); ("twan_fq_csid", "twan_fq_csid")]
    [("sgw_c_fq_csid", "sgw_c_fq_csid"); ("mme_fq_csid", "mme_fq_csid"); ("pgw_c_fq_csid", "pgw_c_fq_csid");
     ("epdg_fq_csid", "epdg_fq_csid"); ("twan_fq_csid", "twan_fq_csid")].

Definition pfcp_session_establishment_response_class : pfcp_class := mk_pfcp_class
    [("node_id", (Pair, TElement Enode_id)); ("cause", (Pair, TElement Ecause));
     ("offending_ie", (Pair, TElement Eoffending_ie)); ("up_fseid", (Pair, TElement Ef_seid));
     ("created_pdrs", (Vector, TGroup Gcreated_pdr));
     ("load_control_information", (Pair, TOther "load_control_information"));
     ("overload_control_information", (Pair, TOther "overload_control_information"));
     ("sgw_u_fq_csid", (Pair, TOther "fq_csid_t")); ("pgw_u_fq_csid", (Pair, TOther "fq_csid_t"));
     ("failed_rule_id", (Pair, TElement Efailed_rule_id));
     ("created_traffic_endpoint", (Pair, TOther "created_traffic_endpoint"))]
    [(TElement Enode_id, "node_id"); (TElement Ecause, "cause"); (TElement Eoffending_ie, "offending_ie");
     (TElement Ef_seid, "up_fseid"); (TGroup Gcreated_pdr, "created_pdrs");
     (TOther "load_control_information", "load_control_information");
     (TOther "overload_control_information", "overload_control_information");
     (TElement Efailed_rule_id, "failed_rule_id"); (TOther "created_traffic_endpoint", "created_traffic_endpoint")]
    [(TElement Enode_id, "node_id"); (TElement Ecause, "cause"); (TElement Eoffending_ie, "offending_ie");
     (TElement Ef_seid, "up_fseid"); (TOther "load_control_information", "load_control_information");
     (TOther "overload_control_information", "overload_control_information");
     (TElement Efailed_rule_id, "failed_rule_id"); (TOther "created_traffic_endpoint", "created_traffic_endpoint")]
    [("sgw_u_fq_csid", "sgw_u_fq_csid"); ("pgw_u_fq_csid", "pgw_u_fq_csid")]
    [("sgw_u_fq_csid", "sgw_u_fq_csid"); ("pgw_u_fq_csid", "pgw_u_fq_csid")].

Definition pfcp_session_modification_request_class : pfcp_class := mk_pfcp_class
    [("cp_fseid", (Pair, TElement Ef_seid)); ("remove_pdrs", (Vector, TGroup Gremove_pdr));
     ("remove_fars", (Vector, TGroup Gremove_far)); ("remove_urrs", (Vector, TGroup Gremove_urr));
     ("remove_qers", (Vector, TGroup Gremove_qer)); ("remove_bar", (Pair, TOther "remove_bar"));
     ("remove_traffic_endpoint", (Pair, TOther "remove_traffic_endpoint"));
     ("create_pdrs", (Vector, TGroup Gcreate_pdr)); ("create_fars", (Vector, TGroup Gcreate_far));
     ("create_urrs", (Vector, TGroup Gcreate_urr)); ("create_qers", (Vector, TGroup Gcreate_qer));
     ("create_bar", (Pair, TOther "create_bar"));
     ("create_traffic_endpoint", (Pair, TGroup Gcreate_traffic_endpoint));
     ("update_pdrs", (Vector, TGroup Gupdate_pdr)); ("update_fars", (Vector, TGroup Gupdate_far));
     ("update_urrs", (Vector, TGroup Gupdate_urr)); ("update_qers", (Vector, TGroup Gupdate_qer));
     ("update_bar", (Pair, TOther "update_bar_within_pfcp_session_modification_request"));
     ("update_traffic_endpoint", (Pair, TOther "update_traffic_endpoint"));
     ("pfcpsmreq_flags", (Pair, TOther "pfcpsmreq_flags_t")); ("pgw_c_fq_csid", (Pair, TOther "fq_csid_t"));
     ("sgw_c_fq_csid", (Pair, TOther "fq_csid_t")); ("mme_fq_csid", (Pair, TOther "fq_csid_t"));
     ("epdg_fq_csid", (Pair, TOther "fq_csid_t")); ("twan_fq_csid", (Pair, TOther "fq_csid_t"));
     ("user_plane_inactivity_timer", (Pair, TElement Euser_plane_inactivity_timer));
     ("query_urr_reference", (Pair, TOther "query_urr_reference_t"));
     ("trace_information", (Pair, TOther "trace_information_t"))]
    [(TElement Ef_seid, "cp_fseid"); (TGroup Gremove_pdr, "remove_pdrs"); (TGroup Gremove_far, "remove_fars");
     (TGroup Gremove_urr, "remove_urrs"); (TGroup Gremove_qer, "remove_qers"); (TOther "remove_bar", "remove_bar");
     (TOther "remove_traffic_endpoint", "remove_traffic_endpoint"); (TGroup Gcreate_pdr, "create_pdrs");
     (TGroup Gcreate_far, "create_fars"); (TGroup Gcreate_urr, "create_urrs"); (TGroup Gcreate_qer, "create_qers");
     (TOther "create_bar", "create_bar"); (TGroup Gcreate_traffic_endpoint, "create_traffic_endpoint");
     (TGroup Gupdate_pdr, "update_pdrs"); (TGroup Gupdate_far, "update_fars"); (TGroup Gupdate_urr, "update_urrs");
     (TGroup Gupdate_qer, "update_qers");
     (TOther "update_bar_within_pfcp_session_modification_request", "update_bar");
     (TOther "update_traffic_endpoint", "update_traffic_endpoint"); (TOther "pfcpsmreq_flags_t", "pfcpsmreq_flags");
     (TElement Euser_plane_inactivity_timer, "user_plane_inactivity_timer");
     (TOther "query_urr_reference_t", "query_urr_reference"); (TOther "trace_information_t", "trace_information")]
    [(TElement Ef_seid, "cp_fseid"); (TOther "remove_bar", "remove_bar");
     (TOther "remove_traffic_endpoint", "remove_traffic_endpoint"); (TOther "create_bar", "create_bar");
     (TGroup Gcreate_traffic_endpoint, "create_traffic_endpoint");
     (TOther "update_bar_within_pfcp_session_modification_request", "update_bar");
     (TOther "update_traffic_endpoint", "update_traffic_endpoint"); (TOther "pfcpsmreq_flags_t", "pfcpsmreq_flags");
     (TElement Euser_plane_inactivity_timer, "user_plane_inactivity_timer");
     (TOther "query_urr_reference_t", "query_urr_reference"); (TOther "trace_information_t", "trace_information")]
    [("pgw_c_fq_csid", "pgw_c_fq_csid"); ("sgw_c_fq_csid", "sgw_c_fq_csid"); ("mme_fq_csid", "mme_fq_csid");
     ("epdg_fq_csid", "epdg_fq_csid"); ("twan_fq_csid", "twan_fq_csid")]
    [("pgw_c_fq_csid", "pgw_c_fq_csid"); ("sgw_c_fq_csid", "sgw_c_fq_csid"); ("mme_fq_csid", "mme_fq_csid");
     ("epdg_fq_csid", "epdg_fq_csid"); ("twan_fq_csid", "twan_fq_csid")].

Definition pfcp_session_modification_response_class : pfcp_class := mk_pfcp_class
    [("cause", (Pair, TElement Ecause)); ("offending_ie", (Pair, TElement Eoffending_ie));
     ("created_pdrs", (Vector, TGroup Gcreated_pdr));
     ("load_control_information", (Pair, TOther "load_control_information"));
     ("overload_control_information", (Pair, TOther "overload_control_information"));
     ("usage_report", (Pair, TOther "usage_report_within_pfcp_session_modification_response"));
     ("failed_rule_id", (Pair, TElement Efailed_rule_id));
     ("additional_usage_reports_information", (Pair, TOther "additional_usage_reports_information_t"));
     ("created_traffic_endpoint", (Pair, TOther "created_traffic_endpoint"))]
    [(TElement Ecause, "cause"); (TElement Eoffending_ie, "offending_ie"); (TGroup Gcreated_pdr, "created_pdrs");
     (TOther "load_control_information", "load_control_information");
     (TOther "overload_control_information", "overload_control_information");
     (TOther "usage_report_within_pfcp_session_modification_response", "usage_report");
     (TElement Efailed_rule_id, "failed_rule_id");
     (TOther "additional_usage_reports_information_t", "additional_usage_reports_information");
     (TOther "created_traffic_endpoint", "created_traffic_endpoint")]
    [(TElement Ecause, "cause"); (TElement Eoffending_ie, "offending_ie");
     (TOther "load_control_information", "load_control_information");
     (TOther "overload_control_information", "overload_control_information");
     (TOther "usage_report_within_pfcp_session_modification_response", "usage_report");
     (TElement Efailed_rule_id, "failed_rule_id");
     (TOther "additional_usage_reports_information_t", "additional_usage_reports_information");
     (TOther "created_traffic_endpoint", "created_traffic_endpoint")]
    []
    [].

Definition pfcp_session_deletion_request_class : pfcp_class := mk_pfcp_class
    []
    []
    []
    []
    [].

Definition pfcp_session_deletion_response_class : pfcp_class := mk_pfcp_class
    [("cause", (Pair, TElement Ecause)); ("offending_ie", (Pair, TElement Eoffending_ie))]
    [(TElement Ecause, "cause"); (TElement Eoffending_ie, "offending_ie")]
    [(TElement Ecause, "cause"); (TElement Eoffending_ie, "offending_ie")]
    []
    [].

Definition pfcp_session_report_request_class : pfcp_class := mk_pfcp_class
    [("report_type", (Pair, TElement Ereport_type)); ("downlink_data_report", (Pair, TGroup Gdownlink_data_report));
     ("usage_report", (Pair, TOther "usage_report_within_pfcp_session_report_request"));
     ("error_indication_report", (Pair, TOther "error_indication_report"));
     ("load_control_information", (Pair, TOther "load_control_information"));
     ("overload_control_information", (Pair, TOther "overload_control_information"));
     ("additional_usage_reports_information", (Pair, TOther "additional_usage_reports_information_t"))]
    [(TElement Ereport_type, "report_type"); (TGroup Gdownlink_data_report, "downlink_data_report");
     (TOther "usage_report_within_pfcp_session_report_request", "usage_report");
     (TOther "error_indication_report", "error_indication_report");
     (TOther "load_control_information", "load_control_information");
     (TOther "overload_control_information", "overload_control_information");
     (TOther "additional_usage_reports_information_t", "additional_usage_reports_information")]
    [(TElement Ereport_type, "report_type"); (TGroup Gdownlink_data_report, "downlink_data_report");
     (TOther "usage_report_within_pfcp_session_report_request", "usage_report");
     (TOther "error_indication_report", "error_indication_report");
     (TOther "load_control_information", "load_control_information");
     (TOther "overload_control_information", "overload_control_information");
     (TOther "additional_usage_reports_information_t", "additional_usage_reports_information")]
    []
    [].

Definition pfcp_session_report_response_class : pfcp_class := mk_pfcp_class
    [("cause", (Pair, TElement Ecause)); ("offending_ie", (Pair, TElement Eoffending_ie));
     ("update_bar", (Pair, TGroup Gupdate_bar_within_pfcp_session_report_response))]
    [(TElement Ecause, "cause"); (TElement Eoffending_ie, "offending_ie");
     (TGroup Gupdate_bar_within_pfcp_session_report_response, "update_bar")]
    [(TElement Ecause, "cause"); (TElement Eoffending_ie, "offending_ie");
     (TGroup Gupdate_bar_within_pfcp_session_report_response, "update_bar")]
    []
    [].

(** The element type in the exception of the overload of [pfcp_ies_container], for
    the types without an element class. *)
Definition other_ie_types : list (string * Z) :=
  [("update_bar_within_pfcp_session_modification_request", 86); ("redirect_information_t", 38);
   ("downlink_data_service_information_t", 45); ("downlink_data_notification_delay_t", 46);
   ("dl_buffering_duration_t", 47); ("dl_buffering_suggested_packet_count_t", 48); ("pfcpsmreq_flags_t", 49);
   ("pfcpsrrsp_flags_t", 50); ("load_control_information", 51); ("sequence_number_t", 52); ("metric_t", 53);
   ("overload_control_information", 54); ("timer_t", 55); ("application_ids_pfds", 58); ("pfd", 59);
   ("pfd_contents_t", 61); ("measurement_method_t", 62); ("usage_report_trigger_t", 63); ("measurement_period_t", 64);
   ("fq_csid_t", 65); ("volume_measurement_t", 66); ("duration_measurement_t", 67);
   ("application_detection_information", 68); ("time_of_first_packet_t", 69); ("time_of_last_packet_t", 70);
   ("quota_holding_time_t", 71); ("dropped_dl_traffic_threshold_t", 72); ("volume_quota_t", 73); ("time_quota_t", 74);
   ("start_time_t", 75); ("end_time_t", 76); ("query_urr", 77);
   ("usage_report_within_pfcp_session_modification_response", 78);
   ("usage_report_within_pfcp_session_deletion_response", 79);
   ("usage_report_within_pfcp_session_report_request", 80); ("linked_urr_id_t", 82); ("create_bar", 85);
   ("remove_bar", 87); ("usage_information_t", 90); ("application_instance_id_t", 91); ("flow_information_t", 92);
   ("packet_rate_t", 94); ("dl_flow_level_marking_t", 97); ("header_enrichment_t", 98);
   ("error_indication_report", 99); ("measurement_information_t", 100); ("user_plane_path_failure_report", 102);
   ("remote_gtp_u_peer_t", 103); ("ur_seqn_t", 104); ("update_duplicating_parameters", 105); ("oci_flags_t", 110);
   ("pfcp_association_release_request_t", 111); ("graceful_release_period_t", 112); ("pdn_type_t", 113);
   ("time_quota_mechanism_t", 115); ("aggregated_urrs", 118); ("multiplier_t", 119); ("aggregated_urr_id_t", 120);
   ("subsequent_volume_quota_t", 121); ("subsequent_time_quota_t", 122); ("rqi_t", 123);
   ("query_urr_reference_t", 125); ("additional_usage_reports_information_t", 126); ("created_traffic_endpoint", 128);
   ("update_traffic_endpoint", 129); ("remove_traffic_endpoint", 130); ("traffic_endpoint_id_t", 131);
   ("ethernet_packet_filter", 132); ("mac_address_t", 133); ("c_tag_t", 134); ("s_tag_t", 135); ("ethertype_t", 136);
   ("proxying_t", 137); ("ethernet_filter_id_t", 138); ("ethernet_filter_properties_t", 139);
   ("suggested_buffering_packets_count_t", 140); ("ethernet_pdu_session_information_t", 142);
   ("ethernet_traffic_information", 143); ("mac_addresses_detected_t", 144); ("mac_addresses_removed_t", 145);
   ("ethernet_inactivity_timer_t", 146); ("additional_monitoring_time", 147); ("event_information", 148);
   ("event_reporting", 149); ("event_id_t", 150); ("event_threshold_t", 151); ("trace_information_t", 152);
   ("framed_route_t", 153); ("framed_routing_t", 154); ("framed_ipv6_route_t", 155)].

Definition group_class (g : group) : pfcp_class :=
  match g with
  | Gcreate_pdr => create_pdr_class
  | Gpdi => pdi_class
  | Gcreate_far => create_far_class
  | Gforwarding_parameters => forwarding_parameters_class
  | Gduplicating_parameters => duplicating_parameters_class
  | Gcreate_urr => create_urr_class
  | Gcreate_qer => create_qer_class
  | Gcreated_pdr => created_pdr_class
  | Gupdate_pdr => update_pdr_class
  | Gupdate_far => update_far_class
  | Gupdate_forwarding_parameters => update_forwarding_parameters_class
  | Gupdate_bar_within_pfcp_session_report_response => update_bar_within_pfcp_session_report_response_class
  | Gupdate_urr => update_urr_class
  | Gupdate_qer => update_qer_class
  | Gremove_pdr => remove_pdr_class
  | Gremove_far => remove_far_class
  | Gremove_urr => remove_urr_class
  | Gremove_qer => remove_qer_class
  | Gdownlink_data_report => downlink_data_report_class
  | Gcreate_traffic_endpoint => create_traffic_endpoint_class
  end.

(** The members the constructor of a grouped element adds elements for, in order. *)
Definition create_pdr_rows : list string :=
    ["pdr_id"; "precedence"; "pdi"; "outer_header_removal"; "far_id"; "urr_id"; "qer_id";
     "activate_predefined_rules"].
Definition pdi_rows : list string :=
    ["source_interface"; "local_fteid"; "network_instance"; "ue_ip_address"; "sdf_filter"; "application_id"; "qfi"].
Definition create_far_rows : list string :=
    ["far_id"; "apply_action"; "forwarding_parameters"; "duplicating_parameters"; "bar_id"].
Definition forwarding_parameters_rows : list string :=
    ["destination_interface"; "network_instance"; "outer_header_creation"; "transport_level_marking";
     "forwarding_policy"].
Definition duplicating_parameters_rows : list string := [].
Definition create_urr_rows : list string := [].
Definition create_qer_rows : list string := [].
Definition created_pdr_rows : list string := ["pdr_id"; "local_fteid"].
Definition update_pdr_rows : list string := [].
Definition update_far_rows : list string := ["far_id"; "apply_action"; "update_forwarding_parameters"; "bar_id"].
Definition update_forwarding_parameters_rows : list string :=
    ["destination_interface"; "network_instance"; "outer_header_creation"; "transport_level_marking";
     "forwarding_policy"].
Definition update_bar_within_pfcp_session_report_response_rows : list string := [].
Definition update_urr_rows : list string := [].
Definition update_qer_rows : list string := [].
Definition remove_pdr_rows : list string := ["pdr_id"].
Definition remove_far_rows : list string := ["far_id"].
Definition remove_urr_rows : list string := [].
Definition remove_qer_rows : list string := [].
Definition downlink_data_report_rows : list string := ["pdr_id"].
Definition create_traffic_endpoint_rows : list string := [].

Definition group_rows (g : group) : list string :=
  match g with
  | Gcreate_pdr => create_pdr_rows
  | Gpdi => pdi_rows
  | Gcreate_far => create_far_rows
  | Gforwarding_parameters => forwarding_parameters_rows
  | Gduplicating_parameters => duplicating_parameters_rows
  | Gcreate_urr => create_urr_rows
  | Gcreate_qer => create_qer_rows
  | Gcreated_pdr => created_pdr_rows
  | Gupdate_pdr => update_pdr_rows
  | Gupdate_far => update_far_rows
  | Gupdate_forwarding_parameters => update_forwarding_parameters_rows
  | Gupdate_bar_within_pfcp_session_report_response => update_bar_within_pfcp_session_report_response_rows
  | Gupdate_urr => update_urr_rows
  | Gupdate_qer => update_qer_rows
  | Gremove_pdr => remove_pdr_rows
  | Gremove_far => remove_far_rows
  | Gremove_urr => remove_urr_rows
  | Gremove_qer => remove_qer_rows
  | Gdownlink_data_report => downlink_data_report_rows
  | Gcreate_traffic_endpoint => create_traffic_endpoint_rows
  end.

(** ** The constructors of the messages *)
Definition pfcp_heartbeat_request_message : pfcp_message := mk_pfcp_message PFCP_HEARTBEAT_REQUEST pfcp_heartbeat_request_class
    ["recovery_time_stamp"].

Definition pfcp_heartbeat_response_message : pfcp_message := mk_pfcp_message PFCP_HEARTBEAT_RESPONSE pfcp_heartbeat_response_class
    ["recovery_time_stamp"].

Definition pfcp_association_setup_request_message : pfcp_message := mk_pfcp_message PFCP_ASSOCIATION_SETUP_REQUEST pfcp_association_setup_request_class
    ["node_id"; "recovery_time_stamp"; "up_function_features"; "cp_function_features";
     "user_plane_ip_resource_information"].

Definition pfcp_association_setup_response_message : pfcp_message := mk_pfcp_message PFCP_ASSOCIATION_SETUP_RESPONSE pfcp_association_setup_response_class
    ["node_id"; "cause"; "recovery_time_stamp"; "up_function_features"; "cp_function_features";
     "user_plane_ip_resource_information"].

Definition pfcp_association_release_request_message : pfcp_message := mk_pfcp_message PFCP_ASSOCIATION_RELEASE_REQUEST pfcp_association_release_request_class
    ["node_id"].

Definition pfcp_association_release_response_message : pfcp_message := mk_pfcp_message PFCP_ASSOCIATION_RELEASE_RESPONSE pfcp_association_release_response_class
    ["node_id"; "cause"].

Definition pfcp_node_report_request_message : pfcp_message := mk_pfcp_message PFCP_NODE_REPORT_REQUEST pfcp_node_report_request_class
    ["node_id"; "node_report_type"].

Definition pfcp_session_establishment_request_message : pfcp_message := mk_pfcp_message PFCP_SESSION_ESTABLISHMENT_REQUEST pfcp_session_establishment_request_class
    ["node_id"; "cp_fseid"; "create_pdrs"; "create_fars"; "create_urrs"; "create_qers"; "create_traffic_endpoint";
     "user_plane_inactivity_timer"; "user_id"].

Definition pfcp_session_establishment_response_message : pfcp_message := mk_pfcp_message PFCP_SESSION_ESTABLISHMENT_RESPONSE pfcp_session_establishment_response_class
    ["node_id"; "cause"; "offending_ie"; "up_fseid"; "created_pdrs"; "failed_rule_id"].

Definition pfcp_session_modification_request_message : pfcp_message := mk_pfcp_message PFCP_SESSION_MODIFICATION_REQUEST pfcp_session_modification_request_class
    ["cp_fseid"; "remove_pdrs"; "remove_fars"; "remove_urrs"; "remove_qers"; "create_pdrs"; "create_fars";
     "create_urrs"; "create_qers"; "create_traffic_endpoint"; "update_pdrs"; "update_fars"; "update_urrs";
     "update_qers"; "user_plane_inactivity_timer"].

Definition pfcp_session_modification_response_message : pfcp_message := mk_pfcp_message PFCP_SESSION_MODIFICATION_RESPONSE pfcp_session_modification_response_class
    ["cause"; "offending_ie"; "created_pdrs"; "failed_rule_id"].

Definition pfcp_session_deletion_request_message : pfcp_message := mk_pfcp_message PFCP_SESSION_DELETION_REQUEST pfcp_session_deletion_request_class
    [].

Definition pfcp_session_deletion_response_message : pfcp_message := mk_pfcp_message PFCP_SESSION_DELETION_RESPONSE pfcp_session_deletion_response_class
    ["cause"; "offending_ie"].

Definition pfcp_session_report_request_message : pfcp_message := mk_pfcp_message PFCP_SESSION_REPORT_REQUEST pfcp_session_report_request_class
    ["report_type"; "downlink_data_report"].

Definition pfcp_session_report_response_message : pfcp_message := mk_pfcp_message PFCP_SESSION_REPORT_RESPONSE pfcp_session_report_response_class
    ["cause"; "offending_ie"].

Definition pfcp_messages : list pfcp_message :=
  [pfcp_heartbeat_request_message; pfcp_heartbeat_response_message; pfcp_association_setup_request_message;
   pfcp_association_setup_response_message; pfcp_association_release_request_message;
   pfcp_association_release_response_message; pfcp_node_report_request_message;
   pfcp_session_establishment_request_message; pfcp_session_establishment_response_message;
   pfcp_session_modification_request_message; pfcp_session_modification_response_message;
   pfcp_session_deletion_request_message; pfcp_session_deletion_response_message; pfcp_session_report_request_message;
   pfcp_session_report_response_message].
