(* ===== verification/PfcpContainer.v ===== *)
(** * The PFCP containers

    The operations of the classes of [src/pfcp/msg_pfcp.hpp], interpreting the
    tables of [PfcpTables], the conversion of received elements
    ([to_core_type] of the elements and of [pfcp_msg]), and what a message
    becomes from the container of the sender to that of the receiver. *)
From S2P Require Import Prelude Stream GtpTlv PfcpNode PfcpTlv PfcpScalar PfcpElements PfcpTunnel PfcpFilters PfcpMsg PfcpStack PfcpIe PfcpLoad PfcpTables.
From Stdlib Require Import ZArith Lia String.
From stdpp Require Import base numbers tactics sets list strings.
Open Scope Z_scope.

Set Warnings "-register-all".

(** ** Values and objects *)
Section Values.
(** The values of the types without an element class, which no code here looks
    into. *)
Context {U : Type}.

Inductive pfcp_value :=
| VElement (e : element) (c : element_core e)
| VGroup (g : group) (o : string -> list pfcp_value)
| VOther (name : string) (u : U).

(** The values of each member: of a pair one when [first] is set, of a plain
    member one, of a vector all. *)
Definition pfcp_object := string -> list pfcp_value.

Definition type_of (v : pfcp_value) : ctype :=
  match v with
  | VElement e _ => TElement e
  | VGroup g _ => TGroup g
  | VOther name _ => TOther name
  end.

Section ValueInd.
Variable P : pfcp_value -> Prop.
Hypothesis P_element : forall e c, P (VElement e c).
Hypothesis P_group : forall g o, (forall n, Forall P (o n)) -> P (VGroup g o).
Hypothesis P_other : forall name u, P (VOther name u).

Fixpoint pfcp_value_nested_ind (v : pfcp_value) : P v :=
  match v with
  | VElement e c => P_element e c
  | VGroup g o =>
    P_group g o (fun n => (fix go l : Forall P l :=
      match l with [] => Forall_nil_2 P | v :: l => Forall_cons_2 P v l (pfcp_value_nested_ind v) (go l) end) (o n))
  | VOther name u => P_other name u
  end.
End ValueInd.

Definition assoc {K V} `{EqDecision K} (k : K) (l : list (K * V)) : option V :=
  snd <$> find (fun kv => bool_decide (kv.1 = k)) l.

(** A member without a pair or a vector is value-initialised. *)
Definition plain_init (t : ctype) : list pfcp_value :=
  match t with
  | TElement Epdr_id => [VElement Epdr_id (mk_pdr_id_t 0)]
  | TElement Efar_id => [VElement Efar_id (mk_far_id_t 0)]
  | _ => []                                         (* no plain member has another type *)
  end.

Definition object_init (c : pfcp_class) : pfcp_object := fun n =>
  match assoc n (cl_members c) with
  | Some (Plain, t) => plain_init t
  | _ => []
  end.

Definition member_set (c : pfcp_class) (n : string) (v : pfcp_value) (o : pfcp_object) : pfcp_object := fun m =>
  if String.eqb m n then
    match assoc n (cl_members c) with
    | Some (Vector, _) => o n ++ [v]
    | _ => [v]
    end
  else o m.

(** The overload of [pfcp_ies_container] throws. *)
Definition base_type (t : ctype) : Z :=
  match t with
  | TElement e => element_type e
  | TGroup g => group_type g
  | TOther name => default 0 (assoc name other_ie_types)
  end.

Definition object_set (c : pfcp_class) (v : pfcp_value) (o : pfcp_object) : result pfcp_exn pfcp_object :=
  match assoc (type_of v) (cl_set c) with
  | Some n => Val (member_set c n v o)
  | None => Throw (pfcp_msg_illegal_ie_exception 0 (base_type (type_of v)))
  end.

Definition object_get (c : pfcp_class) (t : ctype) (o : pfcp_object) : result pfcp_exn (option pfcp_value) :=
  match assoc t (cl_get c) with
  | Some n => Val (head (o n))
  | None => Throw (pfcp_msg_illegal_ie_exception 0 (base_type t))
  end.

(** [set_x] and [get_x]; [None]: there is no such method. *)
Definition object_named_set (c : pfcp_class) (x : string) (v : pfcp_value) (o : pfcp_object) : option pfcp_object :=
  n ← assoc x (cl_named_set c); Some (member_set c n v o).
Definition object_named_get (c : pfcp_class) (x : string) (o : pfcp_object) : option (option pfcp_value) :=
  n ← assoc x (cl_named_get c); Some (head (o n)).

(** [get(const far_id_t&, create_far&)] of the session requests: the first FAR
    with this id. *)
Definition get_create_far (fid : far_id_t) (o : pfcp_object) : option pfcp_value :=
  find (fun v =>
    match v with
    | VGroup Gcreate_far f =>
      match head (f "far_id") with
      | Some (VElement Efar_id c) => far_id_far_id fid =? far_id_far_id c
      | _ => false
      end
    | _ => false
    end) (o "create_fars").

(** [forwarding_parameters::update] and [duplicating_parameters::update]: the
    members that are set in the update. *)
Definition update_members (c : pfcp_class) (ns : list string) (u o : pfcp_object) : pfcp_object :=
  foldl (fun o n => match head (u n) with Some v => member_set c n v o | None => o end) o ns.

Definition forwarding_parameters_update (u o : pfcp_object) : pfcp_object :=
  update_members forwarding_parameters_class
    ["destination_interface"; "network_instance"; "outer_header_creation"; "transport_level_marking"; "forwarding_policy";
     "header_enrichment"; "linked_traffic_endpoint_id"] u o.
Definition duplicating_parameters_update (u o : pfcp_object) : pfcp_object :=
  update_members duplicating_parameters_class
    ["destination_interface"; "outer_header_creation"; "transport_level_marking"; "forwarding_policy"] u o.

(** ** To elements and back *)

(** The constructors of the elements; a value without an element class is in no
    row. *)
Fixpoint cores_of_value (v : pfcp_value) : list pfcp_core :=
  match v with
  | VElement e c => [CoreElement e c]
  | VGroup g o => [CoreGroup g (concat (map (fun n => concat (map cores_of_value (o n))) (group_rows g)))]
  | VOther _ _ => []
  end.

Definition cores_of_rows (rows : list string) (o : pfcp_object) : list pfcp_core :=
  concat (map (fun n => concat (map cores_of_value (o n))) rows).

(** [for (auto sie : ies) sie->to_core_type(c)] *)
Definition set_each (f : pfcp_core -> result pfcp_exn pfcp_value) (c : pfcp_class)
  : list pfcp_core -> pfcp_object -> result pfcp_exn pfcp_object :=
  fix go l o :=
    match l with
    | [] => Val o
    | x :: l => v ← f x; o ← object_set c v o; go l o
    end.

(** [pfcp_create_urr_ie] has no overload for [create_urr]: its [to_core_type]
    calls itself. *)
Definition to_core_recurs (g : group) : bool := bool_decide (g = Gcreate_urr).

Fixpoint value_of_core (c : pfcp_core) : result pfcp_exn pfcp_value :=
  match c with
  | CoreElement e c => Val (VElement e c)
  | CoreGroup g cs =>
    if to_core_recurs g then Diverge
    else o ← set_each value_of_core (group_class g) cs (object_init (group_class g)); Val (VGroup g o)
  end.

(** [pfcp_msg::to_core_type] into a new container. *)
Definition message_to_container (m : pfcp_message) (l : list pfcp_ie) : result pfcp_exn pfcp_object :=
  set_each value_of_core (msg_class m) (core_of_ie <$> l) (object_init (msg_class m)).
End Values.
Arguments pfcp_value : clear implicits.
Arguments pfcp_object : clear implicits.

(** ** The tables are sound *)
Definition class_sound (c : pfcp_class) : bool :=
  bool_decide (NoDup (cl_members c).*1) && bool_decide (NoDup (cl_set c).*1) &&
  forallb (fun tn => match assoc tn.2 (cl_members c) with Some (_, t) => bool_decide (t = tn.1) | None => false end) (cl_set c) &&
  forallb (fun tn => bool_decide (assoc tn.1 (cl_set c) = Some tn.2) &&
                     match assoc tn.2 (cl_members c) with Some (Vector, _) | None => false | _ => true end) (cl_get c).

(** The row of a constructor has a member, whose type is set in that member. *)
Definition row_sound (c : pfcp_class) (n : string) : bool :=
  match assoc n (cl_members c) with
  | Some (_, t) => bool_decide (assoc t (cl_set c) = Some n)
  | None => false
  end.

Lemma group_tables_sound g : class_sound (group_class g) = true /\ NoDup (group_rows g) /\ forallb (row_sound (group_class g)) (group_rows g) = true.
Proof. destruct g; (split; [vm_compute; reflexivity|]); (split; [apply (bool_decide_unpack _); vm_compute; exact I|vm_compute; reflexivity]). Qed.

(** All messages but one: the session establishment request cannot be given the
    traffic endpoint its constructor adds. *)
Lemma message_tables_sound m : m ∈ pfcp_messages ->
  class_sound (msg_class m) = true /\ NoDup (msg_rows m) /\
  forall n, n ∈ msg_rows m -> n <> "create_traffic_endpoint"%string -> row_sound (msg_class m) n = true.
Proof.
  intros H. assert (forallb (fun m => class_sound (msg_class m) && bool_decide (NoDup (msg_rows m)) &&
    forallb (fun n => bool_decide (n = "create_traffic_endpoint"%string) || row_sound (msg_class m) n) (msg_rows m)) pfcp_messages = true) as E
    by (vm_compute; reflexivity).
  rewrite forallb_forall in E. specialize (E m ltac:(by apply list_elem_of_In)).
  rewrite !andb_true_iff, bool_decide_eq_true, forallb_forall in E. destruct E as [[E1 E2] E3]. split_and!; [done|done|].
  intros n Hn Hne. specialize (E3 n ltac:(by apply list_elem_of_In)). rewrite bool_decide_eq_false_2 in E3 by done. done.
Qed.

Lemma establishment_endpoint_illegal : row_sound pfcp_session_establishment_request_class "create_traffic_endpoint" = false.
Proof. vm_compute. reflexivity. Qed.

(** ** [get] after [set] *)
Section Laws.
Context {U : Type}.
Implicit Types (v : pfcp_value U) (o p : pfcp_object U) (c : pfcp_class).

Lemma assoc_In {K V} `{EqDecision K} (k : K) (l : list (K * V)) x : assoc k l = Some x -> (k, x) ∈ l.
Proof.
  unfold assoc. destruct (find _ l) as [[k' y]|] eqn:E; [|done]. intros [= <-].
  apply find_some in E as [E Ek%bool_decide_eq_true]. simpl in Ek. subst. by apply list_elem_of_In.
Qed.

Lemma class_sound_get c t n : class_sound c = true -> assoc t (cl_get c) = Some n ->
  assoc t (cl_set c) = Some n /\ exists sh, assoc n (cl_members c) = Some (sh, t) /\ sh <> Vector.
Proof.
  unfold class_sound. rewrite !andb_true_iff, !forallb_forall. intros [[_ Hs] Hg] H%assoc_In.
  specialize (Hg _ ltac:(by apply list_elem_of_In)). rewrite andb_true_iff, bool_decide_eq_true in Hg. destruct Hg as [Hg Hv]. simpl in *.
  split; [done|]. apply assoc_In in Hg. specialize (Hs _ ltac:(by apply list_elem_of_In)). simpl in Hs.
  destruct (assoc n (cl_members c)) as [[[] t']|]; try done; apply bool_decide_eq_true in Hs; subst; by eexists.
Qed.

(** What was set is read, and no other member changes; a value of a type the
    class has no overload for is refused. *)
Theorem object_get_set c v o n :
  class_sound c = true -> assoc (type_of v) (cl_get c) = Some n ->
  exists o', object_set c v o = Val o' /\ object_get c (type_of v) o' = Val (Some v) /\
    forall t, t <> type_of v -> object_get c t o' = object_get c t o.
Proof.
  intros Hc Hg. destruct (class_sound_get c _ n Hc Hg) as (Hs & sh & Hm & Hv). exists (member_set c n v o).
  unfold object_set, object_get. rewrite Hs, Hg. split; [done|]. split.
  - unfold member_set. rewrite String.eqb_refl, Hm. by destruct sh.
  - intros t Ht. destruct (assoc t (cl_get c)) as [m|] eqn:Et; [|done]. destruct (class_sound_get c t m Hc Et) as (_ & sh' & Hm' & _).
    unfold member_set. destruct (String.eqb_spec m n) as [->|]; [|done]. rewrite Hm in Hm'. congruence.
Qed.

Lemma object_set_illegal c v o : assoc (type_of v) (cl_set c) = None ->
  object_set c v o = Throw (pfcp_msg_illegal_ie_exception 0 (base_type (type_of v))).
Proof. intros H. unfold object_set. by rewrite H. Qed.

(** ** From container to container *)

(** The values of a member agree with its declaration. *)
Definition member_ok c (n : string) (vs : list (pfcp_value U)) : Prop :=
  exists sh t, assoc n (cl_members c) = Some (sh, t) /\ Forall (fun v => type_of v = t) vs /\
    (vs <> [] -> assoc t (cl_set c) = Some n) /\
    match sh with Pair => (length vs <= 1)%nat | Plain => length vs = 1%nat | Vector => True end.

Inductive value_ok : pfcp_value U -> Prop :=
| value_ok_element e x : value_ok (VElement e x)
| value_ok_group g o :
    (forall n, n ∈ group_rows g -> member_ok (group_class g) n (o n)) ->
    (forall n, n ∈ group_rows g -> Forall value_ok (o n)) -> value_ok (VGroup g o).

(** What the receiver has of a value: the members without a row stay empty. *)
Inductive value_seen : pfcp_value U -> pfcp_value U -> Prop :=
| value_seen_element e x h : value_seen (VElement e x) (VElement e (element_seen e h x))
| value_seen_group g o p :
    (forall n, n ∈ group_rows g -> Forall2 value_seen (o n) (p n)) ->
    (forall n, n ∉ group_rows g -> p n = object_init (group_class g) n) -> value_seen (VGroup g o) (VGroup g p).

Lemma core_seen_inv x d : core_seen x d ->
  match x with
  | CoreElement e c => exists h, d = CoreElement e (element_seen e h c)
  | CoreGroup g cs => exists ds, d = CoreGroup g ds /\ Forall2 core_seen cs ds
  end.
Proof. destruct 1; eauto. Qed.

Lemma value_seen_type v w : value_seen v w -> type_of w = type_of v.
Proof. by destruct 1. Qed.

(** One value, received. *)
Definition received v : Prop := forall ds, Forall2 core_seen (cores_of_value v) ds ->
  exists d w, ds = [d] /\ value_of_core d = Val w /\ value_seen v w.

Lemma set_each_app (f : pfcp_core -> result pfcp_exn (pfcp_value U)) c l k o :
  set_each f c (l ++ k) o = (p ← set_each f c l o; set_each f c k p).
Proof.
  revert o. induction l as [|x l IH]; intros o; cbn [set_each app]; [done|]. destruct (f x); try done. cbn [mbind result_bind].
  destruct (object_set c a o); try done. cbn [mbind result_bind]. apply IH.
Qed.

Lemma set_each_values c t n ds (ws : list (pfcp_value U)) : Forall2 (fun d w => value_of_core d = Val w) ds ws ->
  Forall (fun w => type_of w = t) ws -> (ws <> [] -> assoc t (cl_set c) = Some n) ->
  forall o, set_each value_of_core c ds o = Val (foldl (fun o w => member_set c n w o) o ws).
Proof.
  induction 1 as [|d w ds ws Hd _ IH]; intros Ht Hn o; [done|]. inversion_clear Ht as [|? ? H1 H2]. cbn [set_each foldl].
  rewrite Hd. cbn [mbind result_bind]. unfold object_set at 1. rewrite H1, Hn by done. cbn [mbind result_bind].
  apply IH; [done|]. intros _. by apply Hn.
Qed.

Lemma foldl_member_other c n (ws : list (pfcp_value U)) m : m <> n -> forall o,
  foldl (fun o w => member_set c n w o) o ws m = o m.
Proof.
  intros Hm. induction ws as [|w ws IH]; intros o; [done|]. cbn [foldl]. rewrite IH. unfold member_set.
  by destruct (String.eqb_spec m n).
Qed.

Lemma foldl_member_same c n sh t (ws : list (pfcp_value U)) o : assoc n (cl_members c) = Some (sh, t) ->
  o n = object_init c n -> match sh with Pair => (length ws <= 1)%nat | Plain => length ws = 1%nat | Vector => True end ->
  foldl (fun o w => member_set c n w o) o ws n = ws.
Proof.
  intros Hm Ho Hs. unfold object_init in Ho. rewrite Hm in Ho. destruct sh.
  - destruct ws as [|w [|]]; simpl in Hs; [done| |lia]. simpl. unfold member_set. by rewrite String.eqb_refl, Hm.
  - destruct ws as [|w [|]]; try done. simpl. unfold member_set. by rewrite String.eqb_refl, Hm.
  - change ws with ([] ++ ws) at 2. rewrite <- Ho. clear Ho. revert o. induction ws as [|w ws IH]; intros o; [by rewrite app_nil_r|].
    cbn [foldl]. rewrite IH. unfold member_set at 1. rewrite String.eqb_refl, Hm. by rewrite <- app_assoc.
Qed.

Lemma values_received (vs : list (pfcp_value U)) : Forall received vs -> forall ds,
  Forall2 core_seen (concat (map cores_of_value vs)) ds ->
  exists ws, Forall2 (fun d w => value_of_core d = Val w) ds ws /\ Forall2 value_seen vs ws.
Proof.
  induction 1 as [|v vs Hv _ IH]; intros ds H; cbn [map concat] in H.
  - inversion H; subst. by exists [].
  - apply Forall2_app_inv_l in H as (d1 & d2 & H1 & H2 & ->). destruct (Hv d1 H1) as (d & w & -> & Ed & Hw).
    destruct (IH d2 H2) as (ws & Hws & Hvs). exists (w :: ws). split; by constructor.
Qed.

Lemma row_received c n (vs : list (pfcp_value U)) : member_ok c n vs -> Forall received vs -> forall ds,
  Forall2 core_seen (concat (map cores_of_value vs)) ds -> forall o, o n = object_init c n ->
  exists p, set_each value_of_core c ds o = Val p /\ Forall2 value_seen vs (p n) /\ forall m, m <> n -> p m = o m.
Proof.
  intros (sh & t & Hm & Ht & Hset & Hsh) Hr ds H o Ho. destruct (values_received vs Hr ds H) as (ws & Hws & Hvs).
  assert (Forall (fun w => type_of w = t) ws) as Htw.
  { clear -Hvs Ht. induction Hvs as [|v w vs ws Hvw _ IH]; [done|]. inversion_clear Ht. constructor; [|auto].
    apply value_seen_type in Hvw. congruence. }
  pose proof (Forall2_length _ _ _ Hvs) as Hlen.
  exists (foldl (fun o w => member_set c n w o) o ws). split; [|split].
  - eapply set_each_values; [done|done|]. intros Hne. apply Hset. intros ->. by destruct ws.
  - erewrite foldl_member_same; [done|done|done|]. destruct sh; try done; lia.
  - intros m Hmn. by apply foldl_member_other.
Qed.

Lemma rows_received c rows o : NoDup rows ->
  (forall n, n ∈ rows -> member_ok c n (o n)) -> (forall n, n ∈ rows -> Forall received (o n)) ->
  forall ds, Forall2 core_seen (cores_of_rows rows o) ds -> forall p, (forall n, n ∈ rows -> p n = object_init c n) ->
  exists q, set_each value_of_core c ds p = Val q /\
    (forall n, n ∈ rows -> Forall2 value_seen (o n) (q n)) /\ (forall n, n ∉ rows -> q n = p n).
Proof.
  intros Hnd Hm Hr. unfold cores_of_rows. induction rows as [|n rows IH]; intros ds H p Hp; cbn [map concat] in H.
  - inversion H; subst. exists p. split; [done|]. split; [set_solver|done].
  - apply NoDup_cons in Hnd as [Hn Hnd]. apply Forall2_app_inv_l in H as (d1 & d2 & H1 & H2 & ->).
    destruct (row_received c n (o n) (Hm n ltac:(constructor)) (Hr n ltac:(constructor)) d1 H1 p (Hp n ltac:(constructor))) as (p1 & E1 & S1 & O1).
    destruct (IH Hnd ltac:(intros; apply Hm; by constructor) ltac:(intros; apply Hr; by constructor) d2 H2 p1) as (q & E2 & S2 & O2).
    { intros m Hmr. rewrite O1 by (intros ->; done). apply Hp. by constructor. }
    exists q. rewrite set_each_app, E1. cbn [mbind result_bind]. split; [done|]. split.
    + intros m [->|Hmr]%elem_of_cons; [by rewrite O2|by apply S2].
    + intros m [Hne Hmr]%not_elem_of_cons. by rewrite O2, O1.
Qed.

Lemma Forall_concat_map {A B} (P : B -> Prop) (f : A -> list B) (l : list A) x :
  Forall P (concat (map f l)) -> x ∈ l -> Forall P (f x).
Proof. induction l as [|y l IH]; cbn [map concat]; [set_solver|]. intros [H1 H2]%Forall_app [->|Hx]%elem_of_cons; auto. Qed.

Lemma value_received v : value_ok v -> Forall core_ok (cores_of_value v) -> received v.
Proof.
  induction v as [e x|g o IH|name u] using pfcp_value_nested_ind; intros Hv Hok ds H; cbn [cores_of_value] in *.
  - inversion H as [|? d ? ? Hd Hnil]; subst. inversion Hnil; subst. apply core_seen_inv in Hd as [h ->].
    eexists _, _. split; [done|]. split; [done|]. constructor.
  - inversion H as [|? d ? ? Hd Hnil]; subst. inversion Hnil; subst. apply core_seen_inv in Hd as (ds & -> & Hds).
    apply Forall_inv in Hok. cbn [core_ok] in Hok. destruct Hok as (_ & Hne & Hok'%foldr_core_ok). fold (cores_of_rows (group_rows g) o) in *.
    inversion Hv as [|? ? Hm Hvs]; subst. destruct (group_tables_sound g) as (_ & Hnd & _).
    destruct (rows_received (group_class g) (group_rows g) o Hnd Hm) with (ds := ds) (p := object_init (U := U) (group_class g)) as (q & Eq & Sq & Oq); try done.
    { intros n Hn. specialize (IH n). specialize (Hvs n Hn). pose proof (Forall_concat_map _ _ _ n Hok' Hn) as Hc. simpl in Hc.
      apply Forall_forall. intros v Hin. rewrite Forall_forall in IH, Hvs. apply IH; [done|by apply Hvs|].
      exact (Forall_concat_map _ _ _ v Hc Hin). }
    eexists _, _. split; [done|]. cbn [value_of_core].
    replace (to_core_recurs g) with false by (destruct g; done). rewrite Eq. split; [done|]. by constructor.
  - inversion Hv.
Qed.
End Laws.

Lemma message_type_fits m : m ∈ pfcp_messages -> fits 8 (msg_type m).
Proof.
  intros H. assert (forallb (fun m => (0 <=? msg_type m) && (msg_type m <? 2 ^ 8)) pfcp_messages = true) as E by (vm_compute; reflexivity).
  rewrite forallb_forall in E. specialize (E m ltac:(by apply list_elem_of_In)). unfold fits. lia.
Qed.

(** ** A message, from the container of the sender to that of the receiver *)
Section EndToEnd.
Context {U : Type}.

(** A container whose members agree with their declarations, and whose elements
    are conveyed by their classes. *)
Definition container_ok (m : pfcp_message) (o : pfcp_object U) : Prop :=
  (forall n, n ∈ msg_rows m -> member_ok (msg_class m) n (o n)) /\
  (forall n, n ∈ msg_rows m -> Forall value_ok (o n)) /\
  Forall core_ok (cores_of_rows (msg_rows m) o).

(** What [pfcp_msg(const container&)] builds. *)
Definition message_of_container (mem dmem : memory) (m : pfcp_message) (o : pfcp_object U) : result pfcp_exn pfcp_msg :=
  pfcp_msg_of_cores mem dmem (msg_type m) (cores_of_rows (msg_rows m) o).

(** The container of the receiver: the members the constructor sends show what
    was sent, the others are as they were initialised. *)
Definition container_seen (m : pfcp_message) (o p : pfcp_object U) : Prop :=
  (forall n, n ∈ msg_rows m -> Forall2 value_seen (o n) (p n)) /\
  (forall n, n ∉ msg_rows m -> p n = object_init (msg_class m) n).

Lemma container_received (m : pfcp_message) (o : pfcp_object U) (js : list pfcp_ie) :
  m ∈ pfcp_messages -> container_ok m o -> Forall2 core_seen (cores_of_rows (msg_rows m) o) (core_of_ie <$> js) ->
  exists p, message_to_container m js = Val p /\ container_seen m o p.
Proof.
  intros Hm (Ho & Hv & Hok) Hjs. destruct (message_tables_sound m Hm) as (_ & Hnd & _).
  destruct (rows_received (msg_class m) (msg_rows m) o Hnd Ho) with (ds := core_of_ie <$> js) (p := object_init (U := U) (msg_class m))
    as (q & Eq & Sq & Oq); try done.
  { intros n Hn. pose proof (Forall_concat_map _ _ _ n Hok Hn) as Hc. simpl in Hc. apply Forall_forall. intros v Hin.
    apply value_received; [|exact (Forall_concat_map _ _ _ v Hc Hin)]. specialize (Hv n Hn). rewrite Forall_forall in Hv. by apply Hv. }
  by exists q.
Qed.

Lemma pfcp_message_travels (m : pfcp_message) (o : pfcp_object U) (fuel : nat) (mem dmem : memory) (rmem : nat -> heap)
    (seid : option Z) (sn : Z) (l : list pfcp_ie) :
  m ∈ pfcp_messages -> container_ok m o ->
  each_at (ie_of_core mem) [] 0 (cores_of_rows (msg_rows m) o) = Val l -> 12 + ies_octets l < 2 ^ 16 ->
  (cores_size (cores_of_rows (msg_rows m) o) < fuel)%nat -> fits 24 sn -> (forall s, seid = Some s -> fits 64 s) ->
  exists pm js ins p, message_of_container mem dmem m o = Val pm /\
    pfcp_msg_load_from fuel rmem pfcp_msg_in_init (istream_of (pfcp_msg_dump_to (addressed seid sn pm)).1) =
      Val (mk_pfcp_msg_in (header_of (msg_type m) seid sn (ies_octets l)) js, ins) /\
    message_to_container m js = Val p /\ container_seen m o p.
Proof.
  intros Hm Ho Hl Hb Hf Hsn Hseid.
  pose proof (message_type_fits m Hm) as Hty.
  destruct (pfcp_message_conveyed fuel mem dmem rmem (msg_type m) sn seid _ l (proj2 (proj2 Ho)) Hl Hb Hty Hsn Hseid Hf) as (pm & js & ins & E1 & E2 & Hjs).
  destruct (container_received m o js Hm Ho Hjs) as (p & Ep & Hp). by exists pm, js, ins, p.
Qed.

End EndToEnd.

(** ** A session establishment request

    One PDR on the access side and its FAR towards the core. *)
Definition members {U} (l : list (string * pfcp_value U)) : pfcp_object U := fun n =>
  snd <$> filter (fun nv => nv.1 = n) l.

Definition sample_request : pfcp_object Empty_set := members
  [("node_id", VElement Enode_id (mk_node_id NODE_ID_TYPE_IPV4_ADDRESS 3232235777 0 0 0 ""));
   ("cp_fseid", VElement Ef_seid (mk_fseid 1 0 7 3232235777 0 0 0 0));
   ("create_pdrs", VGroup Gcreate_pdr (members
      [("pdr_id", VElement Epdr_id (mk_pdr_id_t 1)); ("precedence", VElement Eprecedence (mk_precedence_t 65000));
       ("pdi", VGroup Gpdi (members
          [("source_interface", VElement Esource_interface (mk_source_interface_t 0));
           ("local_fteid", VElement Efteid (mk_fteid_t 0 1 0 0 0 0 in6addr_any 0))]));
       ("far_id", VElement Efar_id (mk_far_id_t 2))]));
   ("create_fars", VGroup Gcreate_far (members
      [("far_id", VElement Efar_id (mk_far_id_t 2)); ("apply_action", VElement Eapply_action (mk_apply_action_t 0 1 0 0 0));
       ("forwarding_parameters", VGroup Gforwarding_parameters (members
          [("destination_interface", VElement Edestination_interface (mk_destination_interface_t 1))]))]))].

(** The conditions on members, decided. *)
Definition member_okb {U} (c : pfcp_class) (n : string) (vs : list (pfcp_value U)) : bool :=
  match assoc n (cl_members c) with
  | Some (sh, t) =>
    forallb (fun v => bool_decide (type_of v = t)) vs &&
    match vs with [] => true | _ => bool_decide (assoc t (cl_set c) = Some n) end &&
    match sh with Pair => (length vs <=? 1)%nat | Plain => (length vs =? 1)%nat | Vector => true end
  | None => false
  end.

Fixpoint value_okb {U} (v : pfcp_value U) : bool :=
  match v with
  | VElement _ _ => true
  | VGroup g o => forallb (fun n => member_okb (group_class g) n (o n) && forallb value_okb (o n)) (group_rows g)
  | VOther _ _ => false
  end.

Lemma member_okb_ok {U} c n (vs : list (pfcp_value U)) : member_okb c n vs = true -> member_ok c n vs.
Proof.
  unfold member_okb, member_ok. destruct (assoc n (cl_members c)) as [[sh t]|]; [|done]. rewrite !andb_true_iff, forallb_forall.
  intros [[H1 H2] H3]. exists sh, t. split_and!; [done| | |].
  - apply Forall_forall. intros v Hv%list_elem_of_In. by apply H1, bool_decide_eq_true in Hv.
  - destruct vs; [done|]. intros _. by apply bool_decide_eq_true in H2.
  - destruct sh; [by apply Nat.leb_le|by apply Nat.eqb_eq|done].
Qed.

Lemma value_okb_ok {U} (v : pfcp_value U) : value_okb v = true -> value_ok v.
Proof.
  induction v as [e x|g o IH|name u] using pfcp_value_nested_ind; simpl; [constructor| |done].
  rewrite forallb_forall. intros H. constructor; intros n Hn; specialize (H n ltac:(by apply list_elem_of_In)); apply andb_true_iff in H as [H1 H2].
  - by apply member_okb_ok.
  - specialize (IH n). rewrite Forall_forall in IH |- *. rewrite forallb_forall in H2. intros v Hv. apply IH; [done|]. apply H2. by apply list_elem_of_In.
Qed.

Lemma rows_okb_ok {U} (m : pfcp_message) (o : pfcp_object U) :
  forallb (fun n => member_okb (msg_class m) n (o n) && forallb value_okb (o n)) (msg_rows m) = true ->
  Forall core_ok (cores_of_rows (msg_rows m) o) -> container_ok m o.
Proof.
  rewrite forallb_forall. intros H Hok. split; [|split; [|done]]; intros n Hn; specialize (H n ltac:(by apply list_elem_of_In)); apply andb_true_iff in H as [H1 H2].
  - by apply member_okb_ok.
  - rewrite forallb_forall in H2. apply Forall_forall. intros v Hv. apply value_okb_ok, H2. by apply list_elem_of_In.
Qed.

Ltac core_decides :=
  repeat (first [apply Forall_nil_2 | apply Forall_cons_2 | exact I | apply conj]); try solve [done | apply (bool_decide_unpack _); by vm_compute | by vm_compute].

Lemma sample_request_ok : container_ok pfcp_session_establishment_request_message sample_request.
Proof.
  apply rows_okb_ok; [vm_compute; reflexivity|].
  match goal with |- Forall _ ?l => let l' := eval vm_compute in l in change l with l' end.
  core_decides. exact (node_id_ok_v4 3232235777 ltac:(by vm_compute)).
Qed.

Definition zeroed : memory := fun _ _ => 0.


(** A received create URR never becomes a container. *)
Lemma create_urr_diverges {U} cs : value_of_core (U := U) (CoreGroup Gcreate_urr cs) = Diverge.
Proof. reflexivity. Qed.
