(* ===== verification/Handler.v ===== *)
(** * Handlers: state, errors and their rules

    The applications handle one message at a time in one task, changing objects
    they share through [std::shared_ptr].  A handler is a function of the state
    of the application; it returns, ends in an exception nobody catches, meets
    undefined behaviour (a null pointer, an invalid iterator) or never ends
    ([result]).  The rules say what holds of the states a handler returns
    ([ends]) and how they differ from the state it started in ([moves]), and
    compose as handlers do. *)
From S2P Require Import Prelude Pco.
From Stdlib Require Import ZArith Lia.
From stdpp Require Import base numbers tactics list gmap.
Open Scope Z_scope.

Section Handler.
Context {S : Type}.

Definition handler (A : Type) : Type := S -> result pco_exn (A * S).

#[export] Instance handler_ret : MRet handler := fun A a s => Val (a, s).
#[export] Instance handler_bind : MBind handler := fun A B k m s =>
  match m s with
  | Val (a, s) => k a s
  | Throw e => Throw e
  | UB => UB
  | Diverge => Diverge
  end.

Definition get_state : handler S := fun s => Val (s, s).
Definition gets {A} (f : S -> A) : handler A := fun s => Val (f s, s).
Definition modify (f : S -> S) : handler unit := fun s => Val (tt, f s).
Definition undefined {A} : handler A := fun _ => UB.
Definition throw {A} (e : pco_exn) : handler A := fun _ => Throw e.

(** A function that does not see the state. *)
Definition lift {A} (r : result pco_exn A) : handler A := fun s =>
  match r with
  | Val a => Val (a, s)
  | Throw e => Throw e
  | UB => UB
  | Diverge => Diverge
  end.

(** [*p] *)
Definition deref {A} (p : option A) : handler A :=
  match p with Some a => mret a | None => undefined end.

Fixpoint fold_handler {A B} (f : B -> A -> handler B) (b : B) (l : list A) : handler B :=
  match l with
  | [] => mret b
  | a :: l => b ← f b a; fold_handler f b l
  end.

(** ** What a handler returns *)

(** Every state and value it returns satisfies [Q]. *)
Definition ends {A} (m : handler A) (s : S) (Q : A -> S -> Prop) : Prop :=
  forall a s', m s = Val (a, s') -> Q a s'.

Lemma ends_ret {A} (a : A) s (Q : A -> S -> Prop) : Q a s -> ends (mret a) s Q.
Proof. intros H ? ? [= <- <-]. done. Qed.

Lemma ends_bind {A B} (m : handler A) (k : A -> handler B) s (Q : B -> S -> Prop) :
  ends m s (fun a s => ends (k a) s Q) -> ends (m ≫= k) s Q.
Proof.
  unfold ends. cbv [mbind handler_bind]. intros H b s'. destruct (m s) as [[a t]| | |]; try done. by apply H.
Qed.

Lemma ends_mono {A} (m : handler A) s (P Q : A -> S -> Prop) :
  (forall a t, P a t -> Q a t) -> ends m s P -> ends m s Q.
Proof. unfold ends. eauto. Qed.

Lemma ends_get s (Q : S -> S -> Prop) : Q s s -> ends get_state s Q.
Proof. intros H ? ? [= <- <-]. done. Qed.

Lemma ends_gets {A} (f : S -> A) s (Q : A -> S -> Prop) : Q (f s) s -> ends (gets f) s Q.
Proof. intros H ? ? [= <- <-]. done. Qed.

Lemma ends_modify (f : S -> S) s (Q : unit -> S -> Prop) : Q tt (f s) -> ends (modify f) s Q.
Proof. intros H ? ? [= <- <-]. done. Qed.

Lemma ends_undefined {A} s (Q : A -> S -> Prop) : ends undefined s Q.
Proof. done. Qed.

Lemma ends_throw {A} e s (Q : A -> S -> Prop) : ends (throw e) s Q.
Proof. done. Qed.

Lemma ends_lift {A} (r : result pco_exn A) s (Q : A -> S -> Prop) :
  (forall a, r = Val a -> Q a s) -> ends (lift r) s Q.
Proof. unfold ends, lift. destruct r; intros H ? ? E; try done. injection E as <- <-. by apply H. Qed.

Lemma ends_deref {A} (p : option A) s (Q : A -> S -> Prop) :
  (forall a, p = Some a -> Q a s) -> ends (deref p) s Q.
Proof. destruct p; intros H; [by apply ends_ret, H|by apply ends_undefined]. Qed.

(** It returns, and the state and the value satisfy [Q]. *)
Definition returns {A} (m : handler A) (s : S) (Q : A -> S -> Prop) : Prop :=
  exists a s', m s = Val (a, s') /\ Q a s'.

Lemma returns_ret {A} (a : A) s (Q : A -> S -> Prop) : Q a s -> returns (mret a) s Q.
Proof. by exists a, s. Qed.

Lemma returns_bind {A B} (m : handler A) (k : A -> handler B) s (Q : B -> S -> Prop) :
  returns m s (fun a s => returns (k a) s Q) -> returns (m ≫= k) s Q.
Proof. intros (a & t & E & b & u & E2 & H). exists b, u. split; [|done]. cbv [mbind handler_bind]. by rewrite E. Qed.

Lemma returns_mono {A} (m : handler A) s (P Q : A -> S -> Prop) :
  (forall a t, P a t -> Q a t) -> returns m s P -> returns m s Q.
Proof. intros H (a & t & E & HP). exists a, t. auto. Qed.

Lemma returns_get s (Q : S -> S -> Prop) : Q s s -> returns get_state s Q.
Proof. by exists s, s. Qed.

Lemma returns_gets {A} (f : S -> A) s (Q : A -> S -> Prop) : Q (f s) s -> returns (gets f) s Q.
Proof. by exists (f s), s. Qed.

Lemma returns_modify (f : S -> S) s (Q : unit -> S -> Prop) : Q tt (f s) -> returns (modify f) s Q.
Proof. by exists tt, (f s). Qed.

Lemma returns_lift {A} (r : result pco_exn A) a s (Q : A -> S -> Prop) : r = Val a -> Q a s -> returns (lift r) s Q.
Proof. intros -> H. by exists a, s. Qed.

Lemma returns_deref {A} (p : option A) a s (Q : A -> S -> Prop) : p = Some a -> Q a s -> returns (deref p) s Q.
Proof. intros -> H. by exists a, s. Qed.

(** A loop, by an invariant of its accumulator and of the state. *)
Lemma returns_fold_in {A B} (f : B -> A -> handler B) (I : list A -> B -> S -> Prop) l b s :
  (forall a done b s, a ∈ l -> I done b s -> returns (f b a) s (fun b s => I (done ++ [a]) b s)) ->
  I [] b s -> returns (fold_handler f b l) s (fun b s => I l b s).
Proof.
  enough (forall done b s, (forall a done b s, a ∈ l -> I done b s -> returns (f b a) s (fun b s => I (done ++ [a]) b s)) ->
    I done b s -> returns (fold_handler f b l) s (fun b s => I (done ++ l) b s)) as H by apply H.
  induction l as [|a l IH]; intros done b' s' Hf HI; cbn [fold_handler].
  - apply returns_ret. by rewrite app_nil_r.
  - apply returns_bind. eapply returns_mono; [|apply Hf; [left|done]]. intros b2 s2 H2. eapply returns_mono; [|apply IH; [|done]].
    + intros b3 s3. by rewrite <- (assoc_L (++)).
    + intros a' d' b3 s3 Ha. apply Hf. by right.
Qed.

Lemma returns_fold {A B} (f : B -> A -> handler B) (I : list A -> B -> S -> Prop) l b s :
  (forall a done b s, I done b s -> returns (f b a) s (fun b s => I (done ++ [a]) b s)) ->
  I [] b s -> returns (fold_handler f b l) s (fun b s => I l b s).
Proof. intros Hf. apply returns_fold_in. auto. Qed.

Lemma returns_ends {A} (m : handler A) s (P Q : A -> S -> Prop) :
  returns m s P -> ends m s Q -> returns m s (fun a t => P a t /\ Q a t).
Proof. intros (a & t & E & HP) HQ. exists a, t. split; [done|]. split; [done|]. by apply HQ. Qed.

Lemma ends_and {A} (m : handler A) s (P Q : A -> S -> Prop) : ends m s P -> ends m s Q -> ends m s (fun a t => P a t /\ Q a t).
Proof. unfold ends. auto. Qed.

Lemma returns_unbind {A B} (m : handler A) (k : A -> handler B) s (Q : B -> S -> Prop) :
  returns (m ≫= k) s Q -> returns m s (fun a s => returns (k a) s Q).
Proof.
  intros (b & u & E & H). cbv [mbind handler_bind] in E. destruct (m s) as [[a t]| | |] eqn:Em; try done.
  exists a, t. split; [done|]. by exists b, u.
Qed.

(** ** What a handler does to the state

    [R] relates the state before to the states returned: the handler leaves a
    part of the state unchanged, or only adds to it. *)
Section Moves.
Context (R : S -> S -> Prop) `{!PreOrder R}.

Definition moves {A} (m : handler A) : Prop := forall s, ends m s (fun _ t => R s t).

Lemma moves_ends {A} (m : handler A) s (Q : A -> S -> Prop) :
  moves m -> (forall a t, R s t -> Q a t) -> ends m s Q.
Proof. intros H HQ a t E. apply HQ. by eapply H. Qed.

Lemma moves_ret {A} (a : A) : moves (mret a).
Proof. intros s. by apply ends_ret. Qed.

Lemma moves_bind {A B} (m : handler A) (k : A -> handler B) : moves m -> (forall a, moves (k a)) -> moves (m ≫= k).
Proof.
  intros Hm Hk s. apply ends_bind. intros a t E b u E2. transitivity t; [by eapply Hm|by eapply Hk].
Qed.

Lemma moves_get : moves get_state.
Proof. intros s. by apply ends_get. Qed.
Lemma moves_gets {A} (g : S -> A) : moves (gets g).
Proof. intros s. by apply ends_gets. Qed.
Lemma moves_undefined {A} : moves (undefined (A := A)).
Proof. intros s. by apply ends_undefined. Qed.
Lemma moves_throw {A} e : moves (throw (A := A) e).
Proof. intros s. by apply ends_throw. Qed.
Lemma moves_lift {A} (r : result pco_exn A) : moves (lift r).
Proof. intros s. by apply ends_lift. Qed.
Lemma moves_deref {A} (p : option A) : moves (deref p).
Proof. intros s. by apply ends_deref. Qed.

Lemma moves_modify (g : S -> S) : (forall s, R s (g s)) -> moves (modify g).
Proof. intros H s. by apply ends_modify. Qed.

Lemma moves_fold {A B} (g : B -> A -> handler B) l : (forall b a, moves (g b a)) -> forall b, moves (fold_handler g b l).
Proof.
  intros Hg. induction l as [|a l IH]; intros b; cbn [fold_handler]; [apply moves_ret|]. by apply moves_bind.
Qed.
End Moves.
End Handler.
Arguments handler : clear implicits.

(** An object of a heap is replaced by one with the same member. *)
Lemma fmap_insert_same {K V W} `{Countable K} (f : V -> W) (m : gmap K V) k x y :
  m !! k = Some x -> f y = f x -> f <$> <[k := y]> m = f <$> m.
Proof. intros E Hf. rewrite fmap_insert, Hf. apply insert_id. by rewrite lookup_fmap, E. Qed.

Create HintDb handler.
#[export] Hint Resolve moves_ret moves_get moves_gets moves_undefined moves_throw moves_lift moves_deref : handler.

(** Walks through a handler: binds, tests and matches. *)
Ltac moves_step :=
  match goal with
  | |- moves _ (_ ≫= _) => apply moves_bind; [typeclasses eauto| |intros ?]
  | |- moves _ (fold_handler _ _ _) => apply moves_fold; [typeclasses eauto|intros ? ?]
  | |- moves _ (let '(_, _) := ?x in _) => destruct x
  | |- moves _ (let _ := _ in _) => cbv zeta
  | |- moves _ (match ?x with _ => _ end) => destruct x
  | |- _ => solve [auto with handler typeclass_instances]
  end.
Ltac moves_solve := intros; repeat moves_step.
