(* ===== verification/AppMsg.v ===== *)
(** * The messages of the applications

    [src/common/msg/itti_msg_s5s8.hpp], [itti_msg_s11.hpp] and
    [itti_msg_sxab.hpp]: what the tasks exchange is a container
    ([GtpContainer], [PfcpContainer]) with the tunnel or session it belongs to,
    the transaction and the address of the peer.  The typed [get] and [set] the
    applications call are defined here over the tables of the containers, with
    the conversions of [src/common/utils/3gpp_conversions.cpp]. *)
From S2P Require Import Prelude UidGenerator PaaDynamic Pco Itti UpNodes PfcpNode GtpTlv GtpScalar GtpIdentity GtpQos GtpLocation GtpAddress GtpOptions GtpCore Container GtpContainer GtpMessages GtpClassLaws.
From S2P Require Import PfcpScalar PfcpTunnel PfcpIe PfcpTables PfcpContainer.
From Stdlib Require Import ZArith Lia String Ascii.
From stdpp Require Import base numbers tactics sets list strings gmap.
Open Scope Z_scope.

Set Warnings "-register-all".

Abbreviation gtp_cause := GtpScalar.cause_t.
Abbreviation gtp_fteid := GtpAddress.fteid_t.
Abbreviation sx_cause := PfcpScalar.cause_t.
Abbreviation sx_fteid := PfcpTunnel.fteid_t.

(** ** Constants *)
Definition RETURNclear : Z := 2.
Definition UNASSIGNED_TEID : Z := 0.
Definition UNASSIGNED_SEID : Z := 0.
Definition EPS_BEARER_IDENTITY_UNASSIGNED : Z := 0.
Definition EPS_BEARER_IDENTITY_FIRST : Z := 5.
Definition EPS_BEARER_IDENTITY_LAST : Z := 15.
Definition S1_U_ENODEB_GTP_U : Z := 0.
Definition S1_U_SGW_GTP_U : Z := 1.
Definition S5_S8_SGW_GTP_U : Z := 4.
Definition S5_S8_PGW_GTP_U : Z := 5.
Definition S5_S8_SGW_GTP_C : Z := 6.
Definition S5_S8_PGW_GTP_C : Z := 7.
Definition S11_MME_GTP_C : Z := 10.
Definition S11_S4_SGW_GTP_C : Z := 11.
Definition REQUEST_ACCEPTED : Z := 16.
Definition REQUEST_ACCEPTED_PARTIALLY : Z := 17.
Definition CONTEXT_NOT_FOUND : Z := 64.
Definition SYSTEM_FAILURE : Z := 72.
Definition NO_RESOURCES_AVAILABLE : Z := 73.
Definition MISSING_OR_UNKNOWN_APN : Z := 78.
Definition PREFERRED_PDN_TYPE_NOT_SUPPORTED : Z := 83.
Definition ALL_DYNAMIC_ADDRESSES_ARE_OCCUPIED : Z := 84.
Definition REQUEST_REJECTED : Z := 94.
Definition REMOTE_PEER_NOT_RESPONDING : Z := 100.
Definition APN_CONGESTION : Z := 113.
Definition CAUSE_VALUE_REQUEST_ACCEPTED : Z := 1.
Definition CAUSE_VALUE_REQUEST_REJECTED : Z := 64.
Definition CAUSE_VALUE_PFCP_ENTITY_IN_CONGESTION : Z := 74.
Definition INTERFACE_VALUE_ACCESS : Z := 0.
Definition INTERFACE_VALUE_CORE : Z := 1.
Definition OUTER_HEADER_CREATION_GTPU_UDP_IPV4 : Z := 0x0100.
Definition OUTER_HEADER_REMOVAL_GTPU_UDP_IPV4 : Z := 0.

(** The tasks of [task_id_t] that the applications name. *)
Definition TASK_PGWC_APP : Z := 6.
Definition TASK_PGWC_S5S8 : Z := 9.
Definition TASK_SGWC_APP : Z := 13.
Definition TASK_SGWC_S11 : Z := 14.
Definition TASK_SGWC_S5S8 : Z := 15.

(** ** Addresses *)
Inductive endpoint :=
| EpNone                                    (* [AF_UNSPEC] *)
| Ep4 (addr port : Z)
| Ep6 (addr : list Z) (port : Z).

#[export] Instance endpoint_eq_dec : EqDecision endpoint.
Proof. solve_decision. Defined.

(** [endpoint(const struct in_addr&, const uint16_t)] *)
Definition endpoint_of (addr port : Z) : endpoint := Ep4 addr (u16 port).

(** ** The types of a GTP container

    The overloads of [get] and [set] are chosen by the type of the argument. *)
Class GtpValue (A : Type) := {
  gv_kind : ie_kind;
  gv_of : A -> value;
  gv_to : value -> option A;
  gv_init : A;
  gv_kind_of : forall a, kind_of (gv_of a) = gv_kind;
  gv_to_of : forall a, gv_to (gv_of a) = Some a;
}.

#[export] Instance imsi_value : GtpValue imsi_t := {| gv_kind := Kimsi; gv_of a := VCore (CoreImsi a);
  gv_to v := match v with VCore (CoreImsi a) => Some a | _ => None end; gv_init := mk_imsi_t (replicate 8 0) 0;
  gv_kind_of a := eq_refl; gv_to_of a := eq_refl |}.
#[export] Instance cause_value_ : GtpValue gtp_cause := {| gv_kind := Kcause; gv_of a := VCore (CoreCause a);
  gv_to v := match v with VCore (CoreCause a) => Some a | _ => None end; gv_init := GtpScalar.mk_cause_t 0 0 0 0 0 0 0;
  gv_kind_of a := eq_refl; gv_to_of a := eq_refl |}.
#[export] Instance apn_value : GtpValue apn_t := {| gv_kind := Kapn; gv_of a := VCore (CoreApn a);
  gv_to v := match v with VCore (CoreApn a) => Some a | _ => None end; gv_init := mk_apn_t [];
  gv_kind_of a := eq_refl; gv_to_of a := eq_refl |}.
#[export] Instance ambr_value : GtpValue ambr_t := {| gv_kind := Kambr; gv_of a := VCore (CoreAmbr a);
  gv_to v := match v with VCore (CoreAmbr a) => Some a | _ => None end; gv_init := mk_ambr_t 0 0;
  gv_kind_of a := eq_refl; gv_to_of a := eq_refl |}.
#[export] Instance ebi_value : GtpValue ebi_t := {| gv_kind := Kebi; gv_of a := VCore (CoreEbi a);
  gv_to v := match v with VCore (CoreEbi a) => Some a | _ => None end; gv_init := mk_ebi_t 0;
  gv_kind_of a := eq_refl; gv_to_of a := eq_refl |}.
#[export] Instance indication_value : GtpValue indication_t := {| gv_kind := Kindication;
  gv_of a := VCore (CoreIndication a); gv_to v := match v with VCore (CoreIndication a) => Some a | _ => None end;
  gv_init := mk_indication_t 0 0 0 0 0 0 0 0 0 0 0 0 0 0 0 0 0 0 0 0 0 0 0 0 0 0 0 0 0 0 0 0 0 0 0 0 0 0 0 0 0 0 0 0 0 0 0 0 0 0 0 0 0;
  gv_kind_of a := eq_refl; gv_to_of a := eq_refl |}.
#[export] Instance pco_value : GtpValue protocol_configuration_options_t := {| gv_kind := Kpco;
  gv_of a := VCore (CorePco a); gv_to v := match v with VCore (CorePco a) => Some a | _ => None end;
  gv_init := mk_pco_t 0 0 0 [];
  gv_kind_of a := eq_refl; gv_to_of a := eq_refl |}.
#[export] Instance paa_value : GtpValue paa_t := {| gv_kind := Kpaa; gv_of a := VCore (CorePaa a);
  gv_to v := match v with VCore (CorePaa a) => Some a | _ => None end; gv_init := mk_paa PDN_TYPE_E_IPV4 0 in6addr_any 0;
  gv_kind_of a := eq_refl; gv_to_of a := eq_refl |}.
#[export] Instance bearer_qos_value : GtpValue bearer_qos_t := {| gv_kind := Kbearer_qos;
  gv_of a := VCore (CoreBearerQos a); gv_to v := match v with VCore (CoreBearerQos a) => Some a | _ => None end;
  gv_init := mk_bearer_qos_t 0 0 0 0 0 0 0 0;
  gv_kind_of a := eq_refl; gv_to_of a := eq_refl |}.
#[export] Instance rat_type_value : GtpValue rat_type_t := {| gv_kind := Krat_type; gv_of a := VCore (CoreRatType a);
  gv_to v := match v with VCore (CoreRatType a) => Some a | _ => None end; gv_init := mk_rat_type_t 0;
  gv_kind_of a := eq_refl; gv_to_of a := eq_refl |}.
#[export] Instance serving_network_value : GtpValue serving_network_t := {| gv_kind := Kserving_network;
  gv_of a := VCore (CoreServingNetwork a); gv_to v := match v with VCore (CoreServingNetwork a) => Some a | _ => None end;
  gv_init := mk_serving_network_t plmn0;
  gv_kind_of a := eq_refl; gv_to_of a := eq_refl |}.
#[export] Instance uli_value : GtpValue uli_t := {| gv_kind := Kuli; gv_of a := VCore (CoreUli a);
  gv_to v := match v with VCore (CoreUli a) => Some a | _ => None end; gv_init := uli_zero;
  gv_kind_of a := eq_refl; gv_to_of a := eq_refl |}.
#[export] Instance fteid_value : GtpValue gtp_fteid := {| gv_kind := Kfteid; gv_of a := VCore (CoreFteid a);
  gv_to v := match v with VCore (CoreFteid a) => Some a | _ => None end; gv_init := GtpAddress.mk_fteid_t 0 0 0 0 0 in6addr_any;
  gv_kind_of a := eq_refl; gv_to_of a := eq_refl |}.
#[export] Instance pdn_type_value : GtpValue pdn_type_t := {| gv_kind := Kpdn_type; gv_of a := VCore (CorePdnType a);
  gv_to v := match v with VCore (CorePdnType a) => Some a | _ => None end; gv_init := mk_pdn_type_t PDN_TYPE_E_IPV4;
  gv_kind_of a := eq_refl; gv_to_of a := eq_refl |}.

#[export] Instance msisdn_value : GtpValue msisdn_t := {| gv_kind := Kmsisdn; gv_of a := VCore (CoreMsisdn a);
  gv_to v := match v with VCore (CoreMsisdn a) => Some a | _ => None end; gv_init := mk_msisdn_t (replicate 8 0) 0;
  gv_kind_of a := eq_refl; gv_to_of a := eq_refl |}.
#[export] Instance mei_value : GtpValue mei_t := {| gv_kind := Kmei; gv_of a := VCore (CoreMei a);
  gv_to v := match v with VCore (CoreMei a) => Some a | _ => None end; gv_init := mk_mei_t (replicate 8 0) 0;
  gv_kind_of a := eq_refl; gv_to_of a := eq_refl |}.
#[export] Instance selection_mode_value : GtpValue selection_mode_t := {| gv_kind := Kselection_mode;
  gv_of a := VCore (CoreSelectionMode a); gv_to v := match v with VCore (CoreSelectionMode a) => Some a | _ => None end;
  gv_init := mk_selection_mode_t 0;
  gv_kind_of a := eq_refl; gv_to_of a := eq_refl |}.
#[export] Instance apn_restriction_value : GtpValue access_point_name_restriction_t := {| gv_kind := Kapn_restriction;
  gv_of a := VCore (CoreApnRestriction a); gv_to v := match v with VCore (CoreApnRestriction a) => Some a | _ => None end;
  gv_init := mk_access_point_name_restriction_t 0;
  gv_kind_of a := eq_refl; gv_to_of a := eq_refl |}.
#[export] Instance fq_csid_value : GtpValue fq_csid_t := {| gv_kind := Kfq_csid; gv_of a := VCore (CoreFqCsid a);
  gv_to v := match v with VCore (CoreFqCsid a) => Some a | _ => None end; gv_init := mk_fq_csid_t 0 0 node_id_zero [];
  gv_kind_of a := eq_refl; gv_to_of a := eq_refl |}.
#[export] Instance ue_time_zone_value : GtpValue ue_time_zone_t := {| gv_kind := Kue_time_zone;
  gv_of a := VCore (CoreUeTimeZone a); gv_to v := match v with VCore (CoreUeTimeZone a) => Some a | _ => None end;
  gv_init := mk_ue_time_zone_t 0 0;
  gv_kind_of a := eq_refl; gv_to_of a := eq_refl |}.
#[export] Instance ran_nas_cause_value : GtpValue ran_nas_cause_t := {| gv_kind := Kran_nas_cause;
  gv_of a := VCore (CoreRanNasCause a); gv_to v := match v with VCore (CoreRanNasCause a) => Some a | _ => None end;
  gv_init := mk_ran_nas_cause_t 0 0 0;
  gv_kind_of a := eq_refl; gv_to_of a := eq_refl |}.
#[export] Instance epco_value : GtpValue extended_protocol_configuration_options_t := {| gv_kind := Kepco;
  gv_of a := VCore (CoreEpco a); gv_to v := match v with VCore (CoreEpco a) => Some a | _ => None end;
  gv_init := mk_epco_t [];
  gv_kind_of a := eq_refl; gv_to_of a := eq_refl |}.

Record epc_timer_t := mk_epc_timer_t { timer_unit : Z; timer_value : Z }.
#[export] Instance epc_timer_value : GtpValue epc_timer_t := {| gv_kind := Kepc_timer;
  gv_of a := VEpcTimer (timer_unit a) (timer_value a);
  gv_to v := match v with VEpcTimer u t => Some (mk_epc_timer_t u t) | _ => None end; gv_init := mk_epc_timer_t 0 0;
  gv_kind_of a := eq_refl; gv_to_of a := match a with mk_epc_timer_t _ _ => eq_refl end |}.

(** ** [get] and [set] *)
Section Access.
Context {A : Type} `{GtpValue A}.

(** [c.get(v, n)].  Every call of the applications is to an overload of its class
    and at an instance the overload handles, so that the other cases, a call
    that does not compile and one that throws, do not arise. *)
Definition ies_get (c : ies_class) (n : Z) (f : fields value) : option A :=
  match class_get c gv_kind n f with
  | Some (Val (Some v)) => gv_to v
  | _ => None
  end.

Definition ies_set (c : ies_class) (n : Z) (a : A) (f : fields value) : fields value :=
  match class_set c (gv_of a) n f with
  | Some (Val f') => f'
  | _ => f
  end.

(** [c.get_x(v)] and [c.set_x(v)] *)
Definition ies_get_x (c : ies_class) (x : string) (f : fields value) : option A :=
  match class_named_get c x f with
  | Some (Some v) => gv_to v
  | _ => None
  end.

Definition ies_set_x (c : ies_class) (x : string) (a : A) (f : fields value) : fields value :=
  default f (class_named_set c x (gv_of a) f).

(** [c.x], whether or not it is present. *)
Definition member (x : string) (f : fields value) : A :=
  match f_vals f !! x with
  | Some v => default gv_init (gv_to v)
  | None => gv_init
  end.

(** [c.x = v], with the flags as they are. *)
Definition assign_member (x : string) (a : A) (f : fields value) : fields value :=
  mk_fields (f_mask f) (f_first f) (<[x := gv_of a]> (f_vals f)).

(** The overload exists, in both directions, and reads where it writes. *)
Definition settable (c : ies_class) (n : Z) : bool :=
  class_ok c && match set_target c gv_kind n, get_target c gv_kind n with
                | Some s, Some t => bool_decide (s = t)
                | _, _ => false
                end.

Lemma ies_get_set c n a f : settable c n = true -> ies_get c n (ies_set c n a f) = Some a.
Proof.
  unfold settable. intros [Hc Hs]%andb_true_iff. destruct (set_target c gv_kind n) as [s|] eqn:Es; [|done].
  destruct (get_target c gv_kind n) as [t|] eqn:Et; [|done]. apply bool_decide_eq_true in Hs as <-.
  assert (class_set c (gv_of a) n f = Some (Val (slot_set (c_width c) s (gv_of a) f))) as E.
  { unfold class_set, set_target in *. rewrite gv_kind_of. destruct (find_overload gv_kind (c_set c)) as [o|]; [|done]. simpl in *.
    f_equal. destruct (o_access o); simpl in *; [congruence|rewrite Es..]; done. }
  unfold ies_set. rewrite E. unfold ies_get. rewrite (class_get_target _ _ _ _ s Et).
  apply class_ok_and in Hc as (_ & Hslots & _ & _). rewrite slot_get_set; [by rewrite gv_to_of|by eapply slots_ok_width|].
  eapply slots_ok_fits; [done|]. by eapply set_target_in.
Qed.
End Access.

(** [if (from.get(v)) to.set(v);] *)
Definition ies_forward (A : Type) `{GtpValue A} (cf ct : ies_class) (from to : fields value) : fields value :=
  match ies_get cf 0 from with Some a => ies_set ct 0 (a : A) to | None => to end.

(** A [get] of another member. *)
Definition apart (c : ies_class) (k : ie_kind) (n : Z) (k' : ie_kind) (n' : Z) : bool :=
  class_ok c && match set_target c k n, get_target c k' n' with
                | Some s, Some t => negb (bool_decide (s = t))
                | _, _ => false
                end.

Lemma ies_get_set_apart {A B} `{GtpValue A} `{GtpValue B} c n (a : A) m f :
  apart c (gv_kind (A := A)) n (gv_kind (A := B)) m = true -> ies_get (A := B) c m (ies_set c n a f) = ies_get c m f.
Proof.
  unfold apart. intros [Hc Hs]%andb_true_iff. destruct (set_target c gv_kind n) as [s|] eqn:Es; [|done].
  destruct (get_target c gv_kind m) as [t|] eqn:Et; [|done]. apply negb_true_iff, bool_decide_eq_false in Hs.
  unfold ies_set. destruct (class_set c (gv_of a) n f) as [[f'| | |]|] eqn:E; try done.
  apply class_set_target in E as (s' & Es' & ->). rewrite gv_kind_of, Es in Es'. injection Es' as <-.
  unfold ies_get. rewrite !(class_get_target _ _ _ _ t Et). apply class_ok_and in Hc as (_ & Hslots & _ & _).
  rewrite slot_get_set_apart; [done|by eapply slots_ok_width|eapply slots_ok_fits; [done|by eapply get_target_in]|].
  eapply slots_ok_apart; [done|by eapply set_target_in|by eapply get_target_in|done].
Qed.

(** ** PFCP containers

    No value the applications set or read has one of the types without an
    element class. *)
Definition sx_value : Type := pfcp_value Empty_set.
Definition sx_ies : Type := pfcp_object Empty_set.

Definition sx_set (c : pfcp_class) (v : sx_value) (o : sx_ies) : sx_ies :=
  match object_set c v o with Val o' => o' | _ => o end.

Definition sx_get (c : pfcp_class) (t : ctype) (o : sx_ies) : option sx_value :=
  match object_get c t o with Val r => r | _ => None end.

Definition as_element (e : element) (v : sx_value) : option (element_core e) :=
  match v with
  | VElement e' x => match decide (e' = e) with left H => Some (eq_rect e' element_core x e H) | right _ => None end
  | _ => None
  end.

Definition sx_get_element (c : pfcp_class) (e : element) (o : sx_ies) : option (element_core e) :=
  sx_get c (TElement e) o ≫= as_element e.

Definition as_group (v : sx_value) : option sx_ies := match v with VGroup _ o => Some o | _ => None end.

Definition sx_get_group (c : pfcp_class) (g : group) (o : sx_ies) : option sx_ies :=
  sx_get c (TGroup g) o ≫= as_group.

(** The elements of a vector of grouped elements. *)
Definition sx_groups (x : string) (o : sx_ies) : list sx_ies := omap as_group (o x).

Abbreviation set_element c e x := (sx_set c (VElement (U := Empty_set) e x)).
Abbreviation set_group c g x := (sx_set c (VGroup (U := Empty_set) g x)).

Lemma as_element_refl e (x : element_core e) : as_element e (VElement e x) = Some x.
Proof.
  unfold as_element. destruct (decide (e = e)) as [H|]; [|done]. rewrite (proof_irrel H eq_refl). done.
Qed.

Lemma sx_get_set_element c e x n o :
  class_sound c = true -> PfcpContainer.assoc (TElement e) (cl_get c) = Some n -> sx_get_element c e (set_element c e x o) = Some x.
Proof.
  intros Hc Hg. destruct (class_sound_get c _ n Hc Hg) as (Hs & sh & Hm & Hv). unfold sx_get_element, sx_get, sx_set, object_get, object_set.
  cbn [type_of]. rewrite Hs, Hg. unfold member_set. rewrite String.eqb_refl, Hm.
  destruct sh; [apply as_element_refl..|done].
Qed.

(** ** Messages between tasks *)
Inductive gtp_kind :=
| REMOTE_PEER_NOT_RESPONDING_IND
| CREATE_SESSION_REQUEST | CREATE_SESSION_RESPONSE | MODIFY_BEARER_REQUEST | MODIFY_BEARER_RESPONSE
| DELETE_SESSION_REQUEST | DELETE_SESSION_RESPONSE | RELEASE_ACCESS_BEARERS_REQUEST | RELEASE_ACCESS_BEARERS_RESPONSE
| DOWNLINK_DATA_NOTIFICATION | DOWNLINK_DATA_NOTIFICATION_ACKNOWLEDGE.

#[export] Instance gtp_kind_eq_dec : EqDecision gtp_kind.
Proof. solve_decision. Defined.

(** The type of [gtp_ies]. *)
Definition gtp_class (k : gtp_kind) : message_class :=
  match k with
  | REMOTE_PEER_NOT_RESPONDING_IND => mk_message_class (mk_ies_class 64 [] [] [] [] [] []) None
  | CREATE_SESSION_REQUEST => gtpv2c_create_session_request
  | CREATE_SESSION_RESPONSE => gtpv2c_create_session_response
  | MODIFY_BEARER_REQUEST => gtpv2c_modify_bearer_request
  | MODIFY_BEARER_RESPONSE => gtpv2c_modify_bearer_response
  | DELETE_SESSION_REQUEST => gtpv2c_delete_session_request
  | DELETE_SESSION_RESPONSE => gtpv2c_delete_session_response
  | RELEASE_ACCESS_BEARERS_REQUEST => gtpv2c_release_access_bearers_request
  | RELEASE_ACCESS_BEARERS_RESPONSE => gtpv2c_release_access_bearers_response
  | DOWNLINK_DATA_NOTIFICATION => gtpv2c_downlink_data_notification
  | DOWNLINK_DATA_NOTIFICATION_ACKNOWLEDGE => gtpv2c_downlink_data_notification_acknowledge
  end.

(** [itti_s5s8_msg] and [itti_s11_msg] with a container. *)
Record itti_gtp_msg := mk_itti_gtp_msg {
  gtp_msg_kind : gtp_kind;
  r_endpoint : endpoint;
  teid : Z;
  l_teid : Z;
  gtpc_tx_id : Z;
  gtp_ies : container;
}.

Definition new_gtp_msg (k : gtp_kind) : itti_gtp_msg :=
  mk_itti_gtp_msg k EpNone UNASSIGNED_TEID UNASSIGNED_TEID 0 (new_container (gtp_class k)).

(** The three members a response takes from its request. *)
Definition gtp_address (tx t : Z) (ep : endpoint) (m : itti_gtp_msg) : itti_gtp_msg :=
  mk_itti_gtp_msg (gtp_msg_kind m) ep t (l_teid m) tx (gtp_ies m).

Definition with_l_teid (l : Z) (m : itti_gtp_msg) : itti_gtp_msg :=
  mk_itti_gtp_msg (gtp_msg_kind m) (r_endpoint m) (teid m) l (gtpc_tx_id m) (gtp_ies m).

Definition with_gtp_ies (c : container) (m : itti_gtp_msg) : itti_gtp_msg :=
  mk_itti_gtp_msg (gtp_msg_kind m) (r_endpoint m) (teid m) (l_teid m) (gtpc_tx_id m) c.

Definition msg_ies_class (m : itti_gtp_msg) : ies_class := mc_class (gtp_class (gtp_msg_kind m)).
Definition msg_fields (m : itti_gtp_msg) : fields value := ct_fields (gtp_ies m).
Definition with_fields (f : fields value) (m : itti_gtp_msg) : itti_gtp_msg :=
  with_gtp_ies (mk_container f (ct_lists (gtp_ies m))) m.

(** [m->gtp_ies.get(v, n)], [.set(v, n)], [.get_x(v)], [.set_x(v)] and [.x] *)
Definition msg_get {A} `{GtpValue A} (n : Z) (m : itti_gtp_msg) : option A := ies_get (msg_ies_class m) n (msg_fields m).
Definition msg_set {A} `{GtpValue A} (n : Z) (a : A) (m : itti_gtp_msg) : itti_gtp_msg :=
  with_fields (ies_set (msg_ies_class m) n a (msg_fields m)) m.
Definition msg_get_x {A} `{GtpValue A} (x : string) (m : itti_gtp_msg) : option A := ies_get_x (msg_ies_class m) x (msg_fields m).
Definition msg_set_x {A} `{GtpValue A} (x : string) (a : A) (m : itti_gtp_msg) : itti_gtp_msg :=
  with_fields (ies_set_x (msg_ies_class m) x a (msg_fields m)) m.
Definition msg_member {A} `{GtpValue A} (x : string) (m : itti_gtp_msg) : A := member x (msg_fields m).

(** [if (from.gtp_ies.get(v)) to.gtp_ies.set(v);] *)
Definition msg_forward (A : Type) `{GtpValue A} (from to : itti_gtp_msg) : itti_gtp_msg :=
  match msg_get 0 from with Some a => msg_set 0 (a : A) to | None => to end.

(** A vector of bearer contexts, and adding to it. *)
Definition contexts (x : string) (m : itti_gtp_msg) : list (fields value) := default [] (ct_lists (gtp_ies m) !! x).
Definition add_bearer_context (s : slot) (x : fields value) (m : itti_gtp_msg) : itti_gtp_msg :=
  with_gtp_ies (add_context (c_width (msg_ies_class m)) s x (gtp_ies m)) m.
Definition set_contexts (x : string) (l : list (fields value)) (m : itti_gtp_msg) : itti_gtp_msg :=
  with_gtp_ies (mk_container (msg_fields m) (<[x := l]> (ct_lists (gtp_ies m)))) m.

(** [m->gtp_ies.has_x()] *)
Definition has_contexts (s : slot) (m : itti_gtp_msg) : bool := slot_present s (msg_fields m).

(** [m->gtp_ies.clear_x()] *)
Definition msg_clear (x : string) (m : itti_gtp_msg) : itti_gtp_msg :=
  with_gtp_ies (container_clear (gtp_class (gtp_msg_kind m)) x (gtp_ies m)) m.

(** [itti_sxab_msg] with a container. *)
Record itti_sx_msg := mk_itti_sx_msg {
  sx_message : pfcp_message;
  sx_r_endpoint : endpoint;
  seid : Z;
  sx_trxn_id : Z;
  pfcp_ies : sx_ies;
}.

Definition new_sx_msg (m : pfcp_message) : itti_sx_msg := mk_itti_sx_msg m EpNone UNASSIGNED_SEID 0 (object_init (msg_class m)).

(** What is given to [itti_inst->send_msg]. *)
Inductive app_out :=
| OutGtp (dest : Z) (m : itti_gtp_msg)
| OutSx (dest : Z) (m : itti_sx_msg).

(** ** Values *)
Definition cause_of (v : Z) : gtp_cause := GtpScalar.mk_cause_t v 0 0 0 0 0 0.
Definition cause_pce (v : Z) : gtp_cause := GtpScalar.mk_cause_t v 1 0 0 0 0 0.

Definition fteid_null : gtp_fteid := gv_init.

(** [fteid_t::operator==] and [is_zero]; [ebi_t::operator==]. *)
Definition fteid_eqb (a b : gtp_fteid) : bool :=
  (fc_teid_gre_key a =? fc_teid_gre_key b) && (fc_ipv4_address a =? fc_ipv4_address b) &&
  (fc_interface_type a =? fc_interface_type b) && bool_decide (fc_ipv6_address a = fc_ipv6_address b) &&
  (fc_v4 a =? fc_v4 b) && (fc_v6 a =? fc_v6 b).
Definition fteid_is_zero (a : gtp_fteid) : bool := (fc_v4 a =? 0) && (fc_v6 a =? 0).
Definition ebi_eqb (a b : ebi_t) : bool := ebi a =? ebi b.
Definition fteid_with_interface (t : Z) (a : gtp_fteid) : gtp_fteid :=
  GtpAddress.mk_fteid_t (fc_v4 a) (fc_v6 a) t (fc_teid_gre_key a) (fc_ipv4_address a) (fc_ipv6_address a).

(** [imsi_t::to_imsi64]: the digits up to the first nibble that is none. *)
Fixpoint imsi64_digits (acc : Z) (l : list Z) : Z :=
  match l with
  | [] => acc
  | b :: l =>
    let d2 := Z.shiftr (Z.land b 0xf0) 4 in
    let d1 := Z.land b 0x0f in
    if d1 <? 10 then
      let acc := u64 (acc * 10 + d1) in
      if d2 <? 10 then imsi64_digits (u64 (acc * 10 + d2)) l else acc
    else acc
  end.
Definition to_imsi64 (i : imsi_t) : Z := imsi64_digits 0 (imsi_core_b i).

(** [paa_t::is_ip_assigned] *)
Definition ipv6_some (a : list Z) : bool := existsb (fun b => negb (b =? 0)) a.
Definition is_ip_assigned (p : paa_t) : bool :=
  if pdn_type p =? PDN_TYPE_E_IPV4 then negb (ipv4_address p =? 0)
  else if pdn_type p =? PDN_TYPE_E_IPV6 then ipv6_some (ipv6_address p)
  else if pdn_type p =? PDN_TYPE_E_IPV4V6 then negb (ipv4_address p =? 0) || ipv6_some (ipv6_address p)
  else false.

(** A [std::string] as a key. *)
Definition string_of_octets (l : list Z) : string :=
  string_of_list_ascii ((fun z => ascii_of_nat (Z.to_nat z)) <$> l).

Definition valid_ebi (e : Z) : bool := (EPS_BEARER_IDENTITY_FIRST <=? e) && (e <=? EPS_BEARER_IDENTITY_LAST).

(** [vector::erase] of the first element equal to [x]. *)
Fixpoint erase_first (x : nat) (l : list nat) : list nat :=
  match l with
  | [] => []
  | y :: l => if decide (x = y) then l else y :: erase_first x l
  end.

Lemma erase_first_elem a b l : NoDup l -> b ∈ erase_first a l <-> b ∈ l /\ b <> a.
Proof.
  induction l as [|x l IH]; intros Hl; cbn [erase_first]; [set_solver|]. apply NoDup_cons in Hl as [Hx Hl]. specialize (IH Hl).
  case_decide; subst; set_solver.
Qed.

Lemma erase_first_NoDup a l : NoDup l -> NoDup (erase_first a l).
Proof.
  induction 1 as [|x l Hx Hl IH]; cbn [erase_first]; [constructor|]. case_decide; [done|]. constructor; [|done].
  rewrite erase_first_elem by done. naive_solver.
Qed.

(** When 2 + [size] TEIDs in a row are in use or zero, every one is in use: they
    are too many for the table, or they are all the TEIDs. *)
Lemma candidates_full (used : gset Z) c :
  (forall u, u ∈ UidGenerator.candidates 32 c (2 + size used) -> u ∈ used \/ u = UNASSIGNED_TEID) ->
  forall u, 0 < u < 2 ^ 32 -> u ∈ used.
Proof.
  intros H u Hu. destruct (decide (Z.of_nat (2 + size used) <= 2 ^ 32)) as [Hle|Hgt].
  - exfalso. assert (list_to_set (C := gset Z) (UidGenerator.candidates 32 c (2 + size used)) ⊆ {[UNASSIGNED_TEID]} ∪ used) as Hs.
    { intros v Hv. apply elem_of_list_to_set, H in Hv. set_solver. }
    apply subseteq_size in Hs. rewrite size_list_to_set in Hs by (by apply candidates_NoDup).
    pose proof (size_union_alt {[UNASSIGNED_TEID]} used) as HU. pose proof (subseteq_size (used ∖ {[UNASSIGNED_TEID]}) used ltac:(set_solver)).
    rewrite size_singleton in HU. unfold UidGenerator.candidates in Hs. rewrite length_fmap, length_seq in Hs. lia.
  - destruct (H u) as [|E0]; [|done|unfold UNASSIGNED_TEID in E0; lia]. apply list_elem_of_fmap.
    exists (Z.to_nat ((u - c - 1) mod 2 ^ 32)). pose proof (Z.mod_pos_bound (u - c - 1) (2 ^ 32) ltac:(lia)). split.
    + rewrite Z2Nat.id by lia. unfold wrapu. rewrite Zplus_mod_idemp_r. replace (c + 1 + (u - c - 1)) with u by lia.
      symmetry. by apply Z.mod_small; lia.
    + apply elem_of_seq. lia.
Qed.

Lemma candidates_step c fuel u :
  u ∈ UidGenerator.candidates 32 c (S fuel) <-> u = u32 (c + 1) \/ u ∈ UidGenerator.candidates 32 (c + 1) fuel.
Proof.
  unfold UidGenerator.candidates. rewrite <- cons_seq, <- fmap_S_seq, fmap_cons, elem_of_cons, Z.add_0_r.
  rewrite <- list_fmap_compose. apply or_iff_compat_l. rewrite !list_elem_of_fmap.
  split; intros (i & -> & Hi); exists i; (split; [simpl; f_equal; lia|done]).
Qed.

(** ** [xgpp_conv] *)
Definition ue_ip_address_init : ue_ip_address_t := mk_ue_ip_address_t 0 0 0 0 0 in6addr_any 0.

Definition pdn_ip_to_pfcp_ue_ip_address (t v4 : Z) (v6 : list Z) (ue : ue_ip_address_t) : ue_ip_address_t :=
  if t =? PDN_TYPE_E_IPV4 then
    mk_ue_ip_address_t (ue_ipv6d ue) (ue_sd ue) 1 (ue_v6 ue) v4 (ue_ipv6_address ue) (ue_ipv6_prefix_delegation_bits ue)
  else if t =? PDN_TYPE_E_IPV6 then
    mk_ue_ip_address_t (ue_ipv6d ue) (ue_sd ue) (ue_v4 ue) 1 (ue_ipv4_address ue) v6 (ue_ipv6_prefix_delegation_bits ue)
  else if t =? PDN_TYPE_E_IPV4V6 then
    mk_ue_ip_address_t (ue_ipv6d ue) (ue_sd ue) 1 1 v4 v6 (ue_ipv6_prefix_delegation_bits ue)
  else ue.

Definition paa_to_pfcp_ue_ip_address (p : paa_t) (ue : ue_ip_address_t) : ue_ip_address_t :=
  pdn_ip_to_pfcp_ue_ip_address (pdn_type p) (ipv4_address p) (ipv6_address p) ue.

Definition pfcp_to_core_fteid (p : sx_fteid) (f : gtp_fteid) : gtp_fteid :=
  GtpAddress.mk_fteid_t (ft_v4 p) (ft_v6 p) (fc_interface_type f) (ft_teid p) (ft_ipv4_address p) (ft_ipv6_address p).

Definition pfcp_from_core_fteid (f : gtp_fteid) : sx_fteid :=
  PfcpTunnel.mk_fteid_t 0 0 (fc_v4 f) (fc_v6 f) (fc_teid_gre_key f) (fc_ipv4_address f) (fc_ipv6_address f) 0.

Definition pfcp_cause_to_core_cause (pc : sx_cause) (c : gtp_cause) : gtp_cause :=
  let v := cause_cause_value pc in
  GtpScalar.mk_cause_t
    (if v =? CAUSE_VALUE_REQUEST_ACCEPTED then REQUEST_ACCEPTED
     else if v =? CAUSE_VALUE_REQUEST_REJECTED then REQUEST_REJECTED
     else if v =? CAUSE_VALUE_PFCP_ENTITY_IN_CONGESTION then APN_CONGESTION
     else SYSTEM_FAILURE)
    (c_pce c) (c_bce c) (c_cs c) (c_offending_ie_type c) (c_offending_ie_length c) (c_offending_ie_instance c).
