(* ===== verification/PgwContext.v ===== *)
(** * The contexts of the PGW

    [src/oai_spgwc/pgw_context.hpp] and [pgw_context.cpp]: a [pgw_context] per
    subscriber, with its APN contexts, their PDN connections and the bearers of
    each.  The objects are shared: a pointer is a key of the heap that holds
    the objects of its class, and the tables of [pgw_app] and the vectors of the
    contexts hold pointers.  Nothing is removed from the heaps: an object no
    table names any more cannot be reached.

    Also here are the state of [pgw_app] these operations change (its tables of
    TEIDs, IMSIs and SEIDs), the operations on those tables, and the procedures
    as data; what the procedures do is in [PgwProcedure]. *)
From S2P Require Import Prelude UidGenerator PaaDynamic Pco PfcpNode GtpTlv GtpScalar GtpIdentity GtpQos GtpLocation GtpAddress GtpOptions Handler AppMsg.
From Stdlib Require Import ZArith Lia String.
From stdpp Require Import base numbers tactics list strings gmap.
Open Scope Z_scope.

Set Warnings "-register-all".

(** ** EPS bearers *)
Record pgw_eps_bearer := mk_pgw_eps_bearer {
  eb_ebi : ebi_t;
  eb_tft : traffic_flow_template_t;
  eb_sgw_fteid_s5_s8_up : gtp_fteid;
  eb_pgw_fteid_s5_s8_up : gtp_fteid;
  eb_eps_bearer_qos : bearer_qos_t;
  eb_pdr_id_ul : Z;
  eb_pdr_id_dl : Z;
  eb_precedence : Z;
  eb_far_id_ul : bool * Z;
  eb_far_id_dl : bool * Z;
  eb_released : bool;
}.

Definition set_eb_ebi (v : ebi_t) (b : pgw_eps_bearer) : pgw_eps_bearer :=
  mk_pgw_eps_bearer v (eb_tft b) (eb_sgw_fteid_s5_s8_up b) (eb_pgw_fteid_s5_s8_up b) (eb_eps_bearer_qos b)
    (eb_pdr_id_ul b) (eb_pdr_id_dl b) (eb_precedence b) (eb_far_id_ul b) (eb_far_id_dl b) (eb_released b).
Definition set_eb_sgw_fteid_s5_s8_up (v : gtp_fteid) (b : pgw_eps_bearer) : pgw_eps_bearer :=
  mk_pgw_eps_bearer (eb_ebi b) (eb_tft b) v (eb_pgw_fteid_s5_s8_up b) (eb_eps_bearer_qos b) (eb_pdr_id_ul b)
    (eb_pdr_id_dl b) (eb_precedence b) (eb_far_id_ul b) (eb_far_id_dl b) (eb_released b).
Definition set_eb_pgw_fteid_s5_s8_up (v : gtp_fteid) (b : pgw_eps_bearer) : pgw_eps_bearer :=
  mk_pgw_eps_bearer (eb_ebi b) (eb_tft b) (eb_sgw_fteid_s5_s8_up b) v (eb_eps_bearer_qos b) (eb_pdr_id_ul b)
    (eb_pdr_id_dl b) (eb_precedence b) (eb_far_id_ul b) (eb_far_id_dl b) (eb_released b).
Definition set_eb_pdr_id_ul (v : Z) (b : pgw_eps_bearer) : pgw_eps_bearer :=
  mk_pgw_eps_bearer (eb_ebi b) (eb_tft b) (eb_sgw_fteid_s5_s8_up b) (eb_pgw_fteid_s5_s8_up b) (eb_eps_bearer_qos b) v
    (eb_pdr_id_dl b) (eb_precedence b) (eb_far_id_ul b) (eb_far_id_dl b) (eb_released b).
Definition set_eb_pdr_id_dl (v : Z) (b : pgw_eps_bearer) : pgw_eps_bearer :=
  mk_pgw_eps_bearer (eb_ebi b) (eb_tft b) (eb_sgw_fteid_s5_s8_up b) (eb_pgw_fteid_s5_s8_up b) (eb_eps_bearer_qos b)
    (eb_pdr_id_ul b) v (eb_precedence b) (eb_far_id_ul b) (eb_far_id_dl b) (eb_released b).
Definition set_eb_far_id_ul (v : bool * Z) (b : pgw_eps_bearer) : pgw_eps_bearer :=
  mk_pgw_eps_bearer (eb_ebi b) (eb_tft b) (eb_sgw_fteid_s5_s8_up b) (eb_pgw_fteid_s5_s8_up b) (eb_eps_bearer_qos b)
    (eb_pdr_id_ul b) (eb_pdr_id_dl b) (eb_precedence b) v (eb_far_id_dl b) (eb_released b).
Definition set_eb_far_id_dl (v : bool * Z) (b : pgw_eps_bearer) : pgw_eps_bearer :=
  mk_pgw_eps_bearer (eb_ebi b) (eb_tft b) (eb_sgw_fteid_s5_s8_up b) (eb_pgw_fteid_s5_s8_up b) (eb_eps_bearer_qos b)
    (eb_pdr_id_ul b) (eb_pdr_id_dl b) (eb_precedence b) (eb_far_id_ul b) v (eb_released b).
Definition set_eb_released (v : bool) (b : pgw_eps_bearer) : pgw_eps_bearer :=
  mk_pgw_eps_bearer (eb_ebi b) (eb_tft b) (eb_sgw_fteid_s5_s8_up b) (eb_pgw_fteid_s5_s8_up b) (eb_eps_bearer_qos b)
    (eb_pdr_id_ul b) (eb_pdr_id_dl b) (eb_precedence b) (eb_far_id_ul b) (eb_far_id_dl b) v.

(** The constructor, and [clear]. *)
Definition pgw_eps_bearer_init : pgw_eps_bearer :=
  mk_pgw_eps_bearer (mk_ebi_t EPS_BEARER_IDENTITY_UNASSIGNED) (mk_traffic_flow_template_t 0 0 0) fteid_null fteid_null
    gv_init 0 0 0 (false, 0) (false, 0) false.

Definition release_access_bearer (b : pgw_eps_bearer) : pgw_eps_bearer := set_eb_released true b.

(** ** PDN connections *)
Record pgw_pdn_connection := mk_pgw_pdn_connection {
  pc_ipv4 : bool;
  pc_ipv6 : bool;
  pc_ipv4_address : Z;
  pc_ipv6_address : list Z;
  pc_pdn_type : pdn_type_t;
  sgw_fteid_s5_s8_cp : gtp_fteid;
  pgw_fteid_s5_s8_cp : gtp_fteid;
  default_bearer : ebi_t;
  eps_bearers : gmap Z pgw_eps_bearer;
  pc_released : bool;
  pc_seid : Z;
  up_fseid : PfcpNode.fseid_t;
  pdr_id_generator : uint_generator;
  far_id_generator : uint_generator;
}.

Definition set_eps_bearers (v : gmap Z pgw_eps_bearer) (p : pgw_pdn_connection) : pgw_pdn_connection :=
  mk_pgw_pdn_connection (pc_ipv4 p) (pc_ipv6 p) (pc_ipv4_address p) (pc_ipv6_address p) (pc_pdn_type p)
    (sgw_fteid_s5_s8_cp p) (pgw_fteid_s5_s8_cp p) (default_bearer p) v (pc_released p) (pc_seid p) (up_fseid p)
    (pdr_id_generator p) (far_id_generator p).
Definition set_pc_seid (v : Z) (p : pgw_pdn_connection) : pgw_pdn_connection :=
  mk_pgw_pdn_connection (pc_ipv4 p) (pc_ipv6 p) (pc_ipv4_address p) (pc_ipv6_address p) (pc_pdn_type p)
    (sgw_fteid_s5_s8_cp p) (pgw_fteid_s5_s8_cp p) (default_bearer p) (eps_bearers p) (pc_released p) v (up_fseid p)
    (pdr_id_generator p) (far_id_generator p).
Definition set_up_fseid (v : PfcpNode.fseid_t) (p : pgw_pdn_connection) : pgw_pdn_connection :=
  mk_pgw_pdn_connection (pc_ipv4 p) (pc_ipv6 p) (pc_ipv4_address p) (pc_ipv6_address p) (pc_pdn_type p)
    (sgw_fteid_s5_s8_cp p) (pgw_fteid_s5_s8_cp p) (default_bearer p) (eps_bearers p) (pc_released p) (pc_seid p) v
    (pdr_id_generator p) (far_id_generator p).
Definition set_pdr_id_generator (v : uint_generator) (p : pgw_pdn_connection) : pgw_pdn_connection :=
  mk_pgw_pdn_connection (pc_ipv4 p) (pc_ipv6 p) (pc_ipv4_address p) (pc_ipv6_address p) (pc_pdn_type p)
    (sgw_fteid_s5_s8_cp p) (pgw_fteid_s5_s8_cp p) (default_bearer p) (eps_bearers p) (pc_released p) (pc_seid p)
    (up_fseid p) v (far_id_generator p).
Definition set_far_id_generator (v : uint_generator) (p : pgw_pdn_connection) : pgw_pdn_connection :=
  mk_pgw_pdn_connection (pc_ipv4 p) (pc_ipv6 p) (pc_ipv4_address p) (pc_ipv6_address p) (pc_pdn_type p)
    (sgw_fteid_s5_s8_cp p) (pgw_fteid_s5_s8_cp p) (default_bearer p) (eps_bearers p) (pc_released p) (pc_seid p)
    (up_fseid p) (pdr_id_generator p) v.
Definition set_sgw_fteid_s5_s8_cp (v : gtp_fteid) (p : pgw_pdn_connection) : pgw_pdn_connection :=
  mk_pgw_pdn_connection (pc_ipv4 p) (pc_ipv6 p) (pc_ipv4_address p) (pc_ipv6_address p) (pc_pdn_type p) v
    (pgw_fteid_s5_s8_cp p) (default_bearer p) (eps_bearers p) (pc_released p) (pc_seid p) (up_fseid p)
    (pdr_id_generator p) (far_id_generator p).
Definition set_pgw_fteid_s5_s8_cp (v : gtp_fteid) (p : pgw_pdn_connection) : pgw_pdn_connection :=
  mk_pgw_pdn_connection (pc_ipv4 p) (pc_ipv6 p) (pc_ipv4_address p) (pc_ipv6_address p) (pc_pdn_type p)
    (sgw_fteid_s5_s8_cp p) v (default_bearer p) (eps_bearers p) (pc_released p) (pc_seid p) (up_fseid p)
    (pdr_id_generator p) (far_id_generator p).

(** [clear]; the two generators keep what they have handed out. *)
Definition pgw_pdn_connection_clear (p : pgw_pdn_connection) : pgw_pdn_connection :=
  mk_pgw_pdn_connection false false INADDR_ANY in6addr_any gv_init fteid_null fteid_null
    (mk_ebi_t EPS_BEARER_IDENTITY_UNASSIGNED) ∅ false 0 (mk_fseid 0 0 0 0 0 0 0 0) (pdr_id_generator p) (far_id_generator p).

Definition pgw_pdn_connection_new : pgw_pdn_connection :=
  mk_pgw_pdn_connection false false INADDR_ANY in6addr_any gv_init fteid_null fteid_null
    (mk_ebi_t EPS_BEARER_IDENTITY_UNASSIGNED) ∅ false 0 (mk_fseid 0 0 0 0 0 0 0 0) uint_generator_init uint_generator_init.

(** [set(const paa_t&)] *)
Definition pdn_set_paa (paa : paa_t) (p : pgw_pdn_connection) : pgw_pdn_connection :=
  let store ipv4 ipv6 a4 a6 :=
    mk_pgw_pdn_connection ipv4 ipv6 a4 a6 (pc_pdn_type p) (sgw_fteid_s5_s8_cp p) (pgw_fteid_s5_s8_cp p) (default_bearer p)
      (eps_bearers p) (pc_released p) (pc_seid p) (up_fseid p) (pdr_id_generator p) (far_id_generator p) in
  if pdn_type paa =? PDN_TYPE_E_IPV4 then store true false (ipv4_address paa) (pc_ipv6_address p)
  else if pdn_type paa =? PDN_TYPE_E_IPV6 then store false true (pc_ipv4_address p) (ipv6_address paa)
  else if pdn_type paa =? PDN_TYPE_E_IPV4V6 then store true true (ipv4_address paa) (ipv6_address paa)
  else if pdn_type paa =? PDN_TYPE_E_NON_IP then store false false (pc_ipv4_address p) (pc_ipv6_address p)
  else p.

(** The entries of a [std::map<uint8_t, T>], in the order of an iteration. *)
Definition entries {V} (m : gmap Z V) : list (Z * V) := omap (fun k => (k,.) <$> m !! k) (seqZ 0 256).

Definition add_eps_bearer (b : pgw_eps_bearer) (p : pgw_pdn_connection) : pgw_pdn_connection :=
  if valid_ebi (ebi (eb_ebi b)) then set_eps_bearers (<[ebi (eb_ebi b) := b]> (delete (ebi (eb_ebi b)) (eps_bearers p))) p
  else p.

(** [get_eps_bearer(const ebi_t&)]: [eps_bearers[ebi]], which adds a bearer when
    there is none. *)
Definition get_eps_bearer_ref (e : ebi_t) (p : pgw_pdn_connection) : pgw_eps_bearer * pgw_pdn_connection :=
  match eps_bearers p !! ebi e with
  | Some b => (b, p)
  | None => (pgw_eps_bearer_init, set_eps_bearers (<[ebi e := pgw_eps_bearer_init]> (eps_bearers p)) p)
  end.

Definition find_bearer (P : pgw_eps_bearer -> bool) (p : pgw_pdn_connection) : option pgw_eps_bearer :=
  snd <$> find (fun kb => P kb.2) (entries (eps_bearers p)).

(** The three overloads with an output parameter. *)
Definition get_eps_bearer_pdr (rule_id : Z) : pgw_pdn_connection -> option pgw_eps_bearer :=
  find_bearer (fun b => (eb_pdr_id_ul b =? rule_id) || (eb_pdr_id_dl b =? rule_id)).
Definition get_eps_bearer_far (far_id : Z) : pgw_pdn_connection -> option pgw_eps_bearer :=
  find_bearer (fun b => ((eb_far_id_ul b).1 && ((eb_far_id_ul b).2 =? far_id)) ||
                        ((eb_far_id_dl b).1 && ((eb_far_id_dl b).2 =? far_id))).
Definition get_eps_bearer_ebi (e : ebi_t) : pgw_pdn_connection -> option pgw_eps_bearer :=
  find_bearer (fun b => ebi_eqb (eb_ebi b) e).

Definition find_eps_bearer (rule_id : Z) : pgw_pdn_connection -> option pgw_eps_bearer := get_eps_bearer_pdr rule_id.
Definition has_eps_bearer (rule_id : Z) (p : pgw_pdn_connection) : option ebi_t := eb_ebi <$> get_eps_bearer_pdr rule_id p.
Definition remove_eps_bearer (e : ebi_t) (p : pgw_pdn_connection) : pgw_pdn_connection :=
  set_eps_bearers (delete (ebi e) (eps_bearers p)) p.

(** ** APN contexts and subscribers *)
Record apn_context := mk_apn_context {
  in_use : bool;
  apn_in_use : list Z;
  apn_ambr : ambr_t;
  pdn_connections : list nat;
}.

Definition set_pdn_connections (v : list nat) (a : apn_context) : apn_context :=
  mk_apn_context (in_use a) (apn_in_use a) (apn_ambr a) v.

Record pgw_context := mk_pgw_context {
  pg_imsi : imsi_t;
  imsi_unauthenticated_indicator : bool;
  pg_apns : list nat;
  pending_procedures : list nat;
}.

Definition set_pg_imsi (v : imsi_t) (c : pgw_context) : pgw_context :=
  mk_pgw_context v (imsi_unauthenticated_indicator c) (pg_apns c) (pending_procedures c).
Definition set_imsi_unauthenticated_indicator (v : bool) (c : pgw_context) : pgw_context :=
  mk_pgw_context (pg_imsi c) v (pg_apns c) (pending_procedures c).
Definition set_pg_apns (v : list nat) (c : pgw_context) : pgw_context :=
  mk_pgw_context (pg_imsi c) (imsi_unauthenticated_indicator c) v (pending_procedures c).
Definition set_pending_procedures (v : list nat) (c : pgw_context) : pgw_context :=
  mk_pgw_context (pg_imsi c) (imsi_unauthenticated_indicator c) (pg_apns c) v.

Definition pgw_context_new : pgw_context := mk_pgw_context gv_init false [] [].

(** ** Procedures, as data

    The members of the procedures on a PDN connection; [run] assigns the
    messages. *)
Record s5_procedure := mk_s5_procedure {
  sp_ppc : nat;
  sp_s5_trigger : option itti_gtp_msg;
  sp_s5_triggered_pending : option itti_gtp_msg;
  sp_sx_triggered : option itti_sx_msg;
}.
Definition s5_procedure_new (ppc : nat) : s5_procedure := mk_s5_procedure ppc None None None.

Record downlink_procedure := mk_downlink_procedure {
  dp_ppc : option nat;
  dp_pc : option nat;
  dp_sx_trigger : itti_sx_msg;
  dp_s5_triggered : option itti_gtp_msg;
  dp_ebi : ebi_t;
}.

Inductive procedure_body :=
| session_establishment_procedure (p : s5_procedure)
| modify_bearer_procedure (p : s5_procedure)
| release_access_bearers_procedure (p : s5_procedure)
| delete_session_procedure (pc : nat) (p : s5_procedure)
| downlink_data_report_procedure (p : downlink_procedure).

Record pgw_procedure := mk_pgw_procedure { trxn_id : Z; body : procedure_body }.

(** ** The state of the PGW *)
Record pgw_state := mk_pgw_state {
  teid_s5s8_cp_generator : Z;
  s5s8cplteid : gset Z;
  imsi2pgw_context : gmap Z nat;
  s5s8lteid2pgw_context : gmap Z nat;
  seid2pgw_context : gmap Z nat;
  context_heap : gmap nat pgw_context;
  apn_heap : gmap nat apn_context;
  pdn_heap : gmap nat pgw_pdn_connection;
  procedure_heap : gmap nat pgw_procedure;
  next_object : nat;
  pools : paa_dynamic;
  trxn_ids : uint_generator;
  sent_by_pgw : list app_out;
}.

Definition set_teid_s5s8_cp_generator (v : Z) (s : pgw_state) : pgw_state :=
  mk_pgw_state v (s5s8cplteid s) (imsi2pgw_context s) (s5s8lteid2pgw_context s) (seid2pgw_context s) (context_heap s)
    (apn_heap s) (pdn_heap s) (procedure_heap s) (next_object s) (pools s) (trxn_ids s) (sent_by_pgw s).
Definition set_s5s8cplteid (v : gset Z) (s : pgw_state) : pgw_state :=
  mk_pgw_state (teid_s5s8_cp_generator s) v (imsi2pgw_context s) (s5s8lteid2pgw_context s) (seid2pgw_context s)
    (context_heap s) (apn_heap s) (pdn_heap s) (procedure_heap s) (next_object s) (pools s) (trxn_ids s)
    (sent_by_pgw s).
Definition set_imsi2pgw_context (v : gmap Z nat) (s : pgw_state) : pgw_state :=
  mk_pgw_state (teid_s5s8_cp_generator s) (s5s8cplteid s) v (s5s8lteid2pgw_context s) (seid2pgw_context s)
    (context_heap s) (apn_heap s) (pdn_heap s) (procedure_heap s) (next_object s) (pools s) (trxn_ids s)
    (sent_by_pgw s).
Definition set_s5s8lteid2pgw_context (v : gmap Z nat) (s : pgw_state) : pgw_state :=
  mk_pgw_state (teid_s5s8_cp_generator s) (s5s8cplteid s) (imsi2pgw_context s) v (seid2pgw_context s) (context_heap s)
    (apn_heap s) (pdn_heap s) (procedure_heap s) (next_object s) (pools s) (trxn_ids s) (sent_by_pgw s).
Definition set_seid2pgw_context (v : gmap Z nat) (s : pgw_state) : pgw_state :=
  mk_pgw_state (teid_s5s8_cp_generator s) (s5s8cplteid s) (imsi2pgw_context s) (s5s8lteid2pgw_context s) v
    (context_heap s) (apn_heap s) (pdn_heap s) (procedure_heap s) (next_object s) (pools s) (trxn_ids s)
    (sent_by_pgw s).
Definition set_context_heap (v : gmap nat pgw_context) (s : pgw_state) : pgw_state :=
  mk_pgw_state (teid_s5s8_cp_generator s) (s5s8cplteid s) (imsi2pgw_context s) (s5s8lteid2pgw_context s)
    (seid2pgw_context s) v (apn_heap s) (pdn_heap s) (procedure_heap s) (next_object s) (pools s) (trxn_ids s)
    (sent_by_pgw s).
Definition set_apn_heap (v : gmap nat apn_context) (s : pgw_state) : pgw_state :=
  mk_pgw_state (teid_s5s8_cp_generator s) (s5s8cplteid s) (imsi2pgw_context s) (s5s8lteid2pgw_context s)
    (seid2pgw_context s) (context_heap s) v (pdn_heap s) (procedure_heap s) (next_object s) (pools s) (trxn_ids s)
    (sent_by_pgw s).
Definition set_pdn_heap (v : gmap nat pgw_pdn_connection) (s : pgw_state) : pgw_state :=
  mk_pgw_state (teid_s5s8_cp_generator s) (s5s8cplteid s) (imsi2pgw_context s) (s5s8lteid2pgw_context s)
    (seid2pgw_context s) (context_heap s) (apn_heap s) v (procedure_heap s) (next_object s) (pools s) (trxn_ids s)
    (sent_by_pgw s).
Definition set_procedure_heap (v : gmap nat pgw_procedure) (s : pgw_state) : pgw_state :=
  mk_pgw_state (teid_s5s8_cp_generator s) (s5s8cplteid s) (imsi2pgw_context s) (s5s8lteid2pgw_context s)
    (seid2pgw_context s) (context_heap s) (apn_heap s) (pdn_heap s) v (next_object s) (pools s) (trxn_ids s)
    (sent_by_pgw s).
Definition set_next_object (v : nat) (s : pgw_state) : pgw_state :=
  mk_pgw_state (teid_s5s8_cp_generator s) (s5s8cplteid s) (imsi2pgw_context s) (s5s8lteid2pgw_context s)
    (seid2pgw_context s) (context_heap s) (apn_heap s) (pdn_heap s) (procedure_heap s) v (pools s) (trxn_ids s)
    (sent_by_pgw s).
Definition set_pools (v : paa_dynamic) (s : pgw_state) : pgw_state :=
  mk_pgw_state (teid_s5s8_cp_generator s) (s5s8cplteid s) (imsi2pgw_context s) (s5s8lteid2pgw_context s)
    (seid2pgw_context s) (context_heap s) (apn_heap s) (pdn_heap s) (procedure_heap s) (next_object s) v (trxn_ids s)
    (sent_by_pgw s).
Definition set_trxn_ids (v : uint_generator) (s : pgw_state) : pgw_state :=
  mk_pgw_state (teid_s5s8_cp_generator s) (s5s8cplteid s) (imsi2pgw_context s) (s5s8lteid2pgw_context s)
    (seid2pgw_context s) (context_heap s) (apn_heap s) (pdn_heap s) (procedure_heap s) (next_object s) (pools s) v
    (sent_by_pgw s).
Definition set_sent_by_pgw (v : list app_out) (s : pgw_state) : pgw_state :=
  mk_pgw_state (teid_s5s8_cp_generator s) (s5s8cplteid s) (imsi2pgw_context s) (s5s8lteid2pgw_context s)
    (seid2pgw_context s) (context_heap s) (apn_heap s) (pdn_heap s) (procedure_heap s) (next_object s) (pools s)
    (trxn_ids s) v.

Abbreviation pgw := (handler pgw_state).

(** [pgw_config], as far as the application reads it. *)
Record pgw_config := mk_pgw_config {
  s5s8_addr4 : Z;
  cfg_instance : Z;
  sx_addr4 : Z;
  sx_addr6 : Z * Z * Z * Z;                (* [s6_addr32] *)
  pfcp_port : Z;
  gtpv2c_port : Z;
  cfg_pdns : list (list Z * Z);            (* [apn], [pdn_type] *)
  cfg_spgw_app : spgw_app_cfg;
}.

(** What a handler sees of the rest of the process while it runs: the user
    plane nodes ([pfcp_associations]) and the tasks that take messages. *)
Record environment := mk_environment {
  select_up_node : apn_t -> uli_t -> serving_network_t -> rat_type_t -> pdn_type_t -> paa_t -> option PfcpNode.node_id_t;
  association_endpoint : PfcpNode.node_id_t -> option endpoint;
  task_ready : Z -> bool;
}.

(** ** Objects *)
Definition get_pdn (p : nat) : pgw pgw_pdn_connection := x ← gets pdn_heap; deref (x !! p).
Definition put_pdn (p : nat) (x : pgw_pdn_connection) : pgw unit := modify (fun s => set_pdn_heap (<[p := x]> (pdn_heap s)) s).
Definition update_pdn (p : nat) (f : pgw_pdn_connection -> pgw_pdn_connection) : pgw unit := x ← get_pdn p; put_pdn p (f x).

Definition get_apn (a : nat) : pgw apn_context := x ← gets apn_heap; deref (x !! a).
Definition put_apn (a : nat) (x : apn_context) : pgw unit := modify (fun s => set_apn_heap (<[a := x]> (apn_heap s)) s).

Definition get_context (c : nat) : pgw pgw_context := x ← gets context_heap; deref (x !! c).
Definition put_context (c : nat) (x : pgw_context) : pgw unit := modify (fun s => set_context_heap (<[c := x]> (context_heap s)) s).
Definition update_context (c : nat) (f : pgw_context -> pgw_context) : pgw unit := x ← get_context c; put_context c (f x).

Definition get_procedure (q : nat) : pgw pgw_procedure := x ← gets procedure_heap; deref (x !! q).
Definition put_procedure (q : nat) (x : pgw_procedure) : pgw unit :=
  modify (fun s => set_procedure_heap (<[q := x]> (procedure_heap s)) s).

(** [new]: an address nothing has. *)
Definition new_object : pgw nat := n ← gets next_object; _ ← modify (set_next_object (S n)); mret n.

(** [itti_inst->send_msg] *)
Definition send_msg (env : environment) (o : app_out) : pgw bool :=
  if task_ready env (match o with OutGtp d _ | OutSx d _ => d end)
  then _ ← modify (fun s => set_sent_by_pgw (sent_by_pgw s ++ [o]) s); mret true
  else mret false.

(** ** The tables of [pgw_app] *)

(** The [while] of [generate_s5s8_cp_teid]; [None]: still looping when the fuel
    is spent. *)
Fixpoint teid_loop (fuel : nat) (used : gset Z) (teid : Z) : option Z :=
  match fuel with
  | O => None
  | S fuel =>
    if decide (teid ∈ used \/ teid = UNASSIGNED_TEID) then teid_loop fuel used (u32 (teid + 1)) else Some teid
  end.

(** Two more iterations than there are TEIDs in use: the first one and the zero. *)
Definition generate_s5s8_cp_teid : pgw Z :=
  s ← get_state;
  match teid_loop (2 + size (s5s8cplteid s)) (s5s8cplteid s) (u32 (teid_s5s8_cp_generator s + 1)) with
  | Some t =>
    _ ← modify (fun s => set_s5s8cplteid ({[t]} ∪ s5s8cplteid s) (set_teid_s5s8_cp_generator t s)); mret t
  | None => lift Diverge
  end.

Definition is_s5s8c_teid_exist (t : Z) (s : pgw_state) : bool := bool_decide (t ∈ s5s8cplteid s).

Definition build_s5s8_cp_fteid (addr t : Z) : gtp_fteid := GtpAddress.mk_fteid_t 1 0 S5_S8_PGW_GTP_C t addr in6addr_any.

Definition generate_s5s8_cp_fteid (addr : Z) : pgw gtp_fteid := t ← generate_s5s8_cp_teid; mret (build_s5s8_cp_fteid addr t).

(** The entry of the table and the TEID. *)
Definition free_s5s8_cp_fteid (f : gtp_fteid) : pgw unit :=
  modify (fun s => set_s5s8cplteid (s5s8cplteid s ∖ {[fc_teid_gre_key f]})
                     (set_s5s8lteid2pgw_context (delete (fc_teid_gre_key f) (s5s8lteid2pgw_context s)) s)).

Definition s5s8cpgw_fteid_2_pgw_context (f : gtp_fteid) (s : pgw_state) : option nat := s5s8lteid2pgw_context s !! fc_teid_gre_key f.

Definition set_s5s8cpgw_fteid_2_pgw_context (f : gtp_fteid) (c : nat) : pgw unit :=
  modify (fun s => set_s5s8lteid2pgw_context (<[fc_teid_gre_key f := c]> (s5s8lteid2pgw_context s)) s).

Definition set_imsi64_2_pgw_context (i : Z) (c : nat) : pgw unit :=
  modify (fun s => set_imsi2pgw_context (<[i := c]> (imsi2pgw_context s)) s).
Definition set_seid_2_pgw_context (i : Z) (c : nat) : pgw unit :=
  modify (fun s => set_seid2pgw_context (<[i := c]> (seid2pgw_context s)) s).

Definition delete_pgw_context (c : nat) : pgw unit :=
  x ← get_context c;
  modify (fun s => set_imsi2pgw_context (delete (to_imsi64 (pg_imsi x)) (imsi2pgw_context s)) s).

(** ** Pools *)
Definition no_exn {A} (r : result Empty_set A) : result pco_exn A :=
  match r with
  | Val a => Val a
  | Throw e => match e with end
  | UB => UB
  | Diverge => Diverge
  end.

(** [paa_dynamic::get_instance().get_free_paa(apn, paa)] *)
Definition allocate_paa (apn : list Z) (paa : paa_t) : pgw (bool * paa_t) :=
  s ← get_state;
  '(ok, d, paa) ← lift (no_exn (get_free_paa (string_of_octets apn) paa (pools s)));
  _ ← modify (set_pools d); mret (ok, paa).

(** [paa_dynamic::get_instance().release_paa(apn, address)] *)
Definition release_address (apn : list Z) (a : Z) : pgw unit :=
  s ← get_state;
  '(_, d) ← lift (no_exn (release_paa_ipv4 (string_of_octets apn) a (pools s)));
  modify (set_pools d).

(** ** Operations on PDN connections *)
Definition generate_far_id (p : nat) : pgw Z :=
  x ← get_pdn p;
  match get_uid 32 (far_id_generator x) with
  | Some (u, g) => _ ← put_pdn p (set_far_id_generator g x); mret u
  | None => lift Diverge
  end.

Definition generate_pdr_id (p : nat) : pgw Z :=
  x ← get_pdn p;
  match get_uid 16 (pdr_id_generator x) with
  | Some (u, g) => _ ← put_pdn p (set_pdr_id_generator g x); mret u
  | None => lift Diverge
  end.

Definition release_far_id (u : Z) (p : pgw_pdn_connection) : pgw_pdn_connection :=
  set_far_id_generator (free_uid u (far_id_generator p)) p.
Definition release_pdr_id (u : Z) (p : pgw_pdn_connection) : pgw_pdn_connection :=
  set_pdr_id_generator (free_uid u (pdr_id_generator p)) p.

Definition generate_seid (cfg : pgw_config) (p : pgw_pdn_connection) : pgw_pdn_connection :=
  set_pc_seid (Z.lor (fc_teid_gre_key (pgw_fteid_s5_s8_cp p)) (u64 (Z.shiftl (u64 (cfg_instance cfg)) 32))) p.

(** [pgw_pdn_connection::deallocate_ressources] *)
Definition deallocate_pdn (p : nat) (apn : list Z) : pgw unit :=
  x ← get_pdn p;
  _ ← (if pc_ipv4 x then release_address apn (pc_ipv4_address x) else mret tt);
  _ ← free_s5s8_cp_fteid (pgw_fteid_s5_s8_cp x);
  put_pdn p (pgw_pdn_connection_clear x).

(** ** Operations on APN contexts *)

Definition pdn_has_teid (t : Z) (is_local : bool) (p : pgw_pdn_connection) : bool :=
  t =? fc_teid_gre_key (if is_local then pgw_fteid_s5_s8_cp p else sgw_fteid_s5_s8_cp p).

(** The first PDN connection with the property. *)
Definition apn_find (P : pgw_pdn_connection -> bool) (a : nat) (s : pgw_state) : option nat :=
  x ← apn_heap s !! a;
  find (fun p => match pdn_heap s !! p with Some y => P y | None => false end) (pdn_connections x).

(** [apn_context::find_pdn_connection(teid, is_local, pdn)] *)
Definition apn_find_pdn_connection (t : Z) (is_local : bool) : nat -> pgw_state -> option nat := apn_find (pdn_has_teid t is_local).

(** [apn_context::delete_pdn_connection]: the connection is deallocated once
    before the search and once when it is found. *)
Definition apn_delete_pdn_connection (a p : nat) : pgw unit :=
  x ← get_apn a;
  _ ← deallocate_pdn p (apn_in_use x);
  if decide (p ∈ pdn_connections x) then
    _ ← deallocate_pdn p (apn_in_use x);
    put_apn a (set_pdn_connections (erase_first p (pdn_connections x)) x)
  else mret tt.

(** [apn_context::deallocate_ressources] *)
Definition deallocate_apn (a : nat) : pgw unit :=
  x ← get_apn a;
  _ ← fold_handler (fun _ p => deallocate_pdn p (apn_in_use x)) tt (pdn_connections x);
  put_apn a (mk_apn_context false (apn_in_use x) (mk_ambr_t 0 0) []).

(** ** Operations on subscribers *)
Section Subscriber.
Variable c : nat.

(** The first APN context [f] answers for. *)
Definition first_apn {B} (f : nat -> option B) (x : pgw_context) : option (nat * B) :=
  head (omap (fun a => (a,.) <$> f a) (pg_apns x)).

(** [find_pdn_connection(teid, is_local, pdn_connection)] *)
Definition find_pdn_connection (t : Z) (is_local : bool) (s : pgw_state) : option (nat * nat) :=
  x ← context_heap s !! c; first_apn (fun a => apn_find_pdn_connection t is_local a s) x.

(** [find_apn_context(apn, apn_context)] *)
Definition find_apn_context (apn : list Z) (s : pgw_state) : option nat :=
  x ← context_heap s !! c;
  find (fun a => match apn_heap s !! a with Some y => bool_decide (apn = apn_in_use y) | None => false end) (pg_apns x).

(** [find_pdn_connection(apn, teid, is_local, pdn_connection)] *)
Definition find_pdn_connection_apn (apn : list Z) (t : Z) (is_local : bool) (s : pgw_state) : option (nat * nat) :=
  a ← find_apn_context apn s; (a,.) <$> apn_find_pdn_connection t is_local a s.

(** [find_pdn_connection(pdr_id, pdn, ebi)] *)
Definition find_pdn_connection_pdr (rule_id : Z) (s : pgw_state) : option (nat * ebi_t) :=
  x ← context_heap s !! c;
  '(_, p) ← first_apn (fun a => apn_find (fun y => bool_decide (is_Some (has_eps_bearer rule_id y))) a s) x;
  y ← pdn_heap s !! p; (p,.) <$> has_eps_bearer rule_id y.

Definition delete_apn_context (a : nat) : pgw unit :=
  x ← get_context c;
  if decide (a ∈ pg_apns x) then
    _ ← deallocate_apn a; update_context c (fun x => set_pg_apns (erase_first a (pg_apns x)) x)
  else mret tt.

Definition delete_pdn_connection (a p : nat) : pgw unit :=
  _ ← apn_delete_pdn_connection a p;
  x ← get_apn a;
  if decide (pdn_connections x = []) then delete_apn_context a else mret tt.

Definition insert_apn (a : nat) : pgw unit := update_context c (fun x => set_pg_apns (pg_apns x ++ [a]) x).

Definition insert_procedure (q : nat) : pgw unit :=
  update_context c (fun x => set_pending_procedures (pending_procedures x ++ [q]) x).

Definition remove_procedure (q : nat) : pgw unit :=
  update_context c (fun x => set_pending_procedures (erase_first q (pending_procedures x)) x).

Definition find_procedure (t : Z) (s : pgw_state) : option nat :=
  x ← context_heap s !! c;
  find (fun q => match procedure_heap s !! q with Some y => trxn_id y =? t | None => false end) (pending_procedures x).
End Subscriber.

(** [apn_context::insert_pdn_connection] *)
Definition insert_pdn_connection (a p : nat) : pgw unit :=
  x ← get_apn a; put_apn a (set_pdn_connections (pdn_connections x ++ [p]) x).

(** The constructor of a procedure: a new object with a new transaction id. *)
Definition new_procedure (b : procedure_body) : pgw nat :=
  s ← get_state;
  match get_uid 64 (trxn_ids s) with
  | Some (u, g) =>
    _ ← modify (set_trxn_ids g); q ← new_object; _ ← put_procedure q (mk_pgw_procedure u b); mret q
  | None => lift Diverge
  end.
