(* ===== verification/PgwProcedure.v ===== *)
(** * The procedures of the PGW

    [src/oai_spgwc/pgwc_procedure.cpp]: what the PGW does for a request on a PDN
    connection.  [run] builds the PFCP request for the user plane and sends it;
    [handle_itti_msg] takes the response and sends the GTP response that [run]
    kept.  The integer a [run] returns is kept: [RETURNok] leaves the procedure
    pending, anything else makes the caller remove it. *)
From S2P Require Import Prelude UidGenerator PaaDynamic Itti PfcpNode UpNodes GtpTlv GtpScalar GtpIdentity GtpQos GtpLocation GtpAddress Container GtpContainer GtpMessages.
From S2P Require Import PfcpScalar PfcpTunnel PfcpIe PfcpTables PfcpContainer Handler AppMsg PgwContext.
From Stdlib Require Import ZArith Lia String.
From stdpp Require Import base numbers tactics list strings gmap.
Open Scope Z_scope.

Set Warnings "-register-all".

(** ** [sx_session_restore_procedure]

    The sessions are sent to the application 64 at a time. *)
Section Restore.
Variable send : gset fseid_t -> bool.

(** The loop, the message being filled and the messages sent so far. *)
Fixpoint restore_loop (l : list fseid_t) (cur : gset fseid_t) (out : list (gset fseid_t)) : gset fseid_t * list (gset fseid_t) :=
  match l with
  | [] => (cur, out)
  | x :: l =>
    let cur := {[x]} ∪ cur in
    if 64 <=? Z.of_nat (size cur) then restore_loop l ∅ (if send cur then out ++ [cur] else out)
    else restore_loop l cur out
  end.

Definition sx_session_restore_run (pending_sessions : list fseid_t) : Z * list (gset fseid_t) :=
  let '(cur, out) := restore_loop pending_sessions ∅ [] in
  if decide (cur = ∅) then (RETURNok, out)
  else if send cur then (RETURNok, out ++ [cur]) else (RETURNerror, out).
End Restore.

(** ** Configuration *)
Definition addr6_some (a : Z * Z * Z * Z) : bool :=
  let '(w0, w1, w2, w3) := a in negb (Z.lor (Z.lor (Z.lor w0 w1) w2) w3 =? 0).

(** [pgw_config::GetPfcpNodeId] *)
Definition GetPfcpNodeId (cfg : pgw_config) : Z * PfcpNode.node_id_t :=
  if negb (sx_addr4 cfg =? 0) then (RETURNok, PfcpNode.mk_node_id NODE_ID_TYPE_IPV4_ADDRESS (sx_addr4 cfg) 0 0 0 "")
  else if addr6_some (sx_addr6 cfg) then
    let '(w0, w1, w2, w3) := sx_addr6 cfg in (RETURNok, PfcpNode.mk_node_id NODE_ID_TYPE_IPV6_ADDRESS w0 w1 w2 w3 "")
  else (RETURNerror, node_id_init).

(** [pgw_config::GetPfcpFseid], with the SEID the caller stores. *)
Definition GetPfcpFseid (cfg : pgw_config) (s : Z) : PfcpNode.fseid_t :=
  let '(v6, (w0, w1, w2, w3)) := if addr6_some (sx_addr6 cfg) then (1, sx_addr6 cfg) else (0, (0, 0, 0, 0)) in
  if negb (sx_addr4 cfg =? 0) then mk_fseid 1 v6 s (sx_addr4 cfg) w0 w1 w2 w3 else mk_fseid 0 v6 s 0 w0 w1 w2 w3.

(** ** The rules of a session *)
Definition action_forw : apply_action_t := mk_apply_action_t 0 1 0 0 0.
Definition action_nocp : apply_action_t := mk_apply_action_t 0 0 0 1 0.
Definition action_drop : apply_action_t := mk_apply_action_t 1 0 0 0 0.
Definition fteid_choose : sx_fteid := PfcpTunnel.mk_fteid_t 0 1 0 0 0 0 in6addr_any 0.

Definition make_forwarding (dest : Z) (header : option outer_header_creation_t) : sx_ies :=
  let o := set_element forwarding_parameters_class Edestination_interface (mk_destination_interface_t dest)
             (object_init forwarding_parameters_class) in
  match header with
  | Some h => set_element forwarding_parameters_class Eouter_header_creation h o
  | None => o
  end.

(** A FAR that forwards. *)
Definition make_create_far (far_id : Z) (forwarding : sx_ies) : sx_ies :=
  set_group create_far_class Gforwarding_parameters forwarding
    (set_element create_far_class Eapply_action action_forw
      (set_element create_far_class Efar_id (mk_far_id_t far_id) (object_init create_far_class))).

Definition make_update_far (far_id : Z) (action : apply_action_t) : sx_ies :=
  set_element update_far_class Eapply_action action
    (set_element update_far_class Efar_id (mk_far_id_t far_id) (object_init update_far_class)).

Definition gtpu_header (t addr : Z) : outer_header_creation_t :=
  mk_outer_header_creation_t OUTER_HEADER_CREATION_GTPU_UDP_IPV4 t addr in6addr_any 0.

(** The PDR for uplink packets: the user plane chooses its F-TEID. *)
Definition make_uplink_pdr (pdr_id precedence far_id : Z) (ue : ue_ip_address_t) : sx_ies :=
  let pdi :=
    set_element pdi_class Eue_ip_address ue
      (set_element pdi_class Efteid fteid_choose
        (set_element pdi_class Esource_interface (mk_source_interface_t INTERFACE_VALUE_ACCESS) (object_init pdi_class))) in
  set_element create_pdr_class Efar_id (mk_far_id_t far_id)
    (set_element create_pdr_class Eouter_header_removal (mk_outer_header_removal_t OUTER_HEADER_REMOVAL_GTPU_UDP_IPV4)
      (set_group create_pdr_class Gpdi pdi
        (set_element create_pdr_class Eprecedence (mk_precedence_t precedence)
          (set_element create_pdr_class Epdr_id (mk_pdr_id_t pdr_id) (object_init create_pdr_class))))).

(** The PDR for downlink packets. *)
Definition make_downlink_pdr (pdr_id precedence far_id : Z) (ue : ue_ip_address_t) : sx_ies :=
  let pdi :=
    set_element pdi_class Eue_ip_address ue
      (set_element pdi_class Esource_interface (mk_source_interface_t INTERFACE_VALUE_CORE) (object_init pdi_class)) in
  set_element create_pdr_class Efar_id (mk_far_id_t far_id)
    (set_group create_pdr_class Gpdi pdi
      (set_element create_pdr_class Eprecedence (mk_precedence_t precedence)
        (set_element create_pdr_class Epdr_id (mk_pdr_id_t pdr_id) (object_init create_pdr_class)))).

(** [if (RETURNok != ret) return RETURNerror; return RETURNok;] *)
Definition return_code (ok : bool) : Z := if ok then RETURNok else RETURNerror.

(** ** [session_establishment_procedure] *)
Abbreviation establishment := pfcp_session_establishment_request_class.

(** The body of the loop over the bearers to be created. *)
Definition establish_bearer (ppc : nat) (paa : paa_t) (ies : sx_ies) (it : fields value) : pgw sx_ies :=
  far_id ← generate_far_id ppc;
  let create_far := make_create_far far_id (make_forwarding INTERFACE_VALUE_CORE None) in
  pdr_id ← generate_pdr_id ppc;
  let create_pdr := make_uplink_pdr pdr_id (bq_pl (member "bearer_level_qos" it)) far_id
                      (paa_to_pfcp_ue_ip_address paa ue_ip_address_init) in
  let b := set_eb_ebi (member "eps_bearer_id" it) (set_eb_pdr_id_ul pdr_id (set_eb_far_id_ul (true, far_id) pgw_eps_bearer_init)) in
  _ ← update_pdn ppc (add_eps_bearer b);
  mret (set_group establishment Gcreate_far create_far (set_group establishment Gcreate_pdr create_pdr ies)).

(** It returns the response too: the shared message with what [run] has set. *)
Definition session_establishment_run (cfg : pgw_config) (env : environment) (q ppc : nat) (req resp : itti_gtp_msg) (pc : nat)
  : pgw (Z * itti_gtp_msg) :=
  match select_up_node env (msg_member "apn" req) (msg_member "uli" req) (msg_member "serving_network" req)
          (msg_member "rat_type" req) (msg_member "pdn_type" req) (msg_member "paa" req) with
  | None => mret (RETURNerror, msg_set 0 (cause_pce NO_RESOURCES_AVAILABLE) resp)
  | Some up_node_id =>
    match association_endpoint env up_node_id with
    | None => mret (RETURNerror, msg_set 0 (cause_pce SYSTEM_FAILURE) resp)
    | Some remote_endpoint =>
      _ ← update_pdn ppc (generate_seid cfg);
      x ← get_pdn ppc;
      y ← get_procedure q;
      let cp_fseid := GetPfcpFseid cfg (pc_seid x) in
      let ies := set_element establishment Ef_seid cp_fseid
                   (set_element establishment Enode_id (GetPfcpNodeId cfg).2 (object_init establishment)) in
      ies ← fold_handler (establish_bearer ppc (msg_member "paa" resp)) ies (contexts "bearer_contexts_to_be_created" req);
      let sx := mk_itti_sx_msg pfcp_session_establishment_request_message remote_endpoint 0 (trxn_id y) ies in
      _ ← put_procedure q (mk_pgw_procedure (trxn_id y)
            (session_establishment_procedure (mk_s5_procedure ppc (Some req) (Some resp) (Some sx))));
      _ ← set_seid_2_pgw_context (fs_seid cp_fseid) pc;
      ok ← send_msg env (OutSx TASK_PGWC_SX sx);
      mret (return_code ok, resp)
    end
  end.

(** A created PDR: the F-TEID of the user plane goes to the bearer of the rule. *)
Definition establishment_created_pdr (it : sx_ies) (x : pgw_pdn_connection) : pgw_pdn_connection :=
  match sx_get_element created_pdr_class Epdr_id it with
  | Some pdr_id =>
    match get_eps_bearer_pdr (pdr_id_rule_id pdr_id) x with
    | Some b =>
      match sx_get_element created_pdr_class Efteid it with
      | Some f =>
        add_eps_bearer (set_eb_pgw_fteid_s5_s8_up
          (fteid_with_interface S5_S8_PGW_GTP_U (pfcp_to_core_fteid f (eb_pgw_fteid_s5_s8_up b))) b) x
      | None => x
      end
    | None => x
    end
  | None => x
  end.

Abbreviation bcc_created := bearer_context_created_within_create_session_response_class.
Definition created_slot : slot := (First, "bearer_contexts_created").

(** The bearer context of the response for a bearer of the request. *)
Definition bearer_context_created (x : pgw_pdn_connection) (it : fields value) : fields value :=
  let '(b, cause, bcc) :=
    match get_eps_bearer_ebi (member "eps_bearer_id" it) x with
    | None => (pgw_eps_bearer_init, SYSTEM_FAILURE, class_init bcc_created)
    | Some b =>
      if fteid_is_zero (eb_pgw_fteid_s5_s8_up b) then (b, SYSTEM_FAILURE, class_init bcc_created)
      else (b, REQUEST_ACCEPTED, ies_set bcc_created 2 (eb_pgw_fteid_s5_s8_up b) (class_init bcc_created))
    end in
  ies_set bcc_created 0 (cause_of cause) (ies_set bcc_created 0 (eb_ebi b) bcc).

Definition add_bearer_context_created (x : fields value) : itti_gtp_msg -> itti_gtp_msg := add_bearer_context created_slot x.

Definition session_establishment_handle (env : environment) (p : s5_procedure) (resp : itti_sx_msg) : pgw unit :=
  let ppc := sp_ppc p in
  let cause := default (PfcpScalar.mk_cause_t 0) (sx_get_element pfcp_session_establishment_response_class Ecause (pfcp_ies resp)) in
  _ ← (if cause_cause_value cause =? CAUSE_VALUE_REQUEST_ACCEPTED then
         match sx_get_element pfcp_session_establishment_response_class Ef_seid (pfcp_ies resp) with
         | Some f => update_pdn ppc (set_up_fseid f)
         | None => mret tt
         end
       else mret tt);
  _ ← fold_handler (fun _ it => update_pdn ppc (establishment_created_pdr it)) tt (sx_groups "created_pdrs" (pfcp_ies resp));
  req ← deref (sp_s5_trigger p);
  pending ← deref (sp_s5_triggered_pending p);
  x ← get_pdn ppc;
  let pending := foldl (fun m it => add_bearer_context_created (bearer_context_created x it) m) pending
                   (contexts "bearer_contexts_to_be_created" req) in
  _ ← send_msg env (OutGtp TASK_PGWC_S5S8 pending); mret tt.

(** ** [modify_bearer_procedure] *)
Abbreviation modification := pfcp_session_modification_request_class.
Abbreviation bcc_modified := bearer_context_modified_within_modify_bearer_response_class.
Abbreviation bc_to_modify := bearer_context_to_be_modified_within_modify_bearer_request_class.
Definition modified_slot : slot := (First, "bearer_contexts_modified").

Definition add_bearer_context_modified (x : fields value) : itti_gtp_msg -> itti_gtp_msg := add_bearer_context modified_slot x.

(** The request to the user plane, the response and [send_sx]. *)
Record modify_acc := mk_modify_acc { ma_ies : sx_ies; ma_resp : itti_gtp_msg; ma_send : bool }.

Definition acc_add (g : group) (o : sx_ies) (m : modify_acc) : modify_acc :=
  mk_modify_acc (set_group modification g o (ma_ies m)) (ma_resp m) true.

(** A bearer that is answered at once. *)
Definition acc_answer (cause : gtp_cause) (bearer_cause : Z) (e : ebi_t) (m : modify_acc) : modify_acc :=
  let bcc := ies_set bcc_modified 0 (cause_of bearer_cause) (ies_set bcc_modified 0 e (class_init bcc_modified)) in
  mk_modify_acc (ma_ies m) (add_bearer_context_modified bcc (msg_set 0 cause (ma_resp m))) (ma_send m).

Definition ue_ip_address_of_pdn (x : pgw_pdn_connection) : ue_ip_address_t :=
  let u := ue_ip_address_init in
  let u := if pc_ipv4 x then mk_ue_ip_address_t (ue_ipv6d u) 1 1 (ue_v6 u) (pc_ipv4_address x) (ue_ipv6_address u)
                               (ue_ipv6_prefix_delegation_bits u) else u in
  if pc_ipv6 x then mk_ue_ip_address_t (ue_ipv6d u) (ue_sd u) (ue_v4 u) 1 (ue_ipv4_address u) (pc_ipv6_address x)
                      (ue_ipv6_prefix_delegation_bits u) else u.

(** The FAR of the downlink: updated when the bearer has one, else created. *)
Definition modify_downlink_far (ppc : nat) (v : gtp_fteid) (it : fields value) (b : pgw_eps_bearer) (m : modify_acc)
  : pgw (Z * pgw_eps_bearer * modify_acc) :=
  if (eb_far_id_dl b).1 && negb ((eb_far_id_dl b).2 =? 0) then
    let far_id := (eb_far_id_dl b).2 in
    let forwarding := set_element update_forwarding_parameters_class Eouter_header_creation
                        (gtpu_header (fc_teid_gre_key v) (fc_ipv4_address v)) (object_init update_forwarding_parameters_class) in
    let update_far := set_element update_far_class Eapply_action action_forw
                        (set_group update_far_class Gupdate_forwarding_parameters forwarding
                          (set_element update_far_class Efar_id (mk_far_id_t far_id) (object_init update_far_class))) in
    mret (far_id, set_eb_far_id_dl (true, far_id) b, acc_add Gupdate_far update_far m)
  else
    far_id ← generate_far_id ppc;
    let f : gtp_fteid := member "s1_u_enb_fteid" it in
    let create_far := make_create_far far_id
                        (make_forwarding INTERFACE_VALUE_ACCESS (Some (gtpu_header (fc_teid_gre_key f) (fc_ipv4_address f)))) in
    mret (far_id, set_eb_far_id_dl (true, far_id) b, acc_add Gcreate_far create_far m).

(** The PDR of the downlink: created when the bearer has none, else the FAR of
    the uplink is updated. *)
Definition modify_downlink_pdr (ppc : nat) (far_id : Z) (b : pgw_eps_bearer) (m : modify_acc) : pgw (pgw_eps_bearer * modify_acc) :=
  if eb_pdr_id_dl b =? 0 then
    x ← get_pdn ppc;
    pdr_id ← generate_pdr_id ppc;
    let create_pdr := make_downlink_pdr pdr_id (bq_pl (eb_eps_bearer_qos b)) far_id (ue_ip_address_of_pdn x) in
    mret (set_eb_pdr_id_dl pdr_id b, acc_add Gcreate_pdr create_pdr m)
  else
    mret (set_eb_far_id_dl (true, (eb_far_id_dl b).2) b,
          acc_add Gupdate_far (make_update_far (eb_far_id_ul b).2 action_forw) m).

(** The rules of the uplink, when the bearer has an F-TEID and has lost them. *)
Definition modify_uplink (ppc : nat) (b : pgw_eps_bearer) (m : modify_acc) : pgw (pgw_eps_bearer * modify_acc) :=
  if fteid_is_zero (eb_pgw_fteid_s5_s8_up b) then mret (b, m)
  else
    '(far_id, b, m) ←
      (if negb (eb_far_id_ul b).1 || ((eb_far_id_ul b).2 =? 0) then
         far_id ← generate_far_id ppc;
         mret (far_id, set_eb_far_id_ul (true, far_id) b,
               acc_add Gcreate_far (make_create_far far_id (make_forwarding INTERFACE_VALUE_CORE None)) m)
       else mret ((eb_far_id_ul b).2, b, m));
    if eb_pdr_id_ul b =? 0 then
      x ← get_pdn ppc;
      pdr_id ← generate_pdr_id ppc;
      let ue := pdn_ip_to_pfcp_ue_ip_address (pt_pdn_type (pc_pdn_type x)) (pc_ipv4_address x) (pc_ipv6_address x) ue_ip_address_init in
      mret (set_eb_pdr_id_ul pdr_id b,
            acc_add Gcreate_pdr (make_uplink_pdr pdr_id (bq_pl (eb_eps_bearer_qos b)) far_id ue) m)
    else mret (b, m).

(** [peb] is a reference: what the body changes is in the map, at the key it was
    got with, before [add_eps_bearer] stores the copy. *)
Definition store_bearer (ppc : nat) (e : ebi_t) (b : pgw_eps_bearer) : pgw unit :=
  update_pdn ppc (fun x => add_eps_bearer b (set_eps_bearers (<[ebi e := b]> (eps_bearers x)) x)).

(** The body of the loop over the bearers to be modified. *)
Definition modify_bearer (ppc : nat) (m : modify_acc) (it : fields value) : pgw modify_acc :=
  let e : ebi_t := member "eps_bearer_id" it in
  x ← get_pdn ppc;
  let '(peb, x) := get_eps_bearer_ref e x in
  _ ← put_pdn ppc x;
  if negb (ebi_eqb (eb_ebi peb) e) then mret (acc_answer (cause_pce SYSTEM_FAILURE) SYSTEM_FAILURE (eb_ebi peb) m)
  else
    match ies_get_x bc_to_modify "s1_u_enb_fteid" it with
    | Some v =>
      if fteid_eqb v (eb_sgw_fteid_s5_s8_up peb) && negb (eb_released peb)
      then mret (acc_answer (cause_pce REQUEST_ACCEPTED) REQUEST_ACCEPTED (eb_ebi peb) m)
      else
        '(far_id, peb, m) ← modify_downlink_far ppc v it peb m;
        '(peb, m) ← modify_downlink_pdr ppc far_id peb m;
        '(peb, m) ← modify_uplink ppc peb m;
        _ ← store_bearer ppc e peb; mret m
    | None =>
      '(peb, m) ← modify_uplink ppc peb m;
      _ ← store_bearer ppc e peb; mret m
    end.

Definition modify_bearer_run (cfg : pgw_config) (env : environment) (q ppc : nat) (req resp : itti_gtp_msg) : pgw Z :=
  x ← get_pdn ppc;
  y ← get_procedure q;
  let resp := gtp_address (gtpc_tx_id req) (teid resp) (r_endpoint resp) resp in
  let ep := endpoint_of (fs_ipv4_address (up_fseid x)) (pfcp_port cfg) in
  m ← fold_handler (modify_bearer ppc) (mk_modify_acc (object_init modification) resp false)
        (contexts "bearer_contexts_to_be_modified" req);
  let sx := mk_itti_sx_msg pfcp_session_modification_request_message ep (fs_seid (up_fseid x)) (trxn_id y) (ma_ies m) in
  _ ← put_procedure q (mk_pgw_procedure (trxn_id y)
        (modify_bearer_procedure (mk_s5_procedure ppc (Some req) (Some (ma_resp m)) (Some sx))));
  if ma_send m then ok ← send_msg env (OutSx TASK_PGWC_SX sx); mret (return_code ok)
  else _ ← send_msg env (OutGtp TASK_PGWC_S5S8 (ma_resp m)); mret RETURNclear.

(** The F-TEIDs of the access side in a bearer context. *)
Definition access_fteid (it : fields value) (b : pgw_eps_bearer) : pgw_eps_bearer :=
  let b := match ies_get_x bc_to_modify "s5_s8_u_sgw_fteid" it with Some f => set_eb_sgw_fteid_s5_s8_up f b | None => b end in
  match ies_get_x bc_to_modify "s1_u_enb_fteid" it with Some f => set_eb_sgw_fteid_s5_s8_up f b | None => b end.

Definition bearer_context_modified (b : pgw_eps_bearer) : fields value :=
  ies_set bcc_modified 0 (cause_of REQUEST_ACCEPTED)
    (ies_set bcc_modified 0 (eb_ebi b)
      (ies_set_x bcc_modified "s1_u_sgw_fteid" (eb_pgw_fteid_s5_s8_up b) (class_init bcc_modified))).

(** A created PDR; the inner loop leaves after the first bearer context, which it
    erases from the request. *)
Definition modification_created_pdr (ppc : nat) (rs : list (fields value) * itti_gtp_msg) (it : sx_ies)
  : pgw (list (fields value) * itti_gtp_msg) :=
  match sx_get_element created_pdr_class Epdr_id it with
  | None => mret rs
  | Some pdr_id =>
    x ← get_pdn ppc;
    match get_eps_bearer_pdr (pdr_id_rule_id pdr_id) x, rs.1 with
    | Some b, to_be_modified :: rest =>
      let b := access_fteid to_be_modified b in
      let b := match sx_get_element created_pdr_class Efteid it with
               | Some f => set_eb_pgw_fteid_s5_s8_up
                             (fteid_with_interface S5_S8_PGW_GTP_U (pfcp_to_core_fteid f (eb_pgw_fteid_s5_s8_up b))) b
               | None => b
               end in
      let b := set_eb_released false b in
      _ ← put_pdn ppc (add_eps_bearer b x);
      mret (rest, add_bearer_context_modified (bearer_context_modified b) rs.2)
    | _, _ => mret rs
    end
  end.

(** An updated FAR, for the first bearer context with the identity of its
    bearer. *)
Definition modification_updated_far (ppc : nat) (ctxs : list (fields value)) (resp : itti_gtp_msg) (it : sx_ies) : pgw itti_gtp_msg :=
  match sx_get_element update_far_class Efar_id it with
  | None => mret resp
  | Some far_id =>
    x ← get_pdn ppc;
    match get_eps_bearer_far (far_id_far_id far_id) x with
    | None => mret resp
    | Some b =>
      match find (fun c => ebi_eqb (member "eps_bearer_id" c) (eb_ebi b)) ctxs with
      | None => mret resp
      | Some c =>
        let b := access_fteid c b in
        _ ← put_pdn ppc (add_eps_bearer b x);
        mret (add_bearer_context_modified (bearer_context_modified b) resp)
      end
    end
  end.

(** The cause after comparing with one context of the response. *)
Definition cause_with (c : gtp_cause) (bearer_cause : Z) : gtp_cause :=
  if ((c_cause_value c =? REQUEST_ACCEPTED) && negb (bearer_cause =? REQUEST_ACCEPTED)) ||
     (negb (c_cause_value c =? REQUEST_ACCEPTED) && (bearer_cause =? REQUEST_ACCEPTED))
  then GtpScalar.mk_cause_t REQUEST_ACCEPTED_PARTIALLY (c_pce c) (c_bce c) (c_cs c) (c_offending_ie_type c)
         (c_offending_ie_length c) (c_offending_ie_instance c)
  else c.

Definition modification_cause (resp : itti_gtp_msg) (c : gtp_cause) (it : fields value) : gtp_cause :=
  match ies_get bc_to_modify 0 it with
  | Some e =>
    match find (fun m => match ies_get bcc_modified 0 m with Some d => ebi_eqb d e | None => false end)
            (contexts "bearer_contexts_modified" resp) with
    | Some m => cause_with c (c_cause_value (member "cause" m))
    | None => c
    end
  | None => c
  end.

Definition modify_bearer_handle (env : environment) (p : s5_procedure) (resp : itti_sx_msg) : pgw unit :=
  let ppc := sp_ppc p in
  req ← deref (sp_s5_trigger p);
  pending ← deref (sp_s5_triggered_pending p);
  let got := sx_get_element pfcp_session_modification_response_class Ecause (pfcp_ies resp) in
  let cause_gtp := match got with
                   | Some c => pfcp_cause_to_core_cause c (cause_of REQUEST_ACCEPTED)
                   | None => cause_of REQUEST_ACCEPTED
                   end in
  '(ctxs, pending) ← fold_handler (modification_created_pdr ppc) (contexts "bearer_contexts_to_be_modified" req, pending)
                       (sx_groups "created_pdrs" (pfcp_ies resp));
  pending ←
    (if cause_cause_value (default (PfcpScalar.mk_cause_t 0) got) =? CAUSE_VALUE_REQUEST_ACCEPTED then
       sx ← deref (sp_sx_triggered p);
       fold_handler (modification_updated_far ppc ctxs) pending (sx_groups "update_fars" (pfcp_ies sx))
     else mret pending);
  let cause_gtp := foldl (modification_cause pending) cause_gtp ctxs in
  _ ← send_msg env (OutGtp TASK_PGWC_S5S8 (msg_set 0 cause_gtp pending)); mret tt.

(** ** [release_access_bearers_procedure] *)

(** The updates of one bearer. *)
Definition release_bearer (ies : sx_ies) (b : pgw_eps_bearer) : sx_ies :=
  let ies := if (eb_far_id_dl b).1 then set_group modification Gupdate_far (make_update_far (eb_far_id_dl b).2 action_nocp) ies
             else ies in
  if (eb_far_id_ul b).1 then set_group modification Gupdate_far (make_update_far (eb_far_id_ul b).2 action_drop) ies else ies.

(** The key [add_eps_bearer] erases before it inserts: [erase] invalidates every
    iterator at that element, and the insertion does not revive it. *)
Definition erased_key (b : pgw_eps_bearer) : option Z :=
  if valid_ebi (ebi (eb_ebi b)) then Some (ebi (eb_ebi b)) else None.

(** [++it] of the range-based [for], with [it] at the key [k]: undefined in C++
    when its element has been erased, whatever a given library does then. *)
Definition next_iterator {A} (k : Z) (erased : option Z) (next : pgw A) : pgw A :=
  if decide (erased = Some k) then undefined else next.

(** The loop over [eps_bearers]. *)
Fixpoint release_loop (ppc : nat) (l : list (Z * pgw_eps_bearer)) (ies : sx_ies) : pgw sx_ies :=
  match l with
  | [] => mret ies
  | (k, b) :: l =>
    _ ← update_pdn ppc (add_eps_bearer (release_access_bearer b));
    next_iterator k (erased_key b) (release_loop ppc l (release_bearer ies b))
  end.

Definition release_access_bearers_run (cfg : pgw_config) (env : environment) (q ppc : nat) (req resp : itti_gtp_msg) : pgw Z :=
  x ← get_pdn ppc;
  y ← get_procedure q;
  let resp := gtp_address (gtpc_tx_id req) (teid resp) (r_endpoint resp) resp in
  let ep := endpoint_of (fs_ipv4_address (up_fseid x)) (pfcp_port cfg) in
  ies ← release_loop ppc (entries (eps_bearers x)) (object_init modification);
  let sx := mk_itti_sx_msg pfcp_session_modification_request_message ep (fs_seid (up_fseid x)) (trxn_id y) ies in
  _ ← put_procedure q (mk_pgw_procedure (trxn_id y)
        (release_access_bearers_procedure (mk_s5_procedure ppc (Some req) (Some resp) (Some sx))));
  ok ← send_msg env (OutSx TASK_PGWC_SX sx); mret (return_code ok).

Definition release_access_bearers_handle (env : environment) (p : s5_procedure) (resp : itti_sx_msg) : pgw unit :=
  let c := default (PfcpScalar.mk_cause_t 0) (sx_get_element pfcp_session_modification_response_class Ecause (pfcp_ies resp)) in
  pending ← deref (sp_s5_triggered_pending p);
  _ ← send_msg env (OutGtp TASK_PGWC_S5S8 (msg_set 0 (pfcp_cause_to_core_cause c (cause_of 0)) pending)); mret tt.

(** ** [delete_session_procedure] *)
Definition delete_session_run (cfg : pgw_config) (env : environment) (q pc ppc : nat) (req resp : itti_gtp_msg) : pgw Z :=
  x ← get_pdn ppc;
  y ← get_procedure q;
  let resp := gtp_address (gtpc_tx_id req) (teid resp) (r_endpoint resp) resp in
  let ep := endpoint_of (fs_ipv4_address (up_fseid x)) (pfcp_port cfg) in
  let sx := mk_itti_sx_msg pfcp_session_deletion_request_message ep (fs_seid (up_fseid x)) (trxn_id y)
              (object_init pfcp_session_deletion_request_class) in
  _ ← put_procedure q (mk_pgw_procedure (trxn_id y)
        (delete_session_procedure pc (mk_s5_procedure ppc (Some req) (Some resp) (Some sx))));
  ok ← send_msg env (OutSx TASK_PGWC_SX sx); mret (return_code ok).

(** Every cause but one is a missing context. *)
Definition deletion_cause (c : option sx_cause) : gtp_cause :=
  match c with
  | Some c => if cause_cause_value c =? CAUSE_VALUE_REQUEST_ACCEPTED then cause_of REQUEST_ACCEPTED else cause_of CONTEXT_NOT_FOUND
  | None => cause_of REQUEST_ACCEPTED
  end.

Definition delete_session_handle (env : environment) (pc : nat) (p : s5_procedure) (resp : itti_sx_msg) : pgw unit :=
  pending ← deref (sp_s5_triggered_pending p);
  let c := deletion_cause (sx_get_element pfcp_session_deletion_response_class Ecause (pfcp_ies resp)) in
  _ ← send_msg env (OutGtp TASK_PGWC_S5S8 (msg_set 0 c pending));
  x ← get_pdn (sp_ppc p);
  s ← get_state;
  match find_pdn_connection pc (fc_teid_gre_key (pgw_fteid_s5_s8_cp x)) true s with
  | Some (sa, sp) => delete_pdn_connection pc sa sp
  | None => mret tt
  end.

(** ** [downlink_data_report_procedure] *)
Definition downlink_data_report_run (cfg : pgw_config) (env : environment) (q context pdn : nat) (e : ebi_t) (req : itti_sx_msg) : pgw Z :=
  x ← get_pdn pdn;
  y ← get_procedure q;
  let ep := endpoint_of (fc_ipv4_address (sgw_fteid_s5_s8_cp x)) (gtpv2c_port cfg) in
  let s5 := msg_set 0 e (gtp_address (trxn_id y) (fc_teid_gre_key (sgw_fteid_s5_s8_cp x)) ep (new_gtp_msg DOWNLINK_DATA_NOTIFICATION)) in
  _ ← put_procedure q (mk_pgw_procedure (trxn_id y)
        (downlink_data_report_procedure (mk_downlink_procedure (Some pdn) (Some context) req (Some s5) e)));
  ok ← send_msg env (OutGtp TASK_PGWC_S5S8 s5); mret (return_code ok).

Definition downlink_data_report_handle (cfg : pgw_config) (env : environment) (tx : Z) (p : downlink_procedure) (ack : itti_gtp_msg) : pgw unit :=
  match msg_get 0 ack with
  | None => mret tt
  | Some c =>
    let cause := PfcpScalar.mk_cause_t (if c_cause_value c =? REQUEST_ACCEPTED then CAUSE_VALUE_REQUEST_ACCEPTED
                                        else CAUSE_VALUE_REQUEST_REJECTED) in
    ppc ← deref (dp_ppc p);
    x ← get_pdn ppc;
    let ep := endpoint_of (fs_ipv4_address (up_fseid x)) (pfcp_port cfg) in
    let ies := set_element pfcp_session_report_response_class Ecause cause (object_init pfcp_session_report_response_class) in
    _ ← send_msg env (OutSx TASK_PGWC_SX (mk_itti_sx_msg pfcp_session_report_response_message ep (fs_seid (up_fseid x)) tx ies));
    mret tt
  end.

(** ** Virtual dispatch

    The handlers of [pgw_procedure] itself do nothing. *)
Definition procedure_establishment_response (env : environment) (y : pgw_procedure) (m : itti_sx_msg) : pgw unit :=
  match body y with
  | session_establishment_procedure p => session_establishment_handle env p m
  | _ => mret tt
  end.

Definition procedure_modification_response (env : environment) (y : pgw_procedure) (m : itti_sx_msg) : pgw unit :=
  match body y with
  | modify_bearer_procedure p => modify_bearer_handle env p m
  | release_access_bearers_procedure p => release_access_bearers_handle env p m
  | _ => mret tt
  end.

Definition procedure_deletion_response (env : environment) (y : pgw_procedure) (m : itti_sx_msg) : pgw unit :=
  match body y with
  | delete_session_procedure pc p => delete_session_handle env pc p m
  | _ => mret tt
  end.

Definition procedure_downlink_ack (cfg : pgw_config) (env : environment) (y : pgw_procedure) (m : itti_gtp_msg) : pgw unit :=
  match body y with
  | downlink_data_report_procedure p => downlink_data_report_handle cfg env (trxn_id y) p m
  | _ => mret tt
  end.
