(* ===== verification/PgwApp.v ===== *)
(** * The PGW application

    [pgw_context::handle_itti_msg] ([src/oai_spgwc/pgw_context.cpp]) and
    [pgw_app] ([pgw_app.cpp]): the handlers of the S5/S8 requests, of the
    responses of the user plane and of its reports, and the dispatch of
    [pgw_app_task].  Every handler runs in that task, one message at a time. *)
From S2P Require Import Prelude UidGenerator PaaDynamic Pco Itti PfcpNode UpNodes GtpTlv GtpScalar GtpIdentity GtpQos GtpLocation GtpAddress GtpOptions Container GtpContainer GtpMessages.
From S2P Require Import PfcpScalar PfcpTunnel PfcpIe PfcpTables PfcpContainer Handler AppMsg PgwContext PgwProcedure.
From Stdlib Require Import ZArith Lia String.
From stdpp Require Import base numbers tactics list strings gmap.
Open Scope Z_scope.

Set Warnings "-register-all".

Section Pgw.
Variable cfg : pgw_config.
Variable env : environment.

(** ** Responses the application sends itself *)
Definition send_response (k : gtp_kind) (c : gtp_cause) (tx t : Z) (ep : endpoint) : pgw unit :=
  _ ← send_msg env (OutGtp TASK_PGWC_S5S8 (msg_set 0 c (gtp_address tx t ep (new_gtp_msg k)))); mret tt.

Definition send_create_session_response_cause (tx t : Z) (ep : endpoint) (c : gtp_cause) : pgw unit :=
  send_response CREATE_SESSION_RESPONSE c tx t ep.
Definition send_delete_session_response_cause_request_accepted : Z -> Z -> endpoint -> pgw unit :=
  send_response DELETE_SESSION_RESPONSE (cause_of REQUEST_ACCEPTED).
Definition send_delete_session_response_cause_context_not_found : Z -> Z -> endpoint -> pgw unit :=
  send_response DELETE_SESSION_RESPONSE (cause_of CONTEXT_NOT_FOUND).
Definition send_modify_bearer_response_cause_context_not_found : Z -> Z -> endpoint -> pgw unit :=
  send_response MODIFY_BEARER_RESPONSE (cause_of CONTEXT_NOT_FOUND).
Definition send_release_access_bearers_response_cause_context_not_found : Z -> Z -> endpoint -> pgw unit :=
  send_response RELEASE_ACCESS_BEARERS_RESPONSE (cause_of CONTEXT_NOT_FOUND).
Definition send_release_access_bearers_response_cause_request_accepted : Z -> Z -> endpoint -> pgw unit :=
  send_response RELEASE_ACCESS_BEARERS_RESPONSE (cause_of REQUEST_ACCEPTED).

(** ** Create Session Request, for a subscriber *)
Section Subscriber.
Variable c : nat.

(** The subscriber takes the IMSI and the indication of the request. *)
Definition note_subscriber (req : itti_gtp_msg) : pgw unit :=
  _ ← match msg_get 0 req with Some i => update_context c (set_pg_imsi i) | None => mret tt end;
  match msg_get 0 req with
  | Some i => if ind_uimsi i =? 0 then mret tt else update_context c (set_imsi_unauthenticated_indicator true)
  | None => mret tt
  end.

(** A new APN context. *)
Definition new_apn_context (req : itti_gtp_msg) : pgw nat :=
  a ← new_object;
  let ambr := match msg_get 0 req with Some b => b | None => mk_ambr_t 0 0 end in
  _ ← put_apn a (mk_apn_context true (apn_core (msg_member "apn" req)) ambr []);
  _ ← insert_apn c a; mret a.

(** A new PDN connection: [at(0)] throws when the request has no bearer. *)
Definition new_pdn_connection (req : itti_gtp_msg) (a : nat) : pgw nat :=
  match contexts "bearer_contexts_to_be_created" req with
  | [] => throw out_of_range
  | b :: _ =>
    f ← generate_s5s8_cp_fteid (s5s8_addr4 cfg);
    _ ← set_s5s8cpgw_fteid_2_pgw_context f c;
    p ← new_object;
    let t := default (mk_pdn_type_t PDN_TYPE_E_IPV4) (msg_get 0 req) in
    let x := pgw_pdn_connection_new in
    _ ← put_pdn p (mk_pgw_pdn_connection (pc_ipv4 x) (pc_ipv6 x) (pc_ipv4_address x) (pc_ipv6_address x) t
                     (msg_member "sender_fteid_for_cp" req) f (member "eps_bearer_id" b) (eps_bearers x) (pc_released x)
                     (pc_seid x) (up_fseid x) (pdr_id_generator x) (far_id_generator x));
    _ ← insert_pdn_connection a p; mret p
  end.

(** The address of the request, or one of the pools: whether the response
    carries it, the address, and the cause. *)
Definition choose_address (req : itti_gtp_msg) (apn : list Z) : pgw (bool * paa_t * gtp_cause) :=
  let got := msg_get 0 req in
  let paa := default gv_init got in
  if bool_decide (is_Some got) && is_ip_assigned paa then mret (true, paa, cause_of REQUEST_ACCEPTED)
  else
    '(ok, paa) ← allocate_paa apn paa;
    if ok : bool then mret (true, paa, cause_of REQUEST_ACCEPTED)
    else mret (false, paa, cause_pce ALL_DYNAMIC_ADDRESSES_ARE_OCCUPIED).

(** The [switch] on the type of the PDN. *)
Definition assign_address (req : itti_gtp_msg) (apn : list Z) (t : Z) (dhcp : bool) : pgw (bool * paa_t * gtp_cause) :=
  if t =? PDN_TYPE_E_IPV4 then
    if dhcp then mret (false, gv_init, cause_of REQUEST_ACCEPTED) else choose_address req apn
  else if (t =? PDN_TYPE_E_IPV6) || (t =? PDN_TYPE_E_IPV4V6) then choose_address req apn
  else mret (false, gv_init, cause_pce PREFERRED_PDN_TYPE_NOT_SUPPORTED).

(** What is set in an accepted response; the connection takes the address. *)
Definition fill_response (req : itti_gtp_msg) (p : nat) (set_paa : bool) (paa : paa_t) (pco : protocol_configuration_options_t)
    (ambr : ambr_t) (resp : itti_gtp_msg) : pgw itti_gtp_msg :=
  resp ← (if set_paa then _ ← update_pdn p (pdn_set_paa paa); mret (msg_set 0 paa resp)
          else match msg_get 0 req with
               | Some paa => if is_ip_assigned paa then _ ← update_pdn p (pdn_set_paa paa); mret resp else mret resp
               | None => mret resp
               end);
  x ← get_pdn p;
  mret (msg_set 0 ambr (msg_set_x "s5_s8_pgw_fteid" (pgw_fteid_s5_s8_cp x) (msg_set 0 pco resp))).

(** The refused bearers. *)
Definition bearer_context_refused (it : fields value) : fields value :=
  ies_set bcc_created 0 (cause_of NO_RESOURCES_AVAILABLE)
    (ies_set bcc_created 0 (member "eps_bearer_id" it : ebi_t) (class_init bcc_created)).

(** The end of the handler, when the cause is not an acceptance. *)
Definition refuse_session (req resp : itti_gtp_msg) (apn : list Z) (t : Z) : pgw unit :=
  let resp := msg_clear "apn_ambr" (msg_clear "pco" resp) in
  resp ← match msg_get 0 resp with
         | Some paa =>
           _ ← (if (t =? PDN_TYPE_E_IPV4) || (t =? PDN_TYPE_E_IPV4V6) then release_address apn (ipv4_address paa) else mret tt);
           mret (msg_clear "paa" resp)
         | None => mret resp
         end;
  let resp := foldl (fun m it => add_bearer_context_created (bearer_context_refused it) m) resp
                (contexts "bearer_contexts_to_be_created" req) in
  _ ← send_msg env (OutGtp TASK_PGWC_S5S8 resp); mret tt.

(** The procedure with the user plane, removed when it fails. *)
Definition establish_session (req resp : itti_gtp_msg) (p : nat) : pgw itti_gtp_msg :=
  q ← new_procedure (session_establishment_procedure (s5_procedure_new p));
  _ ← insert_procedure c q;
  '(rc, resp) ← session_establishment_run cfg env q p req resp c;
  if rc =? 0 then mret resp else _ ← remove_procedure c q; mret resp.

(** The iterations a malformed option can take before the model gives up: an
    option of a container has at most 255 octets. *)
Definition pco_fuel : nat := 300.

Definition context_create_session_request (req : itti_gtp_msg) : pgw unit :=
  s ← get_state;
  let apn_pdn := find_pdn_connection_apn c (apn_core (msg_member "apn" req)) (teid req) true s in
  _ ← note_subscriber req;
  a ← match apn_pdn with Some (a, _) => mret a | None => new_apn_context req end;
  p ← match apn_pdn with Some (_, p) => mret p | None => new_pdn_connection req a end;
  '(pco_resp, pco_ids) ← lift (process_pco_request (cfg_spgw_app cfg) pco_fuel (msg_member "pco" req) gv_init pco_ids_init);
  x ← get_pdn p;
  y ← get_apn a;
  let t := pt_pdn_type (pc_pdn_type x) in
  '(set_paa, paa, cause) ← assign_address req (apn_in_use y) t (ci_ipv4_address_allocation_via_dhcpv4 pco_ids);
  let resp := msg_set 0 cause (gtp_address (gtpc_tx_id req) (fc_teid_gre_key (sgw_fteid_s5_s8_cp x)) (r_endpoint req)
                                 (new_gtp_msg CREATE_SESSION_RESPONSE)) in
  resp ← (if c_cause_value cause =? REQUEST_ACCEPTED then
            resp ← fill_response req p set_paa paa pco_resp (apn_ambr y) resp; establish_session req resp p
          else mret resp);
  if c_cause_value (msg_member "cause" resp) =? REQUEST_ACCEPTED then mret tt
  else refuse_session req resp (apn_in_use y) t.

(** ** The other requests, for a subscriber *)

(** By the TEID of the sender when the request names it, else by ours. *)
Definition find_request_pdn (req : itti_gtp_msg) (s : pgw_state) : option (nat * nat) :=
  match msg_get 0 req with
  | Some f => find_pdn_connection c (fc_teid_gre_key (f : gtp_fteid)) false s
  | None => find_pdn_connection c (teid req) true s
  end.

(** The response of a request on a PDN connection. *)
Definition response_to (k : gtp_kind) (req : itti_gtp_msg) (x : pgw_pdn_connection) : itti_gtp_msg :=
  gtp_address (gtpc_tx_id req) (fc_teid_gre_key (sgw_fteid_s5_s8_cp x)) (r_endpoint req) (new_gtp_msg k).

(** The procedure is removed unless it is waiting for the user plane. *)
Definition remove_unless_ok (rc : Z) (q : nat) : pgw unit := if rc =? 0 then mret tt else remove_procedure c q.

Definition context_delete_session_request (req : itti_gtp_msg) : pgw unit :=
  s ← get_state;
  match find_request_pdn req s with
  | Some (_, p) =>
    q ← new_procedure (delete_session_procedure c (s5_procedure_new p));
    _ ← insert_procedure c q;
    x ← get_pdn p;
    rc ← delete_session_run cfg env q c p req (response_to DELETE_SESSION_RESPONSE req x);
    remove_unless_ok rc q
  | None =>
    match msg_get 0 req with
    | Some f => send_delete_session_response_cause_context_not_found (gtpc_tx_id req) (fc_teid_gre_key f) (r_endpoint req)
    | None => mret tt
    end
  end.

Definition context_modify_bearer_request (req : itti_gtp_msg) : pgw unit :=
  s ← get_state;
  match find_request_pdn req s with
  | Some (_, p) =>
    q ← new_procedure (modify_bearer_procedure (s5_procedure_new p));
    _ ← insert_procedure c q;
    x ← get_pdn p;
    rc ← modify_bearer_run cfg env q p req (response_to MODIFY_BEARER_RESPONSE req x);
    remove_unless_ok rc q
  | None =>
    match msg_get 0 req with
    | Some f => send_modify_bearer_response_cause_context_not_found (gtpc_tx_id req) (fc_teid_gre_key f) (r_endpoint req)
    | None => mret tt
    end
  end.

(** In the last branch [sp] is the null pointer. *)
Definition context_release_access_bearers_request (req : itti_gtp_msg) : pgw unit :=
  s ← get_state;
  match find_pdn_connection c (teid req) true s with
  | Some (_, p) =>
    x ← get_pdn p;
    if pc_released x then
      send_release_access_bearers_response_cause_request_accepted (gtpc_tx_id req) (fc_teid_gre_key (sgw_fteid_s5_s8_cp x)) (r_endpoint req)
    else
      q ← new_procedure (release_access_bearers_procedure (s5_procedure_new p));
      _ ← insert_procedure c q;
      rc ← release_access_bearers_run cfg env q p req (response_to RELEASE_ACCESS_BEARERS_RESPONSE req x);
      remove_unless_ok rc q
  | None =>
    x ← deref None;
    send_release_access_bearers_response_cause_context_not_found (gtpc_tx_id req) (fc_teid_gre_key (sgw_fteid_s5_s8_cp x)) (r_endpoint req)
  end.

(** A response for the pending procedure of a transaction, which it removes. *)
Definition with_procedure (t : Z) (k : pgw_procedure -> pgw unit) : pgw unit :=
  s ← get_state;
  match find_procedure c t s with
  | Some q => y ← get_procedure q; _ ← k y; remove_procedure c q
  | None => mret tt
  end.

Definition context_downlink_data_notification_acknowledge (m : itti_gtp_msg) : pgw unit :=
  with_procedure (gtpc_tx_id m) (fun y => procedure_downlink_ack cfg env y m).
Definition context_session_establishment_response (m : itti_sx_msg) : pgw unit :=
  with_procedure (sx_trxn_id m) (fun y => procedure_establishment_response env y m).
Definition context_session_modification_response (m : itti_sx_msg) : pgw unit :=
  with_procedure (sx_trxn_id m) (fun y => procedure_modification_response env y m).
Definition context_session_deletion_response (m : itti_sx_msg) : pgw unit :=
  with_procedure (sx_trxn_id m) (fun y => procedure_deletion_response env y m).

(** The rule a report of downlink data names. *)
Definition reported_pdr (m : itti_sx_msg) : option Z :=
  t ← sx_get_element pfcp_session_report_request_class Ereport_type (pfcp_ies m);
  if report_type_dldr t =? 0 then None
  else
    r ← sx_get_group pfcp_session_report_request_class Gdownlink_data_report (pfcp_ies m);
    pdr_id_rule_id <$> sx_get_element downlink_data_report_class Epdr_id r.

Definition context_session_report_request (m : itti_sx_msg) : pgw unit :=
  s ← get_state;
  match reported_pdr m ≫= (fun r => find_pdn_connection_pdr c r s) with
  | Some (p, e) =>
    q ← new_object;
    _ ← put_procedure q (mk_pgw_procedure (sx_trxn_id m)
          (downlink_data_report_procedure (mk_downlink_procedure None None m None (mk_ebi_t 0))));
    _ ← insert_procedure c q;
    rc ← downlink_data_report_run cfg env q c p e m;
    remove_unless_ok rc q
  | None => mret tt
  end.
End Subscriber.

(** ** The handlers of the application *)

(** [pgw_config::IsDottedApnHandled] *)
Definition IsDottedApnHandled (apn : list Z) (t : Z) : bool :=
  existsb (fun p => bool_decide (apn = p.1) && (t =? p.2)) (cfg_pdns cfg).

(** The subscriber of a Create Session Request: by its IMSI, new if it has none,
    or by the tunnel of the request. *)
Definition create_session_subscriber (req : itti_gtp_msg) : pgw (option nat) :=
  s ← get_state;
  match msg_get 0 req with
  | Some imsi =>
    if match msg_get 0 req with Some i => negb (ind_uimsi i =? 0) | None => false end then mret None
    else
      match imsi2pgw_context s !! to_imsi64 imsi with
      | Some c => mret (Some c)
      | None =>
        c ← new_object;
        _ ← put_context c pgw_context_new;
        _ ← set_imsi64_2_pgw_context (to_imsi64 imsi) c; mret (Some c)
      end
  | None =>
    if teid req =? 0 then mret None
    else if is_s5s8c_teid_exist (teid req) s then
      c ← deref (s5s8cpgw_fteid_2_pgw_context (build_s5s8_cp_fteid (s5s8_addr4 cfg) (teid req)) s); mret (Some c)
    else mret None
  end.

Definition create_session_request (req : itti_gtp_msg) : pgw unit :=
  s ← get_state;
  let f : gtp_fteid := msg_member "sender_fteid_for_cp" req in
  let apn := apn_core (msg_member "apn" req) in
  if negb (fc_interface_type f =? S5_S8_SGW_GTP_C) then mret tt
  else if fc_teid_gre_key f =? 0 then mret tt
  else if negb (teid req =? 0) && negb (is_s5s8c_teid_exist (teid req) s) then
    send_create_session_response_cause (gtpc_tx_id req) (fc_teid_gre_key f) (r_endpoint req) (cause_of CONTEXT_NOT_FOUND)
  else if negb (IsDottedApnHandled apn (pt_pdn_type (msg_member "pdn_type" req))) then
    send_create_session_response_cause (gtpc_tx_id req) (fc_teid_gre_key f) (r_endpoint req) (cause_of MISSING_OR_UNKNOWN_APN)
  else
    oc ← create_session_subscriber req;
    match oc with
    | Some c => context_create_session_request c req
    | None => mret tt
    end.

(** The sender's F-TEID, when the request has one, is the one of an SGW. *)
Definition sender_acceptable (req : itti_gtp_msg) : bool :=
  match msg_get 0 req : option gtp_fteid with
  | Some _ =>
    let f : gtp_fteid := msg_member "sender_fteid_for_cp" req in
    (fc_interface_type f =? S5_S8_SGW_GTP_C) && negb (fc_teid_gre_key f =? 0)
  | None => true
  end.

(** The subscriber our TEID of a request belongs to. *)
Definition subscriber_of (t : Z) (s : pgw_state) : option nat := s5s8cpgw_fteid_2_pgw_context (build_s5s8_cp_fteid (s5s8_addr4 cfg) t) s.

(** An unknown TEID of a Modify Bearer Request is answered with a Delete Session
    Response. *)
Definition modify_bearer_request (req : itti_gtp_msg) : pgw unit :=
  if negb (sender_acceptable req) then mret tt
  else
    s ← get_state;
    match subscriber_of (teid req) s with
    | Some c => context_modify_bearer_request c req
    | None =>
      match msg_get 0 req with
      | Some f => send_delete_session_response_cause_context_not_found (gtpc_tx_id req) (fc_teid_gre_key f) (r_endpoint req)
      | None => mret tt
      end
    end.

Definition release_access_bearers_request (req : itti_gtp_msg) : pgw unit :=
  s ← get_state;
  match subscriber_of (teid req) s with
  | Some c => context_release_access_bearers_request c req
  | None => mret tt
  end.

(** The subscriber is forgotten when it has no APN context left. *)
Definition forget_if_idle (c : nat) : pgw unit :=
  x ← get_context c;
  if decide (pg_apns x = []) then delete_pgw_context c else mret tt.

Definition delete_session_request (req : itti_gtp_msg) : pgw unit :=
  if negb (sender_acceptable req) then mret tt
  else
    s ← get_state;
    match subscriber_of (teid req) s with
    | Some c => _ ← context_delete_session_request c req; forget_if_idle c
    | None =>
      match msg_get 0 req with
      | Some f => send_delete_session_response_cause_context_not_found (gtpc_tx_id req) (fc_teid_gre_key f) (r_endpoint req)
      | None => mret tt
      end
    end.

Definition downlink_data_notification_acknowledge (m : itti_gtp_msg) : pgw unit :=
  s ← get_state;
  match subscriber_of (teid m) s with
  | Some c => context_downlink_data_notification_acknowledge c m
  | None => mret tt
  end.

(** A message of the user plane, for the subscriber of its SEID. *)
Definition with_subscriber (m : itti_sx_msg) (k : nat -> pgw unit) : pgw unit :=
  s ← get_state;
  match seid2pgw_context s !! seid m with
  | Some c => k c
  | None => mret tt
  end.

Definition session_establishment_response (m : itti_sx_msg) : pgw unit :=
  with_subscriber m (fun c => context_session_establishment_response c m).
Definition session_modification_response (m : itti_sx_msg) : pgw unit :=
  with_subscriber m (fun c => context_session_modification_response c m).
Definition session_deletion_response (m : itti_sx_msg) : pgw unit :=
  with_subscriber m (fun c => _ ← context_session_deletion_response c m; forget_if_idle c).
Definition session_report_request (m : itti_sx_msg) : pgw unit :=
  with_subscriber m (fun c => context_session_report_request c m).

(** ** [pgw_app_task] *)
Inductive pgw_msg :=
| S5S8_CREATE_SESSION_REQUEST (m : itti_gtp_msg)
| S5S8_DELETE_SESSION_REQUEST (m : itti_gtp_msg)
| S5S8_MODIFY_BEARER_REQUEST (m : itti_gtp_msg)
| S5S8_RELEASE_ACCESS_BEARERS_REQUEST (m : itti_gtp_msg)
| S5S8_DOWNLINK_DATA_NOTIFICATION_ACKNOWLEDGE (m : itti_gtp_msg)
| SXAB_SESSION_ESTABLISHMENT_RESPONSE (m : itti_sx_msg)
| SXAB_SESSION_MODIFICATION_RESPONSE (m : itti_sx_msg)
| SXAB_SESSION_DELETION_RESPONSE (m : itti_sx_msg)
| SXAB_SESSION_REPORT_REQUEST (m : itti_sx_msg).

Definition pgw_app_task (m : pgw_msg) : pgw unit :=
  match m with
  | S5S8_CREATE_SESSION_REQUEST m => create_session_request m
  | S5S8_DELETE_SESSION_REQUEST m => delete_session_request m
  | S5S8_MODIFY_BEARER_REQUEST m => modify_bearer_request m
  | S5S8_RELEASE_ACCESS_BEARERS_REQUEST m => release_access_bearers_request m
  | S5S8_DOWNLINK_DATA_NOTIFICATION_ACKNOWLEDGE m => downlink_data_notification_acknowledge m
  | SXAB_SESSION_ESTABLISHMENT_RESPONSE m => session_establishment_response m
  | SXAB_SESSION_MODIFICATION_RESPONSE m => session_modification_response m
  | SXAB_SESSION_DELETION_RESPONSE m => session_deletion_response m
  | SXAB_SESSION_REPORT_REQUEST m => session_report_request m
  end.
End Pgw.

(** [pgw_app::pgw_app], with the pools of [apply_config]. *)
Definition pgw_app_init (pdns : list pdn_cfg) : pgw_state :=
  mk_pgw_state 0 ∅ ∅ ∅ ∅ ∅ ∅ ∅ ∅ 0 (apply_config pdns paa_dynamic_init) uint_generator_init [].

(** A run: any messages, each in an environment of its own. *)
Inductive pgw_run (cfg : pgw_config) : pgw_state -> list pgw_msg -> pgw_state -> Prop :=
| pgw_run_nil s : pgw_run cfg s [] s
| pgw_run_cons s env m t l u :
    pgw_app_task cfg env m s = Val (tt, t) -> pgw_run cfg t l u -> pgw_run cfg s (m :: l) u.
