(* ===== verification/PgwExample.v ===== *)
(** * A session, from attach to detach

    Concrete messages of the PGW: the requests of an SGW for one subscriber and
    the answers of a user plane node.  The witnesses of the theorems on the PGW
    run on them. *)
From S2P Require Import Prelude UidGenerator PaaDynamic Pco Itti PfcpNode UpNodes GtpTlv GtpScalar GtpIdentity GtpQos GtpLocation GtpAddress GtpOptions Container GtpContainer GtpMessages.
From S2P Require Import PfcpScalar PfcpTunnel PfcpIe PfcpTables PfcpContainer Handler AppMsg PgwContext PgwProcedure PgwApp.
From Stdlib Require Import ZArith Lia String.
From stdpp Require Import base numbers tactics list strings gmap.
Open Scope Z_scope.

Set Warnings "-register-all".

(** "oai.ipv4", two addresses from 12.1.1.2. *)
Definition demo_apn : list Z := [111; 97; 105; 46; 105; 112; 118; 52].
Definition demo_pdns : list pdn_cfg :=
  [mk_pdn_cfg (string_of_octets demo_apn) (htobe32 0x0C010102) (htobe32 0x0C010104) (replicate 16 0) 0].
Definition demo_cfg : pgw_config :=
  mk_pgw_config (htobe32 0x0A000001) 0 (htobe32 0x0A000002) (0, 0, 0, 0) 8805 2123 [(demo_apn, PDN_TYPE_E_IPV4)]
    (mk_spgw_app_cfg 0x08080808 0x04040808 1464 false).
Definition demo_node : PfcpNode.node_id_t := PfcpNode.mk_node_id NODE_ID_TYPE_IPV4_ADDRESS (htobe32 0x0A000003) 0 0 0 "".
Definition demo_env : environment :=
  mk_environment (fun _ _ _ _ _ _ => Some demo_node) (fun _ => Some (Ep4 (htobe32 0x0A000003) 8805)) (fun _ => true).
(** No user plane node is associated. *)
Definition demo_alone : environment := mk_environment (fun _ _ _ _ _ _ => None) (fun _ => None) (fun _ => true).

Definition demo_sgw_fteid : gtp_fteid := GtpAddress.mk_fteid_t 1 0 S5_S8_SGW_GTP_C 77 (htobe32 0x0A000004) in6addr_any.
Definition demo_enb_fteid : gtp_fteid := GtpAddress.mk_fteid_t 1 0 S1_U_ENODEB_GTP_U 5 (htobe32 0x0A000005) in6addr_any.
Definition demo_imsi : imsi_t := mk_imsi_t [0x02; 0x08; 0x39; 0x00; 0x00; 0x00; 0x00; 0xF1] 15.
Definition demo_sgw : endpoint := Ep4 (htobe32 0x0A000004) 2123.

Abbreviation bc_to_create := bearer_context_to_be_created_within_create_session_request_class.
Definition demo_bearer (e : Z) : fields value :=
  ies_set bc_to_create 0 (mk_bearer_qos_t 0 15 0 9 0 0 0 0) (ies_set bc_to_create 0 (mk_ebi_t e) (class_init bc_to_create)).

Definition demo_request (k : gtp_kind) (t tx : Z) : itti_gtp_msg := gtp_address tx t demo_sgw (new_gtp_msg k).

Definition demo_create_session (bearers : list (fields value)) : itti_gtp_msg :=
  set_contexts "bearer_contexts_to_be_created" bearers
    (msg_set 0 demo_imsi (msg_set 0 (mk_pdn_type_t PDN_TYPE_E_IPV4) (msg_set 0 (mk_apn_t demo_apn)
      (msg_set 0 demo_sgw_fteid (demo_request CREATE_SESSION_REQUEST 0 1))))).

(** Answers of the user plane: [s] is our SEID, [tx] the transaction. *)
Definition sx_accepted : sx_cause := PfcpScalar.mk_cause_t CAUSE_VALUE_REQUEST_ACCEPTED.
Definition demo_created_pdr (rule up_teid : Z) : sx_value :=
  VGroup Gcreated_pdr (set_element created_pdr_class Efteid (PfcpTunnel.mk_fteid_t 0 0 1 0 up_teid (htobe32 0x0A000003) in6addr_any 0)
    (set_element created_pdr_class Epdr_id (mk_pdr_id_t rule) (object_init created_pdr_class))).
Definition demo_up_fseid : PfcpNode.fseid_t := mk_fseid 1 0 99 (htobe32 0x0A000003) 0 0 0 0.

Definition demo_established (s tx : Z) (pdrs : list sx_value) : itti_sx_msg :=
  let c := pfcp_session_establishment_response_class in
  mk_itti_sx_msg pfcp_session_establishment_response_message EpNone s tx
    (foldl (fun o v => sx_set c v o) (set_element c Ef_seid demo_up_fseid (set_element c Ecause sx_accepted (object_init c))) pdrs).
Definition demo_modified (s tx : Z) (pdrs : list sx_value) : itti_sx_msg :=
  let c := pfcp_session_modification_response_class in
  mk_itti_sx_msg pfcp_session_modification_response_message EpNone s tx
    (foldl (fun o v => sx_set c v o) (set_element c Ecause sx_accepted (object_init c)) pdrs).
Definition demo_deleted (s tx : Z) : itti_sx_msg :=
  let c := pfcp_session_deletion_response_class in
  mk_itti_sx_msg pfcp_session_deletion_response_message EpNone s tx (set_element c Ecause sx_accepted (object_init c)).

(** The messages, in order. *)
Fixpoint run_all (env : environment) (l : list pgw_msg) : pgw unit :=
  match l with
  | [] => mret tt
  | m :: l => _ ← pgw_app_task demo_cfg env m; run_all env l
  end.

Definition after (l : list pgw_msg) : result pco_exn (unit * pgw_state) := run_all demo_env l (pgw_app_init demo_pdns).

Definition demo_attach : list pgw_msg :=
  [S5S8_CREATE_SESSION_REQUEST (demo_create_session [demo_bearer 5]);
   SXAB_SESSION_ESTABLISHMENT_RESPONSE (demo_established 1 1 [demo_created_pdr 1 200])].
Definition demo_detach : list pgw_msg :=
  [S5S8_DELETE_SESSION_REQUEST (demo_request DELETE_SESSION_REQUEST 1 2);
   SXAB_SESSION_DELETION_RESPONSE (demo_deleted 1 2)].
