(* ===== verification/PgwLaws.v ===== *)
(** * The sessions of the PGW

    What the tables of the PGW and its objects say of the open sessions agree at
    every moment: a local TEID is in use exactly when it leads to a subscriber
    that has one PDN connection with it.  The part of the state this is about is
    its [view]; most operations leave it alone ([same]), one opens a session and
    one closes it.  So every message the PGW handles is a step of an abstract
    table of sessions. *)
From S2P Require Import Prelude UidGenerator PaaDynamic Pco Itti PfcpNode UpNodes GtpTlv GtpScalar GtpIdentity GtpQos GtpLocation GtpAddress GtpOptions Container GtpContainer GtpMessages.
From S2P Require Import PfcpScalar PfcpTunnel PfcpIe PfcpTables PfcpContainer Handler AppMsg PgwContext PgwProcedure PgwApp PgwExample.
From Stdlib Require Import ZArith Lia String.
From stdpp Require Import base numbers tactics sets list strings gmap.
Open Scope Z_scope.

Set Warnings "-register-all".

(** ** The view *)
Record pgw_view := mk_view {
  v_teids : gset Z;                        (* [s5s8cplteid] *)
  v_table : gmap Z nat;                    (* [s5s8lteid2pgw_context] *)
  v_apns : gmap nat (list nat);            (* of each subscriber *)
  v_pdns : gmap nat (list nat);            (* of each APN context *)
  v_teid : gmap nat Z;                     (* of each PDN connection *)
}.

Definition local_teid (p : pgw_pdn_connection) : Z := fc_teid_gre_key (pgw_fteid_s5_s8_cp p).

Definition view (s : pgw_state) : pgw_view :=
  mk_view (s5s8cplteid s) (s5s8lteid2pgw_context s) (pg_apns <$> context_heap s) (pdn_connections <$> apn_heap s)
    (local_teid <$> pdn_heap s).

(** The view does not change; objects may be added that it does not see. *)
Definition same (s t : pgw_state) : Prop := view t = view s /\ (next_object s <= next_object t)%nat.

#[export] Instance same_preorder : PreOrder same.
Proof. split; [done|]. intros s t u [H1 H2] [H3 H4]. split; [congruence|lia]. Qed.

(** Operations on objects keep the view when they keep the member it shows. *)
Lemma update_pdn_same p f : (forall x, local_teid (f x) = local_teid x) -> moves same (update_pdn p f).
Proof.
  intros Hf s. apply ends_bind, ends_bind, ends_gets, ends_deref. intros x E. apply ends_modify. split; [|done].
  unfold view. simpl. by erewrite fmap_insert_same.
Qed.

Lemma update_context_same c f : (forall x, pg_apns (f x) = pg_apns x) -> moves same (update_context c f).
Proof.
  intros Hf s. apply ends_bind, ends_bind, ends_gets, ends_deref. intros x E. apply ends_modify. split; [|done].
  unfold view. simpl. by erewrite fmap_insert_same.
Qed.

Lemma get_pdn_same p : moves same (get_pdn p).
Proof. unfold get_pdn. moves_solve. Qed.
Lemma get_apn_same a : moves same (get_apn a).
Proof. unfold get_apn. moves_solve. Qed.
Lemma get_context_same c : moves same (get_context c).
Proof. unfold get_context. moves_solve. Qed.
Lemma get_procedure_same q : moves same (get_procedure q).
Proof. unfold get_procedure. moves_solve. Qed.
Lemma put_procedure_same q y : moves same (put_procedure q y).
Proof. apply moves_modify. done. Qed.

Lemma new_object_same : moves same new_object.
Proof. intros s. apply ends_bind, ends_gets, ends_bind, ends_modify, ends_ret. split; [done|]. simpl. lia. Qed.

Lemma send_msg_same env o : moves same (send_msg env o).
Proof. unfold send_msg. moves_solve. by apply moves_modify. Qed.
Lemma set_seid_same i c : moves same (set_seid_2_pgw_context i c).
Proof. by apply moves_modify. Qed.
Lemma set_imsi_same i c : moves same (set_imsi64_2_pgw_context i c).
Proof. by apply moves_modify. Qed.

#[export] Hint Resolve update_pdn_same update_context_same get_pdn_same get_apn_same get_context_same get_procedure_same
  put_procedure_same new_object_same send_msg_same set_seid_same set_imsi_same : handler.

(** A modification of a member the view does not show. *)
Ltac modify_same := apply moves_modify; intros ?; split; [reflexivity|simpl; lia].

Lemma delete_pgw_context_same c : moves same (delete_pgw_context c).
Proof. unfold delete_pgw_context. moves_solve. modify_same. Qed.
Lemma allocate_paa_same apn paa : moves same (allocate_paa apn paa).
Proof. unfold allocate_paa. moves_solve. modify_same. Qed.
Lemma release_address_same apn a : moves same (release_address apn a).
Proof. unfold release_address. moves_solve. modify_same. Qed.
Lemma new_procedure_same b : moves same (new_procedure b).
Proof. unfold new_procedure. moves_solve. modify_same. Qed.
Lemma insert_procedure_same c q : moves same (insert_procedure c q).
Proof. unfold insert_procedure. moves_solve. Qed.
Lemma remove_procedure_same c q : moves same (remove_procedure c q).
Proof. unfold remove_procedure. moves_solve. Qed.

(** Storing an object that was read. *)
Lemma put_read_pdn_same {A} p (f : pgw_pdn_connection -> pgw_pdn_connection) (k : pgw_pdn_connection -> pgw A) :
  (forall x, local_teid (f x) = local_teid x) -> (forall x, moves same (k x)) ->
  moves same (x ← get_pdn p; _ ← put_pdn p (f x); k x).
Proof.
  intros Hf Hk s. apply ends_bind, ends_bind, ends_gets, ends_deref. intros x E. apply ends_bind, ends_modify.
  intros a t Et. transitivity (set_pdn_heap (<[p := f x]> (pdn_heap s)) s); [|by eapply Hk].
  split; [|done]. unfold view. simpl. by erewrite fmap_insert_same.
Qed.

Lemma generate_far_id_same p : moves same (generate_far_id p).
Proof.
  intros s. apply ends_bind, ends_bind, ends_gets, ends_deref. intros x E. destruct (get_uid 32 _) as [[u g]|]; [|done].
  apply ends_bind, ends_modify, ends_ret. split; [|done]. unfold view. simpl. by erewrite fmap_insert_same.
Qed.
Lemma generate_pdr_id_same p : moves same (generate_pdr_id p).
Proof.
  intros s. apply ends_bind, ends_bind, ends_gets, ends_deref. intros x E. destruct (get_uid 16 _) as [[u g]|]; [|done].
  apply ends_bind, ends_modify, ends_ret. split; [|done]. unfold view. simpl. by erewrite fmap_insert_same.
Qed.

#[export] Hint Resolve delete_pgw_context_same allocate_paa_same release_address_same new_procedure_same insert_procedure_same
  remove_procedure_same generate_far_id_same generate_pdr_id_same : handler.

(** *** Changes to a PDN connection that keep its TEID *)
Lemma add_eps_bearer_teid b x : local_teid (add_eps_bearer b x) = local_teid x.
Proof. unfold add_eps_bearer. by destruct (valid_ebi _). Qed.
Lemma pdn_set_paa_teid paa x : local_teid (pdn_set_paa paa x) = local_teid x.
Proof. unfold pdn_set_paa. repeat case_match; done. Qed.
Lemma created_pdr_teid it x : local_teid (establishment_created_pdr it x) = local_teid x.
Proof. unfold establishment_created_pdr. repeat case_match; try done. apply add_eps_bearer_teid. Qed.
Lemma bearer_ref_teid e x : local_teid (get_eps_bearer_ref e x).2 = local_teid x.
Proof. unfold get_eps_bearer_ref. by destruct (eps_bearers x !! ebi e). Qed.
#[export] Hint Resolve add_eps_bearer_teid pdn_set_paa_teid created_pdr_teid bearer_ref_teid : handler.

(** *** The procedures that keep the view *)
Lemma read_pdn_same {A} p (k : pgw_pdn_connection -> pgw A) :
  (forall x s, pdn_heap s !! p = Some x -> ends (k x) s (fun _ t => same s t)) -> moves same (get_pdn p ≫= k).
Proof. intros H s. apply ends_bind, ends_bind, ends_gets, ends_deref. intros x E. by apply H. Qed.

Lemma put_pdn_ends {A} p x y s (k : pgw A) : pdn_heap s !! p = Some x -> local_teid y = local_teid x -> moves same k ->
  ends (_ ← put_pdn p y; k) s (fun _ t => same s t).
Proof.
  intros E Hy Hk. apply ends_bind, ends_modify. intros a t Et.
  transitivity (set_pdn_heap (<[p := y]> (pdn_heap s)) s); [|by eapply Hk].
  split; [|done]. unfold view. simpl. by erewrite fmap_insert_same.
Qed.

Lemma establish_bearer_same ppc paa ies it : moves same (establish_bearer ppc paa ies it).
Proof. unfold establish_bearer. moves_solve. Qed.
#[export] Hint Resolve establish_bearer_same : handler.

Lemma session_establishment_run_same cfg env q ppc req resp c : moves same (session_establishment_run cfg env q ppc req resp c).
Proof. unfold session_establishment_run. moves_solve. Qed.

Lemma session_establishment_handle_same env p m : moves same (session_establishment_handle env p m).
Proof. unfold session_establishment_handle. moves_solve. Qed.

Lemma modify_downlink_far_same ppc v it b m : moves same (modify_downlink_far ppc v it b m).
Proof. unfold modify_downlink_far. moves_solve. Qed.
Lemma modify_downlink_pdr_same ppc f b m : moves same (modify_downlink_pdr ppc f b m).
Proof. unfold modify_downlink_pdr. moves_solve. Qed.
Lemma modify_uplink_same ppc b m : moves same (modify_uplink ppc b m).
Proof. unfold modify_uplink. moves_solve. Qed.
Lemma store_bearer_same ppc e b : moves same (store_bearer ppc e b).
Proof. apply update_pdn_same. intros x. by rewrite add_eps_bearer_teid. Qed.
#[export] Hint Resolve session_establishment_run_same session_establishment_handle_same modify_downlink_far_same
  modify_downlink_pdr_same modify_uplink_same store_bearer_same : handler.

Lemma modify_bearer_same ppc m it : moves same (modify_bearer ppc m it).
Proof.
  apply read_pdn_same. intros x s E. pose proof (bearer_ref_teid (member "eps_bearer_id" it) x) as Hx.
  destruct (get_eps_bearer_ref _ x) as [peb y]. eapply put_pdn_ends; [done|done|]. moves_solve.
Qed.
#[export] Hint Resolve modify_bearer_same : handler.

Lemma modify_bearer_run_same cfg env q ppc req resp : moves same (modify_bearer_run cfg env q ppc req resp).
Proof. unfold modify_bearer_run. moves_solve. Qed.

Lemma modification_created_pdr_same ppc rs it : moves same (modification_created_pdr ppc rs it).
Proof.
  unfold modification_created_pdr. destruct (sx_get_element _ _ it); [|moves_solve]. apply read_pdn_same. intros x s E.
  destruct (get_eps_bearer_pdr _ x), (rs.1); try by apply ends_ret.
  eapply put_pdn_ends; [done|apply add_eps_bearer_teid|]. moves_solve.
Qed.
Lemma modification_updated_far_same ppc ctxs resp it : moves same (modification_updated_far ppc ctxs resp it).
Proof.
  unfold modification_updated_far. destruct (sx_get_element _ _ it); [|moves_solve]. apply read_pdn_same. intros x s E.
  destruct (get_eps_bearer_far _ x) as [b|]; [|by apply ends_ret]. destruct (find _ ctxs); [|by apply ends_ret].
  eapply put_pdn_ends; [done|apply add_eps_bearer_teid|]. moves_solve.
Qed.
#[export] Hint Resolve modify_bearer_run_same modification_created_pdr_same modification_updated_far_same : handler.

Lemma modify_bearer_handle_same env p m : moves same (modify_bearer_handle env p m).
Proof. unfold modify_bearer_handle. moves_solve. Qed.

Lemma release_loop_same ppc l : forall ies, moves same (release_loop ppc l ies).
Proof. induction l as [|[k b] l IH]; intros ies; cbn [release_loop]; unfold next_iterator; moves_solve. Qed.
#[export] Hint Resolve release_loop_same : handler.
Lemma release_access_bearers_run_same cfg env q ppc req resp : moves same (release_access_bearers_run cfg env q ppc req resp).
Proof. unfold release_access_bearers_run. moves_solve. Qed.
Lemma release_access_bearers_handle_same env p m : moves same (release_access_bearers_handle env p m).
Proof. unfold release_access_bearers_handle. moves_solve. Qed.
Lemma delete_session_run_same cfg env q pc ppc req resp : moves same (delete_session_run cfg env q pc ppc req resp).
Proof. unfold delete_session_run. moves_solve. Qed.
Lemma downlink_data_report_run_same cfg env q pc ppc e m : moves same (downlink_data_report_run cfg env q pc ppc e m).
Proof. unfold downlink_data_report_run. moves_solve. Qed.
Lemma procedure_downlink_ack_same cfg env y m : moves same (procedure_downlink_ack cfg env y m).
Proof. unfold procedure_downlink_ack, downlink_data_report_handle. moves_solve. Qed.
#[export] Hint Resolve modify_bearer_handle_same release_access_bearers_run_same release_access_bearers_handle_same
  delete_session_run_same downlink_data_report_run_same procedure_downlink_ack_same : handler.
Lemma procedure_establishment_same env y m : moves same (procedure_establishment_response env y m).
Proof. unfold procedure_establishment_response. moves_solve. Qed.
Lemma procedure_modification_same env y m : moves same (procedure_modification_response env y m).
Proof. unfold procedure_modification_response. moves_solve. Qed.
Lemma send_response_same env k c tx t ep : moves same (send_response env k c tx t ep).
Proof. unfold send_response. moves_solve. Qed.
Lemma with_procedure_same c t k : (forall y, moves same (k y)) -> moves same (with_procedure c t k).
Proof. unfold with_procedure. moves_solve. Qed.
#[export] Hint Resolve procedure_establishment_same procedure_modification_same send_response_same : handler.

(** *** The requests that keep the view *)
Section Requests.
Variable cfg : pgw_config.
Variable env : environment.

Lemma context_delete_session_same c req : moves same (context_delete_session_request cfg env c req).
Proof.
  unfold context_delete_session_request, send_delete_session_response_cause_context_not_found, remove_unless_ok. moves_solve.
Qed.
Lemma context_modify_bearer_same c req : moves same (context_modify_bearer_request cfg env c req).
Proof.
  unfold context_modify_bearer_request, send_modify_bearer_response_cause_context_not_found, remove_unless_ok. moves_solve.
Qed.
Lemma context_release_same c req : moves same (context_release_access_bearers_request cfg env c req).
Proof.
  unfold context_release_access_bearers_request, send_release_access_bearers_response_cause_request_accepted,
    send_release_access_bearers_response_cause_context_not_found, remove_unless_ok. moves_solve.
Qed.
Lemma context_report_same c m : moves same (context_session_report_request cfg env c m).
Proof. unfold context_session_report_request, remove_unless_ok. moves_solve. Qed.

Lemma forget_if_idle_same c : moves same (forget_if_idle c).
Proof. unfold forget_if_idle. moves_solve. Qed.
Lemma note_subscriber_same c req : moves same (note_subscriber c req).
Proof. unfold note_subscriber. moves_solve. Qed.
Lemma assign_address_same req apn t dhcp : moves same (assign_address req apn t dhcp).
Proof. unfold assign_address, choose_address. moves_solve. Qed.
Lemma fill_response_same req p b paa pco ambr resp : moves same (fill_response req p b paa pco ambr resp).
Proof. unfold fill_response. moves_solve. Qed.
Lemma refuse_session_same req resp apn t : moves same (refuse_session env req resp apn t).
Proof. unfold refuse_session. moves_solve. Qed.
Lemma establish_session_same c req resp p : moves same (establish_session cfg env c req resp p).
Proof. unfold establish_session. moves_solve. Qed.

(** Everything a Create Session Request does once it has its APN context [a] and
    its PDN connection [p]. *)
Definition continue_session (c : nat) (req : itti_gtp_msg) (a p : nat) : pgw unit :=
  '(pco_resp, pco_ids) ← lift (process_pco_request (cfg_spgw_app cfg) pco_fuel (msg_member "pco" req) gv_init pco_ids_init);
  x ← get_pdn p;
  y ← get_apn a;
  let t := pt_pdn_type (pc_pdn_type x) in
  '(set_paa, paa, cause) ← assign_address req (apn_in_use y) t (ci_ipv4_address_allocation_via_dhcpv4 pco_ids);
  let resp := msg_set 0 cause (gtp_address (gtpc_tx_id req) (fc_teid_gre_key (sgw_fteid_s5_s8_cp x)) (r_endpoint req)
                                 (new_gtp_msg CREATE_SESSION_RESPONSE)) in
  resp ← (if c_cause_value cause =? REQUEST_ACCEPTED then
            resp ← fill_response req p set_paa paa pco_resp (apn_ambr y) resp; establish_session cfg env c req resp p
          else mret resp);
  if c_cause_value (msg_member "cause" resp) =? REQUEST_ACCEPTED then mret tt
  else refuse_session env req resp (apn_in_use y) t.

Lemma context_create_session_eq c req : context_create_session_request cfg env c req =
  (s ← get_state;
   let apn_pdn := find_pdn_connection_apn c (apn_core (msg_member "apn" req)) (teid req) true s in
   _ ← note_subscriber c req;
   a ← match apn_pdn with Some (a, _) => mret a | None => new_apn_context c req end;
   p ← match apn_pdn with Some (_, p) => mret p | None => new_pdn_connection cfg c req a end;
   continue_session c req a p).
Proof. reflexivity. Qed.
End Requests.
#[export] Hint Resolve context_delete_session_same context_modify_bearer_same context_release_same context_report_same
  forget_if_idle_same note_subscriber_same assign_address_same fill_response_same refuse_session_same establish_session_same : handler.

Lemma continue_session_same cfg env c req a p : moves same (continue_session cfg env c req a p).
Proof. unfold continue_session. moves_solve. Qed.
#[export] Hint Resolve continue_session_same : handler.

(** ** The invariant *)

(** Subscriber [c] has, in its APN context [a], the PDN connection [p] with the
    local TEID [t]. *)
Definition session (V : pgw_view) (c a p : nat) (t : Z) : Prop :=
  exists l, v_apns V !! c = Some l /\ a ∈ l /\ v_pdns V !! a = Some [p] /\ v_teid V !! p = Some t.

(** [n]: no object has this address or a higher one. *)
Record view_ok (V : pgw_view) (n : nat) : Prop := {
  vo_teids : v_teids V = dom (v_table V);
  vo_zero : v_table V !! UNASSIGNED_TEID = None;
  vo_table : forall t c, v_table V !! t = Some c <-> exists a p, session V c a p t;
  vo_unique : forall c a p c' a' p' t, session V c a p t -> session V c' a' p' t -> a = a' /\ p = p';
  vo_apn : forall c l a, v_apns V !! c = Some l -> a ∈ l -> exists p t, session V c a p t;
  vo_nodup : forall c l, v_apns V !! c = Some l -> NoDup l;
  vo_bound : forall k, is_Some (v_apns V !! k) \/ is_Some (v_pdns V !! k) \/ is_Some (v_teid V !! k) -> (k < n)%nat;
}.

Definition pgw_ok (s : pgw_state) : Prop := view_ok (view s) (next_object s).

Lemma view_ok_mono V n m : (n <= m)%nat -> view_ok V n -> view_ok V m.
Proof. intros Hn [? ? ? ? ? ? Hb]. split; try done. intros k Hk. specialize (Hb k Hk). lia. Qed.

Lemma same_ok s t : same s t -> pgw_ok s -> pgw_ok t.
Proof. unfold pgw_ok. intros [-> Hn]. by apply view_ok_mono. Qed.

Lemma session_functional V c a p t p' t' c' : session V c a p t -> session V c' a p' t' -> p = p' /\ t = t'.
Proof. intros (l & _ & _ & H1 & H2) (l' & _ & _ & H3 & H4). rewrite H1 in H3. injection H3 as <-. rewrite H2 in H4. by injection H4 as <-. Qed.

(** One APN context belongs to one subscriber. *)
Lemma session_owner V n c a p t c' p' t' : view_ok V n -> session V c a p t -> session V c' a p' t' -> c = c'.
Proof.
  intros H H1 H2. destruct (session_functional _ _ _ _ _ _ _ _ H1 H2) as [<- <-].
  assert (v_table V !! t = Some c) as E1 by (apply H; eauto). assert (v_table V !! t = Some c') as E2 by (apply H; eauto). congruence.
Qed.

(** *** The three changes *)
Definition open_view (c a p : nat) (t : Z) (l : list nat) (V : pgw_view) : pgw_view :=
  mk_view ({[t]} ∪ v_teids V) (<[t := c]> (v_table V)) (<[c := l ++ [a]]> (v_apns V)) (<[a := [p]]> (v_pdns V)) (<[p := t]> (v_teid V)).

Definition close_view (c a p : nat) (t : Z) (l : list nat) (V : pgw_view) : pgw_view :=
  mk_view (v_teids V ∖ {[t]}) (delete t (v_table V)) (<[c := erase_first a l]> (v_apns V)) (<[a := []]> (v_pdns V)) (<[p := 0]> (v_teid V)).

Definition subscribe_view (c : nat) (V : pgw_view) : pgw_view :=
  mk_view (v_teids V) (v_table V) (<[c := []]> (v_apns V)) (v_pdns V) (v_teid V).

Section Open.
Context (V : pgw_view) (n c a p : nat) (t : Z) (l : list nat).
Context (HV : view_ok V n) (Hc : v_apns V !! c = Some l).
Context (Ha : (n <= a)%nat) (Hp : (n <= p)%nat).
Let V' := open_view c a p t l V.

Lemma open_fresh_apn k : (n <= k)%nat -> v_pdns V !! k = None /\ v_teid V !! k = None /\ v_apns V !! k = None.
Proof using HV.
  clear - HV. intros Hk. pose proof (vo_bound _ _ HV k) as H. repeat split; apply eq_None_not_Some; intros HS; specialize (H ltac:(tauto)); lia.
Qed.

(** The new session and the old ones. *)
Lemma open_session_iff c' b q u : session V' c' b q u <-> (c' = c /\ b = a /\ q = p /\ u = t) \/ session V c' b q u.
Proof using HV Hc Ha Hp.
  destruct (open_fresh_apn a Ha) as (Na & _ & _). destruct (open_fresh_apn p Hp) as (_ & Np & _). unfold session, V'. simpl. split.
  - intros (l' & H1 & H2 & H3 & H4). destruct (decide (b = a)) as [->|Hb].
    + left. rewrite lookup_insert_eq in H3. injection H3 as <-. rewrite lookup_insert_eq in H4. injection H4 as <-.
      apply lookup_insert_Some in H1 as [[-> _]|[Hne H1]]; [done|]. exfalso.
      destruct (vo_apn _ _ HV c' l' a H1 H2) as (? & ? & ? & _ & _ & H5 & _). congruence.
    + right. rewrite lookup_insert_ne in H3 by done. destruct (decide (q = p)) as [->|Hq].
      * apply lookup_insert_Some in H1 as [[-> <-]|[Hne H1]].
        -- apply elem_of_app in H2 as [H2|H2]; [|set_solver]. destruct (vo_apn _ _ HV _ _ b Hc H2) as (? & ? & ? & _ & _ & H5 & H6).
           rewrite H3 in H5. injection H5 as <-. congruence.
        -- destruct (vo_apn _ _ HV _ _ b H1 H2) as (? & ? & ? & _ & _ & H5 & H6). rewrite H3 in H5. injection H5 as <-. congruence.
      * rewrite lookup_insert_ne in H4 by done. apply lookup_insert_Some in H1 as [[-> <-]|[Hne H1]]; [|by exists l'].
        exists l. split_and!; try done. apply elem_of_app in H2 as [|]; [done|set_solver].
  - intros [(-> & -> & -> & ->)|(l' & H1 & H2 & H3 & H4)].
    + exists (l ++ [a]). rewrite !lookup_insert_eq. set_solver.
    + assert (b <> a) by congruence. assert (q <> p) by congruence. rewrite !(lookup_insert_ne _ a), !(lookup_insert_ne _ p) by done.
      destruct (decide (c' = c)) as [->|]; [|rewrite lookup_insert_ne by done; by exists l'].
      rewrite Hc in H1. injection H1 as <-. exists (l ++ [a]). rewrite lookup_insert_eq. set_solver.
Qed.

Lemma open_ok m : v_table V !! t = None -> t <> 0 -> a <> p -> (a < m)%nat -> (p < m)%nat -> (n <= m)%nat -> view_ok V' m.
Proof using HV Hc Ha Hp.
  intros Ht Ht0 Hap Ham Hpm Hnm. destruct (open_fresh_apn a Ha) as (Na & _ & _).
  assert (forall c' b q, ~ session V c' b q t) as Hno by (intros c' b q Hs; assert (v_table V !! t = Some c') by (apply HV; eauto); congruence).
  split.
  - simpl. rewrite dom_insert_L. by rewrite (vo_teids _ _ HV).
  - simpl. rewrite lookup_insert_ne by done. apply HV.
  - intros u d. setoid_rewrite open_session_iff. simpl. rewrite lookup_insert_Some, (vo_table _ _ HV). split; [|naive_solver].
    intros [[<- <-]|[Hu (b & q & Hs)]]; naive_solver.
  - intros c1 a1 p1 c2 a2 p2 u. rewrite !open_session_iff. pose proof (vo_unique _ _ HV c1 a1 p1 c2 a2 p2 u) as HU.
    intros [(-> & -> & -> & ->)|H1] [(-> & -> & -> & E)|H2]; [done|by apply Hno in H2|subst; by apply Hno in H1|auto].
  - intros c1 l1 b H1 H2. setoid_rewrite open_session_iff. simpl in H1. apply lookup_insert_Some in H1 as [[-> <-]|[Hne H1]].
    + apply elem_of_app in H2 as [H2|H2]; [|apply list_elem_of_singleton in H2 as ->; eauto 10].
      destruct (vo_apn _ _ HV _ _ _ Hc H2) as (q & u & ?). eauto.
    + destruct (vo_apn _ _ HV _ _ _ H1 H2) as (q & u & ?). eauto.
  - intros c1 l1. simpl. intros [[-> <-]|[Hne H1]]%lookup_insert_Some; [|by eapply vo_nodup].
    apply NoDup_app. split_and!; [by eapply vo_nodup| |apply NoDup_singleton].
    intros b Hb ->%list_elem_of_singleton. destruct (vo_apn _ _ HV _ _ _ Hc Hb) as (? & ? & ? & _ & _ & H5 & _). congruence.
  - intros k [H|[H|H]]; simpl in H; apply lookup_insert_is_Some' in H as [->|H]; try lia; try (pose proof (vo_bound _ _ HV k); naive_solver lia).
    assert (k < n)%nat by (apply (vo_bound _ _ HV); rewrite Hc; eauto). lia.
Qed.
End Open.

(** A new subscriber has no session. *)
Lemma subscribe_ok V n c m : view_ok V n -> (n <= c)%nat -> (c < m)%nat -> view_ok (subscribe_view c V) m.
Proof.
  intros HV Hc Hm. assert (v_apns V !! c = None) as Nc.
  { apply eq_None_not_Some. intros HS. assert (c < n)%nat by (apply (vo_bound _ _ HV); auto). lia. }
  assert (forall d a p t, session (subscribe_view c V) d a p t <-> session V d a p t) as HS.
  { intros d a p t. split; intros (l & H1 & H2 & H3); exists l; (split; [simpl in *|done]).
    - apply lookup_insert_Some in H1 as [[-> <-]|[_ H1]]; [by apply not_elem_of_nil in H2|done].
    - rewrite lookup_insert_ne; [done|]. congruence. }
  split; try setoid_rewrite HS; try apply HV; simpl.
  - intros d l a [[-> <-]|[_ H1]]%lookup_insert_Some; [by intros ?%not_elem_of_nil|by apply HV].
  - intros d l [[-> <-]|[_ H1]]%lookup_insert_Some; [constructor|by eapply vo_nodup].
  - intros k [H|H]; [apply lookup_insert_is_Some' in H as [->|H]; [done|]|];
      assert (k < n)%nat by (apply (vo_bound _ _ HV); auto); lia.
Qed.

Section Close.
Context (V : pgw_view) (n c a p : nat) (t : Z) (l : list nat).
Context (HV : view_ok V n) (Hs : session V c a p t) (Hc : v_apns V !! c = Some l).
Let V' := close_view c a p t l V.

Lemma close_session_iff d b q u : session V' d b q u <-> session V d b q u /\ b <> a.
Proof using HV Hs Hc.
  unfold session at 1, V'. simpl. split.
  - intros (l' & H1 & H2 & H3 & H4). apply lookup_insert_Some in H3 as [[_ ?]|[Hb H3]]; [done|]. split; [|congruence].
    assert (exists l0, v_apns V !! d = Some l0 /\ b ∈ l0) as (l0 & E1 & E2).
    { apply lookup_insert_Some in H1 as [[-> <-]|[_ H1]]; [|eauto]. exists l. split; [done|].
      apply erase_first_elem in H2; [tauto|]. by eapply vo_nodup. }
    destruct (vo_apn _ _ HV _ _ _ E1 E2) as (q' & u' & H5). pose proof H5 as (l1 & E3 & _ & E5 & E6).
    rewrite H3 in E5. injection E5 as <-. apply lookup_insert_Some in H4 as [[<- _]|[_ H4]].
    + exfalso. destruct Hs as (l2 & _ & _ & _ & E7). rewrite E7 in E6. injection E6 as ->.
      destruct (vo_unique _ _ HV _ _ _ _ _ _ _ Hs H5). congruence.
    + rewrite H4 in E6. injection E6 as <-. done.
  - intros [H5 Hb]. pose proof H5 as (l1 & E3 & E4 & E5 & E6). assert (q <> p) as Hq.
    { intros ->. destruct Hs as (l2 & _ & _ & _ & E7). rewrite E7 in E6. injection E6 as ->.
      destruct (vo_unique _ _ HV _ _ _ _ _ _ _ Hs H5). congruence. }
    rewrite !(lookup_insert_ne _ a), !(lookup_insert_ne _ p) by done.
    destruct (decide (d = c)) as [->|]; [|rewrite lookup_insert_ne by done; by exists l1].
    rewrite Hc in E3. injection E3 as <-. exists (erase_first a l). rewrite lookup_insert_eq. split_and!; try done.
    apply erase_first_elem; [by eapply vo_nodup|done].
Qed.

Lemma close_ok m : (n <= m)%nat -> view_ok V' m.
Proof using HV Hs Hc.
  intros Hnm. assert (v_table V !! t = Some c) as Et by (apply HV; eauto). pose proof Hs as (l1 & _ & _ & Ea & Ep). split.
  - simpl. rewrite dom_delete_L. by rewrite (vo_teids _ _ HV).
  - simpl. rewrite lookup_delete_None. right. apply HV.
  - intros u d. setoid_rewrite close_session_iff. simpl. rewrite lookup_delete_Some, (vo_table _ _ HV). split.
    + intros [Hu (b & q & H)]. exists b, q. split; [done|]. intros ->.
      destruct (session_functional _ _ _ _ _ _ _ _ Hs H) as [_ ->]. done.
    + intros (b & q & H & Hb). split; [|eauto]. intros ->. destruct (vo_unique _ _ HV _ _ _ _ _ _ _ Hs H). congruence.
  - intros c1 a1 p1 c2 a2 p2 u. rewrite !close_session_iff. intros [H1 _] [H2 _]. by eapply HV.
  - intros d l' b. setoid_rewrite close_session_iff. simpl. intros [[-> <-]|[Hd H1]]%lookup_insert_Some H2.
    + apply erase_first_elem in H2 as [H2 Hb]; [|by eapply vo_nodup]. destruct (vo_apn _ _ HV _ _ _ Hc H2) as (q & u & H). eauto.
    + destruct (vo_apn _ _ HV _ _ _ H1 H2) as (q & u & H). exists q, u. split; [done|]. intros ->.
      by pose proof (session_owner _ _ _ _ _ _ _ _ _ HV Hs H).
  - intros d l'. simpl. intros [[-> <-]|[_ H1]]%lookup_insert_Some; [apply erase_first_NoDup|]; by eapply vo_nodup.
  - intros k Hk. cut (k < n)%nat; [lia|]. apply (vo_bound _ _ HV).
    destruct Hk as [H|[H|H]]; simpl in H; apply lookup_insert_is_Some' in H as [->|H]; eauto.
Qed.
End Close.

(** ** The handlers that open and close sessions *)
Lemma teid_loop_fresh fuel used t u : teid_loop fuel used t = Some u -> (u ∉ used) /\ u <> UNASSIGNED_TEID.
Proof. revert t. induction fuel as [|fuel IH]; intros t; [done|]. cbn [teid_loop]. case_decide; [apply IH|]. intros [= <-]. tauto. Qed.

Lemma generate_teid_ends s (Q : Z -> pgw_state -> Prop) :
  (forall t, t ∉ s5s8cplteid s -> t <> 0 -> Q t (set_s5s8cplteid ({[t]} ∪ s5s8cplteid s) (set_teid_s5s8_cp_generator t s))) ->
  ends generate_s5s8_cp_teid s Q.
Proof.
  intros H. apply ends_bind, ends_get. destruct (teid_loop _ _ _) as [t|] eqn:Et; [|by apply ends_lift].
  apply teid_loop_fresh in Et as [Et1 Et2]. by apply ends_bind, ends_modify, ends_ret, H.
Qed.

(** A new APN context with its PDN connection, as in [context_create_session_request]. *)
Definition open_session (cfg : pgw_config) (c : nat) (req : itti_gtp_msg) : pgw (nat * nat) :=
  a ← new_apn_context c req; p ← new_pdn_connection cfg c req a; mret (a, p).

Lemma open_session_view cfg c req s : ends (open_session cfg c req) s (fun '(a, p) s' => exists l t,
  v_apns (view s) !! c = Some l /\ (t ∉ s5s8cplteid s) /\ t <> 0 /\ a = next_object s /\ p = S a /\ next_object s' = S p /\
  view s' = open_view c a p t l (view s)).
Proof.
  unfold open_session, new_apn_context, new_pdn_connection, new_object, put_apn, insert_apn, update_context, get_context.
  do 2 apply ends_bind. apply ends_bind, ends_gets, ends_bind, ends_modify, ends_ret, ends_bind, ends_modify.
  apply ends_bind, ends_bind, ends_bind, ends_gets, ends_deref. intros x Ex. simpl in Ex. apply ends_modify, ends_ret, ends_bind.
  destruct (contexts _ req) as [|b bs]; [by apply ends_throw|]. unfold generate_s5s8_cp_fteid.
  apply ends_bind, ends_bind, generate_teid_ends. intros t Et1 Et2.
  apply ends_ret, ends_bind, ends_modify, ends_bind, ends_bind, ends_gets, ends_bind, ends_modify, ends_ret.
  apply ends_bind, ends_modify, ends_bind. unfold insert_pdn_connection, get_apn. apply ends_bind, ends_bind, ends_gets, ends_deref. simpl.
  rewrite lookup_insert_eq. intros y [= <-]. apply ends_modify, ends_ret, ends_ret.
  exists (pg_apns x), t. split_and!; try done.
  - simpl. by rewrite lookup_fmap, Ex.
  - unfold view, open_view. simpl. by rewrite !fmap_insert, insert_insert_eq.
Qed.

Lemma open_session_ok cfg c req s : pgw_ok s -> ends (open_session cfg c req) s (fun '(a, p) s' => exists t,
  s5s8lteid2pgw_context s !! t = None /\ t <> 0 /\ s5s8lteid2pgw_context s' = <[t := c]> (s5s8lteid2pgw_context s) /\ pgw_ok s').
Proof.
  intros Hs. eapply ends_mono; [|apply open_session_view]. intros [a p] s' (l & t & Hc & Ht & Ht0 & -> & -> & Hn & Hv).
  assert (s5s8lteid2pgw_context s !! t = None) as Hfree.
  { apply not_elem_of_dom. change (s5s8lteid2pgw_context s) with (v_table (view s)). by rewrite <- (vo_teids _ _ Hs). }
  exists t. split_and!; try done.
  - change (s5s8lteid2pgw_context s') with (v_table (view s')). by rewrite Hv.
  - unfold pgw_ok. rewrite Hv, Hn. apply (open_ok _ (next_object s)); try done; lia.
Qed.

(** The connection found is the one of a session. *)
Lemma apn_find_session P a s p : apn_find P a s = Some p ->
  exists y z, apn_heap s !! a = Some y /\ p ∈ pdn_connections y /\ pdn_heap s !! p = Some z /\ P z = true.
Proof.
  unfold apn_find. intros (y & Ey & H)%bind_Some. apply find_some in H as [H1 H2]. destruct (pdn_heap s !! p) as [z|] eqn:Ez; [|done].
  exists y, z. by rewrite <- list_elem_of_In in H1.
Qed.

Lemma find_pdn_session c t s a p : pgw_ok s -> find_pdn_connection c t true s = Some (a, p) -> session (view s) c a p t.
Proof.
  intros Hs (x & Ex & H)%bind_Some. unfold first_apn in H. apply head_Some_elem_of in H.
  apply list_elem_of_omap in H as (b & Hb & H). apply fmap_Some in H as (q & H & [= <- <-]).
  apply apn_find_session in H as (y & z & Ey & Hp & Ez & HP).
  assert (v_apns (view s) !! c = Some (pg_apns x)) as E1 by (simpl; by rewrite lookup_fmap, Ex).
  destruct (vo_apn _ _ Hs _ _ _ E1 Hb) as (p' & t' & l & _ & _ & E2 & E3).
  assert (pdn_connections y = [p']) as E4 by (simpl in E2; rewrite lookup_fmap, Ey in E2; by injection E2).
  rewrite E4 in Hp. apply list_elem_of_singleton in Hp as ->. exists (pg_apns x). split_and!; try done.
  simpl. rewrite lookup_fmap, Ez. simpl. f_equal. apply Z.eqb_eq in HP. done.
Qed.

Definition free_view (p : nat) (t : Z) (V : pgw_view) : pgw_view :=
  mk_view (v_teids V ∖ {[t]}) (delete t (v_table V)) (v_apns V) (v_pdns V) (<[p := 0]> (v_teid V)).

Lemma deallocate_view p apn s : ends (deallocate_pdn p apn) s (fun _ s' => exists t,
  v_teid (view s) !! p = Some t /\ view s' = free_view p t (view s) /\ (next_object s <= next_object s')%nat).
Proof.
  apply ends_bind, ends_bind, ends_gets, ends_deref. intros x Ex. apply ends_bind.
  eapply (moves_ends same); [moves_solve|]. intros _ u [Hu Hn]. apply ends_bind, ends_modify, ends_modify.
  exists (local_teid x). split_and!; [simpl; by rewrite lookup_fmap, Ex| |done].
  rewrite <- Hu. unfold view, free_view. simpl. by rewrite fmap_insert.
Qed.

(** The second deallocation frees the TEID 0, which is never in use. *)
Lemma free_view_again V n p t : view_ok V n -> free_view p 0 (free_view p t V) = free_view p t V.
Proof.
  intros HV. unfold free_view. simpl. f_equal.
  - rewrite (vo_teids _ _ HV). apply difference_disjoint_L. apply disjoint_singleton_r. rewrite elem_of_difference, elem_of_dom.
    intros [[c Hz] _]. assert (v_table V !! 0 = None) by apply HV. congruence.
  - apply delete_id. rewrite lookup_delete_None. right. apply HV.
  - by rewrite insert_insert_eq.
Qed.

(** Reading the members the view shows. *)
Lemma view_apn s a l : v_pdns (view s) !! a = Some l -> exists y, apn_heap s !! a = Some y /\ pdn_connections y = l.
Proof. simpl. rewrite lookup_fmap. intros (y & Ey & ->)%fmap_Some. eauto. Qed.
Lemma view_context s c l : v_apns (view s) !! c = Some l -> exists x, context_heap s !! c = Some x /\ pg_apns x = l.
Proof. simpl. rewrite lookup_fmap. intros (y & Ey & ->)%fmap_Some. eauto. Qed.
Lemma get_apn_ends a s y (Q : apn_context -> pgw_state -> Prop) : apn_heap s !! a = Some y -> Q y s -> ends (get_apn a) s Q.
Proof. intros E H. apply ends_bind, ends_gets, ends_deref. rewrite E. by intros ? [= <-]. Qed.
Lemma get_context_ends c s x (Q : pgw_context -> pgw_state -> Prop) : context_heap s !! c = Some x -> Q x s -> ends (get_context c) s Q.
Proof. intros E H. apply ends_bind, ends_gets, ends_deref. rewrite E. by intros ? [= <-]. Qed.

Lemma apn_delete_view c a p t s : pgw_ok s -> session (view s) c a p t -> ends (apn_delete_pdn_connection a p) s (fun _ s' =>
  (next_object s <= next_object s')%nat /\
  view s' = mk_view (v_teids (view s) ∖ {[t]}) (delete t (v_table (view s))) (v_apns (view s)) (<[a := []]> (v_pdns (view s))) (<[p := 0]> (v_teid (view s)))).
Proof.
  intros Hs (l & Hc & Ha & Hp & Ht). destruct (view_apn _ _ _ Hp) as (y & Ey & Hy). apply ends_bind, (get_apn_ends _ _ y); [done|].
  apply ends_bind. eapply ends_mono; [|apply deallocate_view]. intros _ u (t1 & E1 & Hu & Hn). rewrite Ht in E1. injection E1 as <-.
  rewrite decide_True by (rewrite Hy; set_solver). apply ends_bind. eapply ends_mono; [|apply deallocate_view].
  intros _ v (t2 & E2 & Hv & Hn2). rewrite Hu in E2. simpl in E2. rewrite lookup_insert_eq in E2. injection E2 as <-.
  rewrite Hu, (free_view_again _ (next_object s)) in Hv by done. apply ends_modify. rewrite Hy. simpl. rewrite decide_True by done.
  split; [lia|]. unfold view at 1. simpl. rewrite fmap_insert. simpl. unfold view in Hv. unfold free_view in Hv. simpl in Hv. injection Hv as H1 H2 H3 H4 H5.
  by rewrite H1, H2, H3, H4, H5.
Qed.

Lemma delete_pdn_connection_view c a p t l s : pgw_ok s -> session (view s) c a p t -> v_apns (view s) !! c = Some l ->
  ends (delete_pdn_connection c a p) s (fun _ s' => (next_object s <= next_object s')%nat /\ view s' = close_view c a p t l (view s)).
Proof.
  intros Hs Hses Hl. apply ends_bind. eapply ends_mono; [|by apply (apn_delete_view c a p t)]. intros _ u [Hn Hu].
  assert (v_pdns (view u) !! a = Some []) as (y & Ey & Hy)%view_apn by (rewrite Hu; simpl; by rewrite lookup_insert_eq).
  assert (v_apns (view u) !! c = Some l) as (x & Ex & Hx)%view_context by (rewrite Hu; simpl; done).
  apply ends_bind, (get_apn_ends _ _ y); [done|]. rewrite decide_True by done. apply ends_bind, (get_context_ends _ _ x); [done|].
  rewrite Hx, decide_True by (destruct Hses as (l' & E & Hin & _); congruence).
  apply ends_bind, ends_bind, (get_apn_ends _ _ y); [done|]. rewrite Hy. apply ends_bind, ends_ret, ends_modify.
  apply ends_bind, (get_context_ends _ _ x); [done|]. apply ends_modify. split; [done|]. unfold view at 1. simpl. rewrite !fmap_insert. simpl. rewrite Hx.
  unfold view in Hu. simpl in Hu. injection Hu as H1 H2 H3 H4 H5. unfold close_view. simpl. by rewrite H1, H2, H3, H4, H5, insert_insert_eq.
Qed.

(** ** Every message is a step of the table of sessions *)
Inductive table_step : pgw_msg -> gmap Z nat -> gmap Z nat -> Prop :=
| table_stays m T : table_step m T T
| table_opens m T t c : T !! t = None -> t <> UNASSIGNED_TEID ->
    table_step (S5S8_CREATE_SESSION_REQUEST m) T (<[t := c]> T)
| table_closes m T t c : T !! t = Some c -> table_step (SXAB_SESSION_DELETION_RESPONSE m) T (delete t T).

(** What is shown of each message. *)
Definition good_step (m : pgw_msg) (s t : pgw_state) : Prop :=
  pgw_ok t /\ table_step m (s5s8lteid2pgw_context s) (s5s8lteid2pgw_context t).

Lemma same_step m s t : pgw_ok s -> same s t -> good_step m s t.
Proof.
  intros Hs H. split; [by eapply same_ok|]. destruct H as [Hv _].
  change (table_step m (v_table (view s)) (v_table (view t))). rewrite Hv. constructor.
Qed.

Lemma moves_good {A} (h : pgw A) m s : pgw_ok s -> moves same h -> ends h s (fun _ t => good_step m s t).
Proof. intros Hs H. eapply (moves_ends same); [done|]. intros _ t Ht. by apply same_step. Qed.

(** A change of the state before or after one that keeps the view. *)
Lemma good_same m s t u : good_step m s t -> same t u -> good_step m s u.
Proof.
  intros [H1 H2] H. split; [by eapply same_ok|]. destruct H as [Hv _].
  change (table_step m (v_table (view s)) (v_table (view u))). by rewrite Hv.
Qed.
Lemma same_good m s t u : v_table (view t) = v_table (view s) -> good_step m t u -> good_step m s u.
Proof. intros Hv [H1 H2]. split; [done|]. simpl in Hv. by rewrite <- Hv. Qed.

Lemma ends_open {A} cfg c req (k : nat -> nat -> pgw A) s (Q : A -> pgw_state -> Prop) :
  ends (open_session cfg c req) s (fun '(a, p) t => ends (k a p) t Q) ->
  ends (a ← new_apn_context c req; p ← new_pdn_connection cfg c req a; k a p) s Q.
Proof.
  intros H. apply ends_bind. intros a t E1. apply ends_bind. intros p u E2. apply (H (a, p) u).
  unfold open_session. cbv [mbind handler_bind]. by rewrite E1, E2.
Qed.

Section Steps.
Variable cfg : pgw_config.
Variable env : environment.

Lemma context_create_session_good c req s : pgw_ok s ->
  ends (context_create_session_request cfg env c req) s (fun _ t => good_step (S5S8_CREATE_SESSION_REQUEST req) s t).
Proof.
  intros Hs. rewrite context_create_session_eq. apply ends_bind, ends_get. cbv zeta. apply ends_bind.
  eapply (moves_ends same); [auto with handler|]. intros _ t Ht. pose proof (same_ok _ _ Ht Hs) as Hok.
  assert (v_table (view t) = v_table (view s)) as Hv by (destruct Ht as [-> _]; done).
  destruct (find_pdn_connection_apn _ _ _ _ _) as [[a p]|].
  - apply ends_bind, ends_ret, ends_bind, ends_ret. eapply (moves_ends same); [auto with handler|].
    intros _ u Hu. by apply same_step; [|transitivity t].
  - apply ends_open. eapply ends_mono; [|by apply open_session_ok].
    intros [a p] u (i & H1 & H2 & H3 & H4). eapply (moves_ends same); [auto with handler|]. intros _ v Hv2.
    eapply same_good; [done|]. eapply good_same; [|done]. split; [done|]. rewrite H3. by constructor.
Qed.

(** The subscriber found, or a new one without sessions. *)
Lemma create_session_subscriber_ok req s : pgw_ok s ->
  ends (create_session_subscriber cfg req) s (fun _ t => pgw_ok t /\ v_table (view t) = v_table (view s)).
Proof.
  intros Hs. apply ends_bind, ends_get. destruct (msg_get 0 req : option imsi_t) as [i|].
  - destruct (match msg_get 0 req with Some _ => _ | None => _ end); [by apply ends_ret|].
    destruct (imsi2pgw_context s !! _); [by apply ends_ret|]. apply ends_bind, ends_bind, ends_gets, ends_bind, ends_modify, ends_ret.
    apply ends_bind, ends_modify, ends_bind, ends_modify, ends_ret. split; [|done].
    unfold pgw_ok. replace (view _) with (subscribe_view (next_object s) (view s)) by (unfold view, subscribe_view; simpl; by rewrite fmap_insert).
    simpl. eapply subscribe_ok; [done|lia|lia].
  - destruct (teid req =? 0); [by apply ends_ret|]. destruct (is_s5s8c_teid_exist _ _); [|by apply ends_ret].
    apply ends_bind, ends_deref. intros c _. by apply ends_ret.
Qed.

Lemma create_session_request_good req s : pgw_ok s ->
  ends (create_session_request cfg env req) s (fun _ t => good_step (S5S8_CREATE_SESSION_REQUEST req) s t).
Proof.
  intros Hs. apply ends_bind, ends_get. cbv zeta. unfold send_create_session_response_cause.
  repeat (match goal with |- ends (if ?b then _ else _) _ _ => destruct b end; [by apply moves_good; [|moves_solve]|]).
  apply ends_bind. eapply ends_mono; [|by apply create_session_subscriber_ok]. intros [c|] t [Hok Hv].
  - eapply ends_mono; [|by apply context_create_session_good]. intros ? u Hu. by eapply same_good.
  - apply ends_ret. split; [done|]. simpl in Hv. rewrite Hv. constructor.
Qed.

Lemma delete_session_handle_good pc p m s : pgw_ok s ->
  ends (delete_session_handle env pc p m) s (fun _ t => good_step (SXAB_SESSION_DELETION_RESPONSE m) s t).
Proof.
  intros Hs. apply ends_bind, ends_deref. intros pending _. cbv zeta. apply ends_bind.
  eapply (moves_ends same); [auto with handler|]. intros _ t Ht. pose proof (same_ok _ _ Ht Hs) as Hok. destruct Ht as [Hv Hn].
  apply ends_bind, ends_bind, ends_gets, ends_deref. intros x Ex. apply ends_bind, ends_get.
  destruct (find_pdn_connection pc _ true t) as [[a q]|] eqn:Ef; [|by apply ends_ret, same_step].
  apply find_pdn_session in Ef; [|done]. pose proof Ef as (l & Hl & _). eapply ends_mono; [|by eapply (delete_pdn_connection_view _ _ _ _ l)].
  intros _ u [Hn2 Hu]. split.
  - unfold pgw_ok. rewrite Hu. by apply (close_ok _ (next_object t)).
  - change (table_step (SXAB_SESSION_DELETION_RESPONSE m) (v_table (view s)) (v_table (view u))). rewrite Hu, <- Hv.
    apply (table_closes _ _ _ pc). apply Hok. eauto.
Qed.

Lemma session_deletion_response_good m s : pgw_ok s ->
  ends (session_deletion_response env m) s (fun _ t => good_step (SXAB_SESSION_DELETION_RESPONSE m) s t).
Proof.
  intros Hs. apply ends_bind, ends_get. destruct (seid2pgw_context s !! _) as [c|]; [|by apply ends_ret, same_step].
  apply ends_bind, ends_bind, ends_get. destruct (find_procedure _ _ _) as [q|]; [|by apply ends_ret; apply moves_good; [|auto with handler]].
  apply ends_bind, ends_bind, ends_gets, ends_deref. intros y _. apply ends_bind.
  apply (ends_mono _ _ (fun _ t => good_step (SXAB_SESSION_DELETION_RESPONSE m) s t)).
  - intros _ t Ht. eapply (moves_ends same); [auto with handler|]. intros _ u Hu.
    eapply (moves_ends same); [auto with handler|]. intros _ v Hv. eapply good_same; [done|by transitivity u].
  - unfold procedure_deletion_response. destruct (body y); try (by apply ends_ret, same_step). by apply delete_session_handle_good.
Qed.

(** Every message keeps the invariant and is a step of the table. *)
Lemma pgw_app_task_good m s : pgw_ok s -> ends (pgw_app_task cfg env m) s (fun _ t => good_step m s t).
Proof.
  intros Hs. destruct m as [m|m|m|m|m|m|m|m|m]; cbn [pgw_app_task].
  1: by apply create_session_request_good.
  7: by apply session_deletion_response_good.
  all: apply moves_good; [done|].
  - unfold delete_session_request, send_delete_session_response_cause_context_not_found. moves_solve.
  - unfold modify_bearer_request, send_delete_session_response_cause_context_not_found. moves_solve.
  - unfold release_access_bearers_request. moves_solve.
  - unfold downlink_data_notification_acknowledge, context_downlink_data_notification_acknowledge, with_procedure. moves_solve.
  - unfold session_establishment_response, with_subscriber, context_session_establishment_response, with_procedure. moves_solve.
  - unfold session_modification_response, with_subscriber, context_session_modification_response, with_procedure. moves_solve.
  - unfold session_report_request, with_subscriber. moves_solve.
Qed.
End Steps.

Lemma pgw_app_init_ok pdns : pgw_ok (pgw_app_init pdns).
Proof.
  assert (forall c a p t, ~ session (view (pgw_app_init pdns)) c a p t) as Hno.
  { intros c a p t (l & H & _). simpl in H. by rewrite fmap_empty, lookup_empty in H. }
  split; simpl.
  - by rewrite dom_empty_L.
  - apply lookup_empty.
  - intros t c. rewrite lookup_empty. split; [done|]. intros (a & p & H). by apply Hno in H.
  - intros c a p c' a' p' t H. by apply Hno in H.
  - intros c l a. by rewrite fmap_empty, lookup_empty.
  - intros c l. by rewrite fmap_empty, lookup_empty.
  - intros k. rewrite !fmap_empty, !lookup_empty. by intros [[? ?]|[[? ?]|[? ?]]].
Qed.

(** ** Runs *)
Inductive table_run : list pgw_msg -> gmap Z nat -> gmap Z nat -> Prop :=
| table_run_nil T : table_run [] T T
| table_run_cons m l T T1 T2 : table_step m T T1 -> table_run l T1 T2 -> table_run (m :: l) T T2.

Lemma pgw_run_good cfg s l u : pgw_run cfg s l u -> pgw_ok s ->
  pgw_ok u /\ table_run l (s5s8lteid2pgw_context s) (s5s8lteid2pgw_context u).
Proof.
  induction 1 as [s|s env m t l u Hm _ IH]; intros Hs; [split; [done|constructor]|].
  destruct (pgw_app_task_good cfg env m s Hs tt t Hm) as [Ht Hstep]. destruct (IH Ht) as [Hu Hrun]. split; [done|]. by econstructor.
Qed.

(** The invariant, of the objects the view is taken from. *)
Lemma pgw_ok_sessions s : pgw_ok s ->
  s5s8cplteid s = dom (s5s8lteid2pgw_context s) /\ s5s8lteid2pgw_context s !! UNASSIGNED_TEID = None /\
  forall t c, s5s8lteid2pgw_context s !! t = Some c <->
    exists x a y p z, context_heap s !! c = Some x /\ a ∈ pg_apns x /\ apn_heap s !! a = Some y /\ pdn_connections y = [p] /\
      pdn_heap s !! p = Some z /\ fc_teid_gre_key (pgw_fteid_s5_s8_cp z) = t.
Proof.
  intros Hs. split; [apply (vo_teids _ _ Hs)|]. split; [apply (vo_zero _ _ Hs)|]. intros t c.
  change (s5s8lteid2pgw_context s) with (v_table (view s)). rewrite (vo_table _ _ Hs). split.
  - intros (a & p & l & (x & Ex & <-)%view_context & Ha & (y & Ey & Hy)%view_apn & Ht). simpl in Ht. rewrite lookup_fmap in Ht.
    apply fmap_Some in Ht as (z & Ez & ->). by exists x, a, y, p, z.
  - intros (x & a & y & p & z & Ex & Ha & Ey & Hy & Ez & <-). exists a, p, (pg_apns x). simpl. rewrite !lookup_fmap, Ex, Ey, Ez. simpl. by rewrite Hy.
Qed.
