(* ===== verification/PgwSpec.v ===== *)
(** * What the PGW does with a session

    The handlers of the PGW on the life of a session: the identifiers it gets,
    the request to the user plane, the answers to the SGW, and what is given back
    when it ends.  Each theorem says that the handler returns, what it sends and
    what it leaves in the state. *)
From S2P Require Import Prelude UidGenerator PaaDynamic Pco Itti PfcpNode UpNodes GtpTlv GtpScalar GtpIdentity GtpQos GtpLocation GtpAddress GtpOptions Container GtpContainer GtpMessages.
From S2P Require Import PfcpScalar PfcpTunnel PfcpIe PfcpTables PfcpContainer Handler AppMsg PgwContext PgwProcedure PgwApp PgwExample PgwLaws.
From Stdlib Require Import ZArith Lia String.
From stdpp Require Import base numbers tactics sets list strings gmap.
Open Scope Z_scope.

Set Warnings "-register-all".

(** ** Local TEIDs *)

(** The loop stops unless every candidate is taken. *)
Lemma teid_loop_spec fuel used c :
  match teid_loop fuel used (u32 (c + 1)) with
  | Some u => u ∈ UidGenerator.candidates 32 c fuel /\ (u ∉ used) /\ u <> UNASSIGNED_TEID
  | None => forall u, u ∈ UidGenerator.candidates 32 c fuel -> u ∈ used \/ u = UNASSIGNED_TEID
  end.
Proof.
  revert c. induction fuel as [|fuel IH]; intros c; cbn [teid_loop]; [intros u Hu; by apply not_elem_of_nil in Hu|].
  pose proof (candidates_step c fuel) as Hc.
  case_decide as Hd.
  - rewrite wrapu_succ. specialize (IH (c + 1)). destruct (teid_loop _ _ _) as [u|].
    + split; [|tauto]. apply Hc. tauto.
    + intros u [->|Hu]%Hc; [tauto|auto].
  - split; [apply Hc; tauto|tauto].
Qed.

(** When the search of [2 + size] candidates fails, every TEID is in use. *)
Lemma teid_loop_full used c : teid_loop (2 + size used) used (u32 (c + 1)) = None ->
  forall u, 0 < u < 2 ^ 32 -> u ∈ used.
Proof. intros E. apply (candidates_full used c). pose proof (teid_loop_spec (2 + size used) used c) as H. by rewrite E in H. Qed.

(** A full table keeps the loop of the code going for ever. *)
Lemma teid_loop_diverges fuel used c : (forall u, 0 < u < 2 ^ 32 -> u ∈ used) -> teid_loop fuel used (u32 c) = None.
Proof.
  intros H. replace c with (c - 1 + 1) by lia. pose proof (teid_loop_spec fuel used (c - 1)) as HS.
  destruct (teid_loop _ _ _) as [u|]; [|done]. exfalso. destruct HS as (Hu & Hn & H0). apply Hn, H.
  apply list_elem_of_fmap in Hu as (i & -> & _). pose proof (wrapu_fits 32 (c - 1 + 1 + Z.of_nat i) ltac:(lia)) as Hf.
  unfold fits in Hf. unfold UNASSIGNED_TEID in H0. lia.
Qed.

Lemma generate_teid_spec s :
  (exists t, 0 < t < 2 ^ 32 /\ (t ∉ s5s8cplteid s) /\
     generate_s5s8_cp_teid s = Val (t, set_s5s8cplteid ({[t]} ∪ s5s8cplteid s) (set_teid_s5s8_cp_generator t s))) \/
  ((forall t, 0 < t < 2 ^ 32 -> t ∈ s5s8cplteid s) /\ generate_s5s8_cp_teid s = Diverge /\
   forall fuel, teid_loop fuel (s5s8cplteid s) (u32 (teid_s5s8_cp_generator s + 1)) = None).
Proof.
  unfold generate_s5s8_cp_teid. cbv [mbind handler_bind get_state].
  pose proof (teid_loop_spec (2 + size (s5s8cplteid s)) (s5s8cplteid s) (teid_s5s8_cp_generator s)) as H.
  pose proof (teid_loop_full (s5s8cplteid s) (teid_s5s8_cp_generator s)) as HF.
  destruct (teid_loop _ _ _) as [t|].
  - left. exists t. destruct H as (Ht & Hn & H0). split; [|done].
    apply list_elem_of_fmap in Ht as (i & -> & _).
    pose proof (wrapu_fits 32 (teid_s5s8_cp_generator s + 1 + Z.of_nat i) ltac:(lia)) as Hf. unfold fits in Hf. unfold UNASSIGNED_TEID in H0. lia.
  - right. specialize (HF eq_refl). split_and!; try done. intros fuel. by apply teid_loop_diverges.
Qed.

(** C36 [generate_s5s8_cp_teid] returns a TEID that is not in use and not zero
    whenever there is one, and records it; when every TEID from 1 to 2^32 - 1 is
    in use its loop never ends, however long it runs. *)
Theorem generate_teid_total s :
  (exists t, 0 < t < 2 ^ 32 /\ (t ∉ s5s8cplteid s) /\
     generate_s5s8_cp_teid s = Val (t, set_s5s8cplteid ({[t]} ∪ s5s8cplteid s) (set_teid_s5s8_cp_generator t s))) \/
  ((forall t, 0 < t < 2 ^ 32 -> t ∈ s5s8cplteid s) /\ generate_s5s8_cp_teid s = Diverge /\
   forall fuel, teid_loop fuel (s5s8cplteid s) (u32 (teid_s5s8_cp_generator s + 1)) = None).
Proof. apply generate_teid_spec. Qed.

(** ** The end of a session *)

(** What the deallocations leave alone. *)
Definition quiet (s t : pgw_state) : Prop :=
  sent_by_pgw t = sent_by_pgw s /\ imsi2pgw_context t = imsi2pgw_context s /\ procedure_heap t = procedure_heap s /\
  pending_procedures <$> context_heap t = pending_procedures <$> context_heap s /\ pg_imsi <$> context_heap t = pg_imsi <$> context_heap s.

#[export] Instance quiet_preorder : PreOrder quiet.
Proof. split; [done|]. intros s t u (? & ? & ? & ? & ?) (? & ? & ? & ? & ?). split_and!; congruence. Qed.

Ltac modify_quiet := apply moves_modify; intros ?; split_and!; reflexivity.

Lemma get_pdn_quiet p : moves quiet (get_pdn p).
Proof. unfold get_pdn. moves_solve. Qed.
Lemma put_pdn_quiet p x : moves quiet (put_pdn p x).
Proof. modify_quiet. Qed.
Lemma get_apn_quiet a : moves quiet (get_apn a).
Proof. unfold get_apn. moves_solve. Qed.
Lemma put_apn_quiet a x : moves quiet (put_apn a x).
Proof. modify_quiet. Qed.
Lemma get_context_quiet c : moves quiet (get_context c).
Proof. unfold get_context. moves_solve. Qed.
Lemma update_apns_quiet c f : moves quiet (update_context c (fun x => set_pg_apns (f x) x)).
Proof.
  intros s. apply ends_bind, ends_bind, ends_gets, ends_deref. intros x E. apply ends_modify.
  split_and!; try done; simpl; by erewrite fmap_insert_same.
Qed.
Lemma free_fteid_quiet f : moves quiet (free_s5s8_cp_fteid f).
Proof. modify_quiet. Qed.
Lemma release_address_quiet apn a : moves quiet (release_address apn a).
Proof. unfold release_address. moves_solve. modify_quiet. Qed.
#[export] Hint Resolve get_pdn_quiet put_pdn_quiet get_apn_quiet put_apn_quiet get_context_quiet update_apns_quiet
  free_fteid_quiet release_address_quiet : handler.

Lemma delete_pdn_connection_quiet c a p : moves quiet (delete_pdn_connection c a p).
Proof. unfold delete_pdn_connection, apn_delete_pdn_connection, delete_apn_context, deallocate_apn, deallocate_pdn. moves_solve. Qed.
#[export] Hint Resolve delete_pdn_connection_quiet : handler.

(** A session is found by its TEID. *)
Lemma find_session c t s a p : pgw_ok s -> session (view s) c a p t -> find_pdn_connection c t true s = Some (a, p).
Proof.
  intros Hs H. pose proof H as (l & Hc & Ha & Hp & Ht). destruct (view_context _ _ _ Hc) as (x & Ex & Hx).
  destruct (view_apn _ _ _ Hp) as (y & Ey & Hy). simpl in Ht. rewrite lookup_fmap in Ht. apply fmap_Some in Ht as (z & Ez & Ht).
  destruct (find_pdn_connection c t true s) as [[a' p']|] eqn:E.
  - apply find_pdn_session in E; [|done]. destruct (vo_unique _ _ Hs _ _ _ _ _ _ _ H E) as [<- <-]. done.
  - exfalso. unfold find_pdn_connection in E. rewrite Ex in E. simpl in E. unfold first_apn in E. apply head_None in E.
    assert ((a, p) ∈ omap (fun a => (a,.) <$> apn_find_pdn_connection t true a s) (pg_apns x)) as Hin.
    { apply list_elem_of_omap. exists a. split; [congruence|]. unfold apn_find_pdn_connection, apn_find. rewrite Ey. simpl.
      rewrite Hy. simpl. rewrite Ez. unfold pdn_has_teid. rewrite Ht. unfold local_teid. by rewrite Z.eqb_refl. }
    rewrite E in Hin. by apply not_elem_of_nil in Hin.
Qed.

Lemma get_pdn_returns p s x (Q : pgw_pdn_connection -> pgw_state -> Prop) : pdn_heap s !! p = Some x -> Q x s -> returns (get_pdn p) s Q.
Proof. intros E H. apply returns_bind, returns_gets. by eapply returns_deref. Qed.
Lemma get_apn_returns a s y (Q : apn_context -> pgw_state -> Prop) : apn_heap s !! a = Some y -> Q y s -> returns (get_apn a) s Q.
Proof. intros E H. apply returns_bind, returns_gets. by eapply returns_deref. Qed.
Lemma get_context_returns c s x (Q : pgw_context -> pgw_state -> Prop) : context_heap s !! c = Some x -> Q x s -> returns (get_context c) s Q.
Proof. intros E H. apply returns_bind, returns_gets. by eapply returns_deref. Qed.
Lemma get_procedure_returns q s y (Q : pgw_procedure -> pgw_state -> Prop) : procedure_heap s !! q = Some y -> Q y s -> returns (get_procedure q) s Q.
Proof. intros E H. apply returns_bind, returns_gets. by eapply returns_deref. Qed.

(** The pools after the address of a connection was given back. *)
Definition released_pools (x : pgw_pdn_connection) (apn : list Z) (s : pgw_state) (d : paa_dynamic) : Prop :=
  if pc_ipv4 x then exists b, release_paa_ipv4 (string_of_octets apn) (pc_ipv4_address x) (pools s) = Val (b, d) else d = pools s.

Lemma deallocate_pdn_returns p apn s x d : pdn_heap s !! p = Some x -> released_pools x apn s d ->
  returns (deallocate_pdn p apn) s (fun _ t => pools t = d /\ apn_heap t = apn_heap s /\ context_heap t = context_heap s /\
    pdn_heap t !! p = Some (pgw_pdn_connection_clear x)).
Proof.
  intros Ex Hd. apply returns_bind, (get_pdn_returns _ _ x); [done|]. apply returns_bind.
  assert (forall u, pools u = d -> apn_heap u = apn_heap s -> context_heap u = context_heap s ->
    returns (_ ← free_s5s8_cp_fteid (pgw_fteid_s5_s8_cp x); put_pdn p (pgw_pdn_connection_clear x)) u (fun _ t =>
      pools t = d /\ apn_heap t = apn_heap s /\ context_heap t = context_heap s /\ pdn_heap t !! p = Some (pgw_pdn_connection_clear x))) as Hk.
  { intros u H1 H2 H3. apply returns_bind, returns_modify, returns_modify. simpl. rewrite lookup_insert_eq. done. }
  unfold released_pools in Hd. destruct (pc_ipv4 x); [|subst; by apply returns_ret, Hk].
  destruct Hd as [b Hb]. apply returns_bind, returns_get, returns_bind. eapply returns_lift; [by rewrite Hb|]. by apply returns_modify, Hk.
Qed.

Lemma delete_pdn_connection_returns c a p t s x y d : pgw_ok s -> session (view s) c a p t ->
  pdn_heap s !! p = Some x -> apn_heap s !! a = Some y -> released_pools x (apn_in_use y) s d ->
  returns (delete_pdn_connection c a p) s (fun _ u => pools u = d).
Proof.
  intros Hs Hses Ex Ey Hd. pose proof Hses as (l & Hc & Ha & Hp & _). destruct (view_context _ _ _ Hc) as (z & Ez & Hz).
  destruct (view_apn _ _ _ Hp) as (y' & Ey' & Hy). rewrite Ey in Ey'. injection Ey' as <-.
  apply returns_bind, returns_bind, (get_apn_returns _ _ y); [done|]. apply returns_bind.
  eapply returns_mono; [|by eapply deallocate_pdn_returns]. intros _ u (Hd1 & Ha1 & Hc1 & Hp1).
  rewrite decide_True by (rewrite Hy; set_solver). apply returns_bind.
  eapply returns_mono; [|by apply (deallocate_pdn_returns _ _ _ (pgw_pdn_connection_clear x) d)]. intros _ v (Hd2 & Ha2 & Hc2 & _).
  rewrite Hy. simpl. rewrite decide_True by done. apply returns_modify, returns_bind.
  eapply get_apn_returns; [simpl; by rewrite lookup_insert_eq|]. rewrite decide_True by done. apply returns_bind.
  apply (get_context_returns _ _ z); [simpl; congruence|]. rewrite decide_True by congruence. apply returns_bind, returns_bind.
  eapply get_apn_returns; [simpl; by rewrite lookup_insert_eq|]. apply returns_bind, returns_ret, returns_modify.
  apply returns_bind, (get_context_returns _ _ z); [simpl; congruence|]. by apply returns_modify.
Qed.

(** The subscriber [c] once the procedure [q] is over: kept when it still has an
    APN context. *)
Lemma finish_procedure_returns c q s x : context_heap s !! c = Some x ->
  returns (_ ← remove_procedure c q; forget_if_idle c) s (fun _ t =>
    same s t /\ sent_by_pgw t = sent_by_pgw s /\ pools t = pools s /\
    context_heap t = <[c := set_pending_procedures (erase_first q (pending_procedures x)) x]> (context_heap s) /\
    imsi2pgw_context t = if decide (pg_apns x = []) then delete (to_imsi64 (pg_imsi x)) (imsi2pgw_context s) else imsi2pgw_context s).
Proof.
  intros Ex. apply returns_bind, returns_bind, (get_context_returns _ _ x); [done|]. apply returns_modify, returns_bind.
  eapply get_context_returns; [simpl; by rewrite lookup_insert_eq|]. simpl.
  assert (forall m, same s (set_imsi2pgw_context m (set_context_heap (<[c:=set_pending_procedures (erase_first q (pending_procedures x)) x]> (context_heap s)) s))) as Hsame.
  { intros m. split; [|done]. unfold view. simpl. by erewrite fmap_insert_same. }
  case_decide.
  - apply returns_bind. eapply get_context_returns; [simpl; by rewrite lookup_insert_eq|]. apply returns_modify. by split; [apply Hsame|].
  - apply returns_ret. split; [|done]. apply (Hsame (imsi2pgw_context s)).
Qed.

Section Deletion.
Context (env : environment) (m : itti_sx_msg) (s : pgw_state) (c q a : nat) (t tx : Z).
Context (sp : s5_procedure) (pending : itti_gtp_msg) (x : pgw_pdn_connection) (y : apn_context) (z : pgw_context) (d : paa_dynamic).

(** C7 When the user plane answers the deletion of an open session, whatever its
    cause: the SGW gets the response kept by the procedure, with the cause; the
    TEID is free again and leads nowhere; the address of the UE is back in its
    pool; the APN context and the procedure are gone; the subscriber is forgotten
    when it has no other session; and the tables still agree. *)
Theorem session_deletion_closes (l := pg_apns z) :
  pgw_ok s ->
  seid2pgw_context s !! seid m = Some c -> context_heap s !! c = Some z -> find_procedure c (sx_trxn_id m) s = Some q ->
  procedure_heap s !! q = Some (mk_pgw_procedure tx (delete_session_procedure c sp)) ->
  sp_s5_triggered_pending sp = Some pending -> task_ready env TASK_PGWC_S5S8 = true ->
  session (view s) c a (sp_ppc sp) t -> pdn_heap s !! sp_ppc sp = Some x -> apn_heap s !! a = Some y ->
  released_pools x (apn_in_use y) s d ->
  exists s', session_deletion_response env m s = Val (tt, s') /\
    sent_by_pgw s' = sent_by_pgw s ++
      [OutGtp TASK_PGWC_S5S8 (msg_set 0 (deletion_cause (sx_get_element pfcp_session_deletion_response_class Ecause (pfcp_ies m))) pending)] /\
    s5s8lteid2pgw_context s' = delete t (s5s8lteid2pgw_context s) /\ s5s8cplteid s' = s5s8cplteid s ∖ {[t]} /\ pools s' = d /\
    (exists z', context_heap s' !! c = Some z' /\ pg_apns z' = erase_first a l /\ pending_procedures z' = erase_first q (pending_procedures z)) /\
    imsi2pgw_context s' = (if decide (erase_first a l = []) then delete (to_imsi64 (pg_imsi z)) (imsi2pgw_context s) else imsi2pgw_context s) /\
    pgw_ok s'.
Proof.
  intros Hs Hseid Ez Hq Eq Hpend Hready Hses Ex Ey Hd. unfold l.
  enough (returns (session_deletion_response env m) s (fun _ s' =>
    sent_by_pgw s' = sent_by_pgw s ++
      [OutGtp TASK_PGWC_S5S8 (msg_set 0 (deletion_cause (sx_get_element pfcp_session_deletion_response_class Ecause (pfcp_ies m))) pending)] /\
    view s' = close_view c a (sp_ppc sp) t (pg_apns z) (view s) /\ pools s' = d /\
    (exists z', context_heap s' !! c = Some z' /\ pending_procedures z' = erase_first q (pending_procedures z)) /\
    imsi2pgw_context s' = if decide (erase_first a (pg_apns z) = []) then delete (to_imsi64 (pg_imsi z)) (imsi2pgw_context s) else imsi2pgw_context s)) as H.
  { destruct H as ([] & s' & E & H1 & Hv & H3 & (z' & E4 & H4) & H5). exists s'.
    pose proof (session_deletion_response_good env m s Hs tt s' E) as [Hok _]. pose proof (f_equal v_table Hv) as H6.
    pose proof (f_equal v_teids Hv) as H7. split_and!; try done. exists z'. split_and!; try done.
    pose proof (f_equal (fun V => v_apns V !! c) Hv) as H8. simpl in H8. rewrite lookup_fmap, E4, lookup_insert_eq in H8. by injection H8. }
  apply returns_bind, returns_get. rewrite Hseid. apply returns_bind, returns_bind, returns_get. rewrite Hq.
  apply returns_bind, (get_procedure_returns _ _ _ _ Eq), returns_bind. simpl.
  apply returns_bind, (returns_deref _ _ _ _ Hpend), returns_bind. unfold send_msg. rewrite Hready. apply returns_bind, returns_modify, returns_ret.
  apply returns_bind, (get_pdn_returns _ _ x); [done|]. apply returns_bind, returns_get.
  set (s1 := set_sent_by_pgw _ s). assert (pgw_ok s1) as Hs1 by done. change (session (view s1) c a (sp_ppc sp) t) in Hses.
  assert (local_teid x = t) as Ht.
  { destruct Hses as (? & _ & _ & _ & H). simpl in H. rewrite lookup_fmap, Ex in H. by injection H. }
  unfold local_teid in Ht. rewrite Ht, (find_session c t s1 a (sp_ppc sp)) by done.
  assert (v_apns (view s1) !! c = Some (pg_apns z)) as Hc by (simpl; by rewrite lookup_fmap, Ez).
  eapply returns_mono; [|apply returns_ends; [by eapply (delete_pdn_connection_returns _ _ _ t)|apply ends_and;
    [by apply (delete_pdn_connection_view _ _ _ t (pg_apns z))|apply delete_pdn_connection_quiet]]].
  intros _ u (Hd1 & (_ & Hv) & (H1 & H2 & H3 & H4 & H5)).
  assert (v_apns (view u) !! c = Some (erase_first a (pg_apns z))) as (w & Ew & Hw)%view_context
    by (rewrite Hv; simpl; by rewrite lookup_insert_eq).
  pose proof (f_equal (.!! c) H4) as H6. simpl in H6. rewrite !lookup_fmap, Ew, Ez in H6. injection H6 as H6.
  pose proof (f_equal (.!! c) H5) as H7. simpl in H7. rewrite !lookup_fmap, Ew, Ez in H7. injection H7 as H7.
  apply returns_unbind. eapply returns_mono; [|by apply (finish_procedure_returns _ _ _ w)].
  intros _ v ([Hvv _] & G1 & G2 & G3 & G4). split_and!.
  - by rewrite G1, H1.
  - by rewrite Hvv, Hv.
  - congruence.
  - eexists. rewrite G3, lookup_insert_eq. split; [done|]. simpl. by rewrite H6.
  - by rewrite G4, Hw, H7, H2.
Qed.
End Deletion.

(** The state once the demonstration has attached and asked for its end. *)
Definition state_after (l : list pgw_msg) : pgw_state :=
  match after l with Val (_, s) => s | _ => pgw_app_init demo_pdns end.
Definition demo_closing : pgw_state :=
  state_after (demo_attach ++ [S5S8_DELETE_SESSION_REQUEST (demo_request DELETE_SESSION_REQUEST 1 2)]).

Lemma run_all_ok env l s u : pgw_ok s -> run_all env l s = Val (tt, u) -> pgw_ok u.
Proof.
  revert s. induction l as [|m l IH]; intros s Hs; [by intros [= <-]|]. cbn [run_all]. cbv [mbind handler_bind].
  destruct (pgw_app_task demo_cfg env m s) as [[[] t]| | |] eqn:E; try done. apply IH. by apply (pgw_app_task_good _ _ _ _ Hs _ _ E).
Qed.

Lemma state_after_ok l : pgw_ok (state_after l).
Proof.
  unfold state_after. destruct (after l) as [[[] s]| | |] eqn:E; try apply pgw_app_init_ok. eapply run_all_ok; [apply pgw_app_init_ok|done].
Qed.

Definition demo_pdn : pgw_pdn_connection := default pgw_pdn_connection_new (pdn_heap demo_closing !! 2%nat).
Definition demo_apn_context : apn_context := default (mk_apn_context false [] (mk_ambr_t 0 0) []) (apn_heap demo_closing !! 1%nat).
Definition demo_subscriber : pgw_context := default pgw_context_new (context_heap demo_closing !! 0%nat).
Definition demo_deletion : option (Z * s5_procedure) :=
  match procedure_heap demo_closing !! 4%nat with
  | Some (mk_pgw_procedure tx (delete_session_procedure _ sp)) => Some (tx, sp)
  | _ => None
  end.
Definition demo_closing_procedure : s5_procedure := default (s5_procedure_new 0) (snd <$> demo_deletion).
Definition demo_closing_response : itti_gtp_msg :=
  default (new_gtp_msg DELETE_SESSION_RESPONSE) (sp_s5_triggered_pending demo_closing_procedure).
Definition demo_pools_back : paa_dynamic :=
  match release_paa_ipv4 (string_of_octets (apn_in_use demo_apn_context)) (pc_ipv4_address demo_pdn) (pools demo_closing) with
  | Val (_, d) => d
  | _ => pools demo_closing
  end.

(** The session of the demonstration ends: its table is empty again. *)
Lemma session_deletion_closes_witness : exists s',
  session_deletion_response demo_env (demo_deleted 1 2) demo_closing = Val (tt, s') /\
  s5s8lteid2pgw_context s' = delete 1 (s5s8lteid2pgw_context demo_closing) /\ pools s' = demo_pools_back.
Proof.
  destruct (session_deletion_closes demo_env (demo_deleted 1 2) demo_closing 0 4 1 1 2 demo_closing_procedure demo_closing_response
              demo_pdn demo_apn_context demo_subscriber demo_pools_back) as (s' & H1 & _ & H2 & _ & H3 & _).
  - apply state_after_ok.
  - vm_compute. reflexivity.
  - vm_compute. reflexivity.
  - vm_compute. reflexivity.
  - vm_compute. reflexivity.
  - vm_compute. reflexivity.
  - reflexivity.
  - exists [1%nat]. split; [vm_compute; reflexivity|]. split; [apply list_elem_of_singleton; reflexivity|]. split; vm_compute; reflexivity.
  - vm_compute. reflexivity.
  - vm_compute. reflexivity.
  - unfold released_pools. replace (pc_ipv4 demo_pdn) with true by (vm_compute; reflexivity). exists true. vm_compute. reflexivity.
  - exists s'. split; [exact H1|]. split; [exact H2|exact H3].
Defined.

(** ** Runs of the PGW *)
Lemma run_all_run env l s u : run_all env l s = Val (tt, u) -> pgw_run demo_cfg s l u.
Proof.
  revert s. induction l as [|m l IH]; intros s; [intros [= <-]; constructor|]. cbn [run_all]. cbv [mbind handler_bind].
  destruct (pgw_app_task demo_cfg env m s) as [[[] t]| | |] eqn:E; try done. intros H. by econstructor; [|apply IH].
Qed.

Definition ended {E A} (r : result E A) : bool := match r with Val _ => true | _ => false end.

Lemma state_after_run l : ended (after l) = true -> pgw_run demo_cfg (pgw_app_init demo_pdns) l (state_after l).
Proof. unfold state_after. destruct (after l) as [[[] s]| | |] eqn:E; try discriminate. intros _. by eapply run_all_run. Qed.

(** C1 Whatever messages the PGW has handled, each in any environment, and however
    they were interleaved between subscribers, its state is the one of an abstract
    table of sessions: a message leaves the table as it is, a Create Session
    Request may add one session under a TEID that is not zero and not in use, a
    Session Deletion Response may remove one that is there, and nothing else
    changes it. *)
Theorem pgw_run_refines cfg pdns l s : pgw_run cfg (pgw_app_init pdns) l s -> table_run l ∅ (s5s8lteid2pgw_context s).
Proof. intros H. by apply (pgw_run_good _ _ _ _ H (pgw_app_init_ok pdns)). Qed.

Lemma pgw_run_refines_witness : table_run (demo_attach ++ demo_detach) ∅ (s5s8lteid2pgw_context (state_after (demo_attach ++ demo_detach))).
Proof. apply (pgw_run_refines demo_cfg demo_pdns). apply state_after_run. vm_compute. reflexivity. Defined.

(** C15 In every state the PGW reaches the tables and the objects agree: the TEIDs
    in use are the keys of the table, zero is none of them, and a TEID leads to a
    subscriber exactly when the subscriber has an APN context whose one PDN
    connection has this local TEID. *)
Theorem pgw_tables_agree cfg pdns l s : pgw_run cfg (pgw_app_init pdns) l s ->
  s5s8cplteid s = dom (s5s8lteid2pgw_context s) /\ s5s8lteid2pgw_context s !! UNASSIGNED_TEID = None /\
  forall t c, s5s8lteid2pgw_context s !! t = Some c <->
    exists x a y p z, context_heap s !! c = Some x /\ a ∈ pg_apns x /\ apn_heap s !! a = Some y /\ pdn_connections y = [p] /\
      pdn_heap s !! p = Some z /\ fc_teid_gre_key (pgw_fteid_s5_s8_cp z) = t.
Proof. intros H. by apply pgw_ok_sessions, (pgw_run_good _ _ _ _ H (pgw_app_init_ok pdns)). Qed.

Lemma pgw_tables_agree_witness : s5s8cplteid (state_after demo_attach) = dom (s5s8lteid2pgw_context (state_after demo_attach)).
Proof. apply (pgw_tables_agree demo_cfg demo_pdns demo_attach). apply state_after_run. vm_compute. reflexivity. Defined.
