(* ===== verification/PgwAttach.v ===== *)
(** * Setting up a session

    The two halves of an attach: the Create Session Request, which opens the
    session and asks the user plane for its rules, and the answer of the user
    plane, which is turned into the Create Session Response. *)
From S2P Require Import Prelude UidGenerator PaaDynamic Pco Itti PfcpNode UpNodes GtpTlv GtpScalar GtpIdentity GtpQos GtpLocation GtpAddress GtpOptions Container GtpContainer GtpMessages.
From S2P Require Import PfcpScalar PfcpTunnel PfcpIe PfcpTables PfcpContainer Handler AppMsg PgwContext PgwProcedure PgwApp PgwExample PgwLaws PgwSpec.
From Stdlib Require Import ZArith Lia String.
From stdpp Require Import base numbers tactics sets list strings gmap.
Open Scope Z_scope.

Set Warnings "-register-all".

(** ** Bearers and their rules *)

(** Each bearer is filed under its identity, which is a valid one. *)
Definition bearers_ok (x : pgw_pdn_connection) : Prop :=
  forall k b, eps_bearers x !! k = Some b -> ebi (eb_ebi b) = k /\ valid_ebi k = true.

Definition has_rule (r : Z) (b : pgw_eps_bearer) : bool := (eb_pdr_id_ul b =? r) || (eb_pdr_id_dl b =? r).

(** A rule is of one bearer; the identity 0 is of none. *)
Definition rules_ok (x : pgw_pdn_connection) : Prop :=
  forall r k k' b b', r <> 0 -> eps_bearers x !! k = Some b -> eps_bearers x !! k' = Some b' ->
    has_rule r b = true -> has_rule r b' = true -> k = k'.

Lemma entries_elem {V} (m : gmap Z V) k v : (k, v) ∈ entries m <-> 0 <= k < 256 /\ m !! k = Some v.
Proof.
  unfold entries. rewrite list_elem_of_omap. split.
  - intros (i & Hi & (w & Hw & [= <- <-])%fmap_Some). apply elem_of_seqZ in Hi. auto with lia.
  - intros [Hk E]. exists k. rewrite E. split; [apply elem_of_seqZ; lia|done].
Qed.

Lemma find_bearer_unique P x k b : 0 <= k < 256 -> eps_bearers x !! k = Some b -> P b = true ->
  (forall k' b', eps_bearers x !! k' = Some b' -> P b' = true -> k' = k) -> find_bearer P x = Some b.
Proof.
  intros Hk E HP HU. unfold find_bearer. destruct (find _ _) as [[k' b']|] eqn:Ef.
  - apply find_some in Ef as [Hin HP']. rewrite <- list_elem_of_In in Hin. apply entries_elem in Hin as [_ E']. simpl in HP'.
    rewrite (HU _ _ E' HP') in E'. simpl. congruence.
  - exfalso. pose proof (find_none _ _ Ef (k, b)) as Hn. simpl in Hn. rewrite HP in Hn.
    discriminate Hn. rewrite <- list_elem_of_In. by apply entries_elem.
Qed.

Lemma find_bearer_Some P x b : find_bearer P x = Some b -> exists k, eps_bearers x !! k = Some b /\ P b = true.
Proof.
  unfold find_bearer. intros ([k b'] & Ef & ->)%fmap_Some. apply find_some in Ef as [Hin HP].
  rewrite <- list_elem_of_In in Hin. apply entries_elem in Hin as [_ E]. by exists k.
Qed.

Lemma valid_ebi_bound k : valid_ebi k = true -> 5 <= k <= 15.
Proof. unfold valid_ebi, EPS_BEARER_IDENTITY_FIRST, EPS_BEARER_IDENTITY_LAST. lia. Qed.

Lemma find_by_ebi x k b e : bearers_ok x -> eps_bearers x !! k = Some b -> ebi e = k -> get_eps_bearer_ebi e x = Some b.
Proof.
  intros Hx E He. destruct (Hx k b E) as [Hb Hv%valid_ebi_bound]. eapply find_bearer_unique; [|done|..]; [lia| |].
  - unfold ebi_eqb. by apply Z.eqb_eq; lia.
  - intros k' b' E'. unfold ebi_eqb. destruct (Hx k' b' E'). lia.
Qed.

Lemma get_eps_bearer_pdr_eq r x : get_eps_bearer_pdr r x = find_bearer (has_rule r) x.
Proof. unfold get_eps_bearer_pdr, has_rule. reflexivity. Qed.

Lemma find_by_rule x k b r : bearers_ok x -> rules_ok x -> r <> 0 -> eps_bearers x !! k = Some b -> has_rule r b = true ->
  get_eps_bearer_pdr r x = Some b.
Proof.
  intros Hx Hr H0 E Hb. destruct (Hx k b E) as [_ Hv%valid_ebi_bound]. eapply find_bearer_unique; [|done|..]; [lia|done|].
  intros k' b' E' Hb'. by eapply Hr.
Qed.

(** ** Created PDRs *)

(** The rule and the F-TEID of a Created PDR. *)
Definition created (it : sx_ies) : option (Z * sx_fteid) :=
  r ← sx_get_element created_pdr_class Epdr_id it; (pdr_id_rule_id r,.) <$> sx_get_element created_pdr_class Efteid it.

Definition with_up_fteid (f : sx_fteid) (b : pgw_eps_bearer) : pgw_eps_bearer :=
  set_eb_pgw_fteid_s5_s8_up (fteid_with_interface S5_S8_PGW_GTP_U (pfcp_to_core_fteid f (eb_pgw_fteid_s5_s8_up b))) b.

Lemma created_pdr_eq it x : establishment_created_pdr it x =
  match created it with
  | Some (r, f) => match get_eps_bearer_pdr r x with Some b => add_eps_bearer (with_up_fteid f b) x | None => x end
  | None => x
  end.
Proof.
  unfold establishment_created_pdr, created. destruct (sx_get_element _ Epdr_id it) as [r|]; [|done]. simpl.
  destruct (sx_get_element _ Efteid it); simpl; by destruct (get_eps_bearer_pdr _ x).
Qed.

Lemma add_eps_bearer_bearers k b x : ebi (eb_ebi b) = k -> valid_ebi k = true ->
  eps_bearers (add_eps_bearer b x) = <[k := b]> (eps_bearers x).
Proof. intros <- Hv. unfold add_eps_bearer. rewrite Hv. apply insert_delete_eq. Qed.

(** What a Created PDR does to the bearers: at most one gets an F-TEID. *)
Lemma created_pdr_bearers it x : bearers_ok x ->
  eps_bearers (establishment_created_pdr it x) = eps_bearers x \/
  exists r f k b, created it = Some (r, f) /\ eps_bearers x !! k = Some b /\ has_rule r b = true /\
    eps_bearers (establishment_created_pdr it x) = <[k := with_up_fteid f b]> (eps_bearers x).
Proof.
  intros Hx. rewrite created_pdr_eq. destruct (created it) as [[r f]|]; [|by left].
  destruct (get_eps_bearer_pdr r x) as [b|] eqn:Eb; [|by left]. right. rewrite get_eps_bearer_pdr_eq in Eb. apply find_bearer_Some in Eb as (k & E & Hb).
  exists r, f, k, b. destruct (Hx k b E) as [Hk Hv]. split; [reflexivity|]. split; [exact E|]. split; [exact Hb|].
  by apply add_eps_bearer_bearers.
Qed.

Lemma created_pdr_ok it x : bearers_ok x -> rules_ok x ->
  bearers_ok (establishment_created_pdr it x) /\ rules_ok (establishment_created_pdr it x).
Proof.
  intros Hx Hr. destruct (created_pdr_bearers it x Hx) as [E|(r & f & k & b & _ & Eb & _ & E)].
  - unfold bearers_ok, rules_ok. by rewrite E.
  - assert (forall j c, eps_bearers (establishment_created_pdr it x) !! j = Some c ->
      exists c0, eps_bearers x !! j = Some c0 /\ eb_ebi c = eb_ebi c0 /\ forall r, has_rule r c = has_rule r c0) as Hold.
    { intros j c. rewrite E. intros [[<- <-]|[_ Hj]]%lookup_insert_Some; [by exists b|by exists c]. }
    split.
    + intros j c (c0 & H1 & H2 & _)%Hold. rewrite H2. by apply Hx.
    + intros r' j j' c c' H0 (c0 & H1 & _ & H2)%Hold (c0' & H1' & _ & H2')%Hold. rewrite H2, H2'. by apply (Hr r' j j' c0 c0').
Qed.

(** Nothing in the message names a rule of [b]. *)
Definition silent_on (b : pgw_eps_bearer) (l : list sx_ies) : Prop :=
  forall it r f, it ∈ l -> created it = Some (r, f) -> has_rule r b = false.

Lemma fold_created_ok l : forall x, bearers_ok x -> rules_ok x ->
  let y := foldl (fun x it => establishment_created_pdr it x) x l in bearers_ok y /\ rules_ok y.
Proof.
  induction l as [|it l IH]; intros x Hx Hr; [done|]. destruct (created_pdr_ok it x Hx Hr). by apply IH.
Qed.

Lemma fold_created_silent l : forall x k b, bearers_ok x -> rules_ok x -> eps_bearers x !! k = Some b -> silent_on b l ->
  eps_bearers (foldl (fun x it => establishment_created_pdr it x) x l) !! k = Some b.
Proof.
  induction l as [|it l IH]; intros x k b Hx Hr E Hs; [done|]. destruct (created_pdr_ok it x Hx Hr) as [Hx' Hr']. cbn [foldl].
  apply IH; [done|done| |intros i r f Hi; apply Hs; set_solver].
  destruct (created_pdr_bearers it x Hx) as [->|(r & f & j & c & Hc & Ej & Hrc & ->)]; [done|].
  destruct (decide (j = k)) as [->|]; [|by rewrite lookup_insert_ne]. exfalso. rewrite E in Ej. injection Ej as <-.
  rewrite (Hs it r f) in Hrc; [done|set_solver|done].
Qed.

(** The F-TEID the user plane gives for the rule of a bearer is the one of the
    bearer afterwards. *)
Lemma fold_created_fteid l1 it l2 x k b r f : bearers_ok x -> rules_ok x -> eps_bearers x !! k = Some b ->
  created it = Some (r, f) -> r <> 0 -> has_rule r b = true -> silent_on b l1 -> silent_on b l2 ->
  eps_bearers (foldl (fun x it => establishment_created_pdr it x) x (l1 ++ it :: l2)) !! k = Some (with_up_fteid f b).
Proof.
  intros Hx Hr E Hc H0 Hrb H1 H2. rewrite foldl_app. cbn [foldl]. destruct (fold_created_ok l1 x Hx Hr) as [Hx1 Hr1].
  pose proof (fold_created_silent l1 x k b Hx Hr E H1) as E1. set (x1 := foldl _ x l1) in *.
  destruct (created_pdr_ok it x1 Hx1 Hr1). apply fold_created_silent; [done|done| |done].
  rewrite created_pdr_eq, Hc, (find_by_rule x1 k b r) by done. destruct (Hx1 k b E1) as [Hk Hv].
  rewrite (add_eps_bearer_bearers k) by done. apply lookup_insert_eq.
Qed.

(** ** The Create Session Response *)
Lemma add_contexts (g : fields value -> fields value) l : forall m,
  let m' := foldl (fun m it => add_bearer_context_created (g it) m) m l in
  contexts "bearer_contexts_created" m' = contexts "bearer_contexts_created" m ++ map g l /\
  gtp_msg_kind m' = gtp_msg_kind m /\ gtpc_tx_id m' = gtpc_tx_id m /\ teid m' = teid m /\ r_endpoint m' = r_endpoint m /\
  f_vals (msg_fields m') = f_vals (msg_fields m).
Proof.
  induction l as [|it l IH]; intros m m'; subst m'; cbn [foldl map]; [by rewrite app_nil_r|].
  destruct (IH (add_bearer_context_created (g it) m)) as (H1 & H2). split; [|apply H2].
  rewrite H1. unfold contexts at 1. simpl. rewrite lookup_insert_eq. simpl. by rewrite <- (assoc_L (++)).
Qed.

(** The context of a bearer that has an F-TEID of the user plane. *)
Lemma bearer_context_created_ok x it b :
  get_eps_bearer_ebi (member "eps_bearer_id" it) x = Some b -> fteid_is_zero (eb_pgw_fteid_s5_s8_up b) = false ->
  ies_get bcc_created 0 (bearer_context_created x it) = Some (eb_ebi b) /\
  ies_get bcc_created 0 (bearer_context_created x it) = Some (cause_of REQUEST_ACCEPTED) /\
  ies_get bcc_created 2 (bearer_context_created x it) = Some (eb_pgw_fteid_s5_s8_up b).
Proof.
  intros Hb Hz. unfold bearer_context_created. rewrite Hb, Hz. split_and!.
  - rewrite ies_get_set_apart by (vm_compute; reflexivity). apply ies_get_set. vm_compute. reflexivity.
  - apply ies_get_set. vm_compute. reflexivity.
  - rewrite !ies_get_set_apart by (vm_compute; reflexivity). apply ies_get_set. vm_compute. reflexivity.
Qed.

(** The PDN connection once the answer [ies] of the user plane has been read. *)
Definition established_pdn (ies : sx_ies) (x : pgw_pdn_connection) : pgw_pdn_connection :=
  let x := match sx_get_element pfcp_session_establishment_response_class Ecause ies,
                 sx_get_element pfcp_session_establishment_response_class Ef_seid ies with
           | Some c, Some f => if cause_cause_value c =? CAUSE_VALUE_REQUEST_ACCEPTED then set_up_fseid f x else x
           | _, _ => x
           end in
  foldl (fun x it => establishment_created_pdr it x) x (sx_groups "created_pdrs" ies).

Lemma update_pdn_returns p f s x (Q : unit -> pgw_state -> Prop) : pdn_heap s !! p = Some x ->
  Q tt (set_pdn_heap (<[p := f x]> (pdn_heap s)) s) -> returns (update_pdn p f) s Q.
Proof. intros E H. apply returns_bind, (get_pdn_returns _ _ x); [done|]. by apply returns_modify. Qed.

Lemma update_pdn_fold p (f : sx_ies -> pgw_pdn_connection -> pgw_pdn_connection) l : forall s x, pdn_heap s !! p = Some x ->
  returns (fold_handler (fun _ it => update_pdn p (f it)) tt l) s (fun _ t => exists h, t = set_pdn_heap h s /\
    h !! p = Some (foldl (fun x it => f it x) x l)).
Proof.
  induction l as [|it l IH]; intros s x E; cbn [fold_handler foldl].
  - apply returns_ret. exists (pdn_heap s). split; [by destruct s|done].
  - apply returns_bind, (update_pdn_returns _ _ _ x); [done|]. eapply returns_mono; [|apply (IH _ (f it x)); simpl; by rewrite lookup_insert_eq].
    intros _ t (h & -> & Hh). by exists h.
Qed.

Definition establishment_answer (x : pgw_pdn_connection) (req resp : itti_gtp_msg) : itti_gtp_msg :=
  foldl (fun m it => add_bearer_context_created (bearer_context_created x it) m) resp (contexts "bearer_contexts_to_be_created" req).

Lemma establishment_handle_returns env p m s x req resp : pdn_heap s !! sp_ppc p = Some x ->
  sp_s5_trigger p = Some req -> sp_s5_triggered_pending p = Some resp -> task_ready env TASK_PGWC_S5S8 = true ->
  returns (session_establishment_handle env p m) s (fun _ t => exists h,
    t = set_sent_by_pgw (sent_by_pgw s ++ [OutGtp TASK_PGWC_S5S8 (establishment_answer (established_pdn (pfcp_ies m) x) req resp)])
          (set_pdn_heap h s) /\
    h !! sp_ppc p = Some (established_pdn (pfcp_ies m) x)).
Proof.
  intros Ex Hreq Hresp Hready. apply returns_bind. unfold established_pdn.
  set (x1 := match sx_get_element _ Ecause _ with Some _ => _ | None => _ end).
  assert (returns (if cause_cause_value (default (PfcpScalar.mk_cause_t 0)
                       (sx_get_element pfcp_session_establishment_response_class Ecause (pfcp_ies m))) =? CAUSE_VALUE_REQUEST_ACCEPTED
                   then match sx_get_element pfcp_session_establishment_response_class Ef_seid (pfcp_ies m) with
                        | Some f => update_pdn (sp_ppc p) (set_up_fseid f) | None => mret tt end
                   else mret tt) s (fun _ t => exists h, t = set_pdn_heap h s /\ h !! sp_ppc p = Some x1)) as H1.
  { subst x1. assert (forall y : pgw_pdn_connection, y = x -> returns (mret tt : pgw unit) s (fun _ t => exists h, t = set_pdn_heap h s /\ h !! sp_ppc p = Some y)) as Hret.
    { intros y ->. apply returns_ret. exists (pdn_heap s). split; [by destruct s|done]. }
    destruct (sx_get_element _ Ecause (pfcp_ies m)) as [c|]; [|by apply Hret]. change (default _ (Some c)) with c.
    destruct (cause_cause_value c =? CAUSE_VALUE_REQUEST_ACCEPTED); destruct (sx_get_element _ Ef_seid (pfcp_ies m)) as [f|]; try by apply Hret.
    eapply update_pdn_returns; [done|]. eexists. split; [done|]. by rewrite lookup_insert_eq. }
  eapply returns_mono; [|exact H1]. intros _ t (h & -> & Hh). apply returns_bind.
  eapply returns_mono; [|by apply (update_pdn_fold _ establishment_created_pdr _ _ x1)]. intros _ t (h2 & -> & Hh2). simpl.
  apply returns_bind, (returns_deref _ _ _ _ Hreq), returns_bind, (returns_deref _ _ _ _ Hresp).
  apply returns_bind. eapply get_pdn_returns; [done|]. apply returns_bind. unfold send_msg. rewrite Hready.
  apply returns_bind, returns_modify, returns_ret, returns_ret. exists h2. split; [|done]. reflexivity.
Qed.

(** What is left of a procedure once its answer was handled. *)
Lemma remove_procedure_returns c q s z (Q : unit -> pgw_state -> Prop) : context_heap s !! c = Some z ->
  Q tt (set_context_heap (<[c := set_pending_procedures (erase_first q (pending_procedures z)) z]> (context_heap s)) s) ->
  returns (remove_procedure c q) s Q.
Proof. intros E H. apply returns_bind, (get_context_returns _ _ z); [done|]. by apply returns_modify. Qed.

Section Answer.
Context (env : environment) (m : itti_sx_msg) (s : pgw_state) (c q : nat) (tx : Z) (z : pgw_context).
Context (sp : s5_procedure) (req resp : itti_gtp_msg) (x : pgw_pdn_connection).

(** C6 When the user plane answers an establishment, the SGW gets one Create
    Session Response, addressed as the procedure kept it, with one bearer context
    per bearer of the request, in their order.  A bearer whose rule the answer
    names once, with an F-TEID, is answered with its own identity, the cause
    "request accepted" and that F-TEID as the one of the PGW.  The procedure is
    over. *)
Theorem establishment_answered :
  seid2pgw_context s !! seid m = Some c -> context_heap s !! c = Some z -> find_procedure c (sx_trxn_id m) s = Some q ->
  procedure_heap s !! q = Some (mk_pgw_procedure tx (session_establishment_procedure sp)) ->
  sp_s5_trigger sp = Some req -> sp_s5_triggered_pending sp = Some resp -> task_ready env TASK_PGWC_S5S8 = true ->
  pdn_heap s !! sp_ppc sp = Some x -> bearers_ok x -> rules_ok x ->
  exists s' out, session_establishment_response env m s = Val (tt, s') /\
    sent_by_pgw s' = sent_by_pgw s ++ [OutGtp TASK_PGWC_S5S8 out] /\
    gtp_msg_kind out = gtp_msg_kind resp /\ gtpc_tx_id out = gtpc_tx_id resp /\ teid out = teid resp /\ r_endpoint out = r_endpoint resp /\
    (exists created_contexts, contexts "bearer_contexts_created" out = contexts "bearer_contexts_created" resp ++ created_contexts /\
      Forall2 (fun it bcc => forall b l1 pdr l2 r f,
        eps_bearers x !! ebi (member "eps_bearer_id" it) = Some b -> sx_groups "created_pdrs" (pfcp_ies m) = l1 ++ pdr :: l2 ->
        created pdr = Some (r, f) -> r <> 0 -> has_rule r b = true -> silent_on b l1 -> silent_on b l2 ->
        ft_v4 f <> 0 \/ ft_v6 f <> 0 ->
        ies_get bcc_created 0 bcc = Some (eb_ebi b) /\ ies_get bcc_created 0 bcc = Some (cause_of REQUEST_ACCEPTED) /\
        ies_get bcc_created 2 bcc = Some (GtpAddress.mk_fteid_t (ft_v4 f) (ft_v6 f) S5_S8_PGW_GTP_U (ft_teid f) (ft_ipv4_address f) (ft_ipv6_address f)))
        (contexts "bearer_contexts_to_be_created" req) created_contexts) /\
    context_heap s' !! c = Some (set_pending_procedures (erase_first q (pending_procedures z)) z).
Proof.
  intros Hseid Ez Hq Eq Hreq Hresp Hready Ex Hx Hr. set (y := established_pdn (pfcp_ies m) x).
  assert (returns (session_establishment_response env m) s (fun _ t =>
    sent_by_pgw t = sent_by_pgw s ++ [OutGtp TASK_PGWC_S5S8 (establishment_answer y req resp)] /\
    context_heap t !! c = Some (set_pending_procedures (erase_first q (pending_procedures z)) z))) as ([] & s' & E & H1 & H2).
  { apply returns_bind, returns_get. rewrite Hseid. apply returns_bind, returns_get. rewrite Hq.
    apply returns_bind, (get_procedure_returns _ _ _ _ Eq), returns_bind. simpl.
    eapply returns_mono; [|by apply establishment_handle_returns]. intros _ t (h & -> & _).
    apply (remove_procedure_returns _ _ _ z); [done|]. split; [done|]. simpl. by rewrite lookup_insert_eq. }
  exists s', (establishment_answer y req resp). destruct (add_contexts (bearer_context_created y) (contexts "bearer_contexts_to_be_created" req) resp)
    as (G1 & G2 & G3 & G4 & G5 & _). split_and!; try done. eexists. split; [apply G1|].
  apply Forall2_fmap_r, Forall_Forall2_diag, Forall_true. intros it b l1 pdr l2 r f Eb El Hc H0 Hrb Hs1 Hs2 Hz.
  assert (exists x1, y = foldl (fun x it => establishment_created_pdr it x) x1 (sx_groups "created_pdrs" (pfcp_ies m)) /\ eps_bearers x1 = eps_bearers x) as (x1 & Ey & E1).
  { unfold y, established_pdn. eexists. split; [done|]. repeat case_match; done. }
  assert (bearers_ok x1 /\ rules_ok x1) as [Hx1 Hr1] by (unfold bearers_ok, rules_ok; by rewrite E1).
  rewrite <- E1 in Eb. rewrite El in Ey.
  pose proof (fold_created_fteid l1 pdr l2 x1 _ b r f Hx1 Hr1 Eb Hc H0 Hrb Hs1 Hs2) as E2.
  destruct (fold_created_ok (l1 ++ pdr :: l2) x1 Hx1 Hr1) as [Hy _]. rewrite <- Ey in E2, Hy.
  apply (bearer_context_created_ok y it (with_up_fteid f b)); [by eapply find_by_ebi|]. unfold fteid_is_zero. simpl.
  lia.
Qed.
End Answer.

(** ** The rules of a new session *)
Lemma sx_groups_set c g o ies n : PfcpContainer.assoc (TGroup g) (cl_set c) = Some n ->
  PfcpContainer.assoc n (cl_members c) = Some (Vector, TGroup g) -> sx_groups n (set_group c g o ies) = sx_groups n ies ++ [o].
Proof.
  intros H1 H2. unfold sx_groups, sx_set, object_set. cbn [type_of]. rewrite H1. unfold member_set. rewrite String.eqb_refl, H2.
  by rewrite omap_app.
Qed.

Lemma sx_groups_set_ne c v ies n m : PfcpContainer.assoc (type_of v) (cl_set c) = Some n -> m <> n ->
  sx_groups m (sx_set c v ies) = sx_groups m ies.
Proof.
  intros H1 H2. unfold sx_groups, sx_set, object_set. rewrite H1. unfold member_set. by rewrite (proj2 (String.eqb_neq m n) H2).
Qed.

(** A generator that has handed out 1 to [n]. *)
Definition issued (n : Z) : uint_generator := mk_uint_generator n (list_to_set (seqZ 1 n)).

Lemma get_uid_issued w n : 0 < w -> 0 <= n -> n + 1 < 2 ^ w -> get_uid w (issued n) = Some (n + 1, issued (n + 1)).
Proof.
  intros Hw Hn Hb. unfold get_uid, get_uid_fuel, issued. cbn [uid_generator uid_generated get_uid_loop].
  rewrite wrapu_id by (unfold fits; lia). rewrite decide_False; cbn [uid_generated].
  - repeat f_equal. apply set_eq. intros u. rewrite elem_of_union, elem_of_singleton, !elem_of_list_to_set, !elem_of_seqZ. lia.
  - rewrite elem_of_list_to_set, elem_of_seqZ. lia.
Qed.

(** The FAR and the PDR of the bearer at position [i] of the request. *)
Definition session_far (i : nat) : sx_ies :=
  make_create_far (Z.of_nat i + 1) (make_forwarding INTERFACE_VALUE_CORE None).
Definition session_pdr (paa : paa_t) (i : nat) (it : fields value) : sx_ies :=
  make_uplink_pdr (Z.of_nat i + 1) (bq_pl (member "bearer_level_qos" it)) (Z.of_nat i + 1) (paa_to_pfcp_ue_ip_address paa ue_ip_address_init).

(** The connection after the first [done] bearers. *)
Record establishing (bs : list (fields value)) (x : pgw_pdn_connection) : Prop := {
  es_far : far_id_generator x = issued (Z.of_nat (length bs));
  es_pdr : pdr_id_generator x = issued (Z.of_nat (length bs));
  es_bearers : bearers_ok x;
  es_rules : forall k b, eps_bearers x !! k = Some b -> 0 < eb_pdr_id_ul b <= Z.of_nat (length bs) /\ eb_pdr_id_dl b = 0;
  es_inj : forall k k' b b', eps_bearers x !! k = Some b -> eps_bearers x !! k' = Some b' -> eb_pdr_id_ul b = eb_pdr_id_ul b' -> k = k';
  es_own : forall i it, NoDup ((fun it => ebi (member "eps_bearer_id" it)) <$> bs) -> bs !! i = Some it ->
    valid_ebi (ebi (member "eps_bearer_id" it)) = true ->
    exists b, eps_bearers x !! ebi (member "eps_bearer_id" it) = Some b /\ eb_pdr_id_ul b = Z.of_nat i + 1;
}.

Lemma establishing_rules_ok bs x : establishing bs x -> rules_ok x.
Proof.
  intros H r k k' b b' Hr E E'. unfold has_rule. destruct (es_rules _ _ H k b E) as [_ ->], (es_rules _ _ H k' b' E') as [_ ->].
  intros Hb Hb'. apply (es_inj _ _ H k k' b b' E E'). lia.
Qed.

(** The bearer the loop stores. *)
Definition new_bearer (e : ebi_t) (i : Z) : pgw_eps_bearer :=
  set_eb_ebi e (set_eb_pdr_id_ul i (set_eb_far_id_ul (true, i) pgw_eps_bearer_init)).

Lemma establishing_next bs it x : establishing bs x ->
  establishing (bs ++ [it]) (add_eps_bearer (new_bearer (member "eps_bearer_id" it) (Z.of_nat (length bs) + 1))
    (set_pdr_id_generator (issued (Z.of_nat (length bs) + 1)) (set_far_id_generator (issued (Z.of_nat (length bs) + 1)) x))).
Proof.
  intros H. set (n := Z.of_nat (length bs)) in *. set (b0 := new_bearer _ _). set (x1 := set_pdr_id_generator _ _).
  assert (Z.of_nat (length (bs ++ [it])) = n + 1) as Hn by (rewrite length_app; simpl; lia).
  assert (eps_bearers (add_eps_bearer b0 x1) = if valid_ebi (ebi (eb_ebi b0)) then <[ebi (eb_ebi b0) := b0]> (eps_bearers x) else eps_bearers x) as Eb.
  { destruct (valid_ebi _) eqn:Ev; [by apply (add_eps_bearer_bearers _ b0 x1)|]. unfold add_eps_bearer. by rewrite Ev. }
  assert (forall k b, eps_bearers (add_eps_bearer b0 x1) !! k = Some b ->
    (k = ebi (eb_ebi b0) /\ b = b0 /\ valid_ebi k = true) \/ eps_bearers x !! k = Some b) as Hcase.
  { intros k b. rewrite Eb. destruct (valid_ebi _) eqn:Ev; [|auto]. intros [[<- <-]|[_ ?]]%lookup_insert_Some; auto. }
  split.
  - rewrite Hn. unfold add_eps_bearer. by destruct (valid_ebi _).
  - rewrite Hn. unfold add_eps_bearer. by destruct (valid_ebi _).
  - intros k b [(-> & -> & Hv)|E]%Hcase; [done|]. by apply H.
  - intros k b [(-> & -> & Hv)|E]%Hcase; rewrite Hn; [simpl; split; [lia|done]|]. destruct (es_rules _ _ H k b E). lia.
  - intros k k' b b' [(-> & -> & _)|E]%Hcase [(-> & -> & _)|E']%Hcase; [done|..].
    + destruct (es_rules _ _ H _ _ E') as [? _]. simpl. lia.
    + destruct (es_rules _ _ H _ _ E) as [? _]. simpl. lia.
    + by apply (es_inj _ _ H k k' b b').
  - intros i it' Hd Hi Hv. rewrite fmap_app in Hd. apply NoDup_app in Hd as (Hd & Hnew & _). apply lookup_app_Some in Hi as [Hi|[Hi1 Hi2]].
    + destruct (es_own _ _ H i it' Hd Hi Hv) as (b & E & Hb). exists b. split; [|done]. rewrite Eb. destruct (valid_ebi (ebi (eb_ebi b0))); [|done].
      rewrite lookup_insert_ne; [done|]. intros E2. apply (Hnew (ebi (member "eps_bearer_id" it'))).
      * apply list_elem_of_fmap. exists it'. split; [done|]. by eapply list_elem_of_lookup_2.
      * simpl. rewrite <- E2. apply list_elem_of_singleton. reflexivity.
    + destruct (i - length bs)%nat as [|j] eqn:Ej; [|done]. injection Hi2 as <-. exists b0. split; [|simpl; lia].
      rewrite Eb. change (ebi (eb_ebi b0)) with (ebi (member "eps_bearer_id" it)). rewrite Hv. by rewrite lookup_insert_eq.
Qed.

(** The request while the loop fills it. *)
Definition rules_of (paa : paa_t) (bs : list (fields value)) (ies : sx_ies) : Prop :=
  sx_groups "create_pdrs" ies = imap (session_pdr paa) bs /\ sx_groups "create_fars" ies = imap (fun i _ => session_far i) bs.

Lemma establish_bearer_returns p paa bs it s x ies : pdn_heap s !! p = Some x -> establishing bs x -> rules_of paa bs ies ->
  Z.of_nat (length bs) + 1 < 2 ^ 16 ->
  returns (establish_bearer p paa ies it) s (fun ies t => exists x', establishing (bs ++ [it]) x' /\ local_teid x' = local_teid x /\
    rules_of paa (bs ++ [it]) ies /\ t = set_pdn_heap (<[p := x']> (pdn_heap s)) s).
Proof.
  intros Ex Hx [H1 H2] Hb. apply returns_bind, returns_bind, (get_pdn_returns _ _ x); [done|].
  rewrite (es_far _ _ Hx), get_uid_issued by lia. apply returns_bind, returns_modify, returns_ret, returns_bind, returns_bind.
  eapply get_pdn_returns; [simpl; by rewrite lookup_insert_eq|]. simpl. rewrite (es_pdr _ _ Hx), get_uid_issued by lia.
  apply returns_bind, returns_modify, returns_ret, returns_bind. eapply update_pdn_returns; [simpl; by rewrite lookup_insert_eq|].
  apply returns_ret. eexists. split; [by apply establishing_next|]. split; [by rewrite add_eps_bearer_teid|]. split.
  - split.
    + rewrite (sx_groups_set_ne _ _ _ "create_fars") by done. rewrite (sx_groups_set _ _ _ _ "create_pdrs") by done.
      rewrite H1, imap_app. simpl. unfold session_pdr. by rewrite Nat.add_0_r.
    + rewrite (sx_groups_set _ _ _ _ "create_fars") by done. rewrite (sx_groups_set_ne _ _ _ "create_pdrs") by done.
      rewrite H2, imap_app. simpl. unfold session_far. by rewrite Nat.add_0_r.
  - unfold set_pdn_heap. simpl. by rewrite !insert_insert_eq.
Qed.

Lemma establish_loop p paa l : forall bs s x ies, pdn_heap s !! p = Some x -> establishing bs x -> rules_of paa bs ies ->
  Z.of_nat (length (bs ++ l)) < 2 ^ 16 ->
  returns (fold_handler (establish_bearer p paa) ies l) s (fun ies t => exists x', establishing (bs ++ l) x' /\ local_teid x' = local_teid x /\
    rules_of paa (bs ++ l) ies /\ t = set_pdn_heap (<[p := x']> (pdn_heap s)) s).
Proof.
  induction l as [|it l IH]; intros bs s x ies Ex Hx Hr Hb; cbn [fold_handler].
  - rewrite app_nil_r in *. apply returns_ret. exists x. split_and!; try done. rewrite insert_id by done. by destruct s.
  - rewrite length_app in Hb. simpl in Hb. apply returns_bind. eapply returns_mono; [|apply (establish_bearer_returns p paa bs it s x); [done..|lia]].
    intros ies1 t (x1 & H1 & H2 & H3 & ->). eapply returns_mono; [|apply (IH (bs ++ [it]) _ x1); [simpl; by rewrite lookup_insert_eq|done|done|rewrite !length_app; simpl; lia]].
    intros ies2 t (x2 & G1 & G2 & G3 & ->). rewrite <- (assoc_L (++)) in *. exists x2. split_and!; [done|congruence|done|].
    unfold set_pdn_heap. simpl. by rewrite insert_insert_eq.
Qed.

(** ** The request to the user plane *)
Lemma generate_seid_establishing cfg bs x : establishing bs x -> establishing bs (generate_seid cfg x).
Proof. intros [? ? ? ? ? ?]. by split. Qed.
Lemma pdn_set_paa_establishing paa bs x : establishing bs x -> establishing bs (pdn_set_paa paa x).
Proof. intros [? ? ? ? ? ?]. unfold pdn_set_paa. repeat case_match; by split. Qed.

Definition session_request (ep : endpoint) (tx : Z) (ies : sx_ies) : itti_sx_msg :=
  mk_itti_sx_msg pfcp_session_establishment_request_message ep 0 tx ies.

(** The SEID of the session: the instance of the PGW and the local TEID. *)
Definition local_seid (cfg : pgw_config) (t : Z) : Z := Z.lor t (u64 (Z.shiftl (u64 (cfg_instance cfg)) 32)).

Section Establish.
Context (cfg : pgw_config) (env : environment) (req : itti_gtp_msg) (node : PfcpNode.node_id_t) (ep : endpoint).
Context (Hnode : select_up_node env (msg_member "apn" req) (msg_member "uli" req) (msg_member "serving_network" req)
                   (msg_member "rat_type" req) (msg_member "pdn_type" req) (msg_member "paa" req) = Some node).
Context (Hep : association_endpoint env node = Some ep) (Hready : task_ready env TASK_PGWC_SX = true).
Let bs := contexts "bearer_contexts_to_be_created" req.
Context (Hlen : Z.of_nat (length bs) < 2 ^ 16).

Lemma establishment_run_returns q p resp c s x y : pdn_heap s !! p = Some x -> establishing [] x -> procedure_heap s !! q = Some y ->
  returns (session_establishment_run cfg env q p req resp c) s (fun r t => r = (0, resp) /\ exists x' ies,
    establishing bs x' /\ local_teid x' = local_teid x /\ rules_of (msg_member "paa" resp) bs ies /\
    t = set_sent_by_pgw (sent_by_pgw s ++ [OutSx TASK_PGWC_SX (session_request ep (trxn_id y) ies)])
         (set_seid2pgw_context (<[local_seid cfg (local_teid x) := c]> (seid2pgw_context s))
           (set_procedure_heap (<[q := mk_pgw_procedure (trxn_id y) (session_establishment_procedure
              (mk_s5_procedure p (Some req) (Some resp) (Some (session_request ep (trxn_id y) ies))))]> (procedure_heap s))
             (set_pdn_heap (<[p := x']> (pdn_heap s)) s)))).
Proof using Hnode Hep Hready Hlen.
  intros Ex Hx Ey. unfold session_establishment_run. rewrite Hnode, Hep. apply returns_bind, (update_pdn_returns _ _ _ x); [done|].
  apply returns_bind. eapply get_pdn_returns; [simpl; by rewrite lookup_insert_eq|]. apply returns_bind, (get_procedure_returns _ _ y); [done|].
  apply returns_bind. eapply returns_mono; [|apply (establish_loop p _ _ [] _ (generate_seid cfg x));
    [simpl; by rewrite lookup_insert_eq|by apply generate_seid_establishing|split; reflexivity|done]].
  intros ies t (x' & H1 & H2 & H3 & ->). apply returns_bind, returns_modify, returns_bind, returns_modify, returns_bind.
  unfold send_msg. rewrite Hready. apply returns_bind, returns_modify, returns_ret, returns_ret. split; [done|].
  assert (fs_seid (GetPfcpFseid cfg (pc_seid (generate_seid cfg x))) = local_seid cfg (local_teid x)) as Hseid
    by (unfold GetPfcpFseid, addr6_some; by repeat case_match; simplify_eq).
  exists x', ies. split; [exact H1|]. split; [exact H2|]. split; [exact H3|]. rewrite Hseid.
  unfold set_sent_by_pgw, set_seid2pgw_context, set_procedure_heap, set_pdn_heap. simpl. by rewrite insert_insert_eq.
Qed.

(** The procedure of an accepted request. *)
Lemma establish_session_returns c p resp s x z u g : pdn_heap s !! p = Some x -> establishing [] x -> context_heap s !! c = Some z ->
  get_uid 64 (trxn_ids s) = Some (u, g) ->
  returns (establish_session cfg env c req resp p) s (fun r t => r = resp /\ exists x' ies q,
    establishing bs x' /\ local_teid x' = local_teid x /\ rules_of (msg_member "paa" resp) bs ies /\
    sent_by_pgw t = sent_by_pgw s ++ [OutSx TASK_PGWC_SX (session_request ep u ies)] /\
    seid2pgw_context t = <[local_seid cfg (local_teid x) := c]> (seid2pgw_context s) /\
    pdn_heap t = <[p := x']> (pdn_heap s) /\ pools t = pools s /\ imsi2pgw_context t = imsi2pgw_context s /\
    s5s8lteid2pgw_context t = s5s8lteid2pgw_context s /\
    context_heap t = <[c := set_pending_procedures (pending_procedures z ++ [q]) z]> (context_heap s) /\
    procedure_heap t = <[q := mk_pgw_procedure u (session_establishment_procedure
       (mk_s5_procedure p (Some req) (Some resp) (Some (session_request ep u ies))))]> (procedure_heap s)).
Proof using Hnode Hep Hready Hlen.
  intros Ex Hx Ez Hu. apply returns_bind, returns_bind, returns_get. rewrite Hu.
  apply returns_bind, returns_modify, returns_bind, returns_bind, returns_gets, returns_bind, returns_modify, returns_ret, returns_bind,
    returns_modify, returns_ret, returns_bind, returns_bind.
  apply (get_context_returns _ _ z); [done|]. apply returns_modify, returns_bind.
  eapply returns_mono; [|eapply (establishment_run_returns _ _ _ _ _ x); [done|done|simpl; by rewrite lookup_insert_eq]].
  intros [rc r] t ([= -> ->] & x' & ies & H1 & H2 & H3 & ->). simpl. apply returns_ret. split; [done|].
  exists x', ies, (next_object s). split_and!; try done. simpl. by rewrite insert_insert_eq.
Qed.
End Establish.

(** ** Opening the session *)

(** No connection has the TEID 0: a first request finds none. *)
Lemma find_apn_zero c apn s : pgw_ok s -> find_pdn_connection_apn c apn 0 true s = None.
Proof.
  intros Hs. destruct (find_pdn_connection_apn c apn 0 true s) as [[a p]|] eqn:E; [exfalso|done].
  unfold find_pdn_connection_apn in E. apply bind_Some in E as (a' & Ha & E). apply fmap_Some in E as (p' & E & [= <- <-]).
  unfold find_apn_context in Ha. apply bind_Some in Ha as (x & Ex & Ha). apply find_some in Ha as [Ha _]. rewrite <- list_elem_of_In in Ha.
  apply apn_find_session in E as (y & w & Ey & Hp & Ew & HP).
  assert (v_apns (view s) !! c = Some (pg_apns x)) as E1 by (simpl; by rewrite lookup_fmap, Ex).
  destruct (vo_apn _ _ Hs _ _ _ E1 Ha) as (q & t & Hses). pose proof Hses as (l & _ & _ & E2 & E3).
  simpl in E2. rewrite lookup_fmap, Ey in E2. injection E2 as E2. rewrite E2 in Hp. apply list_elem_of_singleton in Hp as ->.
  simpl in E3. rewrite lookup_fmap, Ew in E3. injection E3 as E3. unfold pdn_has_teid in HP. apply Z.eqb_eq in HP.
  assert (v_table (view s) !! t = Some c) as E4 by (apply Hs; eauto). unfold local_teid in E3. rewrite <- HP in E3. subst t.
  pose proof (vo_zero _ _ Hs) as H0. unfold UNASSIGNED_TEID in H0. congruence.
Qed.

Lemma note_subscriber_returns c req s z : context_heap s !! c = Some z ->
  returns (note_subscriber c req) s (fun _ t => exists z1, t = set_context_heap (<[c := z1]> (context_heap s)) s /\
    pg_apns z1 = pg_apns z /\ pending_procedures z1 = pending_procedures z).
Proof.
  intros Ez. apply returns_bind.
  apply (returns_mono _ _ (fun _ t => exists z1, t = set_context_heap (<[c := z1]> (context_heap s)) s /\
    pg_apns z1 = pg_apns z /\ pending_procedures z1 = pending_procedures z)).
  - intros _ t (z1 & -> & H1 & H2). destruct (msg_get 0 req) as [i|]; [|apply returns_ret; by exists z1].
    destruct (ind_uimsi i =? 0); [apply returns_ret; by exists z1|]. apply returns_bind. eapply get_context_returns; [simpl; by rewrite lookup_insert_eq|].
    apply returns_modify. eexists. unfold set_context_heap. simpl. rewrite insert_insert_eq. by split_and!.
  - destruct (msg_get 0 req) as [i|].
    + apply returns_bind, (get_context_returns _ _ z); [done|]. apply returns_modify. by eexists.
    + apply returns_ret. exists z. split_and!; try done. rewrite insert_id by done. by destruct s.
Qed.

(** The PDN connection of a first request, with the local TEID [t]. *)
Definition opened_pdn (cfg : pgw_config) (req : itti_gtp_msg) (b : fields value) (t : Z) : pgw_pdn_connection :=
  mk_pgw_pdn_connection false false INADDR_ANY in6addr_any (default (mk_pdn_type_t PDN_TYPE_E_IPV4) (msg_get 0 req))
    (msg_member "sender_fteid_for_cp" req) (build_s5s8_cp_fteid (s5s8_addr4 cfg) t) (member "eps_bearer_id" b) ∅ false 0
    (mk_fseid 0 0 0 0 0 0 0 0) uint_generator_init uint_generator_init.
Definition opened_apn (req : itti_gtp_msg) (p : nat) : apn_context :=
  mk_apn_context true (apn_core (msg_member "apn" req)) (default (mk_ambr_t 0 0) (msg_get 0 req)) [p].

Lemma opened_establishing cfg req b t : establishing [] (opened_pdn cfg req b t).
Proof. by split; [reflexivity|reflexivity|intros ? ? ?|intros ? ? ?|intros ? ? ? ? ?|intros ? ? ? ?]. Qed.

Definition opened_state (cfg : pgw_config) (c : nat) (req : itti_gtp_msg) (b : fields value) (t : Z) (z : pgw_context) (s : pgw_state) : pgw_state :=
  mk_pgw_state t ({[t]} ∪ s5s8cplteid s) (imsi2pgw_context s) (<[t := c]> (s5s8lteid2pgw_context s)) (seid2pgw_context s)
    (<[c := set_pg_apns (pg_apns z ++ [next_object s]) z]> (context_heap s))
    (<[next_object s := opened_apn req (S (next_object s))]> (apn_heap s))
    (<[S (next_object s) := opened_pdn cfg req b t]> (pdn_heap s)) (procedure_heap s) (S (S (next_object s))) (pools s) (trxn_ids s) (sent_by_pgw s).

Lemma open_session_returns cfg c req s z b bs t0 : context_heap s !! c = Some z ->
  contexts "bearer_contexts_to_be_created" req = b :: bs -> 0 < t0 < 2 ^ 32 -> t0 ∉ s5s8cplteid s ->
  returns (open_session cfg c req) s (fun '(a, p) u => a = next_object s /\ p = S a /\ exists t,
    0 < t < 2 ^ 32 /\ (t ∉ s5s8cplteid s) /\ u = opened_state cfg c req b t z s).
Proof.
  intros Ez Eb Ht0 Hfree. unfold open_session, new_apn_context, new_pdn_connection. rewrite Eb.
  apply returns_bind, returns_bind, returns_bind, returns_gets, returns_bind, returns_modify, returns_ret, returns_bind, returns_modify.
  apply returns_bind, returns_bind, (get_context_returns _ _ z); [done|]. apply returns_modify, returns_ret, returns_bind, returns_bind, returns_bind.
  match goal with |- returns generate_s5s8_cp_teid ?u _ => set (s1 := u) end.
  destruct (generate_teid_spec s1) as [(t & Ht & Hn & E)|(Hfull & _)]; [|exfalso; by apply Hfree, Hfull].
  exists t, (set_s5s8cplteid ({[t]} ∪ s5s8cplteid s1) (set_teid_s5s8_cp_generator t s1)). split; [exact E|].
  apply returns_ret, returns_bind, returns_modify, returns_bind, returns_bind, returns_gets, returns_bind, returns_modify, returns_ret.
  apply returns_bind, returns_modify, returns_bind, returns_bind. eapply get_apn_returns; [simpl; by rewrite lookup_insert_eq|].
  apply returns_modify, returns_ret, returns_ret. split_and!; [done|done|]. exists t. split_and!; try done; try lia.
  subst s1. unfold opened_state, set_apn_heap. simpl. rewrite insert_insert_eq.
  reflexivity.
Qed.

(** The response the procedure keeps. *)
Definition accepted_response (req : itti_gtp_msg) (f : gtp_fteid) (paa : paa_t) (pco : protocol_configuration_options_t) (ambr : ambr_t) : itti_gtp_msg :=
  let resp := msg_set 0 (cause_of REQUEST_ACCEPTED) (gtp_address (gtpc_tx_id req) (fc_teid_gre_key (msg_member "sender_fteid_for_cp" req))
                (r_endpoint req) (new_gtp_msg CREATE_SESSION_RESPONSE)) in
  msg_set 0 ambr (msg_set_x "s5_s8_pgw_fteid" f (msg_set 0 pco (msg_set 0 paa resp))).

Lemma accepted_response_reads req f paa pco ambr : let m := accepted_response req f paa pco ambr in
  gtp_msg_kind m = CREATE_SESSION_RESPONSE /\ gtpc_tx_id m = gtpc_tx_id req /\ r_endpoint m = r_endpoint req /\
  teid m = fc_teid_gre_key (msg_member "sender_fteid_for_cp" req) /\ msg_get 0 m = Some (cause_of REQUEST_ACCEPTED) /\
  msg_get 0 m = Some paa /\ msg_get_x "s5_s8_pgw_fteid" m = Some f /\ contexts "bearer_contexts_created" m = [] /\
  msg_member "cause" m = cause_of REQUEST_ACCEPTED /\ msg_member "paa" m = paa.
Proof. split_and!; vm_compute; reflexivity. Qed.

Section Attach.
Context (cfg : pgw_config) (env : environment) (req : itti_gtp_msg) (node : PfcpNode.node_id_t) (ep : endpoint).
Context (b : fields value) (bs : list (fields value)) (pco : protocol_configuration_options_t) (ids : pco_ids_t).
Context (d : paa_dynamic) (paa : paa_t) (u : Z) (g : uint_generator).
Let apn := apn_core (msg_member "apn" req).
Let bearers := contexts "bearer_contexts_to_be_created" req.

(** A first request for an IPv4 address, when nothing the PGW needs is missing. *)
Record attachable (s : pgw_state) : Prop := {
  at_first : teid req = 0;
  at_bearers : bearers = b :: bs;
  at_count : Z.of_nat (length bearers) < 2 ^ 16;
  at_pco : process_pco_request (cfg_spgw_app cfg) pco_fuel (msg_member "pco" req) gv_init pco_ids_init = Val (pco, ids);
  at_no_dhcp : ci_ipv4_address_allocation_via_dhcpv4 ids = false;
  at_type : pt_pdn_type (default (mk_pdn_type_t PDN_TYPE_E_IPV4) (msg_get 0 req)) = PDN_TYPE_E_IPV4;
  at_dynamic : (msg_get 0 req : option paa_t) = None;
  at_address : get_free_paa (string_of_octets apn) gv_init (pools s) = Val (true, d, paa);
  at_teid : exists t, 0 < t < 2 ^ 32 /\ (t ∉ s5s8cplteid s);
  at_transaction : get_uid 64 (trxn_ids s) = Some (u, g);
  at_node : select_up_node env (msg_member "apn" req) (msg_member "uli" req) (msg_member "serving_network" req)
              (msg_member "rat_type" req) (msg_member "pdn_type" req) (msg_member "paa" req) = Some node;
  at_endpoint : association_endpoint env node = Some ep;
  at_ready : task_ready env TASK_PGWC_SX = true;
}.

(** What the request leaves behind: the session, and the procedure that waits for
    the user plane. *)
Definition attaching (c : nat) (s s' : pgw_state) : Prop := exists t p q z' x' ies,
  0 < t < 2 ^ 32 /\ (t ∉ s5s8cplteid s) /\
  s5s8lteid2pgw_context s' = <[t := c]> (s5s8lteid2pgw_context s) /\
  seid2pgw_context s' = <[local_seid cfg t := c]> (seid2pgw_context s) /\ pools s' = d /\
  sent_by_pgw s' = sent_by_pgw s ++ [OutSx TASK_PGWC_SX (session_request ep u ies)] /\ rules_of paa bearers ies /\
  pdn_heap s' !! p = Some x' /\ local_teid x' = t /\ establishing bearers x' /\
  context_heap s' !! c = Some z' /\ q ∈ pending_procedures z' /\
  exists ambr, procedure_heap s' !! q = Some (mk_pgw_procedure u (session_establishment_procedure (mk_s5_procedure p (Some req)
     (Some (accepted_response req (build_s5s8_cp_fteid (s5s8_addr4 cfg) t) paa pco ambr)) (Some (session_request ep u ies))))).

Lemma context_create_returns c z s : pgw_ok s -> context_heap s !! c = Some z -> attachable s ->
  returns (context_create_session_request cfg env c req) s (fun _ s' => attaching c s s' /\ imsi2pgw_context s' = imsi2pgw_context s).
Proof.
  intros Hs Ez [H1 H2 H3 H4 H5 H6 H7 H8 (t0 & Ht0 & Hf0) H10 H11 H12 H13]. rewrite context_create_session_eq.
  apply returns_bind, returns_get. rewrite H1, find_apn_zero by done. apply returns_bind.
  eapply returns_mono; [|by apply (note_subscriber_returns _ _ _ z)]. intros _ s1 (z1 & -> & Hz1 & Hz2).
  set (s1 := set_context_heap _ s).
  assert (returns (open_session cfg c req) s1 (fun '(a, p) v => returns (continue_session cfg env c req a p) v (fun _ s' => attaching c s s' /\ imsi2pgw_context s' = imsi2pgw_context s))) as Hopen.
  2: { destruct Hopen as ([a p] & v & E & H). unfold open_session in E. cbv [mbind handler_bind] in E.
       destruct (new_apn_context c req s1) as [[a' v1]| | |] eqn:E1; try done.
       destruct (new_pdn_connection cfg c req a' v1) as [[p' v2]| | |] eqn:E2; try done. injection E as -> -> ->.
       apply returns_bind. exists a, v1. split; [done|]. apply returns_bind. by exists p, v. }
  eapply returns_mono; [|apply (open_session_returns _ _ _ _ z1 b bs t0); [simpl; by rewrite lookup_insert_eq|done..]].
  intros [a p] v (-> & -> & t & Ht & Hn & ->). simpl in Hn.
  set (v := opened_state _ _ _ _ _ _ _). set (n := next_object s1). change (next_object s) with n.
  apply returns_bind. eapply returns_lift; [exact H4|]. apply returns_bind, (get_pdn_returns _ _ (opened_pdn cfg req b t));
    [subst v; simpl; by rewrite lookup_insert_eq|].
  apply returns_bind, (get_apn_returns _ _ (opened_apn req (S n))); [subst v; simpl; by rewrite lookup_insert_eq|].
  apply returns_bind. unfold assign_address, choose_address. cbn [pc_pdn_type opened_pdn]. rewrite H6, H5, H7.
  change (PDN_TYPE_E_IPV4 =? PDN_TYPE_E_IPV4) with true. cbv iota.
  change (bool_decide (is_Some None) && is_ip_assigned (default gv_init None)) with false. cbv iota.
  apply returns_bind, returns_bind, returns_get, returns_bind. eapply returns_lift; [change (default gv_init None) with (gv_init : paa_t);
    change (apn_in_use (opened_apn req (S n))) with apn; change (pools v) with (pools s); by rewrite H8|].
  apply returns_bind, returns_modify, returns_ret, returns_ret. cbv iota beta zeta.
  change (c_cause_value (cause_of REQUEST_ACCEPTED) =? REQUEST_ACCEPTED) with true. cbv iota.
  apply returns_bind, returns_bind, returns_bind, returns_bind. eapply update_pdn_returns; [subst v; simpl; by rewrite lookup_insert_eq|].
  apply returns_ret, returns_bind. eapply get_pdn_returns; [subst v; simpl; by rewrite lookup_insert_eq|]. apply returns_ret.
  assert (pgw_fteid_s5_s8_cp (pdn_set_paa paa (opened_pdn cfg req b t)) = build_s5s8_cp_fteid (s5s8_addr4 cfg) t) as ->
    by (unfold pdn_set_paa; by repeat case_match).
  eapply returns_mono; [|apply (establish_session_returns cfg env req node ep H11 H12 H13 H3 c (S n) _ _ (pdn_set_paa paa (opened_pdn cfg req b t))
    (set_pg_apns (pg_apns z1 ++ [n]) z1) u g); [subst v; simpl; by rewrite lookup_insert_eq|apply pdn_set_paa_establishing, opened_establishing|
      subst v; simpl; by rewrite lookup_insert_eq|exact H10]].
  intros r s' (-> & x' & ies & q & G1 & G2 & G3 & G4 & G5 & G6 & G7 & G8 & G9 & G10 & G11).
  change (msg_set 0 (apn_ambr _) _) with (accepted_response req (build_s5s8_cp_fteid (s5s8_addr4 cfg) t) paa pco (apn_ambr (opened_apn req (S n)))) in *.
  destruct (accepted_response_reads req (build_s5s8_cp_fteid (s5s8_addr4 cfg) t) paa pco (apn_ambr (opened_apn req (S n))))
    as (_ & _ & _ & _ & _ & _ & _ & _ & R1 & R2). rewrite R2 in G3. rewrite R1. cbn [c_cause_value cause_of]. apply returns_ret.
  rewrite pdn_set_paa_teid in G2, G5. split; [|by rewrite G8].
  exists t, (S n), q, (set_pending_procedures (pending_procedures (set_pg_apns (pg_apns z1 ++ [n]) z1) ++ [q]) (set_pg_apns (pg_apns z1 ++ [n]) z1)), x', ies.
  rewrite G6, G10, G11, !lookup_insert_eq. split_and!; try done; try lia.
  - apply elem_of_app. right. by apply list_elem_of_singleton.
  - by eexists.
Qed.

(** C3 A first Create Session Request that nothing stands against opens a session
    for the subscriber of its IMSI, new or known: a TEID nobody uses leads to the
    subscriber, an address leaves its pool, one Session Establishment Request goes
    to the user plane, whose i-th PDR and FAR are those of the i-th bearer with the
    identity i + 1, and a procedure waits for the answer with the accepted response,
    addressed to the sender.  Nothing is sent to the SGW yet, and the tables still
    agree. *)
Theorem create_session_accepted s imsi :
  pgw_ok s -> attachable s ->
  fc_interface_type (msg_member "sender_fteid_for_cp" req) = S5_S8_SGW_GTP_C -> fc_teid_gre_key (msg_member "sender_fteid_for_cp" req) <> 0 ->
  IsDottedApnHandled cfg apn (pt_pdn_type (msg_member "pdn_type" req)) = true ->
  msg_get 0 req = Some imsi -> (forall i, msg_get 0 req = Some i -> ind_uimsi i = 0) ->
  (forall c, imsi2pgw_context s !! to_imsi64 imsi = Some c -> is_Some (context_heap s !! c)) ->
  exists s' c, create_session_request cfg env req s = Val (tt, s') /\ imsi2pgw_context s' !! to_imsi64 imsi = Some c /\
    attaching c s s' /\ pgw_ok s'.
Proof.
  intros Hs Hat Hi Ht Hapn Himsi Huimsi Hlive.
  enough (returns (create_session_request cfg env req) s (fun _ s' => exists c, imsi2pgw_context s' !! to_imsi64 imsi = Some c /\ attaching c s s'))
    as ([] & s' & E & c & H1 & H2).
  { exists s', c. split_and!; try done. by apply (create_session_request_good cfg env req s Hs tt s' E). }
  unfold create_session_request. apply returns_bind, returns_get. cbv zeta. unfold apn in Hapn. rewrite Hi, (at_first _ Hat), Hapn.
  change (negb (S5_S8_SGW_GTP_C =? S5_S8_SGW_GTP_C)) with false. cbv iota. rewrite (proj2 (Z.eqb_neq _ _) Ht). cbv iota.
  change (negb (0 =? 0)) with false. cbn [andb negb].
  apply returns_bind. unfold create_session_subscriber. apply returns_bind, returns_get. rewrite Himsi.
  replace (match msg_get 0 req with Some i => negb (ind_uimsi i =? 0) | None => false end) with false.
  2: { destruct (msg_get 0 req : option indication_t) as [i|]; [|done]. by rewrite (Huimsi i). }
  destruct (imsi2pgw_context s !! to_imsi64 imsi) as [c|] eqn:Ec.
  - apply returns_ret. destruct (Hlive c eq_refl) as [z Ez]. eapply returns_mono; [|by apply (context_create_returns _ z)].
    intros _ s' [H1 H2]. exists c. by rewrite H2.
  - apply returns_bind, returns_bind, returns_gets, returns_bind, returns_modify, returns_ret, returns_bind, returns_modify.
    apply returns_bind, returns_modify, returns_ret. match goal with |- returns _ ?v _ => set (s0 := v) end.
    assert (pgw_ok s0) as Hs0.
    { destruct (create_session_subscriber_ok cfg req s Hs (Some (next_object s)) s0) as [Hok _]; [|done].
      unfold create_session_subscriber. cbv [mbind handler_bind get_state]. rewrite Himsi.
      replace (match msg_get 0 req with Some i => negb (ind_uimsi i =? 0) | None => false end) with false; [by rewrite Ec|].
      destruct (msg_get 0 req : option indication_t) as [i|]; [|done]. by rewrite (Huimsi i). }
    eapply returns_mono; [|apply (context_create_returns (next_object s) pgw_context_new); [done|subst s0; simpl; by rewrite lookup_insert_eq|]].
    + intros _ s' [H1 H2]. exists (next_object s). split; [|done]. rewrite H2. subst s0. simpl. by rewrite lookup_insert_eq.
    + destruct Hat. by split.
Qed.
End Attach.

(** ** The demonstration *)
Definition demo_start : pgw_state := pgw_app_init demo_pdns.
Definition demo_req : itti_gtp_msg := demo_create_session [demo_bearer 5].
Definition demo_lease : paa_dynamic * paa_t :=
  match get_free_paa (string_of_octets demo_apn) gv_init (pools demo_start) with
  | Val (_, d, a) => (d, a)
  | _ => (pools demo_start, gv_init)
  end.
Definition demo_pco : protocol_configuration_options_t * pco_ids_t :=
  match process_pco_request (cfg_spgw_app demo_cfg) pco_fuel (msg_member "pco" demo_req) gv_init pco_ids_init with
  | Val r => r
  | _ => (gv_init, pco_ids_init)
  end.
Definition demo_ids : uint_generator := mk_uint_generator 1 {[1]}.

Lemma create_session_accepted_witness : exists s' c,
  create_session_request demo_cfg demo_env demo_req demo_start = Val (tt, s') /\ imsi2pgw_context s' !! to_imsi64 demo_imsi = Some c /\ pgw_ok s'.
Proof.
  destruct (create_session_accepted demo_cfg demo_env demo_req demo_node (Ep4 (htobe32 0x0A000003) 8805) (demo_bearer 5) [] demo_pco.1 demo_pco.2
              demo_lease.1 demo_lease.2 1 demo_ids demo_start demo_imsi) as (s' & c & H1 & H2 & _ & H3).
  - apply pgw_app_init_ok.
  - split.
    1-8, 10-13: vm_compute; reflexivity.
    exists 1. split; [lia|]. apply not_elem_of_empty.
  - vm_compute. reflexivity.
  - vm_compute. discriminate.
  - vm_compute. reflexivity.
  - vm_compute. reflexivity.
  - intros i. replace (msg_get 0 demo_req : option indication_t) with (@None indication_t) by (vm_compute; reflexivity). discriminate.
  - intros c. replace (imsi2pgw_context demo_start !! to_imsi64 demo_imsi) with (@None nat) by (vm_compute; reflexivity). discriminate.
  - exists s', c. split; [exact H1|]. split; [exact H2|exact H3].
Defined.

Definition demo_opening : pgw_state := state_after [S5S8_CREATE_SESSION_REQUEST demo_req].
(** An establishment of the transaction [tx], and its members. *)
Definition is_establishment (tx : Z) (o : option pgw_procedure) : bool :=
  match o with Some (mk_pgw_procedure tx' (session_establishment_procedure _)) => tx' =? tx | _ => false end.
Definition establishment_of (o : option pgw_procedure) : s5_procedure :=
  match o with Some (mk_pgw_procedure _ (session_establishment_procedure sp)) => sp | _ => s5_procedure_new 0 end.

Lemma is_establishment_eq tx o : is_establishment tx o = true -> o = Some (mk_pgw_procedure tx (session_establishment_procedure (establishment_of o))).
Proof. destruct o as [[tx' []]|]; try discriminate. by intros ->%Z.eqb_eq. Qed.

Definition present {A} (o : option A) : bool := match o with Some _ => true | None => false end.
Lemma present_eq {A} (x : A) o : present o = true -> o = Some (default x o).
Proof. by destruct o. Qed.

Definition demo_opening_procedure : s5_procedure := establishment_of (procedure_heap demo_opening !! 3%nat).
Definition demo_opening_response : itti_gtp_msg :=
  default (new_gtp_msg CREATE_SESSION_RESPONSE) (sp_s5_triggered_pending demo_opening_procedure).
Definition demo_opening_pdn : pgw_pdn_connection := default pgw_pdn_connection_new (pdn_heap demo_opening !! 2%nat).

Lemma demo_opening_bearers : eps_bearers demo_opening_pdn = {[5 := new_bearer (mk_ebi_t 5) 1]}.
Proof. vm_compute. reflexivity. Qed.

Lemma establishment_answered_witness : exists s' out,
  session_establishment_response demo_env (demo_established 1 1 [demo_created_pdr 1 200]) demo_opening = Val (tt, s') /\
  sent_by_pgw s' = sent_by_pgw demo_opening ++ [OutGtp TASK_PGWC_S5S8 out] /\ gtpc_tx_id out = gtpc_tx_id demo_opening_response.
Proof.
  destruct (establishment_answered demo_env (demo_established 1 1 [demo_created_pdr 1 200]) demo_opening 0 3 1
              (default pgw_context_new (context_heap demo_opening !! 0%nat)) demo_opening_procedure demo_req demo_opening_response demo_opening_pdn)
    as (s' & out & H1 & H2 & _ & H3 & _).
  1-3, 5, 7: vm_compute; reflexivity.
  - apply is_establishment_eq. vm_compute. reflexivity.
  - apply present_eq. vm_compute. reflexivity.
  - apply present_eq. vm_compute. reflexivity.
  - intros k b. rewrite demo_opening_bearers. intros [<- <-]%lookup_singleton_Some. split; reflexivity.
  - intros r k k' b b' _. rewrite demo_opening_bearers. intros [<- _]%lookup_singleton_Some [<- _]%lookup_singleton_Some _ _. reflexivity.
  - exists s', out. split; [exact H1|]. split; [exact H2|exact H3].
Defined.

(** ** Releasing the access bearers *)
Lemma bind_Val {S A B} (m : handler S A) (k : A -> handler S B) s a t : m s = Val (a, t) -> (m ≫= k) s = k a t.
Proof. cbv [mbind handler_bind]. by intros ->. Qed.
Lemma bind_UB {S A B} (m : handler S A) (k : A -> handler S B) s : m s = UB -> (m ≫= k) s = UB.
Proof. cbv [mbind handler_bind]. by intros ->. Qed.

Lemma get_pdn_Val p s x : pdn_heap s !! p = Some x -> get_pdn p s = Val (x, s).
Proof. intros E. unfold get_pdn. rewrite (bind_Val _ _ s (pdn_heap s) s) by done. by rewrite E. Qed.

(** The loop erases the element its iterator stands on. *)
Lemma release_loop_ub p s x ies : pdn_heap s !! p = Some x -> bearers_ok x -> eps_bearers x <> ∅ ->
  release_loop p (entries (eps_bearers x)) ies s = UB.
Proof.
  intros Ex Hx Hne. destruct (map_choose _ Hne) as (k0 & b0 & E0). destruct (Hx k0 b0 E0) as [_ Hv%valid_ebi_bound].
  assert ((k0, b0) ∈ entries (eps_bearers x)) as Hin by (apply entries_elem; split; [lia|done]).
  destruct (entries (eps_bearers x)) as [|[k b] l] eqn:El; [by apply not_elem_of_nil in Hin|].
  assert ((k, b) ∈ entries (eps_bearers x)) as [_ E]%entries_elem by (rewrite El; set_solver).
  destruct (Hx k b E) as [Hk Hvk]. cbn [release_loop]. rewrite (bind_Val _ _ s tt (set_pdn_heap (<[p := add_eps_bearer (release_access_bearer b) x]> (pdn_heap s)) s)).
  - unfold next_iterator, erased_key. by rewrite Hk, Hvk, decide_True.
  - unfold update_pdn. by rewrite (bind_Val _ _ s x s) by (by apply get_pdn_Val).
Qed.

(** C37 A Release Access Bearers Request for an open session that has a bearer has
    undefined behaviour.  When the TEID leads to a subscriber, a transaction id
    is left, and the connection of this TEID is not released, has a bearer and
    files its bearers under their own, valid identities ([bearers_ok]), then the
    handler finds the session, and the loop over its bearers advances an
    iterator whose element it has just erased.  What a given implementation of
    [std::map] does then, going on with the request or not, the C++ standard
    leaves open. *)
Theorem release_access_bearers_undefined cfg env req s c u g :
  pgw_ok s -> s5s8lteid2pgw_context s !! teid req = Some c -> get_uid 64 (trxn_ids s) = Some (u, g) ->
  (forall p x, pdn_heap s !! p = Some x -> local_teid x = teid req -> bearers_ok x /\ eps_bearers x <> ∅ /\ pc_released x = false) ->
  release_access_bearers_request cfg env req s = UB.
Proof.
  intros Hs Hc Hu Hb. assert (v_table (view s) !! teid req = Some c) as (a & p & Hses)%(vo_table _ _ Hs) by done.
  pose proof Hses as (l & Hl & _ & _ & Ht). destruct (view_context _ _ _ Hl) as (z & Ez & _).
  simpl in Ht. rewrite lookup_fmap in Ht. apply fmap_Some in Ht as (x & Ex & Ht). symmetry in Ht. destruct (Hb p x Ex Ht) as (Hx & Hne & Hr).
  unfold release_access_bearers_request. rewrite (bind_Val _ _ s s s) by done. unfold subscriber_of, s5s8cpgw_fteid_2_pgw_context.
  cbn [fc_teid_gre_key build_s5s8_cp_fteid]. rewrite Hc. unfold context_release_access_bearers_request.
  rewrite (bind_Val _ _ s s s) by done. rewrite (find_session c (teid req) s a p) by done.
  rewrite (bind_Val _ _ s x s) by (by apply get_pdn_Val). rewrite Hr.
  assert (returns (new_procedure (release_access_bearers_procedure (s5_procedure_new p))) s (fun q t => returns (insert_procedure c q) t (fun _ t =>
    pdn_heap t !! p = Some x /\ is_Some (procedure_heap t !! q)))) as (q & t1 & E1 & r & t2 & E2 & Ex2 & y & Ey).
  { apply returns_bind, returns_get. rewrite Hu. apply returns_bind, returns_modify, returns_bind, returns_bind, returns_gets, returns_bind,
      returns_modify, returns_ret, returns_bind, returns_modify, returns_ret, returns_bind, (get_context_returns _ _ z); [done|].
    apply returns_modify. simpl. rewrite lookup_insert_eq. split; [done|eauto]. }
  rewrite (bind_Val _ _ s q t1 E1), (bind_Val _ _ t1 _ t2 E2). apply bind_UB. unfold release_access_bearers_run.
  rewrite (bind_Val _ _ t2 x t2) by (by apply get_pdn_Val). rewrite (bind_Val _ _ t2 y t2).
  - apply bind_UB. by apply release_loop_ub.
  - unfold get_procedure. rewrite (bind_Val _ _ t2 (procedure_heap t2) t2) by done. by rewrite Ey.
Qed.

Definition demo_attached : pgw_state := state_after demo_attach.

Lemma release_access_bearers_undefined_witness :
  release_access_bearers_request demo_cfg demo_env (demo_request RELEASE_ACCESS_BEARERS_REQUEST 1 3) demo_attached = UB.
Proof.
  apply (release_access_bearers_undefined demo_cfg demo_env (demo_request RELEASE_ACCESS_BEARERS_REQUEST 1 3) demo_attached 0 2 (mk_uint_generator 2 {[1; 2]})).
  - apply state_after_ok.
  - vm_compute. reflexivity.
  - vm_compute. reflexivity.
  - intros p x Ex _. assert (exists b, pdn_heap demo_attached = {[2%nat := b]} /\ eps_bearers b = {[5 := default pgw_eps_bearer_init (eps_bearers b !! 5)]} /\
      ebi (eb_ebi (default pgw_eps_bearer_init (eps_bearers b !! 5))) = 5 /\ pc_released b = false) as (b & E & Eb & Ei & Hr).
    { exists (default pgw_pdn_connection_new (pdn_heap demo_attached !! 2%nat)). refine (conj _ (conj _ (conj _ _))); vm_compute; reflexivity. }
    rewrite E in Ex. apply lookup_singleton_Some in Ex as [_ <-]. split; [|split; [|exact Hr]].
    + intros k b' Hb. rewrite Eb in Hb. apply lookup_singleton_Some in Hb as [<- <-]. split; [exact Ei|reflexivity].
    + rewrite Eb. apply map_non_empty_singleton.
Defined.
