(* ===== verification/SgwContext.v ===== *)
(** * The contexts of the SGW

    [src/oai_spgwc/sgwc_eps_bearer_context.hpp] and [.cpp],
    [sgwc_pdn_connection.cpp]: a [sgw_eps_bearer_context] per subscriber, with
    its PDN connections and the bearers of each, and the tables of [sgwc_app]
    ([sgwc_app.cpp]) these operations change.  As for the PGW, a pointer is a
    key of the heap that holds the objects of its class.  Members that nothing
    but a log message reads or writes are left out. *)
From S2P Require Import Prelude UidGenerator PaaDynamic Pco GtpTlv GtpScalar GtpIdentity GtpQos GtpLocation GtpAddress GtpOptions Container GtpContainer GtpMessages Handler AppMsg.
From Stdlib Require Import ZArith Lia String.
From stdpp Require Import base numbers tactics list strings gmap.
Open Scope Z_scope.

Set Warnings "-register-all".

(** ** EPS bearers *)
Record sgw_eps_bearer := mk_sgw_eps_bearer {
  sb_ebi : ebi_t;
  sb_tft : traffic_flow_template_t;
  sb_pgw_fteid_s5_s8_up : gtp_fteid;
  sb_sgw_fteid_s5_s8_up : gtp_fteid;
  sb_sgw_fteid_s1u_s12_s4u_s11u : gtp_fteid;
  sb_sgw_fteid_s11u : gtp_fteid;
  sb_mme_fteid_s11u : gtp_fteid;
  sb_enb_fteid_s1u : gtp_fteid;
  sb_eps_bearer_qos : bearer_qos_t;
}.

Definition set_sb_ebi (v : ebi_t) (b : sgw_eps_bearer) : sgw_eps_bearer :=
  mk_sgw_eps_bearer v (sb_tft b) (sb_pgw_fteid_s5_s8_up b) (sb_sgw_fteid_s5_s8_up b) (sb_sgw_fteid_s1u_s12_s4u_s11u b)
    (sb_sgw_fteid_s11u b) (sb_mme_fteid_s11u b) (sb_enb_fteid_s1u b) (sb_eps_bearer_qos b).
Definition set_sb_pgw_fteid_s5_s8_up (v : gtp_fteid) (b : sgw_eps_bearer) : sgw_eps_bearer :=
  mk_sgw_eps_bearer (sb_ebi b) (sb_tft b) v (sb_sgw_fteid_s5_s8_up b) (sb_sgw_fteid_s1u_s12_s4u_s11u b)
    (sb_sgw_fteid_s11u b) (sb_mme_fteid_s11u b) (sb_enb_fteid_s1u b) (sb_eps_bearer_qos b).
Definition set_sb_sgw_fteid_s1u_s12_s4u_s11u (v : gtp_fteid) (b : sgw_eps_bearer) : sgw_eps_bearer :=
  mk_sgw_eps_bearer (sb_ebi b) (sb_tft b) (sb_pgw_fteid_s5_s8_up b) (sb_sgw_fteid_s5_s8_up b) v (sb_sgw_fteid_s11u b)
    (sb_mme_fteid_s11u b) (sb_enb_fteid_s1u b) (sb_eps_bearer_qos b).
Definition set_sb_enb_fteid_s1u (v : gtp_fteid) (b : sgw_eps_bearer) : sgw_eps_bearer :=
  mk_sgw_eps_bearer (sb_ebi b) (sb_tft b) (sb_pgw_fteid_s5_s8_up b) (sb_sgw_fteid_s5_s8_up b)
    (sb_sgw_fteid_s1u_s12_s4u_s11u b) (sb_sgw_fteid_s11u b) (sb_mme_fteid_s11u b) v (sb_eps_bearer_qos b).
Definition set_sb_eps_bearer_qos (v : bearer_qos_t) (b : sgw_eps_bearer) : sgw_eps_bearer :=
  mk_sgw_eps_bearer (sb_ebi b) (sb_tft b) (sb_pgw_fteid_s5_s8_up b) (sb_sgw_fteid_s5_s8_up b)
    (sb_sgw_fteid_s1u_s12_s4u_s11u b) (sb_sgw_fteid_s11u b) (sb_mme_fteid_s11u b) (sb_enb_fteid_s1u b) v.

(** The constructor, and [clear]. *)
Definition sgw_eps_bearer_init : sgw_eps_bearer :=
  mk_sgw_eps_bearer (mk_ebi_t EPS_BEARER_IDENTITY_UNASSIGNED) (mk_traffic_flow_template_t 0 0 0) fteid_null fteid_null
    fteid_null fteid_null fteid_null fteid_null gv_init.

Abbreviation bcc_modified := bearer_context_modified_within_modify_bearer_response_class.

(** [sgw_eps_bearer::update] *)
Definition bearer_update (m : fields value) (b : sgw_eps_bearer) : sgw_eps_bearer :=
  match ies_get bcc_modified 0 m with
  | Some e =>
    if ebi_eqb e (sb_ebi b) then
      match ies_get_x bcc_modified "s1_u_sgw_fteid" m with
      | Some f => set_sb_sgw_fteid_s1u_s12_s4u_s11u f b
      | None => b
      end
    else b
  | None => b
  end.

(** ** PDN connections *)
Record sgw_pdn_connection := mk_sgw_pdn_connection {
  apn_in_use : list Z;
  sp_pdn_type : pdn_type_t;
  pgw_fteid_s5_s8_cp : gtp_fteid;
  sgw_fteid_s5_s8_cp : gtp_fteid;
  default_bearer : ebi_t;
  is_dl_up_tunnels_released : bool;
  sgw_eps_bearers : gmap Z nat;
}.

Definition set_pgw_fteid_s5_s8_cp (v : gtp_fteid) (p : sgw_pdn_connection) : sgw_pdn_connection :=
  mk_sgw_pdn_connection (apn_in_use p) (sp_pdn_type p) v (sgw_fteid_s5_s8_cp p) (default_bearer p)
    (is_dl_up_tunnels_released p) (sgw_eps_bearers p).
Definition set_sgw_fteid_s5_s8_cp (v : gtp_fteid) (p : sgw_pdn_connection) : sgw_pdn_connection :=
  mk_sgw_pdn_connection (apn_in_use p) (sp_pdn_type p) (pgw_fteid_s5_s8_cp p) v (default_bearer p)
    (is_dl_up_tunnels_released p) (sgw_eps_bearers p).
Definition set_default_bearer (v : ebi_t) (p : sgw_pdn_connection) : sgw_pdn_connection :=
  mk_sgw_pdn_connection (apn_in_use p) (sp_pdn_type p) (pgw_fteid_s5_s8_cp p) (sgw_fteid_s5_s8_cp p) v
    (is_dl_up_tunnels_released p) (sgw_eps_bearers p).
Definition set_sgw_eps_bearers (v : gmap Z nat) (p : sgw_pdn_connection) : sgw_pdn_connection :=
  mk_sgw_pdn_connection (apn_in_use p) (sp_pdn_type p) (pgw_fteid_s5_s8_cp p) (sgw_fteid_s5_s8_cp p)
    (default_bearer p) (is_dl_up_tunnels_released p) v.

Definition sgw_pdn_connection_new : sgw_pdn_connection :=
  mk_sgw_pdn_connection [] gv_init fteid_null fteid_null (mk_ebi_t EPS_BEARER_IDENTITY_UNASSIGNED) false ∅.

(** [is_released]: nothing sets the flag. *)
Definition is_released (p : sgw_pdn_connection) : bool := is_dl_up_tunnels_released p.

(** [kpdn_t], and the order of a [std::map] it is the key of. *)
Definition kpdn : Type := list Z * Z.

Definition kpdn_of (p : sgw_pdn_connection) : kpdn := (apn_in_use p, u8 (pt_pdn_type (sp_pdn_type p))).

Fixpoint string_ltb (a b : list Z) : bool :=
  match a, b with
  | _, [] => false
  | [], _ :: _ => true
  | x :: a, y :: b => (x <? y) || ((x =? y) && string_ltb a b)
  end.

Definition kpdn_ltb (k l : kpdn) : bool :=
  string_ltb k.1 l.1 || (negb (string_ltb l.1 k.1) && (k.2 <? l.2)).

(** [std::map<kpdn_t, T>], its entries in order: [insert] does not overwrite. *)
Fixpoint kpdn_insert (k : kpdn) (v : nat) (m : list (kpdn * nat)) : list (kpdn * nat) :=
  match m with
  | [] => [(k, v)]
  | (l, w) :: r => if decide (k = l) then m else if kpdn_ltb k l then (k, v) :: m else (l, w) :: kpdn_insert k v r
  end.
Definition kpdn_find (k : kpdn) (m : list (kpdn * nat)) : option nat := snd <$> find (fun e => bool_decide (e.1 = k)) m.
Definition kpdn_erase (k : kpdn) (m : list (kpdn * nat)) : list (kpdn * nat) := filter (fun e => e.1 <> k) m.

(** ** Subscribers *)
Record sgw_eps_bearer_context := mk_sgw_eps_bearer_context {
  sc_imsi : imsi_t;
  mme_fteid_s11 : gtp_fteid;
  sgw_fteid_s11_s4_cp : gtp_fteid;
  pdn_connections : list (kpdn * nat);
  pending_procedures : list nat;
}.

Definition set_sc_imsi (v : imsi_t) (c : sgw_eps_bearer_context) : sgw_eps_bearer_context :=
  mk_sgw_eps_bearer_context v (mme_fteid_s11 c) (sgw_fteid_s11_s4_cp c) (pdn_connections c) (pending_procedures c).
Definition set_mme_fteid_s11 (v : gtp_fteid) (c : sgw_eps_bearer_context) : sgw_eps_bearer_context :=
  mk_sgw_eps_bearer_context (sc_imsi c) v (sgw_fteid_s11_s4_cp c) (pdn_connections c) (pending_procedures c).
Definition set_sgw_fteid_s11_s4_cp (v : gtp_fteid) (c : sgw_eps_bearer_context) : sgw_eps_bearer_context :=
  mk_sgw_eps_bearer_context (sc_imsi c) (mme_fteid_s11 c) v (pdn_connections c) (pending_procedures c).
Definition set_pdn_connections (v : list (kpdn * nat)) (c : sgw_eps_bearer_context) : sgw_eps_bearer_context :=
  mk_sgw_eps_bearer_context (sc_imsi c) (mme_fteid_s11 c) (sgw_fteid_s11_s4_cp c) v (pending_procedures c).
Definition set_pending_procedures (v : list nat) (c : sgw_eps_bearer_context) : sgw_eps_bearer_context :=
  mk_sgw_eps_bearer_context (sc_imsi c) (mme_fteid_s11 c) (sgw_fteid_s11_s4_cp c) (pdn_connections c) v.

Definition sgw_eps_bearer_context_new : sgw_eps_bearer_context := mk_sgw_eps_bearer_context gv_init fteid_null fteid_null [] [].

(** ** Procedures, as data *)

(** [pdn_bearers_to_be_xied]: what a Modify Bearer Request asks of one
    connection, and the transaction of the request to the PGW. *)
Record pdn_bearers_to_be_xied := mk_pdn_bearers_to_be_xied {
  px_pdn : nat;
  px_to_be_modified : list (fields value);
  px_to_be_removed : list (fields value);
  px_tx_id : Z;
}.

Record modify_procedure := mk_modify_procedure {
  mp_msg : itti_gtp_msg;
  pdn_bearers : list pdn_bearers_to_be_xied;
  bearer_contexts_modified : list (fields value);
  bearer_contexts_marked_for_removal : list (fields value);
  mp_ebc : option nat;
}.

(** [bearers_to_be_released]: a connection and its transaction. *)
Record release_procedure := mk_release_procedure {
  rp_msg : itti_gtp_msg;
  rp_bearers : list (nat * Z);
  rp_ebc : option nat;
  rp_cause : gtp_cause;
}.

Record notification_procedure := mk_notification_procedure {
  np_msg : itti_gtp_msg;
  np_s11_triggered : option itti_gtp_msg;
  np_ebc : option nat;
  np_pdn_connection : option nat;
}.

Inductive procedure_body :=
| create_session_request_procedure (msg : itti_gtp_msg) (ebc : option nat)
| modify_bearer_request_procedure (p : modify_procedure)
| release_access_bearers_request_procedure (p : release_procedure)
| delete_session_request_procedure (msg : itti_gtp_msg) (ebc : option nat) (pdn_connection : nat)
| downlink_data_notification_procedure (p : notification_procedure).

Record sebc_procedure := mk_sebc_procedure { trxn_id : Z; marked_for_removal : bool; body : procedure_body }.

(** [has_trxn_id], virtual. *)
Definition has_trxn_id (t : Z) (q : sebc_procedure) : bool :=
  (t =? trxn_id q) ||
  match body q with
  | modify_bearer_request_procedure p => existsb (fun x => px_tx_id x =? t) (pdn_bearers p)
  | release_access_bearers_request_procedure p => existsb (fun x => x.2 =? t) (rp_bearers p)
  | _ => false
  end.

(** ** The state of the SGW *)
Record sgw_state := mk_sgw_state {
  teid_s11_cp : Z;
  teid_s5s8_cp : Z;
  imsi2sgw_eps_bearer_context : gmap Z nat;
  s11lteid2sgw_eps_bearer_context : gmap Z nat;
  s5s8lteid2sgw_contexts : gmap Z (nat * nat);
  context_heap : gmap nat sgw_eps_bearer_context;
  pdn_heap : gmap nat sgw_pdn_connection;
  bearer_heap : gmap nat sgw_eps_bearer;
  procedure_heap : gmap nat sebc_procedure;
  next_object : nat;
  trxn_ids : uint_generator;
  sent_by_sgw : list app_out;
}.

Definition set_teid_s11_cp (v : Z) (s : sgw_state) : sgw_state :=
  mk_sgw_state v (teid_s5s8_cp s) (imsi2sgw_eps_bearer_context s) (s11lteid2sgw_eps_bearer_context s)
    (s5s8lteid2sgw_contexts s) (context_heap s) (pdn_heap s) (bearer_heap s) (procedure_heap s) (next_object s)
    (trxn_ids s) (sent_by_sgw s).
Definition set_teid_s5s8_cp (v : Z) (s : sgw_state) : sgw_state :=
  mk_sgw_state (teid_s11_cp s) v (imsi2sgw_eps_bearer_context s) (s11lteid2sgw_eps_bearer_context s)
    (s5s8lteid2sgw_contexts s) (context_heap s) (pdn_heap s) (bearer_heap s) (procedure_heap s) (next_object s)
    (trxn_ids s) (sent_by_sgw s).
Definition set_imsi2sgw_eps_bearer_context (v : gmap Z nat) (s : sgw_state) : sgw_state :=
  mk_sgw_state (teid_s11_cp s) (teid_s5s8_cp s) v (s11lteid2sgw_eps_bearer_context s) (s5s8lteid2sgw_contexts s)
    (context_heap s) (pdn_heap s) (bearer_heap s) (procedure_heap s) (next_object s) (trxn_ids s) (sent_by_sgw s).
Definition set_s11lteid2sgw_eps_bearer_context (v : gmap Z nat) (s : sgw_state) : sgw_state :=
  mk_sgw_state (teid_s11_cp s) (teid_s5s8_cp s) (imsi2sgw_eps_bearer_context s) v (s5s8lteid2sgw_contexts s)
    (context_heap s) (pdn_heap s) (bearer_heap s) (procedure_heap s) (next_object s) (trxn_ids s) (sent_by_sgw s).
Definition set_s5s8lteid2sgw_contexts (v : gmap Z (nat * nat)) (s : sgw_state) : sgw_state :=
  mk_sgw_state (teid_s11_cp s) (teid_s5s8_cp s) (imsi2sgw_eps_bearer_context s) (s11lteid2sgw_eps_bearer_context s) v
    (context_heap s) (pdn_heap s) (bearer_heap s) (procedure_heap s) (next_object s) (trxn_ids s) (sent_by_sgw s).
Definition set_context_heap (v : gmap nat sgw_eps_bearer_context) (s : sgw_state) : sgw_state :=
  mk_sgw_state (teid_s11_cp s) (teid_s5s8_cp s) (imsi2sgw_eps_bearer_context s) (s11lteid2sgw_eps_bearer_context s)
    (s5s8lteid2sgw_contexts s) v (pdn_heap s) (bearer_heap s) (procedure_heap s) (next_object s) (trxn_ids s)
    (sent_by_sgw s).
Definition set_pdn_heap (v : gmap nat sgw_pdn_connection) (s : sgw_state) : sgw_state :=
  mk_sgw_state (teid_s11_cp s) (teid_s5s8_cp s) (imsi2sgw_eps_bearer_context s) (s11lteid2sgw_eps_bearer_context s)
    (s5s8lteid2sgw_contexts s) (context_heap s) v (bearer_heap s) (procedure_heap s) (next_object s) (trxn_ids s)
    (sent_by_sgw s).
Definition set_bearer_heap (v : gmap nat sgw_eps_bearer) (s : sgw_state) : sgw_state :=
  mk_sgw_state (teid_s11_cp s) (teid_s5s8_cp s) (imsi2sgw_eps_bearer_context s) (s11lteid2sgw_eps_bearer_context s)
    (s5s8lteid2sgw_contexts s) (context_heap s) (pdn_heap s) v (procedure_heap s) (next_object s) (trxn_ids s)
    (sent_by_sgw s).
Definition set_procedure_heap (v : gmap nat sebc_procedure) (s : sgw_state) : sgw_state :=
  mk_sgw_state (teid_s11_cp s) (teid_s5s8_cp s) (imsi2sgw_eps_bearer_context s) (s11lteid2sgw_eps_bearer_context s)
    (s5s8lteid2sgw_contexts s) (context_heap s) (pdn_heap s) (bearer_heap s) v (next_object s) (trxn_ids s)
    (sent_by_sgw s).
Definition set_next_object (v : nat) (s : sgw_state) : sgw_state :=
  mk_sgw_state (teid_s11_cp s) (teid_s5s8_cp s) (imsi2sgw_eps_bearer_context s) (s11lteid2sgw_eps_bearer_context s)
    (s5s8lteid2sgw_contexts s) (context_heap s) (pdn_heap s) (bearer_heap s) (procedure_heap s) v (trxn_ids s)
    (sent_by_sgw s).
Definition set_trxn_ids (v : uint_generator) (s : sgw_state) : sgw_state :=
  mk_sgw_state (teid_s11_cp s) (teid_s5s8_cp s) (imsi2sgw_eps_bearer_context s) (s11lteid2sgw_eps_bearer_context s)
    (s5s8lteid2sgw_contexts s) (context_heap s) (pdn_heap s) (bearer_heap s) (procedure_heap s) (next_object s) v
    (sent_by_sgw s).
Definition set_sent_by_sgw (v : list app_out) (s : sgw_state) : sgw_state :=
  mk_sgw_state (teid_s11_cp s) (teid_s5s8_cp s) (imsi2sgw_eps_bearer_context s) (s11lteid2sgw_eps_bearer_context s)
    (s5s8lteid2sgw_contexts s) (context_heap s) (pdn_heap s) (bearer_heap s) (procedure_heap s) (next_object s)
    (trxn_ids s) v.

Abbreviation sgw := (handler sgw_state).

(** [pgw_config], as far as the SGW reads it. *)
Record sgw_config := mk_sgw_config {
  s11_addr4 : Z;
  sgw_s5s8_addr4 : Z;
  pgw_s5s8_addr4 : Z;
  sgw_gtpv2c_port : Z;
}.

(** ** Objects *)
Definition get_bearer (b : nat) : sgw sgw_eps_bearer := x ← gets bearer_heap; deref (x !! b).
Definition put_bearer (b : nat) (x : sgw_eps_bearer) : sgw unit := modify (fun s => set_bearer_heap (<[b := x]> (bearer_heap s)) s).
Definition update_bearer (b : nat) (f : sgw_eps_bearer -> sgw_eps_bearer) : sgw unit := x ← get_bearer b; put_bearer b (f x).

Definition get_pdn (p : nat) : sgw sgw_pdn_connection := x ← gets pdn_heap; deref (x !! p).
Definition put_pdn (p : nat) (x : sgw_pdn_connection) : sgw unit := modify (fun s => set_pdn_heap (<[p := x]> (pdn_heap s)) s).
Definition update_pdn (p : nat) (f : sgw_pdn_connection -> sgw_pdn_connection) : sgw unit := x ← get_pdn p; put_pdn p (f x).

Definition get_context (c : nat) : sgw sgw_eps_bearer_context := x ← gets context_heap; deref (x !! c).
Definition put_context (c : nat) (x : sgw_eps_bearer_context) : sgw unit :=
  modify (fun s => set_context_heap (<[c := x]> (context_heap s)) s).
Definition update_context (c : nat) (f : sgw_eps_bearer_context -> sgw_eps_bearer_context) : sgw unit :=
  x ← get_context c; put_context c (f x).

Definition get_procedure (q : nat) : sgw sebc_procedure := x ← gets procedure_heap; deref (x !! q).
Definition put_procedure (q : nat) (x : sebc_procedure) : sgw unit :=
  modify (fun s => set_procedure_heap (<[q := x]> (procedure_heap s)) s).

(** [new]: an address nothing has. *)
Definition new_object : sgw nat := n ← gets next_object; _ ← modify (set_next_object (S n)); mret n.

(** [itti_inst->send_msg]; the tasks that take messages are [ready]. *)
Definition send_msg (ready : Z -> bool) (o : app_out) : sgw bool :=
  if ready (match o with OutGtp d _ | OutSx d _ => d end)
  then _ ← modify (fun s => set_sent_by_sgw (sent_by_sgw s ++ [o]) s); mret true
  else mret false.

(** [uint_uid_generator<uint64_t>::get_uid] *)
Definition generate_trxn_id : sgw Z :=
  s ← get_state;
  match get_uid 64 (trxn_ids s) with
  | Some (u, g) => _ ← modify (set_trxn_ids g); mret u
  | None => lift Diverge
  end.

(** ** The tables of [sgwc_app] *)

(** The [while] of the two generators: a TEID that is in use, or zero, is
    passed over; back at the start, there is none.  [None]: still looping when
    the fuel is spent. *)
Fixpoint teid_search (fuel : nat) (used : gset Z) (loop_detect teid : Z) : option (Z * Z) :=
  match fuel with
  | O => None
  | S fuel =>
    if decide (teid ∈ used \/ teid = UNASSIGNED_TEID) then
      let teid := u32 (teid + 1) in
      if loop_detect =? teid then Some (teid, UNASSIGNED_TEID) else teid_search fuel used loop_detect teid
    else Some (teid, teid)
  end.

(** Two more iterations than there are TEIDs in use. *)
Definition teid_after (used : gset Z) (generator : Z) : option (Z * Z) :=
  teid_search (2 + size used) used generator (u32 (generator + 1)).

Definition generate_s11_cp_teid : sgw Z :=
  s ← get_state;
  match teid_after (dom (s11lteid2sgw_eps_bearer_context s)) (teid_s11_cp s) with
  | Some (g, t) => _ ← modify (set_teid_s11_cp g); mret t
  | None => lift Diverge
  end.

Definition generate_s5s8_cp_teid : sgw Z :=
  s ← get_state;
  match teid_after (dom (s5s8lteid2sgw_contexts s)) (teid_s5s8_cp s) with
  | Some (g, t) => _ ← modify (set_teid_s5s8_cp g); mret t
  | None => lift Diverge
  end.

Definition is_s11c_teid_exist (t : Z) (s : sgw_state) : bool := bool_decide (is_Some (s11lteid2sgw_eps_bearer_context s !! t)).

Definition generate_s11_cp_fteid (addr : Z) : sgw gtp_fteid :=
  t ← generate_s11_cp_teid; mret (GtpAddress.mk_fteid_t 1 0 S11_S4_SGW_GTP_C t addr in6addr_any).
Definition generate_s5s8_cp_fteid (addr : Z) : sgw gtp_fteid :=
  t ← generate_s5s8_cp_teid; mret (GtpAddress.mk_fteid_t 1 0 S5_S8_SGW_GTP_C t addr in6addr_any).

(** [at] throws. *)
Definition s11sgw_teid_2_sgw_eps_bearer_context (t : Z) : sgw nat :=
  s ← get_state;
  match s11lteid2sgw_eps_bearer_context s !! t with Some c => mret c | None => throw out_of_range end.

Definition set_s5s8sgw_teid_2_sgw_contexts (t : Z) (c p : nat) : sgw unit :=
  modify (fun s => set_s5s8lteid2sgw_contexts (<[t := (c, p)]> (s5s8lteid2sgw_contexts s)) s).
Definition delete_s5s8sgw_teid_2_sgw_contexts (t : Z) : sgw unit :=
  modify (fun s => set_s5s8lteid2sgw_contexts (delete t (s5s8lteid2sgw_contexts s)) s).
Definition set_s11sgw_teid_2_sgw_eps_bearer_context (t : Z) (c : nat) : sgw unit :=
  modify (fun s => set_s11lteid2sgw_eps_bearer_context (<[t := c]> (s11lteid2sgw_eps_bearer_context s)) s).
Definition set_imsi64_2_sgw_eps_bearer_context (i : Z) (c : nat) : sgw unit :=
  modify (fun s => set_imsi2sgw_eps_bearer_context (<[i := c]> (imsi2sgw_eps_bearer_context s)) s).

(** ** Operations on PDN connections *)
Definition get_eps_bearer (e : ebi_t) (x : sgw_pdn_connection) : option nat := sgw_eps_bearers x !! ebi e.

(** [add_eps_bearer]: [insert] keeps the bearer that is there. *)
Definition add_eps_bearer (p b : nat) : sgw unit :=
  y ← get_bearer b;
  if valid_ebi (ebi (sb_ebi y)) then
    update_pdn p (fun x => match get_eps_bearer (sb_ebi y) x with
                           | Some _ => x
                           | None => set_sgw_eps_bearers (<[ebi (sb_ebi y) := b]> (sgw_eps_bearers x)) x
                           end)
  else mret tt.

Definition update_eps_bearer (p : nat) (m : fields value) : sgw unit :=
  match ies_get bcc_modified 0 m with
  | Some e => x ← get_pdn p; match get_eps_bearer e x with Some b => update_bearer b (bearer_update m) | None => mret tt end
  | None => mret tt
  end.

Definition remove_eps_bearer_ebi (p : nat) (e : ebi_t) : sgw unit :=
  update_pdn p (fun x => set_sgw_eps_bearers (delete (ebi e) (sgw_eps_bearers x)) x).

(** By the identity the bearer has now. *)
Definition remove_eps_bearer (p b : nat) : sgw unit := y ← get_bearer b; remove_eps_bearer_ebi p (sb_ebi y).

Definition delete_bearers (p : nat) : sgw unit := update_pdn p (set_sgw_eps_bearers ∅).

Definition get_num_bearers (x : sgw_pdn_connection) : nat := size (sgw_eps_bearers x).

(** ** Operations on subscribers *)
Section Subscriber.
Variable c : nat.

Definition insert_pdn_connection (p : nat) : sgw unit :=
  x ← get_pdn p; update_context c (fun y => set_pdn_connections (kpdn_insert (kpdn_of x) p (pdn_connections y)) y).

Definition erase_pdn_connection (p : nat) : sgw unit :=
  x ← get_pdn p; update_context c (fun y => set_pdn_connections (kpdn_erase (kpdn_of x) (pdn_connections y)) y).

(** [find_pdn_connection(apn, pdn_type, sp)] *)
Definition find_pdn_connection_apn (apn : list Z) (t : pdn_type_t) (s : sgw_state) : option nat :=
  y ← context_heap s !! c; kpdn_find (apn, u8 (pt_pdn_type t)) (pdn_connections y).

Definition pdn_has_ebi (e : ebi_t) (x : sgw_pdn_connection) : bool :=
  ebi_eqb (default_bearer x) e || bool_decide (is_Some (get_eps_bearer e x)).

(** [find_pdn_connection(ebi, sp)]: the first in the order of the map. *)
Definition find_pdn_connection (e : ebi_t) (s : sgw_state) : option nat :=
  y ← context_heap s !! c;
  snd <$> find (fun kp => match pdn_heap s !! kp.2 with Some x => pdn_has_ebi e x | None => false end) (pdn_connections y).

(** The bearers have nothing to deallocate. *)
Definition delete_pdn_connection (p : nat) : sgw unit :=
  x ← get_pdn p;
  _ ← delete_s5s8sgw_teid_2_sgw_contexts (fc_teid_gre_key (sgw_fteid_s5_s8_cp x));
  _ ← erase_pdn_connection p;
  delete_bearers p.

(** The loop of [release]: the element the iterator is at is erased when its key
    is the one of its connection, and the step to the next one is undefined. *)
Fixpoint release_loop (l : list (kpdn * nat)) : sgw unit :=
  match l with
  | [] => mret tt
  | (k, p) :: l =>
    x ← get_pdn p;
    _ ← delete_pdn_connection p;
    if decide (kpdn_of x = k) then undefined else release_loop l
  end.

Definition release : sgw unit :=
  _ ← update_context c (set_pending_procedures []);
  y ← get_context c;
  release_loop (pdn_connections y).

Definition insert_procedure (q : nat) : sgw unit :=
  update_context c (fun y => set_pending_procedures (pending_procedures y ++ [q]) y).
Definition remove_procedure (q : nat) : sgw unit :=
  update_context c (fun y => set_pending_procedures (erase_first q (pending_procedures y)) y).
Definition find_procedure (t : Z) (s : sgw_state) : option nat :=
  y ← context_heap s !! c;
  find (fun q => match procedure_heap s !! q with Some x => has_trxn_id t x | None => false end) (pending_procedures y).

Definition get_num_pdn_connections : sgw nat := y ← get_context c; mret (length (pdn_connections y)).

Definition delete_sgw_eps_bearer_context : sgw unit :=
  y ← get_context c;
  _ ← modify (fun s => set_imsi2sgw_eps_bearer_context (delete (to_imsi64 (sc_imsi y)) (imsi2sgw_eps_bearer_context s)) s);
  _ ← modify (fun s => set_s11lteid2sgw_eps_bearer_context
                         (delete (fc_teid_gre_key (sgw_fteid_s11_s4_cp y)) (s11lteid2sgw_eps_bearer_context s)) s);
  release.
End Subscriber.

(** The constructor of a procedure: a new object, with the transaction of the
    message. *)
Definition new_procedure (t : Z) (b : procedure_body) : sgw nat :=
  q ← new_object; _ ← put_procedure q (mk_sebc_procedure t false b); mret q.
