(* ===== verification/SgwProcedure.v ===== *)
(** * The procedures of the SGW

    [src/oai_spgwc/sgwc_procedure.hpp] and [.cpp]: a request of the MME is
    copied into a procedure of the subscriber, [run] sends the request on to the
    PGW, and [handle_itti_msg] sends the answer of the PGW back to the MME.  A
    copied message has the elements of its source
    ([GtpClassLaws.copy_equivalent]; the one member that is lost, the RAT type
    of a Modify Bearer Request, is not read here), so that the copy is the
    message itself in the model.  The integer a [run] returns is kept:
    [RETURNok] leaves the procedure pending. *)
From S2P Require Import Prelude UidGenerator PaaDynamic Pco Itti UpNodes GtpTlv GtpScalar GtpIdentity GtpQos GtpLocation GtpAddress GtpOptions Container GtpContainer GtpMessages Handler AppMsg SgwContext.
From Stdlib Require Import ZArith Lia String.
From stdpp Require Import base numbers tactics list strings gmap.
Open Scope Z_scope.

Set Warnings "-register-all".

Abbreviation bc_to_create := bearer_context_to_be_created_within_create_session_request_class.
Abbreviation bc_to_remove := bearer_context_to_be_removed_within_create_session_request_class.
Abbreviation bcc_created := bearer_context_created_within_create_session_response_class.
Abbreviation bcc_removed := bearer_context_marked_for_removal_within_create_session_response_class.
Abbreviation bc_to_modify := bearer_context_to_be_modified_within_modify_bearer_request_class.
Abbreviation bcc_unlinked := bearer_context_marked_for_removal_within_modify_bearer_response_class.

Definition to_be_created : slot := (Mask GTPV2C_CREATE_SESSION_REQUEST_PR_IE_BEARER_CONTEXTS_TO_BE_CREATED, "bearer_contexts_to_be_created").
Definition to_be_removed : slot := (Mask GTPV2C_CREATE_SESSION_REQUEST_PR_IE_BEARER_CONTEXTS_TO_BE_REMOVED, "bearer_contexts_to_be_removed").
Definition created : slot := (First, "bearer_contexts_created").
Definition removed : slot := (First, "bearer_contexts_marked_for_removal").
Definition to_be_modified : slot := (Mask GTPV2C_MODIFY_BEARER_REQUEST_PR_IE_BEARER_CONTEXTS_TO_BE_MODIFIED, "bearer_contexts_to_be_modified").
Definition to_be_unlinked : slot := (Mask GTPV2C_MODIFY_BEARER_REQUEST_PR_IE_BEARER_CONTEXTS_TO_BE_REMOVED, "bearer_contexts_to_be_removed").
Definition modified : slot := (First, "bearer_contexts_modified").

(** [gtpv2c::default_port] *)
Definition default_port : Z := 2123.

Definition return_code (ok : bool) : Z := if ok then RETURNok else RETURNerror.

(** The contexts of a vector that is present. *)
Definition present_contexts (s : slot) (m : itti_gtp_msg) : list (fields value) :=
  if has_contexts s m then contexts s.2 m else [].

Section Procedures.
Variable cfg : sgw_config.
Variable ready : Z -> bool.

(** [endpoint(pgw_config::pgw_s5s8_.iface.addr4, pgw_config::gtpv2c_.port)] *)
Definition pgw_endpoint : endpoint := endpoint_of (pgw_s5s8_addr4 cfg) (sgw_gtpv2c_port cfg).

Definition set_body (b : procedure_body) (q : nat) : sgw unit :=
  y ← get_procedure q; put_procedure q (mk_sebc_procedure (trxn_id y) (marked_for_removal y) b).

Definition mark_for_removal (q : nat) : sgw unit :=
  y ← get_procedure q; put_procedure q (mk_sebc_procedure (trxn_id y) true (body y)).

(** ** [create_session_request_procedure] *)

(** The elements the SGW passes on to the PGW, with its own F-TEID. *)
Definition s5s8_create_session_request (tx : Z) (msg : itti_gtp_msg) (f : gtp_fteid) : itti_gtp_msg :=
  let m := with_l_teid (fc_teid_gre_key f) (gtp_address tx UNASSIGNED_TEID pgw_endpoint (new_gtp_msg CREATE_SESSION_REQUEST)) in
  let m := msg_forward imsi_t msg m in
  let m := msg_forward msisdn_t msg m in
  let m := msg_forward mei_t msg m in
  let m := msg_forward uli_t msg m in
  let m := msg_forward rat_type_t msg m in
  let m := msg_forward indication_t msg m in
  let m := msg_set_x "sender_fteid_for_cp" f m in
  let m := match msg_get_x "pgw_s5s8_address_for_cp" msg : option gtp_fteid with
           | Some g => msg_set_x "pgw_s5s8_address_for_cp" g m
           | None => m
           end in
  let m := msg_forward apn_t msg m in
  let m := msg_forward selection_mode_t msg m in
  let m := msg_forward pdn_type_t msg m in
  let m := msg_forward paa_t msg m in
  let m := msg_forward access_point_name_restriction_t msg m in
  let m := msg_forward ambr_t msg m in
  msg_forward protocol_configuration_options_t msg m.

(** A bearer to create: for the PGW, the F-TEID of instance 0 is set as the one
    of the SGW. *)
Definition s5s8_bearer_to_create (it : fields value) : fields value :=
  let b := ies_forward ebi_t bc_to_create bc_to_create it (class_init bc_to_create) in
  let b := ies_forward bearer_qos_t bc_to_create bc_to_create it b in
  match ies_get bc_to_create 0 it : option gtp_fteid with
  | Some f => ies_set_x bc_to_create "s5_s8_u_sgw_fteid" f b
  | None => b
  end.

Definition new_bearer (it : fields value) : sgw_eps_bearer :=
  set_sb_eps_bearer_qos (default gv_init (ies_get bc_to_create 0 it))
    (set_sb_ebi (default gv_init (ies_get bc_to_create 0 it)) sgw_eps_bearer_init).

Definition create_bearer (p : nat) (m : itti_gtp_msg) (it : fields value) : sgw itti_gtp_msg :=
  b ← new_object;
  _ ← put_bearer b (new_bearer it);
  _ ← add_eps_bearer p b;
  mret (add_bearer_context to_be_created (s5s8_bearer_to_create it) m).

Definition remove_bearer (p : nat) (m : itti_gtp_msg) (it : fields value) : sgw itti_gtp_msg :=
  x ← get_pdn p;
  _ ← match get_eps_bearer (default gv_init (ies_get bc_to_remove 0 it)) x with
      | Some b => remove_eps_bearer p b
      | None => mret tt
      end;
  mret (add_bearer_context to_be_removed (ies_forward ebi_t bc_to_remove bc_to_remove it (class_init bc_to_remove)) m).

(** [at(0)] throws when the request has no bearer to create. *)
Definition create_session_run (q c : nat) (msg : itti_gtp_msg) : sgw Z :=
  s ← get_state;
  let apn := apn_core (msg_member "apn" msg) in
  let t : pdn_type_t := msg_member "pdn_type" msg in
  match find_pdn_connection_apn c apn t s with
  | Some _ => mret RETURNerror
  | None =>
    _ ← set_body (create_session_request_procedure msg (Some c)) q;
    p ← new_object;
    _ ← put_pdn p (mk_sgw_pdn_connection apn t fteid_null fteid_null (mk_ebi_t EPS_BEARER_IDENTITY_UNASSIGNED) false ∅);
    _ ← insert_pdn_connection c p;
    match contexts "bearer_contexts_to_be_created" msg with
    | [] => throw out_of_range
    | b :: _ =>
      _ ← update_pdn p (set_default_bearer (member "eps_bearer_id" b));
      f ← generate_s5s8_cp_fteid (sgw_s5s8_addr4 cfg);
      _ ← update_pdn p (set_sgw_fteid_s5_s8_cp f);
      _ ← set_s5s8sgw_teid_2_sgw_contexts (fc_teid_gre_key f) c p;
      y ← get_procedure q;
      m ← fold_handler (create_bearer p) (s5s8_create_session_request (trxn_id y) msg f) (present_contexts to_be_created msg);
      m ← fold_handler (remove_bearer p) m (present_contexts to_be_removed msg);
      ok ← send_msg ready (OutGtp TASK_SGWC_S5S8 m); mret (return_code ok)
    end
  end.

(** The elements of the response the SGW passes on to the MME. *)
Definition s11_create_session_response (tx : Z) (msg resp : itti_gtp_msg) (own : gtp_fteid) : itti_gtp_msg :=
  let m := gtp_address tx (fc_teid_gre_key (msg_member "sender_fteid_for_cp" msg)) (r_endpoint msg) (new_gtp_msg CREATE_SESSION_RESPONSE) in
  let m := msg_forward gtp_cause resp m in
  let m := msg_set_x "sender_fteid_for_cp" own m in
  let m := msg_forward paa_t resp m in
  let m := msg_forward access_point_name_restriction_t resp m in
  let m := msg_forward ambr_t resp m in
  let m := msg_forward protocol_configuration_options_t resp m in
  let m := msg_forward fq_csid_t msg m in
  let m := msg_forward epc_timer_t resp m in
  msg_forward indication_t resp m.

(** The bearer of an accepted context: the user plane of the PGW is the one the
    eNodeB is given ([SPGW_SPLIT] is not defined). *)
Definition bearer_accepted (e : ebi_t) (it : fields value) (b : sgw_eps_bearer) : sgw_eps_bearer :=
  let b := set_sb_ebi e b in
  let b := match ies_get bcc_created 0 it with Some v => set_sb_eps_bearer_qos v b | None => b end in
  let b := match ies_get bcc_created 2 it with Some f => set_sb_pgw_fteid_s5_s8_up f b | None => b end in
  set_sb_sgw_fteid_s1u_s12_s4u_s11u (fteid_with_interface S1_U_SGW_GTP_U (sb_pgw_fteid_s5_s8_up b)) b.

Definition created_bearer (p : nat) (m : itti_gtp_msg) (it : fields value) : sgw itti_gtp_msg :=
  let cause : gtp_cause := default gv_init (ies_get bcc_created 0 it) in
  let e : ebi_t := default gv_init (ies_get bcc_created 0 it) in
  let bcc := ies_forward ebi_t bcc_created bcc_created it (ies_forward gtp_cause bcc_created bcc_created it (class_init bcc_created)) in
  bcc ← (if c_cause_value cause =? REQUEST_ACCEPTED then
           x ← get_pdn p;
           match get_eps_bearer e x with
           | Some b =>
             _ ← update_bearer b (bearer_accepted e it);
             y ← get_bearer b;
             let f := sb_sgw_fteid_s1u_s12_s4u_s11u y in
             let bcc := if fteid_is_zero f then bcc else ies_set_x bcc_created "s1_u_sgw_fteid" f bcc in
             mret (ies_forward bearer_qos_t bcc_created bcc_created it bcc)
           | None => mret bcc
           end
         else mret bcc);
  mret (add_bearer_context created bcc m).

Definition removed_bearer (p : nat) (m : itti_gtp_msg) (it : fields value) : sgw itti_gtp_msg :=
  let bcc := ies_forward ebi_t bcc_removed bcc_removed it (ies_forward gtp_cause bcc_removed bcc_removed it (class_init bcc_removed)) in
  x ← get_pdn p;
  _ ← match get_eps_bearer (default gv_init (ies_get bcc_removed 0 it)) x with
      | Some b => put_bearer b sgw_eps_bearer_init
      | None => mret tt
      end;
  mret (add_bearer_context removed bcc m).

(** A connection that has bearers is deleted. *)
Definition delete_unless_bare (c p : nat) : sgw unit :=
  x ← get_pdn p; if (get_num_bearers x =? 0)%nat then mret tt else delete_pdn_connection c p.

Definition create_session_handle (q c p : nat) (msg resp : itti_gtp_msg) : sgw unit :=
  _ ← mark_for_removal q;
  y ← get_procedure q;
  z ← get_context c;
  _ ← match msg_get_x "s5_s8_pgw_fteid" resp with
      | Some f => update_pdn p (set_pgw_fteid_s5_s8_cp f)
      | None => mret tt
      end;
  m ← fold_handler (created_bearer p) (s11_create_session_response (trxn_id y) msg resp (sgw_fteid_s11_s4_cp z))
        (present_contexts created resp);
  m ← (if has_contexts removed resp then fold_handler (removed_bearer p) m (contexts removed.2 resp)
       else _ ← (if CONTEXT_NOT_FOUND <=? c_cause_value (msg_member "cause" resp) then delete_unless_bare c p else mret tt);
            mret m);
  _ ← send_msg ready (OutGtp TASK_SGWC_S11 m); mret tt.

(** The PGW does not answer. *)
Definition create_session_peer_not_responding (q c p : nat) (msg ind : itti_gtp_msg) : sgw unit :=
  _ ← mark_for_removal q;
  _ ← delete_unless_bare c p;
  y ← get_procedure q;
  z ← get_context c;
  let m := gtp_address (trxn_id y) (fc_teid_gre_key (msg_member "sender_fteid_for_cp" msg)) (r_endpoint msg) (new_gtp_msg CREATE_SESSION_RESPONSE) in
  let m := msg_set 0 (GtpScalar.mk_cause_t REMOTE_PEER_NOT_RESPONDING 0 0 1 0 0 0) (with_l_teid (l_teid ind) m) in
  _ ← send_msg ready (OutGtp TASK_SGWC_S11 (msg_set_x "sender_fteid_for_cp" (sgw_fteid_s11_s4_cp z) m)); mret tt.

(** ** [delete_session_request_procedure] *)
Definition s5s8_delete_session_request (tx : Z) (msg : itti_gtp_msg) (x : sgw_pdn_connection) : itti_gtp_msg :=
  let m := with_l_teid (fc_teid_gre_key (sgw_fteid_s5_s8_cp x))
             (gtp_address tx (fc_teid_gre_key (pgw_fteid_s5_s8_cp x)) pgw_endpoint (new_gtp_msg DELETE_SESSION_REQUEST)) in
  let m := msg_forward gtp_cause msg m in
  let m := msg_set 0 (default (default_bearer x) (msg_get 0 msg)) m in
  let m := msg_forward uli_t msg m in
  let m := msg_forward protocol_configuration_options_t msg m in
  let m := msg_set_x "sender_fteid_for_cp" (sgw_fteid_s5_s8_cp x) m in
  let m := match msg_get 0 msg with
           | Some i => if ind_oi i =? 0 then m else msg_forward ran_nas_cause_t msg (msg_forward ue_time_zone_t msg m)
           | None => m
           end in
  msg_forward extended_protocol_configuration_options_t msg m.

Definition delete_session_run (q c p : nat) (msg : itti_gtp_msg) : sgw Z :=
  _ ← set_body (delete_session_request_procedure msg (Some c) p) q;
  y ← get_procedure q;
  x ← get_pdn p;
  ok ← send_msg ready (OutGtp TASK_SGWC_S5S8 (s5s8_delete_session_request (trxn_id y) msg x));
  mret (return_code ok).

(** [this->ebc] is the subscriber [run] was given. *)
Definition delete_session_handle (q c p : nat) (msg : itti_gtp_msg) (ebc : option nat) (resp : itti_gtp_msg) : sgw unit :=
  own ← deref ebc;
  z ← get_context own;
  y ← get_procedure q;
  let m := gtp_address (trxn_id y) (fc_teid_gre_key (mme_fteid_s11 z)) (r_endpoint msg) (new_gtp_msg DELETE_SESSION_RESPONSE) in
  _ ← mark_for_removal q;
  _ ← delete_pdn_connection c p;
  _ ← send_msg ready (OutGtp TASK_SGWC_S11 (msg_forward gtp_cause resp m)); mret tt.

(** ** [modify_bearer_request_procedure] *)

(** The bearer contexts answered without the PGW. *)
Definition context_modified (e : ebi_t) (cause : Z) : fields value :=
  ies_set bcc_modified 0 (cause_of cause) (ies_set bcc_modified 0 e (class_init bcc_modified)).
Definition context_unlinked (e : ebi_t) (cause : Z) : fields value :=
  ies_set bcc_unlinked 0 (cause_of cause) (ies_set bcc_unlinked 0 e (class_init bcc_unlinked)).

(** A bearer context joins every element of [pdn_bearers] for its connection, or
    a new one. *)
Definition px_modify (bm : fields value) (x : pdn_bearers_to_be_xied) : pdn_bearers_to_be_xied :=
  mk_pdn_bearers_to_be_xied (px_pdn x) (px_to_be_modified x ++ [bm]) (px_to_be_removed x) (px_tx_id x).
Definition register_modify (p : nat) (bm : fields value) (l : list pdn_bearers_to_be_xied) : list pdn_bearers_to_be_xied :=
  if existsb (fun x => px_pdn x =? p)%nat l
  then (fun x => if (px_pdn x =? p)%nat then px_modify bm x else x) <$> l
  else l ++ [mk_pdn_bearers_to_be_xied p [bm] [] 0].

(** For a removal, the first element of the connection. *)
Fixpoint register_remove (p : nat) (bm : fields value) (l : list pdn_bearers_to_be_xied) : list pdn_bearers_to_be_xied :=
  match l with
  | [] => [mk_pdn_bearers_to_be_xied p [] [bm] 0]
  | x :: l =>
    if (px_pdn x =? p)%nat
    then mk_pdn_bearers_to_be_xied (px_pdn x) (px_to_be_modified x) (px_to_be_removed x ++ [bm]) (px_tx_id x) :: l
    else x :: register_remove p bm l
  end.

(** A bearer to modify: unknown, unchanged, or for the PGW.  A context without
    the F-TEID of an eNodeB, or for a bearer the connection does not hold, is
    left out. *)
Definition sort_modified (c : nat) (m : modify_procedure) (it : fields value) : sgw modify_procedure :=
  let e : ebi_t := member "eps_bearer_id" it in
  let answer cause := mk_modify_procedure (mp_msg m) (pdn_bearers m) (bearer_contexts_modified m ++ [context_modified e cause])
                        (bearer_contexts_marked_for_removal m) (mp_ebc m) in
  s ← get_state;
  match find_pdn_connection c e s with
  | None => mret (answer CONTEXT_NOT_FOUND)
  | Some p =>
    match ies_get_x bc_to_modify "s1_u_enb_fteid" it with
    | None => mret m
    | Some v =>
      x ← get_pdn p;
      match get_eps_bearer e x with
      | None => mret m
      | Some b =>
        y ← get_bearer b;
        if fteid_eqb v (sb_enb_fteid_s1u y) then mret (answer REQUEST_ACCEPTED)
        else mret (mk_modify_procedure (mp_msg m) (register_modify p it (pdn_bearers m)) (bearer_contexts_modified m)
                     (bearer_contexts_marked_for_removal m) (mp_ebc m))
      end
    end
  end.

Definition sort_removed (c : nat) (m : modify_procedure) (it : fields value) : sgw modify_procedure :=
  let e : ebi_t := member "eps_bearer_id" it in
  s ← get_state;
  match find_pdn_connection c e s with
  | None => mret (mk_modify_procedure (mp_msg m) (pdn_bearers m) (bearer_contexts_modified m)
                    (bearer_contexts_marked_for_removal m ++ [context_unlinked e CONTEXT_NOT_FOUND]) (mp_ebc m))
  | Some p => mret (mk_modify_procedure (mp_msg m) (register_remove p it (pdn_bearers m)) (bearer_contexts_modified m)
                      (bearer_contexts_marked_for_removal m) (mp_ebc m))
  end.

(** The response, with the contexts that are answered. *)
Definition s11_modify_bearer_response (tx t : Z) (m : modify_procedure) : itti_gtp_msg :=
  let r := msg_set 0 (cause_of CONTEXT_NOT_FOUND)
             (gtp_address tx t (r_endpoint (mp_msg m)) (new_gtp_msg MODIFY_BEARER_RESPONSE)) in
  let r := foldl (fun r b => add_bearer_context modified b r) r (bearer_contexts_modified m) in
  foldl (fun r b => add_bearer_context removed b r) r (bearer_contexts_marked_for_removal m).

(** The bearer takes the F-TEID of the eNodeB when the request is sent on. *)
Definition modify_bearer_fteid (p : nat) (r : itti_gtp_msg) (it : fields value) : sgw itti_gtp_msg :=
  x ← get_pdn p;
  match get_eps_bearer (member "eps_bearer_id" it) x with
  | Some b =>
    match ies_get_x bc_to_modify "s1_u_enb_fteid" it with
    | Some f => _ ← update_bearer b (set_sb_enb_fteid_s1u f); mret (add_bearer_context to_be_modified it r)
    | None => mret r
    end
  | None => mret r
  end.

(** The request for one connection, in a transaction of its own. *)
Definition send_modify (msg : itti_gtp_msg) (l : list pdn_bearers_to_be_xied) (px : pdn_bearers_to_be_xied)
  : sgw (list pdn_bearers_to_be_xied) :=
  tx ← generate_trxn_id;
  x ← get_pdn (px_pdn px);
  let r := with_l_teid (fc_teid_gre_key (sgw_fteid_s5_s8_cp x))
             (gtp_address tx (fc_teid_gre_key (pgw_fteid_s5_s8_cp x)) pgw_endpoint (new_gtp_msg MODIFY_BEARER_REQUEST)) in
  let r := msg_forward ue_time_zone_t msg (msg_forward serving_network_t msg (msg_forward mei_t msg r)) in
  r ← fold_handler (modify_bearer_fteid (px_pdn px)) r (px_to_be_modified px);
  let r := foldl (fun r b => add_bearer_context to_be_unlinked b r) r (px_to_be_removed px) in
  _ ← send_msg ready (OutGtp TASK_SGWC_S5S8 r);
  mret (l ++ [mk_pdn_bearers_to_be_xied (px_pdn px) (px_to_be_modified px) (px_to_be_removed px) tx]).

Definition modify_bearer_run (q c : nat) (msg : itti_gtp_msg) : sgw Z :=
  m ← fold_handler (sort_modified c) (mk_modify_procedure msg [] [] [] (Some c)) (present_contexts to_be_modified msg);
  m ← fold_handler (sort_removed c) m (present_contexts to_be_unlinked msg);
  y ← get_procedure q;
  match pdn_bearers m with
  | [] =>
    _ ← set_body (modify_bearer_request_procedure m) q;
    z ← get_context c;
    ok ← send_msg ready (OutGtp TASK_SGWC_S11 (s11_modify_bearer_response (trxn_id y) (fc_teid_gre_key (mme_fteid_s11 z)) m));
    mret (if ok : bool then RETURNclear else RETURNerror)
  | pxs =>
    l ← fold_handler (send_modify msg) [] pxs;
    _ ← set_body (modify_bearer_request_procedure
          (mk_modify_procedure msg l (bearer_contexts_modified m) (bearer_contexts_marked_for_removal m) (mp_ebc m))) q;
    mret RETURNok
  end.

(** The contexts of a response that answer one of the request: each takes the
    first with its identity out of the list. *)
Fixpoint take_context (e : ebi_t) (l : list (fields value)) : option (list (fields value)) :=
  match l with
  | [] => None
  | x :: l => if ebi_eqb (member "eps_bearer_id" x) e then Some l else (x ::.) <$> take_context e l
  end.

(** [it_modified.s1_u_sgw_fteid.second.interface_type = S1_U_SGW_GTP_U] *)
Definition as_s1u (it : fields value) : fields value :=
  assign_member "s1_u_sgw_fteid" (fteid_with_interface S1_U_SGW_GTP_U (member "s1_u_sgw_fteid" it)) it.

Definition collect (f : fields value -> fields value) (a : list (fields value) * list (fields value)) (it : fields value)
  : list (fields value) * list (fields value) :=
  match take_context (member "eps_bearer_id" it) a.1 with
  | Some l => (l, a.2 ++ [f it])
  | None => a
  end.

(** One context of the request in the final response, and the cause so far: the
    cause becomes a partial acceptance when a missing bearer follows an accepted
    one, and only for bearers to modify. *)
Definition answer_context (missing : ebi_t -> fields value) (slot : slot) (apply : fields value -> sgw unit) (partial : bool)
    (done : list (fields value)) (a : itti_gtp_msg * Z) (it : fields value) : sgw (itti_gtp_msg * Z) :=
  let e : ebi_t := member "eps_bearer_id" it in
  match find (fun m => ebi_eqb (member "eps_bearer_id" m) e) done with
  | Some m =>
    _ ← apply m;
    mret (add_bearer_context slot m a.1, if a.2 =? REQUEST_ACCEPTED_PARTIALLY then a.2 else REQUEST_ACCEPTED)
  | None =>
    mret (add_bearer_context slot (missing e) a.1,
          if partial && (a.2 =? REQUEST_ACCEPTED) then REQUEST_ACCEPTED_PARTIALLY else a.2)
  end.

(** The end of the procedure: the last connection has answered. *)
Definition modify_bearer_answer (p : nat) (m : modify_procedure) (r : itti_gtp_msg) : sgw unit :=
  a ← fold_handler (answer_context (fun e => context_modified e CONTEXT_NOT_FOUND) modified (update_eps_bearer p) true
        (bearer_contexts_modified m)) (r, SYSTEM_FAILURE) (contexts "bearer_contexts_to_be_modified" (mp_msg m));
  a ← fold_handler (answer_context (fun e => context_unlinked e CONTEXT_NOT_FOUND) removed
        (fun it => remove_eps_bearer_ebi p (member "eps_bearer_id" it)) false (bearer_contexts_marked_for_removal m)) a
        (contexts "bearer_contexts_to_be_removed" (mp_msg m));
  _ ← send_msg ready (OutGtp TASK_SGWC_S11 (msg_set 0 (cause_of a.2) a.1)); mret tt.

(** The first connection with the transaction, and the others. *)
Fixpoint take_px (t : Z) (l : list pdn_bearers_to_be_xied) : option (pdn_bearers_to_be_xied * list pdn_bearers_to_be_xied) :=
  match l with
  | [] => None
  | x :: l => if px_tx_id x =? t then Some (x, l) else (fun r => (r.1, x :: r.2)) <$> take_px t l
  end.

Definition modify_bearer_handle (q : nat) (m : modify_procedure) (resp : itti_gtp_msg) : sgw unit :=
  own ← deref (mp_ebc m);
  z ← get_context own;
  y ← get_procedure q;
  let r := gtp_address (trxn_id y) (fc_teid_gre_key (mme_fteid_s11 z)) (r_endpoint (mp_msg m)) (new_gtp_msg MODIFY_BEARER_RESPONSE) in
  _ ← match (msg_get 0 resp : option gtp_cause) with Some _ => mret tt | None => mark_for_removal q end;
  let r := msg_forward gtp_cause resp r in
  match take_px (gtpc_tx_id resp) (pdn_bearers m) with
  | None => mret tt
  | Some (px, rest) =>
    let a := foldl (collect as_s1u) (px_to_be_modified px, bearer_contexts_modified m) (present_contexts modified resp) in
    let b := foldl (collect (fun it => it)) (px_to_be_removed px, bearer_contexts_marked_for_removal m) (present_contexts removed resp) in
    let m := mk_modify_procedure (mp_msg m) rest a.2 b.2 (mp_ebc m) in
    _ ← set_body (modify_bearer_request_procedure m) q;
    if decide (length rest = 0%nat) then _ ← mark_for_removal q; modify_bearer_answer (px_pdn px) m r else mret tt
  end.

(** ** [release_access_bearers_request_procedure] *)

(** Every request has the transaction of the procedure, and no local TEID. *)
Definition send_release (tx : Z) (l : list (nat * Z)) (kp : kpdn * nat) : sgw (list (nat * Z)) :=
  x ← get_pdn kp.2;
  if is_released x then mret l
  else
    let ep := endpoint_of (fc_ipv4_address (pgw_fteid_s5_s8_cp x)) (sgw_gtpv2c_port cfg) in
    _ ← send_msg ready (OutGtp TASK_SGWC_S5S8
          (gtp_address tx (fc_teid_gre_key (pgw_fteid_s5_s8_cp x)) ep (new_gtp_msg RELEASE_ACCESS_BEARERS_REQUEST)));
    mret (l ++ [(kp.2, tx)]).

Definition release_access_bearers_run (q c : nat) (msg : itti_gtp_msg) : sgw Z :=
  z ← get_context c;
  y ← get_procedure q;
  l ← fold_handler (send_release (trxn_id y)) [] (pdn_connections z);
  _ ← set_body (release_access_bearers_request_procedure (mk_release_procedure msg l (Some c) (cause_of 0))) q;
  match l with
  | [] =>
    let r := gtp_address (trxn_id y) (fc_teid_gre_key (mme_fteid_s11 z)) (r_endpoint msg) (new_gtp_msg RELEASE_ACCESS_BEARERS_RESPONSE) in
    ok ← send_msg ready (OutGtp TASK_SGWC_S11 (msg_set 0 (cause_of REQUEST_ACCEPTED) r));
    mret (if ok : bool then RETURNclear else RETURNerror)
  | _ => mret RETURNok
  end.

Definition with_cause_value (v : Z) (c : gtp_cause) : gtp_cause :=
  GtpScalar.mk_cause_t v (c_pce c) (c_bce c) (c_cs c) (c_offending_ie_type c) (c_offending_ie_length c) (c_offending_ie_instance c).

(** The cause of the procedure with the one of a response. *)
Definition release_cause (c : gtp_cause) (got : option gtp_cause) : gtp_cause :=
  if c_cause_value c =? 0 then default (with_cause_value REQUEST_ACCEPTED c) got
  else
    match got with
    | None => with_cause_value REQUEST_ACCEPTED c
    | Some g =>
      if c_cause_value g =? REQUEST_ACCEPTED then
        if c_cause_value c =? CONTEXT_NOT_FOUND then with_cause_value REQUEST_ACCEPTED_PARTIALLY c else c
      else if c_cause_value g =? REQUEST_ACCEPTED_PARTIALLY then with_cause_value REQUEST_ACCEPTED_PARTIALLY c
      else if c_cause_value c =? REQUEST_ACCEPTED then with_cause_value REQUEST_ACCEPTED_PARTIALLY c
      else c
    end.

Fixpoint erase_tx (t : Z) (l : list (nat * Z)) : option (list (nat * Z)) :=
  match l with
  | [] => None
  | x :: l => if x.2 =? t then Some l else (x ::.) <$> erase_tx t l
  end.

Definition release_access_bearers_handle (q : nat) (m : release_procedure) (resp : itti_gtp_msg) : sgw unit :=
  own ← deref (rp_ebc m);
  z ← get_context own;
  y ← get_procedure q;
  let r := gtp_address (trxn_id y) (fc_teid_gre_key (mme_fteid_s11 z)) (r_endpoint (rp_msg m)) (new_gtp_msg RELEASE_ACCESS_BEARERS_RESPONSE) in
  match erase_tx (gtpc_tx_id resp) (rp_bearers m) with
  | None => mret tt
  | Some rest =>
    let c := release_cause (rp_cause m) (msg_get 0 resp) in
    _ ← set_body (release_access_bearers_request_procedure (mk_release_procedure (rp_msg m) rest (rp_ebc m) c)) q;
    if decide (length rest = 0%nat) then _ ← send_msg ready (OutGtp TASK_SGWC_S11 (msg_set 0 c r)); mret tt else mret tt
  end.

(** ** [downlink_data_notification_procedure] *)
Definition downlink_data_notification_run (q c p : nat) (msg : itti_gtp_msg) : sgw Z :=
  _ ← set_body (downlink_data_notification_procedure (mk_notification_procedure msg None (Some c) (Some p))) q;
  match msg_get 0 msg with
  | None => mret RETURNerror
  | Some e =>
    x ← get_pdn p;
    match get_eps_bearer e x with
    | None => mret RETURNerror
    | Some _ =>
      z ← get_context c;
      y ← get_procedure q;
      let ep := endpoint_of (fc_ipv4_address (mme_fteid_s11 z)) default_port in
      let r := with_gtp_ies (gtp_ies msg)
                 (gtp_address (trxn_id y) (fc_teid_gre_key (mme_fteid_s11 z)) ep (new_gtp_msg DOWNLINK_DATA_NOTIFICATION)) in
      _ ← set_body (downlink_data_notification_procedure (mk_notification_procedure msg (Some r) (Some c) (Some p))) q;
      ok ← send_msg ready (OutGtp TASK_SGWC_S11 r); mret (return_code ok)
    end
  end.

Definition downlink_data_notification_handle (q : nat) (m : notification_procedure) (ack : itti_gtp_msg) : sgw unit :=
  p ← deref (np_pdn_connection m);
  x ← get_pdn p;
  y ← get_procedure q;
  let ep := endpoint_of (fc_ipv4_address (pgw_fteid_s5_s8_cp x)) default_port in
  let r := with_gtp_ies (gtp_ies ack)
             (gtp_address (trxn_id y) (fc_teid_gre_key (pgw_fteid_s5_s8_cp x)) ep (new_gtp_msg DOWNLINK_DATA_NOTIFICATION_ACKNOWLEDGE)) in
  _ ← send_msg ready (OutGtp TASK_SGWC_S5S8 r); mret tt.

(** ** The handlers of the base class

    They log, and so do the empty overrides; only the two below are called
    through it.  The others are called through [dynamic_pointer_cast]. *)
Definition procedure_peer_not_responding (q c p : nat) (ind : itti_gtp_msg) : sgw unit :=
  y ← get_procedure q;
  match body y with
  | create_session_request_procedure msg _ => create_session_peer_not_responding q c p msg ind
  | _ => mret tt
  end.

Definition procedure_downlink_ack (q : nat) (ack : itti_gtp_msg) : sgw unit :=
  y ← get_procedure q;
  match body y with
  | downlink_data_notification_procedure m => downlink_data_notification_handle q m ack
  | _ => mret tt
  end.
End Procedures.
