(* ===== verification/SgwApp.v ===== *)
(** * The SGW application

    [sgw_eps_bearer_context::create_procedure] and [::handle_itti_msg]
    ([src/oai_spgwc/sgwc_eps_bearer_context.cpp]) and [sgwc_app]
    ([sgwc_app.cpp]): the handlers of the S11 requests and of the S5/S8
    responses, and the dispatch of [sgwc_app_task].  The pointers of the tables
    are never null, so the tests on them are left out. *)
From S2P Require Import Prelude UidGenerator PaaDynamic Pco Itti UpNodes GtpTlv GtpScalar GtpIdentity GtpQos GtpLocation GtpAddress GtpOptions Container GtpContainer GtpMessages Handler AppMsg SgwContext SgwProcedure.
From Stdlib Require Import ZArith Lia String.
From stdpp Require Import base numbers tactics list strings gmap.
Open Scope Z_scope.

Set Warnings "-register-all".

Section Sgw.
Variable cfg : sgw_config.
Variable ready : Z -> bool.

Definition send_create_session_response_cause (tx t : Z) (ep : endpoint) (c : gtp_cause) : sgw unit :=
  _ ← send_msg ready (OutGtp TASK_SGWC_S11 (msg_set 0 c (gtp_address tx t ep (new_gtp_msg CREATE_SESSION_RESPONSE)))); mret tt.

(** ** The requests, for a subscriber *)
Section Subscriber.
Variable c : nat.

(** [s11sgw_teid_2_sgw_eps_bearer_context(this->sgw_fteid_s11_s4_cp.teid_gre_key)] *)
Definition context_by_teid : sgw nat :=
  z ← get_context c; s11sgw_teid_2_sgw_eps_bearer_context (fc_teid_gre_key (sgw_fteid_s11_s4_cp z)).

(** The [switch] on what [run] returned. *)
Definition remove_unless_ok (rc : Z) (q : nat) : sgw unit :=
  if (rc =? RETURNerror) || (rc =? RETURNclear) then remove_procedure c q else mret tt.

Definition create_procedure_create (req : itti_gtp_msg) : sgw unit :=
  q ← new_procedure (gtpc_tx_id req) (create_session_request_procedure req None);
  _ ← insert_procedure c q;
  d ← context_by_teid;
  rc ← create_session_run cfg ready q d req;
  if rc =? 0 then mret tt else remove_procedure c q.

Definition create_procedure_modify (req : itti_gtp_msg) : sgw unit :=
  if has_contexts to_be_modified req || has_contexts to_be_unlinked req then
    q ← new_procedure (gtpc_tx_id req) (modify_bearer_request_procedure (mk_modify_procedure req [] [] [] None));
    _ ← insert_procedure c q;
    d ← context_by_teid;
    rc ← modify_bearer_run cfg ready q d req;
    remove_unless_ok rc q
  else mret tt.

Definition create_procedure_release (req : itti_gtp_msg) : sgw unit :=
  q ← new_procedure (gtpc_tx_id req) (release_access_bearers_request_procedure (mk_release_procedure req [] None (cause_of 0)));
  _ ← insert_procedure c q;
  d ← context_by_teid;
  rc ← release_access_bearers_run cfg ready q d req;
  remove_unless_ok rc q.

(** The connections a Delete Session Request is for: the one of its linked
    bearer, or all. *)
Definition to_delete (req : itti_gtp_msg) (s : sgw_state) : list nat :=
  match msg_get 0 req with
  | Some e => option_list (find_pdn_connection c e s)
  | None => match context_heap s !! c with Some z => (pdn_connections z).*2 | None => [] end
  end.

Definition delete_one (req : itti_gtp_msg) (p : nat) : sgw unit :=
  q ← new_procedure (gtpc_tx_id req) (delete_session_request_procedure req None p);
  _ ← insert_procedure c q;
  rc ← delete_session_run cfg ready q c p req;
  if rc =? 0 then mret tt else remove_procedure c q.

Definition create_procedure_delete (req : itti_gtp_msg) : sgw unit :=
  s ← get_state; fold_handler (fun _ p => delete_one req p) tt (to_delete req s).

Definition create_procedure_notify (m : itti_gtp_msg) (p : nat) : sgw unit :=
  q ← new_procedure (gtpc_tx_id m) (downlink_data_notification_procedure (mk_notification_procedure m None None None));
  _ ← insert_procedure c q;
  rc ← downlink_data_notification_run ready q c p m;
  remove_unless_ok rc q.

(** The first request gives the subscriber its S11 tunnel. *)
Definition context_create_session_request (req : itti_gtp_msg) : sgw unit :=
  z ← get_context c;
  let f : gtp_fteid := msg_member "sender_fteid_for_cp" req in
  _ ← (if fc_teid_gre_key (sgw_fteid_s11_s4_cp z) =? UNASSIGNED_TEID then
         g ← generate_s11_cp_fteid (s11_addr4 cfg);
         _ ← update_context c (set_sgw_fteid_s11_s4_cp g);
         _ ← set_s11sgw_teid_2_sgw_eps_bearer_context (fc_teid_gre_key g) c;
         update_context c (fun z => set_sc_imsi (msg_member "imsi" req) (set_mme_fteid_s11 f z))
       else if fteid_eqb (mme_fteid_s11 z) f then mret tt else update_context c (set_mme_fteid_s11 f));
  create_procedure_create req.

(** A request whose transaction has a procedure is ignored. *)
Definition unless_pending (t : Z) (k : sgw unit) : sgw unit :=
  s ← get_state; match find_procedure c t s with Some _ => mret tt | None => k end.

Definition context_modify_bearer_request (req : itti_gtp_msg) : sgw unit :=
  unless_pending (gtpc_tx_id req) (create_procedure_modify req).
Definition context_release_access_bearers_request (req : itti_gtp_msg) : sgw unit :=
  unless_pending (gtpc_tx_id req) (create_procedure_release req).

(** Without the operation indication nothing is done. *)
Definition context_delete_session_request (req : itti_gtp_msg) : sgw unit :=
  unless_pending (gtpc_tx_id req)
    match msg_get 0 req with
    | Some i => if ind_oi i =? 0 then mret tt else create_procedure_delete req
    | None => mret tt
    end.

Definition context_downlink_data_notification (m : itti_gtp_msg) (p : nat) : sgw unit :=
  unless_pending (gtpc_tx_id m) (create_procedure_notify m p).

Definition context_downlink_data_notification_acknowledge (m : itti_gtp_msg) : sgw unit :=
  s ← get_state;
  match find_procedure c (gtpc_tx_id m) s with
  | Some q => procedure_downlink_ack ready q m
  | None => mret tt
  end.

(** ** The responses, for a subscriber *)

(** A response goes to the procedure of its transaction, which is removed when
    it is marked. *)
Definition with_procedure (t : Z) (k : nat -> procedure_body -> sgw unit) : sgw unit :=
  s ← get_state;
  match find_procedure c t s with
  | Some q =>
    y ← get_procedure q;
    _ ← k q (body y);
    y ← get_procedure q;
    if marked_for_removal y then remove_procedure c q else mret tt
  | None => mret tt
  end.

(** [dynamic_pointer_cast] to another class is the null pointer, and its handler
    is called all the same. *)
Definition context_create_session_response (m : itti_gtp_msg) (p : nat) : sgw unit :=
  with_procedure (gtpc_tx_id m) (fun q b =>
    match b with create_session_request_procedure req _ => create_session_handle ready q c p req m | _ => undefined end).
Definition context_modify_bearer_response (m : itti_gtp_msg) (p : nat) : sgw unit :=
  with_procedure (gtpc_tx_id m) (fun q b =>
    match b with modify_bearer_request_procedure x => modify_bearer_handle ready q x m | _ => undefined end).
Definition context_release_access_bearers_response (m : itti_gtp_msg) (p : nat) : sgw unit :=
  with_procedure (gtpc_tx_id m) (fun q b =>
    match b with release_access_bearers_request_procedure x => release_access_bearers_handle ready q x m | _ => undefined end).
Definition context_delete_session_response (m : itti_gtp_msg) (p : nat) : sgw unit :=
  with_procedure (gtpc_tx_id m) (fun q b =>
    match b with delete_session_request_procedure req ebc _ => delete_session_handle ready q c p req ebc m | _ => undefined end).

Definition context_remote_peer_not_responding (m : itti_gtp_msg) (p : nat) : sgw unit :=
  s ← get_state;
  match find_procedure c (gtpc_tx_id m) s with
  | Some q => _ ← procedure_peer_not_responding ready q c p m; remove_procedure c q
  | None => mret tt
  end.
End Subscriber.

(** ** The handlers of the application *)

(** A request for an IMSI whose connection has the default bearer of the request:
    a Delete Session Request is made up for the old connection, which is then
    deleted.  [bearer_contexts_to_be_created[0]] is read without a test when
    the request has no TEID. *)
Definition indication_oi : indication_t :=
  mk_indication_t 0 0 0 0 1 0 0 0 0 0 0 0 0 0 0 0 0 0 0 0 0 0 0 0 0 0 0 0 0 0 0 0 0 0 0 0 0 0 0 0 0 0 0 0 0 0 0 0 0 0 0 0 0.

Definition collision_request (z : sgw_eps_bearer_context) (e : ebi_t) : itti_gtp_msg :=
  let m := gtp_address 0 (fc_teid_gre_key (sgw_fteid_s11_s4_cp z)) EpNone (new_gtp_msg DELETE_SESSION_REQUEST) in
  msg_set 0 indication_oi (msg_set 0 e (msg_set 0 (mme_fteid_s11 z) m)).

Definition delete_colliding (c : nat) (req : itti_gtp_msg) : sgw unit :=
  s ← get_state;
  match contexts "bearer_contexts_to_be_created" req with
  | [] => if teid req =? 0 then undefined else mret tt
  | b :: _ =>
    let e : ebi_t := member "eps_bearer_id" b in
    match find_pdn_connection c e s with
    | Some p =>
      z ← get_context c;
      _ ← context_delete_session_request c (collision_request z e);
      delete_pdn_connection c p
    | None => mret tt
    end
  end.

(** The subscriber of a Create Session Request: by its IMSI, new if it has none,
    or by the tunnel of the request. *)
Definition create_session_subscriber (req : itti_gtp_msg) : sgw (option nat) :=
  s ← get_state;
  match msg_get 0 req with
  | Some imsi =>
    if match msg_get 0 req with Some i => negb (ind_uimsi i =? 0) | None => false end then mret None
    else
      match imsi2sgw_eps_bearer_context s !! to_imsi64 imsi with
      | Some c => _ ← delete_colliding c req; mret (Some c)
      | None =>
        c ← new_object;
        _ ← put_context c sgw_eps_bearer_context_new;
        _ ← set_imsi64_2_sgw_eps_bearer_context (to_imsi64 imsi) c; mret (Some c)
      end
  | None => mret (if teid req =? 0 then None else s11lteid2sgw_eps_bearer_context s !! teid req)
  end.

Definition create_session_request (req : itti_gtp_msg) : sgw unit :=
  s ← get_state;
  let f : gtp_fteid := msg_member "sender_fteid_for_cp" req in
  if negb (fc_interface_type f =? S11_MME_GTP_C) then mret tt
  else if fc_teid_gre_key f =? 0 then mret tt
  else if negb (teid req =? 0) && negb (is_s11c_teid_exist (teid req) s) then
    send_create_session_response_cause (gtpc_tx_id req) (teid req) (r_endpoint req) (cause_of CONTEXT_NOT_FOUND)
  else
    oc ← create_session_subscriber req;
    match oc with
    | Some c => context_create_session_request c req
    | None => mret tt
    end.

(** A message on an S11 tunnel. *)
Definition with_subscriber (m : itti_gtp_msg) (k : nat -> sgw unit) : sgw unit :=
  s ← get_state;
  if teid m =? 0 then mret tt
  else match s11lteid2sgw_eps_bearer_context s !! teid m with Some c => k c | None => mret tt end.

Definition delete_session_request (m : itti_gtp_msg) : sgw unit := with_subscriber m (fun c => context_delete_session_request c m).
Definition modify_bearer_request (m : itti_gtp_msg) : sgw unit := with_subscriber m (fun c => context_modify_bearer_request c m).
Definition release_access_bearers_request (m : itti_gtp_msg) : sgw unit :=
  with_subscriber m (fun c => context_release_access_bearers_request c m).
Definition downlink_data_notification_acknowledge (m : itti_gtp_msg) : sgw unit :=
  with_subscriber m (fun c => context_downlink_data_notification_acknowledge c m).

(** A message on an S5/S8 tunnel. *)
Definition with_contexts (t : Z) (k : nat -> nat -> sgw unit) : sgw unit :=
  s ← get_state;
  match s5s8lteid2sgw_contexts s !! t with Some (c, p) => k c p | None => mret tt end.

(** The subscriber is forgotten when it has no connection left. *)
Definition forget_if_idle (c : nat) : sgw unit :=
  n ← get_num_pdn_connections c; if (n =? 0)%nat then delete_sgw_eps_bearer_context c else mret tt.

(** An accepted response with another F-TEID than the one of a PGW is ignored. *)
Definition pgw_fteid_acceptable (m : itti_gtp_msg) : bool :=
  let f : gtp_fteid := msg_member "s5_s8_pgw_fteid" m in
  negb (c_cause_value (msg_member "cause" m) <? CONTEXT_NOT_FOUND) ||
  ((fc_interface_type f =? S5_S8_PGW_GTP_C) && negb (fc_teid_gre_key f =? 0)).

Definition create_session_response (m : itti_gtp_msg) : sgw unit :=
  if pgw_fteid_acceptable m
  then with_contexts (teid m) (fun c p => _ ← context_create_session_response c m p; forget_if_idle c)
  else mret tt.
Definition delete_session_response (m : itti_gtp_msg) : sgw unit :=
  with_contexts (teid m) (fun c p => _ ← context_delete_session_response c m p; forget_if_idle c).
Definition modify_bearer_response (m : itti_gtp_msg) : sgw unit :=
  with_contexts (teid m) (fun c p => context_modify_bearer_response c m p).
Definition release_access_bearers_response (m : itti_gtp_msg) : sgw unit :=
  with_contexts (teid m) (fun c p => context_release_access_bearers_response c m p).
Definition remote_peer_not_responding (m : itti_gtp_msg) : sgw unit :=
  if l_teid m =? 0 then mret tt
  else with_contexts (l_teid m) (fun c p => _ ← context_remote_peer_not_responding c m p; forget_if_idle c).
Definition downlink_data_notification (m : itti_gtp_msg) : sgw unit :=
  with_contexts (teid m) (fun c p => context_downlink_data_notification c m p).

(** ** [sgwc_app_task] *)
Inductive sgw_msg :=
| S5S8_CREATE_SESSION_RESPONSE (m : itti_gtp_msg)
| S5S8_DELETE_SESSION_RESPONSE (m : itti_gtp_msg)
| S5S8_DOWNLINK_DATA_NOTIFICATION (m : itti_gtp_msg)
| S5S8_MODIFY_BEARER_RESPONSE (m : itti_gtp_msg)
| S5S8_RELEASE_ACCESS_BEARERS_RESPONSE (m : itti_gtp_msg)
| S5S8_REMOTE_PEER_NOT_RESPONDING (m : itti_gtp_msg)
| S11_CREATE_SESSION_REQUEST (m : itti_gtp_msg)
| S11_DELETE_SESSION_REQUEST (m : itti_gtp_msg)
| S11_DOWNLINK_DATA_NOTIFICATION_ACKNOWLEDGE (m : itti_gtp_msg)
| S11_MODIFY_BEARER_REQUEST (m : itti_gtp_msg)
| S11_RELEASE_ACCESS_BEARERS_REQUEST (m : itti_gtp_msg)
| S11_REMOTE_PEER_NOT_RESPONDING (m : itti_gtp_msg).

(** [dynamic_cast]: a message of another class is passed over. *)
Definition cast (k : gtp_kind) (m : itti_gtp_msg) (h : itti_gtp_msg -> sgw unit) : sgw unit :=
  if decide (gtp_msg_kind m = k) then h m else mret tt.

Definition sgwc_app_task (m : sgw_msg) : sgw unit :=
  match m with
  | S5S8_CREATE_SESSION_RESPONSE m => cast CREATE_SESSION_RESPONSE m create_session_response
  | S5S8_DELETE_SESSION_RESPONSE m => cast DELETE_SESSION_RESPONSE m delete_session_response
  | S5S8_DOWNLINK_DATA_NOTIFICATION m => cast DOWNLINK_DATA_NOTIFICATION m downlink_data_notification
  | S5S8_MODIFY_BEARER_RESPONSE m => cast MODIFY_BEARER_RESPONSE m modify_bearer_response
  | S5S8_RELEASE_ACCESS_BEARERS_RESPONSE m => cast RELEASE_ACCESS_BEARERS_RESPONSE m release_access_bearers_response
  | S5S8_REMOTE_PEER_NOT_RESPONDING m => cast REMOTE_PEER_NOT_RESPONDING_IND m remote_peer_not_responding
  | S11_CREATE_SESSION_REQUEST m => cast CREATE_SESSION_REQUEST m create_session_request
  | S11_DELETE_SESSION_REQUEST m => cast DELETE_SESSION_REQUEST m delete_session_request
  | S11_DOWNLINK_DATA_NOTIFICATION_ACKNOWLEDGE m => cast DOWNLINK_DATA_NOTIFICATION_ACKNOWLEDGE m downlink_data_notification_acknowledge
  | S11_MODIFY_BEARER_REQUEST m => cast MODIFY_BEARER_REQUEST m modify_bearer_request
  | S11_RELEASE_ACCESS_BEARERS_REQUEST m => cast RELEASE_ACCESS_BEARERS_REQUEST m release_access_bearers_request
  | S11_REMOTE_PEER_NOT_RESPONDING _ => mret tt
  end.
End Sgw.

(** [sgwc_app::sgwc_app] *)
Definition sgwc_app_init : sgw_state := mk_sgw_state 0 0 ∅ ∅ ∅ ∅ ∅ ∅ ∅ 0 uint_generator_init [].

(** A run: any messages, with any tasks ready. *)
Inductive sgw_run (cfg : sgw_config) : sgw_state -> list sgw_msg -> sgw_state -> Prop :=
| sgw_run_nil s : sgw_run cfg s [] s
| sgw_run_cons s ready m t l u :
    sgwc_app_task cfg ready m s = Val (tt, t) -> sgw_run cfg t l u -> sgw_run cfg s (m :: l) u.
