(* ===== verification/SgwExample.v ===== *)
(** * A session through the SGW

    Concrete messages of the SGW: the requests of an MME for one subscriber and
    the answers of a PGW.  The witnesses of the theorems on the SGW run on
    them. *)
From S2P Require Import Prelude UidGenerator PaaDynamic Pco Itti UpNodes GtpTlv GtpScalar GtpIdentity GtpQos GtpLocation GtpAddress GtpOptions Container GtpContainer GtpMessages Handler AppMsg SgwContext SgwProcedure SgwApp.
From Stdlib Require Import ZArith Lia String.
From stdpp Require Import base numbers tactics list strings gmap.
Open Scope Z_scope.

Set Warnings "-register-all".

Definition mme : endpoint := Ep4 (htobe32 0x0A000006) 2123.
Definition demo_sgw_cfg : sgw_config := mk_sgw_config (htobe32 0x0A000007) (htobe32 0x0A000004) (htobe32 0x0A000001) 2123.
Definition all_ready (_ : Z) : bool := true.

(** "oai.ipv4" *)
Definition demo_sgw_apn : list Z := [111; 97; 105; 46; 105; 112; 118; 52].
Definition demo_mme_fteid : gtp_fteid := GtpAddress.mk_fteid_t 1 0 S11_MME_GTP_C 900 (htobe32 0x0A000006) in6addr_any.
Definition demo_pgw_fteid : gtp_fteid := GtpAddress.mk_fteid_t 1 0 S5_S8_PGW_GTP_C 500 (htobe32 0x0A000001) in6addr_any.
Definition demo_up_fteid : gtp_fteid := GtpAddress.mk_fteid_t 1 0 5 200 (htobe32 0x0A000003) in6addr_any.
Definition demo_enb_s1u : gtp_fteid := GtpAddress.mk_fteid_t 1 0 S1_U_ENODEB_GTP_U 5 (htobe32 0x0A000005) in6addr_any.
Definition demo_ue : imsi_t := mk_imsi_t [0x02; 0x08; 0x39; 0x00; 0x00; 0x00; 0x00; 0xF1] 15.

Definition demo_bearer_to_create (e : Z) : fields value :=
  ies_set bc_to_create 0 (mk_bearer_qos_t 0 15 0 9 0 0 0 0) (ies_set bc_to_create 0 (mk_ebi_t e) (class_init bc_to_create)).

Definition from_mme (k : gtp_kind) (t tx : Z) : itti_gtp_msg := gtp_address tx t mme (new_gtp_msg k).

Definition demo_mme_create (t tx : Z) (bearers : list (fields value)) : itti_gtp_msg :=
  foldl (fun m b => add_bearer_context to_be_created b m)
    (msg_set 0 demo_ue (msg_set 0 (mk_pdn_type_t PDN_TYPE_E_IPV4) (msg_set 0 (mk_apn_t demo_sgw_apn)
      (msg_set 0 demo_mme_fteid (from_mme CREATE_SESSION_REQUEST t tx))))) bearers.

Definition demo_bearer_created (e cause : Z) : fields value :=
  ies_set bcc_created 2 demo_up_fteid (ies_set bcc_created 0 (cause_of cause) (ies_set bcc_created 0 (mk_ebi_t e) (class_init bcc_created))).

Definition demo_pgw_created (t tx cause : Z) (l : list (fields value)) : itti_gtp_msg :=
  foldl (fun m b => add_bearer_context created b m)
    (msg_set_x "s5_s8_pgw_fteid" demo_pgw_fteid (msg_set 0 (cause_of cause) (from_mme CREATE_SESSION_RESPONSE t tx))) l.

Definition demo_mme_delete (t tx e : Z) : itti_gtp_msg :=
  msg_set 0 indication_oi (msg_set 0 (mk_ebi_t e) (from_mme DELETE_SESSION_REQUEST t tx)).
Definition demo_pgw_answer (k : gtp_kind) (t tx cause : Z) : itti_gtp_msg := msg_set 0 (cause_of cause) (from_mme k t tx).

Definition demo_bearer_to_modify (e : Z) : fields value :=
  ies_set_x bc_to_modify "s1_u_enb_fteid" demo_enb_s1u (ies_set bc_to_modify 0 (mk_ebi_t e) (class_init bc_to_modify)).
Definition demo_mme_modify (t tx : Z) (l : list (fields value)) : itti_gtp_msg :=
  foldl (fun m b => add_bearer_context to_be_modified b m) (from_mme MODIFY_BEARER_REQUEST t tx) l.

(** The messages, in order. *)
Fixpoint sgw_all (l : list sgw_msg) : sgw unit :=
  match l with
  | [] => mret tt
  | m :: l => _ ← sgwc_app_task demo_sgw_cfg all_ready m; sgw_all l
  end.
Definition sgw_after (l : list sgw_msg) : result pco_exn (unit * sgw_state) := sgw_all l sgwc_app_init.

Definition sgw_attach : list sgw_msg :=
  [S11_CREATE_SESSION_REQUEST (demo_mme_create 0 7 [demo_bearer_to_create 5]);
   S5S8_CREATE_SESSION_RESPONSE (demo_pgw_created 1 7 REQUEST_ACCEPTED [demo_bearer_created 5 REQUEST_ACCEPTED])].
Definition sgw_detach : list sgw_msg :=
  [S11_DELETE_SESSION_REQUEST (demo_mme_delete 1 8 5);
   S5S8_DELETE_SESSION_RESPONSE (demo_pgw_answer DELETE_SESSION_RESPONSE 1 8 REQUEST_ACCEPTED)].
