(* ===== verification/SgwLaws.v ===== *)
(** * The sessions of the SGW

    A session of the SGW is a PDN connection: a subscriber has it under its APN
    and type, and the S5/S8 table leads to it from its TEID.  The part of the
    state this is about is its [view]; most operations leave it alone ([same]),
    one opens a session and one closes it.  So every message the SGW handles is
    a step of an abstract table of sessions.  Beside it, the [directory]: the
    subscribers by IMSI and by S11 tunnel, which must agree for a session to be
    opened for the subscriber that asked for it. *)
From S2P Require Import Prelude UidGenerator PaaDynamic Pco Itti UpNodes GtpTlv GtpScalar GtpIdentity GtpQos GtpLocation GtpAddress GtpOptions Container GtpContainer GtpMessages GtpClassLaws Handler AppMsg SgwContext SgwProcedure SgwApp SgwExample.
From Stdlib Require Import ZArith Lia String.
From stdpp Require Import base numbers tactics sets list strings gmap.
Open Scope Z_scope.

Set Warnings "-register-all".

(** ** The view *)
Record sgw_view := mk_sgw_view {
  w_table : gmap Z (nat * nat);            (* [s5s8lteid2sgw_contexts] *)
  w_conns : gmap nat (list (kpdn * nat));  (* of each subscriber *)
  w_pdn : gmap nat (kpdn * Z);             (* key and TEID of each connection *)
}.

Definition shown (x : sgw_pdn_connection) : kpdn * Z := (kpdn_of x, fc_teid_gre_key (sgw_fteid_s5_s8_cp x)).

Definition sgw_view_of (s : sgw_state) : sgw_view :=
  mk_sgw_view (s5s8lteid2sgw_contexts s) (pdn_connections <$> context_heap s) (shown <$> pdn_heap s).

(** How a subscriber is found: the tables, and the S11 TEID and the IMSI each
    subscriber has itself. *)
Record directory := mk_directory {
  d_imsi : gmap Z nat;                     (* [imsi2sgw_eps_bearer_context] *)
  d_s11 : gmap Z nat;                      (* [s11lteid2sgw_eps_bearer_context] *)
  d_names : gmap nat (Z * Z);
}.

Definition named (z : sgw_eps_bearer_context) : Z * Z :=
  (fc_teid_gre_key (sgw_fteid_s11_s4_cp z), to_imsi64 (sc_imsi z)).

Definition directory_of (s : sgw_state) : directory :=
  mk_directory (imsi2sgw_eps_bearer_context s) (s11lteid2sgw_eps_bearer_context s) (named <$> context_heap s).

Definition sgw_same (s t : sgw_state) : Prop :=
  sgw_view_of t = sgw_view_of s /\ (next_object s <= next_object t)%nat /\ directory_of t = directory_of s.

#[export] Instance sgw_same_preorder : PreOrder sgw_same.
Proof. split; [done|]. intros s t u (H1 & H2 & H3) (H4 & H5 & H6). split_and!; [congruence|lia|congruence]. Qed.

(** ** What leaves the view alone *)
Lemma sgw_update_pdn_same p f : (forall x, shown (f x) = shown x) -> moves sgw_same (update_pdn p f).
Proof.
  intros Hf s. apply ends_bind, ends_bind, ends_gets, ends_deref. intros x E. apply ends_modify. split; [|done].
  unfold sgw_view_of. simpl. by erewrite fmap_insert_same.
Qed.

Lemma sgw_update_context_same c f : (forall x, pdn_connections (f x) = pdn_connections x) -> (forall x, named (f x) = named x) ->
  moves sgw_same (update_context c f).
Proof.
  intros Hf Hn s. apply ends_bind, ends_bind, ends_gets, ends_deref. intros x E. apply ends_modify. split_and!; [|done|].
  - unfold sgw_view_of. simpl. by erewrite fmap_insert_same.
  - unfold directory_of. simpl. by erewrite fmap_insert_same.
Qed.

(** A modification of a member the view does not show. *)
Ltac modify_sgw := apply moves_modify; intros ?; split_and!; [reflexivity|simpl; lia|reflexivity].

Lemma sgw_get_pdn_same p : moves sgw_same (get_pdn p).
Proof. unfold get_pdn. moves_solve. Qed.
Lemma sgw_get_bearer_same b : moves sgw_same (get_bearer b).
Proof. unfold get_bearer. moves_solve. Qed.
Lemma sgw_get_context_same c : moves sgw_same (get_context c).
Proof. unfold get_context. moves_solve. Qed.
Lemma sgw_get_procedure_same q : moves sgw_same (get_procedure q).
Proof. unfold get_procedure. moves_solve. Qed.
Lemma sgw_put_procedure_same q y : moves sgw_same (put_procedure q y).
Proof. modify_sgw. Qed.
Lemma sgw_put_bearer_same b y : moves sgw_same (put_bearer b y).
Proof. modify_sgw. Qed.
Lemma sgw_new_object_same : moves sgw_same new_object.
Proof. intros s. apply ends_bind, ends_gets, ends_bind, ends_modify, ends_ret. split_and!; [done|simpl; lia|done]. Qed.
Lemma sgw_send_msg_same ready o : moves sgw_same (send_msg ready o).
Proof. unfold send_msg. moves_solve. modify_sgw. Qed.
#[export] Hint Resolve sgw_update_pdn_same sgw_update_context_same sgw_get_pdn_same sgw_get_bearer_same sgw_get_context_same
  sgw_get_procedure_same sgw_put_procedure_same sgw_put_bearer_same sgw_new_object_same sgw_send_msg_same : handler.

Lemma sgw_update_bearer_same b f : moves sgw_same (update_bearer b f).
Proof. unfold update_bearer. moves_solve. Qed.
Lemma generate_trxn_id_same : moves sgw_same generate_trxn_id.
Proof. unfold generate_trxn_id. moves_solve. modify_sgw. Qed.
Lemma generate_s11_fteid_same a : moves sgw_same (generate_s11_cp_fteid a).
Proof. unfold generate_s11_cp_fteid, generate_s11_cp_teid. moves_solve. modify_sgw. Qed.
Lemma context_at_same t : moves sgw_same (s11sgw_teid_2_sgw_eps_bearer_context t).
Proof. unfold s11sgw_teid_2_sgw_eps_bearer_context. moves_solve. Qed.
Lemma sgw_new_procedure_same t b : moves sgw_same (new_procedure t b).
Proof. unfold new_procedure. moves_solve. Qed.
Lemma sgw_insert_procedure_same c q : moves sgw_same (insert_procedure c q).
Proof. unfold insert_procedure. moves_solve. Qed.
Lemma sgw_remove_procedure_same c q : moves sgw_same (remove_procedure c q).
Proof. unfold remove_procedure. moves_solve. Qed.
Lemma set_body_same b q : moves sgw_same (set_body b q).
Proof. unfold set_body. moves_solve. Qed.
Lemma mark_for_removal_same q : moves sgw_same (mark_for_removal q).
Proof. unfold mark_for_removal. moves_solve. Qed.
#[export] Hint Resolve sgw_update_bearer_same generate_trxn_id_same generate_s11_fteid_same context_at_same sgw_new_procedure_same
  sgw_insert_procedure_same sgw_remove_procedure_same set_body_same mark_for_removal_same : handler.

Lemma sgw_add_eps_bearer_same p b : moves sgw_same (add_eps_bearer p b).
Proof. unfold add_eps_bearer. moves_solve. apply sgw_update_pdn_same. intros x. by case_match. Qed.
Lemma sgw_update_eps_bearer_same p m : moves sgw_same (update_eps_bearer p m).
Proof. unfold update_eps_bearer. moves_solve. Qed.
Lemma sgw_remove_ebi_same p e : moves sgw_same (remove_eps_bearer_ebi p e).
Proof. unfold remove_eps_bearer_ebi. moves_solve. Qed.
Lemma sgw_remove_eps_bearer_same p b : moves sgw_same (remove_eps_bearer p b).
Proof. unfold remove_eps_bearer. moves_solve. apply sgw_remove_ebi_same. Qed.
#[export] Hint Resolve sgw_add_eps_bearer_same sgw_update_eps_bearer_same sgw_remove_ebi_same sgw_remove_eps_bearer_same : handler.

Lemma create_bearer_same p m it : moves sgw_same (create_bearer p m it).
Proof. unfold create_bearer. moves_solve. Qed.
Lemma remove_bearer_same p m it : moves sgw_same (remove_bearer p m it).
Proof. unfold remove_bearer. moves_solve. Qed.
Lemma created_bearer_same p m it : moves sgw_same (created_bearer p m it).
Proof. unfold created_bearer. moves_solve. Qed.
Lemma removed_bearer_same p m it : moves sgw_same (removed_bearer p m it).
Proof. unfold removed_bearer. moves_solve. Qed.
Lemma sort_modified_same c m it : moves sgw_same (sort_modified c m it).
Proof. unfold sort_modified. moves_solve. Qed.
Lemma sort_removed_same c m it : moves sgw_same (sort_removed c m it).
Proof. unfold sort_removed. moves_solve. Qed.
Lemma modify_bearer_fteid_same p r it : moves sgw_same (modify_bearer_fteid p r it).
Proof. unfold modify_bearer_fteid. moves_solve. Qed.
#[export] Hint Resolve create_bearer_same remove_bearer_same created_bearer_same removed_bearer_same sort_modified_same
  sort_removed_same modify_bearer_fteid_same : handler.

Section Procedures.
Variable cfg : sgw_config.
Variable ready : Z -> bool.

Lemma send_modify_same msg l px : moves sgw_same (send_modify cfg ready msg l px).
Proof. unfold send_modify. moves_solve. Qed.
#[local] Hint Resolve send_modify_same : handler.
Lemma sgw_modify_run_same q c msg : moves sgw_same (modify_bearer_run cfg ready q c msg).
Proof. unfold modify_bearer_run. moves_solve. Qed.
Lemma answer_context_same mis sl f part done a it : (forall m, moves sgw_same (f m)) ->
  moves sgw_same (answer_context mis sl f part done a it).
Proof. unfold answer_context. moves_solve. Qed.
#[local] Hint Resolve answer_context_same : handler.
Lemma modify_answer_same p m r : moves sgw_same (modify_bearer_answer ready p m r).
Proof. unfold modify_bearer_answer. moves_solve. Qed.
#[local] Hint Resolve modify_answer_same : handler.
Lemma sgw_modify_handle_same q m resp : moves sgw_same (modify_bearer_handle ready q m resp).
Proof. unfold modify_bearer_handle. moves_solve. Qed.
Lemma send_release_same tx l kp : moves sgw_same (send_release cfg ready tx l kp).
Proof. unfold send_release. moves_solve. Qed.
#[local] Hint Resolve send_release_same : handler.
Lemma sgw_release_run_same q c msg : moves sgw_same (release_access_bearers_run cfg ready q c msg).
Proof. unfold release_access_bearers_run. moves_solve. Qed.
Lemma sgw_release_handle_same q m resp : moves sgw_same (release_access_bearers_handle ready q m resp).
Proof. unfold release_access_bearers_handle. moves_solve. Qed.
Lemma sgw_delete_run_same q c p msg : moves sgw_same (delete_session_run cfg ready q c p msg).
Proof. unfold delete_session_run. moves_solve. Qed.
Lemma notification_run_same q c p msg : moves sgw_same (downlink_data_notification_run ready q c p msg).
Proof. unfold downlink_data_notification_run. moves_solve. Qed.
Lemma notification_ack_same q ack : moves sgw_same (procedure_downlink_ack ready q ack).
Proof. unfold procedure_downlink_ack, downlink_data_notification_handle. moves_solve. Qed.
End Procedures.
#[export] Hint Resolve sgw_modify_run_same sgw_modify_handle_same sgw_release_run_same sgw_release_handle_same sgw_delete_run_same
  notification_run_same notification_ack_same : handler.

Section Requests.
Variable cfg : sgw_config.
Variable ready : Z -> bool.

Lemma context_by_teid_same c : moves sgw_same (context_by_teid c).
Proof. unfold context_by_teid. moves_solve. Qed.
#[local] Hint Resolve context_by_teid_same : handler.
Lemma delete_one_same c req p : moves sgw_same (delete_one cfg ready c req p).
Proof. unfold delete_one. moves_solve. Qed.
#[local] Hint Resolve delete_one_same : handler.
Lemma sgw_delete_request_same c req : moves sgw_same (context_delete_session_request cfg ready c req).
Proof. unfold context_delete_session_request, unless_pending, create_procedure_delete. moves_solve. Qed.
Lemma sgw_modify_request_same c req : moves sgw_same (context_modify_bearer_request cfg ready c req).
Proof. unfold context_modify_bearer_request, unless_pending, create_procedure_modify, remove_unless_ok. moves_solve. Qed.
Lemma sgw_release_request_same c req : moves sgw_same (context_release_access_bearers_request cfg ready c req).
Proof. unfold context_release_access_bearers_request, unless_pending, create_procedure_release, remove_unless_ok. moves_solve. Qed.
Lemma sgw_notification_same c m p : moves sgw_same (context_downlink_data_notification ready c m p).
Proof. unfold context_downlink_data_notification, unless_pending, create_procedure_notify, remove_unless_ok. moves_solve. Qed.
Lemma sgw_ack_same c m : moves sgw_same (context_downlink_data_notification_acknowledge ready c m).
Proof. unfold context_downlink_data_notification_acknowledge. moves_solve. Qed.
Lemma sgw_modify_response_same c m p : moves sgw_same (context_modify_bearer_response ready c m p).
Proof. unfold context_modify_bearer_response, with_procedure. moves_solve. Qed.
Lemma sgw_release_response_same c m p : moves sgw_same (context_release_access_bearers_response ready c m p).
Proof. unfold context_release_access_bearers_response, with_procedure. moves_solve. Qed.
End Requests.
#[export] Hint Resolve sgw_delete_request_same sgw_modify_request_same sgw_release_request_same sgw_notification_same sgw_ack_same
  sgw_modify_response_same sgw_release_response_same context_by_teid_same : handler.

(** ** The order map of a subscriber *)
Lemma kpdn_insert_elem k v m e : k ∉ m.*1 -> e ∈ kpdn_insert k v m <-> e = (k, v) \/ e ∈ m.
Proof.
  induction m as [|[l w] m IH]; intros Hk; cbn [kpdn_insert]; [set_solver|]. apply not_elem_of_cons in Hk as [H1 H2]. simpl in H1.
  rewrite decide_False by done. destruct (kpdn_ltb k l); [set_solver|]. rewrite !elem_of_cons, IH by done. tauto.
Qed.

Lemma kpdn_insert_NoDup k v m : k ∉ m.*1 -> NoDup m.*1 -> NoDup (kpdn_insert k v m).*1.
Proof.
  induction m as [|[l w] m IH]; intros Hk Hm; cbn [kpdn_insert]; [apply NoDup_singleton|]. apply not_elem_of_cons in Hk as [H1 H2]. simpl in H1.
  rewrite decide_False by done. destruct (kpdn_ltb k l); [by apply NoDup_cons; split; [apply not_elem_of_cons|]|].
  apply NoDup_cons in Hm as [H3 H4]. apply NoDup_cons. split; [|by apply IH].
  simpl in *. intros H. apply list_elem_of_fmap in H as (e & Ee & He). apply kpdn_insert_elem in He as [->|He]; [done| |done].
  apply H3, list_elem_of_fmap. eauto.
Qed.

Lemma kpdn_find_None k m : kpdn_find k m = None -> k ∉ m.*1.
Proof.
  unfold kpdn_find. intros H (e & -> & He)%list_elem_of_fmap. apply fmap_None in H.
  apply list_elem_of_In, (find_none _ _ H), bool_decide_eq_false in He. done.
Qed.

Lemma kpdn_erase_elem k m e : e ∈ kpdn_erase k m <-> e ∈ m /\ e.1 <> k.
Proof. unfold kpdn_erase. rewrite list_elem_of_filter. tauto. Qed.

Lemma kpdn_erase_NoDup k m : NoDup m.*1 -> NoDup (kpdn_erase k m).*1.
Proof. intros H. eapply sublist_NoDup; [apply H|]. apply fmap_sublist, sublist_filter. Qed.

(** ** The invariant *)

(** [n]: no object has this address or a higher one.  A connection whose TEID is
    zero, which [generate_s5s8_cp_teid] returns when every TEID is in use, can
    lose its entry of the table. *)
Record sgw_view_ok (V : sgw_view) (n : nat) : Prop := {
  wo_table : forall t c p, w_table V !! t = Some (c, p) ->
    exists k l, w_pdn V !! p = Some (k, t) /\ w_conns V !! c = Some l /\ (k, p) ∈ l;
  wo_conn : forall c l k p, w_conns V !! c = Some l -> (k, p) ∈ l ->
    exists t, w_pdn V !! p = Some (k, t) /\ (t <> UNASSIGNED_TEID -> w_table V !! t = Some (c, p));
  wo_keys : forall c l, w_conns V !! c = Some l -> NoDup l.*1;
  wo_bound : forall k, is_Some (w_conns V !! k) \/ is_Some (w_pdn V !! k) -> (k < n)%nat;
}.

Definition sgw_ok (s : sgw_state) : Prop := sgw_view_ok (sgw_view_of s) (next_object s).

Lemma sgw_same_ok s t : sgw_same s t -> sgw_ok s -> sgw_ok t.
Proof. unfold sgw_ok. intros (-> & Hn & _) [? ? ? Hb]. split; try done. intros k Hk. specialize (Hb k Hk). lia. Qed.

(** The abstract table: the subscriber and the key of each session. *)
Definition sessions_of (V : sgw_view) : gmap Z (nat * kpdn) :=
  omap (fun cp => x ← w_pdn V !! cp.2; Some (cp.1, x.1)) (w_table V).
Definition sgw_sessions (s : sgw_state) : gmap Z (nat * kpdn) := sessions_of (sgw_view_of s).

Lemma sessions_lookup V n t c k : sgw_view_ok V n ->
  sessions_of V !! t = Some (c, k) <-> exists p, w_table V !! t = Some (c, p) /\ w_pdn V !! p = Some (k, t).
Proof.
  intros HV. unfold sessions_of. rewrite lookup_omap, bind_Some. split.
  - intros ([c' p] & E & H). destruct (wo_table _ _ HV _ _ _ E) as (k' & l & Hp & _). simpl in H. rewrite Hp in H.
    injection H as <- <-. eauto.
  - intros (p & E & Hp). exists (c, p). split; [done|]. simpl. by rewrite Hp.
Qed.

Lemma sessions_dom V n t : sgw_view_ok V n -> sessions_of V !! t = None <-> w_table V !! t = None.
Proof.
  intros HV. unfold sessions_of. rewrite lookup_omap. destruct (w_table V !! t) as [[c p]|] eqn:E; [|done]. simpl.
  destruct (wo_table _ _ HV _ _ _ E) as (k & l & Hp & _). by rewrite Hp.
Qed.

(** A session by what leads to it. *)
Definition session (V : sgw_view) (c p : nat) (k : kpdn) (t : Z) (l : list (kpdn * nat)) : Prop :=
  w_conns V !! c = Some l /\ (k, p) ∈ l /\ w_pdn V !! p = Some (k, t).

Definition open_session_view (c p : nat) (k : kpdn) (t : Z) (l : list (kpdn * nat)) (V : sgw_view) : sgw_view :=
  mk_sgw_view (<[t := (c, p)]> (w_table V)) (<[c := kpdn_insert k p l]> (w_conns V)) (<[p := (k, t)]> (w_pdn V)).
Definition close_session_view (c : nat) (k : kpdn) (t : Z) (l : list (kpdn * nat)) (V : sgw_view) : sgw_view :=
  mk_sgw_view (delete t (w_table V)) (<[c := kpdn_erase k l]> (w_conns V)) (w_pdn V).

Section Open.
Context (V : sgw_view) (n c p : nat) (k : kpdn) (t : Z) (l : list (kpdn * nat)).
Context (HV : sgw_view_ok V n) (Hc : w_conns V !! c = Some l) (Hk : k ∉ l.*1) (Hp : (n <= p)%nat).

Lemma open_fresh_pdn : w_pdn V !! p = None.
Proof using HV Hp. apply eq_None_not_Some. intros H. pose proof (wo_bound _ _ HV p ltac:(tauto)). lia. Qed.

Lemma open_session_view_ok m : (t <> UNASSIGNED_TEID -> w_table V !! t = None) -> (p < m)%nat -> (n <= m)%nat ->
  sgw_view_ok (open_session_view c p k t l V) m.
Proof using HV Hc Hk Hp.
  intros Ht Hm Hnm. pose proof open_fresh_pdn as Np. split; simpl.
  - intros u d q [[<- [= <- <-]]|[Hu H]]%lookup_insert_Some.
    + exists k, (kpdn_insert k p l). rewrite !lookup_insert_eq. split_and!; try done. apply kpdn_insert_elem; [done|by left].
    + destruct (wo_table _ _ HV _ _ _ H) as (k' & l' & H1 & H2 & H3). assert (q <> p) by congruence.
      rewrite lookup_insert_ne by done. destruct (decide (d = c)) as [->|Hd].
      * assert (l' = l) as -> by congruence. exists k', (kpdn_insert k p l). rewrite lookup_insert_eq. split_and!; try done.
        apply kpdn_insert_elem; [done|by right].
      * exists k', l'. by rewrite lookup_insert_ne.
  - intros d l' k' q Hl Hin. assert ((d = c /\ k' = k /\ q = p) \/ exists l0, w_conns V !! d = Some l0 /\ (k', q) ∈ l0) as [(-> & -> & ->)|(l0 & E & H0)].
    { apply lookup_insert_Some in Hl as [[<- <-]|[Hd Hl]]; [|eauto]. apply kpdn_insert_elem in Hin as [[= <- <-]|Hin]; [auto|eauto|done]. }
    + exists t. by rewrite !lookup_insert_eq.
    + destruct (wo_conn _ _ HV _ _ _ _ E H0) as (u & H1 & H2). assert (q <> p) by congruence. exists u. rewrite lookup_insert_ne by done.
      split; [done|]. intros Hu. specialize (H2 Hu). rewrite lookup_insert_ne; [done|]. intros <-. specialize (Ht Hu). congruence.
  - intros d l' [[<- <-]|[_ H]]%lookup_insert_Some; [apply kpdn_insert_NoDup; [done|]|]; by eapply wo_keys.
  - intros i [H|H]; apply lookup_insert_is_Some' in H as [->|H]; try lia;
      [assert (i < n)%nat by (apply (wo_bound _ _ HV); rewrite Hc; eauto)|assert (i < n)%nat by (apply (wo_bound _ _ HV); auto)..]; lia.
Qed.

Lemma open_sessions : sessions_of (open_session_view c p k t l V) = <[t := (c, k)]> (sessions_of V).
Proof using HV Hp.
  apply map_eq. intros u. unfold sessions_of. simpl. rewrite lookup_omap. destruct (decide (u = t)) as [->|Hu].
  - rewrite !lookup_insert_eq. simpl. by rewrite lookup_insert_eq.
  - rewrite !lookup_insert_ne by done. rewrite lookup_omap. destruct (w_table V !! u) as [[d q]|] eqn:E; [|done]. simpl.
    destruct (wo_table _ _ HV _ _ _ E) as (k' & l' & H1 & _). rewrite lookup_insert_ne; [done|]. pose proof open_fresh_pdn. congruence.
Qed.

Lemma open_no_session u : sessions_of V !! u <> Some (c, k).
Proof using HV Hc Hk.
  clear Hp. intros H. apply (sessions_lookup _ n) in H as (q & E & Hq); [|done].
  destruct (wo_table _ _ HV _ _ _ E) as (k' & l' & H1 & H2 & H3). assert (l' = l) as -> by congruence. assert (k' = k) as -> by congruence.
  apply Hk, list_elem_of_fmap. by exists (k, q).
Qed.
End Open.

Section Close.
Context (V : sgw_view) (n c p : nat) (k : kpdn) (t : Z) (l : list (kpdn * nat)).
Context (HV : sgw_view_ok V n) (Hs : session V c p k t l).

Lemma same_key d q k' l' : w_conns V !! d = Some l' -> (k', q) ∈ l' -> d = c -> k' = k -> q = p.
Proof using HV Hs.
  intros H1 H2 -> ->. destruct Hs as (E & Hin & _). assert (l' = l) as -> by congruence. pose proof (wo_keys _ _ HV _ _ E) as Hn.
  apply list_elem_of_lookup in H2 as [i Hi]. apply list_elem_of_lookup in Hin as [j Hj].
  assert (i = j) as ->; [|congruence]. eapply NoDup_lookup; [done|rewrite list_lookup_fmap, Hi; done|by rewrite list_lookup_fmap, Hj].
Qed.

Lemma close_session_view_ok m : (n <= m)%nat -> sgw_view_ok (close_session_view c k t l V) m.
Proof using HV Hs.
  intros Hm. pose proof Hs as (Hl & Hin & Hp). split; simpl.
  - intros u d q [Hu H]%lookup_delete_Some. destruct (wo_table _ _ HV _ _ _ H) as (k' & l' & H1 & H2 & H3).
    destruct (decide (d = c)) as [->|Hd].
    + exists k', (kpdn_erase k l). rewrite lookup_insert_eq. split_and!; try done. assert (l' = l) as -> by congruence.
      apply kpdn_erase_elem. split; [done|]. simpl. intros ->. assert (q = p) as -> by eauto using same_key. congruence.
    + exists k', l'. by rewrite lookup_insert_ne.
  - intros d l' k' q Hl' Hq. assert (exists l0, w_conns V !! d = Some l0 /\ (k', q) ∈ l0 /\ (d = c -> k' <> k)) as (l0 & E & H0 & Hne).
    { apply lookup_insert_Some in Hl' as [[<- <-]|[Hd H]]; [|naive_solver]. apply kpdn_erase_elem in Hq as [Hq Hne]. naive_solver. }
    destruct (wo_conn _ _ HV _ _ _ _ E H0) as (u & H1 & H2). exists u. split; [done|]. intros Hu. specialize (H2 Hu).
    apply lookup_delete_Some. split; [|done]. intros <-. destruct (wo_conn _ _ HV _ _ _ _ Hl Hin) as (u' & H3 & H4).
    rewrite Hp in H3. injection H3 as <-. rewrite (H4 Hu) in H2. injection H2 as <- <-. rewrite Hp in H1. injection H1 as <-. by apply Hne.
  - intros d l' [[<- <-]|[_ H]]%lookup_insert_Some; [apply kpdn_erase_NoDup|]; by eapply wo_keys.
  - intros i Hi. cut (i < n)%nat; [lia|]. apply (wo_bound _ _ HV). destruct Hi as [H|H]; [|auto].
    apply lookup_insert_is_Some' in H as [->|H]; eauto.
Qed.

Lemma close_sessions : sessions_of (close_session_view c k t l V) = delete t (sessions_of V).
Proof.
  apply map_eq. intros u. unfold sessions_of. simpl. rewrite lookup_omap.
  destruct (decide (u = t)) as [->|Hu]; [by rewrite !lookup_delete_eq|by rewrite !lookup_delete_ne, lookup_omap].
Qed.
End Close.

(** A new subscriber has no session. *)
Lemma sgw_subscribe_ok V n c m : sgw_view_ok V n -> (n <= c)%nat -> (c < m)%nat ->
  let V' := mk_sgw_view (w_table V) (<[c := []]> (w_conns V)) (w_pdn V) in
  sgw_view_ok V' m /\ sessions_of V' = sessions_of V.
Proof.
  intros HV Hc Hm. assert (w_conns V !! c = None) as Nc.
  { apply eq_None_not_Some. intros H. pose proof (wo_bound _ _ HV c ltac:(tauto)). lia. }
  split; [|done]. split; simpl.
  - intros t d p H. destruct (wo_table _ _ HV _ _ _ H) as (k & l & H1 & H2 & H3). exists k, l. rewrite lookup_insert_ne; [done|congruence].
  - intros d l k p [[<- <-]|[_ H]]%lookup_insert_Some Hin; [by apply not_elem_of_nil in Hin|by eapply wo_conn].
  - intros d l [[<- <-]|[_ H]]%lookup_insert_Some; [constructor|by eapply wo_keys].
  - intros i [H|H]; [apply lookup_insert_is_Some' in H as [->|H]; [done|]|]; pose proof (wo_bound _ _ HV i ltac:(tauto)); lia.
Qed.

Lemma sgw_same_sessions s t : sgw_same s t -> sgw_sessions t = sgw_sessions s.
Proof. intros [H _]. unfold sgw_sessions. by rewrite H. Qed.

(** ** The directory *)

(** A subscriber has one IMSI; once it has an S11 tunnel, both tables lead to
    it, and as long as it has a session the tunnel does. *)
Record dir_ok (D : directory) (T : gmap Z (nat * kpdn)) : Prop := {
  do_inj : forall i j c, d_imsi D !! i = Some c -> d_imsi D !! j = Some c -> i = j;
  do_imsi : forall i c, d_imsi D !! i = Some c ->
    exists t n, d_names D !! c = Some (t, n) /\ (t <> UNASSIGNED_TEID -> n = i /\ d_s11 D !! t = Some c);
  do_s11 : forall t c, d_s11 D !! t = Some c -> t <> UNASSIGNED_TEID -> exists n, d_names D !! c = Some (t, n);
  do_session : forall u c k, T !! u = Some (c, k) ->
    exists t n, d_names D !! c = Some (t, n) /\ (t <> UNASSIGNED_TEID -> d_s11 D !! t = Some c);
}.

(** The tunnel of [c] leads to it. *)
Definition tunnelled (D : directory) (c : nat) : Prop :=
  exists t n, d_names D !! c = Some (t, n) /\ (t <> UNASSIGNED_TEID -> d_s11 D !! t = Some c).

Section Directory.
Context (D : directory) (T : gmap Z (nat * kpdn)) (HD : dir_ok D T).

Lemma dir_ok_sub U : U ⊆ T -> dir_ok D U.
Proof using HD.
  destruct HD as [H1 H2 H3 H4]. intros HU. split; try done. intros u c k E. eapply H4. by eapply lookup_weaken.
Qed.

Lemma dir_ok_open t c k : tunnelled D c -> dir_ok D (<[t := (c, k)]> T).
Proof using HD.
  destruct HD as [H1 H2 H3 H4]. intros Hc. split; try done. intros u c' k' [[_ [= <- <-]]|[_ E]]%lookup_insert_Some; [done|by eapply H4].
Qed.

Lemma dir_ok_subscribe i c n : d_names D !! c = None -> d_imsi D !! i = None ->
  dir_ok (mk_directory (<[i := c]> (d_imsi D)) (d_s11 D) (<[c := (UNASSIGNED_TEID, n)]> (d_names D))) T.
Proof using HD.
  destruct HD as [H1 H2 H3 H4]. intros Hc Hi.
  assert (forall j, d_imsi D !! j <> Some c) as Hfresh by (intros j Hj; destruct (H2 _ _ Hj) as (? & ? & E & _); congruence).
  split; simpl.
  - intros a b d [[<- <-]|[_ Ea]]%lookup_insert_Some [[<- E]|[_ Eb]]%lookup_insert_Some; try done; [by apply Hfresh in Eb|by subst; apply Hfresh in Ea|by eapply H1].
  - intros j d [[<- <-]|[_ Ej]]%lookup_insert_Some; [exists UNASSIGNED_TEID, n; by rewrite lookup_insert_eq|].
    destruct (H2 _ _ Ej) as (t & m & E & H). exists t, m. rewrite lookup_insert_ne by congruence. done.
  - intros t d Et Ht. destruct (H3 _ _ Et Ht) as [m E]. exists m. rewrite lookup_insert_ne by congruence. done.
  - intros u d k E. destruct (H4 _ _ _ E) as (t & m & En & H). exists t, m. rewrite lookup_insert_ne by congruence. done.
Qed.

Lemma dir_ok_tunnel t c n i : d_names D !! c = Some (UNASSIGNED_TEID, n) -> (t <> UNASSIGNED_TEID -> d_s11 D !! t = None) ->
  (forall j, d_imsi D !! j = Some c -> j = i) ->
  dir_ok (mk_directory (d_imsi D) (<[t := c]> (d_s11 D)) (<[c := (t, i)]> (d_names D))) T.
Proof using HD.
  destruct HD as [H1 H2 H3 H4]. intros Hc Ht Hi.
  assert (forall v d, v <> UNASSIGNED_TEID -> d_s11 D !! v = Some d -> <[t := c]> (d_s11 D) !! v = Some d) as Hkeep.
  { intros v d Hv E. rewrite lookup_insert_ne; [done|]. intros <-. rewrite Ht in E by done. done. }
  split; simpl; [done| | |].
  - intros j d Ej. destruct (decide (d = c)) as [->|Hd].
    + exists t, i. rewrite !lookup_insert_eq. split; [done|]. intros _. split; [by rewrite (Hi j)|done].
    + destruct (H2 _ _ Ej) as (v & m & E & H). exists v, m. rewrite lookup_insert_ne by done. split; [done|].
      intros Hv. destruct (H Hv). auto.
  - intros v d [[<- <-]|[Hv Ev]]%lookup_insert_Some Hv0; [exists i; by rewrite lookup_insert_eq|].
    destruct (H3 _ _ Ev Hv0) as [m E]. exists m. rewrite lookup_insert_ne; [done|]. intros ->. congruence.
  - intros u d k E. destruct (decide (d = c)) as [->|Hd]; [exists t, i; by rewrite !lookup_insert_eq|].
    destruct (H4 _ _ _ E) as (v & m & En & H). exists v, m. rewrite lookup_insert_ne by done. auto.
Qed.

Lemma dir_ok_forget t c n : d_names D !! c = Some (t, n) -> (t <> UNASSIGNED_TEID -> d_s11 D !! t = Some c) ->
  (forall u k, T !! u <> Some (c, k)) -> dir_ok (mk_directory (delete n (d_imsi D)) (delete t (d_s11 D)) (d_names D)) T.
Proof using HD.
  destruct HD as [H1 H2 H3 H4]. intros Hc Ht Hn.
  assert (forall v d, v <> UNASSIGNED_TEID -> d_s11 D !! v = Some d -> d <> c -> delete t (d_s11 D) !! v = Some d) as Hkeep.
  { intros v d Hv E Hd. rewrite lookup_delete_ne; [done|]. intros ->. rewrite Ht in E by done. congruence. }
  split; simpl.
  - intros a b d [_ Ea]%lookup_delete_Some [_ Eb]%lookup_delete_Some. by eapply H1.
  - intros j d [Hj Ej]%lookup_delete_Some. destruct (H2 _ _ Ej) as (v & m & E & H). exists v, m. split; [done|].
    intros Hv. destruct (H Hv) as [-> Es]. split; [done|]. apply Hkeep; [done..|]. intros ->. congruence.
  - intros v d [_ Ev]%lookup_delete_Some Hv. by apply H3.
  - intros u d k E. destruct (H4 _ _ _ E) as (v & m & En & H). exists v, m. split; [done|]. intros Hv.
    apply Hkeep; [done|by apply H|]. intros ->. by apply (Hn u k).
Qed.
End Directory.

(** Both: what every reachable state satisfies. *)
Definition sgw_dir_ok (s : sgw_state) : Prop := dir_ok (directory_of s) (sgw_sessions s).
Definition sgw_good (s : sgw_state) : Prop := sgw_ok s /\ sgw_dir_ok s.

Lemma sgw_same_dir_ok s t : sgw_same s t -> sgw_dir_ok s -> sgw_dir_ok t.
Proof. intros H. unfold sgw_dir_ok. rewrite (sgw_same_sessions _ _ H). destruct H as (_ & _ & ->). done. Qed.
Lemma sgw_same_good s t : sgw_same s t -> sgw_good s -> sgw_good t.
Proof. intros H [H1 H2]. split; [by eapply sgw_same_ok|by eapply sgw_same_dir_ok]. Qed.

(** ** Opening a session *)
Lemma teid_search_fresh fuel used d t g u : teid_search fuel used d t = Some (g, u) -> u <> UNASSIGNED_TEID -> u ∉ used.
Proof.
  revert t. induction fuel as [|fuel IH]; intros t; [done|]. cbn [teid_search]. case_decide as Hd; [|intros [= <- <-]; tauto].
  destruct (d =? u32 (t + 1)); [|apply IH]. by intros [= <- <-] ?.
Qed.

Lemma generate_s5s8_ends a s (Q : gtp_fteid -> sgw_state -> Prop) :
  (forall g t, (t <> UNASSIGNED_TEID -> s5s8lteid2sgw_contexts s !! t = None) ->
     Q (GtpAddress.mk_fteid_t 1 0 S5_S8_SGW_GTP_C t a in6addr_any) (set_teid_s5s8_cp g s)) ->
  ends (generate_s5s8_cp_fteid a) s Q.
Proof.
  intros H. apply ends_bind, ends_bind, ends_get. destruct (teid_after _ _) as [[g t]|] eqn:Et; [|by apply ends_lift].
  apply ends_bind, ends_modify, ends_ret, ends_ret, H. intros Ht. apply not_elem_of_dom. by eapply teid_search_fresh.
Qed.

(** A change of the abstract table, with the invariant. *)
Definition sgw_step (R : gmap Z (nat * kpdn) -> gmap Z (nat * kpdn) -> Prop) (s u : sgw_state) : Prop :=
  sgw_ok u /\ R (sgw_sessions s) (sgw_sessions u) /\ directory_of u = directory_of s.

(** A session of the subscriber [c] with the key [k] is opened, or none. *)
Inductive opened (c : nat) (k : kpdn) (T : gmap Z (nat * kpdn)) : gmap Z (nat * kpdn) -> Prop :=
| opened_none : opened c k T T
| opened_one t : (t <> UNASSIGNED_TEID -> T !! t = None) -> (forall u, T !! u <> Some (c, k)) -> opened c k T (<[t := (c, k)]> T).

(** The APN and the type a request is for. *)
Definition requested (req : itti_gtp_msg) : kpdn :=
  (apn_core (msg_member "apn" req), u8 (pt_pdn_type (msg_member "pdn_type" req : pdn_type_t))).

Definition maybe_closed (t : Z) (T U : gmap Z (nat * kpdn)) : Prop := U = T \/ (is_Some (T !! t) /\ U = delete t T).

Section Steps.
Context (R : gmap Z (nat * kpdn) -> gmap Z (nat * kpdn) -> Prop).

Lemma step_then_same s t u : sgw_step R s t -> sgw_same t u -> sgw_step R s u.
Proof.
  intros (H1 & H2 & H3) H. split_and!; [by eapply sgw_same_ok|by rewrite (sgw_same_sessions _ _ H)|]. destruct H as (_ & _ & ->). done.
Qed.
Lemma same_then_step s t u : sgw_same s t -> sgw_step R t u -> sgw_step R s u.
Proof.
  intros H (H1 & H2 & H3). split_and!; [done|by rewrite <- (sgw_same_sessions _ _ H)|]. destruct H as (_ & _ & <-). done.
Qed.

Lemma ends_step_same {A B} (m : sgw A) (k : A -> sgw B) s : ends m s (fun _ t => sgw_step R s t) -> (forall a, moves sgw_same (k a)) ->
  ends (m ≫= k) s (fun _ t => sgw_step R s t).
Proof. intros H Hk. apply ends_bind. intros a t E b u E2. eapply step_then_same; [by eapply H|by eapply Hk]. Qed.

Lemma ends_same_step {A B} (m : sgw A) (k : A -> sgw B) s : moves sgw_same m -> sgw_ok s ->
  (forall a t, sgw_same s t -> sgw_ok t -> ends (k a) t (fun _ u => sgw_step R t u)) -> ends (m ≫= k) s (fun _ u => sgw_step R s u).
Proof.
  intros Hm Hs Hk. apply ends_bind. intros a t E b u E2. pose proof (Hm s a t E) as Ht. apply (same_then_step s t); [exact Ht|].
  exact (Hk a t Ht (sgw_same_ok _ _ Ht Hs) b u E2).
Qed.

Lemma same_step_refl {A} (m : sgw A) s : (forall T, R T T) -> sgw_ok s -> moves sgw_same m -> ends m s (fun _ u => sgw_step R s u).
Proof.
  intros HR Hs Hm. eapply (moves_ends sgw_same); [done|]. intros _ u H. split_and!; [by eapply sgw_same_ok| |apply H].
  by rewrite (sgw_same_sessions _ _ H).
Qed.
End Steps.

(** Reading the members the view shows. *)
Lemma view_conns s c l : w_conns (sgw_view_of s) !! c = Some l -> exists z, context_heap s !! c = Some z /\ pdn_connections z = l.
Proof. simpl. rewrite lookup_fmap. intros (z & Ez & ->)%fmap_Some. eauto. Qed.
Lemma conns_view s c z : context_heap s !! c = Some z -> w_conns (sgw_view_of s) !! c = Some (pdn_connections z).
Proof. simpl. rewrite lookup_fmap. by intros ->. Qed.
Lemma view_pdn s p kt : w_pdn (sgw_view_of s) !! p = Some kt -> exists x, pdn_heap s !! p = Some x /\ shown x = kt.
Proof. simpl. rewrite lookup_fmap. intros (x & Ex & ->)%fmap_Some. eauto. Qed.
Lemma pdn_view s p x : pdn_heap s !! p = Some x -> w_pdn (sgw_view_of s) !! p = Some (shown x).
Proof. simpl. rewrite lookup_fmap. by intros ->. Qed.

Lemma find_apn_none c apn t s z : find_pdn_connection_apn c apn t s = None -> context_heap s !! c = Some z ->
  (apn, u8 (pt_pdn_type t)) ∉ (pdn_connections z).*1.
Proof. unfold find_pdn_connection_apn. intros H Ez. rewrite Ez in H. by apply kpdn_find_None. Qed.

Lemma create_session_run_step cfg ready q c msg s : sgw_ok s ->
  ends (create_session_run cfg ready q c msg) s (fun _ u => sgw_step (opened c (requested msg)) s u).
Proof.
  intros Hs. apply ends_bind, ends_get. cbv zeta.
  destruct (find_pdn_connection_apn c _ _ s) as [p|] eqn:Ef; [apply ends_ret; split_and!; [done|constructor|done]|].
  apply ends_bind. eapply (moves_ends sgw_same); [auto with handler|]. intros _ s1 H1. pose proof (sgw_same_ok _ _ H1 Hs) as Hs1.
  apply ends_bind, ends_bind, ends_gets, ends_bind, ends_modify, ends_ret, ends_bind, ends_modify.
  apply ends_bind, ends_bind, ends_bind, ends_gets, ends_deref. simpl. rewrite lookup_insert_eq. intros x [= <-].
  apply ends_bind, ends_bind, ends_gets, ends_deref. simpl. intros z Ez. apply ends_modify.
  destruct (contexts _ msg) as [|b bs]; [by apply ends_throw|].
  apply ends_bind, ends_bind, ends_bind, ends_gets, ends_deref. simpl. rewrite lookup_insert_eq. intros x [= <-]. apply ends_modify.
  apply ends_bind, generate_s5s8_ends. simpl. intros g t Ht.
  apply ends_bind, ends_bind, ends_bind, ends_gets, ends_deref. simpl. rewrite lookup_insert_eq. intros x [= <-]. apply ends_modify.
  apply ends_bind, ends_modify. match goal with |- ends _ ?u _ => set (s2 := u) end.
  eapply (moves_ends sgw_same); [moves_solve|]. intros _ u Hu. eapply step_then_same; [|apply Hu]. clear u Hu.
  apply (same_then_step _ s s1); [done|]. set (k := requested msg).
  assert (sgw_view_of s2 = open_session_view c (next_object s1) k t (pdn_connections z) (sgw_view_of s1)) as Hv.
  { unfold s2, sgw_view_of, open_session_view. simpl. by rewrite !fmap_insert, !insert_insert_eq. }
  pose proof (conns_view _ _ _ Ez) as Hz.
  assert (k ∉ (pdn_connections z).*1) as Hk.
  { destruct H1 as [H1 _]. rewrite H1 in Hz. apply view_conns in Hz as (y & Ey & <-). by eapply find_apn_none. }
  split_and!.
  - unfold sgw_ok. rewrite Hv. eapply open_session_view_ok; simpl; try done; lia.
  - unfold sgw_sessions. rewrite Hv, (open_sessions _ (next_object s1)) by (try done; lia). constructor.
    + intros Ht0. by apply (sessions_dom _ _ _ Hs1), Ht.
    + intros v. by eapply open_no_session.
  - unfold s2, directory_of. simpl. f_equal. by erewrite fmap_insert_same.
Qed.

(** ** Closing a session *)

(** Where the connections come from. *)
Lemma find_connection_session c e s p : sgw_ok s -> find_pdn_connection c e s = Some p ->
  exists k t l, session (sgw_view_of s) c p k t l.
Proof.
  intros Hs (z & Ez & H)%bind_Some. apply fmap_Some in H as ([k q] & H & ->). apply find_some in H as [Hin _].
  apply list_elem_of_In in Hin. destruct (wo_conn _ _ Hs _ _ _ _ (conns_view _ _ _ Ez) Hin) as (t & Ht & _).
  exists k, t, (pdn_connections z). split_and!; [by apply conns_view|done|done].
Qed.

Lemma table_session t c p s : sgw_ok s -> s5s8lteid2sgw_contexts s !! t = Some (c, p) ->
  exists k l, session (sgw_view_of s) c p k t l.
Proof. intros Hs H. destruct (wo_table _ _ Hs _ _ _ H) as (k & l & H1 & H2 & H3). by exists k, l. Qed.

Lemma sgw_delete_pdn_view c p k t l s : session (sgw_view_of s) c p k t l ->
  ends (delete_pdn_connection c p) s (fun _ u =>
    sgw_view_of u = close_session_view c k t l (sgw_view_of s) /\ next_object u = next_object s /\ directory_of u = directory_of s).
Proof.
  intros (Hc & Hin & Hp). apply view_conns in Hc as (z & Ez & Hz). apply view_pdn in Hp as (x & Ex & Hx). injection Hx as Hk Ht.
  apply ends_bind, ends_bind, ends_gets, ends_deref. rewrite Ex. intros x' [= <-].
  apply ends_bind, ends_modify, ends_bind, ends_bind, ends_bind, ends_gets, ends_deref. simpl. rewrite Ex. intros x' [= <-].
  apply ends_bind, ends_bind, ends_gets, ends_deref. simpl. rewrite Ez. intros z' [= <-]. apply ends_modify.
  apply ends_bind, ends_bind, ends_gets, ends_deref. simpl. rewrite Ex. intros x' [= <-]. apply ends_modify. split_and!; [|done|].
  - unfold sgw_view_of, close_session_view. simpl. rewrite fmap_insert. simpl. rewrite Hk, Ht, Hz. f_equal. by erewrite fmap_insert_same.
  - unfold directory_of. simpl. f_equal. by erewrite fmap_insert_same.
Qed.

Lemma sgw_delete_pdn_step c p k t l s : sgw_ok s -> session (sgw_view_of s) c p k t l ->
  ends (delete_pdn_connection c p) s (fun _ u => sgw_step (fun T U => U = delete t T) s u).
Proof.
  intros Hs Hses. eapply ends_mono; [|by eapply sgw_delete_pdn_view]. intros _ u (Hv & Hn & Hd). split_and!; [| |done].
  - unfold sgw_ok. rewrite Hv, Hn. by eapply (close_session_view_ok _ (next_object s)).
  - unfold sgw_sessions. rewrite Hv. apply close_sessions.
Qed.

(** A session of the table is in the abstract table. *)
Lemma sessions_table t c p s : sgw_ok s -> s5s8lteid2sgw_contexts s !! t = Some (c, p) -> is_Some (sgw_sessions s !! t).
Proof. intros Hs H. apply not_eq_None_Some. rewrite (sessions_dom _ _ _ Hs). simpl. by rewrite H. Qed.
Lemma session_table t c p k l s : sgw_ok s -> session (sgw_view_of s) c p k t l -> t <> UNASSIGNED_TEID -> is_Some (sgw_sessions s !! t).
Proof.
  intros Hs (Hc & Hin & Hp) Ht. destruct (wo_conn _ _ Hs _ _ _ _ Hc Hin) as (u & Hu & H). rewrite Hp in Hu. injection Hu as <-.
  eapply sessions_table; [done|by apply H].
Qed.

Lemma same_table s u t : sgw_same s u -> s5s8lteid2sgw_contexts u !! t = s5s8lteid2sgw_contexts s !! t.
Proof. intros [H _]. change (w_table (sgw_view_of u) !! t = w_table (sgw_view_of s) !! t). by rewrite H. Qed.

Lemma maybe_closed_refl t T : maybe_closed t T T.
Proof. by left. Qed.
#[export] Hint Resolve maybe_closed_refl opened_none : handler.

(** A step that may change the directory, too. *)
Definition sgw_turn (R : gmap Z (nat * kpdn) -> gmap Z (nat * kpdn) -> Prop) (s u : sgw_state) : Prop :=
  sgw_ok u /\ R (sgw_sessions s) (sgw_sessions u) /\ (sgw_dir_ok s -> sgw_dir_ok u).

Lemma step_turn (R : gmap Z (nat * kpdn) -> gmap Z (nat * kpdn) -> Prop) s u :
  (forall T U, R T U -> U ⊆ T) -> sgw_step R s u -> sgw_turn R s u.
Proof.
  intros HR (H1 & H2 & H3). split_and!; [done..|]. unfold sgw_dir_ok. rewrite H3. intros Hd. eapply dir_ok_sub; [done|by apply HR].
Qed.

Lemma maybe_closed_sub t T U : maybe_closed t T U -> U ⊆ T.
Proof. intros [->|[_ ->]]; [done|apply delete_subseteq]. Qed.

(** The subscriber without a connection is forgotten. *)
Lemma sgw_forget_spec c s :
  ends (forget_if_idle c) s (fun _ u => u = s \/ exists z, context_heap s !! c = Some z /\ pdn_connections z = [] /\
    sgw_view_of u = sgw_view_of s /\ next_object u = next_object s /\
    directory_of u = mk_directory (delete (named z).2 (d_imsi (directory_of s))) (delete (named z).1 (d_s11 (directory_of s))) (d_names (directory_of s))).
Proof.
  apply ends_bind, ends_bind, ends_bind, ends_gets, ends_deref. intros z Ez. apply ends_ret.
  destruct (Nat.eqb_spec (length (pdn_connections z)) 0) as [Hl|]; [|apply ends_ret; by left]. apply nil_length_inv in Hl.
  apply ends_bind, ends_bind, ends_gets, ends_deref. rewrite Ez. intros z' [= <-]. apply ends_bind, ends_modify, ends_bind, ends_modify.
  apply ends_bind, ends_bind, ends_bind, ends_gets, ends_deref. simpl. rewrite Ez. intros z' [= <-]. apply ends_modify.
  apply ends_bind, ends_bind, ends_gets, ends_deref. simpl. rewrite lookup_insert_eq. intros z' [= <-]. simpl. rewrite Hl. apply ends_ret.
  right. exists z. split_and!; [done..| |done|].
  - unfold sgw_view_of. simpl. f_equal. by erewrite fmap_insert_same.
  - unfold directory_of. simpl. f_equal. by erewrite fmap_insert_same.
Qed.

(** A subscriber without connections has no session. *)
Lemma idle_no_session s c z u k : sgw_ok s -> context_heap s !! c = Some z -> pdn_connections z = [] -> sgw_sessions s !! u <> Some (c, k).
Proof.
  intros Hs Ez Hl H. apply (sessions_lookup _ (next_object s)) in H as (p & E & Hp); [|done].
  destruct (wo_table _ _ Hs _ _ _ E) as (k' & l & _ & Hc & Hin). rewrite (conns_view _ _ _ Ez) in Hc. injection Hc as <-.
  rewrite Hl in Hin. by apply not_elem_of_nil in Hin.
Qed.

Lemma sgw_forget_turn (R : gmap Z (nat * kpdn) -> gmap Z (nat * kpdn) -> Prop) c s t :
  (sgw_dir_ok s -> tunnelled (directory_of s) c) -> (forall T U, R T U -> U ⊆ T) -> sgw_step R s t ->
  ends (forget_if_idle c) t (fun _ u => sgw_turn R s u).
Proof.
  intros Hc HR Ht. eapply ends_mono; [|apply sgw_forget_spec]. intros _ u [->|(z & Ez & Hl & Hv & Hn & Hd)]; [by apply step_turn|].
  destruct (step_turn R s t HR Ht) as (H1 & H2 & H3). destruct Ht as (_ & _ & Hdt).
  split_and!; [unfold sgw_ok; by rewrite Hv, Hn|unfold sgw_sessions; by rewrite Hv|]. intros Hs. specialize (H3 Hs). destruct (Hc Hs) as (v & m & En & Es).
  unfold sgw_dir_ok in *. unfold sgw_sessions. rewrite Hv, Hd. rewrite <- Hdt in En, Es. assert (named z = (v, m)) as Ezn.
  { simpl in En. rewrite lookup_fmap, Ez in En. change (Some (named z) = Some (v, m)) in En; congruence. }
  apply dir_ok_forget with (c := c); [exact H3|rewrite <- surjective_pairing, Ezn; exact En|rewrite Ezn; exact Es|].
  intros w k. by eapply idle_no_session.
Qed.

(** A subscriber the S5/S8 table leads to. *)
Lemma table_tunnelled s t c p : sgw_ok s -> s5s8lteid2sgw_contexts s !! t = Some (c, p) -> sgw_dir_ok s -> tunnelled (directory_of s) c.
Proof.
  intros Hs Ht Hd. destruct (wo_table _ _ Hs _ _ _ Ht) as (k & l & H1 & _ & _).
  apply (do_session _ _ Hd t c k). apply (sessions_lookup _ (next_object s)); [done|]. by exists p.
Qed.

(** A connection the table leads to is deleted. *)
Lemma delete_table_step c p t s : sgw_ok s -> s5s8lteid2sgw_contexts s !! t = Some (c, p) ->
  ends (delete_pdn_connection c p) s (fun _ u => sgw_step (maybe_closed t) s u).
Proof.
  intros Hs Ht. destruct (table_session _ _ _ _ Hs Ht) as (k & l & H). eapply ends_mono; [|by eapply sgw_delete_pdn_step].
  intros _ u (H1 & H2 & H3). split_and!; [done| |done]. right. split; [by eapply sessions_table|done].
Qed.

(** A handler that leaves the view alone. *)
Ltac stays := apply same_step_refl; [auto with handler|done|solve [moves_solve]].

Lemma delete_unless_bare_step c p t s : sgw_ok s -> s5s8lteid2sgw_contexts s !! t = Some (c, p) ->
  ends (delete_unless_bare c p) s (fun _ u => sgw_step (maybe_closed t) s u).
Proof.
  intros Hs Ht. apply ends_same_step; [auto with handler|done|]. intros x s1 H1 Hs1.
  destruct (_ =? _)%nat; [by stays|]. apply delete_table_step; [done|]. by rewrite (same_table _ _ _ H1).
Qed.

Section Responses.
Variable ready : Z -> bool.

Lemma create_session_handle_step q c p t msg resp s : sgw_ok s -> s5s8lteid2sgw_contexts s !! t = Some (c, p) ->
  ends (create_session_handle ready q c p msg resp) s (fun _ u => sgw_step (maybe_closed t) s u).
Proof.
  intros Hs Ht. apply ends_same_step; [auto with handler|done|]. intros _ s1 H1 Hs1. rewrite <- (same_table _ _ _ H1) in Ht.
  apply ends_same_step; [auto with handler|done|]. intros y s2 H2 Hs2. rewrite <- (same_table _ _ _ H2) in Ht.
  apply ends_same_step; [auto with handler|done|]. intros z s3 H3 Hs3. rewrite <- (same_table _ _ _ H3) in Ht.
  apply ends_same_step; [moves_solve|done|]. intros _ s4 H4 Hs4. rewrite <- (same_table _ _ _ H4) in Ht.
  apply ends_same_step; [moves_solve|done|]. intros m s5 H5 Hs5. rewrite <- (same_table _ _ _ H5) in Ht.
  apply ends_step_same; [|moves_solve]. destruct (has_contexts removed resp).
  - stays.
  - apply ends_step_same; [|moves_solve]. destruct (_ <=? _); [by apply delete_unless_bare_step|].
    stays.
Qed.

Lemma peer_not_responding_step q c p t ind s : sgw_ok s -> s5s8lteid2sgw_contexts s !! t = Some (c, p) ->
  ends (procedure_peer_not_responding ready q c p ind) s (fun _ u => sgw_step (maybe_closed t) s u).
Proof.
  intros Hs Ht. apply ends_same_step; [auto with handler|done|]. intros y s1 H1 Hs1. rewrite <- (same_table _ _ _ H1) in Ht.
  destruct (body y); try (stays).
  apply ends_same_step; [auto with handler|done|]. intros _ s2 H2 Hs2. rewrite <- (same_table _ _ _ H2) in Ht.
  apply ends_step_same; [by apply delete_unless_bare_step|moves_solve].
Qed.

Lemma delete_session_handle_step q c p t msg ebc resp s : sgw_ok s -> s5s8lteid2sgw_contexts s !! t = Some (c, p) ->
  ends (delete_session_handle ready q c p msg ebc resp) s (fun _ u => sgw_step (maybe_closed t) s u).
Proof.
  intros Hs Ht. apply ends_bind, ends_deref. intros own _. apply ends_same_step; [auto with handler|done|].
  intros z s1 H1 Hs1. rewrite <- (same_table _ _ _ H1) in Ht. apply ends_same_step; [auto with handler|done|].
  intros y s2 H2 Hs2. rewrite <- (same_table _ _ _ H2) in Ht. apply ends_same_step; [auto with handler|done|].
  intros _ s3 H3 Hs3. rewrite <- (same_table _ _ _ H3) in Ht. apply ends_step_same; [by apply delete_table_step|moves_solve].
Qed.

(** A response to a pending procedure. *)
Lemma with_procedure_step R c t k s : (forall T, R T T) -> sgw_ok s ->
  (forall q b u, sgw_same s u -> sgw_ok u -> ends (k q b) u (fun _ v => sgw_step R u v)) ->
  ends (with_procedure c t k) s (fun _ u => sgw_step R s u).
Proof.
  intros HR Hs Hk. apply ends_bind, ends_get. destruct (find_procedure c t s) as [q|]; [|by stays].
  apply ends_same_step; [auto with handler|done|]. intros y s1 H1 Hs1. apply ends_step_same; [by apply Hk|moves_solve].
Qed.

Lemma stays_turn t {A} (m : sgw A) s : sgw_ok s -> moves sgw_same m -> ends m s (fun _ u => sgw_turn (maybe_closed t) s u).
Proof.
  intros Hs Hm. eapply ends_mono; [|apply (same_step_refl (maybe_closed t)); [auto with handler|done|done]].
  intros a u. apply step_turn, maybe_closed_sub.
Qed.

(** The connection of a TEID is handled, and its subscriber forgotten if that
    was the last one. *)
Lemma with_contexts_turn t (k : nat -> nat -> sgw unit) s : sgw_ok s ->
  (forall c p, s5s8lteid2sgw_contexts s !! t = Some (c, p) -> ends (k c p) s (fun _ u => sgw_step (maybe_closed t) s u)) ->
  ends (with_contexts t (fun c p => _ ← k c p; forget_if_idle c)) s (fun _ u => sgw_turn (maybe_closed t) s u).
Proof.
  intros Hs H. apply ends_bind, ends_get. destruct (s5s8lteid2sgw_contexts s !! t) as [[c p]|] eqn:Et.
  - apply ends_bind. intros a v Ev. apply sgw_forget_turn; [by eapply table_tunnelled|apply maybe_closed_sub|by eapply H].
  - apply stays_turn; [done|]. moves_solve.
Qed.

Lemma create_session_response_step m s : sgw_ok s ->
  ends (create_session_response ready m) s (fun _ u => sgw_turn (maybe_closed (teid m)) s u).
Proof.
  intros Hs. unfold create_session_response. destruct (pgw_fteid_acceptable m); [|by apply stays_turn; [|moves_solve]].
  apply with_contexts_turn; [done|]. intros c p Ht.
  apply with_procedure_step; [auto with handler|done|]. intros q b u Hu Hok. destruct b; try done.
  apply create_session_handle_step; [done|]. by rewrite (same_table _ _ _ Hu).
Qed.

Lemma delete_session_response_step m s : sgw_ok s ->
  ends (delete_session_response ready m) s (fun _ u => sgw_turn (maybe_closed (teid m)) s u).
Proof.
  intros Hs. apply with_contexts_turn; [done|]. intros c p Ht.
  apply with_procedure_step; [auto with handler|done|]. intros q b u Hu Hok. destruct b; try done.
  apply delete_session_handle_step; [done|]. by rewrite (same_table _ _ _ Hu).
Qed.

Lemma remote_peer_step m s : sgw_ok s ->
  ends (remote_peer_not_responding ready m) s (fun _ u => sgw_turn (maybe_closed (l_teid m)) s u).
Proof.
  intros Hs. unfold remote_peer_not_responding. destruct (_ =? _); [by apply stays_turn; [|moves_solve]|].
  apply with_contexts_turn; [done|]. intros c p Ht.
  apply ends_bind, ends_get. destruct (find_procedure _ _ _) as [q|]; [|stays].
  apply ends_step_same; [by apply peer_not_responding_step|auto with handler].
Qed.
End Responses.

(** ** A Create Session Request *)

(** The TEID of the connection in the way of a request: the first one of the
    subscriber that has the first bearer of the request. *)
Definition in_the_way (s : sgw_state) (c : nat) (req : itti_gtp_msg) : option Z :=
  match contexts "bearer_contexts_to_be_created" req with
  | [] => None
  | b :: _ =>
    p ← find_pdn_connection c (member "eps_bearer_id" b) s;
    x ← pdn_heap s !! p;
    Some (fc_teid_gre_key (sgw_fteid_s5_s8_cp x))
  end.

(** The subscriber a request is for, and the TEID of the connection in its way.
    [None]: the request is refused or passed over.  A request with an IMSI is
    for the subscriber of the IMSI, or for a new one; one without is for the
    subscriber of its tunnel. *)
Definition asked_by (s : sgw_state) (req : itti_gtp_msg) : option (nat * option Z) :=
  let f : gtp_fteid := msg_member "sender_fteid_for_cp" req in
  if negb (fc_interface_type f =? S11_MME_GTP_C) || (fc_teid_gre_key f =? 0) ||
     (negb (teid req =? 0) && negb (is_s11c_teid_exist (teid req) s)) then None
  else
    match msg_get 0 req with
    | Some imsi =>
      if match msg_get 0 req with Some i => negb (ind_uimsi i =? 0) | None => false end then None
      else
        match imsi2sgw_eps_bearer_context s !! to_imsi64 imsi with
        | Some c => Some (c, in_the_way s c req)
        | None => Some (next_object s, None)
        end
    | None => if teid req =? 0 then None else (fun c => (c, None)) <$> s11lteid2sgw_eps_bearer_context s !! teid req
    end.

Definition without (w : option Z) (T : gmap Z (nat * kpdn)) : gmap Z (nat * kpdn) :=
  match w with Some t => delete t T | None => T end.

(** What a Create Session Request does to the table: nothing when it is not
    taken up; else the session in its way, one of the same subscriber, is
    closed, and one of this subscriber with the APN and the type of the request
    is opened, or none. *)
Definition request_done (a : option (nat * option Z)) (req : itti_gtp_msg) (T U : gmap Z (nat * kpdn)) : Prop :=
  match a with
  | None => U = T
  | Some (c, w) =>
    (forall t, w = Some t -> t <> UNASSIGNED_TEID -> exists k, T !! t = Some (c, k)) /\
    opened c (requested req) (without w T) U
  end.

(** The IMSI of a request is its member. *)
Lemma imsi_member req (i : imsi_t) : gtp_msg_kind req = CREATE_SESSION_REQUEST -> msg_get 0 req = Some i -> msg_member "imsi" req = i.
Proof.
  intros Hk. unfold msg_get, msg_ies_class, ies_get. rewrite Hk.
  assert (exists g, get_target (mc_class (gtp_class CREATE_SESSION_REQUEST)) (gv_kind (A := imsi_t)) 0 = Some (g, "imsi"%string)) as [g Hg]
    by (eexists; vm_compute; reflexivity).
  rewrite (class_get_target _ _ _ _ _ Hg). unfold slot_get, msg_member, member. simpl.
  destruct (slot_present _ _); [|done]. destruct (f_vals (msg_fields req) !! "imsi"%string) as [v|]; [|done]. simpl. by intros ->.
Qed.

Lemma in_the_way_session s c b bs req p : sgw_ok s -> contexts "bearer_contexts_to_be_created" req = b :: bs ->
  find_pdn_connection c (member "eps_bearer_id" b) s = Some p ->
  exists k t l, session (sgw_view_of s) c p k t l /\ in_the_way s c req = Some t.
Proof.
  intros Hs Eb Ef. pose proof (find_connection_session _ _ _ _ Hs Ef) as (k & t & l & Hses). exists k, t, l. split; [done|].
  destruct Hses as (_ & _ & Hp). apply view_pdn in Hp as (x & Ex & [= _ Ht]). unfold in_the_way. rewrite Eb, Ef. simpl. rewrite Ex. simpl. by rewrite Ht.
Qed.

Lemma session_entry s c p k t l : sgw_ok s -> session (sgw_view_of s) c p k t l -> t <> UNASSIGNED_TEID -> sgw_sessions s !! t = Some (c, k).
Proof.
  intros Hs (Hc & Hin & Hp) Ht. destruct (wo_conn _ _ Hs _ _ _ _ Hc Hin) as (u & Hu & H). rewrite Hp in Hu. injection Hu as <-.
  apply (sessions_lookup _ (next_object s)); [done|]. exists p. auto.
Qed.

Section Create.
Variable cfg : sgw_config.
Variable ready : Z -> bool.

(** The connection in the way is closed. *)
Definition way_cleared (c : nat) (w : option Z) (T U : gmap Z (nat * kpdn)) : Prop :=
  (forall t, w = Some t -> t <> UNASSIGNED_TEID -> exists k, T !! t = Some (c, k)) /\ U = without w T.

Lemma delete_colliding_step c req s : sgw_ok s ->
  ends (delete_colliding cfg ready c req) s (fun _ u => sgw_step (way_cleared c (in_the_way s c req)) s u).
Proof.
  intros Hs. apply ends_bind, ends_get. destruct (contexts _ req) as [|b bs] eqn:Eb.
  { assert (in_the_way s c req = None) as -> by (unfold in_the_way; by rewrite Eb).
    destruct (_ =? _); [done|]. apply same_step_refl; [by intros T; split|done|moves_solve]. }
  cbv zeta. destruct (find_pdn_connection c _ s) as [p|] eqn:Ef.
  - destruct (in_the_way_session _ _ _ _ _ _ Hs Eb Ef) as (k & t & l & Hses & ->).
    assert (t <> UNASSIGNED_TEID -> sgw_sessions s !! t = Some (c, k)) as Hent by (by apply (session_entry s c p k t l)).
    apply ends_same_step; [auto with handler|done|]. intros z s1 H1 Hs1. destruct H1 as (H1 & _). rewrite <- H1 in Hses.
    apply ends_same_step; [auto with handler|done|]. intros _ s2 H2 Hs2. destruct H2 as (H2 & _). rewrite <- H2 in Hses.
    eapply ends_mono; [|by eapply sgw_delete_pdn_step]. intros _ u (Hu & E & Hd). split_and!; [done| |done].
    split; [|done]. intros t' [= <-] Ht. exists k. unfold sgw_sessions in *. rewrite H2, H1. by apply Hent.
  - assert (in_the_way s c req = None) as -> by (unfold in_the_way; by rewrite Eb, Ef).
    apply same_step_refl; [by intros T; split|done|moves_solve].
Qed.

(** A subscriber that is set up: it has its tunnel, or gets one, with the IMSI
    of the request, by which alone it is found. *)
Definition set_up (s : sgw_state) (c : nat) (req : itti_gtp_msg) : Prop :=
  exists t n, d_names (directory_of s) !! c = Some (t, n) /\ (t <> UNASSIGNED_TEID -> d_s11 (directory_of s) !! t = Some c) /\
    (t = UNASSIGNED_TEID -> forall j, d_imsi (directory_of s) !! j = Some c -> j = to_imsi64 (msg_member "imsi" req)).

(** The subscriber of the request, with the way cleared. *)
Lemma create_session_subscriber_turn req s : sgw_good s -> gtp_msg_kind req = CREATE_SESSION_REQUEST ->
  negb (fc_interface_type (msg_member "sender_fteid_for_cp" req : gtp_fteid) =? S11_MME_GTP_C) = false ->
  (fc_teid_gre_key (msg_member "sender_fteid_for_cp" req : gtp_fteid) =? 0) = false ->
  (negb (teid req =? 0) && negb (is_s11c_teid_exist (teid req) s)) = false ->
  ends (create_session_subscriber cfg ready req) s (fun oc u => sgw_good u /\
    match oc with
    | Some c => exists w, asked_by s req = Some (c, w) /\ way_cleared c w (sgw_sessions s) (sgw_sessions u) /\ set_up u c req
    | None => asked_by s req = None /\ sgw_sessions u = sgw_sessions s
    end).
Proof.
  intros [Hs Hd] Hk E1 E2 E3. unfold asked_by. rewrite E1, E2, E3. cbn [orb].
  apply ends_bind, ends_get. destruct (msg_get 0 req : option imsi_t) as [i|] eqn:Ei.
  - pose proof (imsi_member _ _ Hk Ei) as Em.
    destruct (match msg_get 0 req with Some _ => _ | None => _ end); [by apply ends_ret|].
    destruct (imsi2sgw_eps_bearer_context s !! _) as [c|] eqn:Ec.
    + apply ends_bind. eapply ends_mono; [|by apply delete_colliding_step]. intros _ u (Hu & Hw & Hdu). apply ends_ret.
      split; [split; [done|]|].
      { unfold sgw_dir_ok. rewrite Hdu. eapply dir_ok_sub; [exact Hd|]. destruct Hw as [_ ->].
        destruct (in_the_way s c req); [apply delete_subseteq|done]. }
      eexists. split_and!; [done|exact Hw|]. unfold set_up. rewrite Hdu.
      destruct (do_imsi _ _ Hd _ _ Ec) as (t & n & En & Ht). exists t, n. split_and!; [done|by intros H; apply Ht|].
      intros _ j Ej. rewrite Em. by eapply (do_inj _ _ Hd).
    + apply ends_bind, ends_bind, ends_gets, ends_bind, ends_modify, ends_ret, ends_bind, ends_modify, ends_bind, ends_modify, ends_ret.
      destruct (sgw_subscribe_ok (sgw_view_of s) (next_object s) (next_object s) (S (next_object s)) Hs) as [H1 H2]; [lia..|].
      assert (d_names (directory_of s) !! next_object s = None) as Hn.
      { apply eq_None_not_Some. intros (tn & H). simpl in H. rewrite lookup_fmap in H. apply fmap_Some in H as (z & Ez & _).
        apply conns_view in Ez. pose proof (wo_bound _ _ Hs (next_object s) ltac:(left; eauto)). lia. }
      pose proof (dir_ok_subscribe _ _ Hd (to_imsi64 i) (next_object s) (to_imsi64 (sc_imsi sgw_eps_bearer_context_new)) Hn Ec) as HD.
      match goal with |- sgw_good ?u /\ _ => set (u' := u) end.
      assert (sgw_view_of u' = mk_sgw_view (w_table (sgw_view_of s))
        (<[next_object s := []]> (w_conns (sgw_view_of s))) (w_pdn (sgw_view_of s))) as Hv by (unfold u', sgw_view_of; simpl; by rewrite fmap_insert).
      assert (sgw_sessions u' = sgw_sessions s) as Es by (unfold sgw_sessions; by rewrite Hv, H2).
      assert (directory_of u' = mk_directory (<[to_imsi64 i := next_object s]> (d_imsi (directory_of s))) (d_s11 (directory_of s))
        (<[next_object s := (UNASSIGNED_TEID, to_imsi64 (sc_imsi sgw_eps_bearer_context_new))]> (d_names (directory_of s)))) as Hdu
        by (unfold u', directory_of; simpl; by rewrite fmap_insert).
      split; [split; [unfold sgw_ok; by rewrite Hv|unfold sgw_dir_ok; by rewrite Es, Hdu]|].
      exists None. split_and!; [done|by split|]. unfold set_up. rewrite Hdu. cbn [d_names d_imsi d_s11].
      eexists _, _. rewrite lookup_insert_eq. split_and!; [done|done|]. intros _ j [[<- _]|[_ Ej]]%lookup_insert_Some; [by rewrite Em|].
      destruct (do_imsi _ _ Hd _ _ Ej) as (t & n & En & _). congruence.
  - apply ends_ret. split; [by split|]. destruct (teid req =? 0) eqn:Et; [done|]. apply Z.eqb_neq in Et.
    destruct (s11lteid2sgw_eps_bearer_context s !! teid req) as [c|] eqn:Ec; [|done]. simpl. exists None.
    split_and!; [done|by split|]. destruct (do_s11 _ _ Hd _ _ Ec Et) as [n En]. exists (teid req), n. done.
Qed.
(** The S11 TEID of [c] leads to it, be it zero. *)
Definition leads (s : sgw_state) (c : nat) : Prop :=
  exists t n, d_names (directory_of s) !! c = Some (t, n) /\ d_s11 (directory_of s) !! t = Some c.

Lemma same_leads s u c : sgw_same s u -> leads s c -> leads u c.
Proof. intros (_ & _ & H). unfold leads. by rewrite H. Qed.

Lemma leads_tunnelled s c : leads s c -> tunnelled (directory_of s) c.
Proof. intros (t & n & H1 & H2). by exists t, n. Qed.

Lemma context_by_teid_ends c s : leads s c -> ends (context_by_teid c) s (fun d u => d = c /\ u = s).
Proof.
  intros (t & n & Hn & Ht). apply ends_bind, ends_bind, ends_gets, ends_deref. intros z Ez. simpl in Hn, Ht.
  rewrite lookup_fmap, Ez in Hn. injection Hn as Hz _. apply ends_bind, ends_get. rewrite Hz, Ht. by apply ends_ret.
Qed.

Lemma generate_s11_ends a s (Q : gtp_fteid -> sgw_state -> Prop) :
  (forall g t, (t <> UNASSIGNED_TEID -> s11lteid2sgw_eps_bearer_context s !! t = None) ->
     Q (GtpAddress.mk_fteid_t 1 0 S11_S4_SGW_GTP_C t a in6addr_any) (set_teid_s11_cp g s)) ->
  ends (generate_s11_cp_fteid a) s Q.
Proof.
  intros H. apply ends_bind, ends_bind, ends_get. destruct (teid_after _ _) as [[g t]|] eqn:Et; [|by apply ends_lift].
  apply ends_bind, ends_modify, ends_ret, ends_ret, H. intros Ht. apply not_elem_of_dom. by eapply teid_search_fresh.
Qed.

(** The first request gives the subscriber its tunnel. *)
Definition s11_tunnel (c : nat) (req : itti_gtp_msg) (f : gtp_fteid) : sgw unit :=
  g ← generate_s11_cp_fteid (s11_addr4 cfg);
  _ ← update_context c (set_sgw_fteid_s11_s4_cp g);
  _ ← set_s11sgw_teid_2_sgw_eps_bearer_context (fc_teid_gre_key g) c;
  update_context c (fun z => set_sc_imsi (msg_member "imsi" req) (set_mme_fteid_s11 f z)).

Lemma s11_tunnel_ends c req f s n : sgw_good s -> d_names (directory_of s) !! c = Some (UNASSIGNED_TEID, n) ->
  (forall j, d_imsi (directory_of s) !! j = Some c -> j = to_imsi64 (msg_member "imsi" req)) ->
  ends (s11_tunnel c req f) s (fun _ u => sgw_good u /\ sgw_sessions u = sgw_sessions s /\ leads u c).
Proof.
  intros [Hs Hd] Hn Hi. apply ends_bind, generate_s11_ends. intros g t Ht.
  apply ends_bind, ends_bind, ends_bind, ends_gets, ends_deref. simpl. intros z Ez. apply ends_modify.
  apply ends_bind, ends_modify, ends_bind, ends_bind, ends_gets, ends_deref. simpl. rewrite lookup_insert_eq. intros z' [= <-].
  apply ends_modify. match goal with |- sgw_good ?u /\ _ => set (u' := u) end.
  assert (sgw_view_of u' = sgw_view_of s) as Hv.
  { unfold u', sgw_view_of. simpl. f_equal. rewrite insert_insert_eq. by erewrite fmap_insert_same. }
  assert (directory_of u' = mk_directory (d_imsi (directory_of s)) (<[t := c]> (d_s11 (directory_of s)))
    (<[c := (t, to_imsi64 (msg_member "imsi" req))]> (d_names (directory_of s)))) as Hdu.
  { unfold u', directory_of. simpl. by rewrite insert_insert_eq, fmap_insert. }
  assert (sgw_sessions u' = sgw_sessions s) as Es by (unfold sgw_sessions; by rewrite Hv).
  split_and!; [split|done|].
  - unfold sgw_ok. by rewrite Hv.
  - unfold sgw_dir_ok. rewrite Es, Hdu. by eapply dir_ok_tunnel.
  - unfold leads. rewrite Hdu. cbn [d_names d_s11]. exists t. eexists. by rewrite !lookup_insert_eq.
Qed.

(** A session of [c] with the key of the request is opened, or none. *)
Definition session_opened (c : nat) (req : itti_gtp_msg) (s u : sgw_state) : Prop :=
  sgw_good u /\ opened c (requested req) (sgw_sessions s) (sgw_sessions u).

Lemma opened_good c req s u : sgw_dir_ok s -> leads s c -> sgw_step (opened c (requested req)) s u -> session_opened c req s u.
Proof.
  intros Hd Hc (H1 & H2 & H3). split; [|done]. split; [done|]. unfold sgw_dir_ok. rewrite H3.
  destruct H2 as [|t _ _]; [done|]. apply dir_ok_open; [done|by apply leads_tunnelled].
Qed.

Lemma create_procedure_create_opens c req s : sgw_good s -> leads s c ->
  ends (create_procedure_create cfg ready c req) s (fun _ u => session_opened c req s u).
Proof.
  intros [Hs Hd] Hc. eapply ends_mono; [intros a u; by apply opened_good|].
  apply ends_same_step; [auto with handler|done|]. intros q s1 H1 Hs1. apply ends_same_step; [auto with handler|done|].
  intros _ s2 H2 Hs2. assert (leads s2 c) as Hc2 by eauto using same_leads.
  apply ends_bind. eapply ends_mono; [|by apply context_by_teid_ends]. intros d u [-> ->].
  apply ends_step_same; [by apply create_session_run_step|moves_solve].
Qed.

Lemma context_create_session_opens c req s : sgw_good s -> set_up s c req ->
  ends (context_create_session_request cfg ready c req) s (fun _ u => session_opened c req s u).
Proof.
  intros Hs (t & n & Hn & Ht & Hi). apply ends_bind, ends_bind, ends_gets, ends_deref. intros z Ez. cbv zeta.
  assert (named z = (t, n)) as Hz by (simpl in Hn; rewrite lookup_fmap, Ez in Hn; change (Some (named z) = Some (t, n)) in Hn; congruence). injection Hz as Hzt _. rewrite Hzt.
  apply ends_bind. destruct (Z.eqb_spec t UNASSIGNED_TEID) as [->|Hne].
  - eapply ends_mono; [|by apply (s11_tunnel_ends c req _ s n); [..|apply Hi]]. intros _ u (Hu & Es & Hc).
    eapply ends_mono; [|by apply create_procedure_create_opens]. intros _ v [Hv Ho]. split; [done|]. by rewrite <- Es.
  - assert (leads s c) as Hc by (exists t, n; split; [done|by apply Ht]).
    match goal with |- ends ?m _ _ => assert (moves sgw_same m) as Hm by moves_solve end.
    eapply (moves_ends sgw_same); [exact Hm|]. intros _ u Hu.
    eapply ends_mono; [|apply create_procedure_create_opens; [by eapply sgw_same_good|by eapply same_leads]].
    intros _ v [Hv Ho]. split; [done|]. by rewrite <- (sgw_same_sessions _ _ Hu).
Qed.

Lemma sgw_create_session_request_turn req s : sgw_good s -> gtp_msg_kind req = CREATE_SESSION_REQUEST ->
  ends (create_session_request cfg ready req) s (fun _ u => sgw_good u /\ request_done (asked_by s req) req (sgw_sessions s) (sgw_sessions u)).
Proof.
  intros Hs Hk. apply ends_bind, ends_get. cbv zeta.
  assert (forall m : sgw unit, asked_by s req = None -> moves sgw_same m ->
    ends m s (fun _ u => sgw_good u /\ request_done (asked_by s req) req (sgw_sessions s) (sgw_sessions u))) as Hstay.
  { intros m -> Hm. eapply (moves_ends sgw_same); [exact Hm|]. intros _ u Hu. split; [by eapply sgw_same_good|by apply sgw_same_sessions]. }
  unfold send_create_session_response_cause.
  destruct (negb (_ =? S11_MME_GTP_C)) eqn:E1; [apply Hstay; [unfold asked_by; by rewrite E1|moves_solve]|].
  destruct (_ =? 0) eqn:E2; [apply Hstay; [unfold asked_by; by rewrite E1, E2|moves_solve]|].
  destruct (negb _ && negb _) eqn:E3; [apply Hstay; [unfold asked_by; by rewrite E1, E2, E3|moves_solve]|].
  apply ends_bind. eapply ends_mono; [|by apply create_session_subscriber_turn]. intros [c|] u [Hu H].
  - destruct H as (w & -> & [Hw Eu] & Hset). eapply ends_mono; [|by apply context_create_session_opens].
    intros _ v [Hv Ho]. split; [done|]. split; [done|]. by rewrite <- Eu.
  - destruct H as [-> Eu]. by apply ends_ret.
Qed.
End Create.

(** ** Every message is a step of the table of sessions *)

(** The TEID whose session a message may close. *)
Definition closing (m : sgw_msg) : option Z :=
  match m with
  | S5S8_CREATE_SESSION_RESPONSE m | S5S8_DELETE_SESSION_RESPONSE m => Some (teid m)
  | S5S8_REMOTE_PEER_NOT_RESPONDING m => Some (l_teid m)
  | _ => None
  end.

(** One message.  [a]: what a Create Session Request asks for, from the state it
    arrives in. *)
Inductive session_step (a : option (nat * option Z)) : sgw_msg -> gmap Z (nat * kpdn) -> gmap Z (nat * kpdn) -> Prop :=
| session_creates m T U : request_done a m T U -> session_step a (S11_CREATE_SESSION_REQUEST m) T U
| session_stays m T : (forall r, m <> S11_CREATE_SESSION_REQUEST r) -> session_step a m T T
| session_closes m t T : closing m = Some t -> is_Some (T !! t) -> session_step a m T (delete t T).

(** What a message asks for. *)
Definition asks (s : sgw_state) (m : sgw_msg) : option (nat * option Z) :=
  match m with
  | S11_CREATE_SESSION_REQUEST m => if decide (gtp_msg_kind m = CREATE_SESSION_REQUEST) then asked_by s m else None
  | _ => None
  end.

Lemma closes_turn a s m t u : closing m = Some t -> (forall r, m <> S11_CREATE_SESSION_REQUEST r) -> sgw_good s ->
  sgw_turn (maybe_closed t) s u -> sgw_good u /\ session_step a m (sgw_sessions s) (sgw_sessions u).
Proof.
  intros Hm Hr [_ Hd] (H1 & H2 & H3). split; [split; auto|]. destruct H2 as [->|[H ->]]; by constructor.
Qed.

(** Every message keeps the invariant and is a step of the table. *)
Lemma sgwc_app_task_good cfg ready m s : sgw_good s ->
  ends (sgwc_app_task cfg ready m) s (fun _ u => sgw_good u /\ session_step (asks s m) m (sgw_sessions s) (sgw_sessions u)).
Proof.
  intros Hs. assert (forall h : sgw unit, moves sgw_same h -> (forall r, m = S11_CREATE_SESSION_REQUEST r -> asks s m = None) ->
    ends h s (fun _ u => sgw_good u /\ session_step (asks s m) m (sgw_sessions s) (sgw_sessions u))) as Hsame.
  { intros h Hh Hm. eapply (moves_ends sgw_same); [exact Hh|]. intros _ u Hu. split; [by eapply sgw_same_good|].
    rewrite (sgw_same_sessions _ _ Hu). destruct m; try by apply session_stays. rewrite (Hm _ eq_refl). by apply session_creates. }
  assert (moves sgw_same (mret tt : sgw unit)) as Hret by moves_solve.
  destruct m as [m|m|m|m|m|m|m|m|m|m|m|m]; cbn [sgwc_app_task]; try by apply Hsame.
  all: unfold cast; case_decide as Hk; [|apply Hsame; [done|]; intros r [= <-]; unfold asks; by rewrite decide_False].
  - eapply ends_mono; [|by apply create_session_response_step; apply Hs]. intros [] u. by apply closes_turn.
  - eapply ends_mono; [|by apply delete_session_response_step; apply Hs]. intros [] u. by apply closes_turn.
  - apply Hsame; [|done]. unfold downlink_data_notification, with_contexts. moves_solve.
  - apply Hsame; [|done]. unfold modify_bearer_response, with_contexts. moves_solve.
  - apply Hsame; [|done]. unfold release_access_bearers_response, with_contexts. moves_solve.
  - eapply ends_mono; [|by apply remote_peer_step; apply Hs]. intros [] u. by apply closes_turn.
  - eapply ends_mono; [|by apply sgw_create_session_request_turn]. intros [] u [Hu H]. split; [done|]. unfold asks.
    rewrite decide_True by done. by apply session_creates.
  - apply Hsame; [|done]. unfold delete_session_request, with_subscriber. moves_solve.
  - apply Hsame; [|done]. unfold downlink_data_notification_acknowledge, with_subscriber. moves_solve.
  - apply Hsame; [|done]. unfold modify_bearer_request, with_subscriber. moves_solve.
  - apply Hsame; [|done]. unfold release_access_bearers_request, with_subscriber. moves_solve.
Qed.

Lemma sgwc_app_init_ok : sgw_ok sgwc_app_init.
Proof.
  split; simpl.
  - intros t c p. by rewrite lookup_empty.
  - intros c l k p. by rewrite fmap_empty, lookup_empty.
  - intros c l. by rewrite fmap_empty, lookup_empty.
  - intros k. rewrite !fmap_empty, !lookup_empty. by intros [[? ?]|[? ?]].
Qed.

Lemma sgwc_app_init_good : sgw_good sgwc_app_init.
Proof.
  split; [apply sgwc_app_init_ok|]. split; simpl; intros *; rewrite ?fmap_empty, ?lookup_empty; try done.
Qed.

(** ** Runs *)
Inductive session_run : list sgw_msg -> gmap Z (nat * kpdn) -> gmap Z (nat * kpdn) -> Prop :=
| session_run_nil T : session_run [] T T
| session_run_cons a m l T T1 T2 : session_step a m T T1 -> session_run l T1 T2 -> session_run (m :: l) T T2.

Lemma sgw_run_good cfg s l u : sgw_run cfg s l u -> sgw_good s -> sgw_good u /\ session_run l (sgw_sessions s) (sgw_sessions u).
Proof.
  induction 1 as [s|s ready m t l u Hm _ IH]; intros Hs; [split; [done|constructor]|].
  destruct (sgwc_app_task_good cfg ready m s Hs tt t Hm) as [Ht Hstep]. destruct (IH Ht) as [Hu Hrun]. split; [done|]. by econstructor.
Qed.
