(* ===== verification/SgwSpec.v ===== *)
(** * What the SGW does with a session

    The life of a session at the SGW: the TEIDs it gets, the request to the PGW,
    the answers to the MME, and its end.  Each theorem on a handler says that it
    returns, what it sends and what it leaves in the state. *)
From S2P Require Import Prelude UidGenerator PaaDynamic Pco Itti UpNodes GtpTlv GtpScalar GtpIdentity GtpQos GtpLocation GtpAddress GtpOptions Container GtpContainer GtpMessages Handler AppMsg SgwContext SgwProcedure SgwApp SgwExample SgwLaws.
From Stdlib Require Import ZArith Lia String.
From stdpp Require Import base numbers tactics sets list strings gmap.
Open Scope Z_scope.

Set Warnings "-register-all".

(** ** Local TEIDs *)

(** The search from the [i]-th TEID after the generator [d], all before it being
    in use or zero. *)
Lemma teid_search_spec used d fuel : forall i, 0 <= d < 2 ^ 32 ->
  match teid_search fuel used d (u32 (d + 1 + Z.of_nat i)) with
  | Some (g, t) =>
    (g = t /\ 0 < t < 2 ^ 32 /\ t ∉ used) \/
    (g = d /\ t = UNASSIGNED_TEID /\ exists j, (i <= j)%nat /\ u32 (d + 2 + Z.of_nat j) = d /\
       forall k, (i <= k <= j)%nat -> u32 (d + 1 + Z.of_nat k) ∈ used \/ u32 (d + 1 + Z.of_nat k) = UNASSIGNED_TEID)
  | None => forall k, (i <= k < i + fuel)%nat ->
      (u32 (d + 1 + Z.of_nat k) ∈ used \/ u32 (d + 1 + Z.of_nat k) = UNASSIGNED_TEID) /\ u32 (d + 2 + Z.of_nat k) <> d
  end.
Proof.
  induction fuel as [|fuel IH]; intros i Hd; cbn [teid_search]; [intros k ?; lia|].
  case_decide as Hu.
  - rewrite wrapu_succ. replace (d + 1 + Z.of_nat i + 1) with (d + 2 + Z.of_nat i) by lia.
    destruct (Z.eqb_spec d (u32 (d + 2 + Z.of_nat i))) as [E|E].
    + right. split; [done|]. split; [done|]. exists i. split_and!; [lia|done|]. intros k Hk. by replace k with i by lia.
    + specialize (IH (S i) Hd). replace (d + 1 + Z.of_nat (S i)) with (d + 2 + Z.of_nat i) in IH by lia.
      destruct (teid_search _ _ _ _) as [[g t]|].
      * destruct IH as [|(H1 & H2 & j & H3 & H4 & H5)]; [by left|]. right. split_and!; try done. exists j. split_and!; [lia|done|].
        intros k Hk. destruct (decide (k = i)) as [->|]; [done|]. apply H5. lia.
      * intros k Hk. destruct (decide (k = i)) as [->|]; [done|]. apply IH. lia.
  - left. pose proof (wrapu_fits 32 (d + 1 + Z.of_nat i) ltac:(lia)) as Hf. unfold fits in Hf. unfold UNASSIGNED_TEID in Hu.
    split; [done|]. split; [|tauto]. assert (u32 (d + 1 + Z.of_nat i) <> 0) by tauto. lia.
Qed.

(** The place of a TEID in the search. *)
Lemma teid_place d u : 0 <= d < 2 ^ 32 -> 0 <= u < 2 ^ 32 -> u <> d ->
  exists k, u = u32 (d + 1 + Z.of_nat k) /\ Z.of_nat k + 1 < 2 ^ 32.
Proof.
  intros Hd Hu Hne. exists (Z.to_nat ((u - d - 1) mod 2 ^ 32)). pose proof (Z.mod_pos_bound (u - d - 1) (2 ^ 32) ltac:(lia)) as Hb.
  rewrite Z2Nat.id by lia. unfold wrapu. rewrite Zplus_mod_idemp_r. replace (d + 1 + (u - d - 1)) with u by lia.
  split; [by rewrite Z.mod_small|]. destruct (decide ((u - d - 1) mod 2 ^ 32 = 2 ^ 32 - 1)) as [E|]; [|lia]. exfalso.
  assert ((u - d) mod 2 ^ 32 = 0) as E2.
  { replace (u - d) with ((u - d - 1) + 1) by lia. rewrite Zplus_mod, E. reflexivity. }
  apply Z.mod_divide in E2 as [q Hq]; [|lia]. nia.
Qed.

(** The search for a TEID of the SGW always ends, whatever the table: it
    returns a TEID that is not zero and not in use, and leaves the generator
    there; or it returns zero, and then every TEID but the one the generator is
    at is in use. *)
Theorem teid_after_total used d : 0 <= d < 2 ^ 32 ->
  exists g t, teid_after used d = Some (g, t) /\
    ((g = t /\ 0 < t < 2 ^ 32 /\ t ∉ used) \/
     (g = d /\ t = UNASSIGNED_TEID /\ forall u, 0 < u < 2 ^ 32 -> u <> d -> u ∈ used)).
Proof.
  intros Hd. pose proof (teid_search_spec used d (2 + size used) 0 Hd) as H. rewrite Z.add_0_r in H. unfold teid_after.
  destruct (teid_search _ _ _ _) as [[g t]|].
  - exists g, t. split; [done|]. destruct H as [|(-> & -> & j & _ & Hj & H)]; [by left|]. right. split_and!; try done.
    intros u Hu Hne. destruct (teid_place d u Hd ltac:(lia) Hne) as (k & -> & Hk). destruct (H k) as [|E]; [|done|unfold UNASSIGNED_TEID in E; lia].
    split; [lia|]. destruct (decide (k <= j)%nat) as [|Hkj]; [done|]. exfalso. unfold wrapu in Hj.
    assert ((2 + Z.of_nat j) mod 2 ^ 32 = 0) as E2.
    { apply Z.mod_divide; [lia|]. pose proof (Z.div_mod (d + 2 + Z.of_nat j) (2 ^ 32) ltac:(lia)).
      exists ((d + 2 + Z.of_nat j) / 2 ^ 32). lia. }
    rewrite Z.mod_small in E2; lia.
  - exfalso. assert (forall u, 0 < u < 2 ^ 32 -> u ∈ used) as Hall.
    { apply (candidates_full used d). intros u Hu. apply list_elem_of_fmap in Hu as (i & -> & Hi%elem_of_seq). apply H. lia. }
    set (N := Z.to_nat (2 ^ 32 - 1)). assert (Z.of_nat N = 2 ^ 32 - 1) as HN by (unfold N; lia). clearbody N.
    assert (N <= size used)%nat as Hsize.
    { assert (list_to_set (C := gset Z) (UidGenerator.candidates 32 0 N) ⊆ used) as Hs%subseteq_size.
      { intros v Hv. apply elem_of_list_to_set, list_elem_of_fmap in Hv as (i & -> & Hi%elem_of_seq). apply Hall.
        unfold wrapu. rewrite Z.mod_small; lia. }
      rewrite size_list_to_set in Hs by (apply candidates_NoDup; lia). unfold UidGenerator.candidates in Hs. by rewrite length_fmap, length_seq in Hs. }
    destruct (H (N - 1)%nat) as [_ Hn]; [lia|]. apply Hn. unfold wrapu. replace (d + 2 + Z.of_nat (N - 1)) with (d + 1 * 2 ^ 32) by lia.
    rewrite Z.mod_add by lia. by apply Z.mod_small.
Qed.

Lemma teid_after_total_witness : exists g t, teid_after {[1; 2; 4]} 0 = Some (g, t) /\
  ((g = t /\ 0 < t < 2 ^ 32 /\ t ∉ ({[1; 2; 4]} : gset Z)) \/
   (g = 0 /\ t = UNASSIGNED_TEID /\ forall u, 0 < u < 2 ^ 32 -> u <> 0 -> u ∈ ({[1; 2; 4]} : gset Z))).
Proof. apply teid_after_total. lia. Defined.

(** ** Runs of the SGW *)
Definition sgw_state_after (l : list sgw_msg) : sgw_state := match sgw_after l with Val (_, s) => s | _ => sgwc_app_init end.
Definition sgw_ended {A} (r : result pco_exn A) : bool := match r with Val _ => true | _ => false end.

Lemma sgw_all_run l s u : sgw_all l s = Val (tt, u) -> sgw_run demo_sgw_cfg s l u.
Proof.
  revert s. induction l as [|m l IH]; intros s; [intros [= <-]; constructor|]. cbn [sgw_all]. cbv [mbind handler_bind].
  destruct (sgwc_app_task demo_sgw_cfg all_ready m s) as [[[] t]| | |] eqn:E; try done. intros H. by econstructor; [|apply IH].
Qed.

Lemma sgw_after_run l : sgw_ended (sgw_after l) = true -> sgw_run demo_sgw_cfg sgwc_app_init l (sgw_state_after l).
Proof. unfold sgw_state_after. destruct (sgw_after l) as [[[] s]| | |] eqn:E; try discriminate. intros _. by apply sgw_all_run. Qed.

Lemma sgw_after_ok l : sgw_ok (sgw_state_after l).
Proof.
  unfold sgw_state_after. destruct (sgw_after l) as [[[] s]| | |] eqn:E; try apply sgwc_app_init_ok.
  by apply (sgw_run_good _ _ _ _ (sgw_all_run _ _ _ E)), sgwc_app_init_good.
Qed.



(** C17 In every state the SGW reaches its tables of subscribers agree: an IMSI
    leads to a subscriber that no other IMSI leads to; once the subscriber has
    an S11 TEID, it has this IMSI, and the TEID leads to it; and a subscriber
    an S11 TEID leads to has this TEID; and the subscriber of an S5/S8 TEID is
    found under its S11 TEID.  (The TEID zero, of a subscriber that
    has none yet or for which the search found none, is excepted.) *)
Theorem sgw_directory_agrees cfg l s : sgw_run cfg sgwc_app_init l s ->
  (forall i j c, imsi2sgw_eps_bearer_context s !! i = Some c -> imsi2sgw_eps_bearer_context s !! j = Some c -> i = j) /\
  (forall i c, imsi2sgw_eps_bearer_context s !! i = Some c -> exists z, context_heap s !! c = Some z /\
    (fc_teid_gre_key (sgw_fteid_s11_s4_cp z) <> UNASSIGNED_TEID ->
     to_imsi64 (sc_imsi z) = i /\ s11lteid2sgw_eps_bearer_context s !! fc_teid_gre_key (sgw_fteid_s11_s4_cp z) = Some c)) /\
  (forall t c, s11lteid2sgw_eps_bearer_context s !! t = Some c -> t <> UNASSIGNED_TEID ->
    exists z, context_heap s !! c = Some z /\ fc_teid_gre_key (sgw_fteid_s11_s4_cp z) = t) /\
  (forall t c p, s5s8lteid2sgw_contexts s !! t = Some (c, p) -> exists z, context_heap s !! c = Some z /\
    (fc_teid_gre_key (sgw_fteid_s11_s4_cp z) <> UNASSIGNED_TEID ->
     s11lteid2sgw_eps_bearer_context s !! fc_teid_gre_key (sgw_fteid_s11_s4_cp z) = Some c)).
Proof.
  intros H. destruct (sgw_run_good _ _ _ _ H sgwc_app_init_good) as [[Hs Hd] _]. clear H.
  assert (forall c t n, d_names (directory_of s) !! c = Some (t, n) -> exists z, context_heap s !! c = Some z /\
    fc_teid_gre_key (sgw_fteid_s11_s4_cp z) = t /\ to_imsi64 (sc_imsi z) = n) as Hn.
  { intros c t n E. simpl in E. rewrite lookup_fmap in E. apply fmap_Some in E as (z & Ez & [= -> ->]). by exists z. }
  split_and!.
  - apply (do_inj _ _ Hd).
  - intros i c E. destruct (do_imsi _ _ Hd _ _ E) as (t & n & (z & Ez & <- & <-)%Hn & Ht). by exists z.
  - intros t c E Ht. destruct (do_s11 _ _ Hd _ _ E Ht) as (n & (z & Ez & Hz & _)%Hn). by exists z.
  - intros t c p E. destruct (table_tunnelled _ _ _ _ Hs E Hd) as (v & n & (z & Ez & <- & _)%Hn & Hv). by exists z.
Qed.

Lemma sgw_directory_agrees_witness : let s := sgw_state_after sgw_attach in
  (exists c, imsi2sgw_eps_bearer_context s !! to_imsi64 (sc_imsi (default sgw_eps_bearer_context_new (context_heap s !! 0%nat))) = Some c) /\
  forall t c, s11lteid2sgw_eps_bearer_context s !! t = Some c -> t <> UNASSIGNED_TEID ->
    exists z, context_heap s !! c = Some z /\ fc_teid_gre_key (sgw_fteid_s11_s4_cp z) = t.
Proof.
  split; [exists 0%nat; vm_compute; reflexivity|].
  apply (sgw_directory_agrees demo_sgw_cfg sgw_attach). apply sgw_after_run. vm_compute. reflexivity.
Defined.

(** C16 In every state the SGW reaches the S5/S8 table and the connections of the
    subscribers agree: a TEID leads to a connection exactly when a subscriber
    has it and it has this TEID; each connection is filed under its own APN and
    type, and a subscriber has at most one of each. *)
Theorem sgw_tables_agree cfg l s : sgw_run cfg sgwc_app_init l s ->
  (forall t c p, t <> UNASSIGNED_TEID -> s5s8lteid2sgw_contexts s !! t = Some (c, p) <->
    exists z k x, context_heap s !! c = Some z /\ (k, p) ∈ pdn_connections z /\ pdn_heap s !! p = Some x /\
      fc_teid_gre_key (sgw_fteid_s5_s8_cp x) = t) /\
  (forall c z, context_heap s !! c = Some z -> NoDup (pdn_connections z).*1 /\
    forall k p, (k, p) ∈ pdn_connections z -> exists x, pdn_heap s !! p = Some x /\ kpdn_of x = k).
Proof.
  intros H. assert (sgw_ok s) as Hs by apply (sgw_run_good _ _ _ _ H sgwc_app_init_good). clear H. split.
  - intros t c p Ht. split.
    + intros (k & l' & H1 & H2 & H3)%(wo_table _ _ Hs). apply view_pdn in H1 as (x & Ex & [= _ Hx]). apply view_conns in H2 as (z & Ez & <-).
      by exists z, k, x.
    + intros (z & k & x & Ez & Hin & Ex & <-). destruct (wo_conn _ _ Hs _ _ _ _ (conns_view _ _ _ Ez) Hin) as (u & Hu & HT).
      rewrite (pdn_view _ _ _ Ex) in Hu. injection Hu as _ <-. by apply HT.
  - intros c z Ez. split; [by apply (wo_keys _ _ Hs c), conns_view|]. intros k p Hin.
    destruct (wo_conn _ _ Hs _ _ _ _ (conns_view _ _ _ Ez) Hin) as (u & (x & Ex & [= Hx _])%view_pdn & _). eauto.
Qed.

Lemma sgw_tables_agree_witness : let s := sgw_state_after sgw_attach in
  s5s8lteid2sgw_contexts s !! 1 = Some (0%nat, 2%nat) <->
  exists z k x, context_heap s !! 0%nat = Some z /\ (k, 2%nat) ∈ pdn_connections z /\ pdn_heap s !! 2%nat = Some x /\
      fc_teid_gre_key (sgw_fteid_s5_s8_cp x) = 1.
Proof. apply (sgw_tables_agree demo_sgw_cfg sgw_attach); [apply sgw_after_run; vm_compute; reflexivity|done]. Defined.

(** ** Reading objects *)
Lemma sgw_get_pdn_returns p s x (Q : sgw_pdn_connection -> sgw_state -> Prop) : pdn_heap s !! p = Some x -> Q x s -> returns (get_pdn p) s Q.
Proof. intros E H. apply returns_bind, returns_gets. by eapply returns_deref. Qed.
Lemma sgw_get_bearer_returns b s y (Q : sgw_eps_bearer -> sgw_state -> Prop) : bearer_heap s !! b = Some y -> Q y s -> returns (get_bearer b) s Q.
Proof. intros E H. apply returns_bind, returns_gets. by eapply returns_deref. Qed.
Lemma sgw_get_context_returns c s z (Q : sgw_eps_bearer_context -> sgw_state -> Prop) : context_heap s !! c = Some z -> Q z s -> returns (get_context c) s Q.
Proof. intros E H. apply returns_bind, returns_gets. by eapply returns_deref. Qed.
Lemma sgw_get_procedure_returns q s y (Q : sebc_procedure -> sgw_state -> Prop) : procedure_heap s !! q = Some y -> Q y s -> returns (get_procedure q) s Q.
Proof. intros E H. apply returns_bind, returns_gets. by eapply returns_deref. Qed.

(** An object is read where the heap is known. *)
Ltac read_with L := eapply L; [simpl; rewrite ?lookup_insert_eq; eassumption || reflexivity|].
Ltac read_context := read_with sgw_get_context_returns.
Ltac read_pdn := read_with sgw_get_pdn_returns.
Ltac read_procedure := read_with sgw_get_procedure_returns.
Ltac read_bearer := read_with sgw_get_bearer_returns.

(** ** The end of a session *)

(** The subscriber [c], whose procedures are over, is forgotten when it has no
    connection. *)
Definition forgotten (c : nat) (z : sgw_eps_bearer_context) (s s' : sgw_state) : Prop :=
  sent_by_sgw s' = sent_by_sgw s /\ s5s8lteid2sgw_contexts s' = s5s8lteid2sgw_contexts s /\
  match pdn_connections z with
  | [] =>
    context_heap s' = <[c := set_pending_procedures [] z]> (context_heap s) /\
    imsi2sgw_eps_bearer_context s' = delete (to_imsi64 (sc_imsi z)) (imsi2sgw_eps_bearer_context s) /\
    s11lteid2sgw_eps_bearer_context s' = delete (fc_teid_gre_key (sgw_fteid_s11_s4_cp z)) (s11lteid2sgw_eps_bearer_context s)
  | _ => s' = s
  end.

Lemma forget_if_idle_returns c z s : context_heap s !! c = Some z -> returns (forget_if_idle c) s (fun _ s' => forgotten c z s s').
Proof.
  intros Ez. apply returns_bind, returns_bind. read_context. apply returns_ret. unfold forgotten.
  destruct (pdn_connections z) as [|e l] eqn:El; simpl; [|by apply returns_ret].
  apply returns_bind. read_context. apply returns_bind, returns_modify, returns_bind, returns_modify.
  apply returns_bind, returns_bind. read_context. apply returns_modify, returns_bind. read_context. simpl. rewrite El. by apply returns_ret.
Qed.

Section Deletion.
Context (ready : Z -> bool) (m : itti_gtp_msg) (s : sgw_state) (c p q d : nat) (tx : Z) (b : bool) (msg : itti_gtp_msg).
Context (z : sgw_eps_bearer_context) (x : sgw_pdn_connection).

(** The response the MME gets. *)
Definition s11_delete_session_response : itti_gtp_msg :=
  msg_forward gtp_cause m (gtp_address tx (fc_teid_gre_key (mme_fteid_s11 z)) (r_endpoint msg) (new_gtp_msg DELETE_SESSION_RESPONSE)).

(** C8 When the PGW answers the deletion of a session, whatever its cause: the
    MME gets a response with the cause, on its tunnel, in its transaction; the
    TEID leads nowhere any more; the subscriber has lost the connection and
    nothing else; when it was the last one, the subscriber is forgotten, with
    its IMSI, its S11 tunnel and its procedures; and the tables still agree. *)
Theorem sgw_deletion_closes (l := kpdn_erase (kpdn_of x) (pdn_connections z)) :
  sgw_ok s -> s5s8lteid2sgw_contexts s !! teid m = Some (c, p) -> context_heap s !! c = Some z -> pdn_heap s !! p = Some x ->
  find_procedure c (gtpc_tx_id m) s = Some q ->
  procedure_heap s !! q = Some (mk_sebc_procedure tx b (delete_session_request_procedure msg (Some c) d)) ->
  ready TASK_SGWC_S11 = true ->
  exists s', delete_session_response ready m s = Val (tt, s') /\
    sent_by_sgw s' = sent_by_sgw s ++ [OutGtp TASK_SGWC_S11 s11_delete_session_response] /\
    s5s8lteid2sgw_contexts s' = delete (teid m) (s5s8lteid2sgw_contexts s) /\
    (exists z', context_heap s' !! c = Some z' /\ pdn_connections z' = l /\
       pending_procedures z' = if decide (l = []) then [] else erase_first q (pending_procedures z)) /\
    imsi2sgw_eps_bearer_context s' = (if decide (l = []) then delete (to_imsi64 (sc_imsi z)) (imsi2sgw_eps_bearer_context s) else imsi2sgw_eps_bearer_context s) /\
    s11lteid2sgw_eps_bearer_context s' = (if decide (l = []) then delete (fc_teid_gre_key (sgw_fteid_s11_s4_cp z)) (s11lteid2sgw_eps_bearer_context s)
                                          else s11lteid2sgw_eps_bearer_context s) /\
    sgw_ok s'.
Proof.
  intros Hs Ht Ez Ex Hq Eq Hready. assert (fc_teid_gre_key (sgw_fteid_s5_s8_cp x) = teid m) as Hx.
  { destruct (wo_table _ _ Hs _ _ _ Ht) as (k & l' & H & _). rewrite (pdn_view _ _ _ Ex) in H. by injection H. }
  enough (returns (delete_session_response ready m) s (fun _ s' =>
    sent_by_sgw s' = sent_by_sgw s ++ [OutGtp TASK_SGWC_S11 s11_delete_session_response] /\
    s5s8lteid2sgw_contexts s' = delete (teid m) (s5s8lteid2sgw_contexts s) /\
    (exists z', context_heap s' !! c = Some z' /\ pdn_connections z' = l /\
       pending_procedures z' = if decide (l = []) then [] else erase_first q (pending_procedures z)) /\
    imsi2sgw_eps_bearer_context s' = (if decide (l = []) then delete (to_imsi64 (sc_imsi z)) (imsi2sgw_eps_bearer_context s) else imsi2sgw_eps_bearer_context s) /\
    s11lteid2sgw_eps_bearer_context s' = (if decide (l = []) then delete (fc_teid_gre_key (sgw_fteid_s11_s4_cp z)) (s11lteid2sgw_eps_bearer_context s)
                                          else s11lteid2sgw_eps_bearer_context s))) as ([] & s' & E & H).
  { exists s'. pose proof (delete_session_response_step ready m s Hs tt s' E) as [Hok _]. naive_solver. }
  apply returns_bind, returns_get. rewrite Ht. apply returns_bind, returns_bind, returns_get. rewrite Hq.
  apply returns_bind. read_procedure. apply returns_bind. simpl. apply returns_bind. eapply returns_deref; [done|].
  apply returns_bind. read_context. apply returns_bind. read_procedure. apply returns_bind, returns_bind. read_procedure. apply returns_modify.
  apply returns_bind, returns_bind. read_pdn. apply returns_bind, returns_modify. apply returns_bind, returns_bind. read_pdn.
  apply returns_bind. read_context. apply returns_modify, returns_bind. read_pdn. apply returns_modify. simpl.
  unfold send_msg. rewrite Hready. apply returns_bind, returns_bind, returns_modify, returns_ret, returns_ret.
  apply returns_bind. read_procedure. simpl. apply returns_bind. read_context. apply returns_modify.
  eapply returns_mono; [|eapply forget_if_idle_returns; simpl; by rewrite lookup_insert_eq].
  intros _ s' (H1 & H2 & H3). simpl in H1, H2, H3. rewrite H1, H2, Hx. split; [done|]. split; [done|].
  fold l in H3. destruct l as [|e l'] eqn:El.
  - destruct H3 as (-> & -> & ->). rewrite lookup_insert_eq. split; [by eexists|done].
  - rewrite decide_False by done. subst s'. simpl. rewrite lookup_insert_eq. split; [|done]. by eexists.
Qed.
End Deletion.

(** The demonstration has asked for the end of its session. *)
Definition sgw_closing : sgw_state := sgw_state_after (sgw_attach ++ [S11_DELETE_SESSION_REQUEST (demo_mme_delete 1 8 5)]).
Definition sgw_demo_context : sgw_eps_bearer_context := default sgw_eps_bearer_context_new (context_heap sgw_closing !! 0%nat).
Definition sgw_demo_pdn : sgw_pdn_connection := default sgw_pdn_connection_new (pdn_heap sgw_closing !! 2%nat).

Lemma sgw_deletion_closes_witness : let m := demo_pgw_answer DELETE_SESSION_RESPONSE 1 8 REQUEST_ACCEPTED in
  exists s', delete_session_response all_ready m sgw_closing = Val (tt, s') /\
    s5s8lteid2sgw_contexts s' = delete 1 (s5s8lteid2sgw_contexts sgw_closing).
Proof.
  destruct (sgw_deletion_closes all_ready (demo_pgw_answer DELETE_SESSION_RESPONSE 1 8 REQUEST_ACCEPTED) sgw_closing 0 2 4 2 8 false
              (demo_mme_delete 1 8 5) sgw_demo_context sgw_demo_pdn) as (s' & H1 & _ & H2 & _).
  - apply sgw_after_ok.
  - vm_compute. reflexivity.
  - vm_compute. reflexivity.
  - vm_compute. reflexivity.
  - vm_compute. reflexivity.
  - vm_compute. reflexivity.
  - reflexivity.
  - exists s'. split; [exact H1|exact H2].
Defined.
