(* ===== verification/MsgElements.v ===== *)
(** * The elements of the messages that are made

    A message of the applications is made by a sequence of [set], [set_x] and
    [add_bearer_context] on an empty container: this file says what a [get]
    finds in it, from the tables of its class. *)
From S2P Require Import Prelude GtpTlv Container GtpContainer GtpMessages GtpClassLaws AppMsg.
From Stdlib Require Import ZArith Lia String.
From stdpp Require Import base numbers tactics list strings gmap.
Open Scope Z_scope.

Set Warnings "-register-all".

(** Every step of the making of a container raises one flag and may store one
    value, so that an element is what the last step on its own member gave. *)
Definition element_slot (A : Type) `{GtpValue A} (c : ies_class) (n : Z) (s : slot) : Prop := get_target c gv_kind n = Some s.
Definition stored_in (A : Type) `{GtpValue A} (c : ies_class) (s : slot) : Prop := set_target c gv_kind 0 = Some s.
Definition named_in (c : ies_class) (x : string) (s : slot) : Prop := list_to_map (M := gmap string slot) (c_named_set c) !! x = Some s.

(** The flag of a slot is a bit of the mask; another slot does not touch it. *)
Definition flagged (c : ies_class) (t : slot) : bool := (0 <=? c_width c) && guard_fits (c_width c) t.1.
Definition undisturbed (c : ies_class) (s t : slot) : bool := flagged c t && slots_apart s t.

Section Steps.
Context {A : Type} `{GtpValue A} (c : ies_class).
Implicit Types (f : fields value) (s t : slot).

Lemma ies_get_slot n f t : element_slot A c n t -> ies_get (A := A) c n f = slot_get t f ≫= gv_to.
Proof. intros E. unfold ies_get. rewrite (class_get_target _ _ _ _ t E). by destruct (slot_get t _). Qed.

Lemma ies_forward_fields cf from f s : stored_in A c s ->
  ies_forward A cf c from f =
  match ies_get (A := A) cf 0 from with Some a => slot_set (c_width c) s (gv_of a) f | None => f end.
Proof.
  unfold ies_forward, stored_in. intros E. destruct (ies_get cf 0 from) as [a|]; [|done].
  unfold ies_set, class_set, set_target in *. rewrite gv_kind_of. destruct (find_overload gv_kind (c_set c)) as [o|]; [|done]. simpl in *.
  destruct (o_access o); simpl in *; [by injection E as ->|by rewrite E..].
Qed.

Lemma ies_set_x_fields x (a : A) f s : named_in c x s -> ies_set_x c x a f = slot_set (c_width c) s (gv_of a) f.
Proof. unfold named_in, ies_set_x, class_named_set. by intros ->. Qed.

(** The element itself, where there was none. *)
Lemma get_forward cf from f s : stored_in A c s -> flagged c s = true -> slot_get s f = None ->
  slot_get s (ies_forward A cf c from f) ≫= gv_to = ies_get (A := A) cf 0 from.
Proof.
  intros E [Hw%Z.leb_le Hf]%andb_true_iff Hn. rewrite (ies_forward_fields _ _ _ _ E). destruct (ies_get cf 0 from) as [a|]; [|by rewrite Hn].
  rewrite slot_get_set by done. simpl. by rewrite gv_to_of.
Qed.

Lemma get_set_x x (a : A) f s : named_in c x s -> flagged c s = true -> slot_get s (ies_set_x c x a f) = Some (gv_of a).
Proof. intros E [Hw%Z.leb_le Hf]%andb_true_iff. rewrite (ies_set_x_fields _ _ _ _ E). by apply slot_get_set. Qed.

(** The steps on other elements. *)
Lemma get_forward_other cf from f s t : stored_in A c s -> undisturbed c s t = true ->
  slot_get t (ies_forward A cf c from f) = slot_get t f.
Proof.
  intros E [[Hw%Z.leb_le Hf]%andb_true_iff Ha]%andb_true_iff. rewrite (ies_forward_fields _ _ _ _ E).
  destruct (ies_get cf 0 from); [|done]. by apply slot_get_set_apart.
Qed.

Lemma get_set_x_other x (a : A) f s t : named_in c x s -> undisturbed c s t = true -> slot_get t (ies_set_x c x a f) = slot_get t f.
Proof. intros E [[Hw%Z.leb_le Hf]%andb_true_iff Ha]%andb_true_iff. rewrite (ies_set_x_fields _ _ _ _ E). by apply slot_get_set_apart. Qed.
End Steps.

(** ** Messages *)

(** The element of type [A] in [m'] is the one of [m]; both may lack it. *)
Definition conveys (A : Type) `{GtpValue A} (m m' : itti_gtp_msg) : Prop := msg_get (A := A) 0 m' = msg_get 0 m.

(** A message but for its elements. *)
Definition frame (m : itti_gtp_msg) : endpoint * Z * Z * Z * gmap string (list (fields value)) :=
  (r_endpoint m, teid m, l_teid m, gtpc_tx_id m, ct_lists (gtp_ies m)).

Definition kind_class (k : gtp_kind) : ies_class := mc_class (gtp_class k).

Section Messages.
Context {A : Type} `{GtpValue A} (k : gtp_kind).
Implicit Types (m to from : itti_gtp_msg) (s t : slot).

Lemma msg_get_slot n m t : gtp_msg_kind m = k -> element_slot A (kind_class k) n t -> msg_get (A := A) n m = slot_get t (msg_fields m) ≫= gv_to.
Proof. intros <-. apply ies_get_slot. Qed.

Lemma msg_forward_kind from to : gtp_msg_kind to = k -> gtp_msg_kind (msg_forward A from to) = k.
Proof. unfold msg_forward. by destruct (msg_get 0 from). Qed.

Lemma msg_set_x_kind x (a : A) to : gtp_msg_kind to = k -> gtp_msg_kind (msg_set_x x a to) = k.
Proof. done. Qed.

Lemma msg_forward_fields from to : gtp_msg_kind to = k ->
  msg_fields (msg_forward A from to) = ies_forward A (msg_ies_class from) (kind_class k) (msg_fields from) (msg_fields to).
Proof. intros <-. unfold msg_forward, msg_get, ies_forward. by destruct (ies_get _ 0 (msg_fields from)). Qed.

(** What is around the elements. *)
Lemma msg_forward_frame from to : frame (msg_forward A from to) = frame to.
Proof. unfold msg_forward. by destruct (msg_get 0 from). Qed.

Lemma msg_set_x_frame x (a : A) to : frame (msg_set_x x a to) = frame to.
Proof. done. Qed.

Lemma msg_set_x_fields x (a : A) to : gtp_msg_kind to = k -> msg_fields (msg_set_x x a to) = ies_set_x (kind_class k) x a (msg_fields to).
Proof. by intros <-. Qed.
End Messages.

(** ** Bearer contexts *)
Section Bearers.
Context (k : gtp_kind) (c : slot) (g : fields value -> fields value).
Let add (m : itti_gtp_msg) (it : fields value) : itti_gtp_msg := add_bearer_context c (g it) m.

Lemma add_bearers_kind l to : gtp_msg_kind to = k -> gtp_msg_kind (foldl add to l) = k.
Proof. revert to. induction l as [|it l IH]; intros to; simpl; [done|]. intros Ek. by apply IH. Qed.

Lemma add_bearers_address l to : (frame (foldl add to l)).1 = (frame to).1.
Proof. revert to. induction l as [|it l IH]; intros to; simpl; [done|]. apply (IH (add to it)). Qed.

Lemma get_add_bearers_other l to (t : slot) : gtp_msg_kind to = k -> undisturbed (kind_class k) c t = true ->
  slot_get t (msg_fields (foldl add to l)) = slot_get t (msg_fields to).
Proof.
  intros Ek Hu. revert to Ek. induction l as [|it l IH]; intros to Ek; simpl; [done|]. rewrite IH by done.
  apply andb_true_iff in Hu as [[Hw%Z.leb_le Hf]%andb_true_iff Ha]. subst k. by apply slot_get_raise_apart.
Qed.

(** The contexts are the ones added, after those that were there. *)
Lemma contexts_add_bearers l to : contexts c.2 (foldl add to l) = contexts c.2 to ++ (g <$> l).
Proof.
  revert to. induction l as [|it l IH]; intros to; simpl; [by rewrite app_nil_r|]. rewrite IH.
  unfold contexts at 1. simpl. rewrite lookup_insert_eq. simpl. by rewrite <- (assoc_L (++)).
Qed.
End Bearers.

Lemma add_bearers_ext c (g g' : fields value -> fields value) l to : (forall it, g it = g' it) ->
  foldl (fun m it => add_bearer_context c (g it) m) to l = foldl (fun m it => add_bearer_context c (g' it) m) to l.
Proof. intros H. revert to. induction l as [|it l IH]; intros to; simpl; [done|]. by rewrite H. Qed.

Create HintDb elements.
#[export] Hint Resolve msg_forward_kind msg_set_x_kind add_bearers_kind : elements.

(** A [get] of a container made of known steps is followed back to its own step,
    or to the empty container. *)
Ltac made := by auto 50 with elements.
Ltac tables := vm_compute; reflexivity.
Ltac other_steps := repeat first [ erewrite get_forward_other; [|tables|tables] | erewrite get_set_x_other; [|tables|tables] ].
Ltac own_step :=
  first [ erewrite get_forward; [done|tables|tables|]
        | erewrite get_set_x; [reflexivity|tables|tables]
        | idtac ].
Ltac ies_element := erewrite ies_get_slot; [|tables]; other_steps; own_step; other_steps; try reflexivity.
Ltac msg_element k :=
  erewrite (msg_get_slot k); [|made|tables];
  repeat (rewrite (get_add_bearers_other k); [|made|tables]);
  repeat first [ rewrite (msg_forward_fields k); [|made] | rewrite (msg_set_x_fields k); [|made] ];
  other_steps; own_step; other_steps; try reflexivity.
