(* ===== verification/SgwAttach.v ===== *)
(** * Attach through the SGW

    A Create Session Request of the MME is sent on to the PGW with the elements
    it has: the theorem says that the handler returns, what it sends and what
    it leaves in the state. *)
From S2P Require Import Prelude UidGenerator PaaDynamic Pco Itti UpNodes GtpTlv GtpScalar GtpIdentity GtpQos GtpLocation GtpAddress GtpOptions Container GtpContainer GtpMessages GtpClassLaws Handler AppMsg SgwContext SgwProcedure SgwApp SgwExample SgwLaws SgwSpec MsgElements.
From Stdlib Require Import ZArith Lia String.
From stdpp Require Import base numbers tactics sets list strings gmap.
Open Scope Z_scope.

Set Warnings "-register-all".

(** ** The bearers of a connection *)

(** The bearers a connection leads to are there, under their identities, and the
    ones of [bs] are among them. *)
Definition bearers_hold (n : nat) (bs : list (fields value)) (x : sgw_pdn_connection) (h : gmap nat sgw_eps_bearer) : Prop :=
  (forall e b, sgw_eps_bearers x !! e = Some b -> (b < n)%nat /\ exists y, h !! b = Some y /\ ebi (sb_ebi y) = e) /\
  (forall it, it ∈ bs -> let e := ebi (sb_ebi (new_bearer it)) in valid_ebi e = true -> is_Some (sgw_eps_bearers x !! e)).

(** What creating bearers leaves alone. *)
Definition around_bearers (s u : sgw_state) : Prop :=
  sent_by_sgw u = sent_by_sgw s /\ imsi2sgw_eps_bearer_context u = imsi2sgw_eps_bearer_context s /\
  s11lteid2sgw_eps_bearer_context u = s11lteid2sgw_eps_bearer_context s /\ s5s8lteid2sgw_contexts u = s5s8lteid2sgw_contexts s /\
  context_heap u = context_heap s /\ procedure_heap u = procedure_heap s.

(** The connection but for its bearers. *)
Definition same_but_bearers (x y : sgw_pdn_connection) : Prop := y = set_sgw_eps_bearers (sgw_eps_bearers y) x.

(** A new bearer, filed under its identity unless there is one. *)
Definition filed (b : nat) (it : fields value) (x : sgw_pdn_connection) : sgw_pdn_connection :=
  match get_eps_bearer (sb_ebi (new_bearer it)) x with
  | Some _ => x
  | None => set_sgw_eps_bearers (<[ebi (sb_ebi (new_bearer it)) := b]> (sgw_eps_bearers x)) x
  end.

Lemma bearers_hold_new n bs x h b it : bearers_hold n bs x h -> (n <= b)%nat ->
  bearers_hold (S b) (bs ++ [it]) (if valid_ebi (ebi (sb_ebi (new_bearer it))) then filed b it x else x) (<[b := new_bearer it]> h).
Proof.
  intros [Hb Hd] Hn. set (e := ebi (sb_ebi (new_bearer it))).
  assert (forall e' b', sgw_eps_bearers x !! e' = Some b' ->
    (b' < S b)%nat /\ exists y, <[b := new_bearer it]> h !! b' = Some y /\ ebi (sb_ebi y) = e') as Hold.
  { intros e' b' H. apply Hb in H as [Hl Hy]. rewrite lookup_insert_ne by lia. split; [lia|done]. }
  assert (forall y, (forall e', is_Some (sgw_eps_bearers x !! e') -> is_Some (sgw_eps_bearers y !! e')) ->
    (valid_ebi e = true -> is_Some (sgw_eps_bearers y !! e)) ->
    forall it', it' ∈ bs ++ [it] -> let e := ebi (sb_ebi (new_bearer it')) in valid_ebi e = true -> is_Some (sgw_eps_bearers y !! e)) as Hall.
  { intros y H1 H2 it' [Hin| ->%list_elem_of_singleton]%elem_of_app; simpl; [by intros ?%Hd%H1|done]. }
  destruct (valid_ebi e) eqn:Ev; [|by split; [|apply Hall]]. unfold filed, get_eps_bearer. fold e.
  destruct (sgw_eps_bearers x !! e) as [b0|] eqn:Eb; [split; [done|]; apply Hall; [done|by rewrite Eb]|]. split.
  - simpl. intros e' b' [[<- <-]|[_ H]]%lookup_insert_Some; [|by apply Hold]. rewrite lookup_insert_eq. split; [lia|by eexists].
  - apply Hall; cbn [sgw_eps_bearers set_sgw_eps_bearers]; intros *; rewrite lookup_insert_is_Some'; auto.
Qed.

Section Bearers.
Context (s : sgw_state) (p : nat) (x0 : sgw_pdn_connection) (m0 : itti_gtp_msg).

Definition bearers_inv (done : list (fields value)) (m : itti_gtp_msg) (u : sgw_state) : Prop :=
  m = foldl (fun m it => add_bearer_context to_be_created (s5s8_bearer_to_create it) m) m0 done /\ around_bearers s u /\
  exists x, pdn_heap u !! p = Some x /\ same_but_bearers x0 x /\ bearers_hold (next_object u) done x (bearer_heap u).

Lemma create_bearer_returns it done m u : bearers_inv done m u ->
  returns (create_bearer p m it) u (fun m u => bearers_inv (done ++ [it]) m u).
Proof.
  intros (-> & Hu & x & Ex & Hx & Hb). apply returns_bind, returns_bind, returns_gets, returns_bind, returns_modify, returns_ret.
  apply returns_bind, returns_modify, returns_bind, returns_bind. read_bearer.
  pose proof (bearers_hold_new _ _ _ _ (next_object u) it Hb ltac:(lia)) as Hn.
  destruct (valid_ebi (ebi (sb_ebi (new_bearer it)))) eqn:Ev.
  - apply returns_bind. read_pdn. apply returns_modify, returns_ret. split; [by rewrite foldl_snoc|]. split; [done|].
    exists (filed (next_object u) it x). simpl. rewrite lookup_insert_eq. split_and!; [done| |exact Hn].
    unfold same_but_bearers, filed in *. case_match; [done|]. rewrite Hx. done.
  - apply returns_ret, returns_ret. split; [by rewrite foldl_snoc|]. split; [done|]. by exists x.
Qed.

Lemma create_bearers_return bs : pdn_heap s !! p = Some x0 -> sgw_eps_bearers x0 = ∅ ->
  returns (fold_handler (create_bearer p) m0 bs) s (fun m u => bearers_inv bs m u).
Proof.
  intros Ep Ee. apply (returns_fold _ bearers_inv); [intros it done m u; apply create_bearer_returns|].
  split; [done|]. split; [done|]. exists x0. split_and!; [done|by destruct x0|]. split; [intros e b; by rewrite Ee, lookup_empty|].
  intros it H. by apply not_elem_of_nil in H.
Qed.
End Bearers.

(** ** What is sent on *)

(** The elements of a Create Session Request that go on to the PGW. *)
Definition request_conveyed (m m' : itti_gtp_msg) : Prop :=
  conveys imsi_t m m' /\ conveys msisdn_t m m' /\ conveys mei_t m m' /\ conveys uli_t m m' /\ conveys rat_type_t m m' /\
  conveys indication_t m m' /\ conveys apn_t m m' /\ conveys selection_mode_t m m' /\ conveys pdn_type_t m m' /\ conveys paa_t m m' /\
  conveys access_point_name_restriction_t m m' /\ conveys ambr_t m m' /\ conveys protocol_configuration_options_t m m'.

(** A bearer context with the identity and the QoS of another. *)
Definition same_bearer (it b : fields value) : Prop :=
  ies_get (A := ebi_t) bc_to_create 0 b = ies_get bc_to_create 0 it /\ ies_get (A := bearer_qos_t) bc_to_create 0 b = ies_get bc_to_create 0 it.

Lemma s5s8_bearer_same it : same_bearer it (s5s8_bearer_to_create it).
Proof. unfold s5s8_bearer_to_create. cbv zeta. destruct (ies_get (A := gtp_fteid) bc_to_create 0 it); split; ies_element. Qed.

Section Conveyed.
Context (cfg : sgw_config) (tx : Z) (req : itti_gtp_msg) (f : gtp_fteid).

Lemma s5s8_create_session_request_kind : gtp_msg_kind (s5s8_create_session_request cfg tx req f) = CREATE_SESSION_REQUEST.
Proof. unfold s5s8_create_session_request. cbv zeta. destruct (msg_get_x (A := gtp_fteid) _ req); made. Qed.

Lemma s5s8_create_session_request_conveys bs :
  let m := foldl (fun m it => add_bearer_context to_be_created (s5s8_bearer_to_create it) m) (s5s8_create_session_request cfg tx req f) bs in
  request_conveyed req m /\ msg_get 0 m = Some f.
Proof.
  unfold s5s8_create_session_request, request_conveyed, conveys. cbv zeta.
  destruct (msg_get_x (A := gtp_fteid) _ req); split_and!; msg_element CREATE_SESSION_REQUEST.
Qed.

Lemma s5s8_create_session_request_frame : frame (s5s8_create_session_request cfg tx req f) =
  (pgw_endpoint cfg, UNASSIGNED_TEID, fc_teid_gre_key f, tx, ∅).
Proof.
  unfold s5s8_create_session_request. cbv zeta. rewrite !msg_forward_frame.
  destruct (msg_get_x (A := gtp_fteid) _ req); rewrite ?msg_set_x_frame, !msg_forward_frame; done.
Qed.
End Conveyed.

(** ** The request *)

(** [generate_s11_cp_fteid] and [generate_s5s8_cp_fteid], where the search is known. *)
Lemma generate_s11_returns a s g t (Q : gtp_fteid -> sgw_state -> Prop) :
  teid_after (dom (s11lteid2sgw_eps_bearer_context s)) (teid_s11_cp s) = Some (g, t) ->
  Q (GtpAddress.mk_fteid_t 1 0 S11_S4_SGW_GTP_C t a in6addr_any) (set_teid_s11_cp g s) -> returns (generate_s11_cp_fteid a) s Q.
Proof. intros E H. apply returns_bind, returns_bind, returns_get. rewrite E. by apply returns_bind, returns_modify, returns_ret, returns_ret. Qed.
Lemma generate_s5s8_returns a s g t (Q : gtp_fteid -> sgw_state -> Prop) :
  teid_after (dom (s5s8lteid2sgw_contexts s)) (teid_s5s8_cp s) = Some (g, t) ->
  Q (GtpAddress.mk_fteid_t 1 0 S5_S8_SGW_GTP_C t a in6addr_any) (set_teid_s5s8_cp g s) -> returns (generate_s5s8_cp_fteid a) s Q.
Proof. intros E H. apply returns_bind, returns_bind, returns_get. rewrite E. by apply returns_bind, returns_modify, returns_ret, returns_ret. Qed.

Section Request.
Context (cfg : sgw_config) (ready : Z -> bool) (req : itti_gtp_msg) (s : sgw_state) (imsi : imsi_t).
Context (g11 t11 g58 t58 : Z) (b0 : fields value) (bs : list (fields value)).

(** The three objects the request makes. *)
Let c := next_object s.
Let q := S c.
Let p := S q.

Definition request_fteid : gtp_fteid := GtpAddress.mk_fteid_t 1 0 S5_S8_SGW_GTP_C t58 (sgw_s5s8_addr4 cfg) in6addr_any.
Definition request_key : kpdn := (apn_core (msg_member "apn" req), u8 (pt_pdn_type (msg_member "pdn_type" req : pdn_type_t))).
Definition request_context (q p : nat) : sgw_eps_bearer_context :=
  mk_sgw_eps_bearer_context (msg_member "imsi" req) (msg_member "sender_fteid_for_cp" req)
    (GtpAddress.mk_fteid_t 1 0 S11_S4_SGW_GTP_C t11 (s11_addr4 cfg) in6addr_any) [(request_key, p)] [q].

(** What is sent to the PGW. *)
Definition request_forwarded : itti_gtp_msg :=
  foldl (fun m it => add_bearer_context to_be_created (s5s8_bearer_to_create it) m)
    (s5s8_create_session_request cfg (gtpc_tx_id req) req request_fteid) (b0 :: bs).

(** It is the request of the MME, from the SGW: the bearers have the identities
    and the QoS that were asked for. *)
Definition sent_on (m : itti_gtp_msg) : Prop :=
  gtp_msg_kind m = CREATE_SESSION_REQUEST /\ teid m = UNASSIGNED_TEID /\ l_teid m = t58 /\ gtpc_tx_id m = gtpc_tx_id req /\
  r_endpoint m = pgw_endpoint cfg /\ msg_get 0 m = Some request_fteid /\ request_conveyed req m /\
  Forall2 same_bearer (b0 :: bs) (contexts "bearer_contexts_to_be_created" m).

Lemma request_forwarded_sent_on : sent_on request_forwarded.
Proof.
  pose proof (s5s8_create_session_request_kind cfg (gtpc_tx_id req) req request_fteid) as Hk.
  pose proof (s5s8_create_session_request_frame cfg (gtpc_tx_id req) req request_fteid) as Hf.
  pose proof (s5s8_create_session_request_conveys cfg (gtpc_tx_id req) req request_fteid (b0 :: bs)) as [Hc Hx].
  pose proof (add_bearers_address to_be_created s5s8_bearer_to_create (b0 :: bs) (s5s8_create_session_request cfg (gtpc_tx_id req) req request_fteid)) as Ha.
  rewrite Hf in Ha. cbv [frame fst] in Ha. injection Ha as Ha1 Ha2 Ha3 Ha4. unfold sent_on, request_forwarded. split_and!; try done.
  - by apply add_bearers_kind.
  - change "bearer_contexts_to_be_created"%string with (to_be_created.2). rewrite contexts_add_bearers.
    assert (contexts to_be_created.2 (s5s8_create_session_request cfg (gtpc_tx_id req) req request_fteid) = []) as ->.
    { apply (f_equal snd) in Hf. unfold contexts. cbv [frame snd] in Hf. by rewrite Hf. }
    apply Forall2_fmap_r, Forall_Forall2_diag, Forall_true, s5s8_bearer_same.
Qed.

Lemma run_new_subscriber z u : context_heap u !! c = Some z -> pdn_connections z = [] -> next_object u = p ->
  procedure_heap u !! q = Some (mk_sebc_procedure (gtpc_tx_id req) false (create_session_request_procedure req None)) ->
  teid_after (dom (s5s8lteid2sgw_contexts u)) (teid_s5s8_cp u) = Some (g58, t58) ->
  contexts "bearer_contexts_to_be_created" req = b0 :: bs -> has_contexts to_be_created req = true -> has_contexts to_be_removed req = false ->
  ready TASK_SGWC_S5S8 = true ->
  returns (create_session_run cfg ready q c req) u (fun rc v => rc = RETURNok /\
    sent_by_sgw v = sent_by_sgw u ++ [OutGtp TASK_SGWC_S5S8 request_forwarded] /\
    imsi2sgw_eps_bearer_context v = imsi2sgw_eps_bearer_context u /\
    s11lteid2sgw_eps_bearer_context v = s11lteid2sgw_eps_bearer_context u /\
    s5s8lteid2sgw_contexts v = <[t58 := (c, p)]> (s5s8lteid2sgw_contexts u) /\
    context_heap v = <[c := set_pdn_connections [(request_key, p)] z]> (context_heap u) /\
    procedure_heap v !! q = Some (mk_sebc_procedure (gtpc_tx_id req) false (create_session_request_procedure req (Some c))) /\
    exists x, pdn_heap v !! p = Some x /\ kpdn_of x = request_key /\ sgw_fteid_s5_s8_cp x = request_fteid /\
      default_bearer x = member "eps_bearer_id" b0 /\ bearers_hold (next_object v) (b0 :: bs) x (bearer_heap v)).
Proof.
  intros Ez Hz Hp Eq Et Hbs Hc Hr Hready. apply returns_bind, returns_get. cbv zeta. unfold find_pdn_connection_apn. rewrite Ez. simpl.
  rewrite Hz. cbn [kpdn_find find fmap option_fmap option_map].
  apply returns_bind, returns_bind. read_procedure. apply returns_modify.
  apply returns_bind, returns_bind, returns_gets, returns_bind, returns_modify, returns_ret. cbn [next_object set_procedure_heap]. rewrite Hp.
  apply returns_bind, returns_modify, returns_bind, returns_bind. read_pdn. apply returns_bind. read_context. apply returns_modify. rewrite Hbs, Hz.
  apply returns_bind, returns_bind. read_pdn. apply returns_modify, returns_bind. eapply generate_s5s8_returns; [exact Et|].
  apply returns_bind, returns_bind. read_pdn. apply returns_modify, returns_bind, returns_modify, returns_bind. read_procedure.
  apply returns_bind. unfold present_contexts. rewrite Hc. cbn [snd to_be_created]. rewrite Hbs. cbn [trxn_id].
  eapply returns_mono; [|apply create_bearers_return; simpl; [by rewrite lookup_insert_eq|done]].
  intros m v (-> & (H1 & H2 & H3 & H4 & H5 & H6) & x & Ex & Hx & Hb). rewrite Hr. apply returns_bind, returns_ret.
  unfold send_msg. rewrite Hready. apply returns_bind, returns_bind, returns_modify, returns_ret, returns_ret.
  cbn [sent_by_sgw set_sent_by_sgw imsi2sgw_eps_bearer_context s11lteid2sgw_eps_bearer_context s5s8lteid2sgw_contexts context_heap
       procedure_heap pdn_heap next_object bearer_heap].
  rewrite H1, H2, H3, H4, H5, H6. split_and!; try done; [by simpl; rewrite lookup_insert_eq|].
  exists x. unfold same_but_bearers in Hx. split_and!; try done; by rewrite Hx.
Qed.

(** C4 A Create Session Request of an MME for a new subscriber is sent on: the PGW
    gets one request, in the same transaction, from the new S5/S8 TEID, with the
    subscriber, the APN, the PDN type and the ten other elements of
    [request_conveyed], and with the identity and the QoS of each bearer; the
    subscriber is in the IMSI and S11 tables, with one connection under the APN
    and the type of the request, that the S5/S8 table leads to and that has the
    bearers; and the procedure that waits for the answer keeps the request. *)
Theorem create_session_sent_on :
  let f : gtp_fteid := msg_member "sender_fteid_for_cp" req in
  fc_interface_type f = S11_MME_GTP_C -> fc_teid_gre_key f <> 0 -> teid req = 0 ->
  msg_get 0 req = Some imsi -> (forall i : indication_t, msg_get 0 req = Some i -> ind_uimsi i = 0) ->
  imsi2sgw_eps_bearer_context s !! to_imsi64 imsi = None ->
  teid_after (dom (s11lteid2sgw_eps_bearer_context s)) (teid_s11_cp s) = Some (g11, t11) ->
  teid_after (dom (s5s8lteid2sgw_contexts s)) (teid_s5s8_cp s) = Some (g58, t58) ->
  contexts "bearer_contexts_to_be_created" req = b0 :: bs -> has_contexts to_be_created req = true -> has_contexts to_be_removed req = false ->
  ready TASK_SGWC_S5S8 = true ->
  exists s' m, create_session_request cfg ready req s = Val (tt, s') /\
    sent_by_sgw s' = sent_by_sgw s ++ [OutGtp TASK_SGWC_S5S8 m] /\ sent_on m /\
    imsi2sgw_eps_bearer_context s' = <[to_imsi64 imsi := c]> (imsi2sgw_eps_bearer_context s) /\
    s11lteid2sgw_eps_bearer_context s' = <[t11 := c]> (s11lteid2sgw_eps_bearer_context s) /\
    s5s8lteid2sgw_contexts s' = <[t58 := (c, p)]> (s5s8lteid2sgw_contexts s) /\
    context_heap s' !! c = Some (request_context q p) /\
    procedure_heap s' !! q = Some (mk_sebc_procedure (gtpc_tx_id req) false (create_session_request_procedure req (Some c))) /\
    exists x, pdn_heap s' !! p = Some x /\ kpdn_of x = request_key /\ sgw_fteid_s5_s8_cp x = request_fteid /\
      default_bearer x = member "eps_bearer_id" b0 /\ bearers_hold (next_object s') (b0 :: bs) x (bearer_heap s').
Proof.
  intros f Hf1 Hf2 Ht Hi Hu Hn E11 E58 Hbs Hc Hr Hready.
  enough (returns (create_session_request cfg ready req) s (fun _ s' =>
    sent_by_sgw s' = sent_by_sgw s ++ [OutGtp TASK_SGWC_S5S8 request_forwarded] /\
    imsi2sgw_eps_bearer_context s' = <[to_imsi64 imsi := c]> (imsi2sgw_eps_bearer_context s) /\
    s11lteid2sgw_eps_bearer_context s' = <[t11 := c]> (s11lteid2sgw_eps_bearer_context s) /\
    s5s8lteid2sgw_contexts s' = <[t58 := (c, p)]> (s5s8lteid2sgw_contexts s) /\
    context_heap s' !! c = Some (request_context q p) /\
    procedure_heap s' !! q = Some (mk_sebc_procedure (gtpc_tx_id req) false (create_session_request_procedure req (Some c))) /\
    exists x, pdn_heap s' !! p = Some x /\ kpdn_of x = request_key /\ sgw_fteid_s5_s8_cp x = request_fteid /\
      default_bearer x = member "eps_bearer_id" b0 /\ bearers_hold (next_object s') (b0 :: bs) x (bearer_heap s')))
    as ([] & s' & E & H1 & H)
    by (by exists s', request_forwarded; split; [exact E|split; [exact H1|split; [apply request_forwarded_sent_on|exact H]]]).
  apply returns_bind, returns_get. cbv zeta. fold f. rewrite Hf1. cbn [Z.eqb negb S11_MME_GTP_C Pos.eqb].
  rewrite (proj2 (Z.eqb_neq _ _) Hf2), Ht. cbn [Z.eqb negb andb].
  apply returns_bind, returns_bind, returns_get. rewrite Hi.
  assert (match msg_get 0 req with Some i => negb (ind_uimsi i =? 0) | None => false end = false) as ->.
  { destruct (msg_get 0 req : option indication_t) as [i|] eqn:Ei; [|done]. by rewrite (Hu i eq_refl). }
  rewrite Hn. apply returns_bind, returns_bind, returns_gets, returns_bind, returns_modify, returns_ret.
  apply returns_bind, returns_modify, returns_bind, returns_modify, returns_ret. fold c.
  apply returns_bind. read_context. cbn [fc_teid_gre_key sgw_fteid_s11_s4_cp sgw_eps_bearer_context_new].
  change (fc_teid_gre_key fteid_null =? UNASSIGNED_TEID) with true. apply returns_bind.
  apply returns_bind. eapply generate_s11_returns; [exact E11|]. apply returns_bind, returns_bind. read_context. apply returns_modify.
  apply returns_bind, returns_modify, returns_bind. read_context. apply returns_modify.
  apply returns_bind, returns_bind, returns_bind, returns_gets, returns_bind, returns_modify, returns_ret, returns_bind, returns_modify, returns_ret.
  apply returns_bind, returns_bind. read_context. apply returns_modify.
  apply returns_bind, returns_bind. read_context. apply returns_bind, returns_get. simpl. rewrite lookup_insert_eq. apply returns_ret.
  apply returns_bind. eapply returns_mono; [|eapply run_new_subscriber; simpl; rewrite ?lookup_insert_eq; try reflexivity; done].
  intros rc v (-> & H1 & H2 & H3 & H4 & H5 & H6 & H7). apply returns_ret. simpl in *. rewrite H1, H2, H3, H4, H5, H6, lookup_insert_eq.
  split_and!; done.
Qed.
End Request.

Lemma create_session_sent_on_witness :
  let req := demo_mme_create 0 7 [demo_bearer_to_create 5] in
  exists s' m, create_session_request demo_sgw_cfg all_ready req sgwc_app_init = Val (tt, s') /\
    sent_by_sgw s' = [OutGtp TASK_SGWC_S5S8 m] /\ sent_on demo_sgw_cfg req 1 (demo_bearer_to_create 5) [] m.
Proof.
  destruct (create_session_sent_on demo_sgw_cfg all_ready (demo_mme_create 0 7 [demo_bearer_to_create 5]) sgwc_app_init demo_ue 1 1 1 1
              (demo_bearer_to_create 5) []) as (s' & m & H1 & H2 & H3 & _).
  - reflexivity.
  - vm_compute. discriminate.
  - reflexivity.
  - vm_compute. reflexivity.
  - intros i Hi. vm_compute in Hi. discriminate.
  - reflexivity.
  - vm_compute. reflexivity.
  - vm_compute. reflexivity.
  - vm_compute. reflexivity.
  - vm_compute. reflexivity.
  - vm_compute. reflexivity.
  - reflexivity.
  - exists s', m. split; [exact H1|]. split; [exact H2|exact H3].
Defined.
