(* ===== verification/SgwAnswer.v ===== *)
(** * The answer of the PGW through the SGW

    The response of the PGW to a Create Session Request that waits is sent back
    to the MME, with the user plane of the PGW for the eNodeB.  The last part
    has responses and requests that the SGW does not answer. *)
From S2P Require Import Prelude UidGenerator PaaDynamic Pco Itti UpNodes GtpTlv GtpScalar GtpIdentity GtpQos GtpLocation GtpAddress GtpOptions Container GtpContainer GtpMessages GtpClassLaws Handler AppMsg SgwContext SgwProcedure SgwApp SgwExample SgwLaws SgwSpec MsgElements SgwAttach.
From Stdlib Require Import ZArith Lia String.
From stdpp Require Import base numbers tactics sets list strings gmap.
Open Scope Z_scope.

Set Warnings "-register-all".

(** ** The answer *)

(** The elements of the response of the PGW that go back to the MME. *)
Definition response_conveyed (m m' : itti_gtp_msg) : Prop :=
  conveys gtp_cause m m' /\ conveys paa_t m m' /\ conveys access_point_name_restriction_t m m' /\ conveys ambr_t m m' /\
  conveys protocol_configuration_options_t m m' /\ conveys epc_timer_t m m' /\ conveys indication_t m m'.

Definition accepted (it : fields value) : bool := c_cause_value (default gv_init (ies_get bcc_created 0 it) : gtp_cause) =? REQUEST_ACCEPTED.
Definition created_ebi (it : fields value) : ebi_t := default gv_init (ies_get bcc_created 0 it).

(** The context the MME gets for [it]: an accepted bearer of the connection has
    the user plane of the PGW for its S1-U F-TEID. *)
Definition response_context (x : sgw_pdn_connection) (it : fields value) : fields value :=
  let bcc := ies_forward ebi_t bcc_created bcc_created it (ies_forward gtp_cause bcc_created bcc_created it (class_init bcc_created)) in
  match accepted it, get_eps_bearer (created_ebi it) x, ies_get (A := gtp_fteid) bcc_created 2 it with
  | true, Some _, Some g =>
    let f := fteid_with_interface S1_U_SGW_GTP_U g in
    ies_forward bearer_qos_t bcc_created bcc_created it (if fteid_is_zero f then bcc else ies_set_x bcc_created "s1_u_sgw_fteid" f bcc)
  | _, _, _ => bcc
  end.

Definition answered_context (x : sgw_pdn_connection) (it b : fields value) : Prop :=
  ies_get (A := ebi_t) bcc_created 0 b = ies_get bcc_created 0 it /\ ies_get (A := gtp_cause) bcc_created 0 b = ies_get bcc_created 0 it /\
  (accepted it = true -> is_Some (get_eps_bearer (created_ebi it) x) -> forall g : gtp_fteid, ies_get bcc_created 2 it = Some g ->
     fteid_is_zero g = false ->
     ies_get bcc_created 0 b = Some (fteid_with_interface S1_U_SGW_GTP_U g) /\
     ies_get (A := bearer_qos_t) bcc_created 0 b = ies_get bcc_created 0 it).

Lemma response_context_answered x it : answered_context x it (response_context x it).
Proof.
  unfold answered_context, response_context. cbv zeta. split_and!.
  1, 2: destruct (accepted it), (get_eps_bearer (created_ebi it) x), (ies_get (A := gtp_fteid) bcc_created 2 it) as [g|]; try destruct (fteid_is_zero _); ies_element.
  intros -> [b ->] g -> Hg. change (fteid_is_zero (fteid_with_interface S1_U_SGW_GTP_U g)) with (fteid_is_zero g). rewrite Hg. split; ies_element.
Qed.

Section Answer.
Context (ready : Z -> bool) (resp : itti_gtp_msg) (s : sgw_state) (c p q : nat) (tx : Z) (mk : bool) (msg : itti_gtp_msg) (d : option nat).
Context (z : sgw_eps_bearer_context) (x : sgw_pdn_connection).

Lemma s11_create_session_response_conveys bs :
  let m := foldl (fun m it => add_bearer_context created (response_context x it) m)
             (s11_create_session_response tx msg resp (sgw_fteid_s11_s4_cp z)) bs in
  gtp_msg_kind m = CREATE_SESSION_RESPONSE /\ response_conveyed resp m /\ msg_get 0 m = Some (sgw_fteid_s11_s4_cp z).
Proof.
  unfold s11_create_session_response, response_conveyed, conveys. cbv zeta. split; [made|].
  split_and!; msg_element CREATE_SESSION_RESPONSE.
Qed.

Lemma s11_create_session_response_frame : frame (s11_create_session_response tx msg resp (sgw_fteid_s11_s4_cp z)) =
  (r_endpoint msg, fc_teid_gre_key (msg_member "sender_fteid_for_cp" msg), UNASSIGNED_TEID, tx, ∅).
Proof. unfold s11_create_session_response. cbv zeta. by rewrite !msg_forward_frame, msg_set_x_frame, msg_forward_frame. Qed.

(** The response of the MME. *)
Definition answered (m : itti_gtp_msg) : Prop :=
  gtp_msg_kind m = CREATE_SESSION_RESPONSE /\ teid m = fc_teid_gre_key (msg_member "sender_fteid_for_cp" msg) /\ gtpc_tx_id m = tx /\
  r_endpoint m = r_endpoint msg /\ msg_get 0 m = Some (sgw_fteid_s11_s4_cp z) /\ response_conveyed resp m /\
  Forall2 (answered_context x) (contexts "bearer_contexts_created" resp) (contexts "bearer_contexts_created" m).

Definition response_back : itti_gtp_msg :=
  foldl (fun m it => add_bearer_context created (response_context x it) m)
    (s11_create_session_response tx msg resp (sgw_fteid_s11_s4_cp z)) (contexts "bearer_contexts_created" resp).

Lemma response_back_answered : answered response_back.
Proof.
  pose proof s11_create_session_response_frame as Hf.
  pose proof (s11_create_session_response_conveys (contexts "bearer_contexts_created" resp)) as (Hk & Hc & Hx).
  pose proof (add_bearers_address created (response_context x) (contexts "bearer_contexts_created" resp)
                (s11_create_session_response tx msg resp (sgw_fteid_s11_s4_cp z))) as Ha.
  rewrite Hf in Ha. cbv [frame fst] in Ha. injection Ha as Ha1 Ha2 _ Ha4. unfold answered, response_back. split_and!; try done.
  change "bearer_contexts_created"%string with (created.2) at 2. rewrite contexts_add_bearers.
  assert (contexts created.2 (s11_create_session_response tx msg resp (sgw_fteid_s11_s4_cp z)) = []) as ->.
  { apply (f_equal snd) in Hf. unfold contexts. cbv [frame snd] in Hf. by rewrite Hf. }
  apply Forall2_fmap_r, Forall_Forall2_diag, Forall_true, response_context_answered.
Qed.

(** *** The loop over the contexts *)
Section Loop.
Context (u : sgw_state) (y : sgw_pdn_connection) (m0 : itti_gtp_msg).
Hypothesis Hy : pdn_heap u !! p = Some y.
Hypothesis Hb : forall e b, sgw_eps_bearers y !! e = Some b -> is_Some (bearer_heap u !! b).

(** Only bearers change. *)
Definition created_inv (done : list (fields value)) (m : itti_gtp_msg) (v : sgw_state) : Prop :=
  m = foldl (fun m it => add_bearer_context created (response_context y it) m) m0 done /\ around_bearers u v /\
  pdn_heap v = pdn_heap u /\ forall e b, sgw_eps_bearers y !! e = Some b -> is_Some (bearer_heap v !! b).

Definition with_user_plane (it : fields value) : Prop := accepted it = true -> is_Some (ies_get (A := gtp_fteid) bcc_created 2 it).

Lemma created_bearer_returns it done m v : with_user_plane it -> created_inv done m v ->
  returns (created_bearer p m it) v (fun m v => created_inv (done ++ [it]) m v).
Proof.
  intros Hup (-> & Hv & Ep & Hbv). unfold created_bearer. cbv zeta.
  change (c_cause_value (default gv_init (ies_get bcc_created 0 it)) =? REQUEST_ACCEPTED) with (accepted it).
  fold (created_ebi it). assert (pdn_heap v !! p = Some y) as Ey by (by rewrite Ep). apply returns_bind.
  destruct (accepted it) eqn:Ea.
  - apply returns_bind. read_pdn. destruct (get_eps_bearer (created_ebi it) y) as [b|] eqn:Eb.
    + destruct (Hbv _ _ Eb) as [w Ew]. destruct (Hup Ea) as [g Eg]. apply returns_bind, returns_bind. read_bearer.
      apply returns_modify, returns_bind. read_bearer. apply returns_ret, returns_ret. split; [|split; [done|split; [done|]]].
      * rewrite foldl_snoc. f_equal. unfold response_context. rewrite Ea, Eb, Eg. unfold bearer_accepted. cbv zeta. rewrite Eg.
        by destruct (ies_get (A := bearer_qos_t) bcc_created 0 it).
      * intros e b' He. simpl. apply lookup_insert_is_Some'. right. by eapply Hbv.
    + apply returns_ret, returns_ret. split; [|done]. rewrite foldl_snoc. f_equal. unfold response_context. by rewrite Ea, Eb.
  - apply returns_ret, returns_ret. split; [|done]. rewrite foldl_snoc. f_equal. unfold response_context. by rewrite Ea.
Qed.

Lemma created_bearers_return l : Forall with_user_plane l ->
  returns (fold_handler (created_bearer p) m0 l) u (fun m v => created_inv l m v).
Proof.
  intros Hl. apply (returns_fold_in _ created_inv); [|done]. intros it done m v Hin. apply created_bearer_returns.
  rewrite Forall_forall in Hl. by apply Hl.
Qed.
End Loop.

(** The connection knows the tunnel of the PGW. *)
Definition tunnelled : sgw_pdn_connection :=
  match msg_get_x "s5_s8_pgw_fteid" resp with Some f => set_pgw_fteid_s5_s8_cp f x | None => x end.

Lemma tunnelled_bearers : sgw_eps_bearers tunnelled = sgw_eps_bearers x.
Proof. unfold tunnelled. by destruct (msg_get_x _ resp). Qed.

Lemma response_context_tunnelled it : response_context tunnelled it = response_context x it.
Proof. unfold response_context, get_eps_bearer. by rewrite tunnelled_bearers. Qed.

(** C5 When the PGW accepts the session of a request that waits: the MME gets one
    response, on its tunnel and in its transaction, with the cause, the address
    and the five other elements of [response_conveyed] as in the response of the
    PGW, and the S11 F-TEID of the SGW; each
    bearer context has the identity and the cause the PGW gave, and an accepted
    bearer of the connection has the user plane of the PGW for its S1-U F-TEID;
    the connection knows the tunnel of the PGW; the procedure is over, and the
    tables are as they were. *)
Theorem create_session_answered :
  pgw_fteid_acceptable resp = true -> s5s8lteid2sgw_contexts s !! teid resp = Some (c, p) -> context_heap s !! c = Some z ->
  pdn_connections z <> [] -> pdn_heap s !! p = Some x -> (forall e b, sgw_eps_bearers x !! e = Some b -> is_Some (bearer_heap s !! b)) ->
  find_procedure c (gtpc_tx_id resp) s = Some q -> procedure_heap s !! q = Some (mk_sebc_procedure tx mk (create_session_request_procedure msg d)) ->
  has_contexts created resp = true -> Forall with_user_plane (contexts "bearer_contexts_created" resp) -> has_contexts removed resp = false ->
  c_cause_value (msg_member "cause" resp) < CONTEXT_NOT_FOUND -> ready TASK_SGWC_S11 = true ->
  exists s' m, create_session_response ready resp s = Val (tt, s') /\
    sent_by_sgw s' = sent_by_sgw s ++ [OutGtp TASK_SGWC_S11 m] /\ answered m /\
    pdn_heap s' !! p = Some tunnelled /\
    context_heap s' !! c = Some (set_pending_procedures (erase_first q (pending_procedures z)) z) /\
    imsi2sgw_eps_bearer_context s' = imsi2sgw_eps_bearer_context s /\
    s11lteid2sgw_eps_bearer_context s' = s11lteid2sgw_eps_bearer_context s /\
    s5s8lteid2sgw_contexts s' = s5s8lteid2sgw_contexts s.
Proof.
  intros Ha Ht Ez Hz Ex Hb Hq Eq Hc Hup Hr Hcause Hready.
  enough (returns (create_session_response ready resp) s (fun _ s' =>
    sent_by_sgw s' = sent_by_sgw s ++ [OutGtp TASK_SGWC_S11 response_back] /\ pdn_heap s' !! p = Some tunnelled /\
    context_heap s' !! c = Some (set_pending_procedures (erase_first q (pending_procedures z)) z) /\
    imsi2sgw_eps_bearer_context s' = imsi2sgw_eps_bearer_context s /\
    s11lteid2sgw_eps_bearer_context s' = s11lteid2sgw_eps_bearer_context s /\
    s5s8lteid2sgw_contexts s' = s5s8lteid2sgw_contexts s)) as ([] & s' & E & H1 & H2)
    by (exists s', response_back; split; [exact E|split; [exact H1|split; [apply response_back_answered|exact H2]]]).
  unfold create_session_response. rewrite Ha. apply returns_bind, returns_get. rewrite Ht. apply returns_bind, returns_bind, returns_get. rewrite Hq.
  apply returns_bind. read_procedure. apply returns_bind. cbn [body]. apply returns_bind, returns_bind. read_procedure. apply returns_modify.
  apply returns_bind. read_procedure. apply returns_bind. read_context. apply returns_bind.
  assert (returns (match msg_get_x "s5_s8_pgw_fteid" resp with Some f => update_pdn p (set_pgw_fteid_s5_s8_cp f) | None => mret tt end)
    (set_procedure_heap (<[q := mk_sebc_procedure tx true (create_session_request_procedure msg d)]> (procedure_heap s)) s)
    (fun _ u => around_bearers (set_procedure_heap (<[q := mk_sebc_procedure tx true (create_session_request_procedure msg d)]> (procedure_heap s)) s) u /\
       pdn_heap u !! p = Some tunnelled /\ bearer_heap u = bearer_heap s)) as Hp.
  { unfold tunnelled. destruct (msg_get_x _ resp) as [f|]; [|by apply returns_ret]. apply returns_bind. read_pdn. apply returns_modify.
    split; [done|]. simpl. by rewrite lookup_insert_eq. }
  eapply returns_mono; [|exact Hp]. intros [] u ((H1 & H2 & H3 & H4 & H5 & H6) & H7 & H8). simpl in H1, H2, H3, H4, H5, H6.
  apply returns_bind. unfold present_contexts. rewrite Hc. cbn [snd created trxn_id].
  eapply returns_mono; [|apply (created_bearers_return u tunnelled); [done| |done]].
  2: { intros e b. rewrite tunnelled_bearers, H8. apply Hb. }
  intros m v (-> & (K1 & K2 & K3 & K4 & K5 & K6) & K7 & K8). apply returns_bind. rewrite Hr.
  rewrite (proj2 (Z.leb_gt _ _) Hcause). apply returns_bind, returns_ret, returns_ret.
  unfold send_msg. rewrite Hready. apply returns_bind, returns_bind, returns_modify, returns_ret, returns_ret.
  assert (context_heap v !! c = Some z) as Ez' by (by rewrite K5, H5).
  assert (procedure_heap v !! q = Some (mk_sebc_procedure tx true (create_session_request_procedure msg d))) as Eq'
    by (by rewrite K6, H6, lookup_insert_eq).
  apply returns_bind. read_procedure. cbn [marked_for_removal]. apply returns_bind. read_context. apply returns_modify.
  eapply returns_mono; [|eapply forget_if_idle_returns; simpl; by rewrite lookup_insert_eq].
  intros [] s' (L1 & L2 & L3). simpl in L3. destruct (pdn_connections z); [done|]. subst s'. simpl.
  rewrite K1, H1, K7, lookup_insert_eq, K2, K3, K4, H2, H3, H4. split; [|done]. unfold response_back. do 3 f_equal.
  apply add_bearers_ext, response_context_tunnelled.
Qed.
End Answer.

(** The demonstration waits for its PGW. *)
Definition sgw_opening : sgw_state := sgw_state_after [S11_CREATE_SESSION_REQUEST (demo_mme_create 0 7 [demo_bearer_to_create 5])].
Definition opening_context : sgw_eps_bearer_context := default sgw_eps_bearer_context_new (context_heap sgw_opening !! 0%nat).
Definition opening_pdn : sgw_pdn_connection := default sgw_pdn_connection_new (pdn_heap sgw_opening !! 2%nat).

Lemma create_session_answered_witness :
  let resp := demo_pgw_created 1 7 REQUEST_ACCEPTED [demo_bearer_created 5 REQUEST_ACCEPTED] in
  exists s' m, create_session_response all_ready resp sgw_opening = Val (tt, s') /\
    sent_by_sgw s' = sent_by_sgw sgw_opening ++ [OutGtp TASK_SGWC_S11 m] /\
    answered resp 7 (demo_mme_create 0 7 [demo_bearer_to_create 5]) opening_context opening_pdn m.
Proof.
  destruct (create_session_answered all_ready (demo_pgw_created 1 7 REQUEST_ACCEPTED [demo_bearer_created 5 REQUEST_ACCEPTED]) sgw_opening
              0 2 1 7 false (demo_mme_create 0 7 [demo_bearer_to_create 5]) (Some 0%nat) opening_context opening_pdn)
    as (s' & m & H1 & H2 & H3 & _).
  - vm_compute. reflexivity.
  - vm_compute. reflexivity.
  - vm_compute. reflexivity.
  - vm_compute. discriminate.
  - vm_compute. reflexivity.
  - assert (sgw_eps_bearers opening_pdn = {[5 := 3%nat]}) as Hb by (vm_compute; reflexivity).
    intros e b. rewrite Hb. intros [_ <-]%lookup_singleton_Some. eexists. vm_compute. reflexivity.
  - vm_compute. reflexivity.
  - vm_compute. reflexivity.
  - vm_compute. reflexivity.
  - assert (contexts "bearer_contexts_created" (demo_pgw_created 1 7 REQUEST_ACCEPTED [demo_bearer_created 5 REQUEST_ACCEPTED]) =
            [demo_bearer_created 5 REQUEST_ACCEPTED]) as -> by (vm_compute; reflexivity).
    apply Forall_singleton. intros _. eexists. vm_compute. reflexivity.
  - vm_compute. reflexivity.
  - vm_compute. reflexivity.
  - reflexivity.
  - exists s', m. split; [exact H1|]. split; [exact H2|exact H3].
Defined.

(** ** Messages without an answer *)

(** A Delete Session Request without the operation indication changes nothing and
    is not answered. *)
Lemma delete_without_oi cfg ready m s c :
  teid m <> 0 -> s11lteid2sgw_eps_bearer_context s !! teid m = Some c ->
  (forall i : indication_t, msg_get 0 m = Some i -> ind_oi i = 0) -> delete_session_request cfg ready m s = Val (tt, s).
Proof.
  intros Ht Hc Hi. unfold delete_session_request, with_subscriber. cbv [mbind handler_bind get_state]. rewrite (proj2 (Z.eqb_neq _ _) Ht), Hc.
  unfold context_delete_session_request, unless_pending. cbv [mbind handler_bind get_state]. destruct (find_procedure c (gtpc_tx_id m) s); [done|].
  destruct (msg_get 0 m) as [i|] eqn:Ei; [|done]. by rewrite (Hi i eq_refl).
Qed.

(** A Create Session Request for an APN and a type the subscriber is connected to
    is not answered. *)
Lemma create_for_open_connection cfg ready q c msg s p :
  find_pdn_connection_apn c (apn_core (msg_member "apn" msg)) (msg_member "pdn_type" msg) s = Some p ->
  create_session_run cfg ready q c msg s = Val (RETURNerror, s).
Proof. intros H. unfold create_session_run. cbv [mbind handler_bind get_state]. by rewrite H. Qed.

(** A Create Session Response in the transaction of a procedure of another class
    is handled through a null pointer. *)
Lemma response_of_another_class ready resp s c p q tx mk msg d p' :
  pgw_fteid_acceptable resp = true -> s5s8lteid2sgw_contexts s !! teid resp = Some (c, p) -> find_procedure c (gtpc_tx_id resp) s = Some q ->
  procedure_heap s !! q = Some (mk_sebc_procedure tx mk (delete_session_request_procedure msg d p')) ->
  create_session_response ready resp s = UB.
Proof.
  intros Ha Ht Hq Eq. unfold create_session_response, with_contexts, context_create_session_response, with_procedure, get_procedure.
  rewrite Ha. cbv [mbind handler_bind get_state gets]. rewrite Ht. cbv [mbind handler_bind get_state]. rewrite Hq.
  cbv [mbind handler_bind gets deref]. by rewrite Eq.
Qed.
