(* ===== verification/GtpTask.v ===== *)
(** * The tasks of the GTPv2-C interfaces

    [src/oai_spgwc/sgwc_s11.cpp], [sgwc_s5s8.cpp] and [pgw_s5s8.cpp] put an
    interface between a transaction layer ([Gtpv2cStack]) and an application:
    they load the datagrams, fill a container and send it on as an ITTI
    message, and they send what the application gives them.  This file holds
    what the three classes write alike; their own parts are in [S11Task],
    [SgwS5S8Task] and [PgwS5S8Task]. *)
From S2P Require Import Prelude PaaDynamic Stream UidGenerator Itti TimerService AtomicMap GtpTlv GtpScalar GtpIe GtpCore GtpMsg Container GtpContainer GtpMessages GtpClassLaws Gtpv2cStack GtpTermination GtpEndToEnd AppMsg.
From Stdlib Require Import ZArith Lia String.
From stdpp Require Import base numbers tactics list strings gmap sets.
Open Scope Z_scope.

(** [endpoint::port()]: the port is at the same place in both families, and a
    default endpoint is all zero. *)
Definition endpoint_port (ep : endpoint) : Z :=
  match ep with EpNone => 0 | Ep4 _ p | Ep6 _ p => p end.

(** What a task receives from the ITTI. *)
Inductive itti_event :=
| ItGtp (m : itti_gtp_msg)
| ItTimeOut (timer_id : Z)
| ItTerminate
| ItHealthPing.

(** The copy constructor and the assignment of a container: the members they
    copy and swap. *)
Definition gtp_copies (k : gtp_kind) : list string * list string :=
  match k with
  | REMOTE_PEER_NOT_RESPONDING_IND => ([], [])
  | CREATE_SESSION_REQUEST => (gtpv2c_create_session_request_copy, gtpv2c_create_session_request_assign)
  | CREATE_SESSION_RESPONSE => (gtpv2c_create_session_response_copy, gtpv2c_create_session_response_assign)
  | MODIFY_BEARER_REQUEST => (gtpv2c_modify_bearer_request_copy, gtpv2c_modify_bearer_request_assign)
  | MODIFY_BEARER_RESPONSE => (gtpv2c_modify_bearer_response_copy, gtpv2c_modify_bearer_response_assign)
  | DELETE_SESSION_REQUEST => (gtpv2c_delete_session_request_copy, gtpv2c_delete_session_request_assign)
  | DELETE_SESSION_RESPONSE => (gtpv2c_delete_session_response_copy, gtpv2c_delete_session_response_assign)
  | RELEASE_ACCESS_BEARERS_REQUEST =>
    (gtpv2c_release_access_bearers_request_copy, gtpv2c_release_access_bearers_request_assign)
  | RELEASE_ACCESS_BEARERS_RESPONSE =>
    (gtpv2c_release_access_bearers_response_copy, gtpv2c_release_access_bearers_response_assign)
  | DOWNLINK_DATA_NOTIFICATION => (gtpv2c_downlink_data_notification_copy, gtpv2c_downlink_data_notification_assign)
  | DOWNLINK_DATA_NOTIFICATION_ACKNOWLEDGE =>
    (gtpv2c_downlink_data_notification_acknowledge_copy, gtpv2c_downlink_data_notification_acknowledge_assign)
  end.

(** [itti_msg->gtp_ies = msg_ies_container], in a new message: the argument of
    the assignment is a copy. *)
Definition assigned (k : gtp_kind) (c : container) : container :=
  let new := new_container (gtp_class k) in
  assign_container (gtp_copies k).2 (copy_container (gtp_copies k).1 c new) new.

Section Task.
Context {G T : Type} {M : Type -> Type} `{FG : FreshIds G} `{TS : TimerService T} `{AM : AtomicMap M}.

Abbreviation stack := (@gtpv2c_stack G T M endpoint).

(** An interface: its stack, and the messages it gave to [itti_inst->send_msg],
    newest last. *)
Record gtp_task := mk_gtp_task { task_stack : stack; task_sent : list itti_gtp_msg }.

Definition with_stack (s : stack) (t : gtp_task) : gtp_task := mk_gtp_task s (task_sent t).
Definition send_itti (m : itti_gtp_msg) (t : gtp_task) : gtp_task := mk_gtp_task (task_stack t) (task_sent t ++ [m]).

(** [None]: the id generator does not return. *)
Definition task_result : Type := option (result stack_exn gtp_task).

(** [handle_receive] catches a [gtpc_exception]: what is thrown where the task
    is [t] leaves it as [t].  [std::length_error] is not one: nobody catches it. *)
Definition or_caught {A} (r : result gtpc_exn A) (t : gtp_task) (k : A -> task_result) : task_result :=
  match r with
  | Val a => k a
  | Throw std_length_error => Some (Throw (GtpcException std_length_error))
  | Throw _ => Some (Val t)
  | UB => Some UB
  | Diverge => Some Diverge
  end.

(** [msg.to_core_type(msg_ies_container)], then [handle_receive_message_cb];
    [k] is what follows when there is no error. *)
Definition receive_then (mc : message_class) (task_id : Z) (msg : gtpv2c_msg) (t : gtp_task)
    (k : container -> Z -> gtp_task -> result stack_exn gtp_task) : task_result :=
  or_caught (message_to_container mc msg (new_container mc)) t (fun c =>
    r ← handle_receive_message_cb msg task_id (task_stack t);
    Some ('(error, tx, s) ← r;
          if (error : bool) then Val (with_stack s t) else k c tx (with_stack s t))).

(** The body of the [handle_receive_xxx] that send the message on. *)
Definition receive (k : gtp_kind) (task_id : Z) (msg : gtpv2c_msg) (ep : endpoint) (t : gtp_task) : task_result :=
  receive_then (gtp_class k) task_id msg t (fun c tx t =>
    Val (send_itti (mk_itti_gtp_msg k ep (gh_teid (ghdr msg)) UNASSIGNED_TEID tx (assigned k c)) t)).

(** [handle_receive]: [dispatch] is [handle_receive_gtpv2c_msg]. *)
Definition receive_datagram (dispatch : gtpv2c_msg -> endpoint -> gtp_task -> task_result)
    (recv_buffer : list Z) (ep : endpoint) (t : gtp_task) : task_result :=
  or_caught (gtpv2c_msg_load_from (S (length recv_buffer))
               (mk_gtpv2c_msg gtpv2c_msg_header_init (endpoint_port ep) []) (istream_of recv_buffer)) t
    (fun '(msg, _) => dispatch msg ep t).

(** [send_initial_message] and [send_triggered_message] of a container: the
    message is built from it first, in the second once the transaction has been
    found.  [j] is what the elements leave uninitialised. *)
Definition send_initial (j : junk) (P : message) (task_id : Z) (i : itti_gtp_msg) (t : gtp_task)
  : result stack_exn gtp_task :=
  msg ← of_gtpc (message_of j P (gtp_ies i));
  '(_, s) ← send_initial_message (r_endpoint i) (Some (teid i, l_teid i)) msg task_id (AppMsg.gtpc_tx_id i) (task_stack t);
  Val (with_stack s t).

Definition send_triggered (j : junk) (P : message) (i : itti_gtp_msg) (a : gtpv2c_transaction_action) (t : gtp_task)
  : result stack_exn gtp_task :=
  match ahm_find (AppMsg.gtpc_tx_id i) (gtpc_tx_id2seq_num (task_stack t)) with
  | Some _ =>
    msg ← of_gtpc (message_of j P (gtp_ies i));
    s ← send_triggered_message (r_endpoint i) (Some (teid i)) msg (AppMsg.gtpc_tx_id i) a (task_stack t);
    Val (with_stack s t)
  | None => Val t
  end.

(** [time_out_itti_event]: [notify] is [notify_ul_error], which the stack calls. *)
Definition time_out_with (notify : endpoint -> Z -> Z -> Z -> list itti_gtp_msg) (task_id timer_id : Z) (t : gtp_task)
  : result stack_exn gtp_task :=
  '(_, s) ← time_out_event timer_id task_id (task_stack t);
  let notified o := match o with NotifyUlError dest l cause tx => notify (default EpNone dest) l cause tx | _ => [] end in
  Val (mk_gtp_task s (task_sent t ++ concat (notified <$> drop (length (outputs (task_stack t))) (outputs s)))).
End Task.
Arguments gtp_task : clear implicits.
Arguments task_result : clear implicits.
