(* ===== verification/S11Task.v ===== *)
(** * The S11 interface of the SGW

    [src/oai_spgwc/sgwc_s11.cpp]: the requests of an MME to the application of
    the SGW, its responses and its notifications to the MME, and the echo. *)
From S2P Require Import Prelude PaaDynamic Stream UidGenerator Itti TimerService AtomicMap GtpTlv GtpScalar GtpIe GtpCore GtpMsg Container GtpContainer GtpMessages Gtpv2cStack AppMsg SgwApp GtpTask.
From Stdlib Require Import ZArith Lia String.
From stdpp Require Import base numbers tactics list strings gmap sets.
Open Scope Z_scope.

Section S11.
Context {G T : Type} {M : Type -> Type} `{FG : FreshIds G} `{TS : TimerService T} `{AM : AtomicMap M} (j : junk).

Abbreviation task := (gtp_task G T M).
Abbreviation outcome := (task_result G T M).

(** The five overloads, by the type of the message. *)
Definition send_msg (i : itti_gtp_msg) (t : task) : result stack_exn task :=
  match gtp_msg_kind i with
  | CREATE_SESSION_RESPONSE => send_triggered j create_session_response_message i CONTINUE_TX t
  | DELETE_SESSION_RESPONSE => send_triggered j delete_session_response_message i CONTINUE_TX t
  | MODIFY_BEARER_RESPONSE => send_triggered j modify_bearer_response_message i CONTINUE_TX t
  | RELEASE_ACCESS_BEARERS_RESPONSE => send_triggered j release_access_bearers_response_message i CONTINUE_TX t
  | DOWNLINK_DATA_NOTIFICATION => send_initial j downlink_data_notification_message TASK_SGWC_S11 i t
  | _ => Val t
  end.

Definition handle_receive_create_session_request (msg : gtpv2c_msg) (ep : endpoint) (t : task) : outcome :=
  receive CREATE_SESSION_REQUEST TASK_SGWC_S11 msg ep t.
Definition handle_receive_delete_session_request (msg : gtpv2c_msg) (ep : endpoint) (t : task) : outcome :=
  receive DELETE_SESSION_REQUEST TASK_SGWC_S11 msg ep t.
Definition handle_receive_modify_bearer_request (msg : gtpv2c_msg) (ep : endpoint) (t : task) : outcome :=
  receive MODIFY_BEARER_REQUEST TASK_SGWC_S11 msg ep t.
Definition handle_receive_release_access_bearers_request (msg : gtpv2c_msg) (ep : endpoint) (t : task) : outcome :=
  receive RELEASE_ACCESS_BEARERS_REQUEST TASK_SGWC_S11 msg ep t.
Definition handle_receive_downlink_data_notification_acknowledge (msg : gtpv2c_msg) (ep : endpoint) (t : task) : outcome :=
  receive DOWNLINK_DATA_NOTIFICATION_ACKNOWLEDGE TASK_SGWC_S11 msg ep t.

(** [h.set(r)] is a call of the class's own overload. *)
Definition echo_response_ies : container :=
  let new := new_container gtpv2c_echo_response in
  mk_container (slot_set (c_width gtpv2c_echo_response_class) (First, "recovery_restart_counter")
                  (VCore (CoreRecovery (mk_recovery_t 0))) (ct_fields new)) (ct_lists new).

(** The action is the default one, [DELETE_TX]. *)
Definition send_echo_response (ep : endpoint) (trxn_id : Z) (t : task) : result stack_exn task :=
  match ahm_find trxn_id (gtpc_tx_id2seq_num (task_stack t)) with
  | Some _ =>
    msg ← of_gtpc (message_of j echo_response_message echo_response_ies);
    s ← send_triggered_message ep None msg trxn_id DELETE_TX (task_stack t);
    Val (with_stack s t)
  | None => Val t
  end.

(** A [gtpc_exception] of [send_echo_response] would be caught too; [dump_to]
    comes before any change of the stack. *)
Definition handle_receive_echo_request (msg : gtpv2c_msg) (ep : endpoint) (t : task) : outcome :=
  receive_then gtpv2c_echo_request TASK_SGWC_S11 msg t (fun c tx t =>
    if slot_present (First, "recovery_restart_counter") (ct_fields c) then
      match send_echo_response ep tx t with
      | Throw (GtpcException std_length_error) as r => r
      | Throw (GtpcException _) => Val t
      | r => r
      end
    else Val t).

Definition handle_receive_echo_response (msg : gtpv2c_msg) (ep : endpoint) (t : task) : outcome :=
  receive_then gtpv2c_echo_response TASK_SGWC_S11 msg t (fun c tx t => Val t).

Definition handle_receive_gtpv2c_msg (msg : gtpv2c_msg) (ep : endpoint) (t : task) : outcome :=
  let ty := msg_type msg in
  if ty =? GTP_CREATE_SESSION_REQUEST then handle_receive_create_session_request msg ep t
  else if ty =? GTP_MODIFY_BEARER_REQUEST then handle_receive_modify_bearer_request msg ep t
  else if ty =? GTP_DELETE_SESSION_REQUEST then handle_receive_delete_session_request msg ep t
  else if ty =? GTP_RELEASE_ACCESS_BEARERS_REQUEST then handle_receive_release_access_bearers_request msg ep t
  else if ty =? GTP_DOWNLINK_DATA_NOTIFICATION_ACKNOWLEDGE then
    handle_receive_downlink_data_notification_acknowledge msg ep t
  else if ty =? GTP_ECHO_REQUEST then handle_receive_echo_request msg ep t
  else if ty =? GTP_ECHO_RESPONSE then handle_receive_echo_response msg ep t
  else Some (Val t).

Definition handle_receive (recv_buffer : list Z) (ep : endpoint) (t : task) : outcome :=
  receive_datagram handle_receive_gtpv2c_msg recv_buffer ep t.

(** The local TEID is the [teid] of the notification. *)
Definition notify_ul_error (r_ep : endpoint) (l_teid cause tx : Z) : list itti_gtp_msg :=
  if cause =? REMOTE_PEER_NOT_RESPONDING
  then [gtp_address tx l_teid r_ep (new_gtp_msg REMOTE_PEER_NOT_RESPONDING_IND)]
  else [].

Definition time_out_itti_event (timer_id : Z) (t : task) : result stack_exn task :=
  time_out_with notify_ul_error TASK_SGWC_S11 timer_id t.

(** One turn of the loop, and whether there is another one. *)
Definition sgw_s11_task (e : itti_event) (t : task) : result stack_exn (bool * task) :=
  match e with
  | ItGtp m => t ← send_msg m t; Val (true, t)
  | ItTimeOut timer_id => t ← time_out_itti_event timer_id t; Val (true, t)
  | ItTerminate => Val (false, t)
  | ItHealthPing => Val (true, t)
  end.
End S11.

(** What the application of the SGW makes of a message of this task. *)
Definition s11_to_app (m : itti_gtp_msg) : option sgw_msg :=
  match gtp_msg_kind m with
  | CREATE_SESSION_REQUEST => Some (S11_CREATE_SESSION_REQUEST m)
  | DELETE_SESSION_REQUEST => Some (S11_DELETE_SESSION_REQUEST m)
  | MODIFY_BEARER_REQUEST => Some (S11_MODIFY_BEARER_REQUEST m)
  | RELEASE_ACCESS_BEARERS_REQUEST => Some (S11_RELEASE_ACCESS_BEARERS_REQUEST m)
  | DOWNLINK_DATA_NOTIFICATION_ACKNOWLEDGE => Some (S11_DOWNLINK_DATA_NOTIFICATION_ACKNOWLEDGE m)
  | REMOTE_PEER_NOT_RESPONDING_IND => Some (S11_REMOTE_PEER_NOT_RESPONDING m)
  | _ => None
  end.
