(* ===== verification/SgwS5S8Task.v ===== *)
(** * The S5/S8 interface of the SGW

    [src/oai_spgwc/sgwc_s5s8.cpp]: the requests of the application of the SGW to
    a PGW, the responses and the notifications of the PGW to the application. *)
From S2P Require Import Prelude PaaDynamic Stream UidGenerator Itti TimerService AtomicMap GtpTlv GtpScalar GtpIe GtpCore GtpMsg Container GtpContainer GtpMessages Gtpv2cStack AppMsg SgwApp GtpTask.
From Stdlib Require Import ZArith Lia String.
From stdpp Require Import base numbers tactics list strings gmap sets.
Open Scope Z_scope.

Section SgwS5S8.
Context {G T : Type} {M : Type -> Type} `{FG : FreshIds G} `{TS : TimerService T} `{AM : AtomicMap M} (j : junk).

Abbreviation task := (gtp_task G T M).
Abbreviation outcome := (task_result G T M).

(** The five overloads, by the type of the message. *)
Definition send_msg (i : itti_gtp_msg) (t : task) : result stack_exn task :=
  match gtp_msg_kind i with
  | CREATE_SESSION_REQUEST => send_initial j create_session_request_message TASK_SGWC_S5S8 i t
  | DELETE_SESSION_REQUEST => send_initial j delete_session_request_message TASK_SGWC_S5S8 i t
  | MODIFY_BEARER_REQUEST => send_initial j modify_bearer_request_message TASK_SGWC_S5S8 i t
  | RELEASE_ACCESS_BEARERS_REQUEST => send_initial j release_access_bearers_request_message TASK_SGWC_S5S8 i t
  | DOWNLINK_DATA_NOTIFICATION_ACKNOWLEDGE => send_triggered j downlink_data_notification_acknowledge_message i CONTINUE_TX t
  | _ => Val t
  end.

Definition handle_receive_create_session_response (msg : gtpv2c_msg) (ep : endpoint) (t : task) : outcome :=
  receive CREATE_SESSION_RESPONSE TASK_SGWC_S5S8 msg ep t.
Definition handle_receive_modify_bearer_response (msg : gtpv2c_msg) (ep : endpoint) (t : task) : outcome :=
  receive MODIFY_BEARER_RESPONSE TASK_SGWC_S5S8 msg ep t.
Definition handle_receive_release_access_bearers_response (msg : gtpv2c_msg) (ep : endpoint) (t : task) : outcome :=
  receive RELEASE_ACCESS_BEARERS_RESPONSE TASK_SGWC_S5S8 msg ep t.
Definition handle_receive_delete_session_response (msg : gtpv2c_msg) (ep : endpoint) (t : task) : outcome :=
  receive DELETE_SESSION_RESPONSE TASK_SGWC_S5S8 msg ep t.
Definition handle_receive_downlink_data_notification (msg : gtpv2c_msg) (ep : endpoint) (t : task) : outcome :=
  receive DOWNLINK_DATA_NOTIFICATION TASK_SGWC_S5S8 msg ep t.

(** The labels of the two echo messages and of the version indication have no
    body of their own: they fall into the one of the Create Session Response. *)
Definition handle_receive_gtpv2c_msg (msg : gtpv2c_msg) (ep : endpoint) (t : task) : outcome :=
  let ty := msg_type msg in
  if mem ty [GTP_ECHO_REQUEST; GTP_ECHO_RESPONSE; GTP_VERSION_NOT_SUPPORTED_INDICATION; GTP_CREATE_SESSION_RESPONSE] then
    handle_receive_create_session_response msg ep t
  else if ty =? GTP_MODIFY_BEARER_RESPONSE then handle_receive_modify_bearer_response msg ep t
  else if ty =? GTP_DELETE_SESSION_RESPONSE then handle_receive_delete_session_response msg ep t
  else if ty =? GTP_RELEASE_ACCESS_BEARERS_RESPONSE then handle_receive_release_access_bearers_response msg ep t
  else if ty =? GTP_DOWNLINK_DATA_NOTIFICATION then handle_receive_downlink_data_notification msg ep t
  else Some (Val t).

Definition handle_receive (recv_buffer : list Z) (ep : endpoint) (t : task) : outcome :=
  receive_datagram handle_receive_gtpv2c_msg recv_buffer ep t.

(** The local TEID is the [l_teid] of the notification; [teid] is unassigned. *)
Definition notify_ul_error (r_ep : endpoint) (l_teid cause tx : Z) : list itti_gtp_msg :=
  if cause =? REMOTE_PEER_NOT_RESPONDING
  then [with_l_teid l_teid (gtp_address tx UNASSIGNED_TEID r_ep (new_gtp_msg REMOTE_PEER_NOT_RESPONDING_IND))]
  else [].

Definition time_out_itti_event (timer_id : Z) (t : task) : result stack_exn task :=
  time_out_with notify_ul_error TASK_SGWC_S5S8 timer_id t.

Definition sgw_s5s8_task (e : itti_event) (t : task) : result stack_exn (bool * task) :=
  match e with
  | ItGtp m => t ← send_msg m t; Val (true, t)
  | ItTimeOut timer_id => t ← time_out_itti_event timer_id t; Val (true, t)
  | ItTerminate => Val (false, t)
  | ItHealthPing => Val (true, t)
  end.
End SgwS5S8.

(** What the application of the SGW makes of a message of this task. *)
Definition sgw_s5s8_to_app (m : itti_gtp_msg) : option sgw_msg :=
  match gtp_msg_kind m with
  | CREATE_SESSION_RESPONSE => Some (S5S8_CREATE_SESSION_RESPONSE m)
  | DELETE_SESSION_RESPONSE => Some (S5S8_DELETE_SESSION_RESPONSE m)
  | MODIFY_BEARER_RESPONSE => Some (S5S8_MODIFY_BEARER_RESPONSE m)
  | RELEASE_ACCESS_BEARERS_RESPONSE => Some (S5S8_RELEASE_ACCESS_BEARERS_RESPONSE m)
  | DOWNLINK_DATA_NOTIFICATION => Some (S5S8_DOWNLINK_DATA_NOTIFICATION m)
  | REMOTE_PEER_NOT_RESPONDING_IND => Some (S5S8_REMOTE_PEER_NOT_RESPONDING m)
  | _ => None
  end.
