(* ===== verification/PgwS5S8Task.v ===== *)
(** * The S5/S8 interface of the PGW

    [src/oai_spgwc/pgw_s5s8.cpp]: the requests of an SGW to the application of
    the PGW, its responses and its notifications to the SGW. *)
From S2P Require Import Prelude PaaDynamic Stream UidGenerator Itti TimerService AtomicMap GtpTlv GtpScalar GtpIe GtpCore GtpMsg Container GtpContainer GtpMessages Gtpv2cStack AppMsg PgwApp GtpTask.
From Stdlib Require Import ZArith Lia String.
From stdpp Require Import base numbers tactics list strings gmap sets.
Open Scope Z_scope.

Section PgwS5S8.
Context {G T : Type} {M : Type -> Type} `{FG : FreshIds G} `{TS : TimerService T} `{AM : AtomicMap M} (j : junk).

Abbreviation task := (gtp_task G T M).
Abbreviation outcome := (task_result G T M).

(** The five overloads, by the type of the message. *)
Definition send_msg (i : itti_gtp_msg) (t : task) : result stack_exn task :=
  match gtp_msg_kind i with
  | CREATE_SESSION_RESPONSE => send_triggered j create_session_response_message i CONTINUE_TX t
  | DELETE_SESSION_RESPONSE => send_triggered j delete_session_response_message i CONTINUE_TX t
  | MODIFY_BEARER_RESPONSE => send_triggered j modify_bearer_response_message i CONTINUE_TX t
  | RELEASE_ACCESS_BEARERS_RESPONSE => send_triggered j release_access_bearers_response_message i CONTINUE_TX t
  | DOWNLINK_DATA_NOTIFICATION => send_initial j downlink_data_notification_message TASK_PGWC_S5S8 i t
  | _ => Val t
  end.

Definition handle_receive_create_session_request (msg : gtpv2c_msg) (ep : endpoint) (t : task) : outcome :=
  receive CREATE_SESSION_REQUEST TASK_PGWC_S5S8 msg ep t.
Definition handle_receive_delete_session_request (msg : gtpv2c_msg) (ep : endpoint) (t : task) : outcome :=
  receive DELETE_SESSION_REQUEST TASK_PGWC_S5S8 msg ep t.
Definition handle_receive_modify_bearer_request (msg : gtpv2c_msg) (ep : endpoint) (t : task) : outcome :=
  receive MODIFY_BEARER_REQUEST TASK_PGWC_S5S8 msg ep t.
Definition handle_receive_release_access_bearers_request (msg : gtpv2c_msg) (ep : endpoint) (t : task) : outcome :=
  receive RELEASE_ACCESS_BEARERS_REQUEST TASK_PGWC_S5S8 msg ep t.

(** The task is the one of another interface. *)
Definition handle_receive_downlink_data_notification_acknowledge (msg : gtpv2c_msg) (ep : endpoint) (t : task) : outcome :=
  receive DOWNLINK_DATA_NOTIFICATION_ACKNOWLEDGE TASK_SGWC_S11 msg ep t.

Definition handle_receive_gtpv2c_msg (msg : gtpv2c_msg) (ep : endpoint) (t : task) : outcome :=
  let ty := msg_type msg in
  if ty =? GTP_CREATE_SESSION_REQUEST then handle_receive_create_session_request msg ep t
  else if ty =? GTP_MODIFY_BEARER_REQUEST then handle_receive_modify_bearer_request msg ep t
  else if ty =? GTP_DELETE_SESSION_REQUEST then handle_receive_delete_session_request msg ep t
  else if ty =? GTP_DOWNLINK_DATA_NOTIFICATION_ACKNOWLEDGE then
    handle_receive_downlink_data_notification_acknowledge msg ep t
  else if ty =? GTP_RELEASE_ACCESS_BEARERS_REQUEST then handle_receive_release_access_bearers_request msg ep t
  else Some (Val t).

Definition handle_receive (recv_buffer : list Z) (ep : endpoint) (t : task) : outcome :=
  receive_datagram handle_receive_gtpv2c_msg recv_buffer ep t.

(** The local TEID is the [teid] of the notification. *)
Definition notify_ul_error (r_ep : endpoint) (l_teid cause tx : Z) : list itti_gtp_msg :=
  if cause =? REMOTE_PEER_NOT_RESPONDING
  then [gtp_address tx l_teid r_ep (new_gtp_msg REMOTE_PEER_NOT_RESPONDING_IND)]
  else [].

Definition time_out_itti_event (timer_id : Z) (t : task) : result stack_exn task :=
  time_out_with notify_ul_error TASK_PGWC_S5S8 timer_id t.

Definition pgw_s5s8_task (e : itti_event) (t : task) : result stack_exn (bool * task) :=
  match e with
  | ItGtp m => t ← send_msg m t; Val (true, t)
  | ItTimeOut timer_id => t ← time_out_itti_event timer_id t; Val (true, t)
  | ItTerminate => Val (false, t)
  | ItHealthPing => Val (true, t)
  end.
End PgwS5S8.

(** What the application of the PGW makes of a message of this task; it has no
    case for a peer that does not respond. *)
Definition pgw_s5s8_to_app (m : itti_gtp_msg) : option pgw_msg :=
  match gtp_msg_kind m with
  | CREATE_SESSION_REQUEST => Some (S5S8_CREATE_SESSION_REQUEST m)
  | DELETE_SESSION_REQUEST => Some (S5S8_DELETE_SESSION_REQUEST m)
  | MODIFY_BEARER_REQUEST => Some (S5S8_MODIFY_BEARER_REQUEST m)
  | RELEASE_ACCESS_BEARERS_REQUEST => Some (S5S8_RELEASE_ACCESS_BEARERS_REQUEST m)
  | DOWNLINK_DATA_NOTIFICATION_ACKNOWLEDGE => Some (S5S8_DOWNLINK_DATA_NOTIFICATION_ACKNOWLEDGE m)
  | _ => None
  end.
