(* ===== verification/TaskLaws.v ===== *)
(** * Across an interface

    What an application gives to an interface task is what the application of
    the peer gets from its own: the message is built, numbered and written, the
    peer loads it, opens a transaction for it and sends its container on; the
    answer goes back under the sequence number of the request and closes the
    transaction of the requester.  A datagram that comes twice is delivered
    once. *)
From S2P Require Import Prelude PaaDynamic Stream UidGenerator Itti TimerService AtomicMap GtpTlv GtpScalar GtpIdentity GtpQos GtpLocation GtpAddress GtpOptions GtpIe GtpCore GtpMsg Container GtpContainer GtpMessages GtpClassLaws Gtpv2cStack GtpTermination GtpEndToEnd AppMsg GtpTask.
From S2P Require S11Task SgwS5S8Task PgwS5S8Task.
From Stdlib Require Import ZArith Lia String.
From stdpp Require Import base numbers tactics list strings gmap sets.
Open Scope Z_scope.

(** ** What is delivered *)

(** The message of each kind. *)
Definition gtp_message (k : gtp_kind) : message :=
  match k with
  | REMOTE_PEER_NOT_RESPONDING_IND => mk_message 0 (gtp_class k) []
  | CREATE_SESSION_REQUEST => create_session_request_message
  | CREATE_SESSION_RESPONSE => create_session_response_message
  | MODIFY_BEARER_REQUEST => modify_bearer_request_message
  | MODIFY_BEARER_RESPONSE => modify_bearer_response_message
  | DELETE_SESSION_REQUEST => delete_session_request_message
  | DELETE_SESSION_RESPONSE => delete_session_response_message
  | RELEASE_ACCESS_BEARERS_REQUEST => release_access_bearers_request_message
  | RELEASE_ACCESS_BEARERS_RESPONSE => release_access_bearers_response_message
  | DOWNLINK_DATA_NOTIFICATION => downlink_data_notification_message
  | DOWNLINK_DATA_NOTIFICATION_ACKNOWLEDGE => downlink_data_notification_acknowledge_message
  end.

Definition gtp_type (k : gtp_kind) : Z := mg_type (gtp_message k).

Lemma gtp_message_class k : mg_class (gtp_message k) = gtp_class k.
Proof. by destruct k. Qed.

Lemma gtp_message_sent k : k <> REMOTE_PEER_NOT_RESPONDING_IND -> gtp_message k ∈ sent_messages.
Proof. intros Hk. unfold sent_messages. destruct k; try done; repeat (apply list_elem_of_here || apply list_elem_of_further). Qed.

(** The container [c'] a task sends on for the container [c] of its peer: every
    member that is sent reads as the peer's, the others are absent, and the
    vectors of bearer contexts correspond; but for the RAT type of a Modify
    Bearer Request, which the assignment does not copy. *)
Record delivered (k : gtp_kind) (c c' : container) : Prop := {
  dl_fields : forall s, s ∈ class_slots (mc_class (gtp_class k)) ->
    (k = MODIFY_BEARER_REQUEST -> s.2 <> "rat_type") ->
    slot_get s (ct_fields c') =
      if decide (s ∈ sent_slots (gtp_class k) (mg_builds (gtp_message k))) then slot_get s (ct_fields c) else None;
  dl_contexts : forall s n rows, BuildContexts s n rows ∈ mg_builds (gtp_message k) ->
    exists cc, context_case (gtp_class k) n = Some (s, cc) /\
      Forall2 (received_context cc rows) (contexts_at s c) (contexts_at s c');
}.

Definition copied_twice (k : gtp_kind) (s : slot) : bool :=
  slot_copied (gtp_copies k).1 s && slot_copied (swapped (gtp_copies k).2) s.

Definition lost (k : gtp_kind) (s : slot) : bool :=
  bool_decide (k = MODIFY_BEARER_REQUEST) && bool_decide (s.2 = "rat_type").

Lemma assigned_slots k s :
  s ∈ container_slots (gtp_class k) -> copied_twice k s || lost k s = true.
Proof.
  intros Hs.
  assert (forallb (fun s => copied_twice k s || lost k s) (container_slots (gtp_class k)) = true) as H
    by (destruct k; vm_compute; reflexivity).
  rewrite forallb_forall in H. by apply H, list_elem_of_In.
Qed.

Lemma assigned_slot_get k c s :
  copied_twice k s = true -> slot_get s (ct_fields (assigned k c)) = slot_get s (ct_fields c).
Proof.
  intros [H1 H2]%andb_true_iff. unfold assigned, assign_container, copy_container. cbn [ct_fields].
  by rewrite !copy_slot_get.
Qed.

Lemma assigned_contexts_at k c s :
  copied_twice k s = true -> contexts_at s (assigned k c) = contexts_at s c.
Proof.
  intros [H1 H2]%andb_true_iff. unfold contexts_at, assigned, assign_container, copy_container. cbn [ct_fields ct_lists].
  rewrite !copy_present by done. apply andb_true_iff in H1 as [H1%bool_decide_eq_true _], H2 as [H2%bool_decide_eq_true _].
  by rewrite !copy_lookup.
Qed.

Lemma context_case_slot mc n s cc : context_case mc n = Some (s, cc) -> s ∈ context_slots_of mc.
Proof.
  unfold context_case, context_slots_of. destruct (find _ _) as [y|] eqn:E; [|done]. intros [= Hy].
  apply find_some in E as [Hin%list_elem_of_In _]. apply list_elem_of_fmap. exists (s, cc). split; [done|].
  apply list_elem_of_fmap. by exists y.
Qed.

Lemma contexts_not_lost k s : s ∈ context_slots_of (gtp_class k) -> lost k s = false.
Proof.
  intros Hs. assert (forallb (fun s => negb (lost k s)) (context_slots_of (gtp_class k)) = true) as H
    by (destruct k; vm_compute; reflexivity).
  rewrite forallb_forall in H. apply negb_true_iff, H. by apply list_elem_of_In.
Qed.

Lemma assigned_delivered k c c' : received (gtp_message k) c c' -> delivered k c (assigned k c').
Proof.
  intros [Hf Hc]. rewrite gtp_message_class in Hf, Hc. split.
  - intros s Hs Hr. transitivity (slot_get s (ct_fields c')); [|by apply Hf]. apply assigned_slot_get.
    pose proof (assigned_slots k s ltac:(apply elem_of_app; by left)) as [H|H]%orb_true_iff; [done|].
    apply andb_true_iff in H as [H1%bool_decide_eq_true H2%bool_decide_eq_true]. by apply Hr in H2.
  - intros s n rows Hb. destruct (Hc s n rows Hb) as (cc & Ecc & HF). exists cc. split; [done|].
    apply context_case_slot in Ecc. rewrite assigned_contexts_at; [done|].
    pose proof (assigned_slots k s ltac:(apply elem_of_app; by right)) as [H|H]%orb_true_iff; [done|].
    by rewrite (contexts_not_lost k s Ecc) in H.
Qed.

(** ** The datagram *)

(** The octets of a message of kind [k] with a TEID and a sequence number, as
    the peer sees them. *)
Definition on_wire (k : gtp_kind) (tid seq : Z) (c : container) (b : list Z) : Prop :=
  forall port, exists msg ins c',
    gtpv2c_msg_load_from (S (length b)) (mk_gtpv2c_msg gtpv2c_msg_header_init port []) (istream_of b) = Val (msg, ins) /\
    msg_type msg = gtp_type k /\ msg_seq msg = seq /\ gh_teid (ghdr msg) = tid /\
    message_to_container (gtp_class k) msg (new_container (gtp_class k)) = Val c' /\ delivered k c (assigned k c').

(** What a task can send: the values fit their elements, and the message fits
    its length field. *)
Record can_send (j : junk) (i : itti_gtp_msg) : Prop := {
  cs_kind : gtp_msg_kind i <> REMOTE_PEER_NOT_RESPONDING_IND;
  cs_values : sendable j (gtp_message (gtp_msg_kind i)) (gtp_ies i);
  cs_teid : fits 32 (teid i);
  cs_length : forall m, message_of j (gtp_message (gtp_msg_kind i)) (gtp_ies i) = Val m -> 8 + ies_length (gies m) < 2 ^ 16;
}.

Lemma adds_keep_type l : forall m, gh_message_type (ghdr (foldl gtp_build_step m (OpAddIe <$> l))) = gh_message_type (ghdr m).
Proof. induction l as [|i l IH]; intros m; [done|]. cbn [fmap list_fmap foldl]. by rewrite IH. Qed.

Lemma message_of_type j P c m : message_of j P c = Val m -> msg_type m = mg_type P.
Proof.
  unfold message_of. destruct (builds_ies j (mg_builds P) c); try done. intros [= <-].
  unfold msg_type, gtp_build. cbn [foldl]. by rewrite adds_keep_type.
Qed.

(** Writing changes neither the type nor the number. *)
Lemma dump_header m b m' : gtpv2c_msg_dump_to m = Val (b, m') -> msg_type m' = msg_type m /\ msg_seq m' = msg_seq m.
Proof.
  unfold gtpv2c_msg_dump_to, gtpv2c_header_dump_to, msg_type, msg_seq. destruct (dump_all _ _) as [[bs l]| | |];
    destruct (gh_t _ =? 0); cbn [fst snd]; repeat case_match; try done; by intros [= _ <-].
Qed.

Lemma numbered_on_wire j i :
  can_send j i ->
  exists m, message_of j (gtp_message (gtp_msg_kind i)) (gtp_ies i) = Val m /\
  forall n, exists b m',
    gtpv2c_msg_dump_to (gtp_map_header (gtp_set_sequence_number n) (with_teid (Some (teid i)) m)) = Val (b, m') /\
    msg_seq m' = Z.land n 16777215 /\ msg_type m' = gtp_type (gtp_msg_kind i) /\
    on_wire (gtp_msg_kind i) (teid i) (Z.land n 16777215) (gtp_ies i) b.
Proof.
  intros [Hk Hv Ht Hl]. set (k := gtp_msg_kind i) in *.
  destruct (message_conveyed j (gtp_message k) (gtp_ies i) (gtp_message_sent k Hk) Hv) as (m & Em & H).
  exists m. split; [done|]. intros n. set (tail := [OpSetTeid (teid i); OpSetSequenceNumber n]).
  change (gtp_map_header _ _) with (foldl gtp_build_step m tail). specialize (Hl m Em).
  assert (Forall build_op_ok tail) as Hok by (constructor; [exact Ht|constructor; [exact I|constructor]]).
  destruct (H tail (S (ies_size (gies m))) 0 Hok eq_refl Hl ltac:(lia)) as (b & m' & _ & _ & _ & Ed & _).
  exists b, m'. split; [done|]. destruct (dump_header _ _ _ Ed) as [Et Es]. split; [by rewrite Es|].
  split; [by rewrite Et; apply message_of_type in Em|]. intros port.
  destruct (H tail (S (length b + ies_size (gies m)))%nat port Hok eq_refl Hl ltac:(lia))
    as (b2 & m2 & ins & msg & c' & Ed2 & _ & El & Eh & _ & Ec & Hr).
  rewrite Ed in Ed2. injection Ed2 as <- <-. rewrite msg_load_fuel in El by lia.
  exists msg, ins, c'. rewrite gtp_message_class in Ec. unfold msg_type, msg_seq. rewrite Eh. split_and!; try done.
  - by apply message_of_type in Em.
  - by apply assigned_delivered.
Qed.

(** ** Sending and receiving *)
Section Laws.
Context {G T : Type} {M : Type -> Type} `{FG : FreshIds G} `{TS : TimerService T} `{AM : AtomicMap M} (j : junk).

Abbreviation task := (gtp_task G T M).
Abbreviation stack := (@gtpv2c_stack G T M endpoint).

(** The requester waits under [seq] for the answer to a message of type [ty]. *)
Definition awaits (seq tx ty : Z) (s : stack) : Prop :=
  exists p, ahm_find seq (pending_procedures s) = Some p /\ Gtpv2cStack.gtpc_tx_id p = tx /\ awaited p = ty /\ holds_msg p.

(** The responder can answer under [seq]. *)
Definition answers (seq tx : Z) (s : stack) : Prop := ahm_find tx (gtpc_tx_id2seq_num s) = Some seq.

(** Every transaction of a stack has an id that is in use. *)
Definition tx_live (s : stack) : Prop :=
  forall tx seq, ahm_find tx (gtpc_tx_id2seq_num s) = Some seq -> tx ∈ fi_live (uids_of s).

(** The number the next request goes under. *)
Definition next_seq (s : stack) : Z := Z.land (get_next_seq_num s).1 16777215.

Lemma send_initial_delivers task_id i (t : task) :
  can_send j i -> timer_tables_inv (task_stack t) -> task_ok2 task_id (task_stack t) ->
  ahm_find (next_seq (task_stack t)) (pending_procedures (task_stack t)) = None ->
  send_initial j (gtp_message (gtp_msg_kind i)) task_id i t = Throw AtomicHashMapFullError \/
  exists t' b, send_initial j (gtp_message (gtp_msg_kind i)) task_id i t = Val t' /\ task_sent t' = task_sent t /\
    outputs (task_stack t') = outputs (task_stack t) ++ [SendAllocated (r_endpoint i) b] /\
    on_wire (gtp_msg_kind i) (teid i) (next_seq (task_stack t)) (gtp_ies i) b /\
    awaits (next_seq (task_stack t)) (AppMsg.gtpc_tx_id i) (gtp_type (gtp_msg_kind i)) (task_stack t').
Proof.
  intros Hc Hi Hok Hp. destruct (numbered_on_wire j i Hc) as (m & Em & H). unfold send_initial. rewrite Em.
  cbn [of_gtpc mbind result_bind]. destruct (H (get_next_seq_num (task_stack t)).1) as (b & m' & Ed & Es & Et & Hw).
  fold (next_seq (task_stack t)) in Es, Hw.
  destruct (send_initial_returns (task_stack t) (r_endpoint i) (Some (teid i, l_teid i)) m task_id (AppMsg.gtpc_tx_id i) b m' Hi Hok Ed)
    as [->|(seq & s0 & E)]; [by left|]. right. rewrite E. cbn [mbind result_bind].
  destruct (send_initial_spec (task_stack t) _ (Some (teid i, l_teid i)) m task_id _ seq s0 b m' Hi Hok Ed ltac:(by rewrite Es) E)
    as (-> & _ & Ho & c & Hr). exists (with_stack s0 t), b. split_and!; try done.
  destruct (rt_proc _ _ _ _ _ _ _ _ Hr) as (r & Hf & _). rewrite Es in Hf. eexists. split; [exact Hf|]. by rewrite Et.
Qed.

Lemma send_triggered_delivers i seq (t : task) :
  can_send j i -> answers seq (AppMsg.gtpc_tx_id i) (task_stack t) -> fits 24 seq ->
  exists b, send_triggered j (gtp_message (gtp_msg_kind i)) i CONTINUE_TX t =
      Val (with_stack (emit (Send (r_endpoint i) b) (task_stack t)) t) /\
    on_wire (gtp_msg_kind i) (teid i) seq (gtp_ies i) b.
Proof.
  intros Hc Ha Hs. destruct (numbered_on_wire j i Hc) as (m & Em & H). unfold send_triggered, send_triggered_message.
  rewrite Ha, Em. cbn [of_gtpc mbind result_bind]. destruct (H seq) as (b & m' & Ed & _ & _ & Hw). unfold with_teid in Ed.
  rewrite Ed. cbn [of_gtpc mbind result_bind]. exists b. split; [done|].
  replace (Z.land seq 16777215) with seq in Hw; [done|].
  change 16777215 with (Z.ones 24). rewrite Z.land_ones by lia. symmetry. apply Z.mod_small. exact Hs.
Qed.

(** ** Reception *)

(** The task hands messages of kind [k] to [receive]. *)
Definition handles (dispatch : gtpv2c_msg -> endpoint -> task -> task_result G T M) (k : gtp_kind) (task_id : Z) : Prop :=
  forall msg ep t, msg_type msg = gtp_type k -> dispatch msg ep t = receive k task_id msg ep t.

Lemma request_received dispatch k task_id tid seq c b ep (t : task) :
  handles dispatch k task_id -> on_wire k tid seq c b -> check_initial_message_type (gtp_type k) = true ->
  timer_tables_inv (task_stack t) -> task_ok task_id (task_stack t) -> tx_live (task_stack t) ->
  fi_get (uids_of (task_stack t)) <> None -> ahm_find seq (pending_procedures (task_stack t)) = None ->
  receive_datagram dispatch b ep t = Some (Throw AtomicHashMapFullError) \/
  exists t' tx c', receive_datagram dispatch b ep t = Some (Val t') /\ outputs (task_stack t') = outputs (task_stack t) /\
    task_sent t' = task_sent t ++ [mk_itti_gtp_msg k ep tid UNASSIGNED_TEID tx c'] /\ delivered k c c' /\
    (tx ∉ fi_live (uids_of (task_stack t))) /\ answers seq tx (task_stack t') /\ awaits seq tx (gtp_type k) (task_stack t').
Proof.
  intros Hh Hw Hty Hi Hok Hl Hg Hp. destruct (Hw (endpoint_port ep)) as (msg & ins & c' & El & Et & Es & Ei & Ec & Hd).
  unfold receive_datagram. rewrite El. cbn [or_caught]. rewrite (Hh msg ep t Et). unfold receive, receive_then. rewrite Ec.
  cbn [or_caught]. destruct (fi_get (uids_of (task_stack t))) as [[tx g]|] eqn:Eg; [|done].
  destruct (receive_request_spec (task_stack t) msg task_id tx g Hi Hok Eg ltac:(by rewrite Es) ltac:(by rewrite Et))
    as [[-> _]|(cl & ti & cls & pend & txs & -> & _ & Epd & Etx & _)]; [by left|right].
  cbn [mbind option_bind result_bind]. rewrite Es in Epd, Etx. destruct (fi_get_fresh _ _ _ Eg) as [Hfr _].
  eexists _, tx, (assigned k c'). split; [reflexivity|]. cbn [task_stack task_sent send_itti with_stack]. rewrite Ei. do 4 (split; [done|]). split.
  - unfold answers. simpl. apply (find_insert_fresh _ _ _ _ Etx). destruct (ahm_find tx _) eqn:E; [|done]. by apply Hl in E.
  - eexists. split; [exact (find_insert_fresh _ _ _ _ Epd Hp)|]. rewrite Et. split; [done|]. split; [done|]. by intros [].
Qed.

(** The same datagram once more. *)
Lemma request_again dispatch k task_id tid seq c b ep tx (t : task) :
  handles dispatch k task_id -> on_wire k tid seq c b -> check_triggered_message_type (gtp_type k) (gtp_type k) = false ->
  awaits seq tx (gtp_type k) (task_stack t) -> receive_datagram dispatch b ep t = Some (Val t).
Proof.
  intros Hh Hw Hty (p & Hp & _ & Ha & _). destruct (Hw (endpoint_port ep)) as (msg & ins & c' & El & Et & Es & _ & Ec & _).
  unfold receive_datagram. rewrite El. cbn [or_caught]. rewrite (Hh msg ep t Et). unfold receive, receive_then. rewrite Ec.
  cbn [or_caught]. unfold handle_receive_message_cb. rewrite Es, Hp, Ha, Et, Hty. cbn. by destruct t.
Qed.

(** The answer, then the answer once more. *)
Lemma answer_received dispatch k task_id tid seq c b ep tx ty (t : task) :
  handles dispatch k task_id -> on_wire k tid seq c b -> check_triggered_message_type ty (gtp_type k) = true ->
  check_initial_message_type (gtp_type k) = false -> awaits seq tx ty (task_stack t) ->
  exists t' c', receive_datagram dispatch b ep t = Some (Val t') /\ outputs (task_stack t') = outputs (task_stack t) /\
    task_sent t' = task_sent t ++ [mk_itti_gtp_msg k ep tid UNASSIGNED_TEID tx c'] /\ delivered k c c' /\
    ahm_find seq (pending_procedures (task_stack t')) = None /\ ahm_find tx (gtpc_tx_id2seq_num (task_stack t')) = None /\
    receive_datagram dispatch b ep t' = Some (Val t').
Proof.
  intros Hh Hw Hty Hti (p & Hp & <- & <- & Hm). destruct (Hw (endpoint_port ep)) as (msg & ins & c' & El & Et & Es & Ei & Ec & Hd).
  destruct (receive_answer_spec (task_stack t) msg task_id p ltac:(by rewrite Es) Hm ltac:(by rewrite Et)) as (s' & E & _ & H1 & H2 & _ & _ & Ho & _).
  assert (forall t, receive_datagram dispatch b ep t = receive k task_id msg ep t) as Hr
    by (intros u; unfold receive_datagram; rewrite El; cbn [or_caught]; by apply Hh).
  setoid_rewrite Hr. unfold receive, receive_then. rewrite Ec. cbn [or_caught]. rewrite E. cbn [mbind option_bind result_bind].
  rewrite Es in H1. eexists _, (assigned k c'). split; [reflexivity|]. simpl. rewrite H1, H2, !decide_True, Ei by done.
  split_and!; try done. unfold handle_receive_message_cb. simpl. rewrite Es, H1, decide_True, Et, Hti by done. done.
Qed.

(** ** S5/S8 *)
Definition s5s8_requests : list gtp_kind :=
  [CREATE_SESSION_REQUEST; MODIFY_BEARER_REQUEST; DELETE_SESSION_REQUEST; RELEASE_ACCESS_BEARERS_REQUEST].

Definition answer_of (k : gtp_kind) : gtp_kind :=
  match k with
  | CREATE_SESSION_REQUEST => CREATE_SESSION_RESPONSE
  | MODIFY_BEARER_REQUEST => MODIFY_BEARER_RESPONSE
  | DELETE_SESSION_REQUEST => DELETE_SESSION_RESPONSE
  | RELEASE_ACCESS_BEARERS_REQUEST => RELEASE_ACCESS_BEARERS_RESPONSE
  | DOWNLINK_DATA_NOTIFICATION => DOWNLINK_DATA_NOTIFICATION_ACKNOWLEDGE
  | k => k
  end.

(** The kind is one of a few. *)
Ltac each_kind H := unfold s5s8_requests in H; repeat (apply elem_of_cons in H as [H|H]; [rewrite ?H in *; subst|]); [..|by apply elem_of_nil in H].

Lemma pgw_handles k : k ∈ s5s8_requests -> handles PgwS5S8Task.handle_receive_gtpv2c_msg k TASK_PGWC_S5S8.
Proof.
  intros Hk msg ep t Ht. unfold PgwS5S8Task.handle_receive_gtpv2c_msg. rewrite Ht. each_kind Hk; reflexivity.
Qed.

Lemma sgw_handles k : k ∈ s5s8_requests -> handles SgwS5S8Task.handle_receive_gtpv2c_msg (answer_of k) TASK_SGWC_S5S8.
Proof.
  intros Hk msg ep t Ht. unfold SgwS5S8Task.handle_receive_gtpv2c_msg. rewrite Ht. each_kind Hk; reflexivity.
Qed.

Lemma request_types k : k ∈ s5s8_requests ->
  check_initial_message_type (gtp_type k) = true /\ check_triggered_message_type (gtp_type k) (gtp_type k) = false /\
  check_triggered_message_type (gtp_type k) (gtp_type (answer_of k)) = true /\
  check_initial_message_type (gtp_type (answer_of k)) = false.
Proof. intros Hk. each_kind Hk; by vm_compute. Qed.

Lemma sgw_sends i t : gtp_msg_kind i ∈ s5s8_requests ->
  SgwS5S8Task.send_msg j i t = send_initial j (gtp_message (gtp_msg_kind i)) TASK_SGWC_S5S8 i t.
Proof. intros Hk. unfold SgwS5S8Task.send_msg. each_kind Hk; reflexivity. Qed.

Lemma pgw_answers k a t : k ∈ s5s8_requests -> gtp_msg_kind a = answer_of k ->
  PgwS5S8Task.send_msg j a t = send_triggered j (gtp_message (gtp_msg_kind a)) a CONTINUE_TX t.
Proof. intros Hk Ha. unfold PgwS5S8Task.send_msg. rewrite Ha. each_kind Hk; reflexivity. Qed.

(** Both ends of an exchange on S5/S8 are ready for it. *)
Record exchange_ready (t u : task) : Prop := {
  er_sgw_timers : timer_tables_inv (task_stack t);
  er_sgw_task : task_ok2 TASK_SGWC_S5S8 (task_stack t);
  er_sgw_free : ahm_find (next_seq (task_stack t)) (pending_procedures (task_stack t)) = None;
  er_pgw_timers : timer_tables_inv (task_stack u);
  er_pgw_task : task_ok TASK_PGWC_S5S8 (task_stack u);
  er_pgw_ids : tx_live (task_stack u);
  er_pgw_id : fi_get (uids_of (task_stack u)) <> None;
  er_pgw_free : ahm_find (next_seq (task_stack t)) (pending_procedures (task_stack u)) = None;
}.

Lemma next_seq_fits s : fits 24 (next_seq s).
Proof.
  unfold next_seq, fits. change 16777215 with (Z.ones 24). rewrite Z.land_ones by lia. apply Z.mod_pos_bound. lia.
Qed.

(** C9 A request of the SGW reaches the application of the PGW, and its answer
    the application of the SGW.  Unless a table is full, the S5/S8 task of the
    SGW sends one datagram to the peer of the message; from this datagram the
    task of the PGW sends one message on, of the same kind, with the address it
    came from, the TEID of the request, a transaction id that was not in use
    and what the request carries; the same datagram once more changes nothing.
    Whatever both tasks do meanwhile, as long as the PGW can answer and the SGW
    waits, the answer of the PGW is one datagram, and from it the task of the
    SGW sends one message on, with the TEID the PGW put in it, what it carries
    and the transaction id of the request; and once more changes nothing. *)
Theorem s5s8_exchange (i : itti_gtp_msg) (t u : task) :
  gtp_msg_kind i ∈ s5s8_requests -> can_send j i -> exchange_ready t u ->
  let k := gtp_msg_kind i in
  let seq := next_seq (task_stack t) in
  SgwS5S8Task.send_msg j i t = Throw AtomicHashMapFullError \/
  exists t1 b, SgwS5S8Task.send_msg j i t = Val t1 /\ task_sent t1 = task_sent t /\
    outputs (task_stack t1) = outputs (task_stack t) ++ [SendAllocated (r_endpoint i) b] /\
    awaits seq (AppMsg.gtpc_tx_id i) (gtp_type k) (task_stack t1) /\
  forall ep, PgwS5S8Task.handle_receive b ep u = Some (Throw AtomicHashMapFullError) \/
  exists u1 tx c, PgwS5S8Task.handle_receive b ep u = Some (Val u1) /\ outputs (task_stack u1) = outputs (task_stack u) /\
    task_sent u1 = task_sent u ++ [mk_itti_gtp_msg k ep (teid i) UNASSIGNED_TEID tx c] /\ delivered k (gtp_ies i) c /\
    (tx ∉ fi_live (uids_of (task_stack u))) /\ answers seq tx (task_stack u1) /\
    PgwS5S8Task.handle_receive b ep u1 = Some (Val u1) /\
  forall a ep2 u2 t2, gtp_msg_kind a = answer_of k -> can_send j a -> AppMsg.gtpc_tx_id a = tx ->
    answers seq tx (task_stack u2) -> awaits seq (AppMsg.gtpc_tx_id i) (gtp_type k) (task_stack t2) ->
  exists b2 t3 c2, PgwS5S8Task.send_msg j a u2 = Val (with_stack (emit (Send (r_endpoint a) b2) (task_stack u2)) u2) /\
    SgwS5S8Task.handle_receive b2 ep2 t2 = Some (Val t3) /\ outputs (task_stack t3) = outputs (task_stack t2) /\
    task_sent t3 = task_sent t2 ++ [mk_itti_gtp_msg (answer_of k) ep2 (teid a) UNASSIGNED_TEID (AppMsg.gtpc_tx_id i) c2] /\
    delivered (answer_of k) (gtp_ies a) c2 /\ SgwS5S8Task.handle_receive b2 ep2 t3 = Some (Val t3).
Proof.
  intros Hk Hc [Ht1 Ht2 Ht3 Hu1 Hu2 Hu3 Hu4 Hu5] k seq. destruct (request_types k Hk) as (Ty1 & Ty2 & Ty3 & Ty4).
  rewrite (sgw_sends i t Hk).
  destruct (send_initial_delivers TASK_SGWC_S5S8 i t Hc Ht1 Ht2 Ht3) as [->|(t1 & b & E & Es & Eo & Hw & Ha)]; [by left|right].
  exists t1, b. do 4 (split; [done|]). intros ep.
  destruct (request_received _ k _ _ _ _ b ep u (pgw_handles k Hk) Hw Ty1 Hu1 Hu2 Hu3 Hu4 Hu5)
    as [E2|(u1 & tx & c & E2 & Eo2 & Es2 & Hd & Hf & Han & Haw)]; [by left|right].
  exists u1, tx, c. do 6 (split; [done|]). split; [by apply (request_again _ k _ _ _ _ b ep tx u1 (pgw_handles k Hk) Hw Ty2)|].
  intros a ep2 u2 t2 Ka Hca <- Han2 Haw2. rewrite (pgw_answers k a u2 Hk Ka).
  destruct (send_triggered_delivers a seq u2 Hca Han2 (next_seq_fits _)) as (b2 & Eb2 & Hw2). rewrite Ka in Hw2.
  destruct (answer_received _ (answer_of k) _ _ _ _ b2 ep2 _ _ t2 (sgw_handles k Hk) Hw2 Ty3 Ty4 Haw2)
    as (t3 & c2 & E3 & Eo3 & Es3 & Hd2 & _ & _ & E4).
  exists b2, t3, c2. by split_and!.
Qed.

(** ** S11 *)
Lemma s11_handles k : k ∈ s5s8_requests -> handles (S11Task.handle_receive_gtpv2c_msg j) k TASK_SGWC_S11.
Proof.
  intros Hk msg ep t Ht. unfold S11Task.handle_receive_gtpv2c_msg. rewrite Ht. each_kind Hk; reflexivity.
Qed.

Lemma s11_answers k a t : k ∈ s5s8_requests -> gtp_msg_kind a = answer_of k ->
  S11Task.send_msg j a t = send_triggered j (gtp_message (gtp_msg_kind a)) a CONTINUE_TX t.
Proof. intros Hk Ha. unfold S11Task.send_msg. rewrite Ha. each_kind Hk; reflexivity. Qed.

(** C10 The requests of an MME on S11.  Unless a table is full, a datagram with a
    request, under a sequence number that is not pending in the task (whoever
    used it: the table is by number alone), becomes one message to the
    application of the SGW, with the TEID and the elements of the request, the
    address it came from and a transaction id that was not in use.  As long as
    the number is pending for a request of this type, such a datagram changes
    nothing, from whatever address it comes; after the clean-up timer has
    removed the number it would be taken for a new request.  The answer of the
    application in this transaction, in any state in which the transaction
    leads to the number, is one datagram to the peer it names, under the
    sequence number of the request. *)
Theorem s11_request_answered (k : gtp_kind) (tid seq : Z) (c : container) (b : list Z) (ep : endpoint) (t : task) :
  k ∈ s5s8_requests -> on_wire k tid seq c b -> fits 24 seq ->
  timer_tables_inv (task_stack t) -> task_ok TASK_SGWC_S11 (task_stack t) -> tx_live (task_stack t) ->
  fi_get (uids_of (task_stack t)) <> None -> ahm_find seq (pending_procedures (task_stack t)) = None ->
  S11Task.handle_receive j b ep t = Some (Throw AtomicHashMapFullError) \/
  exists t1 tx c', S11Task.handle_receive j b ep t = Some (Val t1) /\ outputs (task_stack t1) = outputs (task_stack t) /\
    task_sent t1 = task_sent t ++ [mk_itti_gtp_msg k ep tid UNASSIGNED_TEID tx c'] /\ delivered k c c' /\
    (tx ∉ fi_live (uids_of (task_stack t))) /\ answers seq tx (task_stack t1) /\ awaits seq tx (gtp_type k) (task_stack t1) /\
    (forall ep2 tx2 t2, awaits seq tx2 (gtp_type k) (task_stack t2) -> S11Task.handle_receive j b ep2 t2 = Some (Val t2)) /\
  forall a t2, gtp_msg_kind a = answer_of k -> can_send j a -> AppMsg.gtpc_tx_id a = tx -> answers seq tx (task_stack t2) ->
  exists b2, S11Task.send_msg j a t2 = Val (with_stack (emit (Send (r_endpoint a) b2) (task_stack t2)) t2) /\
    on_wire (answer_of k) (teid a) seq (gtp_ies a) b2.
Proof.
  intros Hk Hw Hs Ht1 Ht2 Ht3 Ht4 Ht5. destruct (request_types k Hk) as (Ty1 & Ty2 & _ & _).
  destruct (request_received _ k _ _ _ _ b ep t (s11_handles k Hk) Hw Ty1 Ht1 Ht2 Ht3 Ht4 Ht5)
    as [E2|(t1 & tx & c' & E2 & Eo2 & Es2 & Hd & Hf & Han & Haw)]; [by left|right].
  exists t1, tx, c'. do 7 (split; [done|]).
  split; [intros ep2 tx2 t2 H2; by apply (request_again _ k _ _ _ _ b ep2 tx2 t2 (s11_handles k Hk) Hw Ty2)|].
  intros a t2 Ka Hca <- Han2. rewrite (s11_answers k a t2 Hk Ka).
  destruct (send_triggered_delivers a seq t2 Hca Han2 Hs) as (b2 & Eb2 & Hw2). rewrite Ka in Hw2 at 1. by exists b2.
Qed.

(** ** Echo *)
Lemma receive_outputs msg task_id (s s' : stack) e tx :
  handle_receive_message_cb msg task_id s = Some (Val (e, tx, s')) -> outputs s' = outputs s.
Proof.
  unfold handle_receive_message_cb, start_proc_cleanup_timer, stop_msg_retry_timer, stop_proc_cleanup_timer, ITTI_INVALID_TIMER_ID.
  destruct (ahm_find _ _) as [p|].
  - destruct (check_triggered_message_type _ _); [|by intros [= _ _ <-]].
    destruct (retry_timer_id p =? 0), (retry_msg p); cbn [mbind result_bind]; try done; by intros [= _ _ <-].
  - destruct (check_initial_message_type _); [|by intros [= _ _ <-]]. destruct (fi_get _) as [[u g]|]; [|done].
    cbn [proc_cleanup_timer_id]. destruct (ts_setup _ _ _ _) as [c ti]. cbn -[insert_or_throw].
    destruct (insert_or_throw c _ _); [|done..]. cbn -[insert_or_throw]. destruct (insert_or_throw (msg_seq msg) _ _); [|done..].
    cbn -[insert_or_throw]. destruct (insert_or_throw u _ _); [|done..]. by intros [= _ _ <-].
Qed.

(** No element can be put in the container of an echo request. *)
Lemma echo_request_elements msg c :
  message_to_container gtpv2c_echo_request msg (new_container gtpv2c_echo_request) = Val c ->
  gies msg = [] /\ c = new_container gtpv2c_echo_request.
Proof.
  unfold message_to_container. destruct (gies msg) as [|i l]; [by intros [= <-]|]. cbn [ies_to_container].
  assert (forall v n f r, virtual_set (mc_class gtpv2c_echo_request) v n f <> Val r) as Hv.
  { intros v n f r. unfold virtual_set. destruct (find_overload _ _) as [o|] eqn:E; [|done].
    assert (o_overrides o = false) as ->; [|done]. apply find_overload_in in E as [Ho _].
    repeat (apply elem_of_cons in Ho as [->|Ho]; [done|]). by apply elem_of_nil in Ho. }
  destruct (ie_to_container gtpv2c_echo_request i _) as [c1| | |] eqn:E; try done. exfalso. revert E.
  unfold ie_to_container.
  destruct i; (destruct (ies_to_bearer _ _); done) || (destruct (ie_to_core _) as [v| | |]; try done; cbn [mbind result_bind];
    destruct (virtual_set _ _ _ _) eqn:Ev; try done; by apply Hv in Ev).
Qed.

(** Nor can a recovery counter be put in the one of a Create Session Response. *)
Lemma recovery_refused l r c c' : IeRecovery r ∈ l -> ies_to_container gtpv2c_create_session_response l c <> Val c'.
Proof.
  revert c. induction l as [|i l IH]; intros c; [by intros H%not_elem_of_nil|]. intros [<-|H]%elem_of_cons; cbn [ies_to_container].
  - unfold ie_to_container. destruct (ie_to_core (IeRecovery r)) as [v| | |] eqn:Ev; try done. cbn [mbind result_bind].
    injection Ev as <-. unfold virtual_set. cbn [kind_of]. by destruct (find_overload _ _) eqn:E; [vm_compute in E|].
  - destruct (ie_to_container _ _ _) as [c1| | |]; try done. by apply IH.
Qed.

(** What cannot be read into its container leaves the task as it was. *)
Lemma refused_unchanged mc task_id msg (t t' : task) k :
  (forall c, message_to_container mc msg (new_container mc) <> Val c) -> receive_then mc task_id msg t k = Some (Val t') -> t' = t.
Proof.
  intros H. unfold receive_then. destruct (message_to_container _ _ _) as [c|e| |]; [by destruct (H c)| |done..].
  destruct e; by intros [= <-].
Qed.

(** C28 The echo procedure does not work on either side of the SGW.  A message
    with the type of an echo request and its recovery counter as only element,
    as the standard has it, changes neither task and is not answered.  On S11 an
    echo request, whatever its elements, sends nothing and tells the application
    nothing, and with any element it leaves the task as it was.  On S5/S8 one
    with a recovery counter among its elements leaves the task as it was; but
    one whose elements the container of a Create Session Response can hold (so
    without the counter), since the labels of the echo messages fall into the
    case of that response, opens a transaction and goes to the application as a
    Create Session Response, unless a table is full. *)
Theorem echo_request_unanswered (msg : gtpv2c_msg) (ep : endpoint) (t : task) :
  msg_type msg = GTP_ECHO_REQUEST ->
  (forall r, gies msg = [IeRecovery r] ->
     S11Task.handle_receive_gtpv2c_msg j msg ep t = Some (Val t) /\ SgwS5S8Task.handle_receive_gtpv2c_msg msg ep t = Some (Val t)) /\
  (forall t', S11Task.handle_receive_gtpv2c_msg j msg ep t = Some (Val t') ->
     outputs (task_stack t') = outputs (task_stack t) /\ task_sent t' = task_sent t /\ (gies msg <> [] -> t' = t)) /\
  (forall r t', IeRecovery r ∈ gies msg -> SgwS5S8Task.handle_receive_gtpv2c_msg msg ep t = Some (Val t') -> t' = t) /\
  (forall c, message_to_container gtpv2c_create_session_response msg (new_container gtpv2c_create_session_response) = Val c ->
     timer_tables_inv (task_stack t) -> task_ok TASK_SGWC_S5S8 (task_stack t) -> fi_get (uids_of (task_stack t)) <> None ->
     ahm_find (msg_seq msg) (pending_procedures (task_stack t)) = None ->
     SgwS5S8Task.handle_receive_gtpv2c_msg msg ep t = Some (Throw AtomicHashMapFullError) \/
     exists t' tx, SgwS5S8Task.handle_receive_gtpv2c_msg msg ep t = Some (Val t') /\
       outputs (task_stack t') = outputs (task_stack t) /\
       task_sent t' = task_sent t ++
         [mk_itti_gtp_msg CREATE_SESSION_RESPONSE ep (gh_teid (ghdr msg)) UNASSIGNED_TEID tx (assigned CREATE_SESSION_RESPONSE c)]).
Proof.
  intros Ht. split; [|split; [|split]].
  - intros r El. unfold S11Task.handle_receive_gtpv2c_msg, SgwS5S8Task.handle_receive_gtpv2c_msg. rewrite Ht.
    change (mem GTP_ECHO_REQUEST _) with true. cbv iota zeta.
    unfold S11Task.handle_receive_echo_request, SgwS5S8Task.handle_receive_create_session_response, receive, receive_then, message_to_container.
    rewrite El. split; reflexivity.
  - intros t'. unfold S11Task.handle_receive_gtpv2c_msg. rewrite Ht. cbn -[receive_then S11Task.handle_receive_echo_request].
    unfold S11Task.handle_receive_echo_request, receive_then.
    destruct (message_to_container _ _ _) as [c|e| |] eqn:Ec; cbn [or_caught]; try done; [|destruct e; by intros [= <-]].
    apply echo_request_elements in Ec as [En ->].
    destruct (handle_receive_message_cb msg TASK_SGWC_S11 (task_stack t)) as [[[[e tx] s]| | |]|] eqn:E; try done.
    cbn [mbind option_bind result_bind]. apply receive_outputs in E. rewrite En.
    destruct e; intros [= <-]; by split_and!.
  - intros r t' Hr. unfold SgwS5S8Task.handle_receive_gtpv2c_msg. rewrite Ht. change (mem GTP_ECHO_REQUEST _) with true. cbv iota zeta.
    apply refused_unchanged. intros c. by eapply recovery_refused.
  - intros c Ec Hi Hok Hg Hp. unfold SgwS5S8Task.handle_receive_gtpv2c_msg. rewrite Ht.
    change (mem GTP_ECHO_REQUEST _) with true. cbv iota zeta.
    unfold SgwS5S8Task.handle_receive_create_session_response, receive, receive_then. cbn [gtp_class]. rewrite Ec. cbn [or_caught].
    destruct (fi_get (uids_of (task_stack t))) as [[tx g]|] eqn:Eg; [|done].
    destruct (receive_request_spec (task_stack t) msg TASK_SGWC_S5S8 tx g Hi Hok Eg Hp ltac:(by rewrite Ht))
      as [[-> _]|(cl & ti & cls & pend & txs & -> & _)]; [by left|right].
    cbn [mbind option_bind result_bind]. by eexists _, tx.
Qed.

(** ** A peer that does not respond *)

(** The expiry after the last retransmission reaches the application through
    [notify_ul_error]. *)
Lemma silence_reported notify task_id seq tx l_teid c k m dest (t : task) :
  retransmitting seq tx l_teid c k m dest (task_stack t) -> Z.of_nat k = n3 (task_stack t) ->
  exists p t', ahm_find seq (pending_procedures (task_stack t)) = Some p /\
    time_out_with notify task_id (retry_timer_id p) t = Val t' /\
    task_sent t' = task_sent t ++ notify dest l_teid REMOTE_PEER_NOT_RESPONDING tx /\
    ahm_find seq (pending_procedures (task_stack t')) = None.
Proof.
  intros Hr Hk. destruct (gtp_retransmit_give_up _ _ _ _ _ _ task_id task_id _ _ Hr Hk) as (p & s' & Hp & E & Eo & Hn & _).
  eexists p, _. split; [done|]. unfold time_out_with. rewrite E. cbn [mbind result_bind]. split; [reflexivity|]. split; [|done].
  cbn [task_sent]. rewrite Eo, drop_app_length. cbn [fmap list_fmap concat]. by rewrite app_nil_r.
Qed.
End Laws.

(** ** The theorems at work

    Both S5/S8 tasks over finite maps, the ITTI timers and the 64-bit id
    generator; the SGW sends a Create Session Request, and the PGW rejects it. *)
#[local] Instance task_ids : FreshIds uint_generator := uint_generator_FreshIds 64 eq_refl.
Definition idle_task (ns : Z) : gtp_task uint_generator itti_clock (gmap Z) :=
  mk_gtp_task (gtpv2c_stack_new 1000 3 ns demo_clock uint_generator_init) [].
Definition sample_request : itti_gtp_msg :=
  mk_itti_gtp_msg CREATE_SESSION_REQUEST (Ep4 16777343 2123) 0 48879 77 GtpEndToEnd.demo_request.
Definition sample_response (tx : Z) : itti_gtp_msg :=
  mk_itti_gtp_msg CREATE_SESSION_RESPONSE (Ep4 16777599 2123) 48879 0 tx
    (mk_container (slot_set 64 (First, "cause") (VCore (CoreCause (cause_of REQUEST_REJECTED)))
       (class_init (mc_class gtpv2c_create_session_response))) ∅).

Lemma idle_timers ns : timer_tables_inv (task_stack (idle_task ns)).
Proof. split; intros ? ? H; vm_compute in H; discriminate. Qed.

Lemma idle_task_ok task ns : 0 < task < TASK_MAX -> task_ok2 task (task_stack (idle_task ns)).
Proof.
  intros H. split.
  - split; [done|]. simpl. lia.
  - intros sec us id t E. unfold ts_setup, itti_timers, ic_setup, timer_setup in E.
    replace ((TASK_FIRST <? task) && (task <? TASK_MAX)) with true in E by (symmetry; unfold TASK_FIRST; apply andb_true_intro; lia).
    injection E as _ <-. split; vm_compute; congruence.
Qed.

Lemma idle_tx_live ns : tx_live (task_stack (idle_task ns)).
Proof. intros tx seq H. vm_compute in H. discriminate. Qed.

Lemma idle_ready : exchange_ready (idle_task 6) (idle_task 9).
Proof.
  split.
  - apply idle_timers.
  - by apply idle_task_ok.
  - vm_compute. reflexivity.
  - apply idle_timers.
  - by apply idle_task_ok.
  - apply idle_tx_live.
  - vm_compute. discriminate.
  - vm_compute. reflexivity.
Qed.

(** A length that is computed. *)
Definition short_enough (j : junk) (i : itti_gtp_msg) : bool :=
  match message_of j (gtp_message (gtp_msg_kind i)) (gtp_ies i) with Val m => 8 + ies_length (gies m) <? 2 ^ 16 | _ => true end.

Lemma short_enough_length j i m :
  short_enough j i = true -> message_of j (gtp_message (gtp_msg_kind i)) (gtp_ies i) = Val m -> 8 + ies_length (gies m) < 2 ^ 16.
Proof. unfold short_enough. intros H E. rewrite E in H. by apply Z.ltb_lt. Qed.

Lemma gtp_request_ok : can_send demo_junk sample_request.
Proof.
  split; [done|exact demo_request_sendable|by vm_compute|]. intros m. apply short_enough_length. vm_compute. reflexivity.
Qed.

Lemma gtp_response_ok tx : can_send demo_junk (sample_response tx).
Proof.
  split; [done| |by vm_compute|].
  - change (sendable demo_junk create_session_response_message (gtp_ies (sample_response 0))).
    unfold sendable, create_session_response_message. cbn [mg_builds mg_class].
    unfold create_session_response_build1, create_session_response_build2. cbn [app].
    repeat (apply Forall_cons; split; [first [split; [row_tac|intros _; vm_compute; reflexivity]|idtac]|]).
    all: try (cbn [build_sendable]; replace (contexts_at _ _) with (@nil (fields value)) by (vm_compute; reflexivity); by apply Forall_nil).
    all: try by apply Forall_nil.
  - intros m. change (sample_response tx) with (sample_response tx). apply short_enough_length. vm_compute. reflexivity.
Qed.

Definition sent_task : gtp_task uint_generator itti_clock (gmap Z) :=
  match SgwS5S8Task.send_msg demo_junk sample_request (idle_task 6) with Val t => t | _ => idle_task 6 end.
Definition sent_octets : list Z :=
  match outputs (task_stack sent_task) with [SendAllocated _ b] => b | _ => [] end.

Lemma s5s8_exchange_witness :
  SgwS5S8Task.send_msg demo_junk sample_request (idle_task 6) = Val sent_task /\
  exists u1 tx c, PgwS5S8Task.handle_receive sent_octets (Ep4 16777599 2123) (idle_task 9) = Some (Val u1) /\
    task_sent u1 = [mk_itti_gtp_msg CREATE_SESSION_REQUEST (Ep4 16777599 2123) 0 0 tx c] /\
    delivered CREATE_SESSION_REQUEST GtpEndToEnd.demo_request c /\
    exists u2 b2 t3 c2, PgwS5S8Task.send_msg demo_junk (sample_response tx) u1 = Val u2 /\
      SgwS5S8Task.handle_receive b2 (Ep4 16777343 2123) sent_task = Some (Val t3) /\
      task_sent t3 = [mk_itti_gtp_msg CREATE_SESSION_RESPONSE (Ep4 16777343 2123) 48879 0 77 c2].
Proof.
  destruct (s5s8_exchange demo_junk sample_request (idle_task 6) (idle_task 9)) as [E|(t1 & b & E & _ & Eo & Haw & H)].
  - apply list_elem_of_here.
  - exact gtp_request_ok.
  - exact idle_ready.
  - vm_compute in E. discriminate E.
  - assert (sent_task = t1) as Et by (unfold sent_task; rewrite E; reflexivity). subst t1. split; [exact E|].
    assert (sent_octets = b) as Eb by (unfold sent_octets; rewrite Eo; reflexivity). subst b.
    destruct (H (Ep4 16777599 2123)) as [E2|(u1 & tx & c & E2 & _ & Es & Hd & _ & Ha & _ & H2)];
      [vm_compute in E2; discriminate E2|].
    exists u1, tx, c. split; [exact E2|]. split; [exact Es|]. split; [exact Hd|].
    destruct (H2 (sample_response tx) (Ep4 16777343 2123) u1 sent_task eq_refl (gtp_response_ok tx) eq_refl Ha Haw)
      as (b2 & t3 & c2 & E3 & E4 & _ & Es4 & _ & _).
    eexists _, b2, t3, c2. split; [exact E3|]. split; [exact E4|]. rewrite Es4.
    assert (task_sent sent_task = []) as -> by (vm_compute; reflexivity). reflexivity.
Defined.

(** The datagram of the SGW is also one an MME could send. *)
Lemma sent_on_wire : on_wire CREATE_SESSION_REQUEST 0 7 GtpEndToEnd.demo_request sent_octets.
Proof.
  destruct (send_initial_delivers demo_junk TASK_SGWC_S5S8 sample_request (idle_task 6) gtp_request_ok (idle_timers 6)
    ltac:(by apply idle_task_ok) ltac:(vm_compute; reflexivity)) as [E|(t1 & b & E & _ & Eo & Hw & _)].
  - vm_compute in E. discriminate E.
  - assert (sent_octets = b) as ->; [|exact Hw]. unfold sent_octets, sent_task.
    change (SgwS5S8Task.send_msg demo_junk sample_request (idle_task 6)) with
      (send_initial demo_junk (gtp_message CREATE_SESSION_REQUEST) TASK_SGWC_S5S8 sample_request (idle_task 6)).
    cbn [sample_request gtp_msg_kind] in E. rewrite E, Eo. reflexivity.
Qed.

Lemma s11_request_answered_witness :
  exists t1 tx c, S11Task.handle_receive demo_junk sent_octets (Ep4 16777599 2123) (idle_task 9) = Some (Val t1) /\
    task_sent t1 = [mk_itti_gtp_msg CREATE_SESSION_REQUEST (Ep4 16777599 2123) 0 0 tx c] /\
    S11Task.handle_receive demo_junk sent_octets (Ep4 33554943 2123) t1 = Some (Val t1) /\
    exists t2 b2, S11Task.send_msg demo_junk (sample_response tx) t1 = Val t2 /\
      on_wire CREATE_SESSION_RESPONSE 48879 7 (gtp_ies (sample_response tx)) b2.
Proof.
  destruct (s11_request_answered demo_junk CREATE_SESSION_REQUEST 0 7 GtpEndToEnd.demo_request sent_octets (Ep4 16777599 2123)
    (idle_task 9)) as [E|(t1 & tx & c & E & _ & Es & _ & _ & Ha & Haw & Hr & H)].
  - apply list_elem_of_here.
  - exact sent_on_wire.
  - unfold fits. lia.
  - apply idle_timers.
  - apply idle_task_ok. unfold TASK_SGWC_S11, TASK_MAX. lia.
  - apply idle_tx_live.
  - vm_compute. discriminate.
  - vm_compute. reflexivity.
  - vm_compute in E. discriminate E.
  - exists t1, tx, c. split; [exact E|]. split; [exact Es|]. split; [exact (Hr _ _ _ Haw)|].
    destruct (H (sample_response tx) t1 eq_refl (gtp_response_ok tx) eq_refl Ha) as (b2 & E2 & Hw).
    eexists _, b2. split; [exact E2|exact Hw].
Defined.

(** An echo request with its recovery counter, and one without. *)
Definition echo_request (l : list gtpv2c_ie) : gtpv2c_msg :=
  gtp_map_header (gtp_set_sequence_number 7) (gtpv2c_msg_of GTP_ECHO_REQUEST l).

Lemma echo_request_unanswered_witness :
  S11Task.handle_receive_gtpv2c_msg demo_junk (echo_request [demo_recovery]) (Ep4 16777599 2123) (idle_task 9) = Some (Val (idle_task 9)) /\
  SgwS5S8Task.handle_receive_gtpv2c_msg (echo_request [demo_recovery]) (Ep4 16777599 2123) (idle_task 9) = Some (Val (idle_task 9)) /\
  exists t' tx c, SgwS5S8Task.handle_receive_gtpv2c_msg (echo_request []) (Ep4 16777599 2123) (idle_task 9) = Some (Val t') /\
    task_sent t' = [mk_itti_gtp_msg CREATE_SESSION_RESPONSE (Ep4 16777599 2123) 0 0 tx c].
Proof.
  destruct (echo_request_unanswered demo_junk (echo_request [demo_recovery]) (Ep4 16777599 2123) (idle_task 9)) as [H1 _]; [reflexivity|].
  destruct (H1 _ eq_refl) as [E1 E2]. split; [exact E1|]. split; [exact E2|].
  destruct (echo_request_unanswered demo_junk (echo_request []) (Ep4 16777599 2123) (idle_task 9)) as (_ & _ & _ & H2); [reflexivity|].
  destruct (H2 (new_container gtpv2c_create_session_response)) as [E|(t' & tx & E & _ & Es)].
  - reflexivity.
  - apply idle_timers.
  - apply idle_task_ok. unfold TASK_SGWC_S5S8, TASK_MAX. lia.
  - vm_compute. discriminate.
  - vm_compute. reflexivity.
  - vm_compute in E. discriminate E.
  - exists t', tx. eexists. split; [exact E|exact Es].
Defined.

(** ** An octet that ends the process *)

(** A message with a TEID whose first element is an APN. *)
Definition apn_datagram (ty len tid seq p inst : Z) (apn rest : list Z) : list Z :=
  72 :: ty :: be_bytes 2 len ++ be_bytes 4 tid ++ be_bytes 3 seq ++ p :: GTP_IE_ACCESS_POINT_NAME ::
  be_bytes 2 (Z.of_nat (length apn)) ++ inst :: apn ++ rest.

(** A label, then an octet that is a negative [char] and leads back into it. *)
Record steps_back (apn : list Z) (n c : Z) (w r : list Z) : Prop := {
  sb_apn : apn = n :: w ++ c :: r;
  sb_label : n = Z.of_nat (length w);
  sb_short : 0 < n < 64;
  sb_octet : 128 <= c < 256;
  sb_back : 256 - c <= n + 1;
}.

Lemma steps_back_throws apn n c w r : steps_back apn n c w r -> Z.of_nat (length apn) < 2 ^ 16 ->
  dotted_to_string apn = Some (Throw std_length_error).
Proof.
  intros [-> Hn Hs Hc Hb] Hlen. unfold dotted_to_string. assert (exists k, dotted_rounds = S (S k)) as [k ->]
    by (exists (Nat.pred (Nat.pred dotted_rounds)); unfold dotted_rounds; lia).
  assert (length (n :: w ++ c :: r) = (2 + length w + length r)%nat) as Hl
    by (cbn [length]; rewrite length_app; cbn [length]; lia). rewrite Hl in Hlen.
  assert (nth (Z.to_nat (n + 1)) (n :: w ++ c :: r) 0 = c) as Hnth.
  { replace (Z.to_nat (n + 1)) with (S (length w)) by lia. cbn [nth]. by rewrite nth_middle. }
  assert (schar n = n) as E1 by (unfold schar; by rewrite (proj2 (Z.ltb_lt n 128)) by lia).
  assert (schar c = c - 256) as E2 by (unfold schar; by rewrite (proj2 (Z.ltb_ge c 128)) by lia).
  cbn [dotted_to_string_loop]. change (nth (Z.to_nat 0) (n :: w ++ c :: r) 0) with n. rewrite Hl, E1.
  rewrite (proj2 (Z.ltb_lt 0 (Z.of_nat _))), (proj2 (Z.ltb_lt n 64)) by lia.
  assert (u64 (0 + n) = n) as -> by (apply wrapu_id; unfold fits; lia).
  rewrite (proj2 (Z.leb_le n _)), (proj2 (Z.ltb_ge n 0)) by lia.
  assert (u16 (0 + 1 + n) = n + 1) as -> by (replace (0 + 1 + n) with (n + 1) by lia; apply wrapu_id; unfold fits; lia).
  rewrite Hnth, E2, (proj2 (Z.ltb_lt (n + 1) _)), (proj2 (Z.ltb_lt (c - 256) 64)) by lia.
  assert (u64 (n + 1 + (c - 256)) = n + 1 + (c - 256)) as -> by (apply wrapu_id; unfold fits; lia).
  by rewrite (proj2 (Z.leb_le (n + 1 + (c - 256)) _)), (proj2 (Z.ltb_lt (c - 256) 0)) by lia.
Qed.

Lemma apn_datagram_throws fuel port ty len tid seq p inst apn rest n c w r :
  fits 16 len -> fits 32 tid -> fits 16 (Z.of_nat (length apn)) -> steps_back apn n c w r ->
  gtpv2c_msg_load_from (S (S fuel)) (mk_gtpv2c_msg gtpv2c_msg_header_init port [])
    (istream_of (apn_datagram ty len tid seq p inst apn rest)) = Throw std_length_error.
Proof.
  intros H1 H2 H3 Hb. pose proof (steps_back_throws _ _ _ _ _ Hb (proj2 H3)) as Ht.
  assert (Z.of_nat (length apn) <> 0) as Hpos by (rewrite (sb_apn _ _ _ _ _ Hb); cbn [length]; lia).
  unfold gtpv2c_msg_load_from, gtpv2c_header_load_from, apn_datagram.
  rewrite !read_u8_cons. cbv zeta. rewrite read_be_app by done. change (bf_field 3 1 72 =? 0) with false. cbv iota.
  rewrite read_be_app, (read_exact_app 3) by (done || apply length_be_bytes). cbn [mbind result_bind]. rewrite read_u8_cons.
  cbn [mbind result_bind msg_ies_loop new_gtpv2c_ie_from_stream]. unfold tlv_load_from.
  rewrite read_u8_cons, read_be_app, read_u8_cons by done. cbn [t_length t_type]. rewrite (proj2 (Z.eqb_neq _ _)) by done.
  change (GTP_IE_ACCESS_POINT_NAME =? GTP_IE_IMSI) with false. change (GTP_IE_ACCESS_POINT_NAME =? GTP_IE_CAUSE) with false.
  change (GTP_IE_ACCESS_POINT_NAME =? GTP_IE_RECOVERY_RESTART_COUNTER) with false. rewrite Z.eqb_refl. cbv iota.
  unfold load_as, ie_load_from, ie_of_tlv, apn_ie, apn_load_from. cbn [apn_tlv apn_of_tlv t_length].
  rewrite Nat2Z.id, read_exact_app by done. cbn [mbind result_bind]. by rewrite Ht.
Qed.

(** C27 One datagram ends the process.  Whatever the type, the TEID and the rest
    of the message, whatever has happened before and on each of the three
    interfaces: when its first element is an APN with a label followed by an
    octet that is a negative char and leads back into the octets read,
    [dotted_to_string] leaves with [std::length_error], which is no
    [gtpc_exception]: [handle_receive] does not catch it, and the thread that
    reads the socket ends with it. *)
Theorem malformed_apn_uncaught {G T M} `{FG : FreshIds G} `{TS : TimerService T} `{AM : AtomicMap M} (j : junk)
    (t : gtp_task G T M) (ep : endpoint) (ty len tid seq p inst n c : Z) (apn rest w r : list Z) :
  fits 16 len -> fits 32 tid -> fits 16 (Z.of_nat (length apn)) -> steps_back apn n c w r ->
  let b := apn_datagram ty len tid seq p inst apn rest in
  let uncaught := Some (Throw (GtpcException std_length_error)) in
  S11Task.handle_receive j b ep t = uncaught /\ SgwS5S8Task.handle_receive b ep t = uncaught /\
  PgwS5S8Task.handle_receive b ep t = uncaught.
Proof.
  intros H1 H2 H3 Hb b uncaught. unfold S11Task.handle_receive, SgwS5S8Task.handle_receive, PgwS5S8Task.handle_receive, receive_datagram.
  assert (exists k, length b = S k) as [k ->] by (unfold b, apn_datagram; cbn [length]; by eexists).
  unfold b. rewrite (apn_datagram_throws k _ _ _ _ _ _ _ _ _ n c w r H1 H2 H3 Hb). done.
Qed.

Lemma malformed_apn_uncaught_witness :
  let b := apn_datagram 32 17 0 7 0 0 [1; 97; 255; 0; 0] [] in
  PgwS5S8Task.handle_receive b (Ep4 16777599 2123) (idle_task 9) = Some (Throw (GtpcException std_length_error)).
Proof.
  intros b. apply (malformed_apn_uncaught demo_junk (idle_task 9) (Ep4 16777599 2123) 32 17 0 7 0 0 1 255 [1; 97; 255; 0; 0] [] [97] [0; 0]).
  - vm_compute. split; congruence.
  - vm_compute. split; congruence.
  - vm_compute. split; congruence.
  - split; reflexivity || lia.
Defined.
