(* ===== verification/SxabTask.v ===== *)
(** * The task of the Sxab interface

    [src/oai_spgwc/pgwc_sxab.cpp]: the task between the PFCP transaction layer
    ([PfcpStack]), the table of user-plane nodes ([UpNodes]) and the application
    of the PGW.  Session messages go between the application and the user plane;
    associations and heartbeats end here, in the table.

    The timers of the ITTI and the generator of transaction ids are one of each:
    both the stack and the table have them, and [on_nodes] hands them over.  The
    restoration of sessions is left in what the table has sent. *)
From S2P Require Import Prelude Stream UidGenerator Itti TimerService AtomicMap PfcpNode PfcpTlv PfcpScalar PfcpMsg PfcpIe PfcpLoad PfcpTables PfcpContainer AppMsg.
From S2P Require Import PgwApp.
From S2P Require PfcpStack UpNodes.
From Stdlib Require Import ZArith Lia String.
From stdpp Require Import base numbers tactics list strings gmap sets.
Open Scope Z_scope.

Definition TASK_SPGWU_SX : Z := 18.
Definition TASK_PGWC_SX_TRIGGER_HEARTBEAT_REQUEST : Z := 11.
Definition PFCP_PFCP_PFD_MANAGEMENT_RESPONSE : Z := 4.
Definition CAUSE_VALUE_REQUEST_ACCEPTED : Z := 1.
Definition CAUSE_VALUE_REQUEST_REJECTED : Z := 64.

(** [endpoint::set_port]; a default endpoint has no family, and no message is
    sent to one. *)
Definition endpoint_set_port (p : Z) (ep : endpoint) : endpoint :=
  match ep with EpNone => EpNone | Ep4 a _ => Ep4 a p | Ep6 a _ => Ep6 a p end.

(** [cp_function_features_s::has_features] *)
Definition has_features (f : cp_function_features_t) : bool :=
  (0 <? cp_function_features_ovrl f) || (0 <? cp_function_features_load f).

(** What leaves a call: an exception of the codecs, or of a full table. *)
Inductive sx_exn :=
| PfcpException (e : pfcp_exn)
| AtomicHashMapFull.

(** What the task receives from the ITTI; a time-out has the two arguments of
    its timer. *)
Inductive sx_event :=
| ItSx (m : itti_sx_msg)
| ItSxTimeOut (timer_id arg1_user arg2_user : Z)
| ItSxTerminate
| ItSxHealthPing.

Section Sxab.
Context {G T : Type} {M : Type -> Type} `{FG : FreshIds G} `{TS : TimerService T} `{AM : AtomicMap M}.
(** Uninitialised memory of the elements built, written and read. *)
Context (mem dmem : memory) (rmem : nat -> heap).
(** [std::hash]; the configuration. *)
Context (hash_uint32 : Z -> Z) (hash_string : string -> Z).
Context (association_heartbeat_period_ms : Z) (this_node_id : option node_id_t).
(** The members the constructor sets. *)
Context (recovery_time_stamp : Z) (cp_function_features : cp_function_features_t).

Abbreviation stack := (@PfcpStack.pfcp_l4_stack G T endpoint).
Abbreviation features := (option (element_core Eup_function_features)).
Abbreviation resources := (option (element_core Euser_plane_ip_resource_information)).
Abbreviation nodes := (@UpNodes.up_state G T M endpoint features resources).

(** The interface, the table it serves, and the messages it gave to
    [itti_inst->send_msg] for the application, newest last. *)
Record sxab_task := mk_sxab_task {
  sx_stack : stack;
  sx_nodes : nodes;
  sx_sent : list itti_sx_msg;
}.

Definition with_sx_stack (s : stack) (t : sxab_task) : sxab_task := mk_sxab_task s (sx_nodes t) (sx_sent t).
Definition sx_send_itti (m : itti_sx_msg) (t : sxab_task) : sxab_task :=
  mk_sxab_task (sx_stack t) (sx_nodes t) (sx_sent t ++ [m]).

Definition sx_outcome : Type := result sx_exn sxab_task.

Definition of_pfcp {A} (r : result pfcp_exn A) : result sx_exn A :=
  match r with Val a => Val a | Throw e => Throw (PfcpException e) | UB => UB | Diverge => Diverge end.

(** [None]: the id generator does not return. *)
Definition of_stack {A} (r : option (result Empty_set A)) : result sx_exn A :=
  match r with Some (Val a) => Val a | Some UB => UB | _ => Diverge end.

(** The constructor. *)
Definition pgwc_sxab_new (t1_ms n1 ns : Z) (ids : list string) (clock : T) (ids_in_use : G) : sxab_task :=
  mk_sxab_task (PfcpStack.pfcp_l4_stack_new t1_ms n1 ns clock ids_in_use)
    (UpNodes.up_state_init None ids clock ids_in_use) [].

(** ** Sending *)

(** [send_request] and [send_response] of a container.  The message is built
    from it first, in the second once the transaction has been found. *)
Definition sx_request (dest : endpoint) (seid : option Z) (m : pfcp_message) (o : sx_ies) (tx : Z) (t : sxab_task) : sx_outcome :=
  msg ← of_pfcp (message_of_container mem dmem m o);
  Val (with_sx_stack (PfcpStack.send_request dest seid msg UpNodes.TASK_PGWC_SX tx (sx_stack t)).2 t).

Definition sx_response (dest : endpoint) (seid : option Z) (m : pfcp_message) (o : sx_ies) (tx : Z) (t : sxab_task) : sx_outcome :=
  match PfcpStack.trxn_id2seq_num (sx_stack t) !! tx with
  | Some _ =>
    msg ← of_pfcp (message_of_container mem dmem m o);
    Val (with_sx_stack (PfcpStack.send_response (msg_type m =? PfcpStack.PFCP_HEARTBEAT_RESPONSE) dest seid msg tx
      PfcpStack.CONTINUE_TX (sx_stack t)) t)
  | None => Val t
  end.

(** [i.pfcp_ies.set(r)] of the time stamp of this node. *)
Definition set_time_stamp (c : pfcp_class) (o : sx_ies) : sx_ies :=
  set_element c Erecovery_time_stamp (mk_recovery_time_stamp_t (u32 recovery_time_stamp)) o.

Definition send_association_setup_request (i : itti_sx_msg) (t : sxab_task) : sx_outcome :=
  sx_request (sx_r_endpoint i) None pfcp_association_setup_request_message
    (set_time_stamp pfcp_association_setup_request_class (pfcp_ies i)) (sx_trxn_id i) t.

Definition association_setup_response_ies (o : sx_ies) : sx_ies :=
  let o := set_time_stamp pfcp_association_setup_response_class o in
  if has_features cp_function_features
  then set_element pfcp_association_setup_response_class Ecp_function_features cp_function_features o else o.

Definition send_association_setup_response (i : itti_sx_msg) (t : sxab_task) : sx_outcome :=
  sx_response (sx_r_endpoint i) None pfcp_association_setup_response_message
    (association_setup_response_ies (pfcp_ies i)) (sx_trxn_id i) t.

Definition send_session_report_response (i : itti_sx_msg) (t : sxab_task) : sx_outcome :=
  sx_response (sx_r_endpoint i) (Some (seid i)) pfcp_session_report_response_message (pfcp_ies i) (sx_trxn_id i) t.

(** [send_heartbeat_request]: the table has generated the transaction id. *)
Definition send_heartbeat_request (dest : endpoint) (tx : Z) (t : sxab_task) : sx_outcome :=
  let m := pfcp_heartbeat_request_message in
  sx_request dest None m (set_time_stamp (msg_class m) (object_init (msg_class m))) tx t.

Definition send_heartbeat_response (dest : endpoint) (tx : Z) (t : sxab_task) : sx_outcome :=
  let m := pfcp_heartbeat_response_message in
  sx_response dest None m (set_time_stamp (msg_class m) (object_init (msg_class m))) tx t.

Definition send_session_establishment_request (i : itti_sx_msg) (t : sxab_task) : sx_outcome :=
  sx_request (sx_r_endpoint i) (Some (seid i)) pfcp_session_establishment_request_message (pfcp_ies i) (sx_trxn_id i) t.
Definition send_session_modification_request (i : itti_sx_msg) (t : sxab_task) : sx_outcome :=
  sx_request (sx_r_endpoint i) (Some (seid i)) pfcp_session_modification_request_message (pfcp_ies i) (sx_trxn_id i) t.
Definition send_session_deletion_request (i : itti_sx_msg) (t : sxab_task) : sx_outcome :=
  sx_request (sx_r_endpoint i) (Some (seid i)) pfcp_session_deletion_request_message (pfcp_ies i) (sx_trxn_id i) t.

(** ** The table of nodes *)

(** The response the table makes to a setup request. *)
Definition setup_response (tx : Z) (accepted : bool) (from : node_id_t) (dest : endpoint) : itti_sx_msg :=
  let c := pfcp_association_setup_response_class in
  let cause := mk_cause_t (if accepted then CAUSE_VALUE_REQUEST_ACCEPTED else CAUSE_VALUE_REQUEST_REJECTED) in
  mk_itti_sx_msg pfcp_association_setup_response_message dest UNASSIGNED_SEID tx
    (set_element c Enode_id from (set_element c Ecause cause (object_init c))).

(** What the table sends goes through the stack. *)
Definition send_for_node (o : UpNodes.up_output) (t : sxab_task) : sx_outcome :=
  match o with
  | UpNodes.SetupResponse tx accepted from dest => send_association_setup_response (setup_response tx accepted from dest) t
  | UpNodes.HeartbeatRequest tx dest => send_heartbeat_request (default EpNone dest) tx t
  | UpNodes.RestoreProcedure _ => Val t
  end.

Fixpoint send_all_for_node (l : list UpNodes.up_output) (t : sxab_task) : sx_outcome :=
  match l with
  | [] => Val t
  | o :: l => t ← send_for_node o t; send_all_for_node l t
  end.

(** The timers and the generator of the stack, in the table, and back. *)
Definition shared_nodes (t : sxab_task) : nodes :=
  UpNodes.set_uids (PfcpStack.uids_of (sx_stack t)) (UpNodes.set_timers (PfcpStack.timers_of (sx_stack t)) (sx_nodes t)).
Definition share_back (n : nodes) (t : sxab_task) : sxab_task :=
  mk_sxab_task (PfcpStack.upd_uids (UpNodes.uids_of n) (PfcpStack.upd_timers (UpNodes.timers_of n) (sx_stack t))) n (sx_sent t).

(** A call of the table.  A setup response changes no timer and takes no id, and
    a heartbeat request is the last thing its call does: sending after the call
    is sending in it. *)
Definition on_nodes (f : nodes -> result UpNodes.up_exn nodes) (t : sxab_task) : sx_outcome :=
  match f (shared_nodes t) with
  | Val n => send_all_for_node (drop (length (UpNodes.sent (sx_nodes t))) (UpNodes.sent n)) (share_back n t)
  | Throw UpNodes.AhmFullError => Throw AtomicHashMapFull
  | UB => UB
  | Diverge => Diverge
  end.

(** ** Reception *)

(** [msg_ies_container.x]: a member that is a pair. *)
Definition pair_member (x : string) (e : element) (o : sx_ies) : option (element_core e) := head (o x) ≫= as_element e.

(** [handle_receive] catches a [pfcp_exception]: what is thrown where the task
    is [t] leaves it as [t].  [std::length_error] is not one. *)
Definition sx_caught {A} (r : result pfcp_exn A) (t : sxab_task) (k : A -> sx_outcome) : sx_outcome :=
  match r with
  | Val a => k a
  | Throw pfcp_length_error => Throw (PfcpException pfcp_length_error)
  | Throw _ => Val t
  | UB => UB
  | Diverge => Diverge
  end.

(** [msg.to_core_type(msg_ies_container)], then [handle_receive_message_cb],
    which looks at the header alone; [k] is what follows when there is no
    error. *)
Definition sx_receive_then (m : pfcp_message) (task_id : Z) (msg : pfcp_msg_in) (t : sxab_task)
    (k : sx_ies -> Z -> sxab_task -> sx_outcome) : sx_outcome :=
  sx_caught (message_to_container m (in_ies msg)) t (fun c =>
    '(error, tx, s) ← of_stack (PfcpStack.handle_receive_message_cb (mk_pfcp_msg (in_hdr msg) []) task_id (sx_stack t));
    if (error : bool) then Val (with_sx_stack s t) else k c tx (with_sx_stack s t)).

(** The body of the handlers that send a message on to the application. *)
Definition sx_receive (m : pfcp_message) (msg : pfcp_msg_in) (ep : endpoint) (t : sxab_task) : sx_outcome :=
  sx_receive_then m UpNodes.TASK_PGWC_SX msg t (fun c tx t =>
    Val (sx_send_itti (mk_itti_sx_msg m ep (h_seid (in_hdr msg)) tx c) t)).

Definition handle_receive_heartbeat_request (msg : pfcp_msg_in) (ep : endpoint) (t : sxab_task) : sx_outcome :=
  sx_receive_then pfcp_heartbeat_request_message UpNodes.TASK_PGWC_SX msg t (fun c tx t =>
    match pair_member "recovery_time_stamp" Erecovery_time_stamp c with
    | None => Val t
    | Some r =>
      t ← on_nodes (fun n => Val (UpNodes.handle_receive_heartbeat_request ep (recovery_time_stamp_recovery_time_stamp r) n)) t;
      send_heartbeat_response ep tx t
    end).

Definition handle_receive_heartbeat_response (msg : pfcp_msg_in) (ep : endpoint) (t : sxab_task) : sx_outcome :=
  sx_receive_then pfcp_heartbeat_response_message UpNodes.TASK_PGWC_SX msg t (fun c tx t =>
    match pair_member "recovery_time_stamp" Erecovery_time_stamp c with
    | None => Val t
    | Some r =>
      on_nodes (fun n => Val (UpNodes.handle_receive_heartbeat_response association_heartbeat_period_ms tx
        (recovery_time_stamp_recovery_time_stamp r) n)) t
    end).

Definition handle_receive_association_setup_request (msg : pfcp_msg_in) (ep : endpoint) (t : sxab_task) : sx_outcome :=
  sx_receive_then pfcp_association_setup_request_message UpNodes.TASK_PGWC_SX msg t (fun c tx t =>
    match pair_member "node_id" Enode_id c, pair_member "recovery_time_stamp" Erecovery_time_stamp c with
    | Some ni, Some r =>
      on_nodes (UpNodes.AssociationSetupRequest hash_uint32 hash_string association_heartbeat_period_ms this_node_id tx ep ni
        (recovery_time_stamp_recovery_time_stamp r) (pair_member "up_function_features" Eup_function_features c)
        (pair_member "user_plane_ip_resource_information" Euser_plane_ip_resource_information c)) t
    | _, _ => Val t
    end).

(** The timer of the transaction is one of another program. *)
Definition handle_receive_association_setup_response (msg : pfcp_msg_in) (ep : endpoint) (t : sxab_task) : sx_outcome :=
  sx_receive_then pfcp_association_setup_response_message TASK_SPGWU_SX msg t (fun c tx t =>
    match pair_member "node_id" Enode_id c, pair_member "recovery_time_stamp" Erecovery_time_stamp c with
    | Some ni, Some r =>
      on_nodes (UpNodes.AssociationSetupResp None hash_uint32 hash_string association_heartbeat_period_ms ep ni
        (recovery_time_stamp_recovery_time_stamp r) (pair_member "up_function_features" Eup_function_features c)) t
    | _, _ => Val t
    end).

Definition handle_receive_session_establishment_response (msg : pfcp_msg_in) (ep : endpoint) (t : sxab_task) : sx_outcome :=
  sx_receive pfcp_session_establishment_response_message msg ep t.
Definition handle_receive_session_modification_response (msg : pfcp_msg_in) (ep : endpoint) (t : sxab_task) : sx_outcome :=
  sx_receive pfcp_session_modification_response_message msg ep t.
Definition handle_receive_session_deletion_response (msg : pfcp_msg_in) (ep : endpoint) (t : sxab_task) : sx_outcome :=
  sx_receive pfcp_session_deletion_response_message msg ep t.
Definition handle_receive_session_report_request (msg : pfcp_msg_in) (ep : endpoint) (t : sxab_task) : sx_outcome :=
  sx_receive pfcp_session_report_request_message msg ep t.

(** The labels of the PFD management messages fall through to the handler of a
    setup response. *)
Definition handle_receive_pfcp_msg (msg : pfcp_msg_in) (ep : endpoint) (t : sxab_task) : sx_outcome :=
  let ty := h_message_type (in_hdr msg) in
  if ty =? PfcpStack.PFCP_ASSOCIATION_SETUP_REQUEST then handle_receive_association_setup_request msg ep t
  else if ty =? PfcpStack.PFCP_HEARTBEAT_REQUEST then handle_receive_heartbeat_request msg ep t
  else if ty =? PfcpStack.PFCP_HEARTBEAT_RESPONSE then handle_receive_heartbeat_response msg ep t
  else if ty =? PfcpStack.PFCP_SESSION_ESTABLISHMENT_RESPONSE then handle_receive_session_establishment_response msg ep t
  else if ty =? PfcpStack.PFCP_SESSION_MODIFICATION_RESPONSE then handle_receive_session_modification_response msg ep t
  else if ty =? PfcpStack.PFCP_SESSION_DELETION_RESPONSE then handle_receive_session_deletion_response msg ep t
  else if ty =? PfcpStack.PFCP_SESSION_REPORT_REQUEST then handle_receive_session_report_request msg ep t
  else if (ty =? PfcpStack.PFCP_PFCP_PFD_MANAGEMENT_REQUEST) || (ty =? PFCP_PFCP_PFD_MANAGEMENT_RESPONSE) ||
          (ty =? PfcpStack.PFCP_ASSOCIATION_SETUP_RESPONSE) then handle_receive_association_setup_response msg ep t
  else Val t.

Definition handle_receive (recv_buffer : list Z) (ep : endpoint) (t : sxab_task) : sx_outcome :=
  sx_caught (pfcp_msg_load_from (S (length recv_buffer)) rmem pfcp_msg_in_init (istream_of recv_buffer)) t
    (fun '(msg, _) => handle_receive_pfcp_msg msg ep t).

(** ** Time-outs *)

(** The stack calls it with the cause "remote peer not responding" alone. *)
Definition notify_ul_error (message_type tx : Z) (t : sxab_task) : sx_outcome :=
  if message_type =? PfcpStack.PFCP_HEARTBEAT_REQUEST
  then on_nodes (fun n => Val (UpNodes.timeout_heartbeat_request association_heartbeat_period_ms tx n)) t
  else Val t.

(** It is the last thing [time_out_event] does. *)
Fixpoint notify_all (l : list (@PfcpStack.output endpoint)) (t : sxab_task) : sx_outcome :=
  match l with
  | [] => Val t
  | PfcpStack.NotifyUlError _ ty _ tx :: l => t ← notify_ul_error ty tx t; notify_all l t
  | _ :: l => notify_all l t
  end.

Definition time_out_itti_event (timer_id : Z) (t : sxab_task) : sx_outcome :=
  '(_, s) ← of_stack (Some (PfcpStack.time_out_event timer_id UpNodes.TASK_PGWC_SX (sx_stack t)));
  notify_all (drop (length (PfcpStack.outputs (sx_stack t))) (PfcpStack.outputs s)) (with_sx_stack s t).

(** ** The task *)

(** The messages it has a [send_sx_msg] for; the other overloads it calls are
    empty. *)
Definition send_sx_msg (i : itti_sx_msg) (t : sxab_task) : sx_outcome :=
  let ty := msg_type (sx_message i) in
  if ty =? PfcpStack.PFCP_ASSOCIATION_SETUP_REQUEST then send_association_setup_request i t
  else if ty =? PfcpStack.PFCP_SESSION_ESTABLISHMENT_REQUEST then send_session_establishment_request i t
  else if ty =? PfcpStack.PFCP_SESSION_MODIFICATION_REQUEST then send_session_modification_request i t
  else if ty =? PfcpStack.PFCP_SESSION_DELETION_REQUEST then send_session_deletion_request i t
  else if ty =? PfcpStack.PFCP_SESSION_REPORT_RESPONSE then send_session_report_response i t
  else Val t.

(** One round of the loop; [false]: the task ends. *)
Definition pgwc_sxab_task (e : sx_event) (t : sxab_task) : result sx_exn (bool * sxab_task) :=
  match e with
  | ItSx m => t ← send_sx_msg m t; Val (true, t)
  | ItSxTimeOut timer_id arg1_user arg2_user =>
    t ← (if arg1_user =? TASK_PGWC_SX_TRIGGER_HEARTBEAT_REQUEST
         then on_nodes (UpNodes.initiate_heartbeat_request endpoint_set_port arg2_user) t
         else time_out_itti_event timer_id t);
    Val (true, t)
  | ItSxTerminate => Val (false, t)
  | ItSxHealthPing => Val (true, t)
  end.
End Sxab.
Arguments sxab_task : clear implicits.
Arguments sx_outcome : clear implicits.

(** What the application of the PGW makes of a message of this task. *)
Definition sxab_to_app (m : itti_sx_msg) : option pgw_msg :=
  let ty := msg_type (sx_message m) in
  if ty =? PfcpStack.PFCP_SESSION_ESTABLISHMENT_RESPONSE then Some (SXAB_SESSION_ESTABLISHMENT_RESPONSE m)
  else if ty =? PfcpStack.PFCP_SESSION_MODIFICATION_RESPONSE then Some (SXAB_SESSION_MODIFICATION_RESPONSE m)
  else if ty =? PfcpStack.PFCP_SESSION_DELETION_RESPONSE then Some (SXAB_SESSION_DELETION_RESPONSE m)
  else if ty =? PfcpStack.PFCP_SESSION_REPORT_REQUEST then Some (SXAB_SESSION_REPORT_REQUEST m)
  else None.
