(* ===== verification/SxabLaws.v ===== *)
(** * Across the Sxab interface

    What the application of the PGW asks of the user plane reaches it through
    the octets of a datagram, and the answer comes back under the transaction of
    the request; a user-plane node that sets up an association is answered and
    entered in the table; one that stays silent is reported to it. *)
From S2P Require Import Prelude Stream UidGenerator Itti TimerService AtomicMap PfcpNode PfcpTlv PfcpScalar PfcpTunnel PfcpMsg PfcpStack PfcpIe PfcpLoad PfcpTables PfcpContainer AppMsg SxabTask.
From S2P Require PfcpElements UpNodes UpNodesLaws TaskLaws.
From Stdlib Require Import ZArith Lia String.
From stdpp Require Import base numbers tactics list strings gmap sets.
Open Scope Z_scope.

#[local] Existing Instance UpNodes.AssociationState_eq_dec.

(** ** The datagram *)

(** The octets of a message with a sequence number, and a SEID or none, as the
    peer sees them, whatever its memory holds. *)
Definition sx_on_wire (m : pfcp_message) (sd : option Z) (seq : Z) (o : sx_ies) (b : list Z) : Prop :=
  forall rmem, exists msg ins c,
    pfcp_msg_load_from (S (length b)) rmem pfcp_msg_in_init (istream_of b) = Val (msg, ins) /\
    h_message_type (in_hdr msg) = msg_type m /\ h_sequence_number (in_hdr msg) = seq /\
    h_seid (in_hdr msg) = default 0 sd /\
    message_to_container m (in_ies msg) = Val c /\ container_seen m o c.

(** What the task can send: the members agree with their declarations, their
    elements are conveyed, and the message fits its length field. *)
Record sx_can_send (mem : memory) (m : pfcp_message) (sd : option Z) (o : sx_ies) : Prop := {
  scs_message : m ∈ pfcp_messages;
  scs_values : container_ok m o;
  scs_length : exists l, each_at (ie_of_core mem) [] 0 (cores_of_rows (msg_rows m) o) = Val l /\ 12 + ies_octets l < 2 ^ 16;
  scs_seid : forall s, sd = Some s -> fits 64 s;
}.

Lemma land_seq_fits n : fits 24 (Z.land n 16777215).
Proof. change 16777215 with (Z.ones 24). rewrite Z.land_ones by lia. by apply Z.mod_pos_bound. Qed.

Lemma addressed_land sd n pm : addressed sd n pm = addressed sd (Z.land n 16777215) pm.
Proof.
  unfold addressed, msg_set_sequence_number, set_sequence_number. f_equal. f_equal.
  by rewrite (land_sn (Z.land n 16777215)) by apply land_seq_fits.
Qed.

Lemma pfcp_msg_of_type ty ws : get_message_type (pfcp_msg_of ty ws) = ty.
Proof.
  unfold pfcp_msg_of. induction ws as [|w ws IH] using rev_ind; [done|]. rewrite foldl_snoc. exact IH.
Qed.

Lemma sx_numbered_on_wire mem dmem m sd o :
  sx_can_send mem m sd o ->
  exists pm, message_of_container mem dmem m o = Val pm /\ get_message_type pm = msg_type m /\
  forall n, sx_on_wire m sd (Z.land n 16777215) o (pfcp_msg_dump_to (addressed sd n pm)).1.
Proof.
  intros [Hm Ho (l & El & Hl) Hs]. set (size := cores_size (cores_of_rows (msg_rows m) o)).
  assert (forall fuel rmem sn, (size < fuel)%nat -> fits 24 sn -> exists pm js ins p, message_of_container mem dmem m o = Val pm /\
    pfcp_msg_load_from fuel rmem pfcp_msg_in_init (istream_of (pfcp_msg_dump_to (addressed sd sn pm)).1) =
      Val (mk_pfcp_msg_in (header_of (msg_type m) sd sn (ies_octets l)) js, ins) /\
    message_to_container m js = Val p /\ container_seen m o p) as H
    by (intros fuel rmem sn Hf Hsn; by apply (pfcp_message_travels m o fuel mem dmem rmem sd sn l)).
  destruct (H (S size) (fun _ _ => 0) 0 ltac:(lia) ltac:(done)) as (pm & _ & _ & _ & Epm & _).
  exists pm. split; [done|]. split.
  - unfold message_of_container, pfcp_msg_of_cores in Epm. apply bind_Val_inv in Epm as (ws & _ & [= <-]). apply pfcp_msg_of_type.
  - intros n rmem. rewrite addressed_land. set (b := (pfcp_msg_dump_to _).1).
    destruct (H (S (length b + size)) rmem (Z.land n 16777215) ltac:(lia) (land_seq_fits n)) as (pm' & js & ins & c & E1 & E2 & E3 & Hc).
    rewrite Epm in E1. injection E1 as <-. rewrite pfcp_load_fuel in E2 by (fold b; lia). fold b in E2.
    exists (mk_pfcp_msg_in (header_of (msg_type m) sd (Z.land n 16777215) (ies_octets l)) js), ins, c. by split_and!.
Qed.

(** ** The transaction layer *)
Section Stack.
Context {G T : Type} `{FG : FreshIds G} `{TS : TimerService T} {endpoint : Type}.
Implicit Types s : @pfcp_l4_stack G T endpoint.

(** A request of this side waits under [seq] for the answer to a message of type
    [ty]. *)
Definition sx_awaits (seq tx ty : Z) s : Prop :=
  exists p, pending_procedures s !! seq = Some p /\ trxn_id p = tx /\ awaited p = ty.

Lemma send_request_octets dest sd m task tx s :
  outputs (send_request dest sd m task tx s).2 =
    outputs s ++ [SendAllocated dest (pfcp_msg_dump_to (addressed sd (get_next_seq_num s).1 m)).1].
Proof.
  unfold send_request, addressed, start_msg_retry_timer, start_proc_cleanup_timer. destruct (get_next_seq_num s) as [n s1] eqn:En.
  unfold get_next_seq_num in En. injection En as <- <-. cbn [fst]. destruct (pfcp_msg_dump_to _) as [b m']. cbv zeta.
  destruct (ts_setup _ _ task _) as [r t]. destruct (r =? _); destruct (ts_setup _ _ task _) as [c t']; reflexivity.
Qed.

Lemma send_request_awaits dest sd m task tx s :
  stack_inv s -> task_ok2 task s -> pending_procedures s !! next_wire_seq s = None ->
  sx_awaits (next_wire_seq s) tx (get_message_type m) (send_request dest sd m task tx s).2.
Proof.
  intros Hi Hok Hf. destruct (send_request_eq s dest sd m task tx Hi Hok) as (r & c & t & b & m' & n & _ & _ & (_ & _ & Hty) & ->).
  eexists. cbn [snd pending_procedures]. rewrite map_insert_new_None, lookup_insert_eq by done. split; [done|]. split; [done|]. exact Hty.
Qed.

(** The answer closes the transaction. *)
Lemma answer_closes s msg task p :
  stack_inv s -> pending_procedures s !! get_sequence_number msg = Some p ->
  check_response_type (awaited p) (get_message_type msg) = true ->
  exists s', handle_receive_message_cb msg task s = Some (Val (false, trxn_id p, s')) /\ outputs s' = outputs s /\
    pending_procedures s' = delete (get_sequence_number msg) (pending_procedures s) /\
    trxn_id2seq_num s' = delete (trxn_id p) (trxn_id2seq_num s).
Proof.
  intros Hi Hp Hty. unfold handle_receive_message_cb. rewrite Hp. fold (awaited p). rewrite Hty.
  unfold stop_msg_retry_timer. destruct (Z.eqb_spec (retry_timer_id p) 0) as [E|E]; [eexists; split; [reflexivity|done]|].
  destruct (si_msg _ Hi _ _ Hp E) as (m & d & -> & _). destruct (Z.eqb_spec (retry_timer_id p) ITTI_INVALID_TIMER_ID); (eexists; split; [reflexivity|done]).
Qed.

(** The request of a peer opens one; every transaction has an id in use. *)
Definition sx_tx_live s : Prop := forall tx seq, trxn_id2seq_num s !! tx = Some seq -> tx ∈ fi_live (uids_of s).

Lemma request_opens s msg task tx g :
  sx_tx_live s -> pending_procedures s !! get_sequence_number msg = None ->
  check_request_type (get_message_type msg) = true -> fi_get (uids_of s) = Some (tx, g) ->
  exists s', handle_receive_message_cb msg task s = Some (Val (false, tx, s')) /\ outputs s' = outputs s /\ uids_of s' = g /\
    trxn_id2seq_num s' = <[tx := get_sequence_number msg]> (trxn_id2seq_num s) /\
    sx_awaits (get_sequence_number msg) tx (get_message_type msg) s'.
Proof.
  intros Hl Hp Hty Hg. unfold handle_receive_message_cb. rewrite Hp, Hty, Hg. unfold start_proc_cleanup_timer.
  destruct (ts_setup _ _ task _) as [c t]. eexists. split; [done|]. split; [done|]. split; [done|]. cbn. split.
  - apply map_insert_new_None. destruct (trxn_id2seq_num s !! tx) eqn:E; [|done]. apply Hl in E.
    by apply fi_get_fresh in Hg as [? _].
  - eexists. cbn. rewrite map_insert_new_None, lookup_insert_eq by done. by split_and!.
Qed.
End Stack.

(** ** Requests and answers of sessions *)
Definition session_exchanges : list (pfcp_message * pfcp_message) :=
  [(pfcp_session_establishment_request_message, pfcp_session_establishment_response_message);
   (pfcp_session_modification_request_message, pfcp_session_modification_response_message);
   (pfcp_session_deletion_request_message, pfcp_session_deletion_response_message)].

Ltac each_exchange H :=
  unfold session_exchanges in H; repeat (apply elem_of_cons in H as [H|H]; [injection H as -> ->|]); [..|by apply elem_of_nil in H].

Section Sx.
Context {G T : Type} {M : Type -> Type} `{FG : FreshIds G} `{TS : TimerService T} `{AM : AtomicMap M}.
Context (mem dmem : memory) (rmem : nat -> heap) (hash_uint32 : Z -> Z) (hash_string : string -> Z).
Context (period : Z) (this_node_id : option node_id_t) (time_stamp : Z) (cp_features : cp_function_features_t).

Abbreviation task := (sxab_task G T M).
Abbreviation receive_datagram :=
  (handle_receive mem dmem rmem hash_uint32 hash_string period this_node_id time_stamp cp_features).
Abbreviation receive_msg := (handle_receive_pfcp_msg mem dmem hash_uint32 hash_string period this_node_id time_stamp cp_features).
Implicit Types t : task.

(** The next request can be sent. *)
Record sx_ready t : Prop := {
  sr_stack : stack_inv (sx_stack t);
  sr_task : task_ok2 UpNodes.TASK_PGWC_SX (sx_stack t);
  sr_free : pending_procedures (sx_stack t) !! next_wire_seq (sx_stack t) = None;
}.

Lemma sx_request_delivers dest sd m o tx t :
  sx_can_send mem m sd o -> sx_ready t ->
  exists t' b, sx_request mem dmem dest sd m o tx t = Val t' /\ sx_nodes t' = sx_nodes t /\ sx_sent t' = sx_sent t /\
    outputs (sx_stack t') = outputs (sx_stack t) ++ [SendAllocated dest b] /\
    sx_on_wire m sd (next_wire_seq (sx_stack t)) o b /\
    sx_awaits (next_wire_seq (sx_stack t)) tx (msg_type m) (sx_stack t') /\ stack_inv (sx_stack t').
Proof.
  intros Hc [Hi Hok Hf]. destruct (sx_numbered_on_wire mem dmem m sd o Hc) as (pm & Em & Hty & Hw). unfold sx_request. rewrite Em.
  eexists _, _. split; [reflexivity|]. do 2 (split; [done|]). cbn [sx_stack with_sx_stack].
  split; [apply send_request_octets|]. split; [apply Hw|]. rewrite <- Hty. split; [by apply send_request_awaits|by apply send_inv].
Qed.

Lemma sx_response_delivers dest sd m o tx seq t :
  sx_can_send mem m sd o -> trxn_id2seq_num (sx_stack t) !! tx = Some seq -> fits 24 seq ->
  exists b, sx_response mem dmem dest sd m o tx t = Val (with_sx_stack (PfcpStack.emit (SendRegistered dest b) (sx_stack t)) t) /\
    sx_on_wire m sd seq o b.
Proof.
  intros Hc Htx Hs. destruct (sx_numbered_on_wire mem dmem m sd o Hc) as (pm & Em & _ & Hw). unfold sx_response, send_response.
  rewrite Htx, Em. cbn [of_pfcp mbind result_bind]. specialize (Hw seq). rewrite land_sn in Hw by done. unfold addressed in Hw.
  destruct (pfcp_msg_dump_to _) as [b m']. by exists b.
Qed.

(** An answer handed to [sx_receive], then the same answer once more. *)
Lemma sx_answer_received m sd seq o b ep tx ty t :
  (forall msg ep t, h_message_type (in_hdr msg) = msg_type m -> receive_msg msg ep t = sx_receive m msg ep t) ->
  sx_on_wire m sd seq o b -> check_response_type ty (msg_type m) = true -> check_request_type (msg_type m) = false ->
  stack_inv (sx_stack t) -> sx_awaits seq tx ty (sx_stack t) ->
  exists t' c, receive_datagram b ep t = Val t' /\ sx_nodes t' = sx_nodes t /\ outputs (sx_stack t') = outputs (sx_stack t) /\
    sx_sent t' = sx_sent t ++ [mk_itti_sx_msg m ep (default 0 sd) tx c] /\ container_seen m o c /\
    pending_procedures (sx_stack t') !! seq = None /\ trxn_id2seq_num (sx_stack t') !! tx = None /\
    receive_datagram b ep t' = Val t'.
Proof.
  intros Hh Hw Hty Hti Hi (p & Hp & <- & <-). destruct (Hw rmem) as (msg & ins & c & El & Et & <- & Ei & Ec & Hc).
  assert (forall u, receive_datagram b ep u = sx_receive m msg ep u) as Hr
    by (intros u; unfold handle_receive; rewrite El; cbn [sx_caught]; by apply Hh).
  setoid_rewrite Hr. unfold sx_receive, sx_receive_then. rewrite Ec. cbn [sx_caught].
  set (pm := mk_pfcp_msg (in_hdr msg) []).
  destruct (answer_closes (sx_stack t) pm UpNodes.TASK_PGWC_SX p Hi Hp) as (s' & -> & Eo & Epd & Etx).
  { unfold get_message_type. cbn [pm hdr]. by rewrite Et. }
  cbn [of_stack mbind result_bind]. eexists _, c. split; [reflexivity|]. cbn [sx_stack sx_nodes sx_sent sx_send_itti with_sx_stack].
  rewrite Epd, Etx, Ei, !lookup_delete_eq. split_and!; try done.
  assert (handle_receive_message_cb pm UpNodes.TASK_PGWC_SX s' = Some (Val (true, 0, s'))) as ->; [|done].
  unfold handle_receive_message_cb. rewrite Epd, lookup_delete_eq. unfold get_message_type. cbn [pm hdr]. by rewrite Et, Hti.
Qed.

(** C11 A session request and its answer.  What the application gives to the
    task for the user plane is sent as one datagram to the address given, which
    the receiver parses to the same type, SEID and container under the next
    sequence number of the stack.  From then on, whatever has happened
    meanwhile, as long as the transaction is open: a datagram with the answer
    under this number is handed to the application as a message with the
    transaction of the request, the SEID of the header and the container that
    was sent; the transaction is closed and nothing is sent; and the same
    datagram once more changes nothing. *)
Theorem sx_session_exchange (q r : pfcp_message) (i : itti_sx_msg) t :
  (q, r) ∈ session_exchanges -> sx_message i = q -> sx_can_send mem q (Some (seid i)) (pfcp_ies i) -> sx_ready t ->
  let seq := next_wire_seq (sx_stack t) in
  exists t1 b, send_sx_msg mem dmem time_stamp i t = Val t1 /\ sx_nodes t1 = sx_nodes t /\ sx_sent t1 = sx_sent t /\
    outputs (sx_stack t1) = outputs (sx_stack t) ++ [SendAllocated (sx_r_endpoint i) b] /\
    sx_on_wire q (Some (seid i)) seq (pfcp_ies i) b /\
    sx_awaits seq (sx_trxn_id i) (msg_type q) (sx_stack t1) /\ stack_inv (sx_stack t1) /\
    forall sd o b2 ep t2, sx_on_wire r sd seq o b2 -> stack_inv (sx_stack t2) ->
      sx_awaits seq (sx_trxn_id i) (msg_type q) (sx_stack t2) ->
      exists t3 c, receive_datagram b2 ep t2 = Val t3 /\ sx_nodes t3 = sx_nodes t2 /\
        outputs (sx_stack t3) = outputs (sx_stack t2) /\
        sx_sent t3 = sx_sent t2 ++ [mk_itti_sx_msg r ep (default 0 sd) (sx_trxn_id i) c] /\ container_seen r o c /\
        sxab_to_app (mk_itti_sx_msg r ep (default 0 sd) (sx_trxn_id i) c) <> None /\
        pending_procedures (sx_stack t3) !! seq = None /\ trxn_id2seq_num (sx_stack t3) !! sx_trxn_id i = None /\
        receive_datagram b2 ep t3 = Val t3.
Proof.
  intros Hqr Hq Hc Hr seq.
  assert (send_sx_msg mem dmem time_stamp i t =
    sx_request mem dmem (sx_r_endpoint i) (Some (seid i)) q (pfcp_ies i) (sx_trxn_id i) t) as ->
    by (unfold send_sx_msg; rewrite Hq; each_exchange Hqr; reflexivity).
  destruct (sx_request_delivers (sx_r_endpoint i) (Some (seid i)) q (pfcp_ies i) (sx_trxn_id i) t Hc Hr)
    as (t1 & b & E & En & Es & Eo & Hw & Ha & Hi).
  exists t1, b. split_and!; try done. intros sd o b2 ep t2 Hw2 Hi2 Ha2.
  destruct (sx_answer_received r sd seq o b2 ep (sx_trxn_id i) (msg_type q) t2) as (t3 & c & E3 & ? & ? & ? & ? & ? & ? & ?); try done.
  - intros msg ep' u Hty. unfold handle_receive_pfcp_msg. rewrite Hty. each_exchange Hqr; reflexivity.
  - each_exchange Hqr; reflexivity.
  - each_exchange Hqr; reflexivity.
  - exists t3, c. split_and!; try done. unfold sxab_to_app. cbn [sx_message]. each_exchange Hqr; discriminate.
Qed.

(** ** Association *)

Lemma node_id_octets me : pfcp_node_id_ok me -> pt_length (pfcp_node_id_tlv (pfcp_node_id_of_core me)) < 300.
Proof.
  destruct 1 as [a Ha|a b c d Ha Hb Hc Hd|s (_ & Hl & _)]; [by vm_compute..|].
  unfold pfcp_node_id_of_core. change (nid_type _) with NODE_ID_TYPE_FQDN. cbn. unfold chars in Hl. change (u16 1) with 1.
  rewrite (wrapu_id 16 (Z.of_nat _ + 1)), wrapu_id by (unfold fits; lia). lia.
Qed.

(** The container of a setup response, and what the message holds of it. *)
Definition setup_container (ca ts : Z) (me : node_id_t) (f : option cp_function_features_t) : sx_ies :=
  let c := pfcp_association_setup_response_class in
  let o := set_element c Erecovery_time_stamp (mk_recovery_time_stamp_t ts)
    (set_element c Enode_id me (set_element c Ecause (mk_cause_t ca) (object_init c))) in
  match f with Some f => set_element c Ecp_function_features f o | None => o end.

Lemma setup_container_can_send ca ts me f :
  fits 8 ca -> fits 32 ts -> pfcp_node_id_ok me -> (forall x, f = Some x -> pfcp_cp_function_features_ok x) ->
  sx_can_send mem pfcp_association_setup_response_message None (setup_container ca ts me f).
Proof.
  intros Hca Hts Hme Hf. pose proof (node_id_octets me Hme) as Hl.
  assert (cores_of_rows (msg_rows pfcp_association_setup_response_message) (setup_container ca ts me f) =
    [CoreElement Enode_id me; CoreElement Ecause (mk_cause_t ca); CoreElement Erecovery_time_stamp (mk_recovery_time_stamp_t ts)] ++
    match f with Some x => [CoreElement Ecp_function_features x] | None => [] end) as Ec
    by (destruct f; vm_compute; reflexivity).
  split.
  - unfold pfcp_messages. repeat (apply elem_of_cons; first [left; reflexivity|right]).
  - apply rows_okb_ok; [destruct f; vm_compute; reflexivity|]. rewrite Ec.
    repeat (apply Forall_cons; split; [done|]). destruct f; [|done]. apply Forall_cons. split; [|done]. by apply Hf.
  - rewrite Ec. destruct f as [x|]; (eexists; split; [reflexivity|]);
      change (ies_octets _) with (4 + pt_length (pfcp_node_id_tlv (pfcp_node_id_of_core me)) + 13) || 
      change (ies_octets _) with (4 + pt_length (pfcp_node_id_tlv (pfcp_node_id_of_core me)) + 18) ; lia.
  - done.
Qed.

Definition sent_features : option cp_function_features_t := if has_features cp_features then Some cp_features else None.

Lemma setup_response_container tx accepted me dest :
  association_setup_response_ies time_stamp cp_features (pfcp_ies (setup_response tx accepted me dest)) =
  setup_container (if accepted then CAUSE_VALUE_REQUEST_ACCEPTED else CAUSE_VALUE_REQUEST_REJECTED) (u32 time_stamp) me sent_features.
Proof. unfold association_setup_response_ies, sent_features. by destruct (has_features cp_features). Qed.

Lemma value_seen_inv {U} (v w : pfcp_value U) : value_seen v w ->
  match v with VElement e x => exists h, w = VElement e (element_seen e h x) | _ => True end.
Proof. destruct 1; [by eexists|done]. Qed.

(** A member that was sent as one element is read as what the peer sees. *)
Lemma seen_member m (o c : sx_ies) n e x :
  container_seen m o c -> n ∈ msg_rows m -> o n = [VElement e x] -> exists h, pair_member n e c = Some (element_seen e h x).
Proof.
  intros [Hs _] Hn E. specialize (Hs n Hn). rewrite E in Hs. inversion Hs as [|? w ? l Hw Hl Ev Ec]; subst. inversion Hl; subst.
  apply value_seen_inv in Hw as [h ->].
  exists h. unfold pair_member. rewrite <- Ec. cbn. apply as_element_refl.
Qed.

(** The task can take a request with the number [seq]. *)
Record sx_open (seq : Z) t : Prop := {
  so_seq : fits 24 seq;
  so_free : pending_procedures (sx_stack t) !! seq = None;
  so_live : sx_tx_live (sx_stack t);
  so_ids : fi_get (uids_of (sx_stack t)) <> None;
}.

(** C12 An association.  A setup request from a configured node that waits for
    one, under a name no association is known for: the table may be full, and
    the exception then leaves the task; else one datagram goes back, which the
    node reads as the acceptance, under the number of its request, with the node
    id, the time stamp and the features of this side.  The node has left the
    waiting list and is active, and its association has its address and its time
    stamp. *)
Theorem association_set_up (me ni : node_id_t) (rts seq : Z) (o : sx_ies) (b : list Z) (ep : endpoint) t l1 n l2 :
  this_node_id = Some me -> pfcp_node_id_ok me -> pfcp_cp_function_features_ok cp_features ->
  sx_on_wire pfcp_association_setup_request_message None seq o b ->
  o "node_id" = [VElement Enode_id ni] -> o "recovery_time_stamp" = [VElement Erecovery_time_stamp (mk_recovery_time_stamp_t rts)] ->
  sx_open seq t -> UpNodesLaws.up_inv hash_uint32 hash_string (sx_nodes t) ->
  UpNodes.split_first (UpNodes.awaits ni) (UpNodes.pending_nodes_ (sx_nodes t)) = Some (l1, n, l2) ->
  let k := int32 (hash_node_id hash_uint32 hash_string ni) in
  ahm_find k (UpNodes.associations (sx_nodes t)) = None ->
  receive_datagram b ep t = Throw AtomicHashMapFull \/
  exists t' tx b', receive_datagram b ep t = Val t' /\ (tx ∉ fi_live (uids_of (sx_stack t))) /\ sx_sent t' = sx_sent t /\
    outputs (sx_stack t') = outputs (sx_stack t) ++ [SendRegistered ep b'] /\
    sx_on_wire pfcp_association_setup_response_message None seq
      (setup_container CAUSE_VALUE_REQUEST_ACCEPTED (u32 time_stamp) me sent_features) b' /\
    UpNodes.pending_nodes_ (sx_nodes t') = l1 ++ l2 /\
    (exists nd, ahm_find k (UpNodes.up_nodes_ (sx_nodes t')) = Some nd /\ UpNodes.id_ nd = UpNodes.id_ n /\
       UpNodes.node_id_ nd = ni /\ UpNodes.association_state_ nd = UpNodes.kAssocSetupState) /\
    exists a, ahm_find k (UpNodes.associations (sx_nodes t')) = Some a /\ UpNodes.recovery_time_stamp a = rts /\
      UpNodes.remote_endpoint a = Some ep /\ UpNodes.id a = UpNodes.id_ n.
Proof.
  intros Hme Hok Hf Hw Eni Erts [Hs Hfree Hlive Hids] Hinv Hsp k Hno. destruct (Hw rmem) as (msg & ins & c & El & Et & Es & _ & Ec & Hc).
  destruct (seen_member _ o c "node_id" _ _ Hc ltac:(by apply (bool_decide_unpack _)) Eni) as [h1 Mni].
  destruct (seen_member _ o c "recovery_time_stamp" _ _ Hc ltac:(by apply (bool_decide_unpack _)) Erts) as [h2 Mrts].
  unfold handle_receive. rewrite El. cbn [sx_caught]. unfold handle_receive_pfcp_msg. rewrite Et.
  change (if msg_type _ =? _ then ?x else _) with x. unfold handle_receive_association_setup_request, sx_receive_then. rewrite Ec. cbn [sx_caught].
  destruct (fi_get (uids_of (sx_stack t))) as [[tx g]|] eqn:Eg; [|done].
  destruct (request_opens (sx_stack t) (mk_pfcp_msg (in_hdr msg) []) UpNodes.TASK_PGWC_SX tx g Hlive) as (s1 & -> & Eo & Eu & Etx & _);
    [by rewrite <- Es in Hfree|unfold get_message_type; cbn [hdr]; by rewrite Et|done|].
  cbn [of_stack mbind result_bind]. rewrite Mni, Mrts. unfold on_nodes. set (t1 := with_sx_stack s1 t).
  assert (UpNodesLaws.up_inv hash_uint32 hash_string (shared_nodes t1)) as Hinv1
    by (apply (UpNodesLaws.inv_grows _ _ (sx_nodes t)); [by apply UpNodesLaws.grows_same|exact Hinv]).
  pose proof (UpNodesLaws.setup_request_spec hash_uint32 hash_string period None None endpoint_set_port this_node_id me tx ep ni rts
    (pair_member "up_function_features" Eup_function_features c)
    (pair_member "user_plane_ip_resource_information" Euser_plane_ip_resource_information c) (shared_nodes t1) Hme Hinv1) as H.
  cbv zeta in H. fold k in H. change (UpNodes.pending_nodes_ (shared_nodes t1)) with (UpNodes.pending_nodes_ (sx_nodes t)) in H.
  rewrite Hsp in H. change (UpNodes.associations (shared_nodes t1)) with (UpNodes.associations (sx_nodes t)) in H. rewrite Hno in H.
  destruct (UpNodes.pending_nodes_ (sx_nodes t)) as [|n0 l0]; [done|]. cbn [UpNodes.up_exec] in H.
  change (element_seen Enode_id h1 ni) with ni. change (recovery_time_stamp_recovery_time_stamp _) with rts.
  destruct H as [->|(s' & -> & Hp & Hup & Hsent & a & Ea & Era & Eea & Eid & _)]; [by left|right].
  change (UpNodes.sent (shared_nodes t1)) with (UpNodes.sent (sx_nodes t)) in Hsent.
  change (UpNodes.sent (sx_nodes t1)) with (UpNodes.sent (sx_nodes t)). rewrite Hsent, drop_app_length.
  cbn [send_all_for_node send_for_node]. unfold send_association_setup_response. rewrite setup_response_container.
  change (sx_r_endpoint (setup_response _ _ _ _)) with ep. change (sx_trxn_id (setup_response _ _ _ _)) with tx.
  destruct (sx_response_delivers ep None pfcp_association_setup_response_message
    (setup_container CAUSE_VALUE_REQUEST_ACCEPTED (u32 time_stamp) me sent_features) tx seq (share_back s' t1)) as (b' & -> & Hw').
  - apply setup_container_can_send; [done|apply wrapu_fits; lia|done|].
    unfold sent_features. destruct (has_features cp_features); [by intros x [= <-]|done].
  - cbn. rewrite Etx, <- Es. apply lookup_insert_eq.
  - done.
  - cbn [mbind result_bind]. eexists _, tx, b'. split; [reflexivity|]. split; [by apply fi_get_fresh in Eg as [? _]|].
    cbn. rewrite Eo. split_and!; try done; [|by exists a]. eexists. split; [apply Hup|done].
    change (UpNodes.up_nodes_ (shared_nodes t1)) with (UpNodes.up_nodes_ (sx_nodes t)).
    destruct (ahm_find k (UpNodes.up_nodes_ (sx_nodes t))) as [nd|] eqn:End; [|done].
    apply (UpNodesLaws.inv_up _ _ _ Hinv) in End as (_ & _ & _ & _ & [a' Ea']). congruence.
Qed.

(** ** Heartbeats *)
Definition heartbeat_container (ts : Z) : sx_ies :=
  set_element pfcp_heartbeat_request_class Erecovery_time_stamp (mk_recovery_time_stamp_t ts) (object_init pfcp_heartbeat_request_class).

Lemma heartbeat_can_send ts : fits 32 ts -> sx_can_send mem pfcp_heartbeat_request_message None (heartbeat_container ts).
Proof.
  intros Hts.
  assert (cores_of_rows (msg_rows pfcp_heartbeat_request_message) (heartbeat_container ts) =
    [CoreElement Erecovery_time_stamp (mk_recovery_time_stamp_t ts)]) as Ec by (vm_compute; reflexivity).
  split.
  - unfold pfcp_messages. repeat (apply elem_of_cons; first [left; reflexivity|right]).
  - apply rows_okb_ok; [vm_compute; reflexivity|]. rewrite Ec. by apply Forall_cons.
  - rewrite Ec. eexists. split; [reflexivity|]. done.
  - done.
Qed.

Abbreviation event := (pgwc_sxab_task mem dmem period time_stamp cp_features).

(** The retry timer of the request pending under [seq] expires [j] times; the
    timers of the stack have no arguments. *)
Inductive sx_silence (seq : Z) : nat -> task -> task -> Prop :=
| silence_0 t : sx_silence seq 0 t t
| silence_S j t t1 p t2 :
    sx_silence seq j t t1 -> task_ok UpNodes.TASK_PGWC_SX (sx_stack t1) ->
    pending_procedures (sx_stack t1) !! seq = Some p ->
    event (ItSxTimeOut (retry_timer_id p) 0 0) t1 = Val (true, t2) -> sx_silence seq (S j) t t2.

Lemma silence_spec seq tx m b dest t t' j :
  stack_inv (sx_stack t) -> retransmitting seq tx 0 m dest (sx_stack t) -> pfcp_msg_dump_to m = (b, m) ->
  get_sequence_number m = seq -> sx_silence seq j t t' -> Z.of_nat j <= n1 (sx_stack t) ->
  stack_inv (sx_stack t') /\ retransmitting seq tx j m dest (sx_stack t') /\ n1 (sx_stack t') = n1 (sx_stack t) /\
  outputs (sx_stack t') = outputs (sx_stack t) ++ replicate j (SendRegistered dest b) /\
  sx_nodes t' = sx_nodes t /\ sx_sent t' = sx_sent t.
Proof.
  intros Hi H0 Hd Hseq Hf. induction Hf as [t|j t t1 p t2 Hf IH Hok Hp Hev]; intros Hj.
  - rewrite app_nil_r. by split_and!.
  - destruct (IH Hi H0 ltac:(lia)) as (Hi1 & Hr1 & Hn & Ho & En & Es).
    destruct (retransmit_once (sx_stack t1) seq tx j UpNodes.TASK_PGWC_SX m b dest Hi1 Hok Hd Hseq Hr1 ltac:(lia))
      as (p' & s' & Hp' & E & Hr2 & Hn2 & Ho2 & Hi2).
    assert (p' = p) as -> by congruence. unfold pgwc_sxab_task in Hev. change (0 =? _) with false in Hev. cbv iota in Hev.
    unfold time_out_itti_event in Hev. rewrite E in Hev. cbn [of_stack mbind result_bind] in Hev. rewrite Ho2, drop_app_length in Hev.
    injection Hev as <-. cbn. split_and!; try done; [congruence|]. rewrite Ho2, Ho, <- app_assoc. f_equal. symmetry. apply replicate_S_end.
Qed.

Lemma find_association_unique (P : UpNodes.pfcp_association -> bool) k a
    (s : @UpNodes.up_state G T M endpoint (option (element_core Eup_function_features))
           (option (element_core Euser_plane_ip_resource_information))) :
  ahm_find k (UpNodes.associations s) = Some a -> P a = true ->
  (forall k' a', ahm_find k' (UpNodes.associations s) = Some a' -> P a' = true -> k' = k) ->
  UpNodes.find_association P s = Some (k, a).
Proof.
  intros Hk Ha Hu. destruct (UpNodes.find_association P s) as [[k' a']|] eqn:E.
  - apply UpNodesLaws.find_association_Some in E as [E HP]. rewrite (Hu k' a' E HP) in E |- *. congruence.
  - apply ahm_list_find, list_elem_of_In in Hk. pose proof (find_none _ _ E _ Hk) as Hn. cbn in Hn. congruence.
Qed.

Lemma timeout_heartbeat_sent tx (s : @UpNodes.up_state G T M endpoint (option (element_core Eup_function_features))
    (option (element_core Euser_plane_ip_resource_information))) :
  UpNodes.sent (UpNodes.timeout_heartbeat_request period tx s) = UpNodes.sent s.
Proof.
  unfold UpNodes.timeout_heartbeat_request, UpNodes.trigger_heartbeat_request_procedure. destruct (UpNodes.find_association _ s) as [[k a]|]; [|done].
  destruct (ts_setup _ _ _ _) as [tm ts]. unfold UpNodes.NotifyNodeNotReachable, UpNodes.notify_node_unreachable, UpNodes.drop_if_lost, UpNodes.update_pending.
  by repeat case_match.
Qed.

(** What became of the node under [k] when its heartbeat was not answered. *)
Definition node_failed (k : Z) (t t' : task) : Prop :=
  match ahm_find k (UpNodes.up_nodes_ (sx_nodes t)) with
  | Some n =>
    if decide (UpNodes.association_state_ n = UpNodes.kAssocUnstable /\
               UpNodes.PFCP_ASSOCIATION_HEARTBEAT_MAX_RETRIES <= u32 (UpNodes.consecutive_failed_echo_proc n + 1))
    then ahm_find k (UpNodes.up_nodes_ (sx_nodes t')) = None /\
      exists n', UpNodes.pending_nodes_ (sx_nodes t') = UpNodes.pending_nodes_ (sx_nodes t) ++ [n'] /\
        UpNodes.association_state_ n' = UpNodes.kAssocLost /\ UpNodes.id_ n' = UpNodes.id_ n
    else UpNodes.pending_nodes_ (sx_nodes t') = UpNodes.pending_nodes_ (sx_nodes t) /\
      exists n', ahm_find k (UpNodes.up_nodes_ (sx_nodes t')) = Some n' /\
        UpNodes.association_state_ n' = UpNodes.kAssocUnstable /\ UpNodes.id_ n' = UpNodes.id_ n
  | None => UpNodes.up_nodes_ (sx_nodes t') = UpNodes.up_nodes_ (sx_nodes t)
  end.

(** The last expiry reaches the table. *)
Lemma give_up_reported seq tx k a j m dest t :
  stack_inv (sx_stack t) -> task_ok UpNodes.TASK_PGWC_SX (sx_stack t) -> get_sequence_number m = seq ->
  get_message_type m = PFCP_HEARTBEAT_REQUEST -> retransmitting seq tx j m dest (sx_stack t) -> Z.of_nat j = n1 (sx_stack t) ->
  UpNodesLaws.up_inv hash_uint32 hash_string (sx_nodes t) ->
  UpNodes.find_association (fun a => UpNodes.trxn_id_heartbeat a =? tx) (sx_nodes t) = Some (k, a) ->
  exists p t', pending_procedures (sx_stack t) !! seq = Some p /\ event (ItSxTimeOut (retry_timer_id p) 0 0) t = Val (true, t') /\
    sx_sent t' = sx_sent t /\ (exists tm, ahm_find k (UpNodes.associations (sx_nodes t')) =
       Some (UpNodes.assoc_set_timer tm (UpNodes.assoc_set_trxn 0 a))) /\
    node_failed k t t'.
Proof.
  intros Hi Hok Hs Hty Hr Hj Hinv Hfa.
  destruct (retransmit_give_up (sx_stack t) seq tx j UpNodes.TASK_PGWC_SX m dest Hi Hok Hs Hr Hj) as (p & s' & Hp & E & Ho & _).
  exists p. unfold pgwc_sxab_task. change (0 =? _) with false. cbv iota. unfold time_out_itti_event. rewrite E.
  cbn [of_stack mbind result_bind]. rewrite Ho, drop_app_length, Hty. cbn [notify_all]. unfold notify_ul_error, on_nodes.
  change (PFCP_HEARTBEAT_REQUEST =? PFCP_HEARTBEAT_REQUEST) with true. cbv iota. set (t1 := with_sx_stack s' t).
  rewrite timeout_heartbeat_sent. change (UpNodes.sent (shared_nodes t1)) with (UpNodes.sent (sx_nodes t1)).
  rewrite drop_all. cbn [send_all_for_node mbind result_bind]. eexists. split; [done|]. split; [reflexivity|]. split; [done|].
  assert (UpNodesLaws.up_inv hash_uint32 hash_string (shared_nodes t1)) as Hinv1
    by (apply (UpNodesLaws.inv_grows _ _ (sx_nodes t)); [by apply UpNodesLaws.grows_same|exact Hinv]).
  destruct (UpNodesLaws.heartbeat_timeout_spec hash_uint32 hash_string period tx k a (shared_nodes t1) Hinv1 Hfa) as [H1 H2].
  split; [exact H1|]. unfold node_failed. change (UpNodes.up_nodes_ (shared_nodes t1)) with (UpNodes.up_nodes_ (sx_nodes t)) in H2.
  destruct (ahm_find k (UpNodes.up_nodes_ (sx_nodes t))); [exact H2|exact (proj1 H2)].
Qed.

(** The heartbeat timer of an association sends a request. *)
Lemma heartbeat_sent h a ep timer_id tx g t :
  let k := int32 h in
  ahm_find k (UpNodes.associations (sx_nodes t)) = Some a -> UpNodes.is_trigger_heartbeat_request_procedure a = true ->
  UpNodes.remote_endpoint a = Some ep -> sx_ready t -> UpNodesLaws.up_inv hash_uint32 hash_string (sx_nodes t) ->
  fi_get (uids_of (sx_stack t)) = Some (tx, g) ->
  exists t1 n, event (ItSxTimeOut timer_id TASK_PGWC_SX_TRIGGER_HEARTBEAT_REQUEST h) t = Val (true, t1) /\
    sx_request mem dmem (endpoint_set_port 8805 ep) None pfcp_heartbeat_request_message (heartbeat_container (u32 time_stamp)) tx
      (share_back n t) = Val t1 /\ sx_ready (share_back n t) /\ sx_nodes t1 = n /\
    UpNodesLaws.up_inv hash_uint32 hash_string n /\ UpNodes.up_nodes_ n = UpNodes.up_nodes_ (sx_nodes t) /\
    UpNodes.pending_nodes_ n = UpNodes.pending_nodes_ (sx_nodes t) /\
    forall k', ahm_find k' (UpNodes.associations n) =
      if decide (k' = k) then Some (UpNodes.assoc_set_trxn tx (UpNodes.assoc_set_retries 0 a))
      else ahm_find k' (UpNodes.associations (sx_nodes t)).
Proof.
  intros k Ha Htr Hep Hr Hinv Hg. set (n0 := shared_nodes t).
  assert (UpNodesLaws.up_inv hash_uint32 hash_string n0) as Hinv0
    by (apply (UpNodesLaws.inv_grows _ _ (sx_nodes t)); [by apply UpNodesLaws.grows_same|exact Hinv]).
  assert (exists n, UpNodes.initiate_heartbeat_request endpoint_set_port h n0 = Val n) as [n En].
  { unfold UpNodes.initiate_heartbeat_request, UpNodes.send_heartbeat_request. fold k. change (UpNodes.associations n0) with (UpNodes.associations (sx_nodes t)).
    rewrite Ha, Htr. cbn [UpNodes.uids_of UpNodes.put_association UpNodes.set_associations n0 shared_nodes UpNodes.set_uids].
    rewrite Hg. by eexists. }
  assert (UpNodesLaws.up_inv hash_uint32 hash_string n) as Hinv'
    by exact (UpNodesLaws.inv_exec hash_uint32 hash_string period None None endpoint_set_port this_node_id (UpNodes.EvHeartbeatTimer h) n0 n Hinv0 En).
  pose proof En as En'. unfold UpNodes.initiate_heartbeat_request, UpNodes.send_heartbeat_request in En'. fold k in En'.
  change (UpNodes.associations n0) with (UpNodes.associations (sx_nodes t)) in En'. rewrite Ha, Htr in En'.
  cbn [UpNodes.uids_of UpNodes.put_association UpNodes.set_associations n0 shared_nodes UpNodes.set_uids] in En'. rewrite Hg in En'.
  cbn [UpNodes.remote_endpoint UpNodes.assoc_set_retries] in En'. rewrite Hep in En'. injection En' as En'.
  assert (sx_ready (share_back n t)) as Hr'.
  { destruct Hr as [H1 H2 H3]. rewrite <- En'. split; [|exact H2|exact H3]. by apply inv_others. }
  destruct (sx_request_delivers (endpoint_set_port 8805 ep) None pfcp_heartbeat_request_message (heartbeat_container (u32 time_stamp)) tx
    (share_back n t) (heartbeat_can_send _ ltac:(apply wrapu_fits; lia)) Hr') as (t1 & b & E & Et & _).
  exists t1, n. split_and!; try done; rewrite <- ?En'; try done.
  - unfold pgwc_sxab_task. rewrite Z.eqb_refl. unfold on_nodes. fold n0. rewrite En.
    assert (UpNodes.sent n = UpNodes.sent (sx_nodes t) ++ [UpNodes.HeartbeatRequest tx (Some (endpoint_set_port 8805 ep))]) as -> by (by rewrite <- En').
    rewrite drop_app_length. cbn [send_all_for_node].
    assert (send_for_node mem dmem time_stamp cp_features (UpNodes.HeartbeatRequest tx (Some (endpoint_set_port 8805 ep))) (share_back n t) = Val t1)
      as -> by exact E. done.
  - intros k'. cbn. rewrite (ahm_find_assign k _ (UpNodes.assoc_set_retries 0 a)); [|rewrite (ahm_find_assign k _ a), decide_True by done; done].
    case_decide; [done|]. rewrite (ahm_find_assign k _ a) by done. by rewrite decide_False.
Qed.

(** C13 A user-plane node that does not answer.  When the heartbeat timer of an
    association expires, one heartbeat request with the time stamp of this node
    goes to port 8805 of the node, under a new transaction.  Each expiry of its
    retry timer sends the same octets again, N1 times, and changes nothing in the
    table.  The next expiry reports the silence to the table: the association
    waits for its next heartbeat on a new timer; an active node becomes
    unstable, or, from the second failure in a row on, is lost: it leaves the active
    nodes for the end of the waiting list. *)
Theorem silent_node_reported (h : Z) a (ep : endpoint) (timer_id tx : Z) (g : G) t :
  let k := int32 h in
  ahm_find k (UpNodes.associations (sx_nodes t)) = Some a -> UpNodes.is_trigger_heartbeat_request_procedure a = true ->
  UpNodes.remote_endpoint a = Some ep -> sx_ready t -> UpNodesLaws.up_inv hash_uint32 hash_string (sx_nodes t) ->
  fi_get (uids_of (sx_stack t)) = Some (tx, g) ->
  (forall k' a', ahm_find k' (UpNodes.associations (sx_nodes t)) = Some a' -> UpNodes.trxn_id_heartbeat a' <> tx) ->
  let dest := endpoint_set_port 8805 ep in
  let seq := next_wire_seq (sx_stack t) in
  exists t1 b, event (ItSxTimeOut timer_id TASK_PGWC_SX_TRIGGER_HEARTBEAT_REQUEST h) t = Val (true, t1) /\
    outputs (sx_stack t1) = outputs (sx_stack t) ++ [SendAllocated dest b] /\
    sx_on_wire pfcp_heartbeat_request_message None seq (heartbeat_container (u32 time_stamp)) b /\
    forall j t2, sx_silence seq j t1 t2 -> Z.of_nat j <= n1 (sx_stack t) ->
      outputs (sx_stack t2) = outputs (sx_stack t1) ++ replicate j (SendRegistered dest b) /\ sx_nodes t2 = sx_nodes t1 /\
      (Z.of_nat j = n1 (sx_stack t) -> task_ok UpNodes.TASK_PGWC_SX (sx_stack t2) ->
       exists p t3, pending_procedures (sx_stack t2) !! seq = Some p /\
         event (ItSxTimeOut (retry_timer_id p) 0 0) t2 = Val (true, t3) /\ sx_sent t3 = sx_sent t2 /\
         (exists tm, ahm_find k (UpNodes.associations (sx_nodes t3)) =
            Some (UpNodes.assoc_set_timer tm (UpNodes.assoc_set_trxn 0 (UpNodes.assoc_set_retries 0 a)))) /\
         node_failed k t t3).
Proof.
  intros k Ha Htr Hep Hr Hinv Hg Hfresh dest seq.
  destruct (heartbeat_sent h a ep timer_id tx g t Ha Htr Hep Hr Hinv Hg) as (t1 & n & Ev & Es & Hr' & Et & Hinv' & Hup & Hpn & Has).
  set (m := pfcp_heartbeat_request_message) in *. set (o := heartbeat_container (u32 time_stamp)) in *. fold k in Has.
  pose proof (heartbeat_can_send (u32 time_stamp) ltac:(apply wrapu_fits; lia)) as Hc.
  destruct (sx_request_delivers dest None m o tx (share_back n t) Hc Hr') as (t1' & b & Es' & _ & _ & Eo & Hw & _ & Hi1).
  fold dest in Es. rewrite Es in Es'. injection Es' as <-.
  destruct (sx_numbered_on_wire mem dmem m None o Hc) as (pm & Epm & Hty & _). unfold sx_request in Es. rewrite Epm in Es. injection Es as Es.
  destruct (send_request_spec (sx_stack (share_back n t)) dest None pm UpNodes.TASK_PGWC_SX tx _ _ (sr_stack _ Hr')
    (conj (sr_task _ Hr') (sr_free _ Hr')) (surjective_pairing _)) as (b' & m' & Hd & Hs & Hsn & Hty' & Hn1 & Hre & Eo').
  rewrite Hsn in Hs, Hre. change (next_wire_seq (sx_stack (share_back n t))) with seq in Hs, Hre, Hw.
  assert (sx_stack t1 = (send_request dest None pm UpNodes.TASK_PGWC_SX tx (sx_stack (share_back n t))).2) as Est by (by rewrite <- Es).
  rewrite <- Est in Hn1, Hre, Eo'. rewrite Eo in Eo'. apply app_inj_2 in Eo' as [_ Eb]; [|done]. injection Eb as <-.
  exists t1, b. do 3 (split; [done|]). intros j t2 Hsil Hj.
  destruct (silence_spec seq tx m' b dest t1 t2 j Hi1 Hre Hd Hs Hsil) as (Hi2 & Hr2 & Hn2 & Ho2 & En2 & _); [rewrite Hn1; exact Hj|].
  do 2 (split; [done|]). intros Hjn Hok2.
  destruct (give_up_reported seq tx k (UpNodes.assoc_set_trxn tx (UpNodes.assoc_set_retries 0 a)) j m' dest t2 Hi2 Hok2 Hs)
    as (p & t3 & Hp & E3 & Es3 & (tm & Ea3) & Hf); try done.
  - rewrite Hty'. exact Hty.
  - rewrite Hn2, Hn1. exact Hjn.
  - by rewrite En2, Et.
  - rewrite En2, Et. apply find_association_unique; [by rewrite Has, decide_True|apply Z.eqb_refl|].
    intros k' a'. rewrite Has. case_decide; [done|]. intros E' Ex%Z.eqb_eq. by apply Hfresh in E'.
  - exists p, t3. split_and!; try done; [by exists tm|]. unfold node_failed in Hf |- *. by rewrite En2, Et, Hup, Hpn in Hf.
Qed.
End Sx.

(** ** The theorems at work *)
#[local] Instance sx_ids : FreshIds uint_generator := uint_generator_FreshIds 64 eq_refl.

Definition sx_clock : itti_clock := mk_itti_clock 0 5000000000 (itti_init 0).
Definition idle_sx (n1 : Z) : sxab_task uint_generator itti_clock (gmap Z) :=
  pgwc_sxab_new 1000 n1 6 ["upf1"] sx_clock uint_generator_init.
Definition sx_me : node_id_t := mk_node_id NODE_ID_TYPE_IPV4_ADDRESS 16777343 0 0 0 "".
Definition upf1 : node_id_t := mk_node_id NODE_ID_TYPE_FQDN 0 0 0 0 "upf1".
Definition no_features : cp_function_features_t := mk_cp_function_features_t 0 0.
Definition name_hash (s : string) : Z := Z.of_nat (String.length s).
Definition sx_memory : nat -> heap := fun _ _ => 170.
Definition upf_endpoint : endpoint := Ep4 16777599 8805.
Abbreviation demo_receive := (handle_receive zeroed zeroed sx_memory (fun x => x) name_hash 5000 (Some sx_me) 3000 no_features).

Lemma idle_task_ok2 n1 : task_ok2 UpNodes.TASK_PGWC_SX (sx_stack (idle_sx n1)).
Proof.
  split; [split; [done|]; cbn; lia|]. intros sec us id t. cbn. unfold ic_setup, timer_setup. simpl. intros [= <- <-]. simpl.
  rewrite wrapu_id by (unfold fits; lia). lia.
Qed.

Lemma idle_sx_ready n1 : 0 <= n1 < 256 -> sx_ready (idle_sx n1).
Proof. intros H. split; [by apply new_inv|apply idle_task_ok2|done]. Qed.

(** A message in a container given by its members. *)
Ltac container_tac :=
  apply rows_okb_ok; [vm_compute; reflexivity|];
  match goal with |- Forall _ ?l => let l' := eval vm_compute in l in change l with l' end; core_decides.
Ltac message_in := unfold pfcp_messages; repeat (apply elem_of_cons; first [left; reflexivity|right]).

Definition session_request_to_upf : itti_sx_msg :=
  mk_itti_sx_msg pfcp_session_establishment_request_message upf_endpoint 0 77 sample_request.

Definition session_answer : sx_ies := members
  [("node_id", VElement Enode_id upf1); ("cause", VElement Ecause (mk_cause_t CAUSE_VALUE_REQUEST_ACCEPTED));
   ("up_fseid", VElement Ef_seid (mk_fseid 1 0 9 16777599 0 0 0 0))].

Definition setup_request : sx_ies := members
  [("node_id", VElement Enode_id upf1);
   ("recovery_time_stamp", VElement Erecovery_time_stamp (mk_recovery_time_stamp_t 100))].

Lemma upf1_ok : pfcp_node_id_ok upf1.
Proof. apply node_id_ok_fqdn. split_and!; [by repeat constructor|done|by repeat constructor]. Qed.

Lemma session_request_can_send : sx_can_send zeroed pfcp_session_establishment_request_message (Some 0) sample_request.
Proof.
  split; [message_in|exact sample_request_ok| |by intros s [= <-]]. eexists. split; [vm_compute; reflexivity|]. by vm_compute.
Qed.

Lemma session_answer_can_send : sx_can_send zeroed pfcp_session_establishment_response_message (Some 7) session_answer.
Proof.
  split; [message_in|container_tac; exact upf1_ok| |by intros s [= <-]]. eexists. split; [vm_compute; reflexivity|]. by vm_compute.
Qed.

Lemma setup_request_can_send : sx_can_send zeroed pfcp_association_setup_request_message None setup_request.
Proof.
  split; [message_in|container_tac; exact upf1_ok| |done]. eexists. split; [vm_compute; reflexivity|]. by vm_compute.
Qed.

Lemma sx_session_exchange_witness :
  exists t1 b b2 t3 c, send_sx_msg zeroed zeroed 3000 session_request_to_upf (idle_sx 2) = Val t1 /\
    outputs (sx_stack t1) = [SendAllocated upf_endpoint b] /\ demo_receive b2 upf_endpoint t1 = Val t3 /\
    sx_sent t3 = [mk_itti_sx_msg pfcp_session_establishment_response_message upf_endpoint 7 77 c] /\
    container_seen pfcp_session_establishment_response_message session_answer c.
Proof.
  destruct (sx_session_exchange zeroed zeroed sx_memory (fun x => x) name_hash 5000 (Some sx_me) 3000 no_features
    pfcp_session_establishment_request_message pfcp_session_establishment_response_message session_request_to_upf (idle_sx 2))
    as (t1 & b & E & _ & Es & Eo & _ & Ha & Hi & H).
  - apply list_elem_of_here.
  - reflexivity.
  - exact session_request_can_send.
  - apply idle_sx_ready. lia.
  - destruct (sx_numbered_on_wire zeroed zeroed _ _ _ session_answer_can_send) as (pm & _ & _ & Hw). specialize (Hw 7).
    destruct (H (Some 7) session_answer _ upf_endpoint t1 Hw Hi Ha) as (t3 & c & E3 & _ & _ & Es3 & Hc & _).
    eexists t1, b, _, t3, c. split; [exact E|]. split; [exact Eo|]. split; [exact E3|]. rewrite Es3, Es. split; [reflexivity|exact Hc].
Defined.

Lemma idle_nodes_inv n1 : UpNodesLaws.up_inv (fun x => x) name_hash (sx_nodes (idle_sx n1)).
Proof. exact (UpNodesLaws.up_inv_init (fun x => x) name_hash 5000 None endpoint_set_port ["upf1"] sx_clock uint_generator_init). Qed.

Lemma association_set_up_witness :
  exists b t' b', demo_receive b upf_endpoint (idle_sx 2) = Val t' /\
    outputs (sx_stack t') = [SendRegistered upf_endpoint b'] /\
    sx_on_wire pfcp_association_setup_response_message None 9
      (setup_container CAUSE_VALUE_REQUEST_ACCEPTED 3000 sx_me None) b' /\
    UpNodes.pending_nodes_ (sx_nodes t') = [].
Proof.
  destruct (sx_numbered_on_wire zeroed zeroed _ _ _ setup_request_can_send) as (pm & Epm & _ & Hw). specialize (Hw 9).
  destruct (association_set_up zeroed zeroed sx_memory (fun x => x) name_hash 5000 (Some sx_me) 3000 no_features sx_me upf1 100 9
    setup_request (pfcp_msg_dump_to (addressed None 9 pm)).1 upf_endpoint (idle_sx 2) [] (UpNodes.PfcpUpNode_new None "upf1") [] eq_refl) as [E|(t' & tx & b' & E & _ & _ & Eo & Hw' & Ep & _)].
  - apply node_id_ok_v4. by vm_compute.
  - by vm_compute.
  - exact Hw.
  - reflexivity.
  - reflexivity.
  - split; [by vm_compute|reflexivity|intros tx seq H; change (trxn_id2seq_num _) with (∅ : gmap Z Z) in H; by apply lookup_empty_Some in H|by vm_compute].
  - apply idle_nodes_inv.
  - vm_compute. reflexivity.
  - vm_compute. reflexivity.
  - exfalso. vm_compute in Epm. injection Epm as <-. vm_compute in E. discriminate E.
  - eexists _, t', b'. split; [exact E|]. split; [exact Eo|]. split; [exact Hw'|exact Ep].
Defined.

(** The table after the request, and a stack that does not retransmit. *)
Definition associated : @UpNodes.up_state uint_generator itti_clock (gmap Z) endpoint (option (element_core Eup_function_features))
    (option (element_core Euser_plane_ip_resource_information)) :=
  match UpNodes.AssociationSetupRequest (fun x => x) name_hash 5000 (Some sx_me) 1 upf_endpoint upf1 100 None None (sx_nodes (idle_sx 0)) with
  | Val n => n
  | _ => sx_nodes (idle_sx 0)
  end.

Definition associated_task : sxab_task uint_generator itti_clock (gmap Z) := mk_sxab_task (sx_stack (idle_sx 0)) associated [].

Lemma associated_inv : UpNodesLaws.up_inv (fun x => x) name_hash associated.
Proof.
  unfold associated. pose proof (idle_nodes_inv 0) as Hi.
  destruct (UpNodes.AssociationSetupRequest _ _ _ _ _ _ _ _ _ _ _) as [n| | |] eqn:E; [|exact Hi..].
  exact (UpNodesLaws.inv_exec (fun x => x) name_hash 5000 None None endpoint_set_port (Some sx_me)
    (UpNodes.EvSetupRequest 1 upf_endpoint upf1 100 None None) _ n Hi E).
Qed.

Abbreviation demo_event := (pgwc_sxab_task zeroed zeroed 5000 3000 no_features).

Lemma silent_node_reported_witness :
  exists t1 b p t3, demo_event (ItSxTimeOut 5 TASK_PGWC_SX_TRIGGER_HEARTBEAT_REQUEST 4) associated_task = Val (true, t1) /\
    outputs (sx_stack t1) = [SendAllocated upf_endpoint b] /\ pending_procedures (sx_stack t1) !! 7 = Some p /\
    demo_event (ItSxTimeOut (retry_timer_id p) 0 0) t1 = Val (true, t3) /\
    exists n, ahm_find 4 (UpNodes.up_nodes_ (sx_nodes t3)) = Some n /\ UpNodes.association_state_ n = UpNodes.kAssocUnstable.
Proof.
  destruct (ahm_find 4 (UpNodes.associations associated)) as [a|] eqn:Ea; [|exfalso; vm_compute in Ea; discriminate Ea].
  destruct (silent_node_reported zeroed zeroed (fun x => x) name_hash 5000 (Some sx_me) 3000 no_features 4 a upf_endpoint 5 1
    (mk_uint_generator 1 {[1]}) associated_task) as (t1 & b & E & Eo & _ & H).
  - exact Ea.
  - vm_compute in Ea. injection Ea as <-. reflexivity.
  - vm_compute in Ea. injection Ea as <-. reflexivity.
  - destruct (idle_sx_ready 0 ltac:(lia)). by split.
  - exact associated_inv.
  - vm_compute. reflexivity.
  - assert (forallb (fun ka => negb (UpNodes.trxn_id_heartbeat ka.2 =? 1)) (map_to_list (UpNodes.associations associated)) = true) as Hx
      by (vm_compute; reflexivity).
    rewrite forallb_forall in Hx. intros k' a' Hk. specialize (Hx (k', a')). cbn [snd] in Hx.
    intros Et. rewrite Et in Hx. discriminate Hx. apply list_elem_of_In, elem_of_map_to_list, Hk.
  - assert (match demo_event (ItSxTimeOut 5 TASK_PGWC_SX_TRIGGER_HEARTBEAT_REQUEST 4) associated_task with
            | Val (_, t) => bool_decide (0 <= timer_id (ic_mw (timers_of (sx_stack t))) < 2 ^ 32 - 1)
            | _ => false end = true) as Hok by (vm_compute; reflexivity).
    rewrite E in Hok. apply bool_decide_eq_true in Hok.
    destruct (H 0%nat t1 (silence_0 _ _ _ _ _ _ t1) ltac:(vm_compute; congruence)) as (_ & _ & Hf).
    destruct (Hf eq_refl (conj (conj eq_refl eq_refl) Hok)) as (p & t3 & Hp & E3 & _ & _ & Hn).
    exists t1, b, p, t3. split; [exact E|]. split; [exact Eo|]. split; [exact Hp|]. split; [exact E3|].
    unfold node_failed in Hn. change (int32 4) with 4 in Hn.
    destruct (ahm_find 4 (UpNodes.up_nodes_ (sx_nodes associated_task))) as [n|] eqn:En; [|exfalso; vm_compute in En; discriminate En].
    rewrite decide_False in Hn; [destruct Hn as (_ & n' & Hn & Hs & _); by exists n'|].
    vm_compute in En. injection En as <-. intros [Hx _]. discriminate Hx.
Defined.

(** ** Datagrams the task does not mean to act on *)

(** A PFD management request with the elements of a setup request. *)
Definition pfd_request : list Z :=
  match message_of_container zeroed zeroed (mk_pfcp_message PFCP_PFCP_PFD_MANAGEMENT_REQUEST pfcp_association_setup_request_class
      (msg_rows pfcp_association_setup_request_message)) setup_request with
  | Val pm => (pfcp_msg_dump_to (addressed None 9 pm)).1
  | _ => []
  end.

(** It associates the node it names, which gets no answer. *)
Lemma pfd_request_associates :
  match demo_receive pfd_request upf_endpoint (idle_sx 2) with
  | Val t => outputs (sx_stack t) = [] /\ UpNodes.pending_nodes_ (sx_nodes t) = [] /\
      (UpNodes.id_ ∘ snd <$> ahm_list (UpNodes.up_nodes_ (sx_nodes t))) = ["upf1"]
  | _ => False
  end.
Proof. vm_compute. done. Qed.

(** A message without SEID whose first element is a node id with a name. *)
Definition node_id_datagram (ty len seq p : Z) (name rest : list Z) : list Z :=
  32 :: ty :: be_bytes 2 len ++ sn_bytes seq ++ p :: be_bytes 2 PFCP_IE_NODE_ID ++
  be_bytes 2 (Z.of_nat (length name) + 1) ++ NODE_ID_TYPE_FQDN :: name ++ rest.

(** When the name steps back into its octets, [std::length_error] leaves the
    task: [handle_receive] catches [pfcp_exception] alone. *)
Lemma malformed_node_id_uncaught {G T M} `{FG : FreshIds G} `{TS : TimerService T} `{AM : AtomicMap M} mem dmem rmem h1 h2 period me ts f
    (t : sxab_task G T M) ep ty len seq p name rest n c w r :
  fits 16 len -> Z.of_nat (length name) + 1 < 2 ^ 16 -> TaskLaws.steps_back name n c w r ->
  handle_receive mem dmem rmem h1 h2 period me ts f (node_id_datagram ty len seq p name rest) ep t =
    Throw (PfcpException pfcp_length_error).
Proof.
  intros Hlen Hn Hb. pose proof (TaskLaws.steps_back_throws _ _ _ _ _ Hb ltac:(lia)) as Ht.
  unfold handle_receive. set (k := length _). unfold node_id_datagram, pfcp_msg_load_from, pfcp_header_load_from.
  rewrite !read_u8_cons. cbv zeta. rewrite read_be_app by done. change (bf_field 0 1 32 =? 0) with true. cbv iota.
  rewrite (read_exact_app 3) by done. cbn [mbind result_bind]. rewrite read_u8_cons.
  cbn [mbind result_bind pfcp_ies_loop new_pfcp_ie_from_stream]. unfold pfcp_tlv_load_from.
  rewrite read_be_app by done. rewrite read_be_app by (split; [lia|exact Hn]).
  change (Z.land PFCP_IE_NODE_ID 32768 =? 0) with true. cbv iota.
  cbn [pt_length pt_type]. assert ((Z.of_nat (length name) + 1 =? 0) = false) as -> by (apply Z.eqb_neq; clear; lia). cbv iota.
  change (factory_switch PFCP_IE_NODE_ID) with (Some (CaseElement Enode_id)). cbv iota.
  assert (length name <> 0%nat) as Hne by (rewrite (TaskLaws.sb_apn _ _ _ _ _ Hb); cbn [length]; lia).
  cbv [pie_load_from pie_of_tlv element_class pfcp_node_id_class]. unfold pfcp_node_id_load_from, pfcp_node_id_of_tlv.
  cbn [pfcp_node_id_u1 pfcp_node_id_tlv pt_length]. rewrite read_u8_cons.
  change (nid_type NODE_ID_TYPE_FQDN) with NODE_ID_TYPE_FQDN.
  change (NODE_ID_TYPE_FQDN =? NODE_ID_TYPE_IPV4_ADDRESS) with false. change (NODE_ID_TYPE_FQDN =? NODE_ID_TYPE_IPV6_ADDRESS) with false.
  rewrite Z.eqb_refl. cbv iota.
  assert (u16 (Z.of_nat (length name) + 1 - 1) = Z.of_nat (length name)) as -> by (rewrite wrapu_id; unfold fits; lia).
  assert ((Z.of_nat (length name) =? 0) = false) as -> by (apply Z.eqb_neq; lia).
  rewrite PfcpElements.read_string_app. cbn [mbind result_bind]. unfold pfcp_dotted_to_string. rewrite Ht. done.
Qed.
