(* ===== verification/Config.v ===== *)
(** * What the configuration decides

    The parts of [pgw_config] ([src/oai_spgwc/pgw_config.cpp], [.hpp]) that
    compute: [Finalize], which derives the network of each pool from its range,
    and [GetUpNodes], which finds the user-plane nodes configured for a request,
    with [PdnCfg::is_in_pool] and the tracking areas of
    [src/common/3gpp_29.274.h]. *)
From S2P Require Import Prelude PaaDynamic GtpTlv GtpLocation AppMsg.
From Stdlib Require Import ZArith Lia String Ascii.
From stdpp Require Import base numbers tactics list strings.
Open Scope Z_scope.

(** The members of [PdnCfg] and [up_node_cfg_t] used here. *)
Record PdnCfg := mk_PdnCfg {
  cfg_apn : list Z;
  cfg_apn_label : list Z;
  cfg_range_low : Z;                       (* [s_addr] *)
  cfg_range_high : Z;
  cfg_network : Z;
  cfg_netmask : Z;
  cfg_pdn_type : Z;
}.

Record up_node_cfg_t := mk_up_node_cfg { un_tai : tai_field_t; un_pdn_index : Z; un_id : string }.

(** ** [Finalize] *)

(** The [while] over [tmp_hbo]; [nbits] is a [uint8_t].  [None]: still looping
    when the fuel is spent. *)
Fixpoint prefix_loop (fuel : nat) (tmp nbits : Z) : option Z :=
  if tmp =? 0 then Some nbits
  else match fuel with
       | O => None
       | S fuel => prefix_loop fuel (Z.shiftr tmp 1) (u8 (nbits - 1))
       end.

(** One round per bit of [tmp_hbo]. *)
Definition prefix_fuel : nat := 32.

(** [0xFFFFFFFF << n]: a shift by the width is undefined. *)
Definition mask_shift {E} (n : Z) : result E Z :=
  if n <? 32 then Val (u32 (Z.shiftl 0xFFFFFFFF n)) else UB.

Definition finalize_pdn {E} (p : PdnCfg) : result E PdnCfg :=
  let low := be32toh (cfg_range_low p) in
  let high := be32toh (cfg_range_high p) in
  match prefix_loop prefix_fuel (Z.lxor low high) 32 with
  | None => Diverge
  | Some nbits =>
    m ← mask_shift (32 - nbits);
    Val (mk_PdnCfg (cfg_apn p) (cfg_apn p) (cfg_range_low p) (cfg_range_high p) (htobe32 (Z.land high m)) (htobe32 m) (cfg_pdn_type p))
  end.

Fixpoint Finalize {E} (pdns : list PdnCfg) : result E (list PdnCfg) :=
  match pdns with
  | [] => Val []
  | p :: pdns => p ← finalize_pdn p; l ← Finalize pdns; Val (p :: l)
  end.

(** ** [GetUpNodes] *)

(** [tai_field_t::from_items]: the digits are bit fields of four bits.  Reading
    at the length of a [std::string] gives its terminator, and further is
    undefined. *)
Definition tai_char (s : list Z) (i : nat) : option Z :=
  if (i <=? length s)%nat then Some (nth i s 0) else None.

Definition from_items {E} (mcc mnc : list Z) (tac : Z) : result E tai_field_t :=
  let digit s i k := match tai_char s i with Some c => k (wrapu 4 (c - 48)) | None => UB end in
  digit mcc 0%nat (fun c1 => digit mcc 1%nat (fun c2 => digit mcc 2%nat (fun c3 =>
  digit mnc 0%nat (fun n1 => digit mnc 1%nat (fun n2 =>
  let tai n3 := Val (mk_tai_field_t (mk_plmn c1 c2 c3 n1 n2 n3) tac) in
  if (length mnc =? 3)%nat then digit mnc 2%nat tai else tai 15))))).

(** [operator==] of a [tai_field_t], and [uli_t::is_tai] *)
Definition tai_eqb (f g : tai_field_t) : bool :=
  let p := tai_plmn f in
  let q := tai_plmn g in
  (mcc_digit_2 p =? mcc_digit_2 q) && (mcc_digit_1 p =? mcc_digit_1 q) && (mnc_digit_3 p =? mnc_digit_3 q) &&
  (mcc_digit_3 p =? mcc_digit_3 q) && (mnc_digit_2 p =? mnc_digit_2 q) && (mnc_digit_1 p =? mnc_digit_1 q) &&
  (tai_tracking_area_code f =? tai_tracking_area_code g).

Definition is_tai (t : tai_field_t) (u : uli_t) : bool := negb (hdr_tai u =? 0) && tai_eqb (tai1 u) t.

(** [is_in_pool] compares the addresses as they lie in memory. *)
Definition is_in_pool (paa : paa_t) (p : PdnCfg) : bool :=
  (pdn_type paa =? PDN_TYPE_E_IPV4) &&
  (cfg_range_low p <=? ipv4_address paa) && (ipv4_address paa <=? cfg_range_high p).

Inductive cfg_exn := pdns_out_of_range.

(** [pdns.at(pdn_index)] *)
Definition GetPdnCfg (pdns : list PdnCfg) (i : Z) : result cfg_exn PdnCfg :=
  match pdns !! Z.to_nat i with Some p => Val p | None => Throw pdns_out_of_range end.

(** One node of the loop. *)
Definition node_serves (apn : list Z) (uli : uli_t) (paa : paa_t) (n : up_node_cfg_t) (p : PdnCfg) : bool :=
  if is_ip_assigned paa && negb (is_in_pool paa p) then false
  else bool_decide (apn = cfg_apn p) && is_tai (un_tai n) uli.

(** The nodes, in the order of the configuration. *)
Fixpoint GetUpNodes (pdns : list PdnCfg) (apn : list Z) (uli : uli_t) (paa : paa_t) (nodes : list up_node_cfg_t)
  : result cfg_exn (list up_node_cfg_t) :=
  match nodes with
  | [] => Val []
  | n :: nodes =>
    p ← GetPdnCfg pdns (un_pdn_index n);
    l ← GetUpNodes pdns apn uli paa nodes;
    Val (if node_serves apn uli paa n p then n :: l else l)
  end.

(** ** The network of a pool *)
Lemma shiftr_below z k : 0 <= k -> 0 <= z -> Z.shiftr z k = 0 <-> z < 2 ^ k.
Proof.
  intros Hk Hz. rewrite Z.shiftr_div_pow2 by done. split; intros H.
  - apply Z.div_small_iff in H; [|apply Z.pow_nonzero; lia]. lia.
  - by apply Z.div_small.
Qed.

(** The loop counts the bits of the difference. *)
Lemma prefix_loop_bits fuel tmp nbits : 0 <= tmp < 2 ^ Z.of_nat fuel -> Z.of_nat fuel <= nbits < 256 ->
  exists k, 0 <= k <= Z.of_nat fuel /\ prefix_loop fuel tmp nbits = Some (nbits - k) /\ tmp < 2 ^ k /\ (k = 0 \/ 2 ^ (k - 1) <= tmp).
Proof.
  revert tmp nbits. induction fuel as [|fuel IH]; intros tmp nbits Ht Hn.
  - assert (tmp = 0) as -> by (simpl in Ht; lia). exists 0. cbn [prefix_loop Z.eqb]. rewrite Z.sub_0_r. split_and!; (lia || done || by left).
  - cbn [prefix_loop]. destruct (Z.eqb_spec tmp 0) as [->|Hne].
    + exists 0. rewrite Z.sub_0_r. split_and!; (lia || done || by left).
    + rewrite Nat2Z.inj_succ, Z.pow_succ_r in Ht by lia. rewrite Z.shiftr_div_pow2, Z.pow_1_r by lia.
      assert (u8 (nbits - 1) = nbits - 1) as -> by (apply wrapu_id; unfold fits; lia).
      destruct (IH (tmp / 2) (nbits - 1)) as (k & Hk & -> & H1 & H2).
      { split; [apply Z.div_pos; lia|apply Z.div_lt_upper_bound; lia]. }
      { lia. }
      exists (k + 1). split; [lia|]. split; [f_equal; lia|]. replace (k + 1 - 1) with k by lia.
      rewrite Z.add_1_r, Z.pow_succ_r by lia. split; [|right].
      * pose proof (Z.div_mod tmp 2) as Hd. pose proof (Z.mod_pos_bound tmp 2) as Hb. lia.
      * destruct H2 as [->|H2]; [simpl; lia|]. pose proof (Z.div_mod tmp 2) as Hd. pose proof (Z.mod_pos_bound tmp 2) as Hb.
        replace k with (Z.succ (k - 1)) at 1 by lia. destruct (Z.eq_dec k 0) as [->|]; [simpl in *; lia|].
        rewrite Z.pow_succ_r by lia. lia.
Qed.

Lemma mask_shift_bits k i : 0 <= k < 32 -> 0 <= i ->
  Z.testbit (u32 (Z.shiftl 0xFFFFFFFF k)) i = (k <=? i) && (i <? 32).
Proof.
  intros Hk Hi. change 0xFFFFFFFF with (Z.ones 32). unfold wrapu. rewrite <- Z.land_ones, Z.land_spec, Z.shiftl_spec by lia.
  destruct (Z.leb_spec k i); [|by rewrite (Z.testbit_neg_r _ (i - k)) by lia].
  rewrite !Z.testbit_ones by lia. destruct (Z.ltb_spec i 32), (Z.ltb_spec (i - k) 32), (Z.leb_spec 0 i), (Z.leb_spec 0 (i - k)); (done || lia).
Qed.

Lemma land_mask h k : 0 <= k < 32 -> fits 32 h -> Z.land h (u32 (Z.shiftl 0xFFFFFFFF k)) = Z.shiftl (Z.shiftr h k) k.
Proof.
  intros Hk Hh. apply Z.bits_inj'. intros i Hi. rewrite Z.land_spec, mask_shift_bits, Z.shiftl_spec by lia.
  destruct (Z.leb_spec k i); [|by rewrite andb_false_r, (Z.testbit_neg_r _ (i - k)) by lia].
  rewrite Z.shiftr_spec by lia. replace (i - k + k) with i by lia. destruct (Z.ltb_spec i 32); [by rewrite andb_true_r|].
  rewrite andb_false_r. symmetry. destruct (Z.eq_dec h 0) as [->|]; [apply Z.bits_0|]. apply Z.bits_above_log2; [apply Hh|].
  assert (Z.log2 h < 32); [|lia]. apply Z.log2_lt_pow2; [unfold fits in Hh; lia|apply Hh].
Qed.

Lemma same_prefix l h k : 0 <= k -> Z.lxor l h < 2 ^ k -> 0 <= l -> 0 <= h -> Z.shiftr l k = Z.shiftr h k.
Proof.
  intros Hk Hx Hl Hh. apply Z.lxor_eq. rewrite <- Z.shiftr_lxor. apply shiftr_below; [done|apply Z.lxor_nonneg; lia|done].
Qed.

(** C39 The network that [Finalize] derives from the range of a pool is the
    smallest that holds it.  The loop always ends.  When the first bits of the
    two ends differ the shift is by the width of its operand, which is
    undefined; otherwise the mask has [32 - k] leading ones, both ends of the
    range have the same [32 - k] first bits, the network is these bits followed
    by zeros, and they differ in the next bit, if there is one: no longer mask
    covers the range.  Everything else of the entry is kept, and the label is
    the APN. *)
Theorem finalize_network (p : PdnCfg) :
  let low := be32toh (cfg_range_low p) in
  let high := be32toh (cfg_range_high p) in
  (finalize_pdn (E := Empty_set) p = UB /\ Z.testbit low 31 <> Z.testbit high 31) \/
  exists k m n, 0 <= k < 32 /\
    finalize_pdn (E := Empty_set) p =
      Val (mk_PdnCfg (cfg_apn p) (cfg_apn p) (cfg_range_low p) (cfg_range_high p) (htobe32 n) (htobe32 m) (cfg_pdn_type p)) /\
    (forall i, 0 <= i -> Z.testbit m i = (k <=? i) && (i <? 32)) /\
    Z.land low m = n /\ Z.land high m = n /\ (k = 0 \/ Z.testbit low (k - 1) <> Z.testbit high (k - 1)).
Proof.
  intros low high. assert (fits 32 low /\ fits 32 high) as [Hl Hh] by (split; apply be32toh_fits).
  unfold finalize_pdn. fold low high.
  assert (forall i, 0 <= i -> 2 ^ i <= Z.lxor low high < 2 ^ (i + 1) -> Z.testbit low i <> Z.testbit high i) as Hbit.
  { intros i Hi Hx E. assert (Z.testbit (Z.lxor low high) i = true) as Hb.
    { rewrite <- (Z.log2_unique (Z.lxor low high) i) by (try apply Z.log2_nonneg; done || (rewrite <- Z.add_1_r; lia)).
      apply Z.bit_log2. pose proof (Z.pow_pos_nonneg 2 i). lia. }
    rewrite Z.lxor_spec, E in Hb. by destruct (Z.testbit high i). }
  assert (0 <= Z.lxor low high) as Hx0 by (apply Z.lxor_nonneg; unfold fits in *; lia).
  assert (Z.lxor low high < 2 ^ 32) as Hx.
  { apply shiftr_below; [lia|done|]. rewrite Z.shiftr_lxor.
    assert (forall z, fits 32 z -> Z.shiftr z 32 = 0) as H32 by (intros z Hz; unfold fits in Hz; apply shiftr_below; lia).
    by rewrite !H32. }
  destruct (prefix_loop_bits prefix_fuel (Z.lxor low high) 32) as (k & Hk & -> & H1 & H2); [done|done|].
  change (Z.of_nat prefix_fuel) with 32 in Hk. replace (32 - (32 - k)) with k by lia. unfold mask_shift.
  destruct (Z.ltb_spec k 32).
  - right. exists k, (u32 (Z.shiftl 0xFFFFFFFF k)), (Z.land high (u32 (Z.shiftl 0xFFFFFFFF k))). split; [lia|]. split; [done|].
    split; [intros i Hi; apply mask_shift_bits; lia|]. rewrite !land_mask by (done || lia).
    split; [by rewrite (same_prefix low high k) by (unfold fits in *; lia)|]. split; [done|].
    destruct H2 as [->|H2]; [by left|]. destruct (Z.eq_dec k 0) as [->|]; [by left|right]. apply Hbit; [lia|]. by replace (k - 1 + 1) with k by lia.
  - left. split; [done|]. assert (k = 32) as -> by lia. destruct H2 as [?|H2]; [lia|]. by apply Hbit.
Qed.

(** ** The nodes for a request *)

(** The selection returns when every node names a PDN of the configuration, and
    gives those that serve it. *)
Lemma GetUpNodes_spec pdns apn uli paa nodes :
  Forall (fun n => is_Some (pdns !! Z.to_nat (un_pdn_index n))) nodes ->
  GetUpNodes pdns apn uli paa nodes =
    Val (filter (fun n => (match pdns !! Z.to_nat (un_pdn_index n) with Some p => node_serves apn uli paa n p | None => false end) = true) nodes).
Proof.
  induction 1 as [|n nodes [p Hp] _ IH]; [done|]. cbn [GetUpNodes]. unfold GetPdnCfg. rewrite Hp. cbn [mbind result_bind].
  rewrite IH, filter_cons, Hp. cbn [mbind result_bind]. by destruct (node_serves apn uli paa n p).
Qed.

(** 12.1.2.1 lies between 12.1.1.2 and 12.1.3.4, and its node is passed over:
    the octets are compared from the last. *)
Lemma is_in_pool_byte_order :
  let p := mk_PdnCfg [] [] (htobe32 0x0C010102) (htobe32 0x0C010304) 0 0 PDN_TYPE_E_IPV4 in
  let paa := mk_paa PDN_TYPE_E_IPV4 0 in6addr_any (htobe32 0x0C010201) in
  be32toh (cfg_range_low p) <= be32toh (ipv4_address paa) <= be32toh (cfg_range_high p) /\ is_in_pool paa p = false.
Proof. vm_compute. split; [split; discriminate|reflexivity]. Qed.
