(* ===== verification/Process.v ===== *)
(** * The process

    [src/oai_spgwc/main.cpp] puts the SGW and the PGW into one process: two
    applications, three GTPv2-C interfaces, the Sxab interface with the table of
    user-plane nodes, one generator of transaction ids
    ([uint_uid_generator<uint64_t>::get_instance()]) and one [itti_inst].  Here
    they are one state, whose steps are a datagram at one of the four sockets, a
    turn of one of the six tasks with the first message of its mailbox, a
    time-out at an interface, and a request for an association that the
    constructor of the PGW makes.

    A step is the whole of a handler: the tasks are threads and a handler locks
    nothing, so a run is one of those in which no two handlers overlap.  All the
    tasks are ready.  A time-out of any timer can come at any moment; which ones
    come is the matter of [Itti].  [None]: the handler does not return, and the
    process has ended or hangs. *)
From S2P Require Import Prelude UidGenerator PaaDynamic Stream Itti TimerService AtomicMap PfcpNode PfcpTlv PfcpScalar PfcpMsg PfcpIe PfcpLoad PfcpTables PfcpContainer.
From S2P Require Import GtpTlv GtpIdentity GtpLocation GtpCore GtpMsg GtpContainer AppMsg Config PgwContext PgwProcedure PgwApp SgwApp GtpTask SxabTask.
From S2P Require SgwContext Gtpv2cStack PfcpStack UpNodes S11Task SgwS5S8Task PgwS5S8Task.
From Stdlib Require Import ZArith Lia String.
From stdpp Require Import base numbers tactics list strings gmap sets.
Open Scope Z_scope.

#[local] Instance process_ids : FreshIds uint_generator := uint_generator_FreshIds 64 eq_refl.

(** What happens to the process. *)
Inductive event :=
| DatagramS11 (b : list Z) (ep : endpoint)
| DatagramSgwS5S8 (b : list Z) (ep : endpoint)
| DatagramPgwS5S8 (b : list Z) (ep : endpoint)
| DatagramSx (b : list Z) (ep : endpoint)
| TurnS11
| TurnSgw
| TurnSgwS5S8
| TurnPgwS5S8
| TurnPgw
| TurnSx
| TimeOutS11 (timer_id : Z)
| TimeOutSgwS5S8 (timer_id : Z)
| TimeOutPgwS5S8 (timer_id : Z)
| TimeOutSx (timer_id arg1_user arg2_user : Z)
| StartUp (now : Z) (n : up_node_cfg_t).

Section Process.
Context {T : Type} {M : Type -> Type} `{TS : TimerService T} `{AM : AtomicMap M}.
(** What the elements leave uninitialised, [std::hash] and the configuration. *)
Context (j : junk) (mem dmem : memory) (rmem : nat -> heap) (hash_uint32 : Z -> Z) (hash_string : string -> Z).
Context (scfg : SgwContext.sgw_config) (cfg : pgw_config) (pdns : list PdnCfg) (up_nodes : list up_node_cfg_t).
Context (heartbeat_period_ms : Z) (this_node_id : option node_id_t) (time_stamp : Z) (cp_features : cp_function_features_t).

Abbreviation gtask := (gtp_task uint_generator T M).
Abbreviation stask := (sxab_task uint_generator T M).
Abbreviation association := (@UpNodes.pfcp_association endpoint (option (element_core Eup_function_features))
  (option (element_core Euser_plane_ip_resource_information))).

(** [fqdn::resolve] and [inet_aton]: the IPv4 address of a name. *)
Context (resolve : string -> option Z).
(** [begin()] of a [std::set] of pointers. *)
Context (pick : list association -> option association).

(** The components, what they share, and the mailboxes, first message first. *)
Record process := mk_process {
  ids : uint_generator;
  clock : T;
  s11 : gtask;
  sgw_s5s8 : gtask;
  pgw_s5s8 : gtask;
  sxab : stask;
  sgw_app : SgwContext.sgw_state;
  pgw_app : pgw_state;
  to_s11 : list itti_gtp_msg;
  to_sgw_s5s8 : list itti_gtp_msg;
  to_pgw_s5s8 : list itti_gtp_msg;
  to_sx : list itti_sx_msg;
  to_sgw : list sgw_msg;
  to_pgw : list pgw_msg;
}.
Implicit Types p : process.

(** ** What the components share

    A component takes the generator and the timers of the process, and gives
    them back; what it has sent is delivered. *)
Definition gtp_in p (t : gtask) : gtask :=
  mk_gtp_task (Gtpv2cStack.upd_uids (ids p) (Gtpv2cStack.upd_timers (clock p) (task_stack t))) [].
Definition sx_in p (t : stask) : stask :=
  mk_sxab_task (PfcpStack.upd_uids (ids p) (PfcpStack.upd_timers (clock p) (sx_stack t))) (sx_nodes t) [].
Definition sgw_in p : SgwContext.sgw_state := SgwContext.set_sent_by_sgw [] (SgwContext.set_trxn_ids (ids p) (sgw_app p)).
Definition pgw_in p : pgw_state := set_sent_by_pgw [] (set_trxn_ids (ids p) (pgw_app p)).

Definition s11_out p (t : gtask) : process :=
  mk_process (Gtpv2cStack.uids_of (task_stack t)) (Gtpv2cStack.timers_of (task_stack t)) t (sgw_s5s8 p) (pgw_s5s8 p) (sxab p)
    (sgw_app p) (pgw_app p) (to_s11 p) (to_sgw_s5s8 p) (to_pgw_s5s8 p) (to_sx p)
    (to_sgw p ++ omap S11Task.s11_to_app (task_sent t)) (to_pgw p).
Definition sgw_s5s8_out p (t : gtask) : process :=
  mk_process (Gtpv2cStack.uids_of (task_stack t)) (Gtpv2cStack.timers_of (task_stack t)) (s11 p) t (pgw_s5s8 p) (sxab p)
    (sgw_app p) (pgw_app p) (to_s11 p) (to_sgw_s5s8 p) (to_pgw_s5s8 p) (to_sx p)
    (to_sgw p ++ omap SgwS5S8Task.sgw_s5s8_to_app (task_sent t)) (to_pgw p).
Definition pgw_s5s8_out p (t : gtask) : process :=
  mk_process (Gtpv2cStack.uids_of (task_stack t)) (Gtpv2cStack.timers_of (task_stack t)) (s11 p) (sgw_s5s8 p) t (sxab p)
    (sgw_app p) (pgw_app p) (to_s11 p) (to_sgw_s5s8 p) (to_pgw_s5s8 p) (to_sx p) (to_sgw p)
    (to_pgw p ++ omap PgwS5S8Task.pgw_s5s8_to_app (task_sent t)).
Definition sx_out p (t : stask) : process :=
  mk_process (PfcpStack.uids_of (sx_stack t)) (PfcpStack.timers_of (sx_stack t)) (s11 p) (sgw_s5s8 p) (pgw_s5s8 p) t
    (sgw_app p) (pgw_app p) (to_s11 p) (to_sgw_s5s8 p) (to_pgw_s5s8 p) (to_sx p) (to_sgw p)
    (to_pgw p ++ omap sxab_to_app (sx_sent t)).

(** The mailbox an application's message goes to. *)
Definition gtp_for (task : Z) (o : app_out) : option itti_gtp_msg :=
  match o with OutGtp d m => if d =? task then Some m else None | OutSx _ _ => None end.
Definition sx_for (task : Z) (o : app_out) : option itti_sx_msg :=
  match o with OutSx d m => if d =? task then Some m else None | OutGtp _ _ => None end.

Definition posted (i : uint_generator) (s : SgwContext.sgw_state) (g : pgw_state) (l : list app_out) (qs : list sgw_msg) (qp : list pgw_msg) p
  : process :=
  mk_process i (clock p) (s11 p) (sgw_s5s8 p) (pgw_s5s8 p) (sxab p) s g
    (to_s11 p ++ omap (gtp_for TASK_SGWC_S11) l) (to_sgw_s5s8 p ++ omap (gtp_for TASK_SGWC_S5S8) l)
    (to_pgw_s5s8 p ++ omap (gtp_for TASK_PGWC_S5S8) l) (to_sx p ++ omap (sx_for UpNodes.TASK_PGWC_SX) l) qs qp.
Definition sgw_out p (q : list sgw_msg) (s : SgwContext.sgw_state) : process :=
  posted (SgwContext.trxn_ids s) s (pgw_app p) (SgwContext.sent_by_sgw s) q (to_pgw p) p.
Definition pgw_out p (q : list pgw_msg) (g : pgw_state) : process :=
  posted (trxn_ids g) (sgw_app p) g (sent_by_pgw g) (to_sgw p) q p.

(** The first message of a mailbox is taken out. *)
Definition take_s11 p q : process :=
  mk_process (ids p) (clock p) (s11 p) (sgw_s5s8 p) (pgw_s5s8 p) (sxab p) (sgw_app p) (pgw_app p) q (to_sgw_s5s8 p) (to_pgw_s5s8 p)
    (to_sx p) (to_sgw p) (to_pgw p).
Definition take_sgw_s5s8 p q : process :=
  mk_process (ids p) (clock p) (s11 p) (sgw_s5s8 p) (pgw_s5s8 p) (sxab p) (sgw_app p) (pgw_app p) (to_s11 p) q (to_pgw_s5s8 p)
    (to_sx p) (to_sgw p) (to_pgw p).
Definition take_pgw_s5s8 p q : process :=
  mk_process (ids p) (clock p) (s11 p) (sgw_s5s8 p) (pgw_s5s8 p) (sxab p) (sgw_app p) (pgw_app p) (to_s11 p) (to_sgw_s5s8 p) q
    (to_sx p) (to_sgw p) (to_pgw p).
Definition take_sx p q : process :=
  mk_process (ids p) (clock p) (s11 p) (sgw_s5s8 p) (pgw_s5s8 p) (sxab p) (sgw_app p) (pgw_app p) (to_s11 p) (to_sgw_s5s8 p)
    (to_pgw_s5s8 p) q (to_sgw p) (to_pgw p).

(** ** What the PGW sees of the user-plane nodes *)
Definition nodes_for (apn : apn_t) (uli : uli_t) (paa : paa_t) : list string :=
  match GetUpNodes pdns (apn_core apn) uli paa up_nodes with Val l => un_id <$> l | _ => [] end.

Definition environment_of (t : stask) : environment :=
  mk_environment
    (fun apn uli _ _ _ paa => UpNodes.select_up_node pick (nodes_for apn uli paa) (sx_nodes t))
    (fun ni => (fun a => default EpNone (UpNodes.remote_endpoint a)) <$> UpNodes.get_association hash_uint32 hash_string ni (sx_nodes t))
    (fun _ => true).

(** ** Start-up *)

(** The requests of [start_up_association]: the transaction is the default one
    of the message. *)
Definition SECONDS_SINCE_FIRST_EPOCH : Z := 2208988800.
Definition start_up_ies (this : node_id_t) (now : Z) : sx_ies :=
  let c := pfcp_association_setup_request_class in
  set_element c Ecp_function_features (mk_cp_function_features_t 1 1)
    (set_element c Erecovery_time_stamp (mk_recovery_time_stamp_t (u32 (now + SECONDS_SINCE_FIRST_EPOCH)))
      (set_element c Enode_id this (object_init c))).

Definition start_up_endpoint (ni : node_id_t) : option endpoint :=
  if node_id_type ni =? NODE_ID_TYPE_IPV4_ADDRESS then Some (Ep4 (u1_0 ni) 8805)
  else if node_id_type ni =? NODE_ID_TYPE_FQDN then (fun a => Ep4 a 8805) <$> resolve (fqdn ni)
  else None.

Definition start_up_request (now : Z) (ni : node_id_t) : list itti_sx_msg :=
  let '(rc, this) := GetPfcpNodeId cfg in
  if rc =? RETURNok then
    match start_up_endpoint ni with
    | Some ep => [mk_itti_sx_msg pfcp_association_setup_request_message ep UNASSIGNED_SEID 0 (start_up_ies this now)]
    | None => []
    end
  else [].

Definition start_up_association (now : Z) (ni : node_id_t) p : process :=
  let t := sxab p in
  mk_process (ids p) (clock p) (s11 p) (sgw_s5s8 p) (pgw_s5s8 p)
    (mk_sxab_task (sx_stack t) (UpNodes.add_peer_candidate_node None None hash_uint32 hash_string ni (sx_nodes t)) (sx_sent t)) (sgw_app p) (pgw_app p)
    (to_s11 p) (to_sgw_s5s8 p) (to_pgw_s5s8 p) (to_sx p ++ start_up_request now ni) (to_sgw p) (to_pgw p).

(** The node of the configuration the constructor asks for; it asks again after
    two seconds, and leaves off when there is an association: any number of
    times. *)
Definition configured_node (n : up_node_cfg_t) : node_id_t := mk_node_id NODE_ID_TYPE_FQDN 0 0 0 0 (un_id n).

(** ** Steps *)
Definition value {E A} (r : result E A) : option A := match r with Val a => Some a | _ => None end.
Definition done_with {E A} (r : result E (bool * A)) : option A := match r with Val (_, a) => Some a | _ => None end.

Definition sx_receive_datagram : list Z -> endpoint -> stask -> sx_outcome uint_generator T M :=
  SxabTask.handle_receive mem dmem rmem hash_uint32 hash_string heartbeat_period_ms this_node_id time_stamp cp_features.
Definition sx_task : sx_event -> stask -> result sx_exn (bool * stask) :=
  pgwc_sxab_task mem dmem heartbeat_period_ms time_stamp cp_features.

Definition process_step (e : event) p : option process :=
  match e with
  | DatagramS11 b ep => r ← S11Task.handle_receive j b ep (gtp_in p (s11 p)); s11_out p <$> value r
  | DatagramSgwS5S8 b ep => r ← SgwS5S8Task.handle_receive b ep (gtp_in p (sgw_s5s8 p)); sgw_s5s8_out p <$> value r
  | DatagramPgwS5S8 b ep => r ← PgwS5S8Task.handle_receive b ep (gtp_in p (pgw_s5s8 p)); pgw_s5s8_out p <$> value r
  | DatagramSx b ep => sx_out p <$> value (sx_receive_datagram b ep (sx_in p (sxab p)))
  | TurnS11 =>
    match to_s11 p with
    | m :: q => s11_out (take_s11 p q) <$> done_with (S11Task.sgw_s11_task j (ItGtp m) (gtp_in p (s11 p)))
    | [] => None
    end
  | TurnSgwS5S8 =>
    match to_sgw_s5s8 p with
    | m :: q => sgw_s5s8_out (take_sgw_s5s8 p q) <$> done_with (SgwS5S8Task.sgw_s5s8_task j (ItGtp m) (gtp_in p (sgw_s5s8 p)))
    | [] => None
    end
  | TurnPgwS5S8 =>
    match to_pgw_s5s8 p with
    | m :: q => pgw_s5s8_out (take_pgw_s5s8 p q) <$> done_with (PgwS5S8Task.pgw_s5s8_task j (ItGtp m) (gtp_in p (pgw_s5s8 p)))
    | [] => None
    end
  | TurnSx =>
    match to_sx p with
    | m :: q => sx_out (take_sx p q) <$> done_with (sx_task (ItSx m) (sx_in p (sxab p)))
    | [] => None
    end
  | TurnSgw =>
    match to_sgw p with
    | m :: q => '(_, s) ← value (sgwc_app_task scfg (fun _ => true) m (sgw_in p)); Some (sgw_out p q s)
    | [] => None
    end
  | TurnPgw =>
    match to_pgw p with
    | m :: q => '(_, g) ← value (pgw_app_task cfg (environment_of (sxab p)) m (pgw_in p)); Some (pgw_out p q g)
    | [] => None
    end
  | TimeOutS11 i => s11_out p <$> done_with (S11Task.sgw_s11_task j (ItTimeOut i) (gtp_in p (s11 p)))
  | TimeOutSgwS5S8 i => sgw_s5s8_out p <$> done_with (SgwS5S8Task.sgw_s5s8_task j (ItTimeOut i) (gtp_in p (sgw_s5s8 p)))
  | TimeOutPgwS5S8 i => pgw_s5s8_out p <$> done_with (PgwS5S8Task.pgw_s5s8_task j (ItTimeOut i) (gtp_in p (pgw_s5s8 p)))
  | TimeOutSx i a1 a2 => sx_out p <$> done_with (sx_task (ItSxTimeOut i a1 a2) (sx_in p (sxab p)))
  | StartUp now n => Some (start_up_association now (configured_node n) p)
  end.

Fixpoint process_run (l : list event) p : option process :=
  match l with
  | [] => Some p
  | e :: l => p ← process_step e p; process_run l p
  end.

(** ** The start *)
Definition process_init (t3_ms n3 t1_ms n1 : Z) (seqs : Z * Z * Z * Z) (node_ids : list string) (pools : list pdn_cfg) (t : T) : process :=
  let stack ns : gtask := mk_gtp_task (Gtpv2cStack.gtpv2c_stack_new t3_ms n3 ns t uint_generator_init) [] in
  let '(n_s11, n_sgw, n_pgw, n_sx) := seqs in
  mk_process uint_generator_init t (stack n_s11) (stack n_sgw) (stack n_pgw)
    (pgwc_sxab_new t1_ms n1 n_sx node_ids t uint_generator_init) sgwc_app_init (pgw_app_init pools) [] [] [] [] [] [].
End Process.
Arguments process : clear implicits.
