(* ===== verification/ProcessExample.v ===== *)
(** * A session through the sockets of the process

    One subscriber attaches and detaches: an MME, a user-plane node and the two
    halves of the process, which talk to each other by datagrams, too.  What the
    peers send is given as octets, and what the process sends to itself are the
    octets it has sent before. *)
From S2P Require Import Prelude UidGenerator PaaDynamic Stream Itti TimerService AtomicMap PfcpNode PfcpTlv PfcpScalar PfcpMsg PfcpIe PfcpLoad PfcpTables PfcpContainer.
From S2P Require Import GtpTlv GtpScalar GtpLocation GtpCore GtpMsg Container GtpContainer GtpMessages AppMsg Config PgwContext PgwApp SgwApp GtpTask SxabTask Process.
From S2P Require SgwContext Gtpv2cStack PfcpStack UpNodes SgwS5S8Task PgwExample SgwExample.
From Stdlib Require Import ZArith Lia String.
From stdpp Require Import base numbers tactics list strings gmap sets.
Open Scope Z_scope.

#[local] Existing Instance UpNodes.AssociationState_eq_dec.
#[local] Existing Instance process_ids.

(** ** The configuration *)
Definition demo_tai : tai_field_t := mk_tai_field_t (mk_plmn 2 0 8 9 5 15) 1.
Definition demo_pdn_cfg : PdnCfg :=
  mk_PdnCfg PgwExample.demo_apn PgwExample.demo_apn (htobe32 0x0C010102) (htobe32 0x0C010104) 0 0 PDN_TYPE_E_IPV4.
Definition demo_upf : up_node_cfg_t := mk_up_node_cfg demo_tai 0 "upf1".
Definition demo_upf_id : node_id_t := mk_node_id NODE_ID_TYPE_FQDN 0 0 0 0 "upf1".
Definition demo_upf_endpoint : endpoint := Ep4 (htobe32 0x0A000003) 8805.
Definition demo_sgw_endpoint : endpoint := Ep4 (htobe32 0x0A000004) 2123.
Definition demo_pgw_endpoint : endpoint := Ep4 (htobe32 0x0A000001) 2123.
Definition demo_resolve (name : string) : option Z := if String.eqb name "upf1" then Some (htobe32 0x0A000003) else None.
Definition length_hash (s : string) : Z := Z.of_nat (String.length s).
Definition demo_heap : nat -> heap := fun _ _ => 170.
Definition demo_ids_clock : itti_clock := mk_itti_clock 0 5000000000 (itti_init 0).

Abbreviation demo_process := (process itti_clock (gmap Z)).
Abbreviation demo_run :=
  (process_run demo_junk zeroed zeroed demo_heap (fun x => x) length_hash SgwExample.demo_sgw_cfg PgwExample.demo_cfg [demo_pdn_cfg]
     [demo_upf] 5000 (Some demo_upf_id) 3000 (mk_cp_function_features_t 0 0) demo_resolve head).
Definition demo_step : event -> demo_process -> option demo_process :=
  process_step demo_junk zeroed zeroed demo_heap (fun x => x) length_hash SgwExample.demo_sgw_cfg PgwExample.demo_cfg [demo_pdn_cfg]
    [demo_upf] 5000 (Some demo_upf_id) 3000 (mk_cp_function_features_t 0 0) demo_resolve head.
Definition demo_begin : demo_process := process_init 1000 3 1000 3 (10, 20, 30, 40) ["upf1"] PgwExample.demo_pdns demo_ids_clock.

(** ** The octets of the peers *)
Definition last_octets (t : gtp_task uint_generator itti_clock (gmap Z)) : list Z :=
  match last (Gtpv2cStack.outputs (task_stack t)) with
  | Some (Gtpv2cStack.SendAllocated _ b) | Some (Gtpv2cStack.Send _ b) => b
  | _ => []
  end.

(** A request of the MME, from a stack of its own. *)
Definition mme_octets (ns : Z) (m : itti_gtp_msg) : list Z :=
  match SgwS5S8Task.send_msg demo_junk m (mk_gtp_task (Gtpv2cStack.gtpv2c_stack_new 1000 3 ns demo_ids_clock uint_generator_init) []) with
  | Val t => last_octets t
  | _ => []
  end.
Definition upf_octets (m : pfcp_message) (sd : option Z) (seq : Z) (o : sx_ies) : list Z :=
  match message_of_container zeroed zeroed m o with Val pm => (pfcp_msg_dump_to (addressed sd seq pm)).1 | _ => [] end.

Definition demo_location : uli_t :=
  let u : uli_t := gv_init in
  mk_uli_t (hdr_cgi u) (hdr_sai u) (hdr_rai u) 1 (hdr_ecgi u) (hdr_lai u) (hdr_menb u) (hdr_xenb u) (cgi1 u) (sai1 u) (rai1 u) demo_tai
    (ecgi1 u) (lai1 u) (menb1 u) (xenb1 u).
Definition mme_create : itti_gtp_msg := msg_set 0 demo_location (SgwExample.demo_mme_create 0 7 [SgwExample.demo_bearer_to_create 5]).

Definition upf_setup : sx_ies :=
  let c := pfcp_association_setup_request_class in
  set_element c Erecovery_time_stamp (mk_recovery_time_stamp_t 100) (set_element c Enode_id demo_upf_id (object_init c)).

(** ** The script *)

(** What happens next, in the state it happens in. *)
Definition script := list (demo_process -> event).
Definition from_upf (m : pfcp_message) (sd : option Z) (seq : Z) (o : sx_ies) (p : demo_process) : event :=
  DatagramSx (upf_octets m sd seq o) demo_upf_endpoint.
Definition from_mme (ns : Z) (m : itti_gtp_msg) (p : demo_process) : event := DatagramS11 (mme_octets ns m) SgwExample.mme.
Definition to_the_pgw (p : demo_process) : event := DatagramPgwS5S8 (last_octets (sgw_s5s8 p)) demo_sgw_endpoint.
Definition to_the_sgw (p : demo_process) : event := DatagramSgwS5S8 (last_octets (pgw_s5s8 p)) demo_pgw_endpoint.
Definition turn (e : event) (p : demo_process) : event := e.

Definition associate : script := [from_upf pfcp_association_setup_request_message None 9 upf_setup].
(** The association, asked for by the PGW. *)
Definition upf_setup_response : sx_ies :=
  let c := pfcp_association_setup_response_class in
  set_element c Erecovery_time_stamp (mk_recovery_time_stamp_t 100)
    (set_element c Ecause PgwExample.sx_accepted (set_element c Enode_id demo_upf_id (object_init c))).
Definition associate_from_here : script :=
  [turn (StartUp 0 demo_upf); turn TurnSx; from_upf pfcp_association_setup_response_message None 41 upf_setup_response].
(** A request of the MME that the PGW answers by itself. *)
Definition ask : script :=
  [from_mme 5 mme_create; turn TurnSgw; turn TurnSgwS5S8; to_the_pgw; turn TurnPgw; turn TurnPgwS5S8; to_the_sgw; turn TurnSgw; turn TurnS11].
(** A request of the MME, what the user plane answers, and the response. *)
Definition procedure (ns : Z) (m : itti_gtp_msg) (answer : demo_process -> event) : script :=
  [from_mme ns m; turn TurnSgw; turn TurnSgwS5S8; to_the_pgw; turn TurnPgw; turn TurnSx; answer; turn TurnPgw; turn TurnPgwS5S8;
   to_the_sgw; turn TurnSgw; turn TurnS11].
Definition attach : script :=
  procedure 5 mme_create
    (from_upf pfcp_session_establishment_response_message (Some 1) 41 (pfcp_ies (PgwExample.demo_established 1 0 [PgwExample.demo_created_pdr 1 200]))).
Definition detach : script :=
  procedure 6 (SgwExample.demo_mme_delete 1 8 5)
    (from_upf pfcp_session_deletion_response_message (Some 1) 42 (pfcp_ies (PgwExample.demo_deleted 1 0))).

Fixpoint play (l : script) (p : demo_process) : option (list event * demo_process) :=
  match l with
  | [] => Some ([], p)
  | f :: l => q ← demo_step (f p) p; '(es, r) ← play l q; Some (f p :: es, r)
  end.

Lemma play_run l p es q : play l p = Some (es, q) -> demo_run es p = Some q.
Proof.
  revert p es. induction l as [|f l IH]; intros p es; cbn [play]; [by intros [= <- <-]|].
  intros (q' & E & ([es' r] & H & [= <- <-])%bind_Some)%bind_Some. cbn [process_run]. unfold demo_step in E. rewrite E. by apply IH.
Qed.

Definition played (l : script) (p : demo_process) : list event * demo_process := default ([], p) (play l p).
Definition plays (l : script) (p : demo_process) : bool := match play l p with Some _ => true | None => false end.

Lemma played_run l p : plays l p = true -> demo_run (played l p).1 p = Some (played l p).2.
Proof. unfold plays, played. destruct (play l p) as [[es q]|] eqn:E; [|done]. intros _. by eapply play_run. Qed.

Definition associated : demo_process := (played associate demo_begin).2.
Definition attached : demo_process := (played attach associated).2.
Definition asked_for : demo_process := (played (associate_from_here ++ ask) demo_begin).2.
Definition detached : demo_process := (played detach attached).2.

(** The messages that wait. *)
Definition mailboxes (p : demo_process) : nat :=
  (length (to_s11 p) + length (to_sgw_s5s8 p) + length (to_pgw_s5s8 p) + length (to_sx p) + length (to_sgw p) + length (to_pgw p))%nat.
