(* ===== verification/ProcessLaws.v ===== *)
(** * Sessions of the process

    Where the sessions of the two applications come from and go to, at the
    sockets of the process: every session was asked for by one datagram, and
    lasts until one ends it, however the six tasks, the four sockets and the
    timers are interleaved. *)
From S2P Require Import Prelude UidGenerator PaaDynamic Stream Itti TimerService AtomicMap PfcpNode PfcpTlv PfcpScalar PfcpMsg PfcpIe PfcpLoad PfcpTables PfcpContainer.
From S2P Require Import GtpTlv GtpCore GtpMsg Container GtpContainer GtpMessages AppMsg Config Handler PgwContext PgwApp PgwLaws SgwApp SgwLaws GtpTask SxabTask Process.
From S2P Require SgwContext Gtpv2cStack PfcpStack UpNodes S11Task SgwS5S8Task PgwS5S8Task ProcessExample.
From Stdlib Require Import ZArith Lia String.
From stdpp Require Import base numbers tactics list strings gmap sets.
Open Scope Z_scope.

#[local] Existing Instance UpNodes.AssociationState_eq_dec.
#[local] Existing Instance process_ids.

(** ** Counting *)
Definition count {A} (f : A -> bool) (l : list A) : nat := length (filter (fun x => f x = true) l).

Lemma count_cons {A} (f : A -> bool) x l : count f (x :: l) = ((if f x then 1 else 0) + count f l)%nat.
Proof. unfold count. rewrite filter_cons. by destruct (f x). Qed.
Lemma count_app {A} (f : A -> bool) l k : count f (l ++ k) = (count f l + count f k)%nat.
Proof. unfold count. by rewrite filter_app, length_app. Qed.
Lemma count_none {A} (f : A -> bool) l : Forall (fun x => f x = false) l -> count f l = 0%nat.
Proof. induction 1 as [|x l Hx _ IH]; [done|]. by rewrite count_cons, Hx, IH. Qed.

Lemma count_one {A} (f : A -> bool) x : count f [x] = if f x then 1%nat else 0%nat.
Proof. by rewrite count_cons, Nat.add_0_r. Qed.

(** ** What the interfaces hand to the applications *)

(** The type of the message of a datagram. *)
Definition gtp_datagram_type (b : list Z) (ep : endpoint) : option Z :=
  match gtpv2c_msg_load_from (S (length b)) (mk_gtpv2c_msg gtpv2c_msg_header_init (endpoint_port ep) []) (istream_of b) with
  | Val (m, _) => Some (Gtpv2cStack.msg_type m)
  | _ => None
  end.
Definition sx_datagram_type (rmem : nat -> heap) (b : list Z) : option Z :=
  match pfcp_msg_load_from (S (length b)) rmem pfcp_msg_in_init (istream_of b) with
  | Val (m, _) => Some (h_message_type (in_hdr m))
  | _ => None
  end.

Section Gtp.
Context {G T : Type} {M : Type -> Type} `{FG : FreshIds G} `{TS : TimerService T} `{AM : AtomicMap M}.
Implicit Types t : gtp_task G T M.

(** Nothing is handed over, or one message of the kind. *)
Definition hands (k : gtp_kind) t t' : Prop :=
  task_sent t' = task_sent t \/ exists m, gtp_msg_kind m = k /\ task_sent t' = task_sent t ++ [m].

Lemma receive_then_sent (Q : gtp_task G T M -> Prop) mc task_id msg t k t' :
  receive_then mc task_id msg t k = Some (Val t') ->
  (forall u, task_sent u = task_sent t -> Q u) ->
  (forall c tx u v, task_sent u = task_sent t -> k c tx u = Val v -> Q v) -> Q t'.
Proof.
  unfold receive_then, or_caught. intros E Hsame Hk. destruct (message_to_container _ _ _) as [c|[]| |]; try discriminate E;
    try (injection E as <-; by apply Hsame).
  destruct (Gtpv2cStack.handle_receive_message_cb _ _ _) as [[[[[] tx] s]|e| |]|]; try discriminate E.
  - injection E as <-. by apply Hsame.
  - injection E as E. eapply Hk; [|exact E]. done.
Qed.

Lemma receive_hands k task_id msg ep t t' : receive k task_id msg ep t = Some (Val t') -> hands k t t'.
Proof.
  intros E. eapply receive_then_sent; [exact E|by left|]. intros c tx u v Hu [= <-]. right. eexists. split; [|cbn; by rewrite Hu]. done.
Qed.

Lemma datagram_dispatched dispatch b ep t t' : receive_datagram dispatch b ep t = Some (Val t') ->
  t' = t \/ exists msg, gtp_datagram_type b ep = Some (Gtpv2cStack.msg_type msg) /\ dispatch msg ep t = Some (Val t').
Proof.
  unfold receive_datagram, or_caught, gtp_datagram_type. intros E.
  destruct (gtpv2c_msg_load_from _ _ _) as [[msg ins]|[]| |]; try discriminate E; try (injection E as <-; by left). right. by exists msg.
Qed.

(** What is sent to a peer hands over nothing, and a time-out only tells that
    the peer does not respond. *)
Lemma send_initial_sent j P task i t t' : send_initial j P task i t = Val t' -> task_sent t' = task_sent t.
Proof.
  unfold send_initial. intros (msg & _ & ([? s] & _ & [= <-])%bind_Val_inv)%bind_Val_inv. done.
Qed.
Lemma send_triggered_sent j P i a t t' : send_triggered j P i a t = Val t' -> task_sent t' = task_sent t.
Proof.
  unfold send_triggered. destruct (ahm_find _ _); [|by intros [= <-]]. intros (msg & _ & (s & _ & [= <-])%bind_Val_inv)%bind_Val_inv. done.
Qed.

Definition silence_only t t' : Prop :=
  exists l, task_sent t' = task_sent t ++ l /\ Forall (fun m => gtp_msg_kind m = REMOTE_PEER_NOT_RESPONDING_IND) l.

Lemma time_out_silence notify task i t t' :
  (forall ep l c tx, Forall (fun m => gtp_msg_kind m = REMOTE_PEER_NOT_RESPONDING_IND) (notify ep l c tx)) ->
  time_out_with notify task i t = Val t' -> silence_only t t'.
Proof.
  intros Hn ([? s] & _ & [= <-])%bind_Val_inv. eexists. split; [reflexivity|]. apply Forall_concat, Forall_fmap, Forall_true.
  intros []; simpl; auto.
Qed.
End Gtp.

Section Interfaces.
Context {G T : Type} {M : Type -> Type} `{FG : FreshIds G} `{TS : TimerService T} `{AM : AtomicMap M} (j : junk).
Implicit Types t : gtp_task G T M.

(** The mailbox of the PGW, from its S5/S8 interface. *)
Lemma pgw_s5s8_receives b ep t t' : PgwS5S8Task.handle_receive b ep t = Some (Val t') ->
  task_sent t' = task_sent t \/
  exists m, task_sent t' = task_sent t ++ [m] /\ (gtp_msg_kind m = CREATE_SESSION_REQUEST -> gtp_datagram_type b ep = Some Gtpv2cStack.GTP_CREATE_SESSION_REQUEST).
Proof.
  intros [->|(msg & Hty & E)]%datagram_dispatched; [by left|]. unfold PgwS5S8Task.handle_receive_gtpv2c_msg in E. rewrite Hty.
  repeat match type of E with (if ?c =? ?d then _ else _) = _ => destruct (Z.eqb_spec c d) as [->|?];
    [apply receive_hands in E as [E|(m & Hk & E)]; [by left|right; exists m; split; [done|rewrite Hk; done]]|] end.
  injection E as <-. by left.
Qed.

(** The mailbox of the SGW, from its S11 interface. *)
Lemma echo_sent msg ep t t' : S11Task.handle_receive_echo_request j msg ep t = Some (Val t') -> task_sent t' = task_sent t.
Proof.
  intros E. apply (receive_then_sent (fun u => task_sent u = task_sent t) _ _ _ _ _ _ E); [done|]. intros c tx u v <- Ev.
  destruct (slot_present _ _); [|by injection Ev as <-].
  destruct (S11Task.send_echo_response j ep tx u) as [w|e| |] eqn:Ew; try discriminate Ev.
  - injection Ev as <-. unfold S11Task.send_echo_response in Ew. destruct (ahm_find _ _); [|by injection Ew as <-].
    by apply bind_Val_inv in Ew as (m & _ & (s & _ & [= <-])%bind_Val_inv).
  - destruct e as [|[]]; try discriminate Ev; by injection Ev as <-.
Qed.

Lemma s11_receives b ep t t' : S11Task.handle_receive j b ep t = Some (Val t') ->
  task_sent t' = task_sent t \/
  exists m, task_sent t' = task_sent t ++ [m] /\ (gtp_msg_kind m = CREATE_SESSION_REQUEST -> gtp_datagram_type b ep = Some Gtpv2cStack.GTP_CREATE_SESSION_REQUEST).
Proof.
  intros [->|(msg & Hty & E)]%datagram_dispatched; [by left|]. unfold S11Task.handle_receive_gtpv2c_msg in E. rewrite Hty.
  do 5 (match type of E with (if ?c =? ?d then _ else _) = _ => destruct (Z.eqb_spec c d) as [->|?];
    [apply receive_hands in E as [E|(m & Hk & E)]; [by left|right; exists m; split; [done|rewrite Hk; done]]|] end).
  left. destruct (_ =? _); [by apply echo_sent in E|]. destruct (_ =? _); [|by injection E as <-].
  apply (receive_then_sent (fun u => task_sent u = task_sent t) _ _ _ _ _ _ E); [done|]. by intros c tx u v <- [= <-].
Qed.

(** A turn with a message for the peer. *)
Lemma send_turn_sent (f : gtp_task G T M -> result Gtpv2cStack.stack_exn (gtp_task G T M)) t b t' :
  (forall u, f t = Val u -> task_sent u = task_sent t) -> (u ← f t; Val (true, u)) = Val (b, t') -> task_sent t' = task_sent t.
Proof. intros H (u & E & [= _ <-])%bind_Val_inv. by apply H. Qed.

Ltac sent_by E := first [exact (send_initial_sent _ _ _ _ _ _ E)|exact (send_triggered_sent _ _ _ _ _ _ E)|by injection E as <-].

Lemma s11_turn_sent m t b t' : S11Task.sgw_s11_task j (ItGtp m) t = Val (b, t') -> task_sent t' = task_sent t.
Proof. apply send_turn_sent. intros u E. unfold S11Task.send_msg in E. destruct (gtp_msg_kind m); sent_by E. Qed.
Lemma sgw_s5s8_turn_sent m t b t' : SgwS5S8Task.sgw_s5s8_task j (ItGtp m) t = Val (b, t') -> task_sent t' = task_sent t.
Proof. apply send_turn_sent. intros u E. unfold SgwS5S8Task.send_msg in E. destruct (gtp_msg_kind m); sent_by E. Qed.
Lemma pgw_s5s8_turn_sent m t b t' : PgwS5S8Task.pgw_s5s8_task j (ItGtp m) t = Val (b, t') -> task_sent t' = task_sent t.
Proof. apply send_turn_sent. intros u E. unfold PgwS5S8Task.send_msg in E. destruct (gtp_msg_kind m); sent_by E. Qed.

Lemma s11_time_out_silence i t b t' : S11Task.sgw_s11_task j (ItTimeOut i) t = Val (b, t') -> silence_only t t'.
Proof.
  intros (u & E & [= _ <-])%bind_Val_inv. eapply time_out_silence; [|exact E]. intros. unfold S11Task.notify_ul_error.
  destruct (_ =? _); by repeat constructor.
Qed.
Lemma pgw_s5s8_time_out_silence i t b t' : PgwS5S8Task.pgw_s5s8_task j (ItTimeOut i) t = Val (b, t') -> silence_only t t'.
Proof.
  intros (u & E & [= _ <-])%bind_Val_inv. eapply time_out_silence; [|exact E]. intros. unfold PgwS5S8Task.notify_ul_error.
  destruct (_ =? _); by repeat constructor.
Qed.
End Interfaces.

(** ** What the Sxab interface hands to the PGW *)
Section Sx.
Context {G T : Type} {M : Type -> Type} `{FG : FreshIds G} `{TS : TimerService T} `{AM : AtomicMap M}.
Context (mem dmem : memory) (rmem : nat -> heap) (hash_uint32 : Z -> Z) (hash_string : string -> Z).
Context (period : Z) (this_node_id : option node_id_t) (time_stamp : Z) (cp_features : cp_function_features_t).
Implicit Types t : sxab_task G T M.

(** What a call leaves as it is: what has been handed over. *)
Definition keeps_sent (f : sxab_task G T M -> sx_outcome G T M) : Prop := forall t t', f t = Val t' -> sx_sent t' = sx_sent t.

Lemma sx_request_keeps dest sd m o tx : keeps_sent (sx_request mem dmem dest sd m o tx).
Proof. intros t t' (pm & _ & [= <-])%bind_Val_inv. done. Qed.
Lemma sx_response_keeps dest sd m o tx : keeps_sent (sx_response mem dmem dest sd m o tx).
Proof. intros t t'. unfold sx_response. destruct (_ !! _); [|by intros [= <-]]. intros (pm & _ & [= <-])%bind_Val_inv. done. Qed.

Lemma send_all_keeps l : keeps_sent (send_all_for_node mem dmem time_stamp cp_features l).
Proof.
  induction l as [|o l IH]; intros t t'; cbn [send_all_for_node]; [by intros [= <-]|]. intros (u & E & E')%bind_Val_inv.
  rewrite (IH _ _ E'). destruct o; [exact (sx_response_keeps _ _ _ _ _ _ _ E)|exact (sx_request_keeps _ _ _ _ _ _ _ E)|by injection E as <-].
Qed.

Lemma on_nodes_keeps f : keeps_sent (on_nodes mem dmem time_stamp cp_features f).
Proof. intros t t'. unfold on_nodes. destruct (f _) as [n|[]| |]; try done. intros E. by rewrite (send_all_keeps _ _ _ E). Qed.

Lemma send_sx_msg_keeps i : keeps_sent (send_sx_msg mem dmem time_stamp i).
Proof.
  intros t t'. unfold send_sx_msg. repeat (destruct (_ =? _); [(apply sx_request_keeps || apply sx_response_keeps)|]). by intros [= <-].
Qed.

Lemma notify_all_keeps l : keeps_sent (notify_all mem dmem period time_stamp cp_features l).
Proof.
  induction l as [|o l IH]; intros t t'; cbn [notify_all]; [by intros [= <-]|]. destruct o; try apply IH. intros (u & E & E')%bind_Val_inv.
  rewrite (IH _ _ E'). unfold notify_ul_error in E. destruct (_ =? _); [exact (on_nodes_keeps _ _ _ E)|by injection E as <-].
Qed.

Lemma sxab_turn_sent e t b t' : pgwc_sxab_task mem dmem period time_stamp cp_features e t = Val (b, t') -> sx_sent t' = sx_sent t.
Proof.
  destruct e as [m|i a1 a2| |]; cbn [pgwc_sxab_task]; [intros (u & E & [= _ <-])%bind_Val_inv..|by intros [= _ <-]|by intros [= _ <-]].
  - by apply send_sx_msg_keeps in E.
  - destruct (_ =? _); [by apply on_nodes_keeps in E|]. apply bind_Val_inv in E as ([r s] & _ & E). by apply notify_all_keeps in E.
Qed.

Lemma sx_receive_then_sent (Q : sxab_task G T M -> Prop) m task_id msg t k t' :
  sx_receive_then m task_id msg t k = Val t' ->
  (forall u, sx_sent u = sx_sent t -> Q u) -> (forall c tx u v, sx_sent u = sx_sent t -> k c tx u = Val v -> Q v) -> Q t'.
Proof.
  unfold sx_receive_then, sx_caught. intros E Hsame Hk. destruct (PfcpContainer.message_to_container _ _) as [c|[]| |]; try discriminate E;
    try (injection E as <-; by apply Hsame).
  apply bind_Val_inv in E as ([[[] tx] s] & _ & E); [injection E as <-; by apply Hsame|]. eapply Hk; [|exact E]. done.
Qed.

(** The messages that end in the table. *)
Lemma node_message_keeps m task_id msg t k t' :
  sx_receive_then m task_id msg t k = Val t' -> (forall c tx, keeps_sent (k c tx)) -> sx_sent t' = sx_sent t.
Proof.
  intros E Hk. apply (sx_receive_then_sent (fun u => sx_sent u = sx_sent t) _ _ _ _ _ _ E); [done|]. intros c tx u v <-. apply Hk.
Qed.

Lemma sx_receives b ep t t' :
  handle_receive mem dmem rmem hash_uint32 hash_string period this_node_id time_stamp cp_features b ep t = Val t' ->
  sx_sent t' = sx_sent t \/ exists m, sx_sent t' = sx_sent t ++ [m] /\ sx_datagram_type rmem b = Some (PfcpTables.msg_type (sx_message m)).
Proof.
  unfold handle_receive, sx_caught, sx_datagram_type. intros E.
  destruct (pfcp_msg_load_from _ _ _ _) as [[msg ins]|[]| |]; try discriminate E; try (injection E as <-; by left).
  unfold handle_receive_pfcp_msg in E.
  destruct (_ =? _); [left; eapply node_message_keeps; [exact E|]|].
  { intros c tx u v Ev. destruct (pair_member _ Enode_id _); [|by injection Ev as <-].
    destruct (pair_member _ _ _); [by apply on_nodes_keeps in Ev|by injection Ev as <-]. }
  destruct (_ =? _); [left; eapply node_message_keeps; [exact E|]|].
  { intros c tx u v Ev. destruct (pair_member _ _ _); [|by injection Ev as <-]. apply bind_Val_inv in Ev as (w & Ew & Ev).
    apply on_nodes_keeps in Ew. by rewrite (sx_response_keeps _ _ _ _ _ _ _ Ev). }
  destruct (_ =? _); [left; eapply node_message_keeps; [exact E|]|].
  { intros c tx u v Ev. destruct (pair_member _ _ _); [by apply on_nodes_keeps in Ev|by injection Ev as <-]. }
  do 4 (match type of E with (if ?c =? ?d then _ else _) = _ => destruct (Z.eqb_spec c d) as [->|?];
    [pattern t'; eapply sx_receive_then_sent; [exact E|by left|]; intros c' tx u v Hu [= <-]; right; eexists; split; [cbn; rewrite Hu; reflexivity|done]|] end).
  left. destruct (_ || _); [|by injection E as <-]. eapply node_message_keeps; [exact E|].
  intros c tx u v Ev. destruct (pair_member _ Enode_id _); [|by injection Ev as <-].
  destruct (pair_member _ _ _); [by apply on_nodes_keeps in Ev|by injection Ev as <-].
Qed.
End Sx.

(** ** The tables, by the messages *)
Definition pgw_opens (m : pgw_msg) : bool := match m with S5S8_CREATE_SESSION_REQUEST _ => true | _ => false end.
Definition pgw_closes (m : pgw_msg) : bool := match m with SXAB_SESSION_DELETION_RESPONSE _ => true | _ => false end.
Definition sgw_opens (m : sgw_msg) : bool := match m with S11_CREATE_SESSION_REQUEST _ => true | _ => false end.

Lemma table_step_size m T U : table_step m T U -> (size U <= size T + if pgw_opens m then 1 else 0)%nat.
Proof.
  intros [m' T'|m' T' t c Hn _|m' T' t c _]; cbn [pgw_opens].
  - lia.
  - rewrite map_size_insert_None by done. lia.
  - pose proof (map_subseteq_size _ _ (delete_subseteq T' t)). lia.
Qed.

Lemma table_step_stays m T U : table_step m T U -> pgw_closes m = false -> T ⊆ U.
Proof. intros [m' T'|m' T' t c Hn _|m' T' t c _] H; [done|by apply insert_subseteq|done]. Qed.

Lemma without_size w T : (size (without w T) <= size T)%nat.
Proof. destruct w; simpl; [apply map_subseteq_size, delete_subseteq|done]. Qed.

Lemma session_step_size a m T U : session_step a m T U -> (size U <= size T + if sgw_opens m then 1 else 0)%nat.
Proof.
  intros [m' T' U' H|m' T' _|m' t T' _ _]; cbn [sgw_opens].
  - destruct a as [[c w]|]; simpl in H; [|subst; lia]. destruct H as [_ H]. pose proof (without_size w T').
    destruct H as [|t Hn _]; [lia|]. rewrite map_size_insert. destruct (without w T' !! t); simpl; lia.
  - destruct m'; simpl; lia.
  - pose proof (map_subseteq_size _ _ (delete_subseteq T' t)). lia.
Qed.

(** ** The events *)
Section Process.
Context {T : Type} {M : Type -> Type} `{TS : TimerService T} `{AM : AtomicMap M}.
Context (j : junk) (mem dmem : memory) (rmem : nat -> heap) (hash_uint32 : Z -> Z) (hash_string : string -> Z).
Context (scfg : SgwContext.sgw_config) (cfg : pgw_config) (pdns : list PdnCfg) (up_nodes : list up_node_cfg_t).
Context (period : Z) (this_node_id : option node_id_t) (time_stamp : Z) (cp_features : cp_function_features_t).
Context (resolve : string -> option Z).
Context (pick : list (@UpNodes.pfcp_association endpoint (option (element_core Eup_function_features))
  (option (element_core Euser_plane_ip_resource_information))) ->
  option (@UpNodes.pfcp_association endpoint (option (element_core Eup_function_features)) (option (element_core Euser_plane_ip_resource_information)))).
Implicit Types p : process T M.

Abbreviation step :=
  (process_step j mem dmem rmem hash_uint32 hash_string scfg cfg pdns up_nodes period this_node_id time_stamp cp_features resolve pick).
Abbreviation run :=
  (process_run j mem dmem rmem hash_uint32 hash_string scfg cfg pdns up_nodes period this_node_id time_stamp cp_features resolve pick).

(** A Create Session Request at the socket of the PGW, and at the one of S11; a
    Session Deletion Response at the one of Sxab. *)
Definition asks_pgw (e : event) : bool :=
  match e with DatagramPgwS5S8 b ep => bool_decide (gtp_datagram_type b ep = Some Gtpv2cStack.GTP_CREATE_SESSION_REQUEST) | _ => false end.
Definition asks_sgw (e : event) : bool :=
  match e with DatagramS11 b ep => bool_decide (gtp_datagram_type b ep = Some Gtpv2cStack.GTP_CREATE_SESSION_REQUEST) | _ => false end.
Definition ends_session (e : event) : bool :=
  match e with DatagramSx b ep => bool_decide (sx_datagram_type rmem b = Some PfcpStack.PFCP_SESSION_DELETION_RESPONSE) | _ => false end.

Definition one (b : bool) : nat := if b then 1%nat else 0%nat.

(** The sessions there are and those that are still asked for. *)
Definition pgw_weight p : nat := (size (s5s8lteid2pgw_context (pgw_app p)) + count pgw_opens (to_pgw p))%nat.
Definition sgw_weight p : nat := (size (sgw_sessions (sgw_app p)) + count sgw_opens (to_sgw p))%nat.

Record good p : Prop := { good_pgw : pgw_ok (pgw_app p); good_sgw : sgw_good (sgw_app p) }.

(** What one step does to them. *)
Record accounted (e : event) p p' : Prop := {
  ac_good : good p';
  ac_pgw : (pgw_weight p' <= pgw_weight p + one (asks_pgw e))%nat;
  ac_sgw : (sgw_weight p' <= sgw_weight p + one (asks_sgw e))%nat;
  ac_ends : (count pgw_closes (to_pgw p') <= count pgw_closes (to_pgw p) + one (ends_session e))%nat;
  ac_stays : count pgw_closes (to_pgw p) = 0%nat -> s5s8lteid2pgw_context (pgw_app p) ⊆ s5s8lteid2pgw_context (pgw_app p');
}.

(** A step of an interface: the applications are as they were. *)
Lemma interface_accounted e p p' ls lp :
  good p -> sgw_app p' = sgw_app p -> pgw_app p' = pgw_app p -> to_sgw p' = to_sgw p ++ ls -> to_pgw p' = to_pgw p ++ lp ->
  (count sgw_opens ls <= one (asks_sgw e))%nat -> (count pgw_opens lp <= one (asks_pgw e))%nat ->
  (count pgw_closes lp <= one (ends_session e))%nat -> accounted e p p'.
Proof.
  intros [H1 H2] Es Eg Els Elp Hs Hp Hc. split.
  - by split; rewrite ?Es, ?Eg.
  - unfold pgw_weight. rewrite Eg, Elp, count_app. lia.
  - unfold sgw_weight. rewrite Es, Els, count_app. lia.
  - rewrite Elp, count_app. lia.
  - by rewrite Eg.
Qed.

Lemma sgw_turn_accounted p m q s : good p -> to_sgw p = m :: q ->
  sgwc_app_task scfg (fun _ => true) m (sgw_in p) = Val (tt, s) -> accounted TurnSgw p (sgw_out p q s).
Proof.
  intros [H1 H2] Eq E. assert (sgw_good (sgw_in p)) as Hin by exact H2.
  destruct (sgwc_app_task_good scfg (fun _ => true) m (sgw_in p) Hin tt s E) as [Hs Hstep]. apply session_step_size in Hstep.
  change (sgw_sessions (sgw_in p)) with (sgw_sessions (sgw_app p)) in Hstep. split; [by split|..]; cbn [one asks_pgw asks_sgw ends_session].
  - unfold pgw_weight, sgw_out, posted. cbn [pgw_app to_pgw]. lia.
  - unfold sgw_weight, sgw_out, posted. cbn [sgw_app to_sgw]. rewrite Eq, count_cons. lia.
  - unfold sgw_out, posted. cbn [to_pgw]. lia.
  - done.
Qed.

Lemma pgw_turn_accounted p env m q g : good p -> to_pgw p = m :: q ->
  pgw_app_task cfg env m (pgw_in p) = Val (tt, g) -> accounted TurnPgw p (pgw_out p q g).
Proof.
  intros [H1 H2] Eq E. assert (pgw_ok (pgw_in p)) as Hin by exact H1.
  destruct (pgw_app_task_good cfg env m (pgw_in p) Hin tt g E) as [Hg Hstep].
  change (s5s8lteid2pgw_context (pgw_in p)) with (s5s8lteid2pgw_context (pgw_app p)) in Hstep.
  pose proof (table_step_size _ _ _ Hstep) as Hsize. split; [by split|..]; cbn [one asks_pgw asks_sgw ends_session].
  - unfold pgw_weight, pgw_out, posted. cbn [pgw_app to_pgw]. rewrite Eq, count_cons. lia.
  - unfold sgw_weight, pgw_out, posted. cbn [sgw_app to_sgw]. lia.
  - unfold pgw_out, posted. cbn [to_pgw]. rewrite Eq, count_cons. lia.
  - rewrite Eq, count_cons. intros Hc. unfold pgw_out, posted. cbn [pgw_app]. apply (table_step_stays m); [done|].
    by destruct (pgw_closes m).
Qed.

(** What each interface hands over, counted. *)
Lemma count_omap_none {A B} (f : A -> option B) (g : B -> bool) l : (forall a b, f a = Some b -> g b = false) -> count g (omap f l) = 0%nat.
Proof. intros H. apply count_none, Forall_forall. intros b (a & _ & Hb)%list_elem_of_omap. by apply (H a). Qed.

Lemma sgw_s5s8_no_open l : count sgw_opens (omap SgwS5S8Task.sgw_s5s8_to_app l) = 0%nat.
Proof. apply count_omap_none. intros a b. unfold SgwS5S8Task.sgw_s5s8_to_app. destruct (gtp_msg_kind a); by intros [= <-]. Qed.
Lemma pgw_s5s8_no_close l : count pgw_closes (omap PgwS5S8Task.pgw_s5s8_to_app l) = 0%nat.
Proof. apply count_omap_none. intros a b. unfold PgwS5S8Task.pgw_s5s8_to_app. destruct (gtp_msg_kind a); by intros [= <-]. Qed.
Lemma sxab_no_open l : count pgw_opens (omap sxab_to_app l) = 0%nat.
Proof. apply count_omap_none. intros a b. unfold sxab_to_app. repeat (destruct (_ =? _); [by intros [= <-]|]). done. Qed.

Lemma silence_no_open l : Forall (fun m => gtp_msg_kind m = REMOTE_PEER_NOT_RESPONDING_IND) l ->
  count sgw_opens (omap S11Task.s11_to_app l) = 0%nat /\ omap PgwS5S8Task.pgw_s5s8_to_app l = [].
Proof.
  induction 1 as [|m l Hm _ [IH1 IH2]]; [done|]. cbn [omap list_omap]. unfold S11Task.s11_to_app at 1, PgwS5S8Task.pgw_s5s8_to_app at 1. rewrite Hm.
  rewrite count_cons. by split.
Qed.

Lemma s11_asked b ep m : (gtp_msg_kind m = CREATE_SESSION_REQUEST -> gtp_datagram_type b ep = Some Gtpv2cStack.GTP_CREATE_SESSION_REQUEST) ->
  (count sgw_opens (omap S11Task.s11_to_app [m]) <= one (asks_sgw (DatagramS11 b ep)))%nat.
Proof.
  intros H. cbn [omap list_omap]. unfold S11Task.s11_to_app. destruct (gtp_msg_kind m); rewrite ?count_one; try apply Nat.le_0_l.
  cbn [asks_sgw]. by rewrite H, bool_decide_true.
Qed.
Lemma pgw_asked b ep m : (gtp_msg_kind m = CREATE_SESSION_REQUEST -> gtp_datagram_type b ep = Some Gtpv2cStack.GTP_CREATE_SESSION_REQUEST) ->
  (count pgw_opens (omap PgwS5S8Task.pgw_s5s8_to_app [m]) <= one (asks_pgw (DatagramPgwS5S8 b ep)))%nat.
Proof.
  intros H. cbn [omap list_omap]. unfold PgwS5S8Task.pgw_s5s8_to_app. destruct (gtp_msg_kind m); rewrite ?count_one; try apply Nat.le_0_l.
  cbn [asks_pgw]. by rewrite H, bool_decide_true.
Qed.
Lemma sx_ended b ep m : sx_datagram_type rmem b = Some (PfcpTables.msg_type (sx_message m)) ->
  (count pgw_closes (omap sxab_to_app [m]) <= one (ends_session (DatagramSx b ep)))%nat.
Proof.
  intros H. cbn [omap list_omap ends_session]. rewrite H. unfold sxab_to_app.
  do 2 (destruct (_ =? _); [rewrite count_one; apply Nat.le_0_l|]).
  destruct (Z.eqb_spec (PfcpTables.msg_type (sx_message m)) PfcpStack.PFCP_SESSION_DELETION_RESPONSE) as [->|].
  - by rewrite bool_decide_true.
  - destruct (_ =? _); rewrite ?count_one; apply Nat.le_0_l.
Qed.

Lemma value_Val {E A} (r : result E A) a : value r = Some a -> r = Val a.
Proof. destruct r; [|done..]. by intros [= ->]. Qed.
Lemma value_Some {E A B} (f : A -> B) (r : result E A) b : f <$> value r = Some b -> exists a, r = Val a /\ b = f a.
Proof. destruct r; [|done..]. intros [= <-]. eauto. Qed.
Lemma done_Some {E A B} (f : A -> B) (r : result E (bool * A)) b : f <$> done_with r = Some b -> exists w a, r = Val (w, a) /\ b = f a.
Proof. destruct r as [[w a]|?| |]; [|done..]. intros [= <-]. eauto. Qed.

Ltac interface_step ls lp :=
  apply (interface_accounted _ _ _ ls lp); [assumption|reflexivity|reflexivity|by rewrite ?app_nil_r..| | |]; try apply Nat.le_0_l.

Lemma step_accounted e p p' : good p -> step e p = Some p' -> accounted e p p'.
Proof.
  intros Hp. destruct e as [b ep|b ep|b ep|b ep| | | | | | |i|i|i|i a1 a2|now n]; cbn [process_step].
  - intros (r & E & (t' & -> & ->)%value_Some)%bind_Some. interface_step (omap S11Task.s11_to_app (task_sent t')) (@nil pgw_msg).
    apply s11_receives in E as [->|(m & -> & Hm)]; [apply Nat.le_0_l|by apply s11_asked].
  - intros (r & E & (t' & -> & ->)%value_Some)%bind_Some. interface_step (omap SgwS5S8Task.sgw_s5s8_to_app (task_sent t')) (@nil pgw_msg).
    by rewrite sgw_s5s8_no_open.
  - intros (r & E & (t' & -> & ->)%value_Some)%bind_Some. interface_step (@nil sgw_msg) (omap PgwS5S8Task.pgw_s5s8_to_app (task_sent t')).
    + apply pgw_s5s8_receives in E as [->|(m & -> & Hm)]; [apply Nat.le_0_l|by apply pgw_asked].
    + by rewrite pgw_s5s8_no_close.
  - intros (t' & E & ->)%value_Some. interface_step (@nil sgw_msg) (omap sxab_to_app (sx_sent t')).
    + by rewrite sxab_no_open.
    + apply sx_receives in E as [->|(m & -> & Hm)]; [apply Nat.le_0_l|by apply sx_ended].
  - destruct (to_s11 p) as [|m q]; [done|]. intros (w & t' & E & ->)%done_Some. apply s11_turn_sent in E.
    interface_step (omap S11Task.s11_to_app (task_sent t')) (@nil pgw_msg). by rewrite E.
  - destruct (to_sgw p) as [|m q] eqn:Eq; [done|]. intros ([[] s] & E%value_Val & [= <-])%bind_Some. by apply (sgw_turn_accounted p m).
  - destruct (to_sgw_s5s8 p) as [|m q]; [done|]. intros (w & t' & E & ->)%done_Some. apply sgw_s5s8_turn_sent in E.
    interface_step (omap SgwS5S8Task.sgw_s5s8_to_app (task_sent t')) (@nil pgw_msg). by rewrite E.
  - destruct (to_pgw_s5s8 p) as [|m q]; [done|]. intros (w & t' & E & ->)%done_Some. apply pgw_s5s8_turn_sent in E.
    interface_step (@nil sgw_msg) (omap PgwS5S8Task.pgw_s5s8_to_app (task_sent t')); by rewrite E.
  - destruct (to_pgw p) as [|m q] eqn:Eq; [done|]. intros ([[] g] & E%value_Val & [= <-])%bind_Some. by apply (pgw_turn_accounted p (environment_of hash_uint32 hash_string pdns up_nodes pick (sxab p)) m).
  - destruct (to_sx p) as [|m q]; [done|]. intros (w & t' & E & ->)%done_Some. unfold sx_task in E. apply sxab_turn_sent in E.
    interface_step (@nil sgw_msg) (omap sxab_to_app (sx_sent t')); by rewrite E.
  - intros (w & t' & E & ->)%done_Some. apply s11_time_out_silence in E as (l & Et & [Hl _]%silence_no_open). change (task_sent t' = l) in Et.
    interface_step (omap S11Task.s11_to_app (task_sent t')) (@nil pgw_msg). by rewrite Et, Hl.
  - intros (w & t' & E & ->)%done_Some. interface_step (omap SgwS5S8Task.sgw_s5s8_to_app (task_sent t')) (@nil pgw_msg). by rewrite sgw_s5s8_no_open.
  - intros (w & t' & E & ->)%done_Some. apply pgw_s5s8_time_out_silence in E as (l & Et & [_ Hl]%silence_no_open). change (task_sent t' = l) in Et.
    interface_step (@nil sgw_msg) (omap PgwS5S8Task.pgw_s5s8_to_app (task_sent t')); by rewrite Et, Hl.
  - intros (w & t' & E & ->)%done_Some. unfold sx_task in E. apply sxab_turn_sent in E.
    interface_step (@nil sgw_msg) (omap sxab_to_app (sx_sent t')); by rewrite E.
  - intros [= <-]. interface_step (@nil sgw_msg) (@nil pgw_msg).
Qed.

(** ** Runs *)
Lemma run_accounted l p p' : good p -> run l p = Some p' ->
  good p' /\ (pgw_weight p' <= pgw_weight p + count asks_pgw l)%nat /\ (sgw_weight p' <= sgw_weight p + count asks_sgw l)%nat /\
  (count pgw_closes (to_pgw p') <= count pgw_closes (to_pgw p) + count ends_session l)%nat /\
  (count pgw_closes (to_pgw p) = 0%nat -> count ends_session l = 0%nat ->
    s5s8lteid2pgw_context (pgw_app p) ⊆ s5s8lteid2pgw_context (pgw_app p')).
Proof.
  revert p. induction l as [|e l IH]; intros p Hp; cbn [process_run].
  - intros [= <-]. rewrite !Nat.add_0_r. done.
  - intros (q & [Hq H1 H2 H3 H4]%step_accounted & Hr)%bind_Some; [|done]. destruct (IH q Hq Hr) as (Hg & W1 & W2 & W3 & W4).
    rewrite !count_cons. fold (one (asks_pgw e)) (one (asks_sgw e)) (one (ends_session e)). split; [done|]. split; [lia|]. split; [lia|]. split; [lia|].
    intros Hc He. transitivity (s5s8lteid2pgw_context (pgw_app q)); [by apply H4|]. apply W4; lia.
Qed.

(** C14 Sessions begin and end at the sockets.  Whatever datagrams arrive at the
    four sockets, well formed or not, whatever timers expire, and however the
    tasks take their turns: the PGW never has more sessions, with the requests
    still in its mailbox, than Create Session Requests have arrived at its
    S5/S8 socket, nor the SGW than have arrived on S11; and as long as no Session
    Deletion Response has arrived on Sxab, every session of the PGW stays, with
    its TEID and its subscriber.  The TEIDs in use are the keys of the table. *)
Theorem process_sessions t3_ms n3 t1_ms n1 seqs node_ids pools t (l1 l2 : list event) p1 p2 :
  run l1 (process_init t3_ms n3 t1_ms n1 seqs node_ids pools t) = Some p1 -> run l2 p1 = Some p2 ->
  let table p := s5s8lteid2pgw_context (pgw_app p) in
  (size (table p2) + count pgw_opens (to_pgw p2) <= count asks_pgw (l1 ++ l2))%nat /\
  (size (sgw_sessions (sgw_app p2)) + count sgw_opens (to_sgw p2) <= count asks_sgw (l1 ++ l2))%nat /\
  (count ends_session (l1 ++ l2) = 0%nat -> table p1 ⊆ table p2) /\
  s5s8cplteid (pgw_app p2) = dom (table p2).
Proof.
  intros H1 H2 table. set (p0 := process_init _ _ _ _ _ _ _ _) in H1.
  assert (good p0 /\ pgw_weight p0 = 0%nat /\ sgw_weight p0 = 0%nat /\ count pgw_closes (to_pgw p0) = 0%nat) as (G0 & W1 & W2 & W3).
  { unfold p0, process_init. destruct seqs as [[[? ?] ?] ?]. split; [split; [apply pgw_app_init_ok|apply sgwc_app_init_good]|]. done. }
  destruct (run_accounted l1 p0 p1 G0 H1) as (G1 & A1 & A2 & A3 & _). destruct (run_accounted l2 p1 p2 G1 H2) as (G2 & B1 & B2 & _ & B4).
  rewrite !count_app. unfold pgw_weight, sgw_weight in *. split; [unfold table; lia|]. split; [lia|]. split.
  - intros Hc. apply B4; lia.
  - apply (vo_teids _ _ (good_pgw _ G2)).
Qed.
End Process.

Section Example.
Import ProcessExample Gtpv2cStack.

(** The demonstration: one request, one session. *)
Lemma process_sessions_witness :
  s5s8lteid2pgw_context (pgw_app associated) ⊆ s5s8lteid2pgw_context (pgw_app attached) /\
  (size (s5s8lteid2pgw_context (pgw_app attached)) <= 1)%nat /\ (size (sgw_sessions (sgw_app attached)) <= 1)%nat.
Proof.
  destruct (process_sessions demo_junk zeroed zeroed demo_heap (fun x => x) length_hash SgwExample.demo_sgw_cfg PgwExample.demo_cfg [demo_pdn_cfg]
    [demo_upf] 5000 (Some demo_upf_id) 3000 (mk_cp_function_features_t 0 0) demo_resolve head 1000 3 1000 3 (10, 20, 30, 40) ["upf1"] PgwExample.demo_pdns
    demo_ids_clock (played associate demo_begin).1 (played attach associated).1 associated attached) as (H1 & H2 & H3 & _).
  - apply (played_run associate). vm_compute. reflexivity.
  - apply (played_run attach). vm_compute. reflexivity.
  - split; [apply H3; vm_compute; reflexivity|]. split.
    + etransitivity; [|etransitivity; [exact H1|]]; [apply Nat.le_add_r|]. vm_compute. apply le_n.
    + etransitivity; [|etransitivity; [exact H2|]]; [apply Nat.le_add_r|]. vm_compute. apply le_n.
Defined.

(** A session, octet for octet.  The user-plane node sets up its association;
    the MME asks for a session; the SGW asks the PGW, the PGW the user plane, and
    the answers come back the same way.  Then the MME gets one datagram on its
    tunnel: a Create Session Response with the cause "request accepted", the
    tunnel of the SGW, the first address of the pool (12.1.1.2) and the bearer
    with the tunnel of the user plane; both applications have one session, and
    every mailbox is empty.  After the detach the MME has the response, no
    session is left, and the address is back in its pool. *)
Lemma session_through_sockets :
  plays associate demo_begin = true /\ plays attach associated = true /\ plays detach attached = true /\
  last_octets (s11 attached) =
    [72; GTP_CREATE_SESSION_RESPONSE; 0; 81; 0; 0; 3; 132; 0; 0; 6; 0] ++                     (* to TEID 900 *)
    [2; 0; 2; 0; REQUEST_ACCEPTED; 0] ++
    [87; 0; 9; 0; 128 + S11_S4_SGW_GTP_C; 0; 0; 0; 1; 10; 0; 0; 7] ++                         (* TEID 1 at 10.0.0.7 *)
    [79; 0; 5; 0; PDN_TYPE_E_IPV4; 12; 1; 1; 2] ++
    [72; 0; 8; 0; 0; 0; 0; 0; 0; 0; 0; 0] ++ [78; 0; 1; 0; 128] ++
    [93; 0; 24; 0] ++ [73; 0; 1; 0; 5] ++ [2; 0; 2; 0; REQUEST_ACCEPTED; 0] ++
    [87; 0; 9; 0; 128 + S1_U_SGW_GTP_U; 0; 0; 0; 200; 10; 0; 0; 3] /\                        (* TEID 200 at 10.0.0.3 *)
  s5s8lteid2pgw_context (pgw_app attached) = {[1 := 0%nat]} /\ size (sgw_sessions (sgw_app attached)) = 1%nat /\
  mailboxes attached = 0%nat /\
  last_octets (s11 detached) = [72; GTP_DELETE_SESSION_RESPONSE; 0; 14; 0; 0; 3; 132; 0; 0; 7; 0] ++ [2; 0; 2; 0; REQUEST_ACCEPTED; 0] /\
  s5s8lteid2pgw_context (pgw_app detached) = ∅ /\ sgw_sessions (sgw_app detached) = ∅ /\
  pools (pgw_app detached) = pools (pgw_app demo_begin) /\ mailboxes detached = 0%nat.
Proof. split_and!; vm_compute; reflexivity. Qed.

(** When the PGW has asked for the association itself, the node that has answered
    is never chosen: the MME is told that there are no resources.  The SGW has
    forgotten the session, and the PGW keeps it under its TEID. *)
Lemma own_association_unusable :
  plays (associate_from_here ++ ask) demo_begin = true /\
  last_octets (s11 asked_for) =
    [72; GTP_CREATE_SESSION_RESPONSE; 0; 42; 0; 0; 3; 132; 0; 0; 6; 0] ++ [2; 0; 2; 0; NO_RESOURCES_AVAILABLE; 4] ++
    [87; 0; 9; 0; 128 + S11_S4_SGW_GTP_C; 0; 0; 0; 1; 10; 0; 0; 7] ++
    [93; 0; 11; 0] ++ [73; 0; 1; 0; 5] ++ [2; 0; 2; 0; NO_RESOURCES_AVAILABLE; 0] /\
  sgw_sessions (sgw_app asked_for) = ∅ /\ s5s8lteid2pgw_context (pgw_app asked_for) = {[1 := 0%nat]} /\ mailboxes asked_for = 0%nat.
Proof. split_and!; vm_compute; reflexivity. Qed.
End Example.
